(* ===== verification/_CoqProject ===== *)
-Q . S2P
Prelude.v
Ipc.v
IpcWait.v
Pmm.v
Vmm.v
Bytes.v
Names.v
RegistryState.v
Journal.v
Registry.v
RegistryNames.v
RegistryCaps.v
RegistryInv.v
Spill.v
NetBuf.v
NetArp.v
NetSum.v
NetIpv4.v
NetDhcp.v
NetDns.v
NetTcp.v
NetSocket.v
NetStream.v
NetSafe.v
OvState.v
OvPaths.v
OvInv.v
OvBuild.v
OvImage.v
OvSnap.v
Overlay.v
OvTree.v
OvOps.v
OvMove.v
OvCopy.v
InitrdTar.v
InitrdInv.v
TarWalk.v
OvSpec.v
OvDisk.v
OvRobust.v
BigInt.v
BigIntMod.v
BigIntExp.v
BigIntBytes.v
Rsa.v
Sha256.v
AtaJob.v
AtaSpec.v
AtaOverlay.v
IoPorts.v
DevService.v
DevSerial.v
NicOwner.v
PciService.v
UsbDma.v
AesCt.v
AesGcm.v
GcmSpec.v
KeySeal.v
X25519.v
Elf.v
OutCapture.v
TaskState.v
TaskQueue.v
Task.v
TaskSched.v
SysProc.v
TaskInv.v
TaskTable.v
TaskSchedInv.v
TaskSteps.v
SysProcInv.v
DevPorts.v
