(* ===== verification/Prelude.v ===== *)
(** * Mohhdy: a verification of the kernel's core

    Mohhdy is a freestanding i386 operating system in C.  A small kernel keeps
    tasks, memory, mailboxes and a registry of services; drivers, file systems and
    the desktop are ring 3 programs that reach each other through the registry and
    the mailboxes; a network stack from Ethernet to sockets serves both sides.
    This library models that core, function by function, and proves what makes it
    correct.  Paths below are relative to the repository's kernel/ directory, those of
    fs/ to its root.

    ** The parts and how they interact

    - [Ipc] (ipc.c) is the ring of four messages in each task; [IpcWait]
      (ipc_wait.c) decides when a receiving task sleeps and what wakes it.
    - [Pmm] (mem/pmm.c, mem/heap.c) hands out physical pages; [Vmm] (mem/vmm.c,
      mem/vmm_share.c) builds page tables in them and shares kernel tables between
      address spaces.
    - [Names], [RegistryState], [Journal], [Registry] (service_registry.c): service
      names and their hand-off, backend capabilities, watches, the notification
      history, the spill slots behind full mailboxes, the mount table and the two
      journals on disk.  The registry sees tasks only through the class [TaskView]
      and its laws [TaskViewLaws] of RegistryState; the task table discharges them
      (TaskTable).  Hooks the boot installs are the class [KernelHooks].
    - [TaskState], [Task], [TaskSched] (task/task.c): the pool of sixteen tasks, the
      circular queue, creation, waiting, killing, delegation, supervision events,
      and the scheduler.
    - [SysProc] (syscall/syscall.c): the system calls that join tasks and registry.
    - [OutCapture] (out_capture.c): the capture of program output for a window.
    - [NetArp], [NetIpv4], [NetDhcp], [NetDns], [NetTcp], [NetSocket] (the net_*.c
      files of the same names): codecs over caller-owned buffers, the ARP cache, the
      DHCP lease, the TCP connection and the socket table.  [NetBuf] has the byte
      accesses, [NetSum] the checksum loops.
    - [OvState], [OvImage], [Overlay] (fs/overlay.c): the writable file system, its
      nodes and chains, the images it keeps on disk and the file operations.
      [InitrdTar] (fs/initrd.c) is the read-only archive under it.  The overlay sees
      the archive only through the class [Initrd] and its laws [InitrdLaws] (OvTree),
      which InitrdInv discharges, and the disk through [OverlayDisk] and [DiskLaws].
      OvTree is the abstract file system.
    - [BigInt] (bigint.c) is the arithmetic of long numbers in 32-bit limbs, [Rsa]
      (rsa_verify.c) signs and verifies with it, [Sha256] (sha256.c) is the hash and
      its HMAC.  [AesCt] (include/os_aes_ct.h) is the bitsliced S-box, [AesGcm]
      (aes_gcm.c) AES-128 and its Galois counter mode, [X25519] (x25519.c) the key
      agreement.  [KeySeal] (key_seal.c and its system call) seals keys for a named
      task with the cipher and the HMAC.
    - [AtaJob] (ata_job.c) is the queue between the kernel and the Ring 3 disk driver:
      the overlay's image in chunks, single sectors, fences, the death of the driver.
      It sees the overlay through two hooks ([ImageHooks], [ImageLaws] of AtaSpec);
      [AtaOverlay] has the bridge of syscall/syscall.c and discharges the laws.
    - [IoPorts] (io_bitmap.c, gdt.c) is the permission bitmap of the I/O ports,
      [DevPorts] (syscall/syscall.c, task/task.c) the claims of the devices and the
      switch of the bitmap in schedule.  [DevService] (device_service.c) keeps who owns
      which device and the rings to the owners, [DevSerial] (kernel.c) the bytes on
      the serial line, [NicOwner] (net_nic_owner.c) the network card, [PciService]
      (pci_service.c) the inventory of the PCI driver, [UsbDma] (usb_dma.c,
      input/usb_tablet.c) the transfer descriptors a Ring 3 driver may hand to the
      controller.
    - [Elf] (elf.c) loads a program into a new address space of [Vmm].

    ** Conventions of the models

    A C integer is a [Z] and every conversion or wrap-around of the source is
    written out ([u8], [u16], [u32], [i32]).  A struct is a record, a static array a
    list of its declared length, the static variables of a file one record that the
    functions pass on.  A pointer that the code compares with NULL is an option; a
    pointer into a buffer is the suffix of the buffer it points to.  [None] as the
    result of a call means undefined behaviour (an access outside an array) or a
    loop that did not end, so a theorem with [Some] includes memory safety and
    termination.  PIDs are unbounded integers (the counter would need 2^31 spawns to
    wrap).  The one exception to [None] are the limbs of BigInt: outside the array
    they read as 0, and [wf_big], which every operation keeps, excludes the case.

    ** Bounds and fuel

    Walks of the task queue and of parent chains have fuel 16, the size of the pool;
    a well-formed queue has at most sixteen distinct slots, so the walk ends first
    (TaskQueue).  String loops have the length of the array as fuel.  Packet loops
    have the announced length as fuel: each round consumes a byte.  A carry fold
    has fuel 16 where three rounds suffice for 32 bits ([fold_carry_ok], NetSum).
    Loops over a chain of overlay nodes have fuel 288 or 289, one more than the nodes
    there are.  The walk over the archive has fuel 137 times its number of blocks,
    and TarWalk proves that it ends within that on any memory.  The loop over a 32-bit
    exponent has fuel 32, the padding of SHA-256 fuel 128 (at most 64 bytes and one
    hashed block), its update the number of bytes.  The loops of GHASH and of the
    counter have fuel 4096, the blocks of the longest text a 16-bit length allows; the
    label of a sealed key has 32 rounds, its array's size.  The pages of a program have
    fuel 2^20, the whole address space.  A flush of the overlay takes the driver at
    most 24 rounds, which AtaOverlay proves.

    ** What is assumed

    Parameters stand for what is hardware, assembly or outside these files: the
    addresses the linker and the page-table pool give ([vmm_pool], [vmm_phys],
    [stack_top]), the program loader in the task functions ([elf_load], modelled on its
    own in Elf), the watchdog hook of the scheduler
    and the recovery of drivers after a purge.  Theorems that need something of them
    state it as a hypothesis and have a witness with concrete functions.  [DiskLaws]
    (OvDisk) says that sectors written are read back and other sectors kept; the same
    file has a disk in memory that satisfies it.  DevPorts asks that the USB controller's ports do
    not overlap those of another device, UsbDma that its two pages are its own,
    Elf that a program's segments share no page and that the file is apart from the
    memory it is loaded to.  The file-system theorems are about paths that one
    normalisation makes canonical ([op_ok], OvSpec); names such as "././a" are not,
    and behave differently.

    ** What the theorems show

    - Isolation and authority: RegistryCaps (an access needs a live grant, revoking
      and handing over leave nothing behind), Vmm (a mapping changes one address of
      one directory; teardown frees exactly what the task owns), SysProcInv (the end
      of a task removes it from the registry), DevPorts (the ports open to a running
      task are exactly those of its devices), UsbDma (the USB controller reaches
      nothing but its two pages), Elf (loading a program changes nothing in use).
    - Invariants of every reachable state: RegistryInv (any sequence of registry
      calls from any disk contents), TaskSteps (any sequence of task and service
      calls), Pmm (page accounting), Ipc (free slots are scrubbed).
    - Refinement: RegistryNames (a map from names to live tasks), Spill (one bounded
      queue per watcher), TaskQueue (a list), Ipc (a bounded FIFO), NetArp (a finite
      map).
    - Scheduling: TaskSchedInv (the most urgent ready task runs, equal tasks take
      turns).
    - Persistence: Journal (both journals survive a reboot, any image is read safely),
      AtaSpec and AtaOverlay (over any behaviour of the disk driver, deaths included,
      the disk holds the files whenever no flush is queued; a flush completes).
    - Devices: DevSerial (printed bytes reach the line in order), IoPorts (each
      window opens exactly its ports).
    - Programs: Elf (every byte of every segment is where the headers say).
    - Files: OvSpec (every sequence of file operations gives what a map from paths to
      contents gives, error codes and space accounting included; reads return the
      contents), OvDisk (image and disk round trips), OvRobust (no image harms the
      files in memory), TarWalk (the archive is walked to its end and served).
      OvPaths, OvInv, OvBuild, OvSnap, OvTree, OvOps, OvMove and OvCopy hold the
      lemmas on paths, chains, images and single operations behind these.
    - Numbers and signatures: BigIntExp (both exponentiations compute the power modulo
      the modulus, over the Montgomery products and modular sums of BigIntMod),
      BigIntBytes (exact arithmetic, bytes to numbers and back), Rsa (a signature is accepted exactly when it is the power that PKCS#1 v1.5 asks for;
      what is signed verifies), Sha256 (the hash is FIPS 180-4's in any number of
      pieces, the HMAC RFC 2104's), AesCt (the circuit is the S-box), AesGcm (the
      cipher is FIPS 197's), GcmSpec (encryption and decryption are NIST SP
      800-38D's), KeySeal (sealed keys open under their name only, nonces do not
      repeat), X25519 (the ladder over limbs is RFC 7748's function).  BigInt has the
      representation invariant, Rsa a small key and the witnesses.
    - Network: NetSum and NetIpv4 (checksums are RFC 1071's, packets round trip),
      NetDhcp and NetDns (answers are decoded to what they say), NetSafe (no input
      makes a parser read outside its packet), NetTcp (retransmission ends, segments
      are classified modulo 2^32), NetStream (the handshake connects; over a network
      that drops, repeats, reorders and forges segments of other connections the
      reader sees a prefix of what was sent, and the next segment is accepted).
    - Places where the code does less than it documents: a refused kill still purges
      services and driver names are not all reserved (SysProcInv), a boot journal can
      drop the default mounts (Journal), regranting merges scopes (RegistryCaps), long
      timeouts expire at once (IpcWait), a DHCP request needs three bytes more than
      it checks for (NetDhcp), a full serial ring is emptied past the chunk the driver
      holds (DevSerial), a segment without memory is copied wherever its address
      leads (Elf).

    ** Not modelled, and why

    Context switch, interrupt stubs and segment descriptors are assembly and processor
    state.  The remaining device drivers and net_wire.c are port and memory-mapped I/O
    with waiting on the clock.  The language model is floating-point inference.  Ring 3
    programs (shell, browser engine, desktop) are clients of the interface verified
    here.  The dispatch of int 0x80 and the remaining system calls copy arguments and
    forward them; the read-only status fills of task.c change nothing.  TLS records,
    P-256 and certificates build on the primitives above and are left out with the
    FAT volumes of the boot disk and the polling network clients: none of the parts
    above calls them. *)

From stdpp Require Import base list numbers option tactics.
From Stdlib Require Import ZArith Lia.

Declare Scope c_scope.
Delimit Scope c_scope with C.
Open Scope Z_scope.

(** ** Machine-width integers

    A C integer of width w is a [Z]; every conversion the source performs
    (assignment to a narrower type, unsigned wrap-around) is written out with
    one of these functions. *)
Definition u8 (z : Z) : Z := z mod 256.
Definition u16 (z : Z) : Z := z mod 65536.
Definition u32 (z : Z) : Z := z mod 4294967296.

(** [(int32_t)z]: two's complement reinterpretation of a 32-bit pattern. *)
Definition i32 (z : Z) : Z :=
  let u := u32 z in if u <? 2147483648 then u else u - 4294967296.

Definition is_u8 (z : Z) : Prop := 0 <= z < 256.
Definition is_u16 (z : Z) : Prop := 0 <= z < 65536.
Definition is_u32 (z : Z) : Prop := 0 <= z < 4294967296.
Definition is_i32 (z : Z) : Prop := -2147483648 <= z < 2147483648.

(** C truth values: a flag field is any non-zero integer. *)
Definition c_true (z : Z) : bool := negb (z =? 0).
Definition b2z (b : bool) : Z := if b then 1 else 0.

(** ** Pointers that may be NULL

    A pointer argument the source compares with NULL is an [option]; a
    pointer it never checks is passed as a plain value. *)
Abbreviation ptr := option (only parsing).
Abbreviation NULL := None (only parsing).

(** ** Arrays with checked access

    [ld a i] and [st a i v] are [None] when the index is outside the array:
    the undefined behaviour of the C access.  A theorem that a function never
    returns [None] is therefore a memory-safety statement. *)
Definition ld {A} (a : list A) (i : Z) : option A :=
  if 0 <=? i then a !! Z.to_nat i else None.

Definition st {A} (a : list A) (i : Z) (v : A) : option (list A) :=
  if (0 <=? i) && (i <? Z.of_nat (length a))
  then Some (<[Z.to_nat i := v]> a) else None.

Create HintDb cint.
Create Rewrite HintDb cint.

(** Linear arithmetic with division and remainder by constants. *)
Ltac zlia := Z.to_euclidean_division_equations; lia.

(** ** Lemmas on machine integers *)
Lemma u8_range z : is_u8 (u8 z).
Proof. unfold u8, is_u8. apply Z.mod_pos_bound. lia. Qed.

Lemma u16_range z : is_u16 (u16 z).
Proof. unfold u16, is_u16. apply Z.mod_pos_bound. lia. Qed.

Lemma u32_range z : is_u32 (u32 z).
Proof. unfold u32, is_u32. apply Z.mod_pos_bound. lia. Qed.

Lemma i32_range z : is_i32 (i32 z).
Proof.
  unfold i32, is_i32. pose proof (u32_range z) as H. unfold is_u32 in H.
  destruct (Z.ltb_spec (u32 z) 2147483648); lia.
Qed.

Lemma u8_id z : is_u8 z -> u8 z = z.
Proof. intros. apply Z.mod_small. exact H. Qed.

Lemma u16_id z : is_u16 z -> u16 z = z.
Proof. intros. apply Z.mod_small. exact H. Qed.

Lemma u32_id z : is_u32 z -> u32 z = z.
Proof. intros. apply Z.mod_small. exact H. Qed.

Lemma i32_id z : is_i32 z -> i32 z = z.
Proof.
  unfold i32, u32, is_i32. intros H.
  destruct (Z.ltb_spec (z mod 4294967296) 2147483648); zlia.
Qed.

(** Range of a width as a statement about its bits. *)
Lemma bits_above n w k : 0 <= n -> 0 <= w < 2 ^ n -> n <= k -> Z.testbit w k = false.
Proof.
  intros Hn Hw Hk. rewrite <- (Z.mod_small w (2 ^ n)) by done.
  apply Z.mod_pow2_bits_high. lia.
Qed.

Lemma range_of_bits n w :
  0 <= n -> (forall k, n <= k -> Z.testbit w k = false) -> 0 <= w < 2 ^ n.
Proof.
  intros Hn Hb. assert (w = w mod 2 ^ n) as ->.
  { apply Z.bits_inj'. intros k Hk. destruct (Z.lt_ge_cases k n).
    - by rewrite Z.mod_pow2_bits_low by lia.
    - rewrite Hb by lia. by rewrite Z.mod_pow2_bits_high by lia. }
  apply Z.mod_pos_bound. apply Z.pow_pos_nonneg; lia.
Qed.

Lemma lor_range n a b : 0 <= n -> 0 <= a < 2 ^ n -> 0 <= b < 2 ^ n -> 0 <= Z.lor a b < 2 ^ n.
Proof.
  intros Hn Ha Hb. apply range_of_bits; [done|]. intros k Hk.
  by rewrite Z.lor_spec, (bits_above n a), (bits_above n b).
Qed.

Lemma land_range n a b : 0 <= n -> 0 <= a < 2 ^ n -> 0 <= Z.land a b < 2 ^ n.
Proof.
  intros Hn Ha. apply range_of_bits; [done|]. intros k Hk.
  by rewrite Z.land_spec, (bits_above n a).
Qed.

(** Masking a 32-bit value: the mask may be computed at 32 bits, and masking
    off the low [n] bits rounds down to a multiple of 2^n. *)
Lemma land_u32_mask x y : is_u32 x -> Z.land x (u32 y) = Z.land x y.
Proof.
  intros Hx. unfold u32. change 4294967296 with (2 ^ 32).
  apply Z.bits_inj'. intros k Hk. rewrite !Z.land_spec.
  destruct (Z.lt_ge_cases k 32); [by rewrite Z.mod_pow2_bits_low by lia|].
  rewrite (bits_above 32 x k); [done|lia|exact Hx|done].
Qed.

Lemma land_align x n : is_u32 x -> 0 <= n -> Z.land x (u32 (Z.lnot (2 ^ n - 1))) = x / 2 ^ n * 2 ^ n.
Proof.
  intros Hx Hn. rewrite land_u32_mask by done.
  replace (2 ^ n - 1) with (Z.ones n) by (rewrite Z.ones_equiv; lia).
  rewrite <- Z.ldiff_land, Z.ldiff_ones_r by done.
  by rewrite Z.shiftr_div_pow2, Z.shiftl_mul_pow2.
Qed.

#[export] Hint Resolve u8_range u16_range u32_range i32_range : cint.
#[export] Hint Rewrite u8_id u16_id u32_id i32_id using (assumption || lia) : cint.

(** ** Lemmas on checked arrays *)
Section Arrays.
Context {A : Type}.
Implicit Types (a : list A) (i j : Z) (v : A).

Lemma ld_Some a i v : ld a i = Some v <-> 0 <= i /\ a !! Z.to_nat i = Some v.
Proof.
  unfold ld. destruct (Z.leb_spec 0 i); split; try done.
  - intros [_ H0]. exact H0.
  - intros [H0 _]. lia.
Qed.

Lemma ld_is_Some a i : is_Some (ld a i) <-> 0 <= i < Z.of_nat (length a).
Proof.
  unfold ld. destruct (Z.leb_spec 0 i).
  - rewrite lookup_lt_is_Some. lia.
  - split; [intros [? ?]; discriminate | lia].
Qed.

Lemma st_is_Some a i v : is_Some (st a i v) <-> 0 <= i < Z.of_nat (length a).
Proof.
  unfold st. destruct (Z.leb_spec 0 i), (Z.ltb_spec i (Z.of_nat (length a)));
    simpl; split; try lia; eauto; intros [? ?]; discriminate.
Qed.

Lemma st_Some a i v a' :
  st a i v = Some a' <->
  0 <= i < Z.of_nat (length a) /\ a' = <[Z.to_nat i := v]> a.
Proof.
  unfold st. destruct (Z.leb_spec 0 i), (Z.ltb_spec i (Z.of_nat (length a)));
    simpl; split; try done; try (intros [? ?]; lia).
  - by intros [= <-].
  - by intros [_ ->].
Qed.

Lemma st_length a i v a' : st a i v = Some a' -> length a' = length a.
Proof. rewrite st_Some. intros [_ ->]. apply length_insert. Qed.

Lemma ld_st_eq a i v a' : st a i v = Some a' -> ld a' i = Some v.
Proof.
  rewrite st_Some, ld_Some. intros [? ->]. split; [lia|].
  apply list_lookup_insert_eq. lia.
Qed.

Lemma ld_st_ne a i j v a' : st a i v = Some a' -> i <> j -> ld a' j = ld a j.
Proof.
  rewrite st_Some. intros [? ->] Hne. unfold ld.
  destruct (Z.leb_spec 0 j); [|done]. apply list_lookup_insert_ne. lia.
Qed.
End Arrays.

(** ** Searching an array *)

(** A scan for the first element satisfying [p]. *)
Fixpoint find_slot {A} (p : A -> bool) (l : list A) : option nat :=
  match l with
  | [] => None
  | x :: l => if p x then Some 0%nat else S <$> find_slot p l
  end.

Section FindSlot.
Context {A : Type} (p : A -> bool).

Lemma find_slot_Some l i :
  find_slot p l = Some i <->
  exists x, l !! i = Some x /\ p x = true /\ forall j y, (j < i)%nat -> l !! j = Some y -> p y = false.
Proof.
  revert i. induction l as [|x l IH]; intros i; cbn [find_slot].
  { split; [done|]. by intros (? & ? & _). }
  destruct (p x) eqn:E.
  - split.
    + intros [= <-]. exists x. split; [done|]. split; [done|]. intros j y Hj. lia.
    + intros (y & Hy & Hp & Hlt). destruct i as [|i]; [done|].
      specialize (Hlt 0%nat x ltac:(lia) eq_refl). congruence.
  - destruct i as [|i].
    + split; [by destruct (find_slot p l)|]. intros (y & [= ->] & Hp & _). congruence.
    + transitivity (find_slot p l = Some i).
      { destruct (find_slot p l); cbn; naive_solver. }
      rewrite IH. split; intros (y & Hy & Hp & Hlt); exists y; (split; [done|]); (split; [done|]).
      * intros [|j] z Hj Hz; [cbn in Hz; congruence|]. apply (Hlt j); [lia|done].
      * intros j z Hj Hz. apply (Hlt (S j)); [lia|done].
Qed.

Lemma find_slot_None l : find_slot p l = None <-> forall i x, l !! i = Some x -> p x = false.
Proof.
  induction l as [|x l IH]; cbn [find_slot]; [done|].
  destruct (p x) eqn:E.
  - split; [done|]. intros H. specialize (H 0%nat x eq_refl). congruence.
  - transitivity (find_slot p l = None); [by destruct (find_slot p l)|]. rewrite IH. split.
    + intros H [|i] y Hy; [cbn in Hy; congruence|]. by apply (H i).
    + intros H i y Hy. by apply (H (S i)).
Qed.
End FindSlot.

(** ** Tactics of the development

    [case_if] splits the first boolean test of the goal, turning comparisons
    on [Z] into propositions; [bsimp] normalises boolean hypotheses. *)
Ltac bsimp :=
  repeat match goal with
  | H : _ && _ = true |- _ => let H1 := fresh "Hb" in let H2 := fresh "Hb" in
      apply andb_true_iff in H; destruct H as [H1 H2]
  | H : _ || _ = false |- _ => let H1 := fresh "Hb" in let H2 := fresh "Hb" in
      apply orb_false_iff in H; destruct H as [H1 H2]
  | H : negb _ = true |- _ => apply negb_true_iff in H
  | H : negb _ = false |- _ => apply negb_false_iff in H
  | H : (_ =? _) = true |- _ => apply Z.eqb_eq in H
  | H : (_ =? _) = false |- _ => apply Z.eqb_neq in H
  | H : (_ <? _) = true |- _ => apply Z.ltb_lt in H
  | H : (_ <? _) = false |- _ => apply Z.ltb_ge in H
  | H : (_ <=? _) = true |- _ => apply Z.leb_le in H
  | H : (_ <=? _) = false |- _ => apply Z.leb_gt in H
  end.

Ltac case_if :=
  match goal with
  | |- context [if ?b then _ else _] => destruct b eqn:?; bsimp
  end.

Ltac case_if_in H :=
  match type of H with
  | context [if ?b then _ else _] => destruct b eqn:?; bsimp
  end.
