(* ===== verification/Ipc.v ===== *)
(** * Mailboxes: kernel/ipc.c and kernel/ipc.h

    The per-task IPC endpoint is a ring of four messages.  This file models
    the ring as the C code has it (slots, indices and a counter), gives the
    FIFO queue it stands for, and proves that the ring implements a bounded
    FIFO. *)

From stdpp Require Import base list numbers option tactics relations.
From Stdlib Require Import ZArith Lia.
From S2P Require Import Prelude.

Definition OS_IPC_MAX_DATA : Z := 96.
Definition OS_IPC_EMPTY : Z := -40.
Definition OS_IPC_FULL : Z := -41.
Definition OS_IPC_BAD_TARGET : Z := -42.
Definition OS_IPC_BAD_MESSAGE : Z := -43.
Definition OS_IPC_SERVICE_FULL : Z := -44.
Definition OS_IPC_TIMEOUT : Z := -45.
Definition OS_IPC_WAIT_FOREVER : Z := 4294967295.
Definition IPC_ENDPOINT_CAPACITY : Z := 4.
Definition IPC_SERVICE_ENDPOINT_CAPACITY : Z := 2.

(** [os_ipc_payload_t]: what a sender provides. *)
Record os_ipc_payload_t := mk_payload {
  pl_type : Z;
  pl_size : Z;
  pl_request_id : Z;
  pl_data : list Z
}.

(** [os_ipc_message_t]: what the receiver gets, the sender added by the kernel. *)
Record os_ipc_message_t := mk_message {
  sender_pid : Z;
  msg_type : Z;
  msg_size : Z;
  msg_request_id : Z;
  msg_data : list Z
}.

(** [ipc_endpoint_t]. *)
Record ipc_endpoint_t := mk_endpoint {
  messages : list os_ipc_message_t;
  read_index : Z;
  write_index : Z;
  count : Z
}.

Definition cleared_message : os_ipc_message_t :=
  mk_message (-1) 0 0 0 (replicate (Z.to_nat OS_IPC_MAX_DATA) 0).

#[export] Instance message_inhabited : Inhabited os_ipc_message_t :=
  populate cleared_message.

Definition ipc_endpoint_init (endpoint : ptr ipc_endpoint_t) : ptr ipc_endpoint_t :=
  match endpoint with
  | NULL => NULL
  | Some e =>
      Some (mk_endpoint
              (replicate (Z.to_nat IPC_ENDPOINT_CAPACITY) cleared_message) 0 0 0)
  end.

(** The two copy loops of [ipc_endpoint_send]: [size] bytes of the payload,
    then zeros up to [OS_IPC_MAX_DATA]. *)
Definition copy_payload_data (size : Z) (data : list Z) : list Z :=
  take (Z.to_nat size) data ++
  replicate (Z.to_nat (OS_IPC_MAX_DATA - size)) 0.

Definition ipc_endpoint_send (endpoint : ptr ipc_endpoint_t) (sender_pid : Z)
    (payload : ptr os_ipc_payload_t) : Z * ptr ipc_endpoint_t :=
  match endpoint, payload with
  | Some e, Some p =>
      if OS_IPC_MAX_DATA <? pl_size p then (OS_IPC_BAD_MESSAGE, endpoint)
      else if IPC_ENDPOINT_CAPACITY <=? count e then (OS_IPC_FULL, endpoint)
      else
        let destination :=
          mk_message sender_pid (pl_type p) (pl_size p) (pl_request_id p)
            (copy_payload_data (pl_size p) (pl_data p)) in
        (0, Some (mk_endpoint
               (<[Z.to_nat (write_index e) := destination]> (messages e))
               (read_index e)
               (u32 (write_index e + 1) mod IPC_ENDPOINT_CAPACITY)
               (u32 (count e + 1))))
  | _, _ => (OS_IPC_BAD_MESSAGE, endpoint)
  end.

(** The result code, the endpoint after the call and the caller's buffer. *)
Definition ipc_endpoint_receive (endpoint : ptr ipc_endpoint_t)
    (out : ptr os_ipc_message_t) : Z * ptr ipc_endpoint_t * ptr os_ipc_message_t :=
  match endpoint, out with
  | Some e, Some _ =>
      if count e =? 0 then (OS_IPC_EMPTY, endpoint, out)
      else
        let source := messages e !!! Z.to_nat (read_index e) in
        (0,
         Some (mk_endpoint
                 (<[Z.to_nat (read_index e) := cleared_message]> (messages e))
                 (u32 (read_index e + 1) mod IPC_ENDPOINT_CAPACITY)
                 (write_index e)
                 (u32 (count e - 1))),
         Some source)
  | _, _ => (OS_IPC_BAD_MESSAGE, endpoint, out)
  end.

(** ** The queue a ring stands for *)

(** The live window: [count] slots from [read_index], modulo the capacity. *)
Definition queued (e : ipc_endpoint_t) : list os_ipc_message_t :=
  (fun k => messages e !!! Z.to_nat ((read_index e + Z.of_nat k) mod IPC_ENDPOINT_CAPACITY))
  <$> seq 0 (Z.to_nat (count e)).

(** The type invariant of an endpoint: four slots, indices in range, the write
    index one past the live window, and every free slot scrubbed. *)
Record endpoint_wf (e : ipc_endpoint_t) : Prop := {
  wf_slots : length (messages e) = Z.to_nat IPC_ENDPOINT_CAPACITY;
  wf_read : 0 <= read_index e < IPC_ENDPOINT_CAPACITY;
  wf_count : 0 <= count e <= IPC_ENDPOINT_CAPACITY;
  wf_write : write_index e = (read_index e + count e) mod IPC_ENDPOINT_CAPACITY;
  wf_free : forall k, count e <= k < IPC_ENDPOINT_CAPACITY ->
    messages e !! Z.to_nat ((read_index e + k) mod IPC_ENDPOINT_CAPACITY)
    = Some cleared_message
}.

(** A bounded FIFO of messages, the contract of the mailbox. *)
Definition fifo_send (q : list os_ipc_message_t) (pid : Z) (p : os_ipc_payload_t)
    : Z * list os_ipc_message_t :=
  if OS_IPC_MAX_DATA <? pl_size p then (OS_IPC_BAD_MESSAGE, q)
  else if decide (length q = 4%nat) then (OS_IPC_FULL, q)
  else (0, q ++ [mk_message pid (pl_type p) (pl_size p) (pl_request_id p)
                   (copy_payload_data (pl_size p) (pl_data p))]).

Definition fifo_receive (q : list os_ipc_message_t) (out : os_ipc_message_t)
    : Z * list os_ipc_message_t * os_ipc_message_t :=
  match q with
  | [] => (OS_IPC_EMPTY, [], out)
  | m :: q' => (0, q', m)
  end.

(** ** Lemmas *)

(** Brute-force view of a well-formed ring: four named slots and numeric
    indices, so that both sides compute. *)
Ltac ring_cases e H :=
  destruct e as [ms r w c]; destruct H as [Hs Hr Hc Hw Hf]; cbn in Hs, Hr, Hc, Hw, Hf;
  destruct ms as [|m0 [|m1 [|m2 [|m3 [|]]]]]; try discriminate Hs; clear Hs;
  let case_r := fresh in let case_c := fresh in
  assert (case_r : r = 0 \/ r = 1 \/ r = 2 \/ r = 3) by
    (unfold IPC_ENDPOINT_CAPACITY in *; lia);
  assert (case_c : c = 0 \/ c = 1 \/ c = 2 \/ c = 3 \/ c = 4) by
    (unfold IPC_ENDPOINT_CAPACITY in *; lia);
  clear Hr Hc;
  destruct case_r as [-> | [-> | [-> | ->]]];
  destruct case_c as [-> | [-> | [-> | [-> | ->]]]];
  unfold IPC_ENDPOINT_CAPACITY in *; cbn in Hw; subst w.

(** The invariant of a concrete ring: the indices compute, and each free slot
    is one the operation scrubbed or one that was free before. *)
Ltac ring_wf Hf :=
  constructor; cbn; try done;
  unfold IPC_ENDPOINT_CAPACITY; intros k Hk; unfold u32 in Hk;
  let C := fresh in
  assert (C : k = 0 \/ k = 1 \/ k = 2 \/ k = 3) by (clear -Hk; zlia);
  destruct C as [-> | [-> | [-> | ->]]];
  first [ exfalso; clear -Hk; zlia | reflexivity
        | exact (Hf 0 ltac:(lia)) | exact (Hf 1 ltac:(lia))
        | exact (Hf 2 ltac:(lia)) | exact (Hf 3 ltac:(lia)) ].

Lemma init_wf e : exists e', ipc_endpoint_init (Some e) = Some e' /\
  endpoint_wf e' /\ queued e' = [].
Proof.
  eexists. split; [reflexivity|]. split; [|reflexivity].
  constructor; cbn; try done.
  unfold IPC_ENDPOINT_CAPACITY. intros k Hk.
  assert (k = 0 \/ k = 1 \/ k = 2 \/ k = 3) as [-> | [-> | [-> | ->]]] by lia; done.
Qed.

Lemma queued_length e : 0 <= count e -> Z.of_nat (length (queued e)) = count e.
Proof. intros. unfold queued. rewrite length_fmap, length_seq. lia. Qed.

(** One send of the ring is one send of the FIFO, and keeps the invariant. *)
Lemma send_refines e pid p :
  endpoint_wf e ->
  exists e', ipc_endpoint_send (Some e) pid (Some p) = (fst (fifo_send (queued e) pid p), Some e')
    /\ endpoint_wf e' /\ queued e' = snd (fifo_send (queued e) pid p).
Proof.
  intros H. unfold ipc_endpoint_send, fifo_send.
  destruct (OS_IPC_MAX_DATA <? pl_size p) eqn:Hsz; [by eauto|].
  ring_cases e H; cbn; eexists;
    (split; [reflexivity|]; split; [|reflexivity]);
    ring_wf Hf.
Qed.

Lemma receive_refines e out :
  endpoint_wf e ->
  exists e', ipc_endpoint_receive (Some e) (Some out)
      = (fst (fst (fifo_receive (queued e) out)), Some e',
         Some (snd (fifo_receive (queued e) out)))
    /\ endpoint_wf e' /\ queued e' = snd (fst (fifo_receive (queued e) out)).
Proof.
  intros H. unfold ipc_endpoint_receive.
  ring_cases e H; cbn; eexists;
    (split; [reflexivity|]; split; [|reflexivity]);
    ring_wf Hf.
Qed.

(** ** Histories of a mailbox *)

(** The calls other tasks (send) and the owner (receive) make, with arbitrary
    NULL-able pointers. *)
Inductive ipc_op :=
| IpcSend (pid : Z) (payload : ptr os_ipc_payload_t)
| IpcReceive (out : ptr os_ipc_message_t).

(** One call on the ring: what the caller observes and the ring after it. *)
Definition ring_call (e : ipc_endpoint_t) (o : ipc_op)
    : (Z * ptr os_ipc_message_t) * ptr ipc_endpoint_t :=
  match o with
  | IpcSend pid payload =>
      let '(rc, e') := ipc_endpoint_send (Some e) pid payload in ((rc, None), e')
  | IpcReceive out =>
      let '(rc, e', out') := ipc_endpoint_receive (Some e) out in ((rc, out'), e')
  end.

(** The same call on the FIFO; a NULL argument is refused. *)
Definition fifo_call (q : list os_ipc_message_t) (o : ipc_op)
    : (Z * ptr os_ipc_message_t) * list os_ipc_message_t :=
  match o with
  | IpcSend pid (Some p) => let '(rc, q') := fifo_send q pid p in ((rc, None), q')
  | IpcSend _ NULL => ((OS_IPC_BAD_MESSAGE, None), q)
  | IpcReceive (Some out) =>
      let '(rc, q', m) := fifo_receive q out in ((rc, Some m), q')
  | IpcReceive NULL => ((OS_IPC_BAD_MESSAGE, None), q)
  end.

Fixpoint ring_run (e : ptr ipc_endpoint_t) (ops : list ipc_op)
    : list (Z * ptr os_ipc_message_t) :=
  match e, ops with
  | Some e, o :: ops => let '(obs, e') := ring_call e o in obs :: ring_run e' ops
  | _, _ => []
  end.

Fixpoint fifo_run (q : list os_ipc_message_t) (ops : list ipc_op)
    : list (Z * ptr os_ipc_message_t) :=
  match ops with
  | o :: ops => let '(obs, q') := fifo_call q o in obs :: fifo_run q' ops
  | [] => []
  end.

Lemma call_refines e o :
  endpoint_wf e ->
  exists e', ring_call e o = (fst (fifo_call (queued e) o), Some e') /\
    endpoint_wf e' /\ queued e' = snd (fifo_call (queued e) o).
Proof.
  intros H. destruct o as [pid [p|] | [out|]]; unfold ring_call, fifo_call; try by eauto.
  - destruct (send_refines e pid p H) as (e' & -> & ? & ?).
    destruct (fifo_send (queued e) pid p); cbn. eauto.
  - destruct (receive_refines e out H) as (e' & -> & ? & ?).
    destruct (fifo_receive (queued e) out) as [[? ?] ?]; cbn. eauto.
Qed.

(** C26. The four-slot mailbox of a task is a bounded FIFO: from the state
    [ipc_endpoint_init] leaves, every sequence of sends and receives, with
    any payloads and NULL pointers, gives the callers exactly the result
    codes and messages a queue of at most four messages gives. *)
Theorem mailbox_is_bounded_fifo :
  forall (e : ipc_endpoint_t) (ops : list ipc_op),
    ring_run (ipc_endpoint_init (Some e)) ops = fifo_run [] ops.
Proof.
  intros e ops. destruct (init_wf e) as (e0 & -> & Hwf & Hq). clear e.
  rewrite <- Hq. clear Hq. revert e0 Hwf.
  induction ops as [|o ops IH]; intros e Hwf; [done|].
  cbn [ring_run fifo_run]. destruct (call_refines e o Hwf) as (e' & -> & Hwf' & Hq).
  rewrite (IH e' Hwf'), Hq. by destruct (fifo_call (queued e) o).
Qed.

(** One kernel call moves a mailbox from [e] to [e']. *)
Definition ipc_step (e e' : ipc_endpoint_t) : Prop :=
  exists o, snd (ring_call e o) = Some e'.

(** No stale payload: in every reachable mailbox the slots outside the
    live window hold the scrubbed message (sender -1, type, size, request id
    and all 96 data bytes zero), the indices stay inside the four slots and
    the write index is the read index plus the count modulo four. *)
Theorem mailbox_invariant :
  forall (e e0 e' : ipc_endpoint_t),
    ipc_endpoint_init (Some e) = Some e0 -> rtc ipc_step e0 e' -> endpoint_wf e'.
Proof.
  intros e e0 e' H0 Hr.
  destruct (init_wf e) as (e1 & H1 & Hwf & _). rewrite H0 in H1.
  injection H1 as ->. clear H0. induction Hr as [|x y z [o Ho] _ IH]; [done|].
  apply IH. destruct (call_refines x o Hwf) as (y' & Hc & Hy & _).
  rewrite Hc in Ho. cbn in Ho. congruence.
Qed.

(** A mailbox that received one message and handed it over. *)
Example mailbox_invariant_witness :
  endpoint_wf (mk_endpoint (replicate 4 cleared_message) 1 1 0).
Proof.
  set (e0 := mk_endpoint (replicate 4 cleared_message) 0 0 0).
  set (p := mk_payload 7 2 9 (replicate 96 5)).
  set (e1 := mk_endpoint
    (mk_message 3 7 2 9 ([5; 5] ++ replicate 94 0) :: replicate 3 cleared_message) 0 1 1).
  apply (mailbox_invariant e0 e0); [reflexivity|].
  eapply (rtc_l _ _ e1); [exists (IpcSend 3 (Some p)); reflexivity|].
  eapply rtc_once. exists (IpcReceive (Some cleared_message)). reflexivity.
Defined.
