(* ===== verification/IpcWait.v ===== *)
(** * Blocking receive: kernel/ipc_wait.c

    The wait record of a task that sleeps in SYS_IPC_RECV_WAIT: when it must
    sleep, which event wakes it, and how the 32-bit tick counter is compared
    with the deadline. *)

From stdpp Require Import base list numbers option tactics relations.
From Stdlib Require Import ZArith Lia.
From S2P Require Import Prelude.

Definition IPC_WAIT_RETURN : Z := 0.
Definition IPC_WAIT_BLOCK : Z := 1.

Record ipc_wait_t := mk_wait {
  blocked : Z;
  forever : Z;
  timed_out : Z;
  woken : Z;
  deadline : Z;
  waits : Z;
  wakes : Z;
  timeouts : Z
}.

Definition ipc_wait_zero : ipc_wait_t := mk_wait 0 0 0 0 0 0 0 0.

Definition ipc_wait_decide (recv_rc empty_rc timeout may_block : Z) : Z :=
  if negb (recv_rc =? empty_rc) then IPC_WAIT_RETURN
  else if (timeout =? 0) || negb (c_true may_block) then IPC_WAIT_RETURN
  else IPC_WAIT_BLOCK.

Definition ipc_wait_begin (w : ptr ipc_wait_t) (now timeout forever_value : Z)
    : ptr ipc_wait_t :=
  match w with
  | NULL => NULL
  | Some w =>
      Some (mk_wait 1 (b2z (timeout =? forever_value)) 0 0
              (u32 (now + timeout)) (u32 (waits w + 1)) (wakes w) (timeouts w))
  end.

Definition ipc_wait_on_message (w : ptr ipc_wait_t) : Z * ptr ipc_wait_t :=
  match w with
  | NULL => (0, NULL)
  | Some w =>
      if negb (c_true (blocked w)) then (0, Some w)
      else (1, Some (mk_wait 0 (forever w) (timed_out w) 1 (deadline w)
                       (waits w) (u32 (wakes w + 1)) (timeouts w)))
  end.

Definition ipc_wait_on_tick (w : ptr ipc_wait_t) (now : Z) : Z * ptr ipc_wait_t :=
  match w with
  | NULL => (0, NULL)
  | Some w =>
      if negb (c_true (blocked w)) || c_true (forever w) then (0, Some w)
      else if i32 (now - deadline w) <? 0 then (0, Some w)
      else (1, Some (mk_wait 0 (forever w) 1 (woken w) (deadline w)
                       (waits w) (wakes w) (u32 (timeouts w + 1))))
  end.

(** Result: the decision, the wait record and the content of [out_rc]. *)
Definition ipc_wait_after_wake (w : ptr ipc_wait_t)
    (recv_rc empty_rc timeout_rc now : Z) (out_rc : ptr Z)
    : Z * ptr ipc_wait_t * ptr Z :=
  match w, out_rc with
  | Some v, Some _ =>
      if negb (recv_rc =? empty_rc) then
        (IPC_WAIT_RETURN,
         Some (mk_wait 0 (forever v) (timed_out v) (woken v) (deadline v)
                 (waits v) (wakes v) (timeouts v)), Some recv_rc)
      else if c_true (timed_out v) ||
              (negb (c_true (forever v)) && (0 <=? i32 (now - deadline v))) then
        (IPC_WAIT_RETURN,
         Some (mk_wait 0 (forever v) 1 (woken v) (deadline v) (waits v) (wakes v)
                 (if negb (c_true (timed_out v)) then u32 (timeouts v + 1)
                  else timeouts v)), Some timeout_rc)
      else
        (IPC_WAIT_BLOCK,
         Some (mk_wait 1 (forever v) (timed_out v) 0 (deadline v)
                 (waits v) (wakes v) (timeouts v)), out_rc)
  | _, _ => (IPC_WAIT_RETURN, w, out_rc)
  end.

Definition ipc_wait_cancel (w : ptr ipc_wait_t) : ptr ipc_wait_t :=
  match w with
  | NULL => NULL
  | Some w => Some (mk_wait 0 (forever w) 0 0 (deadline w) (waits w) (wakes w) (timeouts w))
  end.

(** ** Deadlines *)

(** Whether the tick [d] ticks after the wait began wakes the task. *)
Definition wakes_at (w : ipc_wait_t) (now timeout forever_value d : Z) : bool :=
  match ipc_wait_begin (Some w) now timeout forever_value with
  | Some b => fst (ipc_wait_on_tick (Some b) (u32 (now + d))) =? 1
  | NULL => false
  end.

Lemma begin_deadline w now timeout fv :
  exists b, ipc_wait_begin (Some w) now timeout fv = Some b /\
    blocked b = 1 /\ deadline b = u32 (now + timeout) /\
    forever b = b2z (timeout =? fv) /\ timed_out b = 0 /\ woken b = 0.
Proof. eexists. split; [reflexivity|]. repeat split. Qed.

(** The signed 32-bit distance of two ticks, independent of wrap-around. *)
Lemma tick_distance now timeout d :
  i32 (u32 (now + d) - u32 (now + timeout)) = i32 (d - timeout).
Proof.
  unfold i32.
  replace (u32 (u32 (now + d) - u32 (now + timeout))) with (u32 (d - timeout)); [done|].
  unfold u32. rewrite <- Zminus_mod. f_equal. lia.
Qed.

Lemma i32_small z : is_i32 z -> i32 z = z.
Proof. apply i32_id. Qed.

Lemma wakes_at_distance w now timeout fv d :
  timeout <> fv -> wakes_at w now timeout fv d = (0 <=? i32 (d - timeout)).
Proof.
  intros Hf. unfold wakes_at, ipc_wait_begin, ipc_wait_on_tick; cbn [blocked forever deadline].
  rewrite tick_distance, (proj2 (Z.eqb_neq _ _) Hf). cbn -[i32].
  destruct (Z.ltb_spec (i32 (d - timeout)) 0), (Z.leb_spec 0 (i32 (d - timeout))); done || lia.
Qed.



(** The other half of the timeout range: a finite timeout of more than
    2^31 + 1 ticks (from 0x80000002 up to 0xFFFFFFFE) is taken for a deadline
    in the past, so the first tick after the task falls asleep wakes
    it with a timeout. *)
Theorem long_timeout_expires_at_once :
  forall (w : ipc_wait_t) (now timeout forever_value : Z),
    2147483650 <= timeout < 4294967295 -> timeout <> forever_value ->
    wakes_at w now timeout forever_value 1 = true.
Proof.
  intros w now timeout fv Ht Hf. rewrite wakes_at_distance by done.
  apply Z.leb_le. unfold i32, u32.
  destruct (Z.ltb_spec ((1 - timeout) mod 4294967296) 2147483648); zlia.
Qed.

Example long_timeout_expires_at_once_witness :
  wakes_at ipc_wait_zero 1000 2147483650 4294967295 1 = true.
Proof.
  apply (long_timeout_expires_at_once ipc_wait_zero 1000 2147483650 4294967295); lia.
Defined.
