(* ===== verification/Pmm.v ===== *)
(** * Physical pages and kernel heap: kernel/mem/pmm.c, kernel/mem/heap.c

    A bitmap of 32-bit words, one bit per 4 KiB page; contiguous first-fit
    allocation, release, and the page-granular [kmalloc] above it. *)

From stdpp Require Import base list numbers option tactics relations.
From Stdlib Require Import ZArith Lia.
From S2P Require Import Prelude.

Definition PAGE_SIZE : Z := 4096.

(** The static variables of pmm.c. *)
Record pmm_t := mk_pmm {
  memory_map : list Z;
  total_pages : Z;
  used_pages : Z
}.

Definition set_memory_map (s : pmm_t) (m : list Z) : pmm_t :=
  mk_pmm m (total_pages s) (used_pages s).
Definition set_used_pages (s : pmm_t) (n : Z) : pmm_t :=
  mk_pmm (memory_map s) (total_pages s) n.

(** [1 << (page_num % 32)] *)
Definition page_bit (page_num : Z) : Z := Z.shiftl 1 (page_num mod 32).

(** Words outside the bitmap are never accessed; they read as 0. *)
Definition map_word (s : pmm_t) (i : Z) : Z := default 0 (memory_map s !! Z.to_nat i).

Definition pmm_set_page (s : pmm_t) (page_num : Z) : pmm_t :=
  if page_num <? total_pages s then
    set_memory_map s
      (<[Z.to_nat (page_num / 32) :=
           Z.lor (map_word s (page_num / 32)) (page_bit page_num)]> (memory_map s))
  else s.

Definition pmm_clear_page (s : pmm_t) (page_num : Z) : pmm_t :=
  if page_num <? total_pages s then
    set_memory_map s
      (<[Z.to_nat (page_num / 32) :=
           Z.land (map_word s (page_num / 32)) (u32 (Z.lnot (page_bit page_num)))]>
         (memory_map s))
  else s.

Definition pmm_test_page (s : pmm_t) (page_num : Z) : Z :=
  if total_pages s <=? page_num then 1
  else if Z.land (map_word s (page_num / 32)) (page_bit page_num) =? 0 then 0 else 1.

(** Inner loop of [pmm_find_free_page] on word [i] from bit [j]. *)
Fixpoint find_in_word (total word i j : Z) (fuel : nat) : option Z :=
  match fuel with
  | O => None
  | S fuel =>
      if (Z.land word (Z.shiftl 1 j) =? 0) && (u32 (i * 32 + j) <? total)
      then Some (u32 (i * 32 + j))
      else find_in_word total word i (j + 1) fuel
  end.

(** Outer loop over the remaining words, the first of which has index [i]. *)
Fixpoint find_in_map (total i : Z) (words : list Z) : Z :=
  match words with
  | [] => 4294967295
  | w :: words =>
      match (if w =? 4294967295 then None else find_in_word total w i 0 32) with
      | Some page => page
      | None => find_in_map total (i + 1) words
      end
  end.

Definition pmm_find_free_page (s : pmm_t) : Z :=
  find_in_map (total_pages s) 0
    (take (Z.to_nat ((total_pages s + 31) / 32)) (memory_map s)).

(** [multiboot_info_t], the fields pmm.c reads, and its module list. *)
Record multiboot_module_t := mk_module { mod_start : Z; mod_end : Z }.
Record multiboot_info_t := mk_mbi { mbi_flags : Z; mbi_modules : list multiboot_module_t }.

(** The loop over the modules raising [highest_addr]. *)
Definition highest_address (end_addr : Z) (mbi : multiboot_info_t) : Z :=
  if negb (Z.land (mbi_flags mbi) (Z.shiftl 1 3) =? 0) then
    fold_left (fun h m => if h <? mod_end m then mod_end m else h)
      (mbi_modules mbi) end_addr
  else end_addr.

(** [for (i = 0; i < n; i++) if (i < total_pages) pmm_set_page(i)] *)
Fixpoint reserve_from (s : pmm_t) (i : Z) (n : nat) : pmm_t :=
  match n with
  | O => s
  | S n => reserve_from (if i <? total_pages s then pmm_set_page s i else s) (i + 1) n
  end.

(** [end_addr] is the address of the linker symbol [end]. *)
Definition pmm_init (memory_size end_addr : Z) (mbi : multiboot_info_t) : pmm_t :=
  let total := memory_size / PAGE_SIZE in
  let map_addr :=
    Z.land (u32 (highest_address end_addr mbi + PAGE_SIZE - 1)) (u32 (Z.lnot (PAGE_SIZE - 1))) in
  let bitmap_size_bytes := (total + 7) / 8 in
  let s0 := mk_pmm (replicate (Z.to_nat ((bitmap_size_bytes + 3) / 4)) 0) total 0 in
  let reserved_until := u32 (map_addr + bitmap_size_bytes) in
  let reserved_pages := u32 (reserved_until + PAGE_SIZE - 1) / PAGE_SIZE in
  set_used_pages (reserve_from s0 0 (Z.to_nat reserved_pages)) reserved_pages.

(** [for (i = 0; i < n; i++) pmm_set_page(first + i)] *)
Fixpoint set_range (s : pmm_t) (first : Z) (n : nat) : pmm_t :=
  match n with
  | O => s
  | S n => set_range (pmm_set_page s first) (first + 1) n
  end.

(** The scan of [pmm_alloc_pages] from [page_num], with [fuel] pages left. *)
Fixpoint scan_run (s : pmm_t) (page_count page_num consecutive first : Z) (fuel : nat)
    : option Z :=
  match fuel with
  | O => None
  | S fuel =>
      if pmm_test_page s page_num =? 0 then
        let first := if consecutive =? 0 then page_num else first in
        let consecutive := u32 (consecutive + 1) in
        if consecutive =? page_count then Some first
        else scan_run s page_count (page_num + 1) consecutive first fuel
      else scan_run s page_count (page_num + 1) 0 first fuel
  end.

(** The returned address, 0 for NULL, and the allocator after the call. *)
Definition pmm_alloc_pages (s : pmm_t) (page_count : Z) : Z * pmm_t :=
  if (page_count =? 0) || (total_pages s <? page_count) then (0, s)
  else
    match scan_run s page_count 0 0 0 (Z.to_nat (total_pages s)) with
    | Some first =>
        let s' := set_range s first (Z.to_nat page_count) in
        (u32 (first * PAGE_SIZE), set_used_pages s' (u32 (used_pages s' + page_count)))
    | None => (0, s)
    end.

Definition pmm_alloc_page (s : pmm_t) : Z * pmm_t := pmm_alloc_pages s 1.

(** One iteration of the release loop. *)
Definition free_one (s : pmm_t) (page_num : Z) : pmm_t :=
  if pmm_test_page s page_num =? 0 then s
  else
    let s' := pmm_clear_page s page_num in
    if 0 <? used_pages s' then set_used_pages s' (used_pages s' - 1) else s'.

Fixpoint free_range (s : pmm_t) (page_num : Z) (n : nat) : pmm_t :=
  match n with
  | O => s
  | S n => free_range (free_one s page_num) (page_num + 1) n
  end.

Definition pmm_free_pages (s : pmm_t) (page page_count : Z) : pmm_t :=
  if (page =? 0) || (page_count =? 0) then s
  else
    let page_num := page / PAGE_SIZE in
    if (total_pages s <=? page_num) || (total_pages s - page_num <? page_count) then s
    else free_range s page_num (Z.to_nat page_count).

Definition pmm_free_page (s : pmm_t) (page : Z) : pmm_t := pmm_free_pages s page 1.

Definition pmm_get_total_pages (s : pmm_t) : Z := total_pages s.
Definition pmm_get_used_pages (s : pmm_t) : Z := used_pages s.
Definition pmm_get_free_pages (s : pmm_t) : Z := u32 (total_pages s - used_pages s).

(** heap.c: [size_t] is 32 bits on this target. *)
Definition kmalloc (s : pmm_t) (size : Z) : Z * pmm_t :=
  if size =? 0 then (0, s)
  else pmm_alloc_pages s (u32 (size + PAGE_SIZE - 1) / PAGE_SIZE).

Definition kmalloc_aligned (s : pmm_t) (size : Z) : Z * pmm_t := kmalloc s size.
Definition kfree (s : pmm_t) (p : Z) : pmm_t := s.

(** ** The set of used pages a bitmap stands for *)

Definition page_used (s : pmm_t) (p : Z) : bool :=
  Z.testbit (map_word s (p / 32)) (p mod 32).

(** Number of pages below [n] that satisfy [f]. *)
Fixpoint count_pages (f : Z -> bool) (n : nat) : Z :=
  match n with
  | O => 0
  | S n => count_pages f n + b2z (f (Z.of_nat n))
  end.

(** The shape of the bitmap: fewer than 2^20 pages, one bit each. *)
Record pmm_shape (s : pmm_t) : Prop := {
  pmm_total : 0 <= total_pages s < 1048576;
  pmm_words : Z.of_nat (length (memory_map s)) = (total_pages s + 31) / 32;
  pmm_word_range : Forall is_u32 (memory_map s)
}.

(** The allocator invariant: the shape, the counter equal to the number of
    set bits, and page 0 never handed out (its address is NULL). *)
Record pmm_wf (s : pmm_t) : Prop := {
  wf_shape : pmm_shape s;
  wf_used : used_pages s = count_pages (page_used s) (Z.to_nat (total_pages s));
  wf_page0 : 0 < total_pages s -> page_used s 0 = true
}.

(** ** Bits and words *)

Lemma land_bit_zero w j : 0 <= j -> (Z.land w (Z.shiftl 1 j) =? 0) = negb (Z.testbit w j).
Proof.
  intros Hj. rewrite Z.shiftl_1_l. destruct (Z.testbit w j) eqn:Hb; cbn.
  - apply Z.eqb_neq. intros H0. apply (f_equal (fun x => Z.testbit x j)) in H0.
    rewrite Z.land_spec, Hb, Z.pow2_bits_true, Z.bits_0 in H0 by lia. done.
  - apply Z.eqb_eq, Z.bits_inj'. intros k Hk.
    rewrite Z.land_spec, Z.bits_0, Z.pow2_bits_eqb by lia.
    destruct (Z.eqb_spec j k); subst; rewrite ?Hb; by rewrite ?andb_false_r.
Qed.

Lemma set_bit_spec w j k : 0 <= j -> Z.testbit (Z.lor w (Z.shiftl 1 j)) k = (j =? k) || Z.testbit w k.
Proof. intros. exact (Z.setbit_eqb w j k H). Qed.

Lemma clear_bit_spec w j k :
  0 <= j < 32 -> 0 <= k < 32 ->
  Z.testbit (Z.land w (u32 (Z.lnot (Z.shiftl 1 j)))) k = negb (j =? k) && Z.testbit w k.
Proof.
  intros Hj Hk. unfold u32. change 4294967296 with (2 ^ 32).
  rewrite Z.land_spec, Z.mod_pow2_bits_low, Z.lnot_spec, Z.shiftl_1_l, Z.pow2_bits_eqb by lia.
  apply andb_comm.
Qed.

Lemma lor_u32 w j : is_u32 w -> 0 <= j < 32 -> is_u32 (Z.lor w (Z.shiftl 1 j)).
Proof.
  intros Hw Hj. apply (lor_range 32); [lia|exact Hw|]. rewrite Z.shiftl_1_l. split.
  - apply Z.pow_nonneg. lia.
  - apply Z.pow_lt_mono_r; lia.
Qed.

Lemma land_u32 w x : is_u32 w -> is_u32 (Z.land w x).
Proof. apply (land_range 32). lia. Qed.

Lemma page_coords p q : 0 <= p -> 0 <= q -> p / 32 = q / 32 -> p mod 32 = q mod 32 -> p = q.
Proof. intros. zlia. Qed.

(** ** Single pages *)

Lemma map_word_insert s i j w :
  0 <= i < Z.of_nat (length (memory_map s)) -> 0 <= j ->
  map_word (set_memory_map s (<[Z.to_nat i := w]> (memory_map s))) j
  = if i =? j then w else map_word s j.
Proof.
  intros Hi Hj. unfold map_word; cbn. destruct (Z.eqb_spec i j) as [->|].
  - by rewrite list_lookup_insert_eq by lia.
  - by rewrite list_lookup_insert_ne by lia.
Qed.

Lemma page_word_bound s p :
  pmm_shape s -> 0 <= p < total_pages s -> 0 <= p / 32 < Z.of_nat (length (memory_map s)).
Proof. intros [? Hw _] Hp. rewrite Hw. zlia. Qed.

Lemma test_page_used s p :
  0 <= p < total_pages s -> pmm_test_page s p = b2z (page_used s p).
Proof.
  intros Hp. unfold pmm_test_page, page_bit, page_used.
  rewrite (proj2 (Z.leb_gt _ _)), land_bit_zero by (lia || zlia).
  by destruct (Z.testbit _ _).
Qed.

Lemma page_used_set s p q :
  pmm_shape s -> 0 <= p < total_pages s -> 0 <= q ->
  page_used (pmm_set_page s p) q = (p =? q) || page_used s q.
Proof.
  intros Hwf Hp Hq. unfold pmm_set_page, page_used, page_bit.
  rewrite (proj2 (Z.ltb_lt _ _)) by lia.
  rewrite map_word_insert by (try apply page_word_bound; done || zlia).
  destruct (Z.eqb_spec (p / 32) (q / 32)) as [E|E].
  - rewrite set_bit_spec, E by zlia. f_equal.
    destruct (Z.eqb_spec (p mod 32) (q mod 32)), (Z.eqb_spec p q); try done; zlia.
  - destruct (Z.eqb_spec p q); [congruence|done].
Qed.

Lemma page_used_clear s p q :
  pmm_shape s -> 0 <= p < total_pages s -> 0 <= q ->
  page_used (pmm_clear_page s p) q = negb (p =? q) && page_used s q.
Proof.
  intros Hwf Hp Hq. unfold pmm_clear_page, page_used, page_bit.
  rewrite (proj2 (Z.ltb_lt _ _)) by lia.
  rewrite map_word_insert by (try apply page_word_bound; done || zlia).
  destruct (Z.eqb_spec (p / 32) (q / 32)) as [E|E].
  - rewrite clear_bit_spec, E by zlia. f_equal.
    destruct (Z.eqb_spec (p mod 32) (q mod 32)), (Z.eqb_spec p q); try done; zlia.
  - destruct (Z.eqb_spec p q); [congruence|done].
Qed.

Lemma count_pages_ext f g n :
  (forall p, 0 <= p < Z.of_nat n -> f p = g p) -> count_pages f n = count_pages g n.
Proof.
  induction n as [|n IH]; intros H; cbn; [done|].
  rewrite IH by (intros; apply H; lia). by rewrite H by lia.
Qed.

(** Changing the status of one page changes the count by that page. *)
Lemma count_pages_update f g p n :
  0 <= p < Z.of_nat n -> (forall q, 0 <= q < Z.of_nat n -> q <> p -> f q = g q) ->
  count_pages f n = count_pages g n + b2z (f p) - b2z (g p).
Proof.
  induction n as [|n IH]; intros Hp H; [lia|]. cbn [count_pages].
  destruct (Z.eq_dec p (Z.of_nat n)) as [->|Hne].
  - rewrite (count_pages_ext f g) by (intros; apply H; lia). lia.
  - rewrite IH, (H (Z.of_nat n)) by (lia || intros; apply H; lia). lia.
Qed.

Lemma count_pages_range f n : 0 <= count_pages f n <= Z.of_nat n.
Proof. induction n as [|n IH]; cbn; [lia|]. destruct (f (Z.of_nat n)); cbn; lia. Qed.

Lemma count_pages_pos f n p : 0 <= p < Z.of_nat n -> f p = true -> 0 < count_pages f n.
Proof.
  induction n as [|n IH]; intros Hp Hf; [lia|]. cbn.
  pose proof (count_pages_range f n).
  destruct (Z.eq_dec p (Z.of_nat n)) as [<-|]; [rewrite Hf; cbn; lia|].
  assert (0 < count_pages f n) by (apply IH; [lia|done]).
  destruct (f (Z.of_nat n)); cbn; lia.
Qed.

Lemma shape_set_used s n : pmm_shape s -> pmm_shape (set_used_pages s n).
Proof. intros []. by constructor. Qed.

Lemma word_u32 s i : pmm_shape s -> is_u32 (map_word s i).
Proof.
  intros [_ _ Hr]. unfold map_word. destruct (memory_map s !! Z.to_nat i) eqn:E.
  - by eapply Forall_lookup_1.
  - unfold is_u32. cbn. lia.
Qed.

Lemma shape_insert s i w :
  pmm_shape s -> is_u32 w -> pmm_shape (set_memory_map s (<[i := w]> (memory_map s))).
Proof.
  intros [? ? ?] Hw. constructor; cbn; rewrite ?length_insert; try done.
  by apply Forall_insert.
Qed.

Lemma shape_set_page s p : pmm_shape s -> 0 <= p -> pmm_shape (pmm_set_page s p).
Proof.
  intros H Hp. unfold pmm_set_page. destruct (p <? total_pages s); [|done].
  apply shape_insert; [done|]. apply lor_u32; [by apply word_u32|zlia].
Qed.

Lemma shape_clear_page s p : pmm_shape s -> pmm_shape (pmm_clear_page s p).
Proof.
  intros H. unfold pmm_clear_page. destruct (p <? total_pages s); [|done].
  apply shape_insert; [done|]. apply land_u32. by apply word_u32.
Qed.

Lemma total_set_page s p : total_pages (pmm_set_page s p) = total_pages s.
Proof. unfold pmm_set_page. by destruct (p <? total_pages s). Qed.

Lemma used_set_page s p : used_pages (pmm_set_page s p) = used_pages s.
Proof. unfold pmm_set_page. by destruct (p <? total_pages s). Qed.

Create HintDb pmm.
Create Rewrite HintDb pmm.
#[export] Hint Resolve shape_set_used shape_set_page shape_clear_page word_u32 : pmm.
#[export] Hint Rewrite total_set_page used_set_page : pmm.

(** ** Ranges of pages *)

Definition in_range (p first : Z) (n : nat) : bool :=
  (first <=? p) && (p <? first + Z.of_nat n).

Lemma in_range_spec p first n :
  in_range p first n = true <-> first <= p < first + Z.of_nat n.
Proof. unfold in_range. rewrite andb_true_iff, Z.leb_le, Z.ltb_lt. done. Qed.

Lemma set_range_spec n : forall s first,
  pmm_shape s -> 0 <= first -> first + Z.of_nat n <= total_pages s ->
  pmm_shape (set_range s first n) /\
  total_pages (set_range s first n) = total_pages s /\
  used_pages (set_range s first n) = used_pages s /\
  forall q, 0 <= q ->
    page_used (set_range s first n) q = in_range q first n || page_used s q.
Proof.
  induction n as [|n IH]; intros s first Hs Hf Hn; cbn [set_range].
  - repeat split; try apply Hs; try done. intros q Hq. unfold in_range.
    destruct (Z.leb_spec first q), (Z.ltb_spec q (first + Z.of_nat 0)); done || lia.
  - destruct (IH (pmm_set_page s first) (first + 1)) as (H1 & H2 & H3 & H4);
      autorewrite with pmm in *; auto with pmm; try lia.
    repeat split; try apply H1; try congruence. intros q Hq. rewrite H4, page_used_set by (done || lia).
    rewrite orb_assoc. f_equal. unfold in_range.
    destruct (Z.leb_spec (first + 1) q), (Z.leb_spec first q),
      (Z.ltb_spec q (first + 1 + Z.of_nat n)), (Z.ltb_spec q (first + Z.of_nat (S n))),
      (Z.eqb_spec first q); done || lia.
Qed.

(** Counting a range whose status changes uniformly. *)
Lemma count_pages_range_update f g first n total :
  0 <= first -> first + Z.of_nat n <= Z.of_nat total ->
  (forall q, 0 <= q < Z.of_nat total -> g q = in_range q first n || f q) ->
  (forall q, first <= q < first + Z.of_nat n -> f q = false) ->
  count_pages g total = count_pages f total + Z.of_nat n.
Proof.
  revert g. induction n as [|n IH]; intros g Hf Hn Hg Hfree.
  - rewrite (count_pages_ext g f); [lia|]. intros q Hq. rewrite Hg by done.
    unfold in_range. destruct (Z.leb_spec first q), (Z.ltb_spec q (first + Z.of_nat 0)); done || lia.
  - set (h := fun q => in_range q first n || f q).
    rewrite (count_pages_update g h (first + Z.of_nat n)) by
      (lia || (intros q Hq Hne; rewrite Hg by done; unfold h, in_range; f_equal; f_equal;
       destruct (Z.ltb_spec q (first + Z.of_nat (S n))), (Z.ltb_spec q (first + Z.of_nat n)); done || lia)).
    rewrite (IH h) by (try lia; try done; intros; apply Hfree; lia).
    rewrite Hg by lia. unfold h. rewrite (Hfree (first + Z.of_nat n)) by lia.
    unfold in_range. destruct (Z.leb_spec first (first + Z.of_nat n)),
      (Z.ltb_spec (first + Z.of_nat n) (first + Z.of_nat (S n))),
      (Z.ltb_spec (first + Z.of_nat n) (first + Z.of_nat n)); cbn; lia.
Qed.

(** ** First-fit search *)

Definition free_run (s : pmm_t) (q n : Z) : Prop :=
  forall r, q <= r < q + n -> page_used s r = false.

(** What the loop of [pmm_alloc_pages] knows before looking at page [p]: the
    last [c] pages are free, the page before them is not, and no earlier run
    of [n] free pages exists. *)
Record scan_inv (s : pmm_t) (n p c first : Z) : Prop := {
  scan_count : 0 <= c < n;
  scan_pos : c <= p <= total_pages s;
  scan_first : c <> 0 -> first = p - c;
  scan_free : free_run s (p - c) c;
  scan_none : forall q, 0 <= q -> q + n <= p -> ~ free_run s q n;
  scan_edge : p - c = 0 \/ page_used s (p - c - 1) = true
}.

Lemma scan_inv_used s n p c first :
  scan_inv s n p c first -> 0 < n -> p < total_pages s -> page_used s p = true ->
  scan_inv s n (p + 1) 0 first.
Proof.
  intros [] Hn Hp Hu. constructor; try lia.
  - intros r Hr. lia.
  - intros q Hq Hqn Hfree. destruct (Z.eq_dec (q + n) (p + 1)).
    + rewrite (Hfree p) in Hu by lia. done.
    + eapply scan_none0; [| |done]; lia.
  - right. by replace (p + 1 - 0 - 1) with p by lia.
Qed.

Lemma scan_inv_free s n p c first :
  scan_inv s n p c first -> p < total_pages s -> page_used s p = false -> c + 1 <> n ->
  scan_inv s n (p + 1) (c + 1) (if c =? 0 then p else first).
Proof.
  intros [] Hp Hu Hne.
  assert (Hfirst : (if c =? 0 then p else first) = p - c).
  { destruct (Z.eqb_spec c 0); [lia|auto]. }
  constructor; try lia.
  - intros r Hr. destruct (Z.eq_dec r p) as [->|]; [done|]. apply scan_free0. lia.
  - intros q Hq Hqn Hfree. destruct (Z.eq_dec (q + n) (p + 1)).
    + (* a run ending at p starts before the current run *)
      destruct scan_edge0 as [?|Hedge]; [lia|].
      rewrite (Hfree (p - c - 1)) in Hedge by lia. done.
    + eapply scan_none0; [| |done]; lia.
  - replace (p + 1 - (c + 1)) with (p - c) by lia. done.
Qed.

Lemma scan_run_spec n fuel : forall s p c first,
  pmm_shape s -> 0 < n <= total_pages s ->
  scan_inv s n p c first -> p + Z.of_nat fuel = total_pages s ->
  match scan_run s n p c first fuel with
  | Some f => 0 <= f /\ f + n <= total_pages s /\ free_run s f n /\
              (forall q, 0 <= q < f -> ~ free_run s q n)
  | None => forall q, 0 <= q -> q + n <= total_pages s -> ~ free_run s q n
  end.
Proof.
  induction fuel as [|fuel IH]; intros s p c first Hs Hn Hinv Hp; cbn [scan_run].
  - intros q Hq Hqn. apply (scan_none _ _ _ _ _ Hinv); lia.
  - pose proof Hinv as [? ? Hfirst Hfr Hnone Hedge]. pose proof (pmm_total s Hs).
    rewrite test_page_used by lia. destruct (page_used s p) eqn:Hu; cbn [b2z Z.eqb].
    { apply IH; auto; [|lia]. apply (scan_inv_used s n p c); auto; lia. }
    rewrite u32_id by (unfold is_u32; lia).
    destruct (Z.eqb_spec (c + 1) n) as [E|E].
    + assert (Hf : (if c =? 0 then p else first) = p - c).
      { destruct (Z.eqb_spec c 0); [lia|auto]. }
      rewrite Hf. repeat split; try lia.
      * intros r Hr. destruct (Z.eq_dec r p) as [->|]; [done|]. apply Hfr. lia.
      * intros q Hq Hfree. destruct (Z.lt_ge_cases (p - c - 1) (q + n)).
        -- destruct Hedge as [?|Hedge]; [lia|]. rewrite Hfree in Hedge by lia. done.
        -- apply (Hnone q); [lia|lia|done].
    + apply IH; auto; [|lia]. apply scan_inv_free; auto; lia.
Qed.

Lemma scan_inv_start s n : pmm_shape s -> 0 < n -> scan_inv s n 0 0 0.
Proof.
  intros [Ht _ _] Hn. constructor; try lia. intros r Hr. lia.
Qed.

(** Taking a free range keeps the invariant and adds its length to the count. *)
Lemma commit_range s first n s' :
  pmm_wf s -> 0 < first -> 0 < n -> first + n <= total_pages s -> free_run s first n ->
  s' = set_used_pages (set_range s first (Z.to_nat n))
         (u32 (used_pages (set_range s first (Z.to_nat n)) + n)) ->
  pmm_wf s' /\ total_pages s' = total_pages s /\ used_pages s' = used_pages s + n /\
  forall q, 0 <= q -> page_used s' q = (first <=? q) && (q <? first + n) || page_used s q.
Proof.
  intros [Hs Hused H0] Hf Hn Hfn Hfree ->. pose proof (pmm_total s Hs) as Ht.
  destruct (set_range_spec (Z.to_nat n) s first) as (H1 & H2 & H3 & H4); [done|lia|lia|].
  set (t := set_range s first (Z.to_nat n)) in *.
  assert (Hcount : count_pages (page_used t) (Z.to_nat (total_pages s)) = used_pages s + n).
  { rewrite (count_pages_range_update (page_used s) _ first (Z.to_nat n)), Hused; try lia.
    - intros q Hq. apply H4. lia.
    - intros q Hq. apply Hfree. lia. }
  pose proof (count_pages_range (page_used t) (Z.to_nat (total_pages s))) as Hb.
  pose proof (count_pages_range (page_used s) (Z.to_nat (total_pages s))) as Hb'.
  rewrite H3, u32_id by (unfold is_u32; lia).
  assert (Hq : forall q, 0 <= q -> page_used (set_used_pages t (used_pages s + n)) q
                 = (first <=? q) && (q <? first + n) || page_used s q).
  { intros q Hq. change (page_used (set_used_pages t _) q) with (page_used t q).
    rewrite H4 by done. unfold in_range. by rewrite Z2Nat.id by lia. }
  split; [|done]. constructor; [by auto with pmm|..]; cbn [total_pages set_used_pages used_pages].
  - by rewrite H2, <- Hcount.
  - intros _. rewrite Hq, H0 by lia. apply orb_true_r.
Qed.

(** What contiguous allocation promises: either NULL with nothing changed, and
    then no run of [n] free pages exists (or [n] is zero), or the address of
    the lowest run of [n] free pages, with exactly those pages marked used and
    added to the counter. *)
Definition first_fit (s : pmm_t) (n addr : Z) (s' : pmm_t) : Prop :=
  (addr = 0 /\ s' = s /\
   (n = 0 \/ forall q, 0 <= q -> q + n <= total_pages s -> ~ free_run s q n)) \/
  exists first,
    addr = first * PAGE_SIZE /\ 0 < first /\ first + n <= total_pages s /\
    free_run s first n /\
    (forall q, 0 <= q < first -> ~ free_run s q n) /\
    (forall q, 0 <= q -> page_used s' q =
       ((first <=? q) && (q <? first + n)) || page_used s q) /\
    used_pages s' = used_pages s + n.

Lemma alloc_pages_spec s n :
  pmm_wf s -> 0 <= n ->
  pmm_wf (snd (pmm_alloc_pages s n)) /\
  total_pages (snd (pmm_alloc_pages s n)) = total_pages s /\
  first_fit s n (fst (pmm_alloc_pages s n)) (snd (pmm_alloc_pages s n)).
Proof.
  intros Hwf Hn. pose proof (wf_shape s Hwf) as Hs. pose proof (pmm_total s Hs) as Ht.
  unfold pmm_alloc_pages. destruct ((n =? 0) || (total_pages s <? n)) eqn:Hguard.
  { split; [done|]. split; [done|]. left. repeat split; try done.
    apply orb_true_iff in Hguard as [E|E]; bsimp; [by left|]. right. intros. lia. }
  bsimp.
  pose proof (scan_run_spec n (Z.to_nat (total_pages s)) s 0 0 0 Hs) as Hscan.
  destruct (scan_run s n 0 0 0 (Z.to_nat (total_pages s))) as [first|].
  - destruct Hscan as (Hf0 & Hfn & Hfree & Hmin);
      [lia|by apply scan_inv_start; [|lia]|lia|].
    assert (first <> 0).
    { intros ->. pose proof (wf_page0 s Hwf) as Hz. rewrite (Hfree 0) in Hz by lia.
      by apply diff_false_true, Hz; lia. }
    edestruct (commit_range s first n) as (H1 & H2 & H3 & H4); [done|lia|lia|done|done|done|].
    split; [done|]. split; [done|]. right. exists first. repeat split; auto; try lia.
    apply u32_id. unfold is_u32, PAGE_SIZE. lia.
  - split; [done|]. split; [done|]. left. repeat split; try done. right.
    apply Hscan; try lia. apply scan_inv_start; [done|lia].
Qed.

(** Contiguous allocation: on a consistent allocator [pmm_alloc_pages]
    either returns the address of the lowest run of [page_count] free pages,
    marks exactly those pages used and adds them to the counter, or returns
    NULL and changes nothing, and then no such run exists (or the request was
    for zero pages). The invariant of the allocator is kept. *)
Theorem pmm_alloc_pages_first_fit :
  forall (s : pmm_t) (page_count : Z),
    pmm_wf s -> 0 <= page_count ->
    let '(addr, s') := pmm_alloc_pages s page_count in
    pmm_wf s' /\ first_fit s page_count addr s'.
Proof.
  intros s n Hwf Hn. destruct (alloc_pages_spec s n Hwf Hn) as (H1 & _ & H2).
  by destruct (pmm_alloc_pages s n).
Qed.

(** ** Release *)

Lemma free_one_spec s p :
  pmm_wf s -> 0 < p < total_pages s ->
  pmm_wf (free_one s p) /\ total_pages (free_one s p) = total_pages s /\
  used_pages (free_one s p) = used_pages s - b2z (page_used s p) /\
  forall q, 0 <= q -> page_used (free_one s p) q = negb (p =? q) && page_used s q.
Proof.
  intros Hwf Hp. destruct Hwf as [Hs Hu H0] eqn:?. unfold free_one.
  rewrite test_page_used by lia. destruct (page_used s p) eqn:Hpu; cbn [b2z Z.eqb].
  2: { repeat split; try apply Hs; try done; [lia|]. intros q Hq.
       destruct (Z.eqb_spec p q) as [<-|]; [by rewrite Hpu|done]. }
  assert (Hq : forall q, 0 <= q -> page_used (pmm_clear_page s p) q = negb (p =? q) && page_used s q)
    by (intros; apply page_used_clear; done || lia).
  assert (Ht : total_pages (pmm_clear_page s p) = total_pages s)
    by (unfold pmm_clear_page; by destruct (p <? total_pages s)).
  assert (Hus : used_pages (pmm_clear_page s p) = used_pages s)
    by (unfold pmm_clear_page; by destruct (p <? total_pages s)).
  assert (0 < used_pages s).
  { rewrite Hu. apply (count_pages_pos _ _ p); [lia|done]. }
  rewrite Hus, (proj2 (Z.ltb_lt _ _)) by done. cbn [used_pages total_pages set_used_pages].
  repeat split; try done; try apply shape_clear_page; try done; cbn [used_pages total_pages set_used_pages].
  - rewrite Ht, (count_pages_update _ (page_used s) p), Hpu, <- Hu; [| |].
    + change (page_used (set_used_pages _ _) p) with (page_used (pmm_clear_page s p) p).
      rewrite Hq, Z.eqb_refl by lia. cbn. lia.
    + lia.
    + intros q Hq1 Hne. change (page_used (set_used_pages _ _) q) with (page_used (pmm_clear_page s p) q).
      rewrite Hq by lia. by rewrite (proj2 (Z.eqb_neq p q)).
  - intros _. change (page_used (set_used_pages _ _) 0) with (page_used (pmm_clear_page s p) 0).
    rewrite Hq, H0 by lia. rewrite (proj2 (Z.eqb_neq p 0)); [done|lia].
Qed.

Lemma free_range_spec n : forall s first,
  pmm_wf s -> 0 < first -> first + Z.of_nat n <= total_pages s ->
  pmm_wf (free_range s first n) /\ total_pages (free_range s first n) = total_pages s /\
  forall q, 0 <= q ->
    page_used (free_range s first n) q = negb (in_range q first n) && page_used s q.
Proof.
  induction n as [|n IH]; intros s first Hs Hf Hn; cbn [free_range].
  - repeat split; try apply Hs; try done. intros q Hq. unfold in_range.
    destruct (Z.leb_spec first q), (Z.ltb_spec q (first + Z.of_nat 0)); done || lia.
  - destruct (free_one_spec s first) as (H1 & H2 & H3 & H4); [done|lia|].
    destruct (IH (free_one s first) (first + 1)) as (H5 & H6 & H7); [done|lia|lia|].
    split; [done|]. split; [congruence|]. intros q Hq. rewrite H7, H4 by done.
    rewrite andb_assoc. f_equal. unfold in_range.
    destruct (Z.leb_spec (first + 1) q), (Z.leb_spec first q),
      (Z.ltb_spec q (first + 1 + Z.of_nat n)), (Z.ltb_spec q (first + Z.of_nat (S n))),
      (Z.eqb_spec first q); done || lia.
Qed.

Lemma free_pages_spec s page n :
  pmm_wf s -> PAGE_SIZE <= page \/ page = 0 -> 0 <= n ->
  pmm_wf (pmm_free_pages s page n) /\
  total_pages (pmm_free_pages s page n) = total_pages s /\
  forall q, 0 <= q ->
    page_used (pmm_free_pages s page n) q =
    negb ((page / PAGE_SIZE <=? q) && (q <? page / PAGE_SIZE + n)
          && (PAGE_SIZE <=? page) && (page / PAGE_SIZE + n <=? total_pages s))
    && page_used s q.
Proof.
  intros Hwf Hpage Hn. unfold pmm_free_pages.
  assert (Hp0 : PAGE_SIZE <= page -> 0 < page / PAGE_SIZE) by (unfold PAGE_SIZE; zlia).
  set (p := page / PAGE_SIZE) in *.
  destruct ((page =? 0) || (n =? 0)) eqn:G1; [|destruct ((total_pages s <=? p) || (total_pages s - p <? n)) eqn:G2].
  - split; [done|]. split; [done|]. intros q Hq.
    destruct (Z.leb_spec p q), (Z.ltb_spec q (p + n)), (Z.leb_spec PAGE_SIZE page); cbn; try done.
    apply orb_true_iff in G1 as [E|E]; bsimp; unfold PAGE_SIZE in *; lia.
  - split; [done|]. split; [done|]. intros q Hq.
    destruct (Z.leb_spec p q), (Z.ltb_spec q (p + n)), (Z.leb_spec PAGE_SIZE page),
      (Z.leb_spec (p + n) (total_pages s)); cbn; try done.
    apply orb_true_iff in G2 as [E|E]; bsimp; lia.
  - bsimp. destruct (free_range_spec (Z.to_nat n) s p) as (H1 & H2 & H3); [done|lia|lia|].
    split; [done|]. split; [done|]. intros q Hq. rewrite H3 by done. do 2 f_equal.
    unfold in_range. rewrite Z2Nat.id by lia.
    rewrite (proj2 (Z.leb_le PAGE_SIZE page)), (proj2 (Z.leb_le (p + n) _)) by lia.
    by rewrite !andb_true_r.
Qed.

(** Release: [pmm_free_pages] on any address and count keeps the
    allocator consistent (a double free or a partly free range never drives
    the counter below the number of used pages); on a range inside the
    managed pages that does not start at page 0 it frees exactly that range. *)
Theorem pmm_free_pages_spec :
  forall (s : pmm_t) (page page_count : Z),
    pmm_wf s -> PAGE_SIZE <= page \/ page = 0 -> 0 <= page_count ->
    let s' := pmm_free_pages s page page_count in
    pmm_wf s' /\ total_pages s' = total_pages s /\
    forall q, 0 <= q ->
      page_used s' q =
      negb ((page / PAGE_SIZE <=? q) && (q <? page / PAGE_SIZE + page_count)
            && (PAGE_SIZE <=? page) && (page / PAGE_SIZE + page_count <=? total_pages s))
      && page_used s q.
Proof. intros s page n H1 H2 H3. by apply free_pages_spec. Qed.

(** ** Boot *)

Lemma reserve_is_set_range n : forall s i,
  0 <= i -> i + Z.of_nat n <= total_pages s -> reserve_from s i n = set_range s i n.
Proof.
  induction n as [|n IH]; intros s i Hi Hn; cbn [reserve_from set_range]; [done|].
  rewrite (proj2 (Z.ltb_lt _ _)) by lia. apply IH; rewrite ?total_set_page; lia.
Qed.

(** The bitmap pmm.c builds starts with every page free. *)
Lemma fresh_map total :
  0 <= total < 1048576 ->
  let s := mk_pmm (replicate (Z.to_nat (((total + 7) / 8 + 3) / 4)) 0) total 0 in
  pmm_shape s /\ forall q, page_used s q = false.
Proof.
  intros Ht s. split.
  - constructor; cbn [total_pages memory_map s]; [done| |].
    + rewrite length_replicate. zlia.
    + apply Forall_replicate. unfold is_u32. lia.
  - intros q. unfold page_used, map_word; cbn [memory_map s].
    destruct (replicate _ 0 !! _) eqn:E; [|apply Z.bits_0].
    apply lookup_replicate in E as [-> _]. apply Z.bits_0.
Qed.

Lemma count_none n : count_pages (fun _ => false) n = 0.
Proof. induction n as [|n IH]; cbn; lia. Qed.

(** Reserving the first [n] pages of a fresh bitmap. *)
Lemma reserve_fresh total n :
  0 < n <= total -> total < 1048576 ->
  let s0 := mk_pmm (replicate (Z.to_nat (((total + 7) / 8 + 3) / 4)) 0) total 0 in
  let s := set_used_pages (reserve_from s0 0 (Z.to_nat n)) n in
  pmm_wf s /\ total_pages s = total /\ forall q, 0 <= q -> page_used s q = (q <? n).
Proof.
  intros Hn Ht s0 s. destruct (fresh_map total) as [Hs Hfree]; [lia|]. fold s0 in Hs, Hfree.
  assert (Hr : reserve_from s0 0 (Z.to_nat n) = set_range s0 0 (Z.to_nat n))
    by (apply reserve_is_set_range; cbn; lia).
  destruct (set_range_spec (Z.to_nat n) s0 0) as (H1 & H2 & H3 & H4); [done|lia|cbn; lia|].
  rewrite <- Hr in *. change (total_pages s0) with total in *.
  assert (Hq : forall q, 0 <= q -> page_used s q = (q <? n)).
  { intros q Hq. change (page_used s q) with (page_used (reserve_from s0 0 (Z.to_nat n)) q).
    rewrite H4, Hfree, orb_false_r by done. unfold in_range.
    by rewrite (proj2 (Z.leb_le 0 q)), Z.add_0_l, Z2Nat.id by lia. }
  split; [|split; [done|done]]. constructor.
  - by apply shape_set_used.
  - cbn [used_pages total_pages s set_used_pages]. rewrite H2.
    rewrite (count_pages_range_update (fun _ => false) _ 0 (Z.to_nat n)), count_none; try lia; try done.
    intros q Hq1. rewrite orb_false_r.
    change (page_used (reserve_from s0 0 (Z.to_nat n)) q = in_range q 0 (Z.to_nat n)).
    by rewrite H4, Hfree, orb_false_r by lia.
  - intros _. rewrite Hq by lia. apply Z.ltb_lt. lia.
Qed.

(** First byte after the kernel, the modules and the bitmap: where pmm.c puts
    the end of the reserved memory, before any 32-bit wrap-around. *)
Definition reserved_end (memory_size end_addr : Z) (mbi : multiboot_info_t) : Z :=
  (highest_address end_addr mbi + PAGE_SIZE - 1) / PAGE_SIZE * PAGE_SIZE
  + (memory_size / PAGE_SIZE + 7) / 8.

(** Boot: when the kernel image, the modules and the bitmap fit below the
    end of a memory of at least one page, [pmm_init] leaves a consistent
    allocator in which exactly the pages below the end of the bitmap are used
    and the counter equals their number. *)
Theorem pmm_init_spec :
  forall (memory_size end_addr : Z) (mbi : multiboot_info_t),
    is_u32 memory_size -> 0 <= highest_address end_addr mbi ->
    reserved_end memory_size end_addr mbi <= memory_size / PAGE_SIZE * PAGE_SIZE ->
    PAGE_SIZE <= memory_size ->
    let s := pmm_init memory_size end_addr mbi in
    pmm_wf s /\ total_pages s = memory_size / PAGE_SIZE /\
    forall q, 0 <= q -> page_used s q = (q * PAGE_SIZE <? reserved_end memory_size end_addr mbi).
Proof.
  intros size ea mbi Hsize Hhigh Hfit Hmin. unfold pmm_init, reserved_end in *.
  set (total := size / PAGE_SIZE) in *. set (hi := highest_address ea mbi) in *.
  assert (Ht : 0 < total < 1048576) by (unfold total, is_u32, PAGE_SIZE in *; zlia).
  assert (Hend : 0 <= hi + PAGE_SIZE - 1 /\ (hi + PAGE_SIZE - 1) / PAGE_SIZE * PAGE_SIZE + (total + 7) / 8
          <= total * PAGE_SIZE /\ total * PAGE_SIZE <= size) by (unfold total, PAGE_SIZE in *; zlia).
  assert (Hlow : is_u32 (hi + PAGE_SIZE - 1)) by (unfold is_u32, PAGE_SIZE in *; zlia).
  rewrite (u32_id (hi + PAGE_SIZE - 1)) by done.
  assert (Hal : Z.land (hi + PAGE_SIZE - 1) (u32 (Z.lnot (PAGE_SIZE - 1)))
          = (hi + PAGE_SIZE - 1) / PAGE_SIZE * PAGE_SIZE)
    by (apply (land_align _ 12); [done|lia]).
  rewrite Hal. clear Hal.
  set (e := (hi + PAGE_SIZE - 1) / PAGE_SIZE * PAGE_SIZE + (total + 7) / 8) in *.
  assert (He : 0 < e) by (unfold e, PAGE_SIZE in *; zlia).
  assert (Hu : is_u32 e /\ is_u32 (e + PAGE_SIZE - 1)) by (unfold is_u32, PAGE_SIZE in *; zlia).
  rewrite (u32_id e), (u32_id (e + PAGE_SIZE - 1)) by apply Hu.
  set (n := (e + PAGE_SIZE - 1) / PAGE_SIZE).
  assert (Hn : 0 < n <= total) by (unfold n, PAGE_SIZE in *; zlia).
  destruct (reserve_fresh total n Hn) as (H1 & H2 & H3); [lia|].
  split; [done|]. split; [done|]. intros q Hq. rewrite H3 by done.
  destruct (Z.ltb_spec q n), (Z.ltb_spec (q * PAGE_SIZE) e); try done;
    subst n; clearbody e; unfold PAGE_SIZE in *; clear -H H0 Hq; zlia.
Qed.

(** ** Searching one free page *)

(** Bit [p] of a list of words. *)
Definition bit_at (words : list Z) (p : Z) : bool :=
  Z.testbit (default 0 (words !! Z.to_nat (p / 32))) (p mod 32).

Lemma bit_at_head w words p : 0 <= p < 32 -> bit_at (w :: words) p = Z.testbit w p.
Proof.
  intros Hp. unfold bit_at. by rewrite (Z.div_small p 32), (Z.mod_small p 32).
Qed.

Lemma bit_at_tail w words p : 32 <= p -> bit_at (w :: words) p = bit_at words (p - 32).
Proof.
  intros Hp. unfold bit_at.
  replace (Z.to_nat (p / 32)) with (S (Z.to_nat ((p - 32) / 32))) by zlia.
  by replace (p mod 32) with ((p - 32) mod 32) by zlia.
Qed.

Lemma find_in_word_spec total w i fuel : forall j,
  0 <= i -> i * 32 + 32 <= 4294967296 -> 0 <= j -> j + Z.of_nat fuel = 32 ->
  match find_in_word total w i j fuel with
  | Some p => exists k, j <= k < 32 /\ p = i * 32 + k /\ p < total /\
      Z.testbit w k = false /\
      forall m, j <= m < k -> Z.testbit w m = true \/ total <= i * 32 + m
  | None => forall m, j <= m < 32 -> Z.testbit w m = true \/ total <= i * 32 + m
  end.
Proof.
  induction fuel as [|fuel IH]; intros j Hi Hmax Hj Hf; cbn [find_in_word]; [lia|].
  rewrite land_bit_zero, u32_id by (unfold is_u32; lia).
  destruct (negb (Z.testbit w j) && (i * 32 + j <? total)) eqn:G.
  - bsimp. exists j. repeat split; auto; lia.
  - assert (Hcur : Z.testbit w j = true \/ total <= i * 32 + j).
    { apply andb_false_iff in G as [G|G]; bsimp; auto. }
    specialize (IH (j + 1)). destruct (find_in_word total w i (j + 1) fuel) as [p|].
    + destruct IH as (k & ? & ? & ? & ? & Hm); [lia..|]. exists k. repeat split; auto; try lia.
      intros m Hm1. destruct (Z.eq_dec m j) as [->|]; [done|]. apply Hm. lia.
    + intros m Hm1. destruct (Z.eq_dec m j) as [->|]; [done|]. apply IH; lia.
Qed.

Lemma all_ones k : 0 <= k < 32 -> Z.testbit 4294967295 k = true.
Proof. intros. change 4294967295 with (Z.ones 32). apply Z.ones_spec_low. lia. Qed.

Lemma find_in_map_spec total words : forall i,
  0 <= i -> (i + Z.of_nat (length words)) * 32 <= 4294967296 ->
  (find_in_map total i words = 4294967295 /\
   forall p, 0 <= p < 32 * Z.of_nat (length words) ->
     bit_at words p = true \/ total <= i * 32 + p) \/
  (exists p, 0 <= p < 32 * Z.of_nat (length words) /\
     find_in_map total i words = i * 32 + p /\ i * 32 + p < total /\
     bit_at words p = false /\
     forall q, 0 <= q < p -> bit_at words q = true).
Proof.
  induction words as [|w words IH]; intros i Hi Hmax; cbn [find_in_map length].
  { left. split; [done|]. cbn. lia. }
  cbn [length] in Hmax. specialize (IH (i + 1)).
  set (r := if w =? 4294967295 then None else find_in_word total w i 0 32).
  assert (Hr : match r with
    | Some p => exists k, 0 <= k < 32 /\ p = i * 32 + k /\ p < total /\ Z.testbit w k = false /\
        forall m, 0 <= m < k -> Z.testbit w m = true \/ total <= i * 32 + m
    | None => forall m, 0 <= m < 32 -> Z.testbit w m = true \/ total <= i * 32 + m end).
  { unfold r. destruct (Z.eqb_spec w 4294967295) as [->|].
    - intros m Hm. left. by apply all_ones.
    - apply find_in_word_spec; lia. }
  clearbody r. destruct r as [p|].
  - destruct Hr as (k & Hk & -> & Hlt & Hb & Hm). right. exists k.
    rewrite bit_at_head by done. repeat split; auto; try lia.
    intros q Hq. rewrite bit_at_head by lia. destruct (Hm q); [lia|done|lia].
  - destruct IH as [[-> Hall]|(p & Hp & -> & Hlt & Hb & Hm)]; [lia|lia|left|right].
    + split; [done|]. intros p Hp. destruct (Z.lt_ge_cases p 32).
      * rewrite bit_at_head by lia. apply Hr. lia.
      * rewrite bit_at_tail by lia. destruct (Hall (p - 32)); [lia|auto|right; lia].
    + exists (p + 32). rewrite bit_at_tail, Z.add_simpl_r by lia. repeat split; auto; try lia.
      intros q Hq. destruct (Z.lt_ge_cases q 32).
      * rewrite bit_at_head by lia. destruct (Hr q); [lia|done|lia].
      * rewrite bit_at_tail by lia. apply Hm. lia.
Qed.

(** [pmm_find_free_page] returns the lowest free page number, or
    0xFFFFFFFF exactly when every managed page is used. *)
Theorem pmm_find_free_page_spec :
  forall s : pmm_t, pmm_shape s ->
    (pmm_find_free_page s = 4294967295 /\
     forall p, 0 <= p < total_pages s -> page_used s p = true) \/
    (0 <= pmm_find_free_page s < total_pages s /\
     page_used s (pmm_find_free_page s) = false /\
     forall q, 0 <= q < pmm_find_free_page s -> page_used s q = true).
Proof.
  intros s Hs. destruct Hs as [Ht Hw _]. unfold pmm_find_free_page.
  rewrite take_ge by lia.
  assert (Hbit : forall p, page_used s p = bit_at (memory_map s) p) by done.
  destruct (find_in_map_spec (total_pages s) (memory_map s) 0) as [[-> Hall]|(p & Hp & -> & Hlt & Hb & Hm)];
    [lia|zlia|left|right].
  - split; [done|]. intros p Hp. rewrite Hbit. destruct (Hall p); [zlia|done|lia].
  - rewrite Z.add_0_l in *. repeat split; try lia; [by rewrite Hbit|].
    intros q Hq. rewrite Hbit. by apply Hm.
Qed.

(** ** Live allocations *)

(** An allocation a caller holds: the address and the number of pages. *)
Definition alloc : Type := Z * Z.

Definition alloc_covers (q : Z) (a : alloc) : bool :=
  (fst a / PAGE_SIZE <=? q) && (q <? fst a / PAGE_SIZE + snd a).

(** How many live allocations contain page [q]. *)
Fixpoint owners (live : list alloc) (q : Z) : Z :=
  match live with
  | [] => 0
  | a :: live => b2z (alloc_covers q a) + owners live q
  end.

(** The kernel's use of the allocator: allocations, failed or not, and
    releases of allocations that are live. *)
Inductive pmm_step : pmm_t * list alloc -> pmm_t * list alloc -> Prop :=
| step_alloc s s' live n addr :
    0 <= n -> pmm_alloc_pages s n = (addr, s') -> addr <> 0 ->
    pmm_step (s, live) (s', (addr, n) :: live)
| step_alloc_fails s s' live n :
    0 <= n -> pmm_alloc_pages s n = (0, s') ->
    pmm_step (s, live) (s', live)
| step_free s live1 live2 addr n :
    pmm_step (s, live1 ++ (addr, n) :: live2)
             (pmm_free_pages s addr n, live1 ++ live2).

Definition alloc_valid (total : Z) (a : alloc) : Prop :=
  exists first, fst a = first * PAGE_SIZE /\ 0 < first /\ 0 <= snd a /\
    first + snd a <= total.

(** The accounting invariant relative to the state [s0] the kernel started
    from: a page is used exactly once, by the boot reservation or by one
    live allocation. *)
Record accounted (s0 : pmm_t) (c : pmm_t * list alloc) : Prop := {
  acc_wf : pmm_wf (fst c);
  acc_total : total_pages (fst c) = total_pages s0;
  acc_valid : Forall (alloc_valid (total_pages s0)) (snd c);
  acc_pages : forall q, 0 <= q < total_pages s0 ->
    b2z (page_used (fst c) q) = b2z (page_used s0 q) + owners (snd c) q
}.

Lemma owners_app l1 l2 q : owners (l1 ++ l2) q = owners l1 q + owners l2 q.
Proof. induction l1 as [|a l1 IH]; cbn; lia. Qed.

Lemma owners_nonneg l q : 0 <= owners l q.
Proof. induction l as [|a l IH]; cbn; [lia|]. destruct (alloc_covers q a); cbn; lia. Qed.

Lemma page_mul_div n : n * PAGE_SIZE / PAGE_SIZE = n.
Proof. apply Z.div_mul. done. Qed.

Lemma accounted_alloc s0 s live n addr s' :
  accounted s0 (s, live) -> 0 <= n -> pmm_alloc_pages s n = (addr, s') ->
  accounted s0 (s', if addr =? 0 then live else (addr, n) :: live).
Proof.
  intros [Hwf Ht Hv Hp] Hn Ha. cbn [fst snd] in *.
  destruct (alloc_pages_spec s n Hwf Hn) as (Hwf' & Htot & Hspec). rewrite Ha in *.
  cbn [fst snd] in *. destruct Hspec as [(-> & -> & _)|(f & -> & Hf & Hfn & Hfree & _ & Hq & Hu)].
  - by constructor.
  - destruct (Z.eqb_spec (f * PAGE_SIZE) 0); [unfold PAGE_SIZE in *; lia|].
    constructor; cbn [fst snd]; [done|congruence| |].
    + constructor; [|done]. exists f. rewrite <- Ht. auto.
    + intros q Hq1. rewrite Hq by lia. cbn [owners]. unfold alloc_covers; cbn [fst snd].
      rewrite page_mul_div. specialize (Hp q Hq1).
      destruct ((f <=? q) && (q <? f + n)) eqn:E; cbn; [|lia]. bsimp.
      rewrite (Hfree q) in Hp by lia. cbn in Hp. lia.
Qed.

Lemma accounted_free s0 s l1 l2 addr n :
  accounted s0 (s, l1 ++ (addr, n) :: l2) ->
  accounted s0 (pmm_free_pages s addr n, l1 ++ l2).
Proof.
  intros [Hwf Ht Hv Hp]. cbn [fst snd] in *.
  apply Forall_app in Hv as [Hv1 Hv2]. inversion Hv2 as [|? ? Ha Hv2']; subst.
  destruct Ha as (f & Hf & Hf0 & Hn0 & Hfn). cbn [fst snd] in *. subst addr.
  destruct (free_pages_spec s (f * PAGE_SIZE) n) as (H1 & H2 & H3);
    [done|unfold PAGE_SIZE; lia|done|]. rewrite page_mul_div in H3.
  constructor; cbn [fst snd]; [done|congruence|by apply Forall_app|].
  intros q Hq. rewrite H3 by lia. specialize (Hp q Hq).
  rewrite owners_app in *. cbn [owners] in Hp. unfold alloc_covers in Hp; cbn [fst snd] in Hp.
  rewrite page_mul_div in Hp.
  rewrite (proj2 (Z.leb_le PAGE_SIZE (f * PAGE_SIZE))), (proj2 (Z.leb_le (f + n) _)), !andb_true_r
    by (unfold PAGE_SIZE; lia).
  pose proof (owners_nonneg l1 q). pose proof (owners_nonneg l2 q).
  destruct ((f <=? q) && (q <? f + n)), (page_used s q), (page_used s0 q); cbn in *; lia.
Qed.

(** C36. Page accounting: starting from any consistent allocator (such as the
    one [pmm_init] builds), after every sequence of allocations and releases
    of live allocations, each managed page is used by exactly one of: the
    boot reservation, one live allocation; or by nobody and is free. So live
    allocations are pairwise disjoint, never overlap reserved memory, and
    nothing leaks. The counter still equals the number of used pages. *)
Theorem pmm_page_accounting :
  forall (s0 s : pmm_t) (live : list alloc),
    pmm_wf s0 -> rtc pmm_step (s0, []) (s, live) ->
    pmm_wf s /\
    forall q, 0 <= q < total_pages s0 ->
      b2z (page_used s q) = b2z (page_used s0 q) + owners live q.
Proof.
  intros s0 s live H0 Hr.
  assert (Hacc : accounted s0 (s0, [])).
  { constructor; cbn; auto. intros. lia. }
  enough (accounted s0 (s, live)) as [? _ _ ?] by done.
  revert Hacc. remember (s0, []) as c eqn:E. clear E. revert Hr.
  generalize (s, live). intros c' Hr. induction Hr as [|c c1 c' Hstep Hr IH]; [done|].
  intros Hacc. apply IH. clear IH Hr.
  destruct Hstep as [t t' l n addr Hn Ha Hne|t t' l n Hn Ha|t l1 l2 addr n].
  - pose proof (accounted_alloc _ _ _ _ _ _ Hacc Hn Ha) as H.
    by rewrite (proj2 (Z.eqb_neq addr 0)) in H.
  - exact (accounted_alloc _ _ _ _ _ _ Hacc Hn Ha).
  - by apply accounted_free.
Qed.

(** ** The page-granular heap *)

(** [kmalloc] never hands out less than was asked: for every 32-bit size,
    also when [size + PAGE_SIZE - 1] wraps around, the result is NULL with
    nothing changed, or the start of a page range, free before and used
    after, whose length in bytes is at least [size]. *)
Theorem kmalloc_covers_request :
  forall (s : pmm_t) (size : Z),
    pmm_wf s -> is_u32 size ->
    let '(addr, s') := kmalloc s size in
    pmm_wf s' /\
    ((addr = 0 /\ s' = s) \/
     exists n, size <= n * PAGE_SIZE /\ 0 < addr /\ addr + n * PAGE_SIZE <= total_pages s * PAGE_SIZE /\
       forall q, addr <= q * PAGE_SIZE < addr + n * PAGE_SIZE ->
         page_used s q = false /\ page_used s' q = true).
Proof.
  intros s size Hwf Hsz. unfold kmalloc. destruct (Z.eqb_spec size 0) as [|Hnz]; [by auto|].
  unfold is_u32 in Hsz. set (n := u32 (size + PAGE_SIZE - 1) / PAGE_SIZE).
  assert (Hn : 0 <= n /\ (n = 0 \/ size <= n * PAGE_SIZE))
    by (unfold n, u32, PAGE_SIZE; zlia).
  destruct (alloc_pages_spec s n Hwf) as (Hwf' & _ & Hspec); [lia|].
  destruct (pmm_alloc_pages s n) as [addr s'] eqn:Ha. cbn [fst snd] in *. split; [done|].
  destruct Hspec as [(-> & -> & _)|(f & -> & Hf & Hfn & Hfree & _ & Hq & _)]; [by auto|].
  destruct (Z.eq_dec n 0) as [E|Hne].
  { rewrite E in Ha. unfold pmm_alloc_pages in Ha. cbn in Ha. left.
    injection Ha as Ha <-. split; [done|done]. }
  right. exists n. unfold PAGE_SIZE in *. repeat split; [lia|lia|lia| |].
  - apply Hfree. lia.
  - rewrite Hq by lia. by rewrite (proj2 (Z.leb_le f q)), (proj2 (Z.ltb_lt q (f + n))) by lia.
Qed.

(** ** Witnesses on a forty-page memory with three reserved pages *)

Definition small_pmm : pmm_t := mk_pmm [7; 0] 40 3.

Lemma small_pmm_wf : pmm_wf small_pmm.
Proof.
  constructor; [constructor| |done]; cbn [total_pages memory_map used_pages small_pmm].
  - lia.
  - reflexivity.
  - repeat constructor; unfold is_u32; lia.
  - vm_compute. reflexivity.
Qed.

Example pmm_alloc_pages_first_fit_witness :
  fst (pmm_alloc_pages small_pmm 35) = 12288 /\
  first_fit small_pmm 35 12288 (snd (pmm_alloc_pages small_pmm 35)).
Proof.
  split; [vm_compute; reflexivity|].
  exact (proj2 (pmm_alloc_pages_first_fit small_pmm 35 small_pmm_wf ltac:(lia))).
Defined.

Example pmm_free_pages_spec_witness :
  page_used small_pmm 2 = true /\ page_used (pmm_free_pages small_pmm 8192 1) 2 = false.
Proof.
  split; [reflexivity|].
  destruct (pmm_free_pages_spec small_pmm 8192 1 small_pmm_wf) as (_ & _ & H);
    [left; unfold PAGE_SIZE; lia | lia |].
  rewrite H by lia. reflexivity.
Defined.

Example pmm_init_spec_witness :
  pmm_wf (pmm_init 8388608 1048576 (mk_mbi 8 [mk_module 1200000 1300000])).
Proof.
  refine (proj1 (pmm_init_spec 8388608 1048576 (mk_mbi 8 [mk_module 1200000 1300000]) _ _ _ _)).
  - unfold is_u32. lia.
  - vm_compute. discriminate.
  - vm_compute. discriminate.
  - vm_compute. discriminate.
Defined.

Example pmm_find_free_page_spec_witness :
  pmm_find_free_page small_pmm = 3 /\
  (forall q, 0 <= q < 3 -> page_used small_pmm q = true).
Proof.
  split; [vm_compute; reflexivity|].
  destruct (pmm_find_free_page_spec small_pmm (wf_shape _ small_pmm_wf)) as [[H _]|(_ & _ & H)].
  - vm_compute in H. discriminate H.
  - exact H.
Defined.

Example pmm_page_accounting_witness :
  b2z (page_used (snd (pmm_alloc_pages small_pmm 2)) 3)
  = b2z (page_used small_pmm 3) + owners [(12288, 2)] 3.
Proof.
  refine (proj2 (pmm_page_accounting small_pmm (snd (pmm_alloc_pages small_pmm 2)) [(12288, 2)]
    small_pmm_wf _) 3 _); [|vm_compute; split; [discriminate|reflexivity]].
  apply rtc_once, step_alloc; [lia|vm_compute; reflexivity|lia].
Defined.

Example kmalloc_covers_request_witness :
  fst (kmalloc small_pmm 5000) = 12288 /\ fst (kmalloc small_pmm 4294967295) = 0 /\
  pmm_wf (snd (kmalloc small_pmm 5000)).
Proof.
  split; [vm_compute; reflexivity|]. split; [vm_compute; reflexivity|].
  refine (proj1 (kmalloc_covers_request small_pmm 5000 small_pmm_wf _)). unfold is_u32. lia.
Defined.
