(* ===== verification/Vmm.v ===== *)
(** * Page tables: kernel/mem/vmm.c and kernel/mem/vmm_share.c

    Page tables live in physical pages taken from the allocator of Pmm and are
    shared between directories: a task directory starts with the tables of the
    kernel directory and gets private copies when user pages are mapped.  The
    tables are therefore a store indexed by physical address, and a directory
    holds addresses into it. *)

From stdpp Require Import base list numbers option tactics gmap.
From Stdlib Require Import ZArith Lia.
From S2P Require Import Prelude Pmm.

Definition PAGE_PRESENT : Z := 1.
Definition PAGE_WRITE : Z := 2.
Definition PAGE_USER : Z := 4.
Definition PAGE_BORROWED : Z := 512.
Definition ENTRIES_PER_TABLE : Z := 1024.
Definition VMM_IDENTITY_LIMIT : Z := 1024 * 1024 * 1024.

(** [page_t]: the bit-fields of one entry, low bits first.  [unused] holds bits
    5 to 11, so the software bit [PAGE_BORROWED] (bit 9) is bit 4 of it. *)
Record page_t := mk_page {
  present : Z; rw : Z; user : Z; accessed : Z; dirty : Z; unused : Z; frame : Z
}.

Definition zero_page : page_t := mk_page 0 0 0 0 0 0 0.
#[export] Instance page_inhabited : Inhabited page_t := populate zero_page.

(** The entry as the 32-bit word the MMU reads. *)
Definition page_word (p : page_t) : Z :=
  present p + 2 * rw p + 4 * user p + 8 * accessed p + 16 * dirty p
  + 32 * unused p + 4096 * frame p.

Definition zero_table : list page_t := replicate (Z.to_nat ENTRIES_PER_TABLE) zero_page.

(** [vmm_directory_t]; address 0 in [tables] is a NULL table pointer and
    [tablesPhysical] is the hardware directory [physical_dir] points to. *)
Record vmm_directory_t := mk_dir {
  tables : list Z;
  tablesPhysical : list Z;
  physical_addr : Z;
  static_storage : Z;
  private_table_mask : list Z
}.

Definition empty_dir : vmm_directory_t :=
  mk_dir (replicate 1024 0) (replicate 1024 0) 0 0 (replicate 32 0).
#[export] Instance dir_inhabited : Inhabited vmm_directory_t := populate empty_dir.

(** The virtual-memory state: allocator, table store, directories by address,
    and the two global directory pointers (0 is NULL). *)
Record vmm_t := mk_vmm {
  v_pmm : pmm_t;
  v_tables : gmap Z (list page_t);
  v_dirs : gmap Z vmm_directory_t;
  kernel_directory : Z;
  current_directory : Z
}.

Definition set_pmm (v : vmm_t) (p : pmm_t) : vmm_t :=
  mk_vmm p (v_tables v) (v_dirs v) (kernel_directory v) (current_directory v).
Definition set_tables (v : vmm_t) (t : gmap Z (list page_t)) : vmm_t :=
  mk_vmm (v_pmm v) t (v_dirs v) (kernel_directory v) (current_directory v).
Definition set_dirs (v : vmm_t) (d : gmap Z vmm_directory_t) : vmm_t :=
  mk_vmm (v_pmm v) (v_tables v) d (kernel_directory v) (current_directory v).

Definition get_dir (v : vmm_t) (dir : Z) : vmm_directory_t :=
  default empty_dir (v_dirs v !! dir).
Definition get_table (v : vmm_t) (addr : Z) : list page_t :=
  default zero_table (v_tables v !! addr).
Definition dir_table (d : vmm_directory_t) (i : Z) : Z := default 0 (tables d !! Z.to_nat i).
Definition dir_phys (d : vmm_directory_t) (i : Z) : Z :=
  default 0 (tablesPhysical d !! Z.to_nat i).

(** [dir->tables[i] = t; dir->physical_dir->tablesPhysical[i] = phys] *)
Definition dir_set_table (d : vmm_directory_t) (i t phys : Z) : vmm_directory_t :=
  mk_dir (<[Z.to_nat i := t]> (tables d)) (<[Z.to_nat i := phys]> (tablesPhysical d))
    (physical_addr d) (static_storage d) (private_table_mask d).

Definition vmm_table_is_private (d : vmm_directory_t) (table_index : Z) : Z :=
  u8 (Z.land (Z.shiftr (default 0 (private_table_mask d !! Z.to_nat (table_index / 32)))
                (table_index mod 32)) 1).

Definition vmm_table_mark_private (d : vmm_directory_t) (table_index : Z) : vmm_directory_t :=
  mk_dir (tables d) (tablesPhysical d) (physical_addr d) (static_storage d)
    (<[Z.to_nat (table_index / 32) :=
         Z.lor (default 0 (private_table_mask d !! Z.to_nat (table_index / 32)))
               (Z.shiftl 1 (table_index mod 32))]> (private_table_mask d)).

(** A pointer to a page entry: the table and the index in it. *)
Definition page_ptr : Type := Z * Z.

Definition read_page (v : vmm_t) (p : page_ptr) : page_t :=
  get_table v (fst p) !!! Z.to_nat (snd p).

Definition write_page (v : vmm_t) (p : page_ptr) (x : page_t) : vmm_t :=
  set_tables v (<[fst p := <[Z.to_nat (snd p) := x]> (get_table v (fst p))]> (v_tables v)).

Definition vmm_get_page (v : vmm_t) (address make dir : Z) : vmm_t * ptr page_ptr :=
  let address := address / 4096 in
  let table_idx := address / 1024 in
  let d := get_dir v dir in
  if negb (dir_table d table_idx =? 0) then
    (v, Some (dir_table d table_idx, address mod 1024))
  else if c_true make then
    let '(new_table, pmm) := pmm_alloc_page (v_pmm v) in
    let v := set_pmm v pmm in
    if new_table =? 0 then (v, NULL)
    else
      let v := set_tables v (<[new_table := zero_table]> (v_tables v)) in
      let v := set_dirs v (<[dir := dir_set_table d table_idx new_table
                                      (Z.lor new_table 7)]> (v_dirs v)) in
      (v, Some (new_table, address mod 1024))
  else (v, NULL).

Definition vmm_ensure_private_user_table (v : vmm_t) (dir table_index : Z) : Z * vmm_t :=
  if (dir =? 0) || (ENTRIES_PER_TABLE <=? table_index) then (-1, v)
  else
    let d := get_dir v dir in
    if negb (vmm_table_is_private d table_index =? 0) then (0, v)
    else
      let '(private_table, pmm) := pmm_alloc_page (v_pmm v) in
      let v := set_pmm v pmm in
      if private_table =? 0 then (-2, v)
      else
        let content := if negb (dir_table d table_index =? 0)
                       then get_table v (dir_table d table_index) else zero_table in
        let v := set_tables v (<[private_table := content]> (v_tables v)) in
        let d := dir_set_table d table_index private_table (Z.lor private_table 7) in
        (0, set_dirs v (<[dir := vmm_table_mark_private d table_index]> (v_dirs v))).

Definition flag (flags mask : Z) : Z := if Z.land flags mask =? 0 then 0 else 1.

Definition vmm_map_page_in_directory (v : vmm_t) (dir physaddr virtualaddr flags : Z)
    : Z * vmm_t :=
  if (dir =? 0) || (physaddr =? 0) || (virtualaddr =? 0) then (-1, v)
  else
    let table_index := virtualaddr / PAGE_SIZE / ENTRIES_PER_TABLE in
    let '(rc, v) :=
      if (negb (Z.land flags PAGE_USER =? 0)) && negb (dir =? kernel_directory v)
      then vmm_ensure_private_user_table v dir table_index else (0, v) in
    if negb (rc =? 0) then (-2, v)
    else
      match vmm_get_page v virtualaddr 1 dir with
      | (v, NULL) => (-3, v)
      | (v, Some page) =>
          let old := read_page v page in
          (0, write_page v page
                (mk_page (flag flags PAGE_PRESENT) (flag flags PAGE_WRITE)
                   (flag flags PAGE_USER) (accessed old) (dirty old) (unused old)
                   (physaddr / PAGE_SIZE)))
      end.

(** [page && (word & PAGE_BORROWED) != 0], on the software bits of the entry. *)
Definition vmm_page_is_borrowed (p : ptr page_t) : Z :=
  match p with
  | NULL => 0
  | Some p => b2z (Z.testbit (unused p) 4)
  end.

(** The entry's word with [PAGE_BORROWED] or-ed in. *)
Definition mark_borrowed (p : page_t) : page_t :=
  mk_page (present p) (rw p) (user p) (accessed p) (dirty p)
    (Z.lor (unused p) (Z.shiftl 1 4)) (frame p).

(** The common body of the two borrowed mappings, with the flags each passes. *)
Definition map_borrowed (v : vmm_t) (dir physaddr virtualaddr flags : Z) : Z * vmm_t :=
  if (dir =? 0) || (dir =? kernel_directory v) then (-1, v)
  else
    let '(rc, v) := vmm_map_page_in_directory v dir physaddr virtualaddr flags in
    if negb (rc =? 0) then (rc, v)
    else
      match vmm_get_page v virtualaddr 0 dir with
      | (v, NULL) => (-3, v)
      | (v, Some page) => (0, write_page v page (mark_borrowed (read_page v page)))
      end.

Definition vmm_map_borrowed_user_page (v : vmm_t) (dir physaddr virtualaddr : Z) : Z * vmm_t :=
  map_borrowed v dir physaddr virtualaddr (Z.lor PAGE_PRESENT PAGE_USER).

Definition vmm_map_borrowed_user_page_rw (v : vmm_t) (dir physaddr virtualaddr : Z)
    : Z * vmm_t :=
  map_borrowed v dir physaddr virtualaddr (Z.lor (Z.lor PAGE_PRESENT PAGE_USER) PAGE_WRITE).

(** Inner loop of [vmm_destroy_user_directory] over the entries of a table. *)
Definition free_user_page (pmm : pmm_t) (p : page_t) : pmm_t :=
  if c_true (present p) && c_true (user p) && negb (c_true (vmm_page_is_borrowed (Some p)))
  then pmm_free_page pmm (u32 (frame p * PAGE_SIZE)) else pmm.

(** Outer loop, from [table_index] on. *)
Fixpoint destroy_tables (v : vmm_t) (d : vmm_directory_t) (table_index : Z) (n : nat)
    : vmm_t :=
  match n with
  | O => v
  | S n =>
      let table := dir_table d table_index in
      let v :=
        if (vmm_table_is_private d table_index =? 0) || (table =? 0) then v
        else
          let pmm := fold_left free_user_page (get_table v table) (v_pmm v) in
          set_pmm v (pmm_free_page pmm table) in
      destroy_tables v d (table_index + 1) n
  end.

Definition vmm_destroy_user_directory (v : vmm_t) (dir : Z) : Z * vmm_t :=
  if (dir =? 0) || (dir =? kernel_directory v) || (dir =? current_directory v) then (-1, v)
  else if static_storage (get_dir v dir) =? 0 then (-2, v)
  else (0, destroy_tables v (get_dir v dir) 0 (Z.to_nat ENTRIES_PER_TABLE)).

(** ** kernel/mem/vmm_share.c *)

Definition vmm_share_is_private (d : vmm_directory_t) (table_index : Z) : Z :=
  Z.land (Z.shiftr (default 0 (private_table_mask d !! Z.to_nat (table_index / 32)))
            (table_index mod 32)) 1.

(** The loop from [i]: fills the holes of [dst] and counts them. *)
Fixpoint share_loop (dst src : vmm_directory_t) (i shared : Z) (n : nat)
    : vmm_directory_t * Z :=
  match n with
  | O => (dst, shared)
  | S n =>
      if (dir_table src i =? 0) || negb (dir_table dst i =? 0)
         || negb (vmm_share_is_private dst i =? 0)
      then share_loop dst src (i + 1) shared n
      else share_loop (dir_set_table dst i (dir_table src i) (dir_phys src i)) src
             (i + 1) (u32 (shared + 1)) n
  end.

(** [dst] and [src] are directory addresses; the tables arrays of a live
    directory are never NULL. *)
Definition vmm_share_kernel_tables (v : vmm_t) (dst src first count : Z) : Z * vmm_t :=
  if (dst =? 0) || (src =? 0) || (dst =? src) || (ENTRIES_PER_TABLE <=? first) then (0, v)
  else
    let count := if ENTRIES_PER_TABLE - first <? count then ENTRIES_PER_TABLE - first
                 else count in
    let '(d, shared) := share_loop (get_dir v dst) (get_dir v src) first 0 (Z.to_nat count) in
    (shared, set_dirs v (<[dst := d]> (v_dirs v))).

(** ** What the MMU sees *)

(** The entry a directory maps a virtual address to: the walk through the
    hardware directory, or nothing if the directory entry or the page entry is
    not present. *)
Definition walk (v : vmm_t) (dir va : Z) : option page_t :=
  let pde := dir_phys (get_dir v dir) (va / PAGE_SIZE / ENTRIES_PER_TABLE) in
  if Z.odd pde then
    let p := get_table v (pde / PAGE_SIZE * PAGE_SIZE)
               !!! Z.to_nat ((va / PAGE_SIZE) mod ENTRIES_PER_TABLE) in
    if present p =? 0 then None else Some p
  else None.

(** ** Well-formed states *)

(** A table address: a page of the allocator that is in use, holding 1024
    entries. *)
Record table_ok (v : vmm_t) (a : Z) : Prop := {
  tab_aligned : a = a / PAGE_SIZE * PAGE_SIZE;
  tab_page : 0 < a / PAGE_SIZE < total_pages (v_pmm v);
  tab_used : page_used (v_pmm v) (a / PAGE_SIZE) = true;
  tab_size : length (get_table v a) = 1024%nat
}.

Record dir_ok (v : vmm_t) (d : vmm_directory_t) : Prop := {
  dir_len : length (tables d) = 1024%nat;
  dir_plen : length (tablesPhysical d) = 1024%nat;
  dir_mlen : length (private_table_mask d) = 32%nat;
  dir_mask : Forall is_u32 (private_table_mask d);
  dir_hole : forall i, 0 <= i < 1024 -> dir_table d i = 0 -> Z.odd (dir_phys d i) = false;
  dir_entry : forall i, 0 <= i < 1024 -> dir_table d i <> 0 ->
    table_ok v (dir_table d i) /\ Z.odd (dir_phys d i) = true /\
    dir_phys d i / PAGE_SIZE * PAGE_SIZE = dir_table d i
}.

Definition is_private (d : vmm_directory_t) (i : Z) : Prop :=
  vmm_table_is_private d i <> 0.

(** The invariant: consistent allocator and directories, and a private table
    is referenced by one slot of one directory only. *)
Record vmm_wf (v : vmm_t) : Prop := {
  vmm_pmm_wf : pmm_wf (v_pmm v);
  vmm_dirs_ok : forall dir d, v_dirs v !! dir = Some d -> dir_ok v d;
  vmm_private : forall dir d i, v_dirs v !! dir = Some d -> 0 <= i < 1024 ->
    is_private d i ->
    dir_table d i <> 0 /\
    forall dir' d' j, v_dirs v !! dir' = Some d' -> 0 <= j < 1024 ->
      dir_table d' j = dir_table d i -> dir' = dir /\ j = i
}.

(** ** Directory slots *)

Lemma dir_table_set d i j t p :
  length (tables d) = 1024%nat -> 0 <= i < 1024 -> 0 <= j ->
  dir_table (dir_set_table d i t p) j = if i =? j then t else dir_table d j.
Proof.
  intros Hl Hi Hj. unfold dir_table, dir_set_table; cbn.
  destruct (Z.eqb_spec i j) as [->|].
  - by rewrite list_lookup_insert_eq by lia.
  - by rewrite list_lookup_insert_ne by lia.
Qed.

Lemma dir_phys_set d i j t p :
  length (tablesPhysical d) = 1024%nat -> 0 <= i < 1024 -> 0 <= j ->
  dir_phys (dir_set_table d i t p) j = if i =? j then p else dir_phys d j.
Proof.
  intros Hl Hi Hj. unfold dir_phys, dir_set_table; cbn.
  destruct (Z.eqb_spec i j) as [->|].
  - by rewrite list_lookup_insert_eq by lia.
  - by rewrite list_lookup_insert_ne by lia.
Qed.

Lemma private_bit d i :
  0 <= i -> vmm_table_is_private d i
  = b2z (Z.testbit (default 0 (private_table_mask d !! Z.to_nat (i / 32))) (i mod 32)).
Proof.
  intros Hi. unfold vmm_table_is_private. change 1 with (Z.ones 1).
  rewrite Z.land_ones by lia. rewrite <- Z.bit0_mod, Z.shiftr_spec by lia.
  rewrite Z.add_0_l. by destruct (Z.testbit _ _).
Qed.

Lemma private_mark d i j :
  length (private_table_mask d) = 32%nat -> 0 <= i < 1024 -> 0 <= j < 1024 ->
  is_private (vmm_table_mark_private d i) j <-> i = j \/ is_private d j.
Proof.
  intros Hl Hi Hj. unfold is_private. rewrite !private_bit by lia. cbn [private_table_mask vmm_table_mark_private].
  destruct (Z.eq_dec (i / 32) (j / 32)) as [E|E].
  - rewrite <- E, list_lookup_insert_eq by zlia. cbn [default from_option id].
    rewrite set_bit_spec by zlia.
    destruct (Z.eqb_spec (i mod 32) (j mod 32)).
    + split; [left; zlia|done].
    + cbn. split; [auto|]. intros [->|]; [done|done].
  - rewrite list_lookup_insert_ne by zlia. split; [auto|]. intros [->|]; done.
Qed.

Lemma lor7_bits a :
  a = a / PAGE_SIZE * PAGE_SIZE ->
  Z.odd (Z.lor a 7) = true /\ Z.lor a 7 / PAGE_SIZE * PAGE_SIZE = a.
Proof.
  intros Ha. assert (Hp : Z.lor a 7 = a + 7).
  { assert (Z.land a 7 = 0).
    { change 7 with (Z.ones 3). rewrite Z.land_ones by lia. unfold PAGE_SIZE in Ha. zlia. }
    pose proof (Z.add_lor_land a 7). lia. }
  rewrite Hp. unfold PAGE_SIZE in *. split; [|zlia].
  rewrite Z.odd_add, Ha. replace (a / 4096 * 4096) with (2 * (a / 4096 * 2048)) by lia.
  by rewrite Z.odd_mul.
Qed.

(** ** Fresh tables *)

Lemma alloc_page_fresh p a p' :
  pmm_wf p -> pmm_alloc_page p = (a, p') ->
  pmm_wf p' /\ total_pages p' = total_pages p /\
  ((a = 0 /\ p' = p) \/
   (a <> 0 /\ a = a / PAGE_SIZE * PAGE_SIZE /\ 0 < a / PAGE_SIZE < total_pages p /\
    page_used p (a / PAGE_SIZE) = false /\
    forall q, 0 <= q -> page_used p' q = (a / PAGE_SIZE =? q) || page_used p q)).
Proof.
  intros Hwf Ha. unfold pmm_alloc_page in Ha.
  destruct (alloc_pages_spec p 1 Hwf) as (H1 & H2 & H3); [lia|]. rewrite Ha in *. cbn [fst snd] in *.
  split; [done|]. split; [done|].
  destruct H3 as [(-> & -> & _)|(f & -> & Hf & Hfn & Hfree & _ & Hq & _)]; [by left|right].
  rewrite page_mul_div. unfold PAGE_SIZE. repeat split; try lia.
  - apply Hfree. lia.
  - intros q Hq0. rewrite Hq by done. f_equal.
    destruct (Z.leb_spec f q), (Z.ltb_spec q (f + 1)), (Z.eqb_spec f q); done || lia.
Qed.

(** The directory with table [a] installed in slot [i], marked private or not. *)
Definition installed (d : vmm_directory_t) (i a : Z) (mark : bool) : vmm_directory_t :=
  let d' := dir_set_table d i a (Z.lor a 7) in
  if mark then vmm_table_mark_private d' i else d'.

Section Install.
Set Default Proof Using "All".
Context (v : vmm_t) (dir : Z) (d : vmm_directory_t) (i a : Z) (p' : pmm_t)
        (c : list page_t) (mark : bool).
Hypothesis (Hwf : vmm_wf v) (Hd : v_dirs v !! dir = Some d) (Hi : 0 <= i < 1024)
           (Hnp : ~ is_private d i) (Ha : pmm_alloc_page (v_pmm v) = (a, p'))
           (Ha0 : a <> 0) (Hc : length c = 1024%nat).

Definition install_state : vmm_t :=
  set_dirs (set_tables (set_pmm v p') (<[a := c]> (v_tables v)))
    (<[dir := installed d i a mark]> (v_dirs v)).

Lemma install_dir : dir_ok v d.
Proof. by eapply vmm_dirs_ok. Qed.

Lemma install_alloc :
  pmm_wf p' /\ total_pages p' = total_pages (v_pmm v) /\
  a = a / PAGE_SIZE * PAGE_SIZE /\ 0 < a / PAGE_SIZE < total_pages (v_pmm v) /\
  page_used (v_pmm v) (a / PAGE_SIZE) = false /\
  forall q, 0 <= q -> page_used p' q = (a / PAGE_SIZE =? q) || page_used (v_pmm v) q.
Proof.
  destruct (alloc_page_fresh _ _ _ (vmm_pmm_wf v Hwf) Ha) as (H1 & H2 & [[? _]|(_ & H3)]); [done|].
  done.
Qed.

Lemma installed_table j :
  0 <= j < 1024 -> dir_table (installed d i a mark) j = if i =? j then a else dir_table d j.
Proof.
  intros Hj. transitivity (dir_table (dir_set_table d i a (Z.lor a 7)) j).
  - unfold installed. by destruct mark.
  - apply dir_table_set; [apply install_dir|done|lia].
Qed.

Lemma installed_phys j :
  0 <= j < 1024 -> dir_phys (installed d i a mark) j = if i =? j then Z.lor a 7 else dir_phys d j.
Proof.
  intros Hj. transitivity (dir_phys (dir_set_table d i a (Z.lor a 7)) j).
  - unfold installed. by destruct mark.
  - apply dir_phys_set; [apply install_dir|done|lia].
Qed.

Lemma installed_private j :
  0 <= j < 1024 -> is_private (installed d i a mark) j <-> (mark = true /\ i = j) \/ is_private d j.
Proof.
  intros Hj. unfold installed. destruct mark.
  - rewrite private_mark by (done || apply install_dir). naive_solver.
  - change (is_private (dir_set_table d i a (Z.lor a 7)) j) with (is_private d j). naive_solver.
Qed.

Lemma installed_shape :
  length (tables (installed d i a mark)) = 1024%nat /\
  length (tablesPhysical (installed d i a mark)) = 1024%nat /\
  length (private_table_mask (installed d i a mark)) = 32%nat /\
  Forall is_u32 (private_table_mask (installed d i a mark)).
Proof.
  destruct install_dir as [H1 H2 H3 H4 _ _].
  unfold installed, vmm_table_mark_private, dir_set_table.
  destruct mark; cbn; rewrite ?length_insert; repeat split; try done.
  apply Forall_insert; [done|]. apply lor_u32; [|zlia].
  destruct (private_table_mask d !! _) eqn:E; cbn; [by eapply Forall_lookup_1|].
  unfold is_u32. lia.
Qed.

(** Old tables keep their page and their content. *)
Lemma install_old_table b :
  table_ok v b -> b <> a /\ get_table install_state b = get_table v b /\ table_ok install_state b.
Proof.
  intros Hb. destruct install_alloc as (H1 & H2 & H3 & H4 & H5 & H6).
  assert (b <> a). { intros ->. destruct Hb as [_ _ Hu _]. congruence. }
  assert (get_table install_state b = get_table v b) as E.
  { unfold get_table, install_state; cbn. by rewrite lookup_insert_ne. }
  split; [done|]. split; [done|]. destruct Hb as [? ? Hu ?]. constructor; cbn; try done.
  - by rewrite H2.
  - rewrite H6, Hu by lia. apply orb_true_r.
  - by rewrite E.
Qed.

Lemma install_new_table :
  get_table install_state a = c /\ table_ok install_state a.
Proof.
  destruct install_alloc as (H1 & H2 & H3 & H4 & H5 & H6).
  assert (get_table install_state a = c) as E.
  { unfold get_table, install_state; cbn. by rewrite lookup_insert_eq. }
  split; [done|]. constructor; cbn; try done.
  - by rewrite H2.
  - rewrite H6, Z.eqb_refl by lia. done.
  - by rewrite E.
Qed.

Lemma install_lookup dir1 d1 :
  v_dirs install_state !! dir1 = Some d1 ->
  (dir1 = dir /\ d1 = installed d i a mark) \/ (dir1 <> dir /\ v_dirs v !! dir1 = Some d1).
Proof.
  cbn. destruct (Z.eq_dec dir dir1) as [<-|Hne].
  - rewrite lookup_insert_eq. intros [= <-]. by left.
  - rewrite lookup_insert_ne by done. right. split; [congruence|done].
Qed.

(** A slot of the new state is the new one or an old one. *)
Lemma install_slot dir1 d1 j :
  v_dirs install_state !! dir1 = Some d1 -> 0 <= j < 1024 ->
  (dir1 = dir /\ j = i /\ dir_table d1 j = a) \/
  exists d0, v_dirs v !! dir1 = Some d0 /\ dir_table d1 j = dir_table d0 j /\
    dir_phys d1 j = dir_phys d0 j /\ (is_private d1 j <-> is_private d0 j) /\
    (dir1 = dir -> j <> i).
Proof.
  intros H1 Hj. apply install_lookup in H1 as [[-> ->]|[Hne H1]].
  - destruct (Z.eq_dec i j) as [<-|Hij].
    + left. by rewrite installed_table, Z.eqb_refl.
    + right. exists d. rewrite installed_table, installed_phys, installed_private by done.
      rewrite (proj2 (Z.eqb_neq i j)) by done. naive_solver.
  - right. exists d1. naive_solver.
Qed.

Lemma install_dirs_ok dir1 d1 : v_dirs install_state !! dir1 = Some d1 -> dir_ok install_state d1.
Proof.
  intros H1. destruct install_alloc as (_ & _ & Hal & _).
  assert (Hsh : length (tables d1) = 1024%nat /\ length (tablesPhysical d1) = 1024%nat /\
    length (private_table_mask d1) = 32%nat /\ Forall is_u32 (private_table_mask d1)).
  { apply install_lookup in H1 as [[_ ->]|[_ H1]]; [apply installed_shape|].
    by destruct (vmm_dirs_ok v Hwf _ _ H1). }
  destruct Hsh as (? & ? & ? & ?). constructor; try done.
  - intros j Hj Hz. destruct (install_slot dir1 d1 j H1 Hj) as [(_ & _ & E)|(d0 & Hd0 & E1 & -> & _)];
      [congruence|]. apply (dir_hole v d0); [by eapply vmm_dirs_ok|done|congruence].
  - intros j Hj Hz. destruct (install_slot dir1 d1 j H1 Hj) as [(-> & -> & E)|(d0 & Hd0 & E1 & E2 & _)].
    + rewrite E. split; [apply install_new_table|].
      apply install_lookup in H1 as [[_ ->]|[? _]]; [|done].
      rewrite installed_phys, Z.eqb_refl by done. by apply lor7_bits.
    + rewrite E1, E2. destruct (dir_entry v d0 (vmm_dirs_ok v Hwf _ _ Hd0) j Hj) as (Ht & ?); [congruence|].
      split; [|done]. by apply install_old_table.
Qed.

Lemma install_wf : vmm_wf install_state.
Proof.
  constructor; [apply install_alloc|apply install_dirs_ok|].
  intros dir1 d1 j H1 Hj Hpriv.
  destruct (install_slot dir1 d1 j H1 Hj) as [(-> & -> & E)|(d0 & Hd0 & E & _ & Hp & Hne)].
  - rewrite E. split; [done|]. intros dir2 d2 k H2 Hk Hk2.
    destruct (install_slot dir2 d2 k H2 Hk) as [(-> & -> & _)|(d0' & Hd0' & E' & _)]; [done|].
    exfalso. rewrite E' in Hk2.
    destruct (dir_entry v d0' (vmm_dirs_ok v Hwf _ _ Hd0') k Hk) as (Ht & _); [congruence|].
    apply install_old_table in Ht as [? _]. congruence.
  - destruct (vmm_private v Hwf dir1 d0 j Hd0 Hj) as [Hnz Hex]; [tauto|]. rewrite E. split; [done|].
    intros dir2 d2 k H2 Hk Hk2.
    destruct (install_slot dir2 d2 k H2 Hk) as [(-> & -> & E')|(d0' & Hd0' & E' & _)].
    + exfalso. destruct (dir_entry v d0 (vmm_dirs_ok v Hwf _ _ Hd0) j Hj) as (Ht & _); [done|].
      apply install_old_table in Ht as [? _]. congruence.
    + apply (Hex dir2 d0' k); [done|done|congruence].
Qed.
Unset Default Proof Using.
End Install.

(** ** The walk through the kernel's own table pointers *)

Definition table_index (va : Z) : Z := va / PAGE_SIZE / ENTRIES_PER_TABLE.
Definition page_index (va : Z) : Z := (va / PAGE_SIZE) mod ENTRIES_PER_TABLE.

Definition entry_of (t : list page_t) (va : Z) : option page_t :=
  let p := t !!! Z.to_nat (page_index va) in if present p =? 0 then None else Some p.

Lemma table_index_range va : is_u32 va -> 0 <= table_index va < 1024.
Proof. unfold is_u32, table_index, PAGE_SIZE, ENTRIES_PER_TABLE. zlia. Qed.

Lemma page_index_range va : 0 <= page_index va < 1024.
Proof. unfold page_index, ENTRIES_PER_TABLE. apply Z.mod_pos_bound. lia. Qed.

Lemma walk_table v dir d va :
  vmm_wf v -> v_dirs v !! dir = Some d -> is_u32 va ->
  walk v dir va = let a := dir_table d (table_index va) in
                  if a =? 0 then None else entry_of (get_table v a) va.
Proof.
  intros Hwf Hd Hva. unfold walk, get_dir. rewrite Hd. cbn [default from_option id].
  fold (table_index va) (page_index va). pose proof (table_index_range va Hva) as Hi.
  pose proof (vmm_dirs_ok v Hwf _ _ Hd) as Hok.
  destruct (Z.eqb_spec (dir_table d (table_index va)) 0) as [Hz|Hnz].
  - by rewrite (dir_hole v d Hok _ Hi Hz).
  - destruct (dir_entry v d Hok _ Hi Hnz) as (_ & -> & ->). done.
Qed.

Lemma walk_unknown v dir va : v_dirs v !! dir = None -> walk v dir va = None.
Proof.
  intros Hd. unfold walk, get_dir. rewrite Hd. cbn [default from_option id].
  assert (dir_phys empty_dir (va / PAGE_SIZE / ENTRIES_PER_TABLE) = 0) as ->; [|done].
  unfold dir_phys, empty_dir; cbn [tablesPhysical].
  destruct (replicate 1024 0 !! _) eqn:E; [|done]. by apply lookup_replicate in E as [-> _].
Qed.

Lemma entry_zero va : entry_of zero_table va = None.
Proof.
  unfold entry_of, zero_table. pose proof (page_index_range va).
  rewrite lookup_total_replicate_2; [done|]. unfold ENTRIES_PER_TABLE. lia.
Qed.

(** Two well-formed states with the same directories at [dir] walk alike when
    the slot's table has the same entries. *)
Lemma walk_install v dir d i a p' c mark dir1 va :
  vmm_wf v -> v_dirs v !! dir = Some d -> 0 <= i < 1024 -> ~ is_private d i ->
  pmm_alloc_page (v_pmm v) = (a, p') -> a <> 0 ->
  c = (if dir_table d i =? 0 then zero_table else get_table v (dir_table d i)) ->
  is_u32 va ->
  walk (install_state v dir d i a p' c mark) dir1 va = walk v dir1 va.
Proof.
  intros Hwf Hd Hi Hnp Ha Ha0 Hc Hva.
  assert (Hlen : length c = 1024%nat).
  { subst c. destruct (Z.eqb_spec (dir_table d i) 0); [done|].
    by apply (dir_entry v d (vmm_dirs_ok v Hwf _ _ Hd) i Hi). }
  set (w := install_state v dir d i a p' c mark).
  assert (Hw : vmm_wf w) by (by apply install_wf).
  pose proof (table_index_range va Hva) as Ht.
  destruct (v_dirs w !! dir1) as [d1|] eqn:H1.
  2: { rewrite (walk_unknown w) by done. symmetry. apply walk_unknown.
       cbn in H1. by apply lookup_insert_None in H1 as [? _]. }
  rewrite (walk_table w dir1 d1) by done.
  destruct (install_slot v dir d i a p' c mark Hwf Hd Hi Hnp Ha Ha0 Hlen dir1 d1 (table_index va) H1 Ht)
    as [(-> & Hti & ->)|(d0 & Hd0 & -> & _)].
  - rewrite (walk_table v dir d) by done. cbn zeta. rewrite Hti, (proj2 (Z.eqb_neq a 0)) by done.
    unfold w. rewrite (proj1 (install_new_table v dir d i a p' c mark Hwf Hd Hi Hnp Ha Ha0 Hlen)), Hc.
    destruct (Z.eqb_spec (dir_table d i) 0); [apply entry_zero|done].
  - rewrite (walk_table v dir1 d0) by done. cbn zeta.
    destruct (Z.eqb_spec (dir_table d0 (table_index va)) 0) as [|Hnz]; [done|].
    destruct (dir_entry v d0 (vmm_dirs_ok v Hwf _ _ Hd0) _ Ht Hnz) as (Hok & _).
    unfold w. by rewrite (proj1 (proj2 (install_old_table v dir d i a p' c mark Hwf Hd Hi Hnp Ha Ha0 Hlen _ Hok))).
Qed.

(** ** Private tables *)

Lemma not_private_zero d i : vmm_table_is_private d i = 0 <-> ~ is_private d i.
Proof. unfold is_private. lia. Qed.

(** Making a table private changes no translation, and afterwards the slot
    holds a private table; on failure nothing changed. *)
Lemma ensure_private_spec v dir d i :
  vmm_wf v -> dir <> 0 -> v_dirs v !! dir = Some d -> 0 <= i < 1024 ->
  let '(rc, w) := vmm_ensure_private_user_table v dir i in
  vmm_wf w /\ kernel_directory w = kernel_directory v /\
  (forall dir1 va, is_u32 va -> walk w dir1 va = walk v dir1 va) /\
  ((rc = 0 /\ exists d', v_dirs w !! dir = Some d' /\ is_private d' i) \/ rc = -2).
Proof.
  intros Hwf Hdir Hd Hi. unfold vmm_ensure_private_user_table.
  rewrite (proj2 (Z.eqb_neq dir 0)), (proj2 (Z.leb_gt ENTRIES_PER_TABLE i))
    by (done || (unfold ENTRIES_PER_TABLE; lia)). cbn [orb].
  unfold get_dir. rewrite Hd. cbn [default from_option id].
  destruct (Z.eqb_spec (vmm_table_is_private d i) 0) as [Hz|Hnz]; cbn [negb].
  2: { do 3 (split; [done|]). left. split; [done|]. by exists d. }
  apply not_private_zero in Hz.
  destruct (pmm_alloc_page (v_pmm v)) as [a p'] eqn:Ha.
  destruct (Z.eqb_spec a 0) as [->|Hne].
  - destruct (alloc_page_fresh _ _ _ (vmm_pmm_wf v Hwf) Ha) as (_ & _ & [[_ ->]|[? _]]); [|done].
    assert (set_pmm v (v_pmm v) = v) as -> by (by destruct v). do 3 (split; [done|]). by right.
  - set (c := if dir_table d i =? 0 then zero_table else get_table v (dir_table d i)).
    assert (Hlen : length c = 1024%nat).
    { subst c. destruct (Z.eqb_spec (dir_table d i) 0); [done|].
      by apply (dir_entry v d (vmm_dirs_ok v Hwf _ _ Hd) i Hi). }
    assert (E : (if negb (dir_table d i =? 0) then get_table (set_pmm v p') (dir_table d i)
                 else zero_table) = c).
    { unfold c. by destruct (dir_table d i =? 0). }
    rewrite E. change (set_dirs _ _) with (install_state v dir d i a p' c true).
    split; [by apply install_wf|]. split; [done|]. split.
    + intros dir1 va Hva. by apply walk_install.
    + left. split; [done|]. eexists. split; [apply lookup_insert_eq|].
      apply (installed_private v dir d i a p' c true); auto.
Qed.

(** ** Writing one entry of a private table *)

Lemma get_table_write v p x a :
  get_table (write_page v p x) a
  = if fst p =? a then <[Z.to_nat (snd p) := x]> (get_table v (fst p)) else get_table v a.
Proof.
  unfold get_table at 1. cbn. destruct (Z.eqb_spec (fst p) a) as [->|Hne].
  - by rewrite lookup_insert_eq.
  - by rewrite lookup_insert_ne.
Qed.

Lemma write_page_wf v p x : vmm_wf v -> vmm_wf (write_page v p x).
Proof.
  intros [H1 H2 H3]. constructor; [done| |done]. intros dir d Hd.
  destruct (H2 dir d Hd) as [? ? ? ? ? He]. constructor; try done.
  intros i Hi Hnz. destruct (He i Hi Hnz) as ([] & ?). split; [|done].
  constructor; try done. rewrite get_table_write.
  destruct (Z.eqb_spec (fst p) (dir_table d i)) as [->|]; [by rewrite length_insert|done].
Qed.

Lemma walk_write v dir d i k x dir1 va :
  vmm_wf v -> v_dirs v !! dir = Some d -> 0 <= i < 1024 -> is_private d i -> 0 <= k < 1024 ->
  is_u32 va ->
  walk (write_page v (dir_table d i, k) x) dir1 va =
  if (dir1 =? dir) && (table_index va =? i) && (page_index va =? k)
  then (if present x =? 0 then None else Some x) else walk v dir1 va.
Proof.
  intros Hwf Hd Hi Hp Hk Hva. set (w := write_page v (dir_table d i, k) x).
  assert (Hw : vmm_wf w) by (by apply write_page_wf).
  pose proof (table_index_range va Hva) as Ht. pose proof (page_index_range va) as Hpi.
  destruct (vmm_private v Hwf dir d i Hd Hi Hp) as [Hnz Hex].
  destruct (v_dirs v !! dir1) as [d1|] eqn:H1.
  2: { rewrite (walk_unknown w dir1), (walk_unknown v dir1) by exact H1.
       destruct (Z.eqb_spec dir1 dir) as [->|]; [congruence|done]. }
  rewrite (walk_table w dir1 d1), (walk_table v dir1 d1) by (exact H1 || done). cbn zeta.
  destruct (Z.eqb_spec (dir_table d1 (table_index va)) 0) as [Hz|Hz].
  { destruct (Z.eqb_spec dir1 dir) as [->|], (Z.eqb_spec (table_index va) i) as [E|]; try done.
    rewrite Hd in H1. injection H1 as <-. by rewrite E in Hz. }
  unfold w. rewrite get_table_write. cbn [fst snd].
  destruct (Z.eqb_spec (dir_table d i) (dir_table d1 (table_index va))) as [E|E].
  - destruct (Hex dir1 d1 (table_index va)) as [-> ->]; [done|done|done|].
    rewrite !Z.eqb_refl. cbn [andb]. unfold entry_of.
    rewrite Hd in H1. injection H1 as <-.
    destruct (dir_entry v d (vmm_dirs_ok v Hwf _ _ Hd) i Hi Hnz) as ([_ _ _ Hlen] & _).
    destruct (Z.eqb_spec (page_index va) k) as [->|Hne].
    + by rewrite list_lookup_total_insert_eq by lia.
    + by rewrite list_lookup_total_insert_ne by lia.
  - destruct (Z.eqb_spec dir1 dir) as [->|], (Z.eqb_spec (table_index va) i) as [Ei|]; try done.
    rewrite Hd in H1. injection H1 as <-. by rewrite Ei in E.
Qed.

Lemma same_page va va' :
  is_u32 va -> is_u32 va' ->
  (table_index va' =? table_index va) && (page_index va' =? page_index va)
  = (va' / PAGE_SIZE =? va / PAGE_SIZE).
Proof.
  unfold is_u32, table_index, page_index, ENTRIES_PER_TABLE. intros H H'.
  destruct (Z.eqb_spec (va' / PAGE_SIZE / 1024) (va / PAGE_SIZE / 1024)),
    (Z.eqb_spec ((va' / PAGE_SIZE) mod 1024) ((va / PAGE_SIZE) mod 1024)),
    (Z.eqb_spec (va' / PAGE_SIZE) (va / PAGE_SIZE)); try done; zlia.
Qed.

(** What mapping a user page promises: the translation of the page at [va] in
    [dir] is the requested frame with the requested permissions, every other
    translation of every directory is the one before. *)
Definition maps_exactly (v w : vmm_t) (dir phys va flags : Z) : Prop :=
  forall dir1 va1, is_u32 va1 ->
    if (dir1 =? dir) && (va1 / PAGE_SIZE =? va / PAGE_SIZE)
    then if flag flags PAGE_PRESENT =? 0 then walk w dir1 va1 = None
         else exists p, walk w dir1 va1 = Some p /\ present p = 1 /\
                rw p = flag flags PAGE_WRITE /\ user p = flag flags PAGE_USER /\
                frame p = phys / PAGE_SIZE
    else walk w dir1 va1 = walk v dir1 va1.

Lemma flag_values flags mask : flag flags mask = 0 \/ flag flags mask = 1.
Proof. unfold flag. destruct (_ =? 0); auto. Qed.

Lemma map_page_user_spec v dir d phys va flags :
  vmm_wf v -> dir <> 0 -> dir <> kernel_directory v -> v_dirs v !! dir = Some d ->
  phys <> 0 -> va <> 0 -> is_u32 va -> Z.land flags PAGE_USER <> 0 ->
  let '(rc, w) := vmm_map_page_in_directory v dir phys va flags in
  vmm_wf w /\
  ((rc = 0 /\ maps_exactly v w dir phys va flags /\ kernel_directory w = kernel_directory v /\
    exists d', v_dirs w !! dir = Some d' /\ is_private d' (table_index va))
   \/ (rc = -2 /\ forall dir1 va1, is_u32 va1 -> walk w dir1 va1 = walk v dir1 va1)).
Proof.
  intros Hwf Hdir Hk Hd Hphys Hva Hu Hflag. unfold vmm_map_page_in_directory.
  rewrite !(proj2 (Z.eqb_neq _ _)) by done. cbn [orb negb andb].
  fold (table_index va). pose proof (table_index_range va Hu) as Hi.
  pose proof (ensure_private_spec v dir d (table_index va) Hwf Hdir Hd Hi) as He.
  destruct (vmm_ensure_private_user_table v dir (table_index va)) as [rc w].
  destruct He as (Hw & Hkw & Hwalk & [(-> & d' & Hd' & Hpriv)| -> ]); cbn [Z.eqb negb].
  2: { split; [done|]. right. done. }
  destruct (vmm_private w Hw dir d' _ Hd' Hi Hpriv) as [Hnz _].
  unfold vmm_get_page, get_dir. change 4096 with PAGE_SIZE. change 1024 with ENTRIES_PER_TABLE.
  fold (table_index va) (page_index va). rewrite Hd'. cbn [default from_option id].
  rewrite (proj2 (Z.eqb_neq _ 0)) by done. cbn [negb].
  split; [by apply write_page_wf|]. left. split; [done|]. split; [|by eauto].
  intros dir1 va1 Hva1.
  rewrite (walk_write w dir d' (table_index va)) by (done || apply page_index_range).
  rewrite <- same_page by done. rewrite andb_assoc.
  destruct ((dir1 =? dir) && (table_index va1 =? table_index va) && (page_index va1 =? page_index va));
    [|by apply Hwalk].
  cbn [present]. destruct (flag_values flags PAGE_PRESENT) as [E|E]; rewrite E; cbn [Z.eqb]; [done|].
  eexists. split; [done|]. by repeat split.
Qed.

(** C4. Address-space isolation: mapping a user page into a task directory
    gives exactly the requested translation there and leaves every other
    translation of every directory, kernel tables included, as it was; on
    failure (out of frames) no translation changes at all. The sharing
    invariant of the page tables is kept. *)
Theorem user_mapping_is_isolated :
  forall (v : vmm_t) (dir phys va flags : Z) (d : vmm_directory_t),
    vmm_wf v -> dir <> 0 -> dir <> kernel_directory v -> v_dirs v !! dir = Some d ->
    phys <> 0 -> va <> 0 -> is_u32 va -> Z.land flags PAGE_USER <> 0 ->
    let '(rc, w) := vmm_map_page_in_directory v dir phys va flags in
    vmm_wf w /\
    (rc = 0 -> maps_exactly v w dir phys va flags) /\
    (rc <> 0 -> forall dir1 va1, is_u32 va1 -> walk w dir1 va1 = walk v dir1 va1).
Proof.
  intros v dir phys va flags d H1 H2 H3 H4 H5 H6 H7 H8.
  pose proof (map_page_user_spec v dir d phys va flags H1 H2 H3 H4 H5 H6 H7 H8) as H.
  destruct (vmm_map_page_in_directory v dir phys va flags) as [rc w].
  destruct H as (Hw & [(-> & Hm & _)|(-> & Hs)]); split; try done.
Qed.

(** ** Borrowed frames *)

(** Borrowed pages: after a borrowed mapping succeeds, the task sees the
    frame read-only (or writable for the device variant) with the software bit
    that keeps [vmm_destroy_user_directory] from ever freeing it, and no
    translation outside that page of that directory changed. *)
Theorem borrowed_mapping :
  forall (v : vmm_t) (dir phys va : Z) (d : vmm_directory_t) (writable : bool),
    vmm_wf v -> dir <> 0 -> dir <> kernel_directory v -> v_dirs v !! dir = Some d ->
    phys <> 0 -> va <> 0 -> is_u32 va ->
    let '(rc, w) := if writable then vmm_map_borrowed_user_page_rw v dir phys va
                    else vmm_map_borrowed_user_page v dir phys va in
    rc = 0 ->
    (exists p, walk w dir va = Some p /\ user p = 1 /\ rw p = b2z writable /\
       frame p = phys / PAGE_SIZE /\ vmm_page_is_borrowed (Some p) = 1) /\
    forall dir1 va1, is_u32 va1 -> dir1 <> dir \/ va1 / PAGE_SIZE <> va / PAGE_SIZE ->
      walk w dir1 va1 = walk v dir1 va1.
Proof.
  intros v dir phys va d writable Hwf Hdir Hk Hd Hphys Hva Hu.
  set (flags := if writable then 7 else 5).
  assert (E : (if writable then vmm_map_borrowed_user_page_rw v dir phys va
               else vmm_map_borrowed_user_page v dir phys va) = map_borrowed v dir phys va flags)
    by (by destruct writable).
  rewrite E. clear E. unfold map_borrowed.
  rewrite !(proj2 (Z.eqb_neq dir _)) by done. cbn [orb].
  pose proof (map_page_user_spec v dir d phys va flags Hwf Hdir Hk Hd Hphys Hva Hu) as Hm.
  destruct (vmm_map_page_in_directory v dir phys va flags) as [rc w].
  destruct Hm as (Hw & [(-> & Hmap & _ & d' & Hd' & Hpriv)|(-> & _)]);
    [by destruct writable| |by destruct writable]. cbn [Z.eqb negb].
  pose proof (table_index_range va Hu) as Hi.
  destruct (vmm_private w Hw dir d' _ Hd' Hi Hpriv) as [Hnz _].
  unfold vmm_get_page, get_dir. change 4096 with PAGE_SIZE. change 1024 with ENTRIES_PER_TABLE.
  fold (table_index va) (page_index va). rewrite Hd'. cbn [default from_option id].
  rewrite (proj2 (Z.eqb_neq _ 0)) by done. cbn [negb].
  set (old := read_page w (dir_table d' (table_index va), page_index va)).
  pose proof (Hmap dir va Hu) as Hold. rewrite !Z.eqb_refl in Hold. cbn [andb] in Hold.
  assert (flag flags PAGE_PRESENT =? 0 = false) as Hpres by (by destruct writable).
  rewrite Hpres in Hold. destruct Hold as (p & Hp & Hpp & Hrw & Hus & Hfr).
  assert (old = p) as Eold.
  { rewrite (walk_table w dir d') in Hp by done. cbn zeta in Hp.
    rewrite (proj2 (Z.eqb_neq _ 0)) in Hp by done. unfold entry_of in Hp.
    by case_if_in Hp; [|injection Hp]. }
  intros _. split.
  - rewrite (walk_write w dir d' (table_index va)), !Z.eqb_refl
      by (done || apply page_index_range). cbn [andb].
    rewrite Eold. cbn [mark_borrowed present]. rewrite Hpp. cbn [Z.eqb]. eexists. split; [done|].
    cbn [user rw frame mark_borrowed vmm_page_is_borrowed unused].
    rewrite Hus, Hrw, set_bit_spec by lia. by destruct writable.
  - intros dir1 va1 Hva1 Hdiff.
    rewrite (walk_write w dir d' (table_index va)) by (done || apply page_index_range).
    rewrite <- andb_assoc, same_page by done. specialize (Hmap dir1 va1 Hva1).
    assert ((dir1 =? dir) && (va1 / PAGE_SIZE =? va / PAGE_SIZE) = false) as Ef.
    { apply andb_false_iff. rewrite !Z.eqb_neq. done. }
    rewrite Ef in *. done.
Qed.

(** ** Destroying an address space *)

(** The physical page a present, user, non-borrowed entry refers to is [q]. *)
Definition entry_owns (q : Z) (p : page_t) : bool :=
  c_true (present p) && c_true (user p) && negb (c_true (vmm_page_is_borrowed (Some p)))
  && (u32 (frame p * PAGE_SIZE) / PAGE_SIZE =? q).

(** Page [q] belongs to slot [i] of the directory: it holds the private table
    itself or is the target of one of its owning entries. *)
Definition slot_owns (v : vmm_t) (d : vmm_directory_t) (q i : Z) : bool :=
  negb (vmm_table_is_private d i =? 0) && negb (dir_table d i =? 0) &&
  ((dir_table d i / PAGE_SIZE =? q) || existsb (entry_owns q) (get_table v (dir_table d i))).

Fixpoint slots_own (v : vmm_t) (d : vmm_directory_t) (q i : Z) (n : nat) : bool :=
  match n with
  | O => false
  | S n => slot_owns v d q i || slots_own v d q (i + 1) n
  end.

(** Every page the task directory owns. *)
Definition directory_owns (v : vmm_t) (dir q : Z) : bool :=
  slots_own v (get_dir v dir) q 0 (Z.to_nat ENTRIES_PER_TABLE).

Lemma free_page_aligned p a :
  pmm_wf p -> a = a / PAGE_SIZE * PAGE_SIZE -> 0 <= a ->
  pmm_wf (pmm_free_page p a) /\ total_pages (pmm_free_page p a) = total_pages p /\
  forall q, 0 < q < total_pages p ->
    page_used (pmm_free_page p a) q = negb (a / PAGE_SIZE =? q) && page_used p q.
Proof.
  intros Hwf Hal Ha. unfold pmm_free_page.
  destruct (free_pages_spec p a 1 Hwf) as (H1 & H2 & H3); [unfold PAGE_SIZE in *; zlia|lia|].
  split; [done|]. split; [done|]. intros q Hq. rewrite H3 by lia. do 2 f_equal.
  unfold PAGE_SIZE in *.
  destruct (Z.leb_spec (a / 4096) q), (Z.ltb_spec q (a / 4096 + 1)), (Z.leb_spec 4096 a),
    (Z.leb_spec (a / 4096 + 1) (total_pages p)), (Z.eqb_spec (a / 4096) q); try done; zlia.
Qed.

Lemma free_user_page_spec p e :
  pmm_wf p ->
  pmm_wf (free_user_page p e) /\ total_pages (free_user_page p e) = total_pages p /\
  forall q, 0 < q < total_pages p ->
    page_used (free_user_page p e) q = negb (entry_owns q e) && page_used p q.
Proof.
  intros Hwf. unfold free_user_page, entry_owns.
  destruct (c_true (present e) && c_true (user e) && _); cbn [andb negb]; [|done].
  apply free_page_aligned; [done| |apply u32_range].
  unfold u32, PAGE_SIZE. zlia.
Qed.

Lemma free_entries_spec t : forall p,
  pmm_wf p ->
  pmm_wf (fold_left free_user_page t p) /\
  total_pages (fold_left free_user_page t p) = total_pages p /\
  forall q, 0 < q < total_pages p ->
    page_used (fold_left free_user_page t p) q = negb (existsb (entry_owns q) t) && page_used p q.
Proof.
  induction t as [|e t IH]; intros p Hwf; cbn [fold_left existsb]; [done|].
  destruct (free_user_page_spec p e Hwf) as (H1 & H2 & H3).
  destruct (IH _ H1) as (H4 & H5 & H6). split; [done|]. split; [congruence|].
  intros q Hq. rewrite H6, H3 by (done || congruence). rewrite negb_orb.
  by destruct (entry_owns q e), (existsb (entry_owns q) t).
Qed.

(** The table pointers of the directory are page addresses. *)
Definition tables_aligned (d : vmm_directory_t) : Prop :=
  forall i, 0 <= i < 1024 -> dir_table d i <> 0 ->
    dir_table d i = dir_table d i / PAGE_SIZE * PAGE_SIZE /\ 0 <= dir_table d i.

Lemma dir_ok_aligned v d : dir_ok v d -> tables_aligned d.
Proof.
  intros Hok i Hi Hz. destruct (dir_entry v d Hok i Hi Hz) as ([Hal Hpg _ _] & _).
  unfold PAGE_SIZE in *. lia.
Qed.

Lemma slots_own_tables v w d q n : forall i,
  v_tables w = v_tables v -> slots_own w d q i n = slots_own v d q i n.
Proof.
  induction n as [|n IH]; intros i H; cbn [slots_own]; [done|].
  rewrite IH by done. unfold slot_owns, get_table. by rewrite H.
Qed.

(** One turn of the outer loop. *)
Definition destroy_table (v : vmm_t) (d : vmm_directory_t) (i : Z) : vmm_t :=
  if (vmm_table_is_private d i =? 0) || (dir_table d i =? 0) then v
  else set_pmm v (pmm_free_page (fold_left free_user_page (get_table v (dir_table d i)) (v_pmm v))
                    (dir_table d i)).

(** Freeing changes only the allocator, and frees exactly the pages [owns]
    names. *)
Definition frees_only (v w : vmm_t) (owns : Z -> bool) : Prop :=
  pmm_wf (v_pmm w) /\ total_pages (v_pmm w) = total_pages (v_pmm v) /\
  v_tables w = v_tables v /\ v_dirs w = v_dirs v /\
  forall q, 0 < q < total_pages (v_pmm v) ->
    page_used (v_pmm w) q = negb (owns q) && page_used (v_pmm v) q.

Lemma destroy_table_spec v d i :
  pmm_wf (v_pmm v) -> tables_aligned d -> 0 <= i < 1024 ->
  frees_only v (destroy_table v d i) (fun q => slot_owns v d q i).
Proof.
  intros Hwf Hal Hi. unfold destroy_table, slot_owns.
  destruct (Z.eqb_spec (vmm_table_is_private d i) 0) as [|Hp]; cbn [orb andb negb]; [done|].
  destruct (Z.eqb_spec (dir_table d i) 0) as [|Hz]; cbn [orb andb negb]; [done|].
  destruct (Hal i Hi Hz) as [Ha Ha0].
  destruct (free_entries_spec (get_table v (dir_table d i)) _ Hwf) as (H1 & H2 & H3).
  destruct (free_page_aligned _ (dir_table d i) H1 Ha Ha0) as (H4 & H5 & H6).
  cbn [set_pmm v_pmm v_tables v_dirs]. split; [done|]. split; [cbn; congruence|].
  split; [done|]. split; [done|].
  intros q Hq. cbn [set_pmm v_pmm]. rewrite H6, H3, negb_orb by (done || congruence).
  apply andb_assoc.
Qed.

Lemma destroy_tables_spec d n : forall v i,
  pmm_wf (v_pmm v) -> 0 <= i -> i + Z.of_nat n <= 1024 -> tables_aligned d ->
  frees_only v (destroy_tables v d i n) (fun q => slots_own v d q i n).
Proof.
  induction n as [|n IH]; intros v i Hwf Hi Hn Hal; cbn [destroy_tables slots_own]; [done|].
  fold (destroy_table v d i).
  destruct (destroy_table_spec v d i Hwf Hal) as (H1 & H2 & H3 & H4 & H5); [lia|].
  set (v1 := destroy_table v d i) in *. clearbody v1.
  destruct (IH v1 (i + 1) H1) as (H6 & H7 & H8 & H9 & H10); [lia|lia|done|].
  split; [done|]. split; [congruence|]. split; [congruence|]. split; [congruence|].
  intros q Hq. rewrite H10, H5, (slots_own_tables v v1) by (done || congruence).
  by destruct (slot_owns v d q i), (slots_own v d q (i + 1) n).
Qed.

(** C29. Task teardown: destroying a task's address space frees exactly the
    physical pages it owns, that is its private page tables and the user frames
    they map without the borrowed bit; borrowed frames, kernel frames and shared
    tables stay allocated, and no page table is touched. The kernel directory
    and the loaded one are never destroyed. *)
Theorem destroy_frees_exactly :
  forall (v : vmm_t) (dir : Z) (d : vmm_directory_t),
    vmm_wf v -> v_dirs v !! dir = Some d ->
    let '(rc, w) := vmm_destroy_user_directory v dir in
    (rc = 0 /\ dir <> kernel_directory v /\ dir <> current_directory v /\
     frees_only v w (directory_owns v dir)) \/
    (rc <> 0 /\ w = v).
Proof.
  intros v dir d Hwf Hd. unfold vmm_destroy_user_directory, directory_owns.
  destruct (Z.eqb_spec dir 0) as [|H0]; cbn [orb]; [by right|].
  destruct (Z.eqb_spec dir (kernel_directory v)) as [|H1]; cbn [orb]; [by right|].
  destruct (Z.eqb_spec dir (current_directory v)) as [|H2]; cbn [orb]; [by right|].
  case_if; [by right|]. left. do 3 (split; [done|]).
  unfold get_dir. rewrite Hd. cbn [default from_option id].
  apply destroy_tables_spec; [apply Hwf|lia|done|].
  eapply dir_ok_aligned, Hwf, Hd.
Qed.

(** ** Sharing kernel tables *)

(** Slot [i] of [d] is a hole the source directory can fill. *)
Definition fillable (d src : vmm_directory_t) (i : Z) : bool :=
  negb ((dir_table src i =? 0) || negb (dir_table d i =? 0) || negb (vmm_share_is_private d i =? 0)).

Definition count_fillable (d src : vmm_directory_t) (i : Z) (n : nat) : Z :=
  Z.of_nat (length (filter (fun k => fillable d src k = true) (seqZ i (Z.of_nat n)))).

Lemma count_fillable_S d src i n :
  count_fillable d src i (S n) = (if fillable d src i then 1 else 0) + count_fillable d src (i + 1) n.
Proof.
  unfold count_fillable. rewrite seqZ_cons by lia. rewrite filter_cons.
  replace (Z.pred (Z.of_nat (S n))) with (Z.of_nat n) by lia. rewrite <- Z.add_1_r.
  destruct (fillable d src i); case_decide; cbn [length]; done || lia.
Qed.

Lemma count_fillable_ext d d' src n : forall i,
  (forall j, i <= j < i + Z.of_nat n -> fillable d' src j = fillable d src j) ->
  count_fillable d' src i n = count_fillable d src i n.
Proof.
  induction n as [|n IH]; intros i H; [done|].
  rewrite !count_fillable_S, H, IH by (intros; try apply H; lia). done.
Qed.

Lemma fillable_set d src i t p j :
  length (tables d) = 1024%nat -> 0 <= i < 1024 -> 0 <= j -> i <> j ->
  fillable (dir_set_table d i t p) src j = fillable d src j.
Proof.
  intros Hl Hi Hj Hne. unfold fillable.
  change (vmm_share_is_private (dir_set_table d i t p) j) with (vmm_share_is_private d j).
  rewrite dir_table_set by done. by rewrite (proj2 (Z.eqb_neq i j)) by done.
Qed.

Lemma share_loop_step d src i k n :
  share_loop d src i k (S n) =
  if fillable d src i
  then share_loop (dir_set_table d i (dir_table src i) (dir_phys src i)) src (i + 1) (u32 (k + 1)) n
  else share_loop d src (i + 1) k n.
Proof. cbn [share_loop]. unfold fillable. by destruct (_ || _). Qed.

Lemma share_loop_spec src n : forall d i k,
  length (tables d) = 1024%nat -> length (tablesPhysical d) = 1024%nat ->
  0 <= i -> i + Z.of_nat n <= 1024 -> 0 <= k <= i ->
  let '(d', shared) := share_loop d src i k n in
  shared = k + count_fillable d src i n /\
  private_table_mask d' = private_table_mask d /\
  length (tables d') = 1024%nat /\ length (tablesPhysical d') = 1024%nat /\
  forall j, 0 <= j < 1024 ->
    let fills := (i <=? j) && (j <? i + Z.of_nat n) && fillable d src j in
    dir_table d' j = (if fills then dir_table src j else dir_table d j) /\
    dir_phys d' j = (if fills then dir_phys src j else dir_phys d j).
Proof.
  induction n as [|n IH]; intros d i k Hl Hp Hi Hn Hk.
  { change (count_fillable d src i 0) with 0. cbn [share_loop]. rewrite !Z.add_0_r.
    do 4 (split; [done|]). intros j Hj.
    destruct (Z.leb_spec i j), (Z.ltb_spec j i); try lia; done. }
  rewrite share_loop_step, count_fillable_S.
  destruct (fillable d src i) eqn:Hf.
  - rewrite u32_id by (unfold is_u32; lia).
    set (d1 := dir_set_table d i (dir_table src i) (dir_phys src i)).
    assert (Hl1 : length (tables d1) = 1024%nat) by (cbn; by rewrite length_insert).
    assert (Hp1 : length (tablesPhysical d1) = 1024%nat) by (cbn; by rewrite length_insert).
    specialize (IH d1 (i + 1) (k + 1) Hl1 Hp1 ltac:(lia) ltac:(lia) ltac:(lia)).
    destruct (share_loop d1 src (i + 1) (k + 1) n) as [d' shared].
    destruct IH as (-> & Hm & H1 & H2 & H3).
    rewrite (count_fillable_ext d d1) by (intros; apply fillable_set; (done || lia)).
    split; [lia|]. do 3 (split; [done|]). intros j Hj. destruct (H3 j Hj) as [-> ->].
    unfold d1. rewrite dir_table_set, dir_phys_set by (done || lia).
    destruct (Z.eqb_spec i j) as [<-|Hne].
    + rewrite Hf. destruct (Z.leb_spec (i + 1) i), (Z.leb_spec i i), (Z.ltb_spec i (i + Z.of_nat (S n)));
        lia || done.
    + rewrite fillable_set by (done || lia).
      destruct (Z.leb_spec (i + 1) j), (Z.leb_spec i j), (Z.ltb_spec j (i + 1 + Z.of_nat n)),
        (Z.ltb_spec j (i + Z.of_nat (S n))); lia || done.
  - specialize (IH d (i + 1) k Hl Hp ltac:(lia) ltac:(lia) ltac:(lia)).
    destruct (share_loop d src (i + 1) k n) as [d' shared].
    destruct IH as (-> & Hm & H1 & H2 & H3).
    split; [lia|]. do 3 (split; [done|]). intros j Hj. destruct (H3 j Hj) as [-> ->].
    destruct (Z.eq_dec i j) as [<-|Hne].
    + rewrite Hf, !andb_false_r. done.
    + destruct (Z.leb_spec (i + 1) j), (Z.leb_spec i j), (Z.ltb_spec j (i + 1 + Z.of_nat n)),
        (Z.ltb_spec j (i + Z.of_nat (S n))); lia || done.
Qed.

(** A hole of [dst] that gets filled is not private there, so a filled slot
    always holds one of the source's tables. *)
Lemma fillable_inv d src i :
  fillable d src i = true ->
  dir_table src i <> 0 /\ dir_table d i = 0 /\ vmm_share_is_private d i = 0.
Proof. unfold fillable. intros H. bsimp. done. Qed.

(** [d'] is [d] with the slots [fills] selects taken from [s]. *)
Record filled (d s d' : vmm_directory_t) (fills : Z -> bool) : Prop := {
  filled_mask : private_table_mask d' = private_table_mask d;
  filled_len : length (tables d') = 1024%nat;
  filled_plen : length (tablesPhysical d') = 1024%nat;
  filled_hole : forall j, fills j = true -> dir_table s j <> 0 /\ dir_table d j = 0;
  filled_table : forall j, 0 <= j < 1024 ->
    dir_table d' j = if fills j then dir_table s j else dir_table d j;
  filled_phys : forall j, 0 <= j < 1024 ->
    dir_phys d' j = if fills j then dir_phys s j else dir_phys d j
}.

Section Share.
Set Default Proof Using "All".
Context (v : vmm_t) (dst src : Z) (d s d' : vmm_directory_t) (fills : Z -> bool).
Hypothesis (Hwf : vmm_wf v) (Hd : v_dirs v !! dst = Some d) (Hs : v_dirs v !! src = Some s)
           (Hne : dst <> src) (Hpriv : forall i, 0 <= i < 1024 -> ~ is_private s i)
           (Hfill : filled d s d' fills).

Definition share_state : vmm_t := set_dirs v (<[dst := d']> (v_dirs v)).

Lemma share_dir_ok : dir_ok share_state d'.
Proof.
  destruct (vmm_dirs_ok v Hwf dst d Hd) as [? ? Hml Hmk Hh He].
  destruct (vmm_dirs_ok v Hwf src s Hs) as [_ _ _ _ Hsh Hse].
  destruct Hfill as [Hm ? ? Hz Ht Hp]. constructor; rewrite ?Hm; try done.
  - intros j Hj. rewrite Ht, Hp by done. destruct (fills j) eqn:E; [|by auto].
    destruct (Hz j E). done.
  - intros j Hj. rewrite Ht, Hp by done. destruct (fills j); intros Hnz.
    + destruct (Hse j Hj Hnz) as ([] & ? & ?). done.
    + destruct (He j Hj Hnz) as ([] & ? & ?). done.
Qed.

(** A table of the new directory is one it had, or one of the source's. *)
Lemma share_lookup dir d1 :
  v_dirs share_state !! dir = Some d1 ->
  (dir = dst /\ d1 = d') \/ (dir <> dst /\ v_dirs v !! dir = Some d1).
Proof.
  cbn. destruct (Z.eq_dec dst dir) as [->|]; [rewrite lookup_insert_eq|rewrite lookup_insert_ne by done].
  - intros [= <-]. by left.
  - by right.
Qed.

Lemma share_wf : vmm_wf share_state.
Proof.
  destruct Hfill as [Hm _ _ Hz Ht _]. constructor; [apply Hwf| |].
  - intros dir d1 H1. destruct (share_lookup dir d1 H1) as [[-> ->]|[_ H2]]; [apply share_dir_ok|].
    destruct (vmm_dirs_ok v Hwf dir d1 H2) as [? ? ? ? ? He]. constructor; try done.
    intros j Hj Hnz. destruct (He j Hj Hnz) as ([] & ? & ?). split; [by constructor|done].
  - assert (Hold : forall dir0 d0 i, v_dirs v !! dir0 = Some d0 -> 0 <= i < 1024 -> is_private d0 i ->
      dir_table d0 i <> 0 /\ forall dir1 d1 j, v_dirs share_state !! dir1 = Some d1 ->
        0 <= j < 1024 -> dir_table d1 j = dir_table d0 i -> dir1 = dir0 /\ j = i).
    { intros dir0 d0 i H0 Hi Hp. destruct (vmm_private v Hwf dir0 d0 i H0 Hi Hp) as [Hnz Hu].
      split; [done|]. intros dir1 d1 j H1 Hj.
      destruct (share_lookup dir1 d1 H1) as [[-> ->]|[_ H2]]; [|by apply Hu].
      rewrite Ht by done. destruct (fills j) eqn:E; [|by apply Hu].
      intros Heq. destruct (Hu src s j Hs Hj Heq) as [-> ->].
      rewrite H0 in Hs. injection Hs as ->. by destruct (Hpriv i Hi). }
    intros dir d1 i H1 Hi Hp. destruct (share_lookup dir d1 H1) as [[-> ->]|[_ H2]]; [|by apply Hold].
    assert (Hpd : is_private d i) by (unfold is_private, vmm_table_is_private in *; by rewrite <- Hm).
    destruct (Hold dst d i Hd Hi Hpd) as [Hnz Hu].
    assert (fills i = false) as Ei.
    { destruct (fills i) eqn:E; [|done]. by destruct (Hz i E). }
    rewrite Ht, Ei by done. done.
Qed.

Lemma share_walk dir va :
  is_u32 va ->
  walk share_state dir va =
  if (dir =? dst) && fills (va / PAGE_SIZE / ENTRIES_PER_TABLE) then walk v src va else walk v dir va.
Proof.
  intros Hva. pose proof (table_index_range va Hva) as Hi. unfold table_index in Hi.
  unfold walk. change (get_table share_state) with (get_table v).
  destruct (Z.eqb_spec dir dst) as [->|Hn]; cbn [andb].
  - unfold get_dir. cbn. rewrite lookup_insert_eq, Hd, Hs. cbn [default from_option id].
    rewrite (filled_phys _ _ _ _ Hfill) by done. by destruct (fills _).
  - unfold get_dir. cbn. by rewrite lookup_insert_ne by done.
Qed.
End Share.

(** Sharing kernel tables with a task directory only fills holes: a
    translation [dst] already has, private or not, is never replaced, a missing
    table of the requested range becomes the source's, other directories are
    untouched, the result is the number of tables shared and the sharing
    invariant is kept. The source directory has no private table in the range,
    as the kernel directory never has one. *)
Theorem sharing_fills_holes :
  forall (v : vmm_t) (dst src first count : Z) (d s : vmm_directory_t),
    vmm_wf v -> v_dirs v !! dst = Some d -> v_dirs v !! src = Some s ->
    dst <> 0 -> src <> 0 -> dst <> src -> 0 <= first < 1024 -> 0 <= count ->
    (forall i, 0 <= i < 1024 -> ~ is_private s i) ->
    let n := Z.min count (1024 - first) in
    let '(shared, w) := vmm_share_kernel_tables v dst src first count in
    vmm_wf w /\ shared = count_fillable d s first (Z.to_nat n) /\
    forall dir va, is_u32 va ->
      let i := va / PAGE_SIZE / ENTRIES_PER_TABLE in
      walk w dir va =
      if (dir =? dst) && (first <=? i) && (i <? first + n) && fillable d s i
      then walk v src va else walk v dir va.
Proof.
  intros v dst src first count d s Hwf Hd Hs H0 H1 Hne Hf Hc Hpriv n.
  unfold vmm_share_kernel_tables, get_dir. rewrite Hd, Hs, !(proj2 (Z.eqb_neq _ _)) by done.
  cbn [default from_option id orb].
  rewrite (proj2 (Z.leb_gt _ _)) by (unfold ENTRIES_PER_TABLE; lia).
  set (cnt := if _ <? count then _ else count).
  assert (cnt = n) as -> by (unfold cnt, n, ENTRIES_PER_TABLE; case_if; lia).
  assert (Hok := vmm_dirs_ok v Hwf dst d Hd).
  pose proof (share_loop_spec s (Z.to_nat n) d first 0 (dir_len _ _ Hok) (dir_plen _ _ Hok)) as Hl.
  destruct (share_loop d s first 0 (Z.to_nat n)) as [d' shared].
  destruct Hl as (-> & Hm & Hl1 & Hl2 & Hj); [lia|lia|lia|].
  rewrite Z2Nat.id in Hj by lia.
  set (fills j := (first <=? j) && (j <? first + n) && fillable d s j) in Hj.
  assert (Hfill : filled d s d' fills).
  { constructor; try done; try (intros j Hj0; by destruct (Hj j Hj0)).
    intros j E. unfold fills in E. bsimp. by destruct (fillable_inv d s j Hb0) as (? & ? & _). }
  split; [by apply (share_wf v dst src d s d' fills)|]. split; [lia|].
  intros dir va Hva. fold (share_state v dst d'). rewrite (share_walk v dst src d s d' fills) by done.
  unfold fills. by rewrite !andb_assoc.
Qed.

(** ** Concrete states *)

(** A machine of 40 pages whose page 2 holds the only page table, mapped at slot
    0 of the kernel directory (1) and of a task directory (2); directory 3 is
    empty. *)
Definition slot0_dir (static t : Z) : vmm_directory_t :=
  mk_dir (t :: replicate 1023 0) ((if t =? 0 then 0 else t + 3) :: replicate 1023 0) 0 static
    (replicate 32 0).

Definition small_vmm : vmm_t :=
  mk_vmm small_pmm {[8192 := zero_table]}
    {[1 := slot0_dir 0 8192; 2 := slot0_dir 1 8192; 3 := slot0_dir 1 0]} 1 1.

Lemma slot0_lookup (x i : Z) :
  0 <= i < 1024 -> default 0 ((x :: replicate 1023 0) !! Z.to_nat i) = if i =? 0 then x else 0.
Proof.
  intros Hi. destruct (Z.eqb_spec i 0) as [->|]; [done|].
  replace (Z.to_nat i) with (S (Z.to_nat (i - 1))) by lia.
  rewrite lookup_cons_ne_0 by done. cbn [Nat.pred]. by rewrite lookup_replicate_2 by lia.
Qed.

Lemma slot0_not_private s t i : 0 <= i < 1024 -> ~ is_private (slot0_dir s t) i.
Proof.
  intros Hi. unfold is_private. rewrite private_bit by lia. cbn [private_table_mask slot0_dir].
  rewrite lookup_replicate_2 by zlia. cbn [default from_option id]. rewrite Z.testbit_0_l. cbn [b2z]. lia.
Qed.

Lemma slot0_ok s t : t = 0 \/ t = 8192 -> dir_ok small_vmm (slot0_dir s t).
Proof.
  intros Ht. constructor; try done.
  - cbn [slot0_dir private_table_mask]. apply Forall_forall. intros x [-> _]%elem_of_replicate.
    unfold is_u32. lia.
  - intros i Hi. unfold dir_table, dir_phys. cbn [slot0_dir tables tablesPhysical].
    rewrite !slot0_lookup by done. case_if; [|done]. by destruct Ht as [-> | ->].
  - intros i Hi. unfold dir_table, dir_phys. cbn [slot0_dir tables tablesPhysical].
    rewrite !slot0_lookup by done. case_if; [|done]. destruct Ht as [-> | ->]; [done|]. intros _.
    split; [|done]. constructor; vm_compute; auto.
Qed.

Lemma small_vmm_wf : vmm_wf small_vmm.
Proof.
  assert (Hd : forall dir d, v_dirs small_vmm !! dir = Some d ->
    exists s t, (t = 0 \/ t = 8192) /\ d = slot0_dir s t).
  { intros dir d. unfold small_vmm. cbn [v_dirs].
    rewrite !lookup_insert_Some, lookup_singleton_Some. naive_solver. }
  constructor; [apply small_pmm_wf| |].
  - intros dir d H. destruct (Hd dir d H) as (s & t & Ht & ->). by apply slot0_ok.
  - intros dir d i H Hi Hp. destruct (Hd dir d H) as (s & t & _ & ->).
    by destruct (slot0_not_private s t i Hi).
Qed.

Example user_mapping_is_isolated_witness :
  let w := snd (vmm_map_page_in_directory small_vmm 2 12288 1073741824 7) in
  fst (vmm_map_page_in_directory small_vmm 2 12288 1073741824 7) = 0 /\ vmm_wf w /\
  maps_exactly small_vmm w 2 12288 1073741824 7.
Proof.
  pose proof (user_mapping_is_isolated small_vmm 2 12288 1073741824 7 (slot0_dir 1 8192) small_vmm_wf
    ltac:(lia) ltac:(discriminate) eq_refl ltac:(lia) ltac:(lia) ltac:(unfold is_u32; lia)
    ltac:(vm_compute; discriminate)) as H.
  assert (fst (vmm_map_page_in_directory small_vmm 2 12288 1073741824 7) = 0) as E
    by (vm_compute; reflexivity).
  destruct (vmm_map_page_in_directory small_vmm 2 12288 1073741824 7) as [rc w].
  cbn [fst snd] in *. destruct H as (H1 & H2 & _). split; [exact E|]. split; [exact H1|exact (H2 E)].
Defined.

Example borrowed_mapping_witness :
  exists p, walk (snd (vmm_map_borrowed_user_page small_vmm 2 753664 1073741824)) 2 1073741824 = Some p /\
    rw p = 0 /\ vmm_page_is_borrowed (Some p) = 1.
Proof.
  pose proof (borrowed_mapping small_vmm 2 753664 1073741824 (slot0_dir 1 8192) false small_vmm_wf
    ltac:(lia) ltac:(discriminate) eq_refl ltac:(lia) ltac:(lia) ltac:(unfold is_u32; lia)) as H.
  assert (fst (vmm_map_borrowed_user_page small_vmm 2 753664 1073741824) = 0) as E
    by (vm_compute; reflexivity).
  cbv beta iota in H.
  destruct (vmm_map_borrowed_user_page small_vmm 2 753664 1073741824) as [rc w].
  cbn [fst snd] in *. destruct (H E) as ((p & H1 & _ & H2 & _ & H3) & _).
  exists p. split; [exact H1|]. split; [exact H2|exact H3].
Defined.

(** The task directory after one mapping owns page 3, its private table, and
    the mapped frame 4. *)
Definition mapped_vmm : vmm_t :=
  snd (vmm_map_page_in_directory small_vmm 2 16384 1073741824 7).

Lemma mapped_vmm_wf : vmm_wf mapped_vmm.
Proof.
  pose proof (map_page_user_spec small_vmm 2 (slot0_dir 1 8192) 16384 1073741824 7 small_vmm_wf
    ltac:(lia) ltac:(discriminate) eq_refl ltac:(lia) ltac:(lia) ltac:(unfold is_u32; lia)
    ltac:(vm_compute; discriminate)) as H.
  unfold mapped_vmm. destruct (vmm_map_page_in_directory small_vmm 2 16384 1073741824 7) as [rc w].
  exact (proj1 H).
Qed.

Example destroy_frees_exactly_witness :
  fst (vmm_destroy_user_directory mapped_vmm 2) = 0 /\
  directory_owns mapped_vmm 2 3 = true /\ directory_owns mapped_vmm 2 4 = true /\
  frees_only mapped_vmm (snd (vmm_destroy_user_directory mapped_vmm 2)) (directory_owns mapped_vmm 2).
Proof.
  assert (E : fst (vmm_destroy_user_directory mapped_vmm 2) = 0) by (vm_compute; reflexivity).
  split; [exact E|]. split; [vm_compute; reflexivity|]. split; [vm_compute; reflexivity|].
  pose proof (destroy_frees_exactly mapped_vmm 2 (get_dir mapped_vmm 2) mapped_vmm_wf
    ltac:(vm_compute; reflexivity)) as H.
  destruct (vmm_destroy_user_directory mapped_vmm 2) as [rc w]. cbn [fst snd] in *.
  destruct H as [(_ & _ & _ & H)|[H _]]; [exact H|contradiction].
Defined.

Example sharing_fills_holes_witness :
  let '(shared, w) := vmm_share_kernel_tables small_vmm 3 1 0 2000 in
  vmm_wf w /\ shared = 1 /\ walk w 3 4096 = walk small_vmm 1 4096.
Proof.
  pose proof (sharing_fills_holes small_vmm 3 1 0 2000 (slot0_dir 1 0) (slot0_dir 0 8192) small_vmm_wf
    eq_refl eq_refl ltac:(lia) ltac:(lia) ltac:(lia) ltac:(lia) ltac:(lia)
    (slot0_not_private 0 8192)) as H.
  cbv zeta in H. destruct (vmm_share_kernel_tables small_vmm 3 1 0 2000) as [shared w].
  destruct H as (H1 & -> & H2). split; [exact H1|]. split; [vm_compute; reflexivity|].
  rewrite H2 by (unfold is_u32; lia). reflexivity.
Defined.
