(* ===== verification/Bytes.v ===== *)
(** * Byte buffers: checked slices and little/big-endian words

    Shared by the journals of the service registry and the network codecs. *)

From Stdlib Require Import ZArith Lia.
From stdpp Require Import base numbers option tactics list.
From S2P Require Import Prelude.

Abbreviation bytes := (list Z) (only parsing).

Definition blen (b : bytes) : Z := Z.of_nat (length b).

(** [n] bytes at offset [off]; [None] when any of them is outside [a]. *)
Definition ld_bytes (a : bytes) (off n : Z) : option bytes :=
  if (0 <=? off) && (0 <=? n) && (off + n <=? blen a)
  then Some (take (Z.to_nat n) (drop (Z.to_nat off) a)) else None.

(** The bytes [bs] written at offset [off]; [None] when one falls outside. *)
Definition st_bytes (a : bytes) (off : Z) (bs : bytes) : option bytes :=
  if (0 <=? off) && (off + blen bs <=? blen a)
  then Some (take (Z.to_nat off) a ++ bs ++ drop (Z.to_nat off + length bs) a) else None.

(** ** Words *)
Definition le32 (z : Z) : bytes := [u8 z; u8 (z / 256); u8 (z / 65536); u8 (z / 16777216)].
Definition un_le32 (b : bytes) : Z :=
  match b with
  | b0 :: b1 :: b2 :: b3 :: _ => b0 + 256 * b1 + 65536 * b2 + 16777216 * b3
  | _ => 0
  end.

Definition be16 (z : Z) : bytes := [u8 (z / 256); u8 z].
Definition be32 (z : Z) : bytes := [u8 (z / 16777216); u8 (z / 65536); u8 (z / 256); u8 z].
Definition un_be16 (b : bytes) : Z :=
  match b with b0 :: b1 :: _ => 256 * b0 + b1 | _ => 0 end.
Definition un_be32 (b : bytes) : Z :=
  match b with
  | b0 :: b1 :: b2 :: b3 :: _ => 16777216 * b0 + 65536 * b1 + 256 * b2 + b3
  | _ => 0
  end.

(** Sum of the bytes, as a 32-bit accumulator computes it. *)
Definition byte_sum (b : bytes) : Z := fold_left (fun s x => u32 (s + x)) b 0.

Lemma un_le32_le32 z r : is_u32 z -> un_le32 (le32 z ++ r) = z.
Proof. unfold is_u32, le32, u8. cbn [un_le32 app]. intros. zlia. Qed.

Lemma un_be32_be32 z r : is_u32 z -> un_be32 (be32 z ++ r) = z.
Proof. unfold is_u32, be32, u8. cbn [un_be32 app]. intros. zlia. Qed.

Lemma un_be16_be16 z r : is_u16 z -> un_be16 (be16 z ++ r) = z.
Proof. unfold is_u16, be16, u8. cbn [un_be16 app]. intros. zlia. Qed.

Lemma le32_length z : length (le32 z) = 4%nat.
Proof. done. Qed.

Lemma le32_bytes z : Forall is_u8 (le32 z).
Proof. repeat constructor; apply u8_range. Qed.

(** A 32-bit word read back from four bytes. *)
Lemma un_le32_range b : Forall is_u8 b -> is_u32 (un_le32 b).
Proof.
  unfold is_u8, is_u32. intros H.
  destruct b as [|b0 [|b1 [|b2 [|b3 b]]]]; cbn [un_le32]; try lia.
  rewrite !Forall_cons_iff in H. lia.
Qed.

(** ** Slices *)
Lemma ld_bytes_Some a off n b :
  ld_bytes a off n = Some b <->
  0 <= off /\ 0 <= n /\ off + n <= blen a /\ b = take (Z.to_nat n) (drop (Z.to_nat off) a).
Proof.
  unfold ld_bytes. destruct (Z.leb_spec 0 off), (Z.leb_spec 0 n), (Z.leb_spec (off + n) (blen a));
    cbn [andb]; naive_solver lia.
Qed.

Lemma ld_bytes_is_Some a off n :
  is_Some (ld_bytes a off n) <-> 0 <= off /\ 0 <= n /\ off + n <= blen a.
Proof.
  unfold ld_bytes. destruct (Z.leb_spec 0 off), (Z.leb_spec 0 n), (Z.leb_spec (off + n) (blen a));
    cbn [andb]; split; intros; try lia; eauto; by destruct H2.
Qed.

Lemma ld_bytes_app l m r :
  ld_bytes (l ++ m ++ r) (blen l) (blen m) = Some m.
Proof.
  unfold ld_bytes, blen. rewrite !length_app.
  rewrite !(proj2 (Z.leb_le _ _)) by lia. cbn [andb]. f_equal.
  rewrite !Nat2Z.id, drop_app_length, take_app_length. done.
Qed.

(** A slice of a concatenation: the piece [m] after [l], as found by parsers. *)
Lemma ld_bytes_at l m r off n :
  off = blen l -> n = blen m -> ld_bytes (l ++ m ++ r) off n = Some m.
Proof. intros -> ->. apply ld_bytes_app. Qed.

Lemma blen_app (a b : bytes) : blen (a ++ b) = blen a + blen b.
Proof. unfold blen. rewrite length_app. lia. Qed.

Lemma st_bytes_app l m r bs :
  length bs = length m -> st_bytes (l ++ m ++ r) (blen l) bs = Some (l ++ bs ++ r).
Proof.
  intros H. unfold st_bytes, blen. rewrite !length_app, H.
  rewrite !(proj2 (Z.leb_le _ _)) by lia. cbn [andb]. f_equal.
  rewrite Nat2Z.id, take_app_length. f_equal. f_equal.
  rewrite drop_app, drop_ge by lia.
  replace (length l + length m - length l)%nat with (length m) by lia.
  by rewrite drop_app_length.
Qed.

Lemma st_bytes_is_Some a off bs :
  is_Some (st_bytes a off bs) <-> 0 <= off /\ off + blen bs <= blen a.
Proof.
  unfold st_bytes. destruct (Z.leb_spec 0 off), (Z.leb_spec (off + blen bs) (blen a));
    cbn [andb]; split; intros; try lia; eauto; by destruct H1.
Qed.

Lemma st_bytes_length a off bs a' : st_bytes a off bs = Some a' -> length a' = length a.
Proof.
  unfold st_bytes, blen. destruct (Z.leb_spec 0 off); cbn [andb]; [|done].
  destruct (Z.leb_spec (off + Z.of_nat (length bs)) (Z.of_nat (length a))); [|done].
  intros [= <-]. rewrite !length_app, length_take, length_drop. lia.
Qed.

Lemma byte_sum_range b : is_u32 (byte_sum b).
Proof.
  unfold byte_sum. cut (forall s, is_u32 s -> is_u32 (fold_left (fun s x => u32 (s + x)) b s)).
  { intros H. apply H. unfold is_u32. lia. }
  induction b as [|x b IH]; intros s Hs; cbn; [done|]. apply IH, u32_range.
Qed.

#[export] Hint Resolve byte_sum_range le32_bytes : cint.
