(* ===== verification/Names.v ===== *)
(** * Service names and path prefixes

    The string routines of kernel/service_registry.c.  A C string argument is
    the list of the bytes in its array; a read at or past the end of the list
    is the terminating NUL.  The routines never read past the terminator, so
    the value beyond it is irrelevant. *)

From Stdlib Require Import ZArith Lia Ascii String.
From stdpp Require Import base numbers option tactics list.
From S2P Require Import Prelude Bytes.

Definition OS_SERVICE_NAME_MAX : Z := 16.
Definition OS_SERVICE_BACKEND_PREFIX_MAX : Z := 48.

Abbreviation cstring := (list Z) (only parsing).

(** A string literal of the source. *)
Definition lit (s : string) : cstring :=
  List.map (fun a => Z.of_N (N_of_ascii a)) (list_ascii_of_string s).

(** [s[i]] *)
Definition chr (s : cstring) (i : Z) : Z := default 0 (s !! Z.to_nat i).

(** Dereference of a pointer the caller has checked. *)
Definition str (p : ptr cstring) : cstring := default [] p.

(** Loop of the two bounded comparisons, from index [i] with [n] turns left. *)
Fixpoint equal_from (left right : cstring) (i : Z) (n : nat) : bool :=
  match n with
  | O => false
  | S n =>
      if negb (chr left i =? chr right i) then false
      else if chr left i =? 0 then true
      else equal_from left right (i + 1) n
  end.

Definition name_equal (left right : cstring) : bool :=
  equal_from left right 0 (Z.to_nat OS_SERVICE_NAME_MAX).

Definition service_registry_backend_prefix_equal (left right : ptr cstring) : bool :=
  match left, right with
  | Some l, Some r => equal_from l r 0 (Z.to_nat OS_SERVICE_BACKEND_PREFIX_MAX)
  | _, _ => false
  end.

(** Loop of the two copies: [destination] keeps its size, and what follows the
    terminator is zeroed. *)
Fixpoint copy_from (destination source : cstring) (i : Z) (n : nat) : cstring :=
  match n with
  | O => destination
  | S n =>
      let destination := <[Z.to_nat i := chr source i]> destination in
      if chr source i =? 0
      then fold_left (fun d k => <[Z.to_nat k := 0]> d) (seqZ (i + 1) (Z.of_nat n)) destination
      else copy_from destination source (i + 1) n
  end.

Definition copy_name (destination source : cstring) : cstring :=
  copy_from destination source 0 (Z.to_nat OS_SERVICE_NAME_MAX).

Definition service_registry_backend_copy_prefix (destination source : cstring) : cstring :=
  copy_from destination source 0 (Z.to_nat OS_SERVICE_BACKEND_PREFIX_MAX).

(** [s[0] = '\0'] *)
Definition clear_string (s : cstring) : cstring := <[0%nat := 0]> s.

Definition name_char (c : Z) : bool :=
  ((97 <=? c) && (c <=? 122)) || ((65 <=? c) && (c <=? 90)) ||
  ((48 <=? c) && (c <=? 57)) || (c =? 95) || (c =? 45).

Fixpoint name_valid_from (name : cstring) (i : Z) (n : nat) : bool :=
  match n with
  | O => false
  | S n =>
      let c := chr name i in
      if c =? 0 then true
      else if negb (name_char c) then false
      else name_valid_from name (i + 1) n
  end.

Definition service_registry_name_valid (name : ptr cstring) : bool :=
  match name with
  | NULL => false
  | Some name =>
      if chr name 0 =? 0 then false
      else name_valid_from name 0 (Z.to_nat OS_SERVICE_NAME_MAX)
  end.

(** 47 is '/', 46 is '.'. *)
Fixpoint prefix_valid_from (prefix : cstring) (i : Z) (n : nat) : bool :=
  match n with
  | O => false
  | S n =>
      let c := chr prefix i in
      if c =? 0 then (0 <? i) && (chr prefix (i - 1) =? 47)
      else if (c =? 47) && ((i =? 0) || (chr prefix (i - 1) =? 47)) then false
      else if (c =? 46) && (i + 1 <? OS_SERVICE_BACKEND_PREFIX_MAX) && (chr prefix (i + 1) =? 46)
      then false
      else prefix_valid_from prefix (i + 1) n
  end.

Definition service_registry_backend_prefix_valid (prefix : ptr cstring) : bool :=
  match prefix with
  | NULL => false
  | Some prefix =>
      if chr prefix 0 =? 0 then true
      else prefix_valid_from prefix 0 (Z.to_nat OS_SERVICE_BACKEND_PREFIX_MAX)
  end.

(** The loop runs to the prefix's terminator; the fuel is the prefix length,
    past which [chr] is the NUL. *)
Fixpoint prefix_matches_from (prefix path : cstring) (i : Z) (n : nat) : bool :=
  if chr prefix i =? 0 then true
  else
    match n with
    | O => true
    | S n =>
        if (chr path i =? 0) || negb (chr path i =? chr prefix i) then false
        else prefix_matches_from prefix path (i + 1) n
    end.

Definition service_registry_backend_prefix_matches (prefix path : ptr cstring) : bool :=
  match prefix with
  | NULL => false
  | Some prefix =>
      if chr prefix 0 =? 0 then true
      else match path with
           | NULL => false
           | Some path => prefix_matches_from prefix path 0 (length prefix)
           end
  end.

(** ** What the strings mean *)

(** The characters before the first NUL. *)
Fixpoint cstr (s : cstring) : cstring :=
  match s with
  | [] => []
  | c :: s => if c =? 0 then [] else c :: cstr s
  end.

(** Reads of a concatenation. *)
Lemma chr_app_l (s t : bytes) i : 0 <= i < blen s -> chr (s ++ t) i = chr s i.
Proof. intros H. unfold chr, blen in *. by rewrite lookup_app_l by lia. Qed.

Lemma chr_app_r (s t : bytes) i k : i = blen s + k -> 0 <= k -> chr (s ++ t) i = chr t k.
Proof. intros -> Hk. unfold chr, blen. rewrite lookup_app_r by lia. do 2 f_equal. lia. Qed.

Lemma chr_S c s i : 0 <= i -> chr (c :: s) (i + 1) = chr s i.
Proof.
  intros Hi. unfold chr. replace (Z.to_nat (i + 1)) with (S (Z.to_nat i)) by lia. done.
Qed.

Lemma chr_drop s i k : 0 <= i -> 0 <= k -> chr (drop (Z.to_nat i) s) k = chr s (i + k).
Proof.
  intros Hi Hk. unfold chr. rewrite lookup_drop. do 2 f_equal. lia.
Qed.

(** Views of the tail at an index: the loops are stated on it. *)
Lemma cstr_drop_stop s i : chr s i = 0 -> cstr (drop (Z.to_nat i) s) = [].
Proof.
  unfold chr. intros H. destruct (s !! Z.to_nat i) as [c|] eqn:E.
  - cbn in H. subst. by rewrite (drop_S _ _ _ E).
  - by rewrite drop_ge by (by apply lookup_ge_None).
Qed.

Lemma cstr_drop_go s i :
  0 <= i -> chr s i <> 0 -> cstr (drop (Z.to_nat i) s) = chr s i :: cstr (drop (Z.to_nat (i + 1)) s).
Proof.
  unfold chr. intros Hi H. destruct (s !! Z.to_nat i) as [c|] eqn:E; [|done].
  cbn in *. rewrite (drop_S _ _ _ E). cbn. rewrite (proj2 (Z.eqb_neq c 0)) by done.
  by replace (Z.to_nat (i + 1)) with (S (Z.to_nat i)) by lia.
Qed.

Lemma equal_from_spec l r n : forall i,
  0 <= i ->
  equal_from l r i n = true <->
  cstr (drop (Z.to_nat i) l) = cstr (drop (Z.to_nat i) r) /\
  (length (cstr (drop (Z.to_nat i) l)) < n)%nat.
Proof.
  induction n as [|n IH]; intros i Hi; cbn [equal_from]; [split; [done|intros [_ ?]; lia]|].
  destruct (Z.eqb_spec (chr l i) (chr r i)) as [E|E]; cbn [negb].
  - destruct (Z.eqb_spec (chr l i) 0) as [E0|E0].
    + rewrite !cstr_drop_stop by congruence. split; [|done]. cbn. split; [done|lia].
    + rewrite (cstr_drop_go l i), (cstr_drop_go r i), IH by (lia || congruence). cbn [length].
      rewrite E. split; [intros [-> ?]|intros [[= ->] ?]]; split; auto; lia.
  - split; [done|]. intros [H _]. destruct (Z.eq_dec (chr l i) 0) as [E0|E0].
    + rewrite (cstr_drop_stop l i) in H by done.
      rewrite (cstr_drop_go r i) in H by (lia || congruence). done.
    + rewrite (cstr_drop_go l i) in H by (lia || congruence).
      destruct (Z.eq_dec (chr r i) 0) as [E1|E1].
      * by rewrite (cstr_drop_stop r i) in H by done.
      * rewrite (cstr_drop_go r i) in H by (lia || congruence). by injection H.
Qed.

Lemma name_equal_spec l r :
  name_equal l r = true <-> cstr l = cstr r /\ (length (cstr l) < 16)%nat.
Proof. unfold name_equal. by rewrite equal_from_spec by lia. Qed.

Lemma prefix_equal_spec l r :
  service_registry_backend_prefix_equal (Some l) (Some r) = true <->
  cstr l = cstr r /\ (length (cstr l) < 48)%nat.
Proof. cbn. by rewrite equal_from_spec by lia. Qed.

Lemma name_valid_from_spec s n : forall i,
  0 <= i ->
  name_valid_from s i n = true <->
  (length (cstr (drop (Z.to_nat i) s)) < n)%nat /\
  Forall (fun c => name_char c = true) (cstr (drop (Z.to_nat i) s)).
Proof.
  induction n as [|n IH]; intros i Hi; cbn [name_valid_from]; [split; [done|intros [? _]; lia]|].
  destruct (Z.eqb_spec (chr s i) 0) as [E|E].
  - rewrite cstr_drop_stop by done. split; [|done]. cbn. split; [lia|constructor].
  - rewrite cstr_drop_go by done. cbn [length]. rewrite Forall_cons_iff.
    destruct (name_char (chr s i)); cbn [negb]; [|naive_solver].
    rewrite IH by lia. split; [intros [? ?]|intros (? & _ & ?)]; repeat split; auto; lia.
Qed.

(** What the registry accepts as a name: 1 to 15 characters of the alphabet. *)
Definition name_ok (n : cstring) : Prop :=
  (0 < length n < 16)%nat /\ Forall (fun c => name_char c = true) n.

Lemma name_valid_spec s : service_registry_name_valid (Some s) = true <-> name_ok (cstr s).
Proof.
  cbn. unfold name_ok. pose proof (name_valid_from_spec s 16 0 ltac:(lia)) as H.
  change (Z.to_nat 0) with 0%nat in H. rewrite drop_0 in H.
  destruct (Z.eqb_spec (chr s 0) 0) as [E|E].
  - pose proof (cstr_drop_stop s 0 E) as H0. change (Z.to_nat 0) with 0%nat in H0.
    rewrite drop_0 in H0. rewrite H0. cbn. split; [done|]. intros [? _]. lia.
  - pose proof (cstr_drop_go s 0 ltac:(lia) E) as H0. change (Z.to_nat 0) with 0%nat in H0.
    rewrite drop_0 in H0. change (Z.to_nat OS_SERVICE_NAME_MAX) with 16%nat. rewrite H, H0.
    cbn [length]. split; intros [? ?]; (split; [lia|done]).
Qed.

(** Copying keeps the string and the size of the array. *)
Lemma zero_fill_length ks : forall d : cstring,
  length (fold_left (fun d k => <[Z.to_nat k := 0]> d) ks d) = length d.
Proof. induction ks as [|k ks IH]; intros d; cbn; [done|]. by rewrite IH, length_insert. Qed.

Lemma copy_from_length src n : forall d i, length (copy_from d src i n) = length d.
Proof.
  induction n as [|n IH]; intros d i; cbn [copy_from]; [done|].
  destruct (chr src i =? 0); [by rewrite zero_fill_length, length_insert|].
  by rewrite IH, length_insert.
Qed.

Lemma zero_fill_lookup ks (j : nat) : forall d : cstring,
  Forall (fun k => Z.to_nat k <> j) ks ->
  fold_left (fun d k => <[Z.to_nat k := 0]> d) ks d !! j = d !! j.
Proof.
  induction ks as [|k ks IH]; intros d Hk; cbn; [done|].
  apply Forall_cons_iff in Hk as [? ?]. rewrite IH by done. by rewrite list_lookup_insert_ne by done.
Qed.

Lemma copy_from_before src n : forall d i (j : nat),
  0 <= i -> (j < Z.to_nat i)%nat -> copy_from d src i n !! j = d !! j.
Proof.
  induction n as [|n IH]; intros d i j Hi Hj; cbn [copy_from]; [done|].
  destruct (chr src i =? 0).
  - rewrite zero_fill_lookup; [by rewrite list_lookup_insert_ne by lia|].
    apply Forall_forall. intros k Hk%elem_of_seqZ. lia.
  - rewrite IH by lia. by rewrite list_lookup_insert_ne by lia.
Qed.

(** Character [j] of the copy, up to and including the terminator. *)
Lemma copy_from_chr src n : forall d i,
  0 <= i -> (Z.to_nat i + n <= length d)%nat ->
  (length (cstr (drop (Z.to_nat i) src)) < n)%nat ->
  cstr (drop (Z.to_nat i) (copy_from d src i n)) = cstr (drop (Z.to_nat i) src).
Proof.
  induction n as [|n IH]; intros d i Hi Hd Hlen; [lia|].
  assert (Hat : chr (copy_from d src i (S n)) i = chr src i).
  { unfold chr at 1. cbn [copy_from]. destruct (chr src i =? 0).
    - rewrite zero_fill_lookup; [|apply Forall_forall; intros k Hk%elem_of_seqZ; lia].
      by rewrite list_lookup_insert_eq by lia.
    - rewrite copy_from_before by lia. by rewrite list_lookup_insert_eq by lia. }
  destruct (Z.eq_dec (chr src i) 0) as [E|E].
  - rewrite !cstr_drop_stop by congruence. done.
  - rewrite (cstr_drop_go src i), (cstr_drop_go (copy_from d src i (S n)) i) by (lia || congruence).
    rewrite Hat. f_equal. cbn [copy_from]. rewrite (proj2 (Z.eqb_neq _ 0)) by done.
    rewrite (cstr_drop_go src i) in Hlen by done. cbn [length] in Hlen.
    apply IH; [lia|rewrite length_insert; lia|lia].
Qed.

Lemma copy_name_spec d s :
  length d = 16%nat -> (length (cstr s) < 16)%nat ->
  cstr (copy_name d s) = cstr s /\ length (copy_name d s) = 16%nat.
Proof.
  intros Hd Hs. split; [|unfold copy_name; by rewrite copy_from_length].
  apply (copy_from_chr s 16 d 0); [lia|rewrite Hd; done|done].
Qed.

Lemma copy_prefix_spec d s :
  length d = 48%nat -> (length (cstr s) < 48)%nat ->
  cstr (service_registry_backend_copy_prefix d s) = cstr s /\
  length (service_registry_backend_copy_prefix d s) = 48%nat.
Proof.
  intros Hd Hs. split; [|unfold service_registry_backend_copy_prefix; by rewrite copy_from_length].
  apply (copy_from_chr s 48 d 0); [lia|rewrite Hd; done|done].
Qed.

Lemma chr_past s i : Z.of_nat (length s) <= i -> chr s i = 0.
Proof. intros H. unfold chr. by rewrite lookup_ge_None_2 by lia. Qed.

Lemma prefix_matches_from_spec p path n : forall i,
  0 <= i -> Z.of_nat (length p) <= i + Z.of_nat n ->
  prefix_matches_from p path i n = true <->
  cstr (drop (Z.to_nat i) p) `prefix_of` cstr (drop (Z.to_nat i) path).
Proof.
  induction n as [|n IH]; intros i Hi Hn; cbn [prefix_matches_from].
  { rewrite chr_past by lia. cbn. rewrite cstr_drop_stop by (apply chr_past; lia).
    split; [intros _; apply prefix_nil|done]. }
  destruct (Z.eqb_spec (chr p i) 0) as [E|E].
  { rewrite cstr_drop_stop by done. split; [intros _; apply prefix_nil|done]. }
  rewrite (cstr_drop_go p i) by done.
  destruct (Z.eqb_spec (chr path i) 0) as [E0|E0]; cbn [orb].
  { rewrite (cstr_drop_stop path i) by done. split; [done|]. by intros [? ?]. }
  rewrite (cstr_drop_go path i) by done.
  destruct (Z.eqb_spec (chr path i) (chr p i)) as [->|E1]; cbn [negb].
  - rewrite IH by lia. split; [apply prefix_cons|apply prefix_cons_inv_2].
  - split; [done|]. intros H%prefix_cons_inv_1. done.
Qed.

Lemma cstr_nil s : cstr s = [] <-> chr s 0 = 0.
Proof.
  destruct s as [|c s]; [done|]. unfold chr. cbn. destruct (Z.eqb_spec c 0); naive_solver.
Qed.

(** The path test is a prefix test on the strings. *)
Lemma prefix_matches_spec p path :
  service_registry_backend_prefix_matches (Some p) (Some path) = true <->
  cstr p `prefix_of` cstr path.
Proof.
  cbn. destruct (Z.eqb_spec (chr p 0) 0) as [E|E].
  - apply cstr_nil in E. rewrite E. split; [intros _; apply prefix_nil|done].
  - by rewrite prefix_matches_from_spec by lia.
Qed.

(** Without a path only the root prefix matches. *)
Lemma prefix_matches_null p :
  service_registry_backend_prefix_matches (Some p) NULL = true <-> cstr p = [].
Proof.
  cbn. rewrite cstr_nil. destruct (Z.eqb_spec (chr p 0) 0); naive_solver.
Qed.

Lemma prefix_valid_from_length p n : forall i,
  0 <= i -> prefix_valid_from p i n = true -> (length (cstr (drop (Z.to_nat i) p)) < n)%nat.
Proof.
  induction n as [|n IH]; intros i Hi H; cbn [prefix_valid_from] in H; [done|].
  destruct (Z.eqb_spec (chr p i) 0) as [E|E].
  - rewrite cstr_drop_stop by done. cbn. lia.
  - rewrite cstr_drop_go by done. cbn [length].
    case_if_in H; [done|]. case_if_in H; [done|]. apply IH in H; lia.
Qed.

Lemma prefix_valid_length p :
  service_registry_backend_prefix_valid (Some p) = true -> (length (cstr p) < 48)%nat.
Proof.
  cbn. destruct (Z.eqb_spec (chr p 0) 0) as [E|E].
  - apply cstr_nil in E. rewrite E. cbn. lia.
  - intros H. by apply (prefix_valid_from_length p 48 0).
Qed.

(** ** The comparison as an equivalence on valid names *)

Lemma name_valid_length s : service_registry_name_valid (Some s) = true -> (length (cstr s) < 16)%nat.
Proof. rewrite name_valid_spec. intros [? _]. lia. Qed.

Lemma name_equal_refl s : service_registry_name_valid (Some s) = true -> name_equal s s = true.
Proof. intros H%name_valid_length. by rewrite name_equal_spec. Qed.

Lemma name_equal_sym l r : name_equal l r = name_equal r l.
Proof. apply eq_true_iff_eq. rewrite !name_equal_spec. split; intros [-> ?]; done. Qed.

Lemma name_equal_cong l l' r :
  cstr l = cstr l' -> name_equal l r = name_equal l' r.
Proof. intros E. apply eq_true_iff_eq. rewrite !name_equal_spec, E. done. Qed.

Lemma name_equal_cstr l r : name_equal l r = true -> cstr l = cstr r.
Proof. rewrite name_equal_spec. by intros [? _]. Qed.

Lemma name_equal_valid l r :
  name_equal l r = true -> service_registry_name_valid (Some r) = true ->
  service_registry_name_valid (Some l) = true.
Proof. rewrite !name_valid_spec. by intros ->%name_equal_cstr. Qed.

Lemma name_equal_empty l r :
  chr l 0 = 0 -> service_registry_name_valid (Some r) = true -> name_equal l r = false.
Proof.
  intros H1%cstr_nil H2%name_valid_spec. destruct (name_equal l r) eqn:E; [|done].
  apply name_equal_cstr in E. rewrite <- E, H1 in H2. destruct H2 as [H2 _]. cbn in H2. lia.
Qed.

Lemma clear_string_chr s : s <> [] -> chr (clear_string s) 0 = 0.
Proof. by destruct s. Qed.

Lemma clear_string_length s : length (clear_string s) = length s.
Proof. apply length_insert. Qed.

(** Writing a NUL at or after the terminator keeps the string. *)
Lemma cstr_insert_nul s k : (length (cstr s) <= k)%nat -> cstr (<[k := 0]> s) = cstr s.
Proof.
  revert k. induction s as [|c s IH]; intros k; [done|]. cbn [cstr].
  destruct (Z.eqb_spec c 0) as [->|Hc].
  - intros _. by destruct k.
  - cbn [length]. destruct k as [|k]; [lia|]. intros Hk. cbn.
    rewrite (proj2 (Z.eqb_neq c 0)) by done. f_equal. apply IH. lia.
Qed.

(** The prefix test looks only at the string. *)
Lemma chr_cstr s : forall i, 0 <= i <= Z.of_nat (length (cstr s)) -> chr s i = chr (cstr s) i.
Proof.
  induction s as [|c s IH]; intros i Hi; [done|]. cbn [cstr] in *.
  destruct (Z.eqb_spec c 0) as [->|Hc].
  - cbn [length] in Hi. by replace i with 0 by lia.
  - cbn [length] in Hi. destruct (Z.eq_dec i 0) as [->|]; [done|].
    replace i with ((i - 1) + 1) by lia. rewrite !chr_S by lia. apply IH. lia.
Qed.

Lemma chr_cstr_nonzero s : forall i,
  0 <= i <= Z.of_nat (length (cstr s)) -> chr s i <> 0 -> i < Z.of_nat (length (cstr s)).
Proof.
  intros i Hi Hc. destruct (Z.eq_dec i (Z.of_nat (length (cstr s)))) as [->|]; [|lia].
  rewrite chr_cstr in Hc by lia. by rewrite chr_past in Hc by lia.
Qed.

Lemma prefix_valid_from_cstr s n : forall i,
  0 <= i <= Z.of_nat (length (cstr s)) ->
  prefix_valid_from s i n = prefix_valid_from (cstr s) i n.
Proof.
  induction n as [|n IH]; intros i Hi; cbn [prefix_valid_from]; [done|].
  assert (Hprev : 0 < i -> chr s (i - 1) = chr (cstr s) (i - 1)) by (intros; apply chr_cstr; lia).
  rewrite <- chr_cstr by lia. destruct (Z.eqb_spec (chr s i) 0) as [E|E].
  - destruct (Z.ltb_spec 0 i); [by rewrite Hprev by lia|done].
  - pose proof (chr_cstr_nonzero s i Hi E) as Hlt.
    rewrite <- (chr_cstr s (i + 1)) by lia. rewrite IH by lia.
    destruct (Z.eqb_spec i 0) as [->|]; [done|]. by rewrite Hprev by lia.
Qed.

Lemma prefix_valid_cstr s t :
  cstr s = cstr t ->
  service_registry_backend_prefix_valid (Some s) = service_registry_backend_prefix_valid (Some t).
Proof.
  intros E. cbn. rewrite (chr_cstr s 0), (chr_cstr t 0) by lia.
  rewrite (prefix_valid_from_cstr s), (prefix_valid_from_cstr t) by lia. by rewrite E.
Qed.

Lemma chr0_cstr s t : cstr s = cstr t -> chr s 0 = chr t 0.
Proof. intros E. rewrite (chr_cstr s), (chr_cstr t) by lia. by rewrite E. Qed.

Lemma name_valid_cstr s t :
  cstr s = cstr t -> service_registry_name_valid (Some s) = service_registry_name_valid (Some t).
Proof. intros E. apply eq_true_iff_eq. by rewrite !name_valid_spec, E. Qed.

#[global] Arguments service_registry_name_valid : simpl never.
#[global] Arguments service_registry_backend_prefix_valid : simpl never.
#[global] Arguments service_registry_backend_prefix_equal : simpl never.
#[global] Arguments service_registry_backend_prefix_matches : simpl never.
#[global] Arguments name_equal : simpl never.
#[global] Arguments copy_name : simpl never.
#[global] Arguments service_registry_backend_copy_prefix : simpl never.
