(* ===== verification/RegistryState.v ===== *)
(** * State of the service registry (kernel/service_registry.c)

    The static tables of the file as one record, the constants of the ABI, and
    the two interfaces the registry calls: the task table and the journal
    sectors. *)

From Stdlib Require Import ZArith Lia.
From stdpp Require Import base numbers option tactics list.
From S2P Require Import Prelude Bytes Names Ipc.

(** ** Constants of include/os_syscalls.h and service_registry.h *)
Definition SERVICE_REGISTRY_CAPACITY : Z := 12.
Definition SERVICE_REGISTRY_WATCH_CAPACITY : Z := 8.
Definition SERVICE_REGISTRY_BACKEND_CAPACITY : Z := 4.
Definition SERVICE_REGISTRY_NOTIFY_HISTORY_CAPACITY : Z := 8.
Definition SERVICE_REGISTRY_PERSISTENT_MOUNT_CAPACITY : Z := 8.
Definition SERVICE_IPC_SPILL_CAPACITY : Z := 8.
Definition SERVICE_BACKEND_RIGHT_READ : Z := 1.
Definition SERVICE_BACKEND_RIGHT_MUTATE : Z := 2.
Definition SERVICE_BACKEND_RIGHT_ALL : Z := 3.
Definition OS_SERVICE_BAD_NAME : Z := -50.
Definition OS_SERVICE_FULL : Z := -51.
Definition OS_SERVICE_TAKEN : Z := -52.
Definition OS_SERVICE_NOT_FOUND : Z := -53.
Definition OS_SERVICE_NOT_OWNER : Z := -54.
Definition OS_SERVICE_BAD_GRANTEE : Z := -55.
Definition OS_SERVICE_WATCH_FULL : Z := -56.
Definition OS_SERVICE_STALE : Z := -57.
Definition OS_SERVICE_BACKEND_SOURCE_INITRD : Z := 1.
Definition OS_SERVICE_BACKEND_SOURCE_OVERLAY : Z := 2.
Definition OS_SERVICE_BACKEND_SOURCE_FAT16 : Z := 4.
Definition OS_SERVICE_BACKEND_SOURCE_FAT32 : Z := 8.
Definition OS_SERVICE_BACKEND_SOURCE_ALL : Z := 15.
Definition OS_SERVICE_EVENT_PUBLISHED : Z := 1.
Definition OS_SERVICE_EVENT_PURGED : Z := 4.
Definition OS_IPC_TASK_SUPERVISION_EVENT : Z := 1413567234.

(** ** Tables *)
Record service_registry_entry_t := mk_entry {
  e_pid : Z; e_sequence : Z; e_generation : Z; e_name : cstring;
  e_backend_generation : Z; e_right_token : Z; e_identity_key : Z
}.

Record service_registry_watch_t := mk_watch {
  w_pid : Z; w_sequence : Z; w_generation : Z; w_name : cstring
}.

Record service_registry_notify_event_t := mk_event {
  n_sequence : Z; n_watcher_pid : Z; n_name : cstring; n_old_pid : Z; n_new_pid : Z;
  n_reason : Z; n_acked : Z; n_replayed : Z
}.

Record service_backend_cap_t := mk_cap {
  c_owner_pid : Z; c_owner_sequence : Z; c_owner_generation : Z;
  c_grantee_pid : Z; c_grantee_sequence : Z; c_grantee_generation : Z;
  c_rights : Z; c_sources : Z; c_prefix : cstring; c_name : cstring;
  c_token : Z; c_identity_key : Z
}.

Record service_registry_persistent_mount_t := mk_mount {
  m_service_name : cstring; m_prefix : cstring; m_source : Z; m_active : Z
}.

Record service_ipc_spill_slot_t := mk_spill {
  s_watcher_pid : Z; s_order : Z; s_payload : os_ipc_payload_t; s_used : Z
}.

(** The static variables of the file; [journal_writes] lists the sector writes
    issued so far, oldest first: first block and bytes. *)
Record registry_t := mk_registry {
  service_entries : list service_registry_entry_t;
  service_watches : list service_registry_watch_t;
  service_notify_history : list service_registry_notify_event_t;
  service_notify_seq_counter : Z;
  service_backend_caps : list service_backend_cap_t;
  service_backend_token_next : Z;
  service_right_token_next : Z;
  persistent_mounts : list service_registry_persistent_mount_t;
  boot_journal_pending : Z;
  service_ipc_spill : list service_ipc_spill_slot_t;
  service_ipc_spill_order : Z;
  service_ipc_spill_drops : Z;
  service_ipc_spill_supervision_drops : Z;
  journal_writes : list (Z * bytes)
}.

Definition set_entries (s : registry_t) x := mk_registry x (service_watches s)
  (service_notify_history s) (service_notify_seq_counter s) (service_backend_caps s)
  (service_backend_token_next s) (service_right_token_next s) (persistent_mounts s)
  (boot_journal_pending s) (service_ipc_spill s) (service_ipc_spill_order s)
  (service_ipc_spill_drops s) (service_ipc_spill_supervision_drops s) (journal_writes s).
Definition set_watches (s : registry_t) x := mk_registry (service_entries s) x
  (service_notify_history s) (service_notify_seq_counter s) (service_backend_caps s)
  (service_backend_token_next s) (service_right_token_next s) (persistent_mounts s)
  (boot_journal_pending s) (service_ipc_spill s) (service_ipc_spill_order s)
  (service_ipc_spill_drops s) (service_ipc_spill_supervision_drops s) (journal_writes s).
Definition set_history (s : registry_t) x seq := mk_registry (service_entries s)
  (service_watches s) x seq (service_backend_caps s)
  (service_backend_token_next s) (service_right_token_next s) (persistent_mounts s)
  (boot_journal_pending s) (service_ipc_spill s) (service_ipc_spill_order s)
  (service_ipc_spill_drops s) (service_ipc_spill_supervision_drops s) (journal_writes s).
Definition set_caps (s : registry_t) x := mk_registry (service_entries s) (service_watches s)
  (service_notify_history s) (service_notify_seq_counter s) x
  (service_backend_token_next s) (service_right_token_next s) (persistent_mounts s)
  (boot_journal_pending s) (service_ipc_spill s) (service_ipc_spill_order s)
  (service_ipc_spill_drops s) (service_ipc_spill_supervision_drops s) (journal_writes s).
Definition set_backend_token_next (s : registry_t) x := mk_registry (service_entries s)
  (service_watches s) (service_notify_history s) (service_notify_seq_counter s)
  (service_backend_caps s) x (service_right_token_next s) (persistent_mounts s)
  (boot_journal_pending s) (service_ipc_spill s) (service_ipc_spill_order s)
  (service_ipc_spill_drops s) (service_ipc_spill_supervision_drops s) (journal_writes s).
Definition set_right_token_next (s : registry_t) x := mk_registry (service_entries s)
  (service_watches s) (service_notify_history s) (service_notify_seq_counter s)
  (service_backend_caps s) (service_backend_token_next s) x (persistent_mounts s)
  (boot_journal_pending s) (service_ipc_spill s) (service_ipc_spill_order s)
  (service_ipc_spill_drops s) (service_ipc_spill_supervision_drops s) (journal_writes s).
Definition set_mounts (s : registry_t) x := mk_registry (service_entries s) (service_watches s)
  (service_notify_history s) (service_notify_seq_counter s) (service_backend_caps s)
  (service_backend_token_next s) (service_right_token_next s) x
  (boot_journal_pending s) (service_ipc_spill s) (service_ipc_spill_order s)
  (service_ipc_spill_drops s) (service_ipc_spill_supervision_drops s) (journal_writes s).
Definition set_boot_pending (s : registry_t) x := mk_registry (service_entries s)
  (service_watches s) (service_notify_history s) (service_notify_seq_counter s)
  (service_backend_caps s) (service_backend_token_next s) (service_right_token_next s)
  (persistent_mounts s) x (service_ipc_spill s) (service_ipc_spill_order s)
  (service_ipc_spill_drops s) (service_ipc_spill_supervision_drops s) (journal_writes s).
Definition set_spill (s : registry_t) x order := mk_registry (service_entries s)
  (service_watches s) (service_notify_history s) (service_notify_seq_counter s)
  (service_backend_caps s) (service_backend_token_next s) (service_right_token_next s)
  (persistent_mounts s) (boot_journal_pending s) x order
  (service_ipc_spill_drops s) (service_ipc_spill_supervision_drops s) (journal_writes s).
Definition set_drops (s : registry_t) d sup := mk_registry (service_entries s)
  (service_watches s) (service_notify_history s) (service_notify_seq_counter s)
  (service_backend_caps s) (service_backend_token_next s) (service_right_token_next s)
  (persistent_mounts s) (boot_journal_pending s) (service_ipc_spill s)
  (service_ipc_spill_order s) d sup (journal_writes s).
Definition log_write (s : registry_t) (lba : Z) (b : bytes) := mk_registry (service_entries s)
  (service_watches s) (service_notify_history s) (service_notify_seq_counter s)
  (service_backend_caps s) (service_backend_token_next s) (service_right_token_next s)
  (persistent_mounts s) (boot_journal_pending s) (service_ipc_spill s)
  (service_ipc_spill_order s) (service_ipc_spill_drops s)
  (service_ipc_spill_supervision_drops s) (journal_writes s ++ [(lba, b)]).

(** ** Interfaces *)

(** What the registry sees of the task table: [task_get_identity] (sequence and
    generation of a live PID) and [task_identity_key]; [None] is
    [OS_TASK_NOT_FOUND]. *)
Class TaskView := {
  task_get_identity : Z -> option (Z * Z);
  task_identity_key : Z -> option Z
}.

(** What the task table promises: the key is that of the same task, and a live
    task has non-zero sequence, generation and key. *)
Class TaskViewLaws (T : TaskView) : Prop := {
  identity_key_live : forall pid, is_Some (task_identity_key pid) <-> is_Some (task_get_identity pid);
  identity_nonzero : forall pid q g, task_get_identity pid = Some (q, g) -> q <> 0 /\ g <> 0;
  identity_key_nonzero : forall pid k, task_identity_key pid = Some k -> k <> 0
}.

(** The hooks the kernel image overrides: whether the boot journals come from
    the Ring 3 driver, whether the event journal lies outside the FAT volume, and
    the sector read at boot ([None] is an I/O error). *)
Class KernelHooks := {
  kernel_boot_journal_deferred : Z;
  service_registry_event_journal_allowed : Z;
  kernel_journal_read : Z -> Z -> option bytes
}.

(** The out-array of the collecting calls: the first [max] elements found
    overwrite its beginning. *)
Definition copy_out {A} (found out : list A) (max : Z) : list A :=
  let k := take (Z.to_nat max) found in k ++ drop (length k) out.
