(* ===== verification/Journal.v ===== *)
(** * Mount table and disk journals of the service registry

    kernel/service_registry.c: the persistent mounts, the image of the mount
    journal (two sectors, magic MNTJ) and of the event journal (one sector,
    magic EVNT).  A buffer access outside the array makes the result [None]. *)

From Stdlib Require Import ZArith Lia.
From stdpp Require Import base numbers option tactics list.
From S2P Require Import Prelude Bytes Names Ipc RegistryState.

Definition MOUNT_JOURNAL_MAGIC : Z := 1247039053.
Definition MOUNT_JOURNAL_VERSION : Z := 1.
Definition MOUNT_JOURNAL_LBA : Z := 4222.
Definition MOUNT_JOURNAL_BYTES : Z := 1024.
Definition EVENT_JOURNAL_MAGIC : Z := 1414420037.
Definition EVENT_JOURNAL_VERSION : Z := 1.
Definition EVENT_JOURNAL_LBA : Z := 4224.
Definition EVENT_JOURNAL_BYTES : Z := 512.

(** [sizeof] of the packed headers and entries. *)
Definition mount_header_size : Z := 16.
Definition mount_entry_size : Z := 69.
Definition event_header_size : Z := 20.
Definition event_entry_size : Z := 32.

Definition mount_matches (service_name prefix : cstring)
    (m : service_registry_persistent_mount_t) : bool :=
  c_true (m_active m) && name_equal (m_service_name m) service_name &&
  service_registry_backend_prefix_equal (Some (m_prefix m)) (Some prefix).

Definition mount_free (m : service_registry_persistent_mount_t) : bool :=
  negb (c_true (m_active m)).

Definition zero_mount : service_registry_persistent_mount_t :=
  mk_mount (replicate 16 0) (replicate 48 0) 0 0.
#[export] Instance mount_inhabited : Inhabited service_registry_persistent_mount_t :=
  populate zero_mount.

Definition mount_insert (mounts : list service_registry_persistent_mount_t)
    (service_name prefix : ptr cstring) (source : Z)
    : Z * list service_registry_persistent_mount_t :=
  if negb (service_registry_name_valid service_name) then (OS_SERVICE_BAD_NAME, mounts)
  else match prefix with
  | NULL => (OS_SERVICE_BAD_NAME, mounts)
  | Some pfx =>
      if chr pfx 0 =? 0 then (OS_SERVICE_BAD_NAME, mounts)
      else if negb (service_registry_backend_prefix_valid prefix) then (OS_SERVICE_BAD_NAME, mounts)
      else
        match find_slot (mount_matches (str service_name) pfx) mounts with
        | Some i =>
            let m := mounts !!! i in
            (0, <[i := mk_mount (m_service_name m) (m_prefix m) source (m_active m)]> mounts)
        | None =>
            match find_slot mount_free mounts with
            | None => (OS_SERVICE_FULL, mounts)
            | Some i =>
                let m := mounts !!! i in
                (0, <[i := mk_mount (copy_name (m_service_name m) (str service_name))
                             (service_registry_backend_copy_prefix (m_prefix m) pfx)
                             source 1]> mounts)
            end
        end
  end.

Definition mount_journal_checksum (data : bytes) : Z := byte_sum data.

(** The packed image of one active mount. *)
Definition mount_journal_entry (m : service_registry_persistent_mount_t) : bytes :=
  copy_name (replicate 16 0) (m_service_name m)
  ++ service_registry_backend_copy_prefix (replicate 48 0) (m_prefix m)
  ++ le32 (m_source m) ++ [1].

(** The copy loop: [cursor] advances over the active mounts. *)
Fixpoint export_mounts (mounts : list service_registry_persistent_mount_t) (buf : bytes)
    (cursor : Z) : option bytes :=
  match mounts with
  | [] => Some buf
  | m :: mounts =>
      if c_true (m_active m) then
        buf ← st_bytes buf cursor (mount_journal_entry m);
        export_mounts mounts buf (cursor + mount_entry_size)
      else export_mounts mounts buf cursor
  end.

Definition count_active (mounts : list service_registry_persistent_mount_t) : Z :=
  Z.of_nat (length (filter (fun m => c_true (m_active m) = true) mounts)).

Definition mount_journal_header (count checksum : Z) : bytes :=
  le32 MOUNT_JOURNAL_MAGIC ++ le32 MOUNT_JOURNAL_VERSION ++ le32 count ++ le32 checksum.

Definition service_registry_mount_journal_export
    (mounts : list service_registry_persistent_mount_t) (buf : ptr bytes) (cap : Z)
    : option (Z * ptr bytes) :=
  match buf with
  | NULL => Some (OS_SERVICE_BAD_NAME, NULL)
  | Some b =>
      let count := count_active mounts in
      let need := u32 (mount_header_size + count * mount_entry_size) in
      if (cap <? need) || (MOUNT_JOURNAL_BYTES <? need) then Some (OS_SERVICE_FULL, buf)
      else
        b ← st_bytes b 0 (replicate (Z.to_nat cap) 0);
        b ← export_mounts mounts b mount_header_size;
        body ← ld_bytes b mount_header_size (count * mount_entry_size);
        b ← st_bytes b 0 (mount_journal_header count (mount_journal_checksum body));
        Some (0, Some b)
  end.

(** [active = 0; service_name[0] = prefix[0] = '\0'; source = 0] *)
Definition mount_reset (m : service_registry_persistent_mount_t) :=
  mk_mount (clear_string (m_service_name m)) (clear_string (m_prefix m)) 0 0.

(** The import loop over [count] packed entries. *)
Fixpoint import_mounts (mounts : list service_registry_persistent_mount_t) (buf : bytes)
    (cursor : Z) (count : nat) : option (Z * list service_registry_persistent_mount_t) :=
  match count with
  | O => Some (0, mounts)
  | S count =>
      entry ← ld_bytes buf cursor mount_entry_size;
      let cursor := cursor + mount_entry_size in
      if chr entry 68 =? 0 then import_mounts mounts buf cursor count
      else
        let service_name := <[15%nat := 0]> (take 16 entry) in
        let prefix := <[47%nat := 0]> (take 48 (drop 16 entry)) in
        let source := un_le32 (drop 64 entry) in
        let '(rc, mounts) := mount_insert mounts (Some service_name) (Some prefix) source in
        if negb (rc =? 0) then Some (OS_SERVICE_FULL, mounts)
        else import_mounts mounts buf cursor count
  end.

Definition service_registry_mount_journal_import
    (mounts : list service_registry_persistent_mount_t) (buf : ptr bytes) (len : Z)
    : option (Z * list service_registry_persistent_mount_t) :=
  match buf with
  | NULL => Some (OS_SERVICE_BAD_NAME, mounts)
  | Some b =>
      if len <? mount_header_size then Some (OS_SERVICE_BAD_NAME, mounts)
      else
        header ← ld_bytes b 0 mount_header_size;
        let magic := un_le32 header in
        let version := un_le32 (drop 4 header) in
        let count := un_le32 (drop 8 header) in
        let checksum := un_le32 (drop 12 header) in
        if negb (magic =? MOUNT_JOURNAL_MAGIC) || negb (version =? MOUNT_JOURNAL_VERSION)
        then Some (OS_SERVICE_NOT_FOUND, mounts)
        else if (count =? 0) || (SERVICE_REGISTRY_PERSISTENT_MOUNT_CAPACITY <? count)
        then Some (OS_SERVICE_NOT_FOUND, mounts)
        else if len <? u32 (mount_header_size + count * mount_entry_size)
        then Some (OS_SERVICE_NOT_FOUND, mounts)
        else
          body ← ld_bytes b mount_header_size (count * mount_entry_size);
          if negb (checksum =? mount_journal_checksum body)
          then Some (OS_SERVICE_NOT_FOUND, mounts)
          else import_mounts (map mount_reset mounts) b mount_header_size (Z.to_nat count)
  end.

(** ** Event journal *)

Definition zero_event : service_registry_notify_event_t :=
  mk_event 0 0 (replicate 16 0) 0 0 0 0 0.
#[export] Instance event_inhabited : Inhabited service_registry_notify_event_t :=
  populate zero_event.

Definition event_pending (e : service_registry_notify_event_t) : bool :=
  (0 <? n_sequence e) && (n_acked e =? 0).

Definition event_journal_entry (e : service_registry_notify_event_t) : bytes :=
  le32 (n_sequence e) ++ copy_name (replicate 16 0) (n_name e) ++
  le32 (n_old_pid e) ++ le32 (n_new_pid e) ++ le32 (n_reason e).

Fixpoint export_events (history : list service_registry_notify_event_t) (buf : bytes)
    (cursor : Z) : option bytes :=
  match history with
  | [] => Some buf
  | e :: history =>
      if (n_sequence e =? 0) || negb (n_acked e =? 0) then export_events history buf cursor
      else
        buf ← st_bytes buf cursor (event_journal_entry e);
        export_events history buf (cursor + event_entry_size)
  end.

Definition count_pending (history : list service_registry_notify_event_t) : Z :=
  Z.of_nat (length (filter (fun e => event_pending e = true) history)).

Definition event_journal_header (count seq_counter checksum : Z) : bytes :=
  le32 EVENT_JOURNAL_MAGIC ++ le32 EVENT_JOURNAL_VERSION ++ le32 count ++
  le32 seq_counter ++ le32 checksum.

Definition service_registry_event_journal_export
    (history : list service_registry_notify_event_t) (seq_counter : Z)
    (buf : ptr bytes) (cap : Z) : option (Z * ptr bytes) :=
  match buf with
  | NULL => Some (OS_SERVICE_BAD_NAME, NULL)
  | Some b =>
      let count := count_pending history in
      let need := u32 (event_header_size + count * event_entry_size) in
      if (cap <? need) || (EVENT_JOURNAL_BYTES <? need) then Some (OS_SERVICE_FULL, buf)
      else
        b ← st_bytes b 0 (replicate (Z.to_nat cap) 0);
        b ← export_events history b event_header_size;
        body ← ld_bytes b event_header_size (count * event_entry_size);
        b ← st_bytes b 0 (event_journal_header count seq_counter (mount_journal_checksum body));
        Some (0, Some b)
  end.

Definition event_reset (e : service_registry_notify_event_t) :=
  mk_event 0 0 (clear_string (n_name e)) 0 0 0 0 0.

(** The import loop: entry [i] goes to history slot [i]. *)
Fixpoint import_events (history : list service_registry_notify_event_t) (buf : bytes)
    (cursor : Z) (i : nat) (count : nat) : option (Z * list service_registry_notify_event_t) :=
  match count with
  | O => Some (0, history)
  | S count =>
      entry ← ld_bytes buf cursor event_entry_size;
      let sequence := un_le32 entry in
      let name := <[15%nat := 0]> (take 16 (drop 4 entry)) in
      let old_pid := i32 (un_le32 (drop 20 entry)) in
      let new_pid := i32 (un_le32 (drop 24 entry)) in
      let reason := un_le32 (drop 28 entry) in
      if sequence =? 0 then Some (OS_SERVICE_NOT_FOUND, history)
      else if (reason <? OS_SERVICE_EVENT_PUBLISHED) || (OS_SERVICE_EVENT_PURGED <? reason)
      then Some (OS_SERVICE_NOT_FOUND, history)
      else if negb (service_registry_name_valid (Some name))
      then Some (OS_SERVICE_NOT_FOUND, history)
      else
        let h := history !!! i in
        import_events
          (<[i := mk_event sequence 0 (copy_name (n_name h) name) old_pid new_pid reason 0 0]> history)
          buf (cursor + event_entry_size) (S i) count
  end.

Definition service_registry_event_journal_import
    (history : list service_registry_notify_event_t) (seq_counter : Z) (buf : ptr bytes) (len : Z)
    : option (Z * list service_registry_notify_event_t * Z) :=
  match buf with
  | NULL => Some (OS_SERVICE_BAD_NAME, history, seq_counter)
  | Some b =>
      if len <? event_header_size then Some (OS_SERVICE_BAD_NAME, history, seq_counter)
      else
        header ← ld_bytes b 0 event_header_size;
        let magic := un_le32 header in
        let version := un_le32 (drop 4 header) in
        let count := un_le32 (drop 8 header) in
        let header_seq := un_le32 (drop 12 header) in
        let checksum := un_le32 (drop 16 header) in
        if negb (magic =? EVENT_JOURNAL_MAGIC) || negb (version =? EVENT_JOURNAL_VERSION)
        then Some (OS_SERVICE_NOT_FOUND, history, seq_counter)
        else if SERVICE_REGISTRY_NOTIFY_HISTORY_CAPACITY <? count
        then Some (OS_SERVICE_NOT_FOUND, history, seq_counter)
        else if len <? u32 (event_header_size + count * event_entry_size)
        then Some (OS_SERVICE_NOT_FOUND, history, seq_counter)
        else
          body ← ld_bytes b event_header_size (count * event_entry_size);
          if negb (checksum =? mount_journal_checksum body)
          then Some (OS_SERVICE_NOT_FOUND, history, seq_counter)
          else
            let seq_counter := if seq_counter <? header_seq then header_seq else seq_counter in
            '(rc, history) ← import_events (map event_reset history) b event_header_size 0
                               (Z.to_nat count);
            Some (rc, history, seq_counter)
  end.

(** ** Operations on the registry state *)

(** The flushes export into a static buffer of exactly the journal's size. *)
Definition mount_journal_flush (s : registry_t) : registry_t :=
  if negb (Z.land (boot_journal_pending s) 1 =? 0) then s
  else
    match service_registry_mount_journal_export (persistent_mounts s)
            (Some (replicate (Z.to_nat MOUNT_JOURNAL_BYTES) 0)) MOUNT_JOURNAL_BYTES with
    | Some (rc, Some b) => if negb (rc =? 0) then s else log_write s MOUNT_JOURNAL_LBA b
    | _ => s
    end.

Definition mount_journal_load `{KernelHooks} (s : registry_t) : Z * registry_t :=
  match kernel_journal_read MOUNT_JOURNAL_LBA (MOUNT_JOURNAL_BYTES / 512) with
  | None => (-1, s)
  | Some b =>
      match service_registry_mount_journal_import (persistent_mounts s) (Some b)
              MOUNT_JOURNAL_BYTES with
      | None => (-1, s)
      | Some (rc, mounts) => (rc, set_mounts s mounts)
      end
  end.

Definition event_journal_flush `{KernelHooks} (s : registry_t) : registry_t :=
  if negb (Z.land (boot_journal_pending s) 2 =? 0) then s
  else if service_registry_event_journal_allowed =? 0 then s
  else
    match service_registry_event_journal_export (service_notify_history s)
            (service_notify_seq_counter s)
            (Some (replicate (Z.to_nat EVENT_JOURNAL_BYTES) 0)) EVENT_JOURNAL_BYTES with
    | Some (rc, Some b) => if negb (rc =? 0) then s else log_write s EVENT_JOURNAL_LBA b
    | _ => s
    end.

Definition event_journal_load `{KernelHooks} (s : registry_t) : Z * registry_t :=
  match kernel_journal_read EVENT_JOURNAL_LBA (EVENT_JOURNAL_BYTES / 512) with
  | None => (-1, s)
  | Some b =>
      match service_registry_event_journal_import (service_notify_history s)
              (service_notify_seq_counter s) (Some b) EVENT_JOURNAL_BYTES with
      | None => (-1, s)
      | Some (rc, history, seq) => (rc, set_history s history seq)
      end
  end.

Definition service_registry_boot_journal_install (s : registry_t) (which : Z) (buf : ptr bytes)
    (len : Z) : option (Z * registry_t) :=
  let bit := if which =? 0 then 1 else 2 in
  if Z.land (boot_journal_pending s) bit =? 0 then Some (-1, s)
  else match buf with
  | NULL => Some (-1, s)
  | Some _ =>
      let s := set_boot_pending s (Z.land (boot_journal_pending s) (u8 (Z.lnot bit))) in
      '(rc, s) ←
        (if which =? 0 then
           '(rc, mounts) ← service_registry_mount_journal_import (persistent_mounts s) buf len;
           Some (rc, set_mounts s mounts)
         else
           '(rc, history, seq) ← service_registry_event_journal_import
                                   (service_notify_history s) (service_notify_seq_counter s) buf len;
           Some (rc, set_history s history seq));
      Some (if rc =? 0 then 0 else 1, s)
  end.

Definition event_journal_bind (s : registry_t) (name : cstring) (pid : Z) : registry_t :=
  set_history s
    (map (fun e =>
            if (n_watcher_pid e =? 0) && (0 <? n_sequence e) && (n_acked e =? 0)
               && name_equal (n_name e) name
            then mk_event (n_sequence e) pid (n_name e) (n_old_pid e) (n_new_pid e)
                   (n_reason e) (n_acked e) (n_replayed e)
            else e) (service_notify_history s))
    (service_notify_seq_counter s).

(** [while (prefix[n] != '\0' && n < OS_SERVICE_BACKEND_PREFIX_MAX) n++] *)
Fixpoint prefix_len (prefix : cstring) (n : Z) (fuel : nat) : Z :=
  match fuel with
  | O => n
  | S fuel =>
      if negb (chr prefix n =? 0) && (n <? OS_SERVICE_BACKEND_PREFIX_MAX)
      then prefix_len prefix (n + 1) fuel else n
  end.

(** The loop of [service_registry_mount_journal_format]; 32 is the separator. *)
Fixpoint format_mounts (mounts : list service_registry_persistent_mount_t)
    (service_name : cstring) (buf : bytes) (used max : Z) : option (Z * bytes) :=
  match mounts with
  | [] => Some (0, buf)
  | m :: mounts =>
      if negb (c_true (m_active m)) || negb (name_equal (m_service_name m) service_name)
      then format_mounts mounts service_name buf used max
      else
        let n := prefix_len (m_prefix m) 0 (Z.to_nat OS_SERVICE_BACKEND_PREFIX_MAX) in
        if max <? u32 (used + n + 2) then Some (OS_SERVICE_FULL, buf)
        else
          buf ← st_bytes buf used (take (Z.to_nat n) (m_prefix m));
          buf ← st buf (used + n) 32;
          buf ← st buf (used + n + 1) 0;
          format_mounts mounts service_name buf (used + n + 1) max
  end.

Definition service_registry_mount_journal_format (s : registry_t) (service_name : ptr cstring)
    (buf : ptr bytes) (max : Z) : option (Z * ptr bytes) :=
  match buf with
  | NULL => Some (OS_SERVICE_BAD_NAME, NULL)
  | Some b =>
      if (max =? 0) || negb (service_registry_name_valid service_name)
      then Some (OS_SERVICE_BAD_NAME, buf)
      else
        b ← st b 0 0;
        '(rc, b) ← format_mounts (persistent_mounts s) (str service_name) b 0 max;
        Some (rc, Some b)
  end.

Definition service_registry_persistent_mount_add (s : registry_t) (service_name prefix : ptr cstring)
    (source : Z) : Z * registry_t :=
  let '(rc, mounts) := mount_insert (persistent_mounts s) service_name prefix source in
  let s := set_mounts s mounts in
  (rc, if rc =? 0 then mount_journal_flush s else s).

Definition service_registry_persistent_mount_remove (s : registry_t)
    (service_name prefix : ptr cstring) : Z * registry_t :=
  if negb (service_registry_name_valid service_name) then (OS_SERVICE_BAD_NAME, s)
  else match prefix with
  | NULL => (OS_SERVICE_BAD_NAME, s)
  | Some pfx =>
      match find_slot (mount_matches (str service_name) pfx) (persistent_mounts s) with
      | None => (OS_SERVICE_NOT_FOUND, s)
      | Some i =>
          let m := persistent_mounts s !!! i in
          let s := set_mounts s
                     (<[i := mk_mount (clear_string (m_service_name m))
                               (clear_string (m_prefix m)) (m_source m) 0]> (persistent_mounts s)) in
          (0, mount_journal_flush s)
      end
  end.

(** The active mounts of a service, in table order. *)
Definition mounts_of (s : registry_t) (service_name : cstring)
    : list service_registry_persistent_mount_t :=
  filter (fun m => c_true (m_active m) && name_equal (m_service_name m) service_name = true)
    (persistent_mounts s).

(** The count, and [out] with the first [max] of them copied in. *)
Definition service_registry_persistent_mount_get (s : registry_t) (service_name : ptr cstring)
    (out : ptr (list service_registry_persistent_mount_t)) (max : Z)
    : Z * ptr (list service_registry_persistent_mount_t) :=
  if negb (service_registry_name_valid service_name) then (OS_SERVICE_BAD_NAME, out)
  else
    let found := mounts_of s (str service_name) in
    (Z.of_nat (length found), (fun o => copy_out found o max) <$> out).

Definition service_registry_persistent_mount_restore (s : registry_t) (service_name : ptr cstring)
    : Z := fst (service_registry_persistent_mount_get s service_name NULL 0).

(** ** Well-formed mount tables *)

(** Buffers of the declared sizes; an active mount has a registry name and a
    non-empty canonical prefix. *)
Record mount_ok (m : service_registry_persistent_mount_t) : Prop := {
  mo_name_len : length (m_service_name m) = 16%nat;
  mo_prefix_len : length (m_prefix m) = 48%nat;
  mo_source : is_u32 (m_source m);
  mo_name : c_true (m_active m) = true -> service_registry_name_valid (Some (m_service_name m)) = true;
  mo_prefix : c_true (m_active m) = true ->
    service_registry_backend_prefix_valid (Some (m_prefix m)) = true /\ chr (m_prefix m) 0 <> 0
}.

(** What a mount means: service, prefix, source. *)
Definition mount_key (m : service_registry_persistent_mount_t) : cstring * cstring :=
  (cstr (m_service_name m), cstr (m_prefix m)).
Definition mount_view (m : service_registry_persistent_mount_t) : cstring * cstring * Z :=
  (mount_key m, m_source m).

Definition active_mounts (mounts : list service_registry_persistent_mount_t) :=
  filter (fun m => c_true (m_active m) = true) mounts.

(** No two active mounts have the same service and prefix. *)
Record mounts_wf (mounts : list service_registry_persistent_mount_t) : Prop := {
  mw_size : length mounts = 8%nat;
  mw_ok : Forall mount_ok mounts;
  mw_nodup : NoDup (mount_key <$> active_mounts mounts)
}.

(** ** Export *)

Lemma mount_entry_length m : length (mount_journal_entry m) = 69%nat.
Proof.
  unfold mount_journal_entry. rewrite !length_app. unfold copy_name,
    service_registry_backend_copy_prefix. by rewrite !copy_from_length, !length_replicate.
Qed.

(** The image the exported mounts leave in the buffer. *)
Definition mount_image (mounts : list service_registry_persistent_mount_t) : bytes :=
  concat (map mount_journal_entry (active_mounts mounts)).

Lemma mount_image_cons m mounts :
  mount_image (m :: mounts) =
  if c_true (m_active m) then mount_journal_entry m ++ mount_image mounts else mount_image mounts.
Proof.
  unfold mount_image, active_mounts. rewrite filter_cons. destruct (c_true (m_active m)); case_decide; done.
Qed.

Lemma mount_image_length mounts :
  blen (mount_image mounts) = count_active mounts * mount_entry_size.
Proof.
  unfold mount_image, count_active, mount_entry_size, blen. fold (active_mounts mounts).
  induction (active_mounts mounts) as [|m l IH]; [done|].
  cbn [map concat length]. rewrite length_app, mount_entry_length. lia.
Qed.

Lemma export_mounts_spec mounts : forall pre tail,
  blen (mount_image mounts) <= blen tail ->
  export_mounts mounts (pre ++ tail) (blen pre) =
  Some (pre ++ mount_image mounts ++ drop (length (mount_image mounts)) tail).
Proof.
  induction mounts as [|m mounts IH]; intros pre tail Hlen; cbn [export_mounts]; [done|].
  rewrite mount_image_cons in *. destruct (c_true (m_active m)); [|by apply IH].
  unfold blen in Hlen. rewrite length_app, mount_entry_length in Hlen.
  rewrite <- (take_drop 69 tail) at 1.
  assert (Ht : length (take 69 tail) = 69%nat) by (rewrite length_take; lia).
  rewrite st_bytes_app by (rewrite mount_entry_length; done). cbn [mbind option_bind].
  rewrite app_assoc. replace (blen pre + mount_entry_size) with (blen (pre ++ mount_journal_entry m)).
  2: { unfold blen. rewrite length_app, mount_entry_length. unfold mount_entry_size. lia. }
  rewrite IH by (unfold blen; rewrite length_drop; lia).
  rewrite <- !app_assoc. do 4 f_equal. rewrite drop_drop. f_equal.
  rewrite length_app, mount_entry_length. done.
Qed.

Lemma count_active_range mounts : length mounts = 8%nat -> 0 <= count_active mounts <= 8.
Proof.
  intros H. unfold count_active. pose proof (length_filter (fun m => c_true (m_active m) = true) mounts).
  lia.
Qed.

(** The whole image: header, entries, zeros. *)
Definition mount_journal (mounts : list service_registry_persistent_mount_t) (rest : bytes) : bytes :=
  mount_journal_header (count_active mounts) (mount_journal_checksum (mount_image mounts))
  ++ mount_image mounts ++ rest.

Lemma mount_export_spec mounts b cap :
  length mounts = 8%nat -> cap <= blen b ->
  mount_header_size + count_active mounts * mount_entry_size <= cap ->
  service_registry_mount_journal_export mounts (Some b) cap =
  Some (0, Some (mount_journal mounts
         (drop (length (mount_image mounts)) (replicate (Z.to_nat cap - 16) 0)
          ++ drop (Z.to_nat cap) b))).
Proof.
  intros Hl Hcap Hneed. pose proof (count_active_range mounts Hl) as Hc.
  unfold service_registry_mount_journal_export.
  assert (Hn : u32 (mount_header_size + count_active mounts * mount_entry_size)
               = mount_header_size + count_active mounts * mount_entry_size)
    by (apply u32_id; unfold is_u32, mount_header_size, mount_entry_size; lia).
  rewrite Hn. unfold MOUNT_JOURNAL_BYTES.
  rewrite (proj2 (Z.ltb_ge cap _)) by lia.
  rewrite (proj2 (Z.ltb_ge 1024 _)) by (unfold mount_header_size, mount_entry_size; lia). cbn [orb].
  set (n := count_active mounts) in *. unfold mount_header_size, mount_entry_size in *.
  rewrite <- (take_drop (Z.to_nat cap) b) at 1.
  pose proof (st_bytes_app [] (take (Z.to_nat cap) b) (drop (Z.to_nat cap) b)
                (replicate (Z.to_nat cap) 0)) as Hst.
  change (blen []) with 0 in Hst. rewrite !app_nil_l in Hst.
  rewrite Hst by (rewrite length_replicate, length_take; unfold blen in Hcap; lia).
  cbn [mbind option_bind].
  replace (Z.to_nat cap) with (16 + (Z.to_nat cap - 16))%nat at 1 by lia.
  rewrite replicate_add, <- app_assoc.
  pose proof (mount_image_length mounts) as Hil. fold n in Hil. unfold mount_entry_size in Hil.
  pose proof (export_mounts_spec mounts (replicate 16 0)
                (replicate (Z.to_nat cap - 16) 0 ++ drop (Z.to_nat cap) b)) as He.
  change (blen (replicate 16 0)) with 16 in He. rewrite He; clear He.
  2: { unfold blen in *. rewrite length_app, length_replicate. lia. }
  cbn [mbind option_bind].
  rewrite (ld_bytes_at (replicate 16 0) (mount_image mounts)) by (done || lia).
  cbn [mbind option_bind].
  pose proof (st_bytes_app [] (replicate 16 0)
    (mount_image mounts ++ drop (length (mount_image mounts))
       (replicate (Z.to_nat cap - 16) 0 ++ drop (Z.to_nat cap) b))
    (mount_journal_header n (mount_journal_checksum (mount_image mounts)))) as Hh.
  change (blen []) with 0 in Hh. rewrite !app_nil_l in Hh. rewrite Hh by done.
  cbn [mbind option_bind]. unfold mount_journal. fold n.
  rewrite drop_app_le by (rewrite length_replicate; unfold blen in *; lia). done.
Qed.

(** ** Mount insertion *)

Lemma mount_matches_spec name pfx m :
  (length (cstr name) < 16)%nat -> (length (cstr pfx) < 48)%nat ->
  mount_matches name pfx m = true <->
  c_true (m_active m) = true /\ mount_key m = (cstr name, cstr pfx).
Proof.
  intros Hn Hp. unfold mount_matches, mount_key.
  rewrite !andb_true_iff, name_equal_spec, prefix_equal_spec. split.
  - intros [[-> [-> _]] [-> _]]. done.
  - intros [-> [= -> ->]]. done.
Qed.

(** The guards of [mount_insert], as one proposition. *)
Definition insertable (name pfx : cstring) : Prop :=
  service_registry_name_valid (Some name) = true /\ chr pfx 0 <> 0 /\
  service_registry_backend_prefix_valid (Some pfx) = true.

Lemma insertable_lengths name pfx :
  insertable name pfx -> (length (cstr name) < 16)%nat /\ (length (cstr pfx) < 48)%nat.
Proof. intros (? & _ & ?). split; [by apply name_valid_length|by apply prefix_valid_length]. Qed.

(** What [mount_insert] does on every branch. *)
Inductive insert_result (mounts : list service_registry_persistent_mount_t) (name pfx : cstring)
    (source : Z) : Z -> list service_registry_persistent_mount_t -> Prop :=
  | insert_bad : ~ insertable name pfx ->
      insert_result mounts name pfx source OS_SERVICE_BAD_NAME mounts
  | insert_update i m : insertable name pfx -> mounts !! i = Some m ->
      c_true (m_active m) = true -> mount_key m = (cstr name, cstr pfx) ->
      insert_result mounts name pfx source 0
        (<[i := mk_mount (m_service_name m) (m_prefix m) source (m_active m)]> mounts)
  | insert_full : insertable name pfx ->
      (forall i m, mounts !! i = Some m -> c_true (m_active m) = true /\ mount_key m <> (cstr name, cstr pfx)) ->
      insert_result mounts name pfx source OS_SERVICE_FULL mounts
  | insert_new i m : insertable name pfx -> mounts !! i = Some m -> c_true (m_active m) = false ->
      (forall j m, mounts !! j = Some m -> c_true (m_active m) = true ->
                   mount_key m <> (cstr name, cstr pfx)) ->
      (forall j m, (j < i)%nat -> mounts !! j = Some m -> c_true (m_active m) = true) ->
      insert_result mounts name pfx source 0
        (<[i := mk_mount (copy_name (m_service_name m) name)
                  (service_registry_backend_copy_prefix (m_prefix m) pfx) source 1]> mounts).

Lemma mount_insert_result mounts name pfx source :
  insert_result mounts name pfx source
    (fst (mount_insert mounts (Some name) (Some pfx) source))
    (snd (mount_insert mounts (Some name) (Some pfx) source)).
Proof.
  unfold mount_insert.
  destruct (service_registry_name_valid (Some name)) eqn:Hn; cbn [negb fst snd];
    [|constructor; intros (? & _); congruence].
  destruct (Z.eqb_spec (chr pfx 0) 0) as [E|E]; cbn [fst snd]; [constructor; by intros (_ & ? & _)|].
  destruct (service_registry_backend_prefix_valid (Some pfx)) eqn:Hp; cbn [negb fst snd];
    [|constructor; intros (_ & _ & ?); congruence].
  assert (Hok : insertable name pfx) by done.
  destruct (insertable_lengths _ _ Hok) as [Hl1 Hl2]. cbn [str default from_option id].
  destruct (find_slot (mount_matches name pfx) mounts) as [i|] eqn:Hf; cbn [fst snd].
  - apply find_slot_Some in Hf as (m & Hm & Hmatch & _).
    apply mount_matches_spec in Hmatch as [Ha Hk]; [|done|done].
    rewrite (list_lookup_total_correct _ _ _ Hm). by apply insert_update.
  - assert (Hnone : forall j m, mounts !! j = Some m -> c_true (m_active m) = true ->
      mount_key m <> (cstr name, cstr pfx)).
    { intros j m Hm Ha Hk. rewrite find_slot_None in Hf. specialize (Hf j m Hm).
      assert (mount_matches name pfx m = true) by (by apply mount_matches_spec). congruence. }
    destruct (find_slot mount_free mounts) as [i|] eqn:Hg; cbn [fst snd].
    + apply find_slot_Some in Hg as (m & Hm & Hfree & Hlt). unfold mount_free in *. bsimp.
      rewrite (list_lookup_total_correct _ _ _ Hm). apply insert_new; try done.
      intros j m' Hj Hm'. specialize (Hlt j m' Hj Hm'). by bsimp.
    + rewrite find_slot_None in Hg. apply insert_full; [done|]. intros i m Hm.
      specialize (Hg i m Hm). unfold mount_free in Hg. bsimp. by eauto.
Qed.

Lemma mount_ok_insert m name pfx source :
  mount_ok m -> insertable name pfx -> is_u32 source ->
  let m' := mk_mount (copy_name (m_service_name m) name)
              (service_registry_backend_copy_prefix (m_prefix m) pfx) source 1 in
  mount_ok m' /\ mount_view m' = (cstr name, cstr pfx, source).
Proof.
  intros [Hn Hp _ _ _] Hok Hs. destruct (insertable_lengths _ _ Hok) as [Hl1 Hl2].
  destruct Hok as (H1 & H2 & H3).
  destruct (copy_name_spec (m_service_name m) name Hn Hl1) as [Hc1 Hc2].
  destruct (copy_prefix_spec (m_prefix m) pfx Hp Hl2) as [Hc3 Hc4].
  split; [|unfold mount_view, mount_key; cbn; by rewrite Hc1, Hc3].
  constructor; cbn; try done.
  - intros _. by rewrite (name_valid_cstr _ _ Hc1).
  - intros _. by rewrite (prefix_valid_cstr _ _ Hc3), (chr0_cstr _ _ Hc3).
Qed.

Lemma mount_ok_source m source :
  mount_ok m -> is_u32 source ->
  mount_ok (mk_mount (m_service_name m) (m_prefix m) source (m_active m)).
Proof. intros [] ?. by constructor. Qed.

Lemma active_insert mounts i m m' :
  mounts !! i = Some m ->
  active_mounts (<[i := m']> mounts) =
  active_mounts (take i mounts) ++ active_mounts [m'] ++ active_mounts (drop (S i) mounts).
Proof.
  intros Hm. unfold active_mounts. rewrite insert_take_drop by (by eapply lookup_lt_Some).
  change (m' :: drop (S i) mounts) with ([m'] ++ drop (S i) mounts). by rewrite !filter_app.
Qed.

Lemma active_split mounts i m :
  mounts !! i = Some m ->
  active_mounts mounts =
  active_mounts (take i mounts) ++ active_mounts [m] ++ active_mounts (drop (S i) mounts).
Proof.
  intros Hm. rewrite <- (active_insert mounts i m m Hm). by rewrite list_insert_id.
Qed.

Lemma active_one m : active_mounts [m] = if c_true (m_active m) then [m] else [].
Proof.
  unfold active_mounts. rewrite filter_cons, filter_nil. by destruct (c_true (m_active m)); case_decide.
Qed.

Lemma elem_of_take_in {A} n (l : list A) x : x ∈ take n l -> x ∈ l.
Proof. intros H. rewrite <- (take_drop n l), elem_of_app. by left. Qed.

Lemma elem_of_drop_in {A} n (l : list A) x : x ∈ drop n l -> x ∈ l.
Proof. intros H. rewrite <- (take_drop n l), elem_of_app. by right. Qed.

(** Insertion keeps the table well-formed. *)
Lemma insert_wf mounts name pfx source :
  mounts_wf mounts -> is_u32 source ->
  mounts_wf (snd (mount_insert mounts (Some name) (Some pfx) source)).
Proof.
  intros Hwf Hs. pose proof Hwf as [Hl Hok Hnd].
  destruct (mount_insert_result mounts name pfx source) as
    [|i m Hins Hm Ha Hk| |i m Hins Hm Ha Hnew _]; try done.
  - constructor; [by rewrite length_insert| |].
    + apply Forall_insert; [done|]. apply mount_ok_source; [|done]. by eapply Forall_lookup_1.
    + rewrite (active_split mounts i m Hm) in Hnd. rewrite (active_insert mounts i m _ Hm).
      rewrite !active_one in *. cbn [m_active] in *. rewrite Ha in *.
      rewrite !fmap_app in *. exact Hnd.
  - destruct (mount_ok_insert m name pfx source) as [Hm' Hv]; [by eapply Forall_lookup_1|done|done|].
    set (m' := mk_mount _ _ _ 1) in *.
    constructor; [by rewrite length_insert|by apply Forall_insert|].
    rewrite (active_insert mounts i m _ Hm). rewrite (active_split mounts i m Hm) in Hnd.
    rewrite !active_one in *. rewrite Ha in Hnd. cbn [app] in *.
    change (c_true (m_active m')) with true. cbn iota.
    rewrite !fmap_app in *. rewrite fmap_cons. cbn [fmap list_fmap].
    assert (Hkey : mount_key m' = (cstr name, cstr pfx)) by (unfold mount_view in Hv; congruence).
    rewrite Hkey. apply NoDup_app in Hnd as (Hn1 & Hn2 & Hn3).
    assert (Hfresh : forall l, (forall x, x ∈ l -> x ∈ mounts) -> (cstr name, cstr pfx) ∉ mount_key <$> active_mounts l).
    { intros l Hsub Hin. apply list_elem_of_fmap in Hin as (x & Hx & Hin).
      unfold active_mounts in Hin. apply list_elem_of_filter in Hin as [Hax Hin].
      apply Hsub, list_elem_of_lookup in Hin as [j Hj]. by apply (Hnew j x Hj Hax). }
    assert (H1 := Hfresh (take i mounts) (fun x => elem_of_take_in i mounts x)).
    assert (H2 := Hfresh (drop (S i) mounts) (fun x => elem_of_drop_in (S i) mounts x)).
    apply NoDup_app. split; [done|]. split.
    + intros x Hx [->|Hx']%elem_of_cons; [done|]. by eapply Hn2.
    + by apply NoDup_cons_2.
Qed.

(** Removing a mount keeps the table well-formed. *)
Lemma deactivate_wf mounts i m :
  mounts_wf mounts -> mounts !! i = Some m ->
  mounts_wf (<[i := mk_mount (clear_string (m_service_name m)) (clear_string (m_prefix m))
                      (m_source m) 0]> mounts).
Proof.
  intros [Hl Hok Hnd] Hm. constructor; [by rewrite length_insert| |].
  - apply Forall_insert; [done|]. eapply Forall_lookup_1 in Hok as [? ? ? _ _]; [|done].
    constructor; cbn; rewrite ?clear_string_length; done.
  - rewrite (active_insert mounts i m _ Hm), active_one. cbn [m_active app c_true negb Z.eqb].
    rewrite (active_split mounts i m Hm), active_one, !fmap_app in Hnd.
    rewrite fmap_app. apply NoDup_app in Hnd as (H1 & H2 & H3).
    apply NoDup_app in H3 as (_ & _ & H4). apply NoDup_app. split; [done|]. split; [|done].
    intros x Hx Hx'. apply (H2 x Hx). apply elem_of_app. by right.
Qed.

(** ** Import *)

Lemma mount_reset_ok m : mount_ok m -> mount_ok (mount_reset m).
Proof.
  intros []. constructor; cbn; rewrite ?clear_string_length; done.
Qed.

Lemma active_reset mounts : active_mounts (map mount_reset mounts) = [].
Proof.
  unfold active_mounts. induction mounts as [|m l IH]; [done|].
  cbn [map]. rewrite filter_cons. by case_decide.
Qed.

Lemma reset_wf mounts :
  length mounts = 8%nat -> Forall mount_ok mounts ->
  mounts_wf (map mount_reset mounts) /\ active_mounts (map mount_reset mounts) = [].
Proof.
  intros Hl Hok. pose proof (active_reset mounts) as Hnil. split; [|done]. constructor; [by rewrite length_map| |].
  - apply Forall_fmap. eapply Forall_impl; [done|]. intros m Hm. by apply mount_reset_ok.
  - rewrite Hnil. constructor.
Qed.

(** An arbitrary journal image can never make the import read outside the
    buffer, and the table it leaves is well-formed whatever the result code. *)
Lemma import_mounts_safe b n : forall mounts cursor,
  mounts_wf mounts -> Forall is_u8 b -> 0 <= cursor -> cursor + Z.of_nat n * mount_entry_size <= blen b ->
  exists rc mounts', import_mounts mounts b cursor n = Some (rc, mounts') /\ mounts_wf mounts'.
Proof.
  unfold mount_entry_size.
  induction n as [|n IH]; intros mounts cursor Hwf Hb Hc Hlen; cbn [import_mounts]; [by eauto|].
  unfold mount_entry_size.
  destruct (proj2 (ld_bytes_is_Some b cursor 69)) as [e He]; [lia|]. rewrite He. cbn [mbind option_bind].
  case_if; [apply IH; (done || lia)|].
  set (name := <[15%nat:=0]> _). set (pfx := <[47%nat:=0]> _).
  assert (Hs : is_u32 (un_le32 (drop 64 e))).
  { apply un_le32_range, Forall_drop. apply ld_bytes_Some in He as (_ & _ & _ & ->).
    by apply Forall_take, Forall_drop. }
  pose proof (insert_wf mounts name pfx _ Hwf Hs) as Hw.
  destruct (mount_insert mounts (Some name) (Some pfx) _) as [rc mounts']. cbn [snd] in Hw.
  case_if; [by eauto|]. apply IH; (done || lia).
Qed.

Lemma mount_import_total mounts b len :
  mounts_wf mounts -> Forall is_u8 b -> len <= blen b ->
  exists rc mounts', service_registry_mount_journal_import mounts (Some b) len = Some (rc, mounts')
    /\ mounts_wf mounts'.
Proof.
  intros Hwf Hb Hlen. unfold service_registry_mount_journal_import, mount_header_size.
  case_if; [by eauto|].
  destruct (proj2 (ld_bytes_is_Some b 0 16)) as [h Hh]; [lia|]. rewrite Hh. cbn [mbind option_bind].
  case_if; [by eauto|]. case_if; [by eauto|]. case_if; [by eauto|]. bsimp.
  set (n := un_le32 (drop 8 h)) in *.
  assert (0 <= n <= 8).
  { assert (is_u32 n) as Hn.
    { apply un_le32_range, Forall_drop. apply ld_bytes_Some in Hh as (_ & _ & _ & ->).
      by apply Forall_take, Forall_drop. }
    unfold is_u32, SERVICE_REGISTRY_PERSISTENT_MOUNT_CAPACITY in *. lia. }
  rewrite u32_id in * by (unfold is_u32, mount_entry_size; lia).
  unfold mount_entry_size in *.
  destruct (proj2 (ld_bytes_is_Some b 16 (n * 69))) as [body Hbody]; [lia|].
  rewrite Hbody. cbn [mbind option_bind]. case_if; [by eauto|].
  apply import_mounts_safe; [apply reset_wf; apply Hwf|done|lia|unfold mount_entry_size; lia].
Qed.

(** Robustness of the boot journal: importing any byte image, however
    corrupted or hostile, stays inside the buffer and leaves a mount table in
    which every active mount has a valid service name and a canonical non-empty
    prefix and no mount appears twice. *)
Theorem mount_import_robust :
  forall (mounts : list service_registry_persistent_mount_t) (b : bytes) (len : Z),
    mounts_wf mounts -> Forall is_u8 b -> len <= blen b ->
    exists rc mounts',
      service_registry_mount_journal_import mounts (Some b) len = Some (rc, mounts') /\
      mounts_wf mounts'.
Proof. exact mount_import_total. Qed.

(** ** Round trip *)

(** The fields an exported entry is decoded to. *)
Lemma entry_fields m :
  mount_ok m -> c_true (m_active m) = true ->
  let e := mount_journal_entry m in
  let name := <[15%nat := 0]> (take 16 e) in
  let pfx := <[47%nat := 0]> (take 48 (drop 16 e)) in
  chr e 68 = 1 /\ un_le32 (drop 64 e) = m_source m /\
  cstr name = cstr (m_service_name m) /\ cstr pfx = cstr (m_prefix m) /\ insertable name pfx.
Proof.
  intros [Hn Hp Hs Hnv Hpv] Ha e name pfx. specialize (Hnv Ha). destruct (Hpv Ha) as [Hv Hnz].
  pose proof (name_valid_length _ Hnv) as Hl1. pose proof (prefix_valid_length _ Hv) as Hl2.
  destruct (copy_name_spec (replicate 16 0) (m_service_name m)) as [H1 H2]; [done|done|].
  destruct (copy_prefix_spec (replicate 48 0) (m_prefix m)) as [H3 H4]; [done|done|].
  assert (He1 : take 16 e = copy_name (replicate 16 0) (m_service_name m)).
  { unfold e, mount_journal_entry. by apply take_app_length'. }
  assert (Hd : drop 16 e = service_registry_backend_copy_prefix (replicate 48 0) (m_prefix m)
                             ++ le32 (m_source m) ++ [1]).
  { unfold e, mount_journal_entry. by apply drop_app_length'. }
  assert (Hd2 : drop 64 e = le32 (m_source m) ++ [1]).
  { change 64%nat with (16 + 48)%nat. rewrite <- drop_drop, Hd. by apply drop_app_length'. }
  assert (He2 : take 48 (drop 16 e) = service_registry_backend_copy_prefix (replicate 48 0) (m_prefix m)).
  { rewrite Hd. by apply take_app_length'. }
  assert (Hcn : cstr name = cstr (m_service_name m)).
  { unfold name. rewrite He1, cstr_insert_nul, H1; [done|]. rewrite H1. lia. }
  assert (Hcp : cstr pfx = cstr (m_prefix m)).
  { unfold pfx. rewrite He2, cstr_insert_nul, H3; [done|]. rewrite H3. lia. }
  split; [|split; [by rewrite Hd2, un_le32_le32|split; [done|split; [done|]]]].
  - replace 68 with (64 + 4) by lia. rewrite <- (chr_drop e 64 4) by lia.
    change (Z.to_nat 64) with 64%nat. by rewrite Hd2.
  - split; [by rewrite (name_valid_cstr _ _ Hcn)|].
    by rewrite (chr0_cstr _ _ Hcp), (prefix_valid_cstr _ _ Hcp).
Qed.

(** Inserting a new key into a table whose free slots come last. *)
Lemma insert_next (fill free : list service_registry_persistent_mount_t) f name pfx source :
  Forall mount_ok (fill ++ f :: free) -> active_mounts fill = fill ->
  Forall (fun m => c_true (m_active m) = false) (f :: free) ->
  insertable name pfx -> (cstr name, cstr pfx) ∉ mount_key <$> fill -> is_u32 source ->
  exists m', mount_insert (fill ++ f :: free) (Some name) (Some pfx) source = (0, (fill ++ [m']) ++ free) /\
    mount_view m' = (cstr name, cstr pfx, source) /\ c_true (m_active m') = true /\ mount_ok m'.
Proof.
  intros Hok Hact Hfree Hins Hnew Hs.
  assert (Hfill : forall j m, fill !! j = Some m -> c_true (m_active m) = true).
  { intros j m Hj. apply list_elem_of_lookup_2 in Hj. rewrite <- Hact in Hj.
    unfold active_mounts in Hj. by apply list_elem_of_filter in Hj as [? _]. }
  assert (Hfr : forall j m, (f :: free) !! j = Some m -> c_true (m_active m) = false)
    by (intros j m Hj; by eapply Forall_lookup_1 in Hfree).
  pose proof (mount_insert_result (fill ++ f :: free) name pfx source) as Hr.
  destruct (mount_insert (fill ++ f :: free) (Some name) (Some pfx) source) as [rc r]. cbn [fst snd] in Hr.
  inversion Hr as [Hbad|i m _ Hm Ha Hk Hrc Hl|_ Hfull|i m _ Hm Ha _ Hlt Hrc Hl]; subst.
  - done.
  - apply lookup_app_Some in Hm as [Hm|[_ Hm]]; [|by rewrite (Hfr _ _ Hm) in Ha].
    destruct Hnew. rewrite <- Hk. apply list_elem_of_fmap. exists m. split; [done|].
    by eapply list_elem_of_lookup_2.
  - destruct (Hfull (length fill) f) as [Ha _]; [by rewrite lookup_app_r, Nat.sub_diag by lia|].
    by rewrite (Hfr 0%nat f eq_refl) in Ha.
  - assert (i = length fill) as ->.
    { destruct (Nat.lt_trichotomy i (length fill)) as [Hi|[->|Hi]]; [|done|].
      - rewrite lookup_app_l in Hm by done. by rewrite (Hfill _ _ Hm) in Ha.
      - assert (c_true (m_active f) = true) as Hf; [|by rewrite (Hfr 0%nat f eq_refl) in Hf].
        apply (Hlt (length fill) f Hi). by rewrite lookup_app_r, Nat.sub_diag by lia. }
    rewrite lookup_app_r, Nat.sub_diag in Hm by lia. injection Hm as <-.
    destruct (mount_ok_insert f name pfx source) as [Hok' Hv]; [|done|done|].
    { apply Forall_app in Hok as [_ Hok]. by apply Forall_cons in Hok as [? _]. }
    eexists. rewrite insert_app_r_alt, Nat.sub_diag by lia. cbn [insert list_insert].
    rewrite <- app_assoc. split; [done|]. by split.
Qed.

Lemma import_mounts_image l rest : forall fill free pre,
  Forall (fun m => mount_ok m /\ c_true (m_active m) = true) l ->
  Forall mount_ok (fill ++ free) -> active_mounts fill = fill ->
  Forall (fun m => c_true (m_active m) = false) free -> (length l <= length free)%nat ->
  NoDup ((mount_key <$> fill) ++ (mount_key <$> l)) ->
  exists new, import_mounts (fill ++ free) (pre ++ concat (map mount_journal_entry l) ++ rest)
                (blen pre) (length l) = Some (0, fill ++ new ++ drop (length l) free) /\
    mount_view <$> new = mount_view <$> l /\ active_mounts new = new.
Proof.
  induction l as [|m l IH]; intros fill free pre Hl Hok Hact Hfree Hlen Hnd.
  { exists []. cbn. done. }
  destruct free as [|f free]; [cbn in Hlen; lia|].
  apply Forall_cons in Hl as [[Hm Ha] Hl].
  cbn [map concat length import_mounts]. unfold mount_entry_size at 1.
  rewrite <- app_assoc. rewrite (ld_bytes_at pre (mount_journal_entry m))
    by (done || (unfold blen; by rewrite mount_entry_length)). cbn [mbind option_bind].
  destruct (entry_fields m Hm Ha) as (H1 & H2 & H3 & H4 & H5). cbv zeta in *.
  rewrite H1, H2. cbn [Z.eqb].
  set (name := <[15%nat := 0]> _) in *. set (pfx := <[47%nat := 0]> _) in *.
  assert (Hkey : mount_key m = (cstr name, cstr pfx)) by (unfold mount_key; congruence).
  assert (Hnew : (cstr name, cstr pfx) ∉ mount_key <$> fill).
  { rewrite <- Hkey. intros Hin. apply NoDup_app in Hnd as (_ & Hd & _).
    apply (Hd _ Hin). apply elem_of_cons. by left. }
  destruct (insert_next fill free f name pfx (m_source m) Hok Hact Hfree H5 Hnew) as
    (m' & Hins & Hv & Ha' & Hok'); [apply Hm|].
  rewrite Hins. cbn [Z.eqb negb].
  rewrite app_assoc. replace (blen pre + mount_entry_size) with (blen (pre ++ mount_journal_entry m)).
  2: { unfold blen. rewrite length_app, mount_entry_length. unfold mount_entry_size. lia. }
  assert (Hv' : mount_view m' = mount_view m) by (rewrite Hv; unfold mount_view; by rewrite Hkey).
  destruct (IH (fill ++ [m']) free (pre ++ mount_journal_entry m)) as (new & Himp & Hnv & Hna).
  - done.
  - apply Forall_app in Hok as [Hok1 Hok2]. apply Forall_cons in Hok2 as [_ Hok2].
    apply Forall_app. split; [|done]. apply Forall_app. split; [done|]. by constructor.
  - unfold active_mounts in *. rewrite filter_app, Hact. f_equal.
    by rewrite filter_cons_True, filter_nil.
  - by apply Forall_cons in Hfree as [_ ?].
  - cbn in Hlen. lia.
  - rewrite fmap_app, <- app_assoc. cbn [fmap list_fmap app].
    assert (mount_key m' = mount_key m) as -> by (unfold mount_view in Hv'; congruence). exact Hnd.
  - exists (m' :: new). rewrite Himp. cbn [drop]. rewrite <- app_assoc. split; [done|].
    split; [cbn; by rewrite Hv', Hnv|]. unfold active_mounts in *. by rewrite filter_cons_True, Hna.
Qed.

Lemma active_mounts_ok mounts :
  Forall mount_ok mounts ->
  Forall (fun m => mount_ok m /\ c_true (m_active m) = true) (active_mounts mounts).
Proof.
  intros H. apply Forall_forall. intros m Hm. unfold active_mounts in Hm.
  apply list_elem_of_filter in Hm as [Ha Hm]. split; [|done]. by eapply Forall_forall in Hm.
Qed.

Lemma header_fields count checksum rest :
  is_u32 count -> is_u32 checksum ->
  let h := mount_journal_header count checksum in
  un_le32 (drop 8 h) = count /\ un_le32 (drop 12 h) = checksum /\
  ld_bytes (h ++ rest) 0 mount_header_size = Some h.
Proof.
  intros Hc Hs h. unfold h, mount_journal_header, mount_header_size. split; [|split].
  - apply (un_le32_le32 count (le32 checksum)). done.
  - pose proof (un_le32_le32 checksum [] Hs) as H. by rewrite app_nil_r in H.
  - by apply (ld_bytes_at [] (mount_journal_header count checksum) rest).
Qed.

(** A complete image passes the checks of the import. *)
Lemma import_accepts mounts boot rest len :
  mounts_wf mounts -> active_mounts mounts <> [] ->
  mount_header_size + count_active mounts * mount_entry_size <= len ->
  service_registry_mount_journal_import boot (Some (mount_journal mounts rest)) len =
  import_mounts (map mount_reset boot) (mount_journal mounts rest) mount_header_size
    (length (active_mounts mounts)).
Proof.
  intros Hwf Hne Hlen. pose proof (count_active_range mounts (mw_size _ Hwf)) as Hc.
  assert (Hpos : 0 < count_active mounts).
  { unfold count_active. fold (active_mounts mounts). destruct (active_mounts mounts); [done|]. cbn. lia. }
  assert (Hn : Z.to_nat (count_active mounts) = length (active_mounts mounts))
    by (unfold count_active; by rewrite Nat2Z.id).
  unfold service_registry_mount_journal_import, mount_journal.
  set (n := count_active mounts) in *. set (sum := mount_journal_checksum (mount_image mounts)).
  rewrite (proj2 (Z.ltb_ge len _)) by (unfold mount_header_size, mount_entry_size in *; lia).
  destruct (header_fields n sum (mount_image mounts ++ rest)) as (H1 & H2 & H3);
    [unfold is_u32; lia|apply byte_sum_range|].
  rewrite H3. cbn [mbind option_bind]. rewrite H1, H2.
  change (un_le32 (mount_journal_header n sum) =? MOUNT_JOURNAL_MAGIC) with true.
  change (un_le32 (drop 4 (mount_journal_header n sum)) =? MOUNT_JOURNAL_VERSION) with true.
  cbn [negb orb].
  rewrite (proj2 (Z.eqb_neq n 0)) by lia.
  rewrite (proj2 (Z.ltb_ge SERVICE_REGISTRY_PERSISTENT_MOUNT_CAPACITY n))
    by (unfold SERVICE_REGISTRY_PERSISTENT_MOUNT_CAPACITY; lia). cbn [orb].
  rewrite u32_id by (unfold is_u32, mount_header_size, mount_entry_size; lia).
  rewrite (proj2 (Z.ltb_ge len _)) by lia.
  rewrite (ld_bytes_at (mount_journal_header n sum) (mount_image mounts) rest)
    by (done || by rewrite mount_image_length). cbn [mbind option_bind].
  fold sum. rewrite Z.eqb_refl. cbn [negb]. by rewrite Hn.
Qed.

(** The mount journal survives a reboot: exporting a well-formed, non-empty
    mount table into a large enough buffer succeeds, and importing the resulting
    image, over whatever table the next boot starts from, succeeds and yields
    the same mounts (service, prefix, source) in the same order. *)
Theorem mount_journal_roundtrip :
  forall (mounts boot : list service_registry_persistent_mount_t) (b : bytes) (cap : Z),
    mounts_wf mounts -> mounts_wf boot -> active_mounts mounts <> [] ->
    mount_header_size + count_active mounts * mount_entry_size <= cap -> cap <= blen b ->
    exists image,
      service_registry_mount_journal_export mounts (Some b) cap = Some (0, Some image) /\
      forall len, mount_header_size + count_active mounts * mount_entry_size <= len ->
        exists boot', service_registry_mount_journal_import boot (Some image) len = Some (0, boot') /\
          mount_view <$> active_mounts boot' = mount_view <$> active_mounts mounts.
Proof.
  intros mounts boot b cap Hwf Hboot Hne Hneed Hcap.
  rewrite (mount_export_spec mounts b cap (mw_size _ Hwf) Hcap Hneed). eexists. split; [done|].
  set (rest := _ ++ drop (Z.to_nat cap) b). clearbody rest. intros len Hlen.
  rewrite (import_accepts mounts boot rest len) by done.
  destruct (reset_wf boot (mw_size _ Hboot) (mw_ok _ Hboot)) as [Hrw Hrn].
  pose proof (count_active_range mounts (mw_size _ Hwf)) as Hc.
  destruct (import_mounts_image (active_mounts mounts) rest [] (map mount_reset boot)
              (mount_journal_header (count_active mounts) (mount_journal_checksum (mount_image mounts))))
    as (new & Hnew & Hv & Ha).
  - apply active_mounts_ok, Hwf.
  - apply Hrw.
  - done.
  - apply Forall_forall. intros m (x & -> & _)%list_elem_of_fmap. done.
  - rewrite length_map, (mw_size _ Hboot). unfold count_active in Hc. fold (active_mounts mounts) in Hc. lia.
  - apply Hwf.
  - rewrite app_nil_l in Hnew. fold (mount_image mounts) in Hnew. unfold mount_journal, mount_header_size.
    change (blen (mount_journal_header _ _)) with 16 in Hnew. rewrite Hnew.
    eexists. split; [done|]. unfold active_mounts at 1. rewrite app_nil_l, filter_app.
    fold (active_mounts new). rewrite Ha, fmap_app, Hv.
    rewrite <- (take_drop (length (active_mounts mounts)) (map mount_reset boot)) in Hrn.
    unfold active_mounts in Hrn at 1. rewrite filter_app in Hrn. apply app_nil in Hrn as [_ ->].
    cbn [fmap list_fmap]. by rewrite app_nil_r.
Qed.

(** ** The event journal *)

Record event_ok (e : service_registry_notify_event_t) : Prop := {
  eo_name_len : length (n_name e) = 16%nat;
  eo_pending : event_pending e = true ->
    service_registry_name_valid (Some (n_name e)) = true /\ is_u32 (n_sequence e) /\
    is_i32 (n_old_pid e) /\ is_i32 (n_new_pid e) /\
    OS_SERVICE_EVENT_PUBLISHED <= n_reason e <= OS_SERVICE_EVENT_PURGED
}.

(** What an undelivered event says, its watcher apart: PIDs are not stable
    across boots, so the journal does not keep them. *)
Definition event_view (e : service_registry_notify_event_t) : Z * cstring * Z * Z * Z :=
  (n_sequence e, cstr (n_name e), n_old_pid e, n_new_pid e, n_reason e).

Definition pending_events (history : list service_registry_notify_event_t) :=
  filter (fun e => event_pending e = true) history.

Definition event_image (history : list service_registry_notify_event_t) : bytes :=
  concat (map event_journal_entry (pending_events history)).

Lemma event_entry_length e : length (event_journal_entry e) = 32%nat.
Proof.
  unfold event_journal_entry. rewrite !length_app. unfold copy_name.
  by rewrite copy_from_length, length_replicate.
Qed.

Lemma event_image_length history :
  blen (event_image history) = count_pending history * event_entry_size.
Proof.
  unfold event_image, count_pending, event_entry_size, blen. fold (pending_events history).
  induction (pending_events history) as [|e l IH]; [done|].
  cbn [map concat length]. rewrite length_app, event_entry_length. lia.
Qed.

(** Sequences are unsigned, so the two tests of the source agree. *)
Lemma pending_test e :
  0 <= n_sequence e -> (n_sequence e =? 0) || negb (n_acked e =? 0) = negb (event_pending e).
Proof.
  intros H. unfold event_pending.
  destruct (Z.eqb_spec (n_sequence e) 0), (Z.ltb_spec 0 (n_sequence e)), (n_acked e =? 0); done || lia.
Qed.

Lemma export_events_spec history : forall pre tail,
  Forall (fun e => 0 <= n_sequence e) history -> blen (event_image history) <= blen tail ->
  export_events history (pre ++ tail) (blen pre) =
  Some (pre ++ event_image history ++ drop (length (event_image history)) tail).
Proof.
  unfold event_image, pending_events.
  induction history as [|e history IH]; intros pre tail Hseq Hlen; cbn [export_events]; [done|].
  apply Forall_cons in Hseq as [He Hseq]. rewrite pending_test by done.
  rewrite filter_cons in *. destruct (event_pending e); case_decide; try done; cbn [negb]; [|by apply IH].
  cbn [map concat] in *. unfold blen in Hlen. rewrite length_app, event_entry_length in Hlen.
  rewrite <- (take_drop 32 tail) at 1.
  assert (Ht : length (take 32 tail) = 32%nat) by (rewrite length_take; lia).
  rewrite st_bytes_app by (rewrite event_entry_length; done). cbn [mbind option_bind].
  rewrite app_assoc. replace (blen pre + event_entry_size) with (blen (pre ++ event_journal_entry e)).
  2: { unfold blen. rewrite length_app, event_entry_length. unfold event_entry_size. lia. }
  rewrite IH by (done || (unfold blen; rewrite length_drop; lia)).
  rewrite <- !app_assoc. do 4 f_equal. rewrite drop_drop. f_equal.
  rewrite length_app, event_entry_length. done.
Qed.

Lemma count_pending_range history : length history = 8%nat -> 0 <= count_pending history <= 8.
Proof.
  intros H. unfold count_pending. pose proof (length_filter (fun e => event_pending e = true) history).
  lia.
Qed.

Definition event_journal (history : list service_registry_notify_event_t) (seq : Z) (rest : bytes) : bytes :=
  event_journal_header (count_pending history) seq (mount_journal_checksum (event_image history))
  ++ event_image history ++ rest.

Lemma event_export_spec history seq b cap :
  length history = 8%nat -> Forall (fun e => 0 <= n_sequence e) history -> cap <= blen b ->
  event_header_size + count_pending history * event_entry_size <= cap ->
  exists rest,
  service_registry_event_journal_export history seq (Some b) cap =
  Some (0, Some (event_journal history seq rest)).
Proof.
  intros Hl Hseq Hcap Hneed. pose proof (count_pending_range history Hl) as Hc.
  pose proof (event_image_length history) as Hil.
  unfold service_registry_event_journal_export, event_journal. set (n := count_pending history) in *.
  unfold event_header_size, event_entry_size, EVENT_JOURNAL_BYTES in *.
  rewrite u32_id by (unfold is_u32; lia). rewrite !(proj2 (Z.ltb_ge _ _)) by lia. cbn [orb].
  rewrite <- (take_drop (Z.to_nat cap) b).
  pose proof (st_bytes_app [] (take (Z.to_nat cap) b) (drop (Z.to_nat cap) b)
                (replicate (Z.to_nat cap) 0)) as Hst.
  change (blen []) with 0 in Hst. rewrite !app_nil_l in Hst.
  rewrite Hst by (rewrite length_replicate, length_take; unfold blen in Hcap; lia).
  cbn [mbind option_bind].
  assert (Hrep : replicate (Z.to_nat cap) 0 = replicate 20 0 ++ replicate (Z.to_nat cap - 20) 0)
    by (rewrite <- replicate_add; f_equal; lia).
  rewrite Hrep, <- app_assoc.
  pose proof (export_events_spec history (replicate 20 0)
                (replicate (Z.to_nat cap - 20) 0 ++ drop (Z.to_nat cap) b) Hseq) as He.
  change (blen (replicate 20 0)) with 20 in He.
  rewrite He by (unfold blen in *; rewrite length_app, length_replicate; lia). clear He.
  cbn [mbind option_bind]. set (rest := drop _ _).
  rewrite (ld_bytes_at (replicate 20 0) (event_image history)) by (done || lia).
  cbn [mbind option_bind].
  pose proof (st_bytes_app [] (replicate 20 0) (event_image history ++ rest)
    (event_journal_header n seq (mount_journal_checksum (event_image history)))) as Hh.
  change (blen []) with 0 in Hh. rewrite !app_nil_l in Hh. rewrite Hh by done. by exists rest.
Qed.

(** Decoding of an exported event. *)
Lemma event_fields e :
  event_ok e -> event_pending e = true ->
  let b := event_journal_entry e in
  let name := <[15%nat := 0]> (take 16 (drop 4 b)) in
  un_le32 b = n_sequence e /\ cstr name = cstr (n_name e) /\
  i32 (un_le32 (drop 20 b)) = n_old_pid e /\ i32 (un_le32 (drop 24 b)) = n_new_pid e /\
  un_le32 (drop 28 b) = n_reason e.
Proof.
  intros [Hn Hp] Ha b name. destruct (Hp Ha) as (Hv & Hs & Ho & Hw & Hr).
  pose proof (name_valid_length _ Hv) as Hl.
  destruct (copy_name_spec (replicate 16 0) (n_name e)) as [H1 H2]; [done|done|].
  set (cn := copy_name (replicate 16 0) (n_name e)) in *.
  assert (Hd4 : drop 4 b = cn ++ le32 (n_old_pid e) ++ le32 (n_new_pid e) ++ le32 (n_reason e)) by done.
  assert (Hd20 : drop 20 b = le32 (n_old_pid e) ++ le32 (n_new_pid e) ++ le32 (n_reason e)).
  { change 20%nat with (4 + 16)%nat. rewrite <- drop_drop, Hd4. by apply drop_app_length'. }
  assert (Hd24 : drop 24 b = le32 (n_new_pid e) ++ le32 (n_reason e)).
  { change 24%nat with (20 + 4)%nat. by rewrite <- drop_drop, Hd20. }
  assert (Hd28 : drop 28 b = le32 (n_reason e) ++ []).
  { change 28%nat with (24 + 4)%nat. by rewrite <- drop_drop, Hd24. }
  assert (Hi : forall z r, is_i32 z -> i32 (un_le32 (le32 z ++ r)) = z).
  { intros z r Hz. unfold is_i32 in Hz. unfold i32, u32, le32, u8. cbn [app un_le32].
    match goal with |- (if ?x <? _ then _ else _) = _ => destruct (Z.ltb_spec x 2147483648) end; zlia. }
  split; [by apply un_le32_le32|]. split.
  - unfold name. rewrite Hd4, take_app_length' by done. rewrite cstr_insert_nul, H1; [done|].
    rewrite H1. lia.
  - rewrite Hd20, Hd24, Hd28, !Hi by done. rewrite un_le32_le32; [done|].
    unfold is_u32, OS_SERVICE_EVENT_PUBLISHED, OS_SERVICE_EVENT_PURGED in *. lia.
Qed.

Lemma import_events_image l rest : forall fill free pre,
  Forall (fun e => event_ok e /\ event_pending e = true) l ->
  Forall (fun e => length (n_name e) = 16%nat) free -> (length l <= length free)%nat ->
  exists new, import_events (fill ++ free) (pre ++ concat (map event_journal_entry l) ++ rest)
                (blen pre) (length fill) (length l) = Some (0, fill ++ new ++ drop (length l) free) /\
    event_view <$> new = event_view <$> l /\
    Forall (fun e => event_pending e = true /\ n_watcher_pid e = 0) new.
Proof.
  induction l as [|e l IH]; intros fill free pre Hl Hfree Hlen.
  { exists []. cbn. by split. }
  destruct free as [|f free]; [cbn in Hlen; lia|].
  apply Forall_cons in Hl as [[He Ha] Hl]. apply Forall_cons in Hfree as [Hf Hfree].
  cbn [map concat length import_events]. unfold event_entry_size at 1.
  rewrite <- app_assoc. rewrite (ld_bytes_at pre (event_journal_entry e))
    by (done || (unfold blen; by rewrite event_entry_length)). cbn [mbind option_bind].
  destruct (event_fields e He Ha) as (H1 & H2 & H3 & H4 & H5). cbv zeta in *.
  rewrite H1, H3, H4, H5. set (name := <[15%nat := 0]> _) in *.
  destruct (eo_pending e He Ha) as (Hv & _ & _ & _ & Hr).
  assert (Hpos : 0 < n_sequence e /\ n_acked e = 0) by (unfold event_pending in Ha; bsimp; done).
  rewrite (proj2 (Z.eqb_neq (n_sequence e) 0)) by lia. rewrite !(proj2 (Z.ltb_ge _ _)) by lia. cbn [orb].
  rewrite (name_valid_cstr _ _ H2), Hv. cbn [negb].
  rewrite insert_app_r_alt, Nat.sub_diag by lia. cbn [insert list_insert].
  rewrite list_lookup_total_alt, lookup_app_r, Nat.sub_diag by lia. cbn [lookup list_lookup default from_option id].
  set (e' := mk_event _ _ _ _ _ _ _ _).
  rewrite app_assoc. replace (blen pre + 32) with (blen (pre ++ event_journal_entry e))
    by (unfold blen; rewrite length_app, event_entry_length; lia).
  destruct (IH (fill ++ [e']) free (pre ++ event_journal_entry e) Hl Hfree) as (new & Himp & Hnv & Hna).
  { cbn in Hlen. lia. }
  rewrite length_app, Nat.add_1_r, <- app_assoc in Himp. cbn [app] in Himp.
  exists (e' :: new). rewrite Himp. cbn [drop]. rewrite <- app_assoc. split; [done|].
  destruct (copy_name_spec (n_name f) name Hf) as [Hc _].
  { rewrite H2. by apply name_valid_length. }
  assert (He' : event_view e' = event_view e).
  { unfold event_view, e'. cbn. by rewrite Hc, H2. }
  split; [cbn; by rewrite He', Hnv|]. constructor; [|done]. split; [|done].
  unfold event_pending, e'. cbn. by rewrite (proj2 (Z.ltb_lt 0 _)) by lia.
Qed.

Lemma event_header_fields count seq checksum rest :
  is_u32 count -> is_u32 seq -> is_u32 checksum ->
  let h := event_journal_header count seq checksum in
  un_le32 (drop 8 h) = count /\ un_le32 (drop 12 h) = seq /\ un_le32 (drop 16 h) = checksum /\
  ld_bytes (h ++ rest) 0 event_header_size = Some h.
Proof.
  intros Hc Hs Hk h. unfold h, event_journal_header, event_header_size. split; [|split; [|split]].
  - apply (un_le32_le32 count (le32 seq ++ le32 checksum)). done.
  - apply (un_le32_le32 seq (le32 checksum)). done.
  - pose proof (un_le32_le32 checksum [] Hk) as H. by rewrite app_nil_r in H.
  - by apply (ld_bytes_at [] (event_journal_header count seq checksum) rest).
Qed.

Lemma event_import_accepts history boot seq bseq rest len :
  length history = 8%nat -> is_u32 seq ->
  event_header_size + count_pending history * event_entry_size <= len ->
  service_registry_event_journal_import boot bseq (Some (event_journal history seq rest)) len =
  '(rc, h) ← import_events (map event_reset boot) (event_journal history seq rest) event_header_size 0
               (length (pending_events history));
  Some (rc, h, Z.max bseq seq).
Proof.
  intros Hwf Hseq Hlen. pose proof (count_pending_range history Hwf) as Hc.
  assert (Hn : Z.to_nat (count_pending history) = length (pending_events history))
    by (unfold count_pending; by rewrite Nat2Z.id).
  unfold service_registry_event_journal_import, event_journal.
  set (n := count_pending history) in *. set (sum := mount_journal_checksum (event_image history)).
  rewrite (proj2 (Z.ltb_ge len _)) by (unfold event_header_size, event_entry_size in *; lia).
  destruct (event_header_fields n seq sum (event_image history ++ rest)) as (H1 & H2 & H3 & H4);
    [unfold is_u32; lia|done|apply byte_sum_range|].
  rewrite H4. cbn [mbind option_bind]. rewrite H1, H2, H3.
  change (un_le32 (event_journal_header n seq sum) =? EVENT_JOURNAL_MAGIC) with true.
  change (un_le32 (drop 4 (event_journal_header n seq sum)) =? EVENT_JOURNAL_VERSION) with true.
  cbn [negb orb].
  rewrite (proj2 (Z.ltb_ge SERVICE_REGISTRY_NOTIFY_HISTORY_CAPACITY n))
    by (unfold SERVICE_REGISTRY_NOTIFY_HISTORY_CAPACITY; lia).
  rewrite u32_id by (unfold is_u32, event_header_size, event_entry_size; lia).
  rewrite (proj2 (Z.ltb_ge len _)) by lia.
  rewrite (ld_bytes_at (event_journal_header n seq sum) (event_image history) rest)
    by (done || by rewrite event_image_length). cbn [mbind option_bind].
  fold sum. rewrite Z.eqb_refl. cbn [negb]. rewrite Hn.
  assert ((if bseq <? seq then seq else bseq) = Z.max bseq seq) as ->; [|done].
  destruct (Z.ltb_spec bseq seq); lia.
Qed.

(** Undelivered service events survive a reboot: the exported journal of a
    notification history is accepted by the next boot's import, which restores
    every unacknowledged event in order (sequence, service, old and new owner,
    reason), bound to no watcher yet, frees all other slots, and never moves the
    sequence counter backwards. *)
Theorem event_journal_roundtrip :
  forall (history boot : list service_registry_notify_event_t) (seq bseq : Z) (b : bytes) (cap : Z),
    length history = 8%nat -> Forall event_ok history ->
    Forall (fun e => 0 <= n_sequence e) history -> is_u32 seq ->
    length boot = 8%nat -> Forall (fun e => length (n_name e) = 16%nat) boot ->
    event_header_size + count_pending history * event_entry_size <= cap -> cap <= blen b ->
    exists image,
      service_registry_event_journal_export history seq (Some b) cap = Some (0, Some image) /\
      forall len, event_header_size + count_pending history * event_entry_size <= len ->
        exists new free,
          service_registry_event_journal_import boot bseq (Some image) len =
            Some (0, new ++ free, Z.max bseq seq) /\
          event_view <$> new = event_view <$> pending_events history /\
          Forall (fun e => event_pending e = true /\ n_watcher_pid e = 0) new /\
          Forall (fun e => n_sequence e = 0) free /\ length (new ++ free) = 8%nat.
Proof.
  intros history boot seq bseq b cap Hl Hok Hseq Hs Hbl Hbok Hneed Hcap.
  destruct (event_export_spec history seq b cap Hl Hseq Hcap Hneed) as [rest ->].
  eexists. split; [done|]. intros len Hlen.
  rewrite (event_import_accepts history boot seq bseq rest len) by done.
  pose proof (count_pending_range history Hl) as Hc.
  assert (Hlp : (length (pending_events history) <= 8)%nat)
    by (unfold count_pending in Hc; fold (pending_events history) in Hc; lia).
  destruct (import_events_image (pending_events history) rest [] (map event_reset boot)
              (event_journal_header (count_pending history) seq (mount_journal_checksum (event_image history))))
    as (new & Hnew & Hv & Ha).
  - apply Forall_forall. intros e He. unfold pending_events in He.
    apply list_elem_of_filter in He as [? He]. split; [|done]. by eapply Forall_forall in He.
  - apply Forall_fmap. eapply Forall_impl; [exact Hbok|]. intros e He. cbn. by rewrite clear_string_length.
  - by rewrite length_map, Hbl.
  - rewrite app_nil_l in Hnew. fold (event_image history) in Hnew. unfold event_journal, event_header_size.
    change (blen (event_journal_header _ _ _)) with 20 in Hnew. cbn [length] in Hnew. rewrite Hnew.
    cbn [mbind option_bind app]. exists new. eexists. split; [done|]. split; [done|]. split; [done|].
    split; [apply Forall_drop, Forall_fmap, Forall_true; intros; done|].
    assert (length new = length (pending_events history)) as Hln
      by (rewrite <- (length_fmap event_view new), Hv; apply length_fmap).
    rewrite length_app, length_drop, length_map, Hbl, Hln. lia.
Qed.

Lemma import_events_length b n : forall history cursor i rc h,
  import_events history b cursor i n = Some (rc, h) -> length h = length history.
Proof.
  induction n as [|n IH]; intros history cursor i rc h; cbn [import_events]; [by intros [= _ <-]|].
  destruct (ld_bytes b cursor event_entry_size) as [e|]; cbn [mbind option_bind]; [|done].
  repeat case_if; try by intros [= _ <-].
  intros H%IH. by rewrite H, length_insert.
Qed.

Lemma event_import_length history seq buf len rc h q :
  service_registry_event_journal_import history seq buf len = Some (rc, h, q) ->
  length h = length history.
Proof.
  unfold service_registry_event_journal_import. destruct buf as [b|]; [|by intros [= _ <- _]].
  case_if; [by intros [= _ <- _]|].
  destruct (ld_bytes b 0 event_header_size) as [e|]; cbn [mbind option_bind]; [|done].
  do 3 (case_if; [by intros [= _ <- _]|]).
  destruct (ld_bytes b event_header_size _) as [body|]; cbn [mbind option_bind]; [|done].
  case_if; [by intros [= _ <- _]|].
  destruct (import_events _ _ _ _ _) as [[rc' h']|] eqn:E; cbn [mbind option_bind]; [|done].
  intros [= _ <- _]. apply import_events_length in E. by rewrite E, length_map.
Qed.

(** ** Installing a boot journal with an unusable entry *)

(** One active entry whose service name is empty, with a correct header. *)
Definition unusable_entry : bytes := replicate 64 0 ++ le32 1 ++ [1].
Definition unusable_journal : bytes :=
  mount_journal_header 1 (mount_journal_checksum unusable_entry) ++ unusable_entry.

(** A boot journal whose header and checksum are right but whose entry is not
    a valid mount is reported as not imported (1), yet the mounts of the boot
    defaults are already gone: the table is cleared before the entries are
    validated, and this path does not put the defaults back. *)
Theorem boot_journal_install_drops_mounts :
  forall s : registry_t,
    Z.land (boot_journal_pending s) 1 <> 0 ->
    exists s', service_registry_boot_journal_install s 0 (Some unusable_journal)
                 (blen unusable_journal) = Some (1, s') /\
      active_mounts (persistent_mounts s') = [].
Proof.
  intros s Hp. unfold service_registry_boot_journal_install. change (0 =? 0) with true. cbn iota.
  rewrite (proj2 (Z.eqb_neq _ 0)) by done. set (s1 := set_boot_pending s _).
  assert (H : service_registry_mount_journal_import (persistent_mounts s1) (Some unusable_journal)
                (blen unusable_journal) = Some (OS_SERVICE_FULL, map mount_reset (persistent_mounts s1)))
    by reflexivity.
  rewrite H. cbn [mbind option_bind]. eexists. split; [reflexivity|]. cbn [persistent_mounts set_mounts].
  apply active_reset.
Qed.
