(* ===== verification/Registry.v ===== *)
(** * Service registry: names, capabilities, notifications

    Every operation of kernel/service_registry.c outside the journals: service
    names and their hand-off, backend capabilities, watches, the notification
    history and the spill slots behind a full IPC mailbox.  [TaskView] is the
    task table at the moment of the call; it may differ at every call. *)

From Stdlib Require Import ZArith Lia String.
From stdpp Require Import base numbers option tactics list.
From S2P Require Import Prelude Bytes Names Ipc RegistryState Journal.

Definition zero_entry : service_registry_entry_t := mk_entry 0 0 0 (replicate 16 0) 0 0 0.
Definition zero_watch : service_registry_watch_t := mk_watch 0 0 0 (replicate 16 0).
Definition zero_cap : service_backend_cap_t :=
  mk_cap 0 0 0 0 0 0 0 0 (replicate 48 0) (replicate 16 0) 0 0.
Definition zero_payload : os_ipc_payload_t := mk_payload 0 0 0 (replicate 96 0).
Definition zero_spill : service_ipc_spill_slot_t := mk_spill 0 0 zero_payload 0.
#[export] Instance entry_inhabited : Inhabited service_registry_entry_t := populate zero_entry.
#[export] Instance watch_inhabited : Inhabited service_registry_watch_t := populate zero_watch.
#[export] Instance cap_inhabited : Inhabited service_backend_cap_t := populate zero_cap.
#[export] Instance spill_inhabited : Inhabited service_ipc_spill_slot_t := populate zero_spill.

(** [x++; if (x == 0U) x = 1U;] on a 32-bit counter. *)
Definition next_nonzero (x : Z) : Z := if u32 (x + 1) =? 0 then 1 else u32 (x + 1).

(** [uint32_t key = 0; if (task_identity_key(pid, &key) != 0) key = 0;] *)
Definition key_or_zero `{TaskView} (pid : Z) : Z := default 0 (task_identity_key pid).
(** [seq = gen = 0; (void)task_get_identity(pid, &seq, &gen);] *)
Definition identity_or_zero `{TaskView} (pid : Z) : Z * Z := default (0, 0) (task_get_identity pid).

Definition task_identity_valid `{TaskView} (pid sequence generation : Z) : bool :=
  if pid <=? 0 then false
  else match task_get_identity pid with
  | Some (cur_seq, cur_gen) =>
      if negb (sequence =? 0) || negb (generation =? 0)
      then (cur_seq =? sequence) && (cur_gen =? generation) else true
  | None => (sequence =? 0) && (generation =? 0)
  end.

Definition identity_key_bound `{TaskView} (pid stored : Z) : bool :=
  match task_identity_key pid with
  | None => stored =? 0
  | Some live => negb (live =? 0) && (stored =? live)
  end.

(** The entry that owns [name]: live PID and equal name. *)
Definition entry_named (name : cstring) (e : service_registry_entry_t) : bool :=
  (0 <? e_pid e) && name_equal (e_name e) name.

Definition update_entry (s : registry_t) (i : nat)
    (f : service_registry_entry_t -> service_registry_entry_t) : registry_t :=
  set_entries s (<[i := f (service_entries s !!! i)]> (service_entries s)).
Definition update_cap (s : registry_t) (i : nat)
    (f : service_backend_cap_t -> service_backend_cap_t) : registry_t :=
  set_caps s (<[i := f (service_backend_caps s !!! i)]> (service_backend_caps s)).

Definition service_registry_backend_generation_bump (s : registry_t) (name : cstring) : registry_t :=
  match find_slot (entry_named name) (service_entries s) with
  | None => s
  | Some i =>
      update_entry s i (fun e =>
        mk_entry (e_pid e) (e_sequence e) (e_generation e) (e_name e)
          (next_nonzero (e_backend_generation e)) (e_right_token e) (e_identity_key e))
  end.

Definition service_registry_backend_sources_valid (sources : Z) : bool :=
  negb (sources =? 0) && (Z.land sources (Z.lnot OS_SERVICE_BACKEND_SOURCE_ALL) =? 0).

Definition service_registry_backend_generation_of (s : registry_t) (name : cstring) : Z :=
  match find_slot (entry_named name) (service_entries s) with
  | None => 0
  | Some i => e_backend_generation (service_entries s !!! i)
  end.

(** The released row: owner, grantee, rights, sources, prefix, name, token and
    key cleared; the identities of the old parties stay in the row. *)
Definition cap_cleared (c : service_backend_cap_t) : service_backend_cap_t :=
  mk_cap 0 (c_owner_sequence c) (c_owner_generation c) 0 (c_grantee_sequence c)
    (c_grantee_generation c) 0 0 (clear_string (c_prefix c)) (clear_string (c_name c)) 0 0.

Definition cap_named (name : cstring) (c : service_backend_cap_t) : bool :=
  (0 <? c_owner_pid c) && name_equal (c_name c) name.

Definition service_registry_backend_remove_name (s : registry_t) (name : ptr cstring) : registry_t :=
  if negb (service_registry_name_valid name) then s
  else
    let changed := existsb (cap_named (str name)) (service_backend_caps s) in
    let s := set_caps s (map (fun c => if cap_named (str name) c then cap_cleared c else c)
                           (service_backend_caps s)) in
    if changed then service_registry_backend_generation_bump s (str name) else s.

Definition cap_involves (pid : Z) (c : service_backend_cap_t) : bool :=
  (c_owner_pid c =? pid) || (c_grantee_pid c =? pid).

(** The loop bumps the generation of each released row's name, then clears it;
    a bump touches only the entries, a clear only the capabilities. *)
Definition service_registry_backend_remove_pid (s : registry_t) (pid : Z) : registry_t :=
  if pid <=? 0 then s
  else
    let s := fold_left (fun s c => if cap_involves pid c
                                   then service_registry_backend_generation_bump s (c_name c) else s)
               (service_backend_caps s) s in
    set_caps s (map (fun c => if cap_involves pid c then cap_cleared c else c)
                  (service_backend_caps s)).

Definition mint_right_token (s : registry_t) : Z * registry_t :=
  let token := service_right_token_next s in
  (if token =? 0 then 1 else token, set_right_token_next s (next_nonzero token)).

(** The row of a name that was dropped: PID, identity and name cleared. *)
Definition entry_dropped (e : service_registry_entry_t) : service_registry_entry_t :=
  mk_entry 0 0 0 (clear_string (e_name e)) (e_backend_generation e) (e_right_token e)
    (e_identity_key e).

Section Registry.
Context `{T : TaskView} `{K : KernelHooks}.

Definition entry_valid (e : service_registry_entry_t) : bool :=
  task_identity_valid (e_pid e) (e_sequence e) (e_generation e).

(** The assignments at the end of [service_registry_register]. *)
Definition register_at (s : registry_t) (i : nat) (name : cstring) (pid : Z) : registry_t :=
  let '(seq, gen) := identity_or_zero pid in
  let '(token, s) := mint_right_token s in
  update_entry s i (fun e =>
    mk_entry pid seq gen (copy_name (e_name e) name) 1 token (key_or_zero pid)).

(** The scan stops at the row of the name, if any; a free row is used only when
    there is none.  The final restore only counts the mounts. *)
Definition service_registry_register (s : registry_t) (name : ptr cstring) (pid : Z)
    : Z * registry_t :=
  if negb (service_registry_name_valid name) || (pid <=? 0) then (OS_SERVICE_BAD_NAME, s)
  else
    match find_slot (fun e => negb (e_pid e =? 0) && name_equal (e_name e) (str name))
            (service_entries s) with
    | Some i =>
        let e := service_entries s !!! i in
        if (e_pid e =? pid) && task_identity_valid pid (e_sequence e) (e_generation e) then (0, s)
        else if negb (entry_valid e) then (0, register_at s i (str name) pid)
        else (OS_SERVICE_TAKEN, s)
    | None =>
        match find_slot (fun e => e_pid e =? 0) (service_entries s) with
        | None => (OS_SERVICE_FULL, s)
        | Some i => (0, register_at s i (str name) pid)
        end
    end.

Definition service_registry_lookup (s : registry_t) (name : ptr cstring) : Z * registry_t :=
  if negb (service_registry_name_valid name) then (OS_SERVICE_BAD_NAME, s)
  else
    match find_slot (entry_named (str name)) (service_entries s) with
    | None => (OS_SERVICE_NOT_FOUND, s)
    | Some i =>
        let e := service_entries s !!! i in
        if entry_valid e then (e_pid e, s)
        else
          let s := update_entry s i entry_dropped in
          (OS_SERVICE_NOT_FOUND, service_registry_backend_remove_name s name)
    end.

Definition service_registry_remove (s : registry_t) (name : ptr cstring) (pid : Z)
    : Z * registry_t :=
  if negb (service_registry_name_valid name) || (pid <=? 0) then (OS_SERVICE_BAD_NAME, s)
  else
    match find_slot (fun e => (e_pid e =? pid) && name_equal (e_name e) (str name)
                              && task_identity_valid pid (e_sequence e) (e_generation e))
            (service_entries s) with
    | None => (OS_SERVICE_NOT_FOUND, s)
    | Some i =>
        let s := update_entry s i entry_dropped in
        (0, service_registry_backend_remove_name s name)
    end.

(** ** Backend capabilities *)

(** The row written by a fresh grant. *)
Definition cap_granted (c : service_backend_cap_t) (name : cstring) (owner_pid grantee_pid : Z)
    (rights sources : Z) (prefix : cstring) (token : Z) : service_backend_cap_t :=
  let '(o_seq, o_gen) := identity_or_zero owner_pid in
  let '(g_seq, g_gen) := identity_or_zero grantee_pid in
  mk_cap owner_pid o_seq o_gen grantee_pid g_seq g_gen rights sources
    (service_registry_backend_copy_prefix (c_prefix c) prefix) (copy_name (c_name c) name)
    token (key_or_zero grantee_pid).

(** The row of an earlier grant between the same parties, widened. *)
Definition cap_widened (c : service_backend_cap_t) (owner_pid grantee_pid rights sources : Z)
    (prefix : cstring) (token : Z) : service_backend_cap_t :=
  let '(o_seq, o_gen) := identity_or_zero owner_pid in
  let '(g_seq, g_gen) := identity_or_zero grantee_pid in
  mk_cap (c_owner_pid c) o_seq o_gen (c_grantee_pid c) g_seq g_gen rights sources
    (service_registry_backend_copy_prefix (c_prefix c) prefix) (c_name c)
    token (key_or_zero grantee_pid).

Definition cap_between (name : cstring) (owner_pid grantee_pid : Z) (c : service_backend_cap_t)
    : bool :=
  (c_owner_pid c =? owner_pid) && (c_grantee_pid c =? grantee_pid) && name_equal (c_name c) name.

Definition service_registry_backend_grant_scoped_source_prefix (s : registry_t)
    (name : ptr cstring) (owner_pid grantee_pid rights sources : Z) (prefix : ptr cstring)
    : Z * registry_t :=
  if negb (service_registry_name_valid name) || (owner_pid <=? 0) || (grantee_pid <=? 0)
     || (rights =? 0) || negb (Z.land rights (Z.lnot SERVICE_BACKEND_RIGHT_ALL) =? 0)
     || negb (service_registry_backend_sources_valid sources)
     || negb (service_registry_backend_prefix_valid prefix)
  then (OS_SERVICE_BAD_NAME, s)
  else
    let '(owner, s) := service_registry_lookup s name in
    if negb (owner =? owner_pid) then (OS_SERVICE_NOT_OWNER, s)
    else
      match find_slot (cap_between (str name) owner_pid grantee_pid) (service_backend_caps s) with
      | Some i =>
          let c := service_backend_caps s !!! i in
          let combined_rights := Z.lor (c_rights c) rights in
          let combined_sources := Z.lor (c_sources c) sources in
          if negb (c_rights c =? combined_rights) || negb (c_sources c =? combined_sources)
             || negb (service_registry_backend_prefix_equal (Some (c_prefix c)) prefix)
          then
            let fresh := c_token c =? 0 in
            let token := if fresh then service_backend_token_next s else c_token c in
            let s := update_cap s i (fun c => cap_widened c owner_pid grantee_pid combined_rights
                                               combined_sources (str prefix) token) in
            let s := if fresh
                     then set_backend_token_next s (next_nonzero (service_backend_token_next s))
                     else s in
            (0, service_registry_backend_generation_bump s (str name))
          else (0, s)
      | None =>
          match find_slot (fun c => c_owner_pid c =? 0) (service_backend_caps s) with
          | None => (OS_SERVICE_FULL, s)
          | Some i =>
              let token := service_backend_token_next s in
              let s := update_cap s i (fun c => cap_granted c (str name) owner_pid grantee_pid
                                                 rights sources (str prefix) token) in
              let s := set_backend_token_next s (next_nonzero token) in
              (0, service_registry_backend_generation_bump s (str name))
          end
      end.

Definition service_registry_backend_grant_scoped_source (s : registry_t) (name : ptr cstring)
    (owner_pid grantee_pid rights sources : Z) : Z * registry_t :=
  service_registry_backend_grant_scoped_source_prefix s name owner_pid grantee_pid rights sources
    (Some []).

Definition service_registry_backend_grant_scoped (s : registry_t) (name : ptr cstring)
    (owner_pid grantee_pid rights : Z) : Z * registry_t :=
  service_registry_backend_grant_scoped_source s name owner_pid grantee_pid rights
    OS_SERVICE_BACKEND_SOURCE_ALL.

Definition service_registry_backend_grant (s : registry_t) (name : ptr cstring)
    (owner_pid grantee_pid : Z) : Z * registry_t :=
  service_registry_backend_grant_scoped s name owner_pid grantee_pid SERVICE_BACKEND_RIGHT_ALL.

(** The end of a hand-off: the capabilities of the name are dropped, and a new
    owner of "vfs" gets an explicit grant while the storage worker is live. *)
Definition handoff_finish (s : registry_t) (name : ptr cstring) (grantee_pid : Z) : Z * registry_t :=
  let s := service_registry_backend_remove_name s name in
  if name_equal (str name) (lit "vfs") then
    let '(worker, s) := service_registry_lookup s (Some (lit "vfs-virtual")) in
    if 0 <? worker then
      (0, snd (service_registry_backend_grant_scoped_source s name grantee_pid grantee_pid
                 SERVICE_BACKEND_RIGHT_ALL OS_SERVICE_BACKEND_SOURCE_ALL))
    else (0, s)
  else (0, s).

(** Hand-off of a name. *)
Definition service_registry_grant (s : registry_t) (name : ptr cstring)
    (owner_pid grantee_pid : Z) : Z * registry_t :=
  if negb (service_registry_name_valid name) || (owner_pid <=? 0) then (OS_SERVICE_BAD_NAME, s)
  else if grantee_pid <=? 0 then (OS_SERVICE_BAD_GRANTEE, s)
  else
    match find_slot (fun e => name_equal (e_name e) (str name)) (service_entries s) with
    | None => (OS_SERVICE_NOT_FOUND, s)
    | Some i =>
        let e := service_entries s !!! i in
        if negb (e_pid e =? owner_pid)
           || negb (task_identity_valid owner_pid (e_sequence e) (e_generation e))
        then (OS_SERVICE_NOT_OWNER, s)
        else
          let '(g_seq, g_gen) := identity_or_zero grantee_pid in
          let s := update_entry s i (fun e =>
            mk_entry grantee_pid g_seq g_gen (e_name e) (e_backend_generation e)
              (e_right_token e) (key_or_zero grantee_pid)) in
          handoff_finish s name grantee_pid
    end.

Definition service_registry_collect_owned (s : registry_t) (pid : Z)
    (out : ptr (list service_registry_entry_t)) (max : Z)
    : Z * ptr (list service_registry_entry_t) :=
  if (pid <=? 0) || (match out with NULL => 0 <? max | _ => false end)
  then (OS_SERVICE_NOT_FOUND, out)
  else
    let found := filter (fun e => (e_pid e =? pid)
                   && task_identity_valid pid (e_sequence e) (e_generation e) = true)
                   (service_entries s) in
    (Z.of_nat (length found), (fun o => copy_out found o max) <$> out).

Definition service_registry_pid_is_owner (s : registry_t) (pid : Z) : Z :=
  if pid <=? 0 then 0
  else b2z (existsb (fun e => (e_pid e =? pid)
              && task_identity_valid pid (e_sequence e) (e_generation e)) (service_entries s)).

Definition service_registry_backend_revoke (s : registry_t) (name : ptr cstring)
    (owner_pid grantee_pid : Z) : Z * registry_t :=
  if negb (service_registry_name_valid name) || (owner_pid <=? 0) || (grantee_pid <=? 0)
  then (OS_SERVICE_BAD_NAME, s)
  else
    let '(owner, s) := service_registry_lookup s name in
    if negb (owner =? owner_pid) then (OS_SERVICE_NOT_OWNER, s)
    else
      match find_slot (cap_between (str name) owner_pid grantee_pid) (service_backend_caps s) with
      | None => (OS_SERVICE_NOT_FOUND, s)
      | Some i =>
          let s := update_cap s i cap_cleared in
          (0, service_registry_backend_generation_bump s (str name))
      end.

Definition cap_held (name : cstring) (grantee_pid : Z) (c : service_backend_cap_t) : bool :=
  (c_grantee_pid c =? grantee_pid) && name_equal (c_name c) name.

(** The second component is [*out_token] after the call. *)
Definition service_registry_backend_token_of (s : registry_t) (name : ptr cstring)
    (grantee_pid : Z) (out_token : ptr Z) : Z * ptr Z :=
  match out_token with
  | NULL => (OS_SERVICE_BAD_NAME, NULL)
  | Some _ =>
      if negb (service_registry_name_valid name) || (grantee_pid <=? 0)
      then (OS_SERVICE_BAD_NAME, Some 0)
      else
        match find_slot (fun c => cap_held (str name) grantee_pid c && negb (c_token c =? 0)
                 && task_identity_valid grantee_pid (c_grantee_sequence c) (c_grantee_generation c))
                (service_backend_caps s) with
        | None => (OS_SERVICE_NOT_FOUND, Some 0)
        | Some i => (0, Some (c_token (service_backend_caps s !!! i)))
        end
  end.

Definition service_registry_backend_clear_token (s : registry_t) (name : ptr cstring)
    (grantee_pid : Z) : Z * registry_t :=
  if negb (service_registry_name_valid name) || (grantee_pid <=? 0) then (OS_SERVICE_BAD_NAME, s)
  else
    match find_slot (cap_held (str name) grantee_pid) (service_backend_caps s) with
    | None => (OS_SERVICE_NOT_FOUND, s)
    | Some i =>
        (0, update_cap s i (fun c =>
              mk_cap (c_owner_pid c) (c_owner_sequence c) (c_owner_generation c)
                (c_grantee_pid c) (c_grantee_sequence c) (c_grantee_generation c)
                (c_rights c) (c_sources c) (c_prefix c) (c_name c) 0 0))
    end.

(** Sources and prefix stay in the released row. *)
Definition service_registry_backend_release (s : registry_t) (name : ptr cstring)
    (grantee_pid : Z) : Z * registry_t :=
  if negb (service_registry_name_valid name) || (grantee_pid <=? 0) then (OS_SERVICE_BAD_NAME, s)
  else
    match find_slot (cap_held (str name) grantee_pid) (service_backend_caps s) with
    | None => (OS_SERVICE_NOT_FOUND, s)
    | Some i =>
        let s := update_cap s i (fun c =>
              mk_cap 0 (c_owner_sequence c) (c_owner_generation c)
                0 (c_grantee_sequence c) (c_grantee_generation c)
                0 (c_sources c) (c_prefix c) (clear_string (c_name c)) 0 0) in
        (0, service_registry_backend_generation_bump s (str name))
    end.

(** The usable row of a grant: the token is not cleared. *)
Definition cap_usable (name : cstring) (owner_pid grantee_pid : Z) (c : service_backend_cap_t) : bool :=
  cap_between name owner_pid grantee_pid c && negb (c_token c =? 0).

Definition service_registry_backend_rights (s : registry_t) (name : ptr cstring)
    (owner_pid grantee_pid : Z) (out_rights : ptr Z) : Z * ptr Z * registry_t :=
  match out_rights with
  | NULL => (OS_SERVICE_BAD_NAME, NULL, s)
  | Some _ =>
      if negb (service_registry_name_valid name) || (owner_pid <=? 0) || (grantee_pid <=? 0)
      then (OS_SERVICE_BAD_NAME, out_rights, s)
      else
        let '(owner, s) := service_registry_lookup s name in
        if negb (owner =? owner_pid) then (OS_SERVICE_NOT_OWNER, out_rights, s)
        else
          match find_slot (cap_usable (str name) owner_pid grantee_pid) (service_backend_caps s) with
          | None => (OS_SERVICE_NOT_FOUND, out_rights, s)
          | Some i => (0, Some (c_rights (service_backend_caps s !!! i)), s)
          end
  end.

(** [out_scope] as (rights, sources). *)
Definition service_registry_backend_scope (s : registry_t) (name : ptr cstring)
    (owner_pid grantee_pid : Z) (out_scope : ptr (Z * Z)) : Z * ptr (Z * Z) * registry_t :=
  match out_scope with
  | NULL => (OS_SERVICE_BAD_NAME, NULL, s)
  | Some _ =>
      if negb (service_registry_name_valid name) || (owner_pid <=? 0) || (grantee_pid <=? 0)
      then (OS_SERVICE_BAD_NAME, Some (0, 0), s)
      else
        let '(owner, s) := service_registry_lookup s name in
        if negb (owner =? owner_pid) then (OS_SERVICE_NOT_OWNER, Some (0, 0), s)
        else
          match find_slot (cap_usable (str name) owner_pid grantee_pid) (service_backend_caps s) with
          | None => (OS_SERVICE_NOT_FOUND, Some (0, 0), s)
          | Some i =>
              let c := service_backend_caps s !!! i in (0, Some (c_rights c, c_sources c), s)
          end
  end.

(** [os_service_backend_list_t]: count and four (pid, rights) entries. *)
Definition os_service_backend_list_t : Type := Z * list (Z * Z).
Definition empty_backend_list : os_service_backend_list_t := (0, replicate 4 (0, 0)).

Definition service_registry_backend_list (s : registry_t) (name : ptr cstring) (owner_pid : Z)
    (out_list : ptr os_service_backend_list_t) : Z * ptr os_service_backend_list_t * registry_t :=
  match out_list with
  | NULL => (OS_SERVICE_BAD_NAME, NULL, s)
  | Some _ =>
      if negb (service_registry_name_valid name) || (owner_pid <=? 0)
      then (OS_SERVICE_BAD_NAME, Some empty_backend_list, s)
      else
        let '(owner, s) := service_registry_lookup s name in
        if negb (owner =? owner_pid) then (OS_SERVICE_NOT_OWNER, Some empty_backend_list, s)
        else
          let found := filter (fun c => (c_owner_pid c =? owner_pid) && (0 <? c_grantee_pid c)
                         && negb (c_token c =? 0) && name_equal (c_name c) (str name) = true)
                         (service_backend_caps s) in
          let entries := map (fun c => (c_grantee_pid c, c_rights c)) found in
          (0, Some (Z.of_nat (length entries),
                    entries ++ drop (length entries) (replicate 4 (0, 0))), s)
  end.

(** [os_service_backend_snapshot_t]: generation and list. *)
Definition service_registry_backend_observe (s : registry_t) (name : ptr cstring)
    (owner_pid expected_generation : Z) (out_snapshot : ptr (Z * os_service_backend_list_t))
    : Z * ptr (Z * os_service_backend_list_t) * registry_t :=
  match out_snapshot with
  | NULL => (OS_SERVICE_BAD_NAME, NULL, s)
  | Some _ =>
      let '(status, l, s) :=
        service_registry_backend_list s name owner_pid (Some empty_backend_list) in
      let l := default empty_backend_list l in
      if negb (status =? 0) then (status, Some (0, l), s)
      else
        let generation := service_registry_backend_generation_of s (str name) in
        if negb (expected_generation =? 0) && negb (expected_generation =? generation)
        then (OS_SERVICE_STALE, Some (generation, empty_backend_list), s)
        else (0, Some (generation, l), s)
  end.

(** The conditions of one row, the owner test apart. *)
Definition cap_allows (c : service_backend_cap_t) (pid right source : Z) (path : ptr cstring) : bool :=
  task_identity_valid (c_owner_pid c) (c_owner_sequence c) (c_owner_generation c)
  && negb (c_token c =? 0)
  && (Z.land (c_rights c) right =? right) && (Z.land (c_sources c) source =? source)
  && identity_key_bound pid (c_identity_key c)
  && service_registry_backend_prefix_matches (Some (c_prefix c)) path.

(** The loop from row [i]: the owner test of a row may purge the name. *)
Fixpoint allowed_loop (s : registry_t) (name : ptr cstring) (pid right source : Z)
    (path : ptr cstring) (i : nat) (n : nat) : Z * registry_t :=
  match n with
  | O => (0, s)
  | S n =>
      let c := service_backend_caps s !!! i in
      if (c_grantee_pid c =? pid)
         && task_identity_valid pid (c_grantee_sequence c) (c_grantee_generation c)
         && name_equal (c_name c) (str name)
      then
        let '(owner, s) := service_registry_lookup s name in
        let c := service_backend_caps s !!! i in
        if (owner =? c_owner_pid c) && cap_allows c pid right source path then (1, s)
        else allowed_loop s name pid right source path (S i) n
      else allowed_loop s name pid right source path (S i) n
  end.

Definition service_registry_backend_allowed_for_source_path (s : registry_t) (name : ptr cstring)
    (pid right source : Z) (path : ptr cstring) : Z * registry_t :=
  if (right =? 0) || negb (Z.land right (Z.lnot SERVICE_BACKEND_RIGHT_ALL) =? 0)
     || negb (service_registry_backend_sources_valid source) then (0, s)
  else allowed_loop s name pid right source path 0
         (Z.to_nat SERVICE_REGISTRY_BACKEND_CAPACITY).

Definition service_registry_backend_allowed_for_source (s : registry_t) (name : ptr cstring)
    (pid right source : Z) : Z * registry_t :=
  service_registry_backend_allowed_for_source_path s name pid right source NULL.

Definition service_registry_backend_allowed_for (s : registry_t) (name : ptr cstring)
    (pid right : Z) : Z * registry_t :=
  service_registry_backend_allowed_for_source s name pid right OS_SERVICE_BACKEND_SOURCE_ALL.

Definition service_registry_backend_allowed (s : registry_t) (name : ptr cstring) (pid : Z)
    : Z * registry_t :=
  service_registry_backend_allowed_for s name pid SERVICE_BACKEND_RIGHT_ALL.

(** ** Worker mediation *)

Definition service_registry_owner_bypasses_backend (s : registry_t) (name : ptr cstring)
    (pid source : Z) : Z * registry_t :=
  match name with
  | NULL => (0, s)
  | Some _ =>
      if pid <=? 0 then (0, s)
      else
        let '(owner, s) := service_registry_lookup s name in
        if negb (owner =? pid) then (0, s)
        else if negb (source =? 0) && (Z.land source (Z.lnot OS_SERVICE_BACKEND_SOURCE_ALL) =? 0)
        then
          let '(worker, s) := service_registry_lookup s (Some (lit "vfs-virtual")) in
          if 0 <? worker then (0, s) else (1, s)
        else (1, s)
  end.

Definition service_registry_ata_overlay_io_via_worker (s : registry_t) (pid : Z) : Z * registry_t :=
  if pid <=? 0 then (0, s)
  else
    let '(worker, s) := service_registry_lookup s (Some (lit "vfs-virtual")) in
    if worker <=? 0 then (1, s) else (b2z (pid =? worker), s).

Definition service_registry_historical_read_decision (s : registry_t) (pid overlay_hit : Z)
    : Z * registry_t :=
  if pid <=? 0 then (0, s)
  else
    let '(via, s) := service_registry_ata_overlay_io_via_worker s pid in
    if negb (via =? 0) then (1, s)
    else if negb (overlay_hit =? 0) then (3, s)
    else (2, s).

Definition service_right_held (s : registry_t) (name : cstring) (pid : Z) : Z :=
  b2z (existsb (fun e => (e_pid e =? pid) && name_equal (e_name e) name
         && negb (e_right_token e =? 0)
         && task_identity_valid pid (e_sequence e) (e_generation e)
         && identity_key_bound pid (e_identity_key e)) (service_entries s)).

Definition service_registry_ata_ports_granted (s : registry_t) (pid : Z) : Z :=
  if pid <=? 0 then 0 else service_right_held s (lit "ata-driver") pid.

Definition service_registry_net_io_via_worker (s : registry_t) (pid : Z) : Z * registry_t :=
  if pid <=? 0 then (0, s)
  else
    let '(worker, s) := service_registry_lookup s (Some (lit "net-driver")) in
    if worker <=? 0 then (1, s)
    else (if pid =? worker then service_right_held s (lit "net-driver") pid else 0, s).

(** SYS_LLM_ACQUIRE_START..SYS_LLM_OPENAI_CREDENTIAL, SYS_SOCKET_OPEN..
    SYS_SOCKET_ACCEPT_ACK, SYS_SOCKET_CONNECT, SYS_PEER_LISTEN..SYS_PEER_TLS_POLL,
    SYS_PEER_DATA. *)
Definition service_registry_net_syscall_gated (syscall_number : Z) : Z :=
  if (91 <=? syscall_number) && (syscall_number <=? 98) then 1
  else if (99 <=? syscall_number) && (syscall_number <=? 108) then 1
  else if syscall_number =? 144 then 1
  else if (128 <=? syscall_number) && (syscall_number <=? 130) then 1
  else if syscall_number =? 156 then 1
  else 0.

Definition service_registry_net_syscall_allowed (s : registry_t) (pid syscall_number : Z)
    : Z * registry_t :=
  if service_registry_net_syscall_gated syscall_number =? 0 then (1, s)
  else service_registry_net_io_via_worker s pid.

Definition service_registry_right_token_of (s : registry_t) (name : ptr cstring) (pid : Z)
    (out_token : ptr Z) : Z * ptr Z :=
  match out_token with
  | NULL => (OS_SERVICE_BAD_NAME, NULL)
  | Some _ =>
      if negb (service_registry_name_valid name) || (pid <=? 0) then (OS_SERVICE_BAD_NAME, Some 0)
      else
        match find_slot (fun e => entry_named (str name) e && (e_pid e =? pid)
                           && negb (service_right_held s (str name) pid =? 0)) (service_entries s) with
        | Some i => (0, Some (e_right_token (service_entries s !!! i)))
        | None =>
            (if existsb (entry_named (str name)) (service_entries s)
             then OS_SERVICE_NOT_OWNER else OS_SERVICE_NOT_FOUND, Some 0)
        end
  end.

(** The service names that carry hardware rights, with the only binary that may
    hold each. *)
Definition driver_names : list (cstring * cstring) :=
  [(lit "ata-driver", lit "atadriver"); (lit "ata-client", lit "ataclient");
   (lit "ai-engine", lit "aiworker"); (lit "pci-driver", lit "pcidriver");
   (lit "ps2-driver", lit "ps2driver"); (lit "serial-driver", lit "serialdriver");
   (lit "vga-driver", lit "vgadriver"); (lit "usb-driver", lit "usbdriver")].

(** The cascade of tests, in the order of the list. *)
Fixpoint driver_name_test (l : list (cstring * cstring)) (service_name : cstring)
    (task_name : ptr cstring) : Z :=
  match l with
  | [] => 1
  | (svc, task) :: l =>
      if name_equal service_name svc
      then match task_name with NULL => 0 | Some t => b2z (name_equal t task) end
      else driver_name_test l service_name task_name
  end.

Definition service_registry_ata_driver_name_allowed (service_name : cstring)
    (task_name : ptr cstring) : Z := driver_name_test driver_names service_name task_name.

(** ** Watches and notifications *)

Definition service_registry_subscribe (s : registry_t) (name : ptr cstring) (pid : Z)
    : Z * registry_t :=
  if negb (service_registry_name_valid name) || (pid <=? 0) then (OS_SERVICE_BAD_NAME, s)
  else
    let '(seq, gen) := identity_or_zero pid in
    match find_slot (fun w => negb (w_pid w =? 0) && (w_pid w =? pid)
                              && name_equal (w_name w) (str name)) (service_watches s) with
    | Some i =>
        let w := service_watches s !!! i in
        let s := set_watches s (<[i := mk_watch (w_pid w) seq gen (w_name w)]> (service_watches s)) in
        (0, event_journal_bind s (str name) pid)
    | None =>
        match find_slot (fun w => w_pid w =? 0) (service_watches s) with
        | None => (OS_SERVICE_WATCH_FULL, s)
        | Some i =>
            let w := service_watches s !!! i in
            let s := set_watches s
                       (<[i := mk_watch pid seq gen (copy_name (w_name w) (str name))]>
                          (service_watches s)) in
            (0, event_journal_bind s (str name) pid)
        end
    end.

Definition service_registry_collect_watchers (s : registry_t) (name : ptr cstring)
    (out : ptr (list Z)) (max : Z) : Z * ptr (list Z) :=
  if negb (service_registry_name_valid name) || (match out with NULL => 0 <? max | _ => false end)
  then (OS_SERVICE_BAD_NAME, out)
  else
    let found := map w_pid
      (filter (fun w => (0 <? w_pid w) && name_equal (w_name w) (str name)
                 && task_identity_valid (w_pid w) (w_sequence w) (w_generation w) = true)
         (service_watches s)) in
    (Z.of_nat (length found), (fun o => copy_out found o max) <$> out).

Definition ipc_spill_clear_pid (s : registry_t) (pid : Z) : registry_t :=
  set_spill s
    (map (fun p => if c_true (s_used p) && (s_watcher_pid p =? pid)
                   then mk_spill 0 (s_order p) (s_payload p) 0 else p) (service_ipc_spill s))
    (service_ipc_spill_order s).

Definition service_registry_remove_watcher_pid (s : registry_t) (pid : Z) : Z * registry_t :=
  if pid <=? 0 then (OS_SERVICE_NOT_FOUND, s)
  else
    let removed := existsb (fun w => w_pid w =? pid) (service_watches s) in
    let s := set_watches s
               (map (fun w => if w_pid w =? pid
                              then mk_watch 0 (w_sequence w) (w_generation w) (clear_string (w_name w))
                              else w) (service_watches s)) in
    (if removed then 0 else OS_SERVICE_NOT_FOUND, ipc_spill_clear_pid s pid).

Definition service_registry_remove_pid (s : registry_t) (pid : Z) : Z * registry_t :=
  if pid <=? 0 then (OS_SERVICE_NOT_FOUND, s)
  else
    let s := service_registry_backend_remove_pid s pid in
    let removed := existsb (fun e => e_pid e =? pid) (service_entries s) in
    let s := set_entries s
               (map (fun e => if e_pid e =? pid
                              then mk_entry 0 (e_sequence e) (e_generation e)
                                     (clear_string (e_name e)) (e_backend_generation e) 0 0
                              else e) (service_entries s)) in
    let s := set_history s
               (map (fun e => if n_watcher_pid e =? pid
                              then mk_event 0 0 (clear_string (n_name e)) (n_old_pid e)
                                     (n_new_pid e) (n_reason e) 0 (n_replayed e)
                              else e) (service_notify_history s))
               (service_notify_seq_counter s) in
    let s := ipc_spill_clear_pid s pid in
    (if removed then 0 else OS_SERVICE_NOT_FOUND, s).

(** [*out_sequence] is the second component when the pointer is given. *)
Definition service_registry_notify_record (s : registry_t) (name : ptr cstring)
    (watcher_pid old_pid new_pid reason : Z) (out_sequence : ptr Z) : Z * ptr Z * registry_t :=
  if negb (service_registry_name_valid name) || (watcher_pid <=? 0)
  then (OS_SERVICE_BAD_NAME, out_sequence, s)
  else
    let seq := next_nonzero (service_notify_seq_counter s) in
    let history := service_notify_history s in
    let slot := match find_slot (fun e => n_watcher_pid e =? 0) history with
                | Some i => i
                | None => Z.to_nat (seq mod SERVICE_REGISTRY_NOTIFY_HISTORY_CAPACITY)
                end in
    let e := history !!! slot in
    let s := set_history s
               (<[slot := mk_event seq watcher_pid (copy_name (n_name e) (str name))
                            old_pid new_pid reason 0 0]> history) seq in
    (0, (fun _ => seq) <$> out_sequence, event_journal_flush s).

(** The scan for the oldest pending event of a watcher: index and sequence of
    the best so far. *)
Fixpoint pull_scan (history : list service_registry_notify_event_t) (watcher_pid : Z) (i : nat)
    (best : option (nat * Z)) : option (nat * Z) :=
  match history with
  | [] => best
  | e :: history =>
      let best :=
        if (n_watcher_pid e =? watcher_pid) && (0 <? n_sequence e) && (n_acked e =? 0)
        then match best with
             | None => Some (i, n_sequence e)
             | Some (_, b) => if n_sequence e <? b then Some (i, n_sequence e) else best
             end
        else best in
      pull_scan history watcher_pid (S i) best
  end.

Definition event_acked (e : service_registry_notify_event_t) : service_registry_notify_event_t :=
  mk_event (n_sequence e) (n_watcher_pid e) (n_name e) (n_old_pid e) (n_new_pid e)
    (n_reason e) 1 (n_replayed e).

Definition service_registry_notify_pull (s : registry_t) (watcher_pid : Z)
    (out : ptr service_registry_notify_event_t)
    : Z * ptr service_registry_notify_event_t * registry_t :=
  match out with
  | NULL => (OS_SERVICE_BAD_NAME, NULL, s)
  | Some _ =>
      if watcher_pid <=? 0 then (OS_SERVICE_BAD_NAME, out, s)
      else
        match pull_scan (service_notify_history s) watcher_pid 0 None with
        | None => (OS_SERVICE_NOT_FOUND, out, s)
        | Some (found, _) =>
            let e := service_notify_history s !!! found in
            let s := set_history s (<[found := event_acked e]> (service_notify_history s))
                       (service_notify_seq_counter s) in
            (0, Some e, event_journal_flush s)
        end
  end.

Definition event_is (watcher_pid sequence : Z) (e : service_registry_notify_event_t) : bool :=
  (n_watcher_pid e =? watcher_pid) && (n_sequence e =? sequence).

Definition service_registry_notify_ack (s : registry_t) (watcher_pid sequence : Z)
    : Z * registry_t :=
  if (watcher_pid <=? 0) || (sequence =? 0) then (OS_SERVICE_BAD_NAME, s)
  else
    match find_slot (event_is watcher_pid sequence) (service_notify_history s) with
    | None => (OS_SERVICE_NOT_FOUND, s)
    | Some i =>
        let e := service_notify_history s !!! i in
        let s := set_history s (<[i := event_acked e]> (service_notify_history s))
                   (service_notify_seq_counter s) in
        (0, event_journal_flush s)
    end.

(** The counts (acknowledged, pending). *)
Definition service_registry_notify_history_count (s : registry_t) (watcher_pid : Z)
    : Z * option (Z * Z) :=
  if watcher_pid <=? 0 then (OS_SERVICE_BAD_NAME, None)
  else
    let mine := filter (fun e => (n_watcher_pid e =? watcher_pid) && (0 <? n_sequence e) = true)
                  (service_notify_history s) in
    (0, Some (Z.of_nat (length (filter (fun e => c_true (n_acked e) = true) mine)),
              Z.of_nat (length (filter (fun e => c_true (n_acked e) = false) mine)))).

Definition service_registry_notify_replay (s : registry_t) (watcher_pid sequence : Z)
    : Z * registry_t :=
  if (watcher_pid <=? 0) || (sequence =? 0) then (OS_SERVICE_BAD_NAME, s)
  else
    match find_slot (event_is watcher_pid sequence) (service_notify_history s) with
    | None => (OS_SERVICE_NOT_FOUND, s)
    | Some i =>
        let e := service_notify_history s !!! i in
        if c_true (n_acked e) then (OS_SERVICE_STALE, s)
        else if c_true (n_replayed e) then (OS_SERVICE_FULL, s)
        else
          (0, set_history s
                (<[i := mk_event (n_sequence e) (n_watcher_pid e) (n_name e) (n_old_pid e)
                          (n_new_pid e) (n_reason e) (n_acked e) 1]> (service_notify_history s))
                (service_notify_seq_counter s))
    end.

Definition service_registry_notify_is_acked (s : registry_t) (watcher_pid sequence : Z) : Z :=
  if (watcher_pid <=? 0) || (sequence =? 0) then OS_SERVICE_BAD_NAME
  else
    match find_slot (event_is watcher_pid sequence) (service_notify_history s) with
    | None => OS_SERVICE_NOT_FOUND
    | Some i => b2z (c_true (n_acked (service_notify_history s !!! i)))
    end.

(** ** Spill slots behind a full mailbox *)

Definition ipc_spill_reset (s : registry_t) : registry_t :=
  set_drops (set_spill s (map (fun p => mk_spill 0 0 (s_payload p) 0) (service_ipc_spill s)) 0) 0 0.

Definition service_registry_ipc_spill_arm_drops (s : registry_t) (value : Z) : registry_t :=
  set_drops s value (service_ipc_spill_supervision_drops s).
Definition service_registry_ipc_spill_arm_supervision_drops (s : registry_t) (value : Z) : registry_t :=
  set_drops s (service_ipc_spill_drops s) value.

(** A counter that saturates at 2^32 - 1. *)
Definition saturating_incr (n : Z) : Z := if n =? 4294967295 then n else n + 1.

Definition note_spill_drop (s : registry_t) (type : Z) : registry_t :=
  if type =? OS_IPC_TASK_SUPERVISION_EVENT
  then set_drops s (service_ipc_spill_drops s)
         (saturating_incr (service_ipc_spill_supervision_drops s))
  else set_drops s (saturating_incr (service_ipc_spill_drops s))
         (service_ipc_spill_supervision_drops s).

Definition service_registry_ipc_spill_push (s : registry_t) (watcher_pid : Z)
    (payload : ptr os_ipc_payload_t) : Z * registry_t :=
  match payload with
  | NULL => (OS_IPC_BAD_MESSAGE, s)
  | Some p =>
      if (watcher_pid <=? 0) || (OS_IPC_MAX_DATA <? pl_size p) then (OS_IPC_BAD_MESSAGE, s)
      else
        match find_slot (fun x => negb (c_true (s_used x))) (service_ipc_spill s) with
        | None => (OS_IPC_FULL, note_spill_drop s (pl_type p))
        | Some i =>
            let order := next_nonzero (service_ipc_spill_order s) in
            (0, set_spill s
                  (<[i := mk_spill watcher_pid order
                            (mk_payload (pl_type p) (pl_size p) (pl_request_id p)
                               (copy_payload_data (pl_size p) (pl_data p))) 1]>
                     (service_ipc_spill s)) order)
        end
  end.

(** The scan for the slot of the watcher with the smallest order. *)
Fixpoint spill_scan (slots : list service_ipc_spill_slot_t) (watcher_pid : Z) (i : nat)
    (best : option (nat * Z)) : option (nat * Z) :=
  match slots with
  | [] => best
  | x :: slots =>
      let best :=
        if c_true (s_used x) && (s_watcher_pid x =? watcher_pid)
        then match best with
             | None => Some (i, s_order x)
             | Some (_, b) => if s_order x <? b then Some (i, s_order x) else best
             end
        else best in
      spill_scan slots watcher_pid (S i) best
  end.

Definition service_registry_ipc_spill_pop (s : registry_t) (watcher_pid : Z)
    (out : ptr os_ipc_payload_t) : Z * ptr os_ipc_payload_t * registry_t :=
  match out with
  | NULL => (OS_IPC_BAD_MESSAGE, NULL, s)
  | Some _ =>
      if watcher_pid <=? 0 then (OS_IPC_BAD_MESSAGE, out, s)
      else
        match spill_scan (service_ipc_spill s) watcher_pid 0 None with
        | None => (OS_IPC_EMPTY, out, s)
        | Some (found, _) =>
            let x := service_ipc_spill s !!! found in
            (0, Some (s_payload x),
             set_spill s (<[found := mk_spill 0 (s_order x) (s_payload x) 0]> (service_ipc_spill s))
               (service_ipc_spill_order s))
        end
  end.

(** ** Initialisation *)

Definition boot_mounts (mounts : list service_registry_persistent_mount_t)
    : list service_registry_persistent_mount_t :=
  fold_left (fun m '(p, src) => snd (mount_insert m (Some (lit "vfs")) (Some p) src))
    [(lit "initrd/", OS_SERVICE_BACKEND_SOURCE_INITRD); (lit "overlay/", OS_SERVICE_BACKEND_SOURCE_OVERLAY);
     (lit "fat16/", OS_SERVICE_BACKEND_SOURCE_FAT16); (lit "fat32/", OS_SERVICE_BACKEND_SOURCE_FAT32)]
    mounts.

Definition service_registry_init (s : registry_t) : registry_t :=
  let s := set_entries s (map (fun e => mk_entry 0 0 0 (clear_string (e_name e)) 1 0 0)
                            (service_entries s)) in
  let s := set_watches s (map (fun w => mk_watch 0 0 0 (clear_string (w_name w)))
                            (service_watches s)) in
  let s := set_history s (map event_reset (service_notify_history s)) 0 in
  let s := set_caps s (map (fun c => mk_cap 0 0 0 0 0 0 0 0 (clear_string (c_prefix c))
                                       (clear_string (c_name c)) 0 0) (service_backend_caps s)) in
  let s := set_backend_token_next s 1 in
  let s := set_right_token_next s 1 in
  let s := set_mounts s (map mount_reset (persistent_mounts s)) in
  let s := set_boot_pending s (if kernel_boot_journal_deferred =? 0 then 0 else 3) in
  let s :=
    if negb (boot_journal_pending s =? 0) then set_mounts s (boot_mounts (persistent_mounts s))
    else
      let '(rc, s) := mount_journal_load s in
      if negb (rc =? 0) then set_mounts s (boot_mounts (persistent_mounts s)) else s in
  let s := if boot_journal_pending s =? 0 then snd (event_journal_load s) else s in
  ipc_spill_reset s.

End Registry.

(** The static variables before the first call of [service_registry_init]. *)
Definition bss_registry : registry_t :=
  mk_registry (replicate 12 zero_entry) (replicate 8 zero_watch) (replicate 8 zero_event) 0
    (replicate 4 zero_cap) 1 1 (replicate 8 zero_mount) 0 (replicate 8 zero_spill) 0 0 0 [].
