(* ===== verification/RegistryNames.v ===== *)
(** * The registry as a map from names to tasks

    Invariant of the name table and refinement of register, lookup, remove and
    hand-off (kernel/service_registry.c) to operations on an abstract map from
    service names to the tasks that own them. *)

From Stdlib Require Import ZArith Lia String.
From stdpp Require Import base numbers option tactics list.
From S2P Require Import Prelude Bytes Names Ipc RegistryState Journal Registry.

(** ** Invariant *)

(** A row is free, with an empty name, or names a task with a valid name. *)
Record entry_ok (e : service_registry_entry_t) : Prop := {
  eo_len : length (e_name e) = 16%nat;
  eo_state : (e_pid e = 0 /\ chr (e_name e) 0 = 0) \/
             (0 < e_pid e /\ service_registry_name_valid (Some (e_name e)) = true)
}.

Record entries_wf (es : list service_registry_entry_t) : Prop := {
  ew_len : length es = 12%nat;
  ew_ok : Forall entry_ok es;
  ew_unique : forall i j a b, es !! i = Some a -> es !! j = Some b ->
    0 < e_pid a -> 0 < e_pid b -> cstr (e_name a) = cstr (e_name b) -> i = j
}.

(** The row of a name. *)
Definition named (es : list service_registry_entry_t) (n : cstring) : option service_registry_entry_t :=
  i ← find_slot (entry_named n) es; es !! i.

(** The abstract map: the task a name resolves to, when its owner is still the
    task it was registered for. *)
Definition resolve `{TaskView} (s : registry_t) (n : cstring) : option Z :=
  e ← named (service_entries s) n; if entry_valid e then Some (e_pid e) else None.

Lemma entry_named_spec n e :
  entry_named n e = true <-> 0 < e_pid e /\ name_equal (e_name e) n = true.
Proof. unfold entry_named. rewrite andb_true_iff, Z.ltb_lt. done. Qed.

Lemma find_slot_ext {A} (p q : A -> bool) l :
  Forall (fun x => p x = q x) l -> find_slot p l = find_slot q l.
Proof. induction 1 as [|x l E _ IH]; cbn [find_slot]; [done|]. by rewrite E, IH. Qed.

Section Wf.
Context (es : list service_registry_entry_t) (Hwf : entries_wf es).

Lemma ok_lookup i e : es !! i = Some e -> entry_ok e.
Proof using Hwf. intros H. eapply Forall_lookup_1, H. apply Hwf. Qed.

(** The scans of register and hand-off find the same row as lookup. *)
Lemma scan_nonzero n :
  find_slot (fun e => negb (e_pid e =? 0) && name_equal (e_name e) n) es = find_slot (entry_named n) es.
Proof using Hwf.
  apply find_slot_ext. eapply Forall_impl; [apply Hwf|]. intros e [_ He]. unfold entry_named.
  destruct (Z.eqb_spec (e_pid e) 0), (Z.ltb_spec 0 (e_pid e)); try done; lia.
Qed.

Lemma scan_any n :
  service_registry_name_valid (Some n) = true ->
  find_slot (fun e => name_equal (e_name e) n) es = find_slot (entry_named n) es.
Proof using Hwf.
  intros Hn. apply find_slot_ext. eapply Forall_impl; [apply Hwf|]. intros e [_ [[Hp Hc]|[Hp Hv]]].
  - rewrite name_equal_empty by done. unfold entry_named. by rewrite Hp.
  - unfold entry_named. by rewrite (proj2 (Z.ltb_lt 0 (e_pid e))).
Qed.

Lemma named_unique n i j a b :
  es !! i = Some a -> es !! j = Some b -> entry_named n a = true -> entry_named n b = true -> i = j.
Proof using Hwf.
  rewrite !entry_named_spec. intros Ha Hb [Hpa Hna] [Hpb Hnb].
  apply name_equal_cstr in Hna, Hnb. eapply (ew_unique es Hwf); eauto. congruence.
Qed.

Lemma named_spec n e :
  named es n = Some e <-> exists i, es !! i = Some e /\ entry_named n e = true.
Proof using Hwf.
  unfold named. destruct (find_slot (entry_named n) es) as [i|] eqn:Hf; cbn [mbind option_bind].
  - apply find_slot_Some in Hf as (x & Hx & Hp & _). split.
    + intros He. assert (x = e) as -> by congruence. by eauto.
    + intros (j & Hj & Hq). by rewrite (named_unique n i j x e Hx Hj Hp Hq).
  - rewrite find_slot_None in Hf. split; [done|]. intros (j & Hj & Hq).
    rewrite (Hf j e Hj) in Hq. done.
Qed.

Lemma find_named n i :
  find_slot (entry_named n) es = Some i -> exists e, es !! i = Some e /\ named es n = Some e /\
    entry_named n e = true /\ es !!! i = e.
Proof using Hwf.
  intros Hf. pose proof Hf as (e & He & Hp & _)%find_slot_Some. exists e.
  split; [done|]. split; [unfold named; rewrite Hf; done|]. split; [done|].
  by apply list_lookup_total_correct.
Qed.

Lemma find_not_named n : find_slot (entry_named n) es = None -> named es n = None.
Proof using Hwf. unfold named. by intros ->. Qed.

Lemma wf_insert i e e' :
  es !! i = Some e -> entry_ok e' ->
  (0 < e_pid e' -> forall j b, j <> i -> es !! j = Some b -> 0 < e_pid b ->
     cstr (e_name b) <> cstr (e_name e')) ->
  entries_wf (<[i := e']> es).
Proof using Hwf.
  intros He Hok Hfresh. constructor.
  - rewrite length_insert. apply Hwf.
  - apply Forall_insert; [apply Hwf|done].
  - intros j k a b Hj Hk Hpa Hpb Hab.
    apply list_lookup_insert_Some in Hj as [(<- & <- & _)|[Hji Hj]];
      apply list_lookup_insert_Some in Hk as [(<- & <- & _)|[Hki Hk]]; try done.
    + by destruct (Hfresh Hpa k b).
    + by destruct (Hfresh Hpb j a).
    + by eapply (ew_unique es Hwf).
Qed.

(** A change of one row that keeps its name and liveness. *)
Lemma wf_update i e e' :
  es !! i = Some e -> e_name e' = e_name e -> (0 < e_pid e' <-> 0 < e_pid e) ->
  (e_pid e' = 0 <-> e_pid e = 0) -> entries_wf (<[i := e']> es).
Proof using Hwf.
  intros He Hn Hp Hz. destruct (ok_lookup i e He) as [Hl Hst]. apply (wf_insert i e); [done| |].
  - constructor; rewrite Hn; [done|]. destruct Hst as [[? ?]|[? ?]]; [left|right]; by rewrite ?Hz, ?Hp.
  - intros Hp' j b Hji Hb Hpb. rewrite Hn. intros E. apply Hji.
    eapply (ew_unique es Hwf); eauto. by apply Hp.
Qed.
End Wf.

(** What changing row [i] does to the map, for every valid name. *)
Lemma named_insert es i e e' n :
  entries_wf es -> es !! i = Some e -> entries_wf (<[i := e']> es) ->
  named (<[i := e']> es) n =
  if entry_named n e' then Some e' else if entry_named n e then None else named es n.
Proof.
  intros Hwf He Hwf'. assert (Hlt : (i < length es)%nat) by (by eapply lookup_lt_Some).
  destruct (entry_named n e') eqn:E'.
  { apply (named_spec _ Hwf'). exists i. split; [|done]. by rewrite list_lookup_insert_eq. }
  apply option_eq. intros x. rewrite (named_spec _ Hwf').
  transitivity (exists j, j <> i /\ es !! j = Some x /\ entry_named n x = true).
  { split.
    - intros (j & Hj & Hx). apply list_lookup_insert_Some in Hj as [(<- & <- & _)|[Hji Hj]]; [congruence|].
      by eauto.
    - intros (j & Hji & Hj & Hx). exists j. by rewrite list_lookup_insert_ne. }
  destruct (entry_named n e) eqn:E.
  - split; [|done]. intros (j & Hji & Hj & Hx). destruct Hji. by eapply (named_unique es Hwf).
  - rewrite (named_spec es Hwf). split.
    + intros (j & _ & Hj & Hx). by eauto.
    + intros (j & Hj & Hx). exists j. split; [|done]. intros ->. congruence.
Qed.

(** ** Generation bumps and capability releases leave the map alone *)

Definition same_but_generation (a b : service_registry_entry_t) : Prop :=
  e_pid a = e_pid b /\ e_sequence a = e_sequence b /\ e_generation a = e_generation b /\
  e_name a = e_name b /\ e_right_token a = e_right_token b /\ e_identity_key a = e_identity_key b.

(** The name tables agree up to backend generations. *)
Definition same_names (s s' : registry_t) : Prop :=
  Forall2 same_but_generation (service_entries s') (service_entries s).

Lemma same_but_generation_refl e : same_but_generation e e.
Proof. by repeat split. Qed.

Lemma same_names_refl s : same_names s s.
Proof. unfold same_names. induction (service_entries s); constructor; [apply same_but_generation_refl|done]. Qed.

Lemma same_names_trans s1 s2 s3 : same_names s1 s2 -> same_names s2 s3 -> same_names s1 s3.
Proof.
  unfold same_names. intros H1 H2. apply Forall2_same_length_lookup.
  split; [by rewrite (Forall2_length _ _ _ H2), (Forall2_length _ _ _ H1)|].
  intros i a c Ha Hc. destruct (Forall2_lookup_l _ _ _ _ _ H2 Ha) as (b & Hb & ?&?&?&?&?&?).
  destruct (Forall2_lookup_l _ _ _ _ _ H1 Hb) as (c' & Hc' & ?&?&?&?&?&?).
  assert (c' = c) as -> by congruence. repeat split; congruence.
Qed.

Lemma same_names_update s i f :
  (forall e, same_but_generation (f e) e) -> same_names s (update_entry s i f).
Proof.
  intros Hf. unfold same_names. cbn. destruct (service_entries s !! i) as [e|] eqn:E.
  - rewrite <- (list_insert_id (service_entries s) i e) at 3 by done.
    apply Forall2_insert; [apply same_names_refl|].
    by rewrite (list_lookup_total_correct _ _ _ E).
  - rewrite list_insert_ge by (by apply lookup_ge_None). apply same_names_refl.
Qed.

Lemma bump_same_names s n : same_names s (service_registry_backend_generation_bump s n).
Proof.
  unfold service_registry_backend_generation_bump. destruct (find_slot _ _); [|apply same_names_refl].
  apply same_names_update. intros e. by repeat split.
Qed.

Lemma remove_name_same_names s n : same_names s (service_registry_backend_remove_name s n).
Proof.
  unfold service_registry_backend_remove_name. destruct (negb _); [apply same_names_refl|].
  set (s1 := set_caps s _). assert (same_names s s1) by (exact (same_names_refl s)).
  destruct (existsb _ _); [|done]. eapply same_names_trans; [done|apply bump_same_names].
Qed.

Lemma same_names_wf s s' :
  same_names s s' -> entries_wf (service_entries s) -> entries_wf (service_entries s').
Proof.
  intros Hs [Hl Hok Hu]. constructor.
  - by rewrite (Forall2_length _ _ _ Hs).
  - apply Forall_lookup. intros i a Ha. destruct (Forall2_lookup_l _ _ _ _ _ Hs Ha) as (b & Hb & E).
    destruct E as (Ep & _ & _ & En & _). eapply Forall_lookup_1 in Hok as [? ?]; [|done].
    constructor; by rewrite ?Ep, En.
  - intros i j a b Ha Hb Hpa Hpb Hab.
    destruct (Forall2_lookup_l _ _ _ _ _ Hs Ha) as (a' & Ha' & Ea & _ & _ & Na & _).
    destruct (Forall2_lookup_l _ _ _ _ _ Hs Hb) as (b' & Hb' & Eb & _ & _ & Nb & _).
    eapply Hu; eauto; congruence.
Qed.

Lemma same_names_resolve `{TaskView} s s' n :
  same_names s s' -> entries_wf (service_entries s) -> resolve s' n = resolve s n.
Proof.
  intros Hs Hwf. pose proof (same_names_wf s s' Hs Hwf) as Hwf'.
  apply option_eq. intros p. unfold resolve.
  assert (Hdir : forall t t', same_names t t' \/ same_names t' t -> entries_wf (service_entries t) ->
    entries_wf (service_entries t') ->
    (e ← named (service_entries t) n; if entry_valid e then Some (e_pid e) else None) = Some p ->
    (e ← named (service_entries t') n; if entry_valid e then Some (e_pid e) else None) = Some p).
  { intros t t' Hst Hw Hw' Hp. apply bind_Some in Hp as (e & He & Hv).
    apply (named_spec _ Hw) in He as (i & Hi & Hn).
    assert (exists e', service_entries t' !! i = Some e' /\ same_but_generation e' e) as (e' & Hi' & E).
    { destruct Hst as [Hst|Hst].
      - by apply (Forall2_lookup_r _ _ _ _ _ Hst Hi).
      - destruct (Forall2_lookup_l _ _ _ _ _ Hst Hi) as (e' & ? & ? & ? & ? & ? & ? & ?).
        exists e'. split; [done|]. by repeat split. }
    destruct E as (E1 & E2 & E3 & E4 & _). apply bind_Some. exists e'. split.
    - apply (named_spec _ Hw'). exists i. split; [done|]. unfold entry_named in *. by rewrite E1, E4.
    - unfold entry_valid in *. by rewrite E1, E2, E3. }
  split; apply Hdir; auto.
Qed.

(** ** The operations on the map *)

Section Refinement.
Context `{T : TaskView} `{K : KernelHooks}.

(** The name table stays well-formed and resolves every name as before. *)
Definition names_kept (s s' : registry_t) : Prop :=
  entries_wf (service_entries s') /\ forall n, resolve s' n = resolve s n.

Lemma names_kept_refl s : entries_wf (service_entries s) -> names_kept s s.
Proof. by split. Qed.

Lemma names_kept_trans s1 s2 s3 : names_kept s1 s2 -> names_kept s2 s3 -> names_kept s1 s3.
Proof. intros [_ H1] [H2 H3]. split; [done|]. intros n. by rewrite H3. Qed.

Lemma same_names_kept s s' : same_names s s' -> entries_wf (service_entries s) -> names_kept s s'.
Proof.
  intros H Hwf. split; [by eapply same_names_wf|]. intros n. by apply same_names_resolve.
Qed.

Lemma entry_dropped_ok e : length (e_name e) = 16%nat -> entry_ok (entry_dropped e).
Proof.
  intros H. constructor; cbn; [by rewrite clear_string_length|]. left. split; [done|].
  apply clear_string_chr. intros E. by rewrite E in H.
Qed.

(** Dropping a row makes its name unresolved and keeps the others. *)
Lemma drop_row s i e :
  entries_wf (service_entries s) -> service_entries s !! i = Some e ->
  let s' := update_entry s i entry_dropped in
  entries_wf (service_entries s') /\
  forall n, resolve s' n = if entry_named n e then None else resolve s n.
Proof.
  intros Hwf He s'. assert (Hwf' : entries_wf (service_entries s')).
  { cbn. rewrite (list_lookup_total_correct _ _ _ He). apply (wf_insert _ Hwf i e); [done| |].
    - apply entry_dropped_ok. by eapply ok_lookup.
    - cbn. lia. }
  split; [done|]. intros n. unfold resolve, s', update_entry in *. cbn [service_entries set_entries] in *.
  rewrite (list_lookup_total_correct _ _ _ He) in *.
  rewrite (named_insert _ i e) by done.
  assert (entry_named n (entry_dropped e) = false) as -> by done.
  by destruct (entry_named n e).
Qed.

(** Lookup answers the map, and only forgets stale rows. *)
Lemma lookup_spec s n :
  entries_wf (service_entries s) -> service_registry_name_valid (Some n) = true ->
  fst (service_registry_lookup s (Some n)) = default OS_SERVICE_NOT_FOUND (resolve s n) /\
  names_kept s (snd (service_registry_lookup s (Some n))).
Proof.
  intros Hwf Hn. unfold service_registry_lookup. rewrite Hn. cbn [negb str default from_option id].
  destruct (find_slot (entry_named n) (service_entries s)) as [i|] eqn:Hf.
  - destruct (find_named _ Hwf n i Hf) as (e & He & Hnamed & Hen & Ht). rewrite Ht.
    unfold resolve at 1. rewrite Hnamed. cbn [mbind option_bind].
    destruct (entry_valid e) eqn:Hv; cbn [fst snd default from_option id];
      [by split; [|apply names_kept_refl]|].
    split; [done|]. destruct (drop_row s i e Hwf He) as [Hwf1 Hres].
    eapply names_kept_trans; [|apply same_names_kept; [apply remove_name_same_names|done]].
    split; [done|]. intros m. rewrite Hres. destruct (entry_named m e) eqn:Hm; [|done].
    unfold resolve. rewrite (proj2 (named_spec _ Hwf m e)) by eauto. cbn [mbind option_bind].
    by rewrite Hv.
  - unfold resolve at 1. rewrite (find_not_named _ Hwf n Hf). by split; [|apply names_kept_refl].
Qed.

Lemma identity_now pid : 0 < pid ->
  let '(q, g) := identity_or_zero pid in task_identity_valid pid q g = true.
Proof.
  intros Hp. unfold identity_or_zero, task_identity_valid.
  rewrite (proj2 (Z.leb_gt pid 0)) by lia.
  destruct (task_get_identity pid) as [[q g]|]; cbn [default from_option id]; [|done].
  rewrite !Z.eqb_refl. by destruct (negb (q =? 0) || negb (g =? 0)).
Qed.

(** Installing a row for a name no other row holds. *)
Lemma install_row s i e e' :
  entries_wf (service_entries s) -> service_entries s !! i = Some e -> entry_ok e' ->
  0 < e_pid e' -> entry_valid e' = true -> named (service_entries s) (e_name e') = Some e \/
    (e_pid e = 0 /\ named (service_entries s) (e_name e') = None) ->
  service_registry_name_valid (Some (e_name e')) = true ->
  let s' := set_entries s (<[i := e']> (service_entries s)) in
  entries_wf (service_entries s') /\
  forall n, resolve s' n = if name_equal (e_name e') n then Some (e_pid e') else resolve s n.
Proof.
  intros Hwf He Hok Hp Hv Hnamed Hn s'.
  assert (Hsame : forall n, entry_named n e = true -> name_equal (e_name e') n = true).
  { intros n [Hpe Hne]%entry_named_spec. destruct Hnamed as [Hnm|[Hz _]]; [|lia].
    apply (named_spec _ Hwf) in Hnm as (_ & _ & [_ Hx]%entry_named_spec).
    transitivity (name_equal (e_name e) n); [|exact Hne]. apply name_equal_cong. symmetry. exact (name_equal_cstr _ _ Hx). }
  assert (Hwf' : entries_wf (service_entries s')).
  { apply (wf_insert _ Hwf i e); [done|done|]. intros _ j b Hji Hb Hpb E.
    assert (Hbn : entry_named (e_name e') b = true).
    { apply entry_named_spec. split; [done|]. apply name_equal_spec. split; [done|]. rewrite E.
      by apply name_valid_length. }
    destruct Hnamed as [Hnm|[_ Hnone]].
    - apply (named_spec _ Hwf) in Hnm as (k & Hk & Hke).
      assert (entry_named (e_name e') e = true) as Hee by done.
      apply Hji. eapply (named_unique _ Hwf); eauto.
    - assert (named (service_entries s) (e_name e') = Some b) by (apply (named_spec _ Hwf); eauto).
      congruence. }
  split; [done|]. intros n. unfold resolve. cbn [service_entries s' set_entries].
  rewrite (named_insert _ i e) by done. unfold entry_named at 1.
  rewrite (proj2 (Z.ltb_lt 0 (e_pid e'))) by done. cbn [andb].
  destruct (name_equal (e_name e') n) eqn:En; cbn [mbind option_bind]; [by rewrite Hv|].
  destruct (entry_named n e) eqn:Ee; [|done]. apply Hsame in Ee. congruence.
Qed.

Lemma register_row s i e n pid :
  entries_wf (service_entries s) -> service_entries s !! i = Some e ->
  service_registry_name_valid (Some n) = true -> 0 < pid ->
  named (service_entries s) n = Some e \/ (e_pid e = 0 /\ named (service_entries s) n = None) ->
  entries_wf (service_entries (register_at s i n pid)) /\
  forall m, resolve (register_at s i n pid) m = if name_equal n m then Some pid else resolve s m.
Proof.
  intros Hwf He Hn Hp Hnamed. unfold register_at.
  pose proof (identity_now pid Hp) as Hid. destruct (identity_or_zero pid) as [q g].
  destruct (copy_name_spec (e_name e) n) as [Hc Hl];
    [by eapply ok_lookup|by apply name_valid_length|].
  unfold mint_right_token. cbn. rewrite (list_lookup_total_correct _ _ _ He).
  set (e' := mk_entry _ _ _ _ _ _ _).
  assert (Hv : service_registry_name_valid (Some (e_name e')) = true) by (cbn [e_name e']; rewrite (name_valid_cstr _ n Hc); exact Hn).
  assert (Hnm : named (service_entries s) (e_name e') = named (service_entries s) n).
  { unfold named, entry_named. cbn [e_name e'].
    rewrite (find_slot_ext _ (fun e => (0 <? e_pid e) && name_equal (e_name e) n)); [done|].
    apply Forall_true. intros x. rewrite name_equal_sym, (name_equal_cong _ n _ Hc), name_equal_sym. reflexivity. }
  assert (Hok : entry_ok e') by (constructor; [exact Hl|right; exact (conj Hp Hv)]).
  rewrite <- Hnm in Hnamed.
  destruct (install_row s i e e' Hwf He Hok Hp Hid Hnamed Hv) as [H1 H2].
  split; [exact H1|]. intros m. etransitivity; [apply H2|]. cbn [e_name e' e_pid].
  by rewrite (name_equal_cong _ n _ Hc).
Qed.

(** Granting a capability changes no name. *)
Lemma grant_scoped_names s n owner grantee rights sources prefix :
  entries_wf (service_entries s) ->
  names_kept s (snd (service_registry_backend_grant_scoped_source_prefix s (Some n) owner grantee
                       rights sources prefix)).
Proof.
  intros Hwf. unfold service_registry_backend_grant_scoped_source_prefix.
  destruct (service_registry_name_valid (Some n)) eqn:Hn; cbn [negb orb]; [|by apply names_kept_refl].
  case_if; [by apply names_kept_refl|].
  destruct (lookup_spec s n Hwf Hn) as [_ Hk].
  destruct (service_registry_lookup s (Some n)) as [r s1]. cbn [snd] in Hk.
  assert (Hcap : forall s2, service_entries s2 = service_entries s1 ->
    names_kept s1 s2 /\ names_kept s1 (service_registry_backend_generation_bump s2 (str (Some n)))).
  { intros s2 E. destruct Hk as [Hwf1 _].
    assert (names_kept s1 s2) as Hk2 by (split; [by rewrite E|intros m; unfold resolve; by rewrite E]).
    split; [done|]. eapply names_kept_trans; [done|]. apply same_names_kept; [apply bump_same_names|apply Hk2]. }
  case_if; [done|].
  destruct (find_slot (cap_between _ _ _) _) as [i|]; [|destruct (find_slot _ _) as [i|]; [|done]].
  - case_if; [|done]. cbn [snd]. eapply names_kept_trans; [done|]. apply Hcap. by case_if.
  - cbn [snd]. eapply names_kept_trans; [done|]. by apply Hcap.
Qed.

Lemma named_valid_resolve s n e :
  named (service_entries s) n = Some e -> entry_valid e = true -> resolve s n = Some (e_pid e).
Proof. unfold resolve. intros -> H. cbn [mbind option_bind]. by rewrite H. Qed.

Lemma named_invalid_resolve s n e :
  named (service_entries s) n = Some e -> entry_valid e = false -> resolve s n = None.
Proof. unfold resolve. intros -> H. cbn [mbind option_bind]. by rewrite H. Qed.

Lemma register_spec :
  forall (s : registry_t) (n : cstring) (pid : Z),
    entries_wf (service_entries s) -> service_registry_name_valid (Some n) = true -> 0 < pid ->
    let '(rc, s') := service_registry_register s (Some n) pid in
    entries_wf (service_entries s') /\
    match resolve s n with
    | Some q => s' = s /\ rc = (if q =? pid then 0 else OS_SERVICE_TAKEN)
    | None =>
        (rc = 0 /\ forall m, resolve s' m = if name_equal n m then Some pid else resolve s m) \/
        (rc = OS_SERVICE_FULL /\ s' = s /\ Forall (fun e => 0 < e_pid e) (service_entries s))
    end.
Proof.
  intros s n pid Hwf Hn Hp. unfold service_registry_register. rewrite Hn, (proj2 (Z.leb_gt pid 0)) by lia.
  cbn [negb orb str default from_option id]. rewrite (scan_nonzero _ Hwf).
  destruct (find_slot (entry_named n) (service_entries s)) as [i|] eqn:Hf.
  - destruct (find_named _ Hwf n i Hf) as (e & He & Hnamed & Hen & Ht). rewrite Ht.
    assert (Hval : e_pid e = pid -> task_identity_valid pid (e_sequence e) (e_generation e) = entry_valid e)
      by (intros <-; reflexivity).
    destruct (entry_valid e) eqn:Hv; cbn [negb].
    + rewrite (named_valid_resolve s n e Hnamed Hv).
      destruct (Z.eqb_spec (e_pid e) pid) as [E|E]; cbn [andb]; [rewrite (Hval E)|]; done.
    + rewrite (named_invalid_resolve s n e Hnamed Hv).
      replace ((e_pid e =? pid) && _) with false
        by (destruct (Z.eqb_spec (e_pid e) pid) as [E|E]; [rewrite (Hval E)|]; reflexivity).
      destruct (register_row s i e n pid Hwf He Hn Hp (or_introl Hnamed)) as [H1 H2]. by auto.
  - pose proof (find_not_named _ Hwf n Hf) as Hnone.
    assert (resolve s n = None) as -> by (unfold resolve; by rewrite Hnone).
    destruct (find_slot (fun e => e_pid e =? 0) (service_entries s)) as [i|] eqn:Hfree.
    + apply find_slot_Some in Hfree as (e & He & Hz & _). bsimp.
      destruct (register_row s i e n pid Hwf He Hn Hp (or_intror (conj Hz Hnone))) as [H1 H2]. by auto.
    + split; [done|]. right. split; [done|]. split; [done|]. rewrite find_slot_None in Hfree.
      apply Forall_lookup. intros i e He. specialize (Hfree i e He). bsimp.
      destruct (ok_lookup _ Hwf i e He) as [_ [[? _]|[? _]]]; [lia|done].
Qed.

Lemma remove_spec :
  forall (s : registry_t) (n : cstring) (pid : Z),
    entries_wf (service_entries s) -> service_registry_name_valid (Some n) = true -> 0 < pid ->
    let '(rc, s') := service_registry_remove s (Some n) pid in
    entries_wf (service_entries s') /\
    if bool_decide (resolve s n = Some pid)
    then rc = 0 /\ forall m, resolve s' m = if name_equal n m then None else resolve s m
    else rc = OS_SERVICE_NOT_FOUND /\ s' = s.
Proof.
  intros s n pid Hwf Hn Hp. unfold service_registry_remove. rewrite Hn, (proj2 (Z.leb_gt pid 0)) by lia.
  cbn [negb orb str default from_option id].
  destruct (find_slot _ (service_entries s)) as [i|] eqn:Hf.
  - apply find_slot_Some in Hf as (e & He & Hq & _).
    apply andb_true_iff in Hq as [[Hpid Hne]%andb_true_iff Hval]. apply Z.eqb_eq in Hpid.
    assert (Hen : entry_named n e = true) by (apply entry_named_spec; split; [lia|done]).
    assert (Hnm : named (service_entries s) n = Some e) by (apply (named_spec _ Hwf); eauto).
    rewrite bool_decide_eq_true_2.
    2: { rewrite (named_valid_resolve s n e Hnm); [by f_equal|]. unfold entry_valid. by rewrite Hpid. }
    destruct (drop_row s i e Hwf He) as [Hwf1 Hres].
    destruct (same_names_kept _ _ (remove_name_same_names (update_entry s i entry_dropped) (Some n)) Hwf1)
      as [Hwf2 Hres2].
    split; [done|]. split; [done|]. intros m. rewrite Hres2, Hres.
    assert (entry_named m e = name_equal n m) as ->; [|done].
    unfold entry_named. rewrite (proj2 (Z.ltb_lt 0 (e_pid e))) by lia. cbn [andb].
    apply name_equal_cong. by apply name_equal_cstr.
  - rewrite bool_decide_eq_false_2; [done|]. intros Hr.
    unfold resolve in Hr. apply bind_Some in Hr as (e & (i & He & Hen)%(named_spec _ Hwf) & Hv).
    destruct (entry_valid e) eqn:Ev; [|done]. injection Hv as Hpid.
    apply entry_named_spec in Hen as [_ Hne]. rewrite find_slot_None in Hf. specialize (Hf i e He).
    unfold entry_valid in Ev. rewrite Hpid in Ev. rewrite Hpid, Z.eqb_refl, Hne, Ev in Hf. done.
Qed.

(** The tail of a hand-off: dropping the capabilities of the name and the
    grant to a new file-system owner. *)
Lemma handoff_tail s n grantee :
  entries_wf (service_entries s) ->
  fst (handoff_finish s (Some n) grantee) = 0 /\
  names_kept s (snd (handoff_finish s (Some n) grantee)).
Proof.
  intros Hwf. unfold handoff_finish.
  pose proof (same_names_kept _ _ (remove_name_same_names s (Some n)) Hwf) as Hk.
  set (s1 := service_registry_backend_remove_name s (Some n)) in *. clearbody s1.
  destruct (name_equal (str (Some n)) (lit "vfs")); [|split; [reflexivity|exact Hk]].
  destruct (lookup_spec s1 (lit "vfs-virtual") (proj1 Hk) eq_refl) as [_ Hk2].
  destruct (service_registry_lookup s1 (Some (lit "vfs-virtual"))) as [w s2]. cbn [snd] in Hk2.
  pose proof (names_kept_trans _ _ _ Hk Hk2) as Hk3.
  destruct (0 <? w); cbn [fst snd]; (split; [reflexivity|]); [|exact Hk3].
  eapply names_kept_trans; [exact Hk3|]. apply grant_scoped_names, Hk2.
Qed.

Lemma handoff_spec :
  forall (s : registry_t) (n : cstring) (owner grantee : Z),
    entries_wf (service_entries s) -> service_registry_name_valid (Some n) = true ->
    0 < owner -> 0 < grantee ->
    let '(rc, s') := service_registry_grant s (Some n) owner grantee in
    entries_wf (service_entries s') /\
    if bool_decide (resolve s n = Some owner)
    then rc = 0 /\ forall m, resolve s' m = if name_equal n m then Some grantee else resolve s m
    else (rc = OS_SERVICE_NOT_OWNER \/ rc = OS_SERVICE_NOT_FOUND) /\ s' = s.
Proof.
  intros s n owner grantee Hwf Hn Ho Hg. unfold service_registry_grant.
  rewrite Hn, (proj2 (Z.leb_gt owner 0)), (proj2 (Z.leb_gt grantee 0)) by lia. cbn [negb orb].
  change (str (Some n)) with n at 1. rewrite (scan_any _ Hwf n Hn).
  destruct (find_slot (entry_named n) (service_entries s)) as [i|] eqn:Hf.
  2: { rewrite bool_decide_eq_false_2; [by auto|].
       unfold resolve. by rewrite (find_not_named _ Hwf n Hf). }
  destruct (find_named _ Hwf n i Hf) as (e & He & Hnamed & Hen & Ht). rewrite Ht.
  pose proof Hen as [Hpe Hne]%entry_named_spec.
  destruct (Z.eqb_spec (e_pid e) owner) as [Ep|Ep]; cbn [negb orb].
  2: { rewrite bool_decide_eq_false_2; [by auto|]. unfold resolve. rewrite Hnamed.
       cbn [mbind option_bind]. destruct (entry_valid e); [congruence|done]. }
  destruct (task_identity_valid owner (e_sequence e) (e_generation e)) eqn:Hv; cbn [negb].
  2: { rewrite bool_decide_eq_false_2; [by auto|].
       rewrite (named_invalid_resolve s n e Hnamed); [done|]. unfold entry_valid. by rewrite Ep. }
  rewrite bool_decide_eq_true_2.
  2: { rewrite (named_valid_resolve s n e Hnamed); [by f_equal|]. unfold entry_valid. by rewrite Ep. }
  pose proof (identity_now grantee Hg) as Hid. destruct (identity_or_zero grantee) as [q g].
  unfold update_entry. rewrite Ht. set (e' := mk_entry _ _ _ _ _ _ _).
  assert (Hnv : service_registry_name_valid (Some (e_name e')) = true)
    by (exact (name_equal_valid _ _ Hne Hn)).
  assert (Hok : entry_ok e')
    by (constructor; [apply (eo_len _ (ok_lookup _ Hwf i e He))|right; exact (conj Hg Hnv)]).
  assert (Hnm : named (service_entries s) (e_name e') = Some e).
  { apply (named_spec _ Hwf). exists i. split; [exact He|]. apply entry_named_spec.
    split; [exact Hpe|exact (name_equal_refl _ Hnv)]. }
  destruct (install_row s i e e' Hwf He Hok Hg Hid (or_introl Hnm) Hnv) as [Hwf1 Hres].
  destruct (handoff_tail _ n grantee Hwf1) as [Hrc Htail].
  set (s1 := set_entries s _) in *. clearbody s1.
  destruct (handoff_finish s1 (Some n) grantee) as [rc s']. cbn [fst snd] in *. subst rc.
  split; [exact (proj1 Htail)|]. split; [done|]. intros m. rewrite (proj2 Htail m), Hres.
  cbn [e_name e' e_pid]. rewrite (name_equal_cong _ n); [done|]. by apply name_equal_cstr.
Qed.

(** ** The abstract registry

    A map from names to tasks, and what each call may answer and do to it. *)
Inductive name_op :=
| op_register (n : cstring) (pid : Z)
| op_lookup (n : cstring)
| op_remove (n : cstring) (pid : Z)
| op_handoff (n : cstring) (owner grantee : Z).

Definition name_op_ok (op : name_op) : Prop :=
  match op with
  | op_register n pid | op_remove n pid => service_registry_name_valid (Some n) = true /\ 0 < pid
  | op_lookup n => service_registry_name_valid (Some n) = true
  | op_handoff n owner grantee => service_registry_name_valid (Some n) = true /\ 0 < owner /\ 0 < grantee
  end.

Definition run_name_op (s : registry_t) (op : name_op) : Z * registry_t :=
  match op with
  | op_register n pid => service_registry_register s (Some n) pid
  | op_lookup n => service_registry_lookup s (Some n)
  | op_remove n pid => service_registry_remove s (Some n) pid
  | op_handoff n owner grantee => service_registry_grant s (Some n) owner grantee
  end.

Definition name_map : Type := cstring -> option Z.
Definition map_same (m m' : name_map) : Prop := forall n, m' n = m n.
Definition map_set (m m' : name_map) (n : cstring) (v : option Z) : Prop :=
  forall k, m' k = if name_equal n k then v else m k.

Definition map_step (m : name_map) (op : name_op) (rc : Z) (m' : name_map) : Prop :=
  match op with
  | op_lookup n => rc = default OS_SERVICE_NOT_FOUND (m n) /\ map_same m m'
  | op_register n pid =>
      match m n with
      | Some q => rc = (if q =? pid then 0 else OS_SERVICE_TAKEN) /\ map_same m m'
      | None => rc = 0 /\ map_set m m' n (Some pid) \/ rc = OS_SERVICE_FULL /\ map_same m m'
      end
  | op_remove n pid =>
      if bool_decide (m n = Some pid) then rc = 0 /\ map_set m m' n None
      else rc = OS_SERVICE_NOT_FOUND /\ map_same m m'
  | op_handoff n owner grantee =>
      if bool_decide (m n = Some owner) then rc = 0 /\ map_set m m' n (Some grantee)
      else (rc = OS_SERVICE_NOT_OWNER \/ rc = OS_SERVICE_NOT_FOUND) /\ map_same m m'
  end.

(** C35. The service registry refines a map from names to live tasks: whatever call
    is made on a well-formed table, its answer and its effect on what every name
    resolves to are those of the map.  A lookup returns exactly the live owner and
    changes no binding (also when it drops the row of a dead task); registration is
    first come, first served; only the live owner can unregister or hand over a
    name, and no other name is affected; the table stays well formed, with one live
    row per name, and is reported full only when every row is in use. *)
Theorem registry_refines_map :
  forall (s : registry_t) (op : name_op),
    entries_wf (service_entries s) -> name_op_ok op ->
    let '(rc, s') := run_name_op s op in
    entries_wf (service_entries s') /\ map_step (resolve s) op rc (resolve s') /\
    (forall n pid, op = op_register n pid -> resolve s n = None -> rc <> 0 ->
       Forall (fun e => 0 < e_pid e) (service_entries s)).
Proof.
  intros s [n pid|n|n pid|n o g] Hwf Hok; cbn [run_name_op name_op_ok map_step] in *.
  - destruct Hok as [Hn Hp]. pose proof (register_spec s n pid Hwf Hn Hp) as H.
    destruct (service_registry_register s (Some n) pid) as [rc s']. destruct H as [Hw H]. split; [done|].
    destruct (resolve s n) as [q|] eqn:E.
    + destruct H as [-> ->]. split; [done|]. intros ? ? [= -> ->]. congruence.
    + destruct H as [[-> H]|(-> & -> & H)].
      * split; [by left|done].
      * split; [by right|done].
  - pose proof (lookup_spec s n Hwf Hok) as [H1 [H2 H3]]. destruct (service_registry_lookup s (Some n)) as [r s']. done.
  - destruct Hok as [Hn Hp]. pose proof (remove_spec s n pid Hwf Hn Hp) as H.
    destruct (service_registry_remove s (Some n) pid) as [rc s']. destruct H as [Hw H]. split; [done|]. split; [|done].
    destruct (bool_decide _); [done|]. by destruct H as [-> ->].
  - destruct Hok as (Hn & Ho & Hg). pose proof (handoff_spec s n o g Hwf Hn Ho Hg) as H.
    destruct (service_registry_grant s (Some n) o g) as [rc s']. destruct H as [Hw H]. split; [done|]. split; [|done].
    destruct (bool_decide _); [done|]. by destruct H as [Hrc ->].
Qed.
End Refinement.
