(* ===== verification/RegistryCaps.v ===== *)
(** * Backend capabilities

    What kernel/service_registry.c promises about delegated rights: the access
    test is exactly the existence of a live, matching grant; a grant gives what
    it says; revocation, hand-off and task death take everything back. *)

From Stdlib Require Import ZArith Lia String.
From stdpp Require Import base numbers option tactics list.
From S2P Require Import Prelude Bytes Names Ipc RegistryState Journal Registry RegistryNames.

(** ** Invariant *)

(** A row is free, or records a grant between two tasks under a valid name. *)
Record cap_ok (c : service_backend_cap_t) : Prop := {
  co_name_len : length (c_name c) = 16%nat;
  co_prefix_len : length (c_prefix c) = 48%nat;
  co_state : (c_owner_pid c = 0 /\ c_grantee_pid c = 0 /\ chr (c_name c) 0 = 0) \/
             (0 < c_owner_pid c /\ 0 < c_grantee_pid c /\
              service_registry_name_valid (Some (c_name c)) = true)
}.

Record caps_wf (cs : list service_backend_cap_t) : Prop := {
  cw_len : length cs = 4%nat;
  cw_ok : Forall cap_ok cs;
  cw_unique : forall i j a b, cs !! i = Some a -> cs !! j = Some b -> 0 < c_owner_pid a ->
    c_owner_pid a = c_owner_pid b -> c_grantee_pid a = c_grantee_pid b ->
    cstr (c_name a) = cstr (c_name b) -> i = j
}.

Definition free_cap (c : service_backend_cap_t) : Prop :=
  length (c_name c) = 16%nat /\ length (c_prefix c) = 48%nat /\
  c_owner_pid c = 0 /\ c_grantee_pid c = 0 /\ chr (c_name c) 0 = 0.

Lemma free_cap_ok c : free_cap c -> cap_ok c.
Proof. intros (? & ? & ? & ? & ?). constructor; auto. Qed.

Lemma caps_ok_lookup cs i c : caps_wf cs -> cs !! i = Some c -> cap_ok c.
Proof. intros [_ H _] Hc. eapply Forall_lookup_1; eauto. Qed.

Lemma nonempty16 (l : list Z) : length l = 16%nat -> l <> [].
Proof. by intros H ->. Qed.

Lemma cap_cleared_free c : cap_ok c -> free_cap (cap_cleared c).
Proof.
  intros [H1 H2 _]. unfold free_cap, cap_cleared. cbn [c_name c_prefix c_owner_pid c_grantee_pid].
  rewrite !clear_string_length. repeat split; try assumption. by apply clear_string_chr, nonempty16.
Qed.

Lemma caps_wf_insert cs i c c' :
  caps_wf cs -> cs !! i = Some c -> cap_ok c' ->
  (0 < c_owner_pid c' -> forall j b, j <> i -> cs !! j = Some b ->
     c_owner_pid b = c_owner_pid c' -> c_grantee_pid b = c_grantee_pid c' ->
     cstr (c_name b) <> cstr (c_name c')) ->
  caps_wf (<[i := c']> cs).
Proof.
  intros [Hl Hok Hu] Hc Hok' Hfresh. constructor.
  - by rewrite length_insert.
  - by apply Forall_insert.
  - intros j k a b Hj Hk Hpa Ho Hg Hn.
    apply list_lookup_insert_Some in Hj as [(<- & <- & _)|[Hji Hj]];
      apply list_lookup_insert_Some in Hk as [(<- & <- & _)|[Hki Hk]]; try done.
    + by destruct (Hfresh Hpa k b).
    + destruct (Hfresh ltac:(lia) j a); done.
    + by eapply Hu.
Qed.

Lemma caps_wf_free cs i c c' : caps_wf cs -> cs !! i = Some c -> free_cap c' -> caps_wf (<[i := c']> cs).
Proof.
  intros Hwf Hc Hf. apply (caps_wf_insert cs i c); [done|done|by apply free_cap_ok|].
  destruct Hf as (_ & _ & -> & _). lia.
Qed.

(** A change of one row that keeps its parties and name. *)
Lemma caps_wf_update cs i c c' :
  caps_wf cs -> cs !! i = Some c -> c_owner_pid c' = c_owner_pid c ->
  c_grantee_pid c' = c_grantee_pid c -> c_name c' = c_name c -> length (c_prefix c') = 48%nat ->
  caps_wf (<[i := c']> cs).
Proof.
  intros Hwf Hc Ho Hg Hn Hp. destruct (caps_ok_lookup cs i c Hwf Hc) as [H1 _ H3].
  apply (caps_wf_insert cs i c); [done|done| |].
  - constructor; rewrite ?Hn, ?Ho, ?Hg; done.
  - rewrite Ho, Hg, Hn. intros Hpos j b Hji Hb E1 E2 E3. apply Hji.
    eapply (cw_unique cs Hwf); eauto. lia.
Qed.

Lemma caps_wf_map cs (p : service_backend_cap_t -> bool) :
  caps_wf cs -> caps_wf (map (fun c => if p c then cap_cleared c else c) cs).
Proof.
  intros Hwf. destruct Hwf as [Hl Hok Hu]. constructor.
  - by rewrite length_map.
  - apply Forall_fmap. eapply Forall_impl; [done|]. intros c Hc. cbn.
    destruct (p c); [by apply free_cap_ok, cap_cleared_free|done].
  - intros i j a b Ha Hb. apply list_lookup_fmap_Some in Ha as (a0 & -> & Ha).
    apply list_lookup_fmap_Some in Hb as (b0 & -> & Hb).
    destruct (p a0); [cbn; lia|]. destruct (p b0); [cbn; lia|]. by apply Hu.
Qed.

(** The part of the state the capability calls use. *)
Record reg_wf (s : registry_t) : Prop := {
  rw_entries : entries_wf (service_entries s);
  rw_caps : caps_wf (service_backend_caps s);
  rw_token : service_backend_token_next s <> 0
}.

Lemma bump_caps s n :
  service_backend_caps (service_registry_backend_generation_bump s n) = service_backend_caps s.
Proof. unfold service_registry_backend_generation_bump. by destruct (find_slot _ _). Qed.

Lemma bump_token s n :
  service_backend_token_next (service_registry_backend_generation_bump s n) = service_backend_token_next s.
Proof. unfold service_registry_backend_generation_bump. by destruct (find_slot _ _). Qed.

Lemma bump_wf s n : reg_wf s -> reg_wf (service_registry_backend_generation_bump s n).
Proof.
  intros [H1 H2 H3]. constructor; [|by rewrite bump_caps|by rewrite bump_token].
  by apply (same_names_wf s); [apply bump_same_names|].
Qed.

Lemma remove_name_caps s n :
  service_registry_name_valid (Some n) = true ->
  service_backend_caps (service_registry_backend_remove_name s (Some n)) =
  map (fun c => if cap_named n c then cap_cleared c else c) (service_backend_caps s).
Proof.
  intros Hn. unfold service_registry_backend_remove_name. rewrite Hn. cbn [negb].
  change (str (Some n)) with n. destruct (existsb _ _); [by rewrite bump_caps|done].
Qed.

Lemma remove_name_token s n :
  service_backend_token_next (service_registry_backend_remove_name s n) = service_backend_token_next s.
Proof.
  unfold service_registry_backend_remove_name. destruct (negb _); [done|].
  destruct (existsb _ _); [by rewrite bump_token|done].
Qed.

Lemma remove_name_wf s n : reg_wf s -> reg_wf (service_registry_backend_remove_name s n).
Proof.
  intros [H1 H2 H3]. constructor.
  - apply (same_names_wf s); [apply remove_name_same_names|done].
  - destruct (service_registry_name_valid n) eqn:Hn.
    + destruct n as [n|]; [|done]. rewrite remove_name_caps by done. by apply caps_wf_map.
    + unfold service_registry_backend_remove_name. by rewrite Hn.
  - by rewrite remove_name_token.
Qed.

Section Caps.
Context `{T : TaskView} `{K : KernelHooks}.

Lemma lookup_wf s n : reg_wf s -> reg_wf (snd (service_registry_lookup s n)).
Proof.
  intros Hwf. unfold service_registry_lookup.
  destruct (service_registry_name_valid n) eqn:Hn; cbn [negb]; [|done].
  destruct (find_slot (entry_named (str n)) (service_entries s)) as [i|] eqn:Hf; [|done].
  destruct (entry_valid _); [done|]. cbn [snd]. apply remove_name_wf.
  apply find_slot_Some in Hf as (e & He & _).
  constructor; [by apply (drop_row s i e); [apply Hwf|]|apply Hwf|apply Hwf].
Qed.

(** A name that resolves is looked up without any change. *)
Lemma lookup_resolved s n p :
  reg_wf s -> service_registry_name_valid (Some n) = true -> resolve s n = Some p ->
  service_registry_lookup s (Some n) = (p, s).
Proof.
  intros Hwf Hn Hr. unfold service_registry_lookup. rewrite Hn. cbn [negb].
  change (str (Some n)) with n.
  unfold resolve, named in Hr.
  destruct (find_slot (entry_named n) (service_entries s)) as [i|] eqn:Hf; [|done].
  destruct (find_named _ (rw_entries s Hwf) n i Hf) as (e & He & _ & _ & Ht). rewrite Ht.
  cbn [mbind option_bind] in Hr. rewrite He in Hr. cbn [mbind option_bind] in Hr.
  destruct (entry_valid e); [|done]. by injection Hr as ->.
Qed.

Lemma lookup_unresolved s n :
  reg_wf s -> service_registry_name_valid (Some n) = true -> resolve s n = None ->
  fst (service_registry_lookup s (Some n)) = OS_SERVICE_NOT_FOUND /\
  resolve (snd (service_registry_lookup s (Some n))) n = None.
Proof.
  intros Hwf Hn Hr. destruct (lookup_spec s n (rw_entries s Hwf) Hn) as [H1 [_ H2]].
  rewrite Hr in H1. rewrite H2. done.
Qed.

(** ** The access test *)

(** The right the registry's rows grant to a task, in one formula: some row of
    the capability table names this task under its current identity and kernel
    key, was granted by the task that owns the name now, still has its token,
    and covers the right, the source and the path. *)
Definition row_permits (s : registry_t) (n : cstring) (pid right source : Z) (path : ptr cstring)
    (c : service_backend_cap_t) : bool :=
  cap_held n pid c && task_identity_valid pid (c_grantee_sequence c) (c_grantee_generation c)
  && bool_decide (resolve s n = Some (c_owner_pid c)) && cap_allows c pid right source path.

Definition request_valid (right source : Z) : bool :=
  negb (right =? 0) && (Z.land right (Z.lnot SERVICE_BACKEND_RIGHT_ALL) =? 0)
  && service_registry_backend_sources_valid source.

Lemma allowed_loop_unresolved n pid right source path k : forall s i,
  reg_wf s -> service_registry_name_valid (Some n) = true -> resolve s n = None ->
  (i + k <= 4)%nat ->
  fst (allowed_loop s (Some n) pid right source path i k) = 0.
Proof.
  induction k as [|k IH]; intros s i Hwf Hn Hr Hk; cbn [allowed_loop]; [done|].
  destruct (_ && _ && _); [|apply IH; (done || lia)].
  destruct (lookup_unresolved s n Hwf Hn Hr) as [H1 H2].
  pose proof (lookup_wf s (Some n) Hwf) as Hwf'.
  destruct (service_registry_lookup s (Some n)) as [r s']. cbn [fst snd] in *. subst r.
  destruct (lookup_lt_is_Some_2 (service_backend_caps s') i) as [c Hc];
    [rewrite (cw_len _ (rw_caps s' Hwf')); lia|].
  rewrite (list_lookup_total_correct _ _ _ Hc).
  destruct (caps_ok_lookup _ _ _ (rw_caps s' Hwf') Hc) as [_ _ Hst].
  rewrite (proj2 (Z.eqb_neq _ (c_owner_pid c))) by (unfold OS_SERVICE_NOT_FOUND; lia). cbn [andb].
  apply IH; (done || lia).
Qed.

Lemma row_permits_resolved s n p pid right source path c :
  resolve s n = Some p ->
  row_permits s n pid right source path c =
  cap_held n pid c && task_identity_valid pid (c_grantee_sequence c) (c_grantee_generation c)
  && (p =? c_owner_pid c) && cap_allows c pid right source path.
Proof.
  intros Hr. unfold row_permits. rewrite Hr. do 2 f_equal.
  destruct (Z.eqb_spec p (c_owner_pid c)) as [->|]; [by apply bool_decide_eq_true_2|].
  apply bool_decide_eq_false_2. congruence.
Qed.

Lemma allowed_loop_resolved s n p pid right source path k : forall i,
  reg_wf s -> service_registry_name_valid (Some n) = true -> resolve s n = Some p ->
  (i + k = 4)%nat ->
  allowed_loop s (Some n) pid right source path i k =
  (b2z (existsb (row_permits s n pid right source path) (drop i (service_backend_caps s))), s).
Proof.
  induction k as [|k IH]; intros i Hwf Hn Hr Hk; cbn [allowed_loop].
  { rewrite drop_ge by (rewrite (cw_len _ (rw_caps s Hwf)); lia). done. }
  destruct (lookup_lt_is_Some_2 (service_backend_caps s) i) as [c Hc];
    [rewrite (cw_len _ (rw_caps s Hwf)); lia|].
  rewrite (list_lookup_total_correct _ _ _ Hc), (drop_S _ c i Hc). cbn [existsb].
  rewrite (lookup_resolved s n p Hwf Hn Hr), (list_lookup_total_correct _ _ _ Hc).
  rewrite IH, (row_permits_resolved s n p) by (done || lia). unfold cap_held.
  change (str (Some n)) with n.
  destruct (c_grantee_pid c =? pid), (name_equal (c_name c) n),
    (task_identity_valid pid (c_grantee_sequence c) (c_grantee_generation c)),
    (p =? c_owner_pid c), (cap_allows c pid right source path); reflexivity.
Qed.

(** The access test, in closed form. *)
Lemma allowed_spec s n pid right source path :
  reg_wf s -> service_registry_name_valid (Some n) = true ->
  fst (service_registry_backend_allowed_for_source_path s (Some n) pid right source path) =
  b2z (request_valid right source &&
       existsb (row_permits s n pid right source path) (service_backend_caps s)).
Proof.
  intros Hwf Hn. unfold service_registry_backend_allowed_for_source_path, request_valid.
  destruct (right =? 0); cbn [orb negb andb fst]; [done|].
  destruct (Z.land right _ =? 0); cbn [orb negb andb fst]; [|done].
  destruct (service_registry_backend_sources_valid source); cbn [orb negb andb fst]; [|done].
  change (Z.to_nat SERVICE_REGISTRY_BACKEND_CAPACITY) with 4%nat.
  destruct (resolve s n) as [p|] eqn:Hr.
  - by rewrite (allowed_loop_resolved s n p).
  - rewrite allowed_loop_unresolved by done.
    assert (existsb (row_permits s n pid right source path) (service_backend_caps s) = false) as ->; [|done].
    apply not_true_iff_false. rewrite existsb_exists. intros (c & _ & Hc). unfold row_permits in Hc.
    rewrite Hr in Hc. bsimp. by apply bool_decide_eq_true in Hb2.
Qed.

(** The path condition of a row: under its prefix, or the root prefix for the
    calls that name no path. *)
Definition path_covered (prefix : cstring) (path : ptr cstring) : Prop :=
  match path with
  | Some p => cstr prefix `prefix_of` cstr p
  | NULL => cstr prefix = []
  end.

Lemma path_covered_spec prefix path :
  service_registry_backend_prefix_matches (Some prefix) path = true <-> path_covered prefix path.
Proof. destruct path; [apply prefix_matches_spec|apply prefix_matches_null]. Qed.

(** What a row must say for the access to be granted. *)
Record permits (s : registry_t) (n : cstring) (pid right source : Z) (path : ptr cstring)
    (c : service_backend_cap_t) : Prop := {
  pm_holder : c_grantee_pid c = pid /\ name_equal (c_name c) n = true;
  pm_holder_identity : task_identity_valid pid (c_grantee_sequence c) (c_grantee_generation c) = true;
  pm_holder_key : identity_key_bound pid (c_identity_key c) = true;
  pm_owner : resolve s n = Some (c_owner_pid c);
  pm_owner_identity :
    task_identity_valid (c_owner_pid c) (c_owner_sequence c) (c_owner_generation c) = true;
  pm_token : c_token c <> 0;
  pm_rights : Z.land (c_rights c) right = right;
  pm_sources : Z.land (c_sources c) source = source;
  pm_path : path_covered (c_prefix c) path
}.

Lemma row_permits_spec s n pid right source path c :
  row_permits s n pid right source path c = true <-> permits s n pid right source path c.
Proof.
  unfold row_permits, cap_held, cap_allows.
  rewrite !andb_true_iff, !Z.eqb_eq, negb_true_iff, Z.eqb_neq, bool_decide_eq_true, path_covered_spec.
  split; [intros ([[[? ?] ?] ?] & [[[[? ?] ?] ?] ?] & ?); by constructor|].
  intros [[? ?] ? ? ? ? ? ? ? ?]. done.
Qed.

Lemma allowed_iff s n pid right source path :
  reg_wf s -> service_registry_name_valid (Some n) = true ->
  fst (service_registry_backend_allowed_for_source_path s (Some n) pid right source path) = 1 <->
  request_valid right source = true /\
  exists i c, service_backend_caps s !! i = Some c /\ permits s n pid right source path c.
Proof.
  intros Hwf Hn. rewrite allowed_spec by done.
  transitivity (request_valid right source = true /\
    existsb (row_permits s n pid right source path) (service_backend_caps s) = true).
  { destruct (request_valid _ _), (existsb _ _); cbn; naive_solver. }
  rewrite existsb_exists. setoid_rewrite row_permits_spec. split; intros [? (x & Hx)]; (split; [done|]).
  - destruct Hx as [Hin Hp]. apply list_elem_of_In, list_elem_of_lookup in Hin as [i Hi]. by eauto.
  - destruct Hx as (c & Hi & Hp). exists c. split; [|done]. apply list_elem_of_In.
    by eapply list_elem_of_lookup_2.
Qed.

Lemma allowed_01 s n pid right source path :
  reg_wf s -> service_registry_name_valid (Some n) = true ->
  let r := fst (service_registry_backend_allowed_for_source_path s (Some n) pid right source path) in
  r = 0 \/ r = 1.
Proof. intros Hwf Hn. cbv zeta. rewrite allowed_spec by done. destruct (_ && _); auto. Qed.

(** C1. No authority without a live grant: the backend access test says yes
    exactly when some capability row names the caller under its current
    identity and kernel key, was granted by the task that owns the service name
    now (itself unchanged since), still has its token, and covers the requested
    right, source and path. In particular a path outside the granted prefix, a
    recycled PID, or a former owner's grant never gives access. *)
Theorem access_needs_live_grant :
  forall (s : registry_t) (n : cstring) (pid right source : Z) (path : ptr cstring),
    reg_wf s -> service_registry_name_valid (Some n) = true ->
    (fst (service_registry_backend_allowed_for_source_path s (Some n) pid right source path) = 1 <->
     request_valid right source = true /\
     exists i c, service_backend_caps s !! i = Some c /\ permits s n pid right source path c).
Proof. exact allowed_iff. Qed.

(** ** Granting *)

Lemma next_nonzero_nz x : next_nonzero x <> 0.
Proof. unfold next_nonzero. case_if; [lia|done]. Qed.

Lemma update_cap_wf s i c f :
  reg_wf s -> service_backend_caps s !! i = Some c ->
  caps_wf (<[i := f c]> (service_backend_caps s)) -> reg_wf (update_cap s i f).
Proof.
  intros [H1 H2 H3] Hc Hw. constructor; [done| |done]. cbn.
  by rewrite (list_lookup_total_correct _ _ _ Hc).
Qed.

Lemma set_token_wf s x : reg_wf s -> x <> 0 -> reg_wf (set_backend_token_next s x).
Proof. intros [H1 H2 H3] Hx. by constructor. Qed.

Lemma cap_between_spec n o g c :
  cap_between n o g c = true <-> c_owner_pid c = o /\ c_grantee_pid c = g /\ name_equal (c_name c) n = true.
Proof. unfold cap_between. rewrite !andb_true_iff, !Z.eqb_eq. naive_solver. Qed.

Lemma cap_granted_ok c n o g rights sources pfx token :
  cap_ok c -> service_registry_name_valid (Some n) = true -> 0 < o -> 0 < g ->
  service_registry_backend_prefix_valid (Some pfx) = true ->
  let c' := cap_granted c n o g rights sources pfx token in
  cap_ok c' /\ cstr (c_name c') = cstr n /\ cstr (c_prefix c') = cstr pfx /\
  c_owner_pid c' = o /\ c_grantee_pid c' = g /\ c_rights c' = rights /\ c_sources c' = sources /\
  c_token c' = token /\ c_identity_key c' = key_or_zero g /\
  (c_owner_sequence c', c_owner_generation c') = identity_or_zero o /\
  (c_grantee_sequence c', c_grantee_generation c') = identity_or_zero g.
Proof.
  intros [H1 H2 _] Hn Ho Hg Hp c'. unfold c', cap_granted.
  destruct (identity_or_zero o) as [oq og], (identity_or_zero g) as [gq gg].
  destruct (copy_name_spec (c_name c) n H1 (name_valid_length n Hn)) as [H3 H4].
  destruct (copy_prefix_spec (c_prefix c) pfx H2 (prefix_valid_length pfx Hp)) as [H5 H6].
  cbn [c_name c_prefix c_owner_pid c_grantee_pid c_rights c_sources c_token c_identity_key
       c_owner_sequence c_owner_generation c_grantee_sequence c_grantee_generation].
  split; [|by repeat split]. constructor; [exact H4|exact H6|]. right.
  split; [exact Ho|]. split; [exact Hg|]. cbn [c_name]. rewrite (name_valid_cstr _ n H3). exact Hn.
Qed.

(** A row that records the current identities and key of both parties permits
    everything it covers. *)
Lemma fresh_row_permits s c n o g right source path :
  TaskViewLaws T -> 0 < o -> 0 < g -> resolve s n = Some o -> name_equal (c_name c) n = true ->
  c_owner_pid c = o -> c_grantee_pid c = g -> c_token c <> 0 ->
  c_identity_key c = key_or_zero g ->
  (c_owner_sequence c, c_owner_generation c) = identity_or_zero o ->
  (c_grantee_sequence c, c_grantee_generation c) = identity_or_zero g ->
  Z.land (c_rights c) right = right -> Z.land (c_sources c) source = source ->
  path_covered (c_prefix c) path -> permits s n g right source path c.
Proof.
  intros HT Ho Hg Hr Hn Eo Eg Ht Hk Hio Hig Hri Hso Hpa.
  pose proof (identity_now o Ho) as H1. rewrite <- Hio in H1.
  pose proof (identity_now g Hg) as H2. rewrite <- Hig in H2.
  constructor; try assumption; try (by split).
  - rewrite Hk. unfold identity_key_bound, key_or_zero.
    destruct (task_identity_key g) as [k|] eqn:Ek; cbn [default from_option id]; [|done].
    rewrite Z.eqb_refl, andb_true_r. apply negb_true_iff, Z.eqb_neq. by apply (identity_key_nonzero g).
  - congruence.
  - rewrite Eo. done.
Qed.

Lemma sub_mask a b c : Z.land a b = b -> Z.land b c = c -> Z.land a c = c.
Proof. intros H1 H2. rewrite <- H2 at 1. rewrite Z.land_assoc, H1. exact H2. Qed.

(** The guards of the grant call, as a proposition. *)
Definition grant_args (n : cstring) (o g rights sources : Z) (pfx : cstring) : Prop :=
  service_registry_name_valid (Some n) = true /\ 0 < o /\ 0 < g /\
  request_valid rights sources = true /\ service_registry_backend_prefix_valid (Some pfx) = true.

Lemma grant_unfold s n o g rights sources pfx :
  reg_wf s -> grant_args n o g rights sources pfx -> resolve s n = Some o ->
  service_registry_backend_grant_scoped_source_prefix s (Some n) o g rights sources (Some pfx) =
  match find_slot (cap_between n o g) (service_backend_caps s) with
  | Some i =>
      let c := service_backend_caps s !!! i in
      let combined_rights := Z.lor (c_rights c) rights in
      let combined_sources := Z.lor (c_sources c) sources in
      if negb (c_rights c =? combined_rights) || negb (c_sources c =? combined_sources)
         || negb (service_registry_backend_prefix_equal (Some (c_prefix c)) (Some pfx))
      then
        let fresh := c_token c =? 0 in
        let token := if fresh then service_backend_token_next s else c_token c in
        let s := update_cap s i (fun c => cap_widened c o g combined_rights combined_sources pfx token) in
        let s := if fresh then set_backend_token_next s (next_nonzero (service_backend_token_next s)) else s in
        (0, service_registry_backend_generation_bump s n)
      else (0, s)
  | None =>
      match find_slot (fun c => c_owner_pid c =? 0) (service_backend_caps s) with
      | None => (OS_SERVICE_FULL, s)
      | Some i =>
          let token := service_backend_token_next s in
          let s := update_cap s i (fun c => cap_granted c n o g rights sources pfx token) in
          let s := set_backend_token_next s (next_nonzero token) in
          (0, service_registry_backend_generation_bump s n)
      end
  end.
Proof.
  intros Hwf (Hn & Ho & Hg & Hreq & Hp) Hr.
  unfold service_registry_backend_grant_scoped_source_prefix. unfold request_valid in Hreq. bsimp.
  rewrite Hn, Hb0, Hp, (proj2 (Z.leb_gt o 0)), (proj2 (Z.leb_gt g 0)) by lia.
  rewrite (proj2 (Z.eqb_neq rights 0)), Hb2 by done. cbn [negb orb Z.eqb].
  rewrite (lookup_resolved s n o Hwf Hn Hr), Z.eqb_refl. done.
Qed.

(** A grant gives exactly what it says: when the owner of a name grants
    rights to a task that holds none from it yet, the call succeeds unless all
    rows are in use, and from then on the task passes the access test for every
    right, source and path the grant covers. The tables stay well-formed. *)
Theorem grant_gives_access :
  forall (s : registry_t) (n : cstring) (o g rights sources : Z) (pfx : cstring),
    TaskViewLaws T -> reg_wf s -> grant_args n o g rights sources pfx -> resolve s n = Some o ->
    find_slot (cap_between n o g) (service_backend_caps s) = None ->
    let '(rc, s') :=
      service_registry_backend_grant_scoped_source_prefix s (Some n) o g rights sources (Some pfx) in
    reg_wf s' /\
    ((rc = OS_SERVICE_FULL /\ s' = s /\ Forall (fun c => 0 < c_owner_pid c) (service_backend_caps s)) \/
     (rc = 0 /\ forall right source path,
        request_valid right source = true -> Z.land rights right = right ->
        Z.land sources source = source -> path_covered pfx path ->
        fst (service_registry_backend_allowed_for_source_path s' (Some n) g right source path) = 1)).
Proof.
  intros s n o g rights sources pfx HT Hwf Hargs Hr Hnone.
  rewrite (grant_unfold s n o g rights sources pfx Hwf Hargs Hr), Hnone.
  destruct Hargs as (Hn & Ho & Hg & _ & Hp).
  destruct (find_slot (fun c => c_owner_pid c =? 0) (service_backend_caps s)) as [i|] eqn:Hf.
  2: { split; [done|]. left. split; [done|]. split; [done|]. rewrite find_slot_None in Hf.
       apply Forall_lookup. intros i c Hc. specialize (Hf i c Hc). bsimp.
       destruct (caps_ok_lookup _ _ _ (rw_caps s Hwf) Hc) as [_ _ [[? _]|[? _]]]; [lia|done]. }
  apply find_slot_Some in Hf as (c & Hc & Hz & _). cbv zeta.
  set (token := service_backend_token_next s).
  destruct (cap_granted_ok c n o g rights sources pfx token
              (caps_ok_lookup _ _ _ (rw_caps s Hwf) Hc) Hn Ho Hg Hp)
    as (Hok & En & Ep & Eo & Eg & Er & Es & Et & Ek & Eio & Eig).
  set (f := fun c => cap_granted c n o g rights sources pfx token).
  set (c' := cap_granted c n o g rights sources pfx token) in *.
  assert (Hw : caps_wf (<[i := c']> (service_backend_caps s))).
  { apply (caps_wf_insert _ i c); [apply Hwf|done|done|]. rewrite Eo, Eg, En.
    intros _ j b _ Hb E1 E2 E3. rewrite find_slot_None in Hnone. specialize (Hnone j b Hb).
    assert (cap_between n o g b = true); [|congruence]. apply cap_between_spec.
    split; [done|]. split; [done|]. apply name_equal_spec. split; [done|]. rewrite E3. by apply name_valid_length. }
  assert (Hwf1 : reg_wf (set_backend_token_next (update_cap s i f) (next_nonzero token))).
  { apply set_token_wf; [by apply (update_cap_wf s i c)|apply next_nonzero_nz]. }
  pose proof (bump_wf _ n Hwf1) as Hwf2. split; [done|]. right. split; [done|].
  intros right source path Hreq Hri Hso Hpa. apply allowed_iff; [done|done|]. split; [done|].
  exists i, c'. rewrite bump_caps. split.
  { cbn. rewrite (list_lookup_total_correct _ _ _ Hc). apply list_lookup_insert_eq.
    by eapply lookup_lt_Some. }
  apply (fresh_row_permits _ c' n o g); try assumption.
  - etransitivity; [apply (same_names_resolve _ _ n (bump_same_names _ n)), Hwf1|exact Hr].
  - apply name_equal_spec. split; [done|]. rewrite En. by apply name_valid_length.
  - rewrite Et. apply Hwf.
  - by rewrite Er.
  - by rewrite Es.
  - destruct path; cbn in *; by rewrite Ep.
Qed.

(** ** Granting again *)

(** The scope of a later grant differs from the row's. *)
Definition scope_changes (c : service_backend_cap_t) (rights sources : Z) (pfx : cstring) : bool :=
  negb (c_rights c =? Z.lor (c_rights c) rights) || negb (c_sources c =? Z.lor (c_sources c) sources)
  || negb (service_registry_backend_prefix_equal (Some (c_prefix c)) (Some pfx)).

Lemma cap_widened_fields c o g rights sources pfx token :
  cap_ok c -> service_registry_backend_prefix_valid (Some pfx) = true ->
  let c' := cap_widened c o g rights sources pfx token in
  c_owner_pid c' = c_owner_pid c /\ c_grantee_pid c' = c_grantee_pid c /\ c_name c' = c_name c /\
  length (c_prefix c') = 48%nat /\ cstr (c_prefix c') = cstr pfx /\ c_rights c' = rights /\
  c_sources c' = sources /\ c_token c' = token /\ c_identity_key c' = key_or_zero g /\
  (c_owner_sequence c', c_owner_generation c') = identity_or_zero o /\
  (c_grantee_sequence c', c_grantee_generation c') = identity_or_zero g.
Proof.
  intros [_ H2 _] Hp c'. unfold c', cap_widened.
  destruct (identity_or_zero o) as [oq og], (identity_or_zero g) as [gq gg].
  destruct (copy_prefix_spec (c_prefix c) pfx H2 (prefix_valid_length pfx Hp)) as [H5 H6].
  repeat (split; [done || exact H6 || exact H5|]). done.
Qed.

(** The state after a grant that changes an existing row. *)
Lemma regrant_state s n o g rights sources pfx i c :
  reg_wf s -> grant_args n o g rights sources pfx -> resolve s n = Some o ->
  service_backend_caps s !! i = Some c -> cap_between n o g c = true ->
  scope_changes c rights sources pfx = true ->
  exists s' c',
    service_registry_backend_grant_scoped_source_prefix s (Some n) o g rights sources (Some pfx) = (0, s') /\
    reg_wf s' /\ (forall m, resolve s' m = resolve s m) /\
    service_backend_caps s' = <[i := c']> (service_backend_caps s) /\
    c' = cap_widened c o g (Z.lor (c_rights c) rights) (Z.lor (c_sources c) sources) pfx (c_token c') /\
    c_token c' <> 0.
Proof.
  intros Hwf Hargs Hr Hc Hb Hch. rewrite (grant_unfold s n o g rights sources pfx Hwf Hargs Hr).
  destruct Hargs as (Hn & Ho & Hg & _ & Hp).
  assert (Hf : find_slot (cap_between n o g) (service_backend_caps s) = Some i).
  { apply find_slot_Some. exists c. split; [done|]. split; [done|]. intros j b Hj Hbj.
    destruct (cap_between n o g b) eqn:E; [|done]. apply cap_between_spec in E as (E1 & E2 & E3), Hb as (F1 & F2 & F3).
    assert (j = i); [|lia]. apply (cw_unique _ (rw_caps s Hwf) j i b c); try done; try congruence; try lia.
    apply name_equal_cstr in E3, F3. congruence. }
  rewrite Hf. cbv zeta. rewrite (list_lookup_total_correct _ _ _ Hc). fold (scope_changes c rights sources pfx).
  rewrite Hch. set (token := if c_token c =? 0 then _ else c_token c).
  assert (Htok : token <> 0) by (unfold token; case_if; [apply Hwf|done]).
  set (f := fun c0 => cap_widened c0 o g _ _ pfx token).
  destruct (cap_widened_fields c o g (Z.lor (c_rights c) rights) (Z.lor (c_sources c) sources) pfx token
              (caps_ok_lookup _ _ _ (rw_caps s Hwf) Hc) Hp)
    as (E1 & E2 & E3 & E4 & E5 & E6 & E7 & E8 & _).
  assert (Hwf1 : reg_wf (update_cap s i f)).
  { apply (update_cap_wf s i c); [done|done|]. by apply (caps_wf_update _ i c); [apply Hwf|..]. }
  set (s1 := if c_token c =? 0 then _ else update_cap s i f).
  assert (Hs1 : reg_wf s1 /\ service_entries s1 = service_entries s /\
                service_backend_caps s1 = <[i := f c]> (service_backend_caps s)).
  { assert (service_backend_caps (update_cap s i f) = <[i := f c]> (service_backend_caps s))
      by (cbn; by rewrite (list_lookup_total_correct _ _ _ Hc)).
    unfold s1. case_if; [|done]. split; [|done]. apply set_token_wf; [done|apply next_nonzero_nz]. }
  destruct Hs1 as (Hw1 & He1 & Hc1). clearbody s1.
  exists (service_registry_backend_generation_bump s1 n), (f c). split; [done|].
  split; [by apply bump_wf|]. split.
  - intros m. rewrite (same_names_resolve _ _ m (bump_same_names s1 n)) by apply Hw1.
    unfold resolve. by rewrite He1.
  - rewrite bump_caps. split; [done|]. assert (c_token (f c) = token) as -> by exact E8. split; [reflexivity|done].
Qed.

(** Granting again merges scopes: when the owner grants to a task that
    already holds a row from it, the rights and sources of both grants are
    united and the whole union is valid under the new prefix, and only there.
    The earlier rights thus also hold below a prefix they were never granted
    for, and the earlier prefix is forgotten. *)
Theorem regrant_merges_scopes :
  forall (s : registry_t) (n : cstring) (o g rights sources : Z) (pfx : cstring) (i : nat)
         (c : service_backend_cap_t),
    TaskViewLaws T -> reg_wf s -> grant_args n o g rights sources pfx -> resolve s n = Some o ->
    service_backend_caps s !! i = Some c -> cap_between n o g c = true ->
    scope_changes c rights sources pfx = true ->
    let '(rc, s') :=
      service_registry_backend_grant_scoped_source_prefix s (Some n) o g rights sources (Some pfx) in
    rc = 0 /\ reg_wf s' /\
    forall right source path, request_valid right source = true ->
      (fst (service_registry_backend_allowed_for_source_path s' (Some n) g right source path) = 1 <->
       Z.land (Z.lor (c_rights c) rights) right = right /\
       Z.land (Z.lor (c_sources c) sources) source = source /\ path_covered pfx path).
Proof.
  intros s n o g rights sources pfx i c HT Hwf Hargs Hr Hc Hb Hch.
  destruct (regrant_state s n o g rights sources pfx i c Hwf Hargs Hr Hc Hb Hch)
    as (s' & c' & -> & Hw' & Hres & Hcaps & Ec' & Htok).
  destruct Hargs as (Hn & Ho & Hg & _ & Hp). apply cap_between_spec in Hb as (Eo & Eg & En).
  split; [done|]. split; [done|]. intros right source path Hreq. rewrite allowed_iff by done.
  destruct (cap_widened_fields c o g (Z.lor (c_rights c) rights) (Z.lor (c_sources c) sources) pfx (c_token c')
              (caps_ok_lookup _ _ _ (rw_caps s Hwf) Hc) Hp)
    as (E1 & E2 & E3 & _ & E5 & E6 & E7 & _ & E9 & E10 & E11).
  rewrite <- Ec' in E1, E2, E3, E5, E6, E7, E9, E10, E11.
  assert (Hcov : path_covered (c_prefix c') path <-> path_covered pfx path)
    by (destruct path; cbn; by rewrite E5).
  split.
  - intros (_ & j & b & Hj & [[Hbg Hbn] _ _ Hown _ _ Hri Hso Hpa]).
    assert (b = c') as ->; [|by rewrite E6, E7, Hcov in *].
    rewrite Hcaps in Hj. apply list_lookup_insert_Some in Hj as [(_ & <- & _)|[Hji Hj]]; [done|].
    destruct Hji. rewrite Hres, Hr in Hown. injection Hown as Hbo.
    apply name_equal_cstr in Hbn, En.
    apply (cw_unique _ (rw_caps s Hwf) i j c b Hc Hj); [lia|congruence|congruence|congruence].
  - intros (Hri & Hso & Hpa). split; [done|]. exists i, c'. split.
    { rewrite Hcaps. apply list_lookup_insert_eq. by eapply lookup_lt_Some. }
    apply (fresh_row_permits _ c' n o g); try done.
    + by rewrite Hres.
    + by rewrite E3.
    + congruence.
    + congruence.
    + by rewrite E6.
    + by rewrite E7.
    + by apply Hcov.
Qed.

(** ** Taking rights back *)

Lemma refused_unless s n pid right source path :
  reg_wf s -> service_registry_name_valid (Some n) = true ->
  (forall i c, service_backend_caps s !! i = Some c -> permits s n pid right source path c -> False) ->
  fst (service_registry_backend_allowed_for_source_path s (Some n) pid right source path) = 0.
Proof.
  intros Hwf Hn H. destruct (allowed_01 s n pid right source path Hwf Hn) as [|H1]; [done|].
  apply allowed_iff in H1 as [_ (i & c & Hc & Hp)]; [|done|done]. by destruct (H i c Hc Hp).
Qed.

Lemma resolve_pos s n p : entries_wf (service_entries s) -> resolve s n = Some p -> 0 < p.
Proof.
  intros Hwf Hr. unfold resolve in Hr. apply bind_Some in Hr as (e & (i & He & Hen)%(named_spec _ Hwf) & Hv).
  apply entry_named_spec in Hen as [? _]. destruct (entry_valid e); [|done]. by injection Hv as <-.
Qed.

(** Two tables give a task the same authority over a name when the name resolves alike and
    the rows its owner gave the task are the same. *)
Lemma same_authority s s' n p right source path :
  reg_wf s -> reg_wf s' -> service_registry_name_valid (Some n) = true -> resolve s' n = resolve s n ->
  (forall c, c_grantee_pid c = p -> name_equal (c_name c) n = true -> resolve s n = Some (c_owner_pid c) ->
     c ∈ service_backend_caps s <-> c ∈ service_backend_caps s') ->
  fst (service_registry_backend_allowed_for_source_path s' (Some n) p right source path) =
  fst (service_registry_backend_allowed_for_source_path s (Some n) p right source path).
Proof.
  intros Hwf Hwf' Hn Hr Hrows. rewrite !allowed_spec by done. do 2 f_equal. apply eq_true_iff_eq. rewrite !existsb_exists.
  setoid_rewrite row_permits_spec. setoid_rewrite <- list_elem_of_In.
  split; intros (c & Hc & Hp); exists c; pose proof (pm_holder _ _ _ _ _ _ _ Hp) as [Hg Hname]; pose proof (pm_owner _ _ _ _ _ _ _ Hp) as Ho.
  - rewrite Hr in Ho. split; [by apply Hrows|]. destruct Hp. constructor; try done.
  - split; [by apply Hrows|]. destruct Hp. constructor; try done. by rewrite Hr.
Qed.

Lemma resolve_cstr s n m : service_registry_name_valid (Some m) = true -> cstr n = cstr m -> resolve s n = resolve s m.
Proof.
  intros Hm E. unfold resolve, named. erewrite (find_slot_ext (entry_named n) (entry_named m)); [done|].
  apply Forall_forall. intros e _. unfold entry_named. by rewrite (name_equal_sym _ n), (name_equal_sym _ m), (name_equal_cong n m).
Qed.

(** A lookup changes nobody's authority. *)
Lemma lookup_authority s n m p right source path :
  reg_wf s -> service_registry_name_valid (Some n) = true -> service_registry_name_valid (Some m) = true ->
  fst (service_registry_backend_allowed_for_source_path (snd (service_registry_lookup s (Some n))) (Some m) p right source path) =
  fst (service_registry_backend_allowed_for_source_path s (Some m) p right source path).
Proof.
  intros Hwf Hn Hm. destruct (lookup_spec s n (rw_entries s Hwf) Hn) as [_ [_ Hres]].
  apply same_authority; [done|by apply lookup_wf|done|apply Hres|]. intros c _ Hc Hown.
  unfold service_registry_lookup in *. rewrite Hn in *. cbn [negb] in *. change (str (Some n)) with n in *.
  destruct (find_slot (entry_named n) (service_entries s)) as [i|] eqn:Hf; [|done].
  destruct (entry_valid (service_entries s !!! i)) eqn:Ev; [done|]. cbn [snd] in *. rewrite remove_name_caps by done.
  change (service_backend_caps (update_entry s i entry_dropped)) with (service_backend_caps s).
  assert (Hnone : resolve s n = None).
  { destruct (find_named _ (rw_entries s Hwf) n i Hf) as (e & He & Hnamed & _ & Ht). unfold resolve. rewrite Hnamed. cbn. by rewrite Ht in Ev; rewrite Ev. }
  assert (Hno : cap_named n c = false).
  { destruct (cap_named n c) eqn:E; [|done]. unfold cap_named in E. apply andb_true_iff in E as [_ E].
    apply name_equal_cstr in E, Hc. rewrite <- (resolve_cstr s n m) in Hown by (try done; congruence). congruence. }
  rewrite list_elem_of_fmap. split.
  - intros Hin. exists c. by rewrite Hno.
  - intros (c0 & Ec & Hin). destruct (cap_named n c0); [|by subst]. subst c. cbn in Hown. apply resolve_pos in Hown; [lia|apply Hwf].
Qed.

(** C3. Revocation is immediate, complete and exact: after the owner revokes a task's
    capability on a name, that task fails the access test for that name whatever right,
    source or path it asks for, and the test answers as before for every other task and
    every other name.  Only the current owner can revoke; a refused revocation changes
    nobody's authority; the tables stay well-formed. *)
Theorem revoke_is_effective :
  forall (s : registry_t) (n : cstring) (o g : Z),
    reg_wf s -> service_registry_name_valid (Some n) = true -> 0 < o -> 0 < g ->
    let '(rc, s') := service_registry_backend_revoke s (Some n) o g in
    reg_wf s' /\ (resolve s n <> Some o -> rc = OS_SERVICE_NOT_OWNER) /\
    (rc = 0 -> forall right source path,
       fst (service_registry_backend_allowed_for_source_path s' (Some n) g right source path) = 0) /\
    (forall m p right source path, service_registry_name_valid (Some m) = true ->
       rc <> 0 \/ p <> g \/ cstr m <> cstr n ->
       fst (service_registry_backend_allowed_for_source_path s' (Some m) p right source path) =
       fst (service_registry_backend_allowed_for_source_path s (Some m) p right source path)).
Proof.
  intros s n o g Hwf Hn Ho Hg. unfold service_registry_backend_revoke.
  rewrite Hn, (proj2 (Z.leb_gt o 0)), (proj2 (Z.leb_gt g 0)) by lia. cbn [negb orb].
  change (str (Some n)) with n.
  destruct (decide (resolve s n = Some o)) as [Hr|Hr].
  2: { destruct (lookup_spec s n (rw_entries s Hwf) Hn) as [H1 _].
       pose proof (lookup_wf s (Some n) Hwf) as Hw. pose proof (lookup_authority s n) as Hau.
       destruct (service_registry_lookup s (Some n)) as [r s1]. cbn [fst snd] in *.
       assert (r <> o) as Hne.
       { destruct (resolve s n) as [p|]; cbn in H1; [congruence|]. unfold OS_SERVICE_NOT_FOUND in H1. lia. }
       rewrite (proj2 (Z.eqb_neq r o)) by done. cbn [negb]. split; [done|]. split; [done|]. split; [done|]. intros m p right source path Hm _. by apply Hau. }
  rewrite (lookup_resolved s n o Hwf Hn Hr), Z.eqb_refl. cbn [negb].
  destruct (find_slot (cap_between n o g) (service_backend_caps s)) as [i|] eqn:Hf; [|done].
  apply find_slot_Some in Hf as (c & Hc & Hb & _). apply cap_between_spec in Hb as (Eo & Eg & En).
  pose proof (caps_ok_lookup _ _ _ (rw_caps s Hwf) Hc) as Hok.
  assert (Hwf1 : reg_wf (update_cap s i cap_cleared)).
  { apply (update_cap_wf s i c); [done|done|]. apply (caps_wf_free _ i c); [apply Hwf|done|by apply cap_cleared_free]. }
  pose proof (bump_wf _ n Hwf1) as Hwf2.
  assert (Hres : forall m, resolve (service_registry_backend_generation_bump (update_cap s i cap_cleared) n) m = resolve s m)
    by (intros m; by rewrite (same_names_resolve _ _ m (bump_same_names _ n)) by apply Hwf1).
  assert (Hcaps : service_backend_caps (service_registry_backend_generation_bump (update_cap s i cap_cleared) n) = <[i := cap_cleared c]> (service_backend_caps s))
    by (rewrite bump_caps; cbn; by rewrite (list_lookup_total_correct _ _ _ Hc)).
  split; [done|]. split; [done|]. split.
  - intros _ right source path. apply refused_unless; [done|done|]. intros j b Hb [[Hbg Hbn] _ _ Hown _ _ _ _ _].
    rewrite Hres in Hown. rewrite Hcaps in Hb. apply list_lookup_insert_Some in Hb as [(-> & <- & _)|[Hji Hb]].
    + cbn in Hown. rewrite Hr in Hown. injection Hown as ->. lia.
    + apply Hji. apply (cw_unique _ (rw_caps s Hwf) i j c b); try done; try congruence; try lia.
      apply name_equal_cstr in En, Hbn. congruence.
  - intros m p right source path Hm Hother. apply same_authority; [done|done|done|apply Hres|]. intros x Hxg Hxn Hxo. rewrite Hcaps, !list_elem_of_lookup.
    assert (Hx : x <> c) by (intros ->; apply name_equal_cstr in En, Hxn; destruct Hother as [?|[?|?]]; congruence).
    assert (Hx' : x <> cap_cleared c) by (intros ->; cbn in Hxo; apply resolve_pos in Hxo; [lia|apply Hwf]).
    split; intros [j Hj]; exists j; destruct (decide (i = j)) as [->|Hij]; try congruence.
    + by rewrite list_lookup_insert_ne.
    + rewrite list_lookup_insert_eq in Hj by (by eapply lookup_lt_Some). congruence.
    + by rewrite list_lookup_insert_ne in Hj.
Qed.

Lemma remove_name_no_row s n i c :
  service_registry_name_valid (Some n) = true ->
  service_backend_caps (service_registry_backend_remove_name s (Some n)) !! i = Some c ->
  cap_named n c = false.
Proof.
  intros Hn. rewrite remove_name_caps by done. intros (c0 & -> & _)%list_lookup_fmap_Some.
  by destruct (cap_named n c0) eqn:E.
Qed.

Lemma no_row_refused s n pid right source path :
  reg_wf s -> service_registry_name_valid (Some n) = true ->
  (forall i c, service_backend_caps s !! i = Some c -> cap_named n c = false) ->
  fst (service_registry_backend_allowed_for_source_path s (Some n) pid right source path) = 0.
Proof.
  intros Hwf Hn Hno. apply refused_unless; [done|done|].
  intros i c Hc [[_ Hcn] _ _ Hown _ _ _ _ _].
  pose proof (resolve_pos s n _ (rw_entries s Hwf) Hown) as Hpos.
  specialize (Hno i c Hc). unfold cap_named in Hno. rewrite Hcn, (proj2 (Z.ltb_lt 0 _)) in Hno by done. done.
Qed.

Lemma handoff_row_wf s i e g :
  reg_wf s -> service_entries s !! i = Some e -> 0 < e_pid e -> 0 < g ->
  let '(q, k) := identity_or_zero g in
  reg_wf (update_entry s i (fun e => mk_entry g q k (e_name e) (e_backend_generation e)
            (e_right_token e) (key_or_zero g))).
Proof.
  intros [H1 H2 H3] He Hp Hg. destruct (identity_or_zero g) as [q k].
  constructor; [|done|done]. cbn. rewrite (list_lookup_total_correct _ _ _ He).
  apply (wf_update _ H1 i e); cbn; (done || lia).
Qed.

(** A hand-off leaves no old authority behind: after the owner passes a name
    on, no task at all passes the access test of that name until the new owner
    grants again. (The file-system name "vfs" is the exception the code makes:
    its new owner gets a grant to itself while the storage worker is live.) *)
Theorem handoff_revokes_all :
  forall (s : registry_t) (n : cstring) (o g : Z),
    reg_wf s -> service_registry_name_valid (Some n) = true -> 0 < o -> 0 < g ->
    name_equal n (lit "vfs") = false ->
    let '(rc, s') := service_registry_grant s (Some n) o g in
    reg_wf s' /\
    (rc = 0 -> forall pid right source path,
       fst (service_registry_backend_allowed_for_source_path s' (Some n) pid right source path) = 0).
Proof.
  intros s n o g Hwf Hn Ho Hg Hv. unfold service_registry_grant.
  rewrite Hn, (proj2 (Z.leb_gt o 0)), (proj2 (Z.leb_gt g 0)) by lia. cbn [negb orb].
  change (str (Some n)) with n. rewrite (scan_any _ (rw_entries s Hwf) n Hn).
  destruct (find_slot (entry_named n) (service_entries s)) as [i|] eqn:Hf; [|done].
  destruct (find_named _ (rw_entries s Hwf) n i Hf) as (e & He & _ & Hen & Ht). rewrite Ht.
  pose proof Hen as [Hpe _]%entry_named_spec.
  destruct (negb (e_pid e =? o) || _); [done|].
  pose proof (handoff_row_wf s i e g Hwf He Hpe Hg) as Hw.
  destruct (identity_or_zero g) as [q k]. set (s1 := update_entry s i _) in *. clearbody s1.
  unfold handoff_finish. change (str (Some n)) with n. rewrite Hv.
  pose proof (remove_name_wf s1 (Some n) Hw) as Hw2. split; [done|]. intros _ pid right source path.
  apply no_row_refused; [done|done|]. intros j c. by apply remove_name_no_row.
Qed.

(** ** Task death *)

(** The row of a dead task's name. *)
Definition entry_purged (e : service_registry_entry_t) : service_registry_entry_t :=
  mk_entry 0 (e_sequence e) (e_generation e) (clear_string (e_name e)) (e_backend_generation e) 0 0.

Lemma purge_wf es (p : service_registry_entry_t -> bool) :
  entries_wf es -> entries_wf (map (fun e => if p e then entry_purged e else e) es).
Proof.
  intros [Hl Hok Hu]. constructor.
  - by rewrite length_map.
  - apply Forall_fmap. eapply Forall_impl; [done|]. intros e [H1 H2]. cbn. destruct (p e); [|done].
    constructor; cbn; [by rewrite clear_string_length|]. left. split; [done|].
    by apply clear_string_chr, nonempty16.
  - intros i j a b (a0 & -> & Ha)%list_lookup_fmap_Some (b0 & -> & Hb)%list_lookup_fmap_Some.
    destruct (p a0); [cbn; lia|]. destruct (p b0); [cbn; lia|]. by apply Hu.
Qed.

(** Purging the rows of [pid] removes its names and keeps the others. *)
Lemma purge_resolve s s' pid n :
  entries_wf (service_entries s) ->
  service_entries s' = map (fun e => if e_pid e =? pid then entry_purged e else e) (service_entries s) ->
  resolve s' n = if bool_decide (resolve s n = Some pid) then None else resolve s n.
Proof.
  intros Hwf E. assert (Hwf' : entries_wf (service_entries s')) by (rewrite E; by apply purge_wf).
  assert (Hn : forall e, named (service_entries s') n = Some e <->
    named (service_entries s) n = Some e /\ e_pid e <> pid).
  { intros e. rewrite (named_spec _ Hwf'), (named_spec _ Hwf), E. split.
    - intros (i & (e0 & -> & He)%list_lookup_fmap_Some & Hen).
      destruct (Z.eqb_spec (e_pid e0) pid) as [Ep|Ep]; [done|]. by eauto.
    - intros ((i & He & Hen) & Hne). exists i. split; [|done].
      apply list_lookup_fmap_Some. exists e. by rewrite (proj2 (Z.eqb_neq _ _)). }
  unfold resolve. destruct (named (service_entries s') n) as [e|] eqn:E'.
  - pose proof (proj1 (Hn e) eq_refl) as [Hs Hne]. rewrite Hs. cbn [mbind option_bind].
    destruct (entry_valid e); [|done]. rewrite bool_decide_eq_false_2; [done|]. congruence.
  - cbn [mbind option_bind]. destruct (named (service_entries s) n) as [e|] eqn:Es; cbn [mbind option_bind]; [|done].
    destruct (Z.eq_dec (e_pid e) pid) as [Ep|Ep].
    + destruct (entry_valid e); [|done]. by rewrite bool_decide_eq_true_2 by congruence.
    + assert (None = Some e); [|done]. by apply Hn.
Qed.

Lemma bumps_same_names pid cs : forall s,
  same_names s (fold_left (fun s c => if cap_involves pid c
     then service_registry_backend_generation_bump s (c_name c) else s) cs s) /\
  service_backend_caps (fold_left (fun s c => if cap_involves pid c
     then service_registry_backend_generation_bump s (c_name c) else s) cs s) = service_backend_caps s /\
  service_backend_token_next (fold_left (fun s c => if cap_involves pid c
     then service_registry_backend_generation_bump s (c_name c) else s) cs s) = service_backend_token_next s.
Proof.
  induction cs as [|c cs IH]; intros s; cbn [fold_left]; [by repeat split; [apply same_names_refl|..]|].
  set (s1 := if cap_involves pid c then _ else s).
  assert (same_names s s1 /\ service_backend_caps s1 = service_backend_caps s /\
          service_backend_token_next s1 = service_backend_token_next s) as (H1 & H2 & H3).
  { unfold s1. destruct (cap_involves pid c); [|by repeat split; [apply same_names_refl|..]].
    split; [apply bump_same_names|]. split; [apply bump_caps|apply bump_token]. }
  destruct (IH s1) as (H4 & H5 & H6). split; [by eapply same_names_trans|].
  split; congruence.
Qed.

Lemma backend_remove_pid_spec s pid :
  reg_wf s -> 0 < pid ->
  let s' := service_registry_backend_remove_pid s pid in
  reg_wf s' /\ same_names s s' /\
  forall i c, service_backend_caps s' !! i = Some c -> c_owner_pid c <> pid /\ c_grantee_pid c <> pid.
Proof.
  intros Hwf Hp s'. unfold s', service_registry_backend_remove_pid.
  rewrite (proj2 (Z.leb_gt pid 0)) by lia.
  destruct (bumps_same_names pid (service_backend_caps s) s) as (H1 & H2 & H3).
  set (s1 := fold_left _ _ s) in *. clearbody s1. destruct Hwf as [Hw1 Hw2 Hw3].
  split; [|split].
  - constructor; [by apply (same_names_wf s)|apply caps_wf_map; by rewrite H2|cbn; congruence].
  - exact H1.
  - intros i c (c0 & -> & _)%list_lookup_fmap_Some. unfold cap_involves.
    destruct (Z.eqb_spec (c_owner_pid c0) pid), (Z.eqb_spec (c_grantee_pid c0) pid); cbn; split; (done || lia).
Qed.

(** A dead task leaves nothing behind: once a PID is purged it owns no name,
    holds no capability on any name and no hardware port right, has no
    undelivered notification and no spilled message, so a new task that gets the
    same PID inherits nothing; every name owned by another task keeps its
    owner. *)
Theorem dead_task_leaves_nothing :
  forall (s : registry_t) (pid : Z),
    reg_wf s -> 0 < pid ->
    let '(_, s') := service_registry_remove_pid s pid in
    reg_wf s' /\
    (forall n, resolve s' n = if bool_decide (resolve s n = Some pid) then None else resolve s n) /\
    (forall n right source path, service_registry_name_valid (Some n) = true ->
       fst (service_registry_backend_allowed_for_source_path s' (Some n) pid right source path) = 0) /\
    service_registry_ata_ports_granted s' pid = 0 /\
    Forall (fun e => n_watcher_pid e <> pid) (service_notify_history s') /\
    Forall (fun p => c_true (s_used p) && (s_watcher_pid p =? pid) = false) (service_ipc_spill s').
Proof.
  intros s pid Hwf Hp. unfold service_registry_remove_pid. rewrite (proj2 (Z.leb_gt pid 0)) by lia.
  destruct (backend_remove_pid_spec s pid Hwf Hp) as (Hw1 & Hs1 & Hcaps).
  set (s1 := service_registry_backend_remove_pid s pid) in *. clearbody s1.
  set (s2 := ipc_spill_clear_pid _ pid).
  assert (He : service_entries s2 = map (fun e => if e_pid e =? pid then entry_purged e else e)
                                      (service_entries s1)) by reflexivity.
  assert (Hw2 : reg_wf s2) by (destruct Hw1; constructor; [rewrite He; by apply purge_wf|done|done]).
  split; [done|]. split; [|split; [|split; [|split]]].
  - intros n. rewrite (purge_resolve s1 s2 pid n (rw_entries _ Hw1) He).
    by rewrite (same_names_resolve s s1) by (done || apply Hwf).
  - intros n right source path Hn. apply refused_unless; [done|done|].
    intros i c Hc [[Hg _] _ _ _ _ _ _ _ _]. by destruct (Hcaps i c Hc).
  - unfold service_registry_ata_ports_granted, service_right_held. rewrite (proj2 (Z.leb_gt pid 0)) by lia.
    rewrite He. match goal with |- b2z ?x = 0 => assert (x = false) as ->; [|done] end.
    apply not_true_iff_false. rewrite existsb_exists. intros (e & (e0 & <- & _)%in_map_iff & Hq).
    repeat apply andb_true_iff in Hq as [Hq _]. apply Z.eqb_eq in Hq.
    destruct (Z.eqb_spec (e_pid e0) pid); cbn in Hq; [lia|done].
  - apply Forall_fmap, Forall_true. intros e. cbn.
    destruct (Z.eqb_spec (n_watcher_pid e) pid); cbn; (done || lia).
  - apply Forall_fmap, Forall_true. intros p. cbn.
    destruct (c_true (s_used p) && (s_watcher_pid p =? pid)) eqn:E; [done|exact E].
Qed.
End Caps.
