(* ===== verification/RegistryInv.v ===== *)
(** * Reachable states of the service registry

    All operations as one step relation, started by [service_registry_init] with
    whatever the disk holds; the task table may change arbitrarily between two
    steps.  The invariant below holds in every reachable state, so the theorems
    of RegistryNames and RegistryCaps apply there. *)

From Stdlib Require Import ZArith Lia String.
From stdpp Require Import base numbers option tactics list.
From S2P Require Import Prelude Bytes Names Ipc RegistryState Journal Registry RegistryNames RegistryCaps.

(** Sectors read at boot have the size asked for. *)
Class KernelHooksLaws (K : KernelHooks) : Prop := {
  journal_read_size : forall lba count b,
    kernel_journal_read lba count = Some b -> blen b = 512 * count /\ Forall is_u8 b
}.

Record reg_inv (s : registry_t) : Prop := {
  ri_wf : reg_wf s;
  ri_mounts : mounts_wf (persistent_mounts s);
  ri_watches : length (service_watches s) = 8%nat;
  ri_history : length (service_notify_history s) = 8%nat;
  ri_spill : length (service_ipc_spill s) = 8%nat
}.

Inductive registry_op :=
  | ORegister (name : ptr cstring) (pid : Z)
  | OLookup (name : ptr cstring)
  | ORemove (name : ptr cstring) (pid : Z)
  | OHandoff (name : ptr cstring) (owner grantee : Z)
  | OGrant (name : ptr cstring) (owner grantee rights sources : Z) (pfx : ptr cstring)
  | ORevoke (name : ptr cstring) (owner grantee : Z)
  | ORelease (name : ptr cstring) (grantee : Z)
  | OClearToken (name : ptr cstring) (grantee : Z)
  | OAllowed (name : cstring) (pid right source : Z) (path : ptr cstring)
  | ORemovePid (pid : Z)
  | OSubscribe (name : ptr cstring) (pid : Z)
  | ORemoveWatcher (pid : Z)
  | ONotify (name : ptr cstring) (watcher old_pid new_pid reason : Z)
  | OPull (watcher : Z)
  | OAck (watcher sequence : Z)
  | OReplay (watcher sequence : Z)
  | OSpillPush (watcher : Z) (payload : ptr os_ipc_payload_t)
  | OSpillPop (watcher : Z)
  | OMountAdd (name pfx : ptr cstring) (source : Z)
  | OMountRemove (name pfx : ptr cstring)
  | OInstall (which : Z) (buf : bytes).

(** Arguments the C types allow. *)
Definition op_ok (op : registry_op) : Prop :=
  match op with
  | OMountAdd _ _ source => is_u32 source
  | OInstall _ buf => Forall is_u8 buf
  | _ => True
  end.

Definition run_op `{T : TaskView} `{K : KernelHooks} (op : registry_op) (s : registry_t) : registry_t :=
  match op with
  | ORegister n p => snd (service_registry_register s n p)
  | OLookup n => snd (service_registry_lookup s n)
  | ORemove n p => snd (service_registry_remove s n p)
  | OHandoff n o g => snd (service_registry_grant s n o g)
  | OGrant n o g r src p => snd (service_registry_backend_grant_scoped_source_prefix s n o g r src p)
  | ORevoke n o g => snd (service_registry_backend_revoke s n o g)
  | ORelease n g => snd (service_registry_backend_release s n g)
  | OClearToken n g => snd (service_registry_backend_clear_token s n g)
  | OAllowed n p r src path =>
      snd (service_registry_backend_allowed_for_source_path s (Some n) p r src path)
  | ORemovePid p => snd (service_registry_remove_pid s p)
  | OSubscribe n p => snd (service_registry_subscribe s n p)
  | ORemoveWatcher p => snd (service_registry_remove_watcher_pid s p)
  | ONotify n w o p r => snd (service_registry_notify_record s n w o p r NULL)
  | OPull w => snd (service_registry_notify_pull s w (Some zero_event))
  | OAck w q => snd (service_registry_notify_ack s w q)
  | OReplay w q => snd (service_registry_notify_replay s w q)
  | OSpillPush w p => snd (service_registry_ipc_spill_push s w p)
  | OSpillPop w => snd (service_registry_ipc_spill_pop s w (Some zero_payload))
  | OMountAdd n p src => snd (service_registry_persistent_mount_add s n p src)
  | OMountRemove n p => snd (service_registry_persistent_mount_remove s n p)
  | OInstall which buf =>
      match service_registry_boot_journal_install s which (Some buf) (blen buf) with
      | Some (_, s') => s'
      | None => s
      end
  end.

Inductive reachable (K : KernelHooks) : registry_t -> Prop :=
  | reach_boot : reachable K (service_registry_init bss_registry)
  | reach_step (T : TaskView) (op : registry_op) (s : registry_t) :
      reachable K s -> op_ok op -> reachable K (run_op op s).

(** ** Names and capabilities *)

Section Ops.
Context `{T : TaskView} `{K : KernelHooks}.

Lemma name_case (n : ptr cstring) :
  service_registry_name_valid n = true \/ service_registry_name_valid n = false.
Proof. destruct (service_registry_name_valid n); auto. Qed.

Lemma register_wf s n pid : reg_wf s -> reg_wf (snd (service_registry_register s n pid)).
Proof.
  intros Hwf. destruct n as [n|]; [|done].
  destruct (name_case (Some n)) as [Hn|Hn];
    [|unfold service_registry_register; by rewrite Hn].
  destruct (Z.leb_spec pid 0) as [Hp|Hp].
  { unfold service_registry_register. by rewrite Hn, (proj2 (Z.leb_le pid 0)). }
  pose proof (register_spec s n pid (rw_entries s Hwf) Hn Hp) as H.
  assert (Hc : service_backend_caps (snd (service_registry_register s (Some n) pid)) = service_backend_caps s
    /\ service_backend_token_next (snd (service_registry_register s (Some n) pid)) = service_backend_token_next s).
  { assert (Hat : forall i, service_backend_caps (register_at s i n pid) = service_backend_caps s /\
      service_backend_token_next (register_at s i n pid) = service_backend_token_next s)
      by (intros i; unfold register_at; by destruct (identity_or_zero pid)).
    unfold service_registry_register. destruct (_ || _); [done|]. change (str (Some n)) with n.
    destruct (find_slot _ _); [repeat case_if; try done; apply Hat|].
    destruct (find_slot _ _); [apply Hat|done]. }
  destruct (service_registry_register s (Some n) pid) as [rc s']. cbn [snd] in *.
  destruct Hc as [Hc1 Hc2], H as [He _], Hwf as [_ H2 H3]. constructor; [done|by rewrite Hc1|by rewrite Hc2].
Qed.

Lemma drop_wf s i e :
  reg_wf s -> service_entries s !! i = Some e -> reg_wf (update_entry s i entry_dropped).
Proof.
  intros [H1 H2 H3] He. destruct (drop_row s i e H1 He) as [H4 _]. by constructor.
Qed.

Lemma remove_wf s n pid : reg_wf s -> reg_wf (snd (service_registry_remove s n pid)).
Proof.
  intros Hwf. unfold service_registry_remove. destruct (_ || _); [done|].
  destruct (find_slot _ _) as [i|] eqn:Hf; [|done]. apply find_slot_Some in Hf as (e & He & _).
  cbn [snd]. apply remove_name_wf. by apply (drop_wf s i e).
Qed.

Lemma grant_wf s n o g rights sources prefix :
  reg_wf s ->
  reg_wf (snd (service_registry_backend_grant_scoped_source_prefix s n o g rights sources prefix)).
Proof.
  intros Hwf. unfold service_registry_backend_grant_scoped_source_prefix.
  destruct (service_registry_name_valid n) eqn:Hn; cbn [negb orb]; [|done].
  destruct (service_registry_backend_prefix_valid prefix) eqn:Hp; rewrite ?orb_true_r; cbn [negb orb]; [|done].
  destruct n as [n|]; [|done]. destruct prefix as [pfx|]; [|done].
  case_if; [done|]. bsimp. pose proof (lookup_wf s (Some n) Hwf) as Hw.
  destruct (service_registry_lookup s (Some n)) as [r s1]. cbn [snd] in Hw. change (str (Some n)) with n.
  change (str (Some pfx)) with pfx.
  case_if; [done|]. destruct (find_slot (cap_between n o g) _) as [i|] eqn:Hf.
  - apply find_slot_Some in Hf as (c & Hc & _). rewrite (list_lookup_total_correct _ _ _ Hc).
    case_if; [|done]. cbn [snd]. apply bump_wf.
    set (token := if c_token c =? 0 then service_backend_token_next s1 else c_token c).
    assert (reg_wf (update_cap s1 i (fun c0 => cap_widened c0 o g (Z.lor (c_rights c) rights)
              (Z.lor (c_sources c) sources) pfx token))) as Hu.
    { apply (update_cap_wf s1 i c); [done|done|].
      destruct (cap_widened_fields c o g (Z.lor (c_rights c) rights) (Z.lor (c_sources c) sources) pfx token
        (caps_ok_lookup _ _ _ (rw_caps s1 Hw) Hc) Hp) as (E1 & E2 & E3 & E4 & _).
      by apply (caps_wf_update _ i c); [apply Hw|..]. }
    case_if; [|done]. apply set_token_wf; [done|apply next_nonzero_nz].
  - destruct (find_slot (fun c => c_owner_pid c =? 0) _) as [i|] eqn:Hg; [|done]. cbn [snd].
    apply find_slot_Some in Hg as (c & Hc & _).
    apply bump_wf, set_token_wf; [|apply next_nonzero_nz].
    destruct (cap_granted_ok c n o g rights sources pfx (service_backend_token_next s1)
                (caps_ok_lookup _ _ _ (rw_caps s1 Hw) Hc) Hn ltac:(lia) ltac:(lia) Hp)
      as (Hok & En & _ & Eo & Eg & _).
    apply (update_cap_wf s1 i c); [done|done|].
    apply (caps_wf_insert _ i c); [apply Hw|done|done|]. rewrite Eo, Eg, En.
    intros _ j b _ Hj E1 E2 E3. rewrite find_slot_None in Hf. specialize (Hf j b Hj).
    assert (cap_between n o g b = true); [|congruence]. apply cap_between_spec.
    split; [done|]. split; [done|]. apply name_equal_spec. split; [done|]. rewrite E3.
    by apply name_valid_length.
Qed.

Lemma handoff_wf s n o g : reg_wf s -> reg_wf (snd (service_registry_grant s n o g)).
Proof.
  intros Hwf. unfold service_registry_grant.
  destruct (service_registry_name_valid n) eqn:Hn; cbn [negb orb]; [|done]. destruct n as [n|]; [|done].
  case_if; [done|]. case_if; [done|]. change (str (Some n)) with n.
  rewrite (scan_any _ (rw_entries s Hwf) n Hn).
  destruct (find_slot (entry_named n) (service_entries s)) as [i|] eqn:Hf; [|done].
  destruct (find_named _ (rw_entries s Hwf) n i Hf) as (e & He & _ & [Hpe _]%entry_named_spec & Ht). rewrite Ht.
  case_if; [done|]. pose proof (handoff_row_wf s i e g Hwf He Hpe ltac:(lia)) as Hw.
  destruct (identity_or_zero g) as [q k]. set (s1 := update_entry s i _) in *. clearbody s1.
  unfold handoff_finish. pose proof (remove_name_wf s1 (Some n) Hw) as Hw2.
  case_if; [|done]. pose proof (lookup_wf _ (Some (lit "vfs-virtual")) Hw2) as Hw3.
  destruct (service_registry_lookup _ (Some (lit "vfs-virtual"))) as [w s2]. cbn [snd] in Hw3.
  case_if; [|done]. cbn [snd]. by apply grant_wf.
Qed.

Lemma revoke_wf s n o g : reg_wf s -> reg_wf (snd (service_registry_backend_revoke s n o g)).
Proof.
  intros Hwf. unfold service_registry_backend_revoke. case_if; [done|].
  pose proof (lookup_wf s n Hwf) as Hw. destruct (service_registry_lookup s n) as [r s1]. cbn [snd] in Hw.
  case_if; [done|]. destruct (find_slot _ _) as [i|] eqn:Hf; [|done]. cbn [snd].
  apply find_slot_Some in Hf as (c & Hc & _). apply bump_wf, (update_cap_wf s1 i c); [done|done|].
  apply (caps_wf_free _ i c); [apply Hw|done|]. by eapply cap_cleared_free, caps_ok_lookup; [apply Hw|].
Qed.

Lemma release_wf s n g : reg_wf s -> reg_wf (snd (service_registry_backend_release s n g)).
Proof.
  intros Hwf. unfold service_registry_backend_release. case_if; [done|].
  destruct (find_slot _ _) as [i|] eqn:Hf; [|done]. cbn [snd].
  apply find_slot_Some in Hf as (c & Hc & _). apply bump_wf, (update_cap_wf s i c); [done|done|].
  apply (caps_wf_free _ i c); [apply Hwf|done|].
  destruct (caps_ok_lookup _ _ _ (rw_caps s Hwf) Hc) as [H1 H2 _].
  unfold free_cap. cbn. rewrite clear_string_length. repeat split; try done.
  by apply clear_string_chr, nonempty16.
Qed.

Lemma clear_token_wf s n g : reg_wf s -> reg_wf (snd (service_registry_backend_clear_token s n g)).
Proof.
  intros Hwf. unfold service_registry_backend_clear_token. case_if; [done|].
  destruct (find_slot _ _) as [i|] eqn:Hf; [|done]. cbn [snd].
  apply find_slot_Some in Hf as (c & Hc & _). apply (update_cap_wf s i c); [done|done|].
  apply (caps_wf_update _ i c); try done; [apply Hwf|].
  by destruct (caps_ok_lookup _ _ _ (rw_caps s Hwf) Hc).
Qed.

Lemma allowed_loop_wf n pid right source path k : forall s i,
  reg_wf s -> reg_wf (snd (allowed_loop s n pid right source path i k)).
Proof.
  induction k as [|k IH]; intros s i Hwf; cbn [allowed_loop]; [done|].
  case_if; [|by apply IH]. pose proof (lookup_wf s n Hwf) as Hw.
  destruct (service_registry_lookup s n) as [r s1]. cbn [snd] in Hw. case_if; [done|by apply IH].
Qed.

Lemma remove_pid_wf s pid : reg_wf s -> reg_wf (snd (service_registry_remove_pid s pid)).
Proof.
  intros Hwf. unfold service_registry_remove_pid. destruct (Z.leb_spec pid 0) as [|Hp]; [done|]. cbn [snd].
  destruct (backend_remove_pid_spec s pid Hwf Hp) as ([H1 H2 H3] & _ & _). constructor; [|done|done].
  by apply (purge_wf _ (fun e => e_pid e =? pid)).
Qed.
End Ops.

(** ** The other tables *)

(** Mounts, watches, notifications and spill slots are untouched. *)
Definition frame (s s' : registry_t) : Prop :=
  persistent_mounts s' = persistent_mounts s /\ service_watches s' = service_watches s /\
  service_notify_history s' = service_notify_history s /\ service_ipc_spill s' = service_ipc_spill s.

Lemma frame_refl s : frame s s.
Proof. by repeat split. Qed.
Lemma frame_trans s1 s2 s3 : frame s1 s2 -> frame s2 s3 -> frame s1 s3.
Proof. intros (?&?&?&?) (?&?&?&?). repeat split; congruence. Qed.

Lemma frame_inv s s' : frame s s' -> reg_wf s' -> reg_inv s -> reg_inv s'.
Proof.
  intros (E1 & E2 & E3 & E4) Hwf [_ H1 H2 H3 H4]. constructor; rewrite ?E1, ?E2, ?E3, ?E4; done.
Qed.

(** The fields of [frame] are equal by computation. *)
Ltac frame_here := unfold frame; repeat split; reflexivity.

Lemma bump_frame s n : frame s (service_registry_backend_generation_bump s n).
Proof. unfold service_registry_backend_generation_bump. destruct (find_slot _ _); frame_here. Qed.

Lemma remove_name_frame s n : frame s (service_registry_backend_remove_name s n).
Proof.
  unfold service_registry_backend_remove_name. case_if; [frame_here|]. case_if; [|frame_here].
  eapply frame_trans; [|apply bump_frame]. frame_here.
Qed.

(** Case analysis down to setters, generation bumps and name purges. *)
Ltac frame_cases :=
  repeat (case_if || match goal with
    | |- context [match ?x with Some _ => _ | None => _ end] => destruct x
    | |- context [let '(_, _) := ?x in _] => destruct x
    end); cbn [snd];
  try (frame_here); try apply bump_frame; try apply remove_name_frame.

Section Frames.
Context `{T : TaskView} `{K : KernelHooks}.

Lemma lookup_frame s n : frame s (snd (service_registry_lookup s n)).
Proof.
  unfold service_registry_lookup. frame_cases.
  eapply frame_trans; [|apply remove_name_frame]. frame_here.
Qed.

Lemma register_frame s n pid : frame s (snd (service_registry_register s n pid)).
Proof. unfold service_registry_register, register_at, mint_right_token. frame_cases. Qed.

Lemma remove_frame s n pid : frame s (snd (service_registry_remove s n pid)).
Proof.
  unfold service_registry_remove. frame_cases.
  eapply frame_trans; [|apply remove_name_frame]. frame_here.
Qed.

Lemma grant_frame s n o g r src p :
  frame s (snd (service_registry_backend_grant_scoped_source_prefix s n o g r src p)).
Proof.
  unfold service_registry_backend_grant_scoped_source_prefix. case_if; [frame_here|].
  pose proof (lookup_frame s n) as Hl. destruct (service_registry_lookup s n) as [q s1]. cbn [snd] in Hl.
  eapply frame_trans; [exact Hl|].
  frame_cases; (eapply frame_trans; [|apply bump_frame]; frame_here).
Qed.

Lemma handoff_frame s n o g : frame s (snd (service_registry_grant s n o g)).
Proof.
  unfold service_registry_grant. case_if; [frame_here|]. case_if; [frame_here|].
  destruct (find_slot _ _) as [i|]; [|frame_here]. case_if; [frame_here|].
  destruct (identity_or_zero g) as [q k]. unfold handoff_finish.
  set (s1 := service_registry_backend_remove_name _ n).
  assert (Hf : frame s s1) by (eapply frame_trans; [|apply remove_name_frame]; frame_here).
  clearbody s1. case_if; [|done]. pose proof (lookup_frame s1 (Some (lit "vfs-virtual"))) as Hl.
  destruct (service_registry_lookup s1 _) as [w s2]. cbn [snd] in Hl.
  pose proof (frame_trans _ _ _ Hf Hl) as Hf2. case_if; [|done]. cbn [snd].
  eapply frame_trans; [exact Hf2|]. apply grant_frame.
Qed.

Lemma revoke_frame s n o g : frame s (snd (service_registry_backend_revoke s n o g)).
Proof.
  unfold service_registry_backend_revoke. case_if; [frame_here|].
  pose proof (lookup_frame s n) as Hl. destruct (service_registry_lookup s n) as [q s1]. cbn [snd] in Hl.
  eapply frame_trans; [exact Hl|]. frame_cases.
  eapply frame_trans; [|apply bump_frame]; frame_here.
Qed.

Lemma release_frame s n g : frame s (snd (service_registry_backend_release s n g)).
Proof.
  unfold service_registry_backend_release. frame_cases.
  eapply frame_trans; [|apply bump_frame]; frame_here.
Qed.

Lemma clear_token_frame s n g : frame s (snd (service_registry_backend_clear_token s n g)).
Proof. unfold service_registry_backend_clear_token. frame_cases. Qed.

Lemma allowed_loop_frame n pid right source path k : forall s i,
  frame s (snd (allowed_loop s n pid right source path i k)).
Proof.
  induction k as [|k IH]; intros s i; cbn [allowed_loop]; [frame_here|].
  case_if; [|by apply IH]. pose proof (lookup_frame s n) as Hl.
  destruct (service_registry_lookup s n) as [r s1]. cbn [snd] in Hl.
  eapply frame_trans; [exact Hl|]. case_if; [frame_here|by apply IH].
Qed.

(** The calls that touch the other tables leave names and capabilities alone. *)
Definition core_same (s s' : registry_t) : Prop :=
  service_entries s' = service_entries s /\ service_backend_caps s' = service_backend_caps s /\
  service_backend_token_next s' = service_backend_token_next s.

Lemma core_wf s s' : core_same s s' -> reg_wf s -> reg_wf s'.
Proof. intros (E1 & E2 & E3) []. constructor; congruence. Qed.

Lemma event_flush_same s : core_same s (event_journal_flush s) /\ frame s (event_journal_flush s).
Proof.
  unfold event_journal_flush.
  repeat (case_if || match goal with
    | |- context [match ?x with _ => _ end] => destruct x
    end); by repeat split.
Qed.

Lemma mount_flush_same s : core_same s (mount_journal_flush s) /\ frame s (mount_journal_flush s).
Proof.
  unfold mount_journal_flush.
  repeat (case_if || match goal with
    | |- context [match ?x with _ => _ end] => destruct x
    end); by repeat split.
Qed.

Lemma history_inv s h q :
  reg_inv s -> length h = 8%nat -> reg_inv (set_history s h q).
Proof. intros [[] ? ? ? ?] Hl. constructor; [by constructor|done|done|done|done]. Qed.

Lemma flush_inv s : reg_inv s -> reg_inv (event_journal_flush s).
Proof.
  intros Hi. destruct (event_flush_same s) as [Hc Hf]. eapply frame_inv; [exact Hf| |done].
  eapply core_wf; [exact Hc|apply Hi].
Qed.

Lemma mount_flush_inv s : reg_inv s -> reg_inv (mount_journal_flush s).
Proof.
  intros Hi. destruct (mount_flush_same s) as [Hc Hf]. eapply frame_inv; [exact Hf| |done].
  eapply core_wf; [exact Hc|apply Hi].
Qed.
End Frames.

(** ** Every operation keeps the invariant *)

Section Steps.
Context `{T : TaskView} `{K : KernelHooks}.

Lemma watches_inv s w : reg_inv s -> length w = 8%nat -> reg_inv (set_watches s w).
Proof. intros [[] ? ? ? ?] Hl. constructor; [by constructor|done|done|done|done]. Qed.

Lemma spill_inv s x o : reg_inv s -> length x = 8%nat -> reg_inv (set_spill s x o).
Proof. intros [[] ? ? ? ?] Hl. constructor; [by constructor|done|done|done|done]. Qed.

Lemma drops_inv s a b : reg_inv s -> reg_inv (set_drops s a b).
Proof. intros [[] ? ? ? ?]. constructor; [by constructor|done|done|done|done]. Qed.

Lemma mounts_inv s m : reg_inv s -> mounts_wf m -> reg_inv (set_mounts s m).
Proof. intros [[] ? ? ? ?] Hm. constructor; [by constructor|done|done|done|done]. Qed.

Lemma pending_inv s x : reg_inv s -> reg_inv (set_boot_pending s x).
Proof. intros [[] ? ? ? ?]. constructor; [by constructor|done|done|done|done]. Qed.

Lemma bind_inv s n pid : reg_inv s -> reg_inv (event_journal_bind s n pid).
Proof. intros H. apply history_inv; [done|]. rewrite length_map. apply H. Qed.

Lemma spill_clear_inv s pid : reg_inv s -> reg_inv (ipc_spill_clear_pid s pid).
Proof. intros H. apply spill_inv; [done|]. rewrite length_map. apply H. Qed.

Lemma bumps_frame pid cs : forall s,
  frame s (fold_left (fun s c => if cap_involves pid c
             then service_registry_backend_generation_bump s (c_name c) else s) cs s).
Proof.
  induction cs as [|c cs IH]; intros s; cbn [fold_left]; [apply frame_refl|].
  eapply frame_trans; [|apply IH]. case_if; [apply bump_frame|apply frame_refl].
Qed.

Lemma remove_pid_inv s pid : reg_inv s -> reg_inv (snd (service_registry_remove_pid s pid)).
Proof.
  intros Hi. pose proof (remove_pid_wf s pid (ri_wf s Hi)) as Hw. destruct Hi as [_ H1 H2 H3 H4].
  assert (Hf : frame s (service_registry_backend_remove_pid s pid)).
  { unfold service_registry_backend_remove_pid. case_if; [apply frame_refl|].
    exact (bumps_frame pid (service_backend_caps s) s). }
  destruct Hf as (E1 & E2 & E3 & E4). unfold service_registry_remove_pid in *.
  destruct (pid <=? 0); [by constructor|]. cbn [snd] in *. constructor; [exact Hw|..]; cbn.
  - by rewrite E1.
  - by rewrite E2.
  - by rewrite length_map, E3.
  - by rewrite length_map, E4.
Qed.

Lemma install_inv s which buf :
  reg_inv s -> Forall is_u8 buf ->
  match service_registry_boot_journal_install s which (Some buf) (blen buf) with
  | Some (_, s') => reg_inv s'
  | None => reg_inv s
  end.
Proof.
  intros Hi Hb. unfold service_registry_boot_journal_install. case_if; [done|].
  set (s1 := set_boot_pending s _). assert (Hi1 : reg_inv s1) by (by apply pending_inv). clearbody s1.
  destruct (which =? 0).
  - destruct (mount_import_total (persistent_mounts s1) buf (blen buf) (ri_mounts _ Hi1) Hb)
      as (rc & m & -> & Hm); [lia|]. cbn [mbind option_bind]. by apply mounts_inv.
  - destruct (service_registry_event_journal_import _ _ _ _) as [[[rc h] q]|] eqn:E;
      cbn [mbind option_bind]; [|done]. apply history_inv; [done|].
    by rewrite (event_import_length _ _ _ _ _ _ _ E), (ri_history _ Hi1).
Qed.
End Steps.

Lemma step_inv `{T : TaskView} `{K : KernelHooks} op s : reg_inv s -> op_ok op -> reg_inv (run_op op s).
Proof.
  intros Hi Hop. pose proof (ri_wf s Hi) as Hwf.
  destruct op; cbn [run_op op_ok] in *.
  - eapply frame_inv; [apply register_frame|by apply register_wf|done].
  - eapply frame_inv; [apply lookup_frame|by apply lookup_wf|done].
  - eapply frame_inv; [apply remove_frame|by apply remove_wf|done].
  - eapply frame_inv; [apply handoff_frame|by apply handoff_wf|done].
  - eapply frame_inv; [apply grant_frame|by apply grant_wf|done].
  - eapply frame_inv; [apply revoke_frame|by apply revoke_wf|done].
  - eapply frame_inv; [apply release_frame|by apply release_wf|done].
  - eapply frame_inv; [apply clear_token_frame|by apply clear_token_wf|done].
  - unfold service_registry_backend_allowed_for_source_path. case_if; [done|].
    eapply frame_inv; [apply allowed_loop_frame|by apply allowed_loop_wf|done].
  - by apply remove_pid_inv.
  - unfold service_registry_subscribe. case_if; [done|]. destruct (identity_or_zero pid) as [q g].
    destruct (find_slot _ _) as [i|]; [|destruct (find_slot _ _) as [i|]; [|done]];
      apply bind_inv, watches_inv; try done; rewrite length_insert; apply Hi.
  - unfold service_registry_remove_watcher_pid. case_if; [done|].
    apply spill_clear_inv, watches_inv; [done|]. rewrite length_map. apply Hi.
  - unfold service_registry_notify_record. case_if; [done|]. cbn [snd].
    apply flush_inv, history_inv; [done|]. rewrite length_insert. apply Hi.
  - unfold service_registry_notify_pull. case_if; [done|].
    destruct (pull_scan _ _ _ _) as [[i b]|]; [|done]. cbn [snd].
    apply flush_inv, history_inv; [done|]. rewrite length_insert. apply Hi.
  - unfold service_registry_notify_ack. case_if; [done|]. destruct (find_slot _ _) as [i|]; [|done]. cbn [snd].
    apply flush_inv, history_inv; [done|]. rewrite length_insert. apply Hi.
  - unfold service_registry_notify_replay. case_if; [done|]. destruct (find_slot _ _) as [i|]; [|done].
    case_if; [done|]. case_if; [done|]. cbn [snd]. apply history_inv; [done|]. rewrite length_insert. apply Hi.
  - unfold service_registry_ipc_spill_push. destruct payload as [p|]; [|done]. case_if; [done|].
    destruct (find_slot _ _) as [i|]; cbn [snd].
    + apply spill_inv; [done|]. rewrite length_insert. apply Hi.
    + unfold note_spill_drop. case_if; by apply drops_inv.
  - unfold service_registry_ipc_spill_pop. case_if; [done|].
    destruct (spill_scan _ _ _ _) as [[i b]|]; [|done]. cbn [snd].
    apply spill_inv; [done|]. rewrite length_insert. apply Hi.
  - unfold service_registry_persistent_mount_add.
    assert (Hm : mounts_wf (snd (mount_insert (persistent_mounts s) name pfx source))).
    { destruct name as [n|]; [|apply Hi]. destruct pfx as [p|].
      - apply insert_wf; [apply Hi|done].
      - unfold mount_insert. case_if; apply Hi. }
    destruct (mount_insert _ _ _ _) as [rc m]. cbn [snd] in *. case_if.
    + by apply mount_flush_inv, mounts_inv.
    + by apply mounts_inv.
  - unfold service_registry_persistent_mount_remove. case_if; [done|]. destruct pfx as [p|]; [|done].
    destruct (find_slot _ _) as [i|] eqn:Hf; [|done]. cbn [snd]. apply find_slot_Some in Hf as (m & Hm & _).
    rewrite (list_lookup_total_correct _ _ _ Hm). apply mount_flush_inv, mounts_inv; [done|].
    apply (deactivate_wf _ i m); [apply Hi|done].
  - pose proof (install_inv s which buf Hi Hop) as H.
    by destruct (service_registry_boot_journal_install _ _ _ _) as [[rc s']|].
Qed.

(** ** Boot *)

Lemma boot_mounts_wf m : mounts_wf m -> mounts_wf (boot_mounts m).
Proof.
  intros H. unfold boot_mounts. cbn [fold_left].
  repeat apply insert_wf; try done; unfold is_u32, OS_SERVICE_BACKEND_SOURCE_INITRD,
    OS_SERVICE_BACKEND_SOURCE_OVERLAY, OS_SERVICE_BACKEND_SOURCE_FAT16, OS_SERVICE_BACKEND_SOURCE_FAT32; lia.
Qed.

(** The tables right after the clearing loops of init, before the journals. *)
Lemma cleared_inv K s :
  length (service_entries s) = 12%nat -> Forall (fun e => length (e_name e) = 16%nat) (service_entries s) ->
  length (service_watches s) = 8%nat -> length (service_notify_history s) = 8%nat ->
  length (service_backend_caps s) = 4%nat ->
  Forall (fun c => length (c_name c) = 16%nat /\ length (c_prefix c) = 48%nat) (service_backend_caps s) ->
  length (persistent_mounts s) = 8%nat -> Forall mount_ok (persistent_mounts s) ->
  length (service_ipc_spill s) = 8%nat -> KernelHooksLaws K ->
  reg_inv (service_registry_init s).
Proof.
  intros H1 H2 H3 H4 H5 H6 H7 H8 H9 HK. unfold service_registry_init.
  set (s1 := set_boot_pending _ _).
  assert (Hi : reg_inv s1).
  { constructor; cbn; rewrite ?length_map; try done.
    - constructor; cbn.
      + constructor; [by rewrite length_map| |].
        * apply Forall_fmap. eapply Forall_impl; [exact H2|]. intros e He. constructor; cbn;
            [by rewrite clear_string_length|]. left. split; [done|]. by apply clear_string_chr, nonempty16.
        * intros i j a b (a0 & -> & _)%list_lookup_fmap_Some. cbn. lia.
      + constructor; [by rewrite length_map| |].
        * apply Forall_fmap. eapply Forall_impl; [exact H6|]. intros c [Hc1 Hc2]. apply free_cap_ok.
          unfold free_cap. cbn. rewrite !clear_string_length. repeat split; try done.
          by apply clear_string_chr, nonempty16.
        * intros i j a b (a0 & -> & _)%list_lookup_fmap_Some. cbn. lia.
      + done.
    - by apply reset_wf. }
  clearbody s1. set (s2 := if negb _ then _ else _).
  assert (Hi2 : reg_inv s2).
  { unfold s2. case_if; [apply mounts_inv; [done|apply boot_mounts_wf, Hi]|].
    unfold mount_journal_load. destruct (kernel_journal_read _ _) as [b|] eqn:Hb.
    - destruct (journal_read_size _ _ _ Hb) as [Hlen Hu8].
      destruct (mount_import_total (persistent_mounts s1) b MOUNT_JOURNAL_BYTES (ri_mounts _ Hi) Hu8)
        as (rc & m & -> & Hm); [rewrite Hlen; unfold MOUNT_JOURNAL_BYTES; vm_compute; discriminate|].
      assert (Hm1 : reg_inv (set_mounts s1 m)) by (by apply mounts_inv).
      case_if; [|done]. apply mounts_inv; [done|]. by apply boot_mounts_wf.
    - cbn [negb Z.eqb]. apply mounts_inv; [done|apply boot_mounts_wf, Hi]. }
  clearbody s2. set (s3 := if boot_journal_pending s2 =? 0 then _ else s2).
  assert (Hi3 : reg_inv s3).
  { unfold s3. case_if; [|done]. unfold event_journal_load.
    destruct (kernel_journal_read _ _) as [b|]; [|done].
    destruct (service_registry_event_journal_import _ _ _ _) as [[[rc h] q]|] eqn:E; [|done]. cbn [snd].
    apply history_inv; [done|]. rewrite (event_import_length _ _ _ _ _ _ _ E). apply Hi2. }
  clearbody s3. unfold ipc_spill_reset. apply drops_inv, spill_inv; [done|]. rewrite length_map. apply Hi3.
Qed.

Lemma boot_inv K : KernelHooksLaws K -> reg_inv (service_registry_init bss_registry).
Proof.
  intros HK. apply cleared_inv; try done; try (repeat constructor; done).
Qed.

Lemma reachable_inv K s : KernelHooksLaws K -> reachable K s -> reg_inv s.
Proof.
  intros HK. induction 1 as [|T op s _ IH Hop]; [by apply boot_inv|]. by apply step_inv.
Qed.


(** ** A concrete system *)

(** Tasks 5, 6 and 7 are alive; the boot journals are deferred to the driver. *)
Definition demo_tasks : TaskView := {|
  task_get_identity p := if (5 <=? p) && (p <=? 7) then Some (p, 1) else None;
  task_identity_key p := if (5 <=? p) && (p <=? 7) then Some (p + 10) else None
|}.

Definition demo_hooks : KernelHooks := {|
  kernel_boot_journal_deferred := 1;
  service_registry_event_journal_allowed := 0;
  kernel_journal_read _ _ := None
|}.

Lemma demo_tasks_laws : TaskViewLaws demo_tasks.
Proof.
  constructor; cbn.
  - intros pid. destruct (_ && _); split; intros []; eauto; done.
  - intros pid q g. case_if; [|done]. intros [= <- <-]. lia.
  - intros pid k. case_if; [|done]. intros [= <-]. lia.
Qed.

Lemma demo_hooks_laws : KernelHooksLaws demo_hooks.
Proof. by constructor. Qed.

Definition disk : cstring := lit "disk".

(** Task 5 owns "disk" and has granted reading below "pub/" to task 6. *)
Definition demo_boot : registry_t := service_registry_init (K := demo_hooks) bss_registry.
Definition demo_owned : registry_t :=
  run_op (T := demo_tasks) (K := demo_hooks) (ORegister (Some disk) 5) demo_boot.
Definition demo_granted : registry_t :=
  run_op (T := demo_tasks) (K := demo_hooks) (OGrant (Some disk) 5 6 1 2 (Some (lit "pub/"))) demo_owned.

Lemma demo_granted_reachable : reachable demo_hooks demo_granted.
Proof. unfold demo_granted, demo_owned, demo_boot. repeat (apply reach_step; [|exact I]). apply reach_boot. Qed.

Lemma demo_owned_wf : reg_wf demo_owned.
Proof.
  apply (ri_wf _ (reachable_inv demo_hooks demo_owned demo_hooks_laws
    (reach_step _ demo_tasks (ORegister (Some disk) 5) _ (reach_boot _) I))).
Qed.

Lemma demo_granted_wf : reg_wf demo_granted.
Proof. apply (ri_wf _ (reachable_inv _ _ demo_hooks_laws demo_granted_reachable)). Qed.


Example registry_refines_map_witness :
  let s' := snd (service_registry_grant (T := demo_tasks) demo_owned (Some disk) 5 7) in
  resolve (H := demo_tasks) s' disk = Some 7.
Proof.
  pose proof (registry_refines_map (T := demo_tasks) demo_owned (op_handoff disk 5 7) (rw_entries _ demo_owned_wf)
    (conj eq_refl (conj eq_refl eq_refl))) as H.
  assert (E : resolve (H := demo_tasks) demo_owned disk = Some 5) by (vm_compute; reflexivity).
  cbn [run_name_op map_step] in H. rewrite bool_decide_eq_true_2 in H by exact E.
  destruct (service_registry_grant demo_owned (Some disk) 5 7) as [rc s'].
  destruct H as [_ [[_ H] _]]. cbn [snd]. rewrite H. reflexivity.
Defined.

Example access_needs_live_grant_witness :
  fst (service_registry_backend_allowed_for_source_path (T := demo_tasks) demo_granted (Some disk) 6 1 2
         (Some (lit "pub/x"))) = 1 /\
  exists i c, service_backend_caps demo_granted !! i = Some c /\
    permits (T := demo_tasks) demo_granted disk 6 1 2 (Some (lit "pub/x")) c.
Proof.
  assert (E : fst (service_registry_backend_allowed_for_source_path (T := demo_tasks) demo_granted
    (Some disk) 6 1 2 (Some (lit "pub/x"))) = 1) by (vm_compute; reflexivity).
  split; [exact E|].
  exact (proj2 (proj1 (access_needs_live_grant (T := demo_tasks) demo_granted disk 6 1 2 (Some (lit "pub/x"))
    demo_granted_wf eq_refl) E)).
Defined.

Example grant_gives_access_witness :
  let s' := snd (service_registry_backend_grant_scoped_source_prefix (T := demo_tasks) demo_owned (Some disk)
                   5 6 1 2 (Some (lit "pub/"))) in
  fst (service_registry_backend_allowed_for_source_path (T := demo_tasks) s' (Some disk) 6 1 2
         (Some (lit "pub/x"))) = 1.
Proof.
  pose proof (grant_gives_access (T := demo_tasks) demo_owned disk 5 6 1 2 (lit "pub/") demo_tasks_laws
    demo_owned_wf ltac:(split; [reflexivity|split; [lia|split; [lia|split; reflexivity]]])
    ltac:(vm_compute; reflexivity) ltac:(vm_compute; reflexivity)) as H.
  assert (E : fst (service_registry_backend_grant_scoped_source_prefix (T := demo_tasks) demo_owned
    (Some disk) 5 6 1 2 (Some (lit "pub/"))) = 0) by (vm_compute; reflexivity).
  destruct (service_registry_backend_grant_scoped_source_prefix demo_owned (Some disk) 5 6 1 2
    (Some (lit "pub/"))) as [rc s']. cbn [fst snd] in *. subst rc.
  destruct H as [_ [[H _]|[_ H]]]; [discriminate H|].
  apply H; [reflexivity|reflexivity|reflexivity|]. exists (lit "x"). reflexivity.
Defined.

Example regrant_merges_scopes_witness :
  let s' := snd (service_registry_backend_grant_scoped_source_prefix (T := demo_tasks) demo_granted (Some disk)
                   5 6 2 2 (Some (lit "sec/"))) in
  fst (service_registry_backend_allowed_for_source_path (T := demo_tasks) s' (Some disk) 6 1 2
         (Some (lit "sec/x"))) = 1.
Proof.
  pose proof (regrant_merges_scopes (T := demo_tasks) demo_granted disk 5 6 2 2 (lit "sec/") 0
    (service_backend_caps demo_granted !!! 0%nat) demo_tasks_laws
    demo_granted_wf ltac:(split; [reflexivity|split; [lia|split; [lia|split; reflexivity]]])
    ltac:(vm_compute; reflexivity) ltac:(vm_compute; reflexivity) ltac:(vm_compute; reflexivity)
    ltac:(vm_compute; reflexivity)) as H.
  destruct (service_registry_backend_grant_scoped_source_prefix demo_granted (Some disk) 5 6 2 2
    (Some (lit "sec/"))) as [rc s']. cbn [snd]. destruct H as [_ [_ H]].
  apply (proj2 (H 1 2 (Some (lit "sec/x")) eq_refl)).
  split; [vm_compute; reflexivity|]. split; [vm_compute; reflexivity|]. exists (lit "x"). reflexivity.
Defined.

Example revoke_is_effective_witness :
  let '(rc, s') := service_registry_backend_revoke (T := demo_tasks) demo_granted (Some disk) 5 6 in
  rc = 0 /\ fst (service_registry_backend_allowed_for_source_path (T := demo_tasks) s' (Some disk) 6 1 2
                   (Some (lit "pub/x"))) = 0 /\
  fst (service_registry_backend_allowed_for_source_path (T := demo_tasks) s' (Some disk) 7 1 2 (Some (lit "pub/x"))) =
  fst (service_registry_backend_allowed_for_source_path (T := demo_tasks) demo_granted (Some disk) 7 1 2 (Some (lit "pub/x"))).
Proof.
  pose proof (revoke_is_effective (T := demo_tasks) demo_granted disk 5 6 demo_granted_wf eq_refl
    ltac:(lia) ltac:(lia)) as H.
  assert (E : fst (service_registry_backend_revoke (T := demo_tasks) demo_granted (Some disk) 5 6) = 0)
    by (vm_compute; reflexivity).
  destruct (service_registry_backend_revoke demo_granted (Some disk) 5 6) as [rc s'].
  cbn [fst] in E. destruct H as (_ & _ & H1 & H2). split; [exact E|]. split; [exact (H1 E 1 2 (Some (lit "pub/x")))|].
  apply H2; [reflexivity|]. right. left. discriminate.
Defined.

Example handoff_revokes_all_witness :
  let '(rc, s') := service_registry_grant (T := demo_tasks) demo_granted (Some disk) 5 7 in
  rc = 0 /\ fst (service_registry_backend_allowed_for_source_path (T := demo_tasks) s' (Some disk) 6 1 2
                   (Some (lit "pub/x"))) = 0.
Proof.
  pose proof (handoff_revokes_all (T := demo_tasks) demo_granted disk 5 7 demo_granted_wf eq_refl
    ltac:(lia) ltac:(lia) eq_refl) as H.
  assert (E : fst (service_registry_grant (T := demo_tasks) demo_granted (Some disk) 5 7) = 0)
    by (vm_compute; reflexivity).
  destruct (service_registry_grant demo_granted (Some disk) 5 7) as [rc s'].
  cbn [fst] in E. split; [exact E|]. exact (proj2 H E 6 1 2 (Some (lit "pub/x"))).
Defined.

Example dead_task_leaves_nothing_witness :
  let '(_, s') := service_registry_remove_pid demo_granted 6 in
  fst (service_registry_backend_allowed_for_source_path (T := demo_tasks) s' (Some disk) 6 1 2
         (Some (lit "pub/x"))) = 0 /\ resolve (H := demo_tasks) s' disk = Some 5.
Proof.
  pose proof (dead_task_leaves_nothing (T := demo_tasks) demo_granted 6 demo_granted_wf ltac:(lia)) as H.
  destruct (service_registry_remove_pid demo_granted 6) as [rc s'].
  destruct H as (_ & Hr & Ha & _). split.
  - exact (Ha disk 1 2 (Some (lit "pub/x")) eq_refl).
  - rewrite Hr. vm_compute. reflexivity.
Defined.

(** ** Journals of the concrete system *)

Definition demo_mounts : list service_registry_persistent_mount_t := persistent_mounts demo_granted.

Lemma demo_mounts_wf : mounts_wf demo_mounts.
Proof. apply (ri_mounts _ (reachable_inv _ _ demo_hooks_laws demo_granted_reachable)). Qed.

Example mount_import_robust_witness :
  exists rc m', service_registry_mount_journal_import demo_mounts (Some (replicate 20 77)) 20 = Some (rc, m')
    /\ mounts_wf m'.
Proof.
  apply (mount_import_robust demo_mounts (replicate 20 77) 20 demo_mounts_wf).
  - repeat constructor; unfold is_u8; lia.
  - vm_compute. discriminate.
Defined.

Example mount_journal_roundtrip_witness :
  length (active_mounts demo_mounts) = 4%nat /\
  exists image m',
    service_registry_mount_journal_export demo_mounts (Some (replicate 1024 0)) 1024 = Some (0, Some image) /\
    service_registry_mount_journal_import demo_mounts (Some image) 1024 = Some (0, m') /\
    mount_view <$> active_mounts m' = mount_view <$> active_mounts demo_mounts.
Proof.
  split; [vm_compute; reflexivity|].
  destruct (mount_journal_roundtrip demo_mounts demo_mounts (replicate 1024 0) 1024 demo_mounts_wf demo_mounts_wf)
    as (image & H1 & H2); [vm_compute; discriminate|vm_compute; discriminate|vm_compute; discriminate|].
  destruct (H2 1024) as (m' & H3 & H4); [vm_compute; discriminate|].
  exists image, m'. split; [exact H1|]. split; [exact H3|exact H4].
Defined.

Example boot_journal_install_drops_mounts_witness :
  length (active_mounts (persistent_mounts demo_boot)) = 4%nat /\
  exists s', service_registry_boot_journal_install demo_boot 0 (Some unusable_journal) 85 = Some (1, s') /\
    active_mounts (persistent_mounts s') = [].
Proof.
  split; [vm_compute; reflexivity|].
  apply (boot_journal_install_drops_mounts demo_boot). vm_compute. discriminate.
Defined.

(** Task 6 watched "disk" and missed one event. *)
Definition demo_events : list service_registry_notify_event_t :=
  mk_event 9 6 (copy_name (replicate 16 0) disk) 5 7 2 0 0 :: replicate 7 zero_event.

Lemma demo_events_ok : Forall event_ok demo_events.
Proof.
  constructor.
  - constructor; [reflexivity|]. intros _. split; [vm_compute; reflexivity|].
    unfold is_u32, is_i32, OS_SERVICE_EVENT_PUBLISHED, OS_SERVICE_EVENT_PURGED. cbn. lia.
  - apply Forall_forall. intros e [-> _]%elem_of_replicate. constructor; [reflexivity|]. intros H. discriminate H.
Qed.

Example event_journal_roundtrip_witness :
  exists image new free,
    service_registry_event_journal_export demo_events 9 (Some (replicate 512 0)) 512 = Some (0, Some image) /\
    service_registry_event_journal_import (replicate 8 zero_event) 0 (Some image) 512 =
      Some (0, new ++ free, 9) /\
    event_view <$> new = [(9, disk, 5, 7, 2)].
Proof.
  destruct (event_journal_roundtrip demo_events (replicate 8 zero_event) 9 0 (replicate 512 0) 512
              eq_refl demo_events_ok) as (image & H1 & H2).
  - repeat constructor; vm_compute; discriminate.
  - unfold is_u32. lia.
  - reflexivity.
  - repeat constructor.
  - vm_compute. discriminate.
  - vm_compute. discriminate.
  - destruct (H2 512) as (new & free & H3 & H4 & _); [vm_compute; discriminate|].
    exists image, new, free. split; [exact H1|]. split; [exact H3|]. rewrite H4. vm_compute. reflexivity.
Defined.
