(* ===== verification/Spill.v ===== *)
(** * Spill slots: a bounded queue shared by all watchers

    kernel/service_registry.c keeps eight slots for service events that did not
    fit a watcher's mailbox.  Slots are taken wherever one is free and stamped
    with a counter; a pop scans for the smallest stamp of the watcher.  The
    theorem says that callers see one queue in arrival order, from which each
    watcher takes its own oldest message. *)

From Stdlib Require Import ZArith Lia Sorting.Sorted.
From stdpp Require Import base numbers option tactics list sorting.
From S2P Require Import Prelude Bytes Names Ipc RegistryState Journal Registry.

Abbreviation slot := service_ipc_spill_slot_t (only parsing).

Definition used (x : slot) : bool := c_true (s_used x).
Definition stamp (x : slot) : Z * Z * os_ipc_payload_t := (s_order x, s_watcher_pid x, s_payload x).

(** The messages held in the slots, in slot order. *)
Definition held (slots : list slot) : list (Z * Z * os_ipc_payload_t) :=
  map stamp (filter (fun x => used x = true) slots).

Lemma held_app a b : held (a ++ b) = held a ++ held b.
Proof. unfold held. by rewrite filter_app, map_app. Qed.

Lemma held_one x : held [x] = if used x then [stamp x] else [].
Proof. unfold held. rewrite filter_cons, filter_nil. by destruct (used x); case_decide. Qed.

Lemma held_insert slots i x y :
  slots !! i = Some x ->
  held (<[i := y]> slots) = held (take i slots) ++ held [y] ++ held (drop (S i) slots) /\
  held slots = held (take i slots) ++ held [x] ++ held (drop (S i) slots).
Proof.
  intros Hx. split.
  - rewrite insert_take_drop by (by eapply lookup_lt_Some).
    change (y :: drop (S i) slots) with ([y] ++ drop (S i) slots). by rewrite !held_app.
  - rewrite <- (take_drop_middle slots i x Hx) at 1.
    change (x :: drop (S i) slots) with ([x] ++ drop (S i) slots). by rewrite !held_app.
Qed.

Lemma held_fill slots i x y :
  slots !! i = Some x -> used x = false -> used y = true ->
  held (<[i := y]> slots) ≡ₚ held slots ++ [stamp y].
Proof.
  intros Hx Hu Hy. destruct (held_insert slots i x y Hx) as [-> ->].
  rewrite !held_one, Hu, Hy. cbn [app]. rewrite <- app_assoc. f_equiv. apply Permutation_cons_append.
Qed.

Lemma held_free slots i x y :
  slots !! i = Some x -> used x = true -> used y = false ->
  held slots ≡ₚ stamp x :: held (<[i := y]> slots).
Proof.
  intros Hx Hu Hy. destruct (held_insert slots i x y Hx) as [-> ->].
  rewrite !held_one, Hu, Hy. cbn [app]. symmetry. apply Permutation_middle.
Qed.

Lemma held_full slots : Forall (fun x => used x = true) slots -> length (held slots) = length slots.
Proof.
  intros H. unfold held. rewrite length_map. f_equal. induction H as [|x l Hx _ IH]; [done|].
  by rewrite filter_cons_True, IH.
Qed.

Lemma held_length slots : (length (held slots) <= length slots)%nat.
Proof. unfold held. rewrite length_map. apply length_filter. Qed.

Lemma in_held slots t : t ∈ held slots <-> exists i x, slots !! i = Some x /\ used x = true /\ stamp x = t.
Proof.
  unfold held. rewrite list_elem_of_fmap. split.
  - intros (x & -> & [Hu Hx]%list_elem_of_filter). apply list_elem_of_lookup in Hx as [i Hi]. by eauto.
  - intros (i & x & Hi & Hu & <-). exists x. split; [done|]. apply list_elem_of_filter.
    split; [done|]. by eapply list_elem_of_lookup_2.
Qed.

(** ** The scan finds the smallest stamp of the watcher *)

Definition of_watcher (w : Z) (x : slot) : bool := used x && (s_watcher_pid x =? w).

(** The result of the scan from [i]: an index of [slots] with a smaller or equal
    stamp than all others of the watcher, or the best found before. *)
Lemma spill_scan_min slots w : forall i best k b,
  spill_scan slots w i best = Some (k, b) ->
  (forall j y, slots !! j = Some y -> of_watcher w y = true -> b <= s_order y) /\
  match best with Some (_, b0) => b <= b0 | None => True end /\
  (best = Some (k, b) \/ exists j x, k = (i + j)%nat /\ slots !! j = Some x /\ of_watcher w x = true /\ s_order x = b).
Proof.
  induction slots as [|x slots IH]; intros i best k b; cbn [spill_scan].
  { intros ->. split; [done|]. split; [lia|]. by left. }
  change (c_true (s_used x) && (s_watcher_pid x =? w)) with (of_watcher w x).
  set (best' := if of_watcher w x then _ else best). intros H.
  destruct (IH (S i) best' k b H) as (H1 & H2 & H3).
  assert (Hb : match best' with Some (_, b0) => b <= b0 | None => True end) by exact H2.
  split; [|split].
  - intros [|j] y Hy Hw; [|by apply (H1 j)]. injection Hy as ->.
    unfold best' in Hb. rewrite Hw in Hb. destruct best as [[k0 b0]|]; [|exact Hb].
    destruct (Z.ltb_spec (s_order y) b0); lia.
  - destruct best as [[k0 b0]|]; [|done]. unfold best' in Hb.
    destruct (of_watcher w x); [|done]. destruct (Z.ltb_spec (s_order x) b0); lia.
  - destruct H3 as [E|(j & y & -> & Hy & Hw & Ho)].
    + unfold best' in E. destruct (of_watcher w x) eqn:Ew; [|by left].
      destruct best as [[k0 b0]|].
      * destruct (s_order x <? b0); [|by left]. injection E as <- <-. right. exists 0%nat, x.
        rewrite Nat.add_0_r. done.
      * injection E as <- <-. right. exists 0%nat, x. rewrite Nat.add_0_r. done.
    + right. exists (S j), y. split; [lia|done].
Qed.

Lemma spill_scan_none slots w : forall i,
  spill_scan slots w i None = None -> Forall (fun x => of_watcher w x = false) slots.
Proof.
  assert (Hsome : forall slots i k b, spill_scan slots w i (Some (k, b)) <> None).
  { clear. induction slots as [|x slots IH]; intros i k b; cbn [spill_scan]; [done|].
    destruct (_ && _); [destruct (_ <? _)|]; apply IH. }
  induction slots as [|x slots IH]; intros i; cbn [spill_scan]; [constructor|].
  change (c_true (s_used x) && (s_watcher_pid x =? w)) with (of_watcher w x).
  destruct (of_watcher w x) eqn:E; [intros H; by apply Hsome in H|]. intros H. constructor; [done|by eapply IH].
Qed.

(** ** Reference: one queue in arrival order *)

Abbreviation entry := (Z * os_ipc_payload_t)%type (only parsing).

(** What the slot keeps of a payload: data past [size] zeroed. *)
Definition stored (p : os_ipc_payload_t) : os_ipc_payload_t :=
  mk_payload (pl_type p) (pl_size p) (pl_request_id p) (copy_payload_data (pl_size p) (pl_data p)).

Definition queue_push (q : list entry) (w : Z) (p : os_ipc_payload_t) : Z * list entry :=
  if (w <=? 0) || (OS_IPC_MAX_DATA <? pl_size p) then (OS_IPC_BAD_MESSAGE, q)
  else if (length q <? 8)%nat then (0, q ++ [(w, stored p)]) else (OS_IPC_FULL, q).

(** The first message of the watcher, and the queue without it. *)
Fixpoint queue_take (q : list entry) (w : Z) : option (os_ipc_payload_t * list entry) :=
  match q with
  | [] => None
  | (v, p) :: q =>
      if v =? w then Some (p, q)
      else '(r, q') ← queue_take q w; Some (r, (v, p) :: q')
  end.

Definition queue_pop (q : list entry) (w : Z) : Z * option os_ipc_payload_t * list entry :=
  if w <=? 0 then (OS_IPC_BAD_MESSAGE, None, q)
  else match queue_take q w with
  | None => (OS_IPC_EMPTY, None, q)
  | Some (p, q') => (0, Some p, q')
  end.

Definition queue_purge (q : list entry) (w : Z) : list entry :=
  filter (fun e => fst e <> w) q.

Inductive spill_op := SPush (w : Z) (p : os_ipc_payload_t) | SPop (w : Z) | SPurge (w : Z).

(** One call on the registry and on the reference: new state and observation. *)
Definition spill_step (op : spill_op) (s : registry_t) : registry_t * (Z * option os_ipc_payload_t) :=
  match op with
  | SPush w p => let '(rc, s) := service_registry_ipc_spill_push s w (Some p) in (s, (rc, None))
  | SPop w =>
      let '(rc, out, s) := service_registry_ipc_spill_pop s w (Some zero_payload) in
      (s, (rc, if rc =? 0 then out else None))
  | SPurge w => (ipc_spill_clear_pid s w, (0, None))
  end.

Definition queue_step (op : spill_op) (q : list entry) : list entry * (Z * option os_ipc_payload_t) :=
  match op with
  | SPush w p => let '(rc, q) := queue_push q w p in (q, (rc, None))
  | SPop w => let '(rc, out, q) := queue_pop q w in (q, (rc, out))
  | SPurge w => (queue_purge q w, (0, None))
  end.

(** The two counters of dropped messages: a message refused because all slots
    are taken counts once, supervision notices apart from the other types. *)
Definition count_drop (op : spill_op) (rc : Z) (drops : Z * Z) : Z * Z :=
  match op with
  | SPush w p =>
      if rc =? OS_IPC_FULL then
        if pl_type p =? OS_IPC_TASK_SUPERVISION_EVENT then (fst drops, snd drops + 1) else (fst drops + 1, snd drops)
      else drops
  | _ => drops
  end.

Definition spill_counters (s : registry_t) : Z * Z :=
  (service_ipc_spill_drops s, service_ipc_spill_supervision_drops s).

(** A call with the counters read after it. *)
Definition spill_watch (op : spill_op) (s : registry_t) : registry_t * (Z * option os_ipc_payload_t * (Z * Z)) :=
  let '(s, r) := spill_step op s in (s, (r, spill_counters s)).
Definition queue_watch (op : spill_op) (s : list entry * (Z * Z))
    : (list entry * (Z * Z)) * (Z * option os_ipc_payload_t * (Z * Z)) :=
  let '(q, r) := queue_step op (fst s) in
  let d := count_drop op (fst r) (snd s) in ((q, d), (r, d)).

(** Run a list of calls, collecting what the callers see. *)
Fixpoint observe {S R} (step : spill_op -> S -> S * R) (ops : list spill_op) (s : S) : list R :=
  match ops with
  | [] => []
  | op :: ops => let '(s, r) := step op s in r :: observe step ops s
  end.

(** ** Simulation *)

Abbreviation triple := (Z * Z * os_ipc_payload_t)%type (only parsing).
Definition t_order (t : triple) : Z := fst (fst t).
Definition t_entry (t : triple) : entry := (snd (fst t), snd t).
Definition before (a b : triple) : Prop := t_order a < t_order b.

(** The slots hold the stamped messages [l], which are in stamp order and not
    newer than the counter; [n] more stamps fit before the counter wraps. *)
Record represents (s : registry_t) (l : list triple) (n : nat) : Prop := {
  rp_len : length (service_ipc_spill s) = 8%nat;
  rp_perm : l ≡ₚ held (service_ipc_spill s);
  rp_sorted : StronglySorted before l;
  rp_bound : Forall (fun t => t_order t <= service_ipc_spill_order s) l;
  rp_count : 0 <= service_ipc_spill_order s /\ service_ipc_spill_order s + Z.of_nat n < 4294967296
}.

Lemma sorted_snoc (l : list triple) t :
  StronglySorted before l -> Forall (fun x => before x t) l -> StronglySorted before (l ++ [t]).
Proof.
  induction 1 as [|x l Hs IH Hx]; intros Hf; cbn; [by repeat constructor|].
  apply Forall_cons in Hf as [Hxt Hf]. constructor; [by apply IH|]. apply Forall_app. by repeat constructor.
Qed.

Lemma sorted_unique_order (l : list triple) a b :
  StronglySorted before l -> a ∈ l -> b ∈ l -> t_order a = t_order b -> a = b.
Proof.
  induction 1 as [|x l Hs IH Hx]; intros Ha Hb E; [by apply elem_of_nil in Ha|].
  rewrite Forall_forall in Hx.
  apply elem_of_cons in Ha as [->|Ha], Hb as [->|Hb]; try done.
  - specialize (Hx b Hb). unfold before in Hx. lia.
  - specialize (Hx a Ha). unfold before in Hx. lia.
  - by apply IH.
Qed.

Lemma push_sim s l n w p :
  represents s l (S n) ->
  let '(rc, s') := service_registry_ipc_spill_push s w (Some p) in
  let '(rc', q') := queue_push (map t_entry l) w p in
  rc = rc' /\ exists l', map t_entry l' = q' /\ represents s' l' n.
Proof.
  intros [Hlen Hperm Hsort Hb Hc]. unfold service_registry_ipc_spill_push, queue_push.
  destruct (_ || _).
  { split; [done|]. exists l. split; [done|]. constructor; (done || lia). }
  rewrite length_map, (Permutation_length Hperm).
  destruct (find_slot _ (service_ipc_spill s)) as [i|] eqn:Hf.
  - apply find_slot_Some in Hf as (x & Hx & Hu & _). apply negb_true_iff in Hu. fold (used x) in Hu.
    set (order := next_nonzero (service_ipc_spill_order s)). set (y := mk_spill _ _ _ 1).
    assert (Hord : order = service_ipc_spill_order s + 1).
    { unfold order, next_nonzero. rewrite u32_id by (unfold is_u32; lia).
      by rewrite (proj2 (Z.eqb_neq _ 0)) by lia. }
    pose proof (held_fill _ i x y Hx Hu eq_refl) as Hp.
    assert (Hlt : (length (held (service_ipc_spill s)) < 8)%nat).
    { pose proof (held_length (<[i := y]> (service_ipc_spill s))) as H. rewrite length_insert, Hlen in H.
      rewrite (Permutation_length Hp), length_app in H. cbn in H. lia. }
    rewrite (proj2 (Nat.ltb_lt _ 8)) by done. split; [done|].
    exists (l ++ [stamp y]). split; [by rewrite map_app|]. constructor; cbn.
    + by rewrite length_insert.
    + by rewrite Hp, Hperm.
    + apply sorted_snoc; [done|]. eapply Forall_impl; [exact Hb|]. intros t Ht. cbn beta in Ht. unfold before.
      change (t_order (stamp y)) with order. lia.
    + apply Forall_app. split.
      * eapply Forall_impl; [exact Hb|]. intros t Ht. cbn beta in Ht |- *. lia.
      * repeat constructor. change (t_order (stamp y)) with order. lia.
    + lia.
  - assert (Hall : length (held (service_ipc_spill s)) = 8%nat).
    { rewrite <- Hlen. apply held_full, Forall_lookup. intros i x Hx. rewrite find_slot_None in Hf.
      specialize (Hf i x Hx). by apply negb_false_iff in Hf. }
    rewrite Hall, Nat.ltb_irrefl. split; [done|]. exists l. split; [done|].
    unfold note_spill_drop. case_if; constructor; cbn; (done || lia).
Qed.

(** In stamp order, the watcher's first message is the one with the smallest
    stamp. *)
Lemma take_min w : forall l,
  StronglySorted before l ->
  match queue_take (map t_entry l) w with
  | None => Forall (fun t => snd (fst t) <> w) l
  | Some (p, q) => exists t l', l ≡ₚ t :: l' /\ snd (fst t) = w /\ snd t = p /\ map t_entry l' = q /\
      StronglySorted before l' /\ Forall (fun x => snd (fst x) = w -> t_order t <= t_order x) l
  end.
Proof.
  induction 1 as [|x l Hs IH Hx]; cbn [map queue_take]; [constructor|].
  destruct x as [[o v] p]. unfold t_entry at 1. cbn [fst snd].
  destruct (Z.eqb_spec v w) as [->|Hne].
  - exists (o, w, p), l. split; [done|]. split; [done|]. split; [done|]. split; [done|]. split; [done|].
    constructor; [intros _; lia|]. eapply Forall_impl; [exact Hx|]. intros y Hy _. unfold before in Hy. lia.
  - destruct (queue_take (map t_entry l) w) as [[r q]|]; cbn [mbind option_bind].
    + destruct IH as (t & l' & Hp & H1 & H2 & H3 & H4 & H5).
      exists t, ((o, v, p) :: l'). split; [by rewrite Hp; constructor|]. split; [done|]. split; [done|].
      split; [cbn; by rewrite H3|]. split.
      * constructor; [done|]. rewrite Hp in Hx. by apply Forall_cons in Hx as [_ Hx].
      * constructor; [done|done].
    + constructor; [done|done].
Qed.

Lemma pop_sim s l n w :
  represents s l (S n) ->
  let '(rc, out, s') := service_registry_ipc_spill_pop s w (Some zero_payload) in
  let '(rc', out', q') := queue_pop (map t_entry l) w in
  rc = rc' /\ (if rc =? 0 then out else None) = out' /\
  exists l', map t_entry l' = q' /\ represents s' l' n.
Proof.
  intros [Hlen Hperm Hsort Hb Hc]. unfold service_registry_ipc_spill_pop, queue_pop.
  assert (Hkeep : represents s l n) by (constructor; (done || lia)).
  destruct (w <=? 0); [by eauto|].
  pose proof (take_min w l Hsort) as Ht.
  destruct (spill_scan (service_ipc_spill s) w 0 None) as [[i b]|] eqn:Hscan.
  - destruct (spill_scan_min _ _ _ _ _ _ Hscan) as (Hmin & _ & [?|(j & x & -> & Hx & Hw & Ho)]); [done|].
    cbn [Nat.add]. rewrite (list_lookup_total_correct _ _ _ Hx).
    pose proof Hw as [Hu Hwx]%andb_true_iff. apply Z.eqb_eq in Hwx.
    assert (Hin : stamp x ∈ l) by (rewrite Hperm; apply in_held; eauto).
    destruct (queue_take (map t_entry l) w) as [[p q]|].
    2: { rewrite Forall_forall in Ht. by destruct (Ht _ Hin). }
    destruct Ht as (t & l' & Hp & Htw & Htp & Hq & Hs' & Hle).
    assert (t = stamp x) as ->.
    { assert (Htl : t ∈ l) by (rewrite Hp; by left).
      assert (Hto : t_order t <= t_order (stamp x)).
      { rewrite Forall_forall in Hle. by apply Hle. }
      rewrite Hperm in Htl. apply in_held in Htl as (k & y & Hy & Huy & <-).
      assert (s_order x <= s_order y).
      { rewrite Ho. apply (Hmin k y Hy). unfold of_watcher. rewrite Huy. cbn. by apply Z.eqb_eq. }
      rewrite Hp in Hin. apply elem_of_cons in Hin as [E|Hin]; [done|].
      destruct (sorted_unique_order l (stamp x) (stamp y)); try done.
      - rewrite Hp. by right.
      - rewrite Hp. by left.
      - cbn in *. lia. }
    cbn [Z.eqb]. split; [done|]. split; [by rewrite <- Htp|]. exists l'. split; [done|].
    pose proof (held_free _ j x (mk_spill 0 (s_order x) (s_payload x) 0) Hx Hu eq_refl) as Hf.
    constructor; cbn.
    + by rewrite length_insert.
    + apply (Permutation_cons_inv (a := stamp x)). by rewrite <- Hp, <- Hf.
    + done.
    + rewrite Hp in Hb. by apply Forall_cons in Hb as [_ Hb].
    + lia.
  - pose proof (spill_scan_none _ _ _ Hscan) as Hno.
    destruct (queue_take (map t_entry l) w) as [[p q]|]; [|by eauto].
    destruct Ht as (t & l' & Hp & Htw & _). assert (Htl : t ∈ l) by (rewrite Hp; by left).
    rewrite Hperm in Htl. apply in_held in Htl as (k & y & Hy & Huy & <-).
    eapply Forall_lookup_1 in Hno; [|exact Hy]. unfold of_watcher in Hno. rewrite Huy in Hno.
    cbn in Hno, Htw. by rewrite (proj2 (Z.eqb_eq _ w)) in Hno.
Qed.

Lemma held_purge slots w :
  held (map (fun p => if c_true (s_used p) && (s_watcher_pid p =? w)
                      then mk_spill 0 (s_order p) (s_payload p) 0 else p) slots)
  = filter (fun t => snd (fst t) <> w) (held slots).
Proof.
  induction slots as [|x slots IH]; [done|].
  change (x :: slots) with ([x] ++ slots). rewrite map_app, !held_app, filter_app, IH. f_equal.
  cbn [map]. rewrite !held_one. fold (used x). destruct (used x) eqn:Hu; cbn [andb].
  - destruct (Z.eqb_spec (s_watcher_pid x) w) as [E|E].
    + cbn [used s_used c_true Z.eqb negb]. rewrite filter_cons_False by (cbn; tauto). done.
    + rewrite Hu. rewrite filter_cons_True by done. done.
  - rewrite Hu. done.
Qed.

Lemma sorted_filter w (l : list triple) :
  StronglySorted before l -> StronglySorted before (filter (fun t => snd (fst t) <> w) l).
Proof.
  induction 1 as [|x l Hs IH Hx]; [constructor|]. rewrite filter_cons. case_decide; [|done].
  constructor; [done|]. apply Forall_forall. intros y [_ Hy]%list_elem_of_filter.
  rewrite Forall_forall in Hx. by apply Hx.
Qed.

Lemma purge_sim s l n w :
  represents s l (S n) ->
  exists l', map t_entry l' = queue_purge (map t_entry l) w /\ represents (ipc_spill_clear_pid s w) l' n.
Proof.
  intros [Hlen Hperm Hsort Hb Hc]. exists (filter (fun t => snd (fst t) <> w) l). split.
  - unfold queue_purge. clear. induction l as [|t l IH]; [done|]. cbn [map].
    destruct (decide (snd (fst t) <> w)) as [H|H].
    + rewrite (filter_cons_True _ t), (filter_cons_True _ (t_entry t)) by done. cbn [map]. by rewrite IH.
    + rewrite (filter_cons_False _ t), (filter_cons_False _ (t_entry t)) by done. exact IH.
  - constructor; cbn [ipc_spill_clear_pid set_spill service_ipc_spill service_ipc_spill_order].
    + by rewrite length_map.
    + rewrite held_purge. by rewrite Hperm.
    + by apply sorted_filter.
    + apply Forall_forall. intros t [_ Ht]%list_elem_of_filter. rewrite Forall_forall in Hb. by apply Hb.
    + lia.
Qed.

Lemma step_sim op s l n :
  represents s l (S n) ->
  snd (spill_step op s) = snd (queue_step op (map t_entry l)) /\
  exists l', map t_entry l' = fst (queue_step op (map t_entry l)) /\ represents (fst (spill_step op s)) l' n.
Proof.
  intros H. destruct op as [w p|w|w]; cbn [spill_step queue_step].
  - pose proof (push_sim s l n w p H) as Hs.
    destruct (service_registry_ipc_spill_push s w (Some p)), (queue_push (map t_entry l) w p).
    cbn. destruct Hs as [-> ?]. done.
  - pose proof (pop_sim s l n w H) as Hs.
    destruct (service_registry_ipc_spill_pop s w (Some zero_payload)) as [[rc out] s'],
      (queue_pop (map t_entry l) w) as [[rc' out'] q']. cbn. destruct Hs as (-> & -> & ?). done.
  - cbn. split; [done|]. by apply purge_sim.
Qed.

Lemma drops_sim op s :
  0 <= fst (spill_counters s) < 4294967295 -> 0 <= snd (spill_counters s) < 4294967295 ->
  spill_counters (fst (spill_step op s)) = count_drop op (fst (snd (spill_step op s))) (spill_counters s).
Proof.
  unfold spill_counters. cbn [fst snd].
  intros H1 H2. destruct op as [w p|w|w]; cbn [spill_step count_drop]; [|unfold service_registry_ipc_spill_pop|done].
  - unfold service_registry_ipc_spill_push. destruct (_ || _); [done|].
    destruct (find_slot _ _) as [i|]; [done|]. cbn [fst snd]. rewrite Z.eqb_refl. unfold note_spill_drop, saturating_incr.
    destruct (_ =? OS_IPC_TASK_SUPERVISION_EVENT); cbn; rewrite (proj2 (Z.eqb_neq _ 4294967295)) by lia; done.
  - destruct (_ <=? 0); [done|]. by destruct (spill_scan _ _ _ _) as [[i b]|].
Qed.

Lemma count_drop_bound op rc d m :
  0 <= fst d < m -> 0 <= snd d < m -> 0 <= fst (count_drop op rc d) < m + 1 /\ 0 <= snd (count_drop op rc d) < m + 1.
Proof. intros H1 H2. destruct op; cbn [count_drop]; repeat case_match; cbn [fst snd]; lia. Qed.

Lemma observe_sim ops : forall s l d,
  represents s l (length ops) -> spill_counters s = d ->
  0 <= fst d < 4294967296 - Z.of_nat (length ops) -> 0 <= snd d < 4294967296 - Z.of_nat (length ops) ->
  observe spill_watch ops s = observe queue_watch ops (map t_entry l, d).
Proof.
  induction ops as [|op ops IH]; intros s l d H Hd B1 B2; cbn [observe]; [done|].
  destruct (step_sim op s l (length ops) H) as (H1 & l' & H2 & H3). rewrite <- Hd in B1, B2. cbn [length] in B1, B2.
  pose proof (drops_sim op s ltac:(lia) ltac:(lia)) as Hdr. unfold spill_watch, queue_watch. cbn [fst snd].
  destruct (spill_step op s) as [s' r], (queue_step op (map t_entry l)) as [q' r']. cbn [fst snd] in *.
  subst r' q'. rewrite Hdr, Hd. f_equal. rewrite <- Hd.
  destruct (count_drop_bound op (fst r) (spill_counters s) (4294967296 - Z.of_nat (S (length ops))) ltac:(lia) ltac:(lia)).
  apply IH; [done|done|lia|lia].
Qed.


