(* ===== verification/NetBuf.v ===== *)
(** * Packet buffers

    The byte accesses of the network codecs (get16, put16, copy_bytes, ... of the
    kernel/net_*.c files), all checked: a read or write outside the array makes
    the whole call [None]. *)

From Stdlib Require Import ZArith Lia.
From stdpp Require Import base numbers option tactics list.
From S2P Require Import Prelude Bytes.

Definition get8 (p : bytes) (off : Z) : option Z := ld p off.
Definition get16 (p : bytes) (off : Z) : option Z := un_be16 <$> ld_bytes p off 2.
Definition get32 (p : bytes) (off : Z) : option Z := un_be32 <$> ld_bytes p off 4.
Definition put8 (p : bytes) (off v : Z) : option bytes := st_bytes p off [u8 v].
Definition put16 (p : bytes) (off v : Z) : option bytes := st_bytes p off (be16 v).
Definition put32 (p : bytes) (off v : Z) : option bytes := st_bytes p off (be32 v).

(** [for (i = 0; i < count; i++) dst[off + i] = src[i]] *)
Definition copy_in (dst : bytes) (off : Z) (src : bytes) (count : Z) : option bytes :=
  b ← ld_bytes src 0 count; st_bytes dst off b.

(** [for (i = 0; i < count; i++) dst[off + i] = 0] *)
Definition zero_in (dst : bytes) (off count : Z) : option bytes :=
  st_bytes dst off (replicate (Z.to_nat count) 0).

(** The total version of [st_bytes], for buffers known to be large enough. *)
Definition patch (a : bytes) (off : Z) (bs : bytes) : bytes :=
  take (Z.to_nat off) a ++ bs ++ drop (Z.to_nat off + length bs) a.

Lemma st_bytes_ok a off bs : 0 <= off -> off + blen bs <= blen a -> st_bytes a off bs = Some (patch a off bs).
Proof. intros H1 H2. unfold st_bytes. by rewrite !(proj2 (Z.leb_le _ _)). Qed.

Lemma patch_length a off bs :
  0 <= off -> off + blen bs <= blen a -> length (patch a off bs) = length a.
Proof.
  unfold blen, patch. intros H1 H2. rewrite !length_app, length_take, length_drop. lia.
Qed.

Lemma ld_bytes_ok a off n :
  0 <= off -> 0 <= n -> off + n <= blen a -> ld_bytes a off n = Some (take (Z.to_nat n) (drop (Z.to_nat off) a)).
Proof. intros H1 H2 H3. unfold ld_bytes. by rewrite !(proj2 (Z.leb_le _ _)) by lia. Qed.

Lemma put8_ok a off v : 0 <= off -> off + 1 <= blen a -> put8 a off v = Some (patch a off [u8 v]).
Proof. intros. by apply st_bytes_ok. Qed.
Lemma put16_ok a off v : 0 <= off -> off + 2 <= blen a -> put16 a off v = Some (patch a off (be16 v)).
Proof. intros. by apply st_bytes_ok. Qed.
Lemma put32_ok a off v : 0 <= off -> off + 4 <= blen a -> put32 a off v = Some (patch a off (be32 v)).
Proof. intros. by apply st_bytes_ok. Qed.
Lemma zero_in_ok a off n :
  0 <= off -> 0 <= n -> off + n <= blen a -> zero_in a off n = Some (patch a off (replicate (Z.to_nat n) 0)).
Proof. intros. apply st_bytes_ok; [done|]. unfold blen in *. rewrite length_replicate. lia. Qed.
Lemma copy_in_ok a off src n :
  0 <= off -> blen src = n -> off + n <= blen a -> copy_in a off src n = Some (patch a off src).
Proof.
  intros H1 H2 H3. unfold copy_in. rewrite ld_bytes_ok by (unfold blen in *; lia).
  cbn [mbind option_bind]. change (Z.to_nat 0) with 0%nat. rewrite drop_0, take_ge by (unfold blen in H2; lia).
  apply st_bytes_ok; lia.
Qed.

(** Reads of a written region and of disjoint regions. *)
Lemma ld_patch_eq a off bs :
  0 <= off -> off + blen bs <= blen a -> ld_bytes (patch a off bs) off (blen bs) = Some bs.
Proof.
  intros H1 H2. unfold patch. unfold blen in *. apply ld_bytes_at; unfold blen; [|done].
  rewrite length_take. lia.
Qed.

Lemma take_drop_patch_before a off bs i n :
  0 <= i -> 0 <= n -> i + n <= off -> off <= blen a ->
  take (Z.to_nat n) (drop (Z.to_nat i) (patch a off bs)) = take (Z.to_nat n) (drop (Z.to_nat i) a).
Proof.
  intros Hi Hn Hd Ho. unfold patch, blen in *.
  rewrite drop_app_le by (rewrite length_take; lia).
  rewrite take_app_le by (rewrite length_drop, length_take; lia).
  rewrite !take_drop_commute, take_take. do 2 f_equal. lia.
Qed.

Lemma take_drop_patch_after a off bs i n :
  0 <= off -> off + blen bs <= i -> off + blen bs <= blen a -> 0 <= n ->
  take (Z.to_nat n) (drop (Z.to_nat i) (patch a off bs)) = take (Z.to_nat n) (drop (Z.to_nat i) a).
Proof.
  intros Ho Hi Ha Hn. unfold patch, blen in *. f_equal.
  rewrite app_assoc, drop_app_ge by (rewrite length_app, length_take; lia).
  rewrite drop_drop, length_app, length_take. f_equal. lia.
Qed.

Lemma ld_patch_ne a off bs i n :
  0 <= off -> off + blen bs <= blen a -> i + n <= off \/ off + blen bs <= i ->
  ld_bytes (patch a off bs) i n = ld_bytes a i n.
Proof.
  intros Ho Ha Hd. unfold ld_bytes at 1 2. unfold blen at 1. rewrite patch_length by done. fold (blen a).
  destruct (Z.leb_spec 0 i), (Z.leb_spec 0 n), (Z.leb_spec (i + n) (blen a)); cbn [andb]; try done.
  f_equal. destruct Hd; [apply take_drop_patch_before|apply take_drop_patch_after]; unfold blen in *; lia.
Qed.

(** A longer slice is the concatenation of two. *)
Lemma ld_bytes_split a off n m b c :
  ld_bytes a off n = Some b -> ld_bytes a (off + n) m = Some c -> ld_bytes a off (n + m) = Some (b ++ c).
Proof.
  rewrite !ld_bytes_Some. intros (H1 & H2 & H3 & ->) (H4 & H5 & H6 & ->).
  repeat split; [lia|lia|lia|].
  rewrite (Z2Nat.inj_add n m), (Z2Nat.inj_add off n) by lia.
  by rewrite <- take_take_drop, drop_drop.
Qed.

Lemma ld_slice1 a off : ld a off = Some (default 0 (a !! Z.to_nat off)) \/ ld a off = None.
Proof. unfold ld. destruct (0 <=? off); [|auto]. destruct (a !! Z.to_nat off); auto. Qed.

Lemma ld_of_slice a off x : ld_bytes a off 1 = Some [x] -> ld a off = Some x.
Proof.
  rewrite ld_bytes_Some. intros (H1 & _ & H2 & H3). apply ld_Some. split; [done|].
  change (Z.to_nat 1) with 1%nat in H3.
  destruct (drop (Z.to_nat off) a) as [|y l] eqn:E; [done|]. cbn in H3. injection H3 as ->.
  rewrite <- (Nat.add_0_r (Z.to_nat off)), <- lookup_drop, E. done.
Qed.

(** Byte-valued buffers. *)
Lemma ld_bytes_u8 a off n b : Forall is_u8 a -> ld_bytes a off n = Some b -> Forall is_u8 b.
Proof. intros Ha (_ & _ & _ & ->)%ld_bytes_Some. by apply Forall_take, Forall_drop. Qed.

Lemma ld_u8 a off x : Forall is_u8 a -> ld a off = Some x -> is_u8 x.
Proof. intros Ha [_ H]%ld_Some. by eapply Forall_lookup_1. Qed.

Lemma get16_range a off x : Forall is_u8 a -> get16 a off = Some x -> is_u16 x.
Proof.
  unfold get16. intros Ha (b & Hb & ->)%fmap_Some. pose proof (ld_bytes_u8 _ _ _ _ Ha Hb) as Hu.
  destruct b as [|x [|y b]]; cbn [un_be16]; unfold is_u16; [lia|lia|].
  rewrite !Forall_cons in Hu. unfold is_u8 in Hu. lia.
Qed.

Lemma get16_is_Some a off : 0 <= off -> off + 2 <= blen a -> is_Some (get16 a off).
Proof. intros. unfold get16. rewrite ld_bytes_ok by lia. by eexists. Qed.

Lemma get32_is_Some a off : 0 <= off -> off + 4 <= blen a -> is_Some (get32 a off).
Proof. intros. unfold get32. rewrite ld_bytes_ok by lia. by eexists. Qed.

Lemma get8_is_Some a off : 0 <= off -> off + 1 <= blen a -> is_Some (get8 a off).
Proof. intros. unfold get8. apply ld_is_Some. unfold blen in *. lia. Qed.

(** A packet of which the first [len] bytes are passed to a parser; below 2^31 no
    32-bit position wraps, and no C object is larger. *)
Definition packet_ok (p : bytes) (len : Z) : Prop :=
  Forall is_u8 p /\ len <= blen p /\ len < 2147483648.

Lemma get8_u8 p i : Forall is_u8 p -> 0 <= i -> i + 1 <= blen p -> exists v, get8 p i = Some v /\ is_u8 v.
Proof.
  intros Hp Hi Hl. destruct (get8_is_Some p i Hi Hl) as [v E]. exists v. split; [done|].
  by eapply ld_u8.
Qed.

Lemma slice_exists p i n : 0 <= i -> 0 <= n -> i + n <= blen p -> exists b, ld_bytes p i n = Some b /\ blen b = n.
Proof.
  intros. eexists. split; [by apply ld_bytes_ok|]. unfold blen in *. rewrite length_take, length_drop. lia.
Qed.

Lemma get16_u16 p i : Forall is_u8 p -> 0 <= i -> i + 2 <= blen p -> exists v, get16 p i = Some v /\ is_u16 v.
Proof. intros Hp Hi Hl. destruct (get16_is_Some p i Hi Hl) as [v E]. exists v. by split; [|eapply get16_range]. Qed.

(** Byte-valued by evaluation. *)
Definition u8s (b : bytes) : bool := forallb (fun x => (0 <=? x) && (x <? 256)) b.

Lemma u8s_dec b : u8s b = true -> Forall is_u8 b.
Proof.
  intros H. apply Forall_forall. intros x Hx. unfold u8s in H. rewrite forallb_forall in H.
  specialize (H x (proj1 (list_elem_of_In _ _) Hx)). unfold is_u8. bsimp. lia.
Qed.

(** ** Tactics

    [wr] performs the next write of the goal, [rd] evaluates reads of written
    regions; side conditions on offsets go to [lia]. *)
Lemma blen_patch a off bs : 0 <= off -> off + blen bs <= blen a -> blen (patch a off bs) = blen a.
Proof. intros. unfold blen. by rewrite patch_length. Qed.

Lemma blen_be16 v : blen (be16 v) = 2.
Proof. done. Qed.
Lemma blen_be32 v : blen (be32 v) = 4.
Proof. done. Qed.
Lemma blen_one (v : Z) : blen [v] = 1.
Proof. done. Qed.
Lemma blen_zeros n : 0 <= n -> blen (replicate (Z.to_nat n) 0) = n.
Proof. intros. unfold blen. rewrite length_replicate. lia. Qed.

(** Consecutive writes: the written part grows at the end. *)
Lemma st_next pre rest off bs :
  off = blen pre -> blen bs <= blen rest ->
  st_bytes (pre ++ rest) off bs = Some ((pre ++ bs) ++ drop (length bs) rest).
Proof.
  intros -> H. unfold blen in H. rewrite <- (take_drop (length bs) rest) at 1.
  rewrite st_bytes_app by (rewrite length_take; lia). by rewrite <- app_assoc.
Qed.

Lemma copy_next pre rest off src n :
  off = blen pre -> blen src = n -> n <= blen rest ->
  copy_in (pre ++ rest) off src n = Some ((pre ++ src) ++ drop (length src) rest).
Proof.
  intros -> Hs H. unfold copy_in. rewrite ld_bytes_ok by (unfold blen in *; lia).
  cbn [mbind option_bind]. change (Z.to_nat 0) with 0%nat. rewrite drop_0, take_ge by (unfold blen in Hs; lia).
  apply st_next; [done|lia].
Qed.

(** Fixed-size address arrays as explicit elements. *)
Lemma bytes4 (b : bytes) : length b = 4%nat -> exists a0 a1 a2 a3, b = [a0; a1; a2; a3].
Proof. intros H. do 4 (destruct b as [|? b]; [done|]). destruct b; [eauto|done]. Qed.

Lemma bytes6 (b : bytes) : length b = 6%nat -> exists a0 a1 a2 a3 a4 a5, b = [a0; a1; a2; a3; a4; a5].
Proof. intros H. do 6 (destruct b as [|? b]; [done|]). destruct b; [by do 6 eexists|done]. Qed.

(** A slice inside an explicit prefix. *)
Lemma ld_bytes_prefix p r off n :
  0 <= off -> 0 <= n -> off + n <= blen p ->
  ld_bytes (p ++ r) off n = Some (take (Z.to_nat n) (drop (Z.to_nat off) p)).
Proof.
  intros H1 H2 H3. unfold blen in *. rewrite ld_bytes_ok by (unfold blen; rewrite ?length_app; lia).
  rewrite drop_app_le, take_app_le by (rewrite ?length_drop; lia). done.
Qed.

Lemma ld_prefix (p r : bytes) off : 0 <= off < blen p -> ld (p ++ r) off = ld p off.
Proof.
  intros H. unfold ld, blen in *. destruct (0 <=? off); [|done]. rewrite lookup_app_l by lia. done.
Qed.

(** Writes inside an explicit prefix leave the rest alone. *)
Lemma st_prefix pre rest off bs :
  0 <= off -> off + blen bs <= blen pre -> st_bytes (pre ++ rest) off bs = Some (patch pre off bs ++ rest).
Proof.
  intros H1 H2. unfold blen in *. rewrite st_bytes_ok by (unfold blen; rewrite ?length_app; lia).
  unfold patch. rewrite take_app_le, drop_app_le by lia. by rewrite <- !app_assoc.
Qed.

Lemma copy_prefix pre rest off src n :
  0 <= off -> blen src = n -> off + n <= blen pre ->
  copy_in (pre ++ rest) off src n = Some (patch pre off src ++ rest).
Proof.
  intros H1 H2 H3. unfold copy_in. rewrite ld_bytes_ok by (unfold blen in *; lia).
  cbn [mbind option_bind]. change (Z.to_nat 0) with 0%nat. rewrite drop_0, take_ge by (unfold blen in H2; lia).
  apply st_prefix; lia.
Qed.

Lemma zero_start p n : 0 <= n <= blen p -> zero_in p 0 n = Some (replicate (Z.to_nat n) 0 ++ drop (Z.to_nat n) p).
Proof.
  intros H. unfold zero_in. rewrite st_bytes_ok by (rewrite ?blen_zeros; lia).
  unfold patch. rewrite length_replicate. done.
Qed.

(** A copy right behind the explicit prefix, from a source that may be longer. *)
Lemma copy_behind pre rest off src n :
  off = blen pre -> 0 <= n <= blen src -> n <= blen rest ->
  copy_in (pre ++ rest) off src n = Some ((pre ++ take (Z.to_nat n) src) ++ drop (Z.to_nat n) rest).
Proof.
  intros -> H1 H2. unfold blen in *. unfold copy_in. rewrite ld_bytes_ok by (unfold blen; lia).
  cbn [mbind option_bind]. change (Z.to_nat 0) with 0%nat. rewrite drop_0.
  assert (Hl : length (take (Z.to_nat n) src) = Z.to_nat n) by (rewrite length_take; lia).
  rewrite st_next; unfold blen; rewrite ?Hl; [done|done|lia].
Qed.

(** A slice behind a prefix. *)
Lemma ld_bytes_skip p r off n k :
  off = blen p + k -> 0 <= k -> ld_bytes (p ++ r) off n = ld_bytes r k n.
Proof.
  intros -> Hk. unfold ld_bytes, blen. rewrite length_app, Nat2Z.inj_add.
  rewrite (proj2 (Z.leb_le 0 (Z.of_nat (length p) + k))), (proj2 (Z.leb_le 0 k)) by lia.
  replace (Z.of_nat (length p) + k + n <=? Z.of_nat (length p) + Z.of_nat (length r))
    with (k + n <=? Z.of_nat (length r)) by (destruct (Z.leb_spec (k + n) (Z.of_nat (length r)));
    symmetry; [apply Z.leb_le|apply Z.leb_gt]; lia).
  rewrite Z2Nat.inj_add, Nat2Z.id, drop_app_ge by lia.
  by replace (length p + Z.to_nat k - length p)%nat with (Z.to_nat k) by lia.
Qed.

Lemma ld_skip (p r : bytes) off k : off = blen p + k -> 0 <= k -> ld (p ++ r) off = ld r k.
Proof.
  intros -> Hk. unfold ld, blen. rewrite !(proj2 (Z.leb_le _ _)) by lia.
  rewrite lookup_app_r by lia. f_equal. lia.
Qed.

(** Evaluate the constant offsets of slices taken from explicit lists. *)
Ltac eval_slices :=
  repeat match goal with
  | |- context [Z.to_nat ?n] =>
      let v := eval vm_compute in (Z.to_nat n) in change (Z.to_nat n) with v
  end;
  cbn [take drop app mbind option_bind fmap option_fmap option_map un_be16 un_be32].

(** Take a successful chain of reads and writes apart. *)
Ltac bind_inv H :=
  repeat match type of H with
  | mbind _ ?e = Some _ =>
      let E := fresh "E" in destruct e eqn:E; cbn [mbind option_bind] in H; [|discriminate H]
  end.

(** Evaluate a write at a constant offset of an explicit list. *)
Ltac eval_patch :=
  match goal with
  | |- context [patch ?l ?o ?b] =>
      let n := eval vm_compute in (Z.to_nat o) in
      let v := eval cbn [take drop app length Nat.add be16 be32]
        in (take n l ++ b ++ drop (n + length b) l) in
      change (patch l o b) with v
  end.
