(* ===== verification/NetArp.v ===== *)
(** * Ethernet and ARP: kernel/net_ethernet_arp.c

    Parsing and building of ARP frames in caller-owned buffers and the ARP
    cache of eight entries. *)

From Stdlib Require Import ZArith Lia.
From stdpp Require Import base numbers option tactics list.
From S2P Require Import Prelude Bytes NetBuf RegistryState.

Definition NET_ETHERNET_HEADER_SIZE : Z := 14.
Definition NET_ARP_PACKET_SIZE : Z := 28.
Definition NET_ETHERTYPE_IPV4 : Z := 2048.
Definition NET_ETHERTYPE_ARP : Z := 2054.
Definition NET_ARP_HTYPE_ETHERNET : Z := 1.
Definition NET_ARP_PTYPE_IPV4 : Z := 2048.
Definition NET_ARP_OPCODE_REQUEST : Z := 1.
Definition NET_ARP_OPCODE_REPLY : Z := 2.

Record net_ethernet_header_t := mk_ethernet { eth_destination : bytes; eth_source : bytes; ethertype : Z }.

Record net_arp_packet_t := mk_arp {
  hardware_type : Z; protocol_type : Z; hardware_size : Z; protocol_size : Z; opcode : Z;
  sender_mac : bytes; sender_ipv4 : bytes; target_mac : bytes; target_ipv4 : bytes
}.

Record net_arp_cache_entry_t := mk_arp_entry { a_valid : Z; a_ipv4 : bytes; a_mac : bytes }.

Fixpoint bytes_equal (a b : bytes) (count : nat) {struct count} : bool :=
  match count with
  | O => true
  | S count =>
      match a, b with
      | x :: a, y :: b => if negb (x =? y) then false else bytes_equal a b count
      | _, _ => false
      end
  end.

(** A parser returns the code and what it left in [*out]. *)
Definition net_ethernet_parse (frame : ptr bytes) (length : Z) (out : ptr net_ethernet_header_t)
    : option (Z * ptr net_ethernet_header_t) :=
  match frame, out with
  | Some f, Some _ =>
      if length <? NET_ETHERNET_HEADER_SIZE then Some (-1, out)
      else
        d ← ld_bytes f 0 6; s ← ld_bytes f 6 6; t ← get16 f 12;
        Some (0, Some (mk_ethernet d s t))
  | _, _ => Some (-1, out)
  end.

Definition zero_ethernet : net_ethernet_header_t := mk_ethernet (replicate 6 0) (replicate 6 0) 0.

Definition net_arp_parse (frame : ptr bytes) (length : Z) (out : ptr net_arp_packet_t)
    : option (Z * ptr net_arp_packet_t) :=
  match out, frame with
  | Some _, Some f =>
      if length <? NET_ETHERNET_HEADER_SIZE + NET_ARP_PACKET_SIZE then Some (-1, out)
      else
        '(rc, ethernet) ← net_ethernet_parse frame length (Some zero_ethernet);
        if negb (rc =? 0) || negb (ethertype (default zero_ethernet ethernet) =? NET_ETHERTYPE_ARP)
        then Some (-2, out)
        else
          let arp := NET_ETHERNET_HEADER_SIZE in
          ht ← get16 f (arp + 0); pt ← get16 f (arp + 2); hs ← get8 f (arp + 4);
          ps ← get8 f (arp + 5); op ← get16 f (arp + 6);
          sm ← ld_bytes f (arp + 8) 6; si ← ld_bytes f (arp + 14) 4;
          tm ← ld_bytes f (arp + 18) 6; ti ← ld_bytes f (arp + 24) 4;
          let packet := mk_arp ht pt hs ps op sm si tm ti in
          if negb (ht =? NET_ARP_HTYPE_ETHERNET) || negb (pt =? NET_ARP_PTYPE_IPV4)
             || negb (hs =? 6) || negb (ps =? 4)
          then Some (-3, Some packet) else Some (0, Some packet)
  | _, _ => Some (-1, out)
  end.

Definition broadcast : bytes := replicate 6 255.
Definition zero_mac : bytes := replicate 6 0.

Definition net_arp_build_request (frame : ptr bytes) (capacity : Z)
    (sender_mac sender_ipv4 target_ipv4 : ptr bytes) : option (Z * ptr bytes) :=
  match frame, sender_mac, sender_ipv4, target_ipv4 with
  | Some f, Some mac, Some ip, Some target =>
      if capacity <? NET_ETHERNET_HEADER_SIZE + NET_ARP_PACKET_SIZE then Some (-1, frame)
      else
        f ← copy_in f 0 broadcast 6; f ← copy_in f 6 mac 6; f ← put16 f 12 NET_ETHERTYPE_ARP;
        let arp := NET_ETHERNET_HEADER_SIZE in
        f ← put16 f (arp + 0) NET_ARP_HTYPE_ETHERNET; f ← put16 f (arp + 2) NET_ARP_PTYPE_IPV4;
        f ← put8 f (arp + 4) 6; f ← put8 f (arp + 5) 4;
        f ← put16 f (arp + 6) NET_ARP_OPCODE_REQUEST;
        f ← copy_in f (arp + 8) mac 6; f ← copy_in f (arp + 14) ip 4;
        f ← copy_in f (arp + 18) zero_mac 6; f ← copy_in f (arp + 24) target 4;
        Some (NET_ETHERNET_HEADER_SIZE + NET_ARP_PACKET_SIZE, Some f)
  | _, _, _, _ => Some (-1, frame)
  end.

Definition net_arp_build_reply (frame : ptr bytes) (capacity : Z) (request : ptr net_arp_packet_t)
    (local_mac local_ipv4 : ptr bytes) : option (Z * ptr bytes) :=
  match frame, request, local_mac, local_ipv4 with
  | Some f, Some r, Some mac, Some ip =>
      if (capacity <? NET_ETHERNET_HEADER_SIZE + NET_ARP_PACKET_SIZE)
         || negb (opcode r =? NET_ARP_OPCODE_REQUEST)
         || negb (hardware_type r =? NET_ARP_HTYPE_ETHERNET)
         || negb (protocol_type r =? NET_ARP_PTYPE_IPV4)
         || negb (hardware_size r =? 6) || negb (protocol_size r =? 4)
      then Some (-1, frame)
      else
        f ← copy_in f 0 (sender_mac r) 6; f ← copy_in f 6 mac 6; f ← put16 f 12 NET_ETHERTYPE_ARP;
        let arp := NET_ETHERNET_HEADER_SIZE in
        f ← put16 f (arp + 0) NET_ARP_HTYPE_ETHERNET; f ← put16 f (arp + 2) NET_ARP_PTYPE_IPV4;
        f ← put8 f (arp + 4) 6; f ← put8 f (arp + 5) 4;
        f ← put16 f (arp + 6) NET_ARP_OPCODE_REPLY;
        f ← copy_in f (arp + 8) mac 6; f ← copy_in f (arp + 14) ip 4;
        f ← copy_in f (arp + 18) (sender_mac r) 6; f ← copy_in f (arp + 24) (sender_ipv4 r) 4;
        Some (NET_ETHERNET_HEADER_SIZE + NET_ARP_PACKET_SIZE, Some f)
  | _, _, _, _ => Some (-1, frame)
  end.

Definition net_arp_is_reply_for (packet : ptr net_arp_packet_t) (local_ipv4 requested_ipv4 : ptr bytes)
    : Z :=
  match packet, local_ipv4, requested_ipv4 with
  | Some p, Some l, Some r =>
      b2z ((opcode p =? NET_ARP_OPCODE_REPLY) && bytes_equal (target_ipv4 p) l 4
           && bytes_equal (sender_ipv4 p) r 4)
  | _, _, _ => 0
  end.

(** ** Cache *)

Definition zero_arp_entry : net_arp_cache_entry_t := mk_arp_entry 0 (replicate 4 0) (replicate 6 0).
#[export] Instance arp_entry_inhabited : Inhabited net_arp_cache_entry_t := populate zero_arp_entry.
Abbreviation net_arp_cache_t := (list net_arp_cache_entry_t) (only parsing).

Definition entry_for (ipv4 : bytes) (e : net_arp_cache_entry_t) : bool :=
  c_true (a_valid e) && bytes_equal (a_ipv4 e) ipv4 4.

Definition net_arp_cache_init (cache : ptr net_arp_cache_t) : Z * ptr net_arp_cache_t :=
  match cache with
  | NULL => (-1, NULL)
  | Some c => (0, Some (map (fun e => mk_arp_entry 0 (a_ipv4 e) (a_mac e)) c))
  end.

Definition net_arp_cache_put (cache : ptr net_arp_cache_t) (ipv4 mac : ptr bytes)
    : Z * ptr net_arp_cache_t :=
  match cache, ipv4, mac with
  | Some c, Some ip, Some m =>
      match find_slot (entry_for ip) c with
      | Some i =>
          let e := c !!! i in
          (0, Some (<[i := mk_arp_entry (a_valid e) (a_ipv4 e) (take 6 m)]> c))
      | None =>
          match find_slot (fun e => negb (c_true (a_valid e))) c with
          | None => (-2, cache)
          | Some i => (0, Some (<[i := mk_arp_entry 1 (take 4 ip) (take 6 m)]> c))
          end
      end
  | _, _, _ => (-1, cache)
  end.

(** The second component is [*mac] after the call. *)
Definition net_arp_cache_lookup (cache : ptr net_arp_cache_t) (ipv4 mac : ptr bytes) : Z * ptr bytes :=
  match cache, ipv4, mac with
  | Some c, Some ip, Some _ =>
      match find_slot (entry_for ip) c with
      | Some i => (0, Some (a_mac (c !!! i)))
      | None => (-2, mac)
      end
  | _, _, _ => (-1, mac)
  end.

Definition net_arp_cache_invalidate (cache : ptr net_arp_cache_t) (ipv4 : ptr bytes)
    : Z * ptr net_arp_cache_t :=
  match cache, ipv4 with
  | Some c, Some ip =>
      match find_slot (entry_for ip) c with
      | Some i =>
          let e := c !!! i in (0, Some (<[i := mk_arp_entry 0 (a_ipv4 e) (a_mac e)]> c))
      | None => (-2, cache)
      end
  | _, _ => (-1, cache)
  end.

(** ** Frames *)

Lemma arp_parse_total f length out :
  length <= blen f -> is_Some (net_arp_parse (Some f) length out).
Proof.
  intros H. unfold net_arp_parse, net_ethernet_parse. destruct out as [o|]; [|done].
  unfold NET_ETHERNET_HEADER_SIZE, NET_ARP_PACKET_SIZE, get16, get8.
  case_if; [done|]. rewrite (proj2 (Z.ltb_ge length 14)) by lia.
  rewrite !ld_bytes_ok by lia. cbn [mbind option_bind fmap option_fmap option_map].
  case_if; [done|].
  destruct (proj2 (ld_is_Some f (14 + 4))) as [x ->]; [unfold blen in *; lia|].
  destruct (proj2 (ld_is_Some f (14 + 5))) as [y ->]; [unfold blen in *; lia|].
  cbn [mbind option_bind]. case_if; done.
Qed.

(** The 42 bytes of an ARP frame. *)
Definition arp_frame (dst src : bytes) (op : Z) (smac sip tmac tip : bytes) : bytes :=
  dst ++ src ++ be16 NET_ETHERTYPE_ARP ++ be16 NET_ARP_HTYPE_ETHERNET ++ be16 NET_ARP_PTYPE_IPV4
  ++ [6; 4] ++ be16 op ++ smac ++ sip ++ tmac ++ tip.

Definition mac_ok (m : bytes) : Prop := length m = 6%nat.
Definition ip_ok (a : bytes) : Prop := length a = 4%nat.

(** The twelve writes of both builders, in order. *)
Lemma arp_writes f dst src op smac sip tmac tip :
  mac_ok dst -> mac_ok src -> mac_ok smac -> ip_ok sip -> mac_ok tmac -> ip_ok tip -> 42 <= blen f ->
  (f ← copy_in f 0 dst 6; f ← copy_in f 6 src 6; f ← put16 f 12 NET_ETHERTYPE_ARP;
   f ← put16 f (14 + 0) NET_ARP_HTYPE_ETHERNET; f ← put16 f (14 + 2) NET_ARP_PTYPE_IPV4;
   f ← put8 f (14 + 4) 6; f ← put8 f (14 + 5) 4; f ← put16 f (14 + 6) op;
   f ← copy_in f (14 + 8) smac 6; f ← copy_in f (14 + 14) sip 4;
   f ← copy_in f (14 + 18) tmac 6; f ← copy_in f (14 + 24) tip 4; Some (42, Some f))
  = Some (42, Some (arp_frame dst src op smac sip tmac tip ++ drop 42 f)).
Proof.
  unfold mac_ok, ip_ok. intros H1 H2 H3 H4 H5 H6 Hf. unfold put16, put8.
  assert (Hlen : (42 <= length f)%nat) by (unfold blen in Hf; lia).
  change f with ([] ++ f) at 1.
  repeat (first [rewrite copy_next | rewrite st_next];
    [cbn [mbind option_bind]
    |unfold blen; rewrite ?length_app, ?H1, ?H2, ?H3, ?H4, ?H5, ?H6; reflexivity
    |unfold blen; rewrite ?length_drop, ?H1, ?H2, ?H3, ?H4, ?H5, ?H6; cbn [length be16]; lia..]).
  rewrite !drop_drop, H1, H2, H3, H4, H5, H6. unfold arp_frame. cbn [length be16 Nat.add].
  by rewrite app_nil_l, <- !app_assoc.
Qed.

Lemma build_request_frame f capacity mac ip target :
  mac_ok mac -> ip_ok ip -> ip_ok target -> 42 <= capacity -> capacity <= blen f ->
  net_arp_build_request (Some f) capacity (Some mac) (Some ip) (Some target) =
  Some (42, Some (arp_frame broadcast mac NET_ARP_OPCODE_REQUEST mac ip zero_mac target ++ drop 42 f)).
Proof.
  intros H1 H2 H3 Hc Hf. unfold net_arp_build_request, NET_ETHERNET_HEADER_SIZE, NET_ARP_PACKET_SIZE.
  rewrite (proj2 (Z.ltb_ge capacity _)) by lia. change (14 + 28) with 42.
  apply arp_writes; (done || lia).
Qed.

Lemma build_reply_frame f capacity r mac ip :
  mac_ok mac -> ip_ok ip -> mac_ok (sender_mac r) -> ip_ok (sender_ipv4 r) ->
  opcode r = NET_ARP_OPCODE_REQUEST -> hardware_type r = NET_ARP_HTYPE_ETHERNET ->
  protocol_type r = NET_ARP_PTYPE_IPV4 -> hardware_size r = 6 -> protocol_size r = 4 ->
  42 <= capacity -> capacity <= blen f ->
  net_arp_build_reply (Some f) capacity (Some r) (Some mac) (Some ip) =
  Some (42, Some (arp_frame (sender_mac r) mac NET_ARP_OPCODE_REPLY mac ip (sender_mac r) (sender_ipv4 r)
                  ++ drop 42 f)).
Proof.
  intros H1 H2 H3 H4 E1 E2 E3 E4 E5 Hc Hf.
  unfold net_arp_build_reply, NET_ETHERNET_HEADER_SIZE, NET_ARP_PACKET_SIZE.
  rewrite (proj2 (Z.ltb_ge capacity _)), E1, E2, E3, E4, E5, !Z.eqb_refl by lia. cbn [negb orb].
  change (14 + 28) with 42. apply arp_writes; (done || lia).
Qed.

(** Parsing an ARP frame gives back its fields. *)
Lemma parse_frame dst src op smac sip tmac tip rest length o :
  mac_ok dst -> mac_ok src -> mac_ok smac -> ip_ok sip -> mac_ok tmac -> ip_ok tip -> is_u16 op ->
  42 <= length ->
  net_arp_parse (Some (arp_frame dst src op smac sip tmac tip ++ rest)) length (Some o) =
  Some (0, Some (mk_arp NET_ARP_HTYPE_ETHERNET NET_ARP_PTYPE_IPV4 6 4 op smac sip tmac tip)).
Proof.
  intros H1 H2 H3 H4 H5 H6 Hop Hl.
  destruct (bytes6 dst H1) as (?&?&?&?&?&?& ->), (bytes6 src H2) as (?&?&?&?&?&?& ->),
    (bytes6 smac H3) as (?&?&?&?&?&?& ->), (bytes4 sip H4) as (?&?&?&?& ->),
    (bytes6 tmac H5) as (?&?&?&?&?&?& ->), (bytes4 tip H6) as (?&?&?&?& ->).
  unfold net_arp_parse, net_ethernet_parse, NET_ETHERNET_HEADER_SIZE, NET_ARP_PACKET_SIZE, get16, get8.
  rewrite !(proj2 (Z.ltb_ge length _)) by lia.
  rewrite !ld_bytes_prefix by (unfold blen; cbn; lia). rewrite !ld_prefix by (unfold blen; cbn; lia).
  unfold arp_frame, be16, ld. eval_slices.
  assert (256 * u8 (op / 256) + u8 op = op) as -> by (unfold u8, is_u16 in *; zlia).
  reflexivity.
Qed.

Lemma bytes_equal_spec a b n :
  (n <= length a)%nat -> (n <= length b)%nat -> bytes_equal a b n = true <-> take n a = take n b.
Proof.
  revert a b. induction n as [|n IH]; intros a b Ha Hb; [done|].
  destruct a as [|x a]; [cbn in Ha; lia|]. destruct b as [|y b]; [cbn in Hb; lia|].
  cbn [bytes_equal take]. destruct (Z.eqb_spec x y) as [->|Hne]; cbn [negb].
  - rewrite IH by (cbn in *; lia). split; [by intros ->|by intros [= ->]].
  - split; [done|]. by intros [= ? ?].
Qed.

Lemma ip_equal_refl a : ip_ok a -> bytes_equal a a 4 = true.
Proof. intros H. unfold ip_ok in H. by apply bytes_equal_spec; [lia|lia|]. Qed.

(** An ARP exchange works end to end: the request built by one host is
    parsed by another with every field intact, the reply that host builds from
    the parsed request is parsed by the first, is recognised as the answer to
    the address it asked for, and carries the answering host's MAC. All frames
    are 42 bytes and nothing is written past them. *)
Theorem arp_exchange :
  forall (fa fb : bytes) (ca cb la lb : Z) (mac_a ip_a mac_b ip_b : bytes) (o1 o2 : net_arp_packet_t),
    mac_ok mac_a -> ip_ok ip_a -> mac_ok mac_b -> ip_ok ip_b ->
    42 <= ca -> ca <= blen fa -> 42 <= cb -> cb <= blen fb -> 42 <= la -> 42 <= lb ->
    exists req pkt rep ans,
      net_arp_build_request (Some fa) ca (Some mac_a) (Some ip_a) (Some ip_b) = Some (42, Some req) /\
      drop 42 req = drop 42 fa /\
      net_arp_parse (Some req) la (Some o1) = Some (0, Some pkt) /\
      net_arp_build_reply (Some fb) cb (Some pkt) (Some mac_b) (Some ip_b) = Some (42, Some rep) /\
      drop 42 rep = drop 42 fb /\
      net_arp_parse (Some rep) lb (Some o2) = Some (0, Some ans) /\
      net_arp_is_reply_for (Some ans) (Some ip_a) (Some ip_b) = 1 /\
      sender_mac ans = mac_b /\ target_mac ans = mac_a.
Proof.
  intros fa fb ca cb la lb mac_a ip_a mac_b ip_b o1 o2 Ha1 Ha2 Hb1 Hb2 Hca Hfa Hcb Hfb Hla Hlb.
  assert (Hd : forall d s op sm si tm ti r, mac_ok d -> mac_ok s -> mac_ok sm -> ip_ok si -> mac_ok tm ->
    ip_ok ti -> drop 42 (arp_frame d s op sm si tm ti ++ r) = r).
  { unfold mac_ok, ip_ok. intros d s op sm si tm ti r H1 H2 H3 H4 H5 H6. apply drop_app_length'. unfold arp_frame.
    rewrite !length_app, H1, H2, H3, H4, H5, H6. done. }
  rewrite build_request_frame by done. do 4 eexists. split; [done|]. split; [by apply Hd|].
  split; [apply parse_frame; try done; unfold is_u16, NET_ARP_OPCODE_REQUEST; lia|].
  split; [by apply build_reply_frame|]. cbn [sender_mac sender_ipv4].
  split; [by apply Hd|].
  split; [apply parse_frame; try done; unfold is_u16, NET_ARP_OPCODE_REPLY; lia|].
  cbn [net_arp_is_reply_for opcode target_ipv4 sender_ipv4 sender_mac target_mac].
  by rewrite !ip_equal_refl.
Qed.

(** ARP parsing is memory safe and strict: whatever bytes arrive, the parser
    never reads past the announced length, and it accepts only Ethernet/IPv4 ARP
    frames of at least 42 bytes. *)
Lemma arp_parse_safe :
  forall (f : bytes) (length : Z) (o : net_arp_packet_t),
    length <= blen f ->
    exists rc p, net_arp_parse (Some f) length (Some o) = Some (rc, p) /\
      (rc = 0 -> 42 <= length /\ get16 f 12 = Some NET_ETHERTYPE_ARP /\
         exists a, p = Some a /\ hardware_type a = NET_ARP_HTYPE_ETHERNET /\
           protocol_type a = NET_ARP_PTYPE_IPV4 /\ hardware_size a = 6 /\ protocol_size a = 4).
Proof.
  intros f length o Hl. destruct (arp_parse_total f length (Some o) Hl) as [[rc p] Hp].
  exists rc, p. split; [done|]. intros ->. unfold net_arp_parse, net_ethernet_parse in Hp.
  unfold NET_ETHERNET_HEADER_SIZE, NET_ARP_PACKET_SIZE in Hp.
  destruct (Z.ltb_spec length (14 + 28)); [done|]. rewrite (proj2 (Z.ltb_ge length 14)) in Hp by lia.
  destruct (ld_bytes f 0 6); cbn [mbind option_bind] in Hp; [|done].
  destruct (ld_bytes f 6 6); cbn [mbind option_bind] in Hp; [|done].
  destruct (get16 f 12) as [t|] eqn:Et; cbn [mbind option_bind] in Hp; [|done].
  cbn [default from_option id ethertype Z.eqb negb orb] in Hp.
  destruct (Z.eqb_spec t NET_ETHERTYPE_ARP) as [->|]; cbn [negb] in Hp; [|done].
  split; [lia|]. split; [done|].
  bind_inv Hp.
  case_if_in Hp; [done|]. injection Hp as <-. eexists. split; [done|]. bsimp. done.
Qed.

(** ** The cache as a map *)

(** Arrays of the declared sizes, and at most one valid entry per address. *)
Record cache_wf (c : net_arp_cache_t) : Prop := {
  ac_sizes : Forall (fun e => ip_ok (a_ipv4 e) /\ mac_ok (a_mac e)) c;
  ac_unique : forall i j a b, c !! i = Some a -> c !! j = Some b ->
    c_true (a_valid a) = true -> c_true (a_valid b) = true -> a_ipv4 a = a_ipv4 b -> i = j
}.

(** The address map the cache represents. *)
Definition arp_view (c : net_arp_cache_t) (ip : bytes) : option bytes :=
  i ← find_slot (entry_for ip) c; a_mac <$> (c !! i).

Lemma entry_for_spec c i e ip :
  cache_wf c -> c !! i = Some e -> ip_ok ip ->
  entry_for ip e = true <-> c_true (a_valid e) = true /\ a_ipv4 e = ip.
Proof.
  intros Hwf He Hip. destruct (Forall_lookup_1 _ _ _ _ (ac_sizes c Hwf) He) as [Hs _].
  unfold ip_ok in *. unfold entry_for. rewrite andb_true_iff, bytes_equal_spec by lia.
  by rewrite !take_ge by lia.
Qed.

Lemma arp_view_spec c ip m :
  cache_wf c -> ip_ok ip ->
  arp_view c ip = Some m <->
  exists i e, c !! i = Some e /\ c_true (a_valid e) = true /\ a_ipv4 e = ip /\ a_mac e = m.
Proof.
  intros Hwf Hip. unfold arp_view. destruct (find_slot (entry_for ip) c) as [i|] eqn:Hf; cbn [mbind option_bind].
  - apply find_slot_Some in Hf as (e & He & Hp & _). rewrite He. cbn [fmap option_fmap option_map].
    apply (entry_for_spec c i e ip Hwf He Hip) in Hp as [Hv Hi]. split.
    + intros [= <-]. by eauto 10.
    + intros (j & e' & He' & Hv' & Hi' & <-). f_equal.
      assert (i = j) as <- by (eapply (ac_unique c Hwf); eauto; congruence). congruence.
  - rewrite find_slot_None in Hf. split; [done|]. intros (j & e & He & Hv & Hi & _).
    assert (entry_for ip e = true) by (by apply (entry_for_spec c j e)). rewrite (Hf j e He) in *. done.
Qed.

(** Replacing entry [i]. *)
Lemma cache_insert c i e e' :
  cache_wf c -> c !! i = Some e -> ip_ok (a_ipv4 e') -> mac_ok (a_mac e') ->
  (c_true (a_valid e') = true -> forall j b, j <> i -> c !! j = Some b ->
     c_true (a_valid b) = true -> a_ipv4 b <> a_ipv4 e') ->
  cache_wf (<[i := e']> c).
Proof.
  intros [Hs Hu] He Hip Hm Hf. constructor; [by apply Forall_insert|].
  intros j k a b Hj Hk Ha Hb E.
  apply list_lookup_insert_Some in Hj as [(<- & <- & _)|[Hji Hj]];
    apply list_lookup_insert_Some in Hk as [(<- & <- & _)|[Hki Hk]]; try done.
  - by destruct (Hf Ha k b).
  - by destruct (Hf Hb j a).
  - by eapply Hu.
Qed.

Lemma view_insert c i e e' ip :
  cache_wf c -> cache_wf (<[i := e']> c) -> c !! i = Some e -> ip_ok ip ->
  arp_view (<[i := e']> c) ip =
  if c_true (a_valid e') && bool_decide (a_ipv4 e' = ip) then Some (a_mac e')
  else if c_true (a_valid e) && bool_decide (a_ipv4 e = ip) then None else arp_view c ip.
Proof.
  intros Hwf Hwf' He Hip. assert (Hlt : (i < length c)%nat) by (by eapply lookup_lt_Some).
  destruct (c_true (a_valid e') && bool_decide (a_ipv4 e' = ip)) eqn:E'.
  { apply andb_true_iff in E' as [Hv Hi%bool_decide_eq_true]. apply arp_view_spec; [done|done|].
    exists i, e'. by rewrite list_lookup_insert_eq. }
  apply option_eq. intros m. rewrite arp_view_spec by done.
  transitivity (exists j x, j <> i /\ c !! j = Some x /\ c_true (a_valid x) = true /\ a_ipv4 x = ip /\ a_mac x = m).
  { split.
    - intros (j & x & Hj & Hv & Hi & Hm). apply list_lookup_insert_Some in Hj as [(<- & <- & _)|[Hji Hj]].
      + by rewrite Hv, bool_decide_eq_true_2 in E'.
      + by eauto 10.
    - intros (j & x & Hji & Hj & ?). exists j, x. by rewrite list_lookup_insert_ne. }
  destruct (c_true (a_valid e) && bool_decide (a_ipv4 e = ip)) eqn:E.
  - apply andb_true_iff in E as [Hv Hi%bool_decide_eq_true]. split; [|done].
    intros (j & x & Hji & Hj & Hvx & Hix & _). destruct Hji. eapply (ac_unique c Hwf); eauto. congruence.
  - rewrite arp_view_spec by done. split.
    + intros (j & x & _ & ?). by eauto.
    + intros (j & x & Hj & Hv & Hi & Hm). exists j, x. split; [|done]. intros ->.
      assert (x = e) as -> by congruence. by rewrite Hv, bool_decide_eq_true_2 in E.
Qed.

(** The ARP cache is a map from addresses to MACs of at most eight entries:
    lookup answers the map; put binds the address and changes no other binding,
    or reports -2 and changes nothing when eight other addresses are bound;
    invalidate removes exactly one binding. *)
Theorem arp_cache_is_map :
  forall (c : net_arp_cache_t) (ip mac out : bytes),
    cache_wf c -> ip_ok ip -> mac_ok mac ->
    (net_arp_cache_lookup (Some c) (Some ip) (Some out) =
       match arp_view c ip with Some m => (0, Some m) | None => (-2, Some out) end) /\
    (exists rc c', net_arp_cache_put (Some c) (Some ip) (Some mac) = (rc, Some c') /\ cache_wf c' /\
       ((rc = 0 /\ forall a, ip_ok a -> arp_view c' a = if bool_decide (a = ip) then Some mac else arp_view c a) \/
        (rc = -2 /\ c' = c /\ arp_view c ip = None /\ Forall (fun e => c_true (a_valid e) = true) c))) /\
    (exists rc c', net_arp_cache_invalidate (Some c) (Some ip) = (rc, Some c') /\ cache_wf c' /\
       rc = (if arp_view c ip then 0 else -2) /\
       forall a, ip_ok a -> arp_view c' a = if bool_decide (a = ip) then None else arp_view c a).
Proof.
  intros c ip mac out Hwf Hip Hmac.
  unfold net_arp_cache_lookup, net_arp_cache_put, net_arp_cache_invalidate.
  assert (Hsz : forall i e, c !! i = Some e -> ip_ok (a_ipv4 e) /\ mac_ok (a_mac e))
    by (intros i e He; exact (Forall_lookup_1 _ _ _ _ (ac_sizes c Hwf) He)).
  destruct (find_slot (entry_for ip) c) as [i|] eqn:Hf.
  - pose proof Hf as (e & He & Hp & _)%find_slot_Some.
    destruct (Hsz i e He) as [Hse Hsm].
    apply (entry_for_spec c i e ip Hwf He Hip) in Hp as [Hv Hi].
    rewrite (list_lookup_total_correct _ _ _ He).
    assert (Hview : arp_view c ip = Some (a_mac e)) by (unfold arp_view; rewrite Hf; cbn; by rewrite He).
    rewrite Hview. split; [done|].
    assert (Hothers : forall j b, j <> i -> c !! j = Some b -> c_true (a_valid b) = true -> a_ipv4 b <> a_ipv4 e)
      by (intros j b Hji Hj Hvb E; by apply Hji, (ac_unique c Hwf j i b e)).
    split.
    + unfold mac_ok in Hmac. rewrite take_ge by lia.
      assert (Hwf' : cache_wf (<[i := mk_arp_entry (a_valid e) (a_ipv4 e) mac]> c))
        by (by apply (cache_insert c i e)).
      do 2 eexists. split; [done|]. split; [done|]. left. split; [done|]. intros a Ha.
      rewrite (view_insert c i e) by done. cbn [a_valid a_ipv4 a_mac]. rewrite Hv. cbn [andb].
      rewrite Hi. destruct (bool_decide_reflect (a = ip)) as [->|Hne].
      * by rewrite bool_decide_eq_true_2.
      * by rewrite bool_decide_eq_false_2.
    + assert (Hwf' : cache_wf (<[i := mk_arp_entry 0 (a_ipv4 e) (a_mac e)]> c))
        by (by apply (cache_insert c i e)).
      do 2 eexists. split; [done|]. split; [done|]. split; [done|]. intros a Ha.
      rewrite (view_insert c i e) by done. cbn [a_valid a_ipv4 a_mac]. rewrite Hv. cbn [andb c_true Z.eqb negb].
      rewrite Hi. destruct (bool_decide_reflect (a = ip)) as [->|Hne].
      * by rewrite bool_decide_eq_true_2.
      * by rewrite bool_decide_eq_false_2.
  - assert (Hview : arp_view c ip = None) by (unfold arp_view; by rewrite Hf). rewrite Hview.
    split; [done|]. split.
    2: { do 2 eexists. split; [done|]. split; [done|]. split; [done|]. intros a Ha.
         destruct (bool_decide_reflect (a = ip)) as [->|]; done. }
    destruct (find_slot (fun e => negb (c_true (a_valid e))) c) as [i|] eqn:Hg.
    + apply find_slot_Some in Hg as (e & He & Hv%negb_true_iff & _).
      unfold mac_ok, ip_ok in Hmac, Hip. rewrite !take_ge by lia.
      assert (Hwf' : cache_wf (<[i := mk_arp_entry 1 ip mac]> c)).
      { apply (cache_insert c i e); try done. cbn [a_ipv4]. intros _ j b _ Hj Hvb E.
        rewrite find_slot_None in Hf. specialize (Hf j b Hj).
        assert (entry_for ip b = true); [by apply (entry_for_spec c j b)|congruence]. }
      do 2 eexists. split; [done|]. split; [done|]. left. split; [done|]. intros a Ha.
      rewrite (view_insert c i e) by done. cbn [a_valid a_ipv4 a_mac c_true Z.eqb negb andb]. rewrite Hv. cbn [andb].
      destruct (bool_decide_reflect (a = ip)) as [->|Hne].
      * by rewrite bool_decide_eq_true_2.
      * by rewrite bool_decide_eq_false_2.
    + do 2 eexists. split; [done|]. split; [done|]. right. split; [done|]. split; [done|]. split; [done|].
      rewrite find_slot_None in Hg. apply Forall_lookup. intros i e He. specialize (Hg i e He).
      by apply negb_false_iff in Hg.
Qed.

Definition mac1 : bytes := [2; 0; 0; 0; 0; 1].
Definition mac2 : bytes := [2; 0; 0; 0; 0; 2].
Definition ip1 : bytes := [10; 0; 2; 15].
Definition ip2 : bytes := [10; 0; 2; 2].

Example arp_exchange_witness :
  exists req pkt rep ans,
    net_arp_build_request (Some (replicate 64 0)) 64 (Some mac1) (Some ip1) (Some ip2) = Some (42, Some req) /\
    net_arp_parse (Some req) 42 (Some (mk_arp 0 0 0 0 0 [] [] [] [])) = Some (0, Some pkt) /\
    net_arp_build_reply (Some (replicate 42 7)) 42 (Some pkt) (Some mac2) (Some ip2) = Some (42, Some rep) /\
    net_arp_parse (Some rep) 42 (Some pkt) = Some (0, Some ans) /\ sender_mac ans = mac2.
Proof.
  destruct (arp_exchange (replicate 64 0) (replicate 42 7) 64 42 42 42 mac1 ip1 mac2 ip2
    (mk_arp 0 0 0 0 0 [] [] [] [])
    (mk_arp 1 2048 6 4 1 mac1 ip1 zero_mac ip2)) as (req & pkt & rep & ans & H1 & _ & H2 & H3 & _ & H4 & _ & H5 & _);
    try reflexivity; try (vm_compute; discriminate).
  exists req, pkt, rep, ans. split; [exact H1|]. split; [exact H2|]. split; [exact H3|]. split; [|exact H5].
  assert (pkt = mk_arp 1 2048 6 4 1 mac1 ip1 zero_mac ip2) as ->; [|exact H4].
  assert (E : net_arp_build_request (Some (replicate 64 0)) 64 (Some mac1) (Some ip1) (Some ip2) = Some (42, Some req))
    by exact H1. vm_compute in E. injection E as <-. vm_compute in H2. injection H2 as <-. reflexivity.
Defined.

Example arp_cache_is_map_witness :
  net_arp_cache_lookup (Some (mk_arp_entry 1 ip1 mac1 :: replicate 7 zero_arp_entry)) (Some ip1) (Some mac2)
  = (0, Some mac1).
Proof.
  refine (eq_trans (proj1 (arp_cache_is_map (mk_arp_entry 1 ip1 mac1 :: replicate 7 zero_arp_entry) ip1 mac2 mac2
    _ eq_refl eq_refl)) _).
  - constructor; [repeat constructor|].
    assert (Hz : forall k e, replicate 7 zero_arp_entry !! k = Some e -> a_valid e = 0).
    { intros k e (-> & _)%lookup_replicate. reflexivity. }
    intros [|i] [|j] a b Ha Hb Hva Hvb _; [reflexivity| | |];
      [apply Hz in Hb; rewrite Hb in Hvb; discriminate Hvb|..];
      apply Hz in Ha; rewrite Ha in Hva; discriminate Hva.
  - vm_compute. reflexivity.
Defined.
