(* ===== verification/NetSum.v ===== *)
(** * The Internet checksum

    The summing loops of kernel/net_ipv4_udp.c and kernel/net_tcp.c, and the
    ones' complement sum of RFC 1071 they compute. *)

From Stdlib Require Import ZArith Lia.
From stdpp Require Import base numbers option tactics list.
From S2P Require Import Prelude Bytes NetBuf.

(** [while (sum >> 16) sum = (sum & 0xffffU) + (sum >> 16);] *)
Fixpoint fold_carry (fuel : nat) (sum : Z) : option Z :=
  if Z.shiftr sum 16 =? 0 then Some sum
  else match fuel with
       | O => None
       | S fuel => fold_carry fuel (u32 (Z.land sum 65535 + Z.shiftr sum 16))
       end.

(** [for (; i + d < length; i += 2) { sum += get16(p + i); while ... }]: the loops
    of the IPv4 checksum ([d = 0]) and of the ICMP and TCP checksums ([d = 1]).
    The result is the final [i] and [sum]; the fuel is the number of iterations
    left, [None] when it runs out. *)
Fixpoint sum16 (fuel : nat) (d : Z) (p : bytes) (i length sum : Z) : option (Z * Z) :=
  if i + d <? length then
    match fuel with
    | O => None
    | S fuel =>
        w ← get16 p i;
        sum ← fold_carry 16 (u32 (sum + w));
        sum16 fuel d p (u16 (i + 2)) length sum
    end
  else Some (i, sum).

(** The bind of a value, as a rewriting step: cheaper to check than reduction when
    the continuation contains loops. *)
Lemma some_bind {A B} (f : A -> option B) x : (Some x ≫= f) = f x.
Proof. reflexivity. Qed.

Lemma sum16_S fuel d p i length sum :
  sum16 (S fuel) d p i length sum =
  if i + d <? length then
    w ← get16 p i; sum ← fold_carry 16 (u32 (sum + w)); sum16 fuel d p (u16 (i + 2)) length sum
  else Some (i, sum).
Proof. reflexivity. Qed.

(** ** Reference *)

(** The big-endian words of a byte string, an odd last byte padded with zero. *)
Fixpoint words (b : bytes) : list Z :=
  match b with
  | x :: y :: b => 256 * x + y :: words b
  | [x] => [256 * x]
  | [] => []
  end.

Definition total (ws : list Z) : Z := fold_right Z.add 0 ws.

(** The representative of [s] modulo 2^16 - 1 that ones' complement addition
    gives: zero only for zero. *)
Definition oc (s : Z) : Z := if s =? 0 then 0 else (s - 1) mod 65535 + 1.

Definition rfc1071 (ws : list Z) : Z := 65535 - oc (total ws).

Lemma oc_range s : 0 <= s -> 0 <= oc s <= 65535.
Proof. intros H. unfold oc. case_if; [lia|]. zlia. Qed.

Lemma oc_small s : 0 <= s <= 65535 -> oc s = s.
Proof. intros H. unfold oc. case_if; [lia|]. zlia. Qed.

Lemma oc_add s t : 0 <= s -> 0 <= t -> oc (oc s + t) = oc (s + t).
Proof.
  intros Hs Ht. unfold oc. destruct (Z.eqb_spec s 0) as [->|H0]; [done|].
  destruct (Z.eqb_spec (s + t) 0); [lia|].
  destruct (Z.eqb_spec ((s - 1) mod 65535 + 1 + t) 0); [zlia|].
  f_equal. replace ((s - 1) mod 65535 + 1 + t - 1) with ((s - 1) mod 65535 + t) by lia.
  rewrite Zplus_mod_idemp_l. f_equal. lia.
Qed.

Lemma total_cons w ws : total (w :: ws) = w + total ws.
Proof. done. Qed.

Lemma total_app a b : total (a ++ b) = total a + total b.
Proof. induction a as [|x a IH]; [done|]. cbn [app]. rewrite !total_cons, IH. lia. Qed.

Lemma words_nonneg b : Forall is_u8 b -> Forall is_u16 (words b).
Proof.
  induction b as [b IH] using (induction_ltof1 _ length). unfold ltof in IH.
  destruct b as [|x [|y b]]; cbn; intros H; [constructor|..]; rewrite ?Forall_cons in *; unfold is_u8, is_u16 in *.
  - split; [lia|constructor].
  - split; [lia|]. apply IH; [cbn; lia|tauto].
Qed.

Lemma total_nonneg ws : Forall is_u16 ws -> 0 <= total ws.
Proof. induction 1 as [|w ws Hw _ IH]; cbn; [done|]. unfold is_u16 in Hw. fold (total ws). lia. Qed.

(** Filling a zero checksum field makes the whole sum verify. *)
Lemma oc_complement s : 0 <= s -> oc (s + (65535 - oc s)) = 65535.
Proof.
  intros H. destruct (Z.eqb_spec s 0) as [->|H0]; [done|].
  unfold oc at 1. pose proof (oc_range s). case_if; [lia|].
  unfold oc. case_if; [lia|]. replace (s + (65535 - ((s - 1) mod 65535 + 1)) - 1)
    with (65534 + (s - 1) / 65535 * 65535) by zlia.
  rewrite Z_mod_plus_full. reflexivity.
Qed.

(** ** The loops compute it *)
Lemma shiftr16_0 s : 0 <= s -> (Z.shiftr s 16 =? 0) = (s <? 65536).
Proof.
  intros H. rewrite Z.shiftr_div_pow2 by lia. change (2 ^ 16) with 65536.
  destruct (Z.eqb_spec (s / 65536) 0), (Z.ltb_spec s 65536); try done; zlia.
Qed.

Lemma fold_carry_step fuel s : 0 <= s -> fold_carry (S fuel) s =
  if s <? 65536 then Some s else fold_carry fuel (u32 (s mod 65536 + s / 65536)).
Proof.
  intros H. cbn [fold_carry]. rewrite shiftr16_0 by done. case_if; [done|].
  change 65535 with (Z.ones 16). rewrite Z.land_ones, Z.shiftr_div_pow2 by lia. done.
Qed.

Lemma oc_fold s : 0 <= s -> oc (s mod 65536 + s / 65536) = oc s.
Proof.
  intros H. unfold oc. destruct (Z.eqb_spec s 0) as [->|H0]; [done|].
  case_if; [zlia|]. f_equal.
  replace (s mod 65536 + s / 65536 - 1) with (s - 1 + (- (s / 65536)) * 65535) by zlia.
  apply Z_mod_plus_full.
Qed.

(** Two iterations are enough for every 32-bit accumulator. *)
Lemma fold_carry_ok fuel s : is_u32 s -> (3 <= fuel)%nat -> fold_carry fuel s = Some (oc s).
Proof.
  intros Hs Hf. do 3 (destruct fuel as [|fuel]; [lia|]). clear Hf. unfold is_u32 in Hs.
  rewrite fold_carry_step by lia. case_if; [by rewrite oc_small by lia|].
  rewrite <- (oc_fold s) by lia.
  remember (s mod 65536 + s / 65536) as t eqn:Et. assert (Ht : 0 <= t <= 131070) by zlia. clear Et.
  rewrite u32_id by (unfold is_u32; lia). rewrite fold_carry_step by lia.
  case_if; [by rewrite oc_small by lia|]. rewrite <- (oc_fold t) by lia.
  remember (t mod 65536 + t / 65536) as v eqn:Ev. assert (Hv : 0 <= v <= 65535) by zlia. clear Ev.
  rewrite u32_id by (unfold is_u32; lia). rewrite fold_carry_step by lia.
  by rewrite (proj2 (Z.ltb_lt _ _)), oc_small by lia.
Qed.

(** One summand: the accumulator stays the representative of the exact sum. *)
Lemma sum_step s w : 0 <= s <= 65535 -> is_u16 w -> fold_carry 16 (u32 (s + w)) = Some (oc (s + w)).
Proof.
  unfold is_u16. intros Hs Hw. rewrite u32_id by (unfold is_u32; lia).
  apply fold_carry_ok; [unfold is_u32; lia|lia].
Qed.

Lemma drop_two (p : bytes) (k : nat) x y r :
  drop k p = x :: y :: r -> drop (k + 2) p = r.
Proof. intros H. rewrite <- drop_drop, H. done. Qed.

(** The loop from [i] consumes the words of the region up to [length], keeping an
    odd last byte when [d = 1]. *)
Lemma sum16_spec p len d fuel i s :
  Forall is_u8 p -> is_u16 len -> len <= blen p -> (d = 1 \/ d = 0 /\ Z.even len = true) ->
  0 <= i <= len -> Z.even i = true -> (Z.to_nat (len - i) <= fuel)%nat -> 0 <= s <= 65535 ->
  sum16 fuel d p i len s =
    Some (len - len mod 2, oc (s + total (words (take (Z.to_nat (len - len mod 2 - i)) (drop (Z.to_nat i) p))))).
Proof.
  intros Hp Hl Hlen Hd. unfold is_u16, blen in *. revert i s.
  induction fuel as [|fuel IH]; intros i s Hi He Hf Hs;
    assert (Hm : len mod 2 = if Z.even len then 0 else 1) by apply Zmod_even;
    apply Z.even_spec in He as [j He].
  - cbn [sum16]. assert (Hil : i = len) by lia. rewrite (proj2 (Z.ltb_ge _ _)) by lia.
    assert (len mod 2 = 0) by zlia.
    replace (len - len mod 2 - i) with 0 by lia. cbn [Z.to_nat take words total fold_right]. rewrite Z.add_0_r, oc_small by lia. do 2 f_equal. lia.
  - rewrite sum16_S. destruct (Z.ltb_spec (i + d) len) as [Hlt|Hge].
    + destruct (drop (Z.to_nat i) p) as [|x [|y r]] eqn:E.
      1, 2: apply (f_equal length) in E; rewrite length_drop in E; cbn in E;
            destruct Hd as [->|[-> Hev]]; [lia|apply Z.even_spec in Hev as [? ?]; lia].
      assert (Hu : Forall is_u8 (x :: y :: r)) by (rewrite <- E; by apply Forall_drop).
      rewrite !Forall_cons in Hu. destruct Hu as (Hx & Hy & Hr). unfold is_u8 in Hx, Hy.
      assert (Hin : i + 2 <= len) by (destruct Hd as [->|[-> Hev]]; [lia|apply Z.even_spec in Hev as [? ?]; lia]).
      unfold get16. rewrite ld_bytes_ok by (unfold blen; lia). rewrite E. change (Z.to_nat 2) with 2%nat.
      cbn [take fmap option_fmap option_map un_be16]. rewrite some_bind.
      rewrite sum_step, some_bind by (unfold is_u16; lia).
      rewrite u16_id by (unfold is_u16; lia).
      rewrite IH; [| lia | apply Z.even_spec; exists (j + 1); lia | lia | apply oc_range; lia].
      do 2 f_equal. rewrite Z2Nat.inj_add by lia. change (Z.to_nat 2) with 2%nat.
      rewrite (drop_two _ _ _ _ _ E).
      replace (Z.to_nat (len - len mod 2 - i)) with (S (S (Z.to_nat (len - len mod 2 - (i + 2))))) by zlia.
      cbn [take words]. rewrite total_cons.
      rewrite oc_add; [f_equal; lia|lia|].
      apply total_nonneg, words_nonneg, Forall_take, Hr.
    + assert (Hi2 : i = len - len mod 2).
      { destruct Hd as [->|[-> Hev]]; [zlia|]. rewrite Hev in Hm. lia. }
      rewrite Hi2 at 2. replace (len - len mod 2 - (len - len mod 2)) with 0 by lia.
      rewrite <- Hi2. cbn [Z.to_nat take words total fold_right]. rewrite Z.add_0_r, oc_small by lia. done.
Qed.

(** The words of a region with an odd last byte. *)
Lemma words_snoc (b : bytes) x : Z.even (blen b) = true -> words (b ++ [x]) = words b ++ [256 * x].
Proof.
  unfold blen. induction b as [b IH] using (induction_ltof1 _ length). unfold ltof in IH. intros He.
  destruct b as [|y [|z b]]; [done|done|]. cbn [words app]. f_equal. apply IH; [cbn; lia|].
  cbn [length] in He. rewrite !Nat2Z.inj_succ, Z.even_succ_succ in He. exact He.
Qed.

Lemma words_app (a b : bytes) : Z.even (blen a) = true -> words (a ++ b) = words a ++ words b.
Proof.
  unfold blen. induction a as [a IH] using (induction_ltof1 _ length). unfold ltof in IH. intros He.
  destruct a as [|y [|z a]]; [done|done|]. cbn [words app]. f_equal. apply IH; [cbn; lia|].
  cbn [length] in He. rewrite !Nat2Z.inj_succ, Z.even_succ_succ in He. exact He.
Qed.

Lemma u16_lnot s : 0 <= s <= 65535 -> u16 (Z.lnot s) = 65535 - s.
Proof. intros H. unfold u16, Z.lnot. zlia. Qed.
