(* ===== verification/NetIpv4.v ===== *)
(** * IPv4, UDP and ICMP: kernel/net_ipv4_udp.c

    Building and parsing of UDP and ICMP packets in caller-owned buffers, with
    the two checksums of the file.  A pointer into a packet ([payload]) is the
    part of the buffer that starts there. *)

From Stdlib Require Import ZArith Lia.
From stdpp Require Import base numbers option tactics list.
From S2P Require Import Prelude Bytes NetBuf NetSum.

Definition NET_IPV4_HEADER_SIZE : Z := 20.
Definition NET_UDP_HEADER_SIZE : Z := 8.
Definition NET_IPV4_PROTOCOL_ICMP : Z := 1.
Definition NET_IPV4_PROTOCOL_UDP : Z := 17.
Definition NET_ICMP_HEADER_SIZE : Z := 8.

Record net_udp_view_t := mk_udp_view {
  uv_source_ip : bytes; uv_destination_ip : bytes; uv_source_port : Z; uv_destination_port : Z;
  uv_payload : ptr bytes; uv_payload_length : Z
}.

Record net_icmp_view_t := mk_icmp_view {
  iv_source_ip : bytes; iv_destination_ip : bytes; iv_type : Z; iv_code : Z; iv_identifier : Z;
  iv_sequence : Z; iv_payload : ptr bytes; iv_payload_length : Z
}.

Definition net_ipv4_checksum (header : ptr bytes) (length : Z) : option Z :=
  match header with
  | None => Some 0
  | Some h =>
      if negb (Z.land length 1 =? 0) then Some 0
      else '(_, sum) ← sum16 (Z.to_nat length) 0 h 0 length 0; Some (u16 (Z.lnot sum))
  end.

Definition net_icmp_checksum (buffer : ptr bytes) (length : Z) : option Z :=
  match buffer with
  | None => Some 0
  | Some b =>
      '(i, sum) ← sum16 (Z.to_nat length) 1 b 0 length 0;
      sum ← (if i <? length
             then x ← get8 b i; fold_carry 16 (u32 (sum + u16 (x * 256)))
             else Some sum);
      Some (u16 (Z.lnot sum))
  end.

(** The copy of the payload behind the headers; a NULL payload has length 0 here. *)
Definition copy_payload (f : bytes) (off : Z) (payload : ptr bytes) (payload_length : Z) : option bytes :=
  match payload with
  | Some p => copy_in f off p payload_length
  | None => Some f
  end.

Definition missing_payload (payload : ptr bytes) (payload_length : Z) : bool :=
  match payload with Some _ => false | None => negb (payload_length =? 0) end.

Definition net_udp_build_ipv4 (packet : ptr bytes) (capacity : Z) (source_ip destination_ip : ptr bytes)
    (source_port destination_port : Z) (payload : ptr bytes) (payload_length : Z) : option (Z * ptr bytes) :=
  let total := u16 (NET_IPV4_HEADER_SIZE + NET_UDP_HEADER_SIZE + payload_length) in
  match packet, source_ip, destination_ip with
  | Some f, Some sip, Some dip =>
      if missing_payload payload payload_length || (capacity <? total)
         || (total <? NET_IPV4_HEADER_SIZE + NET_UDP_HEADER_SIZE)
      then Some (-1, packet)
      else
        f ← zero_in f 0 (NET_IPV4_HEADER_SIZE + NET_UDP_HEADER_SIZE);
        f ← put8 f 0 69; f ← put16 f 2 total; f ← put8 f 6 64;
        f ← put8 f 8 64; f ← put8 f 9 NET_IPV4_PROTOCOL_UDP;
        f ← copy_in f 12 sip 4; f ← copy_in f 16 dip 4;
        c ← net_ipv4_checksum (Some f) NET_IPV4_HEADER_SIZE;
        f ← put16 f 10 c;
        f ← put16 f 20 source_port; f ← put16 f 22 destination_port;
        f ← put16 f 24 (u16 (NET_UDP_HEADER_SIZE + payload_length));
        f ← put16 f 26 0;
        f ← copy_payload f 28 payload payload_length;
        Some (total, Some f)
  | _, _, _ => Some (-1, packet)
  end.

Definition net_udp_parse_ipv4 (packet : ptr bytes) (length : Z) (out : ptr net_udp_view_t)
    : option (Z * ptr net_udp_view_t) :=
  match packet, out with
  | Some f, Some _ =>
      if length <? 28 then Some (-1, out)
      else
        b0 ← get8 f 0; b9 ← get8 f 9;
        if negb (Z.shiftr b0 4 =? 4) || negb (Z.land b0 15 =? 5) || negb (b9 =? NET_IPV4_PROTOCOL_UDP)
        then Some (-1, out)
        else
          total ← get16 f 2; udp_length ← get16 f 24;
          c ← net_ipv4_checksum (Some f) 20;
          if (total <? 28) || (length <? total) || (udp_length <? 8) || (total - 20 <? udp_length)
             || negb (c =? 0)
          then Some (-2, out)
          else
            sip ← ld_bytes f 12 4; dip ← ld_bytes f 16 4; sp ← get16 f 20; dp ← get16 f 22;
            Some (0, Some (mk_udp_view sip dip sp dp (Some (drop 28 f)) (u16 (udp_length - 8))))
  | _, _ => Some (-1, out)
  end.

Definition net_icmp_build_ipv4 (packet : ptr bytes) (capacity : Z) (source_ip destination_ip : ptr bytes)
    (type code identifier sequence : Z) (payload : ptr bytes) (payload_length : Z) : option (Z * ptr bytes) :=
  let total := u16 (NET_IPV4_HEADER_SIZE + NET_ICMP_HEADER_SIZE + payload_length) in
  match packet, source_ip, destination_ip with
  | Some f, Some sip, Some dip =>
      if missing_payload payload payload_length || (capacity <? total)
         || (total <? NET_IPV4_HEADER_SIZE + NET_ICMP_HEADER_SIZE)
      then Some (-1, packet)
      else
        f ← zero_in f 0 (NET_IPV4_HEADER_SIZE + NET_ICMP_HEADER_SIZE);
        f ← put8 f 0 69; f ← put16 f 2 total; f ← put8 f 6 64;
        f ← put8 f 8 64; f ← put8 f 9 NET_IPV4_PROTOCOL_ICMP;
        f ← copy_in f 12 sip 4; f ← copy_in f 16 dip 4;
        c ← net_ipv4_checksum (Some f) NET_IPV4_HEADER_SIZE;
        f ← put16 f 10 c;
        f ← put8 f 20 type; f ← put8 f 21 code; f ← put16 f 22 0;
        f ← put16 f 24 identifier; f ← put16 f 26 sequence;
        f ← copy_payload f 28 payload payload_length;
        let icmp_len := u16 (NET_ICMP_HEADER_SIZE + payload_length) in
        c ← net_icmp_checksum (Some (drop 20 f)) icmp_len;
        f ← put16 f 22 c;
        Some (total, Some f)
  | _, _, _ => Some (-1, packet)
  end.

Definition net_icmp_parse_ipv4 (packet : ptr bytes) (length : Z) (out : ptr net_icmp_view_t)
    : option (Z * ptr net_icmp_view_t) :=
  match packet, out with
  | Some f, Some _ =>
      if length <? 28 then Some (-1, out)
      else
        b0 ← get8 f 0; b9 ← get8 f 9;
        if negb (Z.shiftr b0 4 =? 4) || negb (Z.land b0 15 =? 5) || negb (b9 =? NET_IPV4_PROTOCOL_ICMP)
        then Some (-1, out)
        else
          total ← get16 f 2;
          c ← net_ipv4_checksum (Some f) 20;
          if (total <? 28) || (length <? total) || negb (c =? 0) then Some (-2, out)
          else
            let icmp_length := u16 (total - NET_IPV4_HEADER_SIZE) in
            c ← net_icmp_checksum (Some (drop 20 f)) icmp_length;
            if negb (c =? 0) then Some (-3, out)
            else
              sip ← ld_bytes f 12 4; dip ← ld_bytes f 16 4; ty ← get8 f 20; co ← get8 f 21;
              id ← get16 f 24; sq ← get16 f 26;
              Some (0, Some (mk_icmp_view sip dip ty co id sq (Some (drop 28 f))
                               (u16 (icmp_length - NET_ICMP_HEADER_SIZE))))
  | _, _ => Some (-1, out)
  end.

(** ** The checksums *)
Lemma even_land1 n : (Z.land n 1 =? 0) = Z.even n.
Proof.
  rewrite <- Z.negb_odd, <- Z.bit0_odd. change 1 with (Z.ones 1). rewrite Z.land_ones by lia.
  change (2 ^ 1) with 2. rewrite Zmod_odd, Z.bit0_odd. by destruct (Z.odd n).
Qed.

Lemma ipv4_checksum_ok b len :
  Forall is_u8 b -> is_u16 len -> len <= blen b -> Z.even len = true ->
  net_ipv4_checksum (Some b) len = Some (rfc1071 (words (take (Z.to_nat len) b))).
Proof.
  intros Hb Hl Hlen He. unfold net_ipv4_checksum. rewrite even_land1, He. cbn [negb].
  unfold is_u16 in Hl. rewrite sum16_spec by (done || auto || lia).
  rewrite Zmod_even, He, !Z.sub_0_r. cbn [mbind option_bind Z.to_nat drop].
  rewrite Z.add_0_l, u16_lnot; [done|]. apply oc_range, total_nonneg, words_nonneg, Forall_take, Hb.
Qed.

Lemma icmp_checksum_ok b len :
  Forall is_u8 b -> is_u16 len -> len <= blen b ->
  net_icmp_checksum (Some b) len = Some (rfc1071 (words (take (Z.to_nat len) b))).
Proof.
  intros Hb Hl Hlen. unfold is_u16 in Hl. unfold net_icmp_checksum.
  rewrite sum16_spec by (done || auto || lia).
  rewrite Z.sub_0_r, Z.add_0_l. change (drop (Z.to_nat 0) b) with b. cbn [mbind option_bind].
  assert (Hn : 0 <= total (words (take (Z.to_nat (len - len mod 2)) b)))
    by apply total_nonneg, words_nonneg, Forall_take, Hb.
  pose proof (Zmod_even len) as Hm. destruct (Z.ltb_spec (len - len mod 2) len) as [Hodd|Hev].
  - assert (Hm1 : len mod 2 = 1) by (destruct (Z.even len); lia). rewrite Hm1 in Hn |- *.
    assert (len <> 0) by (intros ->; discriminate).
    assert (Hlt : (Z.to_nat (len - 1) < length b)%nat) by (unfold blen in Hlen; lia).
    destruct (lookup_lt_is_Some_2 b _ Hlt) as [x Hx].
    assert (Hux : is_u8 x) by (by eapply Forall_lookup_1). unfold is_u8 in Hux.
    unfold get8. rewrite (proj2 (ld_Some b (len - 1) x)) by (split; [lia|done]). cbn [mbind option_bind].
    rewrite (u16_id (x * 256)) by (unfold is_u16; lia).
    rewrite sum_step; [|by apply oc_range|unfold is_u16; lia]. cbn [mbind option_bind].
    rewrite oc_add by lia.
    replace (Z.to_nat len) with (S (Z.to_nat (len - 1))) by lia. rewrite (take_S_r _ _ x) by done.
    rewrite words_snoc by (unfold blen; rewrite length_take, Nat.min_l by lia; rewrite Z2Nat.id by lia;
      apply Z.even_spec; exists (len / 2); zlia).
    unfold rfc1071. rewrite total_app, total_cons, u16_lnot by (apply oc_range; lia).
    do 3 f_equal. cbn [total fold_right]. lia.
  - assert (Hm0 : len mod 2 = 0) by (destruct (Z.even len); lia). rewrite Hm0, Z.sub_0_r in Hn |- *.
    cbn [mbind option_bind]. by rewrite u16_lnot by (by apply oc_range).
Qed.

(** A region whose checksum field, zero while summing, was filled verifies. *)
Lemma rfc1071_verify pre post (c : Z) (ws : list Z) :
  ws = pre ++ c :: post -> Forall is_u16 (pre ++ post) ->
  c = rfc1071 (pre ++ 0 :: post) -> rfc1071 ws = 0.
Proof.
  intros -> Hu Hc. unfold rfc1071 in *. rewrite total_app, total_cons in Hc |- *.
  pose proof (total_nonneg _ Hu) as Hpos. rewrite total_app in Hpos. rewrite Z.add_0_l in Hc.
  replace (total pre + (c + total post)) with (total pre + total post + c) by lia.
  rewrite Hc, oc_complement by lia. lia.
Qed.

(** The checksums of the stack are the Internet checksum of RFC 1071: for
    every buffer of bytes and every length inside it, the loops of
    [net_ipv4_checksum] (even lengths) and [net_icmp_checksum] (any length, an odd
    last byte padded with zero) terminate inside the buffer and return the
    complement of the ones' complement sum of its 16-bit words; the partial
    32-bit accumulator never overflows. *)
Theorem checksums_are_rfc1071 :
  forall (b : bytes) (len : Z), Forall is_u8 b -> is_u16 len -> len <= blen b ->
    net_icmp_checksum (Some b) len = Some (rfc1071 (words (take (Z.to_nat len) b))) /\
    (Z.even len = true ->
       net_ipv4_checksum (Some b) len = Some (rfc1071 (words (take (Z.to_nat len) b)))) /\
    (Z.even len = false -> net_ipv4_checksum (Some b) len = Some 0).
Proof.
  intros b len Hb Hl Hlen. split; [by apply icmp_checksum_ok|]. split; [by apply ipv4_checksum_ok|].
  intros He. unfold net_ipv4_checksum. by rewrite even_land1, He.
Qed.

Example checksums_are_rfc1071_witness :
  net_icmp_checksum (Some [8; 0; 0; 0; 18; 52; 0; 1; 97]) 9 = Some 33994.
Proof.
  refine (eq_trans (proj1 (checksums_are_rfc1071 [8; 0; 0; 0; 18; 52; 0; 1; 97] 9 _ _ _)) _).
  - by apply u8s_dec.
  - split; [vm_compute; discriminate|reflexivity].
  - vm_compute. discriminate.
  - vm_compute. reflexivity.
Defined.

(** ** Building and parsing *)
Definition ip4_ok (a : bytes) : Prop := length a = 4%nat /\ Forall is_u8 a.

(** The first twenty bytes both builders write. *)
Definition ipv4_header (protocol tot : Z) (sip dip : bytes) (c : bytes) : bytes :=
  [69; 0] ++ be16 tot ++ [0; 0; 64; 0; 64; protocol] ++ c ++ sip ++ dip.

Definition ipv4_sum (protocol tot : Z) (sip dip : bytes) : Z :=
  rfc1071 (words (ipv4_header protocol tot sip dip [0; 0])).

Lemma be16_bytes z : Forall is_u8 (be16 z).
Proof. repeat constructor; apply u8_range. Qed.

Lemma rfc1071_range ws : Forall is_u16 ws -> is_u16 (rfc1071 ws).
Proof. intros H. pose proof (oc_range (total ws) (total_nonneg _ H)). unfold rfc1071, is_u16. lia. Qed.

Lemma word_be16 z r : is_u16 z -> words (be16 z ++ r) = z :: words r.
Proof.
  intros H. cbn [be16 app words]. f_equal. unfold u8, is_u16 in *. zlia.
Qed.

Lemma header_bytes protocol tot sip dip c :
  is_u8 protocol -> ip4_ok sip -> ip4_ok dip -> Forall is_u8 c ->
  Forall is_u8 (ipv4_header protocol tot sip dip c).
Proof.
  intros Hp [_ Hs] [_ Hd] Hc. unfold ipv4_header, is_u8 in *.
  repeat (apply Forall_app; split); try done; try apply be16_bytes; repeat constructor; lia.
Qed.

Lemma header_length protocol tot sip dip c :
  ip4_ok sip -> ip4_ok dip -> length c = 2%nat -> length (ipv4_header protocol tot sip dip c) = 20%nat.
Proof. intros [Hs _] [Hd _] Hc. unfold ipv4_header. rewrite !length_app, Hs, Hd, Hc. done. Qed.

Lemma header_verifies protocol tot sip dip :
  is_u8 protocol -> ip4_ok sip -> ip4_ok dip -> is_u16 tot ->
  rfc1071 (words (ipv4_header protocol tot sip dip (be16 (ipv4_sum protocol tot sip dip)))) = 0.
Proof.
  intros Hp Hs Hd Ht.
  assert (Hu : Forall is_u16 (words (sip ++ dip))).
  { apply words_nonneg, Forall_app. by split; [apply Hs|apply Hd]. }
  assert (Hc : is_u16 (ipv4_sum protocol tot sip dip)).
  { apply rfc1071_range, words_nonneg, header_bytes; try done. by repeat constructor. }
  unfold is_u16, is_u8 in *.
  apply (rfc1071_verify [17664; tot; 0; 16384; 16384 + protocol] (words (sip ++ dip))
           (ipv4_sum protocol tot sip dip)).
  - unfold ipv4_header. cbn [app words]. rewrite word_be16 by done.
    cbn [app words]. rewrite word_be16 by done. done.
  - repeat constructor; try lia; try done.
  - unfold ipv4_sum, ipv4_header. cbn [app words]. rewrite word_be16 by done. cbn [app words]. done.
Qed.

(** What the parsers check and read of such a header. *)
Lemma header_reads protocol tot sip dip c r :
  ip4_ok sip -> ip4_ok dip -> length c = 2%nat -> is_u16 tot ->
  let f := ipv4_header protocol tot sip dip c ++ r in
  get8 f 0 = Some 69 /\ get8 f 9 = Some protocol /\ get16 f 2 = Some tot /\
  ld_bytes f 12 4 = Some sip /\ ld_bytes f 16 4 = Some dip.
Proof.
  intros [Hs _] [Hd _] Hc Ht f. subst f.
  destruct (bytes4 _ Hs) as (s0 & s1 & s2 & s3 & ->), (bytes4 _ Hd) as (d0 & d1 & d2 & d3 & ->).
  destruct c as [|c0 [|c1 [|]]]; try done.
  unfold get16, get8.
  match goal with |- context [ipv4_header ?p ?t ?s ?d ?c] =>
    let h := eval cbv [ipv4_header app be16] in (ipv4_header p t s d c) in
    change (ipv4_header p t s d c) with h end.
  rewrite !ld_prefix by (unfold blen; cbn [length]; lia). rewrite !ld_bytes_prefix by (unfold blen; cbn [length]; lia).
  split; [done|]. split; [done|]. split; [|done].
  eval_slices. f_equal. unfold is_u16, u8 in *. zlia.
Qed.

Lemma checksum_of_prefix h r :
  Forall is_u8 (h ++ r) -> length h = 20%nat -> net_ipv4_checksum (Some (h ++ r)) 20 = Some (rfc1071 (words h)).
Proof.
  intros Hu Hh. rewrite ipv4_checksum_ok; [|done|unfold is_u16; lia|unfold blen; rewrite length_app; lia|done].
  change (Z.to_nat 20) with 20%nat. rewrite <- Hh, take_app_length. done.
Qed.

Definition payload_bytes (payload : ptr bytes) (n : Z) : bytes :=
  match payload with Some p => take (Z.to_nat n) p | None => [] end.

Definition payload_ok (payload : ptr bytes) (n : Z) : Prop :=
  match payload with Some p => n <= blen p /\ Forall is_u8 p | None => n = 0 end.

Lemma payload_length payload n : 0 <= n -> payload_ok payload n -> length (payload_bytes payload n) = Z.to_nat n.
Proof. destruct payload as [p|]; cbn; unfold blen; intros; [rewrite length_take|]; lia. Qed.

Lemma payload_u8 payload n : payload_ok payload n -> Forall is_u8 (payload_bytes payload n).
Proof. destruct payload as [p|]; cbn; [|constructor]. intros [_ H]. by apply Forall_take. Qed.

Lemma not_missing payload n : payload_ok payload n -> missing_payload payload n = false.
Proof. destruct payload; cbn; [done|]. by intros ->. Qed.

Lemma copy_payload_ok pre rest off payload n :
  off = blen pre -> 0 <= n -> payload_ok payload n -> n <= blen rest ->
  copy_payload (pre ++ rest) off payload n =
    Some ((pre ++ payload_bytes payload n) ++ drop (Z.to_nat n) rest).
Proof.
  intros -> Hn Hp Hr. destruct payload as [p|]; cbn in *; [apply copy_behind; lia|].
  subst n. by rewrite app_nil_r.
Qed.

(** One write of a builder into the explicit start of the packet. *)
Ltac wr_at lemma :=
  rewrite lemma by (unfold blen; cbn [length be16]; lia); cbn [mbind option_bind]; eval_patch.
Ltac wr := unfold put8, put16; wr_at st_prefix.

(** A packet with the header the builders write, as the parsers see it. *)
Definition ip_packet (proto tot : Z) (sip dip t : bytes) : bytes :=
  ipv4_header proto tot sip dip (be16 (ipv4_sum proto tot sip dip)) ++ t.

(** The lines both builders start with, up to the header checksum. *)
Lemma fill_header {B} p proto tot sip dip (k : bytes -> option B) :
  Forall is_u8 p -> 28 <= blen p -> is_u8 proto -> is_u16 tot -> ip4_ok sip -> ip4_ok dip ->
  (f ← zero_in p 0 28; f ← put8 f 0 69; f ← put16 f 2 tot; f ← put8 f 6 64;
   f ← put8 f 8 64; f ← put8 f 9 proto; f ← copy_in f 12 sip 4; f ← copy_in f 16 dip 4;
   c ← net_ipv4_checksum (Some f) 20; f ← put16 f 10 c; k f) =
  k (ip_packet proto tot sip dip (repeat 0 8 ++ drop 28 p)).
Proof.
  intros Hp Hlen Hpr Ht Hs Hd. rewrite zero_start by lia. cbn [mbind option_bind].
  pose proof (conj Hs Hd) as Hsd. destruct Hs as [Hs Hs8], Hd as [Hd Hd8].
  destruct (bytes4 _ Hs) as (s0 & s1 & s2 & s3 & ->), (bytes4 _ Hd) as (d0 & d1 & d2 & d3 & ->).
  change (replicate (Z.to_nat 28) 0) with (repeat 0 28). cbn [repeat].
  do 5 wr. rewrite (u8_id proto) by done. do 2 wr_at copy_prefix.
  match goal with |- context [net_ipv4_checksum (Some (?h ++ ?r)) _] =>
    change (h ++ r) with (ipv4_header proto tot [s0; s1; s2; s3] [d0; d1; d2; d3] [0; 0] ++ repeat 0 8 ++ r) end.
  rewrite checksum_of_prefix; [| |done].
  2: { apply Forall_app. split; [apply header_bytes; try apply Hsd; [done|by repeat constructor]|].
       apply Forall_app. split; [by repeat constructor|by apply Forall_drop]. }
  cbn [mbind option_bind]. unfold ip_packet.
  fold (ipv4_sum proto tot [s0; s1; s2; s3] [d0; d1; d2; d3]).
  generalize (ipv4_sum proto tot [s0; s1; s2; s3] [d0; d1; d2; d3]). intros c.
  match goal with |- context [ipv4_header ?a ?b ?c ?d ?e ++ repeat 0 8 ++ ?r] =>
    let h := eval cbv [ipv4_header app be16 repeat] in (ipv4_header a b c d e ++ repeat 0 8) in
    change (ipv4_header a b c d e ++ repeat 0 8 ++ r) with (h ++ r) end.
  by wr.
Qed.

(** A header as twenty explicit bytes. *)
Lemma header_explicit proto tot sip dip :
  ip4_ok sip -> ip4_ok dip ->
  exists h, ipv4_header proto tot sip dip (be16 (ipv4_sum proto tot sip dip)) = h /\ length h = 20%nat.
Proof. intros Hs Hd. eexists. split; [done|]. by apply header_length. Qed.

(** Turn header and zeroed transport header into 28 explicit bytes. *)
Ltac explicit_header Hs Hd :=
  match goal with |- context [ip_packet ?a ?b ?c ?d (repeat 0 8 ++ ?r)] =>
    unfold ip_packet; rewrite (app_assoc _ (repeat 0 8) r);
    let h := fresh "h" in let Hh := fresh "Hh" in
    destruct (header_explicit a b c d Hs Hd) as (h & -> & Hh);
    do 20 (destruct h as [|? h]; [discriminate Hh|]); destruct h; [clear Hh|discriminate Hh]
  end;
  match goal with |- context [(?h ++ repeat 0 8) ++ ?r] =>
    let v := eval cbn [app repeat] in (h ++ repeat 0 8) in change (h ++ repeat 0 8) with v end.

Definition udp_packet (sip dip : bytes) (sp dp : Z) (payload : ptr bytes) (n : Z) (rest : bytes) : bytes :=
  ipv4_header 17 (28 + n) sip dip (be16 (ipv4_sum 17 (28 + n) sip dip)) ++
  (be16 sp ++ be16 dp ++ be16 (8 + n) ++ [0; 0]) ++ payload_bytes payload n ++ rest.

Lemma udp_build_ok p cap sip dip sp dp payload n :
  Forall is_u8 p -> cap <= blen p -> 0 <= n -> 28 + n <= cap -> 28 + n < 65536 ->
  ip4_ok sip -> ip4_ok dip -> payload_ok payload n ->
  net_udp_build_ipv4 (Some p) cap (Some sip) (Some dip) sp dp payload n =
    Some (28 + n, Some (udp_packet sip dip sp dp payload n (drop (Z.to_nat (28 + n)) p))).
Proof.
  intros Hp Hcap Hn Htot Hmax Hs Hd Hpl.
  unfold net_udp_build_ipv4, NET_IPV4_HEADER_SIZE, NET_UDP_HEADER_SIZE, NET_IPV4_PROTOCOL_UDP. change (20 + 8) with 28.
  rewrite (u16_id (28 + n)), (u16_id (8 + n)) by (unfold is_u16; lia).
  rewrite not_missing by done. rewrite !(proj2 (Z.ltb_ge _ _)) by lia. cbn [orb].
  rewrite fill_header by (done || lia || (unfold is_u8, is_u16; lia)). unfold udp_packet.
  explicit_header Hs Hd.
  do 4 wr. rewrite copy_payload_ok by (done || (unfold blen in *; rewrite ?length_drop; lia)).
  cbn [mbind option_bind]. rewrite drop_drop.
  replace (28 + Z.to_nat n)%nat with (Z.to_nat (28 + n)) by lia. by rewrite <- app_assoc.
Qed.

Lemma udp_packet_u8 sip dip sp dp payload n rest :
  ip4_ok sip -> ip4_ok dip -> payload_ok payload n -> Forall is_u8 rest ->
  Forall is_u8 (udp_packet sip dip sp dp payload n rest).
Proof.
  intros Hs Hd Hp Hr. unfold udp_packet.
  rewrite !Forall_app. split_and!; try apply header_bytes; try apply be16_bytes; try done;
    try (by apply payload_u8); by repeat constructor.
Qed.

Lemma udp_packet_length sip dip sp dp payload n rest :
  ip4_ok sip -> ip4_ok dip -> payload_ok payload n -> 0 <= n ->
  length (udp_packet sip dip sp dp payload n rest) = (28 + Z.to_nat n + length rest)%nat.
Proof.
  intros Hs Hd Hp Hn. unfold udp_packet. rewrite !length_app, header_length, payload_length by done. cbn. lia.
Qed.

Lemma ip_packet_view proto tot sip dip t :
  ip4_ok sip -> ip4_ok dip -> is_u8 proto -> is_u16 tot -> Forall is_u8 t ->
  let f := ip_packet proto tot sip dip t in
  (get8 f 0 = Some 69 /\ get8 f 9 = Some proto /\ get16 f 2 = Some tot /\
   ld_bytes f 12 4 = Some sip /\ ld_bytes f 16 4 = Some dip /\ net_ipv4_checksum (Some f) 20 = Some 0) /\
  (forall k off, off = 20 + k -> 0 <= k -> get16 f off = get16 t k /\ get8 f off = get8 t k) /\
  drop 20 f = t.
Proof.
  intros Hs Hd Hp Ht Htl f.
  assert (Hh : forall c, length c = 2%nat -> length (ipv4_header proto tot sip dip c) = 20%nat)
    by (intros; by apply header_length).
  split; [|split].
  - destruct (header_reads proto tot sip dip (be16 (ipv4_sum proto tot sip dip)) t Hs Hd eq_refl Ht)
      as (R0 & R9 & R2 & R12 & R16). do 5 (split; [done|]).
    unfold f, ip_packet. rewrite checksum_of_prefix, header_verifies; try done; [|by apply Hh].
    apply Forall_app. split; [apply header_bytes; try done; apply be16_bytes|done].
  - intros k off -> Hk. subst f. unfold ip_packet, get16, get8.
    rewrite (ld_bytes_skip _ t _ 2 k), (ld_skip _ t _ k); try done; unfold blen; rewrite Hh by done; done.
  - unfold f, ip_packet. rewrite <- (Hh (be16 (ipv4_sum proto tot sip dip)) eq_refl). apply drop_app_length.
Qed.

(** The eight bytes of an explicit transport header. *)
Lemma eight_reads (a b c d : Z) r :
  is_u16 a -> is_u16 b -> is_u16 c -> is_u16 d ->
  let t := (be16 a ++ be16 b ++ be16 c ++ be16 d) ++ r in
  get16 t 0 = Some a /\ get16 t 2 = Some b /\ get16 t 4 = Some c /\ get16 t 6 = Some d /\ drop 8 t = r.
Proof.
  intros Ha Hb Hc Hd t. subst t. unfold get16. rewrite !ld_bytes_prefix by (unfold blen; cbn [length be16 app]; lia).
  unfold be16. cbn [app]. eval_slices. unfold u8, is_u16 in *.
  split_and!; [..|done]; apply (f_equal Some); zlia.
Qed.

Lemma udp_parse_ok sip dip sp dp payload n rest len v :
  ip4_ok sip -> ip4_ok dip -> payload_ok payload n -> 0 <= n -> 28 + n < 65536 -> Forall is_u8 rest ->
  is_u16 sp -> is_u16 dp -> 28 + n <= len ->
  net_udp_parse_ipv4 (Some (udp_packet sip dip sp dp payload n rest)) len (Some v) =
    Some (0, Some (mk_udp_view sip dip sp dp (Some (payload_bytes payload n ++ rest)) n)).
Proof.
  intros Hs Hd Hpl Hn Hmax Hr Hsp Hdp Hlen. unfold udp_packet. change [0; 0] with (be16 0).
  destruct (eight_reads sp dp (8 + n) 0 (payload_bytes payload n ++ rest) Hsp Hdp
    ltac:(unfold is_u16; lia) ltac:(unfold is_u16; lia)) as (T0 & T2 & T4 & _ & T8).
  set (t := (be16 sp ++ be16 dp ++ be16 (8 + n) ++ be16 0) ++ payload_bytes payload n ++ rest) in *.
  assert (Ht : Forall is_u8 t).
  { subst t. rewrite !Forall_app. split_and!; try apply be16_bytes; try done. by apply payload_u8. }
  fold (ip_packet 17 (28 + n) sip dip t).
  destruct (ip_packet_view 17 (28 + n) sip dip t Hs Hd) as ((R0 & R9 & R2 & R12 & R16 & Rc) & Rg & Rd);
    [unfold is_u8; lia|unfold is_u16; lia|done|].
  unfold net_udp_parse_ipv4, NET_IPV4_PROTOCOL_UDP. rewrite (proj2 (Z.ltb_ge _ _)) by lia.
  rewrite R0, R9, R2, Rc, R12, R16. cbn [mbind option_bind].
  change (negb (Z.shiftr 69 4 =? 4) || negb (Z.land 69 15 =? 5) || negb (17 =? 17)) with false.
  rewrite (proj1 (Rg 4 24 eq_refl ltac:(lia))), (proj1 (Rg 0 20 eq_refl ltac:(lia))),
    (proj1 (Rg 2 22 eq_refl ltac:(lia))), T0, T2, T4. cbn [mbind option_bind].
  rewrite !(proj2 (Z.ltb_ge _ _)) by lia. cbn [orb negb Z.eqb].
  rewrite u16_id by (unfold is_u16; lia). replace (8 + n - 8) with n by lia.
  change 28%nat with (20 + 8)%nat. by rewrite <- drop_drop, Rd, T8.
Qed.

(** Both builders refuse what does not fit. *)
Lemma total_refused cap n :
  is_u16 n -> (28 + n <=? cap) && (n <=? 65507) = false ->
  (cap <? u16 (28 + n)) || (u16 (28 + n) <? 28) = true.
Proof.
  unfold is_u16, u16. intros Hn. rewrite andb_false_iff, orb_true_iff, !Z.leb_gt, !Z.ltb_lt. intros [H|H]; zlia.
Qed.

(** UDP packets round trip: for every pair of addresses, ports and payload of
    up to 65507 bytes that fits the buffer, [net_udp_build_ipv4] succeeds, writes
    only the first [28 + n] bytes of the buffer, and [net_udp_parse_ipv4] of the
    result (also when the frame is longer than the packet, as Ethernet padding
    makes it) accepts it, its header checksum included, and returns the same
    addresses, ports, length and payload.  A payload that does not fit a 16-bit
    length or the buffer is refused and the buffer is untouched. *)
Theorem udp_roundtrip :
  forall (p : bytes) (cap n : Z) (sip dip : bytes) (sp dp : Z) (payload : ptr bytes),
    Forall is_u8 p -> cap <= blen p -> is_u16 n ->
    ip4_ok sip -> ip4_ok dip -> is_u16 sp -> is_u16 dp -> payload_ok payload n ->
    if (28 + n <=? cap) && (n <=? 65507) then
      exists f, net_udp_build_ipv4 (Some p) cap (Some sip) (Some dip) sp dp payload n = Some (28 + n, Some f) /\
        length f = length p /\ drop (Z.to_nat (28 + n)) f = drop (Z.to_nat (28 + n)) p /\
        forall len v, 28 + n <= len ->
          exists view, net_udp_parse_ipv4 (Some f) len (Some v) = Some (0, Some view) /\
            uv_source_ip view = sip /\ uv_destination_ip view = dip /\
            uv_source_port view = sp /\ uv_destination_port view = dp /\ uv_payload_length view = n /\
            take (Z.to_nat n) (default [] (uv_payload view)) = payload_bytes payload n
    else net_udp_build_ipv4 (Some p) cap (Some sip) (Some dip) sp dp payload n = Some (-1, Some p).
Proof.
  intros p cap n sip dip sp dp payload Hp Hcap Hn Hs Hd Hsp Hdp Hpl.
  destruct ((28 + n <=? cap) && (n <=? 65507)) eqn:E.
  - apply andb_true_iff in E as [E1%Z.leb_le E2%Z.leb_le]. unfold is_u16 in Hn.
    eexists. split; [apply udp_build_ok; done || lia|].
    assert (Hl := udp_packet_length sip dip sp dp payload n (drop (Z.to_nat (28 + n)) p) Hs Hd Hpl ltac:(lia)).
    split; [rewrite Hl, length_drop; unfold blen in Hcap; lia|]. split.
    + unfold udp_packet. rewrite !app_assoc. rewrite drop_app_length'; [done|].
      rewrite !length_app, header_length, payload_length by (done || lia). cbn [length be16]. lia.
    + intros len v Hlen. eexists. split; [apply udp_parse_ok; try done; try lia; by apply Forall_drop|].
      do 5 (split; [done|]). cbn. rewrite take_app_length'; [done|]. by rewrite payload_length by (done || lia).
  - unfold net_udp_build_ipv4, NET_IPV4_HEADER_SIZE, NET_UDP_HEADER_SIZE.
    change (20 + 8) with 28. by rewrite <- orb_assoc, (total_refused cap n Hn E), orb_true_r.
Qed.

(** The ICMP message behind the IPv4 header. *)
Definition icmp_message (type code : Z) (c : bytes) (identifier sequence : Z) (body : bytes) : bytes :=
  [type; code] ++ c ++ be16 identifier ++ be16 sequence ++ body.

Definition icmp_sum (type code identifier sequence : Z) (body : bytes) : Z :=
  rfc1071 (words (icmp_message type code [0; 0] identifier sequence body)).

Definition icmp_packet (sip dip : bytes) (type code id sq : Z) (payload : ptr bytes) (n : Z) (rest : bytes) : bytes :=
  ip_packet 1 (28 + n) sip dip
    (icmp_message type code (be16 (icmp_sum type code id sq (payload_bytes payload n))) id sq
       (payload_bytes payload n) ++ rest).

Lemma message_u8 type code c id sq body :
  is_u8 type -> is_u8 code -> Forall is_u8 c -> Forall is_u8 body -> Forall is_u8 (icmp_message type code c id sq body).
Proof.
  intros Ht Hco Hc Hb. unfold icmp_message. rewrite !Forall_app, !Forall_cons.
  split_and!; try done; apply be16_bytes.
Qed.

Lemma icmp_sum_range type code id sq body :
  is_u8 type -> is_u8 code -> Forall is_u8 body -> is_u16 (icmp_sum type code id sq body).
Proof. intros. apply rfc1071_range, words_nonneg, message_u8; try done. by repeat constructor. Qed.

Lemma message_verifies type code id sq body :
  is_u8 type -> is_u8 code -> Forall is_u8 body -> is_u16 id -> is_u16 sq ->
  rfc1071 (words (icmp_message type code (be16 (icmp_sum type code id sq body)) id sq body)) = 0.
Proof.
  intros Ht Hco Hb Hid Hsq. pose proof (icmp_sum_range type code id sq body Ht Hco Hb) as Hc.
  assert (Hwb : Forall is_u16 (words body)) by (by apply words_nonneg).
  apply (rfc1071_verify [256 * type + code] (id :: sq :: words body) (icmp_sum type code id sq body)).
  - unfold icmp_message. cbn [app words]. rewrite word_be16 by done. rewrite word_be16 by done.
    by rewrite word_be16 by done.
  - unfold is_u8 in *. cbn [app]. repeat (apply Forall_cons; split); try done. unfold is_u16. lia.
  - unfold icmp_sum, icmp_message. cbn [app words]. by rewrite word_be16, word_be16 by done.
Qed.

Lemma icmp_build_ok p cap sip dip type code id sq payload n :
  Forall is_u8 p -> cap <= blen p -> 0 <= n -> 28 + n <= cap -> 28 + n < 65536 ->
  ip4_ok sip -> ip4_ok dip -> payload_ok payload n -> is_u8 type -> is_u8 code ->
  net_icmp_build_ipv4 (Some p) cap (Some sip) (Some dip) type code id sq payload n =
    Some (28 + n, Some (icmp_packet sip dip type code id sq payload n (drop (Z.to_nat (28 + n)) p))).
Proof.
  intros Hp Hcap Hn Htot Hmax Hs Hd Hpl Hty Hco.
  unfold net_icmp_build_ipv4, NET_IPV4_HEADER_SIZE, NET_ICMP_HEADER_SIZE, NET_IPV4_PROTOCOL_ICMP. change (20 + 8) with 28.
  rewrite (u16_id (28 + n)), (u16_id (8 + n)) by (unfold is_u16; lia).
  rewrite not_missing by done. rewrite !(proj2 (Z.ltb_ge _ _)) by lia. cbn [orb].
  rewrite fill_header by (done || lia || (unfold is_u8, is_u16; lia)).
  unfold icmp_packet. explicit_header Hs Hd.
  do 5 wr. rewrite copy_payload_ok by (done || (unfold blen in *; rewrite ?length_drop; lia)).
  cbn [mbind option_bind]. rewrite drop_drop.
  replace (28 + Z.to_nat n)%nat with (Z.to_nat (28 + n)) by lia.
  rewrite (u8_id type), (u8_id code) by done.
  match goal with |- context [net_icmp_checksum (Some (drop 20 ?l)) _] =>
    change (drop 20 l) with ((icmp_message type code [0; 0] id sq (payload_bytes payload n)) ++ drop (Z.to_nat (28 + n)) p)
  end.
  assert (Hm : length (icmp_message type code [0; 0] id sq (payload_bytes payload n)) = Z.to_nat (8 + n)).
  { unfold icmp_message. rewrite !length_app, payload_length by (done || lia). cbn. lia. }
  rewrite icmp_checksum_ok; [| |unfold is_u16; lia|unfold blen; rewrite length_app; lia].
  2: { apply Forall_app. split; [|by apply Forall_drop]. apply message_u8; try done; [by repeat constructor|].
       by apply payload_u8. }
  rewrite take_app_length' by done. fold (icmp_sum type code id sq (payload_bytes payload n)).
  cbn [mbind option_bind]. rewrite <- app_assoc. by wr.
Qed.

Lemma icmp_parse_ok sip dip type code id sq payload n rest len v :
  ip4_ok sip -> ip4_ok dip -> payload_ok payload n -> 0 <= n -> 28 + n < 65536 -> Forall is_u8 rest ->
  is_u8 type -> is_u8 code -> is_u16 id -> is_u16 sq -> 28 + n <= len ->
  net_icmp_parse_ipv4 (Some (icmp_packet sip dip type code id sq payload n rest)) len (Some v) =
    Some (0, Some (mk_icmp_view sip dip type code id sq (Some (payload_bytes payload n ++ rest)) n)).
Proof.
  intros Hs Hd Hpl Hn Hmax Hr Hty Hco Hid Hsq Hlen. unfold icmp_packet.
  pose proof (payload_u8 _ _ Hpl) as Hb. pose proof (icmp_sum_range type code id sq _ Hty Hco Hb) as Hc.
  pose proof (message_verifies type code id sq _ Hty Hco Hb Hid Hsq) as Hver.
  set (c := icmp_sum type code id sq (payload_bytes payload n)) in *.
  assert (Hm : length (icmp_message type code (be16 c) id sq (payload_bytes payload n)) = Z.to_nat (8 + n)).
  { unfold icmp_message. rewrite !length_app, payload_length by (done || lia). cbn. lia. }
  assert (Hmu : Forall is_u8 (icmp_message type code (be16 c) id sq (payload_bytes payload n)))
    by (apply message_u8; try done; apply be16_bytes).
  assert (E : icmp_message type code (be16 c) id sq (payload_bytes payload n) ++ rest =
              (be16 (256 * type + code) ++ be16 c ++ be16 id ++ be16 sq) ++ payload_bytes payload n ++ rest).
  { unfold icmp_message, be16. cbn [app]. unfold is_u8, u8 in *. repeat f_equal; zlia. }
  set (t := icmp_message type code (be16 c) id sq (payload_bytes payload n) ++ rest) in *.
  destruct (eight_reads (256 * type + code) c id sq (payload_bytes payload n ++ rest)
    ltac:(unfold is_u16, is_u8 in *; lia) Hc Hid Hsq) as (_ & _ & T4 & T6 & T8). rewrite <- E in T4, T6, T8.
  assert (T0 : get8 t 0 = Some type /\ get8 t 1 = Some code) by done. destruct T0 as [T0 T1].
  assert (Ht : Forall is_u8 t) by (by apply Forall_app).
  destruct (ip_packet_view 1 (28 + n) sip dip t Hs Hd) as ((R0 & R9 & R2 & R12 & R16 & Rc) & Rg & Rd);
    [unfold is_u8; lia|unfold is_u16; lia|done|].
  unfold net_icmp_parse_ipv4, NET_IPV4_PROTOCOL_ICMP, NET_IPV4_HEADER_SIZE, NET_ICMP_HEADER_SIZE.
  rewrite (proj2 (Z.ltb_ge _ _)) by lia.
  rewrite R0, R9, R2, Rc, R12, R16, Rd. cbn [mbind option_bind].
  change (negb (Z.shiftr 69 4 =? 4) || negb (Z.land 69 15 =? 5) || negb (1 =? 1)) with false.
  rewrite !(proj2 (Z.ltb_ge _ _)) by lia. cbn [orb negb Z.eqb].
  replace (28 + n - 20) with (8 + n) by lia. rewrite (u16_id (8 + n)) by (unfold is_u16; lia).
  rewrite icmp_checksum_ok; [|done|unfold is_u16; lia|unfold blen, t; rewrite length_app; lia].
  assert (Htk : take (Z.to_nat (8 + n)) t = icmp_message type code (be16 c) id sq (payload_bytes payload n))
    by (by apply take_app_length').
  rewrite Htk, Hver. cbn [mbind option_bind Z.eqb negb].
  rewrite (proj2 (Rg 0 20 eq_refl ltac:(lia))), (proj2 (Rg 1 21 eq_refl ltac:(lia))),
    (proj1 (Rg 4 24 eq_refl ltac:(lia))), (proj1 (Rg 6 26 eq_refl ltac:(lia))), T0, T1, T4, T6. cbn [mbind option_bind].
  rewrite u16_id by (unfold is_u16; lia). replace (8 + n - 8) with n by lia.
  change 28%nat with (20 + 8)%nat. by rewrite <- drop_drop, Rd, T8.
Qed.

Lemma icmp_packet_length sip dip type code id sq payload n rest :
  ip4_ok sip -> ip4_ok dip -> payload_ok payload n -> 0 <= n ->
  length (icmp_packet sip dip type code id sq payload n rest) = (28 + Z.to_nat n + length rest)%nat.
Proof.
  intros Hs Hd Hp Hn. unfold icmp_packet, ip_packet, icmp_message.
  rewrite !length_app, header_length, payload_length by done. cbn. lia.
Qed.

(** ICMP packets round trip: what [net_icmp_build_ipv4] writes is accepted by
    [net_icmp_parse_ipv4], both checksums included, and gives back the addresses,
    type, code, identifier, sequence number and payload; nothing behind the packet
    is written, and a payload that does not fit is refused with the buffer
    untouched. *)
Theorem icmp_roundtrip :
  forall (p : bytes) (cap n : Z) (sip dip : bytes) (type code id sq : Z) (payload : ptr bytes),
    Forall is_u8 p -> cap <= blen p -> is_u16 n -> ip4_ok sip -> ip4_ok dip ->
    is_u8 type -> is_u8 code -> is_u16 id -> is_u16 sq -> payload_ok payload n ->
    if (28 + n <=? cap) && (n <=? 65507) then
      exists f, net_icmp_build_ipv4 (Some p) cap (Some sip) (Some dip) type code id sq payload n = Some (28 + n, Some f) /\
        length f = length p /\ drop (Z.to_nat (28 + n)) f = drop (Z.to_nat (28 + n)) p /\
        forall len v, 28 + n <= len ->
          exists body, take (Z.to_nat n) body = payload_bytes payload n /\
            net_icmp_parse_ipv4 (Some f) len (Some v) =
              Some (0, Some (mk_icmp_view sip dip type code id sq (Some body) n))
    else net_icmp_build_ipv4 (Some p) cap (Some sip) (Some dip) type code id sq payload n = Some (-1, Some p).
Proof.
  intros p cap n sip dip type code id sq payload Hp Hcap Hn Hs Hd Hty Hco Hid Hsq Hpl.
  destruct ((28 + n <=? cap) && (n <=? 65507)) eqn:E.
  - apply andb_true_iff in E as [E1%Z.leb_le E2%Z.leb_le]. unfold is_u16 in Hn.
    eexists. split; [apply icmp_build_ok; done || lia|].
    rewrite icmp_packet_length, length_drop by (done || lia). unfold blen in Hcap.
    split; [lia|]. split.
    + unfold icmp_packet, ip_packet. rewrite !app_assoc. rewrite drop_app_length'; [done|].
      unfold icmp_message. rewrite !length_app, header_length, payload_length by (done || lia). cbn [length be16]. lia.
    + intros len v Hlen. eexists. split; [|apply icmp_parse_ok; try done; try lia; by apply Forall_drop].
      apply take_app_length'. by rewrite payload_length by (done || lia).
  - unfold net_icmp_build_ipv4, NET_IPV4_HEADER_SIZE, NET_ICMP_HEADER_SIZE.
    change (20 + 8) with 28. by rewrite <- orb_assoc, (total_refused cap n Hn E), orb_true_r.
Qed.

Lemma ipv4_checksum_total f n : Forall is_u8 f -> is_u16 n -> n <= blen f -> exists c, net_ipv4_checksum (Some f) n = Some c.
Proof.
  intros Hf Hn Hl. destruct (Z.even n) eqn:E; [eexists; by apply ipv4_checksum_ok|].
  exists 0. unfold net_ipv4_checksum. by rewrite even_land1, E.
Qed.

Lemma get8_total f i : 0 <= i -> i + 1 <= blen f -> exists v, get8 f i = Some v.
Proof. intros. by apply get8_is_Some. Qed.

(** Perform the next read of a parser whose frame is known to be long enough. *)
Ltac rd_step :=
  match goal with
  | |- context [get8 ?f ?i] =>
      destruct (get8_total f i) as [? ->]; [lia|lia|]; cbn [mbind option_bind]
  | Hf : Forall is_u8 ?f |- context [get16 ?f ?i] =>
      destruct (get16_u16 f i Hf) as (? & -> & ?); [lia|lia|]; cbn [mbind option_bind]
  | Hf : Forall is_u8 ?f |- context [net_ipv4_checksum (Some ?f) ?n] =>
      destruct (ipv4_checksum_total f n Hf) as [? ->]; [unfold is_u16; lia|lia|]; cbn [mbind option_bind]
  | |- context [ld_bytes ?f ?i ?n] => rewrite (ld_bytes_ok f i n) by lia; cbn [mbind option_bind]
  end.

(** The IPv4 parsers are safe on every input: whatever bytes a frame holds
    and whatever length up to its size is claimed, [net_udp_parse_ipv4] and
    [net_icmp_parse_ipv4] read only inside the frame and return; a refused frame
    leaves the caller's view untouched, and in an accepted one the payload lies
    inside the claimed length. *)
Lemma ip_parsers_safe :
  forall (f : bytes) (len : Z) (u : net_udp_view_t) (i : net_icmp_view_t),
    Forall is_u8 f -> len <= blen f ->
    (exists rc u', net_udp_parse_ipv4 (Some f) len (Some u) = Some (rc, Some u') /\
       (rc <> 0 -> u' = u) /\
       (rc = 0 -> uv_payload u' = Some (drop 28 f) /\ 0 <= uv_payload_length u' /\ 28 + uv_payload_length u' <= len)) /\
    (exists rc i', net_icmp_parse_ipv4 (Some f) len (Some i) = Some (rc, Some i') /\
       (rc <> 0 -> i' = i) /\
       (rc = 0 -> iv_payload i' = Some (drop 28 f) /\ 0 <= iv_payload_length i' /\ 28 + iv_payload_length i' <= len)).
Proof.
  intros f len u i Hf Hlen. split.
  - unfold net_udp_parse_ipv4. case_if; [by eexists _, _|]. repeat rd_step. case_if; [by eexists _, _|].
    case_if; [by eexists _, _|]. bsimp. do 2 eexists. split; [done|]. split; [done|].
    intros _. cbn [uv_payload uv_payload_length]. unfold is_u16 in *. rewrite u16_id by (unfold is_u16; lia).
    split; [done|lia].
  - unfold net_icmp_parse_ipv4, NET_IPV4_HEADER_SIZE, NET_ICMP_HEADER_SIZE. case_if; [by eexists _, _|].
    repeat rd_step. case_if; [by eexists _, _|]. case_if; [by eexists _, _|]. bsimp. unfold is_u16 in *.
    match goal with |- context [u16 (?t - 20)] => rewrite (u16_id (t - 20)) by (unfold is_u16; lia) end.
    rewrite icmp_checksum_ok; [|by apply Forall_drop|unfold is_u16; lia|unfold blen in *; rewrite length_drop; lia].
    cbn [mbind option_bind]. case_if; [by eexists _, _|]. do 2 eexists. split; [done|]. split; [done|].
    intros _. cbn [iv_payload iv_payload_length]. rewrite u16_id by (unfold is_u16; lia). split; [done|lia].
Qed.

Definition demo_payload : bytes := [104; 105; 33].

Lemma demo_ip_ok a b c d : u8s [a; b; c; d] = true -> ip4_ok [a; b; c; d].
Proof. intros H. split; [done|by apply u8s_dec]. Qed.

Lemma demo_payload_ok : payload_ok (Some demo_payload) 3.
Proof. split; [vm_compute; discriminate|by apply u8s_dec]. Qed.

Example udp_roundtrip_witness :
  exists f, net_udp_build_ipv4 (Some (replicate 40 7)) 40 (Some [10; 0; 2; 15]) (Some [10; 0; 2; 3]) 68 53
              (Some demo_payload) 3 = Some (31, Some f) /\ length f = 40%nat.
Proof.
  destruct (udp_roundtrip (replicate 40 7) 40 3 [10; 0; 2; 15] [10; 0; 2; 3] 68 53 (Some demo_payload)
    (u8s_dec (replicate 40 7) eq_refl) ltac:(vm_compute; discriminate) ltac:(unfold is_u16; lia)
    (demo_ip_ok 10 0 2 15 eq_refl) (demo_ip_ok 10 0 2 3 eq_refl) ltac:(unfold is_u16; lia) ltac:(unfold is_u16; lia)
    demo_payload_ok) as (f & H1 & H2 & _).
  exists f. split; [exact H1|exact H2].
Defined.

Example icmp_roundtrip_witness :
  exists f, net_icmp_build_ipv4 (Some (replicate 40 7)) 40 (Some [10; 0; 2; 15]) (Some [10; 0; 2; 3]) 8 0 1 2
              (Some demo_payload) 3 = Some (31, Some f) /\ length f = 40%nat.
Proof.
  destruct (icmp_roundtrip (replicate 40 7) 40 3 [10; 0; 2; 15] [10; 0; 2; 3] 8 0 1 2 (Some demo_payload)
    (u8s_dec (replicate 40 7) eq_refl) ltac:(vm_compute; discriminate) ltac:(unfold is_u16; lia)
    (demo_ip_ok 10 0 2 15 eq_refl) (demo_ip_ok 10 0 2 3 eq_refl) ltac:(unfold is_u8; lia) ltac:(unfold is_u8; lia)
    ltac:(unfold is_u16; lia) ltac:(unfold is_u16; lia)
    demo_payload_ok) as (f & H1 & H2 & _).
  exists f. split; [exact H1|exact H2].
Defined.
