(* ===== verification/NetDhcp.v ===== *)
(** * DHCP: kernel/net_dhcp.c

    The three messages the client builds, the parsers of the server's OFFER and
    ACK (a loop over type-length-value options), and the lease: applying, clearing,
    static configuration, routing and expiry. *)

From Stdlib Require Import ZArith Lia.
From stdpp Require Import base numbers option tactics list.
From S2P Require Import Prelude Bytes NetBuf.

Definition NET_DHCP_MAGIC_COOKIE : Z := 1669485411.
Definition NET_DHCP_OPTION_SUBNET_MASK : Z := 1.
Definition NET_DHCP_OPTION_ROUTER : Z := 3.
Definition NET_DHCP_OPTION_DNS : Z := 6.
Definition NET_DHCP_OPTION_MESSAGE_TYPE : Z := 53.
Definition NET_DHCP_OPTION_SERVER_ID : Z := 54.
Definition NET_DHCP_OPTION_PARAMETER_REQUEST_LIST : Z := 55.
Definition NET_DHCP_OPTION_END : Z := 255.
Definition NET_DHCP_OPTION_LEASE_TIME : Z := 51.
Definition NET_DHCP_DISCOVER : Z := 1.
Definition NET_DHCP_OFFER : Z := 2.
Definition NET_DHCP_REQUEST : Z := 3.
Definition NET_DHCP_ACK : Z := 5.

Record net_dhcp_offer_t := mk_offer { of_xid : Z; offered_ip : bytes; of_server_ip : bytes; of_message_type : Z }.

Record net_dhcp_lease_t := mk_lease {
  l_valid : Z; l_subnet_valid : Z; l_router_valid : Z; l_dns_valid : Z;
  l_ipv4 : bytes; l_server_ipv4 : bytes; l_subnet_mask : bytes; l_router_ipv4 : bytes; l_dns_ipv4 : bytes;
  l_xid : Z; l_lease_seconds : Z; l_acquired_tick : Z
}.

Definition zero4 : bytes := replicate 4 0.
Definition empty_lease : net_dhcp_lease_t := mk_lease 0 0 0 0 zero4 zero4 zero4 zero4 zero4 0 0 0.

(** Field updates of the lease under construction. *)
Definition with_server (ip : bytes) (l : net_dhcp_lease_t) : net_dhcp_lease_t :=
  mk_lease (l_valid l) (l_subnet_valid l) (l_router_valid l) (l_dns_valid l) (l_ipv4 l) ip
    (l_subnet_mask l) (l_router_ipv4 l) (l_dns_ipv4 l) (l_xid l) (l_lease_seconds l) (l_acquired_tick l).
Definition with_mask (m : bytes) (l : net_dhcp_lease_t) : net_dhcp_lease_t :=
  mk_lease (l_valid l) 1 (l_router_valid l) (l_dns_valid l) (l_ipv4 l) (l_server_ipv4 l)
    m (l_router_ipv4 l) (l_dns_ipv4 l) (l_xid l) (l_lease_seconds l) (l_acquired_tick l).
Definition with_router (r : bytes) (l : net_dhcp_lease_t) : net_dhcp_lease_t :=
  mk_lease (l_valid l) (l_subnet_valid l) 1 (l_dns_valid l) (l_ipv4 l) (l_server_ipv4 l)
    (l_subnet_mask l) r (l_dns_ipv4 l) (l_xid l) (l_lease_seconds l) (l_acquired_tick l).
Definition with_dns (d : bytes) (l : net_dhcp_lease_t) : net_dhcp_lease_t :=
  mk_lease (l_valid l) (l_subnet_valid l) (l_router_valid l) 1 (l_ipv4 l) (l_server_ipv4 l)
    (l_subnet_mask l) (l_router_ipv4 l) d (l_xid l) (l_lease_seconds l) (l_acquired_tick l).
Definition with_seconds (s : Z) (l : net_dhcp_lease_t) : net_dhcp_lease_t :=
  mk_lease (l_valid l) (l_subnet_valid l) (l_router_valid l) (l_dns_valid l) (l_ipv4 l) (l_server_ipv4 l)
    (l_subnet_mask l) (l_router_ipv4 l) (l_dns_ipv4 l) (l_xid l) s (l_acquired_tick l).
Definition with_tick (t : Z) (l : net_dhcp_lease_t) : net_dhcp_lease_t :=
  mk_lease (l_valid l) (l_subnet_valid l) (l_router_valid l) (l_dns_valid l) (l_ipv4 l) (l_server_ipv4 l)
    (l_subnet_mask l) (l_router_ipv4 l) (l_dns_ipv4 l) (l_xid l) (l_lease_seconds l) t.
(** [copy_bytes(next.ipv4, ...); next.xid = expected_xid; next.valid = 1U] *)
Definition granted (ip : bytes) (xid : Z) (l : net_dhcp_lease_t) : net_dhcp_lease_t :=
  mk_lease 1 (l_subnet_valid l) (l_router_valid l) (l_dns_valid l) ip (l_server_ipv4 l)
    (l_subnet_mask l) (l_router_ipv4 l) (l_dns_ipv4 l) xid (l_lease_seconds l) (l_acquired_tick l).

Definition net_dhcp_build_discover (packet : ptr bytes) (capacity xid : Z) (mac : ptr bytes)
    : option (Z * ptr bytes) :=
  match packet, mac with
  | Some p, Some m =>
      if capacity <? 249 then Some (-1, packet)
      else
        p ← zero_in p 0 249;
        p ← put8 p 0 1; p ← put8 p 1 1; p ← put8 p 2 6;
        p ← put32 p 4 xid; p ← copy_in p 28 m 6; p ← put32 p 236 NET_DHCP_MAGIC_COOKIE;
        p ← put8 p 240 NET_DHCP_OPTION_MESSAGE_TYPE; p ← put8 p 241 1; p ← put8 p 242 NET_DHCP_DISCOVER;
        p ← put8 p 243 NET_DHCP_OPTION_PARAMETER_REQUEST_LIST; p ← put8 p 244 3;
        p ← put8 p 245 1; p ← put8 p 246 NET_DHCP_OPTION_ROUTER; p ← put8 p 247 NET_DHCP_OPTION_DNS;
        p ← put8 p 248 NET_DHCP_OPTION_END;
        Some (249, Some p)
  | _, _ => Some (-1, packet)
  end.

Definition net_dhcp_build_request (packet : ptr bytes) (capacity xid : Z) (mac requested_ip server_ip : ptr bytes)
    : option (Z * ptr bytes) :=
  match packet, mac, requested_ip, server_ip with
  | Some p, Some m, Some rip, Some sip =>
      if capacity <? 252 then Some (-1, packet)
      else
        p ← zero_in p 0 252;
        p ← put8 p 0 1; p ← put8 p 1 1; p ← put8 p 2 6; p ← put32 p 4 xid;
        p ← copy_in p 28 m 6; p ← put32 p 236 NET_DHCP_MAGIC_COOKIE;
        p ← put8 p 240 NET_DHCP_OPTION_MESSAGE_TYPE; p ← put8 p 241 1; p ← put8 p 242 NET_DHCP_REQUEST;
        p ← put8 p 243 NET_DHCP_OPTION_SERVER_ID; p ← put8 p 244 4; p ← copy_in p 245 sip 4;
        p ← put8 p 249 50; p ← put8 p 250 4; p ← copy_in p 251 rip 4;
        Some (255, Some p)
  | _, _, _, _ => Some (-1, packet)
  end.

Definition net_dhcp_build_renew (packet : ptr bytes) (capacity xid : Z) (mac client_ip : ptr bytes)
    : option (Z * ptr bytes) :=
  match packet, mac, client_ip with
  | Some p, Some m, Some cip =>
      if capacity <? 249 then Some (-1, packet)
      else
        p ← zero_in p 0 249;
        p ← put8 p 0 1; p ← put8 p 1 1; p ← put8 p 2 6; p ← put32 p 4 xid;
        p ← copy_in p 12 cip 4; p ← copy_in p 28 m 6;
        p ← put32 p 236 NET_DHCP_MAGIC_COOKIE;
        p ← put8 p 240 NET_DHCP_OPTION_MESSAGE_TYPE; p ← put8 p 241 1; p ← put8 p 242 NET_DHCP_REQUEST;
        p ← put8 p 243 NET_DHCP_OPTION_PARAMETER_REQUEST_LIST; p ← put8 p 244 3;
        p ← put8 p 245 NET_DHCP_OPTION_SUBNET_MASK; p ← put8 p 246 NET_DHCP_OPTION_ROUTER;
        p ← put8 p 247 NET_DHCP_OPTION_DNS; p ← put8 p 248 NET_DHCP_OPTION_END;
        Some (249, Some p)
  | _, _, _ => Some (-1, packet)
  end.

(** ** The option loops

    [for (pos = 240U; pos < length;) { ... }] with [pos] a 32-bit integer.  The
    fuel bounds the iterations; [None] is a read outside the packet or fuel
    running out.  The first component of the result is 0 when the loop ended and
    the value of the [return] inside it otherwise. *)
Fixpoint offer_options (fuel : nat) (p : bytes) (length pos type server_seen : Z) (server_ip : bytes)
    : option (Z * Z * Z * bytes) :=
  if negb (pos <? length) then Some (0, type, server_seen, server_ip)
  else match fuel with
  | O => None
  | S fuel =>
      code ← get8 p pos;
      let pos := u32 (pos + 1) in
      if code =? NET_DHCP_OPTION_END then Some (0, type, server_seen, server_ip)
      else if code =? 0 then offer_options fuel p length pos type server_seen server_ip
      else if length <=? pos then Some (-2, type, server_seen, server_ip)
      else
        size ← get8 p pos;
        let pos := u32 (pos + 1) in
        if length <? u32 (pos + size) then Some (-2, type, server_seen, server_ip)
        else
          type ← (if (code =? NET_DHCP_OPTION_MESSAGE_TYPE) && (size =? 1) then get8 p pos else Some type);
          '(server_ip, server_seen) ←
            (if (code =? NET_DHCP_OPTION_SERVER_ID) && (size =? 4)
             then ip ← ld_bytes p pos 4; Some (ip, 1) else Some (server_ip, server_seen));
          offer_options fuel p length (u32 (pos + size)) type server_seen server_ip
  end.

Definition net_dhcp_parse_offer (packet : ptr bytes) (length expected_xid : Z) (out : ptr net_dhcp_offer_t)
    : option (Z * ptr net_dhcp_offer_t) :=
  match packet, out with
  | Some p, Some o =>
      if length <? 244 then Some (-1, out)
      else
        op ← get8 p 0; xid ← get32 p 4; cookie ← get32 p 236;
        if negb (op =? 2) || negb (xid =? expected_xid) || negb (cookie =? NET_DHCP_MAGIC_COOKIE)
        then Some (-1, out)
        else
          ip ← ld_bytes p 16 4;
          '(rc, type, server_seen, server_ip) ← offer_options (Z.to_nat length) p length 240 0 0 zero4;
          let o := mk_offer expected_xid ip server_ip (of_message_type o) in
          if negb (rc =? 0) then Some (rc, Some o)
          else if negb (type =? NET_DHCP_OFFER) || negb (c_true server_seen) then Some (-3, Some o)
          else Some (0, Some (mk_offer expected_xid ip server_ip type))
  | _, _ => Some (-1, out)
  end.

Definition net_dhcp_lease_apply (lease : ptr net_dhcp_lease_t) (offer : ptr net_dhcp_offer_t)
    : Z * ptr net_dhcp_lease_t :=
  match lease, offer with
  | Some _, Some o =>
      if negb (of_message_type o =? NET_DHCP_OFFER) then (-1, lease)
      else (0, Some (granted (take 4 (offered_ip o)) (of_xid o) (with_server (take 4 (of_server_ip o)) empty_lease)))
  | _, _ => (-1, lease)
  end.

Definition net_dhcp_lease_clear (lease : ptr net_dhcp_lease_t) : ptr net_dhcp_lease_t :=
  match lease with Some _ => Some empty_lease | None => None end.

(** [if (size < 4U || (size & 3U) != 0U) return -4;] *)
Definition bad_address_list (size : Z) : bool := (size <? 4) || negb (Z.land size 3 =? 0).

(** The option [code] of [size] bytes at [pos], applied to the lease under
    construction; [inl] is a return from inside the loop. *)
Definition ack_option (p : bytes) (pos code size type server_seen : Z) (next : net_dhcp_lease_t)
    : option (Z + Z * Z * net_dhcp_lease_t) :=
  type ← (if (code =? NET_DHCP_OPTION_MESSAGE_TYPE) && (size =? 1) then get8 p pos else Some type);
  '(next, server_seen) ←
    (if (code =? NET_DHCP_OPTION_SERVER_ID) && (size =? 4)
     then ip ← ld_bytes p pos 4; Some (with_server ip next, 1) else Some (next, server_seen));
  if (code =? NET_DHCP_OPTION_SUBNET_MASK) && negb (size =? 4) then Some (inl (-4))
  else
    next ← (if code =? NET_DHCP_OPTION_SUBNET_MASK
            then m ← ld_bytes p pos 4; Some (with_mask m next) else Some next);
    if (code =? NET_DHCP_OPTION_ROUTER) && bad_address_list size then Some (inl (-4))
    else
      next ← (if code =? NET_DHCP_OPTION_ROUTER
              then r ← ld_bytes p pos 4; Some (with_router r next) else Some next);
      if (code =? NET_DHCP_OPTION_DNS) && bad_address_list size then Some (inl (-4))
      else
        next ← (if code =? NET_DHCP_OPTION_DNS
                then d ← ld_bytes p pos 4; Some (with_dns d next) else Some next);
        if (code =? NET_DHCP_OPTION_LEASE_TIME) && negb (size =? 4) then Some (inl (-4))
        else
          next ← (if code =? NET_DHCP_OPTION_LEASE_TIME
                  then s ← get32 p pos; Some (with_seconds s next) else Some next);
          Some (inr (type, server_seen, next)).

Fixpoint ack_options (fuel : nat) (p : bytes) (length pos type server_seen : Z) (next : net_dhcp_lease_t)
    : option (Z * Z * Z * net_dhcp_lease_t) :=
  if negb (pos <? length) then Some (0, type, server_seen, next)
  else match fuel with
  | O => None
  | S fuel =>
      code ← get8 p pos;
      let pos := u32 (pos + 1) in
      if code =? NET_DHCP_OPTION_END then Some (0, type, server_seen, next)
      else if code =? 0 then ack_options fuel p length pos type server_seen next
      else if length <=? pos then Some (-2, type, server_seen, next)
      else
        size ← get8 p pos;
        let pos := u32 (pos + 1) in
        if length <? u32 (pos + size) then Some (-2, type, server_seen, next)
        else
          r ← ack_option p pos code size type server_seen next;
          match r with
          | inl rc => Some (rc, type, server_seen, next)
          | inr (type, server_seen, next) =>
              ack_options fuel p length (u32 (pos + size)) type server_seen next
          end
  end.

Definition net_dhcp_parse_ack (packet : ptr bytes) (length expected_xid : Z) (lease : ptr net_dhcp_lease_t)
    : option (Z * ptr net_dhcp_lease_t) :=
  match packet, lease with
  | Some p, Some _ =>
      if length <? 244 then Some (-1, lease)
      else
        op ← get8 p 0; xid ← get32 p 4; cookie ← get32 p 236;
        if negb (op =? 2) || negb (xid =? expected_xid) || negb (cookie =? NET_DHCP_MAGIC_COOKIE)
        then Some (-1, lease)
        else
          '(rc, type, server_seen, next) ← ack_options (Z.to_nat length) p length 240 0 0 empty_lease;
          if negb (rc =? 0) then Some (rc, lease)
          else if negb (type =? NET_DHCP_ACK) || negb (c_true server_seen) then Some (-3, lease)
          else ip ← ld_bytes p 16 4; Some (0, Some (granted ip expected_xid next))
  | _, _ => Some (-1, lease)
  end.

(** ** Routing and expiry *)

(** The loop over the four bytes that clears [local]. *)
Fixpoint same_subnet (ip mask dst : bytes) : bool :=
  match ip, mask, dst with
  | i :: ip, m :: mask, d :: dst => (u8 (Z.land i m) =? u8 (Z.land d m)) && same_subnet ip mask dst
  | _, _, _ => true
  end.

Definition net_dhcp_lease_next_hop (lease : ptr net_dhcp_lease_t) (destination next_hop : ptr bytes) : Z * ptr bytes :=
  match lease, destination, next_hop with
  | Some l, Some d, Some _ =>
      if negb (c_true (l_valid l)) || negb (c_true (l_subnet_valid l)) then (-1, next_hop)
      else if same_subnet (l_ipv4 l) (l_subnet_mask l) d then (0, Some (take 4 d))
      else if negb (c_true (l_router_valid l)) then (-2, next_hop)
      else (0, Some (take 4 (l_router_ipv4 l)))
  | _, _, _ => (-1, next_hop)
  end.

Definition net_dhcp_lease_mark_acquired (lease : ptr net_dhcp_lease_t) (now : Z) : Z * ptr net_dhcp_lease_t :=
  match lease with
  | Some l =>
      if negb (c_true (l_valid l)) || (l_lease_seconds l =? 0) then (-1, lease)
      else (0, Some (with_tick now l))
  | None => (-1, lease)
  end.

Definition net_dhcp_lease_is_valid_at (lease : ptr net_dhcp_lease_t) (now : Z) : Z :=
  match lease with
  | Some l =>
      if negb (c_true (l_valid l)) || (l_lease_seconds l =? 0) then 0
      else b2z (u32 (now - l_acquired_tick l) <? l_lease_seconds l)
  | None => 0
  end.

Definition net_dhcp_lease_renewal_due (lease : ptr net_dhcp_lease_t) (now : Z) : Z :=
  match lease with
  | Some l =>
      if negb (c_true (l_valid l)) || (l_lease_seconds l =? 0) then 0
      else b2z (l_lease_seconds l - l_lease_seconds l / 2 <=? u32 (now - l_acquired_tick l))
  | None => 0
  end.

Definition ifc_u32 (a : bytes) : Z := un_be32 a.

Definition net_dhcp_static_apply (lease : ptr net_dhcp_lease_t) (ip mask gateway : ptr bytes)
    : Z * ptr net_dhcp_lease_t :=
  match lease, ip, mask, gateway with
  | Some l, Some ip, Some mask, Some gateway =>
      let a := ifc_u32 ip in let m := ifc_u32 mask in let g := ifc_u32 gateway in
      let inv := u32 (Z.lnot m) in
      let ip0 := default 0 (ip !! 0%nat) in
      if (m =? 0) || (m =? 4294967295) || negb (Z.land inv (u32 (inv + 1)) =? 0) then (-1, lease)
      else if (a =? 0) || (ip0 =? 127) || (224 <=? ip0) then (-1, lease)
      else if (Z.land a inv =? 0) || (Z.land a inv =? inv) then (-1, lease)
      else if (g =? a) || negb (Z.land g m =? Z.land a m) || (Z.land g inv =? 0) || (Z.land g inv =? inv) then (-1, lease)
      else (0, Some (mk_lease 1 1 1 (l_dns_valid l) (take 4 ip) zero4 (take 4 mask) (take 4 gateway)
                       (l_dns_ipv4 l) (l_xid l) 4294967295 (l_acquired_tick l)))
  | _, _, _, _ => (-1, lease)
  end.

(** ** Safety of the parsers *)

(** Resolve the option-dependent reads, which stay inside [pos, pos + size). *)
Ltac opt_reads :=
  repeat match goal with
  | |- context [if ?b then _ else _] =>
      match b with context [match _ with _ => _ end] => fail 1 | _ => idtac end;
      let E := fresh "E" in destruct b eqn:E; bsimp
  | |- context [get8 ?f ?i] =>
      let v := fresh "v" in let Hv := fresh "Hv" in
      destruct (get8_u8 f i) as (v & -> & Hv); [done|lia|lia|]; cbn [mbind option_bind]
  | |- context [get32 ?f ?i] =>
      let v := fresh "v" in destruct (get32_is_Some f i) as [v ->]; [lia|lia|]; cbn [mbind option_bind]
  | |- context [ld_bytes ?f ?i ?n] =>
      let v := fresh "v" in let Hv := fresh "Hv" in
      destruct (slice_exists f i n) as (v & -> & Hv); [lia|lia|lia|]; cbn [mbind option_bind]
  | |- _ => progress cbn [mbind option_bind]
  end.

Lemma offer_options_safe p len fuel pos ty seen ip :
  packet_ok p len -> 0 <= pos <= len -> (Z.to_nat (len - pos) <= fuel)%nat -> blen ip = 4 ->
  exists rc ty' seen' ip', offer_options fuel p len pos ty seen ip = Some (rc, ty', seen', ip') /\
    (rc = 0 \/ rc = -2) /\ blen ip' = 4.
Proof.
  intros (Hp & Hl & Hmax). revert pos ty seen ip.
  induction fuel as [|fuel IH]; intros pos ty seen ip Hpos Hf Hip; cbn [offer_options];
    destruct (Z.ltb_spec pos len); cbn [negb]; try lia; try (by do 4 eexists; eauto).
  destruct (get8_u8 p pos) as (code & -> & Hc); [done|lia|lia|]. cbn [mbind option_bind].
  rewrite !(u32_id (pos + 1)) by (unfold is_u32; lia).
  case_if; [by do 4 eexists; eauto|]. case_if; [apply IH; lia|]. case_if; [by do 4 eexists; eauto|].
  destruct (get8_u8 p (pos + 1)) as (size & -> & Hs); [done|lia|lia|]. cbn [mbind option_bind].
  unfold is_u8 in Hs. rewrite !(u32_id (pos + 1 + 1)) by (unfold is_u32; lia).
  rewrite !(u32_id (pos + 1 + 1 + size)) by (unfold is_u32; lia).
  case_if; [by do 4 eexists; eauto|].
  opt_reads; apply IH; lia || done.
Qed.

Lemma bad_list_small size : bad_address_list size = false -> 4 <= size.
Proof. unfold bad_address_list. intros H. bsimp. lia. Qed.

Lemma ack_option_safe p pos code size ty seen next :
  Forall is_u8 p -> 0 <= pos -> 0 <= size -> pos + size <= blen p ->
  exists r, ack_option p pos code size ty seen next = Some r /\ match r with inl rc => rc = -4 | inr _ => True end.
Proof.
  intros Hp Hpos Hs Hl.
  assert (H8 : size = 1 -> exists v, get8 p pos = Some v) by (intros; apply get8_is_Some; lia).
  assert (H4 : 4 <= size -> exists v, ld_bytes p pos 4 = Some v)
    by (intros; destruct (slice_exists p pos 4) as (v & E & _); [lia..|eauto]).
  assert (H32 : size = 4 -> exists v, get32 p pos = Some v) by (intros; apply get32_is_Some; lia).
  unfold ack_option.
  destruct (Z.eqb_spec code NET_DHCP_OPTION_MESSAGE_TYPE) as [->|N53]; cbn [andb].
  { destruct (Z.eqb_spec size 1) as [E|]; [destruct (H8 E) as [v ->]|]; cbn; by eexists. }
  destruct (Z.eqb_spec code NET_DHCP_OPTION_SERVER_ID) as [->|N54]; cbn [andb mbind option_bind].
  { destruct (Z.eqb_spec size 4) as [E|]; [destruct H4 as [v ->]; [lia|]|]; cbn; by eexists. }
  destruct (Z.eqb_spec code NET_DHCP_OPTION_SUBNET_MASK) as [->|N1]; cbn [andb mbind option_bind].
  { destruct (Z.eqb_spec size 4) as [E|]; [destruct H4 as [v ->]; [lia|]|]; cbn; by eexists. }
  destruct (Z.eqb_spec code NET_DHCP_OPTION_ROUTER) as [->|N3]; cbn [andb mbind option_bind].
  { destruct (bad_address_list size) eqn:E; [by eexists|]. apply bad_list_small in E. destruct (H4 E) as [v ->]. cbn; by eexists. }
  destruct (Z.eqb_spec code NET_DHCP_OPTION_DNS) as [->|N6]; cbn [andb mbind option_bind].
  { destruct (bad_address_list size) eqn:E; [by eexists|]. apply bad_list_small in E. destruct (H4 E) as [v ->]. cbn; by eexists. }
  destruct (Z.eqb_spec code NET_DHCP_OPTION_LEASE_TIME) as [->|N51]; cbn [andb mbind option_bind]; [|by eexists].
  destruct (Z.eqb_spec size 4) as [E|]; [destruct (H32 E) as [v ->]|]; cbn; by eexists.
Qed.

Lemma ack_options_safe p len fuel pos ty seen next :
  packet_ok p len -> 0 <= pos <= len -> (Z.to_nat (len - pos) <= fuel)%nat ->
  exists rc ty' seen' next', ack_options fuel p len pos ty seen next = Some (rc, ty', seen', next') /\
    (rc = 0 \/ rc = -2 \/ rc = -4).
Proof.
  intros (Hp & Hl & Hmax). revert pos ty seen next.
  induction fuel as [|fuel IH]; intros pos ty seen next Hpos Hf; cbn [ack_options];
    destruct (Z.ltb_spec pos len); cbn [negb]; try lia; try (by do 4 eexists; eauto).
  destruct (get8_u8 p pos) as (code & -> & Hc); [done|lia|lia|]. cbn [mbind option_bind].
  rewrite !(u32_id (pos + 1)) by (unfold is_u32; lia).
  case_if; [by do 4 eexists; eauto|]. case_if; [apply IH; lia|]. case_if; [by do 4 eexists; eauto|].
  destruct (get8_u8 p (pos + 1)) as (size & -> & Hs); [done|lia|lia|]. cbn [mbind option_bind].
  unfold is_u8 in Hs. rewrite !(u32_id (pos + 1 + 1)) by (unfold is_u32; lia).
  rewrite !(u32_id (pos + 1 + 1 + size)) by (unfold is_u32; lia).
  case_if; [by do 4 eexists; eauto|].
  destruct (ack_option_safe p (pos + 1 + 1) code size ty seen next) as (r & -> & Hr); [done|lia..|].
  cbn [mbind option_bind]. destruct r as [rc|[[ty' seen'] next']]; [by subst; do 4 eexists; eauto|apply IH; lia].
Qed.

(** Both parsers on arbitrary input: they return, and only an accepted ACK touches
    the lease. *)
Lemma dhcp_parse_safe p len xid (o : net_dhcp_offer_t) (l : net_dhcp_lease_t) :
  packet_ok p len ->
  (exists rc o', net_dhcp_parse_offer (Some p) len xid (Some o) = Some (rc, Some o') /\
     (rc = 0 -> of_message_type o' = NET_DHCP_OFFER /\ of_xid o' = xid)) /\
  (exists rc l', net_dhcp_parse_ack (Some p) len xid (Some l) = Some (rc, Some l') /\
     (rc <> 0 -> l' = l) /\ (rc = 0 -> l_valid l' = 1 /\ l_xid l' = xid)).
Proof.
  intros Hok. pose proof Hok as (Hp & Hl & Hmax).
  unfold net_dhcp_parse_offer, net_dhcp_parse_ack. destruct (Z.ltb_spec len 244).
  { split; do 2 eexists; (split; [done|]); [done|]. by split. }
  destruct (get8_u8 p 0) as (op & -> & _); [done|lia..|]. destruct (get32_is_Some p 4) as [x ->]; [lia..|].
  destruct (get32_is_Some p 236) as [c ->]; [lia..|]. cbn [mbind option_bind].
  destruct (negb (op =? 2) || negb (x =? xid) || negb (c =? NET_DHCP_MAGIC_COOKIE)).
  { split; do 2 eexists; (split; [done|]); [done|]. by split. }
  destruct (slice_exists p 16 4) as (ip & -> & Hip); [lia..|]. cbn [mbind option_bind].
  split.
  - destruct (offer_options_safe p len (Z.to_nat len) 240 0 0 zero4) as (rc & ty & seen & sip & -> & Hrc & _);
      [done|lia|lia|done|]. cbn [mbind option_bind].
    case_if; [by do 2 eexists|]. case_if; [by do 2 eexists|]. bsimp. do 2 eexists. split; [done|]. by intros _.
  - destruct (ack_options_safe p len (Z.to_nat len) 240 0 0 empty_lease) as (rc & ty & seen & nx & -> & Hrc);
      [done|lia|lia|]. cbn [mbind option_bind].
    case_if; [by do 2 eexists|]. case_if; [by do 2 eexists|]. do 2 eexists. by split.
Qed.

(** ** Options as a list *)

(** The encoding of RFC 2132: code, length, value; the list ends with code 255. *)
Definition encode_options (opts : list (Z * bytes)) : bytes :=
  flat_map (fun '(code, v) => code :: blen v :: v) opts.

Definition option_ok (o : Z * bytes) : Prop :=
  let '(code, v) := o in
  1 <= code <= 254 /\ blen v < 256 /\ Forall is_u8 v /\
  (code = NET_DHCP_OPTION_SUBNET_MASK \/ code = NET_DHCP_OPTION_LEASE_TIME -> blen v = 4) /\
  (code = NET_DHCP_OPTION_ROUTER \/ code = NET_DHCP_OPTION_DNS -> 4 <= blen v /\ blen v mod 4 = 0).

(** The effect of one option on message type, server seen and lease. *)
Definition option_effect (st : Z * Z * net_dhcp_lease_t) (o : Z * bytes) : Z * Z * net_dhcp_lease_t :=
  let '(type, seen, l) := st in
  let '(code, v) := o in
  if code =? NET_DHCP_OPTION_MESSAGE_TYPE
  then (if blen v =? 1 then default 0 (v !! 0%nat) else type, seen, l)
  else if code =? NET_DHCP_OPTION_SERVER_ID
  then (if blen v =? 4 then (type, 1, with_server v l) else st)
  else if code =? NET_DHCP_OPTION_SUBNET_MASK then (type, seen, with_mask v l)
  else if code =? NET_DHCP_OPTION_ROUTER then (type, seen, with_router (take 4 v) l)
  else if code =? NET_DHCP_OPTION_DNS then (type, seen, with_dns (take 4 v) l)
  else if code =? NET_DHCP_OPTION_LEASE_TIME then (type, seen, with_seconds (un_be32 v) l)
  else st.

Lemma land3_mod4 z : 0 <= z -> Z.land z 3 = z mod 4.
Proof. intros H. change 3 with (Z.ones 2). rewrite Z.land_ones by lia. done. Qed.

Lemma good_list v : 4 <= blen v -> blen v mod 4 = 0 -> bad_address_list (blen v) = false.
Proof. intros H1 H2. unfold bad_address_list. rewrite land3_mod4, H2 by lia. by rewrite (proj2 (Z.ltb_ge _ _)). Qed.

Lemma ack_option_value p pos code v ty seen l :
  option_ok (code, v) -> ld_bytes p pos (blen v) = Some v ->
  ack_option p pos code (blen v) ty seen l = Some (inr (option_effect (ty, seen, l) (code, v))).
Proof.
  intros (Hc & Hv & Hu & H4 & Hlist) Hld.
  assert (Hfirst : 4 <= blen v -> ld_bytes p pos 4 = Some (take 4 v)).
  { intros Hge. apply ld_bytes_Some in Hld as (Hp0 & _ & Hp1 & Hval). apply ld_bytes_Some.
    split; [done|]. split; [lia|]. split; [lia|]. rewrite Hval, take_take. f_equal. lia. }
  assert (Hall : blen v = 4 -> ld_bytes p pos 4 = Some v) by (intros <-; done).
  assert (Hone : blen v = 1 -> get8 p pos = Some (default 0 (v !! 0%nat))).
  { intros H1. destruct v as [|x [|y v]]; try done; [|unfold blen in H1; cbn in H1; lia].
    by apply ld_of_slice. }
  unfold ack_option, option_effect.
  destruct (Z.eqb_spec code NET_DHCP_OPTION_MESSAGE_TYPE) as [->|N53]; cbn [andb].
  { destruct (Z.eqb_spec (blen v) 1) as [E|]; cbn; [rewrite Hone by done|]; done. }
  destruct (Z.eqb_spec code NET_DHCP_OPTION_SERVER_ID) as [->|N54]; cbn [andb mbind option_bind].
  { destruct (Z.eqb_spec (blen v) 4) as [E|]; cbn; [rewrite Hall by done|]; done. }
  destruct (Z.eqb_spec code NET_DHCP_OPTION_SUBNET_MASK) as [->|N1]; cbn [andb mbind option_bind].
  { rewrite (H4 (or_introl eq_refl)). rewrite Hall by (apply H4; by left). done. }
  destruct (Z.eqb_spec code NET_DHCP_OPTION_ROUTER) as [->|N3]; cbn [andb mbind option_bind].
  { destruct (Hlist (or_introl eq_refl)). rewrite good_list, Hfirst by done. done. }
  destruct (Z.eqb_spec code NET_DHCP_OPTION_DNS) as [->|N6]; cbn [andb mbind option_bind].
  { destruct (Hlist (or_intror eq_refl)). rewrite good_list, Hfirst by done. done. }
  destruct (Z.eqb_spec code NET_DHCP_OPTION_LEASE_TIME) as [->|N51]; cbn [andb mbind option_bind]; [|done].
  rewrite (H4 (or_intror eq_refl)). unfold get32. rewrite Hall by (apply H4; by right). done.
Qed.

Lemma ack_options_list opts pre junk p len fuel ty seen l :
  p = pre ++ encode_options opts ++ NET_DHCP_OPTION_END :: junk ->
  Forall option_ok opts -> blen pre + blen (encode_options opts) + 1 <= len -> len < 2147483648 ->
  (length (encode_options opts) < fuel)%nat ->
  ack_options fuel p len (blen pre) ty seen l =
    let '(ty', seen', l') := fold_left option_effect opts (ty, seen, l) in Some (0, ty', seen', l').
Proof.
  intros Hp Hok. revert pre fuel ty seen l Hp.
  induction Hok as [|[code v] opts Ho Hok IH]; intros pre fuel ty seen l Hp Hlen Hmax Hf.
  - cbn [encode_options flat_map app length] in *. change (blen []) with 0 in Hlen.
    destruct fuel as [|fuel]; [lia|]. cbn [ack_options fold_left].
    rewrite (proj2 (Z.ltb_lt _ _)) by lia. cbn [negb]. rewrite Hp.
    unfold get8. rewrite (ld_skip pre _ (blen pre) 0) by lia. done.
  - cbn [encode_options flat_map] in *. fold (encode_options opts) in *.
    rewrite length_app in Hf. unfold blen in Hlen at 2. rewrite length_app in Hlen. cbn [length] in Hf, Hlen.
    pose proof Ho as (Hc & Hv & _). unfold blen in Hv. unfold blen in Hlen at 1.
    destruct fuel as [|fuel]; [lia|]. cbn [ack_options fold_left].
    rewrite (proj2 (Z.ltb_lt _ _)) by (unfold blen; lia). cbn [negb].
    assert (E0 : get8 p (blen pre) = Some code).
    { rewrite Hp. unfold get8. by rewrite (ld_skip pre _ _ 0) by lia. }
    assert (E1 : get8 p (blen pre + 1) = Some (blen v)).
    { rewrite Hp. unfold get8. by rewrite (ld_skip pre _ _ 1) by lia. }
    assert (E2 : ld_bytes p (blen pre + 1 + 1) (blen v) = Some v).
    { rewrite Hp. rewrite (ld_bytes_skip pre _ _ _ 2) by lia.
      change ((code :: blen v :: v) ++ ?x) with ([code; blen v] ++ v ++ x). rewrite <- !app_assoc.
      by apply ld_bytes_at. }
    rewrite E0. cbn [mbind option_bind]. rewrite !(u32_id (blen pre + 1)) by (unfold is_u32, blen; lia).
    unfold NET_DHCP_OPTION_END. rewrite !(proj2 (Z.eqb_neq _ _)) by lia.
    rewrite (proj2 (Z.leb_gt _ _)) by (unfold blen; lia). rewrite E1. cbn [mbind option_bind].
    rewrite !(u32_id (blen pre + 1 + 1)) by (unfold is_u32, blen; lia).
    rewrite !(u32_id (blen pre + 1 + 1 + blen v)) by (unfold is_u32, blen; lia).
    rewrite (proj2 (Z.ltb_ge _ _)) by (unfold blen; lia).
    rewrite ack_option_value by done. cbn [mbind option_bind].
    destruct (option_effect (ty, seen, l) (code, v)) as [[ty1 seen1] l1].
    replace (blen pre + 1 + 1 + blen v) with (blen (pre ++ code :: blen v :: v))
      by (unfold blen; rewrite length_app; cbn [length]; lia).
    apply IH; [|unfold blen; rewrite length_app; cbn [length]; lia|done|lia].
    rewrite Hp. rewrite <- !app_assoc. done.
Qed.

(** An ACK is decoded to what it says: for every packet made of a reply header
    (transaction, address, magic cookie), any list of well-formed options in any
    order, the end mark and anything behind it, [net_dhcp_parse_ack] computes the
    effect of the options in their order (the last subnet mask, first router and
    name server of the last such option, lease time, server), grants the lease
    exactly when the last message type is ACK and a server identified itself, and
    leaves the old lease untouched otherwise. *)
Theorem dhcp_ack_decodes :
  forall (hdr junk ip : bytes) (opts : list (Z * bytes)) (xid len : Z) (l : net_dhcp_lease_t),
    length hdr = 240%nat -> get8 hdr 0 = Some 2 -> get32 hdr 4 = Some xid ->
    get32 hdr 236 = Some NET_DHCP_MAGIC_COOKIE -> ld_bytes hdr 16 4 = Some ip -> Forall option_ok opts ->
    240 + blen (encode_options opts) + 1 <= len -> 244 <= len -> len < 2147483648 ->
    net_dhcp_parse_ack (Some (hdr ++ encode_options opts ++ NET_DHCP_OPTION_END :: junk)) len xid (Some l) =
      let '(type, seen, next) := fold_left option_effect opts (0, 0, empty_lease) in
      if (type =? NET_DHCP_ACK) && c_true seen
      then Some (0, Some (granted ip xid next)) else Some (-3, Some l).
Proof.
  intros hdr junk ip opts xid len l Hh H0 Hx Hc Hip Hok Hlen H244 Hmax.
  unfold net_dhcp_parse_ack. rewrite (proj2 (Z.ltb_ge _ _)) by lia.
  assert (Hpre : forall off n b, ld_bytes hdr off n = Some b ->
            ld_bytes (hdr ++ encode_options opts ++ NET_DHCP_OPTION_END :: junk) off n = Some b).
  { intros off n b Hb. pose proof Hb as (A & B & C & ->)%ld_bytes_Some. by apply ld_bytes_prefix. }
  assert (Hget : forall off x, get32 hdr off = Some x ->
            get32 (hdr ++ encode_options opts ++ NET_DHCP_OPTION_END :: junk) off = Some x).
  { unfold get32. intros off x (b & Hb & ->)%fmap_Some. by rewrite (Hpre _ _ _ Hb). }
  unfold get8 in *. rewrite ld_prefix by (unfold blen; lia). rewrite H0, (Hget _ _ Hx), (Hget _ _ Hc). cbn [mbind option_bind].
  rewrite !Z.eqb_refl. cbn [negb orb].
  pose proof (ack_options_list opts hdr junk _ len (Z.to_nat len) 0 0 empty_lease eq_refl Hok) as Hloop.
  unfold blen in Hloop at 1 3. rewrite Hh in Hloop. change (Z.of_nat 240) with 240 in Hloop.
  rewrite Hloop by (unfold blen in *; lia).
  destruct (fold_left option_effect opts (0, 0, empty_lease)) as [[type seen] next]. cbn [mbind option_bind Z.eqb negb].
  destruct (type =? NET_DHCP_ACK), (c_true seen); cbn [negb orb andb]; try done. by rewrite (Hpre _ _ _ Hip).
Qed.

(** ** Builders *)

Lemma write_total p off bs : 0 <= off -> off + blen bs <= blen p -> exists p', st_bytes p off bs = Some p' /\ blen p' = blen p.
Proof. intros. eexists. split; [by apply st_bytes_ok|]. unfold blen. by rewrite patch_length. Qed.

Lemma put8_total p off v : 0 <= off -> off + 1 <= blen p -> exists p', put8 p off v = Some p' /\ blen p' = blen p.
Proof. intros. by apply write_total. Qed.
Lemma put32_total p off v : 0 <= off -> off + 4 <= blen p -> exists p', put32 p off v = Some p' /\ blen p' = blen p.
Proof. intros. by apply write_total. Qed.

Lemma zero_total p n : 0 <= n <= blen p -> exists p', zero_in p 0 n = Some p' /\ blen p' = blen p.
Proof. intros. apply write_total; rewrite ?blen_zeros; lia. Qed.

Lemma copy_total p off src n :
  0 <= off -> blen src = n -> off + n <= blen p -> exists p', copy_in p off src n = Some p' /\ blen p' = blen p.
Proof.
  intros H1 H2 H3. eexists. split; [by apply copy_in_ok|]. unfold blen. rewrite patch_length; unfold blen in *; lia.
Qed.

(** The next write of a builder, inside a buffer known to be large enough. *)
Ltac wr_total :=
  match goal with
  | |- context [zero_in ?p 0 ?n] =>
      let p' := fresh "p" in let E := fresh "E" in
      destruct (zero_total p n) as (p' & -> & E); [lia|]; cbn [mbind option_bind]
  | |- context [put8 ?p ?o ?v] =>
      let p' := fresh "p" in let E := fresh "E" in
      destruct (put8_total p o v) as (p' & -> & E); [lia|lia|]; cbn [mbind option_bind]
  | |- context [put32 ?p ?o ?v] =>
      let p' := fresh "p" in let E := fresh "E" in
      destruct (put32_total p o v) as (p' & -> & E); [lia|lia|]; cbn [mbind option_bind]
  | |- context [copy_in ?p ?o ?s ?n] =>
      let p' := fresh "p" in let E := fresh "E" in
      destruct (copy_total p o s n) as (p' & -> & E); [lia|done|lia|]; cbn [mbind option_bind]
  end.

(** [net_dhcp_build_request] accepts capacities from 252 but writes 255 bytes: with
    a buffer of 252 to 254 bytes the last copy runs past its end; from 255 bytes on
    the request is built inside it. *)
Theorem dhcp_request_needs_255 :
  forall (p m rip sip : bytes) (xid : Z),
    blen m = 6 -> blen rip = 4 -> blen sip = 4 ->
    (252 <= blen p < 255 ->
       net_dhcp_build_request (Some p) (blen p) xid (Some m) (Some rip) (Some sip) = None) /\
    (255 <= blen p ->
       exists f, net_dhcp_build_request (Some p) (blen p) xid (Some m) (Some rip) (Some sip) = Some (255, Some f) /\
         blen f = blen p).
Proof.
  intros p m rip sip xid Hm Hr Hs.
  split; intros Hp; unfold net_dhcp_build_request; rewrite (proj2 (Z.ltb_ge _ _)) by lia.
  - do 15 wr_total.
    assert (copy_in p14 251 rip 4 = None) as ->; [|done].
    unfold copy_in. rewrite ld_bytes_ok by lia. cbn [mbind option_bind].
    unfold st_bytes, blen. rewrite length_take, length_drop. unfold blen in *.
    match goal with |- context [_ && (?b <=? ?c)] => rewrite (proj2 (Z.leb_gt b c)) by lia end.
    by rewrite andb_false_r.
  - do 16 wr_total. eexists. split; [done|]. lia.
Qed.

(** The other two messages never leave a buffer of the capacity they check. *)
Lemma dhcp_builders_safe p m cip cap xid :
  cap <= blen p -> blen m = 6 -> blen cip = 4 ->
  (exists rc f, net_dhcp_build_discover (Some p) cap xid (Some m) = Some (rc, Some f) /\ blen f = blen p) /\
  (exists rc f, net_dhcp_build_renew (Some p) cap xid (Some m) (Some cip) = Some (rc, Some f) /\ blen f = blen p).
Proof.
  intros Hp Hm Hc. unfold net_dhcp_build_discover, net_dhcp_build_renew.
  destruct (Z.ltb_spec cap 249); [by split; do 2 eexists|].
  split; repeat wr_total; do 2 eexists; (split; [done|lia]).
Qed.

(** ** Static configuration *)

Definition ip_word_ok (a : bytes) : Prop := length a = 4%nat /\ Forall is_u8 a.

Lemma land_div256 x y : Z.land x y / 256 = Z.land (x / 256) (y / 256).
Proof. change 256 with (2 ^ 8). rewrite <- !Z.shiftr_div_pow2 by lia. apply Z.shiftr_land. Qed.

Lemma land_mod256 x y : Z.land x y mod 256 = Z.land (x mod 256) (y mod 256).
Proof.
  change 256 with (2 ^ 8). rewrite <- !Z.land_ones by lia.
  rewrite <- !Z.land_assoc, (Z.land_assoc (Z.ones 8) y), (Z.land_comm (Z.ones 8) y).
  by rewrite <- Z.land_assoc, Z.land_diag.
Qed.

(** Masking words is masking their bytes. *)
Lemma land_join a b m n : is_u8 b -> is_u8 n -> Z.land (256 * a + b) (256 * m + n) = 256 * Z.land a m + Z.land b n.
Proof.
  unfold is_u8. intros Hb Hn. rewrite (Z.div_mod (Z.land (256 * a + b) (256 * m + n)) 256) by lia.
  rewrite land_div256, land_mod256.
  replace ((256 * a + b) / 256) with a by zlia. replace ((256 * m + n) / 256) with m by zlia.
  replace ((256 * a + b) mod 256) with b by zlia. replace ((256 * m + n) mod 256) with n by zlia. done.
Qed.

Lemma land_u8 b n : is_u8 b -> is_u8 n -> is_u8 (Z.land b n).
Proof. intros Hb Hn. apply (land_range 8); [lia|exact Hb]. Qed.

Lemma same_subnet_words ip mask d :
  ip_word_ok ip -> ip_word_ok mask -> ip_word_ok d ->
  same_subnet ip mask d = (Z.land (ifc_u32 ip) (ifc_u32 mask) =? Z.land (ifc_u32 d) (ifc_u32 mask)).
Proof.
  intros [Li Hi] [Lm Hm] [Ld Hd].
  destruct (bytes4 _ Li) as (i0 & i1 & i2 & i3 & ->), (bytes4 _ Lm) as (m0 & m1 & m2 & m3 & ->),
    (bytes4 _ Ld) as (d0 & d1 & d2 & d3 & ->).
  rewrite !Forall_cons in Hi, Hm, Hd. destruct Hi as (? & ? & ? & ? & _), Hm as (? & ? & ? & ? & _), Hd as (? & ? & ? & ? & _).
  assert (W : forall a b c e, ifc_u32 [a; b; c; e] = 256 * (256 * (256 * a + b) + c) + e) by (intros; cbn; lia).
  rewrite !W, !land_join by done. cbn [same_subnet]. rewrite !u8_id by (by apply land_u8).
  pose proof (land_u8 i0 m0) as B0. pose proof (land_u8 i1 m1) as B1. pose proof (land_u8 i2 m2) as B2.
  pose proof (land_u8 i3 m3) as B3. pose proof (land_u8 d0 m0) as C0. pose proof (land_u8 d1 m1) as C1.
  pose proof (land_u8 d2 m2) as C2. pose proof (land_u8 d3 m3) as C3. unfold is_u8 in *.
  repeat match goal with |- context [?a =? ?b] => destruct (Z.eqb_spec a b) end; cbn [andb]; try done; lia.
Qed.

(** A configuration [net_dhcp_static_apply] accepts routes every packet: to the
    destination itself inside the subnet and to the gateway outside, and the
    gateway is inside the subnet. *)
Theorem static_lease_routes :
  forall (l l' : net_dhcp_lease_t) (ip mask gw d x : bytes),
    ip_word_ok ip -> ip_word_ok mask -> ip_word_ok gw -> ip_word_ok d ->
    net_dhcp_static_apply (Some l) (Some ip) (Some mask) (Some gw) = (0, Some l') ->
    net_dhcp_lease_next_hop (Some l') (Some d) (Some x) =
      (0, Some (if Z.land (ifc_u32 ip) (ifc_u32 mask) =? Z.land (ifc_u32 d) (ifc_u32 mask) then d else gw)) /\
    net_dhcp_lease_next_hop (Some l') (Some gw) (Some x) = (0, Some gw).
Proof.
  intros l l' ip mask gw d x Hip Hm Hg Hd. unfold net_dhcp_static_apply. repeat (case_if; [done|]). intros [= <-].
  assert (Ht : forall a : bytes, length a = 4%nat -> take 4 a = a) by (intros; by apply take_ge; lia).
  destruct Hip as [Li Hi], Hm as [Lm Hm], Hg as [Lg Hg], Hd as [Ld Hd].
  unfold net_dhcp_lease_next_hop. cbn [l_valid l_subnet_valid l_router_valid l_ipv4 l_subnet_mask l_router_ipv4 c_true Z.eqb negb orb].
  rewrite !(Ht gw Lg), !(Ht ip Li), !(Ht mask Lm), !(Ht d Ld). rewrite !same_subnet_words by done. bsimp.
  split; [destruct (_ =? _); reflexivity|].
  match goal with |- context [?a =? ?b] => destruct (Z.eqb_spec a b) end; congruence.
Qed.

(** The header calls a static configuration a lease that never renews; a renewal
    is due 2^31 ticks after the recorded acquisition. *)
Theorem static_lease_renewal :
  forall (l l' : net_dhcp_lease_t) (ip mask gw : bytes),
    net_dhcp_static_apply (Some l) (Some ip) (Some mask) (Some gw) = (0, Some l') ->
    net_dhcp_lease_renewal_due (Some l') (u32 (l_acquired_tick l' + 2147483648)) = 1.
Proof.
  intros l l' ip mask gw. unfold net_dhcp_static_apply. repeat (case_if; [done|]). intros [= <-].
  unfold net_dhcp_lease_renewal_due. cbn [l_valid l_lease_seconds l_acquired_tick c_true Z.eqb negb orb].
  replace (u32 (u32 (l_acquired_tick l + 2147483648) - l_acquired_tick l)) with 2147483648; [done|].
  unfold u32. rewrite Zminus_mod_idemp_l. by replace (l_acquired_tick l + 2147483648 - l_acquired_tick l) with 2147483648 by lia.
Qed.

Definition demo_reply : bytes :=
  [2; 1; 6; 0; 0; 0; 0; 42] ++ replicate 8 0 ++ [10; 0; 2; 15] ++ replicate 216 0 ++ [99; 130; 83; 99].
Definition demo_options : list (Z * bytes) :=
  [(53, [5]); (54, [10; 0; 2; 2]); (1, [255; 255; 255; 0]); (3, [10; 0; 2; 2]); (51, [0; 1; 81; 128])].

Lemma demo_options_ok : Forall option_ok demo_options.
Proof.
  unfold demo_options. rewrite !Forall_cons, Forall_nil.
  repeat match goal with |- option_ok _ /\ _ => split end; [..|done]; cbn [option_ok];
    (split; [lia|]); (split; [vm_compute; reflexivity|]); (split; [by apply u8s_dec|]);
    split; intros [E|E]; try discriminate E; vm_compute; done.
Qed.

Example dhcp_ack_decodes_witness :
  exists l, net_dhcp_parse_ack (Some (demo_reply ++ encode_options demo_options ++ [255; 0; 0])) 290 42 (Some empty_lease)
    = Some (0, Some l) /\ l_ipv4 l = [10; 0; 2; 15] /\ l_lease_seconds l = 86400.
Proof.
  pose proof (dhcp_ack_decodes demo_reply [0; 0] [10; 0; 2; 15] demo_options 42 290 empty_lease
    eq_refl eq_refl eq_refl eq_refl eq_refl demo_options_ok ltac:(vm_compute; discriminate)
    ltac:(vm_compute; discriminate) ltac:(vm_compute; reflexivity)) as H.
  eexists. split; [exact H|]. split; reflexivity.
Defined.
