(* ===== verification/NetDns.v ===== *)
(** * DNS: kernel/net_dns.c

    The query for the address of a host name and the parser of the answer.  A host
    name is a C string as in Names. *)

From Stdlib Require Import ZArith Lia.
From stdpp Require Import base numbers option tactics list.
From S2P Require Import Prelude Bytes Names NetBuf.

Definition NET_DNS_HEADER_SIZE : Z := 12.
Definition NET_DNS_TYPE_A : Z := 1.
Definition NET_DNS_CLASS_IN : Z := 1.

Record net_dns_a_result_t := mk_dns_result { dns_id : Z; dns_address : bytes }.

(** [while (cursor[label_len] && cursor[label_len] != '.') { ... }]: the length of
    the label at [cur], or -2 as returned for a label of more than 63 bytes. *)
Fixpoint label_scan (fuel : nat) (s : bytes) (cur label_len : Z) : option Z :=
  if negb (chr s (cur + label_len) =? 0) && negb (chr s (cur + label_len) =? 46) then
    if 63 <=? label_len then Some (-2)
    else match fuel with
         | O => None
         | S fuel => label_scan fuel s cur (label_len + 1)
         end
  else Some label_len.

(** [while ( *cursor) { ... }]: the first component is 0 when the loop ended, the
    returned code otherwise; then packet, position and last label length. *)
Fixpoint query_labels (fuel : nat) (s : bytes) (capacity : Z) (p : bytes) (cur pos label_len : Z)
    : option (Z * bytes * Z * Z) :=
  if chr s cur =? 0 then Some (0, p, pos, label_len)
  else match fuel with
  | O => None
  | S fuel =>
      let label_start := pos in
      let pos := u32 (pos + 1) in
      label_len ← label_scan 64 s cur 0;
      if label_len <? 0 then Some (label_len, p, pos, label_len)
      else if capacity <? u32 (pos + label_len + 1 + 4) then Some (-3, p, pos, label_len)
      else
        p ← put8 p label_start label_len;
        label ← ld_bytes s cur label_len;
        p ← st_bytes p pos label;
        let pos := u32 (pos + label_len) in
        let cur := cur + label_len in
        let cur := if chr s cur =? 46 then cur + 1 else cur in
        query_labels fuel s capacity p cur pos label_len
  end.

Definition net_dns_build_a_query (packet : ptr bytes) (capacity id : Z) (hostname : ptr bytes)
    : option (Z * ptr bytes) :=
  match packet, hostname with
  | Some p, Some s =>
      if capacity <? NET_DNS_HEADER_SIZE + 5 then Some (-1, packet)
      else
        p ← zero_in p 0 NET_DNS_HEADER_SIZE;
        p ← put16 p 0 id; p ← put8 p 2 1; p ← put8 p 5 1;
        '(rc, p, pos, label_len) ← query_labels (length s) s capacity p 0 NET_DNS_HEADER_SIZE 0;
        if negb (rc =? 0) then Some (rc, Some p)
        else if (label_len =? 0) || (capacity <? u32 (pos + 5)) then Some (-4, Some p)
        else
          p ← put8 p pos 0; let pos := u32 (pos + 1) in
          p ← put16 p pos NET_DNS_TYPE_A; let pos := u32 (pos + 2) in
          p ← put16 p pos NET_DNS_CLASS_IN; let pos := u32 (pos + 2) in
          Some (pos, Some p)
  | _, _ => Some (-1, packet)
  end.

(** The name of a question: position behind its last label, or -3. *)
Fixpoint question_name (fuel : nat) (p : bytes) (length pos guard : Z) : option Z :=
  if negb (pos <? length) then Some pos
  else
    n ← get8 p pos;
    if (n =? 0) || negb (guard <? length) then Some pos
    else match fuel with
    | O => None
    | S fuel =>
        let pos := u32 (pos + 1) in
        if negb (Z.land n 192 =? 0) || (63 <? n) || (length <? u32 (pos + n)) then Some (-3)
        else question_name fuel p length (u32 (pos + n)) (u32 (guard + 1))
    end.

(** [for (i = 0; i < qd; ++i) { ... }] *)
Fixpoint questions (qd : nat) (p : bytes) (length pos : Z) : option Z :=
  match qd with
  | O => Some pos
  | S qd =>
      pos ← question_name (Z.to_nat length) p length pos 0;
      if pos <? 0 then Some pos
      else if (length <=? pos) || (length <? u32 (u32 (pos + 1) + 4)) then Some (-3)
      else questions qd p length (u32 (u32 (pos + 1) + 4))
  end.

(** The owner name of an answer that is not compressed: position behind its
    labels, or -4. *)
Fixpoint answer_name (fuel : nat) (p : bytes) (length pos : Z) : option Z :=
  if negb (pos <? length) then Some pos
  else
    n ← get8 p pos;
    if n =? 0 then Some pos
    else match fuel with
    | O => None
    | S fuel =>
        let pos := u32 (pos + 1) in
        if (63 <? n) || (length <? u32 (pos + n)) then Some (-4)
        else answer_name fuel p length (u32 (pos + n))
    end.

(** [for (i = 0; i < an; ++i) { ... }] and the final [return -5]. *)
Fixpoint answers (an : nat) (p : bytes) (length pos expected_id : Z) (out : net_dns_a_result_t)
    : option (Z * net_dns_a_result_t) :=
  match an with
  | O => Some (-5, out)
  | S an =>
      if length <? u32 (pos + 12) then Some (-4, out)
      else
        b ← get8 p pos;
        pos ← (if Z.land b 192 =? 192 then Some (u32 (pos + 2))
               else
                 pos ← answer_name (Z.to_nat length) p length pos;
                 Some (if pos <? 0 then pos else if length <=? pos then -4 else u32 (pos + 1)));
        if pos <? 0 then Some (-4, out)
        else if length <? u32 (pos + 10) then Some (-4, out)
        else
          type ← get16 p pos; class_code ← get16 p (pos + 2); rdlen ← get16 p (pos + 8);
          let pos := u32 (pos + 10) in
          if length <? u32 (pos + rdlen) then Some (-4, out)
          else if (type =? NET_DNS_TYPE_A) && (class_code =? NET_DNS_CLASS_IN) && (rdlen =? 4)
          then a ← ld_bytes p pos 4; Some (0, mk_dns_result expected_id a)
          else answers an p length (u32 (pos + rdlen)) expected_id out
  end.

Definition net_dns_parse_a_response (packet : ptr bytes) (length expected_id : Z) (out : ptr net_dns_a_result_t)
    : option (Z * ptr net_dns_a_result_t) :=
  match packet, out with
  | Some p, Some o =>
      if length <? NET_DNS_HEADER_SIZE then Some (-1, out)
      else
        id ← get16 p 0; f2 ← get8 p 2; f3 ← get8 p 3;
        if negb (id =? expected_id) || (Z.land f2 128 =? 0) || negb (Z.land f3 15 =? 0) then Some (-1, out)
        else
          qd ← get16 p 4; an ← get16 p 6;
          if (qd =? 0) || (an =? 0) then Some (-2, out)
          else
            pos ← questions (Z.to_nat qd) p length NET_DNS_HEADER_SIZE;
            if pos <? 0 then Some (pos, out)
            else
              '(rc, o) ← answers (Z.to_nat an) p length pos expected_id o;
              Some (rc, Some o)
  | _, _ => Some (-1, out)
  end.

(** ** Safety of the parser *)
Lemma question_name_safe p len fuel pos guard :
  packet_ok p len -> 0 <= pos <= len -> (Z.to_nat (len - pos) <= fuel)%nat ->
  exists r, question_name fuel p len pos guard = Some r /\ (r = -3 \/ pos <= r <= len).
Proof.
  intros (Hp & Hl & Hmax). revert pos guard.
  induction fuel as [|fuel IH]; intros pos guard Hpos Hf; cbn [question_name];
    destruct (Z.ltb_spec pos len); cbn [negb]; try lia; try (eexists; split; [done|lia]).
  destruct (get8_u8 p pos) as (n & -> & Hn); [done|lia..|]. cbn [mbind option_bind]. unfold is_u8 in Hn.
  case_if; [eexists; split; [done|lia]|]. rewrite (u32_id (pos + 1)) by (unfold is_u32; lia).
  rewrite !(u32_id (pos + 1 + n)) by (unfold is_u32; lia).
  case_if; [by eexists; split; [|left]|]. bsimp.
  destruct (IH (pos + 1 + n) (u32 (guard + 1))) as (r & -> & Hr); [lia..|]. eexists. split; [done|lia].
Qed.

Lemma questions_safe p len qd pos :
  packet_ok p len -> 0 <= pos <= len ->
  exists r, questions qd p len pos = Some r /\ (r = -3 \/ pos <= r <= len).
Proof.
  intros Hok. revert pos. induction qd as [|qd IH]; intros pos Hpos; cbn [questions]; [eexists; split; [done|lia]|].
  destruct (question_name_safe p len (Z.to_nat len) pos 0) as (r & -> & Hr); [done|lia|lia|]. cbn [mbind option_bind].
  destruct Hok as (_ & _ & Hmax).
  case_if; [eexists; split; [done|lia]|]. rewrite !(u32_id (r + 1)) by (unfold is_u32; lia).
  rewrite !(u32_id (r + 1 + 4)) by (unfold is_u32; lia).
  case_if; [by eexists; split; [|left]|]. bsimp.
  destruct (IH (r + 1 + 4)) as (r' & -> & Hr'); [lia|]. eexists. split; [done|lia].
Qed.

Lemma answer_name_safe p len fuel pos :
  packet_ok p len -> 0 <= pos <= len -> (Z.to_nat (len - pos) <= fuel)%nat ->
  exists r, answer_name fuel p len pos = Some r /\ (r = -4 \/ pos <= r <= len).
Proof.
  intros (Hp & Hl & Hmax). revert pos.
  induction fuel as [|fuel IH]; intros pos Hpos Hf; cbn [answer_name];
    destruct (Z.ltb_spec pos len); cbn [negb]; try lia; try (eexists; split; [done|lia]).
  destruct (get8_u8 p pos) as (n & -> & Hn); [done|lia..|]. cbn [mbind option_bind]. unfold is_u8 in Hn.
  case_if; [eexists; split; [done|lia]|]. rewrite (u32_id (pos + 1)) by (unfold is_u32; lia).
  rewrite !(u32_id (pos + 1 + n)) by (unfold is_u32; lia).
  case_if; [by eexists; split; [|left]|]. bsimp.
  destruct (IH (pos + 1 + n)) as (r & -> & Hr); [lia..|]. eexists. split; [done|lia].
Qed.

Lemma answers_safe p len an pos id out :
  packet_ok p len -> 0 <= pos <= len ->
  exists rc o, answers an p len pos id out = Some (rc, o) /\ (rc <> 0 -> o = out) /\
    (rc = 0 -> dns_id o = id /\ blen (dns_address o) = 4).
Proof.
  intros Hok. pose proof Hok as (Hp & Hl & Hmax). revert pos.
  induction an as [|an IH]; intros pos Hpos; cbn [answers]; [by do 2 eexists|].
  rewrite (u32_id (pos + 12)) by (unfold is_u32; lia). case_if; [by do 2 eexists|].
  destruct (get8_u8 p pos) as (b & -> & _); [done|lia..|]. cbn [mbind option_bind].
  assert (Hnext : exists q, (if Z.land b 192 =? 192 then Some (u32 (pos + 2))
     else pos ← answer_name (Z.to_nat len) p len pos;
          Some (if pos <? 0 then pos else if len <=? pos then -4 else u32 (pos + 1))) = Some q /\ (q = -4 \/ 0 <= q <= len)).
  { case_if; [rewrite (u32_id (pos + 2)) by (unfold is_u32; lia); eexists; split; [done|lia]|].
    destruct (answer_name_safe p len (Z.to_nat len) pos) as (r & -> & Hr); [done|lia|lia|]. cbn [mbind option_bind].
    eexists. split; [done|]. case_if; [lia|]. case_if; [by left|]. rewrite u32_id by (unfold is_u32; lia). lia. }
  destruct Hnext as (q & -> & Hq). cbn [mbind option_bind].
  case_if; [by do 2 eexists|]. rewrite !(u32_id (q + 10)) by (unfold is_u32; lia). case_if; [by do 2 eexists|].
  destruct (get16_u16 p q) as (ty & -> & _); [done|lia..|].
  destruct (get16_u16 p (q + 2)) as (cl & -> & _); [done|lia..|].
  destruct (get16_u16 p (q + 8)) as (rd & -> & Hrd); [done|lia..|]. cbn [mbind option_bind]. unfold is_u16 in Hrd.
  rewrite !(u32_id (q + 10 + rd)) by (unfold is_u32; lia). case_if; [by do 2 eexists|].
  case_if; [|apply IH; lia]. bsimp.
  destruct (slice_exists p (q + 10) 4) as (a & -> & Ha); [lia..|]. by do 2 eexists.
Qed.

Lemma dns_parse_safe p len id out :
  packet_ok p len ->
  exists rc o, net_dns_parse_a_response (Some p) len id (Some out) = Some (rc, Some o) /\ (rc <> 0 -> o = out) /\
    (rc = 0 -> dns_id o = id /\ blen (dns_address o) = 4).
Proof.
  intros Hok. pose proof Hok as (Hp & Hl & Hmax). unfold net_dns_parse_a_response, NET_DNS_HEADER_SIZE.
  case_if; [by do 2 eexists|].
  destruct (get16_u16 p 0) as (i & -> & _); [done|lia..|]. destruct (get8_u8 p 2) as (f2 & -> & _); [done|lia..|].
  destruct (get8_u8 p 3) as (f3 & -> & _); [done|lia..|]. cbn [mbind option_bind]. case_if; [by do 2 eexists|].
  destruct (get16_u16 p 4) as (qd & -> & _); [done|lia..|]. destruct (get16_u16 p 6) as (an & -> & _); [done|lia..|].
  cbn [mbind option_bind]. case_if; [by do 2 eexists|].
  destruct (questions_safe p len (Z.to_nat qd) 12) as (r & -> & Hr); [done|lia|]. cbn [mbind option_bind].
  case_if; [do 2 eexists; split; [done|]; split; [done|lia]|].
  destruct (answers_safe p len (Z.to_nat an) r id out) as (rc & o & -> & Ho); [done|lia|]. by do 2 eexists.
Qed.

(** ** Query and answer *)

(** A host name as its labels, as the user writes it and on the wire. *)
Definition label_ok (l : bytes) : Prop :=
  1 <= blen l <= 63 /\ Forall (fun c => 1 <= c < 256 /\ c <> 46) l.

Fixpoint dotted (labels : list bytes) : bytes :=
  match labels with
  | [] => []
  | [l] => l
  | l :: labels => l ++ 46 :: dotted labels
  end.

Definition encode_name (labels : list bytes) : bytes := flat_map (fun l => blen l :: l) labels.

Definition question (labels : list bytes) : bytes := encode_name labels ++ [0; 0; 1; 0; 1].

Lemma chr_label l i : label_ok l -> 0 <= i < blen l -> chr l i <> 0 /\ chr l i <> 46.
Proof.
  intros [_ Hl] Hi. unfold chr, blen in *.
  destruct (lookup_lt_is_Some_2 l (Z.to_nat i)) as [c Hc]; [lia|]. rewrite Hc. cbn.
  pose proof (Forall_lookup_1 _ _ _ _ Hl Hc) as H. cbn beta in H. lia.
Qed.

(** What may follow a label: the end of the name or a dot. *)
Definition stops (t : bytes) : Prop := chr t 0 = 0 \/ chr t 0 = 46.

Lemma label_scan_ok pre l t fuel n :
  label_ok l -> stops t -> 0 <= n <= blen l -> (Z.to_nat (blen l - n) <= fuel)%nat ->
  label_scan fuel (pre ++ l ++ t) (blen pre) n = Some (blen l).
Proof.
  intros Hl Ht. revert n. induction fuel as [|fuel IH]; intros n Hn Hf; cbn [label_scan];
    rewrite (chr_app_r pre _ _ n) by (done || lia);
    destruct (Z.eq_dec n (blen l)) as [->|Hne]; try lia.
  1, 2: rewrite (chr_app_r l t _ 0) by lia; destruct Ht as [-> | ->]; by cbn.
  rewrite chr_app_l by lia. destruct (chr_label l n Hl) as [H0 H46]; [lia|].
  rewrite !(proj2 (Z.eqb_neq _ _)) by done. cbn [negb andb]. destruct Hl as [Hl _].
  rewrite (proj2 (Z.leb_gt _ _)) by lia. apply IH; lia.
Qed.

Lemma blen_cons x (b : bytes) : blen (x :: b) = 1 + blen b.
Proof. unfold blen. cbn [length]. lia. Qed.

Lemma stops_dotted labels : stops (match labels with [] => [] | _ => 46 :: dotted labels end).
Proof. destruct labels; [by left|by right]. Qed.

Lemma dotted_cons l labels :
  dotted (l :: labels) = l ++ match labels with [] => [] | _ => 46 :: dotted labels end.
Proof. destruct labels; cbn; [by rewrite app_nil_r|done]. Qed.

Lemma query_labels_ok labels fuel pre rest spre capacity ll :
  Forall label_ok labels -> labels <> [] -> (length labels <= fuel)%nat ->
  capacity <= blen pre + blen rest -> blen pre + blen (encode_name labels) + 5 <= capacity -> capacity < 4294967296 ->
  exists last, 1 <= last /\
  query_labels fuel (spre ++ dotted labels) capacity (pre ++ rest) (blen spre) (blen pre) ll =
    Some (0, (pre ++ encode_name labels) ++ drop (length (encode_name labels)) rest,
          blen pre + blen (encode_name labels), last).
Proof.
  intros Hok. revert fuel pre rest spre ll.
  induction Hok as [|l labels Hl Hok IH]; intros fuel pre rest spre ll Hne Hf Hc Hfit Hmax; [done|].
  destruct fuel as [|fuel]; [cbn in Hf; lia|]. clear Hne.
  assert (Hll : 1 <= blen l <= 63) by apply Hl.
  cbn [encode_name flat_map] in *. fold (encode_name labels) in *. rewrite !blen_app, !blen_cons in Hfit.
  assert (Hpos : 0 <= blen pre /\ 0 <= blen (encode_name labels)) by (unfold blen; lia).
  cbn [query_labels]. rewrite dotted_cons.
  set (t := match labels with [] => [] | _ => 46 :: dotted labels end).
  rewrite (chr_app_r spre _ _ 0) by lia. rewrite chr_app_l by lia.
  rewrite (proj2 (Z.eqb_neq (chr l 0) 0)) by (apply (chr_label l 0 Hl); lia).
  rewrite label_scan_ok by (done || lia || apply stops_dotted). cbn [mbind option_bind].
  rewrite (proj2 (Z.ltb_ge (blen l) 0)) by lia.
  rewrite !(u32_id (blen pre + 1)) by (unfold is_u32; lia).
  rewrite (u32_id (blen pre + 1 + blen l + 1 + 4)) by (unfold is_u32; lia).
  rewrite (proj2 (Z.ltb_ge capacity _)) by lia.
  rewrite (u32_id (blen pre + 1 + blen l)) by (unfold is_u32; lia).
  unfold put8. rewrite st_next; [|done|rewrite blen_one; lia]. cbn [mbind option_bind length].
  rewrite (ld_bytes_at spre l t) by done. cbn [mbind option_bind].
  rewrite st_next; [|rewrite blen_app, blen_one; lia|unfold blen in *; rewrite length_drop; lia]. cbn [mbind option_bind].
  rewrite (u8_id (blen l)) by (unfold is_u8; lia). rewrite drop_drop.
  rewrite (chr_app_r spre _ _ (blen l)), (chr_app_r l t _ 0) by lia.
  assert (Epre : blen pre + 1 + blen l = blen ((pre ++ [blen l]) ++ l))
    by (rewrite !blen_app, blen_one; lia).
  destruct labels as [|l2 labels].
  - subst t. change (chr [] 0 =? 46) with false. rewrite app_nil_r.
    exists (blen l). split; [lia|]. cbn [encode_name flat_map] in *. rewrite app_nil_r.
    assert (Hend : chr (spre ++ l) (blen spre + blen l) = 0).
    { rewrite <- blen_app. unfold chr, blen. by rewrite lookup_ge_None_2 by lia. }
    rewrite blen_cons, <- (app_assoc pre [blen l] l), Z.add_assoc.
    destruct fuel; cbn [query_labels]; by rewrite Hend.
  - change (chr t 0 =? 46) with true. cbn match.
    destruct (IH fuel ((pre ++ [blen l]) ++ l) (drop (1 + length l) rest) ((spre ++ l) ++ [46]) (blen l))
      as (last & Hlast & E); [done|cbn [length] in *; lia|..|lia|].
    { rewrite <- Epre. unfold blen in *. rewrite length_drop. lia. }
    { rewrite <- Epre. lia. }
    exists last. split; [done|]. rewrite !blen_app, !blen_one in E.
    replace (spre ++ l ++ t) with (((spre ++ l) ++ [46]) ++ dotted (l2 :: labels)) by (rewrite <- !app_assoc; done).
    rewrite E. clear E.
    match goal with |- Some (_, ?x, ?y, _) = Some (_, ?x', ?y', _) =>
      replace x with x'; [replace y with y'; [done|]|] end.
    + rewrite !blen_app, ?blen_cons. lia.
    + rewrite drop_drop. cbn [app]. rewrite <- !app_assoc. cbn [app length]. rewrite length_app. by rewrite <- app_assoc.
Qed.

Lemma dotted_length labels : Forall label_ok labels -> (length labels <= length (dotted labels))%nat.
Proof.
  induction 1 as [|l labels Hl _ IH]; [done|]. rewrite dotted_cons. destruct Hl as [Hl _]. unfold blen in Hl.
  destruct labels as [|l2 labels]; cbn [length] in *; rewrite length_app; cbn [length] in *; lia.
Qed.

Lemma build_query_ok p labels id capacity :
  Forall label_ok labels -> labels <> [] -> is_u16 id -> capacity <= blen p -> capacity < 4294967296 ->
  17 + blen (encode_name labels) <= capacity ->
  net_dns_build_a_query (Some p) capacity id (Some (dotted labels)) =
    Some (17 + blen (encode_name labels),
          Some (be16 id ++ [1; 0; 0; 1; 0; 0; 0; 0; 0; 0] ++ question labels ++
                drop (Z.to_nat (17 + blen (encode_name labels))) p)).
Proof.
  intros Hok Hne Hid Hc Hmax Hfit. unfold net_dns_build_a_query, NET_DNS_HEADER_SIZE.
  assert (Hpos : 0 <= blen (encode_name labels)) by (unfold blen; lia).
  rewrite (proj2 (Z.ltb_ge _ _)) by lia. rewrite zero_start by lia. cbn [mbind option_bind].
  change (replicate (Z.to_nat 12) 0) with (repeat 0 12). cbn [repeat]. unfold put8, put16.
  do 3 (rewrite st_prefix by (unfold blen; cbn [length be16]; lia); cbn [mbind option_bind]; eval_patch).
  match goal with |- context [query_labels _ _ _ (?h ++ ?r) _ _ _] =>
    destruct (query_labels_ok labels (length (dotted labels)) h r [] capacity 0) as (last & Hlast & E); try done end.
  { by apply dotted_length. }
  { unfold blen in *. rewrite length_drop. cbn [length]. lia. }
  { change (blen (_ :: _)) with 12. lia. }
  change (blen []) with 0 in E. change (blen (u8 (id / 256) :: _)) with 12 in E.
  change ([] ++ dotted labels) with (dotted labels) in E.
  rewrite E. clear E. cbn [mbind option_bind Z.eqb negb].
  rewrite (proj2 (Z.eqb_neq last 0)), (u32_id (12 + blen (encode_name labels) + 5)) by (unfold is_u32; lia).
  rewrite (proj2 (Z.ltb_ge _ _)) by lia. cbn [orb].
  rewrite !(u32_id (12 + blen (encode_name labels) + 1)) by (unfold is_u32; lia).
  rewrite !(u32_id (12 + blen (encode_name labels) + 1 + 2)) by (unfold is_u32; lia).
  rewrite !(u32_id (12 + blen (encode_name labels) + 1 + 2 + 2)) by (unfold is_u32; lia).
  set (e := encode_name labels) in *.
  assert (Hrest : blen (drop (Z.to_nat 12) p) = blen p - 12) by (unfold blen in *; rewrite length_drop; lia).
  assert (Hd : drop (Z.to_nat (17 + blen e)) p = drop 5 (drop (length e) (drop (Z.to_nat 12) p)))
    by (rewrite !drop_drop; f_equal; unfold blen; lia).
  rewrite Hd. generalize dependent (drop (Z.to_nat 12) p). intros r Hrest _.
  do 3 (rewrite st_next; cbn [mbind option_bind length be16];
    [|rewrite ?blen_app, ?blen_be16, ?blen_one; repeat change (blen (_ :: _)) with 12; lia
     |revert Hrest Hfit Hc; unfold blen; rewrite ?length_drop; cbn [length be16]; lia]).
  unfold question. fold e. replace (12 + blen e + 1 + 2 + 2) with (17 + blen e) by lia.
  rewrite !drop_drop, <- !app_assoc. done.
Qed.

(** *** Answers *)
Record dns_record := mk_record { rr_type : Z; rr_class : Z; rr_ttl : bytes; rr_data : bytes }.

(** A resource record whose owner name is the compressed name of the question. *)
Definition encode_record (r : dns_record) : bytes :=
  [192; 12] ++ be16 (rr_type r) ++ be16 (rr_class r) ++ rr_ttl r ++ be16 (blen (rr_data r)) ++ rr_data r.

Definition record_ok (r : dns_record) : Prop :=
  is_u16 (rr_type r) /\ is_u16 (rr_class r) /\ length (rr_ttl r) = 4%nat /\ is_u16 (blen (rr_data r)).

Definition is_address (r : dns_record) : bool :=
  (rr_type r =? NET_DNS_TYPE_A) && (rr_class r =? NET_DNS_CLASS_IN) && (blen (rr_data r) =? 4).

(** The address the client takes: the first IPv4 address record. *)
Fixpoint first_address (rs : list dns_record) : option bytes :=
  match rs with
  | [] => None
  | r :: rs => if is_address r then Some (rr_data r) else first_address rs
  end.

Definition reply (id : Z) (labels : list bytes) (rs : list dns_record) : bytes :=
  (be16 id ++ [129; 128] ++ be16 1 ++ be16 (Z.of_nat (length rs)) ++ [0; 0; 0; 0]) ++
  question labels ++ flat_map encode_record rs.

Lemma question_name_ok labels pre rest p len fuel guard :
  p = pre ++ encode_name labels ++ 0 :: rest -> Forall label_ok labels ->
  blen pre + blen (encode_name labels) + 1 <= len -> len < 2147483648 ->
  (length (encode_name labels) <= fuel)%nat -> 0 <= guard -> guard + blen (encode_name labels) < len ->
  question_name fuel p len (blen pre) guard = Some (blen pre + blen (encode_name labels)).
Proof.
  intros Hp Hok. revert pre fuel guard Hp.
  induction Hok as [|l labels Hl Hok IH]; intros pre fuel guard Hp Hlen Hmax Hf Hg Hgl.
  - cbn [encode_name flat_map app] in *. change (blen []) with 0 in *.
    destruct fuel; cbn [question_name]; rewrite (proj2 (Z.ltb_lt (blen pre) len)) by lia; cbn [negb];
      rewrite Hp; unfold get8; rewrite (ld_skip pre _ (blen pre) 0), Z.add_0_r by lia; reflexivity.
  - cbn [encode_name flat_map] in *. fold (encode_name labels) in *. destruct Hl as [Hl _].
    rewrite !blen_app, !blen_cons in Hlen, Hgl |- *. rewrite !length_app in Hf. cbn [length] in Hf.
    assert (Hpos : 0 <= blen pre /\ 0 <= blen (encode_name labels)) by (unfold blen; lia).
    destruct fuel as [|fuel]; [lia|]. cbn [question_name].
    rewrite (proj2 (Z.ltb_lt (blen pre) len)) by lia. cbn [negb].
    assert (E : get8 p (blen pre) = Some (blen l)).
    { rewrite Hp. unfold get8. by rewrite (ld_skip pre _ (blen pre) 0) by lia. }
    rewrite E. cbn [mbind option_bind]. rewrite (proj2 (Z.eqb_neq (blen l) 0)) by lia.
    rewrite (proj2 (Z.ltb_lt guard len)) by lia. cbn [negb orb].
    rewrite (u32_id (blen pre + 1)) by (unfold is_u32; lia).
    rewrite !(u32_id (blen pre + 1 + blen l)) by (unfold is_u32; lia).
    rewrite (u32_id (guard + 1)) by (unfold is_u32; lia).
    replace (Z.land (blen l) 192 =? 0) with true.
    2: { symmetry. apply Z.eqb_eq. change 192 with (Z.shiftl 3 6). apply Z.bits_inj'. intros k Hk.
         rewrite Z.land_spec, Z.bits_0, Z.shiftl_spec by lia. destruct (Z.lt_ge_cases k 6).
         - rewrite (Z.testbit_neg_r 3) by lia. apply andb_false_r.
         - rewrite (bits_above 6 (blen l) k) by (change (2 ^ 6) with 64; lia). done. }
    rewrite !(proj2 (Z.ltb_ge _ _)) by lia. cbn [negb orb].
    replace (blen pre + 1 + blen l) with (blen (pre ++ blen l :: l)) by (rewrite blen_app, blen_cons; lia).
    rewrite IH; [|rewrite Hp, <- !app_assoc; done|rewrite blen_app, blen_cons; lia|done|unfold blen in *; lia|lia|lia].
    f_equal. rewrite blen_app, blen_cons. lia.
Qed.

Lemma answers_ok rs pre junk p len id out :
  p = pre ++ flat_map encode_record rs ++ junk -> Forall record_ok rs ->
  blen pre + blen (flat_map encode_record rs) <= len -> len < 2147483648 ->
  answers (length rs) p len (blen pre) id out =
    match first_address rs with
    | Some a => Some (0, mk_dns_result id a)
    | None => Some (-5, out)
    end.
Proof.
  intros Hp Hok. revert pre Hp. induction Hok as [|r rs Hr Hok IH]; intros pre Hp Hlen Hmax; [done|].
  cbn [flat_map length answers first_address] in *. destruct Hr as (Ht & Hc & Hl & Hd).
  destruct r as [ty cl ttl rd]. unfold is_address. cbn [rr_type rr_class rr_ttl rr_data] in *.
  set (tail := flat_map encode_record rs ++ junk) in *.
  assert (Hrec : blen (encode_record (mk_record ty cl ttl rd)) = 12 + blen rd).
  { unfold encode_record, blen. cbn [rr_type rr_class rr_ttl rr_data]. rewrite !length_app, Hl. cbn [length be16]. lia. }
  rewrite blen_app, Hrec in Hlen.
  assert (Hpos : 0 <= blen pre /\ 0 <= blen (flat_map encode_record rs) /\ 0 <= blen rd) by (unfold blen; lia).
  assert (Ep : p = pre ++ ([192; 12] ++ be16 ty ++ be16 cl ++ ttl ++ be16 (blen rd)) ++ rd ++ tail).
  { rewrite Hp. unfold encode_record, tail. cbn [rr_type rr_class rr_ttl rr_data]. by rewrite <- !app_assoc. }
  destruct (bytes4 _ Hl) as (t0 & t1 & t2 & t3 & ->).
  assert (Eh : forall v off, 0 <= off -> off + 2 <= 12 ->
    un_be16 (take 2 (drop (Z.to_nat off) ([192; 12] ++ be16 ty ++ be16 cl ++ [t0; t1; t2; t3] ++ be16 (blen rd)))) = v ->
    get16 p (blen pre + off) = Some v).
  { intros v off H1 H2 <-. unfold get16. rewrite Ep, (ld_bytes_skip pre _ _ _ off), ld_bytes_prefix by
      (done || lia || (unfold blen; cbn [length be16 app]; lia)). done. }
  assert (E2 : get16 p (blen pre + 2) = Some ty) by (apply Eh; [lia|lia|]; unfold be16; cbn [app]; eval_slices; unfold u8, is_u16 in *; zlia).
  assert (E4 : get16 p (blen pre + 2 + 2) = Some cl).
  { replace (blen pre + 2 + 2) with (blen pre + 4) by lia. apply Eh; [lia|lia|]; unfold be16; cbn [app]; eval_slices; unfold u8, is_u16 in *; zlia. }
  assert (E10 : get16 p (blen pre + 2 + 8) = Some (blen rd)).
  { replace (blen pre + 2 + 8) with (blen pre + 10) by lia. apply Eh; [lia|lia|]; unfold be16; cbn [app]; eval_slices; unfold u8, is_u16 in *; zlia. }
  assert (E0 : get8 p (blen pre) = Some 192).
  { rewrite Ep. unfold get8. by rewrite (ld_skip pre _ (blen pre) 0) by lia. }
  assert (Ed : blen rd = 4 -> ld_bytes p (blen pre + 2 + 10) 4 = Some rd).
  { intros H4. rewrite Ep, (ld_bytes_skip pre _ _ _ 12) by lia. by apply ld_bytes_at. }
  unfold is_u16 in Hd. rewrite !(u32_id (blen pre + 12)), !(u32_id (blen pre + 2)) by (unfold is_u32; lia).
  rewrite (proj2 (Z.ltb_ge len _)) by lia. rewrite E0. cbn [mbind option_bind].
  change (Z.land 192 192 =? 192) with true. cbn [mbind option_bind].
  rewrite (proj2 (Z.ltb_ge (blen pre + 2) 0)) by lia.
  rewrite !(u32_id (blen pre + 2 + 10)) by (unfold is_u32; lia). rewrite (proj2 (Z.ltb_ge len _)) by lia.
  rewrite E2, E4, E10. cbn [mbind option_bind].
  rewrite !(u32_id (blen pre + 2 + 10 + blen rd)) by (unfold is_u32; lia). rewrite (proj2 (Z.ltb_ge len _)) by lia.
  destruct ((ty =? NET_DNS_TYPE_A) && (cl =? NET_DNS_CLASS_IN) && (blen rd =? 4)) eqn:E.
  - bsimp. by rewrite Ed.
  - replace (blen pre + 2 + 10 + blen rd) with (blen (pre ++ encode_record (mk_record ty cl [t0; t1; t2; t3] rd)))
      by (rewrite blen_app, Hrec; lia).
    apply IH; [rewrite Hp; by rewrite <- !app_assoc|rewrite blen_app, Hrec; lia|done].
Qed.

Lemma reply_reads id labels rs junk :
  is_u16 id -> is_u16 (Z.of_nat (length rs)) ->
  let p := reply id labels rs ++ junk in
  get16 p 0 = Some id /\ get8 p 2 = Some 129 /\ get8 p 3 = Some 128 /\ get16 p 4 = Some 1 /\
  get16 p 6 = Some (Z.of_nat (length rs)).
Proof.
  intros Hid Hn p. subst p. unfold reply. rewrite <- app_assoc. unfold get16, get8.
  rewrite !ld_bytes_prefix by (unfold blen; cbn [length be16 app]; lia).
  rewrite !ld_prefix by (unfold blen; cbn [length be16 app]; lia).
  split; [|split; [done|split; [done|split; [done|]]]];
    unfold be16; cbn [app]; eval_slices; apply (f_equal Some); unfold u8, is_u16 in *; zlia.
Qed.

(** Resolving a name: for every host name of labels of 1 to 63 bytes that fits
    the buffer, [net_dns_build_a_query] writes the header with the transaction
    number and the recursion flag and the question for its IPv4 address, exactly as
    RFC 1035 encodes it, and nothing behind it; and [net_dns_parse_a_response] of a
    server's reply to that question, with any number of records of any type, gives
    the first IPv4 address among them, or -5 when there is none, leaving the result
    untouched. *)
Theorem dns_exchange :
  forall (p junk : bytes) (labels : list bytes) (rs : list dns_record) (id capacity len : Z) (out : net_dns_a_result_t),
    Forall label_ok labels -> labels <> [] -> is_u16 id -> capacity <= blen p -> capacity < 4294967296 ->
    17 + blen (encode_name labels) <= capacity ->
    rs <> [] -> is_u16 (Z.of_nat (length rs)) -> Forall record_ok rs ->
    blen (reply id labels rs) <= len -> len < 2147483648 ->
    net_dns_build_a_query (Some p) capacity id (Some (dotted labels)) =
      Some (17 + blen (encode_name labels),
            Some (be16 id ++ [1; 0; 0; 1; 0; 0; 0; 0; 0; 0] ++ question labels ++
                  drop (Z.to_nat (17 + blen (encode_name labels))) p)) /\
    net_dns_parse_a_response (Some (reply id labels rs ++ junk)) len id (Some out) =
      match first_address rs with
      | Some a => Some (0, Some (mk_dns_result id a))
      | None => Some (-5, Some out)
      end.
Proof.
  intros p junk labels rs id capacity len out Hlab Hne Hid Hc Hmax Hfit Hrs Hn Hok Hlen Hl31.
  split; [by apply build_query_ok|].
  destruct (reply_reads id labels rs junk Hid Hn) as (R0 & R2 & R3 & R4 & R6).
  set (hdr := be16 id ++ [129; 128] ++ be16 1 ++ be16 (Z.of_nat (length rs)) ++ [0; 0; 0; 0]).
  assert (Hh : blen hdr = 12) by done.
  assert (Er : reply id labels rs ++ junk =
    hdr ++ encode_name labels ++ 0 :: [0; 1; 0; 1] ++ flat_map encode_record rs ++ junk).
  { unfold reply, question. fold hdr. by rewrite <- !app_assoc. }
  assert (El : blen (reply id labels rs) = 17 + blen (encode_name labels) + blen (flat_map encode_record rs)).
  { unfold reply, question. fold hdr. rewrite !blen_app, Hh. change (blen [0; 0; 1; 0; 1]) with 5. lia. }
  assert (Hpos : 0 <= blen (encode_name labels) /\ 0 <= blen (flat_map encode_record rs)) by (unfold blen; lia).
  unfold net_dns_parse_a_response, NET_DNS_HEADER_SIZE. rewrite (proj2 (Z.ltb_ge len 12)) by lia.
  rewrite R0, R2, R3, R4, R6. cbn [mbind option_bind]. rewrite Z.eqb_refl.
  change (negb true || (Z.land 129 128 =? 0) || negb (Z.land 128 15 =? 0)) with false.
  assert (Hn0 : Z.of_nat (length rs) <> 0) by (destruct rs; [done|cbn; lia]).
  change (1 =? 0) with false. rewrite (proj2 (Z.eqb_neq (Z.of_nat (length rs)) 0)) by done. cbn [orb].
  change (Z.to_nat 1) with 1%nat. cbn [questions]. rewrite <- Hh at 1.
  rewrite (question_name_ok labels hdr _ _ len _ 0 Er); try done; try lia; [|unfold blen in *; lia].
  rewrite Hh. cbn [mbind option_bind]. rewrite (proj2 (Z.ltb_ge (12 + blen (encode_name labels)) 0)) by lia.
  rewrite !(u32_id (12 + blen (encode_name labels) + 1)) by (unfold is_u32; lia).
  rewrite !(u32_id (12 + blen (encode_name labels) + 1 + 4)) by (unfold is_u32; lia).
  rewrite (proj2 (Z.leb_gt len _)), (proj2 (Z.ltb_ge len _)) by lia. cbn [orb mbind option_bind].
  rewrite (proj2 (Z.ltb_ge (12 + blen (encode_name labels) + 1 + 4) 0)) by lia. rewrite Nat2Z.id.
  replace (12 + blen (encode_name labels) + 1 + 4) with (blen (hdr ++ question labels))
    by (unfold question; rewrite !blen_app, Hh; change (blen [0; 0; 1; 0; 1]) with 5; lia).
  rewrite (answers_ok rs (hdr ++ question labels) junk); try done.
  - by destruct (first_address rs).
  - unfold reply. fold hdr. by rewrite <- !app_assoc.
  - unfold question. rewrite !blen_app, Hh. change (blen [0; 0; 1; 0; 1]) with 5. lia.
Qed.

Definition demo_labels : list bytes := [[97; 98]; [99]].
Definition demo_records : list dns_record :=
  [mk_record 5 1 [0; 0; 0; 60] [1; 120; 0]; mk_record 1 1 [0; 0; 0; 60] [93; 184; 216; 34]].

Lemma demo_labels_ok : Forall label_ok demo_labels.
Proof. repeat constructor; vm_compute; discriminate. Qed.

Lemma demo_records_ok : Forall record_ok demo_records.
Proof. repeat constructor; vm_compute; discriminate. Qed.

Example dns_exchange_witness :
  net_dns_parse_a_response (Some (reply 7 demo_labels demo_records ++ [])) 60 7 (Some (mk_dns_result 0 []))
    = Some (0, Some (mk_dns_result 7 [93; 184; 216; 34])).
Proof.
  refine (proj2 (dns_exchange (replicate 64 0) [] demo_labels demo_records 7 64 60 (mk_dns_result 0 [])
    demo_labels_ok _ _ _ _ _ _ _ demo_records_ok _ _));
    first [discriminate | vm_compute; reflexivity | vm_compute; discriminate | split; vm_compute; [discriminate|reflexivity]].
Defined.
