(* ===== verification/NetTcp.v ===== *)
(** * TCP segments and connections: kernel/net_tcp.c

    Segment headers, the checksum over the pseudo header, the connection state
    machine, the classification of received segments, retransmission budgets and
    the retransmission timer.  The functions of the file that carry TLS records are
    not modelled here. *)

From Stdlib Require Import ZArith Lia.
From stdpp Require Import base numbers option tactics list.
From S2P Require Import Prelude Bytes NetBuf NetSum.

Definition NET_TCP_HEADER_SIZE : Z := 20.
Definition NET_TCP_PROTOCOL : Z := 6.
Definition NET_TCP_FLAG_FIN : Z := 1.
Definition NET_TCP_FLAG_SYN : Z := 2.
Definition NET_TCP_FLAG_RST : Z := 4.
Definition NET_TCP_FLAG_ACK : Z := 16.
Definition NET_TCP_STATE_CLOSED : Z := 0.
Definition NET_TCP_STATE_SYN_SENT : Z := 1.
Definition NET_TCP_STATE_ESTABLISHED : Z := 2.
Definition NET_TCP_STATE_FIN_WAIT_1 : Z := 3.
Definition NET_TCP_STATE_FIN_WAIT_2 : Z := 4.
Definition NET_TCP_STATE_CLOSE_WAIT : Z := 5.
Definition NET_TCP_STATE_LISTEN : Z := 7.
Definition NET_TCP_STATE_SYN_RECEIVED : Z := 8.

Record net_tcp_view_t := mk_tcp_view {
  v_source_port : Z; v_destination_port : Z; v_sequence : Z; v_acknowledgment : Z; v_flags : Z;
  v_payload : ptr bytes; v_payload_length : Z
}.

Record net_tcp_connection_t := mk_conn {
  local_port : Z; remote_port : Z; local_sequence : Z; remote_sequence : Z;
  pending_payload : ptr bytes; pending_length : Z; retransmit_count : Z; retransmit_limit : Z;
  receive_window : Z; tcp_state : Z
}.

Record net_tcp_connection_retry_t := mk_retry { retry_limit : Z; retries_used : Z }.
Record net_tcp_rto_timer_t := mk_rto { rto_deadline : Z; rto_delay : Z; rto_armed : Z }.

(** Field updates. *)
Definition set_state (s : Z) (c : net_tcp_connection_t) : net_tcp_connection_t :=
  mk_conn (local_port c) (remote_port c) (local_sequence c) (remote_sequence c) (pending_payload c)
    (pending_length c) (retransmit_count c) (retransmit_limit c) (receive_window c) s.
Definition set_local_sequence (s : Z) (c : net_tcp_connection_t) : net_tcp_connection_t :=
  mk_conn (local_port c) (remote_port c) s (remote_sequence c) (pending_payload c)
    (pending_length c) (retransmit_count c) (retransmit_limit c) (receive_window c) (tcp_state c).
Definition set_remote_sequence (s : Z) (c : net_tcp_connection_t) : net_tcp_connection_t :=
  mk_conn (local_port c) (remote_port c) (local_sequence c) s (pending_payload c)
    (pending_length c) (retransmit_count c) (retransmit_limit c) (receive_window c) (tcp_state c).
Definition set_remote_port (p : Z) (c : net_tcp_connection_t) : net_tcp_connection_t :=
  mk_conn (local_port c) p (local_sequence c) (remote_sequence c) (pending_payload c)
    (pending_length c) (retransmit_count c) (retransmit_limit c) (receive_window c) (tcp_state c).
Definition set_pending (p : ptr bytes) (n count limit : Z) (c : net_tcp_connection_t) : net_tcp_connection_t :=
  mk_conn (local_port c) (remote_port c) (local_sequence c) (remote_sequence c) p n count limit
    (receive_window c) (tcp_state c).
Definition set_window (w : Z) (c : net_tcp_connection_t) : net_tcp_connection_t :=
  mk_conn (local_port c) (remote_port c) (local_sequence c) (remote_sequence c) (pending_payload c)
    (pending_length c) (retransmit_count c) (retransmit_limit c) w (tcp_state c).

(** ** Segments *)

Definition build_control (segment : ptr bytes) (capacity source_port destination_port sequence acknowledgment flags : Z)
    : option (Z * ptr bytes) :=
  match segment with
  | Some s =>
      if (capacity <? NET_TCP_HEADER_SIZE) || (source_port =? 0) || (destination_port =? 0) then Some (-1, segment)
      else
        s ← zero_in s 0 NET_TCP_HEADER_SIZE;
        s ← put16 s 0 source_port; s ← put16 s 2 destination_port;
        s ← put32 s 4 sequence; s ← put32 s 8 acknowledgment;
        s ← put8 s 12 80; s ← put8 s 13 flags; s ← put16 s 14 65535;
        Some (NET_TCP_HEADER_SIZE, Some s)
  | None => Some (-1, segment)
  end.

Definition net_tcp_build_syn (segment : ptr bytes) (capacity source_port destination_port sequence : Z) :=
  build_control segment capacity source_port destination_port sequence 0 NET_TCP_FLAG_SYN.

Definition net_tcp_build_syn_ack (segment : ptr bytes) (capacity source_port destination_port sequence acknowledgment : Z) :=
  build_control segment capacity source_port destination_port sequence acknowledgment
    (Z.lor NET_TCP_FLAG_SYN NET_TCP_FLAG_ACK).

Definition net_tcp_build_ack (segment : ptr bytes) (capacity source_port destination_port sequence acknowledgment : Z) :=
  build_control segment capacity source_port destination_port sequence acknowledgment NET_TCP_FLAG_ACK.

Definition net_tcp_build_fin_ack (segment : ptr bytes) (capacity source_port destination_port sequence acknowledgment : Z) :=
  build_control segment capacity source_port destination_port sequence acknowledgment
    (Z.lor NET_TCP_FLAG_FIN NET_TCP_FLAG_ACK).

Definition net_tcp_build_data (segment : ptr bytes) (capacity source_port destination_port sequence acknowledgment : Z)
    (payload : ptr bytes) (payload_length : Z) : option (Z * ptr bytes) :=
  let total := NET_TCP_HEADER_SIZE + payload_length in
  match segment with
  | Some _ =>
      if (match payload with None => negb (payload_length =? 0) | Some _ => false end) || (capacity <? total)
      then Some (-1, segment)
      else
        '(rc, segment) ← build_control segment capacity source_port destination_port sequence acknowledgment NET_TCP_FLAG_ACK;
        if rc <? 0 then Some (-2, segment)
        else match segment, payload with
             | Some s, Some p => s ← copy_in s NET_TCP_HEADER_SIZE p payload_length; Some (total, Some s)
             | _, _ => Some (total, segment)
             end
  | None => Some (-1, segment)
  end.

(** [sum += get16(p)] of the pseudo header, without folding. *)
Definition net_tcp_checksum_ipv4 (source_ip destination_ip segment : ptr bytes) (length : Z) : option Z :=
  match source_ip, destination_ip, segment with
  | Some sip, Some dip, Some s =>
      if length =? 0 then Some 0
      else
        s0 ← get16 sip 0; s1 ← get16 sip 2; d0 ← get16 dip 0; d1 ← get16 dip 2;
        let sum := u32 (s0 + s1 + d0 + d1 + NET_TCP_PROTOCOL + length) in
        '(_, sum) ← sum16 (Z.to_nat length) 1 s 0 length sum;
        sum ← (if negb (Z.land length 1 =? 0) then x ← get8 s (length - 1); Some (u32 (sum + x * 256)) else Some sum);
        sum ← fold_carry 16 sum;
        Some (u16 (Z.lnot sum))
  | _, _, _ => Some 0
  end.

(** The two functions that build a whole IPv4 packet around a control segment share
    every line but the builder of the segment. *)
Definition build_ipv4_around (build : ptr bytes -> Z -> option (Z * ptr bytes)) (packet : ptr bytes) (capacity : Z)
    (source_ip destination_ip : ptr bytes) : option (Z * ptr bytes) :=
  match packet, source_ip, destination_ip with
  | Some p, Some sip, Some dip =>
      if capacity <? 40 then Some (-1, packet)
      else
        p ← zero_in p 0 40;
        p ← put8 p 0 69; p ← put16 p 2 40; p ← put8 p 8 64; p ← put8 p 9 NET_TCP_PROTOCOL;
        p ← copy_in p 12 sip 4; p ← copy_in p 16 dip 4;
        '(rc, seg) ← build (Some (drop 20 p)) (u32 (capacity - 20));
        let p := take 20 p ++ default [] seg in
        if rc <? 0 then Some (-2, Some p)
        else
          checksum ← net_tcp_checksum_ipv4 source_ip destination_ip (Some (drop 20 p)) 20;
          p ← put16 p 36 checksum;
          '(_, sum) ← sum16 20 0 p 0 20 0;
          p ← put16 p 10 (u16 (Z.lnot sum));
          Some (40, Some p)
  | _, _, _ => Some (-1, packet)
  end.

Definition net_tcp_build_syn_ipv4 (packet : ptr bytes) (capacity : Z) (source_ip destination_ip : ptr bytes)
    (source_port destination_port sequence : Z) : option (Z * ptr bytes) :=
  build_ipv4_around (fun seg cap => net_tcp_build_syn seg cap source_port destination_port sequence)
    packet capacity source_ip destination_ip.

Definition net_tcp_build_syn_ack_ipv4 (packet : ptr bytes) (capacity : Z) (source_ip destination_ip : ptr bytes)
    (source_port destination_port sequence acknowledgment : Z) : option (Z * ptr bytes) :=
  build_ipv4_around (fun seg cap => net_tcp_build_syn_ack seg cap source_port destination_port sequence acknowledgment)
    packet capacity source_ip destination_ip.

Definition net_tcp_parse (segment : ptr bytes) (length : Z) (out : ptr net_tcp_view_t)
    : option (Z * ptr net_tcp_view_t) :=
  match segment, out with
  | Some s, Some o =>
      if length <? NET_TCP_HEADER_SIZE then Some (-1, out)
      else
        b12 ← get8 s 12;
        let header_words := u8 (Z.shiftr b12 4) in
        let header_size := u16 (header_words * 4) in
        if (header_words <? 5) || (length <? header_size) then Some (-2, out)
        else
          sp ← get16 s 0; dp ← get16 s 2;
          if (sp =? 0) || (dp =? 0)
          then Some (-3, Some (mk_tcp_view sp dp (v_sequence o) (v_acknowledgment o) (v_flags o) (v_payload o) (v_payload_length o)))
          else
            sq ← get32 s 4; ak ← get32 s 8; b13 ← get8 s 13;
            Some (0, Some (mk_tcp_view sp dp sq ak (u8 (Z.land b13 63))
                             (Some (drop (Z.to_nat header_size) s)) (u16 (length - header_size))))
  | _, _ => Some (-1, out)
  end.

(** ** Connections *)

Definition net_tcp_is_syn_ack_for (view : ptr net_tcp_view_t) (local_port remote_port local_sequence : Z)
    (remote_sequence : ptr Z) : Z * ptr Z :=
  match view, remote_sequence with
  | Some v, Some _ =>
      if (local_port =? 0) || (remote_port =? 0) then (-1, remote_sequence)
      else
        let both := Z.lor NET_TCP_FLAG_SYN NET_TCP_FLAG_ACK in
        if negb (v_source_port v =? remote_port) || negb (v_destination_port v =? local_port)
           || negb (Z.land (v_flags v) both =? both) || negb (v_acknowledgment v =? u32 (local_sequence + 1))
        then (-2, remote_sequence) else (0, Some (v_sequence v))
  | _, _ => (-1, remote_sequence)
  end.

Definition net_tcp_connection_open (connection : ptr net_tcp_connection_t) (local_port remote_port local_sequence : Z)
    : Z * ptr net_tcp_connection_t :=
  match connection with
  | Some _ =>
      if (local_port =? 0) || (remote_port =? 0) then (-1, connection)
      else (0, Some (mk_conn local_port remote_port (u32 (local_sequence + 1)) 0 None 0 0 0 65535 NET_TCP_STATE_SYN_SENT))
  | None => (-1, connection)
  end.

Definition net_tcp_connection_listen (connection : ptr net_tcp_connection_t) (local_port local_sequence : Z)
    : Z * ptr net_tcp_connection_t :=
  match connection with
  | Some _ =>
      if local_port =? 0 then (-1, connection)
      else (0, Some (mk_conn local_port 0 local_sequence 0 None 0 0 0 65535 NET_TCP_STATE_LISTEN))
  | None => (-1, connection)
  end.

Definition net_tcp_connection_accept_syn (connection : ptr net_tcp_connection_t) (view : ptr net_tcp_view_t)
    : Z * ptr net_tcp_connection_t :=
  match connection, view with
  | Some c, Some v =>
      if negb (tcp_state c =? NET_TCP_STATE_LISTEN) || (v_source_port v =? 0)
         || negb (v_destination_port v =? local_port c)
         || (Z.land (v_flags v) NET_TCP_FLAG_SYN =? 0) || negb (Z.land (v_flags v) NET_TCP_FLAG_ACK =? 0)
      then (-1, connection)
      else (0, Some (set_state NET_TCP_STATE_SYN_RECEIVED
                       (set_remote_sequence (u32 (v_sequence v + 1)) (set_remote_port (v_source_port v) c))))
  | _, _ => (-1, connection)
  end.

Definition net_tcp_connection_build_syn_ack (connection : ptr net_tcp_connection_t) (segment : ptr bytes) (capacity : Z)
    : option (Z * ptr bytes) :=
  match connection, segment with
  | Some c, Some _ =>
      if negb (tcp_state c =? NET_TCP_STATE_SYN_RECEIVED) then Some (-1, segment)
      else net_tcp_build_syn_ack segment capacity (local_port c) (remote_port c) (local_sequence c) (remote_sequence c)
  | _, _ => Some (-1, segment)
  end.

Definition net_tcp_connection_retry_init (retry : ptr net_tcp_connection_retry_t) (limit : Z)
    : Z * ptr net_tcp_connection_retry_t :=
  match retry with Some _ => (0, Some (mk_retry limit 0)) | None => (-1, retry) end.

Definition net_tcp_connection_retry_consume (retry : ptr net_tcp_connection_retry_t)
    : Z * ptr net_tcp_connection_retry_t :=
  match retry with
  | Some r =>
      if retry_limit r <=? retries_used r then (0, retry)
      else (1, Some (mk_retry (retry_limit r) (u8 (retries_used r + 1))))
  | None => (-1, retry)
  end.

Definition net_tcp_connection_retry_reopen (connection : ptr net_tcp_connection_t) (retry : ptr net_tcp_connection_retry_t)
    (local_seq : Z) : Z * ptr net_tcp_connection_t * ptr net_tcp_connection_retry_t :=
  match connection, retry with
  | Some c, Some _ =>
      let '(status, retry) := net_tcp_connection_retry_consume retry in
      if status <=? 0 then (status, connection, retry)
      else
        let '(rc, connection) := net_tcp_connection_open connection (local_port c) (remote_port c) local_seq in
        (if rc =? 0 then 1 else -2, connection, retry)
  | _, _ => (-1, connection, retry)
  end.

Definition net_tcp_connection_accept_syn_ack (connection : ptr net_tcp_connection_t) (view : ptr net_tcp_view_t)
    : Z * ptr net_tcp_connection_t :=
  match connection, view with
  | Some c, Some _ =>
      if negb (tcp_state c =? NET_TCP_STATE_SYN_SENT) then (-1, connection)
      else
        let '(rc, seq) := net_tcp_is_syn_ack_for view (local_port c) (remote_port c) (u32 (local_sequence c - 1)) (Some 0) in
        if negb (rc =? 0) then (-2, connection)
        else (0, Some (set_state NET_TCP_STATE_ESTABLISHED (set_remote_sequence (u32 (default 0 seq + 1)) c)))
  | _, _ => (-1, connection)
  end.

Definition net_tcp_connection_build_ack (connection : ptr net_tcp_connection_t) (segment : ptr bytes) (capacity : Z)
    : option (Z * ptr bytes) :=
  match connection with
  | Some c =>
      if negb (tcp_state c =? NET_TCP_STATE_ESTABLISHED) && negb (tcp_state c =? NET_TCP_STATE_FIN_WAIT_2)
         && negb (tcp_state c =? NET_TCP_STATE_CLOSE_WAIT)
      then Some (-1, segment)
      else net_tcp_build_ack segment capacity (local_port c) (remote_port c) (local_sequence c) (remote_sequence c)
  | None => Some (-1, segment)
  end.

Definition net_tcp_connection_track_send (connection : ptr net_tcp_connection_t) (payload : ptr bytes)
    (payload_length limit : Z) : Z * ptr net_tcp_connection_t :=
  match connection, payload with
  | Some c, Some _ =>
      if (payload_length =? 0) || negb (tcp_state c =? NET_TCP_STATE_ESTABLISHED) then (-1, connection)
      else (0, Some (set_pending payload payload_length 0 limit c))
  | _, _ => (-1, connection)
  end.

Definition net_tcp_connection_build_data (connection : ptr net_tcp_connection_t) (segment : ptr bytes) (capacity : Z)
    (payload : ptr bytes) (payload_length limit : Z) : option (Z * ptr net_tcp_connection_t * ptr bytes) :=
  match connection, segment, payload with
  | Some c, Some _, Some _ =>
      if (payload_length =? 0) || negb (tcp_state c =? NET_TCP_STATE_ESTABLISHED) then Some (-1, connection, segment)
      else
        '(length, segment) ← net_tcp_build_data segment capacity (local_port c) (remote_port c)
                               (local_sequence c) (remote_sequence c) payload payload_length;
        if length <? 0 then Some (-2, connection, segment)
        else
          let '(rc, connection) := net_tcp_connection_track_send connection payload payload_length limit in
          if negb (rc =? 0) then Some (-3, connection, segment) else Some (length, connection, segment)
  | _, _, _ => Some (-1, connection, segment)
  end.

Definition net_tcp_connection_commit_send (connection : ptr net_tcp_connection_t) (payload_length : Z)
    : Z * ptr net_tcp_connection_t :=
  match connection with
  | Some c =>
      if negb (tcp_state c =? NET_TCP_STATE_ESTABLISHED) || (payload_length =? 0) then (-1, connection)
      else (0, Some (set_local_sequence (u32 (local_sequence c + payload_length)) c))
  | None => (-1, connection)
  end.

Definition net_tcp_connection_accept_data (connection : ptr net_tcp_connection_t) (view : ptr net_tcp_view_t)
    (accepted_length : ptr Z) : Z * ptr net_tcp_connection_t * ptr Z :=
  match connection, view, accepted_length with
  | Some c, Some v, Some _ =>
      if negb (tcp_state c =? NET_TCP_STATE_ESTABLISHED) then (-1, connection, accepted_length)
      else if negb (v_source_port v =? remote_port c) || negb (v_destination_port v =? local_port c)
              || (Z.land (v_flags v) NET_TCP_FLAG_ACK =? 0) || negb (v_sequence v =? remote_sequence c)
              || (local_sequence c <? v_acknowledgment v) || (receive_window c <? v_payload_length v)
      then (-2, connection, accepted_length)
      else (0, Some (set_window (u16 (receive_window c - v_payload_length v))
                       (set_remote_sequence (u32 (remote_sequence c + v_payload_length v)) c)),
            Some (v_payload_length v))
  | _, _, _ => (-1, connection, accepted_length)
  end.

Definition NET_TCP_SEGMENT_IN_ORDER : Z := 0.
Definition NET_TCP_SEGMENT_FOREIGN : Z := 1.
Definition NET_TCP_SEGMENT_DUPLICATE : Z := 2.
Definition NET_TCP_SEGMENT_FUTURE : Z := 3.
Definition NET_TCP_SEGMENT_OVERLAP : Z := 4.

Definition net_tcp_connection_classify_segment (connection : ptr net_tcp_connection_t) (view : ptr net_tcp_view_t) : Z :=
  match connection, view with
  | Some c, Some v =>
      if negb (v_source_port v =? remote_port c) || negb (v_destination_port v =? local_port c) then NET_TCP_SEGMENT_FOREIGN
      else if negb (tcp_state c =? NET_TCP_STATE_ESTABLISHED) then NET_TCP_SEGMENT_IN_ORDER
      else if negb (Z.land (v_flags v) NET_TCP_FLAG_RST =? 0) then NET_TCP_SEGMENT_IN_ORDER
      else if negb (Z.land (v_flags v) NET_TCP_FLAG_SYN =? 0) then NET_TCP_SEGMENT_DUPLICATE
      else
        let start := i32 (u32 (v_sequence v - remote_sequence c)) in
        let end_ := i32 (start + v_payload_length v) in
        if start =? 0 then NET_TCP_SEGMENT_IN_ORDER
        else if 0 <? start then NET_TCP_SEGMENT_FUTURE
        else if end_ <=? 0 then NET_TCP_SEGMENT_DUPLICATE
        else NET_TCP_SEGMENT_OVERLAP
  | _, _ => -1
  end.

Definition net_tcp_connection_trim_segment (connection : ptr net_tcp_connection_t) (view : ptr net_tcp_view_t)
    : Z * ptr net_tcp_view_t :=
  match connection, view with
  | Some c, Some v =>
      if negb (net_tcp_connection_classify_segment connection view =? NET_TCP_SEGMENT_OVERLAP) then (-2, view)
      else
        let delta := u32 (remote_sequence c - v_sequence v) in
        if (delta =? 0) || (v_payload_length v <=? delta) then (-3, view)
        else (0, Some (mk_tcp_view (v_source_port v) (v_destination_port v) (remote_sequence c) (v_acknowledgment v)
                         (v_flags v) (drop (Z.to_nat delta) <$> v_payload v) (u16 (v_payload_length v - delta))))
  | _, _ => (-1, view)
  end.

Definition net_tcp_connection_set_receive_window (connection : ptr net_tcp_connection_t) (window : Z)
    : Z * ptr net_tcp_connection_t :=
  match connection with Some c => (0, Some (set_window window c)) | None => (-1, connection) end.

Definition net_tcp_connection_retransmit_allowed (connection : ptr net_tcp_connection_t) : bool :=
  match connection with
  | Some c =>
      match pending_payload c with
      | Some _ => if pending_length c =? 0 then false else retransmit_count c <? retransmit_limit c
      | None => false
      end
  | None => false
  end.

Definition net_tcp_connection_note_retransmit (connection : ptr net_tcp_connection_t) : Z * ptr net_tcp_connection_t :=
  if negb (net_tcp_connection_retransmit_allowed connection) then (-1, connection)
  else (0, (fun c => set_pending (pending_payload c) (pending_length c) (u8 (retransmit_count c + 1)) (retransmit_limit c) c)
             <$> connection).

Definition net_tcp_rto_init (timer : ptr net_tcp_rto_timer_t) (initial_delay : Z) : Z * ptr net_tcp_rto_timer_t :=
  match timer with
  | Some _ => if initial_delay =? 0 then (-1, timer) else (0, Some (mk_rto 0 initial_delay 0))
  | None => (-1, timer)
  end.

Definition net_tcp_rto_arm (timer : ptr net_tcp_rto_timer_t) (now max_delay : Z) : Z * ptr net_tcp_rto_timer_t :=
  match timer with
  | Some t =>
      if (rto_delay t =? 0) || (max_delay <? rto_delay t) then (-1, timer)
      else (0, Some (mk_rto (if 4294967295 - rto_delay t <? now then 4294967295 else u32 (now + rto_delay t))
                       (rto_delay t) 1))
  | None => (-1, timer)
  end.

Definition net_tcp_rto_ready (timer : ptr net_tcp_rto_timer_t) (now : Z) : bool :=
  match timer with
  | Some t => if rto_armed t =? 0 then false else rto_deadline t <=? now
  | None => false
  end.

Definition net_tcp_rto_consume (timer : ptr net_tcp_rto_timer_t) (connection : ptr net_tcp_connection_t) (now max_delay : Z)
    : Z * ptr net_tcp_rto_timer_t * ptr net_tcp_connection_t :=
  match timer, connection with
  | Some t, Some _ =>
      if negb (net_tcp_rto_ready timer now) then (0, timer, connection)
      else if negb (net_tcp_connection_retransmit_allowed connection) then (-1, timer, connection)
      else
        let '(rc, noted) := net_tcp_connection_note_retransmit connection in
        if negb (rc =? 0) then (-1, timer, noted)
        else
          let next_delay := if max_delay / 2 <? rto_delay t then max_delay else u32 (rto_delay t * 2) in
          let '(rc, armed) := net_tcp_rto_arm (Some (mk_rto (rto_deadline t) next_delay (rto_armed t))) now max_delay in
          if negb (rc =? 0) then (-2, timer, connection) else (1, armed, noted)
  | _, _ => (0, timer, connection)
  end.

Definition net_tcp_connection_begin_close (connection : ptr net_tcp_connection_t) (segment : ptr bytes) (capacity : Z)
    : option (Z * ptr net_tcp_connection_t * ptr bytes) :=
  match connection with
  | Some c =>
      if negb (tcp_state c =? NET_TCP_STATE_ESTABLISHED) then Some (-1, connection, segment)
      else
        '(length, segment) ← net_tcp_build_fin_ack segment capacity (local_port c) (remote_port c)
                               (local_sequence c) (remote_sequence c);
        if length <? 0 then Some (-2, connection, segment)
        else Some (length, Some (set_state NET_TCP_STATE_FIN_WAIT_1 (set_local_sequence (u32 (local_sequence c + 1)) c)), segment)
  | None => Some (-1, connection, segment)
  end.

Definition net_tcp_connection_accept_ack (connection : ptr net_tcp_connection_t) (view : ptr net_tcp_view_t)
    : Z * ptr net_tcp_connection_t :=
  match connection, view with
  | Some c, Some v =>
      if negb (tcp_state c =? NET_TCP_STATE_ESTABLISHED) && negb (tcp_state c =? NET_TCP_STATE_FIN_WAIT_1)
         && negb (tcp_state c =? NET_TCP_STATE_SYN_RECEIVED)
      then (-1, connection)
      else if negb (v_source_port v =? remote_port c) || negb (v_destination_port v =? local_port c)
              || (Z.land (v_flags v) NET_TCP_FLAG_ACK =? 0)
      then (-2, connection)
      else if tcp_state c =? NET_TCP_STATE_SYN_RECEIVED then
        if negb (v_sequence v =? remote_sequence c) || negb (v_acknowledgment v =? u32 (local_sequence c + 1))
        then (-3, connection)
        else (0, Some (set_state NET_TCP_STATE_ESTABLISHED (set_local_sequence (u32 (local_sequence c + 1)) c)))
      else if local_sequence c <? v_acknowledgment v then (-2, connection)
      else if negb (pending_length c =? 0) && (v_acknowledgment v <? local_sequence c) then (-3, connection)
      else
        let c := if negb (pending_length c =? 0) then set_pending None 0 0 0 c else c in
        let c := if (tcp_state c =? NET_TCP_STATE_FIN_WAIT_1) && (v_acknowledgment v =? local_sequence c)
                 then set_state NET_TCP_STATE_FIN_WAIT_2 c else c in
        (0, Some c)
  | _, _ => (-1, connection)
  end.

Definition net_tcp_connection_accept_fin (connection : ptr net_tcp_connection_t) (view : ptr net_tcp_view_t)
    : Z * ptr net_tcp_connection_t :=
  match connection, view with
  | Some c, Some v =>
      if negb (tcp_state c =? NET_TCP_STATE_ESTABLISHED) && negb (tcp_state c =? NET_TCP_STATE_FIN_WAIT_2) then (-1, connection)
      else if negb (v_source_port v =? remote_port c) || negb (v_destination_port v =? local_port c)
              || (Z.land (v_flags v) NET_TCP_FLAG_FIN =? 0) || negb (v_sequence v =? remote_sequence c)
      then (-2, connection)
      else (0, Some (set_state (if tcp_state c =? NET_TCP_STATE_FIN_WAIT_2 then NET_TCP_STATE_CLOSED else NET_TCP_STATE_CLOSE_WAIT)
                       (set_remote_sequence (u32 (remote_sequence c + 1)) c)))
  | _, _ => (-1, connection)
  end.

(** ** Segments on the wire *)
Definition tcp_header (sp dp seq ack flags : Z) : bytes :=
  be16 sp ++ be16 dp ++ be32 seq ++ be32 ack ++ [80; flags; 255; 255; 0; 0; 0; 0].

Definition port_ok (p : Z) : Prop := 0 < p < 65536.

Lemma header_20 sp dp seq ack flags : length (tcp_header sp dp seq ack flags) = 20%nat.
Proof. done. Qed.

Lemma build_control_ok s cap sp dp seq ack flags :
  cap <= blen s -> 20 <= cap -> port_ok sp -> port_ok dp -> is_u8 flags ->
  build_control (Some s) cap sp dp seq ack flags = Some (20, Some (tcp_header sp dp seq ack flags ++ drop 20 s)).
Proof.
  unfold port_ok. intros Hs Hc Hsp Hdp Hf. unfold build_control, NET_TCP_HEADER_SIZE.
  rewrite (proj2 (Z.ltb_ge _ _)), !(proj2 (Z.eqb_neq _ 0)) by lia. cbn [orb].
  rewrite zero_start by lia. cbn [mbind option_bind].
  change (replicate (Z.to_nat 20) 0) with (repeat 0 20). cbn [repeat]. unfold put8, put16, put32.
  do 7 (rewrite st_prefix by (unfold blen; cbn [length be16 be32]; lia); cbn [mbind option_bind]; eval_patch).
  rewrite (u8_id flags) by done. done.
Qed.

Lemma build_control_refused s cap sp dp seq ack flags :
  cap < 20 \/ sp = 0 \/ dp = 0 -> build_control (Some s) cap sp dp seq ack flags = Some (-1, Some s).
Proof.
  intros H. unfold build_control, NET_TCP_HEADER_SIZE.
  replace ((cap <? 20) || (sp =? 0) || (dp =? 0)) with true; [done|]. symmetry.
  rewrite !orb_true_iff, Z.ltb_lt, !Z.eqb_eq. tauto.
Qed.

Lemma build_data_ok s cap sp dp seq ack p n :
  cap <= blen s -> 0 <= n -> 20 + n <= cap -> n <= blen p -> port_ok sp -> port_ok dp ->
  net_tcp_build_data (Some s) cap sp dp seq ack (Some p) n =
    Some (20 + n, Some (tcp_header sp dp seq ack NET_TCP_FLAG_ACK ++ take (Z.to_nat n) p ++ drop (Z.to_nat (20 + n)) s)).
Proof.
  intros Hs Hn Hc Hp Hsp Hdp. unfold net_tcp_build_data, NET_TCP_HEADER_SIZE.
  rewrite (proj2 (Z.ltb_ge _ _)) by lia. cbn [orb].
  rewrite build_control_ok by (done || lia || (unfold is_u8, NET_TCP_FLAG_ACK; lia)). cbn [mbind option_bind].
  change (20 <? 0) with false. cbn match.
  rewrite copy_behind by (done || lia || (unfold blen in *; rewrite ?length_drop; lia)). cbn [mbind option_bind].
  rewrite drop_drop, <- app_assoc. by replace (20 + Z.to_nat n)%nat with (Z.to_nat (20 + n)) by lia.
Qed.

(** Reading a header back. *)
Lemma tcp_parse_ok sp dp seq ack flags body len o :
  port_ok sp -> port_ok dp -> is_u32 seq -> is_u32 ack -> 0 <= flags < 64 -> 20 <= len < 65556 ->
  net_tcp_parse (Some (tcp_header sp dp seq ack flags ++ body)) len (Some o) =
    Some (0, Some (mk_tcp_view sp dp seq ack flags (Some body) (len - 20))).
Proof.
  unfold port_ok. intros Hsp Hdp Hseq Hack Hf Hlen. unfold net_tcp_parse, NET_TCP_HEADER_SIZE.
  rewrite (proj2 (Z.ltb_ge len 20)) by lia. set (h := tcp_header sp dp seq ack flags).
  assert (Hh : blen h = 20) by done.
  assert (E12 : get8 (h ++ body) 12 = Some 80) by done.
  assert (E13 : get8 (h ++ body) 13 = Some flags) by done.
  assert (E0 : get16 (h ++ body) 0 = Some sp /\ get16 (h ++ body) 2 = Some dp /\
               get32 (h ++ body) 4 = Some seq /\ get32 (h ++ body) 8 = Some ack).
  { unfold get16, get32. rewrite !ld_bytes_prefix by lia. unfold h, tcp_header, be16, be32. cbn [app]. eval_slices.
    unfold u8, is_u32 in *. split_and!; apply (f_equal Some); zlia. }
  destruct E0 as (E0 & E2 & E4 & E8). rewrite E12, E13, E0, E2, E4, E8. cbn [mbind option_bind].
  change (u8 (Z.shiftr 80 4)) with 5. change (u16 (5 * 4)) with 20. change (5 <? 5) with false.
  rewrite (proj2 (Z.ltb_ge len 20)), !(proj2 (Z.eqb_neq _ 0)) by lia. cbn [orb].
  change (Z.to_nat 20) with (length h). rewrite drop_app_length, u16_id by (unfold is_u16; lia).
  replace (Z.land flags 63) with flags; [by rewrite u8_id by (unfold is_u8; lia)|].
  change 63 with (Z.ones 6). rewrite Z.land_ones by lia. symmetry. apply Z.mod_small. done.
Qed.

(** Whatever the bytes, the parser stays inside the segment. *)
Lemma tcp_parse_safe s len o :
  Forall is_u8 s -> len <= blen s ->
  exists rc o', net_tcp_parse (Some s) len (Some o) = Some (rc, Some o') /\
    (rc = 0 -> exists h, 20 <= h <= len /\ v_payload o' = Some (drop (Z.to_nat h) s) /\
                 v_payload_length o' = u16 (len - h) /\ is_u16 (v_payload_length o')).
Proof.
  intros Hs Hl. unfold net_tcp_parse, NET_TCP_HEADER_SIZE. case_if; [by do 2 eexists|].
  destruct (get8_u8 s 12) as (b & -> & Hb); [done|lia..|]. cbn [mbind option_bind].
  case_if; [by do 2 eexists|]. bsimp.
  destruct (get16_u16 s 0) as (sp & -> & _); [done|lia..|]. destruct (get16_u16 s 2) as (dp & -> & _); [done|lia..|].
  cbn [mbind option_bind]. case_if; [by do 2 eexists|].
  destruct (get32_is_Some s 4) as [sq ->]; [lia..|]. destruct (get32_is_Some s 8) as [ak ->]; [lia..|].
  destruct (get8_u8 s 13) as (f & -> & _); [done|lia..|]. cbn [mbind option_bind].
  do 2 eexists. split; [done|]. intros _. exists (u16 (u8 (Z.shiftr b 4) * 4)).
  pose proof (u8_range (Z.shiftr b 4)) as Hr. unfold is_u8 in Hr.
  assert (Hw : u16 (u8 (Z.shiftr b 4) * 4) = u8 (Z.shiftr b 4) * 4) by (apply u16_id; unfold is_u16; lia).
  split; [lia|]. split; [done|]. split; [done|apply u16_range].
Qed.

(** ** The checksum over the pseudo header *)
Lemma sum16_any p len fuel s :
  Forall is_u8 p -> is_u16 len -> len <= blen p -> (Z.to_nat len <= fuel)%nat -> 0 <= s < 4294000000 ->
  exists s', sum16 fuel 1 p 0 len s = Some (len - len mod 2, s') /\ 0 <= s' < 4294000000 /\
    forall x, 0 <= x -> oc (s' + x) = oc (s + total (words (take (Z.to_nat (len - len mod 2)) p)) + x).
Proof.
  intros Hp Hl Hlen Hf Hs. unfold is_u16 in Hl.
  destruct (Z.ltb_spec 1 len) as [Hlt|Hge].
  - destruct fuel as [|fuel]; [lia|]. rewrite sum16_S, Z.add_0_l, (proj2 (Z.ltb_lt 1 len)) by lia.
    destruct p as [|x [|y p]]; [unfold blen in Hlen; cbn in Hlen; lia..|].
    pose proof Hp as Hp0. rewrite !Forall_cons in Hp0. destruct Hp0 as (Hx & Hy & Hp'). unfold is_u8 in Hx, Hy.
    assert (E : get16 (x :: y :: p) 0 = Some (256 * x + y)).
    { unfold get16. rewrite ld_bytes_ok by (unfold blen in *; cbn [length] in *; lia). done. }
    rewrite E, some_bind.
    rewrite fold_carry_ok by (lia || (rewrite u32_id; unfold is_u32; lia)). rewrite some_bind.
    rewrite u32_id by (unfold is_u32; lia). rewrite (u16_id (0 + 2)) by (unfold is_u16; lia). change (0 + 2) with 2.
    pose proof (oc_range (s + (256 * x + y))) as Ho.
    rewrite sum16_spec by (done || auto || lia). eexists. split; [done|].
    change (drop (Z.to_nat 2) (x :: y :: p)) with p.
    assert (Ht : 0 <= total (words (take (Z.to_nat (len - len mod 2 - 2)) p)))
      by (apply total_nonneg, words_nonneg, Forall_take, Hp').
    pose proof (oc_range (oc (s + (256 * x + y)) + total (words (take (Z.to_nat (len - len mod 2 - 2)) p)))).
    split; [lia|]. intros z Hz. rewrite oc_add, <- Z.add_assoc, oc_add by lia.
    replace (Z.to_nat (len - len mod 2)) with (S (S (Z.to_nat (len - len mod 2 - 2)))) by zlia.
    cbn [take words]. rewrite total_cons. f_equal. lia.
  - exists s. assert (Hm : len - len mod 2 = 0) by zlia. rewrite Hm.
    split; [|split; [lia|intros x Hx; change (total (words (take (Z.to_nat 0) p))) with 0; by rewrite Z.add_0_r]].
    destruct fuel; cbn [sum16]; rewrite (proj2 (Z.ltb_ge (0 + 1) len)) by lia; done.
Qed.

(** The segment with the pseudo header of RFC 793 in front. *)
Definition pseudo_words (sip dip : bytes) (len : Z) : list Z := words sip ++ words dip ++ [NET_TCP_PROTOCOL; len].

Lemma tcp_checksum_ok sip dip s len :
  length sip = 4%nat -> length dip = 4%nat -> Forall is_u8 sip -> Forall is_u8 dip -> Forall is_u8 s ->
  1 <= len < 65536 -> len <= blen s ->
  net_tcp_checksum_ipv4 (Some sip) (Some dip) (Some s) len =
    Some (rfc1071 (pseudo_words sip dip len ++ words (take (Z.to_nat len) s))).
Proof.
  intros Hsl Hdl Hs8 Hd8 Hs Hlen Hb. unfold net_tcp_checksum_ipv4. rewrite (proj2 (Z.eqb_neq len 0)) by lia.
  destruct (bytes4 _ Hsl) as (a0 & a1 & a2 & a3 & ->), (bytes4 _ Hdl) as (c0 & c1 & c2 & c3 & ->).
  rewrite !Forall_cons in Hs8, Hd8. unfold is_u8 in Hs8, Hd8.
  change (get16 [a0; a1; a2; a3] 0) with (Some (256 * a0 + a1)). change (get16 [a0; a1; a2; a3] 2) with (Some (256 * a2 + a3)).
  change (get16 [c0; c1; c2; c3] 0) with (Some (256 * c0 + c1)). change (get16 [c0; c1; c2; c3] 2) with (Some (256 * c2 + c3)).
  rewrite !some_bind. unfold NET_TCP_PROTOCOL.
  set (ps := 256 * a0 + a1 + (256 * a2 + a3) + (256 * c0 + c1) + (256 * c2 + c3) + 6 + len).
  assert (Hps : 0 <= ps < 400000) by lia. rewrite u32_id by (unfold is_u32; lia).
  destruct (sum16_any s len (Z.to_nat len) ps) as (s' & -> & Hs' & Hoc); [done|unfold is_u16; lia|done|lia|lia|].
  rewrite some_bind.
  assert (Htw : 0 <= total (words (take (Z.to_nat (len - len mod 2)) s)))
    by (apply total_nonneg, words_nonneg, Forall_take, Hs).
  assert (Hodd : negb (Z.land len 1 =? 0) = (len mod 2 =? 1)).
  { change 1 with (Z.ones 1) at 1. rewrite Z.land_ones by lia. change (2 ^ 1) with 2. pose proof (Zmod_even len).
    destruct (Z.even len); rewrite H; done. }
  rewrite Hodd. assert (Hpw : total (pseudo_words [a0; a1; a2; a3] [c0; c1; c2; c3] len) = ps)
    by (unfold pseudo_words, NET_TCP_PROTOCOL; cbn [words app]; rewrite !total_cons; cbn [total fold_right]; lia).
  unfold rfc1071. rewrite total_app, Hpw.
  destruct (Z.eqb_spec (len mod 2) 1) as [H1|H1].
  - destruct (lookup_lt_is_Some_2 s (Z.to_nat (len - 1))) as [x Hx]; [unfold blen in Hb; lia|].
    assert (Hux : is_u8 x) by (by eapply Forall_lookup_1). unfold is_u8 in Hux.
    unfold get8. rewrite (proj2 (ld_Some s (len - 1) x)) by (split; [lia|done]). rewrite !some_bind.
    rewrite u32_id by (unfold is_u32; lia). rewrite fold_carry_ok, some_bind by (lia || (unfold is_u32; lia)).
    rewrite Hoc by lia. rewrite H1.
    replace (Z.to_nat len) with (S (Z.to_nat (len - 1))) by lia. rewrite (take_S_r _ _ x) by done.
    rewrite words_snoc, total_app by (unfold blen in *; rewrite length_take, Nat.min_l by lia;
      apply Z.even_spec; exists (len / 2); zlia).
    rewrite u16_lnot by (rewrite H1 in Htw; apply oc_range; lia).
    do 3 f_equal. rewrite total_cons. cbn [total fold_right]. lia.
  - assert (H0 : len mod 2 = 0) by zlia. rewrite H0 in *. rewrite Z.sub_0_r in *.
    rewrite some_bind, fold_carry_ok, some_bind by (lia || (unfold is_u32; lia)).
    rewrite <- (Z.add_0_r s'), Hoc, Z.add_0_r by lia. rewrite u16_lnot by (apply oc_range; lia). done.
Qed.

(** ** Retransmission *)

(** A run of the timer: the answers of successive calls of [net_tcp_rto_consume]. *)
Fixpoint rto_run (t : ptr net_tcp_rto_timer_t) (c : ptr net_tcp_connection_t) (max_delay : Z) (ticks : list Z)
    : list (Z * ptr net_tcp_rto_timer_t) :=
  match ticks with
  | [] => []
  | now :: ticks =>
      let '(rc, t, c) := net_tcp_rto_consume t c now max_delay in
      (rc, t) :: rto_run t c max_delay ticks
  end.

(** Exponential backoff: a reading before the deadline changes nothing; at or after it one
    of the [rest] retransmissions is used, the delay doubles up to the maximum and a new
    deadline is set; with none rest the answer is -1, at this and every later expiry. *)
Fixpoint backoff (deadline delay : Z) (rest : nat) (max : Z) (ticks : list Z) : list (Z * ptr net_tcp_rto_timer_t) :=
  match ticks with
  | [] => []
  | now :: ticks =>
      if now <? deadline then (0, Some (mk_rto deadline delay 1)) :: backoff deadline delay rest max ticks
      else match rest with
           | O => (-1, Some (mk_rto deadline delay 1)) :: backoff deadline delay O max ticks
           | S rest =>
               let delay := Z.min max (2 * delay) in
               let deadline := Z.min 4294967295 (now + delay) in
               (1, Some (mk_rto deadline delay 1)) :: backoff deadline delay rest max ticks
           end
  end.

(** A segment waits for its acknowledgment. *)
Definition awaiting (c : net_tcp_connection_t) : Prop := is_Some (pending_payload c) /\ pending_length c <> 0 /\ is_u8 (retransmit_limit c).

Lemma allowed_awaiting c : awaiting c -> net_tcp_connection_retransmit_allowed (Some c) = (retransmit_count c <? retransmit_limit c).
Proof. intros ([p Hp] & Hl & _). unfold net_tcp_connection_retransmit_allowed. by rewrite Hp, (proj2 (Z.eqb_neq _ _) Hl). Qed.

Lemma consume_expired t c now max : awaiting c -> 0 <= retransmit_count c < retransmit_limit c -> 0 < rto_delay t <= max -> max < 4294967296 -> is_u32 now ->
  rto_armed t = 1 -> rto_deadline t <= now ->
  let delay := Z.min max (2 * rto_delay t) in
  net_tcp_rto_consume (Some t) (Some c) now max =
    (1, Some (mk_rto (Z.min 4294967295 (now + delay)) delay 1),
     Some (set_pending (pending_payload c) (pending_length c) (retransmit_count c + 1) (retransmit_limit c) c)).
Proof.
  intros Hw Hc Hd Hm Hnow Ha Hdl delay. unfold net_tcp_rto_consume, net_tcp_rto_ready, net_tcp_connection_note_retransmit. rewrite Ha, (allowed_awaiting c Hw), (proj2 (Z.leb_le _ _) Hdl).
  rewrite (proj2 (Z.ltb_lt _ _)) by lia. cbn [Z.eqb negb fmap option_fmap option_map]. destruct Hw as (_ & _ & Hl). unfold is_u8, is_u32 in *.
  rewrite (u8_id (retransmit_count c + 1)) by (unfold is_u8; lia).
  set (nd := if max / 2 <? rto_delay t then max else u32 (rto_delay t * 2)).
  assert (Hnd : nd = delay) by (unfold nd, delay; case_if; [zlia|]; rewrite u32_id by (unfold is_u32; zlia); zlia). rewrite Hnd.
  unfold net_tcp_rto_arm. cbn [rto_delay]. rewrite (proj2 (Z.eqb_neq delay 0)), (proj2 (Z.ltb_ge max delay)) by lia.
  cbn [orb Z.eqb negb]. do 3 f_equal. destruct (Z.ltb_spec (4294967295 - delay) now); [f_equal; lia|]. rewrite u32_id by (unfold is_u32; lia). f_equal; lia.
Qed.

Lemma run_backoff ticks : forall t c max, awaiting c -> 0 <= retransmit_count c <= retransmit_limit c -> 0 < rto_delay t <= max -> max < 4294967296 ->
  Forall is_u32 ticks -> rto_armed t = 1 ->
  rto_run (Some t) (Some c) max ticks = backoff (rto_deadline t) (rto_delay t) (Z.to_nat (retransmit_limit c - retransmit_count c)) max ticks.
Proof.
  induction ticks as [|now ticks IH]; intros t c max Hw Hc Hd Hm Ht Ha; [done|]. apply Forall_cons in Ht as [Hnow Ht]. cbn [rto_run backoff].
  assert (Et : mk_rto (rto_deadline t) (rto_delay t) 1 = t) by (destruct t; cbn in *; by rewrite Ha). rewrite Et.
  destruct (Z.ltb_spec now (rto_deadline t)) as [Hlt|Hge].
  - unfold net_tcp_rto_consume, net_tcp_rto_ready. rewrite Ha, (proj2 (Z.leb_gt _ _) Hlt). cbn [Z.eqb negb]. by rewrite IH.
  - destruct (Z.to_nat (retransmit_limit c - retransmit_count c)) as [|n] eqn:En.
    + unfold net_tcp_rto_consume, net_tcp_rto_ready. rewrite Ha, (proj2 (Z.leb_le _ _) Hge), (allowed_awaiting c Hw), (proj2 (Z.ltb_ge _ _)) by lia.
      cbn [Z.eqb negb]. by rewrite IH, En.
    + rewrite consume_expired by (done || lia). f_equal. rewrite IH; cbn [rto_deadline rto_delay rto_armed set_pending retransmit_count retransmit_limit]; try done; try lia.
      f_equal. lia.
Qed.

Lemma backoff_fires ticks : forall deadline delay rest max, (length (filter (fun r : Z * ptr net_tcp_rto_timer_t => r.1 = 1%Z) (backoff deadline delay rest max ticks)) <= rest)%nat.
Proof.
  induction ticks as [|now ticks IH]; intros deadline delay rest max; cbn [backoff]; [cbn; lia|]. case_if; [rewrite filter_cons_False by done; apply IH|].
  destruct rest as [|rest]; [rewrite filter_cons_False by done; apply IH|]. rewrite filter_cons_True by done. cbn [length]. specialize (IH (Z.min 4294967295 (now + Z.min max (2 * delay))) (Z.min max (2 * delay)) rest max). lia.
Qed.

Lemma backoff_exhausted rest : forall deadline delay max k, deadline <= 4294967295 ->
  (backoff deadline delay rest max (replicate (rest + k) 4294967295)).*1 = replicate rest 1 ++ replicate k (-1).
Proof.
  induction rest as [|rest IH]; intros deadline delay max k Hd.
  - cbn [Nat.add replicate app]. induction k as [|k IHk]; [done|]. cbn [replicate backoff]. rewrite (proj2 (Z.ltb_ge _ _)) by lia. cbn. by rewrite IHk.
  - cbn [Nat.add replicate app backoff]. rewrite (proj2 (Z.ltb_ge _ _)) by lia. cbn [fmap list_fmap fst]. f_equal. apply IH. lia.
Qed.

(** C39. Retransmission is bounded and ends: the answers and timers of any sequence of clock
    readings are those of exponential backoff ([backoff]: nothing before the deadline, then
    a retransmission with the delay doubled up to the maximum), at most
    [retransmit_limit - retransmit_count] readings allow one, and when they are used up
    every expired reading answers -1, on which the sender gives up. *)
Theorem retransmission_is_bounded :
  forall (ticks : list Z) (t : net_tcp_rto_timer_t) (c : net_tcp_connection_t) (max : Z),
    awaiting c -> 0 <= retransmit_count c <= retransmit_limit c -> 0 < rto_delay t <= max -> max < 4294967296 ->
    Forall is_u32 ticks -> rto_armed t = 1 -> is_u32 (rto_deadline t) ->
    let rest := Z.to_nat (retransmit_limit c - retransmit_count c) in
    rto_run (Some t) (Some c) max ticks = backoff (rto_deadline t) (rto_delay t) rest max ticks /\
    (length (filter (fun r => r.1 = 1%Z) (rto_run (Some t) (Some c) max ticks)) <= rest)%nat /\
    (forall k, (rto_run (Some t) (Some c) max (replicate (rest + k) 4294967295)).*1 = replicate rest 1 ++ replicate k (-1)).
Proof.
  intros ticks t c max Hw Hc Hd Hm Ht Ha Hdl rest. rewrite run_backoff by done. split; [done|]. split; [apply backoff_fires|].
  intros k. rewrite run_backoff; try done; [apply backoff_exhausted; unfold is_u32 in Hdl; lia|]. apply Forall_replicate. unfold is_u32. lia.
Qed.

Example retransmission_is_bounded_witness :
  (rto_run (Some (mk_rto 10 5 1)) (Some (mk_conn 1000 80 5 9 (Some [1]) 1 0 3 65535 2)) 40 [10; 30; 60; 120; 200; 300]).*1 = [1; 1; 1; -1; -1; -1].
Proof.
  assert (Hw : awaiting (mk_conn 1000 80 5 9 (Some [1]) 1 0 3 65535 2)) by (split; [by eexists|]; split; [discriminate|]; cbn; unfold is_u8; lia).
  assert (Ht : Forall is_u32 [10; 30; 60; 120; 200; 300]) by (repeat constructor; unfold is_u32; lia).
  rewrite (proj1 (retransmission_is_bounded [10; 30; 60; 120; 200; 300] (mk_rto 10 5 1) (mk_conn 1000 80 5 9 (Some [1]) 1 0 3 65535 2) 40 Hw
    ltac:(cbn; lia) ltac:(cbn; lia) ltac:(lia) Ht eq_refl ltac:(cbn; unfold is_u32; lia))).
  reflexivity.
Defined.

(** ** Classification of received segments *)
Lemma i32_diff base a b : -2147483648 <= a - b < 2147483648 -> i32 (u32 (u32 (base + a) - u32 (base + b))) = a - b.
Proof.
  intros H. unfold u32. rewrite <- Zminus_mod. replace (base + a - (base + b)) with (a - b) by lia.
  unfold i32, u32. rewrite Z.mod_mod by lia. destruct (Z.ltb_spec ((a - b) mod 4294967296) 2147483648); zlia.
Qed.

(** C40. Segments are classified by their place in the stream, also across the
    wrap-around of sequence numbers: with the receiver expecting offset [exp] and a
    segment of [len] bytes at offset [off], ending less than 2^31 apart, the code answers
    in order, future, duplicate or overlap exactly as the offsets say, and trimming
    an overlapping segment leaves the segment that starts at [exp] with the
    remaining bytes, which is then in order. *)
Theorem segments_classified_by_offset :
  forall (c : net_tcp_connection_t) (v : net_tcp_view_t) (base exp off : Z),
    tcp_state c = NET_TCP_STATE_ESTABLISHED -> v_source_port v = remote_port c -> v_destination_port v = local_port c ->
    Z.land (v_flags v) NET_TCP_FLAG_RST = 0 -> Z.land (v_flags v) NET_TCP_FLAG_SYN = 0 ->
    remote_sequence c = u32 (base + exp) -> v_sequence v = u32 (base + off) ->
    -2147483648 <= off - exp -> off + v_payload_length v - exp < 2147483648 -> is_u16 (v_payload_length v) ->
    let len := v_payload_length v in
    net_tcp_connection_classify_segment (Some c) (Some v) =
      (if off =? exp then NET_TCP_SEGMENT_IN_ORDER else if exp <? off then NET_TCP_SEGMENT_FUTURE
       else if off + len <=? exp then NET_TCP_SEGMENT_DUPLICATE else NET_TCP_SEGMENT_OVERLAP) /\
    (off < exp < off + len ->
       exists v', net_tcp_connection_trim_segment (Some c) (Some v) = (0, Some v') /\
         v_sequence v' = u32 (base + exp) /\ v_payload_length v' = off + len - exp /\
         v_payload v' = drop (Z.to_nat (exp - off)) <$> v_payload v /\
         net_tcp_connection_classify_segment (Some c) (Some v') = NET_TCP_SEGMENT_IN_ORDER).
Proof.
  intros c v base exp off Hst Hsp Hdp Hrst Hsyn Hrs Hseq Hnear Hfar Hlen len. unfold is_u16 in Hlen.
  assert (Hcl : forall v' o, v_source_port v' = v_source_port v -> v_destination_port v' = v_destination_port v ->
    v_flags v' = v_flags v -> v_sequence v' = u32 (base + o) -> -2147483648 <= o - exp -> o + v_payload_length v' - exp < 2147483648 ->
    0 <= v_payload_length v' < 65536 -> net_tcp_connection_classify_segment (Some c) (Some v') =
      (if o =? exp then NET_TCP_SEGMENT_IN_ORDER else if exp <? o then NET_TCP_SEGMENT_FUTURE
       else if o + v_payload_length v' <=? exp then NET_TCP_SEGMENT_DUPLICATE else NET_TCP_SEGMENT_OVERLAP)).
  { intros v' o Es Ed Ef Eq Hn Hn2 Hl. unfold net_tcp_connection_classify_segment.
    rewrite Es, Ed, Ef, Hsp, Hdp, Hst, Hrst, Hsyn, !Z.eqb_refl. cbn [negb orb]. rewrite Eq, Hrs, i32_diff by lia.
    rewrite (i32_id (o - exp + _)) by (unfold is_i32; lia).
    destruct (Z.eqb_spec o exp), (Z.eqb_spec (o - exp) 0); try lia.
    destruct (Z.ltb_spec exp o), (Z.ltb_spec 0 (o - exp)); try lia.
    destruct (Z.leb_spec (o + v_payload_length v') exp), (Z.leb_spec (o - exp + v_payload_length v') 0); lia. }
  split; [by apply Hcl; lia || done|]. intros Hov.
  assert (Hdelta : u32 (u32 (base + exp) - u32 (base + off)) = exp - off).
  { unfold u32. rewrite <- Zminus_mod. replace (base + exp - (base + off)) with (exp - off) by lia. apply Z.mod_small. lia. }
  unfold net_tcp_connection_trim_segment. rewrite (Hcl v off) by (done || lia).
  rewrite (proj2 (Z.eqb_neq off exp)), (proj2 (Z.ltb_ge exp off)), (proj2 (Z.leb_gt _ exp)) by lia.
  rewrite Z.eqb_refl. cbn [negb]. rewrite Hrs, Hseq, Hdelta.
  rewrite (proj2 (Z.eqb_neq (exp - off) 0)), (proj2 (Z.leb_gt _ (exp - off))) by lia. cbn [orb].
  eexists. split; [done|]. cbn [v_sequence v_payload_length v_payload].
  assert (Hl' : u16 (v_payload_length v - (exp - off)) = off + len - exp).
  { rewrite u16_id by (unfold is_u16; lia). lia. }
  split; [done|]. split; [done|]. split; [done|].
  rewrite (Hcl _ exp); cbn [v_payload_length v_source_port v_destination_port v_flags v_sequence]; try done; try lia.
  by rewrite Z.eqb_refl.
Qed.

Example segments_classified_by_offset_witness :
  net_tcp_connection_classify_segment (Some (mk_conn 80 1000 9 4 None 0 0 0 65535 2))
    (Some (mk_tcp_view 1000 80 4294967290 9 16 (Some []) 20)) = NET_TCP_SEGMENT_OVERLAP.
Proof.
  refine (proj1 (segments_classified_by_offset (mk_conn 80 1000 9 4 None 0 0 0 65535 2)
    (mk_tcp_view 1000 80 4294967290 9 16 (Some []) 20) 4294967290 10 0
    eq_refl eq_refl eq_refl eq_refl eq_refl eq_refl eq_refl _ _ _)); cbn; unfold is_u16; lia.
Defined.
