(* ===== verification/NetSocket.v ===== *)
(** * Sockets: kernel/net_socket.c

    The table of eight sockets, each a TCP connection with a receive buffer of
    4096 bytes.  The calls that carry TLS are not modelled here. *)

From Stdlib Require Import ZArith Lia.
From stdpp Require Import base numbers option tactics list.
From S2P Require Import Prelude Bytes NetBuf RegistryState NetTcp.

Definition NET_SOCKET_CAPACITY : Z := 8.
Definition NET_SOCKET_RX_CAPACITY : Z := 4096.
Definition NET_SOCKET_TX_CAPACITY : Z := 1500.
Definition NET_SOCKET_BAD_ARGUMENT : Z := -1.
Definition NET_SOCKET_NO_SLOT : Z := -2.
Definition NET_SOCKET_NOT_OPEN : Z := -3.
Definition NET_SOCKET_NOT_CONNECTED : Z := -4.
Definition NET_SOCKET_BUFFER_SMALL : Z := -5.
Definition NET_SOCKET_PROTOCOL : Z := -6.

Record net_socket_slot_t := mk_slot {
  sk_used : Z; sk_connection : net_tcp_connection_t; sk_buffer : bytes; sk_length : Z; sk_offset : Z
}.

Abbreviation sockets_t := (list net_socket_slot_t) (only parsing).

Definition zero_connection : net_tcp_connection_t := mk_conn 0 0 0 0 None 0 0 0 0 0.
Definition zero_slot : net_socket_slot_t := mk_slot 0 zero_connection (replicate 4096 0) 0 0.
#[export] Instance slot_inhabited : Inhabited net_socket_slot_t := populate zero_slot.

Definition set_used (u : Z) (s : net_socket_slot_t) : net_socket_slot_t :=
  mk_slot u (sk_connection s) (sk_buffer s) (sk_length s) (sk_offset s).
Definition set_connection (c : net_tcp_connection_t) (s : net_socket_slot_t) : net_socket_slot_t :=
  mk_slot (sk_used s) c (sk_buffer s) (sk_length s) (sk_offset s).
Definition set_buffer (b : bytes) (len off : Z) (s : net_socket_slot_t) : net_socket_slot_t :=
  mk_slot (sk_used s) (sk_connection s) b len off.

Definition valid_id (sockets : sockets_t) (socket_id : Z) : bool :=
  (0 <=? socket_id) && (socket_id <? NET_SOCKET_CAPACITY)
  && match sockets !! Z.to_nat socket_id with Some s => c_true (sk_used s) | None => false end.

(** [sockets[socket_id]] and an assignment to it, for a valid number. *)
Definition slot_of (sockets : sockets_t) (socket_id : Z) : net_socket_slot_t := sockets !!! Z.to_nat socket_id.
Definition put_slot (sockets : sockets_t) (socket_id : Z) (s : net_socket_slot_t) : sockets_t :=
  <[Z.to_nat socket_id := s]> sockets.
(** Write back the connection a TCP function returned. *)
Definition put_conn (sockets : sockets_t) (socket_id : Z) (c : ptr net_tcp_connection_t) : sockets_t :=
  match c with
  | Some c => put_slot sockets socket_id (set_connection c (slot_of sockets socket_id))
  | None => sockets
  end.

Definition net_socket_open (sockets : sockets_t) (local_port remote_port local_sequence : Z) : Z * sockets_t :=
  match find_slot (fun s => negb (c_true (sk_used s))) sockets with
  | Some i =>
      let s := set_buffer (sk_buffer (sockets !!! i)) 0 0 (set_used 1 (sockets !!! i)) in
      let '(rc, c) := net_tcp_connection_open (Some (sk_connection s)) local_port remote_port local_sequence in
      let s := set_connection (default (sk_connection s) c) s in
      if negb (rc =? 0) then (NET_SOCKET_PROTOCOL, <[i := set_used 0 s]> sockets)
      else (Z.of_nat i, <[i := s]> sockets)
  | None => (NET_SOCKET_NO_SLOT, sockets)
  end.

Definition net_socket_listen (sockets : sockets_t) (local_port local_sequence : Z) : Z * sockets_t :=
  match find_slot (fun s => negb (c_true (sk_used s))) sockets with
  | Some i =>
      let s := set_buffer (sk_buffer (sockets !!! i)) 0 0 (set_used 1 (sockets !!! i)) in
      let '(rc, c) := net_tcp_connection_listen (Some (sk_connection s)) local_port local_sequence in
      let s := set_connection (default (sk_connection s) c) s in
      if negb (rc =? 0) then (NET_SOCKET_BAD_ARGUMENT, <[i := set_used 0 s]> sockets)
      else (Z.of_nat i, <[i := s]> sockets)
  | None => (NET_SOCKET_NO_SLOT, sockets)
  end.

(** A control segment built for the connection: result, segment and [*out_length]. *)
Definition built_segment (r : option (Z * ptr bytes)) (error : Z) (out_length : Z) : option (Z * ptr bytes * ptr Z) :=
  '(built, segment) ← r;
  if built <? 0 then Some (error, segment, Some out_length) else Some (0, segment, Some (u16 built)).

Definition net_socket_build_syn (sockets : sockets_t) (socket_id : Z) (segment : ptr bytes) (capacity : Z)
    (out_length : ptr Z) : option (Z * ptr bytes * ptr Z) :=
  match segment, out_length with
  | Some _, Some n =>
      if negb (valid_id sockets socket_id) then Some (NET_SOCKET_BAD_ARGUMENT, segment, out_length)
      else
        let c := sk_connection (slot_of sockets socket_id) in
        if negb (tcp_state c =? NET_TCP_STATE_SYN_SENT) then Some (NET_SOCKET_NOT_CONNECTED, segment, out_length)
        else built_segment (net_tcp_build_syn segment capacity (local_port c) (remote_port c) (u32 (local_sequence c - 1)))
               NET_SOCKET_BUFFER_SMALL n
  | _, _ => Some (NET_SOCKET_BAD_ARGUMENT, segment, out_length)
  end.

Definition net_socket_build_syn_ack (sockets : sockets_t) (socket_id : Z) (segment : ptr bytes) (capacity : Z)
    (out_length : ptr Z) : option (Z * ptr bytes * ptr Z) :=
  match segment, out_length with
  | Some _, Some n =>
      if negb (valid_id sockets socket_id) then Some (NET_SOCKET_BAD_ARGUMENT, segment, out_length)
      else built_segment (net_tcp_connection_build_syn_ack (Some (sk_connection (slot_of sockets socket_id))) segment capacity)
             NET_SOCKET_PROTOCOL n
  | _, _ => Some (NET_SOCKET_BAD_ARGUMENT, segment, out_length)
  end.

Definition net_socket_build_ack (sockets : sockets_t) (socket_id : Z) (segment : ptr bytes) (capacity : Z)
    (out_length : ptr Z) : option (Z * ptr bytes * ptr Z) :=
  match segment, out_length with
  | Some _, Some n =>
      if negb (valid_id sockets socket_id) then Some (NET_SOCKET_BAD_ARGUMENT, segment, out_length)
      else built_segment (net_tcp_connection_build_ack (Some (sk_connection (slot_of sockets socket_id))) segment capacity)
             NET_SOCKET_PROTOCOL n
  | _, _ => Some (NET_SOCKET_BAD_ARGUMENT, segment, out_length)
  end.

Definition net_socket_begin_close (sockets : sockets_t) (socket_id : Z) (segment : ptr bytes) (capacity : Z)
    (out_length : ptr Z) : option (Z * sockets_t * ptr bytes * ptr Z) :=
  match segment, out_length with
  | Some _, Some n =>
      if negb (valid_id sockets socket_id) then Some (NET_SOCKET_BAD_ARGUMENT, sockets, segment, out_length)
      else
        '(built, c, segment) ← net_tcp_connection_begin_close (Some (sk_connection (slot_of sockets socket_id))) segment capacity;
        let sockets := put_conn sockets socket_id c in
        if built <? 0 then Some (NET_SOCKET_PROTOCOL, sockets, segment, out_length)
        else Some (0, sockets, segment, Some (u16 built))
  | _, _ => Some (NET_SOCKET_BAD_ARGUMENT, sockets, segment, out_length)
  end.

Definition net_socket_close (sockets : sockets_t) (socket_id : Z) : Z * sockets_t :=
  if negb (valid_id sockets socket_id) then (NET_SOCKET_NOT_OPEN, sockets)
  else
    let s := slot_of sockets socket_id in
    (0, put_slot sockets socket_id
          (mk_slot 0 (set_state NET_TCP_STATE_CLOSED (sk_connection s)) (sk_buffer s) 0 0)).

(** The three calls that hand a segment to the connection. *)
Definition accept_with (f : ptr net_tcp_connection_t -> ptr net_tcp_view_t -> Z * ptr net_tcp_connection_t)
    (sockets : sockets_t) (socket_id : Z) (view : ptr net_tcp_view_t) : Z * sockets_t :=
  match view with
  | Some _ =>
      if negb (valid_id sockets socket_id) then (NET_SOCKET_BAD_ARGUMENT, sockets)
      else
        let '(rc, c) := f (Some (sk_connection (slot_of sockets socket_id))) view in
        (if rc =? 0 then 0 else NET_SOCKET_PROTOCOL, put_conn sockets socket_id c)
  | None => (NET_SOCKET_BAD_ARGUMENT, sockets)
  end.

Definition net_socket_accept_syn_ack := accept_with net_tcp_connection_accept_syn_ack.
Definition net_socket_accept_syn := accept_with net_tcp_connection_accept_syn.
Definition net_socket_accept_ack := accept_with net_tcp_connection_accept_ack.

Definition net_socket_send_limit (sockets : sockets_t) (socket_id : Z) (payload : ptr bytes) (length : Z)
    (segment : ptr bytes) (capacity : Z) (out_length : ptr Z) (limit : Z)
    : option (Z * sockets_t * ptr bytes * ptr Z) :=
  match payload, segment, out_length with
  | Some _, Some _, Some _ =>
      if negb (valid_id sockets socket_id) then Some (NET_SOCKET_BAD_ARGUMENT, sockets, segment, out_length)
      else
        let c := sk_connection (slot_of sockets socket_id) in
        if negb (tcp_state c =? NET_TCP_STATE_ESTABLISHED) then Some (NET_SOCKET_NOT_CONNECTED, sockets, segment, out_length)
        else if (length =? 0) || (NET_SOCKET_TX_CAPACITY <? length) then Some (NET_SOCKET_BUFFER_SMALL, sockets, segment, out_length)
        else
          '(built, c, segment) ← net_tcp_connection_build_data (Some c) segment capacity payload length limit;
          let sockets := put_conn sockets socket_id c in
          if built <? 0 then Some (NET_SOCKET_PROTOCOL, sockets, segment, out_length)
          else
            let '(rc, c) := net_tcp_connection_commit_send c length in
            let sockets := put_conn sockets socket_id c in
            if negb (rc =? 0) then Some (NET_SOCKET_PROTOCOL, sockets, segment, out_length)
            else Some (0, sockets, segment, Some (u16 built))
  | _, _, _ => Some (NET_SOCKET_BAD_ARGUMENT, sockets, segment, out_length)
  end.

Definition net_socket_send (sockets : sockets_t) (socket_id : Z) (payload : ptr bytes) (length : Z)
    (segment : ptr bytes) (capacity : Z) (out_length : ptr Z) : option (Z * sockets_t * ptr bytes * ptr Z) :=
  net_socket_send_limit sockets socket_id payload length segment capacity out_length 3.

Definition zero_view : net_tcp_view_t := mk_tcp_view 0 0 0 0 0 None 0.

(** The part of [net_socket_feed] after the handshake: space check, acceptance of
    the data, and the copy into the receive buffer. *)
Definition feed_data (sockets : sockets_t) (socket_id : Z) (view : net_tcp_view_t) : option (Z * sockets_t) :=
  let s := slot_of sockets socket_id in
  let available := u16 (NET_SOCKET_RX_CAPACITY - sk_length s) in
  if available <? v_payload_length view then Some (NET_SOCKET_BUFFER_SMALL, sockets)
  else
    let '(rc, c, accepted) := net_tcp_connection_accept_data (Some (sk_connection s)) (Some view) (Some 0) in
    let sockets := put_conn sockets socket_id c in
    let accepted := default 0 accepted in
    if negb (rc =? 0) then Some (NET_SOCKET_PROTOCOL, sockets)
    else if available <? accepted then Some (NET_SOCKET_BUFFER_SMALL, sockets)
    else
      let s := slot_of sockets socket_id in
      b ← copy_in (sk_buffer s) (sk_length s) (default [] (v_payload view)) accepted;
      Some (0, put_slot sockets socket_id (set_buffer b (u16 (sk_length s + accepted)) (sk_offset s) s)).

Definition net_socket_feed (sockets : sockets_t) (socket_id : Z) (segment : ptr bytes) (length : Z)
    : option (Z * sockets_t) :=
  match segment with
  | Some _ =>
      if negb (valid_id sockets socket_id) then Some (NET_SOCKET_BAD_ARGUMENT, sockets)
      else
        '(rc, view) ← net_tcp_parse segment length (Some zero_view);
        if negb (rc =? 0) then Some (NET_SOCKET_PROTOCOL, sockets)
        else
          let v := default zero_view view in
          let c := sk_connection (slot_of sockets socket_id) in
          if tcp_state c =? NET_TCP_STATE_LISTEN then
            let '(rc, c) := net_tcp_connection_accept_syn (Some c) view in
            Some (if rc =? 0 then 0 else NET_SOCKET_PROTOCOL, put_conn sockets socket_id c)
          else if tcp_state c =? NET_TCP_STATE_SYN_RECEIVED then
            let '(rc, c) := net_tcp_connection_accept_ack (Some c) view in
            let sockets := put_conn sockets socket_id c in
            if negb (rc =? 0) then Some (NET_SOCKET_PROTOCOL, sockets)
            else if v_payload_length v =? 0 then Some (0, sockets)
            else feed_data sockets socket_id v
          else feed_data sockets socket_id v
  | None => Some (NET_SOCKET_BAD_ARGUMENT, sockets)
  end.

Definition net_socket_receive (sockets : sockets_t) (socket_id : Z) (buffer : ptr bytes) (capacity : Z)
    (out_length : ptr Z) : option (Z * sockets_t * ptr bytes * ptr Z) :=
  match buffer, out_length with
  | Some b, Some _ =>
      if negb (valid_id sockets socket_id) then Some (NET_SOCKET_BAD_ARGUMENT, sockets, buffer, out_length)
      else
        let s := slot_of sockets socket_id in
        let available := u16 (sk_length s - sk_offset s) in
        let amount := if available <? capacity then available else capacity in
        data ← ld_bytes (sk_buffer s) (sk_offset s) amount;
        b ← st_bytes b 0 data;
        let offset := u16 (sk_offset s + amount) in
        s ← (if offset =? sk_length s then Some (set_buffer (sk_buffer s) 0 0 s)
             else if 0 <? offset then
               let rest := u16 (sk_length s - offset) in
               kept ← ld_bytes (sk_buffer s) offset rest;
               moved ← st_bytes (sk_buffer s) 0 kept;
               Some (set_buffer moved rest 0 s)
             else Some (set_buffer (sk_buffer s) (sk_length s) offset s));
        let c := sk_connection s in
        let c := if 0 <? amount
                 then set_window (u16 (if 65535 <? receive_window c + amount then 65535 else receive_window c + amount)) c
                 else c in
        Some (0, put_slot sockets socket_id (set_connection c s), Some b, Some amount)
  | _, _ => Some (NET_SOCKET_BAD_ARGUMENT, sockets, buffer, out_length)
  end.

Definition net_socket_receive_space (sockets : sockets_t) (socket_id : Z) : Z :=
  if negb (valid_id sockets socket_id) then 0
  else u16 (NET_SOCKET_RX_CAPACITY - sk_length (slot_of sockets socket_id)).

Definition net_socket_get_state (sockets : sockets_t) (socket_id : Z) (out_state : ptr Z) : Z * ptr Z :=
  if negb (valid_id sockets socket_id) then (NET_SOCKET_NOT_OPEN, out_state)
  else match out_state with
       | Some _ => (0, Some (tcp_state (sk_connection (slot_of sockets socket_id))))
       | None => (NET_SOCKET_BAD_ARGUMENT, out_state)
       end.

Definition net_socket_connection_snapshot (sockets : sockets_t) (socket_id : Z) (out : ptr net_tcp_connection_t)
    : Z * ptr net_tcp_connection_t :=
  if negb (valid_id sockets socket_id) then (NET_SOCKET_NOT_OPEN, out)
  else match out with
       | Some _ => (0, Some (sk_connection (slot_of sockets socket_id)))
       | None => (NET_SOCKET_BAD_ARGUMENT, out)
       end.

Definition net_socket_connection_restore (sockets : sockets_t) (socket_id : Z) (connection : ptr net_tcp_connection_t)
    : Z * sockets_t :=
  if negb (valid_id sockets socket_id) then (NET_SOCKET_NOT_OPEN, sockets)
  else match connection with
       | Some _ => (0, put_conn sockets socket_id connection)
       | None => (NET_SOCKET_BAD_ARGUMENT, sockets)
       end.

Definition net_socket_commit_send (sockets : sockets_t) (socket_id payload_length : Z) : Z * sockets_t :=
  if negb (valid_id sockets socket_id) then (NET_SOCKET_BAD_ARGUMENT, sockets)
  else
    let '(rc, c) := net_tcp_connection_commit_send (Some (sk_connection (slot_of sockets socket_id))) payload_length in
    (if rc =? 0 then 0 else NET_SOCKET_PROTOCOL, put_conn sockets socket_id c).

Definition net_socket_reset_all (sockets : sockets_t) : sockets_t :=
  List.map (fun s => mk_slot 0 (set_state NET_TCP_STATE_CLOSED (sk_connection s)) (sk_buffer s) 0 0) sockets.
