(* ===== verification/NetStream.v ===== *)
(** * A TCP connection delivers a stream

    Two hosts with the sockets of kernel/net_socket.c: the three-way handshake
    through the segments the code builds, and the delivery of what one side sends
    over a network that may lose, duplicate, delay and reorder segments. *)

From Stdlib Require Import ZArith Lia.
From stdpp Require Import base numbers option tactics list relations.
From S2P Require Import Prelude Bytes NetBuf RegistryState NetTcp NetSocket.

(** ** Slots *)
Lemma valid_slot t i :
  valid_id t i = true -> t !! Z.to_nat i = Some (slot_of t i) /\ c_true (sk_used (slot_of t i)) = true.
Proof.
  unfold valid_id, slot_of. intros H. bsimp. destruct (t !! Z.to_nat i) as [s|] eqn:E; [|done].
  by rewrite (list_lookup_total_correct _ _ _ E).
Qed.

Lemma slot_put t i s : valid_id t i = true -> slot_of (put_slot t i s) i = s.
Proof.
  intros [H _]%valid_slot. unfold slot_of, put_slot. apply list_lookup_total_correct, list_lookup_insert_eq.
  by eapply lookup_lt_Some.
Qed.

Lemma put_same t i : valid_id t i = true -> put_slot t i (slot_of t i) = t.
Proof. intros [H _]%valid_slot. by apply list_insert_id. Qed.

Lemma valid_put t i s : valid_id t i = true -> c_true (sk_used s) = true -> valid_id (put_slot t i s) i = true.
Proof.
  intros Hv Hs. pose proof (valid_slot t i Hv) as [Hl _]. unfold valid_id, put_slot in *. bsimp.
  rewrite list_lookup_insert_eq by (by eapply lookup_lt_Some). rewrite Hs.
  by rewrite (proj2 (Z.leb_le _ _)), (proj2 (Z.ltb_lt _ _)).
Qed.

Lemma put_put t i s s' : put_slot (put_slot t i s) i s' = put_slot t i s'.
Proof. apply list_insert_insert_eq. Qed.

Lemma put_conn_same t i : valid_id t i = true -> put_conn t i (Some (sk_connection (slot_of t i))) = t.
Proof.
  intros Hv. cbn [put_conn]. unfold set_connection.
  assert (E : mk_slot (sk_used (slot_of t i)) (sk_connection (slot_of t i)) (sk_buffer (slot_of t i))
                (sk_length (slot_of t i)) (sk_offset (slot_of t i)) = slot_of t i) by (by destruct (slot_of t i)).
  rewrite E. by apply put_same.
Qed.

(** A connected socket: state, ports, next sequence numbers. *)
Definition connected (t : sockets_t) (i lp rp lseq rseq : Z) : Prop :=
  valid_id t i = true /\
  let c := sk_connection (slot_of t i) in
  tcp_state c = NET_TCP_STATE_ESTABLISHED /\ local_port c = lp /\ remote_port c = rp /\
  local_sequence c = lseq /\ remote_sequence c = rseq /\ is_u16 (receive_window c).

(** The bytes waiting in the receive buffer. *)
Definition waiting (s : net_socket_slot_t) : bytes := take (Z.to_nat (sk_length s)) (sk_buffer s).

Definition buffer_ok (s : net_socket_slot_t) : Prop :=
  length (sk_buffer s) = 4096%nat /\ 0 <= sk_length s <= 4096 /\ sk_offset s = 0.

(** Window and buffer together: accepting shrinks one as it fills the other. *)
Definition window_ok (s : net_socket_slot_t) : Prop := receive_window (sk_connection s) + sk_length s = 65535.

(** ** Sending *)
Definition data_segment (lp rp seq ack : Z) (data : bytes) : bytes :=
  tcp_header lp rp seq ack NET_TCP_FLAG_ACK ++ data.

Lemma send_ok t i lp rp lseq rseq p n buf cap o limit :
  connected t i lp rp lseq rseq -> port_ok lp -> port_ok rp -> is_u32 lseq ->
  0 <= n <= blen p -> cap <= blen buf ->
  exists rc t' seg out, net_socket_send_limit t i (Some p) n (Some buf) cap (Some o) limit = Some (rc, t', Some seg, Some out) /\
    if (1 <=? n) && (n <=? 1500) && (20 + n <=? cap)
    then rc = 0 /\ connected t' i lp rp (u32 (lseq + n)) rseq /\ sk_buffer (slot_of t' i) = sk_buffer (slot_of t i) /\
         out = 20 + n /\ take (Z.to_nat out) seg = data_segment lp rp lseq rseq (take (Z.to_nat n) p)
    else rc <> 0 /\ t' = t.
Proof.
  intros (Hv & Hst & Hlp & Hrp & Hls & Hrs & Hw) Hpl Hpr Hu Hn Hcap. unfold net_socket_send_limit. rewrite Hv. cbn [negb].
  rewrite Hst, Z.eqb_refl. cbn [negb].
  destruct (Z.leb_spec 1 n); cbn [andb].
  2: { rewrite (proj2 (Z.eqb_eq n 0)) by lia. do 4 eexists. split; [done|]. by split. }
  rewrite (proj2 (Z.eqb_neq n 0)) by lia. cbn [orb].
  destruct (Z.leb_spec n 1500); unfold NET_SOCKET_TX_CAPACITY; cbn [andb].
  2: { rewrite (proj2 (Z.ltb_lt 1500 n)) by lia. do 4 eexists. split; [done|]. by split. }
  rewrite (proj2 (Z.ltb_ge 1500 n)) by lia.
  unfold net_tcp_connection_build_data. rewrite Hst, Z.eqb_refl, (proj2 (Z.eqb_neq n 0)) by lia. cbn [negb orb].
  rewrite Hlp, Hrp, Hls, Hrs.
  destruct (Z.leb_spec (20 + n) cap).
  - rewrite build_data_ok by (done || lia). cbn [mbind option_bind].
    rewrite (proj2 (Z.ltb_ge (20 + n) 0)) by lia. unfold net_tcp_connection_track_send.
    rewrite Hst, Z.eqb_refl, (proj2 (Z.eqb_neq n 0)) by lia. cbn [negb orb Z.eqb mbind option_bind].
    rewrite (proj2 (Z.ltb_ge (20 + n) 0)) by lia. unfold net_tcp_connection_commit_send.
    cbn [tcp_state set_pending local_sequence]. rewrite Hst, Z.eqb_refl, (proj2 (Z.eqb_neq n 0)) by lia.
    cbn [negb orb Z.eqb put_conn]. do 4 eexists. split; [done|]. split; [done|].
    rewrite slot_put, put_put by done. rewrite (u16_id (20 + n)) by (unfold is_u16; lia).
    split; [|split; [by rewrite slot_put by done|split; [done|]]].
    + split; [by apply valid_put; [|apply valid_slot]|]. rewrite slot_put by done.
      cbn [sk_connection set_connection set_local_sequence set_pending tcp_state local_port remote_port
           local_sequence remote_sequence receive_window]. by rewrite Hls.
    + unfold data_segment. rewrite app_assoc. apply take_app_length'. rewrite length_app, length_take. cbn.
      unfold blen in Hn. lia.
  - unfold net_tcp_build_data, NET_TCP_HEADER_SIZE. rewrite (proj2 (Z.ltb_lt cap _)) by lia. cbn [orb mbind option_bind].
    change (-1 <? 0) with true. cbn [mbind option_bind]. change (-2 <? 0) with true. cbn match.
    do 4 eexists. split; [done|]. split; [done|]. by apply put_conn_same.
Qed.

(** ** Receiving *)
Lemma accept_data_cases c v :
  tcp_state c = NET_TCP_STATE_ESTABLISHED ->
  exists rc c' n, net_tcp_connection_accept_data (Some c) (Some v) (Some 0) = (rc, Some c', Some n) /\
    (rc <> 0 /\ c' = c \/
     rc = 0 /\ v_source_port v = remote_port c /\ v_destination_port v = local_port c /\ v_sequence v = remote_sequence c /\
     v_payload_length v <= receive_window c /\ n = v_payload_length v /\
     c' = set_window (u16 (receive_window c - n)) (set_remote_sequence (u32 (remote_sequence c + n)) c)).
Proof.
  intros Hst. unfold net_tcp_connection_accept_data. rewrite Hst, Z.eqb_refl. cbn [negb].
  case_if; [do 3 eexists; split; [done|by left]|]. bsimp.
  do 3 eexists. split; [done|]. right. split_and!; done.
Qed.

(** The data part of [net_socket_feed] on any view whose payload is readable. *)
Lemma feed_data_ok t i lp rp ls rs v body :
  connected t i lp rp ls rs -> buffer_ok (slot_of t i) -> is_u32 rs ->
  v_payload v = Some body -> 0 <= v_payload_length v <= blen body -> v_payload_length v < 65536 ->
  exists rc t', feed_data t i v = Some (rc, t') /\
    (rc <> 0 /\ t' = t \/
     rc = 0 /\ v_source_port v = rp /\ v_destination_port v = lp /\ v_sequence v = rs /\
     connected t' i lp rp ls (u32 (rs + v_payload_length v)) /\ buffer_ok (slot_of t' i) /\
     waiting (slot_of t' i) = waiting (slot_of t i) ++ take (Z.to_nat (v_payload_length v)) body /\
     (window_ok (slot_of t i) -> window_ok (slot_of t' i))).
Proof.
  intros (Hv & Hst & Hlp & Hrp & Hls & Hrs & Hw) (Hb & Hl & Ho) Hu Hpay Hlen Hmax. unfold feed_data, NET_SOCKET_RX_CAPACITY.
  rewrite !(u16_id (4096 - sk_length (slot_of t i))) by (unfold is_u16; lia).
  destruct (Z.ltb_spec (4096 - sk_length (slot_of t i)) (v_payload_length v)).
  { do 2 eexists. split; [done|]. by left. }
  destruct (accept_data_cases (sk_connection (slot_of t i)) v Hst)
    as (rc & c' & n & -> & [(Hrc & ->)|(-> & Hsp & Hdp & Hseq & Hwin & -> & ->)]).
  - rewrite put_conn_same by done. rewrite (proj2 (Z.eqb_neq rc 0)) by done. do 2 eexists. split; [done|]. by left.
  - change (negb (0 =? 0)) with false. cbn [put_conn default from_option]. unfold id.
    rewrite (proj2 (Z.ltb_ge (4096 - _) _)) by lia. rewrite slot_put by done.
    cbn [set_connection sk_buffer sk_length sk_offset]. rewrite Hpay. cbn [default from_option id].
    assert (Hsplit : sk_buffer (slot_of t i) = waiting (slot_of t i) ++ drop (Z.to_nat (sk_length (slot_of t i))) (sk_buffer (slot_of t i)))
      by (symmetry; apply take_drop).
    assert (Hwl : blen (waiting (slot_of t i)) = sk_length (slot_of t i))
      by (unfold blen, waiting; rewrite length_take; lia).
    assert (Hcopy : copy_in (waiting (slot_of t i) ++ drop (Z.to_nat (sk_length (slot_of t i))) (sk_buffer (slot_of t i)))
      (sk_length (slot_of t i)) body (v_payload_length v) = Some ((waiting (slot_of t i) ++ take (Z.to_nat (v_payload_length v)) body)
        ++ drop (Z.to_nat (v_payload_length v)) (drop (Z.to_nat (sk_length (slot_of t i))) (sk_buffer (slot_of t i)))))
      by (apply copy_behind; [done|done|unfold blen in *; rewrite length_drop; lia]).
    rewrite <- Hsplit in Hcopy. rewrite Hcopy.
    cbn [mbind option_bind]. rewrite (u16_id (sk_length (slot_of t i) + _)) by (unfold is_u16; lia).
    do 2 eexists. split; [done|]. right. unfold set_buffer. cbn [sk_used set_connection sk_connection].
    rewrite put_put, !slot_put by done. subst lp rp ls rs. do 4 (split; [done|]). split; [|split; [|split]].
    + split; [by apply valid_put; [|apply valid_slot]|]. rewrite slot_put by done. cbn.
      split_and!; try done. apply u16_range.
    + unfold buffer_ok. cbn [sk_buffer sk_length sk_offset]. rewrite !length_app, length_take, !length_drop.
      unfold blen, waiting in *. rewrite length_take in *. lia.
    + unfold waiting at 1. cbn [sk_buffer sk_length]. apply take_app_length'. rewrite length_app, length_take.
      unfold blen in *. lia.
    + unfold window_ok. cbn [sk_connection sk_length set_window receive_window]. unfold is_u16 in Hw.
      rewrite u16_id by (unfold is_u16; lia). lia.
Qed.

Lemma data_segment_length lp rp seq ack data : blen (data_segment lp rp seq ack data) = 20 + blen data.
Proof. unfold data_segment, blen. rewrite length_app, header_20. lia. Qed.

(** A data segment of the peer, as it was sent. *)
Lemma feed_segment_ok t i lp rp ls rs seq ack data :
  connected t i lp rp ls rs -> buffer_ok (slot_of t i) -> port_ok lp -> port_ok rp ->
  is_u32 rs -> is_u32 seq -> is_u32 ack -> 1 <= blen data <= 1500 ->
  exists rc t', net_socket_feed t i (Some (data_segment rp lp seq ack data)) (20 + blen data) = Some (rc, t') /\
    (rc <> 0 /\ t' = t \/
     rc = 0 /\ seq = rs /\ connected t' i lp rp ls (u32 (rs + blen data)) /\ buffer_ok (slot_of t' i) /\
     waiting (slot_of t' i) = waiting (slot_of t i) ++ data /\
     (window_ok (slot_of t i) -> window_ok (slot_of t' i))).
Proof.
  intros Hc Hb Hlp Hrp Hrs Hseq Hack Hd. pose proof Hc as (Hv & Hst & _). unfold net_socket_feed. rewrite Hv. cbn [negb].
  unfold data_segment. rewrite tcp_parse_ok by (done || lia || (unfold NET_TCP_FLAG_ACK; lia)).
  cbn [mbind option_bind Z.eqb negb default from_option]. rewrite Hst. cbn [Z.eqb Pos.eqb NET_TCP_STATE_ESTABLISHED NET_TCP_STATE_LISTEN NET_TCP_STATE_SYN_RECEIVED].
  replace (20 + blen data - 20) with (blen data) by lia. unfold id.
  edestruct (feed_data_ok t i lp rp ls rs) as (rc & t' & E & H); [done|done|done|..].
  4: { rewrite E. do 2 eexists. split; [done|]. cbn [v_payload_length v_sequence] in H.
       destruct H as [H|(-> & _ & _ & Hs & Hc' & Hb' & Hw & Hwin)]; [by left|]. right. split_and!; try done.
       rewrite Hw. f_equal. apply take_ge. unfold blen. lia. }
  1: cbn; reflexivity. all: cbn [v_payload_length]; lia.
Qed.

(** Traffic of other connections is refused. *)
Definition foreign (lp rp : Z) (seg : bytes) : Prop :=
  forall v, net_tcp_parse (Some seg) (blen seg) (Some zero_view) = Some (0, Some v) ->
    v_source_port v <> rp \/ v_destination_port v <> lp.

Lemma feed_foreign t i lp rp ls rs seg :
  connected t i lp rp ls rs -> buffer_ok (slot_of t i) -> is_u32 rs -> Forall is_u8 seg -> blen seg < 65536 ->
  foreign lp rp seg ->
  exists rc, net_socket_feed t i (Some seg) (blen seg) = Some (rc, t) /\ rc <> 0.
Proof.
  intros Hc Hb Hrs Hu Hmax Hf. pose proof Hc as (Hv & Hst & _). unfold net_socket_feed. rewrite Hv. cbn [negb].
  destruct (tcp_parse_safe seg (blen seg) zero_view Hu) as (rc & v & E & Hrc); [lia|]. rewrite E. cbn [mbind option_bind].
  destruct (Z.eqb_spec rc 0) as [->|]; cbn [negb]; [|by eexists].
  rewrite Hst. cbn [Z.eqb Pos.eqb NET_TCP_STATE_ESTABLISHED NET_TCP_STATE_LISTEN NET_TCP_STATE_SYN_RECEIVED default from_option]. unfold id.
  destruct (Hrc eq_refl) as (h & Hh & Hpay & Hlen & Hu16). unfold is_u16 in Hu16.
  assert (Hl : v_payload_length v = blen seg - h) by (rewrite Hlen, u16_id; [done|unfold is_u16; lia]).
  destruct (feed_data_ok t i lp rp ls rs v (drop (Z.to_nat h) seg)) as (rc & t' & E' & H); try done.
  { rewrite Hl. unfold blen in *. rewrite length_drop. lia. } { lia. }
  rewrite E'. destruct H as [[H ->]|(_ & Hsp & Hdp & _)]; [by eexists|]. destruct (Hf v E); congruence.
Qed.

Lemma receive_ok t i lp rp ls rs buf cap o :
  connected t i lp rp ls rs -> buffer_ok (slot_of t i) -> 0 <= cap < 65536 -> cap <= blen buf ->
  exists t' b n, net_socket_receive t i (Some buf) cap (Some o) = Some (0, t', Some b, Some n) /\
    0 <= n <= cap /\ take (Z.to_nat n) b ++ waiting (slot_of t' i) = waiting (slot_of t i) /\
    n = Z.min cap (sk_length (slot_of t i)) /\
    connected t' i lp rp ls rs /\ buffer_ok (slot_of t' i) /\ (window_ok (slot_of t i) -> window_ok (slot_of t' i)).
Proof.
  intros (Hv & Hst & Hlp & Hrp & Hls & Hrs & Hw) (Hb & Hl & Ho) Hc Hbuf. unfold net_socket_receive. rewrite Hv. cbn [negb].
  set (s := slot_of t i) in *. rewrite Ho, Z.sub_0_r, Z.add_0_l, (u16_id (sk_length s)) by (unfold is_u16; lia).
  set (n := if sk_length s <? cap then sk_length s else cap).
  assert (Hn : n = Z.min cap (sk_length s)) by (unfold n; case_if; lia). clearbody n.
  rewrite (ld_bytes_ok (sk_buffer s) 0 n) by (unfold blen; lia). cbn [mbind option_bind]. change (Z.to_nat 0) with 0%nat. rewrite drop_0.
  assert (Htl : length (take (Z.to_nat n) (sk_buffer s)) = Z.to_nat n) by (rewrite length_take; lia).
  rewrite (st_bytes_ok buf 0) by (unfold blen in *; rewrite ?Htl; lia). cbn [mbind option_bind].
  assert (Hbt : take (Z.to_nat n) (patch buf 0 (take (Z.to_nat n) (sk_buffer s))) = take (Z.to_nat n) (sk_buffer s)).
  { unfold patch. change (take (Z.to_nat 0) buf) with (@nil Z). rewrite app_nil_l. by apply take_app_length'. }
  rewrite (u16_id n) by (unfold is_u16; lia).
  set (w := u16 (if 65535 <? receive_window (sk_connection s) + n then 65535 else receive_window (sk_connection s) + n)).
  (* every branch ends with some buffer [b] of which [len] bytes wait *)
  cut (exists b len, 
    (if n =? sk_length s then Some (set_buffer (sk_buffer s) 0 0 s)
     else if 0 <? n then
       kept ← ld_bytes (sk_buffer s) n (u16 (sk_length s - n));
       moved ← st_bytes (sk_buffer s) 0 kept;
       Some (set_buffer moved (u16 (sk_length s - n)) 0 s)
     else Some (set_buffer (sk_buffer s) (sk_length s) n s)) = Some (set_buffer b len 0 s) /\
    length b = 4096%nat /\ 0 <= len <= 4096 /\ len = sk_length s - n /\
    take (Z.to_nat n) (sk_buffer s) ++ take (Z.to_nat len) b = waiting s).
  { intros (b & len & -> & Hb' & Hl' & Hln & Hw'). cbn [mbind option_bind set_buffer sk_connection]. fold w.
    do 3 eexists. split; [done|]. split; [lia|]. rewrite Hbt. split; [|split; [done|split; [|split]]].
    - rewrite slot_put by done. done.
    - split; [apply valid_put; [done|]; by apply (valid_slot t i)|]. rewrite slot_put by done. cbn [set_connection sk_connection].
      destruct (0 <? n); cbn [set_window tcp_state local_port remote_port local_sequence remote_sequence receive_window];
        split_and!; done || apply u16_range.
    - rewrite slot_put by done. done.
    - rewrite slot_put by done. unfold window_ok. cbn [set_connection set_buffer sk_connection sk_length]. fold s. intros Hwin.
      destruct (Z.ltb_spec 0 n); cbn [set_window receive_window]; [|lia].
      subst w. rewrite (proj2 (Z.ltb_ge 65535 _)), u16_id by (unfold is_u16 in *; lia). lia. }
  destruct (Z.eqb_spec n (sk_length s)) as [E|E].
  { do 2 eexists. split; [done|]. split; [done|]. split; [lia|]. split; [lia|]. rewrite E. cbn. by rewrite app_nil_r. }
  destruct (Z.ltb_spec 0 n).
  - rewrite (u16_id (sk_length s - n)) by (unfold is_u16; lia). rewrite ld_bytes_ok by (unfold blen; lia). cbn [mbind option_bind].
    assert (Hkl : length (take (Z.to_nat (sk_length s - n)) (drop (Z.to_nat n) (sk_buffer s))) = Z.to_nat (sk_length s - n))
      by (rewrite length_take, length_drop; lia).
    rewrite st_bytes_ok by (unfold blen; rewrite ?Hkl; lia). cbn [mbind option_bind].
    do 2 eexists. split; [done|]. split; [rewrite patch_length; unfold blen; rewrite ?Hkl; lia|]. split; [lia|]. split; [lia|].
    unfold patch. change (take (Z.to_nat 0) (sk_buffer s)) with (@nil Z). cbn [app]. rewrite take_app_length' by done. unfold waiting.
    replace (Z.to_nat (sk_length s)) with (Z.to_nat n + Z.to_nat (sk_length s - n))%nat by lia.
    by rewrite take_take_drop.
  - assert (n = 0) by lia. do 2 eexists. split; [by replace n with 0|]. split; [done|]. split; [lia|]. split; [lia|].
    by replace n with 0.
Qed.

(** ** The network between two sockets *)
Record net_link := mk_link {
  ln_snd : sockets_t; ln_rcv : sockets_t;  (** the socket tables of the two hosts *)
  ln_wire : list bytes;                    (** every segment ever put on the network *)
  ln_sent : bytes; ln_got : bytes          (** bytes accepted from the sending, given to the receiving program *)
}.

(** One step of either host.  A segment on the wire may be delivered at any time,
    any number of times or never; [i] and [j] are the two sockets. *)
Inductive link_step (i j lp rp : Z) : net_link -> net_link -> Prop :=
| link_send k p n buf cap o limit rc snd seg out :
    0 <= n <= blen p -> cap <= blen buf ->
    net_socket_send_limit (ln_snd k) i (Some p) n (Some buf) cap (Some o) limit = Some (rc, snd, Some seg, Some out) ->
    link_step i j lp rp k
      (mk_link snd (ln_rcv k)
         (if rc =? 0 then take (Z.to_nat out) seg :: ln_wire k else ln_wire k)
         (if rc =? 0 then ln_sent k ++ take (Z.to_nat n) p else ln_sent k) (ln_got k))
| link_acknowledge k v rc snd :
    net_socket_accept_ack (ln_snd k) i (Some v) = (rc, snd) ->
    link_step i j lp rp k (mk_link snd (ln_rcv k) (ln_wire k) (ln_sent k) (ln_got k))
| link_deliver k seg rc rcv :
    seg ∈ ln_wire k -> net_socket_feed (ln_rcv k) j (Some seg) (blen seg) = Some (rc, rcv) ->
    link_step i j lp rp k (mk_link (ln_snd k) rcv (ln_wire k) (ln_sent k) (ln_got k))
| link_foreign k seg rc rcv :
    Forall is_u8 seg -> blen seg < 65536 -> foreign rp lp seg ->
    net_socket_feed (ln_rcv k) j (Some seg) (blen seg) = Some (rc, rcv) ->
    link_step i j lp rp k (mk_link (ln_snd k) rcv (ln_wire k) (ln_sent k) (ln_got k))
| link_receive k buf cap o rc rcv b n :
    0 <= cap < 65536 -> cap <= blen buf ->
    net_socket_receive (ln_rcv k) j (Some buf) cap (Some o) = Some (rc, rcv, Some b, Some n) ->
    link_step i j lp rp k (mk_link (ln_snd k) rcv (ln_wire k) (ln_sent k) (ln_got k ++ take (Z.to_nat n) b)).

(** What has reached the receiving host in order. *)
Definition arrived (j : Z) (k : net_link) : bytes := ln_got k ++ waiting (slot_of (ln_rcv k) j).

Definition wire_ok (lp rp iss irs : Z) (sent seg : bytes) : Prop :=
  exists off data, seg = data_segment lp rp (u32 (iss + off)) irs data /\
    1 <= blen data <= 1500 /\ 0 <= off /\ off + blen data <= blen sent /\
    take (length data) (drop (Z.to_nat off) sent) = data.

Record link_inv (i j lp rp iss irs : Z) (k : net_link) : Prop := {
  li_ports : port_ok lp /\ port_ok rp /\ is_u32 irs;
  li_snd : connected (ln_snd k) i lp rp (u32 (iss + blen (ln_sent k))) irs;
  li_rcv : connected (ln_rcv k) j rp lp irs (u32 (iss + blen (arrived j k)));
  li_buf : buffer_ok (slot_of (ln_rcv k) j) /\ window_ok (slot_of (ln_rcv k) j);
  li_prefix : arrived j k `prefix_of` ln_sent k;
  li_wire : Forall (wire_ok lp rp iss irs (ln_sent k)) (ln_wire k)
}.

(** The state after the handshake. *)
Definition link_start (i j lp rp iss irs : Z) (k : net_link) : Prop :=
  port_ok lp /\ port_ok rp /\ is_u32 iss /\ is_u32 irs /\
  connected (ln_snd k) i lp rp iss irs /\ connected (ln_rcv k) j rp lp irs iss /\
  length (sk_buffer (slot_of (ln_rcv k) j)) = 4096%nat /\
  sk_length (slot_of (ln_rcv k) j) = 0 /\ sk_offset (slot_of (ln_rcv k) j) = 0 /\
  receive_window (sk_connection (slot_of (ln_rcv k) j)) = 65535 /\
  ln_wire k = [] /\ ln_sent k = [] /\ ln_got k = [].

Lemma link_start_inv i j lp rp iss irs k : link_start i j lp rp iss irs k -> link_inv i j lp rp iss irs k.
Proof.
  intros (Hlp & Hrp & Hiss & Hirs & Hs & Hr & Hb & Hl & Ho & Hwin & Hw & Hsent & Hgot).
  assert (Ha : arrived j k = []) by (unfold arrived, waiting; by rewrite Hgot, Hl).
  split; [done| | | | |].
  - rewrite Hsent. change (blen []) with 0. by rewrite Z.add_0_r, u32_id.
  - rewrite Ha. change (blen []) with 0. by rewrite Z.add_0_r, u32_id.
  - unfold buffer_ok, window_ok. lia.
  - rewrite Ha. apply prefix_nil.
  - rewrite Hw. constructor.
Qed.

Lemma u32_offset iss a b : 0 <= a < 4294967296 -> 0 <= b < 4294967296 -> u32 (iss + a) = u32 (iss + b) -> a = b.
Proof. unfold u32. intros Ha Hb H. zlia. Qed.

Lemma wire_ok_mono lp rp iss irs sent more seg :
  wire_ok lp rp iss irs sent seg -> wire_ok lp rp iss irs (sent ++ more) seg.
Proof.
  intros (off & data & Hs & Hd & Ho & Hl & Ht). exists off, data. split_and!; try done; try lia.
  - unfold blen in *. rewrite length_app. lia.
  - unfold blen in *. rewrite drop_app_le by lia. rewrite take_app_le by (rewrite length_drop; lia). done.
Qed.

(** Accepting the segment that starts where the arrived bytes end. *)
Lemma prefix_extend (arr sent data : bytes) :
  arr `prefix_of` sent -> take (length data) (drop (length arr) sent) = data -> arr ++ data `prefix_of` sent.
Proof.
  intros [rest ->] H. rewrite drop_app_length in H. rewrite <- H. apply prefix_app. exists (drop (length data) rest).
  symmetry. apply take_drop.
Qed.

Lemma ack_keeps_connected t i lp rp ls rs v rc t' :
  connected t i lp rp ls rs -> net_socket_accept_ack t i (Some v) = (rc, t') -> connected t' i lp rp ls rs.
Proof.
  intros Hc. pose proof Hc as (Hv & Hst & Hlp & Hrp & Hls & Hrs & Hw).
  unfold net_socket_accept_ack, accept_with. rewrite Hv. cbn [negb]. unfold net_tcp_connection_accept_ack.
  rewrite Hst. cbn [Z.eqb Pos.eqb NET_TCP_STATE_ESTABLISHED NET_TCP_STATE_SYN_RECEIVED NET_TCP_STATE_FIN_WAIT_1 negb andb].
  repeat (case_if; [rewrite put_conn_same by done; by intros [= _ <-]|]).
  intros [= _ <-]. cbn [put_conn]. split; [by apply valid_put; [|apply valid_slot]|]. rewrite slot_put by done.
  cbn [set_connection sk_connection]. clear Heqb. destruct (negb (pending_length _ =? 0)); cbn [set_pending tcp_state local_port
    remote_port local_sequence remote_sequence receive_window]; rewrite Hst; cbn [Z.eqb Pos.eqb andb NET_TCP_STATE_ESTABLISHED]; split_and!; done.
Qed.

Lemma link_step_inv i j lp rp iss irs k k' :
  link_inv i j lp rp iss irs k -> link_step i j lp rp k k' -> blen (ln_sent k') < 4294967296 ->
  link_inv i j lp rp iss irs k' /\ ln_sent k `prefix_of` ln_sent k'.
Proof.
  intros [(Hlp & Hrp & Hirs) Hs Hr [Hb Hwin] Hp Hw] Hstep Hmax.
  assert (Hpl : 0 <= blen (arrived j k) <= blen (ln_sent k)).
  { unfold blen. apply prefix_length in Hp. lia. }
  destruct Hstep as [k p n buf cap o limit rc snd seg out Hn Hcap E|k v rc snd E|k seg rc rcv Hin E|k seg rc rcv Hu H16 Hf E
                    |k buf cap o rc rcv b n Hcap Hbuf E]; cbn [ln_snd ln_rcv ln_wire ln_sent ln_got] in *.
  - destruct (send_ok (ln_snd k) i lp rp _ irs p n buf cap o limit Hs Hlp Hrp (u32_range _) Hn Hcap)
      as (rc' & t' & seg' & out' & E' & H). rewrite E in E'. injection E' as <- <- <- <-.
    destruct ((1 <=? n) && (n <=? 1500) && (20 + n <=? cap)) eqn:Eb.
    + bsimp. destruct H as (-> & Hc & _ & -> & Htake). change (0 =? 0) with true in *. cbn match in *.
      assert (Hl : blen (take (Z.to_nat n) p) = n) by (unfold blen in *; rewrite length_take; lia).
      split; [|by apply prefix_app_r].
      split; cbn [ln_snd ln_rcv ln_wire ln_sent ln_got]; [done| | |done|by apply prefix_app_r|].
      * unfold blen at 1. rewrite length_app, Nat2Z.inj_add. fold (blen (ln_sent k)) (blen (take (Z.to_nat n) p)).
        rewrite Hl. replace (u32 (iss + (blen (ln_sent k) + n))) with (u32 (u32 (iss + blen (ln_sent k)) + n)); [done|].
        unfold u32. rewrite Zplus_mod_idemp_l. f_equal. lia.
      * done.
      * rewrite Htake. apply Forall_cons. split; [|eapply Forall_impl; [exact Hw|intros; by apply wire_ok_mono]].
        exists (blen (ln_sent k)), (take (Z.to_nat n) p). split_and!; try done; try lia.
        { unfold blen. rewrite length_app. lia. }
        unfold blen. rewrite Nat2Z.id, drop_app_length. by apply take_ge.
    + destruct H as [Hne ->]. rewrite (proj2 (Z.eqb_neq rc 0)) by done. split; [|done].
      split; cbn; eauto.
  - split; [|done]. split; cbn; eauto. by eapply ack_keeps_connected.
  - rewrite Forall_forall in Hw. destruct (Hw seg Hin) as (off & data & -> & Hd & Ho & Hl & Ht).
    rewrite data_segment_length in E.
    destruct (feed_segment_ok (ln_rcv k) j rp lp irs _ (u32 (iss + off)) irs data Hr Hb Hrp Hlp (u32_range _) (u32_range _) Hirs Hd)
      as (rc' & t' & E' & H). rewrite E in E'. injection E' as <- <-. split; [|done].
    destruct H as [[_ ->]|(-> & Hseq & Hc & Hb' & Hwt & Hwin')]; [split; cbn; eauto; by rewrite Forall_forall|].
    apply u32_offset in Hseq; [|lia|lia]. subst off.
    assert (Ha : arrived j (mk_link (ln_snd k) rcv (ln_wire k) (ln_sent k) (ln_got k)) = arrived j k ++ data).
    { unfold arrived. cbn [ln_got ln_rcv]. rewrite Hwt. by rewrite app_assoc. }
    split; cbn [ln_snd ln_rcv ln_wire ln_sent ln_got]; [done|done| |by eauto| |by rewrite Forall_forall].
    * rewrite Ha. unfold blen at 1. rewrite length_app, Nat2Z.inj_add. fold (blen (arrived j k)) (blen data).
      replace (u32 (iss + (blen (arrived j k) + blen data))) with (u32 (u32 (iss + blen (arrived j k)) + blen data)); [done|].
      unfold u32. rewrite Zplus_mod_idemp_l. f_equal. lia.
    * rewrite Ha. apply prefix_extend; [done|]. rewrite <- Ht at 2. f_equal. f_equal. unfold blen. lia.
  - destruct (feed_foreign (ln_rcv k) j rp lp irs _ seg Hr Hb (u32_range _) Hu H16 Hf) as (rc' & E' & _).
    rewrite E in E'. injection E' as _ ->. split; [|done]. split; cbn; eauto.
  - destruct (receive_ok (ln_rcv k) j rp lp irs _ buf cap o Hr Hb Hcap Hbuf) as (t' & b' & n' & E' & Hn & Hwait & _ & Hc & Hb' & Hwin').
    rewrite E in E'. injection E' as -> <- <- <-. split; [|done].
    assert (Ha : arrived j (mk_link (ln_snd k) rcv (ln_wire k) (ln_sent k) (ln_got k ++ take (Z.to_nat n) b)) = arrived j k).
    { unfold arrived. cbn [ln_got ln_rcv]. by rewrite <- app_assoc, Hwait. }
    split; cbn [ln_snd ln_rcv ln_wire ln_sent ln_got]; rewrite ?Ha; eauto.
Qed.

Lemma link_reachable i j lp rp iss irs k0 k :
  link_start i j lp rp iss irs k0 -> rtc (link_step i j lp rp) k0 k -> blen (ln_sent k) < 4294967296 ->
  link_inv i j lp rp iss irs k.
Proof.
  intros Hstart Hsteps Hmax. apply link_start_inv in Hstart.
  refine (rtc_ind_r (fun k => blen (ln_sent k) < 4294967296 -> link_inv i j lp rp iss irs k) k0 _ _ k Hsteps Hmax); [done|].
  clear k Hsteps Hmax. intros k1 k2 Hsteps Hstep IH Hmax.
  assert (Hb : blen (ln_sent k1) < 4294967296).
  { destruct Hstep; cbn [ln_sent] in Hmax; try done. destruct (rc =? 0); [|done]. unfold blen in *. rewrite length_app in Hmax. lia. }
  by apply (link_step_inv i j lp rp iss irs k1 k2 (IH Hb) Hstep).
Qed.

(** C6. A TCP connection delivers a stream.  One of two connected sockets sends to the other
    over a network that may lose, duplicate, delay and reorder segments and carries
    other traffic, while programs send and receive in any interleaving: at every
    moment the bytes given to the receiving program, followed by those waiting in
    its buffer, are a prefix of the bytes the sending program handed over, in
    order, none twice and none invented (for up to 2^32 bytes, the range of
    sequence numbers). *)
Theorem tcp_delivers_stream :
  forall (i j lp rp iss irs : Z) (k0 k : net_link),
    link_start i j lp rp iss irs k0 -> rtc (link_step i j lp rp) k0 k -> blen (ln_sent k) < 4294967296 ->
    (ln_got k ++ waiting (slot_of (ln_rcv k) j)) `prefix_of` ln_sent k /\ buffer_ok (slot_of (ln_rcv k) j).
Proof.
  intros i j lp rp iss irs k0 k Hstart Hsteps Hmax.
  destruct (link_reachable i j lp rp iss irs k0 k Hstart Hsteps Hmax) as [_ _ _ [Hb _] Hp _]. by split.
Qed.


(** ** The handshake *)
Definition table_ok (t : sockets_t) : Prop :=
  length t = 8%nat /\ Forall (fun s => length (sk_buffer s) = 4096%nat) t.

Definition has_free (t : sockets_t) : Prop := exists k s, t !! k = Some s /\ sk_used s = 0.

Lemma free_slot t :
  table_ok t -> has_free t ->
  exists k, find_slot (fun s => negb (c_true (sk_used s))) t = Some k /\ (k < 8)%nat /\
    length (sk_buffer (t !!! k)) = 4096%nat.
Proof.
  intros [Hl Hb] (k & s & Hk & Hu). destruct (find_slot (fun s => negb (c_true (sk_used s))) t) as [n|] eqn:E.
  - exists n. apply find_slot_Some in E as (x & Hx & _ & _). split; [done|].
    pose proof (lookup_lt_Some _ _ _ Hx) as Hlt. split; [lia|].
    rewrite (list_lookup_total_correct _ _ _ Hx). by eapply Forall_lookup_1 in Hb.
  - rewrite find_slot_None in E. specialize (E k s Hk). rewrite Hu in E. done.
Qed.

Lemma valid_insert t n s :
  length t = 8%nat -> (n < 8)%nat -> c_true (sk_used s) = true ->
  valid_id (<[n := s]> t) (Z.of_nat n) = true /\ slot_of (<[n := s]> t) (Z.of_nat n) = s.
Proof.
  intros Hl Hn Hs. unfold valid_id, slot_of, NET_SOCKET_CAPACITY. rewrite Nat2Z.id.
  rewrite list_lookup_insert_eq by lia. rewrite Hs, (proj2 (Z.leb_le _ _)), (proj2 (Z.ltb_lt _ _)) by lia.
  split; [done|]. apply list_lookup_total_correct, list_lookup_insert_eq. lia.
Qed.

(** The control segments, as the peer parses them. *)
Lemma control_parse sp dp seq ack flags rest o :
  port_ok sp -> port_ok dp -> is_u32 seq -> is_u32 ack -> 0 <= flags < 64 ->
  net_tcp_parse (Some (tcp_header sp dp seq ack flags ++ rest)) 20 (Some o) =
    Some (0, Some (mk_tcp_view sp dp seq ack flags (Some rest) 0)).
Proof. intros. rewrite tcp_parse_ok by (done || lia). done. Qed.

Lemma port_nonzero p : port_ok p -> (p =? 0) = false.
Proof. intros H. apply Z.eqb_neq. unfold port_ok in H. lia. Qed.

(** The connections during a handshake. *)
Definition opened (lp rp iss : Z) : net_tcp_connection_t := mk_conn lp rp (u32 (iss + 1)) 0 None 0 0 0 65535 NET_TCP_STATE_SYN_SENT.
Definition listening (lp irs : Z) : net_tcp_connection_t := mk_conn lp 0 irs 0 None 0 0 0 65535 NET_TCP_STATE_LISTEN.
Definition half_open (lp rp irs rseq : Z) : net_tcp_connection_t :=
  mk_conn lp rp irs rseq None 0 0 0 65535 NET_TCP_STATE_SYN_RECEIVED.
Definition open_conn (lp rp lseq rseq : Z) : net_tcp_connection_t :=
  mk_conn lp rp lseq rseq None 0 0 0 65535 NET_TCP_STATE_ESTABLISHED.

Lemma u32_pred_succ z : is_u32 z -> u32 (u32 (z + 1) - 1) = z.
Proof. unfold is_u32, u32. intros H. zlia. Qed.

Section Handshake.
Context (cp sp iss irs : Z) (Hcp : port_ok cp) (Hsp : port_ok sp) (Hiss : is_u32 iss) (Hirs : is_u32 irs).
Context (t : sockets_t) (i : Z) (Hv : valid_id t i = true).
Implicit Types (b : bytes) (cap o : Z).

Lemma syn_sent b cap o :
  sk_connection (slot_of t i) = opened cp sp iss -> 20 <= cap <= blen b ->
  net_socket_build_syn t i (Some b) cap (Some o) = Some (0, Some (tcp_header cp sp iss 0 NET_TCP_FLAG_SYN ++ drop 20 b), Some 20).
Proof using Hv Hcp Hsp Hiss.
  intros Hc Hcap. unfold net_socket_build_syn. rewrite Hv, Hc.
  cbn [negb opened tcp_state Z.eqb Pos.eqb NET_TCP_STATE_SYN_SENT local_port remote_port local_sequence].
  unfold net_tcp_build_syn. rewrite u32_pred_succ by done.
  rewrite build_control_ok by (done || lia || (unfold NET_TCP_FLAG_SYN, is_u8; lia)). done.
Qed.

Lemma syn_received rest :
  sk_connection (slot_of t i) = listening sp irs ->
  net_socket_feed t i (Some (tcp_header cp sp iss 0 NET_TCP_FLAG_SYN ++ rest)) 20 =
    Some (0, put_conn t i (Some (half_open sp cp irs (u32 (iss + 1))))).
Proof using Hv Hcp Hsp Hiss.
  intros Hc. unfold net_socket_feed. rewrite Hv. cbn [negb].
  rewrite control_parse by (done || (unfold is_u32, NET_TCP_FLAG_SYN; lia)).
  cbn [mbind option_bind Z.eqb negb]. rewrite Hc. cbn [listening tcp_state Z.eqb Pos.eqb NET_TCP_STATE_LISTEN].
  unfold net_tcp_connection_accept_syn. cbn [tcp_state v_source_port v_destination_port v_flags local_port].
  rewrite Z.eqb_refl, (port_nonzero cp), Z.eqb_refl by done. done.
Qed.

Lemma syn_ack_sent b cap o :
  sk_connection (slot_of t i) = half_open sp cp irs (u32 (iss + 1)) -> 20 <= cap <= blen b ->
  net_socket_build_syn_ack t i (Some b) cap (Some o) =
    Some (0, Some (tcp_header sp cp irs (u32 (iss + 1)) 18 ++ drop 20 b), Some 20).
Proof using Hv Hcp Hsp Hirs.
  intros Hc Hcap. unfold net_socket_build_syn_ack. rewrite Hv, Hc. cbn [negb].
  unfold net_tcp_connection_build_syn_ack, half_open.
  cbn [tcp_state Z.eqb Pos.eqb NET_TCP_STATE_SYN_RECEIVED negb local_port remote_port local_sequence remote_sequence].
  unfold net_tcp_build_syn_ack. change (Z.lor NET_TCP_FLAG_SYN NET_TCP_FLAG_ACK) with 18.
  rewrite build_control_ok by (done || lia || (unfold is_u8; lia)). done.
Qed.

Lemma syn_ack_accepted rest :
  sk_connection (slot_of t i) = opened cp sp iss ->
  net_socket_accept_syn_ack t i (Some (mk_tcp_view sp cp irs (u32 (iss + 1)) 18 rest 0)) =
    (0, put_conn t i (Some (open_conn cp sp (u32 (iss + 1)) (u32 (irs + 1))))).
Proof using Hv Hcp Hsp Hiss.
  intros Hc. unfold net_socket_accept_syn_ack, accept_with. rewrite Hv, Hc. cbn [negb].
  unfold net_tcp_connection_accept_syn_ack, opened.
  cbn [tcp_state Z.eqb Pos.eqb NET_TCP_STATE_SYN_SENT negb local_port remote_port local_sequence].
  unfold net_tcp_is_syn_ack_for. rewrite (port_nonzero cp), (port_nonzero sp) by done. cbn [orb v_source_port v_destination_port v_flags v_acknowledgment].
  rewrite u32_pred_succ, !Z.eqb_refl by done. done.
Qed.

Lemma ack_sent b cap o lseq rseq :
  sk_connection (slot_of t i) = open_conn cp sp lseq rseq -> 20 <= cap <= blen b ->
  net_socket_build_ack t i (Some b) cap (Some o) =
    Some (0, Some (tcp_header cp sp lseq rseq NET_TCP_FLAG_ACK ++ drop 20 b), Some 20).
Proof using Hv Hcp Hsp.
  intros Hc Hcap. unfold net_socket_build_ack. rewrite Hv, Hc. cbn [negb].
  unfold net_tcp_connection_build_ack, open_conn.
  cbn [tcp_state Z.eqb Pos.eqb NET_TCP_STATE_ESTABLISHED negb andb local_port remote_port local_sequence remote_sequence].
  unfold net_tcp_build_ack. rewrite build_control_ok by (done || lia || (unfold is_u8, NET_TCP_FLAG_ACK; lia)). done.
Qed.

Lemma ack_received rest :
  sk_connection (slot_of t i) = half_open sp cp irs (u32 (iss + 1)) ->
  net_socket_feed t i (Some (tcp_header cp sp (u32 (iss + 1)) (u32 (irs + 1)) NET_TCP_FLAG_ACK ++ rest)) 20 =
    Some (0, put_conn t i (Some (open_conn sp cp (u32 (irs + 1)) (u32 (iss + 1))))).
Proof using Hv Hcp Hsp.
  intros Hc. unfold net_socket_feed. rewrite Hv. cbn [negb].
  rewrite control_parse by (done || apply u32_range || (unfold NET_TCP_FLAG_ACK; lia)).
  cbn [mbind option_bind Z.eqb negb]. rewrite Hc.
  cbn [half_open tcp_state Z.eqb Pos.eqb NET_TCP_STATE_LISTEN NET_TCP_STATE_SYN_RECEIVED].
  unfold net_tcp_connection_accept_ack, half_open. cbn [tcp_state v_source_port v_destination_port v_flags v_sequence v_acknowledgment
    local_port remote_port remote_sequence local_sequence]. rewrite !Z.eqb_refl. done.
Qed.
End Handshake.

Lemma put_conn_valid t i c : valid_id t i = true ->
  valid_id (put_conn t i (Some c)) i = true /\
  slot_of (put_conn t i (Some c)) i = set_connection c (slot_of t i).
Proof. intros Hv. cbn [put_conn]. split; [by apply valid_put; [|apply valid_slot]|by apply slot_put]. Qed.

Lemma open_connected t i lp rp lseq rseq :
  valid_id t i = true -> sk_connection (slot_of t i) = open_conn lp rp lseq rseq -> connected t i lp rp lseq rseq.
Proof. intros Hv Hc. split; [done|]. rewrite Hc. split_and!; try done; unfold is_u16; cbn; lia. Qed.

(** C24. The three-way handshake works: a client that opens a connection to a
    listening server, sends the SYN the code builds, and answers the server's
    SYN-ACK with its ACK, ends like the server in the established state with the
    sequence numbers of the two sides in step, empty buffers and full windows; so
    the stream theorems apply in both directions. *)
Theorem tcp_handshake_connects :
  forall (tc ts : sockets_t) (cp sp iss irs : Z) (b1 b2 b3 : bytes) (cap1 cap2 cap3 o1 o2 o3 : Z) (v0 : net_tcp_view_t),
    table_ok tc -> has_free tc -> table_ok ts -> has_free ts -> port_ok cp -> port_ok sp -> is_u32 iss -> is_u32 irs ->
    20 <= cap1 <= blen b1 -> 20 <= cap2 <= blen b2 -> 20 <= cap3 <= blen b3 ->
    exists i j tc1 ts1 seg1 ts2 seg2 v2 tc2 seg3 ts3,
      net_socket_open tc cp sp iss = (i, tc1) /\ net_socket_listen ts sp irs = (j, ts1) /\
      net_socket_build_syn tc1 i (Some b1) cap1 (Some o1) = Some (0, Some seg1, Some 20) /\
      net_socket_feed ts1 j (Some seg1) 20 = Some (0, ts2) /\
      net_socket_build_syn_ack ts2 j (Some b2) cap2 (Some o2) = Some (0, Some seg2, Some 20) /\
      net_tcp_parse (Some seg2) 20 (Some v0) = Some (0, Some v2) /\
      net_socket_accept_syn_ack tc1 i (Some v2) = (0, tc2) /\
      net_socket_build_ack tc2 i (Some b3) cap3 (Some o3) = Some (0, Some seg3, Some 20) /\
      net_socket_feed ts2 j (Some seg3) 20 = Some (0, ts3) /\
      link_start i j cp sp (u32 (iss + 1)) (u32 (irs + 1)) (mk_link tc2 ts3 [] [] []) /\
      link_start j i sp cp (u32 (irs + 1)) (u32 (iss + 1)) (mk_link ts3 tc2 [] [] []).
Proof.
  intros tc ts cp sp iss irs b1 b2 b3 cap1 cap2 cap3 o1 o2 o3 v0 Htc Hfc Hts Hfs Hcp Hsp Hiss Hirs H1 H2 H3.
  destruct (free_slot tc Htc Hfc) as (i & Ei & Hi & Hbi), (free_slot ts Hts Hfs) as (j & Ej & Hj & Hbj).
  destruct Htc as [Hlc _], Hts as [Hls _].
  unfold net_socket_open, net_socket_listen. rewrite Ei, Ej. cbn [net_tcp_connection_open net_tcp_connection_listen].
  rewrite (port_nonzero cp), (port_nonzero sp) by done. cbn [orb negb Z.eqb default from_option]. unfold id.
  set (sc := set_connection (mk_conn cp sp _ _ _ _ _ _ _ _) _). set (ss := set_connection (mk_conn sp 0 _ _ _ _ _ _ _ _) _).
  destruct (valid_insert tc i sc Hlc Hi eq_refl) as [Vc Sc], (valid_insert ts j ss Hls Hj eq_refl) as [Vs Ss].
  destruct (put_conn_valid _ _ (half_open sp cp irs (u32 (iss + 1))) Vs) as [Vs2 Ss2].
  destruct (put_conn_valid _ _ (open_conn sp cp (u32 (irs + 1)) (u32 (iss + 1))) Vs2) as [Vs3 Ss3].
  destruct (put_conn_valid _ _ (open_conn cp sp (u32 (iss + 1)) (u32 (irs + 1))) Vc) as [Vc2 Sc2].
  do 11 eexists. split; [done|]. split; [done|].
  split; [by apply (syn_sent cp sp iss); rewrite ?Sc|].
  split; [by apply (syn_received cp sp iss irs); rewrite ?Ss|].
  split; [by apply (syn_ack_sent cp sp iss irs); rewrite ?Ss2|].
  split; [by apply control_parse; try done; apply u32_range|].
  split; [by apply (syn_ack_accepted cp sp iss irs); rewrite ?Sc|].
  split; [by apply (ack_sent cp sp); rewrite ?Sc2|].
  split; [by apply (ack_received cp sp iss irs); rewrite ?Ss2|].
  split; (do 2 (split; [done|])); (do 2 (split; [apply u32_range|])); cbn [ln_snd ln_rcv ln_wire ln_sent ln_got];
    (split; [apply open_connected; rewrite ?Ss3, ?Sc2; done|]); (split; [apply open_connected; rewrite ?Ss3, ?Sc2; done|]);
    rewrite ?Ss3, ?Ss2, ?Sc2, ?Ss, ?Sc; done.
Qed.

(** ** A concrete connection *)
Definition demo_host (c : net_tcp_connection_t) : sockets_t :=
  mk_slot 1 c (replicate 4096 0) 0 0 :: replicate 7 zero_slot.

Definition demo_link : net_link := mk_link (demo_host (open_conn 1000 80 5 9)) (demo_host (open_conn 80 1000 9 5)) [] [] [].

Lemma demo_link_start : link_start 0 0 1000 80 5 9 demo_link.
Proof.
  assert (Hv : forall c, valid_id (demo_host c) 0 = true) by done.
  assert (Hs : forall c, slot_of (demo_host c) 0 = mk_slot 1 c (replicate 4096 0) 0 0) by done.
  unfold link_start, demo_link, port_ok, is_u32. cbn [ln_snd ln_rcv ln_wire ln_sent ln_got].
  split; [lia|]. split; [lia|]. split; [lia|]. split; [lia|].
  split; [by apply open_connected; rewrite ?Hs|]. split; [by apply open_connected; rewrite ?Hs|].
  rewrite Hs. cbn [sk_buffer]. rewrite length_replicate. done.
Qed.

(** Three bytes are sent. *)
Lemma demo_sent :
  exists k, rtc (link_step 0 0 1000 80) demo_link k /\ ln_sent k = [1; 2; 3] /\ ln_rcv k = ln_rcv demo_link /\
    ln_got k = [] /\ ln_wire k = [data_segment 1000 80 5 9 [1; 2; 3]].
Proof.
  pose proof demo_link_start as (Hlp & Hrp & _ & _ & Hs & _).
  destruct (send_ok (ln_snd demo_link) 0 1000 80 5 9 [1; 2; 3] 3 (replicate 64 0) 64 0 3 Hs Hlp Hrp
    ltac:(unfold is_u32; lia) ltac:(vm_compute; split; discriminate) ltac:(vm_compute; discriminate))
    as (rc & t' & seg & out & E & H).
  change ((1 <=? 3) && (3 <=? 1500) && (20 + 3 <=? 64)) with true in H. cbn match in H. destruct H as (-> & _ & _ & -> & Ht).
  eexists. split; [eapply rtc_once, link_send; [| |exact E]; vm_compute; try split; discriminate|].
  cbn [ln_sent ln_rcv ln_got ln_wire Z.eqb]. rewrite Ht. done.
Qed.

Example tcp_delivers_stream_witness :
  exists k, rtc (link_step 0 0 1000 80) demo_link k /\ ln_sent k = [1; 2; 3] /\
    (ln_got k ++ waiting (slot_of (ln_rcv k) 0)) `prefix_of` [1; 2; 3].
Proof.
  destruct demo_sent as (k & Hk & Hs & _). exists k. split; [exact Hk|]. split; [exact Hs|]. rewrite <- Hs.
  refine (proj1 (tcp_delivers_stream 0 0 1000 80 5 9 demo_link k demo_link_start Hk _)). rewrite Hs. reflexivity.
Defined.


Example tcp_handshake_connects_witness :
  exists i j k, link_start i j 1000 80 8 4 k.
Proof.
  assert (Hok : table_ok (replicate 8 zero_slot)).
  { split; [reflexivity|]. apply Forall_replicate. apply length_replicate. }
  assert (Hf : has_free (replicate 8 zero_slot)) by (exists 0%nat, zero_slot; split; reflexivity).
  destruct (tcp_handshake_connects (replicate 8 zero_slot) (replicate 8 zero_slot) 1000 80 7 3
    (replicate 40 0) (replicate 40 0) (replicate 40 0) 40 40 40 0 0 0 zero_view Hok Hf Hok Hf)
    as (i & j & tc1 & ts1 & s1 & ts2 & s2 & v2 & tc2 & s3 & ts3 & H);
    try (unfold port_ok, is_u32; lia); try (vm_compute; split; discriminate).
  exists i, j, (mk_link tc2 ts3 [] [] []). apply H.
Defined.
