(* ===== verification/NetSafe.v ===== *)
(** * Everything the network card hands up is parsed safely

    One theorem over the six parsers that see bytes from the wire: ARP, UDP, ICMP,
    DHCP (offer and acknowledgement), DNS and TCP.  The models answer [None] for a
    read outside the buffer, so a [Some] on every input is memory safety. *)
From Stdlib Require Import ZArith Lia.
From stdpp Require Import base numbers option tactics list.
From S2P Require Import Prelude Bytes NetBuf NetArp NetIpv4 NetDhcp NetDns NetTcp.


(** The payload of a view is the rest of the packet after a header of [h] bytes and
    ends inside the announced length. *)
Definition payload_inside (p : bytes) (len h : Z) (payload : ptr bytes) (n : Z) : Prop :=
  payload = Some (drop (Z.to_nat h) p) /\ 0 <= n /\ h + n <= len.

(** C38. Bytes from the wire are parsed safely: for every packet of any content and
    every claimed length up to its size, each parser of the stack reads inside the
    packet only and answers.  What it accepts is bounded: UDP, ICMP and TCP payloads
    lie inside the claimed length, ARP packets are Ethernet/IPv4 ones, DHCP and DNS
    answers carry the expected identifier; a packet that UDP, ICMP, DNS or a DHCP
    acknowledgement refuses leaves the caller's result as it was. *)
Theorem wire_parsers_safe :
  forall (p : bytes) (len id : Z) (a : net_arp_packet_t) (u : net_udp_view_t) (i : net_icmp_view_t)
    (o : net_dhcp_offer_t) (l : net_dhcp_lease_t) (d : net_dns_a_result_t) (t : net_tcp_view_t),
    packet_ok p len ->
    (exists rc r, net_arp_parse (Some p) len (Some a) = Some (rc, r) /\
       (rc = 0 -> 42 <= len /\ exists a', r = Some a' /\ protocol_type a' = NET_ARP_PTYPE_IPV4)) /\
    (exists rc u', net_udp_parse_ipv4 (Some p) len (Some u) = Some (rc, Some u') /\ (rc <> 0 -> u' = u) /\
       (rc = 0 -> payload_inside p len 28 (uv_payload u') (uv_payload_length u'))) /\
    (exists rc i', net_icmp_parse_ipv4 (Some p) len (Some i) = Some (rc, Some i') /\ (rc <> 0 -> i' = i) /\
       (rc = 0 -> payload_inside p len 28 (iv_payload i') (iv_payload_length i'))) /\
    (exists rc o', net_dhcp_parse_offer (Some p) len id (Some o) = Some (rc, Some o') /\
       (rc = 0 -> of_message_type o' = NET_DHCP_OFFER /\ of_xid o' = id)) /\
    (exists rc l', net_dhcp_parse_ack (Some p) len id (Some l) = Some (rc, Some l') /\ (rc <> 0 -> l' = l) /\
       (rc = 0 -> l_valid l' = 1 /\ l_xid l' = id)) /\
    (exists rc d', net_dns_parse_a_response (Some p) len id (Some d) = Some (rc, Some d') /\ (rc <> 0 -> d' = d) /\
       (rc = 0 -> dns_id d' = id /\ blen (dns_address d') = 4)) /\
    (exists rc t', net_tcp_parse (Some p) len (Some t) = Some (rc, Some t') /\
       (rc = 0 -> exists h, 20 <= h /\ payload_inside p len h (v_payload t') (v_payload_length t'))).
Proof.
  intros p len id a u i o l d t Hok. pose proof Hok as (Hp & Hl & _).
  destruct (ip_parsers_safe p len u i Hp Hl) as [Hu Hi].
  destruct (dhcp_parse_safe p len id o l Hok) as [Ho Ha].
  split; [|split; [exact Hu|split; [exact Hi|split; [exact Ho|split; [exact Ha|split]]]]].
  - destruct (arp_parse_safe p len a Hl) as (rc & r & H & Hrc). exists rc, r. split; [done|].
    intros (H1 & _ & a' & H2 & _ & H3 & _)%Hrc. eauto.
  - by apply dns_parse_safe.
  - destruct (tcp_parse_safe p len t Hp Hl) as (rc & t' & H & Hrc). exists rc, t'. split; [done|].
    intros (h & Hh & Hpay & Hn & _)%Hrc. exists h. split; [lia|]. split; [done|].
    rewrite Hn. unfold u16. pose proof (Z.mod_pos_bound (len - h) 65536). pose proof (Z.mod_le (len - h) 65536). lia.
Qed.

(** A hostile packet: an IPv4/UDP header that claims more than arrived. *)
Definition hostile : bytes := 69 :: replicate 59 255.

Example wire_parsers_safe_witness :
  exists rc u', net_udp_parse_ipv4 (Some hostile) 60 (Some (mk_udp_view [] [] 0 0 None 0)) = Some (rc, Some u') /\
    u' = mk_udp_view [] [] 0 0 None 0.
Proof.
  assert (Hok : packet_ok hostile 60).
  { split; [apply u8s_dec; reflexivity|]. vm_compute. split; [discriminate|reflexivity]. }
  destruct (wire_parsers_safe hostile 60 7 (mk_arp 0 0 0 0 0 [] [] [] []) (mk_udp_view [] [] 0 0 None 0)
    (mk_icmp_view [] [] 0 0 0 0 None 0) (mk_offer 0 [] [] 0) empty_lease (mk_dns_result 0 [])
    (mk_tcp_view 0 0 0 0 0 None 0) Hok) as (_ & (rc & u' & H & Hkeep & _) & _).
  exists rc, u'. split; [exact H|]. apply Hkeep. intros ->. vm_compute in H. discriminate H.
Defined.
