(* ===== verification/OvState.v ===== *)
(** * The writable overlay: data, strings and blocks of fs/overlay.c

    The overlay keeps files and directories in 288 nodes of 384 bytes; a file is
    a chain of nodes, its head carries the path.  A string the code keeps in a local
    array is its characters; the path of a node is the array of 80 bytes.  A pointer
    to a node is its index. *)

From Stdlib Require Import ZArith Lia String.
From stdpp Require Import base numbers option tactics list.
From S2P Require Import Prelude Bytes Names.

Definition OV_OK : Z := 0.
Definition OV_ERR_NOTFOUND : Z := -1.
Definition OV_ERR_EXISTS : Z := -2.
Definition OV_ERR_NOTDIR : Z := -3.
Definition OV_ERR_ISDIR : Z := -4.
Definition OV_ERR_NOTEMPTY : Z := -5.
Definition OV_ERR_NOSPACE : Z := -6.
Definition OV_ERR_INVAL : Z := -7.
Definition OV_ERR_PROTECTED : Z := -8.

Definition OV_SNAP_MAGIC : Z := 1448036673.
Definition OV_SNAP_VERSION : Z := 3.
Definition OV_SNAP_V3_NODES : Z := 128.
Definition OV_SNAP_NODES : Z := 288.
Definition OV_SNAP_PATH : Z := 80.
Definition OV_SNAP_DATA : Z := 384.
Definition OV_SNAP_REC_HDR : Z := 8.
Definition OV_SNAP_SIZE : Z := 32768.
Definition OV_SNAP_V4_VERSION : Z := 4.
Definition OV_SNAP_V4_HDR : Z := 32.
Definition OV_EXT_SECTORS : Z := 128.
Definition OV_EXT_MIN_LBA : Z := 4225.
Definition OV_SNAP_SECTORS_MAX : Z := 192.
Definition OV_SNAP_SIZE_MAX : Z := 98304.
Definition OV_FILE_MAX_EXT_BYTES : Z := 65536.
Definition OV_FILE_MAX_BYTES : Z := 30720.
Definition OV_SNAP_V2_VERSION : Z := 2.
Definition OV_SNAP_V2_NODES : Z := 64.
Definition OV_SNAP_V2_PATH : Z := 80.
Definition OV_SNAP_V2_DATA : Z := 384.
Definition OV_SNAP_V2_NODE : Z := 1 + 1 + 2 + 4 + OV_SNAP_V2_PATH + OV_SNAP_V2_DATA.
Definition OV_SNAP_V2_SIZE : Z := 16 + OV_SNAP_V2_NODES * OV_SNAP_V2_NODE.
Definition OV_SNAP_V1_VERSION : Z := 1.
Definition OV_SNAP_V1_NODES : Z := 32.
Definition OV_SNAP_V1_PATH : Z := 64.
Definition OV_SNAP_V1_DATA : Z := 256.
Definition OV_SNAP_V1_NODE : Z := 1 + 1 + 2 + 4 + OV_SNAP_V1_PATH + OV_SNAP_V1_DATA.
Definition OV_SNAP_V1_SIZE : Z := 16 + OV_SNAP_V1_NODES * OV_SNAP_V1_NODE.
Definition OV_MAX_NODES : Z := OV_SNAP_NODES.
Definition OV_PATH_MAX : Z := OV_SNAP_PATH.
Definition OV_DATA_MAX : Z := OV_SNAP_DATA.
Definition OS_NAME_MAX : Z := 64.
Definition OS_DIRENT_FILE : Z := 0.
Definition OS_DIRENT_DIR : Z := 1.

Record os_dirent_t := mk_dirent { de_name : bytes; de_size : Z; de_flags : Z }.

Record ov_node_t := mk_ov {
  ov_used : Z; ov_is_dir : Z; ov_is_continuation : Z; ov_next_node : Z;
  ov_path : bytes; ov_data : bytes; ov_size : Z
}.

Abbreviation nodes_t := (list ov_node_t) (only parsing).

Definition zero_node : ov_node_t := mk_ov 0 0 0 0 (replicate 80 0) (replicate 384 0) 0.
#[export] Instance ov_node_inhabited : Inhabited ov_node_t := populate zero_node.

Definition set_path (p : bytes) (n : ov_node_t) : ov_node_t :=
  mk_ov (ov_used n) (ov_is_dir n) (ov_is_continuation n) (ov_next_node n) p (ov_data n) (ov_size n).
Definition set_next (k : Z) (n : ov_node_t) : ov_node_t :=
  mk_ov (ov_used n) (ov_is_dir n) (ov_is_continuation n) k (ov_path n) (ov_data n) (ov_size n).
Definition set_size (z : Z) (n : ov_node_t) : ov_node_t :=
  mk_ov (ov_used n) (ov_is_dir n) (ov_is_continuation n) (ov_next_node n) (ov_path n) (ov_data n) z.

(** The bytes [bs] written at the start of an array. *)
Definition overwrite (dest bs : bytes) : bytes := bs ++ drop (length bs) dest.

(** ** Strings *)

Definition ov_len (s : cstring) : Z := blen (cstr s).

(** The characters [ov_copy] moves before it writes the terminator. *)
Definition cut (src : cstring) (max : Z) : cstring := take (Z.to_nat (max - 1)) (cstr src).

Definition ov_copy (dest : bytes) (src : cstring) (max : Z) : bytes := overwrite dest (cut src max ++ [0]).

Fixpoint ov_eq (a b : cstring) : bool :=
  match a, b with
  | x :: a', y :: b' =>
      if (x =? 0) || (y =? 0) then x =? y
      else if negb (x =? y) then false else ov_eq a' b'
  | x :: _, [] => x =? 0
  | [], y :: _ => y =? 0
  | [], [] => true
  end.

(** [if (in[0] == '.' && in[1] == '/') in += 2;] *)
Definition skip_dot (s : cstring) : cstring :=
  if (chr s 0 =? 46) && (chr s 1 =? 47) then drop 2 s else s.

(** [while ( *in == '/') in++;] *)
Fixpoint skip_slashes (s : cstring) : cstring :=
  match s with
  | c :: r => if c =? 47 then skip_slashes r else s
  | [] => []
  end.

(** The loop that removes slashes at the end. *)
Definition strip_slashes (s : cstring) : cstring := rev (skip_slashes (rev s)).

Definition ov_normalize (path : ptr cstring) (max : Z) : cstring :=
  match path with
  | NULL => []
  | Some p => strip_slashes (cut (skip_slashes (skip_dot p)) max)
  end.

Definition ov_parent (path : cstring) (max : Z) : cstring :=
  let slash := fold_left (fun slash i => if chr path i =? 47 then i else slash) (seqZ 0 (ov_len path)) (-1) in
  if slash <? 0 then []
  else take (Z.to_nat (if max <=? slash then max - 1 else slash)) path.

(** [while (j < plen && path[j] == prefix[j]) j++;] ends with [j == plen]. *)
Definition starts_with (path prefix : cstring) (plen : Z) : bool :=
  forallb (fun j => chr path j =? chr prefix j) (seqZ 0 plen).

Definition ov_under (path prefix : cstring) (plen : Z) : bool :=
  starts_with path prefix plen && ((chr path plen =? 0) || (chr path plen =? 47)).

(** The last component of a path. *)
Definition base_of (want : cstring) : cstring :=
  drop (Z.to_nat (fold_left (fun b i => if chr want i =? 47 then i + 1 else b) (seqZ 0 (ov_len want)) 0)) want.

Definition ov_direct_child (prefix path : cstring) (nmax : Z) : option cstring :=
  let plen := ov_len prefix in
  if negb (plen =? 0) && negb (starts_with path prefix plen && (chr path plen =? 47)) then None
  else
    let rest := if plen =? 0 then path else drop (Z.to_nat (plen + 1)) path in
    if chr rest 0 =? 0 then None
    else if existsb (fun c => c =? 47) (cstr rest) then None
    else Some (cut rest nmax).

(** ** Nodes and chains *)

(** The index test every walk makes. *)
Definition valid_next (k : Z) : bool := (0 <=? k) && (k <? OV_MAX_NODES).

Definition freed (n : ov_node_t) : ov_node_t :=
  mk_ov 0 0 0 (-1) (<[0%nat := 0]> (ov_path n)) (ov_data n) 0.

(** A freed node has no successor, so the loop ends after one visit of each node. *)
Fixpoint free_from (fuel : nat) (g : nodes_t) (curr : nat) : nodes_t :=
  match fuel with
  | O => g
  | S fuel =>
      let next_idx := ov_next_node (g !!! curr) in
      let g := <[curr := freed (g !!! curr)]> g in
      if valid_next next_idx then free_from fuel g (Z.to_nat next_idx) else g
  end.

Definition ov_free_chain (g : nodes_t) (head : nat) : nodes_t := free_from (Z.to_nat (OV_MAX_NODES + 1)) g head.

Definition ov_next (n : ov_node_t) : ptr nat :=
  if valid_next (ov_next_node n) then Some (Z.to_nat (ov_next_node n)) else NULL.

Definition is_head (n : ov_node_t) : bool := c_true (ov_used n) && negb (c_true (ov_is_continuation n)).

Definition ov_find (g : nodes_t) (path : ptr cstring) : ptr nat :=
  let want := ov_normalize path OV_PATH_MAX in
  if chr want 0 =? 0 then NULL
  else find_slot (fun n => is_head n && ov_eq (ov_path n) want) g.

Definition ov_alloc (g : nodes_t) : ptr nat := find_slot (fun n => negb (c_true (ov_used n))) g.

Definition ov_has_children (g : nodes_t) (path : ptr cstring) : bool :=
  let want := ov_normalize path OV_PATH_MAX in
  let plen := ov_len want in
  existsb (fun n =>
    c_true (ov_used n) &&
    (if plen =? 0 then negb (chr (ov_path n) 0 =? 0)
     else starts_with (ov_path n) want plen && (chr (ov_path n) plen =? 47))) g.

Definition overlay_init_node (n : ov_node_t) : ov_node_t :=
  mk_ov 0 0 0 (-1) (<[0%nat := 0]> (ov_path n)) (ov_data n) 0.
Definition overlay_init (g : nodes_t) : nodes_t := map overlay_init_node g.

Definition overlay_is_dir (g : nodes_t) (path : ptr cstring) : bool :=
  let want := ov_normalize path OV_PATH_MAX in
  if chr want 0 =? 0 then true
  else match ov_find g (Some want) with
       | Some i => c_true (ov_is_dir (g !!! i))
       | NULL => false
       end.

(** ** Space *)

Definition ov_blocks_for (n : Z) : Z := if n =? 0 then 1 else u32 (n + OV_DATA_MAX - 1) / OV_DATA_MAX.

Definition ov_file_bytes (plen n : Z) : Z := u32 (u32 (ov_blocks_for n * OV_SNAP_REC_HDR) + plen + n).

Definition ov_chain_bytes (n : ov_node_t) : Z :=
  if c_true (ov_is_dir n) then u32 (OV_SNAP_REC_HDR + ov_len (ov_path n))
  else ov_file_bytes (ov_len (ov_path n)) (ov_size n).

Fixpoint chain_len_from (fuel : nat) (g : nodes_t) (head : ptr nat) : Z :=
  match fuel, head with
  | S fuel, Some i => 1 + chain_len_from fuel g (ov_next (g !!! i))
  | _, _ => 0
  end.
Definition ov_chain_len (g : nodes_t) (head : nat) : Z := chain_len_from (Z.to_nat OV_MAX_NODES) g (Some head).

Definition ov_hdr (ext_lba : Z) : Z := if c_true ext_lba then OV_SNAP_V4_HDR else 16.
Definition overlay_capacity (ext_lba : Z) : Z := if c_true ext_lba then OV_SNAP_SIZE_MAX else OV_SNAP_SIZE.
Definition overlay_file_max (ext_lba : Z) : Z := if c_true ext_lba then OV_FILE_MAX_EXT_BYTES else OV_FILE_MAX_BYTES.

Definition overlay_snapshot_bytes (g : nodes_t) (ext_lba : Z) : Z :=
  fold_left (fun total n => if is_head n then u32 (total + ov_chain_bytes n) else total) g (ov_hdr ext_lba).

Definition ov_free_count (g : nodes_t) : Z :=
  fold_left (fun k n => if c_true (ov_used n) then k else k + 1) g 0.

(** ** Building a chain *)

(** One round of [ov_build]: node [cur] takes the next chunk of the data. *)
Definition fill_node (n : ov_node_t) (first : bool) (chunk : bytes) : ov_node_t :=
  mk_ov 1 0 (if first then 0 else 1) (-1) (<[0%nat := 0]> (ov_path n)) (overwrite (ov_data n) chunk) (blen chunk).

(** The loop takes a free node each round, so it stops within the number of nodes. *)
Fixpoint build_from (fuel : nat) (g : nodes_t) (head prev : ptr nat) (want : cstring) (data : bytes) (n off : Z)
    : option (ptr nat * nodes_t) :=
  match fuel with
  | O => None
  | S fuel =>
      let chunk := if OV_DATA_MAX <? n - off then OV_DATA_MAX else n - off in
      match ov_alloc g with
      | NULL => Some (NULL, match head with Some h => ov_free_chain g h | NULL => g end)
      | Some cur =>
          bytes ← ld_bytes data off chunk;
          let g := <[cur := fill_node (g !!! cur) (match head with NULL => true | Some _ => false end) bytes]> g in
          let g := match prev with
                   | Some p => <[p := set_next (Z.of_nat cur) (g !!! p)]> g
                   | NULL => g
                   end in
          let h := default cur head in
          if off + chunk <? n then build_from fuel g (Some h) (Some cur) want data n (off + chunk)
          else Some (Some h, <[h := set_path (ov_copy (ov_path (g !!! h)) want OV_PATH_MAX)
                                      (set_size n (g !!! h))]> g)
      end
  end.

Definition ov_build (g : nodes_t) (want : cstring) (data : bytes) (n : Z) : option (ptr nat * nodes_t) :=
  build_from (Z.to_nat (OV_MAX_NODES + 1)) g NULL NULL want data n 0.

(** ** Reading a chain *)

(** The bytes [overlay_read_at] copies from [cur] on; the loop follows the chain. *)
Fixpoint read_from (fuel : nat) (g : nodes_t) (cur : ptr nat) (max offset pos out : Z) : option bytes :=
  match cur with
  | NULL => Some []
  | Some i =>
      if max <=? out then Some []
      else match fuel with
      | O => None
      | S fuel =>
          let n := g !!! i in
          let blk := if c_true (ov_is_continuation n) then ov_size n
                     else if OV_DATA_MAX <? ov_size n then OV_DATA_MAX else ov_size n in
          if offset <? u32 (pos + blk)
          then
            let start := if pos <? offset then offset - pos else 0 in
            let count := Z.max 0 (Z.min (blk - start) (max - out)) in
            chunk ← ld_bytes (ov_data n) start count;
            rest ← read_from fuel g (ov_next n) max offset (u32 (pos + blk)) (out + count);
            Some (chunk ++ rest)
          else read_from fuel g (ov_next n) max offset (u32 (pos + blk)) out
      end
  end.

Definition overlay_read_at (g : nodes_t) (path : ptr cstring) (buf : ptr bytes) (max offset : Z)
    : option (Z * ptr bytes) :=
  match ov_find g path with
  | NULL => Some (OV_ERR_NOTFOUND, buf)
  | Some cur =>
      if c_true (ov_is_dir (g !!! cur)) then Some (OV_ERR_ISDIR, buf)
      else match buf with
      | NULL => Some (OV_ERR_INVAL, buf)
      | Some b =>
          if max =? 0 then Some (OV_ERR_INVAL, buf)
          else if ov_size (g !!! cur) <=? offset then Some (0, buf)
          else
            data ← read_from (Z.to_nat OV_MAX_NODES) g (Some cur) max offset 0 0;
            b ← st_bytes b 0 data;
            Some (blen data, Some b)
      end
  end.

Definition overlay_read (g : nodes_t) (path : ptr cstring) (buf : ptr bytes) (max : Z) : option (Z * ptr bytes) :=
  overlay_read_at g path buf max 0.

(** ** Metadata *)

Definition overlay_stat (g : nodes_t) (path : ptr cstring) (out : ptr os_dirent_t) : Z * ptr os_dirent_t :=
  let want := ov_normalize path OV_PATH_MAX in
  if chr want 0 =? 0 then
    (OV_OK, (fun o => mk_dirent (overwrite (de_name o) [47; 0]) 0 OS_DIRENT_DIR) <$> out)
  else match ov_find g (Some want) with
       | NULL => (OV_ERR_NOTFOUND, out)
       | Some i =>
           let n := g !!! i in
           (OV_OK, (fun o => mk_dirent (ov_copy (de_name o) (base_of want) OS_NAME_MAX)
                               (if c_true (ov_is_dir n) then 0 else ov_size n)
                               (if c_true (ov_is_dir n) then OS_DIRENT_DIR else OS_DIRENT_FILE)) <$> out)
       end.
