(* ===== verification/OvPaths.v ===== *)
(** * Paths of the overlay

    What the string routines of fs/overlay.c compute, on strings without a NUL. *)

From Stdlib Require Import ZArith Lia.
From stdpp Require Import base numbers option tactics list.
From S2P Require Import Prelude Bytes Names OvState.

(** ** Strings without a NUL *)
Definition no_nul (s : cstring) : Prop := Forall (fun c => c <> 0) s.

Lemma cstr_no_nul s : no_nul (cstr s).
Proof.
  induction s as [|c s IH]; cbn [cstr]; [constructor|]. destruct (Z.eqb_spec c 0); [constructor|by constructor].
Qed.

Lemma cstr_id s : no_nul s -> cstr s = s.
Proof.
  induction 1 as [|c s Hc _ IH]; cbn [cstr]; [done|]. rewrite (proj2 (Z.eqb_neq c 0)) by done. by rewrite IH.
Qed.

Lemma cstr_cstr s : cstr (cstr s) = cstr s.
Proof. apply cstr_id, cstr_no_nul. Qed.

Lemma cstr_term s r : no_nul s -> cstr (s ++ 0 :: r) = s.
Proof.
  induction 1 as [|c s Hc _ IH]; cbn [cstr app]; [done|]. rewrite (proj2 (Z.eqb_neq c 0)) by done. by rewrite IH.
Qed.

Lemma cstr_prefix s : exists r, s = cstr s ++ r.
Proof.
  induction s as [|c s [r IH]]; cbn [cstr]; [by exists []|]. destruct (c =? 0); [by eexists|].
  exists r. cbn. by f_equal.
Qed.

Lemma cstr_length s : (length (cstr s) <= length s)%nat.
Proof. destruct (cstr_prefix s) as [r H]. rewrite H at 2. rewrite length_app. lia. Qed.

Lemma ov_eq_spec a b : ov_eq a b = bool_decide (cstr a = cstr b).
Proof.
  revert b. induction a as [|x a IH]; intros [|y b]; cbn [ov_eq cstr].
  - done.
  - destruct (Z.eqb_spec y 0); by case_bool_decide.
  - destruct (Z.eqb_spec x 0); by case_bool_decide.
  - destruct (Z.eqb_spec x 0) as [->|Hx], (Z.eqb_spec y 0) as [->|Hy]; cbn [orb].
    + by rewrite bool_decide_eq_true_2.
    + rewrite (proj2 (Z.eqb_neq 0 y)) by lia. by case_bool_decide.
    + rewrite (proj2 (Z.eqb_neq x 0)) by done. by case_bool_decide.
    + destruct (Z.eqb_spec x y) as [->|Hne]; cbn [negb].
      * rewrite IH. apply bool_decide_ext. split; [by intros ->|by intros [= ->]].
      * symmetry. apply bool_decide_eq_false_2. congruence.
Qed.

Lemma chr0_nil s : (chr s 0 =? 0) = bool_decide (cstr s = []).
Proof.
  destruct s as [|c s]; [done|]. change (chr (c :: s) 0) with c. cbn [cstr].
  destruct (Z.eqb_spec c 0); symmetry; [by apply bool_decide_eq_true_2|by apply bool_decide_eq_false_2].
Qed.

Lemma overwrite_length d b : (length b <= length d)%nat -> length (overwrite d b) = length d.
Proof. intros H. unfold overwrite. rewrite length_app, length_drop. lia. Qed.

Lemma no_nul_app a b : no_nul (a ++ b) <-> no_nul a /\ no_nul b.
Proof. apply Forall_app. Qed.

Lemma cut_no_nul s m : no_nul (cut s m).
Proof. apply Forall_take, cstr_no_nul. Qed.

Lemma cut_length s m : 1 <= m -> Z.of_nat (length (cut s m)) < m.
Proof. intros. unfold cut. rewrite length_take. lia. Qed.

Lemma cut_id s m : no_nul s -> Z.of_nat (length s) < m -> cut s m = s.
Proof. intros Hs Hm. unfold cut. rewrite cstr_id by done. apply take_ge. lia. Qed.

(** The array [ov_copy] leaves. *)
Lemma ov_copy_spec d s m :
  1 <= m <= Z.of_nat (length d) ->
  length (ov_copy d s m) = length d /\ cstr (ov_copy d s m) = cut s m.
Proof.
  intros Hm. pose proof (cut_length s m ltac:(lia)) as Hc. unfold ov_copy. split.
  - apply overwrite_length. rewrite length_app. cbn. lia.
  - unfold overwrite. rewrite <- app_assoc. cbn [app]. apply cstr_term, cut_no_nul.
Qed.

(** ** Normal forms *)
Lemma skip_slashes_suffix s : exists p, s = p ++ skip_slashes s.
Proof.
  induction s as [|c s [p IH]]; cbn [skip_slashes]; [by exists []|].
  destruct (c =? 47); [|by exists []]. exists (c :: p). cbn. by f_equal.
Qed.

Lemma strip_slashes_prefix s : exists r, s = strip_slashes s ++ r.
Proof.
  destruct (skip_slashes_suffix (rev s)) as [p H]. exists (rev p). unfold strip_slashes.
  by rewrite <- rev_app_distr, <- H, rev_involutive.
Qed.

Lemma ov_normalize_ok p : no_nul (ov_normalize p OV_PATH_MAX) /\ Z.of_nat (length (ov_normalize p OV_PATH_MAX)) < 80.
Proof.
  destruct p as [p|]; cbn [ov_normalize]; [|split; [constructor|cbn; lia]].
  pose proof (cut_no_nul (skip_slashes (skip_dot p)) OV_PATH_MAX) as Hn.
  pose proof (cut_length (skip_slashes (skip_dot p)) OV_PATH_MAX ltac:(unfold OV_PATH_MAX, OV_SNAP_PATH; lia)) as Hl.
  destruct (strip_slashes_prefix (cut (skip_slashes (skip_dot p)) OV_PATH_MAX)) as [r Hr].
  rewrite Hr in Hn, Hl. apply no_nul_app in Hn as [Hn _]. split; [done|].
  rewrite length_app in Hl. unfold OV_PATH_MAX, OV_SNAP_PATH in *. lia.
Qed.

(** A path the code stores: it is its own normal form. *)
Definition canon (p : cstring) : Prop := ov_normalize (Some p) OV_PATH_MAX = p.

#[export] Instance canon_dec p : Decision (canon p).
Proof. unfold canon. apply _. Defined.
#[export] Typeclasses Opaque canon.

Lemma canon_no_nul p : canon p -> no_nul p.
Proof. intros H. rewrite <- H. apply ov_normalize_ok. Qed.
Lemma canon_length p : canon p -> Z.of_nat (length p) < 80.
Proof. intros H. rewrite <- H. apply ov_normalize_ok. Qed.
Lemma canon_cut p : canon p -> cut p OV_PATH_MAX = p.
Proof. intros H. apply cut_id; [by apply canon_no_nul|by apply canon_length]. Qed.
Lemma canon_nil : canon [].
Proof. done. Qed.
Lemma canon_len p : canon p -> ov_len p = Z.of_nat (length p).
Proof. intros H. unfold ov_len, blen. by rewrite cstr_id by by apply canon_no_nul. Qed.
Lemma canon_cstr p : canon p -> cstr p = p.
Proof. intros H. by apply cstr_id, canon_no_nul. Qed.

(** ** Prefixes *)
Lemma chr_nth s i : chr s (Z.of_nat i) = nth i s 0.
Proof. unfold chr. rewrite Nat2Z.id. revert i. induction s as [|c s IH]; intros [|i]; cbn; [done|done|done|apply IH]. Qed.

Lemma starts_with_spec s p : no_nul p ->
  (starts_with s p (Z.of_nat (length p)) = true <-> exists r, cstr s = p ++ r).
Proof.
  intros Hp. assert (Hall : starts_with s p (Z.of_nat (length p)) = true
    <-> forall i, (i < length p)%nat -> chr s (Z.of_nat i) = chr p (Z.of_nat i)).
  { unfold starts_with. rewrite forallb_forall. split.
    - intros Hf i Hi. apply Z.eqb_eq, Hf, list_elem_of_In, elem_of_seqZ. lia.
    - intros Hf j Hj. apply list_elem_of_In, elem_of_seqZ in Hj. apply Z.eqb_eq. rewrite <- (Z2Nat.id j) by lia. apply Hf. lia. }
  rewrite Hall. clear Hall. revert s. induction Hp as [|c p Hc Hp IH]; intros s.
  { split; [by exists (cstr s)|]. intros _ i Hi. cbn in Hi. lia. }
  split.
  - intros Hi. pose proof (Hi 0%nat ltac:(cbn; lia)) as H0. rewrite !chr_nth in H0. cbn in H0.
    destruct s as [|x s]; cbn in H0; [congruence|]. subst x. cbn [cstr]. rewrite (proj2 (Z.eqb_neq c 0)) by done.
    destruct (proj1 (IH s)) as [r Hr].
    + intros i Hl. specialize (Hi (S i) ltac:(cbn; lia)). by rewrite !chr_nth in Hi |- *.
    + exists r. cbn. by f_equal.
  - intros [r Hr] [|i] Hi.
    + destruct s as [|x s]; [done|]. cbn [cstr] in Hr. destruct (x =? 0); [done|]. by injection Hr as -> _.
    + destruct s as [|x s]; [done|]. cbn [cstr] in Hr. destruct (x =? 0); [done|]. injection Hr as _ Hr.
      rewrite !chr_nth. cbn [nth]. rewrite <- !chr_nth. apply IH; [by exists r|cbn in Hi; lia].
Qed.

Lemma chr_after s p r : cstr s = p ++ r -> chr s (Z.of_nat (length p)) = hd 0 r.
Proof.
  intros Hr. rewrite chr_cstr by (rewrite Hr, length_app; lia). rewrite Hr, chr_nth, app_nth2, Nat.sub_diag by lia. by destruct r.
Qed.

(** [q] lies below [p]. *)
Definition below (p q : cstring) : Prop := exists r, q = p ++ 47 :: r.
(** [q] is [p] or lies below it. *)
Definition under (p q : cstring) : Prop := q = p \/ below p q.

#[export] Instance below_dec p q : Decision (below p q).
Proof.
  refine (cast_if (decide (take (S (length p)) q = p ++ [47]))).
  - exists (drop (S (length p)) q). rewrite <- (take_drop (S (length p)) q) at 1. rewrite e, <- app_assoc. done.
  - intros [r ->]. apply n. change (47 :: r) with ([47] ++ r). rewrite app_assoc, take_app_le, take_ge;
      [done|rewrite length_app; cbn; lia..].
Defined.
#[export] Instance under_dec p q : Decision (under p q).
Proof. unfold under. apply _. Defined.
#[export] Typeclasses Opaque below under.

Lemma below_spec s p : no_nul p ->
  starts_with s p (Z.of_nat (length p)) && (chr s (Z.of_nat (length p)) =? 47) = bool_decide (below p (cstr s)).
Proof.
  intros Hp. destruct (starts_with s p (Z.of_nat (length p))) eqn:E; cbn [andb].
  - apply starts_with_spec in E as [r Hr]; [|done]. rewrite (chr_after _ _ _ Hr), Hr.
    destruct r as [|c r]; cbn [hd].
    + symmetry. apply bool_decide_eq_false_2. intros [r' H']. rewrite app_nil_r in H'. apply (f_equal length) in H'.
      rewrite length_app in H'. cbn in H'. lia.
    + destruct (Z.eqb_spec c 47) as [->|Hc]; symmetry; [apply bool_decide_eq_true_2; by exists r|].
      apply bool_decide_eq_false_2. intros [r' H']. apply app_inv_head in H'. congruence.
  - symmetry. apply bool_decide_eq_false_2. intros [r Hr].
    assert (Ht : starts_with s p (Z.of_nat (length p)) = true) by (apply starts_with_spec; eauto). congruence.
Qed.

Lemma under_spec s p : no_nul p -> ov_under s p (Z.of_nat (length p)) = bool_decide (under p (cstr s)).
Proof.
  intros Hp. unfold ov_under. destruct (starts_with s p (Z.of_nat (length p))) eqn:E; cbn [andb].
  - pose proof (below_spec s p Hp) as Hb. rewrite E in Hb. cbn [andb] in Hb. rewrite Hb.
    apply starts_with_spec in E as [r Hr]; [|done]. rewrite (chr_after _ _ _ Hr).
    destruct r as [|c r]; cbn [hd].
    + rewrite app_nil_r in Hr. cbn [Z.eqb orb]. symmetry. apply bool_decide_eq_true_2. by left.
    + assert (Hc : c <> 0). { pose proof (cstr_no_nul s) as Hn. rewrite Hr in Hn. apply no_nul_app in Hn as [_ Hn]. by inversion Hn. }
      rewrite (proj2 (Z.eqb_neq c 0)) by done. cbn [orb]. apply bool_decide_ext. unfold under. split; [by right|].
      intros [He|Hbl]; [|done]. rewrite Hr in He. apply (f_equal length) in He. rewrite length_app in He. cbn in He. lia.
  - symmetry. apply bool_decide_eq_false_2. intros Hu.
    assert (Ht : starts_with s p (Z.of_nat (length p)) = true); [|congruence]. apply starts_with_spec; [done|].
    destruct Hu as [->|[r ->]]; [exists []; by rewrite app_nil_r|by eexists].
Qed.

(** ** Canonical paths *)
Lemma skip_slashes_length s : (length (skip_slashes s) <= length s)%nat.
Proof. destruct (skip_slashes_suffix s) as [p H]. rewrite H at 2. rewrite length_app. lia. Qed.

Lemma skip_slashes_id s : hd 0 s <> 47 -> skip_slashes s = s.
Proof. destruct s as [|c s]; cbn; [done|]. intros H. by rewrite (proj2 (Z.eqb_neq c 47)). Qed.

Lemma skip_slashes_hd s : hd 0 (skip_slashes s) <> 47.
Proof. induction s as [|c s IH]; cbn; [done|]. destruct (Z.eqb_spec c 47); [done|done]. Qed.

Lemma skip_dot_length s : (length (skip_dot s) <= length s)%nat /\ (s <> [] -> length (skip_dot s) = length s -> skip_dot s = s).
Proof.
  unfold skip_dot. destruct ((chr s 0 =? 46) && (chr s 1 =? 47)); [|done]. rewrite length_drop. split; [lia|].
  destruct s; [done|]. cbn [length]. lia.
Qed.

Lemma strip_slashes_id s : last s <> Some 47 -> strip_slashes s = s.
Proof.
  intros H. unfold strip_slashes. rewrite skip_slashes_id, rev_involutive; [done|].
  destruct s as [|c s] using rev_ind; [done|]. rewrite rev_app_distr. cbn. rewrite last_snoc in H. congruence.
Qed.

Lemma strip_slashes_last s : last (strip_slashes s) <> Some 47.
Proof.
  unfold strip_slashes. pose proof (skip_slashes_hd (rev s)) as H. destruct (skip_slashes (rev s)) as [|c l]; [done|].
  cbn [rev hd] in *. rewrite last_snoc. congruence.
Qed.

(** A canonical path has no slash at either end and does not start with "./". *)
Lemma canon_iff p : canon p <->
  no_nul p /\ (length p < 80)%nat /\ hd 0 p <> 47 /\ last p <> Some 47 /\ skip_dot p = p.
Proof.
  split.
  - intros Hc. pose proof (canon_no_nul _ Hc) as Hn. pose proof (canon_length _ Hc) as Hl. split; [done|]. split; [lia|].
    unfold canon, ov_normalize in Hc. destruct (strip_slashes_prefix (cut (skip_slashes (skip_dot p)) OV_PATH_MAX)) as [r Hr].
    rewrite Hc in Hr. assert (Hcut : (length (cut (skip_slashes (skip_dot p)) OV_PATH_MAX) <= length (skip_slashes (skip_dot p)))%nat).
    { unfold cut. rewrite length_take. pose proof (cstr_length (skip_slashes (skip_dot p))). lia. }
    pose proof (skip_slashes_length (skip_dot p)) as Hs. destruct (skip_dot_length p) as [Hd Hd'].
    assert (Hle : (length p <= length (cut (skip_slashes (skip_dot p)) OV_PATH_MAX))%nat) by (rewrite Hr, length_app; lia).
    destruct (decide (p = [])) as [->|Hne]; [done|]. specialize (Hd' Hne ltac:(lia)). rewrite Hd' in *.
    destruct (skip_slashes_suffix p) as [pre Hp]. assert (pre = []) as ->.
    { apply (f_equal length) in Hp. rewrite length_app in Hp. destruct pre; [done|]. cbn in Hp. lia. }
    cbn in Hp. split; [rewrite Hp; apply skip_slashes_hd|]. split; [|done]. rewrite <- Hc. apply strip_slashes_last.
  - intros (Hn & Hl & Hh & Hla & Hd). unfold canon, ov_normalize. rewrite Hd, skip_slashes_id by done.
    rewrite cut_id by (done || (unfold OV_PATH_MAX, OV_SNAP_PATH; lia)). by apply strip_slashes_id.
Qed.

(** Prefixes of a canonical path. *)
Lemma prefix_norm_max p q r max : canon p -> p = q ++ r -> 80 <= max -> ov_normalize (Some q) max = strip_slashes q.
Proof.
  rewrite canon_iff. intros (Hn & Hl & Hh & _ & Hd) -> Hmax. rewrite length_app in Hl. apply no_nul_app in Hn as [Hn _].
  unfold ov_normalize. destruct q as [|c q].
  { change (skip_slashes (skip_dot [])) with (@nil Z). unfold cut. cbn [cstr]. by rewrite take_nil. }
  assert (Hdot : skip_dot (c :: q) = c :: q).
  { unfold skip_dot in *. destruct ((chr (c :: q) 0 =? 46) && (chr (c :: q) 1 =? 47)) eqn:E; [|done].
    assert (E' : (chr ((c :: q) ++ r) 0 =? 46) && (chr ((c :: q) ++ r) 1 =? 47) = true).
    { destruct q as [|d q]; [|exact E]. apply andb_true_iff in E as [_ E]. discriminate E. }
    rewrite E' in Hd. apply (f_equal length) in Hd. rewrite length_drop, length_app in Hd. cbn in Hd. lia. }
  rewrite Hdot, skip_slashes_id by done. rewrite cut_id; [done|done|lia].
Qed.

Lemma prefix_norm p q r : canon p -> p = q ++ r -> ov_normalize (Some q) OV_PATH_MAX = strip_slashes q.
Proof. intros Hc Hp. by apply (prefix_norm_max p q r). Qed.

Lemma prefix_canon p q r : canon p -> p = q ++ r -> last q <> Some 47 -> canon q.
Proof. intros Hc Hp Hl. unfold canon. rewrite (prefix_norm p q r Hc Hp). by apply strip_slashes_id. Qed.

Lemma skip_all l : skip_slashes l = [] -> Forall (fun c => c = 47) l.
Proof.
  induction l as [|c l IH]; cbn; [constructor|]. destruct (Z.eqb_spec c 47); [|done]. intros H. constructor; auto.
Qed.

Lemma skip_slashes_split l : exists k, l = replicate k 47 ++ skip_slashes l.
Proof.
  induction l as [|c l [k IH]]; cbn; [by exists 0%nat|]. destruct (Z.eqb_spec c 47) as [->|]; [|by exists 0%nat].
  exists (S k). cbn. by f_equal.
Qed.

Lemma strip_split s : exists k, s = strip_slashes s ++ replicate k 47.
Proof.
  destruct (skip_slashes_split (rev s)) as [k H]. exists k. apply (f_equal (@rev Z)) in H. rewrite rev_involutive, rev_app_distr in H.
  unfold strip_slashes. rewrite H at 1. f_equal. clear. induction k as [|k IH]; [done|]. cbn [replicate rev].
  rewrite IH. clear. induction k as [|k IH]; [done|]. cbn. by f_equal.
Qed.

(** The directory a canonical path lies in is canonical and the path lies below it. *)
Definition dir_of (p : cstring) : cstring := strip_slashes (ov_parent p OV_PATH_MAX).

Lemma last_slash_spec p n : (n <= length p)%nat ->
  let slash := fold_left (fun slash i => if chr p i =? 47 then i else slash) (seqZ 0 (Z.of_nat n)) (-1) in
  slash = -1 \/ (0 <= slash < Z.of_nat n /\ chr p slash = 47).
Proof.
  induction n as [|n IH]; intros Hn; cbn zeta; [by left|]. rewrite seqZ_S, fold_left_app. cbn [fold_left].
  specialize (IH ltac:(lia)). cbn zeta in IH. destruct (Z.eqb_spec (chr p (0 + Z.of_nat n)) 47) as [E|E]; [right; split; [lia|done]|].
  destruct IH as [->|[H1 H2]]; [by left|right; split; [lia|done]].
Qed.

Lemma parent_split p : canon p -> ov_parent p OV_PATH_MAX = [] \/
  exists r, p = ov_parent p OV_PATH_MAX ++ 47 :: r.
Proof.
  intros Hc. unfold ov_parent. rewrite canon_len by done. pose proof (canon_length _ Hc) as Hl.
  destruct (last_slash_spec p (length p) ltac:(lia)) as [->|[H1 H2]]; [by left|].
  set (slash := fold_left _ _ _) in *. rewrite (proj2 (Z.ltb_ge slash 0)) by lia.
  rewrite (proj2 (Z.leb_gt OV_PATH_MAX slash)) by (unfold OV_PATH_MAX, OV_SNAP_PATH; lia). right.
  exists (drop (S (Z.to_nat slash)) p). rewrite <- (take_drop (Z.to_nat slash) p) at 1. f_equal.
  apply drop_S. unfold chr in H2. destruct (p !! Z.to_nat slash) as [c|] eqn:E; cbn in H2; [by subst|done].
Qed.

Lemma dir_of_spec p : canon p -> ov_parent p OV_PATH_MAX <> [] ->
  ov_normalize (Some (ov_parent p OV_PATH_MAX)) OV_PATH_MAX = dir_of p /\ canon (dir_of p) /\ dir_of p <> [] /\ below (dir_of p) p.
Proof.
  intros Hc Hne. destruct (parent_split p Hc) as [|[r Hr]]; [done|]. unfold dir_of.
  set (q := ov_parent p OV_PATH_MAX) in *. split; [by eapply prefix_norm|].
  destruct (strip_split q) as [k Hk].
  assert (Hp : p = strip_slashes q ++ replicate k 47 ++ 47 :: r) by (rewrite Hr at 1; rewrite Hk at 1; by rewrite <- app_assoc).
  split; [eapply prefix_canon; [done|exact Hp|apply strip_slashes_last]|].
  apply canon_iff in Hc as (_ & _ & Hh & _ & _). split.
  - intros E. rewrite E in Hp. cbn in Hp. apply Hh. rewrite Hp. by destruct k.
  - destruct k as [|k]; cbn [replicate app] in Hp; [by exists r|]. by exists (replicate k 47 ++ 47 :: r).
Qed.

(** ** The last slash *)
Abbreviation last_slash p n := (fold_left (fun slash i => if chr p i =? 47 then i else slash) (seqZ 0 n) (-1)).

Lemma last_slash_keep p (l k : nat) : (forall i, (l <= i < l + k)%nat -> chr p (Z.of_nat i) <> 47) ->
  last_slash p (Z.of_nat (l + k)) = last_slash p (Z.of_nat l).
Proof.
  induction k as [|k IH]; intros Hn; [by rewrite Nat.add_0_r|]. rewrite Nat.add_succ_r, seqZ_S, fold_left_app. cbn [fold_left].
  rewrite (proj2 (Z.eqb_neq _ _)) by (apply Hn; lia). apply IH. intros i Hi. apply Hn. lia.
Qed.

Lemma last_slash_app a t : 47 ∉ t -> last_slash (a ++ 47 :: t) (Z.of_nat (length (a ++ 47 :: t))) = Z.of_nat (length a).
Proof.
  intros Ht. replace (length (a ++ 47 :: t)) with (S (length a) + length t)%nat by (rewrite length_app; cbn; lia).
  rewrite last_slash_keep.
  - rewrite seqZ_S, fold_left_app. cbn [fold_left]. rewrite Z.add_0_l, chr_nth, app_nth2, Nat.sub_diag by lia. done.
  - intros i Hi. rewrite chr_nth, app_nth2 by lia. destruct (i - length a)%nat as [|j] eqn:E; [lia|]. cbn [nth]. intros Hj. apply Ht.
    rewrite <- Hj. apply list_elem_of_In, nth_In. lia.
Qed.

Lemma parent_app a t : no_nul (a ++ 47 :: t) -> (length a < 80)%nat -> 47 ∉ t -> ov_parent (a ++ 47 :: t) OV_PATH_MAX = a.
Proof.
  intros Hn Hl Ht. unfold ov_parent, ov_len, blen. rewrite cstr_id by done. rewrite last_slash_app by done.
  rewrite (proj2 (Z.ltb_ge _ 0)) by lia. rewrite (proj2 (Z.leb_gt _ _)) by (unfold OV_PATH_MAX, OV_SNAP_PATH; lia).
  by rewrite Nat2Z.id, take_app_length.
Qed.

(** A string that starts with a slash, cut at its last slash. *)
Lemma cut_last_slash r : exists c t, 47 :: r = c ++ 47 :: t /\ 47 ∉ t /\ (c = [] \/ exists c', c = 47 :: c').
Proof.
  induction r as [|x r IH] using rev_ind; [exists [], []; split; [done|]; split; [apply not_elem_of_nil|by left]|].
  destruct IH as (c & t & E & Ht & Hc). destruct (decide (x = 47)) as [->|Hx].
  - exists (47 :: r), []. split; [done|]. split; [apply not_elem_of_nil|right; eauto].
  - exists c, (t ++ [x]). split; [|split; [|done]].
    + change (47 :: r ++ [x]) with ((47 :: r) ++ [x]). by rewrite E, <- app_assoc.
    + rewrite elem_of_app, list_elem_of_singleton. naive_solver.
Qed.

Lemma strip_slashes_app a c : last a <> Some 47 -> strip_slashes (a ++ c) = a ++ strip_slashes c.
Proof.
  intros Ha. destruct (strip_split c) as [k Hk]. rewrite Hk at 1. rewrite app_assoc.
  assert (Hl : last (a ++ strip_slashes c) <> Some 47).
  { pose proof (strip_slashes_last c) as Hs. destruct (strip_slashes c) as [|y l] eqn:E using rev_ind; [by rewrite app_nil_r|].
    rewrite app_assoc, last_snoc. by rewrite last_snoc in Hs. }
  generalize dependent (a ++ strip_slashes c). clear. intros b Hb. induction k as [|k IH]; [rewrite app_nil_r; by apply strip_slashes_id|].
  rewrite replicate_S_end, app_assoc. unfold strip_slashes in *. rewrite rev_app_distr. cbn. apply IH.
Qed.

Lemma strip_slash_cases c : c = [] \/ (exists c', c = 47 :: c') -> strip_slashes c = [] \/ exists c', strip_slashes c = 47 :: c'.
Proof.
  intros [->|[c' ->]]; [by left|]. destruct (strip_slashes_prefix (47 :: c')) as [r Hr].
  destruct (strip_slashes (47 :: c')) as [|x l]; [by left|]. injection Hr as <- _. right. eauto.
Qed.

(** A path below [p], its parent and its directory; the same holds with another prefix. *)
Lemma below_parts p q : canon q -> below p q -> exists c t,
  q = p ++ c ++ 47 :: t /\ (c = [] \/ exists c', c = 47 :: c') /\
  (forall n, canon (n ++ c ++ 47 :: t) -> ov_parent (n ++ c ++ 47 :: t) OV_PATH_MAX = n ++ c) /\
  (forall n, canon n -> canon (n ++ c ++ 47 :: t) -> dir_of (n ++ c ++ 47 :: t) = n ++ strip_slashes c).
Proof.
  intros Hq [r Hr]. destruct (cut_last_slash r) as (c & t & E & Ht & Hc). exists c, t. rewrite E in Hr. split; [done|]. split; [done|].
  assert (Hpar : forall n, canon (n ++ c ++ 47 :: t) -> ov_parent (n ++ c ++ 47 :: t) OV_PATH_MAX = n ++ c).
  { intros n Hn. pose proof (canon_length _ Hn) as Hl. pose proof (canon_no_nul _ Hn) as Hnn. rewrite app_assoc in *.
    apply parent_app; [done| |done]. rewrite length_app in Hl. cbn [length] in Hl. lia. }
  split; [done|]. intros n Hn Hnq. unfold dir_of. rewrite Hpar by done. apply strip_slashes_app.
  by apply canon_iff in Hn as (_ & _ & _ & Hl & _).
Qed.

Lemma under_trans p q r : under p q -> below q r -> below p r.
Proof. intros [->|[a ->]] [b ->]; [by exists b|]. exists (a ++ 47 :: b). by rewrite <- app_assoc. Qed.

Lemma below_under p q r : below p q -> under q r -> below p r.
Proof. intros [a ->] [->|[b ->]]; [by exists a|]. exists (a ++ 47 :: b). by rewrite <- app_assoc. Qed.

Lemma under_app p c : c = [] \/ (exists c', c = 47 :: c') -> under p (p ++ c).
Proof. intros [->|[c' ->]]; [left; by rewrite app_nil_r|right; by exists c']. Qed.

Lemma prefix_comparable (a b x : cstring) : under a x -> under b x -> (length a <= length b)%nat -> under a b.
Proof.
  intros Ha Hb Hl. assert (Ea : exists u, x = a ++ u /\ (u = [] \/ exists u', u = 47 :: u')).
  { destruct Ha as [->|[u ->]]; [exists []; rewrite app_nil_r; split; [done|by left]|exists (47 :: u); split; [done|eauto]]. }
  assert (Eb : exists v, x = b ++ v) by (destruct Hb as [->|[v ->]]; [exists []; by rewrite app_nil_r|by eexists]).
  destruct Ea as (u & E & Hu), Eb as [v Hv]. rewrite E in Hv. apply app_eq_inv in Hv as [(k & -> & Hk)|(k & -> & Hk)].
  - rewrite length_app in Hl. destruct k; [|cbn in Hl; lia]. rewrite app_nil_r in *. by left.
  - destruct k as [|y k]; [left; by rewrite app_nil_r|]. right. destruct Hu as [->|[u' ->]]; [done|]. injection Hk as <- _. by exists k.
Qed.

Lemma under_comparable a b x : under a x -> under b x -> under a b \/ under b a.
Proof.
  intros Ha Hb. destruct (decide (length a <= length b)%nat); [left|right]; eapply prefix_comparable; eauto. lia.
Qed.

(** What follows the terminator does not matter. *)
Lemma skip_slashes_cstr s : cstr (skip_slashes s) = skip_slashes (cstr s).
Proof.
  induction s as [|c s IH]; [done|]. cbn [skip_slashes cstr]. destruct (Z.eqb_spec c 47) as [->|H1].
  - cbn. by rewrite <- IH.
  - cbn [cstr]. destruct (Z.eqb_spec c 0); [done|]. cbn [skip_slashes]. by rewrite (proj2 (Z.eqb_neq c 47)).
Qed.

Lemma skip_dot_cstr s : cstr (skip_dot s) = skip_dot (cstr s).
Proof.
  unfold skip_dot. destruct s as [|a [|b s]]; [done| |].
  - change (chr [a] 1) with 0. rewrite andb_false_r. cbn [cstr]. destruct (a =? 0); [done|]. change (chr [a] 1) with 0. by rewrite andb_false_r.
  - change (chr (a :: b :: s) 0) with a. change (chr (a :: b :: s) 1) with b. cbn [cstr].
    destruct (Z.eqb_spec a 46) as [->|Ha]; cbn [andb Z.eqb].
    + destruct (Z.eqb_spec b 47) as [->|Hb]; [done|]. cbn [cstr Z.eqb]. destruct (Z.eqb_spec b 0) as [->|Hb0]; [done|].
      change (chr (46 :: b :: cstr s) 1) with b. by rewrite (proj2 (Z.eqb_neq b 47)), andb_false_r by done.
    + cbn [cstr]. destruct (Z.eqb_spec a 0) as [->|Ha0]; [done|].
      assert (E : forall r, chr (a :: r) 0 = a) by done. by rewrite E, (proj2 (Z.eqb_neq a 46)).
Qed.
