(* ===== verification/OvInv.v ===== *)
(** * The nodes of the overlay stand for files and directories

    [struct g objs] says that the array of nodes is exactly the chains of the objects
    [objs]: disjoint, without leaks, each block where the file's content says.  The
    lemmas give what finding, freeing, building and reading chains do to it. *)

From Stdlib Require Import ZArith Lia.
From stdpp Require Import base numbers option tactics list.
From S2P Require Import Prelude Bytes Names OvState OvPaths.

Inductive ov_entry := Dir | File (content : bytes).
#[export] Instance ov_entry_eq_dec : EqDecision ov_entry.
Proof. solve_decision. Defined.

Record obj := mk_obj { o_path : cstring; o_entry : ov_entry; o_chain : list nat }.

Definition content_of (e : ov_entry) : bytes := match e with Dir => [] | File b => b end.
Definition is_Dir (e : ov_entry) : bool := match e with Dir => true | File _ => false end.

Definition shape_ok (n : ov_node_t) : Prop :=
  length (ov_path n) = 80%nat /\ length (ov_data n) = 384%nat /\ (length (cstr (ov_path n)) < 80)%nat.

(** The link a node has when [c] follows it. *)
Definition next_of (c : list nat) : Z := match c with k :: _ => Z.of_nat k | [] => -1 end.

Definition holds (n : ov_node_t) (b : bytes) : Prop := take (length b) (ov_data n) = b.

Definition block_ok (n : ov_node_t) (c : list nat) (rest : bytes) : Prop :=
  ov_used n = 1 /\ ov_is_dir n = 0 /\ ov_is_continuation n = 1 /\ ov_next_node n = next_of c /\
  cstr (ov_path n) = [] /\ ov_size n = blen (take 384 rest) /\ holds n (take 384 rest).

(** The continuation nodes [c] hold [rest], 384 bytes each but for the last. *)
Fixpoint tail_ok (g : nodes_t) (c : list nat) (rest : bytes) : Prop :=
  match c with
  | [] => rest = []
  | i :: c => rest <> [] /\ (exists n, g !! i = Some n /\ block_ok n c rest) /\ tail_ok g c (drop 384 rest)
  end.

Definition head_ok (n : ov_node_t) (path : cstring) (e : ov_entry) (c : list nat) : Prop :=
  ov_used n = 1 /\ ov_is_dir n = b2z (is_Dir e) /\ ov_is_continuation n = 0 /\ ov_next_node n = next_of c /\
  cstr (ov_path n) = path /\
  match e with
  | Dir => c = []
  | File b => ov_size n = blen b /\ holds n (take 384 b) /\ blen b <= 65536
  end.

Definition obj_ok (g : nodes_t) (o : obj) : Prop :=
  match o_chain o with
  | [] => False
  | i :: c => (exists n, g !! i = Some n /\ head_ok n (o_path o) (o_entry o) c) /\
              tail_ok g c (drop 384 (content_of (o_entry o)))
  end.

Definition o_head (o : obj) : nat := hd 0%nat (o_chain o).
Definition chains (objs : list obj) : list nat := concat (map o_chain objs).

Record struct (g : nodes_t) (objs : list obj) : Prop := {
  st_len : length g = 288%nat;
  st_shape : Forall shape_ok g;
  st_objs : Forall (obj_ok g) objs;
  st_nodup : NoDup (chains objs);
  st_used : forall i n, g !! i = Some n -> c_true (ov_used n) = true -> i ∈ chains objs
}.

(** ** Locality *)
Lemma tail_ok_agree g g' c rest :
  tail_ok g c rest -> (forall i, i ∈ c -> g' !! i = g !! i) -> tail_ok g' c rest.
Proof.
  revert rest. induction c as [|i c IH]; intros rest; cbn [tail_ok]; [done|].
  intros (Hr & (n & Hn & Hb) & Ht) Ha. split; [done|]. split.
  - exists n. split; [|done]. rewrite Ha; [done|by left].
  - apply IH; [done|]. intros j Hj. apply Ha. by right.
Qed.

Lemma obj_ok_agree g g' o : obj_ok g o -> (forall i, i ∈ o_chain o -> g' !! i = g !! i) -> obj_ok g' o.
Proof.
  unfold obj_ok. destruct (o_chain o) as [|i c]; [done|]. intros [(n & Hn & Hh) Ht] Ha. split.
  - exists n. split; [|done]. rewrite Ha; [done|by left].
  - eapply tail_ok_agree; [done|]. intros j Hj. apply Ha. by right.
Qed.

Lemma tail_ok_used g c rest i : tail_ok g c rest -> i ∈ c ->
  exists n, g !! i = Some n /\ ov_used n = 1 /\ ov_is_continuation n = 1 /\ cstr (ov_path n) = [].
Proof.
  revert rest. induction c as [|j c IH]; intros rest; cbn [tail_ok]; [by intros _ ?%elem_of_nil|].
  intros (_ & (n & Hn & Hb) & Ht) [->|Hi]%elem_of_cons; [|by eapply IH]. exists n. unfold block_ok in Hb. naive_solver.
Qed.

Lemma obj_chain g o : obj_ok g o -> exists i c n, o_chain o = i :: c /\ g !! i = Some n /\
  head_ok n (o_path o) (o_entry o) c /\ tail_ok g c (drop 384 (content_of (o_entry o))).
Proof. unfold obj_ok. destruct (o_chain o) as [|i c]; [done|]. intros [(n & ? & ?) ?]. by exists i, c, n. Qed.

Lemma obj_ok_used g o i : obj_ok g o -> i ∈ o_chain o -> exists n, g !! i = Some n /\ ov_used n = 1.
Proof.
  intros (j & c & n & -> & Hn & Hh & Ht)%obj_chain [->|Hi]%elem_of_cons.
  - exists n. by destruct Hh.
  - destruct (tail_ok_used _ _ _ _ Ht Hi) as (m & ? & ? & _). eauto.
Qed.

Lemma elem_chains objs i : i ∈ chains objs <-> exists o, o ∈ objs /\ i ∈ o_chain o.
Proof.
  unfold chains. rewrite list_elem_of_In, in_concat. split.
  - intros (l & Hl & Hi). apply in_map_iff in Hl as (o & <- & Ho). exists o. split; by apply list_elem_of_In.
  - intros (o & Ho%list_elem_of_In & Hi%list_elem_of_In). exists (o_chain o). split; [|done].
    by apply in_map.
Qed.

Lemma chains_cons o objs : chains (o :: objs) = o_chain o ++ chains objs.
Proof. done. Qed.

Lemma struct_used g objs i : struct g objs -> i ∈ chains objs -> exists n, g !! i = Some n /\ ov_used n = 1.
Proof.
  intros H (o & Ho & Hi)%elem_chains. pose proof (st_objs _ _ H) as Hf. rewrite Forall_forall in Hf.
  apply (obj_ok_used g o); auto.
Qed.

Lemma struct_perm g objs objs' : objs ≡ₚ objs' -> struct g objs -> struct g objs'.
Proof.
  intros Hp H. assert (Hc : chains objs ≡ₚ chains objs') by (unfold chains; by rewrite Hp).
  destruct H as [H1 H2 H3 H4 H5]. split; [done|done|by rewrite <- Hp|by rewrite <- Hc|].
  intros i n Hi Hu. rewrite <- Hc. by eapply H5.
Qed.

Lemma struct_free g objs i n : struct g objs -> g !! i = Some n -> i ∉ chains objs -> c_true (ov_used n) = false.
Proof. intros H Hi Hc. destruct (c_true (ov_used n)) eqn:E; [|done]. by destruct Hc; eapply st_used. Qed.

(** A change outside the chains of [objs], of nodes that are not in use afterwards. *)
Lemma struct_frame g g' objs objs' :
  struct g objs' -> objs ⊆ objs' -> NoDup (chains objs) -> length g' = length g -> Forall shape_ok g' ->
  (forall i, i ∈ chains objs -> g' !! i = g !! i) ->
  (forall i n, g' !! i = Some n -> i ∉ chains objs -> c_true (ov_used n) = false) ->
  struct g' objs.
Proof.
  intros H Hsub Hnd Hl Hs Ha Hu. split; [rewrite Hl; apply H|done| |done|].
  - apply Forall_forall. intros o Ho. apply (obj_ok_agree g).
    + pose proof (st_objs _ _ H) as Hf. rewrite Forall_forall in Hf. by apply Hf, Hsub.
    + intros i Hi. apply Ha, elem_chains. eauto.
  - intros i n Hi Hn. destruct (decide (i ∈ chains objs)) as [|Hnot]; [done|].
    rewrite (Hu i n Hi Hnot) in Hn. done.
Qed.

(** ** Heads *)
Lemma head_is_head n p e c : head_ok n p e c -> is_head n = true.
Proof. intros (H1 & _ & H2 & _). unfold is_head. by rewrite H1, H2. Qed.

Lemma heads_are_objs g objs i n :
  struct g objs -> g !! i = Some n ->
  (is_head n = true <-> exists o, o ∈ objs /\ o_head o = i).
Proof.
  intros H Hi. split.
  - intros [Hu Hc]%andb_true_iff. pose proof (st_used _ _ H i n Hi Hu) as (o & Ho & Hio)%elem_chains.
    pose proof (st_objs _ _ H) as Hf. rewrite Forall_forall in Hf. specialize (Hf o Ho).
    apply obj_chain in Hf as (j & c & m & Ec & Hm & Hh & Ht). rewrite Ec in Hio.
    apply elem_of_cons in Hio as [->|Hic].
    + exists o. split; [done|]. unfold o_head. by rewrite Ec.
    + destruct (tail_ok_used _ _ _ _ Ht Hic) as (m' & Hm' & _ & Hc' & _). rewrite Hi in Hm'. injection Hm' as <-.
      unfold c_true in Hc. by rewrite Hc' in Hc.
  - intros (o & Ho & <-). pose proof (st_objs _ _ H) as Hf. rewrite Forall_forall in Hf. specialize (Hf o Ho).
    apply obj_chain in Hf as (j & c & m & Ec & Hm & Hh & _). unfold o_head in Hi. rewrite Ec in Hi. cbn in Hi.
    rewrite Hi in Hm. injection Hm as <-. by eapply head_is_head.
Qed.

Lemma struct_obj g objs o : struct g objs -> o ∈ objs -> obj_ok g o.
Proof. intros H Ho. pose proof (st_objs _ _ H) as Hf. rewrite Forall_forall in Hf. by apply Hf. Qed.

Lemma obj_head_node g objs o : struct g objs -> o ∈ objs ->
  exists n c, g !! o_head o = Some n /\ o_chain o = o_head o :: c /\ head_ok n (o_path o) (o_entry o) c /\
    tail_ok g c (drop 384 (content_of (o_entry o))).
Proof.
  intros H Ho. destruct (obj_chain _ _ (struct_obj _ _ _ H Ho)) as (i & c & n & Ec & Hn & Hh & Ht).
  exists n, c. unfold o_head. rewrite Ec. done.
Qed.

Lemma o_head_in g objs o : struct g objs -> o ∈ objs -> o_head o ∈ o_chain o.
Proof. intros H Ho. destruct (obj_head_node _ _ _ H Ho) as (n & c & _ & -> & _). by left. Qed.

(** A node in use is the head of an object, with its path, or has no path. *)
Lemma used_path g objs i n : struct g objs -> g !! i = Some n -> c_true (ov_used n) = true ->
  (exists o, o ∈ objs /\ o_head o = i /\ cstr (ov_path n) = o_path o) \/ cstr (ov_path n) = [].
Proof.
  intros H Hi Hu. destruct (proj1 (elem_chains objs i) (st_used _ _ H i n Hi Hu)) as (o & Ho & Hio).
  destruct (obj_head_node _ _ _ H Ho) as (n' & c & Hn' & Hch & (_ & _ & _ & _ & Hp & _) & Ht). rewrite Hch in Hio.
  apply elem_of_cons in Hio as [->|Hic].
  - rewrite Hi in Hn'. injection Hn' as <-. left. by exists o.
  - destruct (tail_ok_used _ _ _ _ Ht Hic) as (n2 & Hn2 & _ & _ & Hnil). rewrite Hi in Hn2. injection Hn2 as <-. by right.
Qed.

(** Two objects with the same head are the same. *)
Lemma nodup_concat_same (ls : list (list nat)) a b l1 l2 i :
  NoDup (concat ls) -> ls !! a = Some l1 -> ls !! b = Some l2 -> i ∈ l1 -> i ∈ l2 -> a = b.
Proof.
  revert a b. induction ls as [|l ls IH]; intros a b; cbn [concat]; [done|].
  intros (H1 & H2 & H3)%NoDup_app.
  assert (Hin : forall k l', ls !! k = Some l' -> i ∈ l' -> i ∈ concat ls).
  { intros k l' Hk Hi. apply list_elem_of_In, in_concat. exists l'.
    split; apply list_elem_of_In; [by eapply list_elem_of_lookup_2|done]. }
  destruct a as [|a], b as [|b]; cbn [lookup list_lookup]; intros Ha Hb Hi1 Hi2; [done| | |f_equal; by eapply IH].
  - injection Ha as ->. destruct (H2 i Hi1). by eapply Hin.
  - injection Hb as ->. destruct (H2 i Hi2). by eapply Hin.
Qed.

Lemma same_head g objs a b o1 o2 :
  struct g objs -> objs !! a = Some o1 -> objs !! b = Some o2 -> o_head o1 = o_head o2 -> a = b.
Proof.
  intros H Ha Hb He. eapply (nodup_concat_same (map o_chain objs) a b _ _ (o_head o1)); [apply H| | | |].
  - by rewrite list_lookup_fmap, Ha.
  - by rewrite list_lookup_fmap, Hb.
  - eapply o_head_in; [done|by eapply list_elem_of_lookup_2].
  - rewrite He. eapply o_head_in; [done|by eapply list_elem_of_lookup_2].
Qed.

(** ** Finding *)
Abbreviation norm p := (ov_normalize p OV_PATH_MAX) (only parsing).

Lemma find_unfold g p :
  ov_find g p = (if decide (norm p = []) then None
                 else find_slot (fun n => is_head n && bool_decide (cstr (ov_path n) = norm p)) g).
Proof.
  destruct (ov_normalize_ok p) as [Hn _]. unfold ov_find. rewrite chr0_nil, (cstr_id (norm p)) by done.
  destruct (decide (norm p = [])) as [E|E]; [by rewrite bool_decide_eq_true_2|]. rewrite bool_decide_eq_false_2 by done.
  induction g as [|n g IH]; cbn [find_slot]; [done|]. rewrite ov_eq_spec, (cstr_id (norm p)) by done. by rewrite IH.
Qed.

Lemma find_obj g objs p i : struct g objs -> ov_find g p = Some i ->
  exists o, o ∈ objs /\ o_head o = i /\ o_path o = norm p.
Proof.
  intros H Hf. rewrite find_unfold in Hf. destruct (decide (norm p = [])) as [|Hnz]; [done|].
  apply find_slot_Some in Hf as (n & Hi & [Hh Hp%bool_decide_eq_true]%andb_true_iff & _).
  destruct (proj1 (heads_are_objs _ _ _ _ H Hi) Hh) as (o & Ho & He). exists o. split; [done|]. split; [done|].
  destruct (obj_head_node _ _ _ H Ho) as (m & c & Hm & _ & Hok & _). rewrite He, Hi in Hm. injection Hm as <-.
  destruct Hok as (_ & _ & _ & _ & Hpath & _). congruence.
Qed.

Lemma find_absent g objs p o : struct g objs -> norm p <> [] -> ov_find g p = None -> o ∈ objs -> o_path o <> norm p.
Proof.
  intros H Hn Hf Ho Hp. rewrite find_unfold, decide_False in Hf by done. rewrite find_slot_None in Hf.
  destruct (obj_head_node _ _ _ H Ho) as (m & c & Hm & _ & Hok & _). specialize (Hf _ _ Hm).
  rewrite (head_is_head _ _ _ _ Hok) in Hf. destruct Hok as (_ & _ & _ & _ & Hpath & _).
  apply bool_decide_eq_false in Hf. congruence.
Qed.

(** ** Freeing *)
Fixpoint linked (g : nodes_t) (c : list nat) : Prop :=
  match c with
  | [] => True
  | i :: c => (exists n, g !! i = Some n /\ ov_next_node n = next_of c) /\ linked g c
  end.

Lemma tail_linked g c rest : tail_ok g c rest -> linked g c.
Proof.
  revert rest. induction c as [|i c IH]; intros rest; cbn [tail_ok linked]; [done|].
  intros (_ & (n & Hn & Hb) & Ht). split; [|by eapply IH]. exists n. unfold block_ok in Hb. naive_solver.
Qed.

Lemma obj_linked g o : obj_ok g o -> linked g (o_chain o).
Proof.
  intros (i & c & n & -> & Hn & Hh & Ht)%obj_chain. cbn [linked]. split; [|by eapply tail_linked].
  exists n. unfold head_ok in Hh. naive_solver.
Qed.

Lemma linked_agree g g' c : linked g c -> (forall i, i ∈ c -> g' !! i = g !! i) -> linked g' c.
Proof.
  induction c as [|i c IH]; cbn [linked]; [done|]. intros [(n & Hn & He) Hl] Ha. split.
  - exists n. split; [|done]. rewrite Ha; [done|by left].
  - apply IH; [done|]. intros j Hj. apply Ha. by right.
Qed.

Lemma linked_bound g c i : linked g c -> i ∈ c -> (i < length g)%nat.
Proof.
  induction c as [|j c IH]; [by intros _ ?%elem_of_nil|]. intros [(n & Hn & _) Hl] [->|Hi]%elem_of_cons; [|auto].
  by apply lookup_lt_Some in Hn.
Qed.

Fixpoint free_all (g : nodes_t) (c : list nat) : nodes_t :=
  match c with [] => g | i :: c => free_all (<[i := freed (g !!! i)]> g) c end.

Lemma free_all_length g c : length (free_all g c) = length g.
Proof. revert g. induction c as [|i c IH]; intros g; cbn [free_all]; [done|]. by rewrite IH, length_insert. Qed.

Lemma free_all_lookup g c j : NoDup c ->
  free_all g c !! j = (if decide (j ∈ c) then freed <$> g !! j else g !! j).
Proof.
  intros Hnd. revert g. induction Hnd as [|i c Hi Hnd IH]; intros g; cbn [free_all]; [done|].
  rewrite IH. destruct (decide (j = i)) as [->|Hne].
  - rewrite decide_False by done. rewrite decide_True by by left.
    destruct (g !! i) as [n|] eqn:E.
    + rewrite list_lookup_insert_eq by by eapply lookup_lt_Some. by rewrite (list_lookup_total_correct _ _ _ E).
    + cbn. apply lookup_ge_None. rewrite length_insert. by apply lookup_ge_None.
  - rewrite list_lookup_insert_ne by done. destruct (decide (j ∈ c)).
    + rewrite decide_True by by right. done.
    + rewrite decide_False; [done|]. by intros [|]%elem_of_cons.
Qed.

Lemma valid_next_of g c i : length g = 288%nat -> linked g (i :: c) -> valid_next (next_of c) = negb (bool_decide (c = [])).
Proof.
  intros Hlen [_ Hl]. destruct c as [|k c]; [done|]. cbn [next_of]. unfold valid_next, OV_MAX_NODES, OV_SNAP_NODES.
  assert (k < length g)%nat by (eapply linked_bound; [done|by left]).
  rewrite (proj2 (Z.leb_le _ _)), (proj2 (Z.ltb_lt _ _)) by lia. done.
Qed.

Lemma free_from_spec fuel g i c :
  length g = 288%nat -> linked g (i :: c) -> NoDup (i :: c) -> (length c < fuel)%nat ->
  free_from fuel g i = free_all g (i :: c).
Proof.
  revert g i c. induction fuel as [|fuel IH]; intros g i c Hlen Hl Hnd Hf; [lia|]. cbn [free_from free_all].
  pose proof (valid_next_of _ _ _ Hlen Hl) as Hv. pose proof Hl as [(n & Hn & He) Hl'].
  rewrite (list_lookup_total_correct _ _ _ Hn), He, Hv.
  destruct c as [|k c]; cbn [next_of]; [done|]. rewrite bool_decide_eq_false_2 by done. cbn [negb].
  rewrite Nat2Z.id. apply NoDup_cons in Hnd as [Hi Hnd]. apply IH; [by rewrite length_insert| |done|cbn in Hf; lia].
  eapply linked_agree; [done|]. intros j Hj. apply list_lookup_insert_ne. by intros ->.
Qed.

Lemma nodup_lt (l : list nat) n : NoDup l -> (forall i, i ∈ l -> (i < n)%nat) -> (length l <= n)%nat.
Proof.
  intros Hn Hb. transitivity (length (seq 0 n)); [|by rewrite length_seq].
  apply submseteq_length, NoDup_submseteq; [done|]. intros i Hi%Hb. apply elem_of_seq. lia.
Qed.

Lemma chain_length g objs o : struct g objs -> o ∈ objs -> NoDup (o_chain o) /\ (length (o_chain o) <= 288)%nat.
Proof.
  intros H Ho. pose proof (struct_obj _ _ _ H Ho) as Hok.
  assert (Hnd : NoDup (o_chain o)).
  { pose proof (st_nodup _ _ H) as Hn. unfold chains in Hn. apply list_elem_of_lookup in Ho as [k Hk].
    clear -Hn Hk. revert k Hk. induction objs as [|x objs IH]; intros [|k]; cbn; [done|done| |].
    - intros [= ->]. cbn in Hn. by apply NoDup_app in Hn as [? _].
    - cbn in Hn. apply NoDup_app in Hn as (_ & _ & Hn). by apply IH. }
  split; [done|]. apply nodup_lt; [done|]. intros i Hi. rewrite <- (st_len _ _ H).
  eapply linked_bound; [by apply obj_linked|done].
Qed.

Lemma clear_first_nul (p : bytes) : p <> [] -> cstr (<[0%nat := 0]> p) = [].
Proof. by destruct p. Qed.

Lemma freed_shape n : shape_ok n -> shape_ok (freed n).
Proof.
  intros (H1 & H2 & H3). split; [by cbn; rewrite length_insert|]. split; [done|]. cbn.
  rewrite clear_first_nul; [cbn; lia|]. by destruct (ov_path n).
Qed.

Lemma struct_free_obj g o objs :
  struct g (o :: objs) ->
  struct (ov_free_chain g (o_head o)) objs /\
  (forall i, i ∉ o_chain o -> ov_free_chain g (o_head o) !! i = g !! i).
Proof.
  intros H. destruct (chain_length _ _ o H ltac:(by left)) as [Hnd Hlen].
  destruct (obj_head_node _ _ o H ltac:(by left)) as (n & c & Hn & Hc & Hh & Ht).
  assert (E : ov_free_chain g (o_head o) = free_all g (o_chain o)).
  { unfold ov_free_chain. rewrite Hc. apply free_from_spec; [apply H| | |].
    - rewrite <- Hc. apply obj_linked. eapply struct_obj; [done|by left].
    - by rewrite <- Hc.
    - rewrite Hc in Hlen. cbn in Hlen. change (Z.to_nat (OV_MAX_NODES + 1)) with 289%nat. lia. }
  pose proof (st_nodup _ _ H) as Hall. rewrite chains_cons in Hall. apply NoDup_app in Hall as (_ & Hdis & Hnd2).
  rewrite E. split.
  - apply (struct_frame g _ objs (o :: objs)); [done|by intros x; right|done|apply free_all_length| | |].
    + apply Forall_lookup. intros i m Hm. rewrite free_all_lookup in Hm by done.
      pose proof (st_shape _ _ H) as Hs. rewrite Forall_lookup in Hs.
      destruct (decide (i ∈ o_chain o)); [|by eapply Hs]. destruct (g !! i) as [x|] eqn:Ex; [|done].
      injection Hm as <-. apply freed_shape. by eapply Hs.
    + intros i Hi. rewrite free_all_lookup by done. rewrite decide_False; [done|]. intros Hi'. by destruct (Hdis i Hi').
    + intros i m Hm Hi. rewrite free_all_lookup in Hm by done. destruct (decide (i ∈ o_chain o)).
      * destruct (g !! i); [|done]. by injection Hm as <-.
      * eapply struct_free; [done|done|]. rewrite chains_cons. intros [|]%elem_of_app; done.
  - intros i Hi. rewrite free_all_lookup by done. by rewrite decide_False.
Qed.

(** ** Counting *)
Definition sumZ (l : list Z) : Z := foldr Z.add 0 l.

Lemma sumZ_app a b : sumZ (a ++ b) = sumZ a + sumZ b.
Proof. unfold sumZ. induction a as [|x a IH]; cbn [foldr app]; [done|]. rewrite IH. lia. Qed.

#[export] Instance sumZ_perm : Proper ((≡ₚ) ==> (=)) sumZ.
Proof. intros a b H. induction H; unfold sumZ in *; cbn [foldr]; lia. Qed.

Lemma sumZ_bound l k : 0 <= k -> Forall (fun x => 0 <= x <= k) l -> 0 <= sumZ l <= k * Z.of_nat (length l).
Proof. intros Hk. induction 1 as [|x l Hx _ IH]; unfold sumZ in *; cbn [foldr length]; lia. Qed.

Lemma lookup_seq_map (g : nodes_t) : map (fun i => g !!! i) (seq 0 (length g)) = g.
Proof.
  apply list_eq. intros i. rewrite list_lookup_fmap. destruct (decide (i < length g)%nat) as [Hi|Hi].
  - rewrite lookup_seq_lt by done. cbn. symmetry. by apply list_lookup_lookup_total_lt.
  - rewrite lookup_seq_ge by lia. cbn. symmetry. apply lookup_ge_None. lia.
Qed.

Lemma filter_map_comm {A B} (f : A -> B) (P : B -> bool) l :
  List.filter P (map f l) = map f (List.filter (fun x => P (f x)) l).
Proof. induction l as [|x l IH]; cbn; [done|]. destruct (P (f x)); cbn; by rewrite IH. Qed.

Definition ids (P : ov_node_t -> bool) (g : nodes_t) : list nat := List.filter (fun i => P (g !!! i)) (seq 0 (length g)).

Lemma filter_ids P g : List.filter P g = map (fun i => g !!! i) (ids P g).
Proof. rewrite <- (lookup_seq_map g) at 1. apply filter_map_comm. Qed.

Lemma ids_spec P g i : i ∈ ids P g <-> exists n, g !! i = Some n /\ P n = true.
Proof.
  unfold ids. rewrite list_elem_of_In, filter_In, <- list_elem_of_In, elem_of_seq. split.
  - intros [Hi HP]. exists (g !!! i). split; [apply list_lookup_lookup_total_lt; lia|done].
  - intros (n & Hn & HP). rewrite (list_lookup_total_correct _ _ _ Hn). split; [|done].
    apply lookup_lt_Some in Hn. lia.
Qed.

Lemma ids_nodup P g : NoDup (ids P g).
Proof.
  unfold ids. generalize (NoDup_seq 0 (length g)). generalize (seq 0 (length g)). intros l Hl.
  induction Hl as [|x l Hx Hl IH]; cbn [List.filter]; [constructor|]. destruct (P (g !!! x)); [|done].
  constructor; [|done]. intros Hin. apply Hx. apply list_elem_of_In, filter_In in Hin as [Hin _]. by apply list_elem_of_In.
Qed.

Lemma used_ids g objs : struct g objs -> ids (fun n => c_true (ov_used n)) g ≡ₚ chains objs.
Proof.
  intros H. apply NoDup_Permutation; [apply ids_nodup|apply H|]. intros i. rewrite ids_spec. split.
  - intros (n & Hn & Hu). by eapply st_used.
  - intros Hi. destruct (struct_used _ _ _ H Hi) as (n & Hn & Hu). exists n. by rewrite Hu.
Qed.

Lemma o_heads_nodup g objs : struct g objs -> NoDup (map o_head objs).
Proof.
  intros H. apply NoDup_alt. intros a b x. rewrite !list_lookup_fmap.
  destruct (objs !! a) as [o1|] eqn:Ea, (objs !! b) as [o2|] eqn:Eb; try done. intros [= <-] [= He].
  eapply same_head; [done|done|done|congruence].
Qed.

Lemma head_ids g objs : struct g objs -> ids is_head g ≡ₚ map o_head objs.
Proof.
  intros H. apply NoDup_Permutation; [apply ids_nodup|by eapply o_heads_nodup|]. intros i. rewrite ids_spec. split.
  - intros (n & Hn & Hh). apply (heads_are_objs _ _ _ _ H Hn) in Hh as (o & Ho & <-). by apply list_elem_of_fmap_2.
  - intros (o & -> & Ho)%list_elem_of_fmap. destruct (obj_head_node _ _ _ H Ho) as (n & c & Hn & _).
    exists n. split; [done|]. apply (heads_are_objs _ _ _ _ H Hn). eauto.
Qed.

Lemma free_count_acc g k :
  fold_left (fun k n => if c_true (ov_used n) then k else k + 1) g k
  = k + Z.of_nat (length g) - Z.of_nat (length (List.filter (fun n => c_true (ov_used n)) g)).
Proof.
  revert k. induction g as [|n g IH]; intros k; cbn [fold_left List.filter length]; [lia|].
  rewrite IH. destruct (c_true (ov_used n)); cbn [length]; lia.
Qed.

Lemma free_count_spec g objs : struct g objs -> ov_free_count g = 288 - Z.of_nat (length (chains objs)).
Proof.
  intros H. unfold ov_free_count. rewrite free_count_acc, filter_ids, length_map, (st_len _ _ H).
  rewrite (Permutation_length (used_ids _ _ H)). lia.
Qed.

(** The blocks of a content and the image bytes of an object. *)
Definition blocks (b : bytes) : Z := if bool_decide (b = []) then 1 else (blen b + 383) / 384.
Definition obj_bytes (o : obj) : Z :=
  match o_entry o with
  | Dir => 8 + Z.of_nat (length (o_path o))
  | File b => blocks b * 8 + Z.of_nat (length (o_path o)) + blen b
  end.
Definition tree_bytes (objs : list obj) : Z := sumZ (map obj_bytes objs).

Lemma blocks_range b : 1 <= blocks b <= blen b + 1.
Proof.
  unfold blocks, blen. destruct (decide (b = [])) as [->|Hb]; [rewrite bool_decide_eq_true_2 by done; cbn; lia|].
  rewrite bool_decide_eq_false_2 by done. destruct b; [done|]. cbn [length]. zlia.
Qed.

Lemma blocks_for_spec b : blen b <= 65536 -> ov_blocks_for (blen b) = blocks b.
Proof.
  intros Hb. unfold ov_blocks_for, blocks, OV_DATA_MAX, OV_SNAP_DATA.
  destruct (decide (b = [])) as [->|Hne]; [done|]. rewrite bool_decide_eq_false_2 by done.
  unfold blen in *. destruct b; [done|]. rewrite (proj2 (Z.eqb_neq _ _)) by (cbn [length]; lia).
  rewrite u32_id by (unfold is_u32; lia). f_equal. lia.
Qed.

Lemma file_bytes_spec (k : nat) b : (k < 80)%nat -> blen b <= 65536 ->
  ov_file_bytes (Z.of_nat k) (blen b) = blocks b * 8 + Z.of_nat k + blen b.
Proof.
  intros Hk Hb. unfold ov_file_bytes, OV_SNAP_REC_HDR. rewrite blocks_for_spec by done.
  pose proof (blocks_range b). unfold blen in *. rewrite (u32_id (blocks b * 8)) by (unfold is_u32; lia).
  apply u32_id. unfold is_u32. lia.
Qed.

Lemma obj_path_length g objs o : struct g objs -> o ∈ objs -> (length (o_path o) < 80)%nat.
Proof.
  intros H Ho. destruct (obj_head_node _ _ _ H Ho) as (n & c & Hn & _ & (_ & _ & _ & _ & Hp & _) & _).
  pose proof (st_shape _ _ H) as Hs. rewrite Forall_lookup in Hs. destruct (Hs _ _ Hn) as (_ & _ & Hl). by rewrite Hp in Hl.
Qed.

Lemma obj_content_length g objs o : struct g objs -> o ∈ objs -> blen (content_of (o_entry o)) <= 65536.
Proof.
  intros H Ho. destruct (obj_head_node _ _ _ H Ho) as (n & c & _ & _ & (_ & _ & _ & _ & _ & Hs) & _).
  destruct (o_entry o); [by vm_compute|apply Hs].
Qed.

Lemma chain_bytes_spec g objs o : struct g objs -> o ∈ objs -> ov_chain_bytes (g !!! o_head o) = obj_bytes o.
Proof.
  intros H Ho. pose proof (obj_path_length _ _ _ H Ho) as Hl. pose proof (obj_content_length _ _ _ H Ho) as Hc.
  destruct (obj_head_node _ _ _ H Ho) as (n & c & Hn & _ & (_ & Hd & _ & _ & Hp & Hs) & _).
  rewrite (list_lookup_total_correct _ _ _ Hn). unfold ov_chain_bytes, obj_bytes, ov_len. rewrite Hp, Hd.
  unfold blen at 1 2. destruct (o_entry o) as [|b]; cbn [is_Dir b2z content_of] in *.
  - apply u32_id. unfold is_u32, OV_SNAP_REC_HDR. lia.
  - destruct Hs as (-> & _ & _). change (c_true 0) with false. cbn iota. by apply file_bytes_spec.
Qed.

Lemma objs_bound g objs : struct g objs -> (length objs <= length (chains objs) <= 288)%nat.
Proof.
  intros H. split.
  - pose proof (st_objs _ _ H) as Hf. clear H. unfold chains. induction Hf as [|o objs Ho _ IH]; cbn; [done|].
    apply obj_chain in Ho as (i & c & n & -> & _). cbn. rewrite length_app. lia.
  - apply nodup_lt; [apply H|]. intros i Hi. destruct (struct_used _ _ _ H Hi) as (n & Hn & _).
    apply lookup_lt_Some in Hn. by rewrite (st_len _ _ H) in Hn.
Qed.

Lemma obj_bytes_range g objs o : struct g objs -> o ∈ objs -> 0 <= obj_bytes o <= 600000.
Proof.
  intros H Ho. pose proof (obj_path_length _ _ _ H Ho) as Hl. pose proof (obj_content_length _ _ _ H Ho) as Hc.
  unfold obj_bytes. destruct (o_entry o) as [|b]; cbn in Hc; [lia|]. pose proof (blocks_range b). unfold blen in *. lia.
Qed.

Lemma tree_bytes_range g objs : struct g objs -> 0 <= tree_bytes objs <= 172800000.
Proof.
  intros H. unfold tree_bytes. destruct (objs_bound _ _ H) as [Hb1 Hb2].
  pose proof (sumZ_bound (map obj_bytes objs) 600000 ltac:(lia)) as Hs. rewrite length_map in Hs.
  assert (Forall (λ x, 0 <= x <= 600000) (map obj_bytes objs)); [|specialize (Hs H0); lia].
  apply Forall_forall. intros x (o & -> & Ho)%list_elem_of_fmap. by eapply obj_bytes_range.
Qed.

Lemma u32_add_l a b : u32 (u32 a + b) = u32 (a + b).
Proof. unfold u32. by rewrite Z.add_mod_idemp_l. Qed.

Lemma snapshot_bytes_acc g k :
  is_u32 k ->
  fold_left (fun total n => if is_head n then u32 (total + ov_chain_bytes n) else total) g k
  = u32 (k + sumZ (map ov_chain_bytes (List.filter is_head g))).
Proof.
  revert k. induction g as [|n g IH]; intros k Hk; cbn [fold_left List.filter map].
  - unfold sumZ. cbn. by rewrite Z.add_0_r, u32_id.
  - destruct (is_head n); rewrite IH; [|auto with cint|done|done].
    rewrite u32_add_l. unfold sumZ. cbn. f_equal. lia.
Qed.

Lemma snapshot_bytes_spec g objs ext :
  struct g objs -> overlay_snapshot_bytes g ext = ov_hdr ext + tree_bytes objs.
Proof.
  intros H. assert (Hh : 16 <= ov_hdr ext <= 32) by (unfold ov_hdr, OV_SNAP_V4_HDR; destruct (c_true ext); lia).
  unfold overlay_snapshot_bytes. rewrite snapshot_bytes_acc by (unfold is_u32; lia). rewrite filter_ids.
  assert (E : sumZ (map ov_chain_bytes (map (fun i => g !!! i) (ids is_head g))) = tree_bytes objs).
  { unfold tree_bytes. rewrite (head_ids _ _ H), !map_map. f_equal. apply map_ext_in. intros o Ho.
    eapply chain_bytes_spec; [done|by apply list_elem_of_In]. }
  rewrite E. apply u32_id. pose proof (tree_bytes_range _ _ H). unfold is_u32. lia.
Qed.
