(* ===== verification/OvBuild.v ===== *)
(** * Building and reading chains

    [ov_build] adds a file to the nodes, [overlay_read_at] returns the bytes of one. *)

From Stdlib Require Import ZArith Lia.
From stdpp Require Import base numbers option tactics list.
From S2P Require Import Prelude Bytes Names NetBuf OvState OvPaths OvInv.

Lemma free_count_insert g i n n' : g !! i = Some n ->
  ov_free_count (<[i := n']> g)
  = ov_free_count g - (if c_true (ov_used n) then 0 else 1) + (if c_true (ov_used n') then 0 else 1).
Proof.
  intros Hi. pose proof (lookup_lt_Some _ _ _ Hi) as Hlt. unfold ov_free_count.
  rewrite insert_take_drop by done. pose proof (take_drop_middle _ _ _ Hi) as E.
  revert E. generalize (take i g) (drop (S i) g). intros a b <-.
  rewrite !fold_left_app. cbn [fold_left]. rewrite !free_count_acc.
  destruct (c_true (ov_used n)), (c_true (ov_used n')); lia.
Qed.

Lemma alloc_some g : 0 < ov_free_count g ->
  exists i n, ov_alloc g = Some i /\ g !! i = Some n /\ c_true (ov_used n) = false.
Proof.
  intros Hf. unfold ov_alloc. destruct (find_slot _ g) as [i|] eqn:E.
  - apply find_slot_Some in E as (n & Hn & Hu%negb_true_iff & _). eauto.
  - rewrite find_slot_None in E. exfalso. unfold ov_free_count in Hf. rewrite free_count_acc in Hf.
    assert (Hall : List.filter (fun n => c_true (ov_used n)) g = g); [|rewrite Hall in Hf; lia].
    clear Hf. induction g as [|n g IH]; [done|]. cbn. pose proof (E 0%nat n eq_refl) as Hu%negb_false_iff. rewrite Hu.
    f_equal. apply IH. intros i x Hx. by apply (E (S i)).
Qed.

Lemma lookup_insert_total (g : nodes_t) i j (x : ov_node_t) : (i < length g)%nat ->
  <[i := x]> g !! j = if decide (j = i) then Some x else g !! j.
Proof.
  intros Hi. destruct (decide (j = i)) as [->|Hne]; [by apply list_lookup_insert_eq|by apply list_lookup_insert_ne].
Qed.

Lemma nodes_insert g i x : Forall shape_ok g -> shape_ok x -> Forall shape_ok (<[i := x]> g).
Proof. intros. by apply Forall_insert. Qed.

Lemma shape_lookup g i n : Forall shape_ok g -> g !! i = Some n -> shape_ok n.
Proof. intros H. rewrite Forall_lookup in H. apply H. Qed.

Lemma fill_shape n f b : shape_ok n -> (length b <= 384)%nat -> shape_ok (fill_node n f b).
Proof.
  intros (H1 & H2 & H3) Hb. split; [by cbn; rewrite length_insert|]. split; [cbn; rewrite overwrite_length; lia|].
  cbn. rewrite clear_first_nul; [cbn; lia|]. by destruct (ov_path n).
Qed.

Lemma set_next_shape k n : shape_ok n -> shape_ok (set_next k n).
Proof. done. Qed.

Definition finish (want : cstring) (n : Z) (x : ov_node_t) : ov_node_t :=
  set_path (ov_copy (ov_path x) want OV_PATH_MAX) (set_size n x).

Lemma finish_path want n x : shape_ok x -> cstr (ov_path (finish want n x)) = cut want OV_PATH_MAX.
Proof. intros (H1 & _). cbn. apply ov_copy_spec. rewrite H1. unfold OV_PATH_MAX, OV_SNAP_PATH. lia. Qed.

Lemma finish_shape want n x : shape_ok x -> shape_ok (finish want n x).
Proof.
  intros H. pose proof (finish_path want n x H) as Hp. destruct H as (H1 & H2 & H3). split; [|split; [done|]].
  - cbn. rewrite (proj1 (ov_copy_spec _ want OV_PATH_MAX ltac:(rewrite H1; unfold OV_PATH_MAX, OV_SNAP_PATH; lia))). done.
  - rewrite Hp. pose proof (cut_length want OV_PATH_MAX ltac:(unfold OV_PATH_MAX, OV_SNAP_PATH; lia)).
    unfold OV_PATH_MAX, OV_SNAP_PATH in *. lia.
Qed.

(** What the rest of the loop does to a node outside the new blocks [c]. *)
Definition after_build (h p : nat) (want : cstring) (n : Z) (c : list nat) (j : nat) (x : ov_node_t) : ov_node_t :=
  let x := if decide (j = p) then set_next (next_of c) x else x in
  if decide (j = h) then finish want n x else x.

Definition slice (data : bytes) (off n : Z) : bytes := take (Z.to_nat (n - off)) (drop (Z.to_nat off) data).

Lemma slice_length data off n : 0 <= off <= n -> n <= blen data -> blen (slice data off n) = n - off.
Proof. unfold slice, blen. intros. rewrite length_take, length_drop. lia. Qed.

Lemma slice_chunk data off n : 0 <= off <= n -> n <= blen data ->
  ld_bytes data off (if 384 <? n - off then 384 else n - off) = Some (take 384 (slice data off n)).
Proof.
  intros H1 H2. rewrite ld_bytes_ok by (destruct (Z.ltb_spec 384 (n - off)); lia). f_equal. unfold slice. rewrite take_take.
  f_equal. destruct (Z.ltb_spec 384 (n - off)); lia.
Qed.

Lemma slice_next data off n : 0 <= off -> 384 <= n - off -> drop 384 (slice data off n) = slice data (off + 384) n.
Proof.
  intros H1 H2. unfold slice. rewrite skipn_firstn_comm, drop_drop. f_equal; [lia|]. f_equal. lia.
Qed.

Lemma blocks_step b : (384 < length b)%nat -> blocks b = 1 + blocks (drop 384 b).
Proof.
  intros Hb. assert (H1 : b <> []) by (intros ->; cbn in Hb; lia).
  assert (H2 : drop 384 b <> []) by (intros E; apply (f_equal length) in E; rewrite length_drop in E; cbn in E; lia).
  unfold blocks. rewrite !bool_decide_eq_false_2 by done.
  unfold blen. rewrite length_drop. zlia.
Qed.

Lemma blocks_one b : (length b <= 384)%nat -> blocks b = 1.
Proof.
  intros Hb. unfold blocks, blen. case_bool_decide as E; [done|]. destruct b; [done|]. cbn [length] in *. zlia.
Qed.

Lemma fill_block m b c rest : shape_ok m -> b = take 384 rest ->
  block_ok (set_next (next_of c) (fill_node m false b)) c rest.
Proof.
  intros (H1 & H2 & H3) Hb. unfold block_ok. rewrite <- Hb. clear Hb.
  split; [done|]. split; [done|]. split; [done|]. split; [done|]. split; [|split; [done|]].
  - apply clear_first_nul. by destruct (ov_path m).
  - unfold holds, overwrite. cbn [ov_data set_next fill_node]. unfold overwrite. by rewrite take_app_length.
Qed.

Lemma build_from_spec fuel g h p want data n off :
  Forall shape_ok g ->
  (exists x, g !! h = Some x /\ c_true (ov_used x) = true) -> (exists x, g !! p = Some x /\ c_true (ov_used x) = true) ->
  0 <= off < n -> n <= blen data ->
  blocks (slice data off n) <= ov_free_count g -> blocks (slice data off n) <= Z.of_nat fuel ->
  exists c g', build_from fuel g (Some h) (Some p) want data n off = Some (Some h, g') /\
    length g' = length g /\ Forall shape_ok g' /\ NoDup c /\
    (forall i, i ∈ c -> exists m, g !! i = Some m /\ c_true (ov_used m) = false) /\
    tail_ok g' c (slice data off n) /\
    (forall j, j ∉ c -> g' !! j = after_build h p want n c j <$> g !! j).
Proof.
  revert g p off. induction fuel as [|fuel IH]; intros g p off Hs Hh Hp Hoff Hn Hfree Hfuel.
  { pose proof (blocks_range (slice data off n)). lia. }
  cbn [build_from]. pose proof (blocks_range (slice data off n)) as Hb1.
  destruct (alloc_some g ltac:(lia)) as (cur & m & -> & Hcur & Hmu).
  unfold OV_DATA_MAX, OV_SNAP_DATA. rewrite slice_chunk by lia. cbn [mbind option_bind].
  destruct Hh as (xh & Hxh & Hhu), Hp as (xp & Hxp & Hpu).
  assert (Hne1 : cur <> h) by (intros ->; congruence). assert (Hne2 : cur <> p) by (intros ->; congruence).
  pose proof (slice_length data off n ltac:(lia) ltac:(lia)) as Hsl.
  pose proof (shape_lookup _ _ _ Hs Hcur) as Hms. pose proof (lookup_lt_Some _ _ _ Hcur) as Hcl.
  pose proof (lookup_lt_Some _ _ _ Hxp) as Hpl. pose proof (lookup_lt_Some _ _ _ Hxh) as Hhl.
  rewrite (list_lookup_total_correct _ _ _ Hcur).
  set (b := take 384 (slice data off n)).
  assert (Hbl : (length b <= 384)%nat) by (unfold b; rewrite length_take; lia).
  set (g1 := <[cur := fill_node m false b]> g).
  assert (Hg1p : g1 !!! p = xp).
  { apply list_lookup_total_correct. unfold g1. by rewrite list_lookup_insert_ne. }
  rewrite Hg1p. set (g2 := <[p := set_next (Z.of_nat cur) xp]> g1).
  assert (Hl2 : length g2 = length g) by (unfold g2, g1; by rewrite !length_insert).
  assert (Hs2 : Forall shape_ok g2).
  { apply nodes_insert; [apply nodes_insert; [done|by apply fill_shape]|]. apply set_next_shape. by eapply shape_lookup. }
  assert (Hlk : forall j, g2 !! j = if decide (j = p) then Some (set_next (Z.of_nat cur) xp)
                                    else if decide (j = cur) then Some (fill_node m false b) else g !! j).
  { intros j. unfold g2, g1. rewrite lookup_insert_total by (by rewrite length_insert). destruct (decide (j = p)); [done|].
    by apply lookup_insert_total. }
  assert (Hf2 : ov_free_count g2 = ov_free_count g - 1).
  { unfold g2. rewrite (free_count_insert _ _ xp); [|unfold g1; by rewrite list_lookup_insert_ne].
    unfold g1. rewrite (free_count_insert _ _ m) by done. cbn [ov_used set_next fill_node].
    rewrite Hpu, Hmu. change (c_true 1) with true. cbn iota. lia. }
  assert (Hcur2 : g2 !! cur = Some (fill_node m false b)) by (by rewrite Hlk, decide_False, decide_True).
  clearbody g2. clear g1 Hg1p. cbn [default from_option id].
  destruct (Z.ltb_spec 384 (n - off)) as [Hbig|Hsmall].
  - rewrite (proj2 (Z.ltb_lt _ _)) by lia.
    assert (Hstep : blocks (slice data off n) = 1 + blocks (slice data (off + 384) n)).
    { rewrite blocks_step by (unfold blen in Hsl; lia). by rewrite slice_next by lia. }
    destruct (IH g2 cur (off + 384)) as (c & g' & Hrun & Hl' & Hs' & Hnd & Hun & Ht & Hlook);
      [done| | |lia|lia|lia|lia|].
    { exists (if decide (h = p) then set_next (Z.of_nat cur) xp else xh). rewrite Hlk.
      destruct (decide (h = p)) as [->|]; [done|]. by rewrite decide_False by done. }
    { by exists (fill_node m false b). }
    assert (Hcc : cur ∉ c). { intros Hin. destruct (Hun cur Hin) as (y & Hy & Hyu). rewrite Hcur2 in Hy. by injection Hy as <-. }
    exists (cur :: c), g'. split; [exact Hrun|]. split; [congruence|]. split; [done|]. split; [by constructor|].
    split; [|split].
    + intros i [->|Hi]%elem_of_cons; [eauto|]. destruct (Hun i Hi) as (y & Hy & Hyu). rewrite Hlk in Hy.
      destruct (decide (i = p)) as [->|]; [by injection Hy as <-; cbn in Hyu; rewrite Hpu in Hyu|].
      rewrite decide_False in Hy by (by intros ->). eauto.
    + cbn [tail_ok]. split; [intros E; rewrite E in Hsl; cbn in Hsl; unfold blen in Hsl; cbn in Hsl; lia|]. split.
      * rewrite Hlook, Hcur2 by done. eexists. split; [done|]. unfold after_build.
        rewrite (decide_False (P := cur = h)), (decide_True (P := cur = cur)) by done. by apply fill_block.
      * by rewrite slice_next by lia.
    + intros j [Hj1 Hj2]%not_elem_of_cons. rewrite Hlook, Hlk by done. unfold after_build.
      destruct (decide (j = cur)) as [|]; [done|]. destruct (decide (j = p)) as [->|]; [by rewrite Hxp|done].
  - rewrite (proj2 (Z.ltb_ge _ _)) by lia. exists [cur].
    assert (Hh2 : g2 !! h = Some (if decide (h = p) then set_next (Z.of_nat cur) xp else xh)).
    { rewrite Hlk. destruct (decide (h = p)); [done|]. by rewrite decide_False. }
    eexists. split; [done|]. rewrite (list_lookup_total_correct _ _ _ Hh2).
    split; [by rewrite length_insert|]. split; [|split; [apply NoDup_singleton|split; [|split]]].
    + apply nodes_insert; [done|]. apply finish_shape. by eapply shape_lookup.
    + intros i ->%list_elem_of_singleton. eauto.
    + cbn [tail_ok]. split; [intros E; rewrite E in Hsl; unfold blen in Hsl; cbn in Hsl; lia|]. split.
      * rewrite list_lookup_insert_ne, Hcur2 by done. eexists. split; [done|]. by apply (fill_block m b []).
      * apply drop_ge. unfold blen in Hsl. lia.
    + intros j Hj%not_elem_of_cons. destruct Hj as [Hj _]. rewrite lookup_insert_total by lia. unfold after_build, finish.
      destruct (decide (j = h)) as [->|Hjh].
      * rewrite Hxh. cbn. destruct (decide (h = p)) as [->|]; [|done]. by rewrite Hxp in Hxh; injection Hxh as ->.
      * rewrite Hlk. destruct (decide (j = p)) as [->|]; [by rewrite Hxp|]. rewrite decide_False by done.
        by destruct (g !! j).
Qed.

(** ** A file is built *)
Lemma build_spec g want data n :
  length g = 288%nat -> Forall shape_ok g -> 0 <= n <= 65536 -> n <= blen data ->
  blocks (take (Z.to_nat n) data) <= ov_free_count g ->
  exists h c g', ov_build g want data n = Some (Some h, g') /\
    length g' = length g /\ Forall shape_ok g' /\ NoDup (h :: c) /\
    (forall i, i ∈ h :: c -> exists m, g !! i = Some m /\ c_true (ov_used m) = false) /\
    obj_ok g' (mk_obj (cut want OV_PATH_MAX) (File (take (Z.to_nat n) data)) (h :: c)) /\
    (forall j, j ∉ h :: c -> g' !! j = g !! j).
Proof.
  intros Hlen Hs Hn Hd Hfree. pose proof (blocks_range (take (Z.to_nat n) data)) as Hb1.
  assert (Hcont : slice data 0 n = take (Z.to_nat n) data) by (unfold slice; by rewrite Z.sub_0_r).
  rewrite <- Hcont in *. set (content := slice data 0 n) in *.
  pose proof (slice_length data 0 n ltac:(lia) ltac:(lia)) as Hsl. fold content in Hsl. rewrite Z.sub_0_r in Hsl.
  unfold ov_build. assert (Hfu : exists f, Z.to_nat (OV_MAX_NODES + 1) = S f /\ f = 288%nat) by (by eexists).
  destruct Hfu as (f & -> & Hfu). cbn [build_from].
  destruct (alloc_some g ltac:(lia)) as (h & m & -> & Hh & Hmu).
  unfold OV_DATA_MAX, OV_SNAP_DATA. rewrite slice_chunk by lia. fold content. cbn [mbind option_bind default from_option id].
  rewrite (list_lookup_total_correct _ _ _ Hh). set (b := take 384 content).
  assert (Hbl : (length b <= 384)%nat) by (unfold b; rewrite length_take; lia).
  pose proof (shape_lookup _ _ _ Hs Hh) as Hms. pose proof (lookup_lt_Some _ _ _ Hh) as Hhl.
  set (x := fill_node m true b). assert (Hxs : shape_ok x) by (by apply fill_shape).
  assert (Hhold : holds x b) by (unfold holds, x, overwrite; cbn [ov_data fill_node]; unfold overwrite; by rewrite take_app_length).
  destruct (Z.ltb_spec 384 (n - 0)) as [Hbig|Hsmall].
  - rewrite (proj2 (Z.ltb_lt _ _)) by lia.
    assert (Hg1 : <[h := x]> g !! h = Some x) by (by apply list_lookup_insert_eq).
    assert (Hstep : blocks content = 1 + blocks (slice data (0 + 384) n)).
    { rewrite blocks_step by (unfold blen in Hsl; lia). unfold content. by rewrite slice_next by lia. }
    destruct (build_from_spec f (<[h := x]> g) h h want data n (0 + 384)) as (c & g' & Hrun & Hl & Hs' & Hnd & Hun & Ht & Hlook);
      [by apply nodes_insert|by exists x|by exists x|lia|lia| | |].
    { rewrite (free_count_insert _ _ m) by done. rewrite Hmu. change (c_true (ov_used x)) with true.
      cbn iota. lia. }
    { pose proof (blocks_range (slice data (0 + 384) n)). pose proof (slice_length data (0+384) n ltac:(lia) ltac:(lia)).
      unfold ov_free_count in Hfree. rewrite free_count_acc in Hfree. lia. }
    assert (Hhc : h ∉ c). { intros Hin. destruct (Hun h Hin) as (y & Hy & Hyu). rewrite Hg1 in Hy. by injection Hy as <-. }
    exists h, c, g'. split; [exact Hrun|]. split; [by rewrite Hl, length_insert|]. split; [done|].
    split; [by constructor|]. split; [|split].
    + intros i [->|Hi]%elem_of_cons; [eauto|]. destruct (Hun i Hi) as (y & Hy & Hyu).
      rewrite list_lookup_insert_ne in Hy by (by intros ->). eauto.
    + cbn [obj_ok o_chain o_path o_entry content_of]. split.
      * rewrite Hlook, Hg1 by done. eexists. split; [done|]. unfold after_build. rewrite !decide_True by done.
        unfold head_ok. rewrite finish_path by done. cbn [o_path o_entry is_Dir b2z].
        split; [done|]. split; [done|]. split; [done|]. split; [done|]. split; [done|].
        split; [symmetry; exact Hsl|]. split; [done|lia].
      * change (drop 384 (slice data 0 n)) with (drop 384 content). unfold content. by rewrite slice_next by lia.
    + intros j [Hj1 Hj2]%not_elem_of_cons. rewrite Hlook, list_lookup_insert_ne by done. destruct (g !! j); [|done].
      cbn. unfold after_build. by rewrite !decide_False by done.
  - rewrite (proj2 (Z.ltb_ge _ _)) by lia. exists h, []. eexists. split; [done|].
    rewrite list_lookup_total_insert_eq by done.
    split; [by rewrite !length_insert|]. split; [|split; [apply NoDup_singleton|split; [|split]]].
    + apply nodes_insert; [by apply nodes_insert|by apply finish_shape].
    + intros i ->%list_elem_of_singleton. eauto.
    + cbn [obj_ok o_chain o_path o_entry content_of]. split.
      * rewrite list_lookup_insert_eq by (by rewrite length_insert). eexists. split; [done|].
        unfold head_ok. fold (finish want n x). rewrite finish_path by done.
        split; [done|]. split; [done|]. split; [done|]. split; [done|]. split; [done|].
        split; [symmetry; exact Hsl|]. split; [exact Hhold|lia].
      * apply drop_ge. unfold blen in Hsl. lia.
    + intros j [Hj _]%not_elem_of_cons. by rewrite !list_lookup_insert_ne.
Qed.

Lemma struct_build g objs want data n :
  struct g objs -> 0 <= n <= 65536 -> n <= blen data -> blocks (take (Z.to_nat n) data) <= ov_free_count g ->
  exists o g', ov_build g want data n = Some (Some (o_head o), g') /\ struct g' (o :: objs) /\
    o_path o = cut want OV_PATH_MAX /\ o_entry o = File (take (Z.to_nat n) data).
Proof.
  intros H Hn Hd Hf.
  destruct (build_spec g want data n (st_len _ _ H) (st_shape _ _ H) Hn Hd Hf) as (h & c & g' & Hrun & Hl & Hs & Hnd & Hun & Hok & Hj).
  exists (mk_obj (cut want OV_PATH_MAX) (File (take (Z.to_nat n) data)) (h :: c)), g'. split; [exact Hrun|].
  split; [|done].
  assert (Hdis : forall i, i ∈ h :: c -> i ∉ chains objs).
  { intros i Hi Hc. destruct (Hun i Hi) as (m & Hm & Hmu). destruct (struct_used _ _ _ H Hc) as (m' & Hm' & Hu).
    rewrite Hm in Hm'. injection Hm' as <-. by rewrite Hu in Hmu. }
  split; [rewrite Hl; apply H|done| | |].
  - constructor; [exact Hok|]. apply Forall_forall. intros o Ho. apply (obj_ok_agree g); [by eapply struct_obj|].
    intros i Hi. apply Hj. intros Hin. apply (Hdis i Hin), elem_chains. eauto.
  - rewrite chains_cons. apply NoDup_app. split; [exact Hnd|]. split; [exact Hdis|apply H].
  - intros i m Hi Hu. rewrite chains_cons, elem_of_app. cbn [o_chain]. destruct (decide (i ∈ h :: c)) as [|Hnot]; [by left|].
    right. rewrite Hj in Hi by done. by eapply st_used.
Qed.

(** ** The length of a chain *)
Lemma tail_length g c rest : tail_ok g c rest -> Z.of_nat (length c) = if bool_decide (rest = []) then 0 else blocks rest.
Proof.
  revert rest. induction c as [|i c IH]; intros rest; cbn [tail_ok length]; [by intros ->|].
  intros (Hr & _ & Ht). apply IH in Ht. rewrite (bool_decide_eq_false_2 (rest = [])) by done.
  destruct (decide (length rest <= 384)%nat) as [Hle|Hgt].
  - rewrite drop_ge in Ht by done. rewrite bool_decide_eq_true_2 in Ht by done. rewrite blocks_one by done. lia.
  - rewrite bool_decide_eq_false_2 in Ht.
    + rewrite blocks_step by lia. lia.
    + intros E. apply (f_equal length) in E. rewrite length_drop in E. cbn in E. lia.
Qed.

Lemma chain_blocks g objs o : struct g objs -> o ∈ objs -> Z.of_nat (length (o_chain o)) = blocks (content_of (o_entry o)).
Proof.
  intros H Ho. destruct (obj_head_node _ _ _ H Ho) as (n & c & Hn & -> & Hh & Ht). cbn [length].
  apply tail_length in Ht. destruct (o_entry o) as [|b]; cbn [content_of] in *.
  { destruct Hh as (_ & _ & _ & _ & _ & ->). done. }
  destruct (decide (length b <= 384)%nat) as [Hle|Hgt].
  - rewrite drop_ge in Ht by done. rewrite bool_decide_eq_true_2 in Ht by done. rewrite blocks_one by done. lia.
  - rewrite bool_decide_eq_false_2 in Ht.
    + rewrite blocks_step by lia. lia.
    + intros E. apply (f_equal length) in E. rewrite length_drop in E. cbn in E. lia.
Qed.

Lemma next_link g i c n : length g = 288%nat -> linked g (i :: c) -> g !! i = Some n ->
  ov_next n = match c with [] => None | k :: _ => Some k end.
Proof.
  intros Hlen Hl Hn. pose proof (valid_next_of _ _ _ Hlen Hl) as Hv. destruct Hl as [(m & Hm & He) _].
  rewrite Hn in Hm. injection Hm as <-. unfold ov_next. rewrite He, Hv. destruct c as [|k c]; [done|].
  rewrite bool_decide_eq_false_2 by done. cbn. by rewrite Nat2Z.id.
Qed.

Lemma chain_len_linked g c fuel : length g = 288%nat -> linked g c -> (length c <= fuel)%nat ->
  chain_len_from fuel g (match c with [] => None | k :: _ => Some k end) = Z.of_nat (length c).
Proof.
  intros Hlen. revert fuel. induction c as [|i c IH]; intros fuel Hl Hf; [by destruct fuel|].
  destruct fuel as [|fuel]; [cbn in Hf; lia|]. pose proof Hl as [(n & Hn & He) Hl']. cbn [chain_len_from].
  rewrite (list_lookup_total_correct _ _ _ Hn), (next_link _ _ _ _ Hlen Hl Hn), IH by (done || (cbn in Hf; lia)).
  cbn [length]. lia.
Qed.

Lemma chain_len_spec g objs o : struct g objs -> o ∈ objs -> ov_chain_len g (o_head o) = Z.of_nat (length (o_chain o)).
Proof.
  intros H Ho. pose proof (obj_linked _ _ (struct_obj _ _ _ H Ho)) as Hl. destruct (chain_length _ _ _ H Ho) as [_ Hb].
  destruct (obj_head_node _ _ _ H Ho) as (n & c & Hn & Hc & _). rewrite Hc in *.
  apply (chain_len_linked g (o_head o :: c) 288); [apply H|done|done].
Qed.

(** ** Reading *)
Definition blk_of (n : ov_node_t) : Z :=
  if c_true (ov_is_continuation n) then ov_size n
  else if OV_DATA_MAX <? ov_size n then OV_DATA_MAX else ov_size n.

Lemma take_drop_app (a b : bytes) (k d : Z) :
  0 <= k -> 0 <= d <= blen a ->
  take (Z.to_nat (Z.max 0 (Z.min (blen a - d) k))) (drop (Z.to_nat d) a)
    ++ take (Z.to_nat (k - Z.max 0 (Z.min (blen a - d) k))) b
  = take (Z.to_nat k) (drop (Z.to_nat d) (a ++ b)).
Proof.
  intros Hk Hd. unfold blen in *. rewrite drop_app_le by lia. rewrite take_app, length_drop. f_equal.
  - destruct (Z.le_ge_cases (Z.of_nat (length a) - d) k).
    + rewrite !take_ge; [done|rewrite length_drop; lia..].
    + f_equal. lia.
  - f_equal. lia.
Qed.

Lemma read_node fuel g i n bk rest max offset pos out :
  g !! i = Some n -> shape_ok n -> holds n bk -> blk_of n = blen bk -> (length bk <= 384)%nat ->
  0 <= out <= max -> 0 <= pos -> pos + blen bk < 4294967296 ->
  (forall out', out <= out' <= max ->
     read_from fuel g (ov_next n) max offset (pos + blen bk) out'
     = Some (take (Z.to_nat (max - out')) (drop (Z.to_nat (offset - (pos + blen bk))) rest))) ->
  read_from (S fuel) g (Some i) max offset pos out
  = Some (take (Z.to_nat (max - out)) (drop (Z.to_nat (offset - pos)) (bk ++ rest))).
Proof.
  intros Hi (_ & Hdl & _) Hh Hb Hlen Hout Hpos Hbound Hnext. cbn [read_from].
  destruct (Z.leb_spec max out) as [Hm|Hm]; [by replace (Z.to_nat (max - out)) with 0%nat by lia|].
  rewrite (list_lookup_total_correct _ _ _ Hi). fold (blk_of n). rewrite Hb.
  rewrite u32_id by (unfold is_u32, blen in *; lia).
  assert (Hbd : forall d k, 0 <= d -> 0 <= k -> d + k <= blen bk -> ld_bytes (ov_data n) d k = Some (take (Z.to_nat k) (drop (Z.to_nat d) bk))).
  { intros d k Hd Hk Hdk. rewrite ld_bytes_ok by (unfold blen in *; lia). f_equal. unfold holds in Hh. rewrite <- Hh at 1.
    rewrite skipn_firstn_comm, take_take. f_equal. unfold blen in *. lia. }
  destruct (Z.ltb_spec offset (pos + blen bk)) as [Hlt|Hge].
  - set (d := if pos <? offset then offset - pos else 0).
    assert (Hd : 0 <= d <= blen bk) by (unfold d; destruct (Z.ltb_spec pos offset); unfold blen in *; lia).
    assert (Ed : Z.to_nat (offset - pos) = Z.to_nat d) by (unfold d; destruct (Z.ltb_spec pos offset); lia).
    rewrite Hbd by lia. cbn [mbind option_bind]. rewrite Hnext by lia. cbn [mbind option_bind].
    replace (Z.to_nat (offset - (pos + blen bk))) with 0%nat by lia. rewrite drop_0, Ed.
    rewrite <- (take_drop_app bk rest (max - out) d) by lia. do 3 f_equal. lia.
  - rewrite Hnext by lia. rewrite drop_app_ge by (unfold blen in *; lia). do 3 f_equal. unfold blen in *. lia.
Qed.

Lemma read_tail fuel g c rest max offset pos out :
  length g = 288%nat -> Forall shape_ok g -> tail_ok g c rest -> (length c <= fuel)%nat ->
  0 <= out <= max -> 0 <= pos -> pos + blen rest < 4294967296 ->
  read_from fuel g (match c with [] => None | k :: _ => Some k end) max offset pos out
  = Some (take (Z.to_nat (max - out)) (drop (Z.to_nat (offset - pos)) rest)).
Proof.
  intros Hlen Hs. revert fuel rest pos out. induction c as [|i c IH]; intros fuel rest pos out Ht Hf Hout Hpos Hb.
  { cbn [tail_ok] in Ht. subst. by destruct fuel; cbn [read_from]; rewrite drop_nil, take_nil. }
  destruct fuel as [|fuel]; [cbn in Hf; lia|]. pose proof (tail_linked _ _ _ Ht) as Hl.
  cbn [tail_ok] in Ht. destruct Ht as (Hr & (n & Hn & Hblk) & Ht).
  destruct Hblk as (_ & _ & Hcont & _ & _ & Hsize & Hhold).
  assert (Hlt : (length (take 384 rest) <= 384)%nat) by (rewrite length_take; lia).
  assert (Hsplit : blen (take 384 rest) + blen (drop 384 rest) = blen rest) by (unfold blen; rewrite length_take, length_drop; lia).
  rewrite <- (take_drop 384 rest) at 1.
  apply (read_node fuel g i n); try done; [by eapply shape_lookup| |unfold blen in *; lia|].
  - unfold blk_of. by rewrite Hcont.
  - intros out' Hout'. rewrite (next_link _ _ _ _ Hlen Hl Hn). apply IH; [done|cbn in Hf; lia|lia|unfold blen in *; lia|lia].
Qed.

Lemma read_obj g objs o b max offset :
  struct g objs -> o ∈ objs -> o_entry o = File b -> 0 <= max ->
  read_from (Z.to_nat OV_MAX_NODES) g (Some (o_head o)) max offset 0 0
  = Some (take (Z.to_nat max) (drop (Z.to_nat offset) b)).
Proof.
  intros H Ho He Hm. pose proof (obj_linked _ _ (struct_obj _ _ _ H Ho)) as Hl. destruct (chain_length _ _ _ H Ho) as [_ Hb].
  destruct (obj_head_node _ _ _ H Ho) as (n & c & Hn & Hc & (_ & _ & Hcont & _ & _ & Hs) & Ht). rewrite Hc in *.
  rewrite He in Hs, Ht. cbn [content_of] in Ht. destruct Hs as (Hsize & Hhold & Hmax).
  assert (Hfu : exists f, Z.to_nat OV_MAX_NODES = S f /\ f = 287%nat) by (by eexists).
  destruct Hfu as (f & -> & Hfu). cbn in Hb.
  assert (Hlt : (length (take 384 b) <= 384)%nat) by (rewrite length_take; lia).
  assert (Hsplit : blen (take 384 b) + blen (drop 384 b) = blen b) by (unfold blen; rewrite length_take, length_drop; lia).
  rewrite <- (take_drop 384 b) at 1. replace (Z.to_nat max) with (Z.to_nat (max - 0)) by lia.
  replace (Z.to_nat offset) with (Z.to_nat (offset - 0)) by lia.
  apply (read_node f g _ n); try done.
  - eapply shape_lookup; [apply H|done].
  - unfold blk_of. rewrite Hcont, Hsize. change (c_true 0) with false. cbn iota.
    unfold OV_DATA_MAX, OV_SNAP_DATA, blen in *. rewrite length_take.
    destruct (Z.ltb_spec 384 (Z.of_nat (length b))); lia.
  - unfold blen in *. lia.
  - intros out' Hout'. rewrite (next_link _ _ _ _ (st_len _ _ H) Hl Hn).
    apply read_tail; [apply H|apply H|done|lia|lia|unfold blen; lia|unfold blen in *; lia].
Qed.
