(* ===== verification/OvImage.v ===== *)
(** * The overlay on disk: images of fs/overlay.c

    [overlay_snapshot] writes the used nodes as dense records (versions 3 and 4);
    [overlay_restore] reads them back after a check of the whole image, and the fixed
    slots of versions 1 and 2.  The disk is a parameter, the class [OverlayDisk]. *)

From Stdlib Require Import ZArith Lia.
From stdpp Require Import base numbers option tactics list.
From S2P Require Import Prelude Bytes Names NetBuf OvState.

Definition OV_DISK_SECTORS : Z := 64.
Definition OV_DISK_BYTES : Z := OV_SNAP_SIZE_MAX.

(** What the file calls of the ATA driver and the two hooks of
    [overlay_set_disk_hooks]: whether a disk is there, sector writes and reads (result
    and, for a read, what the buffer receives), the hand-over of a snapshot to the
    ring 3 driver, and the note of a write by the kernel. *)
Class OverlayDisk (D : Type) := {
  ata_present : D -> bool;
  ata_write_sectors : D -> Z -> Z -> bytes -> Z * D;
  ata_read_sectors : D -> Z -> Z -> Z * bytes;
  g_ov_save_redirect : ptr (nodes_t -> Z -> D -> Z * D);
  g_ov_kernel_written : ptr (D -> D)
}.

(** The static variables of the file and the device behind it. *)
Record overlay_t {D : Type} := mk_overlay {
  g_ov : nodes_t; g_ov_ext_lba : Z; g_ov_tmp : bytes; g_ov_disk_buf : bytes; ov_dev : D
}.
Arguments overlay_t : clear implicits.

Definition with_nodes {D} (s : overlay_t D) (g : nodes_t) : overlay_t D :=
  mk_overlay D g (g_ov_ext_lba s) (g_ov_tmp s) (g_ov_disk_buf s) (ov_dev s).
Definition with_ext {D} (s : overlay_t D) (e : Z) : overlay_t D :=
  mk_overlay D (g_ov s) e (g_ov_tmp s) (g_ov_disk_buf s) (ov_dev s).
Definition with_tmp {D} (s : overlay_t D) (b : bytes) : overlay_t D :=
  mk_overlay D (g_ov s) (g_ov_ext_lba s) b (g_ov_disk_buf s) (ov_dev s).
Definition with_disk_buf {D} (s : overlay_t D) (b : bytes) : overlay_t D :=
  mk_overlay D (g_ov s) (g_ov_ext_lba s) (g_ov_tmp s) b (ov_dev s).
Definition with_dev {D} (s : overlay_t D) (d : D) : overlay_t D :=
  mk_overlay D (g_ov s) (g_ov_ext_lba s) (g_ov_tmp s) (g_ov_disk_buf s) d.

Definition overlay_set_ext {D} (s : overlay_t D) (ext_lba : Z) : Z * overlay_t D :=
  if negb (ext_lba =? 0) && (ext_lba <? OV_EXT_MIN_LBA) then (-1, s) else (0, with_ext s ext_lba).

Definition overlay_image_lba (ext_lba sector : Z) : Z :=
  if sector <? 64 then sector else u32 (ext_lba + (sector - 64)).

(** ** Writing *)

Definition le16 (z : Z) : bytes := [u8 z; u8 (z / 256)].
Definition un_le16 (b : bytes) : Z := match b with b0 :: b1 :: _ => b0 + 256 * b1 | _ => 0 end.

Definition ov_put_u16 (p : bytes) (off v : Z) : option bytes := st_bytes p off (le16 v).
Definition ov_put_u32 (p : bytes) (off v : Z) : option bytes := st_bytes p off (le32 v).
Definition ov_get_u16 (p : bytes) (off : Z) : option Z := un_le16 <$> ld_bytes p off 2.
Definition ov_get_u32 (p : bytes) (off : Z) : option Z := un_le32 <$> ld_bytes p off 4.

Definition ov_put_rec (buf : bytes) (off type : Z) (path : cstring) (data : bytes) (dlen size : Z)
    : option (bytes * Z) :=
  let plen := ov_len path in
  buf ← put8 buf off type;
  buf ← put8 buf (off + 1) plen;
  buf ← ov_put_u16 buf (off + 2) dlen;
  buf ← ov_put_u32 buf (off + 4) size;
  buf ← copy_in buf (off + OV_SNAP_REC_HDR) path plen;
  buf ← copy_in buf (off + OV_SNAP_REC_HDR + plen) data dlen;
  Some (buf, off + OV_SNAP_REC_HDR + plen + dlen).

(** The records of one file: a [do] loop over its chain. *)
Fixpoint put_blocks (fuel : nat) (g : nodes_t) (h c : ov_node_t) (left : Z) (first : bool)
    (buf : bytes) (off recs : Z) : option (bytes * Z * Z) :=
  match fuel with
  | O => None
  | S fuel =>
      let blk := if OV_DATA_MAX <? left then OV_DATA_MAX else left in
      '(buf, off) ← ov_put_rec buf off (if first then 0 else 2) (if first then ov_path h else []) (ov_data c) blk
                      (if first then ov_size h else 0);
      let left := left - blk in
      match ov_next c with
      | Some k => if 0 <? left then put_blocks fuel g h (g !!! k) left false buf off (recs + 1)
                  else Some (buf, off, recs + 1)
      | NULL => Some (buf, off, recs + 1)
      end
  end.

Definition put_node (g : nodes_t) (h : ov_node_t) (buf : bytes) (off recs : Z) : option (bytes * Z * Z) :=
  if negb (is_head h) then Some (buf, off, recs)
  else if c_true (ov_is_dir h) then
    '(buf, off) ← ov_put_rec buf off 1 (ov_path h) [] 0 0; Some (buf, off, recs + 1)
  else put_blocks (Z.to_nat OV_MAX_NODES) g h h (ov_size h) true buf off recs.

Fixpoint put_nodes (g todo : nodes_t) (buf : bytes) (off recs : Z) : option (bytes * Z * Z) :=
  match todo with
  | [] => Some (buf, off, recs)
  | h :: todo =>
      '(buf, off, recs) ← put_node g h buf off recs; put_nodes g todo buf off recs
  end.

(** The last component is [*out_size] after the call. *)
Definition overlay_snapshot (g : nodes_t) (ext_lba : Z) (buf : ptr bytes) (max : Z) (out_size : ptr Z)
    : option (Z * ptr bytes * ptr Z) :=
  let cap := overlay_capacity ext_lba in
  match buf with
  | NULL => Some (-1, buf, out_size)
  | Some b =>
      if (max <? cap) || (cap <? overlay_snapshot_bytes g ext_lba) then Some (-1, buf, out_size)
      else
        '(b, off, recs) ← put_nodes g g b (ov_hdr ext_lba) 0;
        b ← zero_in b off (cap - off);
        b ← ov_put_u32 b 0 OV_SNAP_MAGIC;
        b ← ov_put_u32 b 4 (if c_true ext_lba then OV_SNAP_V4_VERSION else OV_SNAP_VERSION);
        b ← ov_put_u32 b 8 (if c_true ext_lba then OV_SNAP_NODES else OV_SNAP_V3_NODES);
        b ← ov_put_u32 b 12 recs;
        b ← (if c_true ext_lba
             then b ← ov_put_u32 b 16 ext_lba; ov_put_u32 b 20 OV_EXT_SECTORS
             else Some b);
        Some (0, Some b, match out_size with Some _ => Some cap | NULL => NULL end)
  end.

(** ** Reading *)

(** The checks on the fields of a record, given what is [left] of the current file. *)
Definition record_ok (type plen dlen size left file_max : Z) : bool :=
  if type =? 2
  then negb ((left =? 0) || negb (plen =? 0) || (dlen =? 0) || (left <? dlen))
  else negb ((negb (left =? 0) || (plen =? 0))
             || ((type =? 1) && (negb (dlen =? 0) || negb (size =? 0)))
             || ((type =? 0) && ((file_max <? size)
                                 || negb (dlen =? (if OV_DATA_MAX <? size then OV_DATA_MAX else size))))).

(** What the second pass stores in a node. *)
Definition record_node (nd : ov_node_t) (type size : Z) (path data : bytes) : ov_node_t :=
  mk_ov 1 (b2z (type =? 1)) (b2z (type =? 2)) (-1) (overwrite (ov_path nd) (path ++ [0]))
    (overwrite (ov_data nd) data) (if type =? 0 then size else blen data).

(** The loop over [r] records; [apply] is the second pass.  The first component is
    the result so far: [-1] stops the restore. *)
Fixpoint restore_records (apply : bool) (buf : bytes) (n file_max : Z) (r : nat) (g : nodes_t) (off left : Z)
    (slot : nat) (prev : ptr nat) : option (Z * Z * nodes_t) :=
  match r with
  | O => Some (0, left, g)
  | S r =>
      if n <? u32 (off + OV_SNAP_REC_HDR) then Some (-1, left, g)
      else
        type ← get8 buf off;
        plen ← get8 buf (off + 1);
        dlen ← ov_get_u16 buf (off + 2);
        size ← ov_get_u32 buf (off + 4);
        if (2 <? type) || (OV_PATH_MAX <=? plen) || (OV_DATA_MAX <? dlen) then Some (-1, left, g)
        else if n <? u32 (off + OV_SNAP_REC_HDR + plen + dlen) then Some (-1, left, g)
        else
          path ← ld_bytes buf (off + OV_SNAP_REC_HDR) plen;
          if existsb (fun c => c =? 0) path then Some (-1, left, g)
          else if negb (record_ok type plen dlen size left file_max) then Some (-1, left, g)
          else
            data ← ld_bytes buf (off + OV_SNAP_REC_HDR + plen) dlen;
            g ← (if apply then
                   nd ← g !! slot;
                   let g := <[slot := record_node nd type size path data]> g in
                   Some (match prev with
                         | Some p => if type =? 2 then <[p := set_next (Z.of_nat slot) (g !!! p)]> g else g
                         | NULL => g
                         end)
                 else Some g);
            let left := if type =? 0 then size - dlen else if type =? 2 then left - dlen else 0 in
            restore_records apply buf n file_max r g (off + OV_SNAP_REC_HDR + plen + dlen) left (S slot)
              (if apply then Some slot else prev)
  end.

Definition ov_restore_v3 (g : nodes_t) (buf : bytes) (n hdr nodes file_max : Z) : option (Z * nodes_t) :=
  if n <? hdr then Some (-1, g)
  else
    stored ← ov_get_u32 buf 8;
    if negb (stored =? nodes) then Some (-1, g)
    else
      recs ← ov_get_u32 buf 12;
      if OV_SNAP_NODES <? recs then Some (-1, g)
      else
        '(rc, lf, _) ← restore_records false buf n file_max (Z.to_nat recs) g hdr 0 0 NULL;
        if negb (rc =? 0) || negb (lf =? 0) then Some (-1, g)
        else
          '(rc, lf, g) ← restore_records true buf n file_max (Z.to_nat recs) (overlay_init g) hdr 0 0 NULL;
          if negb (rc =? 0) || negb (lf =? 0) then Some (-1, g) else Some (0, g).

(** Versions 1 and 2: [None] as first component is a slot that is refused. *)
Fixpoint fixed_check (buf : bytes) (stored_node stored_data : Z) (k : nat) (off seen : Z) : option (option Z) :=
  match k with
  | O => Some (Some seen)
  | S k =>
      used ← get8 buf off;
      is_dir ← get8 buf (off + 1);
      size ← ov_get_u32 buf (off + 4);
      if (1 <? used) || (1 <? is_dir) then Some None
      else if (used =? 0) then fixed_check buf stored_node stored_data k (off + stored_node) seen
      else if stored_data <? size then Some None
      else fixed_check buf stored_node stored_data k (off + stored_node) (seen + 1)
  end.

Definition fixed_node (nd : ov_node_t) (is_dir size : Z) (path data : bytes) : ov_node_t :=
  mk_ov 1 (if is_dir =? 0 then 0 else 1) 0 (-1) (<[79%nat := 0]> (overwrite (ov_path nd) path))
    (overwrite (ov_data nd) data) size.

Fixpoint fixed_apply (buf : bytes) (stored_node stored_path stored_data : Z) (k : nat) (g : nodes_t) (off : Z)
    (slot : nat) : option nodes_t :=
  match k with
  | O => Some g
  | S k =>
      used ← get8 buf off;
      if used =? 0 then fixed_apply buf stored_node stored_path stored_data k g (off + stored_node) slot
      else
        nd ← g !! slot;
        is_dir ← get8 buf (off + 1);
        size ← ov_get_u32 buf (off + 4);
        path ← ld_bytes buf (off + 8) (Z.min (OV_PATH_MAX - 1) stored_path);
        data ← ld_bytes buf (off + 8 + stored_path) (Z.min size stored_data);
        fixed_apply buf stored_node stored_path stored_data k (<[slot := fixed_node nd is_dir size path data]> g)
          (off + stored_node) (S slot)
  end.

(** The sizes of the two fixed formats: slots, path, data, slot size, image size. *)
Definition fixed_format (version : Z) : option (Z * Z * Z * Z * Z) :=
  if version =? OV_SNAP_V2_VERSION
  then Some (OV_SNAP_V2_NODES, OV_SNAP_V2_PATH, OV_SNAP_V2_DATA, OV_SNAP_V2_NODE, OV_SNAP_V2_SIZE)
  else if version =? OV_SNAP_V1_VERSION
  then Some (OV_SNAP_V1_NODES, OV_SNAP_V1_PATH, OV_SNAP_V1_DATA, OV_SNAP_V1_NODE, OV_SNAP_V1_SIZE)
  else None.

Definition ov_restore_fixed (g : nodes_t) (buf : ptr bytes) (n : Z) : option (Z * nodes_t) :=
  match buf with
  | NULL => Some (-1, g)
  | Some b =>
      if n <? 16 then Some (-1, g)
      else
        magic ← ov_get_u32 b 0;
        if negb (magic =? OV_SNAP_MAGIC) then Some (-1, g)
        else
          version ← ov_get_u32 b 4;
          match fixed_format version with
          | None => Some (-1, g)
          | Some (stored_nodes, stored_path, stored_data, stored_node, stored_size) =>
              if n <? stored_size then Some (-1, g)
              else
                nodes ← ov_get_u32 b 8;
                if negb (nodes =? stored_nodes) then Some (-1, g)
                else
                  used_count ← ov_get_u32 b 12;
                  if (stored_nodes <? used_count) || (OV_MAX_NODES <? used_count) then Some (-1, g)
                  else
                    checked ← fixed_check b stored_node stored_data (Z.to_nat stored_nodes) 16 0;
                    match checked with
                    | None => Some (-1, g)
                    | Some seen =>
                        if negb (seen =? used_count) then Some (-1, g)
                        else
                          g ← fixed_apply b stored_node stored_path stored_data (Z.to_nat stored_nodes)
                                (overlay_init g) 16 0;
                          Some (0, g)
                    end
          end
  end.

(** The answers the header of an image gives; [None] is a buffer shorter than the
    fields read. *)
Definition overlay_image_ext_lba (buf : ptr bytes) : option Z :=
  match buf with
  | NULL => Some 0
  | Some b =>
      magic ← ov_get_u32 b 0;
      if negb (magic =? OV_SNAP_MAGIC) then Some 0
      else
        version ← ov_get_u32 b 4;
        if negb (version =? OV_SNAP_V4_VERSION) then Some 0
        else
          ext ← ov_get_u32 b 16;
          if ext <? OV_EXT_MIN_LBA then Some 0
          else
            sectors ← ov_get_u32 b 20;
            Some (if negb (sectors =? OV_EXT_SECTORS) then 0 else ext)
  end.

Definition overlay_image_sectors (buf : ptr bytes) : option Z :=
  match buf with
  | NULL => Some 0
  | Some b =>
      magic ← ov_get_u32 b 0;
      if negb (magic =? OV_SNAP_MAGIC) then Some 0
      else ext ← overlay_image_ext_lba buf; Some (if c_true ext then OV_SNAP_SECTORS_MAX else 64)
  end.

(** Whether the header has the magic word and this version. *)
Definition image_version (b : bytes) (version : Z) : option bool :=
  magic ← ov_get_u32 b 0;
  if negb (magic =? OV_SNAP_MAGIC) then Some false
  else v ← ov_get_u32 b 4; Some (v =? version).

Definition overlay_restore {D} (s : overlay_t D) (buf : ptr bytes) (n : Z) : option (Z * overlay_t D) :=
  let fixed := '(rc, g) ← ov_restore_fixed (g_ov s) buf n; Some (rc, with_nodes s g) in
  match buf with
  | NULL => fixed
  | Some b =>
      if n <? 16 then fixed
      else
        v3 ← image_version b OV_SNAP_VERSION;
        if (v3 : bool) then
          '(rc, g) ← ov_restore_v3 (g_ov s) b n 16 OV_SNAP_V3_NODES OV_FILE_MAX_BYTES;
          Some (rc, with_nodes s g)
        else if n <? OV_SNAP_V4_HDR then fixed
        else
          v4 ← image_version b OV_SNAP_V4_VERSION;
          if (v4 : bool) then
            ext ← overlay_image_ext_lba buf;
            if (ext =? 0) || (n <? OV_SNAP_SIZE_MAX) then Some (-1, s)
            else
              '(rc, g) ← ov_restore_v3 (g_ov s) b OV_SNAP_SIZE_MAX OV_SNAP_V4_HDR OV_SNAP_NODES OV_FILE_MAX_EXT_BYTES;
              if negb (rc =? 0) then Some (-1, with_nodes s g)
              else Some (0, with_ext (with_nodes s g) ext)
          else fixed
  end.

(** ** The disk *)

(** The two hooks replaced; the driver stays. *)
Definition overlay_set_disk_hooks {D} (d : OverlayDisk D) (redirect : ptr (nodes_t -> Z -> D -> Z * D))
    (kernel_written : ptr (D -> D)) : OverlayDisk D :=
  Build_OverlayDisk D (@ata_present D d) (@ata_write_sectors D d) (@ata_read_sectors D d) redirect kernel_written.

Section Disk.
Context {D : Type} `{OverlayDisk D}.

(** The write by the kernel itself: snapshot, zero fill, one or two areas. *)
Definition write_snapshot (s : overlay_t D) : option (Z * overlay_t D) :=
  '(rc, buf, sz) ← overlay_snapshot (g_ov s) (g_ov_ext_lba s) (Some (g_ov_disk_buf s)) OV_DISK_BYTES (Some 0);
  let s := with_disk_buf s (default (g_ov_disk_buf s) buf) in
  if negb (rc =? 0) then Some (-1, s)
  else
    let sz := default 0 sz in
    b ← zero_in (g_ov_disk_buf s) sz (OV_DISK_BYTES - sz);
    let s := with_disk_buf s b in
    first ← ld_bytes b 0 (OV_DISK_SECTORS * 512);
    let '(rc, d) := ata_write_sectors (ov_dev s) 0 OV_DISK_SECTORS first in
    let s := with_dev s d in
    '(rc, s) ← (if (rc =? 0) && c_true (g_ov_ext_lba s) then
                  second ← ld_bytes b OV_SNAP_SIZE (OV_EXT_SECTORS * 512);
                  let '(rc, d) := ata_write_sectors (ov_dev s) (g_ov_ext_lba s) OV_EXT_SECTORS second in
                  Some (rc, with_dev s d)
                else Some (rc, s));
    Some (rc, match g_ov_kernel_written with
              | Some written => if rc =? 0 then with_dev s (written (ov_dev s)) else s
              | NULL => s
              end).

Definition overlay_save_disk (s : overlay_t D) : option (Z * overlay_t D) :=
  if negb (ata_present (ov_dev s)) then Some (0, s)
  else
    match g_ov_save_redirect with
    | Some redirect =>
        let '(r, d) := redirect (g_ov s) (g_ov_ext_lba s) (ov_dev s) in
        if c_true r then Some (0, with_dev s d) else write_snapshot (with_dev s d)
    | NULL => write_snapshot s
    end.

Definition overlay_load_disk (s : overlay_t D) : option (Z * overlay_t D) :=
  if negb (ata_present (ov_dev s)) then Some (-1, s)
  else
    let '(rc, first) := ata_read_sectors (ov_dev s) 0 OV_DISK_SECTORS in
    b ← st_bytes (g_ov_disk_buf s) 0 first;
    let s := with_disk_buf s b in
    if negb (rc =? 0) then Some (-1, s)
    else
      ext ← overlay_image_ext_lba (Some b);
      if c_true ext then
        let '(rc, second) := ata_read_sectors (ov_dev s) ext OV_EXT_SECTORS in
        b ← st_bytes b OV_SNAP_SIZE second;
        let s := with_disk_buf s b in
        if negb (rc =? 0) then Some (-1, s) else overlay_restore s (Some b) OV_DISK_BYTES
      else overlay_restore s (Some b) OV_DISK_BYTES.
End Disk.
