(* ===== verification/OvSnap.v ===== *)
(** * Images of the overlay

    A snapshot is a header and one run of records per file or directory; restoring it
    gives the same tree.  No image, however damaged, makes the reader leave its buffer,
    and a refused one changes nothing. *)

From Stdlib Require Import ZArith Lia.
From stdpp Require Import base numbers option tactics list.
From S2P Require Import Prelude Bytes Names NetBuf NetSum OvState OvPaths OvInv OvBuild OvImage.

(** ** Records *)
Definition rec_bytes (type : Z) (path data : bytes) (size : Z) : bytes :=
  [u8 type; u8 (blen path)] ++ le16 (blen data) ++ le32 size ++ path ++ data.

Fixpoint enc_blocks (k : nat) (rest : bytes) : bytes :=
  match k with
  | O => []
  | S k => rec_bytes 2 [] (take 384 rest) 0 ++ enc_blocks k (drop 384 rest)
  end.

Definition enc_obj (o : obj) : bytes :=
  match o_entry o with
  | Dir => rec_bytes 1 (o_path o) [] 0
  | File b => rec_bytes 0 (o_path o) (take 384 b) (blen b) ++ enc_blocks (length (o_chain o) - 1) (drop 384 b)
  end.

Definition enc_all (objs : list obj) : bytes := concat (map enc_obj objs).

Lemma rec_length type path data size : blen (rec_bytes type path data size) = 8 + blen path + blen data.
Proof. unfold rec_bytes, blen. rewrite !length_app. cbn [length le16 le32]. lia. Qed.

Lemma rec_len type path data size : length (rec_bytes type path data size) = (8 + length path + length data)%nat.
Proof. pose proof (rec_length type path data size) as H. unfold blen in H. lia. Qed.

Lemma tail_enc_length g c rest : tail_ok g c rest -> blen (enc_blocks (length c) rest) = 8 * Z.of_nat (length c) + blen rest.
Proof.
  revert rest. induction c as [|i c IH]; intros rest; cbn [tail_ok length enc_blocks]; [by intros ->|].
  intros (_ & _ & Ht). apply IH in Ht. pose proof (rec_length 2 [] (take 384 rest) 0) as Hr.
  unfold blen in *. rewrite length_app, length_take, length_drop in *. cbn [length] in Hr. lia.
Qed.

Lemma enc_obj_length g objs o : struct g objs -> o ∈ objs -> blen (enc_obj o) = obj_bytes o.
Proof.
  intros H Ho. pose proof (chain_blocks _ _ _ H Ho) as Hk.
  destruct (obj_head_node _ _ _ H Ho) as (n & c & Hn & Hc & _ & Ht). unfold enc_obj, obj_bytes. rewrite Hc in *.
  destruct (o_entry o) as [|b]; cbn [content_of] in *; [rewrite rec_length; unfold blen; cbn; lia|].
  cbn [length] in *. replace (S (length c) - 1)%nat with (length c) by lia.
  apply tail_enc_length in Ht. pose proof (rec_length 0 (o_path o) (take 384 b) (blen b)) as Hr.
  unfold blen in *. rewrite length_app, length_take, length_drop in *. lia.
Qed.

Lemma enc_all_length g objs objs' : struct g objs -> (forall o, o ∈ objs' -> o ∈ objs) -> blen (enc_all objs') = tree_bytes objs'.
Proof.
  intros H. unfold enc_all, tree_bytes, sumZ. induction objs' as [|o objs' IH]; intros Hsub; [done|].
  cbn [map concat foldr]. pose proof (enc_obj_length _ _ o H (Hsub o ltac:(by left))) as Ho.
  unfold blen in *. rewrite length_app. rewrite Nat2Z.inj_add, Ho, IH; [done|]. intros x Hx. apply Hsub. by right.
Qed.

(** ** Writing a record behind what is already written *)
Lemma emit pre junk bs : (length bs <= length junk)%nat ->
  st_bytes (pre ++ junk) (blen pre) bs = Some ((pre ++ bs) ++ drop (length bs) junk).
Proof.
  intros H. rewrite <- (take_drop (length bs) junk) at 1. rewrite st_bytes_app; [by rewrite app_assoc|].
  rewrite length_take. lia.
Qed.

Lemma emit_at pre junk bs off : off = blen pre -> (length bs <= length junk)%nat ->
  st_bytes (pre ++ junk) off bs = Some ((pre ++ bs) ++ drop (length bs) junk).
Proof. intros ->. apply emit. Qed.

Lemma ld_start a b (k : Z) : k = blen b -> take (length b) a = b -> ld_bytes a 0 k = Some b.
Proof.
  intros -> Hb. rewrite ld_bytes_ok; [|lia|unfold blen; lia|].
  - rewrite drop_0. unfold blen. by rewrite Nat2Z.id, Hb.
  - apply (f_equal length) in Hb. rewrite length_take in Hb. unfold blen. lia.
Qed.

Lemma cstr_take s : take (length (cstr s)) s = cstr s.
Proof. destruct (cstr_prefix s) as [r Hr]. rewrite Hr at 2. by rewrite take_app_length. Qed.

Lemma put_rec_spec pre junk type path data b size :
  (8 + length (cstr path) + length b <= length junk)%nat -> take (length b) data = b ->
  ov_put_rec (pre ++ junk) (blen pre) type path data (blen b) size
  = Some ((pre ++ rec_bytes type (cstr path) b size) ++ drop (length (rec_bytes type (cstr path) b size)) junk,
          blen (pre ++ rec_bytes type (cstr path) b size)).
Proof.
  intros Hlen Hb. unfold ov_put_rec, put8, ov_put_u16, ov_put_u32, copy_in, ov_len, OV_SNAP_REC_HDR.
  assert (Hadd : forall (a c : bytes), blen (a ++ c) = blen a + blen c) by (intros; unfold blen; rewrite length_app; lia).
  rewrite emit by (cbn; lia). rewrite some_bind.
  rewrite emit_at by (rewrite ?Hadd, ?length_drop; unfold blen; cbn; lia). rewrite some_bind.
  rewrite emit_at by (rewrite ?Hadd, ?length_drop; unfold blen; cbn; lia). rewrite some_bind.
  rewrite emit_at by (rewrite ?Hadd, ?length_drop; unfold blen; cbn; lia). rewrite some_bind.
  rewrite (ld_start path (cstr path)) by (done || apply cstr_take). rewrite some_bind.
  rewrite emit_at by (rewrite ?Hadd, ?length_drop; unfold blen; cbn; lia). rewrite some_bind.
  rewrite (ld_start data b) by done. rewrite some_bind.
  rewrite emit_at by (rewrite ?Hadd, ?length_drop; unfold blen; cbn; lia). rewrite some_bind.
  unfold rec_bytes. rewrite !drop_drop, <- !app_assoc. do 2 f_equal.
  - rewrite !length_app. reflexivity.
  - rewrite !Hadd. unfold blen. cbn. lia.
Qed.

(** What the writer leaves: [e] appended to what is written, and the counters. *)
Definition wrote (pre junk e : bytes) (recs k : Z) : option (bytes * Z * Z) :=
  Some ((pre ++ e) ++ drop (length e) junk, blen (pre ++ e), recs + k).

Lemma wrote_app pre junk e1 e2 recs k1 k2 :
  wrote (pre ++ e1) (drop (length e1) junk) e2 (recs + k1) k2 = wrote pre junk (e1 ++ e2) recs (k1 + k2).
Proof. unfold wrote. rewrite drop_drop, <- !app_assoc, length_app. do 2 f_equal. lia. Qed.

Lemma blk_take rest : (if OV_DATA_MAX <? blen rest then OV_DATA_MAX else blen rest) = blen (take 384 rest).
Proof.
  unfold OV_DATA_MAX, OV_SNAP_DATA, blen. rewrite length_take. destruct (Z.ltb_spec 384 (Z.of_nat (length rest))); lia.
Qed.

Lemma left_drop rest : blen rest - blen (take 384 rest) = blen (drop 384 rest).
Proof. unfold blen. rewrite length_take, length_drop. lia. Qed.

Lemma put_tail g h c : length g = 288%nat -> forall fuel i rest pre junk recs,
  tail_ok g (i :: c) rest -> (length c < fuel)%nat ->
  (length (enc_blocks (S (length c)) rest) <= length junk)%nat ->
  put_blocks fuel g h (g !!! i) (blen rest) false (pre ++ junk) (blen pre) recs
  = wrote pre junk (enc_blocks (S (length c)) rest) recs (Z.of_nat (S (length c))).
Proof.
  intros Hlen. induction c as [|k c IH]; intros fuel i rest pre junk recs Ht Hf Hj;
    (destruct fuel as [|fuel]; [lia|]); cbn [put_blocks]; rewrite blk_take;
    pose proof (tail_linked _ _ _ Ht) as Hl; pose proof Ht as (Hr & (n & Hn & Hb) & Ht');
    rewrite (list_lookup_total_correct _ _ _ Hn); destruct Hb as (_ & _ & _ & _ & _ & _ & Hhold);
    pose proof (rec_length 2 [] (take 384 rest) 0) as Hrl;
    (assert (Hjl : (length (rec_bytes 2 [] (take 384 rest) 0) <= length junk)%nat)
      by (cbn [enc_blocks length] in Hj; rewrite length_app in Hj; lia));
    rewrite (put_rec_spec pre junk 2 [] (ov_data n) (take 384 rest) 0) by (unfold blen in Hrl; cbn [cstr length] in *; lia || done);
    rewrite some_bind, (next_link _ _ _ _ Hlen Hl Hn); cbn [cstr].
  - cbn [tail_ok] in Ht'. cbn [length enc_blocks]. rewrite app_nil_r. done.
  - rewrite left_drop. pose proof Ht' as (Hr' & _).
    rewrite (proj2 (Z.ltb_lt _ _)) by (unfold blen; destruct (drop 384 rest); [done|cbn; lia]).
    cbn [enc_blocks length] in Hj. rewrite length_app in Hj.
    rewrite (IH fuel k (drop 384 rest)); [|done|cbn in Hf; lia|cbn [enc_blocks length]; rewrite length_drop; lia].
    rewrite wrote_app. cbn [enc_blocks length]. f_equal. lia.
Qed.

Lemma put_obj g objs o pre junk recs :
  struct g objs -> o ∈ objs -> (length (enc_obj o) <= length junk)%nat ->
  put_node g (g !!! o_head o) (pre ++ junk) (blen pre) recs
  = wrote pre junk (enc_obj o) recs (Z.of_nat (length (o_chain o))).
Proof.
  intros H Ho Hj. pose proof (obj_linked _ _ (struct_obj _ _ _ H Ho)) as Hl. destruct (chain_length _ _ _ H Ho) as [_ Hb].
  destruct (obj_head_node _ _ _ H Ho) as (n & c & Hn & Hc & Hh & Ht). rewrite (list_lookup_total_correct _ _ _ Hn).
  unfold put_node. rewrite (head_is_head _ _ _ _ Hh). cbn [negb]. unfold enc_obj in *. rewrite Hc in *.
  destruct Hh as (_ & Hd & _ & _ & Hp & Hs). rewrite Hd.
  destruct (o_entry o) as [|b]; cbn [is_Dir b2z content_of] in *.
  - change (c_true 1) with true. cbn iota. pose proof (rec_length 1 (o_path o) [] 0) as Hr. change 0 with (blen []) at 1.
    rewrite put_rec_spec by (rewrite ?Hp; unfold blen in Hr; cbn [length] in *; lia || done). rewrite some_bind, Hp, Hs. done.
  - change (c_true 0) with false. cbn iota. destruct Hs as (Hsz & Hhold & _). rewrite Hsz.
    assert (Hfu : exists f, Z.to_nat OV_MAX_NODES = S f /\ f = 287%nat) by (by eexists).
    destruct Hfu as (f & -> & Hfu). cbn [put_blocks]. rewrite blk_take, Hsz.
    rewrite length_app in Hj. pose proof (rec_len 0 (o_path o) (take 384 b) (blen b)) as Hr.
    rewrite put_rec_spec by (rewrite ?Hp; lia || done).
    rewrite some_bind, (next_link _ _ _ _ (st_len _ _ H) Hl Hn), Hp. cbn [length] in *.
    replace (S (length c) - 1)%nat with (length c) in * by lia. destruct c as [|k c].
    + cbn [length enc_blocks]. rewrite app_nil_r. done.
    + rewrite left_drop. pose proof Ht as (Hr' & _). rewrite (proj2 (Z.ltb_lt _ _)) by (unfold blen; destruct (drop 384 b); [done|cbn; lia]).
      rewrite (put_tail g n c (st_len _ _ H) f k); [|done|cbn in Hb; lia|cbn [length] in Hj |- *; rewrite length_drop; lia].
      rewrite wrote_app. cbn [length]. f_equal. lia.
Qed.

Lemma put_skip g n pre junk recs : is_head n = false -> put_node g n (pre ++ junk) (blen pre) recs = wrote pre junk [] recs 0.
Proof. intros Hh. unfold put_node, wrote. rewrite Hh. cbn [negb length]. by rewrite app_nil_r, drop_0, Z.add_0_r. Qed.

Lemma put_nodes_spec g objs : struct g objs -> forall ix os pre junk recs,
  (forall i, i ∈ ix -> (i < 288)%nat) -> (forall o, o ∈ os -> o ∈ objs) ->
  map o_head os = List.filter (fun i => is_head (g !!! i)) ix ->
  (length (enc_all os) <= length junk)%nat ->
  put_nodes g (map (fun i => g !!! i) ix) (pre ++ junk) (blen pre) recs
  = wrote pre junk (enc_all os) recs (Z.of_nat (length (chains os))).
Proof.
  intros H ix. induction ix as [|i ix IH]; intros os pre junk recs Hi Hos Hf Hj.
  { destruct os; [|done]. cbn. unfold wrote. by rewrite app_nil_r, drop_0, Z.add_0_r. }
  cbn [map put_nodes]. cbn [List.filter] in Hf. destruct (is_head (g !!! i)) eqn:Eh.
  - destruct os as [|o os]; [done|]. cbn [map] in Hf. injection Hf as Hho Hf.
    unfold enc_all in Hj. cbn [map concat] in Hj. rewrite length_app in Hj. subst i.
    rewrite (put_obj g objs o) by (done || (apply Hos; by left) || lia). unfold wrote at 1. rewrite some_bind. cbn beta iota.
    rewrite (IH os); [|intros j Hj'; apply Hi; by right|intros x Hx; apply Hos; by right|done|rewrite length_drop; unfold enc_all; lia].
    rewrite wrote_app. unfold enc_all. cbn [map concat]. rewrite chains_cons, length_app. f_equal. lia.
  - rewrite put_skip by done. unfold wrote at 1. rewrite some_bind. cbn beta iota.
    rewrite (IH os); [|intros j Hj'; apply Hi; by right|done|done|cbn; by rewrite drop_0].
    rewrite wrote_app. done.
Qed.

(** ** The image *)
Definition image_header (ext recs : Z) (reserved : bytes) : bytes :=
  le32 OV_SNAP_MAGIC ++ le32 (if c_true ext then OV_SNAP_V4_VERSION else OV_SNAP_VERSION)
    ++ le32 (if c_true ext then OV_SNAP_NODES else OV_SNAP_V3_NODES) ++ le32 recs
    ++ (if c_true ext then le32 ext ++ le32 OV_EXT_SECTORS ++ reserved else []).

Definition image (ext : Z) (os : list obj) (reserved pad : bytes) : bytes :=
  image_header ext (Z.of_nat (length (chains os))) reserved ++ enc_all os ++ pad.

Lemma hdr_range ext : ov_hdr ext = if c_true ext then 32 else 16.
Proof. done. Qed.

Lemma put_words {A} (k : bytes -> option A) buf a b c d : (16 <= length buf)%nat ->
  (buf ← ov_put_u32 buf 0 a; buf ← ov_put_u32 buf 4 b; buf ← ov_put_u32 buf 8 c; buf ← ov_put_u32 buf 12 d; k buf)
  = k ((le32 a ++ le32 b ++ le32 c ++ le32 d) ++ drop 16 buf).
Proof.
  intros Hl. unfold ov_put_u32.
  rewrite (emit_at [] buf) by (done || (cbn; lia)). rewrite some_bind, le32_length. change ([] ++ le32 a) with (le32 a).
  rewrite (emit_at (le32 a)) by (done || (rewrite length_drop; cbn; lia)). rewrite some_bind, drop_drop, le32_length.
  rewrite (emit_at (le32 a ++ le32 b)) by (done || (rewrite length_drop; cbn; lia)). rewrite some_bind, drop_drop, le32_length.
  rewrite (emit_at ((le32 a ++ le32 b) ++ le32 c)) by (done || (rewrite length_drop; cbn; lia)).
  by rewrite some_bind, drop_drop, le32_length, <- !app_assoc.
Qed.

Lemma put_words2 h buf a b : length h = 16%nat -> (8 <= length buf)%nat ->
  (buf ← ov_put_u32 (h ++ buf) 16 a; ov_put_u32 buf 20 b) = Some ((h ++ le32 a ++ le32 b) ++ drop 8 buf).
Proof.
  intros Hh Hl. unfold ov_put_u32.
  rewrite (emit_at h) by (unfold blen; rewrite ?Hh; done || (cbn; lia)). rewrite some_bind.
  rewrite (emit_at (h ++ le32 a)) by (unfold blen; rewrite ?length_app, ?length_drop, ?Hh; done || (cbn; lia)).
  by rewrite drop_drop, <- !app_assoc.
Qed.

Lemma ordered_objs g objs : struct g objs -> exists os, os ≡ₚ objs /\ map o_head os = ids is_head g.
Proof.
  intros H. destruct (Permutation_map_inv _ _ (head_ids _ _ H)) as (os & E & Hp). exists os. by rewrite Hp.
Qed.

Lemma tree_bytes_perm os objs : os ≡ₚ objs -> tree_bytes os = tree_bytes objs.
Proof. intros H. unfold tree_bytes. by rewrite H. Qed.

Lemma chains_length_perm os objs : os ≡ₚ objs -> length (chains os) = length (chains objs).
Proof. intros H. unfold chains. by rewrite H. Qed.

Lemma put_all g objs os pre junk :
  struct g objs -> os ≡ₚ objs -> map o_head os = ids is_head g -> tree_bytes objs <= blen junk ->
  put_nodes g g (pre ++ junk) (blen pre) 0 = wrote pre junk (enc_all os) 0 (Z.of_nat (length (chains os))).
Proof.
  intros H Hp Ho Hj. rewrite <- (lookup_seq_map g) at 2. apply (put_nodes_spec g objs); [done| | |done|].
  - intros i Hi%elem_of_seq. rewrite (st_len _ _ H) in Hi. lia.
  - intros o. by rewrite Hp.
  - pose proof (enc_all_length g objs os H ltac:(intros o; by rewrite Hp)) as He.
    rewrite (tree_bytes_perm os objs Hp) in He. unfold blen in *. lia.
Qed.

Lemma snapshot_spec g objs ext b max o :
  struct g objs -> ov_hdr ext + tree_bytes objs <= overlay_capacity ext ->
  overlay_capacity ext <= max -> overlay_capacity ext <= blen b ->
  exists os reserved, os ≡ₚ objs /\ length reserved = 8%nat /\
    overlay_snapshot g ext (Some b) max o
    = Some (0, Some (image ext os reserved (replicate (Z.to_nat (overlay_capacity ext - ov_hdr ext - tree_bytes objs)) 0
                                              ++ drop (Z.to_nat (overlay_capacity ext)) b)),
            match o with Some _ => Some (overlay_capacity ext) | None => None end).
Proof.
  intros H Hb Hmax Hbuf. destruct (ordered_objs _ _ H) as (os & Hp & Ho).
  exists os, (take 8 (drop 24 b)). split; [done|].
  assert (Hcap : 32768 <= overlay_capacity ext) by (unfold overlay_capacity; destruct (c_true ext); vm_compute; discriminate).
  pose proof (tree_bytes_range _ _ H) as Ht. pose proof (hdr_range ext) as Hhdr.
  assert (Hhd : 16 <= ov_hdr ext <= 32) by (rewrite Hhdr; destruct (c_true ext); lia).
  unfold blen in Hbuf. split; [rewrite length_take, length_drop; lia|].
  unfold overlay_snapshot. rewrite (snapshot_bytes_spec g objs) by done.
  rewrite (proj2 (Z.ltb_ge _ _)), (proj2 (Z.ltb_ge _ _)) by lia. cbn [orb].
  set (pre := take (Z.to_nat (ov_hdr ext)) b). set (junk := drop (Z.to_nat (ov_hdr ext)) b).
  assert (Hpre : blen pre = ov_hdr ext) by (unfold blen, pre; rewrite length_take; lia).
  assert (Hjunk : Z.of_nat (length junk) = Z.of_nat (length b) - ov_hdr ext) by (unfold junk; rewrite length_drop; lia).
  rewrite <- (take_drop (Z.to_nat (ov_hdr ext)) b) at 1. fold pre junk. rewrite <- Hpre at 1.
  rewrite (put_all g objs os) by (done || (unfold blen; lia)). unfold wrote. rewrite some_bind. cbn beta iota.
  pose proof (enc_all_length g objs os H ltac:(intros x; by rewrite Hp)) as He. rewrite (tree_bytes_perm os objs Hp) in He.
  unfold blen in He. unfold zero_in.
  assert (Hz : Z.to_nat (overlay_capacity ext - blen (pre ++ enc_all os))
               = Z.to_nat (overlay_capacity ext - ov_hdr ext - tree_bytes objs)).
  { unfold blen in *. rewrite length_app. lia. }
  rewrite Hz. set (z := replicate _ 0). rewrite (emit (pre ++ enc_all os)).
  2: { unfold z. rewrite length_replicate, length_drop. lia. }
  rewrite some_bind.
  assert (Hrest : drop (length z) (drop (length (enc_all os)) junk) = drop (Z.to_nat (overlay_capacity ext)) b).
  { unfold z, junk. rewrite length_replicate, !drop_drop. f_equal. lia. }
  rewrite Hrest, <- !app_assoc. set (tail := enc_all os ++ z ++ drop (Z.to_nat (overlay_capacity ext)) b).
  unfold blen in Hpre. rewrite put_words by (rewrite length_app; lia).
  unfold image, image_header. fold z tail. rewrite Z.add_0_l. destruct (c_true ext) eqn:Eext.
  - assert (Ed : drop 16 (pre ++ tail) = drop 16 pre ++ tail) by (apply drop_app_le; lia).
    rewrite Ed. rewrite put_words2; [|done|rewrite length_app, length_drop; lia]. rewrite some_bind.
    rewrite drop_app_le by (rewrite length_drop; lia). rewrite drop_drop.
    assert (Er : drop (16 + 8) pre = take 8 (drop 24 b)).
    { unfold pre. rewrite skipn_firstn_comm. f_equal. lia. }
    rewrite Er, <- !app_assoc. done.
  - rewrite some_bind, drop_app_ge by lia. replace (16 - length pre)%nat with 0%nat by lia. rewrite drop_0, app_nil_r.
    rewrite <- !app_assoc. done.
Qed.

(** ** Reading a record back *)
Definition stored (g : nodes_t) (slot : nat) (prev : ptr nat) (type size : Z) (path data : bytes) : nodes_t :=
  let g := <[slot := record_node (g !!! slot) type size path data]> g in
  match prev with
  | Some p => if type =? 2 then <[p := set_next (Z.of_nat slot) (g !!! p)]> g else g
  | None => g
  end.

Definition left_after (type size left dlen : Z) : Z :=
  if type =? 0 then size - dlen else if type =? 2 then left - dlen else 0.

Lemma get8_at l x r off : off = blen l -> get8 (l ++ x :: r) off = Some x.
Proof.
  intros ->. unfold get8, ld, blen. rewrite (proj2 (Z.leb_le _ _)) by lia. rewrite Nat2Z.id.
  rewrite lookup_app_r by lia. by rewrite Nat.sub_diag.
Qed.

Lemma un_le16_le16 z r : is_u16 z -> un_le16 (le16 z ++ r) = z.
Proof. unfold is_u16, le16, u8. cbn [un_le16 app]. intros. zlia. Qed.

Lemma existsb_nul path : no_nul path -> existsb (fun c => c =? 0) path = false.
Proof. induction 1 as [|c path Hc _ IH]; cbn; [done|]. by rewrite (proj2 (Z.eqb_neq c 0)). Qed.

Lemma restore_step apply n fm r g left slot prev pre type path data size post :
  blen (pre ++ rec_bytes type path data size) <= n -> n < 2147483648 ->
  0 <= type <= 2 -> no_nul path -> (length path < 80)%nat -> (length data <= 384)%nat -> is_u32 size ->
  record_ok type (blen path) (blen data) size left fm = true ->
  (slot < length g)%nat ->
  restore_records apply (pre ++ rec_bytes type path data size ++ post) n fm (S r) g (blen pre) left slot prev
  = restore_records apply (pre ++ rec_bytes type path data size ++ post) n fm r
      (if apply then stored g slot prev type size path data else g)
      (blen (pre ++ rec_bytes type path data size)) (left_after type size left (blen data)) (S slot)
      (if apply then Some slot else prev).
Proof.
  intros Hn Hmax Ht Hp Hpl Hdl Hs Hok Hslot. rewrite blen_app, rec_length in Hn |- *.
  remember (pre ++ rec_bytes type path data size ++ post) as buf eqn:Eb.
  unfold rec_bytes in Eb. rewrite u8_id in Eb by (unfold is_u8; lia). rewrite (u8_id (blen path)) in Eb by (unfold is_u8, blen; lia).
  assert (E1 : get8 buf (blen pre) = Some type) by (rewrite Eb; by apply get8_at).
  assert (E2 : get8 buf (blen pre + 1) = Some (blen path)).
  { rewrite Eb. cbn [app]. change (pre ++ type :: ?l) with (pre ++ [type] ++ l). rewrite app_assoc. apply get8_at.
    by rewrite blen_app. }
  set (h2 := pre ++ [type; blen path]).
  assert (E3 : ov_get_u16 buf (blen pre + 2) = Some (blen data)).
  { assert (Eb' : buf = h2 ++ le16 (blen data) ++ le32 size ++ path ++ data ++ post)
      by (rewrite Eb; unfold h2; by rewrite <- !app_assoc).
    unfold ov_get_u16. rewrite Eb', ld_bytes_at; [|unfold h2; by rewrite blen_app|done]. cbn [fmap option_fmap option_map].
    f_equal. rewrite <- (app_nil_r (le16 _)). apply un_le16_le16. unfold is_u16, blen. lia. }
  assert (E4 : ov_get_u32 buf (blen pre + 4) = Some size).
  { assert (Eb' : buf = (h2 ++ le16 (blen data)) ++ le32 size ++ path ++ data ++ post)
      by (rewrite Eb; unfold h2; by rewrite <- !app_assoc).
    unfold ov_get_u32. rewrite Eb', ld_bytes_at; [|unfold h2; rewrite !blen_app; unfold blen; cbn; lia|done]. cbn [fmap option_fmap option_map].
    f_equal. rewrite <- (app_nil_r (le32 _)). by apply un_le32_le32. }
  assert (E5 : ld_bytes buf (blen pre + 8) (blen path) = Some path).
  { assert (Eb' : buf = (h2 ++ le16 (blen data) ++ le32 size) ++ path ++ data ++ post)
      by (rewrite Eb; unfold h2; by rewrite <- !app_assoc).
    rewrite Eb'. apply ld_bytes_at; [unfold h2; rewrite !blen_app; unfold blen; cbn; lia|done]. }
  assert (E6 : ld_bytes buf (blen pre + 8 + blen path) (blen data) = Some data).
  { assert (Eb' : buf = (h2 ++ le16 (blen data) ++ le32 size ++ path) ++ data ++ post)
      by (rewrite Eb; unfold h2; by rewrite <- !app_assoc).
    rewrite Eb'. apply ld_bytes_at; [unfold h2; rewrite !blen_app; unfold blen; cbn; lia|done]. }
  clear Eb. cbn [restore_records]. unfold OV_SNAP_REC_HDR in *.
  assert (0 <= blen pre) by (unfold blen; lia). assert (0 <= blen path < 80) by (unfold blen; lia).
  assert (0 <= blen data <= 384) by (unfold blen; lia).
  rewrite u32_id by (unfold is_u32; lia). rewrite (proj2 (Z.ltb_ge n _)) by lia.
  rewrite E1, some_bind, E2, some_bind, E3, some_bind, E4, some_bind.
  unfold OV_PATH_MAX, OV_SNAP_PATH, OV_DATA_MAX, OV_SNAP_DATA.
  rewrite (proj2 (Z.ltb_ge 2 _)), (proj2 (Z.leb_gt 80 _)), (proj2 (Z.ltb_ge 384 _)) by lia. cbn [orb].
  rewrite u32_id by (unfold is_u32; lia). rewrite (proj2 (Z.ltb_ge n _)) by lia.
  rewrite E5, some_bind, existsb_nul by done. rewrite Hok. cbn [negb]. rewrite E6, some_bind.
  destruct apply.
  - rewrite (list_lookup_lookup_total_lt g slot) by done. rewrite some_bind, some_bind. unfold stored, left_after.
    f_equal. lia.
  - rewrite some_bind. unfold left_after. f_equal. lia.
Qed.

(** [k] blocks hold exactly [rest]. *)
Fixpoint fills (k : nat) (rest : bytes) : Prop :=
  match k with O => rest = [] | S k => rest <> [] /\ fills k (drop 384 rest) end.

Lemma tail_fills g c rest : tail_ok g c rest -> fills (length c) rest.
Proof.
  revert rest. induction c as [|i c IH]; intros rest; cbn [tail_ok fills length]; [done|]. intros (? & _ & ?). auto.
Qed.

Lemma record_shape nd type size path data : shape_ok nd -> no_nul path -> (length path < 80)%nat -> (length data <= 384)%nat ->
  shape_ok (record_node nd type size path data).
Proof.
  intros (H1 & H2 & H3) Hn Hp Hd. split; [|split]; cbn [ov_path ov_data record_node].
  - rewrite overwrite_length; [done|]. rewrite length_app. cbn. lia.
  - rewrite overwrite_length; lia.
  - unfold overwrite. rewrite <- app_assoc. cbn [app]. by rewrite cstr_term.
Qed.

Lemma record_path nd type size path data : no_nul path -> cstr (ov_path (record_node nd type size path data)) = path.
Proof. intros Hn. cbn [ov_path record_node]. unfold overwrite. rewrite <- app_assoc. cbn [app]. by apply cstr_term. Qed.

Lemma record_holds nd type size path data : holds (record_node nd type size path data) data.
Proof. unfold holds. cbn [ov_data record_node]. unfold overwrite. by rewrite take_app_length. Qed.

(** What the second pass does to the nodes outside the slots it fills. *)
Definition relinked (p : ptr nat) (slot j : nat) (x : ov_node_t) : ov_node_t :=
  if decide (p = Some j) then set_next (Z.of_nat slot) x else x.

Lemma stored_spec g slot p size path data type :
  length g = 288%nat -> Forall shape_ok g -> (slot < 288)%nat -> (forall q, p = Some q -> (q < slot)%nat) ->
  no_nul path -> (length path < 80)%nat -> (length data <= 384)%nat ->
  let g' := stored g slot p type size path data in
  length g' = 288%nat /\ Forall shape_ok g' /\ g' !! slot = Some (record_node (g !!! slot) type size path data) /\
  (forall j, j <> slot -> g' !! j = (if type =? 2 then relinked p slot j else id) <$> g !! j).
Proof.
  intros Hlen Hs Hslot Hp Hn Hpl Hdl. cbn zeta. unfold stored.
  assert (Hnew : shape_ok (record_node (g !!! slot) type size path data)).
  { apply record_shape; [|done..]. eapply shape_lookup; [done|]. apply list_lookup_lookup_total_lt. lia. }
  assert (Hbase : let g1 := <[slot := record_node (g !!! slot) type size path data]> g in
    length g1 = 288%nat /\ Forall shape_ok g1 /\ g1 !! slot = Some (record_node (g !!! slot) type size path data) /\
    (forall j, j <> slot -> g1 !! j = g !! j)).
  { cbn zeta. rewrite length_insert. split; [done|]. split; [by apply nodes_insert|].
    split; [apply list_lookup_insert_eq; lia|]. intros j Hj. apply list_lookup_insert_ne. congruence. }
  cbn zeta in Hbase. destruct Hbase as (Hl1 & Hs1 & Hk1 & Hk2).
  set (g1 := <[slot := _]> g) in *. clearbody g1.
  assert (Hid : forall j, j <> slot -> g1 !! j = id <$> g !! j) by (intros j Hj; rewrite Hk2 by done; by destruct (g !! j)).
  destruct p as [q|]; destruct (type =? 2); [|done| |done].
  - specialize (Hp q eq_refl). rewrite length_insert. split; [done|]. split.
    { apply nodes_insert; [done|]. apply set_next_shape. eapply shape_lookup; [done|]. apply list_lookup_lookup_total_lt. lia. }
    split; [by rewrite list_lookup_insert_ne by lia|]. intros j Hj. unfold relinked.
    destruct (decide (Some q = Some j)) as [[= ->]|Hqj].
    + rewrite list_lookup_insert_eq by lia. rewrite <- (Hk2 j) by done. rewrite (list_lookup_lookup_total_lt g1 j) by lia. done.
    + rewrite list_lookup_insert_ne by congruence. rewrite Hk2 by done. by destruct (g !! j).
  - split; [done|]. split; [done|]. split; [done|]. intros j Hj. rewrite Hk2 by done. unfold relinked. by destruct (g !! j).
Qed.

Lemma tail_record_ok rest fm : rest <> [] -> record_ok 2 (blen []) (blen (take 384 rest)) 0 (blen rest) fm = true.
Proof.
  intros Hne. assert (0 < blen (take 384 rest) <= blen rest).
  { unfold blen. rewrite length_take. destruct rest; [done|]. cbn [length]. lia. }
  unfold record_ok. cbn [Z.eqb]. change (blen [] =? 0) with true. cbn [negb].
  by rewrite (proj2 (Z.eqb_neq (blen rest) 0)), (proj2 (Z.eqb_neq (blen (take 384 rest)) 0)), (proj2 (Z.ltb_ge (blen rest) _)) by lia.
Qed.

Lemma record_block nd c rest next :
  next = next_of c -> block_ok (set_next next (record_node nd 2 0 [] (take 384 rest))) c rest.
Proof.
  intros ->. unfold block_ok. split; [done|]. split; [done|]. split; [done|]. split; [done|].
  split; [by apply record_path; constructor|]. split; [done|]. apply record_holds.
Qed.

Lemma set_next_same n k : ov_next_node n = k -> set_next k n = n.
Proof. intros <-. by destruct n. Qed.

Lemma restore_tail apply n fm r post : n < 2147483648 -> forall k g slot p pre rest,
  fills (S k) rest -> blen (pre ++ enc_blocks (S k) rest) <= n ->
  (slot + S k <= 288)%nat -> length g = 288%nat -> Forall shape_ok g -> (forall q, p = Some q -> (q < slot)%nat) ->
  exists g', restore_records apply (pre ++ enc_blocks (S k) rest ++ post) n fm (S k + r) g (blen pre) (blen rest) slot p
             = restore_records apply (pre ++ enc_blocks (S k) rest ++ post) n fm r g' (blen (pre ++ enc_blocks (S k) rest)) 0
                 (slot + S k) (if apply then Some (slot + k)%nat else p) /\
    (if apply then length g' = 288%nat /\ Forall shape_ok g' /\ tail_ok g' (seq slot (S k)) rest /\
                   (forall j, j ∉ seq slot (S k) -> g' !! j = relinked p slot j <$> g !! j)
     else g' = g).
Proof.
  intros Hmax. induction k as [|k IH]; intros g slot p pre rest Hf Hn Hslot Hlen Hs Hp; pose proof Hf as [Hne Hf'];
    destruct (stored_spec g slot p 0 [] (take 384 rest) 2 Hlen Hs ltac:(lia) Hp ltac:(constructor) ltac:(cbn; lia)
      ltac:(rewrite length_take; lia)) as (Hl1 & Hs1 & Hk1 & Hk2); cbn [Z.eqb] in Hk2.
  - cbn [enc_blocks] in Hn |- *. rewrite app_nil_r in Hn |- *. cbn [fills] in Hf'.
    rewrite restore_step; [|done|done|lia|constructor|cbn; lia|rewrite length_take; lia|unfold is_u32; lia|by apply tail_record_ok|lia].
    exists (if apply then stored g slot p 2 0 [] (take 384 rest) else g). split.
    + unfold left_after. cbn [Z.eqb]. rewrite left_drop, Hf'. change (blen []) with 0.
      by rewrite Nat.add_1_r, Nat.add_0_r.
    + destruct apply; [|done]. split; [done|]. split; [done|]. split.
      * cbn [seq tail_ok]. split; [done|]. split; [|done]. eexists. split; [exact Hk1|].
        rewrite <- (set_next_same _ (-1)) by done. by apply record_block.
      * intros j Hj. apply Hk2. intros ->. apply Hj. apply elem_of_seq. lia.
  - pose proof Hf' as [Hne2 _].
    change (enc_blocks (S (S k)) rest) with (rec_bytes 2 [] (take 384 rest) 0 ++ enc_blocks (S k) (drop 384 rest)) in *.
    rewrite <- app_assoc. cbn [Nat.add].
    set (rc := rec_bytes 2 [] (take 384 rest) 0) in *.
    assert (Hn1 : blen (pre ++ rc) <= n) by (revert Hn; rewrite !blen_app; unfold blen; lia).
    unfold rc. rewrite restore_step; [|done|done|lia|constructor|cbn; lia|rewrite length_take; lia|unfold is_u32; lia|by apply tail_record_ok|lia].
    fold rc. change (left_after 2 0 (blen rest) (blen (take 384 rest))) with (blen rest - blen (take 384 rest)). rewrite left_drop.
    set (g1 := if apply then stored g slot p 2 0 [] (take 384 rest) else g).
    assert (Hg1 : length g1 = 288%nat /\ Forall shape_ok g1) by (unfold g1; by destruct apply).
    destruct Hg1 as [Hgl Hgs].
    destruct (IH g1 (S slot) (if apply then Some slot else p) (pre ++ rc) (drop 384 rest) Hf') as (g' & Hrun & Hg').
    { by rewrite <- app_assoc. }
    { lia. }
    { done. }
    { done. }
    { intros q Hq. destruct apply; [injection Hq as <-; lia|]. specialize (Hp q Hq). lia. }
    exists g'. split.
    + rewrite !(app_assoc pre rc). cbn [Nat.add] in Hrun. rewrite Hrun. f_equal; [lia|].
      destruct apply; [f_equal; lia|done].
    + destruct apply; [|done]. destruct Hg' as (Hl' & Hs' & Ht' & Hj'). split; [done|]. split; [done|]. split.
      * change (seq slot (S (S k))) with (slot :: seq (S slot) (S k)). cbn [tail_ok]. split; [done|]. split; [|done].
        rewrite Hj' by (rewrite elem_of_seq; lia). unfold g1. rewrite Hk1. eexists. split; [done|]. unfold relinked.
        rewrite decide_True by done. by apply record_block.
      * intros j Hj. change (seq slot (S (S k))) with (slot :: seq (S slot) (S k)) in Hj.
        apply not_elem_of_cons in Hj as [Hj1 Hj2]. rewrite Hj' by done. unfold g1. rewrite Hk2 by done. destruct (g !! j); [|done].
        cbn. unfold relinked at 1. by rewrite decide_False by congruence.
Qed.

(** ** Reading an object back *)
Definition enc_ok (fm : Z) (o : obj) : Prop :=
  no_nul (o_path o) /\ (0 < length (o_path o) < 80)%nat /\
  match o_entry o with
  | Dir => length (o_chain o) = 1%nat
  | File b => blen b <= fm /\ (1 <= length (o_chain o))%nat /\ fills (length (o_chain o) - 1) (drop 384 b)
  end.

Definition moved_to (slot : nat) (o : obj) : obj := mk_obj (o_path o) (o_entry o) (seq slot (length (o_chain o))).

Definition placed (apply : bool) (g g' : nodes_t) (slot k : nat) (os : list obj) : Prop :=
  if apply then length g' = 288%nat /\ Forall shape_ok g' /\ Forall (obj_ok g') os /\
                (forall j, j ∉ seq slot k -> g' !! j = g !! j)
  else g' = g.

Lemma file_record_ok path b fm : 0 < blen path -> blen b <= fm ->
  record_ok 0 (blen path) (blen (take 384 b)) (blen b) 0 fm = true.
Proof.
  intros Hp Hb. unfold record_ok. rewrite blk_take. change (0 =? 2) with false. change (0 =? 0) with true.
  change (0 =? 1) with false. cbn [negb andb orb].
  by rewrite (proj2 (Z.eqb_neq (blen path) 0)), (proj2 (Z.ltb_ge fm _)), Z.eqb_refl by lia.
Qed.

Lemma restore_dir apply n fm r g slot p pre post o :
  n < 2147483648 -> o_entry o = Dir -> enc_ok fm o -> blen (pre ++ enc_obj o) <= n ->
  (slot < 288)%nat -> length g = 288%nat -> Forall shape_ok g -> (forall q, p = Some q -> (q < slot)%nat) ->
  exists g' p', restore_records apply (pre ++ enc_obj o ++ post) n fm (1 + r) g (blen pre) 0 slot p
    = restore_records apply (pre ++ enc_obj o ++ post) n fm r g' (blen (pre ++ enc_obj o)) 0 (S slot) p' /\
    (forall q, p' = Some q -> (q < S slot)%nat) /\ placed apply g g' slot 1 [moved_to slot o].
Proof.
  intros Hmax He (Hn & Hp & Hk) Hlen Hslot Hl Hs Hq. unfold enc_obj in *. rewrite He in *. cbn [Nat.add].
  rewrite restore_step; [|done|done|lia|done|lia|cbn; lia|unfold is_u32; lia| |lia].
  2: { unfold record_ok. cbn [Z.eqb negb andb orb]. change (blen [] =? 0) with true. cbn [negb andb orb].
       rewrite (proj2 (Z.eqb_neq (blen (o_path o)) 0)) by (unfold blen; lia). done. }
  eexists _, _. split; [done|]. split.
  { intros q Eq. destruct apply; [injection Eq as <-; lia|]. specialize (Hq q Eq). lia. }
  unfold placed. destruct apply; [|done].
  destruct (stored_spec g slot p 0 (o_path o) [] 1 Hl Hs Hslot Hq Hn ltac:(lia) ltac:(cbn; lia)) as (H1 & H2 & H3 & H4).
  split; [done|]. split; [done|]. split.
  - constructor; [|constructor]. unfold moved_to. rewrite Hk. cbn [obj_ok seq o_chain o_path o_entry]. rewrite He. split; [|done].
    eexists. split; [exact H3|]. unfold head_ok. rewrite record_path by done. done.
  - intros j Hj. rewrite H4; [|intros ->; apply Hj, elem_of_seq; lia]. cbn. by destruct (g !! j).
Qed.

Lemma restore_file apply n fm r g slot p pre post o b :
  n < 2147483648 -> fm <= 65536 -> o_entry o = File b -> enc_ok fm o -> blen (pre ++ enc_obj o) <= n ->
  (slot + length (o_chain o) <= 288)%nat -> length g = 288%nat -> Forall shape_ok g -> (forall q, p = Some q -> (q < slot)%nat) ->
  exists g' p', restore_records apply (pre ++ enc_obj o ++ post) n fm (length (o_chain o) + r) g (blen pre) 0 slot p
    = restore_records apply (pre ++ enc_obj o ++ post) n fm r g' (blen (pre ++ enc_obj o)) 0 (slot + length (o_chain o)) p' /\
    (forall q, p' = Some q -> (q < slot + length (o_chain o))%nat) /\
    placed apply g g' slot (length (o_chain o)) [moved_to slot o].
Proof.
  intros Hmax Hfm He (Hn & Hp & Hk) Hlen Hslot Hl Hs Hq. unfold enc_obj in *. rewrite He in *.
  destruct Hk as (Hb & Hc1 & Hf). destruct (length (o_chain o)) as [|k] eqn:Ek; [lia|]. cbn [Nat.add Nat.sub] in *.
  rewrite Nat.sub_0_r in *. set (rc := rec_bytes 0 (o_path o) (take 384 b) (blen b)) in *.
  assert (Hn1 : blen (pre ++ rc) <= n) by (revert Hlen; rewrite !blen_app; unfold blen; lia).
  rewrite <- app_assoc. unfold rc.
  rewrite restore_step; [|done|done|lia|done|lia|rewrite length_take; lia|unfold is_u32, blen in *; lia| |lia].
  2: { apply file_record_ok; [unfold blen; lia|done]. }
  fold rc. change (left_after 0 (blen b) 0 (blen (take 384 b))) with (blen b - blen (take 384 b)). rewrite left_drop.
  destruct (stored_spec g slot p (blen b) (o_path o) (take 384 b) 0 Hl Hs ltac:(lia) Hq Hn ltac:(lia) ltac:(rewrite length_take; lia))
    as (H1 & H2 & H3 & H4).
  set (g1 := if apply then stored g slot p 0 (blen b) (o_path o) (take 384 b) else g).
  assert (Hg1 : length g1 = 288%nat /\ Forall shape_ok g1) by (unfold g1; by destruct apply). destruct Hg1 as [Hgl Hgs].
  assert (Hhead : forall c, head_ok (set_next (next_of c) (record_node (g !!! slot) 0 (blen b) (o_path o) (take 384 b))) (o_path o) (File b) c).
  { intros c. unfold head_ok. cbn [ov_path set_next]. fold (ov_path (record_node (g !!! slot) 0 (blen b) (o_path o) (take 384 b))).
    split; [done|]. split; [done|]. split; [done|]. split; [done|]. split; [by apply record_path|]. split; [done|].
    split; [apply record_holds|lia]. }
  destruct k as [|k].
  - cbn [fills enc_blocks] in *. rewrite Hf, app_nil_r. change (blen []) with 0. cbn [app].
    exists g1, (if apply then Some slot else p). split; [by rewrite Nat.add_1_r|]. split.
    { intros q Eq. destruct apply; [injection Eq as <-; lia|]. specialize (Hq q Eq). lia. }
    unfold placed, g1. destruct apply; [|done]. split; [done|]. split; [done|]. split.
    + constructor; [|constructor]. unfold moved_to. rewrite Ek. cbn [obj_ok seq o_chain o_path o_entry content_of]. rewrite He. split; [|done].
      eexists. split; [exact H3|]. rewrite <- (set_next_same _ (-1)) by done. apply (Hhead []).
    + intros j Hj. rewrite H4; [|intros ->; apply Hj, elem_of_seq; lia]. cbn. by destruct (g !! j).
  - destruct (restore_tail apply n fm r post Hmax k g1 (S slot) (if apply then Some slot else p) (pre ++ rc) (drop 384 b) Hf)
      as (g' & Hrun & Hg').
    { by rewrite <- app_assoc. } { lia. } { done. } { done. }
    { intros q Eq. destruct apply; [injection Eq as <-; lia|]. specialize (Hq q Eq). lia. }
    rewrite !(app_assoc pre rc). rewrite Hrun. eexists _, _. split; [f_equal; lia|]. split.
    { intros q Eq. destruct apply; [injection Eq as <-; lia|]. specialize (Hq q Eq). lia. }
    unfold placed. destruct apply; [|done]. destruct Hg' as (Hl' & Hs' & Ht' & Hj'). unfold g1 in Hj'. split; [done|]. split; [done|]. split.
    + constructor; [|constructor]. unfold moved_to. rewrite Ek.
      change (seq slot (S (S k))) with (slot :: seq (S slot) (S k)). cbn [obj_ok o_chain o_path o_entry]. rewrite He. cbn [content_of]. split; [|done].
      rewrite Hj' by (rewrite elem_of_seq; lia). rewrite H3. eexists. split; [done|]. unfold relinked. rewrite decide_True by done.
      apply (Hhead (seq (S slot) (S k))).
    + intros j Hj. change (seq slot (S (S k))) with (slot :: seq (S slot) (S k)) in Hj. apply not_elem_of_cons in Hj as [Hj1 Hj2].
      rewrite Hj', H4 by done. destruct (g !! j); [|done]. cbn. unfold relinked. by rewrite decide_False by congruence.
Qed.

Fixpoint place (slot : nat) (os : list obj) : list obj :=
  match os with
  | [] => []
  | o :: os => moved_to slot o :: place (slot + length (o_chain o)) os
  end.

Lemma place_chains slot os : chains (place slot os) = seq slot (length (chains os)).
Proof.
  revert slot. induction os as [|o os IH]; intros slot; [done|]. cbn [place]. rewrite !chains_cons, IH, length_app, seq_app. done.
Qed.

Lemma restore_all apply n fm post : n < 2147483648 -> fm <= 65536 -> forall os g slot p pre,
  Forall (enc_ok fm) os -> blen (pre ++ enc_all os) <= n ->
  (slot + length (chains os) <= 288)%nat -> length g = 288%nat -> Forall shape_ok g -> (forall q, p = Some q -> (q < slot)%nat) ->
  exists g', restore_records apply (pre ++ enc_all os ++ post) n fm (length (chains os)) g (blen pre) 0 slot p
    = Some (0, 0, g') /\ placed apply g g' slot (length (chains os)) (place slot os).
Proof.
  intros Hmax Hfm os. induction os as [|o os IH]; intros g slot p pre Hok Hn Hslot Hl Hs Hp.
  { exists g. split; [done|]. unfold placed. destruct apply; [|done]. split; [done|]. split; [done|]. split; [constructor|done]. }
  apply Forall_cons in Hok as [Ho Hok]. rewrite chains_cons, length_app in *.
  change (enc_all (o :: os)) with (enc_obj o ++ enc_all os) in *.
  assert (Hn1 : blen (pre ++ enc_obj o) <= n) by (revert Hn; rewrite !blen_app; unfold blen; lia).
  assert (Hstep : exists g1 p1, restore_records apply (pre ++ enc_obj o ++ enc_all os ++ post) n fm (length (o_chain o) + length (chains os)) g (blen pre) 0 slot p
    = restore_records apply (pre ++ enc_obj o ++ enc_all os ++ post) n fm (length (chains os)) g1 (blen (pre ++ enc_obj o)) 0 (slot + length (o_chain o)) p1 /\
    (forall q, p1 = Some q -> (q < slot + length (o_chain o))%nat) /\ placed apply g g1 slot (length (o_chain o)) [moved_to slot o]).
  { destruct (o_entry o) as [|b] eqn:He.
    - pose proof Ho as (_ & _ & Hk). rewrite He in Hk. rewrite Hk in *. rewrite Nat.add_1_r.
      apply (restore_dir apply n fm); try done. lia.
    - apply (restore_file apply n fm _ _ _ _ _ _ _ b); try done. lia. }
  destruct Hstep as (g1 & p1 & Hrun & Hp1 & Hpl1).
  assert (Hg1 : length g1 = 288%nat /\ Forall shape_ok g1).
  { unfold placed in Hpl1. destruct apply; [by destruct Hpl1 as (? & ? & _)|by subst]. }
  destruct Hg1 as [Hgl Hgs].
  destruct (IH g1 (slot + length (o_chain o))%nat p1 (pre ++ enc_obj o) Hok) as (g' & Hrun' & Hpl); [by rewrite <- app_assoc|lia|done..|].
  exists g'. split.
  - rewrite <- app_assoc. rewrite Hrun. rewrite <- app_assoc in Hrun'. exact Hrun'.
  - unfold placed in *. destruct apply; [|by subst].
    destruct Hpl1 as (_ & _ & Ho1 & Hj1), Hpl as (Hl' & Hs' & Hos & Hj'). split; [done|]. split; [done|]. split.
    + cbn [place]. constructor; [|done]. apply Forall_cons in Ho1 as [Ho1 _]. eapply obj_ok_agree; [done|].
      intros i Hi. apply Hj'. cbn [moved_to o_chain] in Hi. rewrite !elem_of_seq in *. lia.
    + intros j Hj. rewrite elem_of_seq in Hj. rewrite Hj', Hj1 by (rewrite elem_of_seq; lia). done.
Qed.

(** ** Reading an image back *)
Lemma get_word l w r off : off = blen l -> is_u32 w -> ov_get_u32 (l ++ le32 w ++ r) off = Some w.
Proof.
  intros Ho Hw. unfold ov_get_u32. rewrite ld_bytes_at by done. cbn [fmap option_fmap option_map]. f_equal.
  rewrite <- (app_nil_r (le32 w)). by apply un_le32_le32.
Qed.

Lemma init_node_shape n : shape_ok n -> shape_ok (overlay_init_node n).
Proof. apply freed_shape. Qed.

Lemma init_shape g : Forall shape_ok g -> Forall shape_ok (overlay_init g).
Proof. intros H. apply Forall_fmap. eapply Forall_impl; [done|]. intros n. apply init_node_shape. Qed.

Lemma placed_struct g g' os : placed true (overlay_init g) g' 0 (length (chains os)) (place 0 os) -> struct g' (place 0 os).
Proof.
  intros (Hl & Hs & Hos & Hj). split; [done|done|done|rewrite place_chains; apply NoDup_seq|].
  intros i n Hi Hu. rewrite place_chains. destruct (decide (i ∈ seq 0 (length (chains os)))) as [|Hnot]; [done|].
  rewrite Hj in Hi by done. unfold overlay_init in Hi. rewrite list_lookup_fmap in Hi. destruct (g !! i); [|done].
  injection Hi as <-. done.
Qed.

Lemma restore_v3_image hdr g n fm nodes recs os pre post :
  n < 2147483648 -> fm <= 65536 -> length g = 288%nat -> Forall shape_ok g ->
  blen pre = hdr -> ov_get_u32 (pre ++ enc_all os ++ post) 8 = Some nodes ->
  ov_get_u32 (pre ++ enc_all os ++ post) 12 = Some recs -> recs = Z.of_nat (length (chains os)) ->
  (length (chains os) <= 288)%nat -> Forall (enc_ok fm) os -> blen (pre ++ enc_all os) <= n ->
  exists g', ov_restore_v3 g (pre ++ enc_all os ++ post) n hdr nodes fm = Some (0, g') /\ struct g' (place 0 os).
Proof.
  intros Hmax Hfm Hl Hs Hpre Hw8 Hw12 Hrecs Hk Hok Hn. unfold ov_restore_v3.
  rewrite (proj2 (Z.ltb_ge n hdr)) by (revert Hn; rewrite blen_app; unfold blen in *; lia).
  rewrite Hw8, some_bind, Z.eqb_refl, Hw12, some_bind. cbn [negb].
  rewrite (proj2 (Z.ltb_ge OV_SNAP_NODES _)) by (unfold OV_SNAP_NODES; lia). subst recs. rewrite Nat2Z.id, <- Hpre.
  destruct (restore_all false n fm post Hmax Hfm os g 0 None pre Hok Hn ltac:(lia) Hl Hs ltac:(done)) as (g1 & -> & _).
  rewrite some_bind. cbn [Z.eqb negb orb].
  destruct (restore_all true n fm post Hmax Hfm os (overlay_init g) 0 None pre Hok Hn ltac:(lia)
    ltac:(unfold overlay_init; by rewrite length_map) (init_shape _ Hs) ltac:(done)) as (g2 & -> & Hpl).
  rewrite some_bind. exists g2. split; [done|]. by apply (placed_struct g).
Qed.

Lemma file_max_range ext : overlay_file_max ext <= 65536.
Proof. unfold overlay_file_max, OV_FILE_MAX_EXT_BYTES, OV_FILE_MAX_BYTES. destruct (c_true ext); lia. Qed.

Lemma restore_image {D} (s : overlay_t D) ext os reserved pad n :
  n < 2147483648 -> length (g_ov s) = 288%nat -> Forall shape_ok (g_ov s) -> length reserved = 8%nat ->
  is_u32 ext -> ext = 0 \/ OV_EXT_MIN_LBA <= ext ->
  (length (chains os) <= 288)%nat -> Forall (enc_ok (overlay_file_max ext)) os ->
  ov_hdr ext + blen (enc_all os) <= overlay_capacity ext -> overlay_capacity ext <= n ->
  exists g', overlay_restore s (Some (image ext os reserved pad)) n
             = Some (0, if c_true ext then with_ext (with_nodes s g') ext else with_nodes s g') /\
    struct g' (place 0 os).
Proof.
  intros Hmax Hl Hs Hr Hext Hmin Hk Hok Hbytes Hn. unfold image. set (recs := Z.of_nat (length (chains os))).
  assert (Hru : is_u32 recs) by (unfold is_u32, recs; lia).
  assert (Hcap : 32768 <= overlay_capacity ext) by (unfold overlay_capacity; destruct (c_true ext); vm_compute; discriminate).
  unfold overlay_restore, image_version. rewrite (proj2 (Z.ltb_ge n 16)) by lia.
  pose proof (file_max_range ext) as Hfm. unfold image_header.
  set (ver := if c_true ext then OV_SNAP_V4_VERSION else OV_SNAP_VERSION).
  set (nds := if c_true ext then OV_SNAP_NODES else OV_SNAP_V3_NODES).
  assert (Hvu : is_u32 ver /\ is_u32 nds) by (unfold ver, nds, is_u32; destruct (c_true ext); vm_compute; split; split; congruence).
  destruct Hvu as [Hvu Hnu]. rewrite <- !app_assoc.
  set (x := (if c_true ext then le32 ext ++ le32 OV_EXT_SECTORS ++ reserved else []) ++ enc_all os ++ pad).
  assert (W0 : ov_get_u32 (le32 OV_SNAP_MAGIC ++ le32 ver ++ le32 nds ++ le32 recs ++ x) 0 = Some OV_SNAP_MAGIC)
    by (apply (get_word []); [done|vm_compute; split; congruence]).
  assert (W4 : ov_get_u32 (le32 OV_SNAP_MAGIC ++ le32 ver ++ le32 nds ++ le32 recs ++ x) 4 = Some ver)
    by (by apply get_word).
  assert (W8 : ov_get_u32 (le32 OV_SNAP_MAGIC ++ le32 ver ++ le32 nds ++ le32 recs ++ x) 8 = Some nds)
    by (rewrite app_assoc; by apply get_word).
  assert (W12 : ov_get_u32 (le32 OV_SNAP_MAGIC ++ le32 ver ++ le32 nds ++ le32 recs ++ x) 12 = Some recs)
    by (rewrite app_assoc, (app_assoc (_ ++ _)); by apply get_word).
  set (buf := le32 OV_SNAP_MAGIC ++ le32 ver ++ le32 nds ++ le32 recs ++ x) in *.
  rewrite W0, some_bind, Z.eqb_refl, W4, some_bind, some_bind. cbn [negb].
  unfold overlay_file_max, overlay_capacity, ov_hdr in *. destruct (c_true ext) eqn:Ee.
  - change (ver =? OV_SNAP_VERSION) with false. cbn iota. unfold OV_SNAP_SIZE_MAX, OV_SNAP_V4_HDR in *.
    rewrite (proj2 (Z.ltb_ge n 32)) by lia. rewrite Z.eqb_refl, some_bind.
    assert (W16 : ov_get_u32 buf 16 = Some ext).
    { assert (E16 : buf = (le32 OV_SNAP_MAGIC ++ le32 ver ++ le32 nds ++ le32 recs) ++ le32 ext
        ++ le32 OV_EXT_SECTORS ++ reserved ++ enc_all os ++ pad) by (unfold buf, x; by rewrite <- !app_assoc).
      rewrite E16. by apply get_word. }
    assert (W20 : ov_get_u32 buf 20 = Some OV_EXT_SECTORS).
    { assert (E20 : buf = (le32 OV_SNAP_MAGIC ++ le32 ver ++ le32 nds ++ le32 recs ++ le32 ext) ++ le32 OV_EXT_SECTORS
        ++ reserved ++ enc_all os ++ pad) by (unfold buf, x; by rewrite <- !app_assoc).
      rewrite E20. apply get_word; [done|vm_compute; split; congruence]. }
    unfold overlay_image_ext_lba. rewrite W0, some_bind, Z.eqb_refl, W4, some_bind, Z.eqb_refl, W16, some_bind. cbn [negb].
    assert (Hne : ext <> 0) by (unfold c_true in Ee; bsimp; done).
    rewrite (proj2 (Z.ltb_ge ext _)) by lia. rewrite W20, some_bind, some_bind, Z.eqb_refl. cbn [negb].
    rewrite (proj2 (Z.eqb_neq ext 0)), (proj2 (Z.ltb_ge n _)) by lia. cbn [orb].
    assert (Eb : buf = (le32 OV_SNAP_MAGIC ++ le32 ver ++ le32 nds ++ le32 recs ++ le32 ext ++ le32 OV_EXT_SECTORS ++ reserved)
      ++ enc_all os ++ pad) by (unfold buf, x; by rewrite <- !app_assoc).
    rewrite Eb in W8, W12 |- *.
    assert (Hpl : blen (le32 OV_SNAP_MAGIC ++ le32 ver ++ le32 nds ++ le32 recs ++ le32 ext ++ le32 OV_EXT_SECTORS ++ reserved) = 32)
      by (unfold blen; rewrite !length_app, Hr; done).
    destruct (restore_v3_image 32 (g_ov s) 98304 OV_FILE_MAX_EXT_BYTES nds recs os _ pad ltac:(lia) Hfm Hl Hs Hpl W8 W12
      eq_refl Hk Hok ltac:(rewrite blen_app, Hpl; lia)) as (g' & Hrun & Hst).
    fold nds. rewrite Hrun, some_bind. cbn [Z.eqb negb]. exists g'. split; [done|done].
  - change (ver =? OV_SNAP_VERSION) with true. cbn iota. unfold OV_SNAP_SIZE in *.
    assert (Eb : buf = (le32 OV_SNAP_MAGIC ++ le32 ver ++ le32 nds ++ le32 recs) ++ enc_all os ++ pad)
      by (unfold buf, x; by rewrite <- !app_assoc).
    rewrite Eb in W8, W12 |- *.
    assert (Hpl : blen (le32 OV_SNAP_MAGIC ++ le32 ver ++ le32 nds ++ le32 recs) = 16) by done.
    destruct (restore_v3_image 16 (g_ov s) n OV_FILE_MAX_BYTES nds recs os _ pad ltac:(lia) Hfm Hl Hs Hpl W8 W12
      eq_refl Hk Hok ltac:(rewrite blen_app, Hpl; lia)) as (g' & Hrun & Hst).
    fold nds. rewrite Hrun, some_bind. exists g'. split; [done|done].
Qed.
