(* ===== verification/Overlay.v ===== *)
(** * The writable overlay: file operations of fs/overlay.c

    Creating, writing, appending, removing, renaming, copying and listing.  Every
    operation that changes the tree ends with [overlay_save_disk].  The read-only
    image under the overlay is reached through the class [Initrd]. *)

From Stdlib Require Import ZArith Lia.
From stdpp Require Import base numbers option tactics list.
From S2P Require Import Prelude Bytes Names NetBuf OvState OvImage.

(** What the overlay asks of fs/initrd.c. *)
Class Initrd := {
  initrd_is_file : cstring -> bool;
  initrd_is_dir : cstring -> bool;
  initrd_read_into : cstring -> bytes -> Z -> option (Z * bytes)
}.

Section Operations.
Context {D : Type} `{OverlayDisk D} `{Initrd}.
Implicit Types s : overlay_t D.

Definition ov_parent_is_dir (g : nodes_t) (path : cstring) : bool :=
  let parent := ov_parent path OV_PATH_MAX in
  if chr parent 0 =? 0 then true
  else if overlay_is_dir g (Some parent) then true
  else initrd_is_dir parent.

(** A call ends by saving the image; the result of the save is ignored. *)
Definition saved (rc : Z) (s : overlay_t D) : option (Z * overlay_t D) :=
  '(_, s) ← overlay_save_disk s; Some (rc, s).

(** The fields a new directory node receives. *)
Definition dir_node (n : ov_node_t) (path : cstring) : ov_node_t :=
  mk_ov 1 1 0 (-1) (ov_copy (ov_path n) path OV_PATH_MAX) (ov_data n) 0.
Definition clear_data (n : ov_node_t) : ov_node_t :=
  mk_ov (ov_used n) (ov_is_dir n) (ov_is_continuation n) (ov_next_node n) (ov_path n)
    (<[0%nat := 0]> (ov_data n)) (ov_size n).

Definition overlay_mkdir s (path : ptr cstring) : option (Z * overlay_t D) :=
  let want := ov_normalize path OV_PATH_MAX in
  let g := g_ov s in
  if chr want 0 =? 0 then Some (OV_ERR_EXISTS, s)
  else if bool_decide (is_Some (ov_find g (Some want))) then Some (OV_ERR_EXISTS, s)
  else if initrd_is_file want then Some (OV_ERR_EXISTS, s)
  else if negb (ov_parent_is_dir g want) then Some (OV_ERR_NOTDIR, s)
  else if overlay_capacity (g_ov_ext_lba s)
          <? u32 (overlay_snapshot_bytes g (g_ov_ext_lba s) + OV_SNAP_REC_HDR + ov_len want)
  then Some (OV_ERR_NOSPACE, s)
  else match ov_alloc g with
       | NULL => Some (OV_ERR_NOSPACE, s)
       | Some i => saved OV_OK (with_nodes s (<[i := dir_node (clear_data (g !!! i)) want]> g))
       end.

Definition hide (n : ov_node_t) : ov_node_t := set_path (<[0%nat := 0]> (ov_path n)) n.

Definition ov_store (g : nodes_t) (ext_lba : Z) (want : cstring) (data : bytes) (n : Z) : option (Z * nodes_t) :=
  let old := ov_find g (Some want) in
  let need_nodes := ov_blocks_for n in
  let old_nodes := match old with Some i => ov_chain_len g i | NULL => 0 end in
  let old_bytes := match old with Some i => ov_chain_bytes (g !!! i) | NULL => 0 end in
  let bytes := u32 (overlay_snapshot_bytes g ext_lba - old_bytes) in
  if overlay_file_max ext_lba <? n then Some (OV_ERR_NOSPACE, g)
  else if overlay_capacity ext_lba <? u32 (bytes + ov_file_bytes (ov_len want) n) then Some (OV_ERR_NOSPACE, g)
  else if u32 (ov_free_count g + old_nodes) <? need_nodes then Some (OV_ERR_NOSPACE, g)
  else if need_nodes <=? ov_free_count g then
    let g := match old with Some i => <[i := hide (g !!! i)]> g | NULL => g end in
    '(head, g) ← ov_build g want data n;
    match head with
    | NULL => Some (OV_ERR_NOSPACE,
                match old with
                | Some i => <[i := set_path (ov_copy (ov_path (g !!! i)) want OV_PATH_MAX) (g !!! i)]> g
                | NULL => g
                end)
    | Some _ => Some (n, match old with Some i => ov_free_chain g i | NULL => g end)
    end
  else
    let g := match old with Some i => ov_free_chain g i | NULL => g end in
    '(head, g) ← ov_build g want data n;
    Some (match head with NULL => OV_ERR_NOSPACE | Some _ => n end, g).

Definition overlay_write s (path : ptr cstring) (data : ptr bytes) (n : Z) : option (Z * overlay_t D) :=
  let want := ov_normalize path OV_PATH_MAX in
  let g := g_ov s in
  if (chr want 0 =? 0) || ((0 <? n) && bool_decide (data = NULL)) then Some (OV_ERR_INVAL, s)
  else if overlay_file_max (g_ov_ext_lba s) <? n then Some (OV_ERR_NOSPACE, s)
  else
    let node := ov_find g (Some want) in
    if match node with Some i => c_true (ov_is_dir (g !!! i)) | NULL => false end then Some (OV_ERR_ISDIR, s)
    else if initrd_is_dir want then Some (OV_ERR_ISDIR, s)
    else if bool_decide (node = NULL) && negb (ov_parent_is_dir g want) then Some (OV_ERR_NOTDIR, s)
    else
      '(rc, g) ← ov_store g (g_ov_ext_lba s) want (default [] data) n;
      let s := with_nodes s g in
      if 0 <=? rc then saved rc s else Some (rc, s).

(** The bytes already there, read into [g_ov_tmp]; a negative result ends the call. *)
Definition append_base s (want : cstring) (n : Z) : option (Z * bytes) :=
  let g := g_ov s in
  let max := overlay_file_max (g_ov_ext_lba s) in
  match ov_find g (Some want) with
  | Some i =>
      if max <? u32 (ov_size (g !!! i) + n) then Some (OV_ERR_NOSPACE, g_ov_tmp s)
      else '(rc, b) ← overlay_read g (Some want) (Some (g_ov_tmp s)) max; Some (rc, default [] b)
  | NULL =>
      if initrd_is_file want then initrd_read_into want (g_ov_tmp s) max
      else if negb (ov_parent_is_dir g want) then Some (OV_ERR_NOTDIR, g_ov_tmp s)
      else Some (0, g_ov_tmp s)
  end.

Definition overlay_append s (path : ptr cstring) (data : ptr bytes) (n : Z) : option (Z * overlay_t D) :=
  let want := ov_normalize path OV_PATH_MAX in
  if (chr want 0 =? 0) || ((0 <? n) && bool_decide (data = NULL)) then Some (OV_ERR_INVAL, s)
  else if initrd_is_dir want then Some (OV_ERR_ISDIR, s)
  else if match ov_find (g_ov s) (Some want) with
          | Some i => c_true (ov_is_dir (g_ov s !!! i))
          | NULL => false
          end then Some (OV_ERR_ISDIR, s)
  else
    '(have, tmp) ← append_base s want n;
    let s := with_tmp s tmp in
    if have <? 0 then Some (have, s)
    else if overlay_file_max (g_ov_ext_lba s) <? u32 (have + n) then Some (OV_ERR_NOSPACE, s)
    else
      tmp ← copy_in tmp have (default [] data) n;
      let s := with_tmp s tmp in
      '(rc, g) ← ov_store (g_ov s) (g_ov_ext_lba s) want tmp (u32 (have + n));
      let s := with_nodes s g in
      if rc <? 0 then Some (rc, s) else saved n s.

Definition overlay_unlink s (path : ptr cstring) : option (Z * overlay_t D) :=
  let want := ov_normalize path OV_PATH_MAX in
  let g := g_ov s in
  if chr want 0 =? 0 then Some (OV_ERR_INVAL, s)
  else match ov_find g (Some want) with
       | NULL => Some (if initrd_is_file want || initrd_is_dir want then OV_ERR_PROTECTED else OV_ERR_NOTFOUND, s)
       | Some i =>
           if c_true (ov_is_dir (g !!! i)) && ov_has_children g (Some want) then Some (OV_ERR_NOTEMPTY, s)
           else saved OV_OK (with_nodes s (ov_free_chain g i))
       end.

(** The checks [overlay_rename] and [overlay_copy] share; 0 lets the call go on. *)
Definition move_guard (g : nodes_t) (oldp newp : cstring) : Z :=
  if bool_decide (ov_find g (Some oldp) = NULL)
  then (if initrd_is_file oldp || initrd_is_dir oldp then OV_ERR_PROTECTED else OV_ERR_NOTFOUND)
  else if bool_decide (is_Some (ov_find g (Some newp))) then OV_ERR_EXISTS
  else if initrd_is_file newp || initrd_is_dir newp then OV_ERR_EXISTS
  else if negb (ov_parent_is_dir g newp) then OV_ERR_NOTDIR
  else if ov_under newp oldp (ov_len oldp) && (chr newp (ov_len oldp) =? 47) then OV_ERR_INVAL
  else 0.

(** The head of a file or directory in the subtree [oldp]. *)
Definition in_subtree (oldp : cstring) (n : ov_node_t) : bool :=
  is_head n && ov_under (ov_path n) oldp (ov_len oldp).

(** [newn + rest >= OV_PATH_MAX] for some path of the subtree. *)
Definition moved_too_long (g : nodes_t) (oldp newp : cstring) : bool :=
  existsb (fun n => in_subtree oldp n
                    && (OV_PATH_MAX <=? ov_len newp + (ov_len (ov_path n) - ov_len oldp))) g.

Definition rename_growth (g : nodes_t) (oldp newp : cstring) : Z :=
  fold_left (fun grow n =>
    if in_subtree oldp n && (ov_len oldp <? ov_len newp) then u32 (grow + (ov_len newp - ov_len oldp)) else grow) g 0.

(** The new path of a node of the subtree. *)
Definition moved_path (oldp newp path : cstring) : cstring :=
  newp ++ take (Z.to_nat (OV_PATH_MAX - 1 - ov_len newp)) (drop (Z.to_nat (ov_len oldp)) (cstr path)).

Definition rename_node (oldp newp : cstring) (n : ov_node_t) : ov_node_t :=
  if c_true (ov_used n) && ov_under (ov_path n) oldp (ov_len oldp)
  then set_path (overwrite (ov_copy (ov_path n) newp OV_PATH_MAX) (moved_path oldp newp (ov_path n) ++ [0])) n
  else n.

Definition overlay_rename s (oldpath newpath : ptr cstring) : option (Z * overlay_t D) :=
  let oldp := ov_normalize oldpath OV_PATH_MAX in
  let newp := ov_normalize newpath OV_PATH_MAX in
  let g := g_ov s in
  if (chr oldp 0 =? 0) || (chr newp 0 =? 0) then Some (OV_ERR_INVAL, s)
  else if ov_eq oldp newp then Some (OV_OK, s)
  else if negb (move_guard g oldp newp =? 0) then Some (move_guard g oldp newp, s)
  else if moved_too_long g oldp newp then Some (OV_ERR_INVAL, s)
  else if overlay_capacity (g_ov_ext_lba s)
          <? u32 (overlay_snapshot_bytes g (g_ov_ext_lba s) + rename_growth g oldp newp)
  then Some (OV_ERR_NOSPACE, s)
  else saved OV_OK (with_nodes s (map (rename_node oldp newp) g)).

(** Nodes and image bytes the copies need. *)
Definition copy_nodes (g : nodes_t) (oldp : cstring) : Z :=
  fold_left (fun k i => if in_subtree oldp (g !!! i)
                        then u32 (k + (if c_true (ov_is_dir (g !!! i)) then 1 else ov_chain_len g i)) else k)
    (seq 0 (length g)) 0.
Definition copy_bytes_needed (g : nodes_t) (oldp newp : cstring) : Z :=
  fold_left (fun k n =>
    let rest := ov_len (ov_path n) - ov_len oldp in
    if in_subtree oldp n
    then u32 (k + (if c_true (ov_is_dir n) then OV_SNAP_REC_HDR + (ov_len newp + rest)
                   else ov_file_bytes (ov_len newp + rest) (ov_size n)))
    else k) g 0.

(** One round of the copying loops for node [i]; the first component is the result
    of the call so far. *)
Definition copy_one s (dirs : bool) (oldp newp : cstring) (i : nat) : option (Z * overlay_t D) :=
  let g := g_ov s in
  let n := g !!! i in
  if negb (in_subtree oldp n) || negb (Bool.eqb dirs (c_true (ov_is_dir n))) then Some (OV_OK, s)
  else
    let target := moved_path oldp newp (ov_path n) in
    if c_true (ov_is_dir n) then
      match ov_alloc g with
      | NULL => Some (OV_ERR_NOSPACE, s)
      | Some k => Some (OV_OK, with_nodes s (<[k := dir_node (g !!! k) target]> g))
      end
    else
      '(got, tmp) ← overlay_read g (Some (ov_path n)) (Some (g_ov_tmp s)) (overlay_file_max (g_ov_ext_lba s));
      let s := with_tmp s (default [] tmp) in
      if got <? 0 then Some (OV_ERR_NOSPACE, s)
      else
        '(head, g) ← ov_build g target (g_ov_tmp s) got;
        Some (match head with NULL => OV_ERR_NOSPACE | Some _ => OV_OK end, with_nodes s g).

Fixpoint copy_loop s (dirs : bool) (oldp newp : cstring) (ids : list nat) : option (Z * overlay_t D) :=
  match ids with
  | [] => Some (OV_OK, s)
  | i :: ids =>
      '(rc, s) ← copy_one s dirs oldp newp i;
      if negb (rc =? 0) then Some (rc, s) else copy_loop s dirs oldp newp ids
  end.

Definition overlay_copy s (src dst : ptr cstring) : option (Z * overlay_t D) :=
  let oldp := ov_normalize src OV_PATH_MAX in
  let newp := ov_normalize dst OV_PATH_MAX in
  let g := g_ov s in
  if (chr oldp 0 =? 0) || (chr newp 0 =? 0) then Some (OV_ERR_INVAL, s)
  else if ov_eq oldp newp then Some (OV_ERR_EXISTS, s)
  else if negb (move_guard g oldp newp =? 0) then Some (move_guard g oldp newp, s)
  else if moved_too_long g oldp newp then Some (OV_ERR_INVAL, s)
  else if ov_free_count g <? copy_nodes g oldp then Some (OV_ERR_NOSPACE, s)
  else if overlay_capacity (g_ov_ext_lba s)
          <? u32 (overlay_snapshot_bytes g (g_ov_ext_lba s) + copy_bytes_needed g oldp newp)
  then Some (OV_ERR_NOSPACE, s)
  else
    let ids := seq 0 (Z.to_nat OV_MAX_NODES) in
    '(rc, s) ← copy_loop s true oldp newp ids;
    if negb (rc =? 0) then Some (rc, s)
    else
      '(rc, s) ← copy_loop s false oldp newp ids;
      if negb (rc =? 0) then Some (rc, s) else saved OV_OK s.
End Operations.

(** ** Listing *)

Definition entry_flags (n : ov_node_t) : Z := if c_true (ov_is_dir n) then OS_DIRENT_DIR else OS_DIRENT_FILE.
Definition entry_size (n : ov_node_t) : Z := if c_true (ov_is_dir n) then 0 else ov_size n.

(** The loop over the nodes; [None] is a write outside [out]. *)
Fixpoint list_loop (todo : nodes_t) (prefix : cstring) (out : list os_dirent_t) (count max_n : Z)
    : option (Z * list os_dirent_t) :=
  match todo with
  | [] => Some (count, out)
  | n :: todo =>
      if max_n <=? count then Some (count, out)
      else if negb (c_true (ov_used n)) then list_loop todo prefix out count max_n
      else match ov_direct_child prefix (ov_path n) OS_NAME_MAX with
      | None => list_loop todo prefix out count max_n
      | Some name =>
          match find_slot (fun e => ov_eq (de_name e) name) (take (Z.to_nat count) out) with
          | Some e =>
              list_loop todo prefix (<[e := mk_dirent (de_name (default (mk_dirent [] 0 0) (out !! e))) (entry_size n) (entry_flags n)]> out)
                count max_n
          | None =>
              d ← ld out count;
              out ← st out count (mk_dirent (ov_copy (de_name d) name OS_NAME_MAX) (entry_size n) (entry_flags n));
              list_loop todo prefix out (count + 1) max_n
          end
      end
  end.

Definition overlay_listdir (g : nodes_t) (path : ptr cstring) (out : ptr (list os_dirent_t)) (start max_n : Z)
    : option (Z * ptr (list os_dirent_t)) :=
  match out with
  | NULL => Some (if start <? 0 then 0 else start, out)
  | Some o =>
      if max_n <=? 0 then Some (if start <? 0 then 0 else start, out)
      else
        let count := if start <? 0 then 0 else start in
        let prefix := ov_normalize (Some (default [47] path)) OV_PATH_MAX in
        '(count, o) ← list_loop g prefix o count max_n; Some (count, Some o)
  end.

(** [page_entries] is the static array the page is cut from. *)
Definition overlay_listdir_page (g : nodes_t) (page_entries : list os_dirent_t) (path : ptr cstring)
    (out : ptr (list os_dirent_t)) (start max_n : Z) : option (Z * ptr (list os_dirent_t)) :=
  match out with
  | NULL => Some (-1, out)
  | Some o =>
      if max_n <=? 0 then Some (-1, out)
      else
        '(total, entries) ← overlay_listdir g path (Some page_entries) 0 OV_MAX_NODES;
        if total <? 0 then Some (total, out)
        else if total <=? start then Some (0, out)
        else
          let emitted := Z.min (total - start) max_n in
          page ← (if start + emitted <=? Z.of_nat (length (default [] entries))
                  then Some (take (Z.to_nat emitted) (drop (Z.to_nat start) (default [] entries))) else None);
          if Z.of_nat (length page) <=? Z.of_nat (length o)
          then Some (emitted, Some (page ++ drop (length page) o)) else None
  end.
