(* ===== verification/OvTree.v ===== *)
(** * The overlay is a tree of files

    What the nodes stand for as a map from paths to entries, and the calls of
    fs/overlay.c as operations on it. *)

From Stdlib Require Import ZArith Lia.
From stdpp Require Import base numbers option tactics list gmap.
From S2P Require Import Prelude Bytes Names NetBuf NetSum OvState OvPaths OvInv OvBuild OvImage OvSnap Overlay.

(** ** The tree of a state *)
Abbreviation tree := (gmap cstring ov_entry) (only parsing).

(** What the nodes say about a path, through the code's own lookup and read. *)
Definition ov_view (g : nodes_t) (p : cstring) : option ov_entry :=
  match ov_find g (Some p) with
  | None => None
  | Some i => if c_true (ov_is_dir (g !!! i)) then Some Dir
              else File <$> read_from (Z.to_nat OV_MAX_NODES) g (Some i) OV_FILE_MAX_EXT_BYTES 0 0 0
  end.

Definition o_pair (o : obj) : cstring * ov_entry := (o_path o, o_entry o).
Definition tree_of (objs : list obj) : tree := list_to_map (map o_pair objs).

Record paths_ok (objs : list obj) : Prop := {
  po_nodup : NoDup (map o_path objs);
  po_canon : Forall (fun o => canon (o_path o) /\ o_path o <> []) objs
}.

Lemma paths_perm objs objs' : objs ≡ₚ objs' -> paths_ok objs -> paths_ok objs'.
Proof. intros Hp [H1 H2]. split; by rewrite <- Hp. Qed.

Lemma same_path objs o1 o2 : paths_ok objs -> o1 ∈ objs -> o2 ∈ objs -> o_path o1 = o_path o2 -> o1 = o2.
Proof.
  intros H (a & Ha)%list_elem_of_lookup (b & Hb)%list_elem_of_lookup He. pose proof (po_nodup _ H) as Hn.
  rewrite NoDup_alt in Hn. assert (a = b).
  { apply (Hn a b (o_path o1)); rewrite list_lookup_fmap; [by rewrite Ha|]. rewrite Hb. cbn. by rewrite He. }
  subst. congruence.
Qed.

Lemma paths_fst objs : (map o_pair objs).*1 = map o_path objs.
Proof. rewrite <- list_fmap_compose. done. Qed.

Lemma tree_of_Some objs p e : paths_ok objs -> (tree_of objs !! p = Some e <-> exists o, o ∈ objs /\ o_path o = p /\ o_entry o = e).
Proof.
  intros H. unfold tree_of. rewrite <- elem_of_list_to_map by (rewrite paths_fst; apply H).
  rewrite list_elem_of_fmap. split.
  - intros (o & [= -> ->] & Ho). by exists o.
  - intros (o & Ho & <- & <-). by exists o.
Qed.

Lemma tree_of_None objs p : tree_of objs !! p = None <-> (forall o, o ∈ objs -> o_path o <> p).
Proof.
  unfold tree_of. rewrite <- not_elem_of_list_to_map, paths_fst. split.
  - intros Hn o Ho <-. apply Hn. by apply list_elem_of_fmap_2.
  - intros Hn (o & -> & Ho)%list_elem_of_fmap. by apply (Hn o Ho).
Qed.

Lemma tree_of_perm objs objs' : paths_ok objs -> objs ≡ₚ objs' -> tree_of objs = tree_of objs'.
Proof.
  intros H Hp. apply list_to_map_proper; [rewrite paths_fst; apply H|]. by rewrite Hp.
Qed.

(** ** Finding in the tree *)
Lemma find_tree g objs p : struct g objs -> paths_ok objs ->
  match ov_find g p with
  | Some i => exists o, o ∈ objs /\ o_head o = i /\ o_path o = norm p /\ tree_of objs !! norm p = Some (o_entry o) /\
                c_true (ov_is_dir (g !!! i)) = is_Dir (o_entry o)
  | None => tree_of objs !! norm p = None
  end.
Proof.
  intros H Hp. destruct (ov_find g p) as [i|] eqn:E.
  - destruct (find_obj _ _ _ _ H E) as (o & Ho & Hi & Hpath). exists o. split; [done|]. split; [done|]. split; [done|]. split.
    + apply tree_of_Some; [done|]. eauto.
    + destruct (obj_head_node _ _ _ H Ho) as (n & c & Hn & _ & (_ & Hd & _) & _). rewrite <- Hi.
      rewrite (list_lookup_total_correct _ _ _ Hn), Hd. by destruct (o_entry o).
  - apply tree_of_None. intros o Ho. destruct (decide (norm p = [])) as [->|Hn].
    + pose proof (po_canon _ Hp) as Hc. rewrite Forall_forall in Hc. by apply Hc.
    + by eapply find_absent.
Qed.

Lemma view_spec g objs p : struct g objs -> paths_ok objs -> canon p -> ov_view g p = tree_of objs !! p.
Proof.
  intros H Hp Hc. unfold ov_view. pose proof (find_tree g objs (Some p) H Hp) as Hf. rewrite Hc in Hf.
  destruct (ov_find g (Some p)) as [i|]; [|done]. destruct Hf as (o & Ho & <- & _ & Ht & Hd). rewrite Hd, Ht.
  destruct (o_entry o) as [|b] eqn:He; cbn [is_Dir]; [done|].
  rewrite (read_obj _ _ _ b _ 0 H Ho He) by done. cbn [fmap option_fmap option_map]. do 2 f_equal.
  rewrite drop_0. apply take_ge. pose proof (obj_content_length _ _ _ H Ho) as Hl. rewrite He in Hl. unfold blen in Hl. cbn [content_of] in Hl.
  change (Z.to_nat OV_FILE_MAX_EXT_BYTES) with (Z.to_nat 65536). lia.
Qed.

Lemma read_spec g objs p buf max offset : struct g objs -> paths_ok objs -> 0 < max <= blen buf -> 0 <= offset ->
  overlay_read_at g p (Some buf) max offset
  = match tree_of objs !! norm p with
    | None => Some (OV_ERR_NOTFOUND, Some buf)
    | Some Dir => Some (OV_ERR_ISDIR, Some buf)
    | Some (File b) => let d := take (Z.to_nat max) (drop (Z.to_nat offset) b) in Some (blen d, Some (overwrite buf d))
    end.
Proof.
  intros H Hp Hm Ho'. unfold overlay_read_at. pose proof (find_tree g objs p H Hp) as Hf.
  destruct (ov_find g p) as [i|]; [|by rewrite Hf]. destruct Hf as (o & Ho & <- & _ & -> & ->).
  destruct (o_entry o) as [|b] eqn:He; cbn [is_Dir]; [done|]. rewrite (proj2 (Z.eqb_neq max 0)) by lia.
  destruct (obj_head_node _ _ _ H Ho) as (n & c & Hn & _ & (_ & _ & _ & _ & _ & Hs) & _). rewrite He in Hs. destruct Hs as (Hs & _).
  rewrite (list_lookup_total_correct _ _ _ Hn), Hs. destruct (Z.leb_spec (blen b) offset) as [Hge|Hlt].
  - rewrite (drop_ge b) by (unfold blen in Hge; lia). rewrite take_nil. done.
  - rewrite (read_obj _ _ _ b _ _ H Ho He) by lia. rewrite some_bind.
    set (d := take (Z.to_nat max) (drop (Z.to_nat offset) b)).
    assert (Hd : blen d <= max) by (unfold d, blen; rewrite length_take; lia).
    unfold st_bytes. rewrite (proj2 (Z.leb_le 0 0)), (proj2 (Z.leb_le _ (blen buf))) by lia. cbn [andb].
    rewrite some_bind. unfold overwrite. done.
Qed.

(** ** The invariant *)
Section Invariant.
Context {D : Type} `{OverlayDisk D} `{Initrd}.
Implicit Types (s : overlay_t D) (t : tree).

Definition dir_in t (q : cstring) : bool :=
  let w := norm (Some q) in bool_decide (w = []) || bool_decide (t !! norm (Some w) = Some Dir).

(** The parent of [p] is the root, a directory of the tree or one of the initrd. *)
Definition parent_in t (p : cstring) : bool :=
  bool_decide (ov_parent p OV_PATH_MAX = []) || bool_decide (t !! dir_of p = Some Dir)
  || initrd_is_dir (ov_parent p OV_PATH_MAX).

(** Files fit the image, every object has its directory, and the buffers have their
    declared sizes. *)
Record holds_tree s (objs : list obj) : Prop := {
  ht_struct : struct (g_ov s) objs;
  ht_paths : paths_ok objs;
  ht_budget : ov_hdr (g_ov_ext_lba s) + tree_bytes objs <= overlay_capacity (g_ov_ext_lba s);
  ht_sizes : Forall (fun o => blen (content_of (o_entry o)) <= overlay_file_max (g_ov_ext_lba s)) objs;
  ht_parents : Forall (fun o => parent_in (tree_of objs) (o_path o) = true) objs;
  ht_tmp : blen (g_ov_tmp s) = 65536;
  ht_buf : blen (g_ov_disk_buf s) = 98304;
  ht_ext : is_u32 (g_ov_ext_lba s) /\ (g_ov_ext_lba s = 0 \/ OV_EXT_MIN_LBA <= g_ov_ext_lba s)
}.

Definition overlay_inv s : Prop := exists objs, holds_tree s objs.

Lemma is_dir_spec g objs q : struct g objs -> paths_ok objs -> overlay_is_dir g (Some q) = dir_in (tree_of objs) q.
Proof.
  intros Hs Hp. unfold overlay_is_dir, dir_in. destruct (ov_normalize_ok (Some q)) as [Hn _].
  rewrite chr0_nil, (cstr_id (norm (Some q))) by done. destruct (bool_decide (norm (Some q) = [])); [done|]. cbn [orb].
  pose proof (find_tree g objs (Some (norm (Some q))) Hs Hp) as Hf.
  destruct (ov_find g (Some (norm (Some q)))) as [i|].
  - destruct Hf as (o & _ & _ & _ & -> & ->). destruct (o_entry o); cbn; by case_bool_decide.
  - rewrite Hf. by case_bool_decide.
Qed.

Lemma dir_in_parent t p : canon p -> ov_parent p OV_PATH_MAX <> [] ->
  dir_in t (ov_parent p OV_PATH_MAX) = bool_decide (t !! dir_of p = Some Dir).
Proof.
  intros Hc Hq. destruct (dir_of_spec p Hc Hq) as (Hn & Hd & Hne & _). unfold dir_in. rewrite Hn, Hd.
  by rewrite (bool_decide_eq_false_2 (dir_of p = [])).
Qed.

Lemma parent_spec g objs p : struct g objs -> paths_ok objs -> canon p -> ov_parent_is_dir g p = parent_in (tree_of objs) p.
Proof.
  intros Hs Hp Hc. unfold ov_parent_is_dir, parent_in. pose proof (canon_no_nul _ Hc) as Hn.
  assert (Hq : no_nul (ov_parent p OV_PATH_MAX)) by (unfold ov_parent; case_if; [constructor|by apply Forall_take]).
  rewrite chr0_nil, (cstr_id (ov_parent p OV_PATH_MAX)) by done. rewrite (is_dir_spec g objs) by done.
  destruct (decide (ov_parent p OV_PATH_MAX = [])) as [E|E]; [by rewrite bool_decide_eq_true_2|].
  rewrite bool_decide_eq_false_2 by done. rewrite dir_in_parent by done. by case_bool_decide.
Qed.

Lemma parent_mono t t' p : (forall q, t !! q = Some Dir -> t' !! q = Some Dir) -> parent_in t p = true -> parent_in t' p = true.
Proof.
  intros Ht. unfold parent_in. rewrite !orb_true_iff, !bool_decide_eq_true.
  intros [[Hq|Hd]|Hi]; [by left; left|left; right; by apply Ht|by right].
Qed.

Lemma fresh_enc_ok g objs fm o : struct g objs -> paths_ok objs -> blen (content_of (o_entry o)) <= fm -> o ∈ objs -> enc_ok fm o.
Proof.
  intros Hs Hp Hl Ho. pose proof (po_canon _ Hp) as Hc. rewrite Forall_forall in Hc. destruct (Hc o Ho) as [Hca Hne].
  split; [by apply canon_no_nul|]. split.
  { pose proof (canon_length _ Hca). destruct (o_path o); [done|]. cbn [length] in *. lia. }
  destruct (obj_head_node _ _ _ Hs Ho) as (n & c & Hn & Hch & Hh & Ht). rewrite Hch.
  destruct (o_entry o) as [|b]; cbn [content_of] in *.
  - by destruct Hh as (_ & _ & _ & _ & _ & ->).
  - split; [done|]. cbn [length Nat.sub]. split; [lia|]. rewrite Nat.sub_0_r. by eapply tail_fills.
Qed.

(** ** Saving *)
Lemma image_length ext os reserved pad : length reserved = 8%nat ->
  blen (image ext os reserved pad) = ov_hdr ext + blen (enc_all os) + blen pad.
Proof.
  intros Hr. unfold image, image_header. rewrite !blen_app. unfold blen, ov_hdr, OV_SNAP_V4_HDR.
  destruct (c_true ext); rewrite ?length_app, ?Hr; cbn [length le32]; lia.
Qed.

Lemma image_split ext os reserved pad :
  length reserved = 8%nat -> take (Z.to_nat (ov_hdr ext + blen (enc_all os))) (image ext os reserved pad) ++ pad = image ext os reserved pad.
Proof.
  intros Hr. pose proof (image_length ext os reserved [] Hr) as Hl. unfold image in *. rewrite app_nil_r in Hl. change (blen []) with 0 in Hl.
  rewrite !app_assoc. rewrite take_app_le, take_ge; unfold blen in *; [done|lia|lia].
Qed.

(** The buffer after a snapshot and the zero fill of [overlay_save_disk]. *)
Lemma snapshot_zeroed s objs : holds_tree s objs ->
  exists os reserved b, os ≡ₚ objs /\ length reserved = 8%nat /\
    overlay_snapshot (g_ov s) (g_ov_ext_lba s) (Some (g_ov_disk_buf s)) OV_DISK_BYTES (Some 0)
      = Some (0, Some b, Some (overlay_capacity (g_ov_ext_lba s))) /\
    zero_in b (overlay_capacity (g_ov_ext_lba s)) (OV_DISK_BYTES - overlay_capacity (g_ov_ext_lba s))
      = Some (image (g_ov_ext_lba s) os reserved
                (replicate (Z.to_nat (98304 - ov_hdr (g_ov_ext_lba s) - tree_bytes objs)) 0)).
Proof.
  intros Hs. pose proof (ht_buf _ _ Hs) as Hb. set (ext := g_ov_ext_lba s) in *.
  assert (Hcap : 32768 <= overlay_capacity ext <= 98304) by (unfold overlay_capacity; destruct (c_true ext); vm_compute; split; discriminate).
  destruct (snapshot_spec (g_ov s) objs ext (g_ov_disk_buf s) OV_DISK_BYTES (Some 0)) as (os & reserved & Hp & Hr & Hsnap);
    [apply Hs|apply Hs|unfold OV_DISK_BYTES, OV_SNAP_SIZE_MAX; lia|lia|].
  exists os, reserved, (image ext os reserved (replicate (Z.to_nat (overlay_capacity ext - ov_hdr ext - tree_bytes objs)) 0
                                              ++ drop (Z.to_nat (overlay_capacity ext)) (g_ov_disk_buf s))).
  split; [done|]. split; [done|]. split; [exact Hsnap|]. clear Hsnap.
  pose proof (tree_bytes_range _ _ (ht_struct _ _ Hs)) as Ht. pose proof (ht_budget _ _ Hs) as Hbud. fold ext in Hbud.
  assert (Hhd : 16 <= ov_hdr ext) by (unfold ov_hdr, OV_SNAP_V4_HDR; destruct (c_true ext); lia).
  pose proof (enc_all_length (g_ov s) objs os (ht_struct _ _ Hs) ltac:(intros x; by rewrite Hp)) as He.
  rewrite (tree_bytes_perm os objs Hp) in He.
  set (z := replicate (Z.to_nat (overlay_capacity ext - ov_hdr ext - tree_bytes objs)) 0).
  set (x := drop (Z.to_nat (overlay_capacity ext)) (g_ov_disk_buf s)).
  assert (Hx : length x = Z.to_nat (98304 - overlay_capacity ext)) by (unfold x, blen in *; rewrite length_drop; lia).
  assert (Hz : blen z = overlay_capacity ext - ov_hdr ext - tree_bytes objs) by (unfold z, blen; rewrite length_replicate; lia).
  assert (Ei : image ext os reserved (z ++ x) = image ext os reserved z ++ x) by (unfold image; by rewrite <- !app_assoc).
  rewrite Ei. pose proof (image_length ext os reserved z Hr) as Hil. unfold zero_in.
  rewrite emit_at; [|unfold blen in *; lia|rewrite length_replicate, Hx; unfold OV_DISK_BYTES, OV_SNAP_SIZE_MAX; lia].
  rewrite length_replicate. unfold OV_DISK_BYTES, OV_SNAP_SIZE_MAX. rewrite drop_ge by (rewrite Hx; lia). rewrite app_nil_r. f_equal.
  unfold image, z. rewrite <- !app_assoc, <- replicate_add. do 4 f_equal. lia.
Qed.

(** What the kernel writes itself: the two areas of one image. *)
Definition area1 (img : bytes) : bytes := take (Z.to_nat 32768) img.
Definition area2 (img : bytes) : bytes := take (Z.to_nat 65536) (drop (Z.to_nat 32768) img).

Definition disk_after (ext : Z) (img : bytes) (d : D) : Z * D :=
  let '(rc, d) := ata_write_sectors d 0 64 (area1 img) in
  let '(rc, d) := if (rc =? 0) && c_true ext then ata_write_sectors d ext 128 (area2 img) else (rc, d) in
  (rc, match g_ov_kernel_written with Some written => if rc =? 0 then written d else d | None => d end).

Lemma capacity_max ext : 32768 <= overlay_capacity ext <= 98304.
Proof. unfold overlay_capacity. destruct (c_true ext); vm_compute; split; discriminate. Qed.

Lemma hdr_min ext : 16 <= ov_hdr ext <= 32.
Proof. rewrite hdr_range. destruct (c_true ext); lia. Qed.

Lemma write_spec s objs : holds_tree s objs ->
  exists os reserved, os ≡ₚ objs /\ length reserved = 8%nat /\
    let img := image (g_ov_ext_lba s) os reserved (replicate (Z.to_nat (98304 - ov_hdr (g_ov_ext_lba s) - tree_bytes objs)) 0) in
    blen img = 98304 /\
    let '(rc, d) := disk_after (g_ov_ext_lba s) img (ov_dev s) in
    write_snapshot s = Some (rc, with_dev (with_disk_buf s img) d).
Proof.
  intros Hs. destruct (snapshot_zeroed s objs Hs) as (os & reserved & b & Hp & Hr & Hsnap & Hz).
  exists os, reserved. split; [done|]. split; [done|]. cbn zeta. unfold write_snapshot.
  set (img := image _ os reserved _) in *.
  assert (Hil : blen img = 98304).
  { unfold img. rewrite image_length by done.
    pose proof (enc_all_length (g_ov s) objs os (ht_struct _ _ Hs) ltac:(intros x; by rewrite Hp)) as He.
    rewrite (tree_bytes_perm os objs Hp) in He. rewrite He. unfold blen. rewrite length_replicate.
    pose proof (ht_budget _ _ Hs). pose proof (tree_bytes_range _ _ (ht_struct _ _ Hs)).
    pose proof (capacity_max (g_ov_ext_lba s)). pose proof (hdr_min (g_ov_ext_lba s)). lia. }
  split; [done|]. clearbody img. unfold disk_after, area1, area2.
  rewrite Hsnap, some_bind. cbn [Z.eqb negb default from_option id].
  unfold with_disk_buf, with_dev. cbn [g_ov_disk_buf ov_dev g_ov g_ov_ext_lba g_ov_tmp]. rewrite Hz, some_bind.
  unfold OV_DISK_SECTORS, OV_EXT_SECTORS, OV_SNAP_SIZE.
  rewrite (ld_bytes_ok img 0 (64 * 512)) by lia. rewrite some_bind. change (Z.to_nat 0) with 0%nat. rewrite drop_0.
  change (64 * 512) with 32768. cbn [g_ov_disk_buf ov_dev g_ov g_ov_ext_lba g_ov_tmp].
  destruct (ata_write_sectors (ov_dev s) 0 64 (take (Z.to_nat 32768) img)) as [rc1 d1].
  destruct ((rc1 =? 0) && c_true (g_ov_ext_lba s)).
  - rewrite (ld_bytes_ok img 32768 (128 * 512)) by lia. rewrite some_bind. change (128 * 512) with 65536.
    destruct (ata_write_sectors d1 _ 128 _) as [rc2 d2]. rewrite some_bind.
    cbn [g_ov_disk_buf ov_dev g_ov g_ov_ext_lba g_ov_tmp].
    destruct g_ov_kernel_written as [w|]; [destruct (rc2 =? 0)|]; reflexivity.
  - rewrite some_bind. cbn [g_ov_disk_buf ov_dev g_ov g_ov_ext_lba g_ov_tmp].
    destruct g_ov_kernel_written as [w|]; [destruct (rc1 =? 0)|]; reflexivity.
Qed.

Lemma holds_dev s objs d : holds_tree s objs -> holds_tree (with_dev s d) objs.
Proof. intros []. by constructor. Qed.
Lemma holds_buf s objs b : holds_tree s objs -> blen b = 98304 -> holds_tree (with_disk_buf s b) objs.
Proof. intros [] Hb. by constructor. Qed.

(** Saving changes the disk and its buffer only. *)
Lemma save_spec s objs : holds_tree s objs ->
  exists rc s', overlay_save_disk s = Some (rc, s') /\ holds_tree s' objs /\ g_ov s' = g_ov s /\ g_ov_ext_lba s' = g_ov_ext_lba s.
Proof.
  intros Hs. assert (Hw : forall d, exists rc s', write_snapshot (with_dev s d) = Some (rc, s') /\ holds_tree s' objs /\ g_ov s' = g_ov s /\ g_ov_ext_lba s' = g_ov_ext_lba s).
  { intros d. destruct (write_spec (with_dev s d) objs (holds_dev _ _ d Hs)) as (os & reserved & _ & _ & Hi).
    cbn zeta in Hi. destruct Hi as [Hil Hi]. destruct (disk_after _ _ _) as [rc d']. eexists _, _. split; [exact Hi|].
    split; [|done]. apply holds_dev, holds_buf; [by apply holds_dev|done]. }
  unfold overlay_save_disk. destruct (negb (ata_present (ov_dev s))); [by eexists _, _|].
  destruct g_ov_save_redirect as [redirect|].
  - destruct (redirect (g_ov s) (g_ov_ext_lba s) (ov_dev s)) as [r d]. destruct (c_true r); [|apply Hw].
    eexists _, _. split; [done|]. split; [by apply holds_dev|done].
  - specialize (Hw (ov_dev s)). by destruct s.
Qed.

Lemma saved_spec s objs rc : holds_tree s objs -> exists s', saved rc s = Some (rc, s') /\ holds_tree s' objs /\ g_ov s' = g_ov s /\ g_ov_ext_lba s' = g_ov_ext_lba s.
Proof.
  intros Hs. destruct (save_spec s objs Hs) as (r & s' & Hr & Hs' & Hg). exists s'. unfold saved. rewrite Hr, some_bind. done.
Qed.
End Invariant.

(** * The file system the overlay implements

    A map from paths to entries, bounded by the blocks of the node table and by the
    bytes of the disk image; each call of fs/overlay.c as a function on it, with the
    result the call returns. *)

(** What the overlay relies on: the initrd is a tree of files. *)
Class InitrdLaws `{Initrd} := {
  initrd_file : cstring -> option bytes;
  initrd_is_file_law : forall p, initrd_is_file p = bool_decide (is_Some (initrd_file p));
  initrd_read_law : forall p buf max, 0 < max <= blen buf -> max <= 65536 ->
    initrd_read_into p buf max
    = Some (match initrd_file p with
            | None => (-1, buf)
            | Some c => (blen (take (Z.to_nat max) c), overwrite buf (take (Z.to_nat max) c))
            end);
  initrd_file_dir : forall p, canon p -> is_Some (initrd_file p) -> ov_parent p OV_PATH_MAX <> [] ->
    initrd_is_dir (ov_parent p OV_PATH_MAX) = true;
  initrd_dir_up : forall p q r, canon p -> below p q -> canon (q ++ 47 :: r) -> initrd_is_dir q = true -> initrd_is_dir p = true
}.

(** ** Space *)
Definition entry_bytes (x : cstring * ov_entry) : Z :=
  match x.2 with
  | Dir => 8 + Z.of_nat (length x.1)
  | File b => blocks b * 8 + Z.of_nat (length x.1) + blen b
  end.
Definition entry_blocks (x : cstring * ov_entry) : Z := blocks (content_of x.2).

Definition fs_bytes (m : tree) : Z := sumZ (map entry_bytes (map_to_list m)).
Definition fs_blocks (m : tree) : Z := sumZ (map entry_blocks (map_to_list m)).

(** The image and the table have room for [m] with the entry [x] besides. *)
Definition fits (ext : Z) (m : tree) (x : cstring * ov_entry) : bool :=
  bool_decide (ov_hdr ext + fs_bytes m + entry_bytes x <= overlay_capacity ext) &&
  bool_decide (fs_blocks m + entry_blocks x <= 288).

Section Calls.
Context `{InitrdLaws} (ext : Z).
Implicit Types (m : tree) (p : cstring).

Definition fs_mkdir m p : Z * tree :=
  if bool_decide (p = []) then (OV_ERR_EXISTS, m)
  else if bool_decide (is_Some (m !! p)) then (OV_ERR_EXISTS, m)
  else if initrd_is_file p then (OV_ERR_EXISTS, m)
  else if negb (parent_in m p) then (OV_ERR_NOTDIR, m)
  else if fits ext m (p, Dir) then (OV_OK, <[p := Dir]> m) else (OV_ERR_NOSPACE, m).

(** Replacing or creating a file. *)
Definition fs_store m p (b : bytes) (rc : Z) : Z * tree :=
  if bool_decide (blen b <= overlay_file_max ext) && fits ext (delete p m) (p, File b)
  then (rc, <[p := File b]> m) else (OV_ERR_NOSPACE, m).

Definition fs_write m p (data : ptr bytes) (n : Z) : Z * tree :=
  if bool_decide (p = []) || (bool_decide (0 < n) && bool_decide (data = NULL)) then (OV_ERR_INVAL, m)
  else if overlay_file_max ext <? n then (OV_ERR_NOSPACE, m)
  else if bool_decide (m !! p = Some Dir) || initrd_is_dir p then (OV_ERR_ISDIR, m)
  else if bool_decide (m !! p = None) && negb (parent_in m p) then (OV_ERR_NOTDIR, m)
  else fs_store m p (take (Z.to_nat n) (default [] data)) n.

(** The bytes a file has before an append; a file of the initrd is copied up. *)
Definition fs_base m p : option bytes :=
  match m !! p with
  | Some e => Some (content_of e)
  | None => take (Z.to_nat (overlay_file_max ext)) <$> initrd_file p
  end.

Definition fs_append m p (data : ptr bytes) (n : Z) : Z * tree :=
  if bool_decide (p = []) || (bool_decide (0 < n) && bool_decide (data = NULL)) then (OV_ERR_INVAL, m)
  else if initrd_is_dir p || bool_decide (m !! p = Some Dir) then (OV_ERR_ISDIR, m)
  else if bool_decide (fs_base m p = None) && negb (parent_in m p) then (OV_ERR_NOTDIR, m)
  else fs_store m p (default [] (fs_base m p) ++ take (Z.to_nat n) (default [] data)) n.

Definition has_below m p : Prop := Exists (fun x => below p x.1) (map_to_list m).

Definition fs_unlink m p : Z * tree :=
  if bool_decide (p = []) then (OV_ERR_INVAL, m)
  else match m !! p with
       | None => (if initrd_is_file p || initrd_is_dir p then OV_ERR_PROTECTED else OV_ERR_NOTFOUND, m)
       | Some e =>
           if is_Dir e && bool_decide (has_below m p) then (OV_ERR_NOTEMPTY, m) else (OV_OK, delete p m)
       end.

(** ** Moving a subtree *)
Definition moved (oldp newp p : cstring) : cstring := newp ++ drop (length oldp) p.

Definition subtree m (p : cstring) : tree := filter (fun x => under p x.1) m.
Definition outside m (p : cstring) : tree := filter (fun x => ~ under p x.1) m.
Definition transplant m (oldp newp : cstring) : tree :=
  list_to_map (map (fun x => (moved oldp newp x.1, x.2)) (map_to_list (subtree m oldp))).

Definition fs_guard m (oldp newp : cstring) : Z :=
  if bool_decide (m !! oldp = None)
  then (if initrd_is_file oldp || initrd_is_dir oldp then OV_ERR_PROTECTED else OV_ERR_NOTFOUND)
  else if bool_decide (is_Some (m !! newp)) then OV_ERR_EXISTS
  else if initrd_is_file newp || initrd_is_dir newp then OV_ERR_EXISTS
  else if negb (parent_in m newp) then OV_ERR_NOTDIR
  else if bool_decide (below oldp newp) then OV_ERR_INVAL
  else if bool_decide (Exists (fun x => 80 <= Z.of_nat (length (moved oldp newp x.1))) (map_to_list (subtree m oldp)))
  then OV_ERR_INVAL
  else 0.

Definition fs_rename m (oldp newp : cstring) : Z * tree :=
  if bool_decide (oldp = []) || bool_decide (newp = []) then (OV_ERR_INVAL, m)
  else if bool_decide (oldp = newp) then (OV_OK, m)
  else if negb (fs_guard m oldp newp =? 0) then (fs_guard m oldp newp, m)
  else let m' := outside m oldp ∪ transplant m oldp newp in
       if bool_decide (ov_hdr ext + fs_bytes m' <= overlay_capacity ext)
       then (OV_OK, m') else (OV_ERR_NOSPACE, m).

Definition fs_copy m (oldp newp : cstring) : Z * tree :=
  if bool_decide (oldp = []) || bool_decide (newp = []) then (OV_ERR_INVAL, m)
  else if bool_decide (oldp = newp) then (OV_ERR_EXISTS, m)
  else if negb (fs_guard m oldp newp =? 0) then (fs_guard m oldp newp, m)
  else let m' := m ∪ transplant m oldp newp in
       if bool_decide (fs_blocks m' <= 288) && bool_decide (ov_hdr ext + fs_bytes m' <= overlay_capacity ext)
       then (OV_OK, m') else (OV_ERR_NOSPACE, m).
End Calls.
