(* ===== verification/OvOps.v ===== *)
(** * The calls of the overlay implement the file system

    [refines s m]: the nodes, the image budget and the buffers of [s] represent the
    file system [m].  The lemmas relate each step of fs/overlay.c to it. *)

From Stdlib Require Import ZArith Lia.
From stdpp Require Import base numbers option tactics list gmap.
From S2P Require Import Prelude Bytes Names NetBuf NetSum OvState OvPaths OvInv OvBuild OvImage OvSnap Overlay OvTree.

(** ** Objects and the map *)
Lemma pick {A} (l : list A) x : x ∈ l -> exists rest, l ≡ₚ x :: rest.
Proof. intros (a & b & ->)%list_elem_of_split. exists (a ++ b). by rewrite Permutation_middle. Qed.

Lemma obj_entry_bytes objs : map entry_bytes (map o_pair objs) = map obj_bytes objs.
Proof. rewrite map_map. by apply map_ext. Qed.

Lemma tree_list objs : paths_ok objs -> map_to_list (tree_of objs) ≡ₚ map o_pair objs.
Proof. intros H. apply map_to_list_to_map. rewrite paths_fst. apply H. Qed.

Lemma fs_bytes_of objs : paths_ok objs -> fs_bytes (tree_of objs) = tree_bytes objs.
Proof. intros H. unfold fs_bytes, tree_bytes. by rewrite (tree_list _ H), obj_entry_bytes. Qed.

Lemma chains_blocks g objs objs' : struct g objs -> objs' ⊆ objs ->
  Z.of_nat (length (chains objs')) = sumZ (map entry_blocks (map o_pair objs')).
Proof.
  intros H Hs. induction objs' as [|o l IH]; [done|]. rewrite chains_cons, length_app, Nat2Z.inj_add.
  rewrite IH by (intros x Hx; apply Hs; by right). rewrite (chain_blocks g objs o) by (done || apply Hs; by left). done.
Qed.

Lemma fs_blocks_of g objs : struct g objs -> paths_ok objs -> fs_blocks (tree_of objs) = Z.of_nat (length (chains objs)).
Proof. intros Hs H. unfold fs_blocks. rewrite (chains_blocks g objs objs) by done. by rewrite (tree_list _ H). Qed.

Lemma free_count_fs g objs : struct g objs -> paths_ok objs -> ov_free_count g = 288 - fs_blocks (tree_of objs).
Proof. intros Hs Hp. by rewrite (fs_blocks_of g), (free_count_spec g objs). Qed.

Lemma tree_of_cons o objs : tree_of (o :: objs) = <[o_path o := o_entry o]> (tree_of objs).
Proof. done. Qed.

Lemma paths_cons o objs : paths_ok (o :: objs) <->
  paths_ok objs /\ canon (o_path o) /\ o_path o <> [] /\ tree_of objs !! o_path o = None.
Proof.
  split.
  - intros [H1 H2]. cbn in H1. apply NoDup_cons in H1 as [H1 H3]. apply Forall_cons in H2 as [[? ?] H2].
    split; [by constructor|]. split; [done|]. split; [done|]. apply tree_of_None. intros o' Ho' He. apply H1. rewrite <- He.
    by apply list_elem_of_fmap_2.
  - intros ([H1 H2] & Hc & Hn & Ht). rewrite tree_of_None in Ht. constructor; cbn.
    + constructor; [|done]. intros (o' & He & Ho')%list_elem_of_fmap. by apply (Ht o' Ho').
    + by constructor.
Qed.

Lemma tree_of_tail o objs : paths_ok (o :: objs) -> delete (o_path o) (tree_of (o :: objs)) = tree_of objs.
Proof. intros (_ & _ & _ & Ht)%paths_cons. rewrite tree_of_cons. by rewrite delete_insert_id. Qed.

(** ** Directories *)
Lemma free_not_in g objs i n : struct g objs -> g !! i = Some n -> c_true (ov_used n) = false -> i ∉ chains objs.
Proof.
  intros H Hx Hu Hc. destruct (struct_used _ _ _ H Hc) as (y & Hy & Hy1). rewrite Hx in Hy. injection Hy as <-. by rewrite Hy1 in Hu.
Qed.

Lemma struct_add_dir g objs i n p :
  struct g objs -> ov_alloc g = Some i -> shape_ok n -> no_nul p -> (length p < 80)%nat ->
  struct (<[i := dir_node n p]> g) (mk_obj p Dir [i] :: objs).
Proof.
  intros H Hi (Hs1 & Hs2 & _) Hp Hl. apply find_slot_Some in Hi as (x & Hx & Hu & _). apply negb_true_iff in Hu.
  pose proof (free_not_in _ _ _ _ H Hx Hu) as Hni.
  destruct (ov_copy_spec (ov_path n) p OV_PATH_MAX) as [Hcl Hcs]; [rewrite Hs1; unfold OV_PATH_MAX, OV_SNAP_PATH; lia|].
  rewrite cut_id in Hcs by (done || (unfold OV_PATH_MAX, OV_SNAP_PATH; lia)).
  assert (Hlt : (i < length g)%nat) by by eapply lookup_lt_Some.
  split.
  - rewrite length_insert. apply H.
  - apply nodes_insert; [apply H|]. split; [cbn; by rewrite Hcl|]. split; [done|]. cbn. by rewrite Hcs.
  - constructor.
    + cbn. split; [|done]. eexists. split; [by apply list_lookup_insert_eq|]. split; [done|]. split; [done|].
      split; [done|]. split; [done|]. by split.
    + apply Forall_forall. intros o Ho. apply (obj_ok_agree g); [by eapply struct_obj|]. intros j Hj.
      apply list_lookup_insert_ne. intros ->. apply Hni, elem_chains. eauto.
  - rewrite chains_cons. cbn. constructor; [done|apply H].
  - intros j y. rewrite lookup_insert_total by done. rewrite chains_cons. destruct (decide (j = i)) as [->|Hne].
    + intros _ _. by left.
    + intros Hy Hyu. right. by eapply st_used.
Qed.

(** The alloc fails exactly when the table is full. *)
Lemma alloc_fs g objs : struct g objs -> paths_ok objs ->
  match ov_alloc g with
  | Some i => fs_blocks (tree_of objs) + 1 <= 288 /\ exists n, g !! i = Some n /\ shape_ok n
  | None => fs_blocks (tree_of objs) = 288
  end.
Proof.
  intros H Hp. pose proof (free_count_fs g objs H Hp) as Hf. destruct (ov_alloc g) as [i|] eqn:E.
  - apply find_slot_Some in E as (x & Hx & Hu & _). apply negb_true_iff in Hu. split.
    + rewrite (fs_blocks_of g) by done. pose proof (free_not_in _ _ _ _ H Hx Hu) as Hni.
      assert (Hlen : (length (i :: chains objs) <= 288)%nat); [|cbn [length] in Hlen; lia]. apply nodup_lt; [constructor; [done|apply H]|].
      rewrite <- (st_len _ _ H). intros j [->|Hj]%elem_of_cons; [by eapply lookup_lt_Some|].
      destruct (struct_used _ _ _ H Hj) as (y & Hy & _). by eapply lookup_lt_Some.
    + exists x. split; [done|]. eapply shape_lookup; [apply H|done].
  - destruct (decide (0 < ov_free_count g)) as [Hpos|]; [apply alloc_some in Hpos as (? & ? & ? & _); congruence|].
    pose proof (objs_bound _ _ H). rewrite (fs_blocks_of g) in * by done. lia.
Qed.

(** ** Files *)
Definition nameless (o : obj) : obj := mk_obj [] (o_entry o) (o_chain o).

Lemma hide_shape n : shape_ok n -> shape_ok (hide n).
Proof.
  intros (H1 & H2 & H3). split; [by cbn; rewrite length_insert|]. split; [done|]. cbn.
  rewrite clear_first_nul; [cbn; lia|]. by destruct (ov_path n).
Qed.

Lemma struct_hide g o objs : struct g (o :: objs) ->
  struct (<[o_head o := hide (g !!! o_head o)]> g) (nameless o :: objs).
Proof.
  intros H. destruct (obj_head_node _ _ o H ltac:(by left)) as (n & c & Hn & Hc & Hh & Ht).
  rewrite (list_lookup_total_correct _ _ _ Hn). assert (Hlt : (o_head o < length g)%nat) by by eapply lookup_lt_Some.
  pose proof (shape_lookup _ _ _ (st_shape _ _ H) Hn) as Hs. pose proof (st_nodup _ _ H) as Hnd.
  rewrite chains_cons, Hc in Hnd. cbn in Hnd. apply NoDup_cons in Hnd as [Hni Hnd].
  assert (Hother : forall j, j ∈ c ++ chains objs -> <[o_head o := hide n]> g !! j = g !! j).
  { intros j Hj. apply list_lookup_insert_ne. intros <-. by apply Hni. }
  split; [rewrite length_insert; apply H|apply nodes_insert; [apply H|by apply hide_shape]| |apply H|].
  - constructor.
    + unfold obj_ok, nameless. cbn [o_chain o_path o_entry]. rewrite Hc. split.
      * exists (hide n). split; [by apply list_lookup_insert_eq|]. destruct Hh as (? & ? & ? & ? & ? & Hm).
        unfold head_ok, hide, set_path. cbn. split; [done|]. split; [done|]. split; [done|]. split; [done|]. split; [|by destruct (o_entry o)].
        apply clear_first_nul. destruct Hs as [Hs _]. by destruct (ov_path n).
      * eapply tail_ok_agree; [done|]. intros j Hj. apply Hother, elem_of_app. by left.
    + apply Forall_forall. intros o' Ho'. apply (obj_ok_agree g); [eapply struct_obj; [done|by right]|]. intros j Hj.
      apply Hother, elem_of_app. right. apply elem_chains. eauto.
  - intros j y. rewrite lookup_insert_total by done. destruct (decide (j = o_head o)) as [->|Hne].
    + intros _ _. apply elem_chains. exists (nameless o). split; [by left|]. cbn. rewrite Hc. by left.
    + intros Hy Hu. by apply (st_used _ _ H j y).
Qed.

(** What replacing [want] leaves besides it, and the space that counts. *)
Lemma store_old g objs want : struct g objs -> paths_ok objs -> canon want -> want <> [] ->
  exists rest, tree_of rest = delete want (tree_of objs) /\ paths_ok rest /\
    match ov_find g (Some want) with
    | Some i => exists o, o_head o = i /\ o_path o = want /\ objs ≡ₚ o :: rest
    | None => rest = objs
    end.
Proof.
  intros H Hp Hc Hne. pose proof (find_tree g objs (Some want) H Hp) as Hf. rewrite Hc in Hf.
  destruct (ov_find g (Some want)) as [i|].
  - destruct Hf as (o & Ho & Hi & Hpath & _). destruct (pick objs o Ho) as [rest Hr].
    pose proof (paths_perm _ _ Hr Hp) as Hp'. exists rest. split; [|split; [by destruct (proj1 (paths_cons o rest) Hp')|by exists o]].
    rewrite <- Hpath, (tree_of_perm objs (o :: rest) Hp Hr). symmetry. by apply tree_of_tail.
  - exists objs. split; [by rewrite delete_id|done].
Qed.

Lemma store_space g objs rest ext want : struct g objs -> paths_ok objs -> paths_ok rest ->
  match ov_find g (Some want) with
  | Some i => exists o, o_head o = i /\ o_path o = want /\ objs ≡ₚ o :: rest
  | None => rest = objs
  end ->
  u32 (overlay_snapshot_bytes g ext - match ov_find g (Some want) with Some i => ov_chain_bytes (g !!! i) | NULL => 0 end)
    = ov_hdr ext + fs_bytes (tree_of rest) /\
  ov_free_count g + match ov_find g (Some want) with Some i => ov_chain_len g i | NULL => 0 end = 288 - fs_blocks (tree_of rest) /\
  0 <= fs_bytes (tree_of rest) <= 172800000 /\ 0 <= fs_blocks (tree_of rest) <= 288 /\ 0 <= ov_free_count g <= 288 - fs_blocks (tree_of rest).
Proof.
  intros H Hp Hp' Hold. pose proof (hdr_min ext) as Hh. rewrite (snapshot_bytes_spec _ objs), fs_bytes_of by done.
  pose proof (tree_bytes_range _ _ H) as Hb. pose proof (objs_bound _ _ H) as [_ Hc].
  rewrite (free_count_fs g objs), (fs_blocks_of g objs) by done.
  destruct (ov_find g (Some want)) as [i|]; [destruct Hold as (o & <- & Hpath & Hr)|subst rest].
  - assert (Ho : o ∈ objs) by (rewrite Hr; by left).
    assert (Hsub : rest ⊆ objs) by (intros x Hx; rewrite Hr; by right).
    rewrite (chain_bytes_spec _ _ _ H Ho), (chain_len_spec _ _ _ H Ho).
    assert (Eb : tree_bytes objs = obj_bytes o + tree_bytes rest) by (unfold tree_bytes; by rewrite Hr).
    assert (En : length (chains objs) = (length (o_chain o) + length (chains rest))%nat).
    { unfold chains. rewrite Hr. cbn. by rewrite length_app. }
    assert (Ef : fs_blocks (tree_of rest) = Z.of_nat (length (chains rest))).
    { unfold fs_blocks. rewrite (chains_blocks g objs rest) by done. by rewrite (tree_list _ Hp'). }
    pose proof (obj_bytes_range _ _ _ H Ho) as Ho'.
    assert (0 <= tree_bytes rest).
    { unfold tree_bytes. apply (sumZ_bound _ 600000); [lia|]. apply Forall_forall.
      intros x (o' & -> & Ho'')%list_elem_of_fmap. eapply obj_bytes_range; [done|by apply Hsub]. }
    rewrite Ef. split; [rewrite u32_id; unfold is_u32; lia|]. lia.
  - rewrite (fs_blocks_of g) by done. split; [rewrite u32_id; unfold is_u32; lia|]. lia.
Qed.

(** A chain built for [want] once nothing else has that path. *)
Lemma build_named g rest want data n :
  struct g rest -> canon want -> 0 <= n <= 65536 -> n <= blen data ->
  blocks (take (Z.to_nat n) data) <= ov_free_count g ->
  exists o g', ov_build g want data n = Some (Some (o_head o), g') /\ struct g' (o :: rest) /\
    o_pair o = (want, File (take (Z.to_nat n) data)).
Proof.
  intros H Hc Hn Hd Hf. destruct (struct_build g rest want data n H Hn Hd Hf) as (o & g' & Hrun & Hs & Hp & He).
  exists o, g'. split; [done|]. split; [done|]. unfold o_pair. by rewrite Hp, He, canon_cut.
Qed.

Lemma store_spec g objs ext want data n :
  struct g objs -> paths_ok objs -> canon want -> want <> [] -> 0 <= n <= blen data ->
  exists g', ov_store g ext want data n = Some (fst (fs_store ext (tree_of objs) want (take (Z.to_nat n) data) n), g') /\
    exists objs', struct g' objs' /\ paths_ok objs' /\
      tree_of objs' = snd (fs_store ext (tree_of objs) want (take (Z.to_nat n) data) n).
Proof.
  intros H Hp Hc Hne Hn. destruct (store_old g objs want H Hp Hc Hne) as (rest & Et & Hpr & Hold).
  destruct (store_space g objs rest ext want H Hp Hpr Hold) as (Hb & Hf & Hr1 & Hr2 & Hr3).
  set (b := take (Z.to_nat n) data). assert (Hbl : blen b = n) by (unfold b, blen in *; rewrite length_take; lia).
  unfold ov_store. rewrite Hb, Hf. unfold fs_store. rewrite <- Et. fold b. rewrite Hbl.
  assert (Hmax : overlay_file_max ext <= 65536) by (unfold overlay_file_max; destruct (c_true ext); vm_compute; discriminate).
  destruct (Z.ltb_spec (overlay_file_max ext) n) as [Hbig|Hsmall].
  { rewrite bool_decide_eq_false_2 by lia. exists g. split; [done|]. by exists objs. }
  rewrite bool_decide_eq_true_2 by done. cbn [andb].
  pose proof (blocks_range b) as Hbr. pose proof (canon_length _ Hc) as Hcl. pose proof (hdr_min ext) as Hh.
  rewrite canon_len by done.
  assert (Efb : ov_file_bytes (Z.of_nat (length want)) n = entry_bytes (want, File b)).
  { rewrite <- Hbl at 1. rewrite file_bytes_spec by lia. unfold entry_bytes. cbn. lia. }
  assert (Ebl : ov_blocks_for n = entry_blocks (want, File b)) by (rewrite <- Hbl at 1; apply blocks_for_spec; lia).
  rewrite Efb, Ebl. unfold fits. assert (Heb : 0 <= entry_bytes (want, File b) <= 1000000) by (unfold entry_bytes; cbn; lia).
  rewrite u32_id by (unfold is_u32; lia).
  destruct (Z.ltb_spec (overlay_capacity ext) (ov_hdr ext + fs_bytes (tree_of rest) + entry_bytes (want, File b))) as [Hcap|Hcap].
  { rewrite (bool_decide_eq_false_2 (_ <= overlay_capacity ext)) by lia. exists g. split; [done|]. by exists objs. }
  rewrite (bool_decide_eq_true_2 (_ <= overlay_capacity ext)) by lia. cbn [andb].
  rewrite u32_id by (unfold is_u32; lia).
  destruct (Z.ltb_spec (288 - fs_blocks (tree_of rest)) (entry_blocks (want, File b))) as [Hno|Hroom].
  { rewrite bool_decide_eq_false_2 by lia. exists g. split; [done|]. by exists objs. }
  rewrite bool_decide_eq_true_2 by lia. cbn [fst snd].
  assert (Hfin : forall g2 o, struct g2 (o :: rest) -> o_pair o = (want, File b) ->
    exists objs', struct g2 objs' /\ paths_ok objs' /\ tree_of objs' = <[want := File b]> (tree_of objs)).
  { intros g2 o Hs [= Hpath He]. exists (o :: rest). split; [done|]. split.
    - apply paths_cons. rewrite Hpath. split; [done|]. split; [done|]. split; [done|]. rewrite Et. apply lookup_delete_eq.
    - rewrite tree_of_cons, Hpath, He, Et. apply insert_delete_eq. }
  assert (Hnn : 0 <= n <= 65536) by lia. destruct Hn as [_ Hn].
  destruct (Z.leb_spec (entry_blocks (want, File b)) (ov_free_count g)) as [Hfree|Hfull].
  - destruct (ov_find g (Some want)) as [i|]; [destruct Hold as (o & <- & Hpath & Hr)|subst rest].
    + pose proof (struct_hide _ _ _ (struct_perm _ _ _ Hr H)) as Hs1. set (g1 := <[o_head o := hide (g !!! o_head o)]> g) in *.
      assert (Hf1 : ov_free_count g1 = ov_free_count g).
      { rewrite (free_count_spec _ _ Hs1), (free_count_spec _ _ (struct_perm _ _ _ Hr H)). done. }
      destruct (build_named g1 _ want data n Hs1 Hc Hnn Hn) as (new & g2 & -> & Hs2 & He); [unfold entry_blocks in Hfree; cbn in Hfree; fold b; lia|].
      rewrite some_bind. cbn iota. pose proof (struct_perm _ _ _ (perm_swap _ _ _) Hs2) as Hs3.
      destruct (struct_free_obj _ _ _ Hs3) as [Hs4 _]. eexists. split; [reflexivity|]. change (o_head o) with (o_head (nameless o)).
      by eapply Hfin.
    + destruct (build_named g _ want data n H Hc Hnn Hn) as (new & g2 & -> & Hs2 & He); [unfold entry_blocks in Hfree; cbn in Hfree; fold b; lia|].
      rewrite some_bind. cbn iota. eexists. split; [reflexivity|]. by eapply Hfin.
  - destruct (ov_find g (Some want)) as [i|]; [destruct Hold as (o & <- & Hpath & Hr)|lia].
    destruct (struct_free_obj _ _ _ (struct_perm _ _ _ Hr H)) as [Hs1 _]. set (g1 := ov_free_chain g (o_head o)) in *.
    destruct (build_named g1 _ want data n Hs1 Hc Hnn Hn) as (new & g2 & -> & Hs2 & He).
    { fold b. rewrite (free_count_fs g1 rest) by done. unfold entry_blocks in Hroom. cbn in Hroom. lia. }
    rewrite some_bind. cbn iota. eexists. split; [reflexivity|]. by eapply Hfin.
Qed.

(** ** Well-formed file systems *)
Section FileSystem.
Context {D : Type} `{OverlayDisk D} `{InitrdLaws}.
Implicit Types (s : overlay_t D) (m : tree) (p : cstring).

Record fs_ok (ext : Z) m : Prop := {
  fo_entries : map_Forall (fun p e => (canon p /\ p <> []) /\ blen (content_of e) <= overlay_file_max ext /\ parent_in m p = true) m;
  fo_budget : ov_hdr ext + fs_bytes m <= overlay_capacity ext
}.

Definition buffers_ok s : Prop :=
  blen (g_ov_tmp s) = 65536 /\ blen (g_ov_disk_buf s) = 98304 /\
  is_u32 (g_ov_ext_lba s) /\ (g_ov_ext_lba s = 0 \/ OV_EXT_MIN_LBA <= g_ov_ext_lba s).

Definition refines s m : Prop := exists objs, holds_tree s objs /\ tree_of objs = m.

Lemma holds_fs s objs : holds_tree s objs -> fs_ok (g_ov_ext_lba s) (tree_of objs) /\ buffers_ok s.
Proof.
  intros [Hs H2' H3 H4 H5 H6 H7 H8]. split; [|by split; [|split]]. split; [|by rewrite fs_bytes_of].
  intros p e (o & Ho & <- & <-)%tree_of_Some; [|done]. pose proof (po_canon _ H2') as Hc. rewrite Forall_forall in Hc, H4, H5. auto.
Qed.

Lemma holds_intro s objs : struct (g_ov s) objs -> paths_ok objs -> fs_ok (g_ov_ext_lba s) (tree_of objs) -> buffers_ok s ->
  holds_tree s objs.
Proof.
  intros Hs Hp [He Hb] (Ht & Hd & Hx). assert (Ho : forall o, o ∈ objs -> tree_of objs !! o_path o = Some (o_entry o)).
  { intros o Ho. apply tree_of_Some; [done|]. eauto. }
  split; [done|done|by rewrite <- fs_bytes_of| | |done|done|done]; apply Forall_forall; intros o Ho'; by apply (He _ _ (Ho o Ho')).
Qed.

(** What a call leaves: the nodes of the new file system, saved to disk. *)
Lemma saved_refines s g objs rc : struct g objs -> paths_ok objs -> fs_ok (g_ov_ext_lba s) (tree_of objs) -> buffers_ok s ->
  exists s', saved rc (with_nodes s g) = Some (rc, s') /\ refines s' (tree_of objs) /\ g_ov_ext_lba s' = g_ov_ext_lba s.
Proof.
  intros Hg Hp Hf Hb. destruct (saved_spec (with_nodes s g) objs rc) as (s' & Hr & Hh & _ & He); [by apply holds_intro|].
  exists s'. split; [done|]. split; [by exists objs|done].
Qed.
(** ** Changing a well-formed file system *)
Lemma entry_bytes_nonneg x : 0 <= entry_bytes x.
Proof. unfold entry_bytes. destruct x.2 as [|b]; [lia|]. pose proof (blocks_range b). unfold blen in *. lia. Qed.

Lemma fs_bytes_insert m p e : m !! p = None -> fs_bytes (<[p := e]> m) = entry_bytes (p, e) + fs_bytes m.
Proof. intros Hp. unfold fs_bytes. by rewrite map_to_list_insert. Qed.

Lemma fs_bytes_delete m p e : m !! p = Some e -> fs_bytes m = entry_bytes (p, e) + fs_bytes (delete p m).
Proof. intros Hp. rewrite <- fs_bytes_insert by apply lookup_delete_eq. by rewrite insert_delete_id. Qed.

Lemma parent_canon m p : canon p -> parent_in m p = true ->
  ov_parent p OV_PATH_MAX = [] \/ (below (dir_of p) p /\ (m !! dir_of p = Some Dir \/ initrd_is_dir (ov_parent p OV_PATH_MAX) = true)).
Proof.
  intros Hc. unfold parent_in. rewrite !orb_true_iff, !bool_decide_eq_true.
  destruct (decide (ov_parent p OV_PATH_MAX = [])) as [|Hne]; [by left|]. intros Hp. right.
  destruct (dir_of_spec p Hc Hne) as (_ & _ & _ & Hb). split; [done|]. naive_solver.
Qed.

Lemma fs_ok_insert ext m p e :
  fs_ok ext m -> canon p -> p <> [] -> blen (content_of e) <= overlay_file_max ext -> parent_in m p = true ->
  m !! p <> Some Dir -> ov_hdr ext + fs_bytes (delete p m) + entry_bytes (p, e) <= overlay_capacity ext ->
  fs_ok ext (<[p := e]> m).
Proof.
  intros [Hm _] Hc Hne Hl Hpar Hnd Hb.
  assert (Hmono : forall q, parent_in m q = true -> parent_in (<[p := e]> m) q = true).
  { intros q. apply parent_mono. intros d Hd. rewrite lookup_insert_ne; [done|]. by intros ->. }
  split.
  - intros q e' [[<- <-]|[_ Hq]]%lookup_insert_Some; [auto|]. destruct (Hm _ _ Hq) as (? & ? & ?). auto.
  - rewrite <- insert_delete_eq, fs_bytes_insert by apply lookup_delete_eq. lia.
Qed.

Lemma has_below_iff m p : has_below m p <-> exists q e, m !! q = Some e /\ below p q.
Proof.
  unfold has_below. rewrite Exists_exists. split.
  - intros ([q e] & Hx%elem_of_map_to_list & Hb). eauto.
  - intros (q & e & Hq & Hb). exists (q, e). split; [by apply elem_of_map_to_list|done].
Qed.

Lemma fs_ok_delete ext m p e : fs_ok ext m -> m !! p = Some e -> (e = Dir -> ~ has_below m p) -> fs_ok ext (delete p m).
Proof.
  intros [Hm Hb] Hp Hnb. split.
  - intros q e' [Hne Hq]%lookup_delete_Some. destruct (Hm _ _ Hq) as ([Hc Hqn] & Hl & Hpar). split; [done|]. split; [done|].
    apply parent_canon in Hpar as [Hroot|[Hbel [Hd|Hi]]]; [| | |done]; unfold parent_in; rewrite !orb_true_iff, !bool_decide_eq_true.
    + by left; left.
    + left. right. rewrite lookup_delete_ne; [done|]. intros E. rewrite <- E in Hd, Hbel. rewrite Hp in Hd. injection Hd as ->.
      apply Hnb; [done|]. apply has_below_iff. eauto.
    + by right.
  - rewrite (fs_bytes_delete m p e Hp) in Hb. pose proof (entry_bytes_nonneg (p, e)). lia.
Qed.

Lemma has_children_spec g objs p : struct g objs -> paths_ok objs -> canon p -> p <> [] ->
  ov_has_children g (Some p) = bool_decide (has_below (tree_of objs) p).
Proof.
  intros Hs Hp Hc Hne. unfold ov_has_children. rewrite Hc, canon_len by done.
  rewrite (proj2 (Z.eqb_neq _ _)) by (destruct p; [done|cbn [length]; lia]).
  apply eq_bool_prop_intro. rewrite bool_decide_spec, Is_true_true, existsb_exists. rewrite has_below_iff. split.
  - intros (n & Hn%list_elem_of_In & [Hu Hb]%andb_true_iff). rewrite below_spec in Hb by by apply canon_no_nul.
    apply bool_decide_eq_true in Hb. apply list_elem_of_lookup in Hn as [i Hi].
    destruct (used_path _ _ _ _ Hs Hi Hu) as [(o & Ho & _ & Hpath)|Hnil].
    + rewrite Hpath in Hb. exists (o_path o), (o_entry o). split; [apply tree_of_Some; [done|eauto]|done].
    + rewrite Hnil in Hb. destruct Hb as [r Hr]. by destruct p.
  - intros (q & e & (o & Ho & <- & _)%tree_of_Some & Hb); [|done]. destruct (obj_head_node _ _ _ Hs Ho) as (n & c & Hn & _ & Hok & _).
    exists n. split; [apply list_elem_of_In; by eapply list_elem_of_lookup_2|]. rewrite below_spec by by apply canon_no_nul.
    destruct Hok as (Hu & _ & _ & _ & Hpath & _). rewrite Hu, Hpath. cbn. by apply bool_decide_eq_true.
Qed.
(** ** The calls *)
Definition implements s (r : option (Z * overlay_t D)) (spec : Z * tree) : Prop :=
  exists s', r = Some (fst spec, s') /\ refines s' (snd spec) /\ g_ov_ext_lba s' = g_ov_ext_lba s.

Lemma implements_same s m rc : refines s m -> implements s (Some (rc, s)) (rc, m).
Proof. intros Hr. by exists s. Qed.

Lemma implements_saved s g objs m rc : struct g objs -> paths_ok objs -> tree_of objs = m -> fs_ok (g_ov_ext_lba s) m -> buffers_ok s ->
  implements s (saved rc (with_nodes s g)) (rc, m).
Proof. intros Hg Hp <- Hf Hb. apply (saved_refines s g objs rc Hg Hp Hf Hb). Qed.

Lemma refines_parts s m : refines s m -> exists objs, struct (g_ov s) objs /\ paths_ok objs /\ tree_of objs = m /\
  fs_ok (g_ov_ext_lba s) m /\ buffers_ok s.
Proof. intros (objs & Hh & <-). exists objs. destruct (holds_fs _ _ Hh). split; [apply Hh|]. split; [apply Hh|done]. Qed.

Lemma chr0_canon p : canon p -> (chr p 0 =? 0) = bool_decide (p = []).
Proof. intros Hc. by rewrite chr0_nil, canon_cstr. Qed.

(** The lookup of a canonical path. *)
Lemma find_canon g objs p : struct g objs -> paths_ok objs -> canon p ->
  match ov_find g (Some p) with
  | Some i => exists o, o ∈ objs /\ o_head o = i /\ o_path o = p /\ tree_of objs !! p = Some (o_entry o) /\
                c_true (ov_is_dir (g !!! i)) = is_Dir (o_entry o)
  | None => tree_of objs !! p = None
  end.
Proof. intros Hs Hp Hc. pose proof (find_tree g objs (Some p) Hs Hp) as Hf. by rewrite Hc in Hf. Qed.

Lemma find_some_iff g objs p : struct g objs -> paths_ok objs -> canon p ->
  bool_decide (is_Some (ov_find g (Some p))) = bool_decide (is_Some (tree_of objs !! p)).
Proof.
  intros Hs Hp Hc. pose proof (find_canon g objs p Hs Hp Hc) as Hf. destruct (ov_find g (Some p)).
  - destruct Hf as (o & _ & _ & _ & -> & _). done.
  - by rewrite Hf.
Qed.

Lemma mkdir_spec s m path : refines s m -> canon (norm path) ->
  implements s (overlay_mkdir s path) (fs_mkdir (g_ov_ext_lba s) m (norm path)).
Proof.
  intros Hr Hc. pose proof (implements_same s m) as Hsame. destruct (refines_parts s m Hr) as (objs & Hs & Hp & Hm & Hf & Hb).
  unfold overlay_mkdir, fs_mkdir. generalize dependent (norm path). intros p Hc.
  rewrite chr0_canon by done. destruct (decide (p = [])) as [->|Hne]; [by apply Hsame|].
  rewrite bool_decide_eq_false_2 by done. rewrite (find_some_iff _ objs) by done. rewrite Hm.
  destruct (decide (is_Some (m !! p))) as [Hx|Hx]; [rewrite bool_decide_eq_true_2 by done; by apply Hsame|].
  rewrite bool_decide_eq_false_2 by done. apply eq_None_not_Some in Hx.
  destruct (initrd_is_file p); [by apply Hsame|]. rewrite (parent_spec _ objs) by done. rewrite Hm.
  destruct (parent_in m p) eqn:Epar; cbn [negb]; [|by apply Hsame].
  rewrite (snapshot_bytes_spec _ objs), canon_len by done. rewrite <- (fs_bytes_of objs), Hm by done.
  pose proof (tree_bytes_range _ _ Hs) as Ht. rewrite <- (fs_bytes_of objs), Hm in Ht by done.
  pose proof (hdr_min (g_ov_ext_lba s)) as Hh. pose proof (canon_length _ Hc) as Hl.
  rewrite u32_id by (unfold is_u32, OV_SNAP_REC_HDR; lia). unfold fits.
  replace (ov_hdr (g_ov_ext_lba s) + fs_bytes m + OV_SNAP_REC_HDR + Z.of_nat (length p))
    with (ov_hdr (g_ov_ext_lba s) + fs_bytes m + entry_bytes (p, Dir)) by (unfold entry_bytes, OV_SNAP_REC_HDR; cbn; lia).
  destruct (Z.ltb_spec (overlay_capacity (g_ov_ext_lba s)) (ov_hdr (g_ov_ext_lba s) + fs_bytes m + entry_bytes (p, Dir))) as [Hcap|Hcap].
  { rewrite bool_decide_eq_false_2 by lia. by apply Hsame. }
  rewrite (bool_decide_eq_true_2 (_ <= overlay_capacity _)) by lia. cbn [andb].
  pose proof (alloc_fs _ _ Hs Hp) as Ha. rewrite Hm in Ha. change (entry_blocks (p, Dir)) with 1.
  destruct (ov_alloc (g_ov s)) as [i|] eqn:Ei.
  - destruct Ha as (Ha & n & Hn & Hsh). rewrite bool_decide_eq_true_2 by done. rewrite (list_lookup_total_correct _ _ _ Hn).
    apply (implements_saved s _ (mk_obj p Dir [i] :: objs)); [|apply paths_cons|by rewrite tree_of_cons, Hm| |done].
    + apply struct_add_dir; [done|done| |by apply canon_no_nul|lia]. destruct Hsh as (? & ? & ?). split; [done|]. split; [|done].
      cbn. by rewrite length_insert.
    + cbn. by rewrite Hm.
    + apply fs_ok_insert; [done|done|done| |done|by rewrite Hx|].
      * cbn. unfold overlay_file_max. destruct (c_true _); by vm_compute.
      * by rewrite delete_id.
  - rewrite bool_decide_eq_false_2 by lia. by apply Hsame.
Qed.

Lemma fs_store_ok ext m p b rc : fs_ok ext m -> canon p -> p <> [] -> parent_in m p = true -> m !! p <> Some Dir ->
  fs_ok ext (snd (fs_store ext m p b rc)).
Proof.
  intros Hf Hc Hne Hpar Hnd. unfold fs_store, fits. destruct (_ && _) eqn:E; [|done]. cbn.
  apply andb_true_iff in E as [E1%bool_decide_eq_true [E2%bool_decide_eq_true _]%andb_true_iff]. by apply fs_ok_insert.
Qed.

Lemma fs_parent_of ext m p e : fs_ok ext m -> m !! p = Some e -> parent_in m p = true.
Proof. intros Hf Hp. by apply (fo_entries _ _ Hf p e Hp). Qed.

(** Storing a file and saving. *)
Lemma store_finish s m p data n rc :
  refines s m -> canon p -> p <> [] -> parent_in m p = true -> m !! p <> Some Dir -> 0 <= n <= blen data ->
  let spec := fs_store (g_ov_ext_lba s) m p (take (Z.to_nat n) data) in
  exists g', ov_store (g_ov s) (g_ov_ext_lba s) p data n = Some (fst (spec n), g') /\
    (fst (spec n) = n /\ implements s (saved rc (with_nodes s g')) (spec rc) \/
     fst (spec n) = OV_ERR_NOSPACE /\ implements s (Some (OV_ERR_NOSPACE, with_nodes s g')) (spec rc)).
Proof.
  intros Hr Hc Hne Hpar Hnd Hn spec. destruct (refines_parts s m Hr) as (objs & Hs & Hp & Hm & Hf & Hb).
  destruct (store_spec (g_ov s) objs (g_ov_ext_lba s) p data n Hs Hp Hc Hne Hn) as (g' & Hrun & objs' & Hs' & Hp' & Hm').
  rewrite Hm in *. exists g'. split; [done|].
  pose proof (fs_store_ok _ m p (take (Z.to_nat n) data) n Hf Hc Hne Hpar Hnd) as Hf'. rewrite <- Hm' in Hf'.
  subst spec. unfold fs_store in *. destruct (_ && _); cbn [fst snd] in *; [left|right]; (split; [done|]).
  - rewrite Hm' in Hf'. by apply (implements_saved s g' objs').
  - exists (with_nodes s g'). split; [done|]. split; [|done]. exists objs'. split; [by apply holds_intro|done].
Qed.

Definition data_ok (data : ptr bytes) (n : Z) : Prop :=
  0 <= n < 2147483648 /\ match data with Some d => n <= blen d | NULL => True end.

Lemma bool_decide_lt a b : bool_decide (a < b) = (a <? b).
Proof. destruct (Z.ltb_spec a b); [by apply bool_decide_eq_true_2|apply bool_decide_eq_false_2; lia]. Qed.

Lemma file_write_spec s m path data n : refines s m -> canon (norm path) -> data_ok data n ->
  implements s (overlay_write s path data n) (fs_write (g_ov_ext_lba s) m (norm path) data n).
Proof.
  intros Hr Hc [Hn Hd]. pose proof (implements_same s m) as Hsame. destruct (refines_parts s m Hr) as (objs & Hs & Hp & Hm & Hf & Hb).
  unfold overlay_write, fs_write. generalize dependent (norm path). intros p Hc.
  rewrite chr0_canon, bool_decide_lt by done. destruct (decide (p = [])) as [->|Hne]; [by apply Hsame|].
  rewrite bool_decide_eq_false_2 by done. cbn [orb]. destruct ((0 <? n) && bool_decide (data = NULL)) eqn:En; [by apply Hsame|].
  destruct (overlay_file_max (g_ov_ext_lba s) <? n); [by apply Hsame|].
  assert (Hdn : 0 <= n <= blen (default [] data)).
  { destruct data as [d|]; cbn [default from_option id]; [lia|]. destruct (Z.ltb_spec 0 n); [done|]. change (blen []) with 0. lia. }
  assert (Hgo : parent_in m p = true -> m !! p <> Some Dir ->
    implements s ('(rc, g) ← ov_store (g_ov s) (g_ov_ext_lba s) p (default [] data) n;
                  let s := with_nodes s g in if 0 <=? rc then saved rc s else Some (rc, s))
      (fs_store (g_ov_ext_lba s) m p (take (Z.to_nat n) (default [] data)) n)).
  { intros Hpar Hnd. destruct (store_finish s m p (default [] data) n n Hr Hc Hne Hpar Hnd Hdn) as (g' & -> & [[Hrc Hi]|[Hrc Hi]]);
      rewrite some_bind; cbn zeta; rewrite Hrc; [by rewrite (proj2 (Z.leb_le 0 n)) by lia|done]. }
  pose proof (find_canon _ _ _ Hs Hp Hc) as Hfc. rewrite (parent_spec _ objs), Hm in * by done.
  destruct (ov_find (g_ov s) (Some p)) as [i|].
  - destruct Hfc as (o & _ & _ & _ & Hl & ->). rewrite Hl. destruct (o_entry o) as [|b] eqn:Ee; cbn [is_Dir].
    + rewrite bool_decide_eq_true_2 by done. by apply Hsame.
    + repeat rewrite bool_decide_eq_false_2 by done. cbn [orb andb]. destruct (initrd_is_dir p); [by apply Hsame|]. apply Hgo; [by eapply fs_parent_of|by rewrite Hl].
  - rewrite Hfc. rewrite (bool_decide_eq_false_2 (None = Some Dir)) by done. repeat rewrite bool_decide_eq_true_2 by done.
    cbn [orb andb]. destruct (initrd_is_dir p); [by apply Hsame|]. destruct (parent_in m p) eqn:Epar; cbn [negb]; [|by apply Hsame].
    apply Hgo; [done|by rewrite Hfc].
Qed.

Lemma file_unlink_spec s m path : refines s m -> canon (norm path) ->
  implements s (overlay_unlink s path) (fs_unlink m (norm path)).
Proof.
  intros Hr Hc. pose proof (implements_same s m) as Hsame. destruct (refines_parts s m Hr) as (objs & Hs & Hp & Hm & Hf & Hb).
  unfold overlay_unlink, fs_unlink. generalize dependent (norm path). intros p Hc.
  rewrite chr0_canon by done. destruct (decide (p = [])) as [->|Hne]; [by apply Hsame|].
  rewrite bool_decide_eq_false_2 by done. pose proof (find_canon _ _ _ Hs Hp Hc) as Hfc. rewrite Hm in *.
  destruct (ov_find (g_ov s) (Some p)) as [i|]; [|rewrite Hfc; by apply Hsame].
  destruct Hfc as (o & Ho & <- & Hpath & Hl & ->). rewrite Hl, (has_children_spec _ objs), Hm by done.
  destruct (is_Dir (o_entry o) && bool_decide (has_below m p)) eqn:Ed; [by apply Hsame|].
  destruct (pick objs o Ho) as [rest Hrest]. pose proof (paths_perm _ _ Hrest Hp) as Hp'.
  destruct (struct_free_obj _ _ _ (struct_perm _ _ _ Hrest Hs)) as [Hs' _].
  apply (implements_saved s _ rest); [done|by destruct (proj1 (paths_cons o rest) Hp')| | |done].
  - rewrite <- (tree_of_tail o rest), Hpath by done. by rewrite <- (tree_of_perm objs), Hm.
  - eapply fs_ok_delete; [done|done|]. intros E. rewrite E in Ed. cbn in Ed. by apply bool_decide_eq_false in Ed.
Qed.
(** The append buffer after the bytes already there and the new ones. *)
Lemma append_buffer (b d tmp : bytes) (n : Z) : 0 <= n <= blen d -> blen b + n <= blen tmp ->
  exists tmp', copy_in (overwrite tmp b) (blen b) d n = Some tmp' /\ blen tmp' = blen tmp /\
    take (Z.to_nat (blen b + n)) tmp' = b ++ take (Z.to_nat n) d.
Proof.
  intros Hn Hb. unfold copy_in. rewrite ld_bytes_ok by lia. rewrite some_bind. change (Z.to_nat 0) with 0%nat. rewrite drop_0.
  set (x := take (Z.to_nat n) d). assert (Hx : blen x = n) by (unfold x, blen in *; rewrite length_take; lia).
  unfold overwrite. rewrite <- (take_drop (length x) (drop (length b) tmp)).
  assert (Hl : length x = length (take (length x) (drop (length b) tmp))) by (unfold blen in *; rewrite length_take, length_drop; lia).
  rewrite st_bytes_app by done. eexists. split; [done|]. unfold blen in *. split.
  - rewrite !length_app, !length_drop. lia.
  - rewrite app_assoc, take_app_le, take_ge; rewrite ?length_app; (done || lia).
Qed.

Lemma refines_tmp s m b : refines s m -> blen b = 65536 -> refines (with_tmp s b) m.
Proof. intros (objs & [] & <-) Hb. exists objs. split; [by constructor|done]. Qed.

Lemma implements_tmp s b r spec : implements (with_tmp s b) r spec -> implements s r spec.
Proof. done. Qed.

Lemma overwrite_blen d b : blen b <= blen d -> blen (overwrite d b) = blen d.
Proof. unfold blen. intros Hl. rewrite overwrite_length; lia. Qed.

(** An append once the bytes [b] already there are known. *)
Lemma append_finish s m p data n b :
  refines s m -> canon p -> p <> [] -> parent_in m p = true -> m !! p <> Some Dir -> 0 <= n <= blen data -> n < 2147483648 ->
  blen b <= overlay_file_max (g_ov_ext_lba s) ->
  implements s
    (let s := with_tmp s (overwrite (g_ov_tmp s) b) in
     if blen b <? 0 then Some (blen b, s)
     else if overlay_file_max (g_ov_ext_lba s) <? u32 (blen b + n) then Some (OV_ERR_NOSPACE, s)
     else tmp ← copy_in (g_ov_tmp s) (blen b) data n;
          let s := with_tmp s tmp in
          '(rc, g) ← ov_store (g_ov s) (g_ov_ext_lba s) p tmp (u32 (blen b + n));
          let s := with_nodes s g in if rc <? 0 then Some (rc, s) else saved n s)
    (fs_store (g_ov_ext_lba s) m p (b ++ take (Z.to_nat n) data) n).
Proof.
  intros Hr Hc Hne Hpar Hnd Hn Hn' Hb. destruct (refines_parts s m Hr) as (_ & _ & _ & _ & _ & Ht & _).
  assert (Hmax : overlay_file_max (g_ov_ext_lba s) <= 65536) by (unfold overlay_file_max; destruct (c_true _); vm_compute; discriminate).
  pose proof (refines_tmp s m (overwrite (g_ov_tmp s) b) Hr ltac:(rewrite overwrite_blen; lia)) as Hr'. cbn zeta. cbn [g_ov_ext_lba g_ov_tmp with_tmp].
  rewrite (proj2 (Z.ltb_ge (blen b) 0)) by (unfold blen; lia). rewrite u32_id by (unfold is_u32, blen in *; lia).
  assert (Hd : blen (take (Z.to_nat n) data) = n) by (unfold blen in *; rewrite length_take; lia).
  destruct (Z.ltb_spec (overlay_file_max (g_ov_ext_lba s)) (blen b + n)) as [Hbig|Hfits].
  - unfold fs_store. rewrite (bool_decide_eq_false_2 (blen _ <= _)) by (rewrite blen_app; lia). cbn [andb].
    apply (implements_tmp s (overwrite (g_ov_tmp s) b)). by apply implements_same.
  - destruct (append_buffer b data (g_ov_tmp s) n Hn ltac:(lia)) as (tmp' & -> & Hl & Htake). rewrite some_bind.
    pose proof (refines_tmp (with_tmp s (overwrite (g_ov_tmp s) b)) m tmp' Hr' ltac:(lia)) as Hr2.
    destruct (store_finish _ m p tmp' (blen b + n) n Hr2 Hc Hne Hpar Hnd) as (g' & Hrun & Hres); [unfold blen in *; lia|].
    cbn zeta in Hres. rewrite Htake in Hres, Hrun. cbn [g_ov g_ov_ext_lba with_tmp] in Hres, Hrun |- *. rewrite Hrun, some_bind.
    destruct Hres as [[-> Hi]|[-> Hi]]; [rewrite (proj2 (Z.ltb_ge _ 0)) by (unfold blen; lia); exact Hi|exact Hi].
Qed.

Lemma append_spec s m path data n : refines s m -> canon (norm path) -> data_ok data n ->
  implements s (overlay_append s path data n) (fs_append (g_ov_ext_lba s) m (norm path) data n).
Proof.
  intros Hr Hc [Hn Hd]. pose proof (implements_same s m) as Hsame. destruct (refines_parts s m Hr) as (objs & Hs & Hp & Hm & Hf & Hb).
  unfold overlay_append, fs_append, append_base, fs_base. generalize dependent (norm path). intros p Hc.
  rewrite chr0_canon, bool_decide_lt by done. destruct (decide (p = [])) as [->|Hne]; [by apply Hsame|].
  rewrite bool_decide_eq_false_2 by done. cbn [orb]. destruct ((0 <? n) && bool_decide (data = NULL)) eqn:En; [by apply Hsame|].
  assert (Hdn : 0 <= n <= blen (default [] data)).
  { destruct data as [d|]; cbn [default from_option id]; [lia|]. destruct (Z.ltb_spec 0 n); [done|]. change (blen []) with 0. lia. }
  assert (Hmax : 0 < overlay_file_max (g_ov_ext_lba s) <= blen (g_ov_tmp s)).
  { destruct Hb as [-> _]. unfold overlay_file_max. destruct (c_true _); by vm_compute. }
  destruct (initrd_is_dir p) eqn:Eid; [by apply Hsame|]. cbn [orb].
  pose proof (find_canon _ _ _ Hs Hp Hc) as Hfc. rewrite (parent_spec _ objs) by done. rewrite Hm in *.
  destruct (ov_find (g_ov s) (Some p)) as [i|] eqn:Ef.
  - destruct Hfc as (o & Ho & <- & Hpath & Hl & ->). rewrite Hl.
    destruct (o_entry o) as [|b] eqn:Ee; cbn [is_Dir content_of default from_option id].
    { rewrite bool_decide_eq_true_2 by done. by apply Hsame. }
    repeat rewrite bool_decide_eq_false_2 by done. cbn [andb].
    destruct (fo_entries _ _ Hf _ _ Hl) as (_ & Hbl & Hpar). cbn [content_of] in Hbl.
    assert (Hsz : ov_size (g_ov s !!! o_head o) = blen b).
    { destruct (obj_head_node _ _ _ Hs Ho) as (x & c & Hx & _ & (_ & _ & _ & _ & _ & Hsz) & _). rewrite Ee in Hsz.
      rewrite (list_lookup_total_correct _ _ _ Hx). apply Hsz. }
    assert (Hfin := append_finish s m p (default [] data) n b Hr Hc Hne Hpar ltac:(by rewrite Hl) Hdn ltac:(lia) Hbl).
    rewrite Hsz. cbn zeta in Hfin. unfold overlay_read. rewrite (read_spec _ objs) by (done || lia). rewrite Hc, Hm, Hl. cbn zeta.
    change (Z.to_nat 0) with 0%nat. rewrite drop_0, (take_ge b) by (unfold blen in *; lia).
    destruct (Z.ltb_spec (overlay_file_max (g_ov_ext_lba s)) (u32 (blen b + n))) as [Hbig|Hfits]; rewrite !some_bind.
    + unfold fs_store. rewrite (bool_decide_eq_false_2 (blen _ <= _)); [apply (implements_tmp s (g_ov_tmp s)), implements_same; by apply refines_tmp; [|apply Hb]|].
      pose proof (proj1 Hb) as Ht. rewrite u32_id in Hbig by (unfold is_u32, blen in *; lia). rewrite blen_app. unfold blen in *. rewrite length_take. lia.
    + exact Hfin.
  - rewrite Hfc, initrd_is_file_law. rewrite (bool_decide_eq_false_2 (None = Some Dir)) by done.
    destruct (initrd_file p) as [c|] eqn:Ei; cbn [fmap option_fmap option_map default from_option id].
    + rewrite (bool_decide_eq_true_2 (is_Some _)) by done. rewrite bool_decide_eq_false_2 by done. cbn [andb].
      rewrite initrd_read_law, Ei, some_bind by (done || (destruct Hb as [Ht _]; lia)).
      apply append_finish; [done|done|done| |by rewrite Hfc|done|lia|unfold blen; rewrite length_take; lia].
      unfold parent_in. destruct (decide (ov_parent p OV_PATH_MAX = [])) as [E|E]; [by rewrite (bool_decide_eq_true_2 (_ = []))|].
      rewrite initrd_file_dir by (done || by eexists). by rewrite orb_true_r.
    + rewrite (bool_decide_eq_false_2 (is_Some _)) by (by intros [? ?]). rewrite bool_decide_eq_true_2 by done. cbn [andb].
      destruct (parent_in m p) eqn:Epar; cbn [negb]; rewrite some_bind.
      * pose proof (append_finish s m p (default [] data) n [] Hr Hc Hne Epar ltac:(by rewrite Hfc) Hdn ltac:(lia) ltac:(change (blen []) with 0; lia)) as Hfin.
        exact Hfin.
      * cbn. apply (implements_tmp s (g_ov_tmp s)), implements_same. by apply refines_tmp; [|apply Hb].
Qed.
End FileSystem.
