(* ===== verification/OvMove.v ===== *)
(** * Moving and copying subtrees of the overlay

    [overlay_rename] and [overlay_copy] against [fs_rename] and [fs_copy]. *)

From Stdlib Require Import ZArith Lia.
From stdpp Require Import base numbers option tactics list gmap.
From S2P Require Import Prelude Bytes Names NetBuf NetSum OvState OvPaths OvInv OvBuild OvImage OvSnap Overlay OvTree OvOps.

(** ** Moved paths *)
Section Moved.
Context (oldp newp : cstring) (Hold : canon oldp) (Hnew : canon newp) (Hdot : newp <> [46]) (Hne : newp <> []).
Implicit Types p q : cstring.

Lemma moved_split q : under oldp q -> exists u, q = oldp ++ u /\ moved oldp newp q = newp ++ u /\ (u = [] \/ exists u', u = 47 :: u').
Proof.
  intros [->|[u ->]].
  - exists []. unfold moved. rewrite !app_nil_r, drop_all, app_nil_r. split; [done|]. split; [done|by left].
  - exists (47 :: u). unfold moved. rewrite drop_app_length. split; [done|]. split; [done|eauto].
Qed.

Lemma moved_under q : under oldp q -> under newp (moved oldp newp q).
Proof. intros (u & _ & -> & Hu)%moved_split. by apply under_app. Qed.

Lemma moved_inj q1 q2 : under oldp q1 -> under oldp q2 -> moved oldp newp q1 = moved oldp newp q2 -> q1 = q2.
Proof. intros (u1 & -> & -> & _)%moved_split (u2 & -> & -> & _)%moved_split E. apply app_inv_head in E. by subst. Qed.

Lemma moved_length q : under oldp q -> Z.of_nat (length (moved oldp newp q)) = Z.of_nat (length newp) + (Z.of_nat (length q) - Z.of_nat (length oldp)).
Proof. intros (u & -> & -> & _)%moved_split. rewrite !length_app. lia. Qed.

Lemma moved_canon q : canon q -> under oldp q -> Z.of_nat (length (moved oldp newp q)) < 80 -> canon (moved oldp newp q).
Proof.
  intros Hq (u & -> & -> & Hu)%moved_split Hl. apply canon_iff in Hq as (Hn & _ & _ & Hlast & _).
  pose proof Hnew as Hnw. apply canon_iff in Hnw as (Hn' & _ & Hh & Hlast' & Hsd). apply no_nul_app in Hn as [_ Hnu].
  apply canon_iff. split; [by apply no_nul_app|]. split; [lia|]. split; [by destruct newp|]. split.
  - destruct u as [|x u] using rev_ind; [by rewrite app_nil_r|]. rewrite app_assoc, last_snoc in *. done.
  - destruct newp as [|a [|b n]]; [done| |].
    + destruct Hu as [->|[u' ->]]; [done|]. unfold skip_dot. change (chr ([a] ++ 47 :: u') 0) with a.
      destruct (Z.eqb_spec a 46) as [->|]; [done|]. done.
    + unfold skip_dot in *. change (chr ((a :: b :: n) ++ u) 0) with a. change (chr ((a :: b :: n) ++ u) 1) with b.
      change (chr (a :: b :: n) 0) with a in Hsd. change (chr (a :: b :: n) 1) with b in Hsd. destruct (_ && _); [|done].
      apply (f_equal length) in Hsd. rewrite length_drop in Hsd. cbn [length] in Hsd. lia.
Qed.

(** The directory of a moved path is the moved directory. *)
Lemma moved_dir q : canon q -> below oldp q -> canon (moved oldp newp q) ->
  ov_parent q OV_PATH_MAX <> [] /\ under oldp (ov_parent q OV_PATH_MAX) /\ under oldp (dir_of q) /\
  dir_of (moved oldp newp q) = moved oldp newp (dir_of q).
Proof.
  intros Hq Hb Hm. destruct (below_parts oldp q Hq Hb) as (c & t & -> & Hc & Hpar & Hdir).
  assert (Em : moved oldp newp (oldp ++ c ++ 47 :: t) = newp ++ c ++ 47 :: t) by (unfold moved; by rewrite drop_app_length).
  rewrite Em in *. rewrite Hpar by done. rewrite !Hdir by done.
  assert (Ho : oldp ++ c <> []) by (apply canon_iff in Hq as (_ & _ & Hh & _ & _); destruct oldp; [destruct c as [|x c]; [done|destruct Hc as [|[? [= -> ->]]]; done]|done]).
  split; [done|]. split; [by apply under_app|]. split; [by apply under_app, strip_slash_cases|].
  unfold moved. by rewrite drop_app_length.
Qed.
End Moved.

(** ** The move in the file system *)
Section Transplant.
Context `{InitrdLaws} (ext : Z) (m : tree) (oldp newp : cstring).
Context (Hm : fs_ok ext m) (Hold : canon oldp) (Hnew : canon newp) (Hdot : newp <> [46]) (Hne : newp <> []).
Context (Hguard : fs_guard m oldp newp = 0) (Hdiff : oldp <> newp).
Implicit Types p q : cstring.

Record move_ok : Prop := {
  mo_old : is_Some (m !! oldp);
  mo_new : m !! newp = None;
  mo_initrd : initrd_is_dir newp = false;
  mo_parent : parent_in m newp = true;
  mo_below : ~ below oldp newp;
  mo_length : forall q e, m !! q = Some e -> under oldp q -> Z.of_nat (length (moved oldp newp q)) < 80
}.

Lemma guard_ok : move_ok.
Proof.
  unfold fs_guard in Hguard. destruct (bool_decide (m !! oldp = None)) eqn:E1; [by destruct (_ || _)|].
  apply bool_decide_eq_false in E1.
  destruct (bool_decide (is_Some (m !! newp))) eqn:E2; [done|]. apply bool_decide_eq_false in E2.
  destruct (initrd_is_file newp || initrd_is_dir newp) eqn:E3; [done|]. apply orb_false_iff in E3 as [_ E3].
  destruct (parent_in m newp) eqn:E4; [|done]. cbn [negb] in Hguard.
  destruct (bool_decide (below oldp newp)) eqn:E5; [done|]. apply bool_decide_eq_false in E5.
  destruct (bool_decide (Exists _ _)) eqn:E6; [done|]. apply bool_decide_eq_false in E6.
  split; [by destruct (m !! oldp); [eexists|]|by apply eq_None_not_Some|done|done|done|].
  intros q e Hq Hu. destruct (Z.lt_ge_cases (Z.of_nat (length (moved oldp newp q))) 80) as [|Hge]; [done|]. destruct E6.
  apply Exists_exists. exists (q, e). split; [|done]. apply elem_of_map_to_list, map_lookup_filter_Some. done.
Qed.

Lemma ancestor q e p : m !! q = Some e -> below p q -> canon p -> p <> [] -> m !! p = Some Dir \/ initrd_is_dir p = true.
Proof.
  remember (length q) as n eqn:En. revert q e En. induction (lt_wf n) as [n _ IH]. intros q e -> Hq Hb Hp Hpn.
  destruct (fo_entries _ _ Hm _ _ Hq) as ([Hc _] & _ & Hpar). pose proof (parent_canon m q Hc Hpar) as Hcases.
  destruct (below_parts p q Hc Hb) as (c & t & -> & Hcs & Hpa & Hdi). rewrite Hpa, Hdi in Hcases by done.
  destruct Hcases as [Hroot|[Hbel [Hd|Hi]]]; [by destruct p| |].
  - destruct (strip_slash_cases c Hcs) as [E|[c' E]]; rewrite E in *.
    + rewrite app_nil_r in Hd. by left.
    + eapply IH; [|reflexivity|exact Hd|by exists c'|done|done]. destruct Hbel as [r Hr%(f_equal length)].
      rewrite !length_app in *. cbn [length] in *. lia.
  - right. destruct Hcs as [->|[c' ->]]; [by rewrite app_nil_r in Hi|]. eapply (initrd_dir_up p _ t); [done|by exists c'| |exact Hi]. by rewrite <- app_assoc.
Qed.

Lemma new_fresh q e : m !! q = Some e -> ~ under newp q.
Proof.
  intros Hq [->|Hb]; [by rewrite (mo_new guard_ok) in Hq|].
  destruct (ancestor q e newp Hq Hb Hnew Hne) as [Hd|Hi]; [by rewrite (mo_new guard_ok) in Hd|by rewrite (mo_initrd guard_ok) in Hi].
Qed.

Lemma new_outside p : under newp p -> ~ under oldp p.
Proof.
  intros Hn Ho. destruct (under_comparable _ _ _ Hn Ho) as [Hu|[->|Hb]]; [|done|by apply (mo_below guard_ok)].
  destruct (mo_old guard_ok) as [e He]. by apply (new_fresh oldp e).
Qed.

Lemma moved_target q e : m !! q = Some e -> under oldp q ->
  canon (moved oldp newp q) /\ moved oldp newp q <> [] /\ m !! moved oldp newp q = None /\ ~ under oldp (moved oldp newp q).
Proof.
  intros Hq Hu. destruct (fo_entries _ _ Hm _ _ Hq) as ([Hc _] & _). pose proof (moved_under oldp newp q Hu) as Hun.
  split; [apply moved_canon; try done; by eapply (mo_length guard_ok)|]. split; [by destruct newp|].
  split; [|by apply new_outside]. destruct (m !! moved oldp newp q) eqn:E; [|done]. by destruct (new_fresh _ _ E).
Qed.

Lemma subtree_keys : NoDup (map (fun x => (moved oldp newp x.1, x.2)) (map_to_list (subtree m oldp))).*1.
Proof.
  rewrite <- list_fmap_compose. apply NoDup_fmap_2_strong; [|apply NoDup_map_to_list].
  intros [q1 e1] [q2 e2] [Hq1 Hu1]%elem_of_map_to_list%map_lookup_filter_Some [Hq2 Hu2]%elem_of_map_to_list%map_lookup_filter_Some E.
  cbn in *. assert (q1 = q2) as -> by by eapply moved_inj. congruence.
Qed.

Lemma transplant_Some p e : transplant m oldp newp !! p = Some e <-> exists q, m !! q = Some e /\ under oldp q /\ moved oldp newp q = p.
Proof.
  unfold transplant. rewrite <- elem_of_list_to_map by apply subtree_keys. rewrite list_elem_of_fmap. split.
  - intros ([q e'] & [= -> ->] & [Hq Hu]%elem_of_map_to_list%map_lookup_filter_Some). eauto.
  - intros (q & Hq & Hu & <-). exists (q, e). split; [done|]. apply elem_of_map_to_list, map_lookup_filter_Some. done.
Qed.

Lemma transplant_fresh p e : transplant m oldp newp !! p = Some e -> m !! p = None.
Proof. intros (q & Hq & Hu & <-)%transplant_Some. by apply (moved_target q e). Qed.

Lemma renamed_Some p e : (outside m oldp ∪ transplant m oldp newp) !! p = Some e <->
  (m !! p = Some e /\ ~ under oldp p) \/ exists q, m !! q = Some e /\ under oldp q /\ moved oldp newp q = p.
Proof.
  unfold outside. rewrite lookup_union_Some_raw, <- transplant_Some, map_lookup_filter_Some. split; [naive_solver|].
  intros [Hl|Hr]; [by left|right]. split; [|done]. apply map_lookup_filter_None. left. by eapply transplant_fresh.
Qed.

Lemma copied_Some p e : (m ∪ transplant m oldp newp) !! p = Some e <->
  m !! p = Some e \/ exists q, m !! q = Some e /\ under oldp q /\ moved oldp newp q = p.
Proof.
  rewrite lookup_union_Some_raw, <- transplant_Some. split; [naive_solver|].
  intros [Hl|Hr]; [by left|right]. split; [|done]. by eapply transplant_fresh.
Qed.

Lemma parent_intro (t : tree) p : (canon p -> ov_parent p OV_PATH_MAX <> [] -> below (dir_of p) p ->
    t !! dir_of p = Some Dir \/ initrd_is_dir (ov_parent p OV_PATH_MAX) = true) -> canon p -> parent_in t p = true.
Proof.
  intros Hp Hc. unfold parent_in. destruct (decide (ov_parent p OV_PATH_MAX = [])) as [E|E]; [by rewrite bool_decide_eq_true_2|].
  destruct (dir_of_spec p Hc E) as (_ & _ & _ & Hb).
  destruct (Hp Hc E Hb) as [Hd|Hi]; [rewrite (bool_decide_eq_true_2 (t !! _ = _)) by done; by rewrite orb_true_r|by rewrite Hi, orb_true_r].
Qed.

(** Directories that keep their place, and the moved ones, give every entry its parent. *)
Section Parents.
Context (t : tree) (Hroot : initrd_is_dir oldp = false).
Context (Hkeep : forall d, m !! d = Some Dir -> ~ under oldp d -> t !! d = Some Dir).
Context (Hmoved : forall d, m !! d = Some Dir -> under oldp d -> t !! moved oldp newp d = Some Dir).

Lemma outside_parent q e : m !! q = Some e \/ q = newp -> ~ under oldp q -> parent_in m q = true -> canon q -> parent_in t q = true.
Proof.
  intros Hq Hu Hpar Hc. apply parent_intro; [|done]. intros _ Hne' Hb. destruct (parent_canon m q Hc Hpar) as [|[_ [Hd|Hi]]]; [done| |by right].
  left. apply Hkeep; [done|]. intros Hud. apply Hu. right. by eapply under_trans.
Qed.

Lemma moved_parent q e : m !! q = Some e -> under oldp q -> parent_in t (moved oldp newp q) = true.
Proof.
  intros Hq Hu. destruct (moved_target q e Hq Hu) as (Hmc & _ & _ & _). destruct (fo_entries _ _ Hm _ _ Hq) as ([Hc _] & _ & Hpar).
  destruct Hu as [->|Hb].
  - replace (moved oldp newp oldp) with newp by (unfold moved; by rewrite drop_all, app_nil_r).
    eapply (outside_parent newp Dir); [by right|intros [E|Hb]; [done|by apply (mo_below guard_ok)]|apply (mo_parent guard_ok)|done].
  - destruct (moved_dir oldp newp Hold Hnew q Hc Hb Hmc) as (Hpn & Hpu & Hdu & Hd).
    apply parent_intro; [|done]. intros _ _ _. left. rewrite Hd.
    destruct (parent_canon m q Hc Hpar) as [|[_ [Hdir|Hi]]]; [done|by apply Hmoved|]. exfalso.
    destruct Hpu as [E|Hpb]; [by rewrite E, Hroot in Hi|]. destruct (parent_split q Hc) as [|[r Hr]]; [done|]. rewrite Hr in Hc.
    by rewrite (initrd_dir_up oldp _ r Hold Hpb Hc Hi) in Hroot.
Qed.
End Parents.

Lemma renamed_ok : initrd_is_dir oldp = false ->
  let m' := outside m oldp ∪ transplant m oldp newp in ov_hdr ext + fs_bytes m' <= overlay_capacity ext -> fs_ok ext m'.
Proof.
  intros Hroot m' Hb. split; [|done].
  assert (Hkeep : forall d, m !! d = Some Dir -> ~ under oldp d -> m' !! d = Some Dir) by (intros d ? ?; apply renamed_Some; by left).
  assert (Hmv : forall d, m !! d = Some Dir -> under oldp d -> m' !! moved oldp newp d = Some Dir) by (intros d ? ?; apply renamed_Some; eauto).
  intros p e [[Hp Hu]|(q & Hq & Hu & <-)]%renamed_Some.
  - destruct (fo_entries _ _ Hm _ _ Hp) as ([Hc Hpn] & Hl & Hpar). split; [done|]. split; [done|]. eapply outside_parent; eauto.
  - destruct (fo_entries _ _ Hm _ _ Hq) as (_ & Hl & _). destruct (moved_target q e Hq Hu) as (Hc & Hpn & _ & _).
    split; [done|]. split; [done|]. by eapply moved_parent.
Qed.

Lemma copied_ok : initrd_is_dir oldp = false ->
  let m' := m ∪ transplant m oldp newp in ov_hdr ext + fs_bytes m' <= overlay_capacity ext -> fs_ok ext m'.
Proof.
  intros Hroot m' Hb. split; [|done].
  assert (Hkeep : forall d, m !! d = Some Dir -> m' !! d = Some Dir) by (intros d ?; apply copied_Some; by left).
  assert (Hmv : forall d, m !! d = Some Dir -> under oldp d -> m' !! moved oldp newp d = Some Dir) by (intros d ? ?; apply copied_Some; eauto).
  intros p e [Hp|(q & Hq & Hu & <-)]%copied_Some.
  - destruct (fo_entries _ _ Hm _ _ Hp) as (Hc & Hl & Hpar). split; [done|]. split; [done|]. by eapply parent_mono.
  - destruct (fo_entries _ _ Hm _ _ Hq) as (_ & Hl & _). destruct (moved_target q e Hq Hu) as (Hc & Hpn & _ & _).
    split; [done|]. split; [done|]. eapply moved_parent; eauto.
Qed.
End Transplant.

(** ** The nodes of a subtree *)
Section Nodes.
Context (oldp newp : cstring) (Hold : canon oldp) (Hnew : canon newp) (Hone : oldp <> []).
Implicit Types (g : nodes_t) (objs : list obj).

Definition in_sub (o : obj) : Prop := under oldp (o_path o).
#[local] Instance in_sub_dec o : Decision (in_sub o).
Proof. unfold in_sub. apply _. Defined.

Lemma in_subtree_spec n : in_subtree oldp n = is_head n && bool_decide (under oldp (cstr (ov_path n))).
Proof. unfold in_subtree. rewrite canon_len by done. by rewrite under_spec by by apply canon_no_nul. Qed.

Lemma head_path g objs o : struct g objs -> o ∈ objs -> is_head (g !!! o_head o) = true /\ cstr (ov_path (g !!! o_head o)) = o_path o.
Proof.
  intros H Ho. destruct (obj_head_node _ _ _ H Ho) as (n & c & Hn & _ & Hh & _). rewrite (list_lookup_total_correct _ _ _ Hn).
  split; [by eapply head_is_head|]. by destruct Hh as (_ & _ & _ & _ & Hp & _).
Qed.

Lemma in_subtree_obj g objs o : struct g objs -> o ∈ objs -> in_subtree oldp (g !!! o_head o) = bool_decide (in_sub o).
Proof. intros H Ho. rewrite in_subtree_spec. by destruct (head_path _ _ _ H Ho) as [-> ->]. Qed.

Lemma subtree_ids g objs : struct g objs -> ids (in_subtree oldp) g ≡ₚ map o_head (filter in_sub objs).
Proof.
  intros H. apply NoDup_Permutation; [apply ids_nodup| |].
  - pose proof (o_heads_nodup _ _ H) as Hn. eapply sublist_NoDup; [exact Hn|]. apply fmap_sublist, sublist_filter.
  - intros i. rewrite ids_spec, list_elem_of_fmap. setoid_rewrite list_elem_of_filter. split.
    + intros (n & Hn & Hs). pose proof Hs as Hs'. unfold in_subtree in Hs'. apply andb_true_iff in Hs' as [Hh _].
      apply (heads_are_objs _ _ _ _ H Hn) in Hh as (o & Ho & <-). exists o. split; [done|]. split; [|done].
      rewrite <- (list_lookup_total_correct _ _ _ Hn), (in_subtree_obj g objs) in Hs by done. by apply bool_decide_eq_true in Hs.
    + intros (o & -> & Hs & Ho). destruct (obj_head_node _ _ _ H Ho) as (n & c & Hn & _). exists n. split; [done|].
      rewrite <- (list_lookup_total_correct _ _ _ Hn), (in_subtree_obj g objs) by done. by apply bool_decide_eq_true.
Qed.

(** A sum over the nodes of the subtree is a sum over its objects. *)
Lemma subtree_sum g objs (f : nat -> Z) : struct g objs ->
  sumZ (map f (ids (in_subtree oldp) g)) = sumZ (map (fun o => f (o_head o)) (filter in_sub objs)).
Proof. intros H. rewrite (subtree_ids g objs H), map_map. done. Qed.

Lemma too_long_spec g objs : struct g objs -> paths_ok objs ->
  moved_too_long g oldp newp
  = bool_decide (Exists (fun x => 80 <= Z.of_nat (length (moved oldp newp x.1))) (map_to_list (subtree (tree_of objs) oldp))).
Proof.
  intros H Hp. unfold moved_too_long. apply eq_bool_prop_intro. rewrite bool_decide_spec, Is_true_true, existsb_exists, Exists_exists. split.
  - intros (n & Hn%list_elem_of_In & [Hs Hl]%andb_true_iff). apply list_elem_of_lookup in Hn as [i Hi].
    assert (Hin : i ∈ ids (in_subtree oldp) g) by (apply ids_spec; eauto). rewrite (subtree_ids _ _ H) in Hin.
    apply list_elem_of_fmap in Hin as (o & -> & [Hu Ho]%list_elem_of_filter). destruct (head_path _ _ _ H Ho) as [_ Hpath].
    rewrite (list_lookup_total_correct _ _ _ Hi) in Hpath. exists (o_pair o). split.
    + apply elem_of_map_to_list, map_lookup_filter_Some. split; [apply tree_of_Some; [done|eauto]|done].
    + cbn. apply Z.leb_le in Hl. rewrite moved_length by done. unfold ov_len in Hl at 2. rewrite Hpath, !canon_len in Hl by done.
      unfold blen, OV_PATH_MAX, OV_SNAP_PATH in Hl. lia.
  - intros ([q e] & [Hq Hu]%elem_of_map_to_list%map_lookup_filter_Some & Hl). cbn in *.
    apply tree_of_Some in Hq as (o & Ho & <- & _); [|done].
    destruct (obj_head_node _ _ _ H Ho) as (n & c & Hn & _). pose proof (list_lookup_total_correct _ _ _ Hn) as En.
    exists n. split; [apply list_elem_of_In; by eapply list_elem_of_lookup_2|]. rewrite <- En.
    rewrite (in_subtree_obj g objs), bool_decide_eq_true_2 by done. cbn [andb]. apply Z.leb_le.
    destruct (head_path _ _ _ H Ho) as [_ Hpath]. rewrite moved_length in Hl by done. unfold ov_len at 2. rewrite Hpath, !canon_len by done.
    unfold blen, OV_PATH_MAX, OV_SNAP_PATH. lia.
Qed.

(** Both calls make the same checks. *)
Lemma move_guard_spec g objs `{InitrdLaws} : struct g objs -> paths_ok objs ->
  (if negb (move_guard g oldp newp =? 0) then move_guard g oldp newp
   else if moved_too_long g oldp newp then OV_ERR_INVAL else 0) = fs_guard (tree_of objs) oldp newp.
Proof.
  intros Hs Hp. unfold move_guard, fs_guard. rewrite (too_long_spec g objs), (parent_spec g objs) by done.
  pose proof (find_canon _ _ _ Hs Hp Hold) as Hfo. pose proof (find_some_iff _ _ _ Hs Hp Hnew) as Hfn.
  assert (E : bool_decide (ov_find g (Some oldp) = NULL) = bool_decide (tree_of objs !! oldp = None)).
  { destruct (ov_find g (Some oldp)); [destruct Hfo as (o & _ & _ & _ & -> & _)|rewrite Hfo]; by repeat case_bool_decide. }
  rewrite E, Hfn, canon_len by done. clear E Hfo Hfn.
  assert (Eb : ov_under newp oldp (Z.of_nat (length oldp)) && (chr newp (Z.of_nat (length oldp)) =? 47) = bool_decide (below oldp newp)).
  { pose proof (below_spec newp oldp (canon_no_nul _ Hold)) as Hb. rewrite (canon_cstr newp Hnew) in Hb. rewrite <- Hb. unfold ov_under.
    destruct (starts_with _ _ _); [|done]. cbn [andb]. destruct (_ =? 47); [by rewrite orb_true_r|by rewrite andb_false_r]. }
  rewrite Eb. clear Eb.
  destruct (bool_decide (tree_of objs !! oldp = None)); [by destruct (initrd_is_file oldp || initrd_is_dir oldp)|].
  destruct (bool_decide (is_Some _)); [done|]. destruct (initrd_is_file newp || initrd_is_dir newp); [done|].
  destruct (parent_in _ newp); [|done]. cbn [negb]. by destruct (bool_decide (below oldp newp)).
Qed.

(** ** Renaming the nodes *)
Definition mv_obj (o : obj) : obj :=
  if decide (in_sub o) then mk_obj (moved oldp newp (o_path o)) (o_entry o) (o_chain o) else o.

Definition short (p : cstring) : Prop := under oldp p -> no_nul (moved oldp newp p) /\ (length (moved oldp newp p) < 80)%nat.

Lemma rename_node_other n : c_true (ov_used n) = false \/ ~ under oldp (cstr (ov_path n)) -> rename_node oldp newp n = n.
Proof.
  intros Hn. unfold rename_node. rewrite canon_len by done. rewrite under_spec by by apply canon_no_nul.
  destruct Hn as [->|Hn]; [done|]. rewrite bool_decide_eq_false_2 by done. by rewrite andb_false_r.
Qed.

Lemma rename_node_path n : shape_ok n -> c_true (ov_used n) = true -> under oldp (cstr (ov_path n)) -> short (cstr (ov_path n)) ->
  exists p, rename_node oldp newp n = set_path p n /\ length p = 80%nat /\ cstr p = moved oldp newp (cstr (ov_path n)).
Proof.
  intros (Hs1 & Hs2 & Hs3) Hu Hun Hsh. destruct (Hsh Hun) as [Hnn Hl].
  unfold rename_node. rewrite canon_len by done. rewrite under_spec by by apply canon_no_nul.
  rewrite Hu, bool_decide_eq_true_2 by done. cbn [andb]. eexists. split; [reflexivity|].
  assert (E : moved_path oldp newp (ov_path n) = moved oldp newp (cstr (ov_path n))).
  { unfold moved_path, moved in *. rewrite !canon_len by done. rewrite Nat2Z.id. f_equal. apply take_ge.
    rewrite length_app in Hl. unfold OV_PATH_MAX, OV_SNAP_PATH. lia. }
  rewrite E. destruct (ov_copy_spec (ov_path n) newp OV_PATH_MAX) as [Hc _]; [rewrite Hs1; unfold OV_PATH_MAX, OV_SNAP_PATH; lia|].
  split; [rewrite overwrite_length; [congruence|rewrite length_app, Hc, Hs1; cbn [length]; lia]|].
  unfold overwrite. rewrite <- app_assoc. by apply cstr_term.
Qed.

Lemma rename_node_ok n : shape_ok n -> short (cstr (ov_path n)) -> exists p, rename_node oldp newp n = set_path p n /\ shape_ok (set_path p n) /\
  cstr p = if decide (c_true (ov_used n) = true /\ under oldp (cstr (ov_path n))) then moved oldp newp (cstr (ov_path n)) else cstr (ov_path n).
Proof.
  intros Hs Hsh. destruct (decide (c_true (ov_used n) = true /\ under oldp (cstr (ov_path n)))) as [[Hu Hun]|Hno].
  - destruct (rename_node_path n Hs Hu Hun Hsh) as (p & Hp & Hl & Hc). exists p. split; [done|]. split; [|done].
    destruct Hs as (? & ? & ?). split; [done|]. split; [done|]. cbn. rewrite Hc. by apply Hsh.
  - exists (ov_path n). assert (E : set_path (ov_path n) n = n) by by destruct n. rewrite E. split; [|done].
    apply rename_node_other. destruct (c_true (ov_used n)); [|by left]. right. naive_solver.
Qed.

Lemma rename_tail g c rest : tail_ok g c rest -> tail_ok (map (rename_node oldp newp) g) c rest.
Proof.
  intros Ht. eapply tail_ok_agree; [done|]. intros i Hi. destruct (tail_ok_used _ _ _ _ Ht Hi) as (n & Hn & _ & _ & Hp).
  rewrite list_lookup_fmap, Hn. cbn. f_equal. apply rename_node_other. right. rewrite Hp. intros [E|[r Hr]]; [done|by destruct oldp].
Qed.

Lemma mv_chain o : o_chain (mv_obj o) = o_chain o.
Proof. unfold mv_obj. by destruct (decide (in_sub o)). Qed.
Lemma mv_path o : o_path (mv_obj o) = if decide (in_sub o) then moved oldp newp (o_path o) else o_path o.
Proof. unfold mv_obj. by destruct (decide (in_sub o)). Qed.
Lemma mv_entry o : o_entry (mv_obj o) = o_entry o.
Proof. unfold mv_obj. by destruct (decide (in_sub o)). Qed.

Lemma rename_struct g objs : struct g objs -> Forall (fun o => short (o_path o)) objs ->
  struct (map (rename_node oldp newp) g) (map mv_obj objs).
Proof.
  intros H Hsh. rewrite Forall_forall in Hsh.
  assert (Hshort : forall i n, g !! i = Some n -> c_true (ov_used n) = true -> short (cstr (ov_path n))).
  { intros i n Hi Hu. destruct (used_path _ _ _ _ H Hi Hu) as [(o & Ho & _ & E)|E]; rewrite E; [by apply Hsh|].
    intros [E'|[r Hr]]; [done|by destruct oldp]. }
  assert (Ec : chains (map mv_obj objs) = chains objs).
  { unfold chains. rewrite map_map. f_equal. apply map_ext. intros o. apply mv_chain. }
  split; [rewrite length_map; apply H| | |rewrite Ec; apply H|].
  - apply Forall_lookup. intros i x. rewrite list_lookup_fmap. destruct (g !! i) as [n|] eqn:Hi; [|done]. cbn. intros [= <-].
    pose proof (shape_lookup _ _ _ (st_shape _ _ H) Hi) as Hs. destruct (c_true (ov_used n)) eqn:Eu.
    + destruct (rename_node_ok n Hs (Hshort i n Hi Eu)) as (p & -> & Hsp & _). done.
    + by rewrite rename_node_other by by left.
  - apply Forall_forall. intros x (o & -> & Ho)%list_elem_of_fmap. destruct (obj_head_node _ _ _ H Ho) as (n & c & Hn & Hch & Hh & Ht).
    unfold obj_ok. rewrite mv_chain, mv_entry, Hch. split; [|by apply rename_tail].
    pose proof Hh as (Hu & Hd & Hcont & Hnx & Hpath & Hm). assert (Hut : c_true (ov_used n) = true) by by rewrite Hu.
    destruct (rename_node_ok n (shape_lookup _ _ _ (st_shape _ _ H) Hn) (Hshort _ _ Hn Hut)) as (p & Hp & _ & Hcp).
    exists (set_path p n). rewrite list_lookup_fmap, Hn. cbn. rewrite Hp. split; [done|]. rewrite mv_path.
    split; [done|]. split; [done|]. split; [done|]. split; [done|]. split; [|done]. cbn. rewrite Hcp, Hpath. unfold in_sub.
    destruct (decide (under oldp (o_path o))); [by rewrite decide_True|rewrite decide_False; [done|naive_solver]].
  - intros i x. rewrite list_lookup_fmap, Ec. destruct (g !! i) as [n|] eqn:Hi; [|done]. cbn. intros [= <-] Hu. apply (st_used _ _ H i n Hi).
    unfold rename_node in Hu. by destruct (_ && _).
Qed.

(** The bytes a rename adds to the image. *)
Lemma growth_acc (k : Z) g : is_u32 k -> Z.of_nat (length newp) < 80 ->
  fold_left (fun grow n =>
    if in_subtree oldp n && (Z.of_nat (length oldp) <? Z.of_nat (length newp)) then u32 (grow + (Z.of_nat (length newp) - Z.of_nat (length oldp))) else grow) g k
  = u32 (k + Z.of_nat (length (List.filter (in_subtree oldp) g)) * Z.max 0 (Z.of_nat (length newp) - Z.of_nat (length oldp))).
Proof.
  intros Hk Hl. revert k Hk. induction g as [|n g IH]; intros k Hk; cbn [fold_left List.filter].
  - cbn [length]. rewrite Z.mul_0_l, Z.add_0_r. symmetry. by apply u32_id.
  - destruct (in_subtree oldp n); cbn [andb]; [|by apply IH]. cbn [length].
    destruct (Z.ltb_spec (Z.of_nat (length oldp)) (Z.of_nat (length newp))) as [Hlt|Hge].
    + rewrite IH by auto with cint. rewrite u32_add_l. f_equal. lia.
    + rewrite IH by done. f_equal. lia.
Qed.

Lemma mv_bytes objs : tree_bytes (map mv_obj objs)
  = tree_bytes objs + Z.of_nat (length (filter in_sub objs)) * (Z.of_nat (length newp) - Z.of_nat (length oldp)).
Proof.
  unfold tree_bytes. induction objs as [|o objs IH]; [done|]. cbn [map]. unfold sumZ in *. cbn [foldr]. rewrite IH, filter_cons.
  assert (E : obj_bytes (mv_obj o) = obj_bytes o + (if decide (in_sub o) then Z.of_nat (length newp) - Z.of_nat (length oldp) else 0)).
  { unfold obj_bytes. rewrite mv_entry, mv_path. destruct (decide (in_sub o)) as [Hs|]; [|destruct (o_entry o); lia].
    rewrite moved_length by done. destruct (o_entry o); lia. }
  rewrite E. destruct (decide (in_sub o)); cbn [length]; lia.
Qed.

Lemma growth_spec g objs : struct g objs ->
  rename_growth g oldp newp = Z.of_nat (length (filter in_sub objs)) * Z.max 0 (Z.of_nat (length newp) - Z.of_nat (length oldp)).
Proof.
  intros H. pose proof (canon_length _ Hnew) as Hl. unfold rename_growth. rewrite !canon_len by done.
  rewrite growth_acc by (done || (unfold is_u32; lia)). rewrite filter_ids, length_map, (Permutation_length (subtree_ids _ _ H)), length_map.
  rewrite Z.add_0_l. apply u32_id. pose proof (length_filter in_sub objs). pose proof (objs_bound _ _ H).
  assert (0 <= Z.of_nat (length (filter in_sub objs)) <= 288) by lia. unfold is_u32. nia.
Qed.
End Nodes.

(** ** Renaming *)
Section Rename.
Context {D : Type} `{OverlayDisk D} `{InitrdLaws}.
Implicit Types (s : overlay_t D) (m : tree).

Lemma renamed_tree ext objs oldp newp : paths_ok objs -> fs_ok ext (tree_of objs) ->
  canon oldp -> canon newp -> newp <> [46] -> newp <> [] -> fs_guard (tree_of objs) oldp newp = 0 -> oldp <> newp ->
  paths_ok (map (mv_obj oldp newp) objs) /\
  tree_of (map (mv_obj oldp newp) objs) = outside (tree_of objs) oldp ∪ transplant (tree_of objs) oldp newp /\
  Forall (fun o => short oldp newp (o_path o)) objs.
Proof.
  intros Hp Hf Ho Hn Hdot Hne Hg Hd. set (m := tree_of objs) in *.
  assert (Hin : forall o, o ∈ objs -> m !! o_path o = Some (o_entry o)) by (intros o Hx; apply tree_of_Some; eauto).
  assert (Htgt := moved_target ext m oldp newp Hf Hn Hdot Hne Hg Hd).
  assert (Hp' : paths_ok (map (mv_obj oldp newp) objs)).
  { split.
    - assert (E : map o_path (map (mv_obj oldp newp) objs)
        = map (fun p => if decide (under oldp p) then moved oldp newp p else p) (map o_path objs))
        by (rewrite !map_map; apply map_ext, mv_path).
      rewrite E. clear E. apply NoDup_fmap_2_strong; [|apply Hp]. intros p q (o1 & -> & Ho1)%list_elem_of_fmap (o2 & -> & Ho2)%list_elem_of_fmap.
      destruct (decide (under oldp (o_path o1))) as [Hu1|Hu1], (decide (under oldp (o_path o2))) as [Hu2|Hu2]; intros E; [by eapply moved_inj| | |done].
      + destruct (Htgt _ _ (Hin _ Ho1) Hu1) as (_ & _ & Hnone & _). rewrite E, (Hin _ Ho2) in Hnone. done.
      + destruct (Htgt _ _ (Hin _ Ho2) Hu2) as (_ & _ & Hnone & _). rewrite <- E, (Hin _ Ho1) in Hnone. done.
    - apply Forall_forall. intros x (o & -> & Hx)%list_elem_of_fmap. rewrite mv_path. destruct (decide _) as [Hs|Hs].
      + destruct (Htgt _ _ (Hin _ Hx) Hs) as (? & ? & _). done.
      + pose proof (po_canon _ Hp) as Hc. rewrite Forall_forall in Hc. by apply Hc. }
  split; [done|]. split.
  - apply map_eq. intros p. apply option_eq. intros e.
    rewrite (tree_of_Some _ p e Hp'), (renamed_Some ext m oldp newp Hf Hn Hdot Hne Hg Hd p e). split.
    + intros (x & (o & -> & Hx)%list_elem_of_fmap & <- & <-). rewrite mv_path, mv_entry. destruct (decide _) as [Hs|Hs]; [right|left].
      * exists (o_path o). auto.
      * split; [auto|done].
    + intros [[Hq Hu]|(q & Hq & Hu & <-)]; apply tree_of_Some in Hq as (o & Hx & <- & <-); try done;
        exists (mv_obj oldp newp o); (split; [by apply list_elem_of_fmap_2|]); rewrite mv_path, mv_entry; (split; [|done]);
        [by rewrite decide_False|by rewrite decide_True].
  - apply Forall_forall. intros o Hx Hu. destruct (Htgt _ _ (Hin _ Hx) Hu) as (Hc & _). split; [by apply canon_no_nul|].
    pose proof (canon_length _ Hc). lia.
Qed.

Lemma growth_check cap hdr t k d : 0 <= k -> hdr + t <= cap ->
  bool_decide (hdr + (t + k * d) <= cap) = negb (cap <? hdr + t + k * Z.max 0 d).
Proof.
  intros Hk Ht. destruct (Z.max_spec 0 d) as [[Hd ->]|[Hd ->]].
  - destruct (Z.ltb_spec cap (hdr + t + k * d)); [apply bool_decide_eq_false_2|apply bool_decide_eq_true_2]; lia.
  - rewrite (proj2 (Z.ltb_ge _ _)) by lia. apply bool_decide_eq_true_2. nia.
Qed.

Definition move_args (oldp newp : cstring) : Prop := canon oldp /\ canon newp /\ newp <> [46] /\ initrd_is_dir oldp = false.

Lemma rename_spec s m oldpath newpath : refines s m -> move_args (norm oldpath) (norm newpath) ->
  implements s (overlay_rename s oldpath newpath) (fs_rename (g_ov_ext_lba s) m (norm oldpath) (norm newpath)).
Proof.
  intros Hr (Ho & Hn & Hdot & Hroot). pose proof (implements_same s m) as Hsame.
  destruct (refines_parts s m Hr) as (objs & Hs & Hp & Hm & Hf & Hb).
  unfold overlay_rename, fs_rename. generalize dependent (norm oldpath). generalize dependent (norm newpath). intros newp Hn Hdot oldp Ho Hroot.
  rewrite !chr0_canon by done. destruct (decide (oldp = [])) as [->|Hone]; [by apply Hsame|].
  destruct (decide (newp = [])) as [->|Hnne]; [rewrite !(bool_decide_eq_true_2 ([] = [])) by done; rewrite orb_true_r; by apply Hsame|].
  rewrite !bool_decide_eq_false_2 by done. cbn [orb]. rewrite ov_eq_spec, !canon_cstr by done.
  destruct (decide (oldp = newp)) as [->|Hd]; [rewrite bool_decide_eq_true_2 by done; by apply Hsame|].
  rewrite bool_decide_eq_false_2 by done. rewrite <- Hm. rewrite <- (move_guard_spec oldp newp Ho Hn (g_ov s) objs Hs Hp).
  pose proof (move_guard_spec oldp newp Ho Hn (g_ov s) objs Hs Hp) as Hg. rewrite Hm in *.
  destruct (move_guard (g_ov s) oldp newp =? 0) eqn:Eg; cbn [negb] in *; [|rewrite Eg; by apply Hsame].
  destruct (moved_too_long (g_ov s) oldp newp); [by apply Hsame|]. cbn [Z.eqb negb].
  rewrite <- Hm in Hf, Hg.
  destruct (renamed_tree (g_ov_ext_lba s) objs oldp newp Hp Hf Ho Hn Hdot Hnne (eq_sym Hg) Hd) as (Hp' & Ht' & Hsh).
  pose proof (rename_struct oldp newp Ho Hn Hone (g_ov s) objs Hs Hsh) as Hs'.
  rewrite (snapshot_bytes_spec _ objs), (growth_spec oldp newp Ho Hn _ objs) by done.
  rewrite <- Hm, <- Ht', fs_bytes_of, mv_bytes by done.
  pose proof (tree_bytes_range _ _ Hs) as Hr1. pose proof (hdr_min (g_ov_ext_lba s)) as Hr2.
  pose proof (fo_budget _ _ Hf) as Hbud. rewrite fs_bytes_of in Hbud by done.
  assert (Hk : 0 <= Z.of_nat (length (filter (in_sub oldp) objs)) <= 288).
  { pose proof (length_filter (in_sub oldp) objs). pose proof (objs_bound _ _ Hs). lia. }
  set (k := Z.of_nat (length (filter (in_sub oldp) objs))) in *. set (d := Z.of_nat (length newp) - Z.of_nat (length oldp)).
  pose proof (canon_length _ Hn) as Hnl. rewrite u32_id by (unfold is_u32; nia).
  pose proof (growth_check (overlay_capacity (g_ov_ext_lba s)) (ov_hdr (g_ov_ext_lba s)) (tree_bytes objs) k d ltac:(lia) Hbud) as Hfok.
  rewrite Hfok. destruct (_ <? _) eqn:El; cbn [negb] in *; [rewrite Hm; by apply Hsame|].
  apply (implements_saved s _ (map (mv_obj oldp newp) objs)); [done|done|done| |done]. rewrite Ht'.
  apply renamed_ok; try done. rewrite <- Ht', fs_bytes_of, mv_bytes by done. by apply bool_decide_eq_true in Hfok.
Qed.
End Rename.
