(* ===== verification/OvCopy.v ===== *)
(** * Copying subtrees of the overlay

    [overlay_copy] makes one pass over the nodes for the directories and one for the
    files; [copy_inv] is what holds between two rounds. *)

From Stdlib Require Import ZArith Lia.
From stdpp Require Import base numbers option tactics list gmap.
From S2P Require Import Prelude Bytes Names NetBuf NetSum OvState OvPaths OvInv OvBuild OvImage OvSnap Overlay OvTree OvOps OvMove.

#[local] Existing Instance in_sub_dec.

(** ** Lists of objects with the same entries *)
Lemma paths_pairs l1 l2 : map o_pair l1 ≡ₚ map o_pair l2 -> paths_ok l1 -> paths_ok l2.
Proof.
  intros Hp [Hn Hc]. assert (Hp' : map o_path l1 ≡ₚ map o_path l2) by (rewrite <- !paths_fst; by rewrite Hp).
  split; [by rewrite <- Hp'|]. apply Forall_forall. intros o Ho. assert (Hin : o_path o ∈ map o_path l1).
  { rewrite Hp'. by apply list_elem_of_fmap_2. }
  apply list_elem_of_fmap in Hin as (o' & -> & Ho'). rewrite Forall_forall in Hc. by apply Hc.
Qed.

Lemma tree_pairs l1 l2 : map o_pair l1 ≡ₚ map o_pair l2 -> paths_ok l1 -> tree_of l1 = tree_of l2.
Proof. intros Hp Hok. apply list_to_map_proper; [rewrite paths_fst; apply Hok|done]. Qed.

Lemma fold_u32_sum {A} (P : A -> bool) (f : A -> Z) l k : is_u32 k ->
  fold_left (fun k x => if P x then u32 (k + f x) else k) l k = u32 (k + sumZ (map f (List.filter P l))).
Proof.
  revert k. induction l as [|x l IH]; intros k Hk; cbn [fold_left List.filter map].
  - unfold sumZ. cbn. by rewrite Z.add_0_r, u32_id.
  - destruct (P x); rewrite IH; [|auto with cint|done|done]. rewrite u32_add_l. unfold sumZ. cbn. f_equal. lia.
Qed.

(** The lookup of a stored path: what follows the terminator does not matter. *)
Lemma norm_cstr s : norm (Some s) = norm (Some (cstr s)).
Proof.
  unfold ov_normalize, cut. by rewrite !skip_slashes_cstr, !skip_dot_cstr, cstr_cstr.
Qed.

(** ** The loops *)
Section Loops.
Context {D : Type} `{OverlayDisk D} `{Initrd} (oldp newp : cstring) (objs : list obj).
Context (Hold : canon oldp) (Hnew : canon newp) (Hone : oldp <> []).
Implicit Types (s : overlay_t D) (o : obj).

Abbreviation mv := (mv_obj oldp newp).
Abbreviation sub := (in_sub oldp).

Definition need (l : list obj) : Z := sumZ (map (fun o => blocks (content_of (o_entry o))) l).

Lemma need_nonneg l : 0 <= need l.
Proof.
  unfold need, sumZ. induction l as [|o l IH]; cbn [map foldr]; [done|]. pose proof (blocks_range (content_of (o_entry o))). lia.
Qed.

(** [copies] are made and [todo] are left. *)
Record copy_inv s (copies todo : list obj) : Prop := {
  ci_struct : struct (g_ov s) (copies ++ objs);
  ci_paths : paths_ok (copies ++ map mv todo ++ objs);
  ci_out : Forall (fun c => ~ sub c) copies;
  ci_todo : Forall (fun o => o ∈ objs /\ sub o /\ ~ sub (mv o)) todo;
  ci_room : need todo <= ov_free_count (g_ov s);
  ci_sizes : Forall (fun o => blen (content_of (o_entry o)) <= overlay_file_max (g_ov_ext_lba s)) objs;
  ci_tmp : blen (g_ov_tmp s) = 65536
}.

Definition same_rest s s' : Prop := g_ov_ext_lba s' = g_ov_ext_lba s /\ g_ov_disk_buf s' = g_ov_disk_buf s.

Lemma inv_paths s copies todo : copy_inv s copies todo -> paths_ok (copies ++ objs).
Proof.
  intros Hi. pose proof (ci_paths _ _ _ Hi) as [Hn Hc]. split.
  - eapply sublist_NoDup; [exact Hn|]. rewrite !map_app. apply sublist_app; [reflexivity|]. apply sublist_inserts_l. reflexivity.
  - rewrite !Forall_app in *. naive_solver.
Qed.

(** A finished copy. *)
Lemma inv_next s s' copies todo o c :
  copy_inv s copies (o :: todo) -> o_pair c = o_pair (mv o) -> struct (g_ov s') (c :: copies ++ objs) ->
  same_rest s s' -> blen (g_ov_tmp s') = 65536 ->
  ov_free_count (g_ov s') = ov_free_count (g_ov s) - blocks (content_of (o_entry o)) ->
  copy_inv s' (c :: copies) todo.
Proof.
  intros [H1 H2 H3 H4 H5 H6 H7] Hp Hs [He _] Ht Hf. apply Forall_cons in H4 as [(Ho & Hsub & Hnot) H4]. split; try done.
  - eapply paths_pairs; [|exact H2]. cbn. rewrite !map_app. cbn. rewrite !map_app, Hp. symmetry. apply Permutation_middle.
  - constructor; [|done]. unfold in_sub in *. by injection Hp as -> _.
  - unfold need, sumZ in *. cbn [map foldr] in H5. lia.
  - by rewrite He.
Qed.

Lemma target_path s copies todo o n : copy_inv s copies (o :: todo) -> g_ov s !! o_head o = Some n ->
  moved_path oldp newp (ov_path n) = o_path (mv o) /\ canon (o_path (mv o)) /\ cstr (ov_path n) = o_path o.
Proof.
  intros Hi Hn. pose proof (ci_todo _ _ _ Hi) as Ht. apply Forall_cons in Ht as [(Ho & Hsub & _) _].
  assert (Hin : o ∈ copies ++ objs) by (apply elem_of_app; by right).
  destruct (head_path _ _ _ (ci_struct _ _ _ Hi) Hin) as [_ Hp]. rewrite (list_lookup_total_correct _ _ _ Hn) in Hp.
  assert (Hc : canon (o_path (mv o))).
  { pose proof (po_canon _ (ci_paths _ _ _ Hi)) as Hc. rewrite Forall_forall in Hc. apply (Hc (mv o)).
    apply elem_of_app. right. apply elem_of_app. left. by left. }
  split; [|done]. rewrite mv_path, decide_True in Hc |- * by done. unfold moved_path, moved in *. rewrite !canon_len, Hp, Nat2Z.id by done.
  f_equal. apply take_ge. pose proof (canon_length _ Hc) as Hl. rewrite length_app in Hl. unfold OV_PATH_MAX, OV_SNAP_PATH. lia.
Qed.

Lemma free_count_cons g g' o l : struct g l -> struct g' (o :: l) ->
  ov_free_count g' = ov_free_count g - blocks (content_of (o_entry o)).
Proof.
  intros Hg Hg'. rewrite (free_count_spec _ _ Hg), (free_count_spec _ _ Hg'), chains_cons, length_app.
  pose proof (chain_blocks _ _ o Hg' ltac:(by left)). lia.
Qed.

Lemma copy_step s copies todo o : copy_inv s copies (o :: todo) ->
  exists s' c, copy_one s (is_Dir (o_entry o)) oldp newp (o_head o) = Some (OV_OK, s') /\ same_rest s s' /\
    o_pair c = o_pair (mv o) /\ copy_inv s' (c :: copies) todo.
Proof.
  intros Hi. pose proof (ci_todo _ _ _ Hi) as Ht. apply Forall_cons in Ht as [(Ho & Hsub & _) _].
  pose proof (ci_struct _ _ _ Hi) as Hs. assert (Hin : o ∈ copies ++ objs) by (apply elem_of_app; by right).
  destruct (obj_head_node _ _ _ Hs Hin) as (n & c & Hn & _ & Hh & _). pose proof (list_lookup_total_correct _ _ _ Hn) as En.
  assert (Esub : in_subtree oldp n = true) by (rewrite <- En, (in_subtree_obj oldp Hold _ _ o Hs Hin); by apply bool_decide_eq_true_2).
  destruct (target_path s copies todo o n Hi Hn) as (Etgt & Hc & Hpath).
  assert (Hroom : blocks (content_of (o_entry o)) <= ov_free_count (g_ov s)).
  { pose proof (ci_room _ _ _ Hi) as Hr. unfold need, sumZ in Hr. cbn [map foldr] in Hr.
    pose proof (need_nonneg todo) as Hz. unfold need, sumZ in Hz. lia. }
  unfold copy_one. rewrite En, Esub, Etgt. destruct Hh as (_ & Hd & _). rewrite Hd.
  destruct (o_entry o) as [|b] eqn:Ee; cbn [is_Dir b2z content_of] in *.
  - change (c_true 1) with true. cbn [negb orb Bool.eqb]. destruct (alloc_some (g_ov s)) as (k & x & Hk & Hx & _); [vm_compute (blocks []) in Hroom; lia|].
    rewrite Hk, (list_lookup_total_correct _ _ _ Hx). pose proof (canon_length _ Hc).
    assert (Hs' : struct (<[k := dir_node x (o_path (mv o))]> (g_ov s)) (mk_obj (o_path (mv o)) Dir [k] :: copies ++ objs)).
    { apply struct_add_dir; [done|done| |by apply canon_no_nul|lia]. eapply shape_lookup; [apply Hs|done]. }
    eexists _, (mk_obj (o_path (mv o)) Dir [k]). split; [reflexivity|]. split; [done|].
    assert (Hpair : o_pair (mk_obj (o_path (mv o)) Dir [k]) = o_pair (mv o)) by (unfold o_pair; cbn; by rewrite mv_entry, Ee).
    split; [done|]. eapply inv_next; [exact Hi|done|exact Hs'|done|apply Hi|]. cbn [g_ov with_nodes].
    rewrite (free_count_cons _ _ _ _ Hs Hs'), Ee. done.
  - change (c_true 0) with false. cbn [negb orb Bool.eqb]. pose proof (inv_paths _ _ _ Hi) as Hpo.
    pose proof (ci_sizes _ _ _ Hi) as Hsz. rewrite Forall_forall in Hsz. specialize (Hsz o Ho). rewrite Ee in Hsz. cbn [content_of] in Hsz.
    assert (Hmax : overlay_file_max (g_ov_ext_lba s) <= 65536) by (unfold overlay_file_max; destruct (c_true _); vm_compute; discriminate).
    assert (Hmax0 : 0 < overlay_file_max (g_ov_ext_lba s)) by (unfold overlay_file_max; destruct (c_true _); by vm_compute).
    pose proof (ci_tmp _ _ _ Hi) as Htmp. unfold overlay_read.
    rewrite (read_spec _ (copies ++ objs)) by (done || lia). rewrite norm_cstr, Hpath.
    assert (Hco : canon (o_path o)) by (pose proof (po_canon _ Hpo) as Hx; rewrite Forall_forall in Hx; by apply Hx).
    rewrite Hco, (proj2 (tree_of_Some _ _ (File b) Hpo)) by eauto. cbn zeta. change (Z.to_nat 0) with 0%nat.
    rewrite drop_0, (take_ge b) by (unfold blen in *; lia). rewrite some_bind. cbn [default from_option id].
    rewrite (proj2 (Z.ltb_ge (blen b) 0)) by (unfold blen; lia). cbn [g_ov with_tmp g_ov_tmp].
    assert (Hov : blen (overwrite (g_ov_tmp s) b) = 65536) by (rewrite overwrite_blen; lia).
    assert (Htk : take (Z.to_nat (blen b)) (overwrite (g_ov_tmp s) b) = b).
    { unfold overwrite, blen. rewrite Nat2Z.id. apply take_app_length. }
    destruct (build_named (g_ov s) (copies ++ objs) (o_path (mv o)) (overwrite (g_ov_tmp s) b) (blen b) Hs Hc) as (x & g' & -> & Hs' & Hx);
      [unfold blen in *; lia|lia|by rewrite Htk|]. rewrite Htk in Hx. rewrite some_bind.
    eexists _, x. split; [reflexivity|]. split; [done|].
    assert (Hpair : o_pair x = o_pair (mv o)) by (rewrite Hx; unfold o_pair; by rewrite mv_entry, Ee). split; [done|].
    eapply inv_next; [exact Hi|done|exact Hs'|done|done|]. cbn [g_ov with_nodes with_tmp].
    rewrite (free_count_cons _ _ _ _ Hs Hs'). rewrite Ee. by injection Hx as _ ->.
Qed.

(** The objects a pass over the nodes [ids] copies, in its order. *)
Definition turn (dirs : bool) (i : nat) (o : obj) : Prop := o_head o = i /\ sub o /\ is_Dir (o_entry o) = dirs.
#[local] Instance turn_dec dirs i o : Decision (turn dirs i o).
Proof. unfold turn. apply _. Defined.
Definition sel (dirs : bool) (ids : list nat) : list obj := concat (map (fun i => filter (turn dirs i) objs) ids).

Lemma filter_none (P : obj -> Prop) `{!forall x, Decision (P x)} l : (forall x, x ∈ l -> ~ P x) -> filter P l = [].
Proof.
  intros Hn. induction l as [|x l IH]; [done|]. rewrite filter_cons, decide_False by (apply Hn; by left).
  apply IH. intros y Hy. apply Hn. by right.
Qed.

Lemma filter_one (P : obj -> Prop) `{!forall x, Decision (P x)} l o :
  NoDup (map o_head l) -> o ∈ l -> P o -> (forall x, P x -> o_head x = o_head o) -> filter P l = [o].
Proof.
  intros Hn Ho HP Hx. induction l as [|x l IH]; [by apply elem_of_nil in Ho|]. cbn in Hn. apply NoDup_cons in Hn as [Hni Hn].
  rewrite filter_cons. apply elem_of_cons in Ho as [<-|Ho].
  - rewrite decide_True by done. f_equal. apply filter_none. intros y Hy HPy. apply Hni. rewrite <- (Hx y HPy). by apply list_elem_of_fmap_2.
  - rewrite decide_False; [by apply IH|]. intros HPx. apply Hni. rewrite (Hx x HPx). by apply list_elem_of_fmap_2.
Qed.

Lemma objs_heads s copies todo : copy_inv s copies todo -> NoDup (map o_head objs).
Proof.
  intros Hi. pose proof (o_heads_nodup _ _ (ci_struct _ _ _ Hi)) as Hn. rewrite map_app in Hn. by apply NoDup_app in Hn as (_ & _ & ?).
Qed.

(** A round that has nothing to copy. *)
Lemma copy_skip s copies todo dirs i : copy_inv s copies todo -> (i < 288)%nat -> (forall o, o ∈ objs -> ~ turn dirs i o) ->
  copy_one s dirs oldp newp i = Some (OV_OK, s).
Proof.
  intros Hi Hlt Hno. pose proof (ci_struct _ _ _ Hi) as Hs. unfold copy_one.
  destruct (in_subtree oldp (g_ov s !!! i)) eqn:E; [|done]. destruct (Bool.eqb dirs (c_true (ov_is_dir (g_ov s !!! i)))) eqn:Ed; [|done].
  exfalso. apply eqb_prop in Ed. pose proof E as Eh. unfold in_subtree in Eh. apply andb_true_iff in Eh as [Eh _].
  destruct (lookup_lt_is_Some_2 (g_ov s) i ltac:(rewrite (st_len _ _ Hs); lia)) as [n Hn].
  rewrite (list_lookup_total_correct _ _ _ Hn) in *. apply (heads_are_objs _ _ _ _ Hs Hn) in Eh as (o & Ho & <-).
  rewrite <- (list_lookup_total_correct _ _ _ Hn), (in_subtree_obj oldp Hold _ _ o Hs Ho) in E. apply bool_decide_eq_true in E.
  apply elem_of_app in Ho as [Hcp|Ho].
  - pose proof (ci_out _ _ _ Hi) as Hout. rewrite Forall_forall in Hout. by apply (Hout o).
  - apply (Hno o Ho). split; [done|]. split; [done|].
    destruct (obj_head_node _ _ o Hs ltac:(apply elem_of_app; by right)) as (n' & c & Hn' & _ & (_ & Hd & _) & _).
    rewrite Hn in Hn'. injection Hn' as <-. rewrite Hd in Ed. by destruct (o_entry o).
Qed.

Lemma copy_pass s copies dirs ids more : Forall (fun i => (i < 288)%nat) ids -> copy_inv s copies (sel dirs ids ++ more) ->
  exists s' made, copy_loop s dirs oldp newp ids = Some (OV_OK, s') /\ same_rest s s' /\
    map o_pair made ≡ₚ map o_pair (map mv (sel dirs ids)) /\ copy_inv s' (made ++ copies) more.
Proof.
  revert s copies. induction ids as [|i ids IH]; intros s copies Hlt Hi.
  { exists s, []. done. }
  apply Forall_cons in Hlt as [Hlt Hlt']. unfold sel in Hi |- *. cbn [map concat] in Hi |- *. fold (sel dirs ids) in Hi |- *. cbn [copy_loop].
  destruct (decide (Exists (turn dirs i) objs)) as [(o & Ho & Ht)%Exists_exists|Hno].
  - assert (Ef : filter (turn dirs i) objs = [o]).
    { apply filter_one; [by eapply objs_heads|done|done|]. intros x [Hx _]. destruct Ht as [Ht _]. congruence. }
    rewrite Ef in Hi |- *. cbn [app] in Hi |- *. destruct Ht as (<- & Hsub & <-).
    destruct (copy_step s copies _ o Hi) as (s1 & c & -> & Hr1 & Hc & Hi1). rewrite some_bind. cbn [Z.eqb negb OV_OK].
    destruct (IH s1 (c :: copies) Hlt' Hi1) as (s2 & made & Hrun & Hr2 & Hm & Hi2).
    exists s2, (made ++ [c]). rewrite <- app_assoc. split; [exact Hrun|].
    split; [destruct Hr1, Hr2; split; congruence|]. split; [|done]. rewrite map_app. cbn [map]. rewrite Hc, Hm. symmetry. apply Permutation_cons_append.
  - assert (Hnone : forall o, o ∈ objs -> ~ turn dirs i o) by (intros o Ho Ht; apply Hno, Exists_exists; eauto).
    rewrite (filter_none (turn dirs i) objs Hnone) in Hi |- *. rewrite (copy_skip s copies _ dirs i Hi Hlt Hnone). rewrite some_bind. cbn [Z.eqb negb OV_OK app] in *. by apply IH.
Qed.

(** A pass over all nodes copies every object of its kind in the subtree. *)
Definition chosen (dirs : bool) (o : obj) : Prop := sub o /\ is_Dir (o_entry o) = dirs.
#[local] Instance chosen_dec dirs o : Decision (chosen dirs o).
Proof. unfold chosen. apply _. Defined.

Lemma turn_once dirs o ids : NoDup ids -> o_head o ∈ ids ->
  concat (map (fun i => if decide (turn dirs i o) then [o] else []) ids) = if decide (chosen dirs o) then [o] else [].
Proof.
  intros Hn. induction Hn as [|i ids Hi Hn IH]; intros Ho; [by apply elem_of_nil in Ho|]. cbn [map concat].
  assert (Hrest : o_head o ∉ ids -> concat (map (fun i => if decide (turn dirs i o) then [o] else []) ids) = []).
  { clear. intros Hno. induction ids as [|j ids IH]; [done|]. cbn. rewrite decide_False by (intros [<- _]; apply Hno; by left).
    apply IH. intros Hx. apply Hno. by right. }
  destruct (decide (o_head o = i)) as [<-|Hne].
  - rewrite Hrest, app_nil_r by done. destruct (decide (chosen dirs o)) as [Hc|Hc]; [by rewrite decide_True|].
    rewrite decide_False; [done|]. by intros [_ ?].
  - rewrite decide_False by (by intros [? _]). apply IH. by apply elem_of_cons in Ho as [|].
Qed.

Lemma concat_map_app {A B} (f h : A -> list B) l : concat (map (fun x => f x ++ h x) l) ≡ₚ concat (map f l) ++ concat (map h l).
Proof.
  induction l as [|x l IH]; [done|]. cbn. rewrite IH, <- !app_assoc. apply Permutation_app_head. rewrite !app_assoc.
  apply Permutation_app_tail, Permutation_app_comm.
Qed.

Lemma sel_spec dirs ids (l : list obj) : NoDup ids -> Forall (fun o => o_head o ∈ ids) l ->
  concat (map (fun i => filter (turn dirs i) l) ids) ≡ₚ filter (chosen dirs) l.
Proof.
  intros Hn. induction 1 as [|o l Ho _ IH].
  { rewrite filter_nil. clear. induction ids as [|i ids IH]; [done|]. cbn [map concat]. by rewrite filter_nil. }
  rewrite (filter_cons (chosen dirs)). rewrite (map_ext _ (fun i => (if decide (turn dirs i o) then [o] else []) ++ filter (turn dirs i) l)).
  - rewrite concat_map_app, turn_once, IH by done. by destruct (decide (chosen dirs o)).
  - intros i. rewrite filter_cons. by destruct (decide (turn dirs i o)).
Qed.

Lemma sel_all dirs g : struct g objs -> sel dirs (seq 0 288) ≡ₚ filter (chosen dirs) objs.
Proof.
  intros Hs. apply sel_spec; [apply NoDup_seq|]. apply Forall_forall. intros o Ho.
  destruct (obj_head_node _ _ _ Hs Ho) as (n & c & Hn & _). apply elem_of_seq. apply lookup_lt_Some in Hn. rewrite (st_len _ _ Hs) in Hn. lia.
Qed.

Lemma chosen_split (l : list obj) : filter (chosen true) l ++ filter (chosen false) l ≡ₚ filter sub l.
Proof.
  induction l as [|o l IH]; [done|]. rewrite !filter_cons. destruct (decide (sub o)) as [Hs|Hs].
  - destruct (is_Dir (o_entry o)) eqn:E.
    + rewrite decide_True by (by split). rewrite (decide_False (P := chosen false o)) by (intros [_ ?]; congruence). cbn. by rewrite IH.
    + rewrite (decide_False (P := chosen true o)) by (intros [_ ?]; congruence). rewrite decide_True by (by split).
      rewrite <- Permutation_middle. by rewrite IH.
  - rewrite !decide_False by (by intros [? _]). done.
Qed.
End Loops.

(** ** The call *)
Section Copy.
Context {D : Type} `{OverlayDisk D} `{InitrdLaws}.
Implicit Types (s : overlay_t D) (m : tree).

Lemma copy_nodes_spec g objs oldp : struct g objs -> canon oldp -> copy_nodes g oldp = need (filter (in_sub oldp) objs).
Proof.
  intros Hs Ho. unfold copy_nodes. rewrite fold_u32_sum by (unfold is_u32; lia). rewrite Z.add_0_l.
  fold (ids (in_subtree oldp) g). rewrite (subtree_sum oldp Ho g objs _ Hs).
  assert (E : map (fun o => if c_true (ov_is_dir (g !!! o_head o)) then 1 else ov_chain_len g (o_head o)) (filter (in_sub oldp) objs)
    = map (fun o => blocks (content_of (o_entry o))) (filter (in_sub oldp) objs)).
  { apply map_ext_in. intros o [_ Hin]%list_elem_of_In%list_elem_of_filter.
    destruct (obj_head_node _ _ _ Hs Hin) as (n & c & Hn & _ & (_ & Hd & _) & _). rewrite (list_lookup_total_correct _ _ _ Hn), Hd.
    rewrite (chain_len_spec _ _ _ Hs Hin), (chain_blocks _ _ _ Hs Hin). by destruct (o_entry o). }
  rewrite E. unfold need. apply u32_id. pose proof (objs_bound _ _ Hs) as [_ Hb].
  assert (Hle : sumZ (map (fun o => blocks (content_of (o_entry o))) (filter (in_sub oldp) objs)) <= Z.of_nat (length (chains objs))).
  { clear -Hs. assert (Hsub : objs ⊆ objs) by done. revert Hsub. generalize objs at 1 3 4 as l. intros l. induction l as [|o l IH]; intros Hsub; [done|].
    rewrite filter_cons, chains_cons, length_app. pose proof (chain_blocks _ _ o Hs (Hsub o ltac:(by left))) as Hc.
    specialize (IH ltac:(intros x Hx; apply Hsub; by right)). destruct (decide (in_sub oldp o)); cbn [map]; unfold sumZ in *; cbn [foldr]; lia. }
  pose proof (need_nonneg (filter (in_sub oldp) objs)) as Hnn. unfold need in Hnn. unfold is_u32. lia.
Qed.

Lemma copy_bytes_spec g objs oldp newp : struct g objs -> canon oldp -> canon newp ->
  Forall (fun o => canon (o_path (mv_obj oldp newp o))) (filter (in_sub oldp) objs) ->
  copy_bytes_needed g oldp newp = tree_bytes (map (mv_obj oldp newp) (filter (in_sub oldp) objs)) /\
  0 <= tree_bytes (map (mv_obj oldp newp) (filter (in_sub oldp) objs)) <= 172800000.
Proof.
  intros Hs Ho Hn Hc. rewrite Forall_forall in Hc.
  assert (Hr : 0 <= tree_bytes (map (mv_obj oldp newp) (filter (in_sub oldp) objs)) <= 172800000).
  { unfold tree_bytes. pose proof (sumZ_bound (map obj_bytes (map (mv_obj oldp newp) (filter (in_sub oldp) objs))) 600000 ltac:(lia)) as Hb.
    rewrite !length_map in Hb. pose proof (length_filter (in_sub oldp) objs). pose proof (objs_bound _ _ Hs).
    assert (HF : Forall (fun x => 0 <= x <= 600000) (map obj_bytes (map (mv_obj oldp newp) (filter (in_sub oldp) objs)))); [|specialize (Hb HF); lia].
    apply Forall_forall. intros x (o' & -> & (o & -> & [Hsub Hin]%list_elem_of_filter)%list_elem_of_fmap)%list_elem_of_fmap.
    pose proof (canon_length _ (Hc o ltac:(by apply list_elem_of_filter))) as Hl. pose proof (obj_content_length _ _ _ Hs Hin) as Hcl.
    unfold obj_bytes. rewrite mv_entry. destruct (o_entry o) as [|b]; cbn in Hcl; [lia|]. pose proof (blocks_range b). unfold blen in *. lia. }
  split; [|done]. unfold copy_bytes_needed. rewrite fold_u32_sum by (unfold is_u32; lia). rewrite Z.add_0_l, filter_ids, map_map.
  rewrite (subtree_sum oldp Ho g objs _ Hs). rewrite <- (u32_id (tree_bytes _)) by (unfold is_u32; lia). f_equal.
  unfold tree_bytes. rewrite map_map. f_equal. apply map_ext_in. intros o Hin'%list_elem_of_In.
  pose proof (canon_length _ (Hc o Hin')) as Hl. apply list_elem_of_filter in Hin' as [Hsub Hin].
  destruct (obj_head_node _ _ _ Hs Hin) as (n & c & Hnn & _ & (_ & Hd & _ & _ & Hp & Hm) & _). rewrite (list_lookup_total_correct _ _ _ Hnn), Hd.
  rewrite mv_path, decide_True in Hl by done. unfold obj_bytes. rewrite mv_entry, mv_path, decide_True by done.
  pose proof (obj_content_length _ _ _ Hs Hin) as Hcl. rewrite moved_length in Hl |- * by done.
  assert (El : ov_len (ov_path n) = Z.of_nat (length (o_path o))) by (unfold ov_len; by rewrite Hp).
  rewrite El, !canon_len by done. destruct (o_entry o) as [|b]; cbn [is_Dir b2z content_of] in *.
  - change (c_true 1) with true. unfold OV_SNAP_REC_HDR. lia.
  - change (c_true 0) with false. cbn iota. destruct Hm as (-> & _ & _).
    rewrite <- (Z2Nat.id (Z.of_nat (length newp) + (Z.of_nat (length (o_path o)) - Z.of_nat (length oldp)))) by
      (destruct Hsub as [->|[r ->]]; rewrite ?length_app; lia).
    rewrite file_bytes_spec by lia. lia.
Qed.

Lemma copied_tree ext objs oldp newp : paths_ok objs -> fs_ok ext (tree_of objs) ->
  canon oldp -> canon newp -> newp <> [46] -> newp <> [] -> fs_guard (tree_of objs) oldp newp = 0 -> oldp <> newp ->
  let S := filter (in_sub oldp) objs in
  paths_ok (map (mv_obj oldp newp) S ++ objs) /\
  tree_of (map (mv_obj oldp newp) S ++ objs) = tree_of objs ∪ transplant (tree_of objs) oldp newp /\
  Forall (fun o => o ∈ objs /\ in_sub oldp o /\ ~ in_sub oldp (mv_obj oldp newp o)) S.
Proof.
  intros Hp Hf Ho Hn Hdot Hne Hg Hd S. set (m := tree_of objs) in *.
  assert (Hin : forall o, o ∈ objs -> m !! o_path o = Some (o_entry o)) by (intros o Hx; apply tree_of_Some; eauto).
  assert (Htgt := moved_target ext m oldp newp Hf Hn Hdot Hne Hg Hd).
  assert (HS : forall o, o ∈ S -> o ∈ objs /\ in_sub oldp o /\ o_path (mv_obj oldp newp o) = moved oldp newp (o_path o)).
  { intros o [Hs Hx]%list_elem_of_filter. split; [done|]. split; [done|]. by rewrite mv_path, decide_True. }
  assert (Hp' : paths_ok (map (mv_obj oldp newp) S ++ objs)).
  { split.
    - rewrite map_app, map_map. apply NoDup_app. split; [|split; [|apply Hp]].
      + assert (HnS : NoDup (map o_path S)).
        { eapply sublist_NoDup; [apply Hp|]. apply fmap_sublist, sublist_filter. }
        assert (E : map (fun x => o_path (mv_obj oldp newp x)) S = map (moved oldp newp) (map o_path S)).
        { rewrite map_map. apply map_ext_in. intros o Hx%list_elem_of_In. by apply HS. }
        rewrite E. apply NoDup_fmap_2_strong; [|done].
        intros p q (o1 & -> & (_ & Hs1 & _)%HS)%list_elem_of_fmap (o2 & -> & (_ & Hs2 & _)%HS)%list_elem_of_fmap. by apply moved_inj.
      + intros p (o & -> & (Hx & Hs & ->)%HS)%list_elem_of_fmap (o2 & E & Ho2)%list_elem_of_fmap.
        destruct (Htgt _ _ (Hin _ Hx) Hs) as (_ & _ & Hnone & _). rewrite E, (Hin _ Ho2) in Hnone. done.
    - apply Forall_app. split; [|apply Hp]. apply Forall_forall. intros x (o & -> & (Hx & Hs & ->)%HS)%list_elem_of_fmap.
      destruct (Htgt _ _ (Hin _ Hx) Hs) as (? & ? & _). done. }
  split; [done|]. split.
  - apply map_eq. intros p. apply option_eq. intros e.
    rewrite (tree_of_Some _ p e Hp'), (copied_Some ext m oldp newp Hf Hn Hdot Hne Hg Hd p e). split.
    + intros (x & [(o & -> & (Hx & Hs & E)%HS)%list_elem_of_fmap|Hx]%elem_of_app & <- & <-); [right|left; by apply Hin].
      exists (o_path o). rewrite E, mv_entry. auto.
    + intros [Hq|(q & Hq & Hu & <-)]; apply tree_of_Some in Hq as (o & Hx & <- & <-); try done.
      * exists o. split; [apply elem_of_app; by right|done].
      * exists (mv_obj oldp newp o). split; [|by rewrite mv_path, mv_entry, decide_True].
        apply elem_of_app. left. apply list_elem_of_fmap_2, list_elem_of_filter. done.
  - apply Forall_forall. intros o (Hx & Hs & E)%HS. split; [done|]. split; [done|]. unfold in_sub. rewrite E.
    by destruct (Htgt _ _ (Hin _ Hx) Hs) as (_ & _ & _ & ?).
Qed.

Lemma need_perm l1 l2 : l1 ≡ₚ l2 -> need l1 = need l2.
Proof. intros Hp. unfold need. by rewrite Hp. Qed.

(** Both passes. *)
Lemma copy_passes s objs oldp newp : struct (g_ov s) objs -> canon oldp -> canon newp -> oldp <> [] ->
  let S := filter (in_sub oldp) objs in
  paths_ok (map (mv_obj oldp newp) S ++ objs) -> Forall (fun o => o ∈ objs /\ in_sub oldp o /\ ~ in_sub oldp (mv_obj oldp newp o)) S ->
  need S <= ov_free_count (g_ov s) ->
  Forall (fun o => blen (content_of (o_entry o)) <= overlay_file_max (g_ov_ext_lba s)) objs -> blen (g_ov_tmp s) = 65536 ->
  exists s1 s2 made, copy_loop s true oldp newp (seq 0 (Z.to_nat OV_MAX_NODES)) = Some (OV_OK, s1) /\
    copy_loop s1 false oldp newp (seq 0 (Z.to_nat OV_MAX_NODES)) = Some (OV_OK, s2) /\ same_rest s s2 /\
    struct (g_ov s2) (made ++ objs) /\ map o_pair made ≡ₚ map o_pair (map (mv_obj oldp newp) S) /\ blen (g_ov_tmp s2) = 65536.
Proof.
  intros Hs Ho Hn Hone S Hp HS Hneed Hsz Htmp. change (Z.to_nat OV_MAX_NODES) with 288%nat.
  assert (Hlt : Forall (fun i => (i < 288)%nat) (seq 0 288)) by (apply Forall_forall; intros i Hi%elem_of_seq; lia).
  assert (Hsel : sel oldp objs true (seq 0 288) ++ sel oldp objs false (seq 0 288) ≡ₚ S).
  { rewrite !(sel_all oldp objs _ (g_ov s) Hs). apply chosen_split. }
  assert (Hi : copy_inv oldp newp objs s [] (sel oldp objs true (seq 0 288) ++ sel oldp objs false (seq 0 288))).
  { split; [done| |constructor|by rewrite Hsel|by rewrite (need_perm _ _ Hsel)|done|done].
    cbn [app]. eapply paths_pairs; [|exact Hp]. by rewrite Hsel. }
  generalize dependent (seq 0 288). intros l Hlt Hsel Hi.
  destruct (copy_pass oldp newp objs Ho Hn s [] true l _ Hlt Hi) as (s1 & made1 & Hrun1 & [He1 Hd1] & Hm1 & Hi1).
  rewrite <- (app_nil_r (sel oldp objs false l)) in Hi1.
  destruct (copy_pass oldp newp objs Ho Hn s1 _ false l [] Hlt Hi1) as (s2 & made2 & Hrun2 & [He2 Hd2] & Hm2 & Hi2).
  exists s1, s2, (made2 ++ made1). split; [done|]. split; [done|]. split; [split; congruence|].
  rewrite app_nil_r in Hi2. split; [apply Hi2|]. split; [|apply Hi2].
  rewrite map_app, Hm1, Hm2, <- !map_app. rewrite <- Hsel. by rewrite (Permutation_app_comm (sel oldp objs false l)).
Qed.

Lemma copied_space g objs oldp newp : struct g objs -> paths_ok (map (mv_obj oldp newp) (filter (in_sub oldp) objs) ++ objs) ->
  paths_ok objs ->
  fs_bytes (tree_of (map (mv_obj oldp newp) (filter (in_sub oldp) objs) ++ objs))
    = tree_bytes objs + tree_bytes (map (mv_obj oldp newp) (filter (in_sub oldp) objs)) /\
  fs_blocks (tree_of (map (mv_obj oldp newp) (filter (in_sub oldp) objs) ++ objs))
    = need (filter (in_sub oldp) objs) + 288 - ov_free_count g.
Proof.
  intros Hs Hp' Hp. split.
  - rewrite fs_bytes_of by done. unfold tree_bytes. rewrite map_app, sumZ_app. lia.
  - unfold fs_blocks. rewrite (tree_list _ Hp'), map_app, map_app, sumZ_app. rewrite (free_count_fs g objs Hs Hp).
    unfold fs_blocks. rewrite (tree_list _ Hp). unfold need. rewrite !map_map.
    rewrite (map_ext (fun x => entry_blocks (o_pair (mv_obj oldp newp x))) (fun o => blocks (content_of (o_entry o)))); [lia|].
    intros o. unfold entry_blocks. cbn. by rewrite mv_entry.
Qed.

Lemma copy_spec s m src dst : refines s m -> move_args (norm src) (norm dst) ->
  implements s (overlay_copy s src dst) (fs_copy (g_ov_ext_lba s) m (norm src) (norm dst)).
Proof.
  intros Hr (Ho & Hn & Hdot & Hroot). pose proof (implements_same s m) as Hsame.
  destruct (refines_parts s m Hr) as (objs & Hs & Hp & Hm & Hf & Hb).
  unfold overlay_copy, fs_copy. generalize dependent (norm src). generalize dependent (norm dst). intros newp Hn Hdot oldp Ho Hroot.
  rewrite !chr0_canon by done. destruct (decide (oldp = [])) as [->|Hone]; [by apply Hsame|].
  destruct (decide (newp = [])) as [->|Hnne]; [rewrite !(bool_decide_eq_true_2 ([] = [])) by done; rewrite orb_true_r; by apply Hsame|].
  rewrite !bool_decide_eq_false_2 by done. cbn [orb]. rewrite ov_eq_spec, !canon_cstr by done.
  destruct (decide (oldp = newp)) as [->|Hd]; [rewrite bool_decide_eq_true_2 by done; by apply Hsame|].
  rewrite bool_decide_eq_false_2 by done. rewrite <- Hm. rewrite <- (move_guard_spec oldp newp Ho Hn (g_ov s) objs Hs Hp).
  pose proof (move_guard_spec oldp newp Ho Hn (g_ov s) objs Hs Hp) as Hg. rewrite Hm in *.
  destruct (move_guard (g_ov s) oldp newp =? 0) eqn:Eg; cbn [negb] in *; [|rewrite Eg; by apply Hsame].
  destruct (moved_too_long (g_ov s) oldp newp); [by apply Hsame|]. cbn [Z.eqb negb].
  rewrite <- Hm in Hf, Hg. pose proof (eq_sym Hg) as Hg'.
  destruct (copied_tree (g_ov_ext_lba s) objs oldp newp Hp Hf Ho Hn Hdot Hnne Hg' Hd) as (Hp' & Ht' & HS).
  set (S := filter (in_sub oldp) objs) in *.
  assert (Hcan : Forall (fun o => canon (o_path (mv_obj oldp newp o))) S).
  { pose proof (po_canon _ Hp') as Hc. apply Forall_app in Hc as [Hc _]. apply Forall_forall. intros o Hx. rewrite Forall_forall in Hc.
    by apply (Hc (mv_obj oldp newp o)), list_elem_of_fmap_2. }
  rewrite (copy_nodes_spec _ objs) by done. fold S. destruct (copy_bytes_spec (g_ov s) objs oldp newp Hs Ho Hn Hcan) as [-> Hbr]. fold S in Hbr |- *.
  rewrite (snapshot_bytes_spec _ objs) by done. destruct (copied_space (g_ov s) objs oldp newp Hs Hp' Hp) as [Hby Hbl]. fold S in Hby, Hbl.
  rewrite <- Hm, <- Ht', Hby, Hbl.
  pose proof (tree_bytes_range _ _ Hs) as Hr1. pose proof (hdr_min (g_ov_ext_lba s)) as Hr2. rewrite u32_id by (unfold is_u32; lia).
  destruct (Z.ltb_spec (ov_free_count (g_ov s)) (need S)) as [Hfull|Hroom].
  { rewrite bool_decide_eq_false_2 by lia. rewrite Hm. by apply Hsame. }
  rewrite bool_decide_eq_true_2 by lia. cbn [andb].
  destruct (Z.ltb_spec (overlay_capacity (g_ov_ext_lba s)) (ov_hdr (g_ov_ext_lba s) + tree_bytes objs + tree_bytes (map (mv_obj oldp newp) S))) as [Hcap|Hcap].
  { rewrite bool_decide_eq_false_2 by lia. rewrite Hm. by apply Hsame. }
  rewrite bool_decide_eq_true_2 by lia.
  assert (Hsz : Forall (fun o => blen (content_of (o_entry o)) <= overlay_file_max (g_ov_ext_lba s)) objs).
  { apply Forall_forall. intros o Hx. apply (fo_entries _ _ Hf (o_path o) (o_entry o)). apply tree_of_Some; eauto. }
  destruct (copy_passes s objs oldp newp Hs Ho Hn Hone Hp' HS Hroom Hsz (proj1 Hb)) as (s1 & s2 & made & -> & Hrun2 & [He Hdb] & Hs2 & Hmade & Htmp).
  rewrite some_bind. cbn [Z.eqb negb OV_OK]. rewrite Hrun2, some_bind. cbn [Z.eqb negb OV_OK].
  assert (Hpairs : map o_pair (map (mv_obj oldp newp) S ++ objs) ≡ₚ map o_pair (made ++ objs)) by by rewrite !map_app, Hmade.
  rewrite (tree_pairs _ _ Hpairs Hp'). assert (E2 : s2 = with_nodes s2 (g_ov s2)) by by destruct s2. rewrite E2.
  destruct (implements_saved s2 (g_ov s2) (made ++ objs) _ OV_OK Hs2 (paths_pairs _ _ Hpairs Hp') eq_refl) as (s3 & Hr3 & Hr3' & He3).
  - rewrite <- (tree_pairs _ _ Hpairs Hp'), Ht', He. apply copied_ok; try done. rewrite <- Ht', Hby. lia.
  - destruct Hb as (_ & Hb2 & Hb3). split; [done|]. rewrite Hdb, He. done.
  - exists s3. split; [done|]. split; [done|congruence].
Qed.
End Copy.
