(* ===== verification/InitrdTar.v ===== *)
(** * The read-only file system of fs/initrd.c

    [initrd_init] walks a TAR archive in memory and fills [files_array]; the other
    functions look paths up in that table.  [mem] is the memory from the address
    [location] on; the data pointer of a file is the memory from its address on.
    The functions that only print are left out. *)

From Stdlib Require Import ZArith Lia.
From stdpp Require Import base numbers option tactics list.
From S2P Require Import Prelude Bytes Names OvState.

Definition INITRD_FILE_MAX : Z := 136.

Record initrd_file_t := mk_ird { if_name : bytes; if_size : Z; if_offset : Z; if_data : ptr bytes }.
Record initrd_t := mk_initrd { it_location : Z; it_size : Z; it_file_count : Z }.
Record initrd_state := mk_is { current_initrd : ptr initrd_t; files_array : list initrd_file_t }.

Definition zero_file : initrd_file_t := mk_ird (replicate 256 0) 0 0 NULL.
#[export] Instance initrd_file_inhabited : Inhabited initrd_file_t := populate zero_file.

(** ** Strings *)

Fixpoint strcmp (s1 s2 : cstring) : Z :=
  match s1 with
  | c :: s1' => if negb (c =? 0) && (c =? chr s2 0) then strcmp s1' (tl s2) else c - chr s2 0
  | [] => 0 - chr s2 0
  end.

(** [strcpy] into an array; [None] is a source without a terminator or a copy past
    the end of the array. *)
Definition strcpy (dest src : bytes) : option bytes :=
  if (length (cstr src) <? length src)%nat then st_bytes dest 0 (cstr src ++ [0]) else None.

(** [while (size-- > 0 && *c >= '0' && *c <= '7')] *)
Fixpoint oct2bin_from (str : bytes) (size : nat) (n : Z) : Z :=
  match size, str with
  | S size, c :: str => if (48 <=? c) && (c <=? 55) then oct2bin_from str size (i32 (i32 (n * 8) + (c - 48))) else n
  | _, _ => n
  end.
Definition oct2bin (str : bytes) (size : Z) : Z := oct2bin_from str (Z.to_nat size) 0.

(** ** The archive *)

(** The checksum field counts as spaces. *)
Definition tar_sum (header : bytes) : Z :=
  fold_left (fun sum i => u32 (sum + (if (148 <=? i) && (i <? 156) then 32 else chr header i))) (seqZ 0 512) 0.

Definition tar_checksum_valid (header : bytes) : bool :=
  tar_sum header =? u32 (oct2bin (drop 148 header) 8).

Definition tar_magic (header : bytes) : bool :=
  (chr header 257 =? 117) && (chr header 258 =? 115) && (chr header 259 =? 116) &&
  (chr header 260 =? 97) && (chr header 261 =? 114).

(** The entry [initrd_init] writes for a regular file at [pos]. *)
Definition file_entry (f : initrd_file_t) (mem : bytes) (location pos file_size : Z) : option initrd_file_t :=
  name ← strcpy (if_name f) (drop (Z.to_nat (pos - location)) mem);
  Some (mk_ird name (u32 file_size) (u32 (pos + 512)) (Some (drop (Z.to_nat (pos + 512 - location)) mem))).

(** One round of the loop of [initrd_init]: the next position and file number, or the
    end of the loop; [inr None] is an access outside the memory or the table. *)
Record walk := mk_walk { w_files : list initrd_file_t; w_pos : Z; w_index : Z }.

Definition parse_round (mem : bytes) (location size : Z) (w : walk) : walk + option (list initrd_file_t * Z) :=
  let skip := inl (mk_walk (w_files w) (u32 (w_pos w + 512)) (w_index w)) in
  if (w_pos w <? u32 (location + size)) && (w_index w <? INITRD_FILE_MAX) then
    match ld mem (w_pos w - location) with
    | None => inr None
    | Some c =>
        if c =? 0 then inr (Some (w_files w, w_index w))
        else match ld_bytes mem (w_pos w - location) 512 with
        | None => inr None
        | Some header =>
            if negb (tar_magic header) then skip
            else if negb (tar_checksum_valid header) then skip
            else if (chr header 156 =? 48) || (chr header 156 =? 0) then
              let file_size := oct2bin (drop 124 header) 11 in
              let data_blocks := u32 (Z.quot (i32 (file_size + 511)) 512) in
              match f ← ld (w_files w) (w_index w); f ← file_entry f mem location (w_pos w) file_size;
                    st (w_files w) (w_index w) f with
              | None => inr None
              | Some files => inl (mk_walk files (u32 (w_pos w + 512 + data_blocks * 512)) (w_index w + 1))
              end
            else skip
        end
    end
  else inr (Some (w_files w, w_index w)).

Fixpoint parse_from (fuel : nat) (mem : bytes) (location size : Z) (w : walk) : option (list initrd_file_t * Z) :=
  match fuel with
  | O => None
  | S fuel =>
      match parse_round mem location size w with
      | inl w => parse_from fuel mem location size w
      | inr r => r
      end
  end.

(** Between two files every round skips one block of the archive. *)
Definition parse_fuel (size : Z) : nat := Z.to_nat ((INITRD_FILE_MAX + 1) * (size / 512 + 2)).

Definition initrd_init (s : initrd_state) (mem : bytes) (location size : Z) : option initrd_state :=
  if negb (c_true location) || negb (c_true size) then Some s
  else
    '(files, file_index) ← parse_from (parse_fuel size) mem location size (mk_walk (files_array s) location 0);
    Some (mk_is (Some (mk_initrd location size file_index)) files).

(** ** Lookups *)

(** The files in use. *)
Definition ird_files (s : initrd_state) : list initrd_file_t :=
  match current_initrd s with
  | NULL => []
  | Some i => take (Z.to_nat (it_file_count i)) (files_array s)
  end.

Definition ird_copy_name (dest : bytes) (src : ptr cstring) (max : Z) : bytes :=
  ov_copy dest (default [] src) max.

Definition ird_normalize (path : ptr cstring) (max : Z) : cstring :=
  match path with
  | NULL => []
  | Some p => strip_slashes (cut (skip_slashes (skip_dot p)) max)
  end.

Definition ird_find (s : initrd_state) (filename : ptr cstring) : ptr initrd_file_t :=
  match filename with
  | NULL => NULL
  | Some _ =>
      let want := ird_normalize filename 256 in
      List.find (fun f => strcmp (ird_normalize (Some (if_name f)) 256) want =? 0) (ird_files s)
  end.

(** Lookups by the exact name after "./". *)
Definition find_exact (s : initrd_state) (filename : cstring) : ptr initrd_file_t :=
  List.find (fun f => strcmp (skip_dot (if_name f)) filename =? 0) (ird_files s).

Definition initrd_read_file (s : initrd_state) (filename : cstring) : ptr bytes := find_exact s filename ≫= if_data.
Definition initrd_get_file_size (s : initrd_state) (filename : cstring) : Z :=
  match find_exact s filename with Some f => if_size f | NULL => 0 end.
Definition initrd_file_exists (s : initrd_state) (filename : cstring) : bool :=
  bool_decide (is_Some (initrd_read_file s filename)).
Definition initrd_get_file_count (s : initrd_state) : Z :=
  match current_initrd s with NULL => 0 | Some i => it_file_count i end.

Definition ird_read_into (s : initrd_state) (path : ptr cstring) (buf : ptr bytes) (max : Z) : option (Z * ptr bytes) :=
  match ird_find s path, buf with
  | Some f, Some b =>
      if max =? 0 then Some (-1, buf)
      else
        let n := if max <? if_size f then max else if_size f in
        data ← if_data f;
        data ← ld_bytes data 0 n;
        b ← st_bytes b 0 data;
        Some (i32 n, Some b)
  | _, _ => Some (-1, buf)
  end.

Definition ird_is_file (s : initrd_state) (path : ptr cstring) : bool := bool_decide (is_Some (ird_find s path)).

Definition ird_is_dir (s : initrd_state) (path : ptr cstring) : bool :=
  match current_initrd s, path with
  | Some _, Some _ =>
      let prefix := ird_normalize path 256 in
      if chr prefix 0 =? 0 then true
      else
        let plen := ov_len prefix in
        existsb (fun f =>
          let have := ird_normalize (Some (if_name f)) 256 in
          if strcmp have prefix =? 0 then false
          else starts_with have prefix plen && (chr have plen =? 47)) (ird_files s)
  | _, _ => false
  end.

Definition ird_stat (s : initrd_state) (path : ptr cstring) (out : ptr os_dirent_t) : Z * ptr os_dirent_t :=
  match path, out with
  | Some _, Some o =>
      let want := ird_normalize path 256 in
      if chr want 0 =? 0 then (0, Some (mk_dirent (overwrite (de_name o) [47; 0]) 0 OS_DIRENT_DIR))
      else
        let name := ird_copy_name (de_name o) (Some (base_of want)) OS_NAME_MAX in
        if ird_is_dir s (Some want) then (0, Some (mk_dirent name 0 OS_DIRENT_DIR))
        else match ird_find s (Some want) with
             | NULL => (-1, out)
             | Some f => (0, Some (mk_dirent name (if_size f) OS_DIRENT_FILE))
             end
  | _, _ => (-1, out)
  end.

(** ** Listing *)

(** The characters before the first slash, if there is one. *)
Fixpoint first_slash (rest : cstring) : option nat :=
  match rest with
  | c :: rest => if c =? 0 then None else if c =? 47 then Some 0%nat else S <$> first_slash rest
  | [] => None
  end.

Fixpoint ird_list_loop (todo : list initrd_file_t) (prefix : cstring) (out : list os_dirent_t) (count max_n : Z)
    : option (Z * list os_dirent_t) :=
  match todo with
  | [] => Some (count, out)
  | f :: todo =>
      if max_n <=? count then Some (count, out)
      else
        let have := ird_normalize (Some (if_name f)) 256 in
        let plen := ov_len prefix in
        if negb (plen =? 0) && negb (starts_with have prefix plen && (chr have plen =? 47))
        then ird_list_loop todo prefix out count max_n
        else
          let rest := if plen =? 0 then have else drop (Z.to_nat (plen + 1)) have in
          if chr rest 0 =? 0 then ird_list_loop todo prefix out count max_n
          else match first_slash rest with
          | Some slash =>
              let nlen := if OS_NAME_MAX <=? Z.of_nat slash then OS_NAME_MAX - 1 else Z.of_nat slash in
              let dname := take (Z.to_nat nlen) rest in
              if existsb (fun e => (de_flags e =? OS_DIRENT_DIR) && (strcmp (de_name e) dname =? 0)) (take (Z.to_nat count) out)
              then ird_list_loop todo prefix out count max_n
              else
                d ← ld out count;
                out ← st out count (mk_dirent (ird_copy_name (de_name d) (Some dname) OS_NAME_MAX) 0 OS_DIRENT_DIR);
                ird_list_loop todo prefix out (count + 1) max_n
          | None =>
              d ← ld out count;
              out ← st out count (mk_dirent (ird_copy_name (de_name d) (Some rest) OS_NAME_MAX) (if_size f) OS_DIRENT_FILE);
              ird_list_loop todo prefix out (count + 1) max_n
          end
  end.

Definition initrd_listdir (s : initrd_state) (path : ptr cstring) (out : ptr (list os_dirent_t)) (max_n : Z)
    : option (Z * ptr (list os_dirent_t)) :=
  match current_initrd s, out with
  | Some _, Some o =>
      if max_n <=? 0 then Some (-1, out)
      else
        let prefix := ird_normalize (Some (default [47] path)) 256 in
        '(count, o) ← ird_list_loop (ird_files s) prefix o 0 max_n; Some (count, Some o)
  | _, _ => Some (-1, out)
  end.

(** [initrd_page_entries] is the static array the page is cut from. *)
Definition initrd_listdir_page (s : initrd_state) (initrd_page_entries : list os_dirent_t) (path : ptr cstring)
    (out : ptr (list os_dirent_t)) (start max_n : Z) : option (Z * ptr (list os_dirent_t)) :=
  match out with
  | NULL => Some (-1, out)
  | Some o =>
      if max_n <=? 0 then Some (-1, out)
      else
        '(total, entries) ← initrd_listdir s path (Some initrd_page_entries) INITRD_FILE_MAX;
        if total <? 0 then Some (total, out)
        else if total <=? start then Some (0, out)
        else
          let emitted := Z.min (total - start) max_n in
          page ← (if start + emitted <=? Z.of_nat (length (default [] entries))
                  then Some (take (Z.to_nat emitted) (drop (Z.to_nat start) (default [] entries))) else None);
          if Z.of_nat (length page) <=? Z.of_nat (length o)
          then Some (emitted, Some (page ++ drop (length page) o)) else None
  end.
