(* ===== verification/TarWalk.v ===== *)
(** * The TAR archive of the initrd

    [initrd_init] stops on every archive and finds exactly the files of a well-formed
    one. *)

From Stdlib Require Import ZArith Lia.
From stdpp Require Import base numbers option tactics list.
From S2P Require Import Prelude Bytes Names NetBuf NetSum OvState OvPaths InitrdTar InitrdInv.

(** ** Termination *)

(** The loop from [w] ends after [n] rounds with the result [r]. *)
Inductive rounds (mem : bytes) (location size : Z) : nat -> walk -> option (list initrd_file_t * Z) -> Prop :=
| rounds_end w r : parse_round mem location size w = inr r -> rounds mem location size 1 w r
| rounds_next n w w' r : parse_round mem location size w = inl w' -> rounds mem location size n w' r ->
    rounds mem location size (S n) w r.

Lemma rounds_parse mem location size n w r fuel :
  rounds mem location size n w r -> (n <= fuel)%nat -> parse_from fuel mem location size w = r.
Proof.
  intros Hr. revert fuel. induction Hr as [w r Hw|n w w' r Hw _ IH]; intros [|fuel] Hf; try lia; cbn [parse_from]; rewrite Hw; [done|].
  apply IH. lia.
Qed.

(** A round that goes on moves to the next block or to the next file. *)
Lemma round_moves mem location size w w' : parse_round mem location size w = inl w' ->
  w_pos w < u32 (location + size) /\ w_index w < INITRD_FILE_MAX /\ location <= w_pos w /\
  (w_index w' = w_index w + 1 \/ (w_index w' = w_index w /\ w_pos w' = u32 (w_pos w + 512))).
Proof.
  unfold parse_round. destruct (Z.ltb_spec (w_pos w) (u32 (location + size))) as [Hp|]; [|done].
  destruct (Z.ltb_spec (w_index w) INITRD_FILE_MAX) as [Hi|]; [|done]. cbn [andb].
  destruct (ld mem (w_pos w - location)) as [c|] eqn:El; [|done].
  assert (Hl : location <= w_pos w) by (unfold ld in El; destruct (Z.leb_spec 0 (w_pos w - location)); [lia|done]).
  destruct (c =? 0); [done|]. destruct (ld_bytes _ _ _) as [h|]; [|done].
  intros Hw. split; [done|]. split; [done|]. split; [done|]. revert Hw.
  repeat case_match; intros [= <-]; cbn; auto.
Qed.

Section Termination.
Context (mem : bytes) (location size : Z) (Hs : 0 <= size) (Hl : 0 <= location) (Hend : location + size <= 4294966784).

(** Rounds that are left: the blocks of the archive once for each file to come. *)
Definition blocks_left (pos : Z) : Z :=
  if (location <=? pos) && (pos <? location + size) then (location + size - pos + 511) / 512 else 0.
Definition left_over (w : walk) : Z := (INITRD_FILE_MAX - w_index w) * (size / 512 + 2) + blocks_left (w_pos w).

Lemma blocks_left_bound pos : 0 <= blocks_left pos <= size / 512 + 1.
Proof.
  unfold blocks_left. destruct (Z.leb_spec location pos), (Z.ltb_spec pos (location + size)); cbn [andb]; zlia.
Qed.

Lemma round_decreases w w' : parse_round mem location size w = inl w' -> 0 <= left_over w' < left_over w.
Proof.
  intros (Hp & Hi & Hpl & Hcase)%round_moves. rewrite u32_id in Hp by (unfold is_u32; lia). unfold left_over.
  pose proof (blocks_left_bound (w_pos w')) as Hb'. pose proof (blocks_left_bound (w_pos w)) as Hb.
  destruct Hcase as [->|[-> Hpos]]; [nia|]. rewrite u32_id in Hpos by (unfold is_u32; lia). split; [nia|].
  enough (blocks_left (w_pos w') < blocks_left (w_pos w)) by lia. rewrite Hpos. unfold blocks_left in *.
  rewrite (proj2 (Z.leb_le location (w_pos w))), (proj2 (Z.ltb_lt (w_pos w) _)) by lia. rewrite (proj2 (Z.leb_le location (w_pos w + 512))) by lia.
  cbn [andb]. destruct (Z.ltb_spec (w_pos w + 512) (location + size)); zlia.
Qed.

Lemma rounds_bound w : 0 <= left_over w -> exists n r, rounds mem location size n w r /\ Z.of_nat n <= left_over w + 1.
Proof.
  remember (Z.to_nat (left_over w)) as k eqn:Ek. revert w Ek. induction (lt_wf k) as [k _ IH]. intros w -> Hw.
  destruct (parse_round mem location size w) as [w'|r] eqn:E; [|exists 1%nat, r; split; [by apply rounds_end|lia]].
  pose proof (round_decreases w w' E) as Hd. destruct (IH (Z.to_nat (left_over w')) ltac:(lia) w' eq_refl ltac:(lia)) as (n & r & Hr & Hn).
  exists (S n), r. split; [by eapply rounds_next|lia].
Qed.

Lemma walk_bound files : exists n r, rounds mem location size n (mk_walk files location 0) r /\ (n <= parse_fuel size)%nat.
Proof.
  pose proof (blocks_left_bound location) as Hb. assert (Hq : 0 <= size / 512) by zlia.
  destruct (rounds_bound (mk_walk files location 0)) as (n & r & Hr & Hn); unfold left_over in *; cbn [w_pos w_index] in *; unfold INITRD_FILE_MAX in *; [lia|].
  exists n, r. split; [done|]. unfold parse_fuel, INITRD_FILE_MAX. lia.
Qed.
End Termination.

(** ** Archives *)

(** A member: its header block and its content. *)
Record tar_member_t := mk_tar { tm_header : bytes; tm_content : bytes }.

Definition tm_name (m : tar_member_t) : cstring := cstr (tm_header m).
Definition is_file (m : tar_member_t) : bool := (chr (tm_header m) 156 =? 48) || (chr (tm_header m) 156 =? 0).

Definition pad (n : nat) (s : bytes) : bytes := s ++ replicate (n - length s) 0.

(** The content, filled up to whole blocks. *)
Definition tar_body (c : bytes) : bytes := pad (512 * Z.to_nat ((blen c + 511) / 512)) c.

Definition tar_member (m : tar_member_t) : bytes := tm_header m ++ tar_body (tm_content m).
Definition tar_archive (ms : list tar_member_t) : bytes := concat (map tar_member ms) ++ replicate 1024 0.

(** [k] octal digits. *)
Fixpoint octal (k : nat) (v : Z) : bytes :=
  match k with O => [] | S k => octal k (v / 8) ++ [48 + v mod 8] end.

(** The checksum of POSIX: the bytes of the header, with spaces in the field itself. *)
Definition zsum (l : list Z) : Z := foldr Z.add 0 l.
Definition posix_sum (h : bytes) : Z := zsum (take 148 h) + 8 * 32 + zsum (drop 156 h).

(** A ustar header: a name shorter than its field, the checksum in six octal digits; mode,
    owner, times, links and device numbers are any bytes. *)
Definition ustar_header (h : bytes) : Prop :=
  blen h = 512 /\ Forall is_u8 h /\ (0 < length (cstr h) < 100)%nat /\
  take 5 (drop 257 h) = [117; 115; 116; 97; 114] /\ take 8 (drop 148 h) = octal 6 (posix_sum h) ++ [0; 32].

(** A file states its size in eleven octal digits; a directory, a link or a device has no
    content. *)
Definition tar_member_ok (m : tar_member_t) : Prop :=
  ustar_header (tm_header m) /\
  if is_file m then take 11 (drop 124 (tm_header m)) = octal 11 (blen (tm_content m)) /\ blen (tm_content m) < 2147483136
  else tm_content m = [].

(** ** Numbers *)
Lemma octal_length k v : length (octal k v) = k.
Proof. revert v. induction k as [|k IH]; intros v; cbn [octal length]; [done|]. rewrite length_app, IH. cbn. lia. Qed.

Lemma octal_digits k v : Forall (fun c => 48 <= c <= 55) (octal k v).
Proof.
  revert v. induction k as [|k IH]; intros v; cbn [octal]; [constructor|]. apply Forall_app. split; [apply IH|].
  constructor; [|constructor]. pose proof (Z.mod_pos_bound v 8). lia.
Qed.

Lemma oct2bin_octal k v rest j acc : 0 <= v < 8 ^ Z.of_nat k -> 0 <= acc -> acc * 8 ^ Z.of_nat k + v < 2147483648 ->
  oct2bin_from (octal k v ++ rest) (k + j) acc = oct2bin_from rest j (acc * 8 ^ Z.of_nat k + v).
Proof.
  revert v rest j acc. induction k as [|k IH]; intros v rest j acc Hv Hacc Hb.
  { change (8 ^ Z.of_nat 0) with 1 in *. cbn [octal app Nat.add]. f_equal. lia. }
  rewrite Nat2Z.inj_succ, Z.pow_succ_r in * by lia. set (p := 8 ^ Z.of_nat k) in *.
  assert (Hp : 0 < p) by (apply Z.pow_pos_nonneg; lia).
  pose proof (Z.div_mod v 8 ltac:(lia)) as Hdm. pose proof (Z.mod_pos_bound v 8 ltac:(lia)) as Hm.
  cbn [octal]. rewrite <- app_assoc. replace (S k + j)%nat with (k + S j)%nat by lia. rewrite IH; [|nia|done|nia].
  fold p. cbn [app oct2bin_from]. rewrite (proj2 (Z.leb_le 48 _)), (proj2 (Z.leb_le _ 55)) by lia. cbn [andb]. f_equal.
  rewrite (i32_id ((acc * p + v / 8) * 8)) by (unfold is_i32; nia). rewrite i32_id by (unfold is_i32; nia). nia.
Qed.

Lemma oct2bin_exact k v rest : 0 <= v < 8 ^ Z.of_nat k -> v < 2147483648 -> oct2bin (octal k v ++ rest) (Z.of_nat k) = v.
Proof.
  intros Hv Hb. unfold oct2bin. rewrite Nat2Z.id. rewrite <- (Nat.add_0_r k) at 2. rewrite oct2bin_octal by lia.
  rewrite Z.mul_0_l, Z.add_0_l. by destruct rest.
Qed.

Lemma oct2bin_stop k v rest j : 0 <= v < 8 ^ Z.of_nat k -> v < 2147483648 -> oct2bin (octal k v ++ 0 :: rest) (Z.of_nat (k + S j)) = v.
Proof. intros Hv Hb. unfold oct2bin. rewrite Nat2Z.id, oct2bin_octal by lia. cbn [oct2bin_from]. cbn. lia. Qed.

(** ** Headers *)
Lemma chr_take (h pre : bytes) off n i : take n (drop off h) = pre -> 0 <= i -> (Z.to_nat i < length pre)%nat -> chr h (Z.of_nat off + i) = chr pre i.
Proof.
  intros <- Hi Hl. unfold chr. rewrite length_take in Hl. rewrite lookup_take_lt, lookup_drop by lia. do 2 f_equal. lia.
Qed.

Lemma pad_length n s : (length s <= n)%nat -> length (pad n s) = n.
Proof. intros Hl. unfold pad. rewrite length_app, length_replicate. lia. Qed.

Lemma chr_u8 s i : Forall is_u8 s -> 0 <= chr s i <= 255.
Proof.
  intros Hs. unfold chr. destruct (s !! Z.to_nat i) as [c|] eqn:E; cbn; [|lia]. rewrite Forall_lookup in Hs. specialize (Hs _ _ E). unfold is_u8 in Hs. lia.
Qed.

Lemma zsum_app l k : zsum (l ++ k) = zsum l + zsum k.
Proof. unfold zsum. induction l as [|x l IH]; cbn [app foldr]; lia. Qed.

Lemma zsum_bound l : Forall (fun x => 0 <= x <= 255) l -> 0 <= zsum l <= 255 * Z.of_nat (length l).
Proof. unfold zsum. induction 1 as [|x l Hx _ IH]; cbn [foldr length]; lia. Qed.

(** A 32-bit sum of bytes that does not overflow. *)
Lemma fold_zsum (f : Z -> Z) l : forall k, 0 <= k -> Forall (fun i => 0 <= f i <= 255) l -> k + 255 * Z.of_nat (length l) < 4294967296 ->
  fold_left (fun sum i => u32 (sum + f i)) l k = k + zsum (map f l).
Proof.
  induction l as [|i l IH]; intros k Hk Hl Hb; cbn [fold_left map length] in *; [unfold zsum; cbn; lia|]. apply Forall_cons in Hl as [Hi Hl].
  rewrite u32_id by (unfold is_u32; lia). rewrite IH by (done || lia). unfold zsum. cbn [foldr]. lia.
Qed.

Lemma map_chr (f : Z -> Z) (h : bytes) a n : 0 <= a -> 0 <= n -> a + n <= blen h -> (forall i, a <= i < a + n -> f i = chr h i) ->
  map f (seqZ a n) = take (Z.to_nat n) (drop (Z.to_nat a) h).
Proof.
  intros Ha Hn Hl Hf. apply list_eq. intros j. destruct (decide (j < Z.to_nat n)%nat) as [Hj|Hj].
  - rewrite list_lookup_fmap, lookup_seqZ_lt by lia. cbn. rewrite lookup_take_lt, lookup_drop by lia. rewrite Hf by lia. unfold chr.
    replace (Z.to_nat (a + Z.of_nat j)) with (Z.to_nat a + j)%nat by lia. destruct (h !! (Z.to_nat a + j)%nat) eqn:E; [done|].
    apply lookup_ge_None in E. unfold blen in Hl. lia.
  - rewrite !lookup_ge_None_2; [done|rewrite length_take; lia|rewrite length_map, length_seqZ; lia].
Qed.

Lemma tar_sum_posix h : blen h = 512 -> Forall is_u8 h -> tar_sum h = posix_sum h /\ 0 <= posix_sum h < 262144.
Proof.
  intros Hl Hu. set (f := fun i => if (148 <=? i) && (i <? 156) then 32 else chr h i).
  assert (Hf : forall i, 0 <= f i <= 255) by (intros i; unfold f; destruct (_ && _); [lia|by apply chr_u8]).
  assert (E : zsum (map f (seqZ 0 512)) = posix_sum h).
  { change 512 with (148 + (8 + 356)) at 1. rewrite !seqZ_app, !map_app, !zsum_app by lia. rewrite (map_chr f h 0 148); [|lia..|].
    2:{ intros i Hi. unfold f. by rewrite (proj2 (Z.leb_gt 148 i)) by lia. }
    rewrite (map_chr f h (0 + 148 + 8) 356); [|lia..|].
    2:{ intros i Hi. unfold f. rewrite (proj2 (Z.ltb_ge i 156)) by lia. by rewrite andb_false_r. }
    unfold posix_sum. rewrite (take_ge (drop (Z.to_nat (0 + 148 + 8)) h)) by (rewrite length_drop; unfold blen in Hl; lia).
    change (map f (seqZ (0 + 148) 8)) with (replicate 8 32). change (Z.to_nat 0) with 0%nat. rewrite drop_0.
    change (Z.to_nat 148) with 148%nat. change (Z.to_nat (0 + 148 + 8)) with 156%nat. change (zsum (replicate 8 32)) with (8 * 32). lia. }
  assert (Hb : 0 <= zsum (map f (seqZ 0 512)) <= 255 * 512).
  { pose proof (zsum_bound (map f (seqZ 0 512))) as Hz. rewrite length_map, length_seqZ in Hz. apply Hz. apply Forall_forall. by intros x (i & -> & _)%list_elem_of_fmap. }
  rewrite E in Hb. split; [|lia]. unfold tar_sum. change (fun sum i => _) with (fun sum i => u32 (sum + f i)).
  rewrite fold_zsum, E; [lia|lia|by apply Forall_forall|rewrite length_seqZ; vm_compute; done].
Qed.

(** What [initrd_init] reads of a header. *)
Lemma header_ok h : ustar_header h -> chr h 0 <> 0 /\ tar_magic h = true /\ tar_checksum_valid h = true.
Proof.
  intros (Hl & Hu & Hn & Hm & Hc). split.
  { destruct h as [|c h]; [done|]. unfold chr. cbn. cbn in Hn. destruct (Z.eqb_spec c 0); [cbn in Hn; lia|done]. }
  split.
  - unfold tar_magic. change 257 with (Z.of_nat 257 + 0). change 258 with (Z.of_nat 257 + 1). change 259 with (Z.of_nat 257 + 2).
    change 260 with (Z.of_nat 257 + 3). change 261 with (Z.of_nat 257 + 4). rewrite !(chr_take h _ 257 5 _ Hm) by (cbn; lia). reflexivity.
  - destruct (tar_sum_posix h Hl Hu) as [Es Hb]. unfold tar_checksum_valid. rewrite Es.
    rewrite <- (take_drop 8 (drop 148 h)), Hc, <- app_assoc. cbn [app]. change 8 with (Z.of_nat (6 + 2)) at 1.
    rewrite oct2bin_stop by (change (8 ^ Z.of_nat 6) with 262144; lia). rewrite u32_id by (unfold is_u32; lia). apply Z.eqb_refl.
Qed.

Lemma size_field h n : take 11 (drop 124 h) = octal 11 n -> 0 <= n < 2147483648 -> oct2bin (drop 124 h) 11 = n.
Proof.
  intros Hs Hn. rewrite <- (take_drop 11 (drop 124 h)), Hs. change 11 with (Z.of_nat 11) at 1. apply oct2bin_exact; [|lia].
  change (8 ^ Z.of_nat 11) with 8589934592. lia.
Qed.

(** ** The walk over an archive *)
Definition entry_of (m : tar_member_t) (e : initrd_file_t) : Prop :=
  cstr (if_name e) = tm_name m /\ if_size e = blen (tm_content m) /\
  exists d, if_data e = Some d /\ take (length (tm_content m)) d = tm_content m.

(** The files of an archive, in order. *)
Definition tar_files (ms : list tar_member_t) : list tar_member_t := List.filter is_file ms.

Lemma cstr_app_lt (a b : bytes) : (length (cstr a) < length a)%nat -> cstr (a ++ b) = cstr a.
Proof.
  induction a as [|c a IH]; cbn [cstr app length]; [lia|]. destruct (c =? 0); [done|]. cbn [length]. intros Hl. by rewrite IH by lia.
Qed.

Lemma body_length c : blen (tar_body c) = 512 * ((blen c + 511) / 512) /\ blen c <= blen (tar_body c).
Proof.
  assert (Hq : 0 <= (blen c + 511) / 512 /\ blen c <= 512 * ((blen c + 511) / 512)) by (unfold blen in *; zlia).
  assert (Hl : length (tar_body c) = (512 * Z.to_nat ((blen c + 511) / 512))%nat) by (apply pad_length; unfold blen in *; lia).
  unfold blen in *. rewrite Hl. lia.
Qed.

Lemma member_length m : tar_member_ok m ->
  blen (tar_member m) = 512 + 512 * ((blen (tm_content m) + 511) / 512) /\ 512 <= blen (tar_member m).
Proof.
  intros [(Hl & _) _]. unfold tar_member. rewrite blen_app, Hl. destruct (body_length (tm_content m)) as [-> _]. split; [done|]. unfold blen. zlia.
Qed.

(** A round at a well-formed header. *)
Lemma round_header pre h rest fs idx location size : ustar_header h -> idx < 136 -> 0 <= location -> location + size < 4294967296 -> blen pre < size ->
  let mem := pre ++ h ++ rest in
  let pos := location + blen pre in
  parse_round mem location size (mk_walk fs pos idx) =
    if (chr h 156 =? 48) || (chr h 156 =? 0) then
      let n := oct2bin (drop 124 h) 11 in
      match f ← ld fs idx; f ← file_entry f mem location pos n; st fs idx f with
      | None => inr None
      | Some fs => inl (mk_walk fs (u32 (pos + 512 + u32 (Z.quot (i32 (n + 511)) 512) * 512)) (idx + 1))
      end
    else inl (mk_walk fs (u32 (pos + 512)) idx).
Proof.
  intros Hh Hi Hl Hls Hsz mem pos. pose proof Hh as (Hhl & _). destruct (header_ok h Hh) as (H0 & Hm & Hc).
  assert (Hpre : 0 <= blen pre) by (unfold blen; lia). unfold parse_round. cbn [w_pos w_index w_files]. subst pos.
  replace (location + blen pre - location) with (blen pre) by lia.
  rewrite u32_id by (unfold is_u32; lia). rewrite (proj2 (Z.ltb_lt _ (location + size))) by lia.
  unfold INITRD_FILE_MAX. rewrite (proj2 (Z.ltb_lt _ 136)) by done. cbn [andb].
  assert (Hld : ld mem (blen pre) = Some (chr h 0)).
  { unfold ld. rewrite (proj2 (Z.leb_le 0 _)) by lia. subst mem. rewrite lookup_app_r by (unfold blen; lia).
    replace (Z.to_nat (blen pre) - length pre)%nat with 0%nat by (unfold blen; lia).
    clear -Hhl. destruct h as [|c h]; [discriminate Hhl|reflexivity]. }
  rewrite Hld, (proj2 (Z.eqb_neq (chr h 0) 0)) by done.
  rewrite ld_bytes_ok; [|lia|lia|subst mem; rewrite !blen_app, Hhl; unfold blen; lia].
  assert (Hdrop : drop (Z.to_nat (blen pre)) mem = h ++ rest) by (subst mem; unfold blen; by rewrite Nat2Z.id, drop_app_length).
  rewrite Hdrop. replace (Z.to_nat 512) with (length h) by (unfold blen in Hhl; lia). rewrite take_app_length. rewrite Hm, Hc. cbn [negb]. cbv zeta. reflexivity.
Qed.

Lemma round_file pre m post donef a arr location size :
  tar_member_ok m -> is_file m = true -> length (if_name a) = 256%nat -> Z.of_nat (length donef) < 136 ->
  0 <= location -> location + size < 4294967296 -> blen pre + blen (tar_member m) < size ->
  exists e, entry_of m e /\
    parse_round (pre ++ tar_member m ++ post) location size (mk_walk (donef ++ a :: arr) (location + blen pre) (Z.of_nat (length donef)))
    = inl (mk_walk (donef ++ e :: arr) (location + blen (pre ++ tar_member m)) (Z.of_nat (length (donef ++ [e])))).
Proof.
  intros Hok Hif Ha Hd Hl0 Hls Hsz. destruct (member_length m Hok) as [Hml Hml'].
  assert (Hpre : 0 <= blen pre) by (unfold blen; lia). assert (Hmem0 : 0 <= blen (tm_content m)) by (unfold blen; lia).
  pose proof Hok as [Hh Hsize]. rewrite Hif in Hsize. destruct Hsize as [Hsize Hc]. set (n := blen (tm_content m)) in *.
  pose proof (size_field _ n Hsize ltac:(lia)) as Hhs. pose proof Hh as (Hhl & _ & Hnl & _).
  unfold tar_member, is_file in *. set (h := tm_header m) in *. set (body := tar_body (tm_content m)) in *.
  exists (mk_ird (overwrite (if_name a) (tm_name m ++ [0])) n (location + blen pre + 512) (Some (body ++ post))). split.
  { split; [cbn; unfold overwrite; rewrite <- app_assoc; apply cstr_term, cstr_no_nul|]. split; [done|]. exists (body ++ post). split; [done|].
    unfold body, tar_body, pad. rewrite <- app_assoc. apply take_app_length. }
  rewrite <- (app_assoc h). rewrite round_header by (done || lia). rewrite Hif. cbv zeta. rewrite Hhs.
  set (mem := pre ++ h ++ body ++ post).
  assert (Hdrop : drop (Z.to_nat (blen pre)) mem = h ++ body ++ post) by (unfold mem, blen; by rewrite Nat2Z.id, drop_app_length).
  assert (Hdrop2 : drop (Z.to_nat (blen pre + 512)) mem = body ++ post).
  { rewrite Z2Nat.inj_add, <- drop_drop, Hdrop by lia. rewrite <- Hhl. unfold blen. by rewrite Nat2Z.id, drop_app_length. }
  assert (Hcs : cstr (h ++ body ++ post) = tm_name m) by (rewrite cstr_app_lt; [done|unfold blen in Hhl; lia]). clearbody mem.
  unfold ld at 1. rewrite (proj2 (Z.leb_le 0 _)) by lia. rewrite Nat2Z.id, list_lookup_middle by done. rewrite some_bind.
  unfold file_entry, strcpy. replace (location + blen pre + 512 - location) with (blen pre + 512) by lia.
  replace (location + blen pre - location) with (blen pre) by lia. rewrite Hdrop, Hdrop2, Hcs.
  assert (Hnm : (length (tm_name m) < 100)%nat) by apply Hnl.
  rewrite (proj2 (Nat.ltb_lt _ _)) by (rewrite length_app; unfold blen in Hhl; lia).
  rewrite st_bytes_ok; [|lia|rewrite blen_app; unfold blen; rewrite Ha; cbn [length]; lia]. rewrite !some_bind.
  unfold st. rewrite (proj2 (Z.leb_le 0 _)), (proj2 (Z.ltb_lt (Z.of_nat (length donef)) _)) by (rewrite ?length_app; cbn [length]; lia). cbn [andb].
  rewrite Nat2Z.id, insert_app_r_alt, Nat.sub_diag by done. cbn [insert list_insert].
  rewrite (u32_id n), (u32_id (location + blen pre + 512)) by (unfold is_u32; lia).
  assert (Eq : Z.quot (i32 (n + 511)) 512 = (n + 511) / 512) by (rewrite i32_id by (unfold is_i32; lia); apply Z.quot_div_nonneg; lia).
  rewrite Eq, (u32_id ((n + 511) / 512)) by (unfold is_u32; zlia). rewrite u32_id by (unfold is_u32; lia).
  f_equal. f_equal; [rewrite blen_app; lia|rewrite length_app; cbn [length]; lia].
Qed.

(** A directory, a link or a device is stepped over. *)
Lemma round_other pre m post fs idx location size : tar_member_ok m -> is_file m = false -> idx < 136 ->
  0 <= location -> location + size < 4294967296 -> blen pre + blen (tar_member m) < size ->
  parse_round (pre ++ tar_member m ++ post) location size (mk_walk fs (location + blen pre) idx)
  = inl (mk_walk fs (location + blen (pre ++ tar_member m)) idx).
Proof.
  intros Hok Hif Hi Hl Hls Hsz. destruct (member_length m Hok) as [Hml Hml']. pose proof Hok as [Hh Hc]. rewrite Hif in Hc. rewrite Hc in Hml. change (512 * ((blen [] + 511) / 512)) with 0 in Hml.
  assert (Hpre : 0 <= blen pre) by (unfold blen; lia). rewrite blen_app. unfold tar_member in *. rewrite <- (app_assoc (tm_header m)). rewrite round_header by (done || lia).
  unfold is_file in Hif. rewrite Hif. rewrite u32_id by (unfold is_u32; lia). do 2 f_equal. lia.
Qed.

Lemma rounds_det mem location size n w r n' r' : rounds mem location size n w r -> rounds mem location size n' w r' -> n = n' /\ r = r'.
Proof.
  intros H. revert n' r'. induction H as [w r Hw|n w w' r Hw _ IH]; intros n' r' H'; destruct H' as [w2 r2 Hw2|n2 w2 w2' r2 Hw2 Hr2];
    rewrite Hw in Hw2; try discriminate Hw2.
  - injection Hw2 as <-. done.
  - injection Hw2 as <-. by destruct (IH _ _ Hr2) as [-> ->].
Qed.

Lemma walk_members ms post location size : Forall tar_member_ok ms -> 0 <= location -> location + size < 4294967296 ->
  forall pre donef arr,
  Forall (fun a => length (if_name a) = 256%nat) arr -> (length (tar_files ms) <= length arr)%nat -> (length donef + length (tar_files ms) <= 136)%nat ->
  blen (pre ++ concat (map tar_member ms)) < size ->
  exists n es, Forall2 entry_of (tar_files ms) es /\
    rounds (pre ++ concat (map tar_member ms) ++ 0 :: post) location size n
      (mk_walk (donef ++ arr) (location + blen pre) (Z.of_nat (length donef)))
      (Some (donef ++ es ++ drop (length (tar_files ms)) arr, Z.of_nat (length donef + length (tar_files ms)))).
Proof.
  intros Hok Hl Hls. induction Hok as [|m ms Hm _ IH]; intros pre donef arr Harr Hla Hlen Hsz; cbn [map concat] in *.
  - exists 1%nat, []. split; [constructor|]. cbn [app length tar_files List.filter]. rewrite drop_0, Nat.add_0_r. apply rounds_end.
    rewrite app_nil_r in Hsz. unfold parse_round. cbn [w_pos w_index w_files]. destruct ((_ <? _) && _); [|done].
    replace (location + blen pre - location) with (blen pre) by lia. unfold ld. rewrite (proj2 (Z.leb_le 0 _)) by (unfold blen; lia).
    unfold blen. rewrite Nat2Z.id, list_lookup_middle by done. done.
  - assert (Hsz' : blen pre + blen (tar_member m) < size) by (rewrite !blen_app in Hsz; unfold blen in *; lia).
    unfold tar_files in *. cbn [List.filter] in *. destruct (is_file m) eqn:Hif; cbn [length] in *.
    + destruct arr as [|a arr]; [cbn in Hla; lia|]. apply Forall_cons in Harr as [Ha Harr].
      destruct (round_file pre m (concat (map tar_member ms) ++ 0 :: post) donef a arr location size Hm Hif Ha) as (e & He & Hr); [lia|done|done|done|].
      destruct (IH (pre ++ tar_member m) (donef ++ [e]) arr Harr) as (n & es & Hes & Hw);
        [cbn [length] in Hla; lia|rewrite length_app; cbn [length] in *; lia|by rewrite <- app_assoc|].
      exists (S n), (e :: es). split; [by constructor|]. rewrite <- (app_assoc (tar_member m)). eapply rounds_next; [exact Hr|].
      rewrite <- !app_assoc in Hw. cbn [app] in Hw. cbn [drop length app]. rewrite length_app in Hw |- *. cbn [length] in Hw |- *.
      replace (length donef + S (length (List.filter is_file ms)))%nat with (length donef + 1 + length (List.filter is_file ms))%nat by lia. exact Hw.
    + destruct (Nat.eq_dec (length donef) 136%nat) as [Efull|Enot].
      * assert (Hno : List.filter is_file ms = []) by (apply length_zero_iff_nil; lia). rewrite Hno. exists 1%nat, []. split; [constructor|].
        cbn [app length]. rewrite drop_0, Nat.add_0_r. apply rounds_end. unfold parse_round. cbn [w_pos w_index w_files]. rewrite Efull.
        change (Z.of_nat 136%nat <? INITRD_FILE_MAX) with false. by rewrite andb_false_r.
      * pose proof (round_other pre m (concat (map tar_member ms) ++ 0 :: post) (donef ++ arr) (Z.of_nat (length donef)) location size Hm Hif ltac:(lia) Hl Hls Hsz') as Hr.
        destruct (IH (pre ++ tar_member m) donef arr Harr Hla Hlen) as (n & es & Hes & Hw); [by rewrite <- app_assoc|].
        exists (S n), es. split; [done|]. rewrite <- (app_assoc (tar_member m)). eapply rounds_next; [exact Hr|]. by rewrite <- !app_assoc in Hw.
Qed.

Lemma entries_found ms es p : Forall2 entry_of ms es ->
  (f ← List.find (fun e => bool_decide (ird_normalize (Some (if_name e)) 256 = p)) es; d ← if_data f; Some (take (Z.to_nat (if_size f)) d))
  = tm_content <$> List.find (fun m => bool_decide (ird_normalize (Some (tm_name m)) 256 = p)) ms.
Proof.
  induction 1 as [|f e ms es (Hn & Hs & d & Hd & Ht) _ IH]; [done|]. cbn [List.find].
  assert (E : ird_normalize (Some (if_name e)) 256 = ird_normalize (Some (tm_name f)) 256).
  { unfold ird_normalize, cut. rewrite <- Hn. rewrite !skip_slashes_cstr, !skip_dot_cstr. by rewrite cstr_cstr. }
  rewrite E. destruct (bool_decide _); [|done]. rewrite some_bind, Hd, some_bind. cbn. f_equal. rewrite Hs. unfold blen. by rewrite Nat2Z.id.
Qed.

(** ** An encoder for the examples *)

(** A header with the fields initrd_init reads; the others are zero digits. *)
Definition demo_base (name : cstring) (flag n : Z) (field : bytes) : bytes :=
  pad 100 name ++ replicate 24 48 ++ (octal 11 n ++ [0]) ++ replicate 12 48 ++ field
  ++ [flag] ++ replicate 100 0 ++ [117; 115; 116; 97; 114; 0] ++ [48; 48] ++ replicate 247 0.
Definition demo_header (name : cstring) (flag n : Z) : bytes :=
  demo_base name flag n (octal 6 (posix_sum (demo_base name flag n (replicate 8 32))) ++ [0; 32]).

#[local] Instance tar_member_ok_dec m : Decision (tar_member_ok m).
Proof. unfold tar_member_ok, ustar_header. destruct (is_file m); apply _. Defined.

(** The walk of [initrd_init] over an arbitrary memory ends, with a result or at
    an access outside the memory, after at most 137 passes over the blocks of the
    archive; the model's fuel is therefore never what stops it.  Sizes that overflow
    and move the walk backwards are included. *)
Theorem initrd_walk_terminates mem location size files :
  0 <= location -> 0 <= size -> location + size <= 4294966784 ->
  exists n r, rounds mem location size n (mk_walk files location 0) r /\ (n <= parse_fuel size)%nat /\
    parse_from (parse_fuel size) mem location size (mk_walk files location 0) = r.
Proof.
  intros Hl Hs He. destruct (walk_bound mem location size Hs Hl He files) as (n & r & Hr & Hn).
  exists n, r. split; [done|]. split; [done|]. by eapply rounds_parse.
Qed.

(** A header whose size field makes the walk go backwards by a block. *)
Definition backwards_header : bytes := demo_header [97] 48 4294966272.

Lemma initrd_walk_terminates_witness :
  exists n r, rounds (replicate 512 1 ++ backwards_header) 4096 1024 n (mk_walk (replicate 136 zero_file) 4096 0) r /\
    (n <= parse_fuel 1024)%nat /\
    parse_from (parse_fuel 1024) (replicate 512 1 ++ backwards_header) 4096 1024 (mk_walk (replicate 136 zero_file) 4096 0) = r.
Proof. apply (initrd_walk_terminates (replicate 512 1 ++ backwards_header) 4096 1024 (replicate 136 zero_file)); lia. Defined.

(** The table before the first call. *)
Definition table_fresh (s : initrd_state) : Prop :=
  length (files_array s) = 136%nat /\ Forall (fun a => length (if_name a) = 256%nat) (files_array s).

(** C34. Given an archive of ustar members, files of at most 2 GiB and directories, links
    or devices without content in any order, with at most 136 files among them,
    [initrd_init] counts exactly the files, and a path then names the content of the first
    file of the archive whose normalised name is the path's. *)
Theorem initrd_serves_archive s ms post location size :
  table_fresh s -> Forall tar_member_ok ms -> (length (tar_files ms) <= 136)%nat ->
  0 < location -> location + size <= 4294966784 -> blen (tar_archive ms) <= size ->
  exists s', initrd_init s (tar_archive ms ++ post) location size = Some s' /\
    table_ok s' /\ initrd_get_file_count s' = Z.of_nat (length (tar_files ms)) /\
    forall p, ird_content s' p =
      tm_content <$> List.find (fun m => bool_decide (ird_normalize (Some (tm_name m)) 256 = ird_normalize (Some p) 256)) (tar_files ms).
Proof.
  intros [Hlen Hnames] Hok Hmax Hl Hend Hle.
  assert (Hsz : blen (concat (map tar_member ms)) < size).
  { assert (Hz : blen (replicate 1024 0) = 1024) by done. unfold tar_archive in Hle. rewrite blen_app in Hle. lia. }
  assert (Hs0 : 0 < size) by (unfold blen in *; lia).
  destruct (walk_members ms (replicate 1023 0 ++ post) location size Hok ltac:(lia) ltac:(lia) [] [] (files_array s) Hnames ltac:(lia) Hmax Hsz)
    as (n & es & Hes & Hr). cbn [app length] in Hr. change (blen []) with 0 in Hr. rewrite Z.add_0_r, Nat.add_0_l in Hr. change (Z.of_nat 0) with 0 in Hr.
  assert (Emem : concat (map tar_member ms) ++ 0 :: replicate 1023 0 ++ post = tar_archive ms ++ post).
  { unfold tar_archive. rewrite <- app_assoc. done. }
  rewrite Emem in Hr. destruct (walk_bound (tar_archive ms ++ post) location size ltac:(lia) ltac:(lia) Hend (files_array s)) as (n' & r' & Hr' & Hn').
  destruct (rounds_det _ _ _ _ _ _ _ _ Hr Hr') as [<- <-].
  pose proof (Forall2_length _ _ _ Hes) as Hle'.
  eexists. split; [|split; [|split]].
  - unfold initrd_init. unfold c_true. rewrite (proj2 (Z.eqb_neq location 0)), (proj2 (Z.eqb_neq size 0)) by lia. cbn [negb orb].
    rewrite (rounds_parse _ _ _ _ _ _ _ Hr Hn'), some_bind. reflexivity.
  - unfold table_ok, ird_files. cbn. rewrite Nat2Z.id, Hle', take_app_length. apply Forall_forall. intros e He.
    apply list_elem_of_lookup in He as [i Hi]. destruct (Forall2_lookup_r _ _ _ _ _ Hes Hi) as (f & _ & (_ & Hsf & d & Hd & Ht)). unfold file_ok. rewrite Hd, Hsf.
    apply (f_equal length) in Ht. rewrite length_take in Ht. unfold blen. lia.
  - done.
  - intros p. unfold ird_content. rewrite ird_find_spec. unfold ird_files. cbn [current_initrd it_file_count files_array].
    rewrite Nat2Z.id, Hle', take_app_length. by apply entries_found.
Qed.

(** The directories "./" and "bin/", and the files "bin/ls" and "./etc/motd". *)
Definition demo_member (name : cstring) (flag : Z) (content : bytes) : tar_member_t := mk_tar (demo_header name flag (blen content)) content.
Definition demo_members : list tar_member_t :=
  [demo_member [46; 47] 53 []; demo_member [98; 105; 110; 47] 53 []; demo_member [98; 105; 110; 47; 108; 115] 48 [127; 69; 76; 70];
   demo_member [46; 47; 101; 116; 99; 47; 109; 111; 116; 100] 0 [72; 105; 10]].
Definition demo_tables : initrd_state := mk_is NULL (replicate 136 zero_file).

Lemma demo_fresh : table_fresh demo_tables.
Proof. split; [done|]. by apply Forall_replicate. Qed.

Lemma demo_members_ok : Forall tar_member_ok demo_members.
Proof. apply (bool_decide_unpack _). by vm_compute. Qed.

(** The archive fills a record of 10240 bytes. *)
Lemma initrd_serves_archive_witness :
  exists s', initrd_init demo_tables (tar_archive demo_members ++ replicate (12 * 512) 0) 4096 10240 = Some s' /\
    table_ok s' /\ initrd_get_file_count s' = 2 /\
    forall p, ird_content s' p =
      tm_content <$> List.find (fun m => bool_decide (ird_normalize (Some (tm_name m)) 256 = ird_normalize (Some p) 256)) (tar_files demo_members).
Proof.
  apply (initrd_serves_archive demo_tables demo_members (replicate (12 * 512) 0) 4096 10240 demo_fresh demo_members_ok); [by vm_compute; lia|lia|lia|vm_compute; discriminate].
Defined.
