(* ===== verification/OvSpec.v ===== *)
(** * What the overlay promises

    Sequences of calls against the file system of OvTree.v, reads, images and reboots. *)

From Stdlib Require Import ZArith Lia.
From stdpp Require Import base numbers option tactics list gmap.
From S2P Require Import Prelude Bytes Names NetBuf NetSum OvState OvPaths OvInv OvBuild OvImage OvSnap Overlay OvTree OvOps OvMove OvCopy InitrdTar InitrdInv TarWalk.

(** ** Calls *)
Inductive ov_op :=
| OpMkdir (path : ptr cstring)
| OpWrite (path : ptr cstring) (data : ptr bytes) (n : Z)
| OpAppend (path : ptr cstring) (data : ptr bytes) (n : Z)
| OpUnlink (path : ptr cstring)
| OpRename (oldpath newpath : ptr cstring)
| OpCopy (src dst : ptr cstring).

Section Runs.
Context {D : Type} `{OverlayDisk D} `{InitrdLaws}.
Implicit Types (s : overlay_t D) (m : tree).

Definition run_op s (op : ov_op) : option (Z * overlay_t D) :=
  match op with
  | OpMkdir p => overlay_mkdir s p
  | OpWrite p d n => overlay_write s p d n
  | OpAppend p d n => overlay_append s p d n
  | OpUnlink p => overlay_unlink s p
  | OpRename a b => overlay_rename s a b
  | OpCopy a b => overlay_copy s a b
  end.

Fixpoint run_ops s (ops : list ov_op) : option (list Z * overlay_t D) :=
  match ops with
  | [] => Some ([], s)
  | op :: ops => '(rc, s) ← run_op s op; '(rcs, s) ← run_ops s ops; Some (rc :: rcs, s)
  end.

Definition fs_op (ext : Z) m (op : ov_op) : Z * tree :=
  match op with
  | OpMkdir p => fs_mkdir ext m (norm p)
  | OpWrite p d n => fs_write ext m (norm p) d n
  | OpAppend p d n => fs_append ext m (norm p) d n
  | OpUnlink p => fs_unlink m (norm p)
  | OpRename a b => fs_rename ext m (norm a) (norm b)
  | OpCopy a b => fs_copy ext m (norm a) (norm b)
  end.

Fixpoint fs_ops (ext : Z) m (ops : list ov_op) : list Z * tree :=
  match ops with
  | [] => ([], m)
  | op :: ops => let '(rc, m) := fs_op ext m op in let '(rcs, m) := fs_ops ext m ops in (rc :: rcs, m)
  end.

(** Paths that one normalisation brings to normal form; buffers as long as declared. *)
Definition op_ok (op : ov_op) : Prop :=
  match op with
  | OpMkdir p | OpUnlink p => canon (norm p)
  | OpWrite p d n | OpAppend p d n => canon (norm p) /\ data_ok d n
  | OpRename a b | OpCopy a b => move_args (norm a) (norm b)
  end.

Lemma run_op_spec s m op : refines s m -> op_ok op -> implements s (run_op s op) (fs_op (g_ov_ext_lba s) m op).
Proof.
  destruct op; intros Hr Hok; cbn in *; [by apply mkdir_spec|destruct Hok; by apply file_write_spec|destruct Hok; by apply append_spec|
    by apply file_unlink_spec|by apply rename_spec|by apply copy_spec].
Qed.

Lemma run_ops_spec s m ops : refines s m -> Forall op_ok ops ->
  exists s', run_ops s ops = Some (fst (fs_ops (g_ov_ext_lba s) m ops), s') /\ refines s' (snd (fs_ops (g_ov_ext_lba s) m ops)) /\
    g_ov_ext_lba s' = g_ov_ext_lba s.
Proof.
  intros Hr Hok. revert s m Hr. induction Hok as [|op ops Hop _ IH]; intros s m Hr; [by exists s|]. cbn [run_ops fs_ops].
  destruct (run_op_spec s m op Hr Hop) as (s1 & -> & Hr1 & He1). rewrite some_bind.
  destruct (fs_op (g_ov_ext_lba s) m op) as [rc m1]. cbn [fst snd] in *.
  destruct (IH s1 m1 Hr1) as (s2 & -> & Hr2 & He2). rewrite some_bind, He1 in *.
  destruct (fs_ops (g_ov_ext_lba s) m1 ops) as [rcs m2]. cbn [fst snd] in *. exists s2. split; [done|]. split; [done|congruence].
Qed.

(** ** At boot *)
Definition node_array (n : ov_node_t) : Prop := length (ov_path n) = 80%nat /\ length (ov_data n) = 384%nat.

(** Arrays of their declared sizes, whatever they contain. *)
Definition arrays_ok s : Prop := length (g_ov s) = 288%nat /\ Forall node_array (g_ov s) /\ buffers_ok s.

Definition booted s : overlay_t D := with_nodes s (overlay_init (g_ov s)).

Lemma init_struct g : length g = 288%nat -> Forall node_array g -> struct (overlay_init g) [].
Proof.
  intros Hl Hn. split; [by unfold overlay_init; rewrite length_map| |constructor|constructor|].
  - apply Forall_fmap. eapply Forall_impl; [exact Hn|]. intros n [Hp Hd]. unfold shape_ok, overlay_init_node. cbn.
    rewrite length_insert, clear_first_nul by (by destruct (ov_path n)). cbn. split; [done|]. split; [done|lia].
  - intros i n. unfold overlay_init. rewrite list_lookup_fmap. by intros (x & _ & ->)%fmap_Some_1.
Qed.

Lemma boot_refines s : arrays_ok s -> refines (booted s) ∅.
Proof.
  intros (Hl & Hn & Hb). exists []. split; [|done]. apply holds_intro; [by apply init_struct|split; constructor| |done].
  split; [done|]. cbn. change (fs_bytes ∅) with 0. pose proof (hdr_min (g_ov_ext_lba s)). pose proof (capacity_max (g_ov_ext_lba s)). lia.
Qed.


(** Reading: [overlay_read_at] copies the bytes of the file from the offset on,
    as many as asked and present, and nothing else of the buffer changes;
    [overlay_stat] and [overlay_is_dir] report what the path names. *)
Theorem overlay_reads_tree s m path buf max offset out :
  refines s m -> canon (norm path) -> 0 < max <= blen buf -> 0 <= offset ->
  overlay_read_at (g_ov s) path (Some buf) max offset
    = Some (match m !! norm path with
            | None => (OV_ERR_NOTFOUND, Some buf)
            | Some Dir => (OV_ERR_ISDIR, Some buf)
            | Some (File b) => let d := take (Z.to_nat max) (drop (Z.to_nat offset) b) in (blen d, Some (overwrite buf d))
            end) /\
  overlay_stat (g_ov s) path (Some out)
    = (if bool_decide (norm path = []) then (OV_OK, Some (mk_dirent (overwrite (de_name out) [47; 0]) 0 OS_DIRENT_DIR))
       else match m !! norm path with
            | None => (OV_ERR_NOTFOUND, Some out)
            | Some e => (OV_OK, Some (mk_dirent (ov_copy (de_name out) (base_of (norm path)) OS_NAME_MAX) (blen (content_of e))
                                        (if is_Dir e then OS_DIRENT_DIR else OS_DIRENT_FILE)))
            end) /\
  overlay_is_dir (g_ov s) path = bool_decide (norm path = [] \/ m !! norm path = Some Dir).
Proof.
  intros (objs & Hh & Hm) Hc Hmax Hoff. pose proof (ht_struct _ _ Hh) as Hs. pose proof (ht_paths _ _ Hh) as Hp. split; [|split].
  - rewrite (read_spec _ objs) by done. rewrite Hm. by destruct (m !! norm path) as [[|b]|].
  - unfold overlay_stat. rewrite chr0_canon by done. pose proof (find_canon _ _ _ Hs Hp Hc) as Hf.
    destruct (bool_decide (norm path = [])); [done|]. rewrite Hm in Hf. destruct (ov_find _ _) as [i|]; [|by rewrite Hf].
    destruct Hf as (o & Ho & <- & _ & -> & ->). cbn [fmap option_fmap option_map]. do 3 f_equal.
    destruct (obj_head_node _ _ _ Hs Ho) as (n & c & Hn & _ & (_ & _ & _ & _ & _ & Hsz) & _). rewrite (list_lookup_total_correct _ _ _ Hn).
    destruct (o_entry o) as [|b]; [done|]. apply Hsz.
  - unfold overlay_is_dir. rewrite chr0_canon by done. pose proof (find_canon _ _ _ Hs Hp Hc) as Hf.
    destruct (decide (norm path = [])) as [E|E].
    + rewrite bool_decide_eq_true_2 by done. rewrite bool_decide_eq_true_2 by by left. done.
    + rewrite bool_decide_eq_false_2 by done. rewrite Hm in Hf. destruct (ov_find _ _).
      * destruct Hf as (o & _ & _ & _ & -> & ->). destruct (o_entry o); symmetry; [apply bool_decide_eq_true_2; by right|].
        apply bool_decide_eq_false_2. by intros [|].
      * rewrite Hf. symmetry. apply bool_decide_eq_false_2. by intros [|].
Qed.
End Runs.
