(* ===== verification/OvDisk.v ===== *)
(** * Images and reboots of the overlay

    A snapshot restored, and a saved image loaded after a reboot, give the same file
    system. *)

From Stdlib Require Import ZArith Lia.
From stdpp Require Import base numbers option tactics list gmap.
From S2P Require Import Prelude Bytes Names NetBuf NetSum OvState OvPaths OvInv OvBuild OvImage OvSnap Overlay OvTree OvOps OvMove OvCopy InitrdTar InitrdInv TarWalk OvSpec.

(** What the overlay relies on of a disk: sectors read back as written, other sectors
    and the presence of the disk are not touched, and the note of a write by the
    kernel leaves the disk alone. *)
Class DiskLaws (D : Type) `{OverlayDisk D} := {
  read_written : forall d lba n b d', ata_write_sectors d lba n b = (0, d') -> blen b = n * 512 -> ata_read_sectors d' lba n = (0, b);
  read_untouched : forall d lba n b d' lba' n', ata_write_sectors d lba n b = (0, d') -> lba + n <= lba' \/ lba' + n' <= lba ->
    ata_read_sectors d' lba' n' = ata_read_sectors d lba' n';
  write_present : forall d lba n b, ata_present (snd (ata_write_sectors d lba n b)) = ata_present d;
  written_reads : forall w d lba n, g_ov_kernel_written = Some w -> ata_read_sectors (w d) lba n = ata_read_sectors d lba n;
  written_present : forall w d, g_ov_kernel_written = Some w -> ata_present (w d) = ata_present d
}.

Section Images.
Context {D : Type} `{OverlayDisk D} `{InitrdLaws}.
Implicit Types (s : overlay_t D) (m : tree).

Lemma place_pairs k os : map o_pair (place k os) = map o_pair os.
Proof. revert k. induction os as [|o os IH]; intros k; [done|]. cbn [place map]. by rewrite IH. Qed.

(** The state a restored image leaves, whatever files were there before. *)
Lemma restored_into s objs os reserved pad n s0 :
  holds_tree s objs -> os ≡ₚ objs -> length reserved = 8%nat -> length (g_ov s0) = 288%nat -> Forall shape_ok (g_ov s0) -> buffers_ok s0 ->
  g_ov_ext_lba s0 = 0 \/ g_ov_ext_lba s0 = g_ov_ext_lba s -> overlay_capacity (g_ov_ext_lba s) <= n < 2147483648 ->
  exists s2, overlay_restore s0 (Some (image (g_ov_ext_lba s) os reserved pad)) n = Some (0, s2) /\
    refines s2 (tree_of objs) /\ g_ov_ext_lba s2 = g_ov_ext_lba s.
Proof.
  intros Hh Hp Hr Hl Hna Hb He0 Hn. pose proof (ht_struct _ _ Hh) as Hs. pose proof (ht_ext _ _ Hh) as [Hext Hmin].
  assert (Hok : Forall (enc_ok (overlay_file_max (g_ov_ext_lba s))) os).
  { rewrite Hp. apply Forall_forall. intros o Ho. eapply fresh_enc_ok; [exact Hs|apply Hh| |done].
    pose proof (ht_sizes _ _ Hh) as Hsz. rewrite Forall_forall in Hsz. by apply Hsz. }
  destruct (restore_image s0 (g_ov_ext_lba s) os reserved pad n) as (g' & Hrun & Hst); try done; try lia.
  - rewrite (chains_length_perm os objs Hp). by apply (objs_bound _ _ Hs).
  - rewrite (enc_all_length (g_ov s) objs os Hs) by (intros x; by rewrite Hp). rewrite (tree_bytes_perm os objs Hp). apply Hh.
  - assert (Hpp : map o_pair objs ≡ₚ map o_pair (place 0 os)) by (rewrite place_pairs; by rewrite Hp).
    destruct (holds_fs _ _ Hh) as [Hf _]. pose proof (paths_pairs _ _ Hpp (ht_paths _ _ Hh)) as Hpo.
    pose proof (tree_pairs _ _ Hpp (ht_paths _ _ Hh)) as Ht. eexists. split; [exact Hrun|]. destruct Hb as (Hb1 & Hb2 & _).
    assert (Hstate : forall s2, g_ov s2 = g' -> g_ov_ext_lba s2 = g_ov_ext_lba s -> g_ov_tmp s2 = g_ov_tmp s0 -> g_ov_disk_buf s2 = g_ov_disk_buf s0 ->
      refines s2 (tree_of objs)).
    { intros s2 Eg Ee Et Ed. exists (place 0 os). split; [|done]. apply holds_intro; [by rewrite Eg|done|by rewrite Ee, <- Ht|].
      split; [by rewrite Et|]. split; [by rewrite Ed|]. by rewrite Ee. }
    destruct (c_true (g_ov_ext_lba s)) eqn:Ec; (split; [apply Hstate|]); try done; cbn.
    all: unfold c_true in Ec; apply negb_false_iff, Z.eqb_eq in Ec; destruct He0; congruence.
Qed.

Lemma restored_refines s objs os reserved pad n s0 :
  holds_tree s objs -> os ≡ₚ objs -> length reserved = 8%nat -> arrays_ok s0 -> g_ov_ext_lba s0 = 0 ->
  overlay_capacity (g_ov_ext_lba s) <= n < 2147483648 ->
  exists s2, overlay_restore (booted s0) (Some (image (g_ov_ext_lba s) os reserved pad)) n = Some (0, s2) /\
    refines s2 (tree_of objs) /\ g_ov_ext_lba s2 = g_ov_ext_lba s.
Proof.
  intros Hh Hp Hr (Hl & Hna & Hb) He0 Hn. pose proof (init_struct (g_ov s0) Hl Hna) as Hinit.
  apply restored_into; try done; [apply Hinit|apply Hinit|by left].
Qed.

(** A snapshot of the overlay, in either image version, restored into a freshly
    initialised overlay gives the same file system and the same extension area. *)
Theorem overlay_image_roundtrip s m buf s0 :
  refines s m -> overlay_capacity (g_ov_ext_lba s) <= blen buf -> arrays_ok s0 -> g_ov_ext_lba s0 = 0 ->
  exists image s2,
    overlay_snapshot (g_ov s) (g_ov_ext_lba s) (Some buf) (overlay_capacity (g_ov_ext_lba s)) (Some 0)
      = Some (0, Some image, Some (overlay_capacity (g_ov_ext_lba s))) /\
    overlay_restore (booted s0) (Some image) (overlay_capacity (g_ov_ext_lba s)) = Some (0, s2) /\
    refines s2 m /\ g_ov_ext_lba s2 = g_ov_ext_lba s.
Proof.
  intros (objs & Hh & <-) Hbuf Ha He0.
  destruct (snapshot_spec (g_ov s) objs (g_ov_ext_lba s) buf (overlay_capacity (g_ov_ext_lba s)) (Some 0)) as (os & reserved & Hp & Hr & Hsnap);
    [apply Hh|apply Hh|lia|done|].
  pose proof (capacity_max (g_ov_ext_lba s)) as Hcap.
  destruct (restored_refines s objs os reserved (replicate (Z.to_nat (overlay_capacity (g_ov_ext_lba s) - ov_hdr (g_ov_ext_lba s) - tree_bytes objs)) 0
      ++ drop (Z.to_nat (overlay_capacity (g_ov_ext_lba s))) buf) (overlay_capacity (g_ov_ext_lba s)) s0 Hh Hp Hr Ha He0 ltac:(lia)) as (s2 & Hrun & Href & He).
  eexists _, s2. split; [exact Hsnap|]. done.
Qed.
End Images.

Section Reboot.
Context {D : Type} `{DiskLaws D} `{InitrdLaws}.
Implicit Types (s : overlay_t D) (m : tree).

Lemma patch_front (a b : bytes) k : blen b = k -> patch a 0 b = b ++ drop (Z.to_nat k) a.
Proof. intros <-. unfold patch, blen. by rewrite Nat2Z.id. Qed.

Lemma blen_drop (a : bytes) k : 0 <= k <= blen a -> blen (drop (Z.to_nat k) a) = blen a - k.
Proof. unfold blen. intros Hk. rewrite length_drop. lia. Qed.

Lemma patch_back (a x b : bytes) k : blen a = k -> blen x = blen b -> patch (a ++ x) k b = a ++ b.
Proof.
  intros <- Hx. unfold patch, blen in *. rewrite Nat2Z.id, take_app_length, drop_ge by (rewrite length_app; lia). by rewrite app_nil_r.
Qed.

Lemma split_at (img : bytes) a b : 0 <= a -> 0 <= b -> blen img = a + b ->
  take (Z.to_nat a) img ++ take (Z.to_nat b) (drop (Z.to_nat a) img) = img.
Proof. intros Ha Hb Hl. unfold blen in Hl. rewrite (take_ge (drop _ img)) by (rewrite length_drop; lia). apply take_drop. Qed.

Lemma areas_split img : blen img = 98304 -> area1 img ++ area2 img = img.
Proof. intros Hl. by apply split_at. Qed.

Lemma area_lengths img : blen img = 98304 -> blen (area1 img) = 32768 /\ blen (area2 img) = 65536.
Proof.
  assert (Hgen : forall a b, 0 <= a -> 0 <= b -> blen img = a + b ->
    blen (take (Z.to_nat a) img) = a /\ blen (take (Z.to_nat b) (drop (Z.to_nat a) img)) = b).
  { intros a b Ha Hb Hl. unfold blen in *. rewrite !length_take, length_drop. lia. }
  intros Hl. by apply Hgen.
Qed.

Lemma booted_nodes s g : g_ov s = overlay_init g -> s = booted (with_nodes s g).
Proof. destruct s. cbn. by intros ->. Qed.

(** The header alone names the extension area. *)
Lemma header_ext ext recs reserved rest : is_u32 ext -> ext = 0 \/ OV_EXT_MIN_LBA <= ext -> length reserved = 8%nat -> is_u32 recs ->
  overlay_image_ext_lba (Some (image_header ext recs reserved ++ rest)) = Some ext.
Proof.
  intros Hu Hmin Hr Hrec. unfold overlay_image_ext_lba, image_header. rewrite <- !app_assoc.
  set (ver := if c_true ext then OV_SNAP_V4_VERSION else OV_SNAP_VERSION). set (nds := if c_true ext then OV_SNAP_NODES else OV_SNAP_V3_NODES).
  assert (Hvu : is_u32 ver /\ is_u32 nds) by (unfold ver, nds, is_u32; destruct (c_true ext); vm_compute; split; split; congruence).
  assert (W0 : forall y, ov_get_u32 (le32 OV_SNAP_MAGIC ++ y) 0 = Some OV_SNAP_MAGIC)
    by (intros y; apply (get_word []); [done|vm_compute; split; congruence]).
  assert (W4 : forall y, ov_get_u32 (le32 OV_SNAP_MAGIC ++ le32 ver ++ y) 4 = Some ver) by (intros y; apply get_word; [done|apply Hvu]).
  rewrite W0, some_bind, Z.eqb_refl, W4, some_bind. cbn [negb].
  destruct (c_true ext) eqn:Ec; unfold ver.
  - rewrite Z.eqb_refl. cbn [negb]. rewrite <- !app_assoc.
    assert (W : forall w y, is_u32 w -> ov_get_u32 (le32 OV_SNAP_MAGIC ++ le32 OV_SNAP_V4_VERSION ++ le32 nds ++ le32 recs ++ le32 w ++ y) 16 = Some w).
    { intros w y Hw. rewrite !app_assoc, <- (app_assoc _ (le32 w)). by apply get_word. }
    rewrite W by done. rewrite some_bind. unfold c_true in Ec. apply negb_true_iff, Z.eqb_neq in Ec.
    rewrite (proj2 (Z.ltb_ge ext OV_EXT_MIN_LBA)) by (destruct Hmin; [done|lia]).
    assert (W2 : ov_get_u32 (le32 OV_SNAP_MAGIC ++ le32 OV_SNAP_V4_VERSION ++ le32 nds ++ le32 recs ++ le32 ext ++ le32 OV_EXT_SECTORS ++ reserved ++ rest) 20
      = Some OV_EXT_SECTORS).
    { rewrite !app_assoc, <- (app_assoc _ reserved rest), <- (app_assoc _ (le32 OV_EXT_SECTORS)). apply get_word; [done|vm_compute; split; congruence]. }
    rewrite W2, some_bind. done.
  - unfold c_true in Ec. apply negb_false_iff, Z.eqb_eq in Ec. by rewrite Ec.
Qed.

Lemma image_header_length ext recs reserved : length reserved = 8%nat -> blen (image_header ext recs reserved) = ov_hdr ext.
Proof. intros Hr. unfold image_header, blen, ov_hdr, OV_SNAP_V4_HDR. destruct (c_true ext); rewrite ?length_app, ?Hr; cbn; lia. Qed.

(** What the disk holds after the kernel wrote the image [img]. *)
Lemma disk_holds ext img d d' : is_u32 ext -> ext = 0 \/ OV_EXT_MIN_LBA <= ext -> blen img = 98304 -> disk_after ext img d = (0, d') ->
  ata_present d' = ata_present d /\ ata_read_sectors d' 0 64 = (0, area1 img) /\
  (ext <> 0 -> ata_read_sectors d' ext 128 = (0, area2 img)).
Proof.
  intros Hu Hmin Himg. unfold disk_after. destruct (ata_write_sectors d 0 64 (area1 img)) as [rc1 d1] eqn:E1.
  pose proof (write_present d 0 64 (area1 img)) as P1. rewrite E1 in P1. cbn [snd] in P1.
  destruct (area_lengths img Himg) as [Hl1 Hl2].
  assert (Hhook : forall rc d2, ata_present d2 = ata_present d -> ata_read_sectors d2 0 64 = (0, area1 img) ->
    (ext <> 0 -> ata_read_sectors d2 ext 128 = (0, area2 img)) ->
    (rc, match g_ov_kernel_written with Some written => if rc =? 0 then written d2 else d2 | None => d2 end) = (0, d') ->
    ata_present d' = ata_present d /\ ata_read_sectors d' 0 64 = (0, area1 img) /\ (ext <> 0 -> ata_read_sectors d' ext 128 = (0, area2 img))).
  { intros rc d2 Hp Hr1 Hr2 [= -> <-]. destruct g_ov_kernel_written as [w|] eqn:Ew; [|done].
    change (0 =? 0) with true. cbn iota. rewrite (written_present w _ Ew), !(written_reads w _ _ _ Ew). done. }
  destruct (Z.eqb_spec rc1 0) as [->|Hne]; cbn [andb]; [|intros [= Heq _]; congruence].
  pose proof (read_written _ _ _ _ _ E1 Hl1) as R1.
  destruct (c_true ext) eqn:Ec.
  - unfold c_true in Ec. apply negb_true_iff, Z.eqb_neq in Ec. destruct (ata_write_sectors d1 ext 128 (area2 img)) as [rc2 d2] eqn:E2.
    intros Hd. assert (rc2 = 0) as -> by congruence. pose proof (write_present d1 ext 128 (area2 img)) as P2. rewrite E2 in P2. cbn [snd] in P2.
    apply (Hhook 0 d2); [congruence| |intros _; by eapply read_written|exact Hd].
    rewrite (read_untouched _ _ _ _ _ 0 64 E2) by (right; unfold OV_EXT_MIN_LBA in Hmin; lia). done.
  - unfold c_true in Ec. apply negb_false_iff, Z.eqb_eq in Ec. intros Hd. apply (Hhook 0 d1); [exact P1|exact R1|done|exact Hd].
Qed.

(** An image the kernel wrote itself. *)
Lemma written_survives s objs s1 s0 : holds_tree s objs -> ata_present (ov_dev s) = true -> write_snapshot s = Some (0, s1) ->
  arrays_ok s0 -> g_ov_ext_lba s0 = 0 -> ov_dev s0 = ov_dev s1 ->
  exists s2, overlay_load_disk (booted s0) = Some (0, s2) /\ refines s2 (tree_of objs) /\ g_ov_ext_lba s2 = g_ov_ext_lba s.
Proof.
  intros Hh Hpres Hsave Ha He0 Hdev.
  destruct (write_spec s objs Hh) as (os & reserved & Hp & Hr & Hw). cbn zeta in Hw. destruct Hw as [Hil Hw].
  generalize dependent (replicate (Z.to_nat (98304 - ov_hdr (g_ov_ext_lba s) - tree_bytes objs)) 0). intros pad Hil Hw.
  remember (image (g_ov_ext_lba s) os reserved pad) as img eqn:Eimg.
  destruct (disk_after (g_ov_ext_lba s) img (ov_dev s)) as [rc d'] eqn:Ed. rewrite Hw in Hsave. injection Hsave as -> <-. cbn in Hdev.
  pose proof (ht_ext _ _ Hh) as [Hu Hmin]. destruct (disk_holds _ _ _ _ Hu Hmin Hil Ed) as (Hp' & Hr1 & Hr2).
  unfold overlay_load_disk. cbn [ov_dev booted with_nodes]. change OV_DISK_SECTORS with 64. rewrite Hdev, Hp', Hpres, Hr1. cbn [negb].
  pose proof Ha as (Hl0 & Hna0 & Ht0 & Hb0 & _).
  destruct (area_lengths img Hil) as [Hl1 Hl2].
  cbn [g_ov_disk_buf booted with_nodes]. rewrite st_bytes_ok by lia. rewrite some_bind. cbn [Z.eqb negb].
  assert (Epatch : patch (g_ov_disk_buf s0) 0 (area1 img) = area1 img ++ drop (Z.to_nat 32768) (g_ov_disk_buf s0)).
  { by apply patch_front. }
  rewrite Epatch. assert (Hxl : blen (drop (Z.to_nat 32768) (g_ov_disk_buf s0)) = 65536) by (rewrite blen_drop; lia).
  generalize dependent (drop (Z.to_nat 32768) (g_ov_disk_buf s0)). intros x Epatch Hxl.
  pose proof (objs_bound _ _ (ht_struct _ _ Hh)) as [_ Hch].
  assert (Hhdr : exists y, area1 img ++ x = image_header (g_ov_ext_lba s) (Z.of_nat (length (chains os))) reserved ++ y).
  { unfold area1. rewrite Eimg. unfold image. pose proof (image_header_length (g_ov_ext_lba s) (Z.of_nat (length (chains os))) reserved Hr) as Hhl.
    pose proof (hdr_min (g_ov_ext_lba s)). rewrite take_app_ge by (unfold blen in Hhl; lia). rewrite <- app_assoc. by eexists. }
  assert (Hxe : overlay_image_ext_lba (Some (area1 img ++ x)) = Some (g_ov_ext_lba s)).
  { destruct Hhdr as [y ->]. apply header_ext; [done|done|done|]. rewrite (chains_length_perm os objs Hp). unfold is_u32. lia. }
  rewrite Hxe, some_bind.
  assert (Hfin : forall s3 b pad', b = image (g_ov_ext_lba s) os reserved pad' -> g_ov s3 = g_ov (booted s0) -> g_ov_ext_lba s3 = 0 -> buffers_ok s3 ->
    exists s2, overlay_restore s3 (Some b) OV_DISK_BYTES = Some (0, s2) /\
      refines s2 (tree_of objs) /\ g_ov_ext_lba s2 = g_ov_ext_lba s).
  { intros s3 b pad' -> Eg Ee Hb3. pose proof (capacity_max (g_ov_ext_lba s)) as Hcap.
    rewrite (booted_nodes s3 (g_ov s0) Eg).
    apply restored_refines; [done|done|done|by split; [|split]|done|unfold OV_DISK_BYTES, OV_SNAP_SIZE_MAX; lia]. }
  destruct (c_true (g_ov_ext_lba s)) eqn:Ec.
  - pose proof Ec as Ec'. unfold c_true in Ec'. apply negb_true_iff, Z.eqb_neq in Ec'. specialize (Hr2 Ec').
    cbn [ov_dev with_disk_buf booted with_nodes]. rewrite Hdev. change OV_EXT_SECTORS with 128. rewrite Hr2.
    change OV_SNAP_SIZE with 32768. rewrite st_bytes_ok by (rewrite ?blen_app; lia). rewrite some_bind. cbn [Z.eqb negb].
    assert (E2 : patch (area1 img ++ x) 32768 (area2 img) = img).
    { rewrite patch_back by lia. by apply areas_split. }
    rewrite E2. apply (Hfin _ _ pad); [done|done|done|]. split; [done|]. split; [done|]. cbn. rewrite He0. split; [unfold is_u32; lia|by left].
  - pose proof (ht_budget _ _ Hh) as Hbud. pose proof (enc_all_length (g_ov s) objs os (ht_struct _ _ Hh) ltac:(intros z; by rewrite Hp)) as Hel.
    rewrite (tree_bytes_perm os objs Hp) in Hel.
    assert (E2 : exists pad', area1 img ++ x = image (g_ov_ext_lba s) os reserved pad').
    { unfold area1. rewrite Eimg. unfold image. pose proof (image_header_length (g_ov_ext_lba s) (Z.of_nat (length (chains os))) reserved Hr) as Hhl.
      assert (Hcap : overlay_capacity (g_ov_ext_lba s) = 32768) by (unfold overlay_capacity; by rewrite Ec). rewrite Hcap in Hbud.
      rewrite app_assoc, take_app_ge by (rewrite length_app; unfold blen in *; lia). rewrite <- !app_assoc. by eexists. }
    destruct E2 as [pad' E2]. apply (Hfin _ _ pad'); [done|done|done|]. split; [done|]. split; [|cbn; rewrite He0; split; [unfold is_u32; lia|by left]].
    cbn [g_ov_disk_buf with_disk_buf]. rewrite blen_app. lia.
Qed.

(** The hook does not take the save over: there is none, or it answers 0, as
    ata_bridge_overlay_redirect does while no Ring 3 driver lives. *)
Definition kernel_saves s : Prop :=
  match g_ov_save_redirect with
  | NULL => True
  | Some redirect => let '(r, d) := redirect (g_ov s) (g_ov_ext_lba s) (ov_dev s) in r = 0 /\ ata_present d = true
  end.

End Reboot.

(** * A disk in memory, and the overlay on it

    A concrete device that satisfies [DiskLaws] and a concrete archive, on
    which the theorems about the overlay are applied. *)

(** The bytes of each sector. *)
Definition sectors : Type := Z -> bytes.

Definition write_sectors (d : sectors) (lba n : Z) (b : bytes) : sectors := fun k =>
  if (lba <=? k) && (k <? lba + n) then take 512 (drop (Z.to_nat ((k - lba) * 512)) b) else d k.

#[local] Instance memory_disk : OverlayDisk sectors := {
  ata_present _ := true;
  ata_write_sectors d lba n b := (0, write_sectors d lba n b);
  ata_read_sectors d lba n := (0, concat (map d (seqZ lba n)));
  g_ov_save_redirect := NULL;
  g_ov_kernel_written := NULL
}.

Lemma chunks (n : nat) : forall lba (b : bytes), length b = (512 * n)%nat ->
  concat (map (fun k => take 512 (drop (Z.to_nat ((k - lba) * 512)) b)) (seqZ lba (Z.of_nat n))) = b.
Proof.
  induction n as [|n IH]; intros lba b Hb; [by destruct b; [|cbn in Hb; lia]|].
  rewrite seqZ_cons by lia. cbn [map concat]. rewrite Z.sub_diag. change (Z.to_nat (0 * 512)) with 0%nat. rewrite drop_0.
  transitivity (take 512 b ++ drop 512 b); [f_equal|apply take_drop]. rewrite <- (IH (Z.succ lba) (drop 512 b)) by (rewrite length_drop; lia).
  replace (Z.pred (Z.of_nat (S n))) with (Z.of_nat n) by lia. f_equal. apply map_ext_in. intros k Hk%list_elem_of_In%elem_of_seqZ.
  rewrite drop_drop. do 2 f_equal. lia.
Qed.

#[local] Instance memory_disk_laws : DiskLaws sectors.
Proof.
  split.
  - intros d lba n b d' [= <-] Hb. cbn. f_equal. destruct (Z.le_gt_cases n 0) as [Hn|Hn].
    { unfold blen in Hb. assert (b = []) as -> by (destruct b; [done|cbn in Hb; lia]). by rewrite seqZ_nil. }
    rewrite <- (chunks (Z.to_nat n) lba b) at 2 by (unfold blen in Hb; lia). rewrite Z2Nat.id by lia. f_equal. apply map_ext_in.
    intros k Hk%list_elem_of_In%elem_of_seqZ. unfold write_sectors.
    by rewrite (proj2 (Z.leb_le lba k)), (proj2 (Z.ltb_lt k (lba + n))) by lia.
  - intros d lba n b d' lba' n' [= <-] Hdis. cbn. f_equal. f_equal. apply map_ext_in. intros k Hk%list_elem_of_In%elem_of_seqZ.
    unfold write_sectors. destruct (Z.leb_spec lba k), (Z.ltb_spec k (lba + n)); try done. lia.
  - done.
  - intros w d lba n Hw. discriminate Hw.
  - intros w d Hw. discriminate Hw.
Qed.

(** Saving to this disk reports success. *)
Lemma memory_disk_saves `{InitrdLaws} (s : overlay_t sectors) m : refines s m -> exists s1, overlay_save_disk s = Some (0, s1).
Proof.
  intros (objs & Hh & _). unfold overlay_save_disk. cbn [ata_present memory_disk negb g_ov_save_redirect].
  destruct (write_spec s objs Hh) as (os & reserved & _ & _ & Hw). cbn zeta in Hw. destruct Hw as [_ Hw].
  unfold disk_after in Hw. cbn [ata_write_sectors memory_disk g_ov_kernel_written Z.eqb andb] in Hw.
  destruct (c_true (g_ov_ext_lba s)); rewrite Hw; eauto.
Qed.

(** ** An initrd with two files and an empty overlay *)
Definition demo_initrd : initrd_state := default demo_tables (initrd_init demo_tables (tar_archive demo_members) 4096 (blen (tar_archive demo_members))).

#[local] Instance file_ok_dec f : Decision (file_ok f).
Proof. unfold file_ok. destruct (if_data f); apply _. Defined.

Lemma demo_initrd_ok : table_ok demo_initrd.
Proof. unfold table_ok. apply (bool_decide_unpack _). vm_compute. exact I. Qed.

#[local] Existing Instance initrd_of.
#[local] Instance demo_initrd_class : Initrd := initrd_of demo_initrd.
#[local] Instance demo_initrd_laws : InitrdLaws := initrd_laws demo_initrd demo_initrd_ok.

Definition empty_overlay (d : sectors) : overlay_t sectors :=
  mk_overlay sectors (replicate 288 zero_node) 0 (replicate (Z.to_nat 65536) 0) (replicate (Z.to_nat 98304) 0) d.

Lemma empty_arrays d : arrays_ok (empty_overlay d).
Proof.
  assert (Hlen : forall k, 0 <= k -> blen (replicate (Z.to_nat k) 0) = k) by (intros k Hk; unfold blen; rewrite length_replicate; lia).
  split; [done|]. split; [by apply Forall_replicate|]. split; [by apply Hlen|]. split; [by apply Hlen|]. split; [split; done|by left].
Qed.

Definition blank : sectors := fun _ => replicate 512 0.

(** "home", "home/a", "etc/motd", "work" and "work2". *)
Definition p_home : cstring := [104; 111; 109; 101].
Definition p_a : cstring := [104; 111; 109; 101; 47; 97].
Definition p_motd : cstring := [101; 116; 99; 47; 109; 111; 116; 100].
Definition p_work : cstring := [119; 111; 114; 107].
Definition p_work2 : cstring := [119; 111; 114; 107; 50].

Definition demo_ops : list ov_op :=
  [OpMkdir (Some p_home); OpWrite (Some p_a) (Some [1; 2; 3]) 3; OpAppend (Some p_motd) (Some [33]) 1;
   OpRename (Some p_home) (Some p_work); OpCopy (Some p_work) (Some p_work2); OpUnlink (Some p_work)].

Lemma demo_ops_ok : Forall op_ok demo_ops.
Proof. repeat constructor; by vm_compute. Qed.

(** The file system these calls leave. *)
Definition demo_tree : gmap cstring ov_entry :=
  list_to_map [(p_work, Dir); (p_work ++ [47; 97], File [1; 2; 3]); (p_work2, Dir); (p_work2 ++ [47; 97], File [1; 2; 3]);
               (p_motd, File [72; 105; 10; 33])].

Lemma demo_results : fs_ops 0 ∅ demo_ops = ([0; 3; 1; 0; 0; OV_ERR_NOTEMPTY], demo_tree).
Proof. vm_compute. reflexivity. Qed.

Lemma demo_motd : norm (Some p_motd) = p_motd /\ demo_tree !! p_motd = Some (File [72; 105; 10; 33]).
Proof. by vm_compute. Qed.


Lemma demo_state : exists s : overlay_t sectors, refines s demo_tree /\ g_ov_ext_lba s = 0.
Proof.
  destruct (run_ops_spec (booted (empty_overlay blank)) ∅ demo_ops (boot_refines _ (empty_arrays blank)) demo_ops_ok) as (s & _ & Hr & He).
  change (g_ov_ext_lba (booted (empty_overlay blank))) with 0 in Hr. rewrite demo_results in Hr. by exists s.
Qed.

Definition demo_out : os_dirent_t := mk_dirent (replicate 64 0) 0 0.

Lemma overlay_reads_tree_witness : exists s : overlay_t sectors, refines s demo_tree /\
  overlay_read_at (g_ov s) (Some p_motd) (Some [0; 0; 0; 0]) 4 1 = Some (3, Some [105; 10; 33; 0]) /\
  overlay_is_dir (g_ov s) (Some p_motd) = false.
Proof.
  destruct demo_state as (s & Hs & _). exists s. destruct demo_motd as [Hn Hl].
  destruct (overlay_reads_tree s demo_tree (Some p_motd) [0; 0; 0; 0] 4 1 demo_out Hs) as (H1 & _ & H3);
    [by rewrite Hn|split; [lia|done]|lia|].
  rewrite Hn, Hl in H1. rewrite Hn, Hl in H3. split; [done|]. split; [exact H1|exact H3].
Defined.

Lemma some_buffer : exists buf : bytes, blen buf = 98304.
Proof. exists (g_ov_disk_buf (empty_overlay blank)). apply (empty_arrays blank). Qed.

Lemma overlay_image_roundtrip_witness : exists (s s2 : overlay_t sectors) buf image,
  overlay_snapshot (g_ov s) 0 (Some buf) 32768 (Some 0) = Some (0, Some image, Some 32768) /\
  overlay_restore (booted (empty_overlay blank)) (Some image) 32768 = Some (0, s2) /\ refines s2 demo_tree.
Proof.
  destruct demo_state as (s & Hs & He). destruct some_buffer as [buf Hbuf].
  destruct (overlay_image_roundtrip s demo_tree buf (empty_overlay blank) Hs) as (image & s2 & H1 & H2 & H3 & _).
  - rewrite He, Hbuf. by vm_compute.
  - apply empty_arrays.
  - done.
  - rewrite He in H1, H2. change (overlay_capacity 0) with 32768 in H1, H2. exists s, s2, buf, image. split; [exact H1|split; [exact H2|exact H3]].
Defined.

