(* ===== verification/OvRobust.v ===== *)
(** * Images from an untrusted disk

    [overlay_restore] on arbitrary bytes: no access outside the image, and an image
    that is refused changes nothing. *)

From Stdlib Require Import ZArith Lia.
From stdpp Require Import base numbers option tactics list gmap.
From S2P Require Import Prelude Bytes Names NetBuf NetSum OvState OvPaths OvInv OvBuild OvImage OvSnap Overlay OvTree OvOps OvSpec.

Lemma init_arrays g : length g = 288%nat -> Forall node_array g -> length (overlay_init g) = 288%nat /\ Forall node_array (overlay_init g).
Proof.
  intros Hl Hna. unfold overlay_init. rewrite length_map. split; [done|]. apply Forall_fmap. eapply Forall_impl; [exact Hna|].
  intros x [Hp Hd]. split; [cbn; by rewrite length_insert|done].
Qed.

(** A pass over an image that ends: 0 or -1, arrays of their size, and nodes that only
    an accepted image changes. *)
Definition restored (g : nodes_t) (r : option (Z * nodes_t)) : Prop :=
  exists rc g', r = Some (rc, g') /\ (rc = 0 \/ rc = -1) /\ (rc <> 0 -> g' = g) /\ length g' = 288%nat /\ Forall node_array g'.

Lemma restored_refused g : length g = 288%nat -> Forall node_array g -> restored g (Some (-1, g)).
Proof. intros Hl Hna. exists (-1), g. split; [done|]. split; [by right|done]. Qed.

Lemma restored_accepted g g' : length g' = 288%nat -> Forall node_array g' -> restored g (Some (0, g')).
Proof. intros Hl Hna. exists 0, g'. split; [done|]. split; [by left|done]. Qed.

Section Image.
Context (buf : bytes) (n : Z) (Hu : Forall is_u8 buf) (Hn : n <= blen buf) (Hmax : n < 2147483648).

Lemma byte_at off : 0 <= off < n -> exists c, get8 buf off = Some c /\ 0 <= c < 256.
Proof.
  intros Ho. unfold get8, ld. rewrite (proj2 (Z.leb_le 0 off)) by lia. destruct (lookup_lt_is_Some_2 buf (Z.to_nat off)) as [c Hc]; [unfold blen in Hn; lia|].
  exists c. split; [done|]. rewrite Forall_lookup in Hu. by apply (Hu _ _ Hc).
Qed.

Lemma bytes_at off k : 0 <= off -> 0 <= k -> off + k <= n -> exists bs, ld_bytes buf off k = Some bs /\ blen bs = k /\ Forall is_u8 bs.
Proof.
  intros Ho Hk Hl. rewrite ld_bytes_ok by lia. eexists. split; [done|]. split.
  - unfold blen in *. rewrite length_take, length_drop. lia.
  - by apply Forall_take, Forall_drop.
Qed.

Lemma u32_at off : 0 <= off -> off + 4 <= n -> exists v, ov_get_u32 buf off = Some v /\ 0 <= v < 4294967296.
Proof.
  intros Ho Hl. destruct (bytes_at off 4 Ho ltac:(lia) Hl) as (bs & Hb & Hlen & Hbu). unfold ov_get_u32. rewrite Hb. eexists. split; [done|].
  by apply un_le32_range.
Qed.

Lemma u16_at off : 0 <= off -> off + 2 <= n -> exists v, ov_get_u16 buf off = Some v /\ 0 <= v < 65536.
Proof.
  intros Ho Hl. destruct (bytes_at off 2 Ho ltac:(lia) Hl) as (bs & Hb & Hlen & Hbu). unfold ov_get_u16. rewrite Hb. eexists. split; [done|].
  destruct bs as [|a [|b r]]; try (unfold blen in Hlen; cbn [length] in Hlen; lia). apply Forall_cons in Hbu as [Ha Hbu]. apply Forall_cons in Hbu as [Hb' _].
  unfold is_u8 in *. cbn. lia.
Qed.

Lemma record_array nd type size path data : node_array nd -> (length path < 80)%nat -> (length data <= 384)%nat ->
  node_array (record_node nd type size path data).
Proof.
  intros [Hp Hd] Hl Hl'. split; cbn; rewrite overwrite_length; rewrite ?length_app; cbn [length]; lia.
Qed.

(** The first pass never stops early without a result and never changes the nodes;
    once it accepts, the second pass makes the same decisions and stays in the table. *)
Lemma passes_agree fm r : forall g1 off lft slot prev1, 0 <= off <= n ->
  exists rc lf, restore_records false buf n fm r g1 off lft slot prev1 = Some (rc, lf, g1) /\ (rc = 0 \/ rc = -1) /\
    (rc = 0 -> forall g2 prev2, length g2 = 288%nat -> Forall node_array g2 -> (slot + r <= 288)%nat ->
      exists g', restore_records true buf n fm r g2 off lft slot prev2 = Some (0, lf, g') /\ length g' = 288%nat /\ Forall node_array g').
Proof.
  induction r as [|r IH]; intros g1 off lft slot prev1 Ho; cbn [restore_records].
  { exists 0, lft. split; [done|]. split; [by left|]. eauto. }
  assert (Hrej : exists rc lf, Some (-1, lft, g1) = Some (rc, lf, g1) /\ (rc = 0 \/ rc = -1) /\
    (rc = 0 -> forall g2 (prev2 : ptr nat), length g2 = 288%nat -> Forall node_array g2 -> (slot + S r <= 288)%nat ->
      exists g', Some (-1, lft, g2) = Some (0, lf, g') /\ length g' = 288%nat /\ Forall node_array g')).
  { exists (-1), lft. split; [done|]. split; [by right|done]. }
  rewrite u32_id by (unfold is_u32, OV_SNAP_REC_HDR; lia). unfold OV_SNAP_REC_HDR in *.
  destruct (Z.ltb_spec n (off + 8)) as [|H8]; [done|].
  destruct (byte_at off ltac:(lia)) as (type & -> & Ht). cbn [mbind option_bind].
  destruct (byte_at (off + 1) ltac:(lia)) as (plen & -> & Hp). cbn [mbind option_bind].
  destruct (u16_at (off + 2) ltac:(lia) ltac:(lia)) as (dlen & -> & Hd). cbn [mbind option_bind].
  destruct (u32_at (off + 4) ltac:(lia) ltac:(lia)) as (size & -> & Hsz). cbn [mbind option_bind].
  destruct ((2 <? type) || (OV_PATH_MAX <=? plen) || (OV_DATA_MAX <? dlen)) eqn:Eb; [done|].
  apply orb_false_iff in Eb as [[Eb1 Eb2]%orb_false_iff Eb3]. apply Z.leb_gt in Eb2. apply Z.ltb_ge in Eb3.
  unfold OV_PATH_MAX, OV_SNAP_PATH, OV_DATA_MAX, OV_SNAP_DATA in Eb2, Eb3.
  rewrite u32_id by (unfold is_u32; lia). destruct (Z.ltb_spec n (off + 8 + plen + dlen)) as [|Hfit]; [done|].
  destruct (bytes_at (off + 8) plen ltac:(lia) ltac:(lia) ltac:(lia)) as (path & -> & Hpl & _). cbn [mbind option_bind].
  destruct (existsb _ path); [done|]. destruct (record_ok type plen dlen size lft fm); cbn [negb]; [|done].
  destruct (bytes_at (off + 8 + plen) dlen ltac:(lia) ltac:(lia) ltac:(lia)) as (data & -> & Hdl & _). cbn [mbind option_bind].
  set (left' := if type =? 0 then _ else _).
  destruct (IH g1 (off + 8 + plen + dlen) left' (S slot) prev1 ltac:(lia)) as (rc & lf & Hrun & Hrc & Hsecond).
  exists rc, lf. split; [exact Hrun|]. split; [done|]. intros E g2 prev2 Hg Hna Hslot.
  destruct (lookup_lt_is_Some_2 g2 slot ltac:(lia)) as [nd Hnd]. rewrite Hnd. cbn [mbind option_bind].
  set (g3 := <[slot := record_node nd type size path data]> g2).
  assert (Hg3 : length g3 = 288%nat /\ Forall node_array g3).
  { unfold g3. rewrite length_insert. split; [done|]. apply Forall_insert; [done|]. rewrite Forall_lookup in Hna.
    apply record_array; [by eapply Hna|unfold blen in Hpl; lia|unfold blen in Hdl; lia]. }
  destruct prev2 as [p|]; [destruct (type =? 2)|]; apply Hsecond; try done; try lia; try apply Hg3.
  - rewrite length_insert. apply Hg3.
  - apply Forall_insert; [apply Hg3|]. destruct Hg3 as [_ Hg3]. destruct (g3 !! p) as [x|] eqn:Ep.
    + rewrite (list_lookup_total_correct _ _ _ Ep). rewrite Forall_lookup in Hg3. by apply (Hg3 _ _ Ep).
    + rewrite list_lookup_total_alt, Ep. done.
Qed.

(** ** Dense images *)
Lemma restore_v3_total g hdr nodes fm : 16 <= hdr -> length g = 288%nat -> Forall node_array g ->
  restored g (ov_restore_v3 g buf n hdr nodes fm).
Proof.
  intros Hh Hl Hna. unfold ov_restore_v3. pose proof (restored_refused g Hl Hna) as Hrej.
  destruct (Z.ltb_spec n hdr) as [|Hnh]; [done|]. destruct (u32_at 8 ltac:(lia) ltac:(lia)) as (st & -> & _). rewrite some_bind.
  destruct (negb (st =? nodes)); [done|]. destruct (u32_at 12 ltac:(lia) ltac:(lia)) as (recs & -> & Hr). rewrite some_bind.
  destruct (Z.ltb_spec OV_SNAP_NODES recs) as [|Hrec]; [done|]. unfold OV_SNAP_NODES in Hrec.
  destruct (passes_agree fm (Z.to_nat recs) g hdr 0 0 NULL ltac:(lia)) as (rc & lf & -> & Hrc & Hsec). rewrite some_bind.
  destruct (Z.eqb_spec rc 0) as [->|]; cbn [negb orb]; [|done]. destruct (Z.eqb_spec lf 0) as [->|]; cbn [negb]; [|done].
  pose proof (init_arrays g Hl Hna) as Hi.
  destruct (Hsec eq_refl (overlay_init g) NULL (proj1 Hi) (proj2 Hi) ltac:(lia)) as (g' & -> & Hg' & Hna'). rewrite some_bind. by apply restored_accepted.
Qed.

(** ** Slot images *)
Lemma fixed_check_total node data k : 8 <= node -> forall off seen, 0 <= off -> off + Z.of_nat k * node <= n ->
  exists r, fixed_check buf node data k off seen = Some r.
Proof.
  intros Hnode. induction k as [|k IH]; intros off seen Ho Hl; cbn [fixed_check]; [by eexists|].
  destruct (byte_at off ltac:(nia)) as (used & -> & _). rewrite some_bind.
  destruct (byte_at (off + 1) ltac:(nia)) as (isd & -> & _). rewrite some_bind.
  destruct (u32_at (off + 4) ltac:(lia) ltac:(nia)) as (size & -> & _). rewrite some_bind.
  destruct (_ || _); [by eexists|]. destruct (used =? 0); [apply IH; lia|]. destruct (data <? size); [by eexists|apply IH; lia].
Qed.

Lemma fixed_apply_total node path data k : 8 + path + data <= node -> 0 <= path <= 80 -> 0 <= data <= 384 ->
  forall g off slot, 0 <= off -> off + Z.of_nat k * node <= n -> length g = 288%nat -> Forall node_array g -> (slot + k <= 288)%nat ->
  exists g', fixed_apply buf node path data k g off slot = Some g' /\ length g' = 288%nat /\ Forall node_array g'.
Proof.
  intros Hnode Hpa Hda. induction k as [|k IH]; intros g off slot Ho Hl Hg Hna Hs; cbn [fixed_apply]; [by eexists|].
  destruct (byte_at off ltac:(nia)) as (used & -> & _). rewrite some_bind.
  destruct (used =? 0); [apply IH; try done; lia|].
  destruct (lookup_lt_is_Some_2 g slot ltac:(lia)) as [nd Hnd]. rewrite Hnd, some_bind.
  destruct (byte_at (off + 1) ltac:(nia)) as (isd & -> & _). rewrite some_bind.
  destruct (u32_at (off + 4) ltac:(lia) ltac:(nia)) as (size & -> & Hsz). rewrite some_bind.
  unfold OV_PATH_MAX, OV_SNAP_PATH.
  destruct (bytes_at (off + 8) (Z.min (80 - 1) path) ltac:(lia) ltac:(lia) ltac:(nia)) as (pb & -> & Hpl & _). rewrite some_bind.
  destruct (bytes_at (off + 8 + path) (Z.min size data) ltac:(lia) ltac:(lia) ltac:(nia)) as (db & -> & Hdl & _). rewrite some_bind.
  apply IH; try lia; [by rewrite length_insert|]. apply Forall_insert; [done|]. rewrite Forall_lookup in Hna.
  destruct (Hna _ _ Hnd) as [H1 H2]. unfold blen in *. split; cbn; rewrite ?length_insert, overwrite_length; lia.
Qed.

Lemma restore_fixed_total g : length g = 288%nat -> Forall node_array g ->
  restored g (ov_restore_fixed g (Some buf) n).
Proof.
  intros Hl Hna. unfold ov_restore_fixed. pose proof (restored_refused g Hl Hna) as Hrej.
  destruct (Z.ltb_spec n 16) as [|H16]; [done|]. destruct (u32_at 0 ltac:(lia) ltac:(lia)) as (magic & -> & _). rewrite some_bind.
  destruct (negb (magic =? OV_SNAP_MAGIC)); [done|]. destruct (u32_at 4 ltac:(lia) ltac:(lia)) as (version & -> & _). rewrite some_bind.
  destruct (fixed_format version) as [[[[[nodes path] data] node] size]|] eqn:Ef; [|done].
  assert (Hfmt : 16 + nodes * node = size /\ 8 + path + data <= node /\ 0 <= path <= 80 /\ 0 <= data <= 384 /\ 0 <= nodes <= 64).
  { unfold fixed_format in Ef. destruct (version =? OV_SNAP_V2_VERSION); [|destruct (version =? OV_SNAP_V1_VERSION); [|done]];
      injection Ef as <- <- <- <- <-; vm_compute; repeat split; congruence. }
  destruct (Z.ltb_spec n size) as [|Hsz]; [done|]. destruct (u32_at 8 ltac:(lia) ltac:(lia)) as (st & -> & _). rewrite some_bind.
  destruct (negb (st =? nodes)); [done|]. destruct (u32_at 12 ltac:(lia) ltac:(lia)) as (uc & -> & _). rewrite some_bind.
  destruct (_ || _); [done|].
  destruct (fixed_check_total node data (Z.to_nat nodes) ltac:(lia) 16 0 ltac:(lia) ltac:(lia)) as [[seen|] ->]; rewrite some_bind; [|done].
  destruct (negb (seen =? uc)); [done|].
  pose proof (init_arrays g Hl Hna) as Hi.
  destruct (fixed_apply_total node path data (Z.to_nat nodes) ltac:(lia) ltac:(lia) ltac:(lia) (overlay_init g) 16 0 ltac:(lia) ltac:(lia) (proj1 Hi) (proj2 Hi)
    ltac:(lia)) as (g' & -> & Hg' & Hna'). rewrite some_bind. by apply restored_accepted.
Qed.
End Image.

Lemma ext_lba_total buf n : Forall is_u8 buf -> n <= blen buf -> 32 <= n -> exists e, overlay_image_ext_lba (Some buf) = Some e.
Proof.
  intros Hu Hn H32. unfold overlay_image_ext_lba.
  destruct (u32_at buf n Hu Hn 0 ltac:(lia) ltac:(lia)) as (magic & -> & _). rewrite some_bind. destruct (negb _); [by eexists|].
  destruct (u32_at buf n Hu Hn 4 ltac:(lia) ltac:(lia)) as (version & -> & _). rewrite some_bind. destruct (negb _); [by eexists|].
  destruct (u32_at buf n Hu Hn 16 ltac:(lia) ltac:(lia)) as (ext & -> & _). rewrite some_bind. destruct (_ <? _); [by eexists|].
  destruct (u32_at buf n Hu Hn 20 ltac:(lia) ltac:(lia)) as (sec & -> & _). rewrite some_bind. by eexists.
Qed.

Lemma version_total buf n v : Forall is_u8 buf -> n <= blen buf -> 16 <= n -> exists b, image_version buf v = Some b.
Proof.
  intros Hu Hn H16. unfold image_version.
  destruct (u32_at buf n Hu Hn 0 ltac:(lia) ltac:(lia)) as (magic & -> & _). rewrite some_bind. destruct (negb _); [by eexists|].
  destruct (u32_at buf n Hu Hn 4 ltac:(lia) ltac:(lia)) as (version & -> & _). rewrite some_bind. by eexists.
Qed.

(** The same contract for the whole state: a refused image leaves it as it was. *)
Definition settled {D} (s : overlay_t D) (r : option (Z * overlay_t D)) : Prop :=
  exists rc s', r = Some (rc, s') /\ (rc = 0 \/ rc = -1) /\ (rc = -1 -> s' = s) /\
    length (g_ov s') = 288%nat /\ Forall node_array (g_ov s') /\
    g_ov_tmp s' = g_ov_tmp s /\ g_ov_disk_buf s' = g_ov_disk_buf s /\ ov_dev s' = ov_dev s.

Lemma settled_nodes {D} (s : overlay_t D) r : restored (g_ov s) r -> settled s ('(rc, g) ← r; Some (rc, with_nodes s g)).
Proof.
  intros (rc & g' & -> & Hrc & Hun & Hl & Hna). rewrite some_bind. exists rc, (with_nodes s g'). split; [done|]. split; [done|].
  split; [|done]. intros ->. rewrite (Hun ltac:(lia)). by destruct s.
Qed.

Lemma settled_ext {D} (s : overlay_t D) r ext : restored (g_ov s) r ->
  settled s ('(rc, g) ← r; if negb (rc =? 0) then Some (-1, with_nodes s g) else Some (0, with_ext (with_nodes s g) ext)).
Proof.
  intros (rc & g' & -> & Hrc & Hun & Hl & Hna). rewrite some_bind. destruct (Z.eqb_spec rc 0) as [->|Hne]; cbn [negb].
  - eexists 0, _. split; [done|]. split; [by left|]. split; [done|]. done.
  - exists (-1), (with_nodes s g'). split; [done|]. split; [by right|]. split; [|done]. intros _. rewrite (Hun Hne). by destruct s.
Qed.

(** C32. [overlay_restore] on arbitrary bytes of any version, as the disk may hold
    them: it reads only the [n] bytes it was given, ends with 0 or -1, leaves every
    array its size, and an image it refuses (-1) changes neither a node nor the
    extension area. *)
Theorem overlay_restore_robust {D} (s : overlay_t D) buf n :
  Forall is_u8 buf -> n <= blen buf -> n < 2147483648 -> length (g_ov s) = 288%nat -> Forall node_array (g_ov s) ->
  exists rc s', overlay_restore s (Some buf) n = Some (rc, s') /\ (rc = 0 \/ rc = -1) /\
    (rc = -1 -> s' = s) /\ length (g_ov s') = 288%nat /\ Forall node_array (g_ov s') /\
    g_ov_tmp s' = g_ov_tmp s /\ g_ov_disk_buf s' = g_ov_disk_buf s /\ ov_dev s' = ov_dev s.
Proof.
  intros Hu Hn Hmax Hl Hna. change (settled s (overlay_restore s (Some buf) n)). unfold overlay_restore.
  pose proof (settled_nodes s _ (restore_fixed_total buf n Hu Hn Hmax (g_ov s) Hl Hna)) as Hfix.
  destruct (Z.ltb_spec n 16) as [|H16]; [exact Hfix|].
  destruct (version_total buf n OV_SNAP_VERSION Hu Hn H16) as [v3 ->]. rewrite some_bind. destruct v3.
  { apply settled_nodes, (restore_v3_total buf n Hu Hn Hmax); [lia|exact Hl|exact Hna]. }
  destruct (Z.ltb_spec n OV_SNAP_V4_HDR) as [|H32]; [exact Hfix|].
  destruct (version_total buf n OV_SNAP_V4_VERSION Hu Hn H16) as [v4 ->]. rewrite some_bind. destruct v4; [|exact Hfix].
  destruct (ext_lba_total buf n Hu Hn H32) as [ext ->]. rewrite some_bind.
  destruct (_ || _) eqn:E.
  - exists (-1), s. split; [done|]. split; [by right|done].
  - apply orb_false_iff in E as [_ E]. apply Z.ltb_ge in E.
    apply settled_ext, (restore_v3_total buf OV_SNAP_SIZE_MAX Hu); try assumption; [by etrans|reflexivity|discriminate].
Qed.

(** A version 3 image whose only record announces more bytes than the image holds. *)
Definition torn_image : bytes :=
  le32 OV_SNAP_MAGIC ++ le32 OV_SNAP_VERSION ++ le32 OV_SNAP_V3_NODES ++ le32 1 ++ [0; 1; 10; 0; 10; 0; 0; 0; 97; 1; 2].

Definition bare_state : overlay_t unit :=
  mk_overlay unit (replicate 288 (mk_ov 0 0 0 (-1) (replicate 80 0) (replicate 384 0) 0)) 0 [] [] tt.

Lemma bare_arrays : Forall node_array (g_ov bare_state).
Proof. apply Forall_replicate. by split. Qed.

Lemma torn_image_u8 : Forall is_u8 torn_image.
Proof. repeat (apply Forall_cons; split; [vm_compute; split; congruence|]). apply Forall_nil. exact I. Qed.

Lemma overlay_restore_robust_witness : exists s', overlay_restore bare_state (Some torn_image) 27 = Some (-1, s') /\ s' = bare_state.
Proof.
  destruct (overlay_restore_robust bare_state torn_image 27 torn_image_u8 ltac:(vm_compute; congruence) ltac:(reflexivity)
    (length_replicate _ _) bare_arrays) as (rc & s' & E & Hrc & Hsame & _).
  exists s'. assert (rc = -1) as ->; [|split; [exact E|exact (Hsame eq_refl)]].
  assert (fst <$> overlay_restore bare_state (Some torn_image) 27 = Some (-1)) as F by (vm_compute; reflexivity).
  rewrite E in F. injection F as F. exact F.
Defined.
