(* ===== verification/BigInt.v ===== *)
(** * Multi-precision integers of kernel/bigint.c

    A number is an array of 32-bit limbs, the lowest first; [big_len] counts the
    limbs in use.  The temporaries of the exponentiations live in a workspace of the
    caller.  Every loop reads a limb of its operands before it writes the same limb of
    the output, so a call whose output is one of its operands is the call on equal
    values.  Limbs outside an array read as 0; [wf_big], which the
    operations preserve, says that no access is outside. *)

From Stdlib Require Import ZArith Lia.
From stdpp Require Import base numbers option tactics list.
From S2P Require Import Prelude Bytes.

Definition u64 (z : Z) : Z := z mod 18446744073709551616.

Record bigint_t := mk_big { limbs : list Z; capacity : Z; big_len : Z }.

(** [value->limbs[i]] for the first [n] indices. *)
Definition limb (v : bigint_t) (i : nat) : Z := default 0 (limbs v !! i).
Definition raw (v : bigint_t) (n : Z) : list Z := map (limb v) (seq 0 (Z.to_nat n)).

(** [i < value->length ? value->limbs[i] : 0] for the first [n] indices. *)
Definition digits (v : bigint_t) (n : Z) : list Z :=
  map (fun i => if Z.of_nat i <? big_len v then limb v i else 0) (seq 0 (Z.to_nat n)).

(** The limbs [r] written from index 0 on, and a new length. *)
Definition store (v : bigint_t) (r : list Z) (len : Z) : bigint_t :=
  mk_big (r ++ drop (length r) (limbs v)) (capacity v) len.

Fixpoint norm_len (l : list Z) (n : nat) : Z :=
  match n with
  | O => 0
  | S k => if default 0 (l !! k) =? 0 then norm_len l k else Z.of_nat n
  end.

Definition bigint_normalize (v : bigint_t) : bigint_t :=
  mk_big (limbs v) (capacity v) (norm_len (limbs v) (Z.to_nat (big_len v))).

Definition bigint_zero (v : bigint_t) : bigint_t :=
  store v (replicate (Z.to_nat (capacity v)) 0) 0.

Definition bigint_copy (output input : bigint_t) : bigint_t :=
  store output (digits input (capacity output)) (big_len input).

(** A local number over the first [capacity] limbs of [space]. *)
Definition bigint_init (space : ptr (list Z)) (capacity : Z) : Z * ptr bigint_t :=
  match space with
  | Some l =>
      if capacity =? 0 then (-1, NULL)
      else (0, Some (bigint_zero (mk_big (take (Z.to_nat capacity) l) capacity 0)))
  | NULL => (-1, NULL)
  end.

(** ** Bytes *)

(** One byte of [bigint_from_be]. *)
Definition put_byte (length : Z) (l : list Z) (offset : nat) (b : Z) : list Z :=
  let reverse := length - 1 - Z.of_nat offset in
  let j := Z.to_nat (reverse / 4) in
  <[j := Z.lor (default 0 (l !! j)) (u32 (Z.shiftl b (Z.land reverse 3 * 8)))]> l.

Fixpoint put_be (length : Z) (l : list Z) (offset : nat) (input : bytes) : list Z :=
  match input with
  | [] => l
  | b :: input => put_be length (put_byte length l offset b) (S offset) input
  end.

Definition bigint_from_be (value : ptr bigint_t) (input : ptr bytes) (length : Z) : option (Z * ptr bigint_t) :=
  match value, input with
  | Some v, Some b =>
      if length =? 0 then Some (-1, value)
      else
        let bytes := u16 ((length + 3) / 4) in
        if capacity v <? bytes then Some (-2, value)
        else
          b ← ld_bytes b 0 length;
          let v := bigint_zero v in
          Some (0, Some (bigint_normalize (mk_big (put_be length (limbs v) 0 b) (capacity v) bytes)))
  | _, _ => Some (-1, value)
  end.

Definition be_byte (v : bigint_t) (length : Z) (i : Z) : Z :=
  let reverse := length - 1 - i in
  if reverse / 4 <? big_len v
  then u8 (Z.shiftr (limb v (Z.to_nat (reverse / 4))) (Z.land reverse 3 * 8)) else 0.

Definition bigint_to_be (value : ptr bigint_t) (output : ptr bytes) (length : Z) : option (Z * ptr bytes) :=
  match value, output with
  | Some v, Some o => o ← st_bytes o 0 (map (be_byte v length) (seqZ 0 length)); Some (0, Some o)
  | _, _ => Some (-1, output)
  end.

(** ** Comparison, sum, difference, product *)

(** The loop from the highest of [n] limbs down. *)
Fixpoint compare_down (n : nat) (left right : list Z) : Z :=
  match n with
  | O => 0
  | S k =>
      let x := default 0 (left !! k) in
      let y := default 0 (right !! k) in
      if negb (x =? y) then (if y <? x then 1 else -1) else compare_down k left right
  end.

Definition bigint_compare (left right : ptr bigint_t) : Z :=
  match left, right with
  | Some l, Some r =>
      if negb (big_len l =? big_len r) then (if big_len r <? big_len l then 1 else -1)
      else compare_down (Z.to_nat (big_len l)) (limbs l) (limbs r)
  | _, _ => -2
  end.

(** [sum = carry + x + y; out = (uint32_t)sum; carry = sum >> 32] along two rows. *)
Fixpoint add_row (xs ys : list Z) (carry : Z) : list Z * Z :=
  match xs, ys with
  | x :: xs, y :: ys =>
      let sum := u64 (carry + x + y) in
      let '(r, c) := add_row xs ys (Z.shiftr sum 32) in (u32 sum :: r, c)
  | _, _ => ([], carry)
  end.

(** [value = y + borrow; out = (uint32_t)(x - value); borrow = x < value]. *)
Fixpoint sub_row (xs ys : list Z) (borrow : Z) : list Z * Z :=
  match xs, ys with
  | x :: xs, y :: ys =>
      let value := u64 (y + borrow) in
      let '(r, b) := sub_row xs ys (b2z (x <? value)) in (u32 (x - value) :: r, b)
  | _, _ => ([], borrow)
  end.

Definition bigint_add (output left right : ptr bigint_t) : Z * ptr bigint_t :=
  match output, left, right with
  | Some o, Some l, Some r =>
      let max := Z.max (big_len l) (big_len r) in
      if capacity o <? max then (-2, output)
      else
        let '(sum, carry) := add_row (digits l max) (digits r max) 0 in
        let o := store o sum (big_len o) in
        if c_true carry then
          if capacity o <=? max then (-3, Some o)
          else (0, Some (bigint_normalize (store o (sum ++ [u32 carry]) (max + 1))))
        else (0, Some (bigint_normalize (store o sum max)))
  | _, _, _ => (-1, output)
  end.

Definition bigint_subtract (output left right : ptr bigint_t) : Z * ptr bigint_t :=
  match output, left, right with
  | Some o, Some l, Some r =>
      if (bigint_compare left right <? 0) || (capacity o <? big_len l) then (-1, output)
      else
        let '(diff, _) := sub_row (raw l (big_len l)) (digits r (big_len l)) 0 in
        (0, Some (bigint_normalize (store o diff (big_len l))))
  | _, _, _ => (-1, output)
  end.

(** One row of the product: [product = a * y + t + carry] over the limbs [t] of the
    output; the limbs of [t] past the row stay. *)
Fixpoint mul_row (ys : list Z) (a : Z) (t : list Z) (x : Z) : list Z * Z :=
  match ys, t with
  | y :: ys, tj :: t =>
      let x := u64 (x + u64 (u64 (a * y) + tj)) in
      let '(r, c) := mul_row ys a t (Z.shiftr x 32) in (u32 x :: r, c)
  | _, _ => ([], x)
  end.

(** The rounds of [bigint_multiply] from limb [i] on: the row at [i], then
    [output->limbs[i + right->length] = carry]. *)
Fixpoint mul_rows (xs ys : list Z) (t : list Z) : list Z :=
  match xs with
  | [] => t
  | a :: xs =>
      let '(r, c) := mul_row ys a t 0 in
      match r ++ u32 c :: drop (S (length r)) t with
      | [] => []
      | t0 :: t' => t0 :: mul_rows xs ys t'
      end
  end.

(** [aliased]: the output is one of the operands. *)
Definition bigint_multiply (aliased : bool) (output left right : ptr bigint_t) : Z * ptr bigint_t :=
  match output, left, right with
  | Some o, Some l, Some r =>
      if aliased then (-1, output)
      else if capacity o <? big_len l + big_len r then (-2, output)
      else
        let o := bigint_zero o in
        (0, Some (bigint_normalize (mk_big (mul_rows (raw l (big_len l)) (raw r (big_len r)) (limbs o))
                                      (capacity o) (u16 (big_len l + big_len r)))))
  | _, _, _ => (-1, output)
  end.

(** ** Modular arithmetic *)

Definition bigint_raw_compare (left right : list Z) (length : Z) : Z := compare_down (Z.to_nat length) left right.
Definition bigint_raw_subtract (left right : list Z) : list Z := fst (sub_row left right 0).

(** [next = x >> 31; out = (x << 1) | carry; carry = next]. *)
Fixpoint shift_row (xs : list Z) (carry : Z) : list Z * Z :=
  match xs with
  | [] => ([], carry)
  | x :: xs => let '(r, c) := shift_row xs (Z.shiftr x 31) in (Z.lor (u32 (Z.shiftl x 1)) carry :: r, c)
  end.

(** The last step of the modular sums: take the modulus off once if there was a carry
    or the limbs reach it. *)
Definition take_off (r : list Z) (carry : Z) (modulus : bigint_t) : list Z :=
  if c_true carry || (0 <=? bigint_raw_compare r (limbs modulus) (big_len modulus))
  then bigint_raw_subtract r (raw modulus (big_len modulus)) else r.

Definition bigint_mod_shift_add (remainder modulus : bigint_t) (bit : Z) : bigint_t :=
  let '(r, carry) := shift_row (raw remainder (big_len modulus)) bit in
  bigint_normalize (store remainder (take_off r carry modulus) (big_len modulus)).

(** The bits of the limbs from the highest down. *)
Definition limb_bits (x : Z) : list Z := map (fun bit => Z.land (Z.shiftr x bit) 1) (rev (seqZ 0 32)).
Definition bits_down (l : list Z) : list Z := concat (map limb_bits (rev l)).

Definition bigint_mod_reduce (output input modulus : ptr bigint_t) : Z * ptr bigint_t :=
  match output, input, modulus with
  | Some o, Some x, Some m =>
      if (big_len m =? 0) || (capacity o <? big_len m) then (-1, output)
      else (0, Some (fold_left (fun o bit => bigint_mod_shift_add o m bit) (bits_down (raw x (big_len x)))
                       (bigint_zero o)))
  | _, _, _ => (-1, output)
  end.

(** Never called with NULL: the code has no test. *)
Definition bigint_mod_add (output left right modulus : bigint_t) : Z * bigint_t :=
  if capacity output <? big_len modulus then (-1, output)
  else
    let '(r, carry) := add_row (digits left (big_len modulus)) (digits right (big_len modulus)) 0 in
    (0, bigint_normalize (store output (take_off r carry modulus) (big_len modulus))).

(** ** Fixed-width variants *)

Definition bigint_mod_add_ct_masked (output left right modulus : ptr bigint_t) (mask : Z) : Z * ptr bigint_t :=
  match output, left, right, modulus with
  | Some o, Some l, Some r, Some m =>
      let n := big_len m in
      if (n =? 0) || (capacity o <? n) || (capacity l <? n) || (capacity r <? n) then (-1, output)
      else
        let '(sum, carry) := add_row (raw l n) (map (fun y => Z.land y mask) (raw r n)) 0 in
        let '(diff, borrow) := sub_row sum (raw m n) 0 in
        let keep_sub := Z.lor (u32 carry) (Z.lxor (u32 borrow) 1) in
        let restore_mask := u32 (0 - Z.lxor keep_sub 1) in
        let '(out, _) := add_row diff (map (fun y => Z.land y restore_mask) (raw m n)) 0 in
        (0, Some (store o out n))
  | _, _, _, _ => (-1, output)
  end.

Definition bigint_mod_add_ct (output left right modulus : ptr bigint_t) : Z * ptr bigint_t :=
  bigint_mod_add_ct_masked output left right modulus 4294967295.

Definition bigint_mod_subtract_ct (output left right modulus : ptr bigint_t) : Z * ptr bigint_t :=
  match output, left, right, modulus with
  | Some o, Some l, Some r, Some m =>
      let n := big_len m in
      if (n =? 0) || (capacity o <? n) || (capacity l <? n) || (capacity r <? n) then (-1, output)
      else
        let '(diff, borrow) := sub_row (raw l n) (raw r n) 0 in
        let mask := u32 (0 - u32 borrow) in
        let '(out, _) := add_row diff (map (fun y => Z.land y mask) (raw m n)) 0 in
        (0, Some (store o out n))
  | _, _, _, _ => (-1, output)
  end.

(** The bits of the limbs from the lowest up. *)
Definition limb_bits_up (x : Z) : list Z := map (fun bit => Z.land (Z.shiftr x bit) 1) (seqZ 0 32).
Definition bits_up (l : list Z) : list Z := concat (map limb_bits_up l).

(** The rounds of a product: [output += bit * temporary; temporary += temporary]. *)
Fixpoint mul_ct_loop (bits : list Z) (output temporary modulus : bigint_t) : Z * bigint_t * bigint_t :=
  match bits with
  | [] => (0, output, temporary)
  | bit :: bits =>
      match bigint_mod_add_ct_masked (Some output) (Some output) (Some temporary) (Some modulus) (u32 (0 - bit)) with
      | (0, Some output) =>
          match bigint_mod_add_ct (Some temporary) (Some temporary) (Some temporary) (Some modulus) with
          | (0, Some temporary) => mul_ct_loop bits output temporary modulus
          | _ => (-3, output, temporary)
          end
      | _ => (-2, output, temporary)
      end
  end.

(** The results are the code, the output and the temporary. *)
Definition bigint_mod_multiply_ct (output left right modulus temporary : ptr bigint_t)
    : Z * ptr bigint_t * ptr bigint_t :=
  match output, left, right, modulus, temporary with
  | Some o, Some l, Some r, Some m, Some t =>
      let n := big_len m in
      if (n =? 0) || (capacity o <? n) || (capacity l <? n) || (capacity r <? n) || (capacity t <? n)
      then (-1, output, temporary)
      else
        let o := store o (replicate (Z.to_nat n) 0) n in
        let t := store t (raw l n) n in
        let '(rc, o, t) := mul_ct_loop (bits_up (raw r n)) o t m in
        (rc, Some o, Some t)
  | _, _, _, _, _ => (-1, output, temporary)
  end.

(** ** Product by doubling and adding *)

Fixpoint mul_loop (bits : list Z) (output temporary modulus : bigint_t) : Z * bigint_t * bigint_t :=
  match bits with
  | [] => (0, output, temporary)
  | bit :: bits =>
      let '(rc, output) := if c_true bit then bigint_mod_add output output temporary modulus else (0, output) in
      if negb (rc =? 0) then (-3, output, temporary)
      else
        let '(rc, temporary) := bigint_mod_add temporary temporary temporary modulus in
        if negb (rc =? 0) then (-4, output, temporary) else mul_loop bits output temporary modulus
  end.

Definition bigint_mod_multiply (output left right modulus temporary : ptr bigint_t)
    : Z * ptr bigint_t * ptr bigint_t :=
  match output, left, right, modulus, temporary with
  | Some o, Some _, Some r, Some m, Some t =>
      if (capacity o <? big_len m) || (capacity t <? big_len m) then (-1, output, temporary)
      else
        let o := bigint_zero o in
        match bigint_mod_reduce temporary left modulus with
        | (0, Some t) => let '(rc, o, t) := mul_loop (bits_up (raw r (big_len r))) o t m in (rc, Some o, Some t)
        | (_, t) => (-2, Some o, t)
        end
  | _, _, _, _, _ => (-1, output, temporary)
  end.

(** ** Montgomery exponentiation *)

Definition BIGINT_MONT_MAX_LIMBS : Z := 128.

(** One round of [mont_mul]: [t] and [hi] are [t[0..n-1]] and [t[n]]; [t[n + 1]] lives
    inside the round only. *)
Definition mont_round (a m : list Z) (n0inv : Z) (s : list Z * Z) (b : Z) : list Z * Z :=
  let '(t, hi) := s in
  let '(t, x) := mul_row a b t 0 in
  let x := u64 (x + hi) in
  let tn := u32 x in
  let tn1 := u32 (Z.shiftr x 32) in
  let q := u32 (default 0 (head t) * n0inv) in
  let x := Z.shiftr (u64 (u64 (q * default 0 (head m)) + default 0 (head t))) 32 in
  let '(t, x) := mul_row (tl m) q (tl t) x in
  let x := u64 (x + tn) in
  (t ++ [u32 x], u32 (tn1 + u32 (Z.shiftr x 32))).

(** [x = t[i] - m[i] - borrow; r[i] = (uint32_t)x; borrow = x >> 63]. *)
Fixpoint mont_sub (t m : list Z) (borrow : Z) : list Z * Z :=
  match t, m with
  | x :: t, y :: m =>
      let x := u64 (x - y - borrow) in
      let '(r, b) := mont_sub t m (Z.shiftr x 63) in (u32 x :: r, b)
  | _, _ => ([], borrow)
  end.

Definition mont_mul (a b m : list Z) (n0inv : Z) : list Z :=
  let '(t, hi) := fold_left (mont_round a m n0inv) b (replicate (length m) 0, 0) in
  let '(r, borrow) := mont_sub t m 0 in
  let mask := u32 (0 - Z.land (Z.lor hi (Z.lxor borrow 1)) 1) in
  zip_with (fun x y => Z.lor (Z.land x mask) (Z.land y (u32 (Z.lnot mask)))) r t.

(** [n0inv *= 2 - modulus->limbs[0] * n0inv], five times. *)
Definition mont_inverse (m0 : Z) : Z :=
  u32 (0 - Nat.iter 5 (fun x => u32 (x * u32 (2 - u32 (m0 * x)))) 1).

(** The two statements for one bit of the exponent; [NULL] is the result before the
    first bit that is set. *)
Definition mont_bit (m current : list Z) (n0inv : Z) (result : ptr (list Z)) (bit : Z) : ptr (list Z) :=
  let result := (fun r => mont_mul r r m n0inv) <$> result in
  if c_true bit
  then Some (match result with Some r => mont_mul r current m n0inv | NULL => current end)
  else result.

(** [current] after the [k] modular doublings. *)
Fixpoint doublings (k : nat) (cur modulus : bigint_t) : Z * bigint_t :=
  match k with
  | O => (0, cur)
  | S k =>
      match bigint_mod_add_ct (Some cur) (Some cur) (Some cur) (Some modulus) with
      | (0, Some cur) => doublings k cur modulus
      | _ => (-2, cur)
      end
  end.

Definition bigint_modexp_mont (output base exponent modulus : bigint_t) (workspace : list Z) : Z * bigint_t :=
  let n := big_len modulus in
  let m := raw modulus n in
  let n0inv := mont_inverse (limb modulus 0) in
  match bigint_init (Some (drop (Z.to_nat n) workspace)) n with
  | (0, cur) =>
      match bigint_mod_reduce cur (Some base) (Some modulus) with
      | (0, Some cur) =>
          let cur := store cur (digits cur n) n in
          match doublings (Z.to_nat (u16 (32 * n))) cur modulus with
          | (0, cur) =>
              let current := raw cur n in
              let output := bigint_zero output in
              match fold_left (mont_bit m current n0inv) (bits_down (raw exponent (big_len exponent))) NULL with
              | NULL =>
                  (0, if (n =? 1) && (limb modulus 0 =? 1) then output else store output [1] 1)
              | Some result =>
                  let product := 1 :: replicate (Z.to_nat n - 1) 0 in
                  (0, bigint_normalize (store output (mont_mul result product m n0inv) n))
              end
          | (_, _) => (-2, output)
          end
      | _ => (-1, output)
      end
  | _ => (-1, output)
  end.

Definition bigint_mont_ok (modulus : bigint_t) : bool :=
  (1 <=? big_len modulus) && (big_len modulus <=? BIGINT_MONT_MAX_LIMBS)
  && c_true (Z.land (limb modulus 0) 1) && negb (limb modulus (Z.to_nat (big_len modulus - 1)) =? 0).

(** ** Square and multiply *)

(** [bigint_mod_multiply(&product, x, y)] and [bigint_copy(x, &product)] on the result
    or the current power; [None] when the product fails. *)
Definition replace_by_product (x y modulus product temporary : bigint_t) : option (bigint_t * bigint_t * bigint_t) :=
  match bigint_mod_multiply (Some product) (Some x) (Some y) (Some modulus) (Some temporary) with
  | (0, Some product, Some temporary) => Some (bigint_copy x product, product, temporary)
  | _ => None
  end.

(** The leading zero bits of the highest limb are skipped, and its first bit needs no
    square: pairs of "square first" and the bit. *)
Fixpoint skip_zeros (bits : list Z) : list Z :=
  match bits with
  | b :: bits' => if b =? 0 then skip_zeros bits' else bits
  | [] => []
  end.
Definition exp_bits (e : list Z) : list (bool * Z) :=
  match rev e with
  | [] => []
  | top :: rest =>
      match skip_zeros (limb_bits top) with
      | [] => []
      | b :: bits => (false, b) :: map (pair true) bits
      end ++ map (pair true) (concat (map limb_bits rest))
  end.

(** The loop of [bigint_modexp] over the bits. *)
Fixpoint exp_loop (bits : list (bool * Z)) (result current modulus product temporary : bigint_t) : Z * bigint_t :=
  match bits with
  | [] => (0, result)
  | (square, bit) :: bits =>
      match (if square : bool then replace_by_product result result modulus product temporary
             else Some (result, product, temporary)) with
      | None => (-5, result)
      | Some (result, product, temporary) =>
          match (if c_true bit then replace_by_product result current modulus product temporary
                 else Some (result, product, temporary)) with
          | None => (-6, result)
          | Some (result, product, temporary) => exp_loop bits result current modulus product temporary
          end
      end
  end.

(** The loop of [bigint_modexp_u32]; an exponent has 32 bits, which bound it. *)
Fixpoint exp_u32_loop (fuel : nat) (exponent : Z) (result current modulus product temporary : bigint_t)
    : option (Z * bigint_t) :=
  if exponent =? 0 then Some (0, result)
  else match fuel with
  | O => None
  | S fuel =>
      match (if c_true (Z.land exponent 1) then replace_by_product result current modulus product temporary
             else Some (result, product, temporary)) with
      | None => Some (-5, result)
      | Some (result, product, temporary) =>
          let exponent := Z.shiftr exponent 1 in
          match (if c_true exponent then replace_by_product current current modulus product temporary
                 else Some (current, product, temporary)) with
          | None => Some (-6, result)
          | Some (current, product, temporary) => exp_u32_loop fuel exponent result current modulus product temporary
          end
      end
  end.

(** The part before the two loops: the workspace must hold four numbers; [None] is a
    workspace shorter than its announced length. *)
Definition exp_numbers (workspace : list Z) (cap : Z) : option (bigint_t * bigint_t * bigint_t * bigint_t) :=
  if Z.of_nat (length workspace) <? 4 * cap then None
  else
    let at_ k := snd (bigint_init (Some (drop (Z.to_nat (k * cap)) workspace)) cap) in
    result ← at_ 0; current ← at_ 1; product ← at_ 2; temporary ← at_ 3;
    Some (result, current, product, temporary).

Definition exp_one (modulus result : bigint_t) : bigint_t :=
  if (big_len modulus =? 1) && (limb modulus 0 =? 1) then mk_big (limbs result) (capacity result) 0
  else store result [1] 1.

(** The copy of the result to the output. *)
Definition exp_output (output : bigint_t) (r : Z * bigint_t) : Z * ptr bigint_t :=
  if negb (fst r =? 0) then (fst r, Some output)
  else (0, Some (store (bigint_zero output) (raw (snd r) (big_len (snd r))) (big_len (snd r)))).

Definition bigint_modexp (output base exponent modulus : ptr bigint_t) (workspace : ptr (list Z)) (workspace_length : Z)
    : option (Z * ptr bigint_t) :=
  match output, base, exponent, modulus, workspace with
  | Some o, Some b, Some e, Some m, Some w =>
      let cap := big_len m in
      if cap =? 0 then Some (-1, output)
      else if (capacity o <? cap) || (workspace_length <? u16 (4 * cap)) then Some (-2, output)
      else
        '(result, current, product, temporary) ← exp_numbers w cap;
        if bigint_mont_ok m then
          let '(rc, o) := bigint_modexp_mont o b e m w in Some (if rc =? 0 then 0 else -4, Some o)
        else
          match bigint_mod_reduce (Some current) base modulus with
          | (0, Some current) =>
              Some (exp_output o (exp_loop (exp_bits (raw e (big_len e))) (exp_one m result) current m product temporary))
          | _ => Some (-4, output)
          end
  | _, _, _, _, _ => Some (-1, output)
  end.

Definition bigint_modexp_u32 (output base : ptr bigint_t) (exponent : Z) (modulus : ptr bigint_t) (workspace : ptr (list Z))
    (workspace_length : Z) : option (Z * ptr bigint_t) :=
  match output, base, modulus, workspace with
  | Some o, Some b, Some m, Some w =>
      let cap := big_len m in
      if cap =? 0 then Some (-1, output)
      else if (capacity o <? cap) || (workspace_length <? u16 (4 * cap)) then Some (-2, output)
      else
        '(result, current, product, temporary) ← exp_numbers w cap;
        if bigint_mont_ok m then
          let ev := mk_big [exponent] 1 1 in
          let '(rc, o) := bigint_modexp_mont o b ev m w in Some (if rc =? 0 then 0 else -4, Some o)
        else
          match bigint_mod_reduce (Some current) base modulus with
          | (0, Some current) =>
              r ← exp_u32_loop 32 exponent (exp_one m result) current m product temporary;
              Some (exp_output o r)
          | _ => Some (-4, output)
          end
  | _, _, _, _ => Some (-1, output)
  end.

(** * Arithmetic of limbs

    What the rows of BigInt compute, and the representation of a number by limbs. *)

Abbreviation B := 4294967296 (only parsing).

(** The number a row of limbs stands for, lowest limb first. *)
Fixpoint eval (l : list Z) : Z := match l with [] => 0 | x :: l => x + B * eval l end.
Definition pow_b (n : nat) : Z := B ^ Z.of_nat n.

Lemma pow_b_S n : pow_b (S n) = B * pow_b n.
Proof. unfold pow_b. rewrite Nat2Z.inj_succ, Z.pow_succ_r by lia. done. Qed.
Lemma pow_b_0 : pow_b 0 = 1.
Proof. done. Qed.
Lemma pow_b_pos n : 0 < pow_b n.
Proof. apply Z.pow_pos_nonneg; lia. Qed.
Lemma pow_b_add n k : pow_b (n + k) = pow_b n * pow_b k.
Proof. unfold pow_b. rewrite Nat2Z.inj_add, Z.pow_add_r by lia. done. Qed.

Lemma eval_app l k : eval (l ++ k) = eval l + pow_b (length l) * eval k.
Proof. induction l as [|x l IH]; cbn [app eval length]; rewrite ?pow_b_0, ?pow_b_S; [lia|]. rewrite IH. ring. Qed.

Lemma eval_zeros n : eval (replicate n 0) = 0.
Proof. induction n as [|n IH]; cbn [replicate eval]; lia. Qed.

Lemma eval_bound l : Forall is_u32 l -> 0 <= eval l < pow_b (length l).
Proof.
  induction 1 as [|x l Hx _ IH]; cbn [eval length]; rewrite ?pow_b_0, ?pow_b_S; [lia|]. unfold is_u32 in Hx. lia.
Qed.

(** ** Rows *)

Lemma u64_id z : 0 <= z < 18446744073709551616 -> u64 z = z.
Proof. apply Z.mod_small. Qed.

Lemma split_u64 z : 0 <= z < 18446744073709551616 -> is_u32 (u32 z) /\ z = u32 z + B * Z.shiftr z 32 /\ 0 <= Z.shiftr z 32 < B.
Proof.
  intros Hz. split; [apply u32_range|]. rewrite Z.shiftr_div_pow2 by lia. change (2 ^ 32) with B. unfold u32. zlia.
Qed.

Lemma add_row_spec xs : forall ys c, length ys = length xs -> Forall is_u32 xs -> Forall is_u32 ys -> 0 <= c <= 1 ->
  exists r c', add_row xs ys c = (r, c') /\ length r = length xs /\ Forall is_u32 r /\ 0 <= c' <= 1 /\
    eval r + pow_b (length xs) * c' = eval xs + eval ys + c.
Proof.
  induction xs as [|x xs IH]; intros [|y ys] c Hl Hx Hy Hc; try done; cbn [add_row].
  { exists [], c. split; [done|]. split; [done|]. split; [constructor|]. split; [done|]. cbn [eval length]. rewrite pow_b_0. lia. }
  apply Forall_cons in Hx as [Hx Hxs]. apply Forall_cons in Hy as [Hy Hys]. unfold is_u32 in Hx, Hy.
  rewrite u64_id by lia. destruct (split_u64 (c + x + y) ltac:(lia)) as (Hu & E & Hs). pose proof Hu as Hu'. unfold is_u32 in Hu'.
  destruct (IH ys (Z.shiftr (c + x + y) 32)) as (r & c' & -> & Hr & Hur & Hc' & Ev); [by injection Hl|done|done|lia|].
  exists (u32 (c + x + y) :: r), c'. split; [done|]. split; [cbn; lia|]. split; [by constructor|]. split; [done|].
  cbn [eval length]. rewrite pow_b_S. lia.
Qed.

Lemma sub_row_spec xs : forall ys b, length ys = length xs -> Forall is_u32 xs -> Forall is_u32 ys -> 0 <= b <= 1 ->
  exists r b', sub_row xs ys b = (r, b') /\ length r = length xs /\ Forall is_u32 r /\ 0 <= b' <= 1 /\
    eval r - pow_b (length xs) * b' = eval xs - eval ys - b.
Proof.
  induction xs as [|x xs IH]; intros [|y ys] b Hl Hx Hy Hb; try done; cbn [sub_row].
  { exists [], b. split; [done|]. split; [done|]. split; [constructor|]. split; [done|]. cbn [eval length]. rewrite pow_b_0. lia. }
  apply Forall_cons in Hx as [Hx Hxs]. apply Forall_cons in Hy as [Hy Hys]. unfold is_u32 in Hx, Hy.
  rewrite u64_id by lia.
  destruct (IH ys (b2z (x <? y + b))) as (r & b' & -> & Hr & Hur & Hb' & Ev); [by injection Hl|done|done|by destruct (_ <? _); cbn; lia|].
  exists (u32 (x - (y + b)) :: r), b'. split; [done|]. split; [cbn; lia|]. split; [constructor; [apply u32_range|done]|]. split; [done|].
  cbn [eval length]. rewrite pow_b_S. assert (u32 (x - (y + b)) = x - (y + b) + B * b2z (x <? y + b)) as ->.
  { destruct (Z.ltb_spec x (y + b)); cbn [b2z]; unfold u32; [|rewrite Z.mod_small by lia; lia].
    rewrite <- (Z_mod_plus_full _ 1), Z.mod_small by lia. lia. }
  lia.
Qed.

Lemma mul_row_spec ys : forall a t x, length t = length ys -> Forall is_u32 ys -> Forall is_u32 t -> is_u32 a -> is_u32 x ->
  exists r x', mul_row ys a t x = (r, x') /\ length r = length ys /\ Forall is_u32 r /\ is_u32 x' /\
    eval r + pow_b (length ys) * x' = eval t + a * eval ys + x.
Proof.
  induction ys as [|y ys IH]; intros a [|z t] x Hl Hy Ht Ha Hx; try done; cbn [mul_row].
  { exists [], x. split; [done|]. split; [done|]. split; [constructor|]. split; [done|]. cbn [eval length]. rewrite pow_b_0. lia. }
  apply Forall_cons in Hy as [Hy Hys]. apply Forall_cons in Ht as [Hz Ht]. pose proof Ha as Ha'. unfold is_u32 in Hy, Hz, Ha, Hx.
  assert (0 <= a * y <= 18446744065119617025) by nia.
  rewrite (u64_id (a * y)), (u64_id (a * y + z)), (u64_id (x + (a * y + z))) by lia.
  destruct (split_u64 (x + (a * y + z)) ltac:(lia)) as (Hu & E & Hs).
  destruct (IH a t (Z.shiftr (x + (a * y + z)) 32)) as (r & x' & -> & Hr & Hur & Hx' & Ev); [by injection Hl|done|done|done|done|].
  exists (u32 (x + (a * y + z)) :: r), x'. split; [done|]. split; [cbn; lia|]. split; [by constructor|]. split; [done|].
  cbn [eval length]. rewrite pow_b_S. nia.
Qed.

Lemma shift_bit x c : is_u32 x -> 0 <= c <= 1 -> Z.lor (u32 (Z.shiftl x 1)) c = u32 (2 * x) + c /\
  is_u32 (u32 (2 * x) + c) /\ 0 <= Z.shiftr x 31 <= 1 /\ u32 (2 * x) + B * Z.shiftr x 31 = 2 * x.
Proof.
  unfold is_u32. intros Hx Hc. rewrite Z.shiftl_mul_pow2, Z.shiftr_div_pow2 by lia. change (2 ^ 1) with 2. change (2 ^ 31) with 2147483648.
  rewrite (Z.mul_comm x 2). assert (Ev : u32 (2 * x) = 2 * (x mod 2147483648)).
  { unfold u32. change B with (2 * 2147483648). rewrite Z.mul_mod_distr_l by lia. done. }
  split; [|rewrite Ev; zlia]. rewrite Ev. assert (c = 0 \/ c = 1) as [-> | ->] by lia; [by rewrite Z.lor_0_r, Z.add_0_r|].
  change 1 with (Z.b2z true) at 1. rewrite Z.lor_comm. symmetry. rewrite Z.add_comm. rewrite <- Z.lxor_lor.
  - symmetry. change (Z.b2z true) with 1. rewrite Z.add_nocarry_lxor; [done|]. apply Z.bits_inj'. intros k Hk. rewrite Z.land_spec, Z.bits_0.
    destruct (Z.eq_dec k 0) as [->|]; [by rewrite Z.testbit_even_0, andb_false_r|].
    rewrite (Z.bits_above_log2 1 k) by (cbn; lia). done.
  - apply Z.bits_inj'. intros k Hk. rewrite Z.land_spec, Z.bits_0.
    destruct (Z.eq_dec k 0) as [->|]; [by rewrite Z.testbit_even_0, andb_false_r|].
    rewrite (Z.bits_above_log2 _ k) by (cbn; lia). done.
Qed.

Lemma shift_row_spec xs : forall c, Forall is_u32 xs -> 0 <= c <= 1 ->
  exists r c', shift_row xs c = (r, c') /\ length r = length xs /\ Forall is_u32 r /\ 0 <= c' <= 1 /\
    eval r + pow_b (length xs) * c' = 2 * eval xs + c.
Proof.
  induction xs as [|x xs IH]; intros c Hx Hc; cbn [shift_row].
  { exists [], c. split; [done|]. split; [done|]. split; [constructor|]. split; [done|]. cbn [eval length]. rewrite pow_b_0. lia. }
  apply Forall_cons in Hx as [Hx Hxs]. destruct (shift_bit x c Hx Hc) as (E & Hu & Hs & Ev). rewrite E.
  destruct (IH _ Hxs Hs) as (r & c' & -> & Hr & Hur & Hc' & Evr).
  eexists _, c'. split; [done|]. split; [cbn; lia|]. split; [by constructor|]. split; [done|]. cbn [eval length]. rewrite pow_b_S. lia.
Qed.

(** ** Prefixes of the limbs *)

Lemma take_S_default (l : list Z) k : (k < length l)%nat -> take (S k) l = take k l ++ [default 0 (l !! k)].
Proof. intros Hk. destruct (lookup_lt_is_Some_2 l k Hk) as [x Hx]. rewrite (take_S_r _ _ x Hx), Hx. done. Qed.

Lemma default_u32 (l : list Z) k : Forall is_u32 l -> is_u32 (default 0 (l !! k)).
Proof.
  intros Hl. destruct (l !! k) as [x|] eqn:E; [|unfold is_u32; cbn; lia]. rewrite Forall_lookup in Hl. by apply (Hl k).
Qed.

Lemma eval_take_S l k : (k < length l)%nat -> eval (take (S k) l) = eval (take k l) + pow_b k * default 0 (l !! k).
Proof. intros Hk. rewrite take_S_default, eval_app, length_take, Nat.min_l by lia. cbn [eval]. ring. Qed.

Lemma compare_down_spec n l r : Forall is_u32 l -> Forall is_u32 r -> (n <= length l)%nat -> (n <= length r)%nat ->
  match eval (take n l) ?= eval (take n r) with
  | Lt => compare_down n l r = -1
  | Eq => compare_down n l r = 0
  | Gt => compare_down n l r = 1
  end.
Proof.
  intros Hl Hr. induction n as [|k IH]; intros H1 H2; [done|]. rewrite !eval_take_S by lia. cbn [compare_down].
  pose proof (eval_bound (take k l) (Forall_take _ _ _ Hl)) as Bl. pose proof (eval_bound (take k r) (Forall_take _ _ _ Hr)) as Br.
  rewrite length_take, Nat.min_l in Bl, Br by lia. pose proof (pow_b_pos k).
  set (x := default 0 (l !! k)) in *. set (y := default 0 (r !! k)) in *.
  destruct (Z.eqb_spec x y) as [E|Hne]; cbn [negb].
  - specialize (IH ltac:(lia) ltac:(lia)). rewrite E. rewrite !(Z.add_comm (eval _)), Z.add_compare_mono_l. exact IH.
  - destruct (Z.ltb_spec y x).
    + rewrite (proj2 (Z.compare_gt_iff _ _)) by nia. done.
    + rewrite (proj2 (Z.compare_lt_iff _ _)) by nia. done.
Qed.

Lemma norm_len_spec l n : (n <= length l)%nat -> 0 <= norm_len l n <= Z.of_nat n /\
  eval (take (Z.to_nat (norm_len l n)) l) = eval (take n l) /\
  (norm_len l n = 0 \/ default 0 (l !! Z.to_nat (norm_len l n - 1)) <> 0).
Proof.
  induction n as [|k IH]; intros Hn; cbn [norm_len]; [by split; [lia|split; [|left]]|].
  destruct (Z.eqb_spec (default 0 (l !! k)) 0) as [E|Hne].
  - destruct (IH ltac:(lia)) as (Hb & He & Hz). split; [lia|]. split; [|done]. rewrite eval_take_S, E by lia. lia.
  - split; [lia|]. rewrite Nat2Z.id. split; [done|]. right. replace (Z.to_nat (Z.of_nat (S k) - 1)) with k by lia. done.
Qed.

(** Limbs past a bound on the value are zero. *)
Lemma eval_take_small l k : Forall is_u32 l -> (k <= length l)%nat -> eval l < pow_b k -> eval (take k l) = eval l.
Proof.
  intros Hl Hk Hlt. rewrite <- (take_drop k l), eval_app, length_take, Nat.min_l in Hlt by done. rewrite <- (take_drop k l) at 2.
  rewrite eval_app, length_take, Nat.min_l by done. pose proof (pow_b_pos k).
  pose proof (eval_bound _ (Forall_take _ k _ Hl)). pose proof (eval_bound _ (Forall_drop _ k _ Hl)).
  assert (eval (drop k l) = 0) as -> by (destruct (Z.eq_dec (eval (drop k l)) 0); [done|nia]). lia.
Qed.

(** ** Numbers *)

Definition value (v : bigint_t) : Z := eval (take (Z.to_nat (big_len v)) (limbs v)).
Definition wf_big (v : bigint_t) : Prop :=
  length (limbs v) = Z.to_nat (capacity v) /\ 0 <= big_len v <= capacity v /\ capacity v < 65536 /\ Forall is_u32 (limbs v).
Definition normal (v : bigint_t) : Prop := big_len v = 0 \/ limb v (Z.to_nat (big_len v - 1)) <> 0.

(** [v] is a residue of [n] limbs with value [x]: the limbs from its length to [n] are
    zero. *)
Definition holds_limbs (n : Z) (v : bigint_t) (x : Z) : Prop :=
  wf_big v /\ big_len v <= n <= capacity v /\ value v = x /\ eval (take (Z.to_nat n) (limbs v)) = x.

Lemma raw_take v n : wf_big v -> 0 <= n <= capacity v -> raw v n = take (Z.to_nat n) (limbs v).
Proof.
  intros (Hl & _) Hn. unfold raw, limb. assert (Hk : (Z.to_nat n <= length (limbs v))%nat) by lia. revert Hk.
  generalize (Z.to_nat n) as k. clear. intros k Hk. induction k as [|k IH]; [done|].
  rewrite seq_S, map_app, IH by lia. cbn. by rewrite take_S_default by lia.
Qed.

Lemma raw_length v n : length (raw v n) = Z.to_nat n.
Proof. unfold raw. by rewrite length_map, length_seq. Qed.

Lemma raw_u32 v n : wf_big v -> Forall is_u32 (raw v n).
Proof. intros (_ & _ & _ & Hu). apply Forall_fmap, Forall_forall. intros k _. by apply default_u32. Qed.

Lemma raw_value v : wf_big v -> eval (raw v (big_len v)) = value v.
Proof. intros Hw. rewrite raw_take; [done|done|]. destruct Hw as (_ & Hn & _). lia. Qed.

Lemma digits_length v n : length (digits v n) = Z.to_nat n.
Proof. unfold digits. by rewrite length_map, length_seq. Qed.

Lemma digits_u32 v n : wf_big v -> Forall is_u32 (digits v n).
Proof.
  intros (_ & _ & _ & Hu). apply Forall_fmap, Forall_forall. intros k _. cbn. destruct (_ <? _); [by apply default_u32|unfold is_u32; lia].
Qed.

Lemma digits_value v n : wf_big v -> big_len v <= n -> eval (digits v n) = value v.
Proof.
  intros Hw Hn. rewrite <- (raw_value v Hw). unfold digits, raw. destruct Hw as (_ & Hb & _).
  replace (Z.to_nat n) with (Z.to_nat (big_len v) + (Z.to_nat n - Z.to_nat (big_len v)))%nat by lia.
  rewrite seq_app, map_app, eval_app. rewrite (map_ext_in _ (limb v) (seq 0 _)).
  2:{ intros k Hk%in_seq. rewrite (proj2 (Z.ltb_lt _ _)) by lia. done. }
  rewrite (map_ext_in _ (fun _ => 0) (seq _ (_ - _))).
  2:{ intros k Hk%in_seq. rewrite (proj2 (Z.ltb_ge _ _)) by lia. done. }
  assert (E : forall k j, eval (map (fun _ => 0) (seq j k)) = 0) by (intros k; induction k as [|k IH]; intros j; cbn; [|rewrite IH]; lia).
  rewrite E. lia.
Qed.

(** ** Storing a row *)

Lemma store_wf v r len : wf_big v -> (length r <= length (limbs v))%nat -> Forall is_u32 r -> 0 <= len <= capacity v -> wf_big (store v r len).
Proof.
  intros (Hl & Hb & Hc & Hu) Hr Hur Hn. split; [|split; [|split]]; cbn; [|done|done|].
  - rewrite length_app, length_drop. lia.
  - apply Forall_app. split; [done|]. by apply Forall_drop.
Qed.

Lemma store_take v r len k : (k <= length r)%nat -> take k (limbs (store v r len)) = take k r.
Proof. intros Hk. cbn. by rewrite take_app_le by lia. Qed.

Lemma normalize_holds v n : wf_big v -> big_len v = n -> holds_limbs n (bigint_normalize v) (value v) /\ normal (bigint_normalize v).
Proof.
  intros (Hl & Hb & Hc & Hu) <-. destruct (norm_len_spec (limbs v) (Z.to_nat (big_len v)) ltac:(lia)) as (Hn & He & Hz).
  split; [|exact Hz]. split; [split; [done|split; [cbn; lia|done]]|]. split; [cbn; lia|]. done.
Qed.

(** A row of [n] limbs stored and normalised. *)
Lemma store_row v r n : wf_big v -> 0 <= n <= capacity v -> length r = Z.to_nat n -> Forall is_u32 r ->
  holds_limbs n (bigint_normalize (store v r n)) (eval r) /\ normal (bigint_normalize (store v r n)).
Proof.
  intros Hw Hn Hr Hu. assert (Hs : wf_big (store v r n)).
  { apply store_wf; [done|destruct Hw as (Hl & _); lia|done|lia]. }
  pose proof (normalize_holds _ n Hs eq_refl) as Hh. unfold value in Hh. cbn [big_len store] in Hh. rewrite store_take in Hh by lia.
  rewrite take_ge in Hh by lia. exact Hh.
Qed.
