(* ===== verification/BigIntMod.v ===== *)
(** * Modular arithmetic of limbs

    The modular operations of BigInt against [Z.modulo], and the plain sum, difference
    and product. *)

From Stdlib Require Import ZArith Lia Znumtheory.
From stdpp Require Import base numbers option tactics list.
From S2P Require Import Prelude Bytes BigInt.

Lemma zero_wf v : wf_big v -> wf_big (bigint_zero v).
Proof.
  intros Hw. apply store_wf; [done|rewrite length_replicate; destruct Hw as (Hl & _); lia| |destruct Hw as (_ & Hb & _); lia].
  apply Forall_replicate. unfold is_u32. lia.
Qed.

Lemma zero_limbs v : wf_big v -> limbs (bigint_zero v) = replicate (Z.to_nat (capacity v)) 0.
Proof. intros (Hl & _). cbn. rewrite drop_ge, app_nil_r by (rewrite length_replicate; lia). done. Qed.

Lemma zero_holds v n : wf_big v -> 0 <= n <= capacity v -> holds_limbs n (bigint_zero v) 0.
Proof.
  intros Hw Hn. split; [by apply zero_wf|]. split; [cbn; lia|]. split; [done|]. rewrite zero_limbs by done.
  rewrite take_replicate. apply eval_zeros.
Qed.

Lemma holds_raw n v x : 0 <= n -> holds_limbs n v x -> eval (raw v n) = x.
Proof. intros H0 (Hw & Hn & _ & He). by rewrite raw_take by (done || lia). Qed.

Lemma holds_digits n v x : holds_limbs n v x -> eval (digits v n) = x.
Proof. intros (Hw & Hn & Hv & _). by rewrite digits_value by (done || lia). Qed.

Lemma holds_wf n v x : holds_limbs n v x -> wf_big v.
Proof. by intros (Hw & _). Qed.

Lemma holds_nonneg n v x : holds_limbs n v x -> 0 <= x.
Proof. intros (Hw & _ & <- & _). apply eval_bound. destruct Hw as (_ & _ & _ & Hu). by apply Forall_take. Qed.

(** The loops over bits. *)
Definition is_bit (b : Z) : Prop := b = 0 \/ b = 1.
Definition horner (bits : list Z) (x : Z) : Z := fold_left (fun x b => 2 * x + b) bits x.

Lemma land_1_mod x : Z.land x 1 = x mod 2.
Proof. by apply (Z.land_ones x 1). Qed.

Lemma land_1 x : is_bit (Z.land x 1).
Proof. rewrite land_1_mod. unfold is_bit. pose proof (Z.mod_pos_bound x 2). lia. Qed.

Lemma horner_limb_gen x k acc : 0 <= x -> 0 <= k ->
  horner (map (fun bit => Z.land (Z.shiftr x bit) 1) (rev (seqZ 0 k))) acc = acc * 2 ^ k + x mod 2 ^ k.
Proof.
  intros Hx Hk. revert acc. pattern k. apply natlike_ind; [| |exact Hk].
  { intros acc. rewrite Z.pow_0_r, Z.mod_1_r. change (acc = acc * 1 + 0). lia. }
  clear k Hk. intros k Hk IH acc. rewrite <- Z.add_1_r, seqZ_app, rev_app_distr by lia. cbn [seqZ rev app map]. replace (0 + k) with k by lia.
  change (seqZ k 1) with [0 + k]. replace (0 + k) with k by lia. cbn [rev app map horner fold_left].
  fold (horner (map (fun bit => Z.land (Z.shiftr x bit) 1) (rev (seqZ 0 k))) (2 * acc + Z.land (Z.shiftr x k) 1)). rewrite IH.
  rewrite land_1_mod, Z.shiftr_div_pow2 by lia. rewrite Z.pow_add_r by lia. change (2 ^ 1) with 2.
  rewrite (Z.rem_mul_r x (2 ^ k) 2) by lia. ring.
Qed.

Lemma horner_app a b x : horner (a ++ b) x = horner b (horner a x).
Proof. unfold horner. by rewrite fold_left_app. Qed.

Lemma horner_down l : Forall is_u32 l -> forall acc, horner (bits_down l) acc = acc * pow_b (length l) + eval l.
Proof.
  intros Hl. unfold bits_down. induction Hl as [|x l Hx Hl IH]; intros acc; cbn [rev]; [cbn; rewrite pow_b_0; lia|].
  rewrite map_app, concat_app, horner_app, IH. cbn [map concat eval length]. rewrite app_nil_r. unfold limb_bits, is_u32 in *.
  rewrite horner_limb_gen, pow_b_S by lia. change (2 ^ 32) with B. rewrite Z.mod_small by lia. ring.
Qed.

Lemma bits_down_bits l : Forall is_bit (bits_down l).
Proof.
  unfold bits_down. apply Forall_concat. apply Forall_fmap, Forall_forall. intros x _. cbn. apply Forall_fmap, Forall_forall. intros k _. apply land_1.
Qed.

(** Bits from the lowest up. *)
Fixpoint bits_value (bits : list Z) : Z := match bits with [] => 0 | b :: bits => b + 2 * bits_value bits end.

Lemma bits_value_app a b : bits_value (a ++ b) = bits_value a + 2 ^ Z.of_nat (length a) * bits_value b.
Proof.
  induction a as [|x a IH]; [cbn; lia|]. cbn [app bits_value length]. rewrite IH, Nat2Z.inj_succ, Z.pow_succ_r by lia. ring.
Qed.

Lemma bits_value_limb x k : 0 <= x -> 0 <= k -> bits_value (map (fun bit => Z.land (Z.shiftr x bit) 1) (seqZ 0 k)) = x mod 2 ^ k.
Proof.
  intros Hx Hk. pattern k. apply natlike_ind; [| |exact Hk].
  { rewrite Z.pow_0_r, Z.mod_1_r. done. }
  clear k Hk. intros k Hk IH. rewrite <- Z.add_1_r, seqZ_app by lia. replace (0 + k) with k by lia.
  change (seqZ k 1) with [0 + k]. replace (0 + k) with k by lia. rewrite map_app, bits_value_app, IH. cbn [map bits_value].
  rewrite length_map, length_seqZ, Z2Nat.id by lia. rewrite land_1_mod, Z.shiftr_div_pow2, Z.pow_add_r by lia. change (2 ^ 1) with 2.
  rewrite (Z.rem_mul_r x (2 ^ k) 2) by lia. ring.
Qed.

Lemma bits_up_value l : Forall is_u32 l -> bits_value (bits_up l) = eval l.
Proof.
  induction 1 as [|x l Hx Hl IH]; [done|]. change (bits_up (x :: l)) with (limb_bits_up x ++ bits_up l).
  rewrite bits_value_app, IH. unfold limb_bits_up at 1. unfold is_u32 in *. rewrite bits_value_limb by lia. change (2 ^ 32) with B.
  unfold limb_bits_up. rewrite length_map, length_seqZ. change (2 ^ Z.of_nat (Z.to_nat 32)) with B. cbn [eval]. rewrite Z.mod_small by lia. lia.
Qed.

Lemma bits_up_bits l : Forall is_bit (bits_up l).
Proof.
  unfold bits_up. apply Forall_concat. apply Forall_fmap, Forall_forall. intros x _. cbn. apply Forall_fmap, Forall_forall. intros k _. apply land_1.
Qed.

(** ** Reduction by one modulus *)
Section Modulus.
Context (m : bigint_t) (Hm : wf_big m) (Hpos : 0 < value m).
Abbreviation n := (big_len m).
Abbreviation M := (value m).

Lemma modulus_len : 0 <= n <= capacity m.
Proof using Hm. destruct Hm as (_ & Hb & _). lia. Qed.

Lemma modulus_nonzero : n <> 0.
Proof using Hpos. intros E. unfold value in Hpos. rewrite E in Hpos. change (0 < 0) in Hpos. lia. Qed.

Lemma modulus_bound : M < pow_b (Z.to_nat n).
Proof using Hm.
  rewrite <- (raw_value m Hm). pose proof (eval_bound _ (raw_u32 m n Hm)) as Hb. rewrite raw_length in Hb. lia.
Qed.

Lemma once_off x : 0 <= x < 2 * M -> x mod M = if M <=? x then x - M else x.
Proof using Hpos.
  intros Hx. destruct (Z.leb_spec M x); [|rewrite Z.mod_small; lia].
  rewrite <- (Z_mod_plus_full x (-1)), Z.mod_small; lia.
Qed.

Lemma take_off_spec r carry : length r = Z.to_nat n -> Forall is_u32 r -> 0 <= carry <= 1 ->
  eval r + pow_b (Z.to_nat n) * carry < 2 * M ->
  length (take_off r carry m) = Z.to_nat n /\ Forall is_u32 (take_off r carry m) /\
    eval (take_off r carry m) = (eval r + pow_b (Z.to_nat n) * carry) mod M.
Proof using Hm Hpos.
  intros Hr Hu Hc Hlt. pose proof (eval_bound r Hu) as Hb. rewrite Hr in Hb. pose proof modulus_bound as HM. pose proof modulus_len as Hn.
  rewrite once_off by nia. unfold take_off, bigint_raw_compare, bigint_raw_subtract.
  pose proof Hm as (Hl & _ & _ & Hmu).
  pose proof (compare_down_spec (Z.to_nat n) r (limbs m) Hu Hmu ltac:(lia) ltac:(lia)) as Hcmp.
  rewrite take_ge in Hcmp by lia. fold M in Hcmp.
  destruct (sub_row_spec r (raw m n) 0) as (d & b & Ed & Hd & Hud & Hb' & Ev); [rewrite raw_length; lia|done|by apply raw_u32|lia|].
  rewrite raw_value, Hr in Ev by done. rewrite Ed. cbn [fst]. rewrite Hr in Hd.
  pose proof (eval_bound d Hud) as Hbd. rewrite Hd in Hbd.
  assert (Hcase : c_true carry || (0 <=? compare_down (Z.to_nat n) r (limbs m)) = (M <=? eval r + pow_b (Z.to_nat n) * carry)).
  { assert (carry = 0 \/ carry = 1) as [-> | ->] by lia; cbn [c_true Z.eqb negb orb].
    - destruct (Z.compare_spec (eval r) M); rewrite Hcmp; destruct (Z.leb_spec M (eval r + pow_b (Z.to_nat n) * 0)); (reflexivity || lia).
    - symmetry. apply Z.leb_le. lia. }
  rewrite Hcase. destruct (Z.leb_spec M (eval r + pow_b (Z.to_nat n) * carry)) as [Hge|Hlt'].
  - split; [done|]. split; [done|]. assert (b = 0 \/ b = 1) as [-> | ->] by lia; assert (carry = 0 \/ carry = 1) as [-> | ->] by lia; lia.
  - split; [done|]. split; [done|]. assert (carry = 0 \/ carry = 1) as [-> | ->] by lia; lia.
Qed.

Lemma shift_add_spec o x bit : holds_limbs n o x -> x < M -> is_bit bit ->
  holds_limbs n (bigint_mod_shift_add o m bit) ((2 * x + bit) mod M) /\ normal (bigint_mod_shift_add o m bit).
Proof using Hm Hpos.
  intros Ho Hx Hb. pose proof modulus_len as Hn. pose proof (holds_wf _ _ _ Ho) as Hw. pose proof (holds_nonneg _ _ _ Ho) as H0.
  unfold bigint_mod_shift_add. assert (0 <= bit <= 1) by (destruct Hb; lia).
  destruct (shift_row_spec (raw o n) bit) as (r & c & -> & Hr & Hu & Hc & Ev); [by apply raw_u32|done|].
  rewrite raw_length in Hr, Ev. rewrite (holds_raw n o x) in Ev by (done || lia).
  destruct (take_off_spec r c Hr Hu Hc ltac:(lia)) as (Ht & Htu & Hte). rewrite Ev in Hte. rewrite <- Hte.
  apply store_row; [done| |done|done]. destruct Ho as (_ & Ho & _). lia.
Qed.

Lemma shift_adds_spec bits : forall o x, holds_limbs n o x -> x < M -> Forall is_bit bits ->
  holds_limbs n (fold_left (fun o bit => bigint_mod_shift_add o m bit) bits o) (horner bits x mod M).
Proof using Hm Hpos.
  induction bits as [|b bits IH]; intros o x Ho Hx Hb; cbn [fold_left horner].
  { rewrite Z.mod_small; [done|]. pose proof (holds_nonneg _ _ _ Ho). lia. }
  apply Forall_cons in Hb as [Hb Hbs]. destruct (shift_add_spec o x b Ho Hx Hb) as [Ho' _].
  pose proof (Z.mod_pos_bound (2 * x + b) M Hpos). specialize (IH _ _ Ho' ltac:(lia) Hbs).
  assert (E : forall l y, horner l (y mod M) mod M = horner l y mod M).
  { clear. intros l. unfold horner. induction l as [|c l IHl]; intros y; cbn [fold_left]; [by rewrite Zmod_mod|].
    rewrite <- (IHl (2 * (y mod M) + c)), <- (IHl (2 * y + c)). do 2 f_equal.
    by rewrite <- Zplus_mod_idemp_l, Zmult_mod_idemp_r, Zplus_mod_idemp_l. }
  rewrite E in IH. exact IH.
Qed.

(** [bigint_mod_reduce]: the remainder. *)
Lemma mod_reduce_spec o x : wf_big o -> n <= capacity o -> wf_big x ->
  exists o', bigint_mod_reduce (Some o) (Some x) (Some m) = (0, Some o') /\ holds_limbs n o' (value x mod M) /\
    capacity o' = capacity o.
Proof using Hm Hpos.
  intros Ho Hn Hx. pose proof modulus_len as Hml. pose proof modulus_nonzero. unfold bigint_mod_reduce.
  rewrite (proj2 (Z.eqb_neq n 0)), (proj2 (Z.ltb_ge (capacity o) n)) by lia. cbn [orb]. eexists. split; [done|]. split.
  - pose proof (shift_adds_spec (bits_down (raw x (big_len x))) (bigint_zero o) 0) as Hs.
    rewrite horner_down, Z.mul_0_l, Z.add_0_l, raw_value in Hs by (done || by apply raw_u32).
    apply Hs; [apply zero_holds; [done|lia]|lia|apply bits_down_bits].
  - generalize (bits_down (raw x (big_len x))) as bits. change (capacity o) with (capacity (bigint_zero o)). generalize (bigint_zero o) as o0.
    intros o0 bits. revert o0. induction bits as [|b bits IH]; intros o0; [done|]. cbn [fold_left]. rewrite IH.
    unfold bigint_mod_shift_add. by destruct (shift_row _ _).
Qed.

(** [bigint_mod_add]: the sum of two residues. *)
Lemma mod_add_spec o x y a b : wf_big o -> n <= capacity o -> holds_limbs n x a -> holds_limbs n y b -> a < M -> b < M ->
  exists o', bigint_mod_add o x y m = (0, o') /\ holds_limbs n o' ((a + b) mod M) /\ normal o' /\ capacity o' = capacity o.
Proof using Hm Hpos.
  intros Ho Hn Hx Hy Ha Hb. pose proof modulus_len as Hml. unfold bigint_mod_add.
  rewrite (proj2 (Z.ltb_ge (capacity o) n)) by lia.
  destruct (add_row_spec (digits x n) (digits y n) 0) as (r & c & -> & Hr & Hu & Hc & Ev);
    [by rewrite !digits_length|apply digits_u32; by eapply holds_wf|apply digits_u32; by eapply holds_wf|lia|].
  rewrite digits_length in Hr, Ev. rewrite (holds_digits _ _ _ Hx), (holds_digits _ _ _ Hy), Z.add_0_r in Ev.
  destruct (take_off_spec r c Hr Hu Hc ltac:(lia)) as (Ht & Htu & Hte). rewrite Ev in Hte. eexists. split; [done|]. rewrite <- Hte.
  destruct (store_row o (take_off r c m) n) as [H1 H2]; [done|lia|done|done|]. done.
Qed.

(** ** Fixed width *)

(** The first [n] limbs of [v] stand for [x]. *)
Definition wide (v : bigint_t) (x : Z) : Prop := wf_big v /\ n <= capacity v /\ eval (raw v n) = x.

Lemma holds_wide v x : holds_limbs n v x -> wide v x.
Proof using Hm. intros Hv. pose proof modulus_len. split; [by eapply holds_wf|]. split; [destruct Hv as (_ & Hv & _); lia|]. apply holds_raw; [lia|done]. Qed.

Lemma mask_eval l bit : Forall is_u32 l -> is_bit bit ->
  Forall is_u32 (map (fun y => Z.land y (u32 (0 - bit))) l) /\ eval (map (fun y => Z.land y (u32 (0 - bit))) l) = bit * eval l.
Proof.
  intros Hl Hb. induction Hl as [|y l Hy _ [IH1 IH2]]; cbn [map eval]; [split; [constructor|lia]|].
  assert (Z.land y (u32 (0 - bit)) = bit * y) as ->.
  { destruct Hb as [-> | ->]; [by rewrite Z.land_0_r|]. change (u32 (0 - 1)) with (Z.ones 32). rewrite Z.land_ones, Z.mod_small by (lia || exact Hy). lia. }
  split; [constructor; [destruct Hb as [-> | ->]; unfold is_u32 in *; lia|done]|]. rewrite IH2. lia.
Qed.

Lemma store_wide o r : wf_big o -> n <= capacity o -> length r = Z.to_nat n -> Forall is_u32 r -> holds_limbs n (store o r n) (eval r).
Proof using Hm.
  intros Ho Hn Hr Hu. pose proof modulus_len. assert (Hw : wf_big (store o r n)).
  { apply store_wf; [done|destruct Ho as (Hl & _); lia|done|lia]. }
  split; [done|]. split; [cbn; lia|]. unfold value. change (big_len (store o r n)) with n. rewrite store_take, take_ge by lia. done.
Qed.

Lemma add_ct_spec o x y a b bit : wf_big o -> n <= capacity o -> wide x a -> wide y b -> a < M -> b < M -> is_bit bit ->
  exists o', bigint_mod_add_ct_masked (Some o) (Some x) (Some y) (Some m) (u32 (0 - bit)) = (0, Some o') /\
    holds_limbs n o' ((a + bit * b) mod M) /\ capacity o' = capacity o.
Proof using Hm Hpos.
  intros Ho Hn (Hx & Hnx & Ex) (Hy & Hny & Ey) Ha Hb Hbit. pose proof modulus_len. pose proof modulus_nonzero. pose proof modulus_bound as HM.
  pose proof (eval_bound _ (raw_u32 x n Hx)) as Bx. pose proof (eval_bound _ (raw_u32 y n Hy)) as By. rewrite Ex in Bx. rewrite Ey in By.
  unfold bigint_mod_add_ct_masked. rewrite (proj2 (Z.eqb_neq n 0)), !(proj2 (Z.ltb_ge _ _)) by lia. cbn [orb].
  destruct (mask_eval (raw y n) bit (raw_u32 y n Hy) Hbit) as [Hmu Hme]. rewrite Ey in Hme.
  destruct (add_row_spec (raw x n) (map (fun y => Z.land y (u32 (0 - bit))) (raw y n)) 0) as (r & c & -> & Hr & Hu & Hc & Ev);
    [by rewrite length_map, !raw_length|by apply raw_u32|done|lia|]. rewrite raw_length in Hr, Ev. rewrite Ex, Hme, Z.add_0_r in Ev.
  destruct (sub_row_spec r (raw m n) 0) as (d & bw & -> & Hd & Hud & Hbw & Evd); [by rewrite raw_length|done|by apply raw_u32|lia|].
  rewrite Hr in Hd, Evd. rewrite raw_value in Evd by done.
  assert (Hk : exists k, is_bit k /\ u32 (0 - Z.lxor (Z.lor (u32 c) (Z.lxor (u32 bw) 1)) 1) = u32 (0 - k) /\ (k = 0 <-> c = 1 \/ bw = 0)).
  { assert (c = 0 \/ c = 1) as [-> | ->] by lia; assert (bw = 0 \/ bw = 1) as [-> | ->] by lia;
      [exists 0|exists 1|exists 0|exists 0]; (split; [by (left + right)|split; [done|lia]]). }
  destruct Hk as (k & Hk & -> & Hkeep). destruct (mask_eval (raw m n) k (raw_u32 m n Hm) Hk) as [Hmu' Hme']. rewrite raw_value in Hme' by done.
  destruct (add_row_spec d (map (fun y => Z.land y (u32 (0 - k))) (raw m n)) 0) as (out & c2 & -> & Hout & Hou & Hc2 & Evo);
    [by rewrite length_map, raw_length|done|done|lia|]. rewrite Hd in Hout, Evo. rewrite Hme', Z.add_0_r in Evo.
  eexists. split; [done|]. split; [|done].
  pose proof (eval_bound r Hu) as Br. pose proof (eval_bound d Hud) as Bd. pose proof (eval_bound out Hou) as Bo. rewrite Hr in Br. rewrite Hd in Bd. rewrite Hout in Bo.
  assert (Hbb : 0 <= bit * b < M) by (destruct Hbit as [-> | ->]; lia). rewrite once_off by lia.
  replace (if M <=? a + bit * b then a + bit * b - M else a + bit * b) with (eval out); [by apply store_wide|].
  set (P := pow_b (Z.to_nat n)) in *. set (s := a + bit * b) in *.
  assert (c = 0 \/ c = 1) as [-> | ->] by lia; assert (bw = 0 \/ bw = 1) as [-> | ->] by lia; destruct Hk as [-> | ->];
    assert (c2 = 0 \/ c2 = 1) as [-> | ->] by lia; destruct (Z.leb_spec M s); lia.
Qed.

Lemma sub_ct_spec o x y a b : wf_big o -> n <= capacity o -> wide x a -> wide y b -> a < M -> b < M ->
  exists o', bigint_mod_subtract_ct (Some o) (Some x) (Some y) (Some m) = (0, Some o') /\ holds_limbs n o' ((a - b) mod M).
Proof using Hm Hpos.
  intros Ho Hn (Hx & Hnx & Ex) (Hy & Hny & Ey) Ha Hb. pose proof modulus_len. pose proof modulus_nonzero. pose proof modulus_bound as HM.
  pose proof (eval_bound _ (raw_u32 x n Hx)) as Bx. pose proof (eval_bound _ (raw_u32 y n Hy)) as By. rewrite Ex in Bx. rewrite Ey in By.
  unfold bigint_mod_subtract_ct. rewrite (proj2 (Z.eqb_neq n 0)), !(proj2 (Z.ltb_ge _ _)) by lia. cbn [orb].
  destruct (sub_row_spec (raw x n) (raw y n) 0) as (d & bw & -> & Hd & Hud & Hbw & Evd); [by rewrite !raw_length|by apply raw_u32|by apply raw_u32|lia|].
  rewrite raw_length in Hd, Evd. rewrite Ex, Ey, Z.sub_0_r in Evd. assert (Hbit : is_bit bw) by (unfold is_bit; lia).
  assert (u32 (0 - u32 bw) = u32 (0 - bw)) as -> by (destruct Hbit as [-> | ->]; done).
  destruct (mask_eval (raw m n) bw (raw_u32 m n Hm) Hbit) as [Hmu Hme]. rewrite raw_value in Hme by done.
  destruct (add_row_spec d (map (fun y => Z.land y (u32 (0 - bw))) (raw m n)) 0) as (out & c2 & -> & Hout & Hou & Hc2 & Evo);
    [by rewrite length_map, raw_length|done|done|lia|]. rewrite Hd in Hout, Evo. rewrite Hme, Z.add_0_r in Evo.
  eexists. split; [done|]. replace ((a - b) mod M) with (eval out); [by apply store_wide|].
  pose proof (eval_bound d Hud) as Bd. pose proof (eval_bound out Hou) as Bo. rewrite Hd in Bd. rewrite Hout in Bo. rewrite raw_length in Bx, By.
  destruct Hbit as [-> | ->]; assert (c2 = 0 \/ c2 = 1) as [-> | ->] by lia.
  all: try (rewrite Z.mod_small; lia). all: rewrite <- (Z_mod_plus_full (a - b) 1), Z.mod_small; lia.
Qed.

(** ** Products *)

Lemma step_mod u v b k : (((u + b * v) mod M) + ((v + v) mod M) * k) mod M = (u + v * (b + 2 * k)) mod M.
Proof.
  rewrite Zplus_mod_idemp_l. rewrite <- Zplus_mod_idemp_r, Zmult_mod_idemp_l, Zplus_mod_idemp_r. f_equal. ring.
Qed.

Lemma mul_loop_spec bits : forall o t u v, holds_limbs n o u -> holds_limbs n t v -> u < M -> v < M -> Forall is_bit bits ->
  exists o' t', mul_loop bits o t m = (0, o', t') /\ holds_limbs n o' ((u + v * bits_value bits) mod M) /\
    wf_big t' /\ capacity t' = capacity t /\ capacity o' = capacity o.
Proof using Hm Hpos.
  induction bits as [|b bits IH]; intros o t u v Ho Ht Hu Hv Hb; cbn [mul_loop bits_value].
  { exists o, t. split; [done|]. rewrite Z.mul_0_r, Z.add_0_r, Z.mod_small by (pose proof (holds_nonneg _ _ _ Ho); lia).
    split; [done|]. split; [by eapply holds_wf|done]. }
  apply Forall_cons in Hb as [Hb Hbs]. pose proof Ho as (Hwo & Hno & _). pose proof Ht as (Hwt & Hnt & _).
  assert (Hfirst : exists o1, (if c_true b then bigint_mod_add o o t m else (0, o)) = (0, o1) /\ holds_limbs n o1 ((u + b * v) mod M) /\ capacity o1 = capacity o).
  { destruct Hb as [-> | ->]; cbn [c_true Z.eqb negb].
    - exists o. split; [done|]. rewrite Z.mul_0_l, Z.add_0_r, Z.mod_small by (pose proof (holds_nonneg _ _ _ Ho); lia). done.
    - destruct (mod_add_spec o o t u v) as (o1 & -> & H1 & _ & H2); try done; [lia|]. exists o1. by rewrite Z.mul_1_l. }
  destruct Hfirst as (o1 & -> & Ho1 & Hc1). cbn [Z.eqb negb].
  destruct (mod_add_spec t t t v v) as (t1 & -> & Ht1 & _ & Hc2); try done; [lia|]. cbn [Z.eqb negb].
  pose proof (Z.mod_pos_bound (u + b * v) M Hpos). pose proof (Z.mod_pos_bound (v + v) M Hpos).
  destruct (IH o1 t1 _ _ Ho1 Ht1 ltac:(lia) ltac:(lia) Hbs) as (o' & t' & -> & Hr & Hw & Hc & Hco).
  exists o', t'. split; [done|]. rewrite step_mod in Hr. split; [done|]. split; [done|]. split; congruence.
Qed.

(** [bigint_mod_multiply]: the product of any two numbers, reduced. *)
Lemma mod_multiply_spec o x y t : wf_big o -> n <= capacity o -> wf_big x -> wf_big y -> wf_big t -> n <= capacity t ->
  exists o' t', bigint_mod_multiply (Some o) (Some x) (Some y) (Some m) (Some t) = (0, Some o', Some t') /\
    holds_limbs n o' ((value x * value y) mod M) /\ wf_big t' /\ capacity t' = capacity t /\ capacity o' = capacity o.
Proof using Hm Hpos.
  intros Ho Hno Hx Hy Ht Hnt. pose proof modulus_len. unfold bigint_mod_multiply. rewrite !(proj2 (Z.ltb_ge _ _)) by lia. cbn [orb].
  destruct (mod_reduce_spec t x Ht Hnt Hx) as (t1 & -> & Ht1 & Hc1). pose proof (Z.mod_pos_bound (value x) M Hpos).
  destruct (mul_loop_spec (bits_up (raw y (big_len y))) (bigint_zero o) t1 0 (value x mod M)) as (o' & t' & -> & Hr & Hw & Hc & Hco);
    [apply zero_holds; [done|lia]|done|lia|lia|apply bits_up_bits|].
  exists o', t'. split; [done|]. rewrite bits_up_value, raw_value, Z.add_0_l, Zmult_mod_idemp_l in Hr by (done || by apply raw_u32).
  split; [done|]. split; [done|]. split; [congruence|]. rewrite Hco. done.
Qed.

Lemma mul_ct_loop_spec bits : forall o t u v, holds_limbs n o u -> holds_limbs n t v -> u < M -> v < M -> Forall is_bit bits ->
  exists o' t', mul_ct_loop bits o t m = (0, o', t') /\ holds_limbs n o' ((u + v * bits_value bits) mod M).
Proof using Hm Hpos.
  induction bits as [|b bits IH]; intros o t u v Ho Ht Hu Hv Hb; cbn [mul_ct_loop bits_value].
  { exists o, t. split; [done|]. rewrite Z.mul_0_r, Z.add_0_r, Z.mod_small by (pose proof (holds_nonneg _ _ _ Ho); lia). done. }
  apply Forall_cons in Hb as [Hb Hbs]. pose proof Ho as (Hwo & Hno & _). pose proof Ht as (Hwt & Hnt & _).
  destruct (add_ct_spec o o t u v b) as (o1 & -> & Ho1 & _); try done; [lia|by apply holds_wide|by apply holds_wide|].
  unfold bigint_mod_add_ct. change 4294967295 with (u32 (0 - 1)).
  destruct (add_ct_spec t t t v v 1) as (t1 & -> & Ht1 & _); try done; [lia|by apply holds_wide|by apply holds_wide|by right|].
  rewrite Z.mul_1_l in Ht1. pose proof (Z.mod_pos_bound (u + b * v) M Hpos). pose proof (Z.mod_pos_bound (v + v) M Hpos).
  destruct (IH o1 t1 _ _ Ho1 Ht1 ltac:(lia) ltac:(lia) Hbs) as (o' & t' & -> & Hr). exists o', t'. split; [done|]. by rewrite step_mod in Hr.
Qed.

(** [bigint_mod_multiply_ct]: the product of two residues. *)
Lemma mod_multiply_ct_spec o x y t a b : wf_big o -> n <= capacity o -> wide x a -> wide y b -> a < M -> wf_big t -> n <= capacity t ->
  exists o' t', bigint_mod_multiply_ct (Some o) (Some x) (Some y) (Some m) (Some t) = (0, Some o', Some t') /\
    holds_limbs n o' ((a * b) mod M).
Proof using Hm Hpos.
  intros Ho Hno (Hx & Hnx & Ex) (Hy & Hny & Ey) Ha Ht Hnt. pose proof modulus_len. pose proof modulus_nonzero. unfold bigint_mod_multiply_ct.
  rewrite (proj2 (Z.eqb_neq n 0)), !(proj2 (Z.ltb_ge _ _)) by lia. cbn [orb].
  pose proof (store_wide o (replicate (Z.to_nat n) 0) Ho Hno (length_replicate _ _)) as Hzo. rewrite eval_zeros in Hzo.
  pose proof (store_wide t (raw x n) Ht Hnt (raw_length _ _) (raw_u32 x n Hx)) as Hzt. rewrite Ex in Hzt.
  destruct (mul_ct_loop_spec (bits_up (raw y n)) _ _ 0 a (Hzo ltac:(apply Forall_replicate; unfold is_u32; lia)) Hzt Hpos Ha (bits_up_bits _)) as (o' & t' & -> & Hr).
  exists o', t'. split; [done|]. by rewrite bits_up_value, Ey, Z.add_0_l in Hr by (by apply raw_u32).
Qed.
End Modulus.

(** * Montgomery multiplication

    [mont_mul] of BigInt divides a product by the power of two of its width modulo an
    odd number. *)

(** [t] and [hi] stand for a number below twice the modulus. *)
Definition mont_state (m : list Z) (s : list Z * Z) (T : Z) : Prop :=
  length s.1 = length m /\ Forall is_u32 s.1 /\ 0 <= s.2 <= 1 /\ eval s.1 + pow_b (length m) * s.2 = T /\ T < 2 * eval m.

Section Mont.
Context (a m : list Z) (n0inv : Z).
Context (Ha : length a = length m) (Hau : Forall is_u32 a) (Hmu : Forall is_u32 m) (Hlt : eval a < eval m).
Context (Hinv : (default 0 (head m) * n0inv) mod B = B - 1).

Abbreviation P := (pow_b (length m)).

Lemma mont_nonempty : (0 < length m)%nat.
Proof. destruct m as [|x l]; [|cbn; lia]. pose proof (eval_bound a Hau). cbn in Hlt. lia. Qed.

Lemma quotient_digit r0 : is_u32 r0 -> exists x, x = Z.shiftr (u64 (u64 (u32 (r0 * n0inv) * default 0 (head m)) + r0)) 32 /\
  is_u32 x /\ u32 (r0 * n0inv) * default 0 (head m) + r0 = B * x.
Proof.
  intros Hr. pose proof (u32_range (r0 * n0inv)) as Hq. unfold is_u32 in *. assert (Hm0 : is_u32 (default 0 (head m))).
  { destruct m; [cbn; unfold is_u32; lia|]. by inversion Hmu. }
  unfold is_u32 in Hm0. set (q := u32 (r0 * n0inv)) in *. set (m0 := default 0 (head m)) in *.
  assert (0 <= q * m0 <= 18446744065119617025) by nia. rewrite (u64_id (q * m0)), (u64_id (q * m0 + r0)) by lia.
  eexists. split; [done|]. rewrite Z.shiftr_div_pow2 by lia. change (2 ^ 32) with B.
  assert (Hz : (q * m0 + r0) mod B = 0).
  { unfold q, u32. rewrite <- Zplus_mod_idemp_l, Zmult_mod_idemp_l, Zplus_mod_idemp_l.
    replace (r0 * n0inv * m0 + r0) with (r0 * (m0 * n0inv) + r0) by ring. rewrite <- Zplus_mod_idemp_l, <- Zmult_mod_idemp_r, Hinv, Zplus_mod_idemp_l.
    replace (r0 * (B - 1) + r0) with (r0 * B) by ring. apply Z_mod_mult. }
  split; zlia.
Qed.

(** One round: the state plus a multiple of [a] and of the modulus, divided by 2^32. *)
Lemma mont_round_spec s T b : mont_state m s T -> is_u32 b ->
  exists T' q, mont_state m (mont_round a m n0inv s b) T' /\ B * T' = T + eval a * b + q * eval m /\ 0 <= T'.
Proof.
  destruct s as [t hi]. intros (Hl & Hu & Hh & ET & HT) Hb. cbn [fst snd] in *. pose proof mont_nonempty as Hne.
  unfold mont_round. destruct (mul_row_spec a b t 0) as (r & x & -> & Hr & Hru & Hx & Ev); [lia|done|done|done|unfold is_u32; lia|].
  rewrite Ha in Hr, Ev. pose proof Hx as Hx'. unfold is_u32 in Hx', Hb. rewrite (u64_id (x + hi)) by lia.
  destruct (split_u64 (x + hi) ltac:(lia)) as (Hu1 & E1 & Hs1). rewrite (u32_id (Z.shiftr (x + hi) 32)) by done.
  set (tn := u32 (x + hi)) in *. set (tn1 := Z.shiftr (x + hi) 32) in *.
  destruct r as [|r0 r]; [cbn in Hr; lia|]. change (default 0 (head (r0 :: r))) with r0. cbn [tl]. apply Forall_cons in Hru as [Hr0 Hru].
  destruct (quotient_digit r0 Hr0) as (x2 & <- & Hx2 & Eq). set (q := u32 (r0 * n0inv)) in *.
  destruct m as [|m0 m'] eqn:Em; [done|]. change (default 0 (head (m0 :: m'))) with m0 in *. cbn [tl]. apply Forall_cons in Hmu as [Hm0 Hm'].
  destruct (mul_row_spec m' q r x2) as (r2 & x3 & -> & Hr2 & Hru2 & Hx3 & Ev2); [cbn in Hr; lia|done|done|apply u32_range|done|].
  pose proof Hx3 as Hx3'. pose proof Hu1 as Hu1'. unfold is_u32 in Hx3', Hu1'. rewrite (u64_id (x3 + tn)) by lia.
  destruct (split_u64 (x3 + tn) ltac:(lia)) as (Hu4 & E4 & Hs4). rewrite (u32_id (Z.shiftr (x3 + tn) 32)) by done.
  set (x5 := u32 (x3 + tn)) in *. set (hi4 := Z.shiftr (x3 + tn) 32) in *. cbn [eval length] in Ev, HT, ET, Hlt |- *. rewrite pow_b_S in Ev, ET.
  set (Q := pow_b (length m')) in *. assert (HQ : 0 < Q) by apply pow_b_pos.
  set (T' := eval r2 + Q * x5 + B * Q * (tn1 + hi4)).
  assert (ET' : B * T' = T + eval a * b + q * (m0 + B * eval m')) by (unfold T'; nia).
  pose proof (eval_bound r2 Hru2) as Br2. pose proof (eval_bound a Hau) as Ba. assert (0 <= q < B) by apply u32_range.
  assert (HM : 0 < m0 + B * eval m' < B * Q).
  { pose proof (eval_bound (m0 :: m') ltac:(by constructor)) as Bm. cbn [eval length] in Bm. rewrite pow_b_S in Bm. lia. }
  assert (HT' : T' < 2 * (m0 + B * eval m')).
  { assert (eval a * b <= (m0 + B * eval m') * (B - 1)) by nia. assert (q * (m0 + B * eval m') <= (B - 1) * (m0 + B * eval m')) by nia. lia. }
  assert (Hhi : 0 <= tn1 + hi4 <= 1) by (unfold T' in HT'; rewrite Hr2 in Br2; fold Q in Br2; unfold is_u32 in *; nia).
  rewrite (u32_id (tn1 + hi4)) by (unfold is_u32; lia). exists T', q. split; [|split; [done|unfold T'; unfold is_u32 in *; nia]].
  split; [|split; [|split; [exact Hhi|split; [|exact HT']]]]; cbn [fst snd].
  - rewrite length_app. cbn. lia.
  - apply Forall_app. split; [done|]. by constructor.
  - rewrite eval_app, Hr2. fold Q. cbn [eval]. unfold T'. cbn [length]. rewrite pow_b_S. fold Q. lia.
Qed.

Lemma mont_rounds_spec b : forall s T, mont_state m s T -> 0 <= T -> Forall is_u32 b ->
  exists T' k, mont_state m (fold_left (mont_round a m n0inv) b s) T' /\ pow_b (length b) * T' = T + eval a * eval b + k * eval m /\ 0 <= T'.
Proof.
  induction b as [|x b IH]; intros s T Hs H0 Hb; cbn [fold_left length eval].
  { exists T, 0. rewrite pow_b_0. split; [done|]. lia. }
  apply Forall_cons in Hb as [Hx Hb]. destruct (mont_round_spec s T x Hs Hx) as (T1 & q & Hs1 & E1 & H1).
  destruct (IH _ T1 Hs1 H1 Hb) as (T' & k & Hs' & E' & H'). exists T', (q + B * k). split; [done|]. rewrite pow_b_S. split; [|done].
  rewrite <- Z.mul_assoc, E'. nia.
Qed.

Lemma mont_sub_row t : forall l b, Forall is_u32 t -> Forall is_u32 l -> 0 <= b <= 1 -> mont_sub t l b = sub_row t l b.
Proof.
  induction t as [|x t IH]; intros [|y l] b Ht Hl Hb; try done. cbn [mont_sub sub_row].
  apply Forall_cons in Ht as [Hx Ht]. apply Forall_cons in Hl as [Hy Hl]. unfold is_u32 in Hx, Hy. rewrite (u64_id (y + b)) by lia.
  assert (E : Z.shiftr (u64 (x - y - b)) 63 = b2z (x <? y + b) /\ u32 (u64 (x - y - b)) = u32 (x - (y + b))).
  { rewrite Z.shiftr_div_pow2 by lia. change (2 ^ 63) with 9223372036854775808. unfold u64, u32. destruct (Z.ltb_spec x (y + b)); cbn [b2z]; split; zlia. }
  destruct E as [-> ->]. rewrite IH; [done|done|done|]. destruct (_ <? _); cbn; lia.
Qed.

Lemma select_row r t bit : length r = length t -> Forall is_u32 r -> Forall is_u32 t -> is_bit bit ->
  zip_with (fun x y => Z.lor (Z.land x (u32 (0 - bit))) (Z.land y (u32 (Z.lnot (u32 (0 - bit)))))) r t = if bit =? 1 then r else t.
Proof.
  intros Hl Hr Ht Hb. revert t Hl Ht. induction Hr as [|x r Hx Hr IH]; intros [|y t] Hl Ht; try done; [by destruct (_ =? _)|].
  apply Forall_cons in Ht as [Hy Ht]. cbn [zip_with]. rewrite IH by (done || by injection Hl).
  assert (Hones : forall z, is_u32 z -> Z.land z 4294967295 = z).
  { intros z Hz. change 4294967295 with (Z.ones 32). rewrite Z.land_ones by lia. by apply Z.mod_small. }
  destruct Hb as [-> | ->]; cbn [Z.eqb].
  - change (u32 (0 - 0)) with 0. change (u32 (Z.lnot 0)) with 4294967295. by rewrite Z.land_0_r, Hones.
  - change (u32 (0 - 1)) with 4294967295. change (u32 (Z.lnot 4294967295)) with 0. by rewrite Z.land_0_r, Z.lor_0_r, Hones.
Qed.

(** [mont_mul]: the product over 2^(32 n), modulo [m]. *)
Lemma mont_mul_spec b : Forall is_u32 b ->
  length (mont_mul a b m n0inv) = length m /\ Forall is_u32 (mont_mul a b m n0inv) /\ eval (mont_mul a b m n0inv) < eval m /\
    (pow_b (length b) * eval (mont_mul a b m n0inv)) mod eval m = (eval a * eval b) mod eval m.
Proof.
  intros Hb. pose proof (eval_bound a Hau) as Ba. pose proof (eval_bound m Hmu) as Bm. unfold mont_mul.
  destruct (mont_rounds_spec b (replicate (length m) 0, 0) 0) as (T & k & Hs & E & H0); [|lia|done|].
  { split; [apply length_replicate|]. split; [apply Forall_replicate; unfold is_u32; lia|]. cbn [fst snd]. rewrite eval_zeros. lia. }
  destruct (fold_left _ b _) as [t hi]. destruct Hs as (Hl & Hu & Hh & ET & HT). cbn [fst snd] in *.
  rewrite mont_sub_row by (done || lia). destruct (sub_row_spec t m 0) as (r & bw & -> & Hr & Hru & Hbw & Ev); [by rewrite Hl|done|done|lia|].
  assert (Hbit : is_bit (Z.land (Z.lor hi (Z.lxor bw 1)) 1) /\ (Z.land (Z.lor hi (Z.lxor bw 1)) 1 = 1 <-> hi = 1 \/ bw = 0)).
  { clear -Hh Hbw. assert (hi = 0 \/ hi = 1) as [-> | ->] by lia; assert (bw = 0 \/ bw = 1) as [-> | ->] by lia; vm_compute; (split; [by (left + right)|intuition congruence]). }
  set (bit := Z.land (Z.lor hi (Z.lxor bw 1)) 1) in *. destruct Hbit as [Hbit Hiff]. rewrite select_row by (done || lia). rewrite Hl in Hr, Ev.
  pose proof (eval_bound r Hru) as Br. pose proof (eval_bound t Hu) as Bt. rewrite Hr in Br. rewrite Hl in Bt.
  assert (Hres : eval (if bit =? 1 then r else t) = T \/ eval (if bit =? 1 then r else t) = T - eval m).
  { destruct (Z.eqb_spec bit 1) as [Hk|Hk]; [|left; nia]. right. apply Hiff in Hk. assert (hi = 0 \/ hi = 1) as [-> | ->] by lia; [nia|].
    assert (bw = 0 \/ bw = 1) as [-> | ->] by lia; nia. }
  split; [by destruct (_ =? _); lia|]. split; [by destruct (_ =? _)|]. split.
  - destruct (Z.eqb_spec bit 1) as [Hk|Hk].
    + apply Hiff in Hk. assert (hi = 0 \/ hi = 1) as [-> | ->] by lia; [nia|]. assert (bw = 0 \/ bw = 1) as [-> | ->] by lia; nia.
    + assert (hi = 0) as -> by lia. assert (bw = 1) as -> by lia. lia.
  - destruct Hres as [-> | ->].
    + rewrite E. rewrite Z_mod_plus_full. done.
    + rewrite Z.mul_sub_distr_l, E. rewrite <- (Z_mod_plus_full (eval a * eval b) (k - pow_b (length b))). f_equal. ring.
Qed.
End Mont.

(** The inverse by Newton's iteration: each step doubles the bits that are right. *)
Lemma newton_step m0 x k : 0 <= k <= 16 -> (m0 * x) mod 2 ^ k = 1 mod 2 ^ k ->
  (m0 * u32 (x * u32 (2 - u32 (m0 * x)))) mod 2 ^ (2 * k) = 1 mod 2 ^ (2 * k).
Proof.
  intros Hk E. assert (Hpow : exists c, B = 2 ^ (2 * k) * c) by (exists (2 ^ (32 - 2 * k)); rewrite <- Z.pow_add_r by lia; by replace (2 * k + (32 - 2 * k)) with 32 by lia).
  destruct Hpow as [c Ec]. assert (Hp : 0 < 2 ^ k) by (apply Z.pow_pos_nonneg; lia).
  assert (Hu : forall z, exists d, u32 z = z + 2 ^ (2 * k) * d).
  { intros z. exists (- (c * (z / B))). unfold u32. rewrite Z.mod_eq by lia. rewrite Ec at 1. ring. }
  destruct (Hu (m0 * x)) as [d1 E1]. destruct (Hu (2 - u32 (m0 * x))) as [d2 E2]. destruct (Hu (x * u32 (2 - u32 (m0 * x)))) as [d3 E3].
  assert (Hd : exists e, m0 * x = 1 + 2 ^ k * e).
  { exists ((m0 * x) / 2 ^ k - 1 / 2 ^ k). pose proof (Z.div_mod (m0 * x) (2 ^ k) ltac:(lia)). pose proof (Z.div_mod 1 (2 ^ k) ltac:(lia)). lia. }
  destruct Hd as [e Ee]. assert (E4 : m0 * u32 (x * u32 (2 - u32 (m0 * x))) = 1 + 2 ^ (2 * k) * (- (e * e) + m0 * x * (d2 - d1) + m0 * d3)).
  { rewrite E3, E2, E1. replace (2 * k) with (k + k) by lia. rewrite Z.pow_add_r by lia.
    transitivity (m0 * x * (2 - m0 * x) + 2 ^ k * 2 ^ k * (m0 * x * (d2 - d1) + m0 * d3)); [ring|].
    replace (m0 * x * (2 - m0 * x)) with (1 - (m0 * x - 1) * (m0 * x - 1)) by ring. rewrite Ee at 1 2. ring. }
  rewrite E4, (Z.mul_comm (2 ^ (2 * k))). apply Z_mod_plus_full.
Qed.

Lemma mont_inverse_spec m0 : is_u32 m0 -> Z.land m0 1 = 1 -> (m0 * mont_inverse m0) mod B = B - 1.
Proof.
  intros Hm Hodd. rewrite land_1_mod in Hodd. set (f := fun x => u32 (x * u32 (2 - u32 (m0 * x)))).
  assert (E : (m0 * Nat.iter 5 f 1) mod 2 ^ 32 = 1 mod 2 ^ 32).
  { assert (E0 : (m0 * 1) mod 2 ^ 1 = 1 mod 2 ^ 1) by (rewrite Z.mul_1_r; exact Hodd).
    pose proof (newton_step m0 1 1 ltac:(lia) E0) as E1. pose proof (newton_step m0 _ 2 ltac:(lia) E1) as E2.
    pose proof (newton_step m0 _ 4 ltac:(lia) E2) as E3. pose proof (newton_step m0 _ 8 ltac:(lia) E3) as E4.
    exact (newton_step m0 _ 16 ltac:(lia) E4). }
  unfold mont_inverse. fold f. change (2 ^ 32) with B in E. change (1 mod B) with 1 in E. set (y := Nat.iter 5 f 1) in *. unfold u32.
  rewrite Zmult_mod_idemp_r. replace (m0 * (0 - y)) with (- (m0 * y)) by ring. rewrite Z_mod_nz_opp_full by lia. lia.
Qed.
