(* ===== verification/BigIntExp.v ===== *)
(** * Modular exponentiation

    [bigint_modexp] and [bigint_modexp_u32] compute the power modulo the modulus, by
    Montgomery products for an odd modulus of at most 128 limbs and by doubling and
    adding otherwise. *)

From Stdlib Require Import ZArith Znumtheory Zpow_facts Lia.
From stdpp Require Import base numbers option tactics list.
From S2P Require Import Prelude Bytes NetSum BigInt BigIntMod.

Lemma cancel_pow M n x y : M mod 2 = 1 -> 0 < M -> (pow_b n * x) mod M = (pow_b n * y) mod M -> x mod M = y mod M.
Proof.
  intros Hodd Hpos E. assert (Hrel : rel_prime M (pow_b n)).
  { unfold pow_b. change B with (2 ^ 32). rewrite <- Z.pow_mul_r by lia. apply rel_prime_Zpower_r; [lia|]. apply rel_prime_sym.
    apply Zgcd_1_rel_prime. rewrite <- Z.gcd_mod, Hodd by lia. done. }
  assert (Hdiv : (M | pow_b n * (x - y))).
  { apply Z.mod_divide; [lia|]. rewrite Z.mul_sub_distr_l, Zminus_mod, E, Z.sub_diag. apply Zmod_0_l. }
  apply Gauss in Hdiv; [|done]. destruct Hdiv as [k Ek]. replace x with (y + k * M) by lia. apply Z_mod_plus_full.
Qed.

Section Power.
Context (m : bigint_t) (Hm : wf_big m) (Hpos : 0 < value m).
Abbreviation n := (big_len m).
Abbreviation M := (value m).

Lemma modulus_one : normal m -> (n =? 1) && (limb m 0 =? 1) = (M =? 1).
Proof using Hm Hpos.
  intros Hnorm. pose proof (modulus_len m Hm) as Hml. pose proof (modulus_nonzero m Hpos) as Hnz. destruct Hnorm as [|Htop]; [done|]. unfold limb in Htop.
  apply Bool.eq_iff_eq_true. rewrite andb_true_iff, !Z.eqb_eq. rewrite <- (raw_value m Hm).
  assert (E1 : n = 1 -> eval (raw m n) = limb m 0) by (intros ->; change (raw m 1) with [limb m 0]; cbn [eval]; lia).
  split; [intros [H1 H2]; rewrite E1; done|]. intros E. destruct (Z.eq_dec n 1) as [H1|Hne]; [split; [done|]; by rewrite <- E1|]. exfalso.
  rewrite raw_take in E by (done || lia). replace (Z.to_nat n) with (S (Z.to_nat (n - 1))) in E by lia.
  destruct Hm as (Hl & _ & _ & Hmu). rewrite eval_take_S in E by lia. pose proof (eval_bound _ (Forall_take _ (Z.to_nat (n - 1)) _ Hmu)) as Bt.
  pose proof (default_u32 (limbs m) (Z.to_nat (n - 1)) Hmu) as Hd. unfold is_u32 in Hd.
  assert (1 < pow_b (Z.to_nat (n - 1))) by (unfold pow_b; apply Z.pow_gt_1; lia). nia.
Qed.

(** ** Doubling and adding *)

Lemma copy_spec_big o x : wf_big o -> wf_big x -> big_len x <= capacity o ->
  wf_big (bigint_copy o x) /\ value (bigint_copy o x) = value x /\ capacity (bigint_copy o x) = capacity o.
Proof using.
  intros Ho Hx Hl. assert (0 <= big_len x) by (destruct Hx as (_ & Hb & _); lia). split; [|split; [|done]].
  - apply store_wf; [done|rewrite digits_length; destruct Ho as (E & _); lia|by apply digits_u32|lia].
  - unfold value at 1. change (big_len (bigint_copy o x)) with (big_len x). unfold bigint_copy. rewrite store_take by (rewrite digits_length; lia).
    unfold digits. rewrite <- fmap_take, take_seq, Nat.min_l by lia. exact (digits_value x (big_len x) Hx ltac:(lia)).
Qed.

Lemma replace_spec x y p t : wf_big x -> n <= capacity x -> wf_big y -> wf_big p -> n <= capacity p -> wf_big t -> n <= capacity t ->
  exists x' p' t', replace_by_product x y m p t = Some (x', p', t') /\ wf_big x' /\ capacity x' = capacity x /\ value x' = (value x * value y) mod M /\
    wf_big p' /\ n <= capacity p' /\ wf_big t' /\ n <= capacity t'.
Proof using Hm Hpos.
  intros Hx Hnx Hy Hp Hnp Ht Hnt. unfold replace_by_product.
  destruct (mod_multiply_spec m Hm Hpos p x y t Hp Hnp Hx Hy Ht Hnt) as (p' & t' & -> & (Hw & Hn & Hv & _) & Ht' & Hc1 & Hc2).
  destruct (copy_spec_big x p' Hx Hw ltac:(lia)) as (H1 & H2 & H3). exists (bigint_copy x p'), p', t'. split; [done|]. split; [done|].
  split; [done|]. split; [congruence|]. split; [done|]. split; [lia|]. split; [done|lia].
Qed.

Definition temps (p t : bigint_t) : Prop := wf_big p /\ n <= capacity p /\ wf_big t /\ n <= capacity t.

(** A number of the computation with its value. *)
Definition number (v : bigint_t) (z : Z) : Prop := wf_big v /\ capacity v = n /\ value v = z mod M.

Lemma replace_number x y p t z w : number x z -> number y w -> temps p t ->
  exists x' p' t', replace_by_product x y m p t = Some (x', p', t') /\ number x' (z * w) /\ temps p' t'.
Proof using Hm Hpos.
  intros (Hx & Hnx & Ex) (Hy & Hny & Ey) (Hp & Hnp & Ht & Hnt). destruct (replace_spec x y p t) as (x' & p' & t' & E & H1 & H2 & H3 & H4); try done; [lia|].
  exists x', p', t'. split; [done|]. split; [|done]. split; [done|]. split; [congruence|]. by rewrite H3, Ex, Ey, <- Zmult_mod.
Qed.

Lemma exp_step_spec b result current p t x k : number result (x ^ k) -> number current x -> temps p t -> is_bit b -> 0 <= k ->
  exists r' p' t', (if c_true b then replace_by_product result current m p t else Some (result, p, t)) = Some (r', p', t') /\
    number r' (x ^ (k + b)) /\ temps p' t'.
Proof using Hm Hpos.
  intros Hr Hc Ht Hb Hk. destruct Hb as [-> | ->]; cbn [c_true Z.eqb negb].
  - exists result, p, t. by rewrite Z.add_0_r.
  - destruct (replace_number _ _ _ _ _ _ Hr Hc Ht) as (r' & p' & t' & E & H1 & H2). exists r', p', t'. split; [done|].
    rewrite Z.pow_add_r, Z.pow_1_r by lia. done.
Qed.

Lemma exp_loop_spec current x bits : number current x -> Forall is_bit bits -> forall result p t k, number result (x ^ k) -> temps p t -> 0 <= k ->
  exists r', exp_loop (map (pair true) bits) result current m p t = (0, r') /\ number r' (x ^ horner bits k).
Proof using Hm Hpos.
  intros Hc. induction 1 as [|b bits Hb _ IH]; intros result p t k Hr Ht Hk; cbn [map exp_loop horner fold_left]; [by eexists|].
  destruct (replace_number _ _ _ _ _ _ Hr Hr Ht) as (r1 & p1 & t1 & -> & H1 & H2). rewrite <- Z.pow_add_r in H1 by lia.
  destruct (exp_step_spec b r1 current p1 t1 x (k + k)) as (r2 & p2 & t2 & -> & H3 & H4); try done; [lia|].
  replace (k + k + b) with (2 * k + b) in H3 by lia. apply (IH r2 p2 t2 (2 * k + b)); [done|done|]. destruct Hb; lia.
Qed.

Lemma skip_zeros_horner bits : Forall is_bit bits -> horner (skip_zeros bits) 0 = horner bits 0 /\ Forall is_bit (skip_zeros bits).
Proof using.
  induction 1 as [|b bits Hb Hbs IH]; [done|]. cbn [skip_zeros]. destruct (Z.eqb_spec b 0) as [->|]; [exact IH|]. split; [done|by constructor].
Qed.

Lemma limb_bits_bits x : Forall is_bit (limb_bits x).
Proof using. apply Forall_fmap, Forall_forall. intros k _. apply land_1. Qed.

(** The loop over the limbs of the exponent, its first bit without a square. *)
Lemma exp_all_spec current x e result p t : number current x -> number result 1 -> temps p t -> Forall is_u32 e ->
  exists r', exp_loop (exp_bits e) result current m p t = (0, r') /\ number r' (x ^ eval e).
Proof using Hm Hpos.
  intros Hc Hr Ht He. rewrite <- (Z.pow_0_r x) in Hr. assert (Ee : eval e = horner (bits_down e) 0) by (rewrite horner_down by done; lia). rewrite Ee.
  unfold exp_bits, bits_down. destruct (rev e) as [|top rest]; [by eexists|]. cbn [map concat]. rewrite horner_app.
  destruct (skip_zeros_horner (limb_bits top) (limb_bits_bits top)) as [<- Hsb]. set (lower := concat (map limb_bits rest)).
  assert (Hlow : Forall is_bit lower) by (apply Forall_concat, Forall_fmap, Forall_forall; intros y _; apply limb_bits_bits).
  destruct (skip_zeros (limb_bits top)) as [|b bits]; cbn [app exp_loop].
  { by apply (exp_loop_spec current x lower Hc Hlow result p t 0). }
  apply Forall_cons in Hsb as [Hb Hbs]. destruct (exp_step_spec b result current p t x 0) as (r2 & p2 & t2 & -> & H3 & H4); try done.
  rewrite <- map_app. rewrite <- horner_app. change (horner ((b :: bits) ++ lower) 0) with (horner (bits ++ lower) (2 * 0 + b)).
  apply (exp_loop_spec current x (bits ++ lower) Hc) with (p := p2) (t := t2); [by apply Forall_app|exact H3|done|]. destruct Hb; lia.
Qed.

Lemma exp_u32_loop_spec fuel : forall e result current p t x z, 0 <= e < 2 ^ Z.of_nat fuel -> number result z -> number current x -> temps p t ->
  exists r', exp_u32_loop fuel e result current m p t = Some (0, r') /\ number r' (z * x ^ e).
Proof using Hm Hpos.
  induction fuel as [|fuel IH]; intros e result current p t x z He Hr Hc Ht.
  { assert (e = 0) as -> by lia. exists result. split; [done|]. by rewrite Z.pow_0_r, Z.mul_1_r. }
  cbn [exp_u32_loop]. destruct (Z.eqb_spec e 0) as [->|Hne]; [exists result; by rewrite Z.pow_0_r, Z.mul_1_r|].
  rewrite Nat2Z.inj_succ, Z.pow_succ_r in He by lia. rewrite Z.shiftr_div_pow2 by lia. change (2 ^ 1) with 2.
  assert (Ee : x ^ e = x ^ (Z.land e 1) * (x * x) ^ (e / 2)).
  { rewrite land_1_mod. rewrite <- Z.pow_2_r, <- Z.pow_mul_r, <- Z.pow_add_r by zlia. f_equal. zlia. }
  assert (Hfirst : exists r1 p1 t1, (if c_true (Z.land e 1) then replace_by_product result current m p t else Some (result, p, t)) = Some (r1, p1, t1) /\
    number r1 (z * x ^ Z.land e 1) /\ temps p1 t1).
  { destruct (land_1 e) as [-> | ->]; cbn [c_true Z.eqb negb]; [exists result, p, t; by rewrite Z.pow_0_r, Z.mul_1_r|].
    rewrite Z.pow_1_r. by apply replace_number. }
  destruct Hfirst as (r1 & p1 & t1 & -> & Hr1 & Ht1). rewrite Ee, Z.mul_assoc. unfold c_true. destruct (Z.eqb_spec (e / 2) 0) as [E0|Hn0]; cbn [negb].
  - destruct fuel; cbn [exp_u32_loop]; rewrite E0; (exists r1; split; [done|]; by rewrite Z.pow_0_r, Z.mul_1_r).
  - destruct (replace_number _ _ _ _ _ _ Hc Hc Ht1) as (c2 & p2 & t2 & -> & Hc2 & Ht2). apply IH; [zlia|done|done|done].
Qed.

(** ** Montgomery form *)

(** [r] is [z] times 2^(32 n), reduced. *)
Definition mont_form (r : list Z) (z : Z) : Prop :=
  length r = Z.to_nat n /\ Forall is_u32 r /\ eval r < M /\ eval r mod M = (pow_b (Z.to_nat n) * z) mod M.

Context (Hok : bigint_mont_ok m = true).
Abbreviation inv := (mont_inverse (limb m 0)).

Lemma mont_bounds : 1 <= n <= 128 /\ Z.land (limb m 0) 1 = 1.
Proof using Hok.
  unfold bigint_mont_ok in Hok. repeat (apply andb_prop in Hok as [Hok ?]). unfold BIGINT_MONT_MAX_LIMBS in *. unfold c_true in *.
  destruct (land_1 (limb m 0)) as [E|E]; [rewrite E in *; done|]. lia.
Qed.

Lemma mont_normal : normal m.
Proof using Hok. right. unfold bigint_mont_ok in Hok. apply andb_prop in Hok as [_ Htop]. by apply negb_true_iff, Z.eqb_neq in Htop. Qed.

Lemma mont_odd : M mod 2 = 1.
Proof using Hm Hok.
  destruct mont_bounds as [Hn Hodd]. rewrite land_1_mod in Hodd. rewrite <- (raw_value m Hm). unfold raw.
  destruct (Z.to_nat n) as [|k] eqn:E; [lia|]. cbn [seq map eval]. rewrite <- Hodd. replace (4294967296 * _) with (2147483648 * eval (map (limb m) (seq 1 k)) * 2) by ring.
  apply Z_mod_plus_full.
Qed.

Lemma mont_head : default 0 (head (raw m n)) = limb m 0.
Proof using Hok. destruct mont_bounds as [Hn _]. unfold raw. destruct (Z.to_nat n) as [|k] eqn:E; [lia|]. done. Qed.

Lemma mont_product r y z b : mont_form r z -> length y = Z.to_nat n -> Forall is_u32 y -> eval y mod M = b mod M ->
  length (mont_mul r y (raw m n) inv) = Z.to_nat n /\ Forall is_u32 (mont_mul r y (raw m n) inv) /\ eval (mont_mul r y (raw m n) inv) < M /\
    eval (mont_mul r y (raw m n) inv) mod M = (z * b) mod M.
Proof using Hm Hpos Hok.
  intros (Hl & Hu & Hlt & E) Hy Hyu Eb. destruct mont_bounds as [Hn Hodd].
  destruct (mont_mul_spec r (raw m n) inv) with (b := y) as (H1 & H2 & H3 & H4); rewrite ?raw_length, ?raw_value; try done.
  - by apply raw_u32.
  - rewrite mont_head. apply mont_inverse_spec; [|done]. destruct Hm as (_ & _ & _ & Hmu). by apply default_u32.
  - rewrite raw_length in H1. rewrite raw_value in H3, H4 by done. split; [done|]. split; [done|]. split; [done|].
    apply (cancel_pow _ (Z.to_nat n)); [apply mont_odd|done|]. rewrite Hy in H4. rewrite H4, Zmult_mod, E, Eb, <- Zmult_mod. f_equal. ring.
Qed.

Lemma mont_product_form r y z w : mont_form r z -> mont_form y w -> mont_form (mont_mul r y (raw m n) inv) (z * w).
Proof using Hm Hpos Hok.
  intros Hr (Hl & Hu & Hlt & E). destruct (mont_product r y z (pow_b (Z.to_nat n) * w)) as (H1 & H2 & H3 & H4); try done.
  split; [done|]. split; [done|]. split; [done|]. rewrite H4. f_equal. ring.
Qed.

(** The bits of the exponent: the accumulated result is a power, or there was no bit. *)
Definition power_so_far (x : Z) (k : Z) (result : ptr (list Z)) : Prop :=
  match result with Some r => mont_form r (x ^ k) /\ 0 < k | NULL => k = 0 end.

Lemma mont_bits_spec current x bits : mont_form current x -> Forall is_bit bits -> forall k result, 0 <= k -> power_so_far x k result ->
  power_so_far x (horner bits k) (fold_left (mont_bit (raw m n) current inv) bits result) /\ 0 <= horner bits k.
Proof using Hm Hpos Hok.
  intros Hc. induction 1 as [|b bits Hb _ IH]; intros k result Hk Hs; cbn [fold_left horner]; [done|]. apply IH; [destruct Hb; lia|].
  unfold mont_bit. destruct result as [r|]; cbn [fmap option_fmap option_map power_so_far] in *.
  - destruct Hs as [Hr Hk']. pose proof (mont_product_form r r _ _ Hr Hr) as Hsq. rewrite <- Z.pow_add_r in Hsq by lia.
    destruct Hb as [-> | ->]; cbn [c_true Z.eqb negb power_so_far].
    + replace (2 * k + 0) with (k + k) by lia. split; [done|lia].
    + pose proof (mont_product_form _ _ _ _ Hsq Hc) as Hp. replace (2 * k + 1) with (Z.succ (k + k)) by lia. rewrite Z.pow_succ_r, Z.mul_comm by lia.
      split; [done|lia].
  - subst k. destruct Hb as [-> | ->]; cbn [c_true Z.eqb negb power_so_far]; [lia|]. rewrite Z.pow_1_r. split; [done|lia].
Qed.

Lemma doublings_spec k : forall cur x, holds_limbs n cur x -> x < M ->
  exists cur', doublings k cur m = (0, cur') /\ holds_limbs n cur' ((2 ^ Z.of_nat k * x) mod M).
Proof using Hm Hpos.
  induction k as [|k IH]; intros cur x Hc Hx; cbn [doublings].
  { exists cur. split; [done|]. pose proof (holds_nonneg _ _ _ Hc). rewrite Z.pow_0_r, Z.mul_1_l, Z.mod_small; [done|lia]. }
  unfold bigint_mod_add_ct. change 4294967295 with (u32 (0 - 1)). pose proof Hc as (Hw & Hn & _).
  destruct (add_ct_spec m Hm Hpos cur cur cur x x 1) as (c1 & -> & H1 & _); try done; [lia|by apply holds_wide|by apply holds_wide|by right|].
  pose proof (Z.mod_pos_bound (x + 1 * x) M Hpos). destruct (IH c1 _ H1 ltac:(lia)) as (c' & -> & Hc'). exists c'. split; [done|].
  rewrite Zmult_mod_idemp_r in Hc'. rewrite Nat2Z.inj_succ, Z.pow_succ_r by lia.
  replace (2 * 2 ^ Z.of_nat k * x) with (2 ^ Z.of_nat k * (x + 1 * x)) by ring. done.
Qed.

Lemma init_spec space cap : 0 < cap < 65536 ->
  exists v, bigint_init (Some space) cap = (0, Some v) /\ wf_big v /\ capacity v = cap /\ value v = 0.
Proof.
  intros Hc. unfold bigint_init. rewrite (proj2 (Z.eqb_neq cap 0)) by lia. eexists. split; [done|].
  split; [|split; done]. split; [|split; [cbn; lia|split; [cbn; lia|]]]; cbn [bigint_zero store limbs capacity].
  - rewrite length_app, length_replicate, length_drop, length_take. lia.
  - apply Forall_app. split; [apply Forall_replicate; unfold is_u32; lia|]. rewrite length_replicate, drop_ge; [constructor|]. rewrite length_take. lia.
Qed.

Lemma one_row : (0 < Z.to_nat n)%nat -> let one := 1 :: replicate (Z.to_nat n - 1) 0 in
  length one = Z.to_nat n /\ Forall is_u32 one /\ eval one = 1.
Proof.
  intros Hn. cbn. rewrite length_replicate, eval_zeros. split; [lia|]. split; [|lia].
  constructor; [unfold is_u32; lia|]. apply Forall_replicate. unfold is_u32. lia.
Qed.

(** [bigint_modexp_mont] *)
Lemma modexp_mont_spec o x e w : wf_big o -> n <= capacity o -> wf_big x -> wf_big e ->
  exists o', bigint_modexp_mont o x e m w = (0, o') /\ wf_big o' /\ normal o' /\ value o' = (value x ^ value e) mod M.
Proof using Hm Hpos Hok.
  intros Ho Hno Hx He. destruct mont_bounds as [Hn Hodd]. pose proof (modulus_len m Hm) as Hml. unfold bigint_modexp_mont.
  destruct (init_spec (drop (Z.to_nat n) w) n ltac:(lia)) as (c0 & -> & Hc0 & Hcap & _).
  destruct (mod_reduce_spec m Hm Hpos c0 x Hc0 ltac:(lia) Hx) as (c1 & -> & Hc1 & Hcap1).
  pose proof (Z.mod_pos_bound (value x) M Hpos) as Hr.
  pose proof (store_wide m Hm c1 (digits c1 n) (holds_wf _ _ _ Hc1) ltac:(lia) (digits_length _ _) (digits_u32 _ _ (holds_wf _ _ _ Hc1))) as Hc2.
  rewrite (holds_digits _ _ _ Hc1) in Hc2.
  destruct (doublings_spec (Z.to_nat (u16 (32 * n))) _ _ Hc2 ltac:(lia)) as (c3 & -> & Hc3).
  assert (Hcur : mont_form (raw c3 n) (value x)).
  { split; [apply raw_length|]. split; [apply raw_u32; by eapply holds_wf|]. rewrite (holds_raw n c3 _ ltac:(lia) Hc3).
    pose proof (Z.mod_pos_bound (2 ^ Z.of_nat (Z.to_nat (u16 (32 * n))) * (value x mod M)) M Hpos). split; [lia|].
    rewrite Zmod_mod, Zmult_mod_idemp_r. f_equal. f_equal. unfold pow_b. change B with (2 ^ 32). rewrite <- Z.pow_mul_r by lia. f_equal.
    rewrite u16_id by (unfold is_u16; lia). lia. }
  destruct (mont_bits_spec (raw c3 n) (value x) (bits_down (raw e (big_len e))) Hcur (bits_down_bits _) 0 NULL ltac:(lia) eq_refl) as [Hs Hk].
  rewrite horner_down, Z.mul_0_l, Z.add_0_l, raw_value in Hs, Hk by (done || by apply raw_u32).
  pose proof (zero_wf o Ho) as Hzo. destruct (fold_left _ _ _) as [r|]; cbn [power_so_far] in Hs.
  - destruct Hs as [Hr' He']. destruct (one_row ltac:(lia)) as (H1 & H2 & H3).
    destruct (mont_product r _ _ 1 Hr' H1 H2 ltac:(by rewrite H3)) as (L1 & L2 & L3 & L4).
    destruct (store_row (bigint_zero o) (mont_mul r (1 :: replicate (Z.to_nat n - 1) 0) (raw m n) inv) n) as [(Hw & _ & Hv & _) Hnorm];
      [done|cbn; lia|done|done|]. eexists. split; [done|]. split; [done|]. split; [done|]. rewrite Hv.
    pose proof (eval_bound _ L2). rewrite Z.mul_1_r, Z.mod_small in L4 by lia. done.
  - rewrite Hs, Z.pow_0_r, modulus_one by apply mont_normal. destruct (Z.eqb_spec M 1) as [E1|Hne].
    + eexists. split; [done|]. split; [done|]. split; [by left|]. rewrite E1. done.
    + eexists. split; [done|]. destruct Ho as (Hl & Hb & Hc & Hu).
      assert (Hw : wf_big (store (bigint_zero o) [1] 1)).
      { apply store_wf; [done|cbn [length]; rewrite zero_limbs, length_replicate by done; lia|constructor; [unfold is_u32; lia|constructor]|cbn; lia]. }
      split; [done|]. split; [right; done|]. rewrite Z.mod_small by lia. done.
Qed.
End Power.

(** ** The two entry points *)

Lemma exp_numbers_spec w cap : 0 < cap < 65536 -> 4 * cap <= Z.of_nat (length w) ->
  exists r c p t, exp_numbers w cap = Some (r, c, p, t) /\ Forall (fun v => wf_big v /\ capacity v = cap) [r; c; p; t].
Proof.
  intros Hc Hw. unfold exp_numbers. rewrite (proj2 (Z.ltb_ge _ _)) by lia.
  assert (Hi : forall k, exists v, snd (bigint_init (Some (drop (Z.to_nat (k * cap)) w)) cap) = Some v /\ wf_big v /\ capacity v = cap).
  { intros k. destruct (init_spec (drop (Z.to_nat (k * cap)) w) cap Hc) as (v & -> & Hv & Hcap & _). by exists v. }
  destruct (Hi 0) as (r & -> & Hr), (Hi 1) as (c & -> & Hcu), (Hi 2) as (p & -> & Hp), (Hi 3) as (t & -> & Ht).
  exists r, c, p, t. split; [done|]. by rewrite !Forall_cons.
Qed.

Lemma exp_one_spec m r : wf_big m -> 0 < value m -> normal m -> wf_big r -> capacity r = big_len m -> number m (exp_one m r) 1.
Proof.
  intros Hm Hpos Hnorm Hr Hc. pose proof (modulus_nonzero m Hpos). pose proof (modulus_len m Hm). unfold exp_one. rewrite modulus_one by done.
  destruct Hr as (Hl & Hb & Hcap & Hu). destruct (Z.eqb_spec (value m) 1) as [E|Hne].
  - split; [split; [done|split; [cbn; lia|done]]|]. split; [done|]. by rewrite E.
  - assert (Hw : wf_big (store r [1] 1)).
    { apply store_wf; [done|cbn [length]; lia|constructor; [unfold is_u32; lia|constructor]|lia]. }
    split; [done|]. split; [done|]. by rewrite Z.mod_small by lia.
Qed.

Lemma exp_output_spec o r : wf_big o -> wf_big r -> big_len r <= capacity o ->
  exists o', exp_output o (0, r) = (0, Some o') /\ wf_big o' /\ value o' = value r /\ capacity o' = capacity o.
Proof.
  intros Ho Hr Hl. unfold exp_output. cbn [fst snd Z.eqb negb]. eexists. split; [done|]. pose proof (zero_wf o Ho) as Hz.
  assert (0 <= big_len r) by (destruct Hr as (_ & Hb & _); lia). split; [|split; [|done]].
  - apply store_wf; [done|rewrite raw_length, zero_limbs, length_replicate by done; lia|by apply raw_u32|cbn; lia].
  - unfold value at 1. rewrite store_take by (rewrite raw_length; cbn; lia). rewrite take_ge by (rewrite raw_length; cbn; lia). by apply raw_value.
Qed.

(** What the exponentiations need: a modulus in normal form, room for the result and a
    workspace of four times its length. *)
Record exp_ready (o b m : bigint_t) (w : list Z) (wl : Z) : Prop := {
  er_output : wf_big o; er_base : wf_big b; er_modulus : wf_big m; er_normal : normal m; er_positive : 0 < value m;
  er_room : big_len m <= capacity o; er_width : big_len m < 16384; er_space : 4 * big_len m <= wl <= Z.of_nat (length w)
}.

(** The start of both functions. *)
Lemma ready_numbers o b m w wl : exp_ready o b m w wl ->
  (big_len m =? 0) = false /\ (capacity o <? big_len m) || (wl <? u16 (4 * big_len m)) = false /\
  exists r c p t, exp_numbers w (big_len m) = Some (r, c, p, t) /\ number m (exp_one m r) 1 /\ temps m p t /\
    exists c', bigint_mod_reduce (Some c) (Some b) (Some m) = (0, Some c') /\ number m c' (value b).
Proof.
  intros [Ho Hb Hm Hnorm Hpos Hroom Hwidth Hspace]. pose proof (modulus_nonzero m Hpos). pose proof (modulus_len m Hm).
  split; [by apply Z.eqb_neq|]. split.
  { rewrite u16_id by (unfold is_u16; lia). by rewrite !(proj2 (Z.ltb_ge _ _)) by lia. }
  destruct (exp_numbers_spec w (big_len m)) as (r & c & p & t & -> & Hall); [lia|lia|]. rewrite !Forall_cons in Hall.
  destruct Hall as ([Hr Cr] & [Hc Cc] & [Hp Cp] & [Ht Ct] & _). exists r, c, p, t. split; [done|].
  split; [by apply exp_one_spec|]. split; [split; [done|split; [lia|split; [done|lia]]]|].
  destruct (mod_reduce_spec m Hm Hpos c b Hc ltac:(lia) Hb) as (c' & E & (Hw & Hn & Hv & _) & Hcap). exists c'. split; [done|]. split; [done|]. split; [congruence|done].
Qed.

Lemma number_output o b m w wl r z : exp_ready o b m w wl -> number m r z ->
  exists o', exp_output o (0, r) = (0, Some o') /\ wf_big o' /\ value o' = z mod value m.
Proof.
  intros [Ho _ _ _ _ Hroom _ _] (Hw & Hc & Hv). assert (big_len r <= capacity o) by (destruct Hw as (_ & Hb & _); lia).
  destruct (exp_output_spec o r Ho Hw) as (o' & E & H1 & H2 & _); [done|]. exists o'. split; [done|]. split; [done|]. congruence.
Qed.

Lemma modexp_spec o b e m w wl : exp_ready o b m w wl -> wf_big e ->
  exists o', bigint_modexp (Some o) (Some b) (Some e) (Some m) (Some w) wl = Some (0, Some o') /\ wf_big o' /\
    value o' = (value b ^ value e) mod value m.
Proof.
  intros Hready He. pose proof Hready as [Ho Hb Hm Hnorm Hpos Hroom Hwidth Hspace].
  destruct (ready_numbers _ _ _ _ _ Hready) as (E1 & E2 & r & c & p & t & E3 & Hone & Ht & c' & E4 & Hc'). unfold bigint_modexp.
  rewrite E1, E2, E3, some_bind. destruct (bigint_mont_ok m) eqn:Eok.
  - destruct (modexp_mont_spec m Hm Hpos Eok o b e w Ho Hroom Hb He) as (o' & -> & H1 & _ & H2). by exists o'.
  - rewrite E4. destruct (exp_all_spec m Hm Hpos c' (value b) (raw e (big_len e)) (exp_one m r) p t Hc' Hone Ht (raw_u32 e _ He)) as (r' & -> & Hr).
    rewrite raw_value in Hr by done. destruct (number_output _ _ _ _ _ _ _ Hready Hr) as (o' & -> & H1 & H2). by exists o'.
Qed.

Lemma modexp_u32_spec o b e m w wl : exp_ready o b m w wl -> is_u32 e ->
  exists o', bigint_modexp_u32 (Some o) (Some b) e (Some m) (Some w) wl = Some (0, Some o') /\ wf_big o' /\
    value o' = (value b ^ e) mod value m.
Proof.
  intros Hready He. pose proof Hready as [Ho Hb Hm Hnorm Hpos Hroom Hwidth Hspace].
  destruct (ready_numbers _ _ _ _ _ Hready) as (E1 & E2 & r & c & p & t & E3 & Hone & Ht & c' & E4 & Hc'). unfold bigint_modexp_u32.
  rewrite E1, E2, E3, some_bind. destruct (bigint_mont_ok m) eqn:Eok.
  - assert (Hev : wf_big (mk_big [e] 1 1)).
    { split; [done|]. split; [cbn; lia|]. split; [cbn; lia|]. by constructor. }
    destruct (modexp_mont_spec m Hm Hpos Eok o b (mk_big [e] 1 1) w Ho Hroom Hb Hev) as (o' & -> & H1 & _ & H2). exists o'. split; [done|]. split; [done|].
    rewrite H2. do 2 f_equal. change (e + B * 0 = e). lia.
  - rewrite E4. destruct (exp_u32_loop_spec m Hm Hpos 32 e (exp_one m r) c' p t (value b) 1 He Hone Hc' Ht) as (r' & -> & Hr). rewrite some_bind, Z.mul_1_l in *.
    destruct (number_output _ _ _ _ _ _ _ Hready Hr) as (o' & -> & H1 & H2). by exists o'.
Qed.

(** C10. Modular exponentiation is exact: for a modulus in normal form, with room in the
    output and in the workspace, both entry points return 0 and leave the power of the
    base modulo the modulus, whether they go through Montgomery products or through
    doubling and adding. *)
Theorem modexp_is_power o b e x m w wl : exp_ready o b m w wl -> wf_big e -> is_u32 x ->
  (exists o', bigint_modexp (Some o) (Some b) (Some e) (Some m) (Some w) wl = Some (0, Some o') /\ wf_big o' /\
    value o' = (value b ^ value e) mod value m) /\
  (exists o', bigint_modexp_u32 (Some o) (Some b) x (Some m) (Some w) wl = Some (0, Some o') /\ wf_big o' /\
    value o' = (value b ^ x) mod value m).
Proof. intros Hready He Hx. split; [by apply modexp_spec|by apply modexp_u32_spec]. Qed.
