(* ===== verification/BigIntBytes.v ===== *)
(** * Big-endian bytes and comparison of numbers *)

From Stdlib Require Import ZArith Lia.
From stdpp Require Import base numbers option tactics list.
From S2P Require Import Prelude Bytes NetSum BigInt BigIntMod.

(** The number a string of bytes stands for, highest byte first. *)
Definition be_value (b : bytes) : Z := fold_left (fun x c => 256 * x + c) b 0.

Lemma be_value_gen b x : fold_left (fun x c => 256 * x + c) b x = x * 256 ^ blen b + be_value b.
Proof.
  unfold be_value, blen. revert x. induction b as [|c b IH]; intros x; cbn [fold_left length]; [lia|].
  rewrite IH, (IH (256 * 0 + c)), Nat2Z.inj_succ, Z.pow_succ_r by lia. ring.
Qed.

Lemma be_value_cons c b : be_value (c :: b) = c * 256 ^ blen b + be_value b.
Proof. unfold be_value at 1. cbn [fold_left]. by rewrite be_value_gen. Qed.

Lemma be_value_bound b : Forall is_u8 b -> 0 <= be_value b < 256 ^ blen b.
Proof.
  induction 1 as [|c b Hc _ IH]; [change (0 <= 0 < 1); lia|]. rewrite be_value_cons. unfold blen in *. cbn [length]. rewrite Nat2Z.inj_succ, Z.pow_succ_r by lia.
  unfold is_u8 in Hc. nia.
Qed.

Lemma be_value_inj a b : length a = length b -> Forall is_u8 a -> Forall is_u8 b -> be_value a = be_value b -> a = b.
Proof.
  revert b. induction a as [|x a IH]; intros [|y b] Hl Ha Hb E; try done. apply Forall_cons in Ha as [Hx Ha]. apply Forall_cons in Hb as [Hy Hb].
  rewrite !be_value_cons in E. pose proof (be_value_bound a Ha) as Ba. pose proof (be_value_bound b Hb) as Bb. injection Hl as Hl.
  assert (El : blen a = blen b) by (unfold blen; lia). rewrite El in *. assert (x = y) as -> by nia. f_equal. apply IH; try done. lia.
Qed.

Lemma eval_insert l j y : (j < length l)%nat -> eval (<[j := y]> l) = eval l + pow_b j * (y - default 0 (l !! j)).
Proof.
  revert j. induction l as [|x l IH]; intros [|j] Hj; cbn [length] in Hj; [lia|lia| |].
  - cbn. rewrite pow_b_0. lia.
  - change (x + B * eval (<[j := y]> l) = x + B * eval l + pow_b (S j) * (y - default 0 (l !! j))). rewrite IH, pow_b_S by lia. ring.
Qed.

Lemma lor_fresh c b k : 0 <= c -> 0 <= b < 256 -> 0 <= k -> Z.lor (c * 2 ^ (k + 8)) (b * 2 ^ k) = c * 2 ^ (k + 8) + b * 2 ^ k.
Proof.
  intros Hc Hb Hk. rewrite (Z.add_nocarry_lxor (c * _) (b * _)), Z.lxor_lor; [done| |].
  all: apply Z.bits_inj'; intros i Hi; rewrite Z.land_spec, Z.bits_0, !Z.mul_pow2_bits by lia.
  all: destruct (Z.lt_ge_cases i (k + 8)); [by rewrite (Z.testbit_neg_r c) by lia|].
  all: rewrite (bits_above 8 b (i - k)) by (done || lia); by rewrite andb_false_r.
Qed.

(** A byte fits below the bytes already there. *)
Lemma put_byte_spec length l offset b x : Forall is_u32 l -> 0 <= b < 256 -> let r := length - 1 - Z.of_nat offset in
  0 <= r -> (Z.to_nat (r / 4) < List.length l)%nat -> eval l = 256 ^ (r + 1) * x ->
  Forall is_u32 (put_byte length l offset b) /\ eval (put_byte length l offset b) = 256 ^ r * (256 * x + b).
Proof.
  intros Hl Hb r Hr Hj E. unfold put_byte. fold r. set (j := Z.to_nat (r / 4)) in *. set (p := r mod 4).
  assert (Hp : Z.land r 3 = p) by apply (Z.land_ones r 2 ltac:(lia)). rewrite Hp.
  assert (Hpb : 0 <= p < 4) by (apply Z.mod_pos_bound; lia). assert (Er : r = 4 * Z.of_nat j + p) by (unfold j, p; zlia).
  set (y := default 0 (l !! j)). assert (Hy : is_u32 y) by (by apply default_u32).
  assert (Hsplit : eval l = eval (take j l) + pow_b j * (y + B * eval (drop (S j) l))).
  { rewrite <- (take_drop (S j) l) at 1. rewrite eval_app, eval_take_S by lia. rewrite length_take, Nat.min_l, pow_b_S by lia. fold y. ring. }
  assert (Hpow : 256 ^ (r + 1) = pow_b j * 256 ^ (p + 1)).
  { unfold pow_b. change B with (256 ^ 4). rewrite <- Z.pow_mul_r, <- Z.pow_add_r by lia. f_equal. lia. }
  pose proof (eval_bound _ (Forall_take _ j _ Hl)) as Bt. rewrite length_take, Nat.min_l in Bt by lia. pose proof (pow_b_pos j) as Hpj.
  assert (Hlow : eval (take j l) = 0).
  { rewrite Hsplit, Hpow in E. assert (eval (take j l) = pow_b j * (256 ^ (p + 1) * x - (y + B * eval (drop (S j) l)))) as E' by lia.
    rewrite E' in Bt. assert (0 <= 256 ^ (p + 1) * x - (y + B * eval (drop (S j) l)) < 1) by nia. nia. }
  assert (Ey : exists c, y = c * 2 ^ (p * 8 + 8)).
  { assert (y + B * eval (drop (S j) l) = 256 ^ (p + 1) * x) as E' by (apply (Z.mul_reg_l _ _ (pow_b j)); lia).
    exists (x - 2 ^ (24 - p * 8) * eval (drop (S j) l)). change 256 with (2 ^ 8) in E'. rewrite <- Z.pow_mul_r in E' by lia.
    replace (8 * (p + 1)) with (p * 8 + 8) in E' by lia. assert (B = 2 ^ (p * 8 + 8) * 2 ^ (24 - p * 8)) as EB.
    { rewrite <- Z.pow_add_r by lia. change B with (2 ^ 32). f_equal. lia. }
    rewrite EB in E'. lia. }
  destruct Ey as [c Ec]. assert (H2p : 0 < 2 ^ (p * 8)) by (apply Z.pow_pos_nonneg; lia).
  assert (Hc : 0 <= c) by (unfold is_u32 in Hy; rewrite Z.pow_add_r in Ec by lia; nia).
  assert (Hword : 2 ^ (p * 8 + 8) * 2 ^ (24 - p * 8) = B) by (rewrite <- Z.pow_add_r by lia; change B with (2 ^ 32); f_equal; lia).
  assert (Hsh : u32 (Z.shiftl b (p * 8)) = b * 2 ^ (p * 8)).
  { rewrite Z.shiftl_mul_pow2 by lia. apply u32_id. unfold is_u32. rewrite Z.pow_add_r in Hword by lia. assert (0 < 2 ^ (24 - p * 8)) by (apply Z.pow_pos_nonneg; lia). nia. }
  rewrite Hsh, Ec, lor_fresh by lia.
  assert (Hnew : is_u32 (c * 2 ^ (p * 8 + 8) + b * 2 ^ (p * 8))).
  { unfold is_u32 in *. rewrite Z.pow_add_r in * by lia. change (2 ^ 8) with 256 in *. assert (0 < 2 ^ (24 - p * 8)) by (apply Z.pow_pos_nonneg; lia).
    assert (c < 2 ^ (24 - p * 8)) by nia. nia. }
  split; [by apply Forall_insert|]. rewrite eval_insert by done. fold y. rewrite <- Ec, E, Hpow, Z.pow_add_r by lia.
  assert (256 ^ r = pow_b j * 2 ^ (p * 8)) as ->.
  { unfold pow_b. rewrite Er. change B with (256 ^ 4). rewrite <- Z.pow_mul_r, Z.pow_add_r by lia. f_equal. change 256 with (2 ^ 8). rewrite <- Z.pow_mul_r by lia. f_equal. lia. }
  assert (256 ^ p = 2 ^ (p * 8)) as -> by (change 256 with (2 ^ 8); rewrite <- Z.pow_mul_r by lia; f_equal; lia). change (256 ^ 1) with 256. ring.
Qed.

Lemma put_be_spec length input : forall l offset x, Forall is_u32 l -> Forall is_u8 input -> Z.of_nat offset + blen input = length ->
  (length + 3) / 4 <= Z.of_nat (List.length l) -> eval l = 256 ^ blen input * x ->
  Forall is_u32 (put_be length l offset input) /\ eval (put_be length l offset input) = fold_left (fun x c => 256 * x + c) input x /\
  List.length (put_be length l offset input) = List.length l.
Proof.
  induction input as [|b input IH]; intros l offset x Hl Hb Hlen Hroom E; cbn [put_be fold_left].
  { unfold blen in E. cbn [List.length] in E. split; [done|]. split; [|done]. change (256 ^ Z.of_nat 0) with 1 in E. lia. }
  apply Forall_cons in Hb as [Hb Hbs]. unfold blen in *. cbn [List.length] in *. rewrite Nat2Z.inj_succ in *.
  destruct (put_byte_spec length l offset b x) as [H1 H2]; [done|done|lia|zlia|rewrite E; do 2 f_equal; lia|].
  replace (length - 1 - Z.of_nat offset) with (Z.of_nat (List.length input)) in H2 by lia.
  destruct (IH (put_byte length l offset b) (S offset) (256 * x + b)) as (R1 & R2 & R3); [done|done|lia|unfold put_byte; rewrite length_insert; done|done|].
  split; [done|]. split; [done|]. rewrite R3. unfold put_byte. apply length_insert.
Qed.

(** [bigint_from_be] *)
Lemma from_be_spec v input length : wf_big v -> 0 < length < 65536 -> (length + 3) / 4 <= capacity v -> length <= blen input ->
  Forall is_u8 input ->
  exists v', bigint_from_be (Some v) (Some input) length = Some (0, Some v') /\ wf_big v' /\ normal v' /\ capacity v' = capacity v /\
    value v' = be_value (take (Z.to_nat length) input).
Proof.
  intros Hv Hl Hcap Hin Hu. unfold bigint_from_be. rewrite (proj2 (Z.eqb_neq length 0)) by lia.
  assert (Hbytes : 0 <= (length + 3) / 4 < 65536) by zlia. rewrite u16_id by (unfold is_u16; lia). rewrite (proj2 (Z.ltb_ge _ _)) by lia.
  unfold ld_bytes. rewrite !(proj2 (Z.leb_le _ _)) by lia. cbn [andb]. rewrite some_bind, drop_0.
  set (b := take (Z.to_nat length) input). assert (Hbl : blen b = length) by (unfold b, blen in *; rewrite length_take; lia).
  assert (Hbu : Forall is_u8 b) by (by apply Forall_take). pose proof (zero_wf v Hv) as Hz. pose proof (zero_limbs v Hv) as Hzl.
  destruct (put_be_spec length b (limbs (bigint_zero v)) 0 0) as (R1 & R2 & R3);
    [by destruct Hz as (_ & _ & _ & Hz)|done|lia|rewrite Hzl, length_replicate; lia|rewrite Hzl, eval_zeros; lia|].
  set (l := put_be length (limbs (bigint_zero v)) 0 b) in *. rewrite Hzl, length_replicate in R3.
  assert (Hw : wf_big (mk_big l (capacity (bigint_zero v)) ((length + 3) / 4))).
  { destruct Hv as (_ & _ & Hc & _). split; [done|]. split; [cbn; lia|done]. }
  destruct (normalize_holds _ _ Hw eq_refl) as [(H1 & _ & H2 & _) H3]. eexists. split; [done|]. split; [done|]. split; [done|]. split; [done|].
  rewrite H2. unfold value. cbn [big_len limbs]. fold (be_value b) in R2. rewrite <- R2.
  assert (Hp : 256 ^ length <= pow_b (Z.to_nat ((length + 3) / 4))).
  { unfold pow_b. change B with (256 ^ 4). rewrite <- Z.pow_mul_r by lia. apply Z.pow_le_mono_r; [lia|zlia]. }
  apply eval_take_small; [done|lia|]. pose proof (be_value_bound b Hbu) as Bb. rewrite Hbl in Bb. lia.
Qed.

(** ** Back to bytes *)

(** The limb at [j] between the lower and the higher ones. *)
Lemma value_split v j : wf_big v -> Z.of_nat j < big_len v ->
  exists lo hi, value v = lo + pow_b j * (limb v j + B * hi) /\ 0 <= lo < pow_b j.
Proof.
  intros (Hl & Hb & _ & Hu) Hj. set (l := take (Z.to_nat (big_len v)) (limbs v)).
  assert (Hlen : (j < List.length l)%nat) by (unfold l; rewrite length_take; lia). assert (Hlu : Forall is_u32 l) by (by apply Forall_take).
  exists (eval (take j l)), (eval (drop (S j) l)). split.
  - unfold value. fold l. rewrite <- (take_drop (S j) l) at 1. rewrite eval_app, eval_take_S, length_take, Nat.min_l, pow_b_S by lia.
    assert (default 0 (l !! j) = limb v j) as -> by (unfold l, limb; rewrite lookup_take_lt by lia; done). ring.
  - pose proof (eval_bound _ (Forall_take _ j _ Hlu)) as Hbd. rewrite length_take, Nat.min_l in Hbd by lia. done.
Qed.

Lemma value_bound v : wf_big v -> 0 <= value v < pow_b (Z.to_nat (big_len v)).
Proof.
  intros (Hl & Hb & _ & Hu). pose proof (eval_bound _ (Forall_take _ (Z.to_nat (big_len v)) _ Hu)) as Hbd. rewrite length_take, Nat.min_l in Hbd by lia. done.
Qed.

Lemma be_byte_spec v length i : wf_big v -> 0 <= length - 1 - i -> be_byte v length i = (value v / 256 ^ (length - 1 - i)) mod 256.
Proof.
  intros Hv Hr. unfold be_byte. set (r := length - 1 - i) in *. set (j := Z.to_nat (r / 4)). set (p := r mod 4).
  assert (Hp : Z.land r 3 = p) by apply (Z.land_ones r 2 ltac:(lia)). rewrite Hp.
  assert (Hpb : 0 <= p < 4) by (apply Z.mod_pos_bound; lia). assert (Er : r = 4 * Z.of_nat j + p) by (unfold j, p; zlia).
  assert (Epow : 256 ^ r = pow_b j * 2 ^ (p * 8)).
  { rewrite Er. unfold pow_b. change B with (256 ^ 4). rewrite <- Z.pow_mul_r, Z.pow_add_r by lia. f_equal. change 256 with (2 ^ 8). rewrite <- Z.pow_mul_r by lia. f_equal. lia. }
  pose proof (pow_b_pos j). assert (0 < 2 ^ (p * 8)) by (apply Z.pow_pos_nonneg; lia).
  destruct (Z.ltb_spec (r / 4) (big_len v)) as [Hj|Hj].
  - destruct (value_split v j Hv ltac:(unfold j; zlia)) as (lo & hi & -> & Hlo). rewrite Epow, <- Z.div_div by lia.
    rewrite (Z.mul_comm (pow_b j)), Z.div_add, (Z.div_small lo) by lia. rewrite Z.add_0_l, Z.shiftr_div_pow2 by lia. unfold u8.
    assert (B = 2 ^ (24 - p * 8) * 256 * 2 ^ (p * 8)) as ->.
    { change 256 with (2 ^ 8). rewrite <- !Z.pow_add_r by lia. change B with (2 ^ 32). f_equal. lia. }
    replace (2 ^ (24 - p * 8) * 256 * 2 ^ (p * 8) * hi) with (2 ^ (24 - p * 8) * 256 * hi * 2 ^ (p * 8)) by ring. rewrite Z.div_add by lia.
    replace (2 ^ (24 - p * 8) * 256 * hi) with (2 ^ (24 - p * 8) * hi * 256) by ring. by rewrite Z_mod_plus_full.
  - pose proof (value_bound v Hv) as Hbd. assert (pow_b (Z.to_nat (big_len v)) <= 256 ^ r).
    { rewrite Epow. assert (pow_b (Z.to_nat (big_len v)) <= pow_b j) by (unfold pow_b; apply Z.pow_le_mono_r; [lia|unfold j; zlia]). nia. }
    by rewrite Z.div_small by lia.
Qed.

Lemma be_digits V L k : 0 <= V -> forall s, s + Z.of_nat k = L ->
  be_value (map (fun i => (V / 256 ^ (L - 1 - i)) mod 256) (seqZ s (Z.of_nat k))) = V mod 256 ^ Z.of_nat k.
Proof.
  intros HV. induction k as [|k IH]; intros s Hs; [by rewrite Z.pow_0_r, Z.mod_1_r|].
  rewrite seqZ_cons, Nat2Z.inj_succ, Z.pred_succ by lia. cbn [map]. rewrite be_value_cons, IH by lia. unfold blen. rewrite length_map, length_seqZ.
  replace (L - 1 - s) with (Z.of_nat k) by lia. rewrite Nat2Z.id, Z.pow_succ_r, (Z.mul_comm 256), (Z.rem_mul_r V (256 ^ Z.of_nat k) 256) by lia. ring.
Qed.

Lemma to_be_spec v output length : wf_big v -> 0 <= length <= blen output -> value v < 256 ^ length ->
  exists bs o, bigint_to_be (Some v) (Some output) length = Some (0, Some o) /\ o = bs ++ drop (Z.to_nat length) output /\
    blen bs = length /\ Forall is_u8 bs /\ be_value bs = value v.
Proof.
  intros Hv Hl Hlt. unfold bigint_to_be. set (bs := map (be_byte v length) (seqZ 0 length)).
  assert (Hbl : blen bs = length) by (unfold bs, blen; rewrite length_map, length_seqZ; lia).
  unfold st_bytes. rewrite Hbl, !(proj2 (Z.leb_le _ _)) by lia. cbn [andb]. rewrite some_bind. exists bs. eexists. split; [done|].
  split; [change (Z.to_nat 0) with 0%nat; rewrite take_0; cbn [app]; do 2 f_equal; unfold blen in Hbl; lia|]. split; [done|]. split.
  - apply Forall_fmap, Forall_forall. intros i _. unfold compose, be_byte. destruct (_ <? _); [apply u8_range|unfold is_u8; lia].
  - unfold bs. rewrite (map_ext_in _ (fun i => (value v / 256 ^ (length - 1 - i)) mod 256)).
    2:{ intros i Hi. apply list_elem_of_In, elem_of_seqZ in Hi. apply be_byte_spec; [done|lia]. }
    pose proof (value_bound v Hv). pose proof (be_digits (value v) length (Z.to_nat length) ltac:(lia) 0 ltac:(lia)) as E.
    rewrite Z2Nat.id in E by lia. rewrite E. apply Z.mod_small. lia.
Qed.

(** ** Comparison *)

Lemma normal_bound v : wf_big v -> normal v -> big_len v <> 0 -> pow_b (Z.to_nat (big_len v - 1)) <= value v.
Proof.
  intros Hv [|Htop] Hne; [done|]. pose proof Hv as (_ & Hb & _ & Hu).
  destruct (value_split v (Z.to_nat (big_len v - 1)) Hv ltac:(lia)) as (lo & hi & E & Hlo).
  assert (Hd : is_u32 (limb v (Z.to_nat (big_len v - 1)))) by (by apply default_u32). unfold is_u32 in Hd.
  assert (0 <= hi).
  { pose proof (value_bound v Hv) as Hbd. replace (Z.to_nat (big_len v)) with (S (Z.to_nat (big_len v - 1))) in Hbd by lia. rewrite pow_b_S in Hbd. nia. }
  rewrite E. nia.
Qed.

Lemma compare_spec_big l r : wf_big l -> wf_big r -> normal l -> normal r ->
  match value l ?= value r with
  | Lt => bigint_compare (Some l) (Some r) = -1
  | Eq => bigint_compare (Some l) (Some r) = 0
  | Gt => bigint_compare (Some l) (Some r) = 1
  end.
Proof.
  intros Hl Hr Nl Nr. unfold bigint_compare. pose proof (value_bound l Hl) as Bl. pose proof (value_bound r Hr) as Br.
  pose proof Hl as (Ll & Lb & _ & Lu). pose proof Hr as (Rl & Rb & _ & Ru).
  destruct (Z.eqb_spec (big_len l) (big_len r)) as [E|Hne]; cbn [negb].
  - unfold value. rewrite <- E. apply compare_down_spec; [done|done|lia|lia].
  - assert (Hmono : forall x y, wf_big x -> wf_big y -> normal y -> big_len x < big_len y -> value x < value y).
    { intros x y Hx Hy Ny Hlt. pose proof (value_bound x Hx) as Bx. destruct Hx as (_ & Hxb & _). pose proof (normal_bound y Hy Ny ltac:(lia)) as By.
      assert (pow_b (Z.to_nat (big_len x)) <= pow_b (Z.to_nat (big_len y - 1))) by (unfold pow_b; apply Z.pow_le_mono_r; lia). lia. }
    destruct (Z.ltb_spec (big_len r) (big_len l)).
    + rewrite (proj2 (Z.compare_gt_iff _ _)); [done|]. by apply Hmono.
    + rewrite (proj2 (Z.compare_lt_iff _ _)); [done|]. apply Hmono; try done. lia.
Qed.

(** ** Sum, difference, product *)

Lemma add_spec_big o l r : wf_big o -> wf_big l -> wf_big r -> Z.max (big_len l) (big_len r) < capacity o ->
  exists o', bigint_add (Some o) (Some l) (Some r) = (0, Some o') /\ wf_big o' /\ normal o' /\ value o' = value l + value r.
Proof.
  intros Ho Hl Hr Hc. unfold bigint_add. set (k := Z.max (big_len l) (big_len r)) in *.
  assert (Hk : 0 <= k) by (destruct Hl as (_ & Hb & _); lia). rewrite (proj2 (Z.ltb_ge _ _)) by lia.
  destruct (add_row_spec (digits l k) (digits r k) 0) as (sum & c & -> & Hs & Hu & Hcb & Ev);
    [by rewrite !digits_length|by apply digits_u32|by apply digits_u32|lia|].
  rewrite digits_length in Hs, Ev. rewrite !digits_value, Z.add_0_r in Ev by (done || lia).
  assert (Hw : wf_big (store o sum (big_len o))).
  { apply store_wf; [done|destruct Ho as (E & _); lia|done|destruct Ho as (_ & Hb & _); lia]. }
  unfold c_true. destruct (Z.eqb_spec c 0) as [->|Hne]; cbn [negb].
  - destruct (store_row (store o sum (big_len o)) sum k Hw) as [(H1 & _ & H2 & _) H3]; [cbn; lia|done|done|].
    eexists. split; [done|]. split; [done|]. split; [done|]. lia.
  - rewrite (proj2 (Z.leb_gt _ _)) by (cbn; lia). assert (c = 1) as -> by lia. change (u32 1) with 1.
    destruct (store_row (store o sum (big_len o)) (sum ++ [1]) (k + 1) Hw) as [(H1 & _ & H2 & _) H3];
      [cbn; lia|rewrite length_app; cbn; lia|apply Forall_app; split; [done|repeat constructor; lia]|].
    eexists. split; [done|]. split; [done|]. split; [done|]. rewrite H2, eval_app, Hs. cbn [eval]. lia.
Qed.

Lemma subtract_spec_big o l r : wf_big o -> wf_big l -> wf_big r -> normal l -> normal r -> value r <= value l -> big_len l <= capacity o ->
  exists o', bigint_subtract (Some o) (Some l) (Some r) = (0, Some o') /\ wf_big o' /\ normal o' /\ value o' = value l - value r.
Proof.
  intros Ho Hl Hr Nl Nr Hle Hc. unfold bigint_subtract. pose proof (compare_spec_big l r Hl Hr Nl Nr) as Hcmp.
  assert (Hlen : big_len r <= big_len l).
  { destruct (Z.le_gt_cases (big_len r) (big_len l)) as [|Hgt]; [done|]. exfalso. pose proof (value_bound l Hl).
    pose proof Hl as (_ & Hlb & _). pose proof (normal_bound r Hr Nr ltac:(lia)).
    assert (pow_b (Z.to_nat (big_len l)) <= pow_b (Z.to_nat (big_len r - 1))) by (unfold pow_b; apply Z.pow_le_mono_r; lia). lia. }
  assert (Hge : (bigint_compare (Some l) (Some r) <? 0) = false) by (destruct (Z.compare_spec (value l) (value r)); [by rewrite Hcmp|lia|by rewrite Hcmp]).
  rewrite Hge, (proj2 (Z.ltb_ge _ _)) by lia. cbn [orb].
  destruct (sub_row_spec (raw l (big_len l)) (digits r (big_len l)) 0) as (d & b & -> & Hd & Hu & Hb & Ev);
    [by rewrite digits_length, raw_length|by apply raw_u32|by apply digits_u32|lia|].
  rewrite raw_length in Hd, Ev. rewrite raw_value, digits_value, Z.sub_0_r in Ev by done. pose proof Hl as (_ & Hlb & _).
  destruct (store_row o d (big_len l) Ho) as [(H1 & _ & H2 & _) H3]; [lia|done|done|]. eexists. split; [done|]. split; [done|]. split; [done|]. rewrite H2.
  pose proof (eval_bound d Hu) as Bd. rewrite Hd in Bd. pose proof (value_bound l Hl). pose proof (value_bound r Hr). assert (b = 0 \/ b = 1) as [-> | ->] by lia; lia.
Qed.

Lemma mul_row_app ys : forall a t z x, length t = length ys -> mul_row ys a (t ++ z) x = mul_row ys a t x.
Proof.
  induction ys as [|y ys IH]; intros a [|u t] z x Hl; try done. cbn [app mul_row]. by rewrite IH by (by injection Hl).
Qed.

Lemma mul_rows_spec ys : Forall is_u32 ys -> forall xs low k, Forall is_u32 xs -> Forall is_u32 low -> length low = length ys -> (length xs <= k)%nat ->
  length (mul_rows xs ys (low ++ replicate k 0)) = (length ys + k)%nat /\ Forall is_u32 (mul_rows xs ys (low ++ replicate k 0)) /\
    eval (mul_rows xs ys (low ++ replicate k 0)) = eval low + eval xs * eval ys.
Proof.
  intros Hy. induction xs as [|a xs IH]; intros low k Hx Hlow Hl Hk; cbn [mul_rows].
  { rewrite length_app, length_replicate, eval_app, eval_zeros. split; [lia|]. split; [apply Forall_app; split; [done|apply Forall_replicate; unfold is_u32; lia]|]. cbn. lia. }
  apply Forall_cons in Hx as [Ha Hx]. rewrite mul_row_app by done. cbn [length] in Hk. destruct k as [|k]; [lia|].
  destruct (mul_row_spec ys a low 0) as (r & c & -> & Hr & Hru & Hc & Ev); [done|done|done|done|unfold is_u32; lia|].
  rewrite (u32_id c) by done. rewrite Hr, <- Hl. change (S (length low)) with (1 + length low)%nat. rewrite Nat.add_comm, <- drop_drop.
  rewrite drop_app_length. cbn [replicate drop]. rewrite drop_0.
  destruct ys as [|y ys]; [|].
  - destruct r; [|done]. destruct low; [|done]. cbn [app length eval] in *. rewrite pow_b_0 in Ev. assert (c = 0) as -> by lia.
    destruct (IH [] k Hx ltac:(constructor) eq_refl ltac:(lia)) as (E1 & E2 & E3). cbn [app length eval] in E1, E2, E3. split; [by rewrite E1|].
    split; [by constructor|]. rewrite E3. lia.
  - destruct r as [|t0 r]; [done|]. cbn [app]. replace (r ++ c :: replicate k 0) with ((r ++ [c]) ++ replicate k 0) by (by rewrite <- app_assoc).
    apply Forall_cons in Hru as [Ht0 Hru].
    destruct (IH (r ++ [c]) k Hx) as (E1 & E2 & E3); [apply Forall_app; split; [done|by constructor]|rewrite length_app; cbn in *; lia|lia|].
    split; [cbn [length] in *; lia|]. split; [by constructor|]. cbn [eval] in *. rewrite E3, eval_app. cbn [eval]. cbn [length] in Hr, Ev. injection Hr as Hr.
    rewrite pow_b_S in Ev. rewrite Hr. lia.
Qed.

Lemma multiply_spec_big o l r : wf_big o -> wf_big l -> wf_big r -> big_len l + big_len r <= capacity o ->
  exists o', bigint_multiply false (Some o) (Some l) (Some r) = (0, Some o') /\ wf_big o' /\ normal o' /\ value o' = value l * value r.
Proof.
  intros Ho Hl Hr Hc. unfold bigint_multiply. rewrite (proj2 (Z.ltb_ge _ _)) by lia. pose proof Ho as (Hol & Hob & Hoc & _).
  pose proof Hl as (_ & Hlb & _). pose proof Hr as (_ & Hrb & _). rewrite u16_id by (unfold is_u16; lia). rewrite zero_limbs by done.
  replace (Z.to_nat (capacity o)) with (Z.to_nat (big_len r) + (Z.to_nat (capacity o) - Z.to_nat (big_len r)))%nat by lia. rewrite replicate_add.
  destruct (mul_rows_spec (raw r (big_len r)) (raw_u32 r _ Hr) (raw l (big_len l)) (replicate (Z.to_nat (big_len r)) 0) (Z.to_nat (capacity o) - Z.to_nat (big_len r)))
    as (E1 & E2 & E3); [by apply raw_u32|apply Forall_replicate; unfold is_u32; lia|by rewrite length_replicate, raw_length|rewrite raw_length; lia|].
  rewrite raw_length in E1. rewrite eval_zeros, !raw_value, Z.add_0_l in E3 by done. set (t := mul_rows _ _ _) in *.
  assert (Hw : wf_big (mk_big t (capacity (bigint_zero o)) (big_len l + big_len r))).
  { split; [cbn; lia|]. split; [cbn; lia|]. done. }
  destruct (normalize_holds _ _ Hw eq_refl) as [(H1 & _ & H2 & _) H3]. eexists. split; [done|]. split; [done|]. split; [done|]. rewrite H2, <- E3.
  apply eval_take_small; [done|cbn; lia|]. rewrite E3. cbn [big_len]. rewrite Z2Nat.inj_add, pow_b_add by lia.
  pose proof (value_bound l Hl). pose proof (value_bound r Hr). nia.
Qed.

(** The integers of bigint.c are exact: for numbers in normal form the comparison
    orders values, and sum, difference and product return 0 and leave the value in normal
    form whenever the output has room for it. *)
Theorem bigint_arithmetic_exact o l r : wf_big o -> wf_big l -> wf_big r -> normal l -> normal r -> big_len l + big_len r < capacity o ->
  (bigint_compare (Some l) (Some r) = match value l ?= value r with Lt => -1 | Eq => 0 | Gt => 1 end) /\
  (exists o', bigint_add (Some o) (Some l) (Some r) = (0, Some o') /\ wf_big o' /\ normal o' /\ value o' = value l + value r) /\
  (exists o', bigint_multiply false (Some o) (Some l) (Some r) = (0, Some o') /\ wf_big o' /\ normal o' /\ value o' = value l * value r) /\
  (if value r <=? value l
   then exists o', bigint_subtract (Some o) (Some l) (Some r) = (0, Some o') /\ wf_big o' /\ normal o' /\ value o' = value l - value r
   else bigint_subtract (Some o) (Some l) (Some r) = (-1, Some o)).
Proof.
  intros Ho Hl Hr Nl Nr Hc. pose proof Hl as (_ & Hlb & _). pose proof Hr as (_ & Hrb & _).
  pose proof (compare_spec_big l r Hl Hr Nl Nr) as Hcmp. split; [by destruct (_ ?= _)|]. split; [apply add_spec_big; try done; lia|].
  split; [apply multiply_spec_big; try done; lia|]. destruct (Z.leb_spec (value r) (value l)); [apply subtract_spec_big; try done; lia|].
  unfold bigint_subtract. rewrite (proj2 (Z.compare_lt_iff _ _)) in Hcmp by lia. by rewrite Hcmp.
Qed.
