(* ===== verification/Rsa.v ===== *)
(** * RSA signatures of kernel/rsa_verify.c

    PKCS#1 v1.5 signatures with SHA-256: verification and signing over the integers of
    BigInt.  The workspace belongs to the caller; what it holds before the call is
    overwritten before it is read. *)

From Stdlib Require Import ZArith Lia Zpow_facts.
From stdpp Require Import base numbers option tactics list.
From S2P Require Import Prelude Bytes NetBuf NetSum BigInt BigIntMod BigIntExp BigIntBytes.

Definition RSA_SHA256_DIGEST_INFO_LENGTH : Z := 19.
Definition rsa_sha256_digest_info : bytes :=
  [48; 49; 48; 13; 6; 9; 96; 134; 72; 1; 101; 3; 4; 2; 1; 5; 0; 4; 32].

(** [while (length > 1 && *p == 0) { p++; length--; }] *)
Fixpoint skip_zero_bytes (p : bytes) (length : Z) : bytes * Z :=
  match p with
  | c :: p' => if (1 <? length) && (c =? 0) then skip_zero_bytes p' (length - 1) else (p, length)
  | [] => (p, length)
  end.

(** The value and [*ok]; [None] is a read past the exponent. *)
Definition rsa_exponent_u32 (exponent : bytes) (length : Z) : option (Z * bool) :=
  let '(exponent, length) := skip_zero_bytes exponent length in
  if (length =? 0) || (4 <? length) then Some (0, false)
  else
    b ← ld_bytes exponent 0 length;
    let value := fold_left (fun v c => Z.lor (u32 (Z.shiftl v 8)) c) b 0 in
    Some (value, negb (value =? 0)).

(** [for (...) difference |= recovered[off + i] ^ expected[i];] *)
Definition differ (difference : Z) (recovered : bytes) (off : Z) (expected : bytes) : option Z :=
  b ← ld_bytes recovered off (blen expected);
  Some (fold_left (fun d p => Z.lor d (u8 (Z.lxor (fst p) (snd p)))) (zip b expected) difference).

Definition limbs_for (modulus_length : Z) : Z := u16 ((modulus_length + 3) / 4).

(** The number over the [k]-th part of the workspace. *)
Definition part (workspace : list Z) (limbs k : Z) : Z * ptr bigint_t :=
  bigint_init (Some (drop (Z.to_nat (u16 (k * limbs))) workspace)) limbs.

(** The bytes of the workspace behind the first three numbers.  [bigint_to_be] overwrites
    all those that are read, so what the exponentiation left there does not matter. *)
Definition recovered_space (workspace : list Z) (limbs : Z) : bytes :=
  concat (map le32 (drop (Z.to_nat (u16 (3 * limbs))) workspace)).

(** The comparison with the padded digest. *)
Definition check_encoding (recovered digest : bytes) (modulus_length : Z) : option Z :=
  let encoded_offset := u16 (modulus_length - (RSA_SHA256_DIGEST_INFO_LENGTH + 32)) in
  let padding_length := u16 (encoded_offset - 3) in
  difference ← differ 0 recovered 0 [0];
  difference ← differ difference recovered 1 [1];
  difference ← differ difference recovered 2 (replicate (Z.to_nat padding_length) 255);
  difference ← differ difference recovered (2 + padding_length) [0];
  difference ← differ difference recovered encoded_offset rsa_sha256_digest_info;
  digest ← ld_bytes digest 0 32;
  difference ← differ difference recovered (encoded_offset + RSA_SHA256_DIGEST_INFO_LENGTH) digest;
  Some (if difference =? 0 then 0 else -11).

Definition rsa_pkcs1_v15_sha256_verify (modulus : ptr bytes) (modulus_length : Z) (exponent : ptr bytes) (exponent_length : Z)
    (digest : ptr bytes) (signature : ptr bytes) (signature_length : Z) (workspace : ptr (list Z)) (workspace_length : Z)
    : option Z :=
  match modulus, exponent, digest, signature, workspace with
  | Some modulus, Some exponent, Some digest, Some signature, Some workspace =>
      if modulus_length =? 0 then Some (-1)
      else
        let '(modulus, modulus_length) := skip_zero_bytes modulus modulus_length in
        if negb (signature_length =? modulus_length) then Some (-2)
        else
          let limbs := limbs_for modulus_length in
          if (limbs =? 0) || (workspace_length <? u16 (7 * limbs)) then Some (-3)
          else
            '(public_exponent, exponent_ok) ← rsa_exponent_u32 exponent exponent_length;
            if negb (exponent_ok : bool) then Some (-4)
            else
              match part workspace limbs 0, part workspace limbs 1, part workspace limbs 2 with
              | (0, n), (0, s), (0, encoded) =>
                  '(rc, n) ← bigint_from_be n (Some modulus) modulus_length;
                  if negb (rc =? 0) || (match n with Some n => big_len n =? 0 | NULL => true end) then Some (-6)
                  else
                    '(rc, s) ← bigint_from_be s (Some signature) signature_length;
                    if negb (rc =? 0) || (0 <=? bigint_compare s n) then Some (-7)
                    else
                      '(rc, encoded) ← bigint_modexp_u32 encoded s public_exponent n
                                         (Some (drop (Z.to_nat (u16 (3 * limbs))) workspace)) (u16 (4 * limbs));
                      if negb (rc =? 0) then Some (-8)
                      else
                        '(rc, recovered) ← bigint_to_be encoded (Some (recovered_space workspace limbs)) signature_length;
                        if negb (rc =? 0) then Some (-9)
                        else if modulus_length <? 11 + RSA_SHA256_DIGEST_INFO_LENGTH + 32 then Some (-10)
                        else check_encoding (default [] recovered) digest modulus_length
              | _, _, _ => Some (-5)
              end
  | _, _, _, _, _ => Some (-1)
  end.

(** The padded digest that [rsa_pkcs1_v15_sha256_sign] writes into the signature. *)
Definition put_encoding (signature digest : bytes) (modulus_length : Z) : option bytes :=
  let encoded_offset := u16 (modulus_length - (RSA_SHA256_DIGEST_INFO_LENGTH + 32)) in
  let padding_length := u16 (encoded_offset - 3) in
  b ← zero_in signature 0 modulus_length;
  b ← put8 b 0 0;
  b ← put8 b 1 1;
  b ← st_bytes b 2 (replicate (Z.to_nat padding_length) 255);
  b ← put8 b (2 + padding_length) 0;
  b ← st_bytes b encoded_offset rsa_sha256_digest_info;
  digest ← ld_bytes digest 0 32;
  st_bytes b (encoded_offset + RSA_SHA256_DIGEST_INFO_LENGTH) digest.

Definition rsa_pkcs1_v15_sha256_sign (modulus : ptr bytes) (modulus_length : Z) (private_exponent : ptr bytes)
    (private_exponent_length : Z) (digest : ptr bytes) (signature : ptr bytes) (signature_capacity : Z)
    (workspace : ptr (list Z)) (workspace_length : Z) : option (Z * ptr bytes) :=
  match modulus, private_exponent, digest, signature, workspace with
  | Some modulus, Some private_exponent, Some digest, Some sig, Some workspace =>
      if modulus_length =? 0 then Some (-1, signature)
      else
        let '(modulus, modulus_length) := skip_zero_bytes modulus modulus_length in
        let '(private_exponent, private_exponent_length) := skip_zero_bytes private_exponent private_exponent_length in
        if (signature_capacity <? modulus_length) || (private_exponent_length =? 0) || (modulus_length <? private_exponent_length)
        then Some (-2, signature)
        else if modulus_length <? 11 + RSA_SHA256_DIGEST_INFO_LENGTH + 32 then Some (-3, signature)
        else
          let limbs := limbs_for modulus_length in
          if (limbs =? 0) || (workspace_length <? u16 (8 * limbs)) then Some (-4, signature)
          else
            match part workspace limbs 0, part workspace limbs 1, part workspace limbs 2, part workspace limbs 3 with
            | (0, n), (0, d), (0, message), (0, signature_value) =>
                '(rc, n) ← bigint_from_be n (Some modulus) modulus_length;
                if negb (rc =? 0) || (match n with Some n => big_len n =? 0 | NULL => true end) then Some (-6, signature)
                else
                  '(rc, d) ← bigint_from_be d (Some private_exponent) private_exponent_length;
                  if negb (rc =? 0) || (match d with Some d => big_len d =? 0 | NULL => true end) then Some (-7, signature)
                  else
                    sig ← put_encoding sig digest modulus_length;
                    '(rc, message) ← bigint_from_be message (Some sig) modulus_length;
                    if negb (rc =? 0) then Some (-8, Some sig)
                    else if 0 <=? bigint_compare message n then Some (-9, Some sig)
                    else
                      '(rc, signature_value) ← bigint_modexp signature_value message d n
                                                 (Some (drop (Z.to_nat (u16 (4 * limbs))) workspace)) (u16 (4 * limbs));
                      if negb (rc =? 0) then Some (-10, Some sig)
                      else
                        '(rc, out) ← bigint_to_be signature_value (Some sig) modulus_length;
                        if negb (rc =? 0) then Some (-11, out) else Some (modulus_length, out)
            | _, _, _, _ => Some (-5, signature)
            end
  | _, _, _, _, _ => Some (-1, signature)
  end.

(** * RSA signatures: what is accepted

    [rsa_pkcs1_v15_sha256_verify] accepts exactly the signatures whose power is the
    padded digest, and [rsa_pkcs1_v15_sha256_sign] makes such signatures. *)

(** The encoding of PKCS#1 v1.5 for a digest, [k] bytes long. *)
Definition encoding (digest : bytes) (k : Z) : bytes :=
  0 :: 1 :: replicate (Z.to_nat (k - 54)) 255 ++ 0 :: rsa_sha256_digest_info ++ take 32 digest.

Lemma skip_spec p : forall len, 1 <= len <= blen p -> let '(p', k) := skip_zero_bytes p len in
  1 <= k <= len /\ k <= blen p' /\ be_value (take (Z.to_nat k) p') = be_value (take (Z.to_nat len) p) /\
  (Forall is_u8 p -> Forall is_u8 p') /\ (k = 1 \/ default 0 (head p') <> 0).
Proof.
  induction p as [|c p IH]; intros len Hl; [unfold blen in Hl; cbn in Hl; lia|]. cbn [skip_zero_bytes].
  destruct ((1 <? len) && (c =? 0)) eqn:E.
  - apply andb_prop in E as [E1%Z.ltb_lt E2%Z.eqb_eq]. subst c. unfold blen in *. cbn [length] in Hl. specialize (IH (len - 1) ltac:(lia)).
    destruct (skip_zero_bytes p (len - 1)) as [p' k]. destruct IH as (H1 & H2 & H3 & H4 & H5). split; [lia|]. split; [done|]. split.
    + replace (Z.to_nat len) with (S (Z.to_nat (len - 1))) by lia. cbn [take]. rewrite be_value_cons, Z.mul_0_l, Z.add_0_l. done.
    + split; [|done]. intros Hu. apply Forall_cons in Hu as [_ Hu]. by apply H4.
  - split; [lia|]. split; [lia|]. split; [done|]. split; [done|]. apply andb_false_iff in E as [E%Z.ltb_ge|E%Z.eqb_neq]; [left; lia|by right].
Qed.

Lemma exponent_fold b : forall v, Forall is_u8 b -> 0 <= v -> v * 256 ^ blen b + be_value b < 4294967296 ->
  fold_left (fun v c => Z.lor (u32 (Z.shiftl v 8)) c) b v = v * 256 ^ blen b + be_value b.
Proof.
  induction b as [|c b IH]; intros v Hu Hv Hlt; cbn [fold_left]; [change (v = v * 1 + 0); lia|].
  apply Forall_cons in Hu as [Hc Hu]. unfold is_u8 in Hc. pose proof (be_value_bound b Hu) as Bb. rewrite be_value_cons in *.
  unfold blen in *. cbn [length] in *. rewrite Nat2Z.inj_succ, Z.pow_succ_r in * by lia.
  assert (0 < 256 ^ Z.of_nat (length b)) by (apply Z.pow_pos_nonneg; lia). assert (Hb : 256 * v + c < 4294967296) by nia.
  assert (Z.lor (u32 (Z.shiftl v 8)) c = 256 * v + c) as ->.
  { rewrite Z.shiftl_mul_pow2, u32_id by (unfold is_u32; lia). pose proof (lor_fresh v c 0 ltac:(lia) Hc ltac:(lia)) as E.
    change (2 ^ (0 + 8)) with 256 in E. change (2 ^ 0) with 1 in E. rewrite Z.mul_1_r in E. change (2 ^ 8) with 256. lia. }
  rewrite IH by (done || lia). ring.
Qed.

(** The public exponent must be between 1 and 2^32 - 1. *)
Lemma exponent_spec p len : Forall is_u8 p -> 1 <= len <= blen p -> let e := be_value (take (Z.to_nat len) p) in
  exists v, rsa_exponent_u32 p len = Some (v, (0 <? e) && (e <? 4294967296)) /\ (0 < e < 4294967296 -> v = e).
Proof.
  intros Hu Hl e. unfold rsa_exponent_u32. pose proof (skip_spec p len Hl) as Hs. destruct (skip_zero_bytes p len) as [p' k].
  destruct Hs as (H1 & H2 & H3 & H4 & H5). fold e in H3. specialize (H4 Hu). rewrite (proj2 (Z.eqb_neq k 0)) by lia. cbn [orb].
  assert (Hb : blen (take (Z.to_nat k) p') = k) by (unfold blen in *; rewrite length_take; lia).
  assert (Hbu : Forall is_u8 (take (Z.to_nat k) p')) by (by apply Forall_take). pose proof (be_value_bound _ Hbu) as Bb. rewrite H3, Hb in Bb.
  destruct (Z.ltb_spec 4 k) as [Hk|Hk].
  - exists 0. destruct H5 as [|Hh]; [lia|]. assert (4294967296 <= e).
    { destruct p' as [|c p']; [unfold blen in H2; cbn in H2; lia|]. cbn in Hh. apply Forall_cons in H4 as [Hc _]. unfold is_u8 in Hc.
      rewrite <- H3. replace (Z.to_nat k) with (S (Z.to_nat (k - 1))) by lia. cbn [take]. rewrite be_value_cons.
      replace (Z.to_nat k) with (S (Z.to_nat (k - 1))) in Hbu by lia. cbn [take] in Hbu. apply Forall_cons in Hbu as [_ Hbu].
      pose proof (be_value_bound _ Hbu) as Bt. unfold blen in *. cbn [length] in H2. rewrite length_take, Nat.min_l by lia.
      assert (256 ^ 4 <= 256 ^ Z.of_nat (Z.to_nat (k - 1))) by (apply Z.pow_le_mono_r; lia). change (256 ^ 4) with 4294967296 in *. nia. }
    rewrite (proj2 (Z.ltb_ge e _)), andb_false_r by lia. split; [done|lia].
  - unfold ld_bytes. rewrite !(proj2 (Z.leb_le _ _)) by lia. cbn [andb]. rewrite some_bind, drop_0.
    assert (Hlt : e < 4294967296) by (assert (256 ^ k <= 256 ^ 4) by (apply Z.pow_le_mono_r; lia); change (256 ^ 4) with 4294967296 in *; lia).
    rewrite exponent_fold by (done || lia). rewrite Z.mul_0_l, Z.add_0_l, H3. exists e. rewrite (proj2 (Z.ltb_lt e _)), andb_true_r by done.
    split; [|done]. do 2 f_equal. destruct (Z.eqb_spec e 0); symmetry; [apply Z.ltb_ge|apply Z.ltb_lt]; lia.
Qed.

(** ** The comparison *)

Lemma lxor_byte a b : is_u8 a -> is_u8 b -> u8 (Z.lxor a b) = 0 <-> a = b.
Proof.
  intros Ha Hb. assert (Hr : is_u8 (Z.lxor a b)).
  { apply (range_of_bits 8); [lia|]. intros k Hk. rewrite Z.lxor_spec, (bits_above 8 a), (bits_above 8 b); (done || lia). }
  rewrite u8_id by done. apply Z.lxor_eq_0_iff.
Qed.

Lemma fold_differ b : forall ex d, length b = length ex -> Forall is_u8 b -> Forall is_u8 ex ->
  fold_left (fun d p => Z.lor d (u8 (Z.lxor (fst p) (snd p)))) (zip b ex) d = 0 <-> d = 0 /\ b = ex.
Proof.
  induction b as [|x b IH]; intros [|y ex] d Hl Hb He; try done; cbn [zip zip_with fold_left]; [naive_solver|].
  apply Forall_cons in Hb as [Hx Hb]. apply Forall_cons in He as [Hy He]. rewrite IH by (done || by injection Hl). cbn [fst snd].
  rewrite Z.lor_eq_0_iff, lxor_byte by done. naive_solver.
Qed.

Lemma differ_spec d r off ex : Forall is_u8 r -> Forall is_u8 ex -> 0 <= off -> off + blen ex <= blen r ->
  exists d', differ d r off ex = Some d' /\ (d' = 0 <-> d = 0 /\ take (length ex) (drop (Z.to_nat off) r) = ex).
Proof.
  intros Hr He Ho Hl. unfold differ. rewrite ld_bytes_ok by (unfold blen in *; lia). rewrite some_bind. eexists. split; [done|].
  unfold blen. rewrite Nat2Z.id. apply fold_differ; [|by apply Forall_take, Forall_drop|done]. unfold blen in *. rewrite length_take, length_drop. lia.
Qed.

(** A list has a concatenation at some place when it has its parts at theirs. *)
Lemma parts_app (a b r : bytes) off : take (length (a ++ b)) (drop off r) = a ++ b <->
  take (length a) (drop off r) = a /\ take (length b) (drop (off + length a) r) = b.
Proof.
  rewrite length_app. split.
  - intros E. split.
    + assert (E' : take (length a) (take (length a + length b) (drop off r)) = a) by (rewrite E; apply take_app_length).
      by rewrite take_take, Nat.min_l in E' by lia.
    + rewrite <- drop_drop, take_drop_commute, E. apply drop_app_length.
  - intros [Ha Hb]. rewrite <- (take_drop (length a) (drop off r)), Ha, drop_drop. rewrite take_app_add. by rewrite Hb.
Qed.

Lemma encoding_parts digest k : encoding digest k =
  [0] ++ [1] ++ replicate (Z.to_nat (k - 54)) 255 ++ [0] ++ rsa_sha256_digest_info ++ take 32 digest.
Proof. done. Qed.

Lemma encoding_length digest k : 62 <= k -> 32 <= blen digest -> blen (encoding digest k) = k.
Proof.
  intros Hk Hd. unfold blen in *. rewrite encoding_parts, !length_app, length_replicate, length_take. cbn [length rsa_sha256_digest_info]. lia.
Qed.

Lemma encoding_u8 digest k : Forall is_u8 digest -> Forall is_u8 (encoding digest k).
Proof.
  intros Hd. rewrite encoding_parts. rewrite !Forall_app. unfold is_u8.
  split; [repeat constructor; lia|]. split; [repeat constructor; lia|]. split; [apply Forall_replicate; lia|]. split; [repeat constructor; lia|].
  split; [repeat constructor; lia|by apply Forall_take].
Qed.

Ltac room := unfold blen in *; cbn [length rsa_sha256_digest_info]; lia.

Lemma check_encoding_spec bs rest digest k : Forall is_u8 bs -> Forall is_u8 rest -> Forall is_u8 digest -> 32 <= blen digest ->
  blen bs = k -> 62 <= k < 65536 -> exists rc, check_encoding (bs ++ rest) digest k = Some rc /\ (rc = 0 <-> bs = encoding digest k).
Proof.
  intros Hb Hre Hd Hdl Hk Hkb. unfold check_encoding, RSA_SHA256_DIGEST_INFO_LENGTH.
  rewrite (u16_id (k - (19 + 32))) by (unfold is_u16; lia). rewrite (u16_id (k - (19 + 32) - 3)) by (unfold is_u16; lia).
  replace (k - (19 + 32) - 3) with (k - 54) by lia. replace (k - (19 + 32)) with (k - 51) by lia.
  assert (Hr : Forall is_u8 (bs ++ rest)) by (by apply Forall_app).
  assert (Hlen : k <= blen (bs ++ rest)) by (unfold blen in *; rewrite length_app; lia).
  pose proof (encoding_u8 digest k Hd) as Hu. rewrite encoding_parts, !Forall_app in Hu. destruct Hu as (U0 & U1 & U2 & U3 & U4 & U5).
  assert (Hpad : blen (replicate (Z.to_nat (k - 54)) 255) = k - 54) by (unfold blen; rewrite length_replicate; lia).
  assert (H32 : blen (take 32 digest) = 32) by (unfold blen in *; rewrite length_take; lia).
  destruct (differ_spec 0 (bs ++ rest) 0 [0]) as (d0 & -> & E0); [done|done|lia|room|]. rewrite some_bind.
  destruct (differ_spec d0 (bs ++ rest) 1 [1]) as (d1 & -> & E1); [done|done|lia|room|]. rewrite some_bind.
  destruct (differ_spec d1 (bs ++ rest) 2 (replicate (Z.to_nat (k - 54)) 255)) as (d2 & -> & E2); [done|done|lia|lia|]. rewrite some_bind.
  destruct (differ_spec d2 (bs ++ rest) (2 + (k - 54)) [0]) as (d3 & -> & E3); [done|done|lia|room|]. rewrite some_bind.
  destruct (differ_spec d3 (bs ++ rest) (k - 51) rsa_sha256_digest_info) as (d4 & -> & E4); [done|done|lia|room|]. rewrite some_bind.
  rewrite ld_bytes_ok by lia. rewrite some_bind, drop_0. change (Z.to_nat 32) with 32%nat.
  destruct (differ_spec d4 (bs ++ rest) (k - 51 + 19) (take 32 digest)) as (d5 & -> & E5); [done|done|lia|lia|]. rewrite some_bind.
  eexists. split; [done|]. transitivity (d5 = 0); [destruct (Z.eqb_spec d5 0); split; (done || lia)|]. rewrite E5, E4, E3, E2, E1, E0.
  assert (Hwhole : bs = encoding digest k <-> take (length (encoding digest k)) (drop 0 (bs ++ rest)) = encoding digest k).
  { pose proof (encoding_length digest k ltac:(lia) Hdl) as El. rewrite drop_0.
    assert (length (encoding digest k) = length bs) as -> by (unfold blen in *; lia). by rewrite take_app_length. }
  rewrite Hwhole, encoding_parts, !parts_app. cbn [length Nat.add]. rewrite length_replicate.
  replace (Z.to_nat (2 + (k - 54))) with (2 + Z.to_nat (k - 54))%nat by lia. change (Z.to_nat 0) with 0%nat. change (Z.to_nat 1) with 1%nat. change (Z.to_nat 2) with 2%nat.
  replace (Z.to_nat (k - 51)) with (2 + Z.to_nat (k - 54) + 1)%nat by lia.
  replace (Z.to_nat (k - 51 + 19)) with (2 + Z.to_nat (k - 54) + 1 + length rsa_sha256_digest_info)%nat by (cbn [length rsa_sha256_digest_info]; lia).
  cbn [length Nat.add]. tauto.
Qed.

(** ** Verification *)

Lemma part_spec ws limbs i : 0 < limbs < 65536 -> exists v, part ws limbs i = (0, Some v) /\ wf_big v /\ capacity v = limbs.
Proof. intros Hl. destruct (init_spec (drop (Z.to_nat (u16 (i * limbs))) ws) limbs Hl) as (v & E & Hv & Hc & _). by exists v. Qed.

Lemma limbs_for_spec k : 1 <= k < 65536 -> limbs_for k = (k + 3) / 4 /\ 0 < (k + 3) / 4 < 65536.
Proof. intros Hk. assert (0 < (k + 3) / 4 < 65536) by zlia. split; [|done]. apply u16_id. unfold is_u16. lia. Qed.

Lemma recovered_space_spec ws limbs : 7 * limbs <= Z.of_nat (length ws) -> 0 < limbs -> 3 * limbs < 65536 ->
  Forall is_u8 (recovered_space ws limbs) /\ 4 * limbs <= blen (recovered_space ws limbs).
Proof.
  intros Hw Hl Hb. unfold recovered_space. rewrite u16_id by (unfold is_u16; lia). split.
  - apply Forall_concat, Forall_fmap, Forall_forall. intros x _. apply le32_bytes.
  - assert (E : forall l, blen (concat (map le32 l)) = 4 * Z.of_nat (length l)).
    { unfold blen. induction l as [|x l IH]; [done|]. cbn [map concat]. rewrite length_app, le32_length. cbn [length]. lia. }
    rewrite E, length_drop. lia.
Qed.

(** A number read from a string of [k] bytes into a part of the workspace. *)
Lemma read_part ws limbs i input k : 0 < limbs < 65536 -> 1 <= k < 65536 -> (k + 3) / 4 <= limbs -> k <= blen input -> Forall is_u8 input ->
  exists v v', part ws limbs i = (0, Some v) /\ bigint_from_be (Some v) (Some input) k = Some (0, Some v') /\ wf_big v' /\ normal v' /\
    capacity v' = limbs /\ value v' = be_value (take (Z.to_nat k) input).
Proof.
  intros Hl Hk Hr Hin Hu. destruct (part_spec ws limbs i Hl) as (v & E & Hv & Hc).
  destruct (from_be_spec v input k Hv ltac:(lia) ltac:(lia) Hin Hu) as (v' & E' & H1 & H2 & H3 & H4). exists v, v'. rewrite H3, Hc in *. done.
Qed.

(** Normal numbers are zero only without limbs. *)
Lemma normal_zero v : wf_big v -> normal v -> (big_len v =? 0) = (value v =? 0).
Proof.
  intros Hv Hn. destruct (Z.eqb_spec (big_len v) 0) as [E|Hne].
  - unfold value. rewrite E. done.
  - pose proof (normal_bound v Hv Hn Hne). pose proof (pow_b_pos (Z.to_nat (big_len v - 1))). symmetry. apply Z.eqb_neq. lia.
Qed.

Lemma compare_ge l r : wf_big l -> wf_big r -> normal l -> normal r -> (0 <=? bigint_compare (Some l) (Some r)) = (value r <=? value l).
Proof.
  intros Hl Hr Nl Nr. pose proof (compare_spec_big l r Hl Hr Nl Nr) as Hc. destruct (Z.compare_spec (value l) (value r)); rewrite Hc; symmetry;
    [apply Z.leb_le|apply Z.leb_gt|apply Z.leb_le]; lia.
Qed.

(** The arguments of a call: byte strings of the announced lengths, and a workspace of
    [parts] numbers as long as the modulus. *)
Record rsa_call (modulus : bytes) (ml : Z) (exponent : bytes) (el : Z) (digest : bytes) (ws : list Z) (wl parts : Z) : Prop := {
  rc_modulus : Forall is_u8 modulus; rc_ml : 1 <= ml <= blen modulus; rc_mb : ml < 65536;
  rc_exponent : Forall is_u8 exponent; rc_el : 1 <= el <= blen exponent; rc_eb : el < 65536;
  rc_digest : Forall is_u8 digest; rc_dl : 32 <= blen digest;
  rc_space : parts * ((ml + 3) / 4) <= wl <= Z.of_nat (length ws); rc_width : parts * ((ml + 3) / 4) < 65536
}.

Lemma verify_spec modulus ml exponent el digest signature sl ws wl :
  rsa_call modulus ml exponent el digest ws wl 7 -> Forall is_u8 signature -> 0 <= sl <= blen signature ->
  let n := be_value (take (Z.to_nat ml) modulus) in
  let e := be_value (take (Z.to_nat el) exponent) in
  let s := be_value (take (Z.to_nat sl) signature) in
  let k := snd (skip_zero_bytes modulus ml) in
  exists rc, rsa_pkcs1_v15_sha256_verify (Some modulus) ml (Some exponent) el (Some digest) (Some signature) sl (Some ws) wl = Some rc /\
    (rc = 0 <-> sl = k /\ 62 <= k /\ 0 < e < 4294967296 /\ s < n /\ s ^ e mod n = be_value (encoding digest k)).
Proof.
  intros [Hmu Hml Hmb Heu Hel Heb Hdu Hdl Hsp Hwi] Hsu Hsl n e s k. unfold rsa_pkcs1_v15_sha256_verify.
  rewrite (proj2 (Z.eqb_neq ml 0)) by lia. pose proof (skip_spec modulus ml Hml) as Hskip. subst k.
  destruct (skip_zero_bytes modulus ml) as [m' k]. cbn [snd]. destruct Hskip as (Hk & Hkm & Hn & Hmu' & _). specialize (Hmu' Hmu). fold n in Hn.
  assert (Hrej : forall c P, c <> 0 -> ~ P -> exists rc, Some c = Some rc /\ (rc = 0 <-> P)) by (intros c P Hc HP; exists c; tauto).
  destruct (Z.eqb_spec sl k) as [->|Hne]; cbn [negb]; [|apply Hrej; [lia|tauto]].
  destruct (limbs_for_spec k ltac:(lia)) as [-> Hlimbs]. assert (Hle : (k + 3) / 4 <= (ml + 3) / 4) by (apply Z.div_le_mono; lia). set (lm := (k + 3) / 4) in *.
  rewrite (proj2 (Z.eqb_neq lm 0)) by lia. rewrite (u16_id (7 * lm)) by (unfold is_u16; lia). rewrite (proj2 (Z.ltb_ge wl _)) by lia. cbn [orb].
  destruct (exponent_spec exponent el Heu Hel) as (v & -> & Hv). fold e in Hv |- *. rewrite some_bind.
  destruct ((0 <? e) && (e <? 4294967296)) eqn:Ee; cbn [negb];
    [|apply Hrej; [lia|]; intros (_ & _ & He & _); apply andb_false_iff in Ee as [Ee%Z.ltb_ge|Ee%Z.ltb_ge]; lia].
  apply andb_prop in Ee as [Ee1%Z.ltb_lt Ee2%Z.ltb_lt]. rewrite (Hv ltac:(lia)).
  destruct (read_part ws lm 0 m' k) as (n0 & nn & -> & En & Hwn & Hnn & Hcn & Vn); [lia|lia|lia|done|done|]. rewrite Hn in Vn.
  destruct (read_part ws lm 1 signature k) as (s0 & ss & -> & Es & Hws & Hns & Hcs & Vs); [lia|lia|lia|lia|done|]. fold s in Vs.
  destruct (part_spec ws lm 2 ltac:(lia)) as (enc & -> & Hwe & Hce). rewrite En, some_bind. cbn [Z.eqb negb orb]. rewrite normal_zero, Vn by done.
  pose proof (be_value_bound _ (Forall_take _ (Z.to_nat k) _ Hsu)) as Bs. fold s in Bs.
  destruct (Z.eqb_spec n 0) as [E0|Hn0]; [apply Hrej; [lia|]; lia|]. rewrite Es, some_bind. cbn [Z.eqb negb orb]. rewrite compare_ge, Vn, Vs by done.
  destruct (Z.leb_spec n s); [apply Hrej; [lia|]; lia|]. pose proof Hwn as (_ & Hbn & _).
  rewrite (u16_id (3 * lm)), (u16_id (4 * lm)) by (unfold is_u16; lia).
  destruct (modexp_u32_spec enc ss e nn (drop (Z.to_nat (3 * lm)) ws) (4 * lm)) as (enc' & -> & Hwe' & Ve);
    [constructor; try done; try lia; rewrite length_drop; lia|unfold is_u32; lia|]. rewrite some_bind. cbn [Z.eqb negb].
  destruct (recovered_space_spec ws lm ltac:(lia) ltac:(lia) ltac:(lia)) as [Hru Hrl].
  pose proof (be_value_bound _ (Forall_take _ (Z.to_nat k) _ Hmu')) as Bn. rewrite Hn in Bn. unfold blen in Bn. rewrite length_take, Nat.min_l, Z2Nat.id in Bn by (unfold blen in Hkm; lia).
  rewrite Vs, Vn in Ve. pose proof (Z.mod_pos_bound (s ^ e) n ltac:(lia)) as Hmod.
  destruct (to_be_spec enc' (recovered_space ws lm) k Hwe') as (bs & o & -> & -> & Hbl & Hbu & Vb); [unfold lm in *; zlia|lia|].
  rewrite some_bind. cbn [Z.eqb negb default]. change (11 + RSA_SHA256_DIGEST_INFO_LENGTH + 32) with 62.
  destruct (Z.ltb_spec k 62) as [|H62]; [apply Hrej; [lia|]; lia|].
  destruct (check_encoding_spec bs (drop (Z.to_nat k) (recovered_space ws lm)) digest k Hbu (Forall_drop _ _ _ Hru) Hdu Hdl Hbl ltac:(lia)) as (rc & E & Hrc).
  exists rc. split; [exact E|]. rewrite Hrc. split.
  - intros ->. split; [done|]. split; [done|]. split; [lia|]. split; [done|]. congruence.
  - intros (_ & _ & _ & _ & Heq). pose proof (encoding_length digest k ltac:(lia) Hdl) as El.
    apply be_value_inj; [unfold blen in *; lia|done|by apply encoding_u8|congruence].
Qed.


(** ** Signing *)

Lemma st_mid (pre mid post bs : bytes) off : off = blen pre -> length bs = length mid -> st_bytes (pre ++ mid ++ post) off bs = Some (pre ++ bs ++ post).
Proof. intros -> Hl. by apply st_bytes_app. Qed.

Lemma st_front (mid post bs : bytes) : length bs = length mid -> st_bytes (mid ++ post) 0 bs = Some (bs ++ post).
Proof. intros Hl. exact (st_mid [] mid post bs 0 eq_refl Hl). Qed.

Lemma put_encoding_spec sig digest k : 62 <= k < 65536 -> k <= blen sig -> 32 <= blen digest ->
  put_encoding sig digest k = Some (encoding digest k ++ drop (Z.to_nat k) sig).
Proof.
  intros Hk Hl Hd. unfold put_encoding, RSA_SHA256_DIGEST_INFO_LENGTH, put8.
  rewrite (u16_id (k - (19 + 32))) by (unfold is_u16; lia). rewrite (u16_id (k - (19 + 32) - 3)) by (unfold is_u16; lia).
  replace (k - (19 + 32) - 3) with (k - 54) by lia. replace (k - (19 + 32)) with (k - 51) by lia.
  rewrite zero_in_ok by lia. rewrite some_bind. unfold patch. change (Z.to_nat 0) with 0%nat. rewrite take_0, length_replicate. cbn [app Nat.add].
  set (rest := drop (Z.to_nat k) sig). set (p := Z.to_nat (k - 54)).
  replace (Z.to_nat k) with (1 + (1 + (p + (1 + (19 + 32)))))%nat by lia. rewrite !replicate_add, <- !app_assoc.
  rewrite (st_front (replicate 1 0)) by done. rewrite some_bind.
  rewrite (st_mid [u8 0] (replicate 1 0)) by done. rewrite some_bind. change (u8 0) with 0. change (u8 1) with 1. rewrite (app_assoc [0] [1]).
  rewrite (st_mid ([0] ++ [1]) (replicate p 0)); [|done|by rewrite !length_replicate]. rewrite some_bind, (app_assoc ([0] ++ [1])).
  rewrite (st_mid _ (replicate 1 0)); [|unfold blen; rewrite length_app, length_replicate; cbn [length app]; lia|done]. rewrite some_bind, (app_assoc (([0] ++ [1]) ++ _)).
  rewrite (st_mid _ (replicate 19 0)); [|unfold blen; rewrite !length_app, length_replicate; cbn [length app]; lia|done]. rewrite some_bind.
  rewrite ld_bytes_ok by lia. rewrite some_bind, drop_0, (app_assoc ((([0] ++ [1]) ++ _) ++ _)). change (Z.to_nat 32) with 32%nat.
  rewrite (st_mid _ (replicate 32 0));
    [|unfold blen; rewrite !length_app, length_replicate; cbn [length app rsa_sha256_digest_info]; lia|unfold blen in Hd; rewrite length_take, length_replicate; lia].
  rewrite encoding_parts. by rewrite <- !app_assoc.
Qed.

(** What a signature is: the encoding to the private power. *)
Lemma sign_spec modulus ml d dl digest sig sc ws wl :
  rsa_call modulus ml d dl digest ws wl 8 -> Forall is_u8 sig -> 0 <= sc <= blen sig ->
  let n := be_value (take (Z.to_nat ml) modulus) in
  let x := be_value (take (Z.to_nat dl) d) in
  let k := snd (skip_zero_bytes modulus ml) in
  62 <= k <= sc -> snd (skip_zero_bytes d dl) <= k -> 0 < x -> be_value (encoding digest k) < n ->
  exists bs, rsa_pkcs1_v15_sha256_sign (Some modulus) ml (Some d) dl (Some digest) (Some sig) sc (Some ws) wl = Some (k, Some (bs ++ drop (Z.to_nat k) sig)) /\
    blen bs = k /\ Forall is_u8 bs /\ be_value bs = be_value (encoding digest k) ^ x mod n.
Proof.
  intros [Hmu Hml Hmb Hxu Hdl Hxb Hdu Hdig Hsp Hwi] Hsu Hsc n x k Hk Hkd Hx Hlt. unfold rsa_pkcs1_v15_sha256_sign. subst k.
  rewrite (proj2 (Z.eqb_neq ml 0)) by lia. pose proof (skip_spec modulus ml Hml) as Hskip. pose proof (skip_spec d dl Hdl) as Hskd.
  destruct (skip_zero_bytes modulus ml) as [m' k]. destruct (skip_zero_bytes d dl) as [d' kd]. cbn [snd] in *.
  destruct Hskip as (Hkl & Hkm & Hn & Hmu' & _). destruct Hskd as (Hkdl & Hkdm & Hxv & Hxu' & _). specialize (Hmu' Hmu). specialize (Hxu' Hxu). fold n in Hn. fold x in Hxv.
  rewrite (proj2 (Z.ltb_ge sc k)), (proj2 (Z.eqb_neq kd 0)), (proj2 (Z.ltb_ge k kd)) by lia. cbn [orb].
  change (11 + RSA_SHA256_DIGEST_INFO_LENGTH + 32) with 62. rewrite (proj2 (Z.ltb_ge k 62)) by lia.
  destruct (limbs_for_spec k ltac:(lia)) as [-> Hlimbs]. assert (Hle : (k + 3) / 4 <= (ml + 3) / 4) by (apply Z.div_le_mono; lia).
  assert (Hkd4 : (kd + 3) / 4 <= (k + 3) / 4) by (apply Z.div_le_mono; lia). set (lm := (k + 3) / 4) in *.
  rewrite (proj2 (Z.eqb_neq lm 0)), (u16_id (8 * lm)) by (unfold is_u16; lia). rewrite (proj2 (Z.ltb_ge wl _)) by lia. cbn [orb].
  pose proof (encoding_length digest k ltac:(lia) Hdig) as El. pose proof (encoding_u8 digest k Hdu) as Eu.
  destruct (read_part ws lm 0 m' k) as (n0 & nn & -> & En & Hwn & Hnn & Hcn & Vn); [lia|lia|lia|done|done|]. rewrite Hn in Vn.
  destruct (read_part ws lm 1 d' kd) as (d0 & dd & -> & Ed & Hwd & Hnd & Hcd & Vd); [lia|lia|lia|done|done|]. rewrite Hxv in Vd.
  destruct (read_part ws lm 2 (encoding digest k ++ drop (Z.to_nat k) sig) k) as (m0 & mm & -> & Em & Hwm & Hnm & Hcm & Vm);
    [lia|lia|lia|unfold blen in *; rewrite length_app; lia|apply Forall_app; split; [done|by apply Forall_drop]|].
  rewrite take_app_length' in Vm by (unfold blen in El; lia).
  destruct (part_spec ws lm 3 ltac:(lia)) as (sv & -> & Hwsv & Hcsv). rewrite En, some_bind. cbn [Z.eqb negb orb]. rewrite normal_zero, Vn by done.
  pose proof (be_value_bound _ Eu) as Be. rewrite (proj2 (Z.eqb_neq n 0)) by lia. rewrite Ed, some_bind. cbn [Z.eqb negb orb]. rewrite normal_zero, Vd by done.
  rewrite (proj2 (Z.eqb_neq x 0)) by lia. rewrite put_encoding_spec by lia. rewrite some_bind, Em, some_bind. cbn [Z.eqb negb]. rewrite compare_ge, Vn, Vm by done.
  rewrite (proj2 (Z.leb_gt _ _)) by done. pose proof Hwn as (_ & Hbn & _). rewrite (u16_id (4 * lm)) by (unfold is_u16; lia).
  destruct (modexp_spec sv mm dd nn (drop (Z.to_nat (4 * lm)) ws) (4 * lm)) as (sv' & -> & Hwsv' & Vsv);
    [constructor; try done; try lia; rewrite length_drop; lia|done|]. rewrite some_bind. cbn [Z.eqb negb].
  pose proof (be_value_bound _ (Forall_take _ (Z.to_nat k) _ Hmu')) as Bn. rewrite Hn in Bn. unfold blen in Bn. rewrite length_take, Nat.min_l, Z2Nat.id in Bn by (unfold blen in Hkm; lia).
  rewrite Vm, Vd, Vn in Vsv. pose proof (Z.mod_pos_bound (be_value (encoding digest k) ^ x) n ltac:(lia)).
  destruct (to_be_spec sv' (encoding digest k ++ drop (Z.to_nat k) sig) k Hwsv') as (bs & o & -> & -> & Hbl & Hbu & Vb);
    [unfold blen in *; rewrite length_app; lia|lia|]. rewrite some_bind. cbn [Z.eqb negb].
  exists bs. rewrite drop_app_length' by (unfold blen in El; lia). split; [done|]. split; [done|]. split; [done|]. congruence.
Qed.

(** C33. A signature made with the private exponent is accepted with the public one: for
    a key under which the padded digest comes back after both powers,
    [rsa_pkcs1_v15_sha256_verify] returns 0 on what [rsa_pkcs1_v15_sha256_sign] wrote. *)
Theorem rsa_sign_verifies modulus ml d dl exponent el digest sig sc ws wl :
  rsa_call modulus ml d dl digest ws wl 8 -> rsa_call modulus ml exponent el digest ws wl 7 -> Forall is_u8 sig -> 0 <= sc <= blen sig ->
  let n := be_value (take (Z.to_nat ml) modulus) in
  let x := be_value (take (Z.to_nat dl) d) in
  let e := be_value (take (Z.to_nat el) exponent) in
  let k := snd (skip_zero_bytes modulus ml) in
  let em := be_value (encoding digest k) in
  62 <= k <= sc -> snd (skip_zero_bytes d dl) <= k -> 0 < x -> 0 < e < 4294967296 -> em < n -> (em ^ x mod n) ^ e mod n = em ->
  exists out, rsa_pkcs1_v15_sha256_sign (Some modulus) ml (Some d) dl (Some digest) (Some sig) sc (Some ws) wl = Some (k, Some out) /\
    rsa_pkcs1_v15_sha256_verify (Some modulus) ml (Some exponent) el (Some digest) (Some out) k (Some ws) wl = Some 0.
Proof.
  intros Hsign Hver Hsu Hsc n x e k em Hk Hkd Hx He Hlt Hkey. destruct (sign_spec modulus ml d dl digest sig sc ws wl Hsign Hsu Hsc Hk Hkd Hx Hlt) as (bs & Es & Hbl & Hbu & Vb).
  exists (bs ++ drop (Z.to_nat k) sig). split; [exact Es|].
  destruct (verify_spec modulus ml exponent el digest (bs ++ drop (Z.to_nat k) sig) k ws wl Hver) as (rc & Ev & Hrc).
  { apply Forall_app. split; [done|by apply Forall_drop]. }
  { unfold blen in *. rewrite length_app. lia. }
  rewrite Ev. f_equal. apply Hrc. rewrite take_app_length' by (unfold blen in Hbl; lia). rewrite Vb. split; [done|]. split; [lia|]. split; [exact He|].
  split; [apply Z.mod_pos_bound; pose proof (be_value_bound _ (encoding_u8 digest k (rc_digest _ _ _ _ _ _ _ _ Hver))); fold em in H; lia|exact Hkey].
Qed.

(** * Concrete numbers and a key

    A modulus of 63 bytes whose group has the exponent 166320 (it is a product of 59
    primes), so that 13 and 89557 are a pair of exponents. *)

Definition demo_modulus : bytes :=
  [51; 92; 196; 153; 32; 147; 174; 28; 240; 184; 189; 121; 228; 191; 72; 117; 201; 140; 53; 30; 93;
   218; 201; 223; 154; 100; 82; 9; 142; 221; 244; 32; 206; 135; 251; 218; 61; 63; 63; 215; 179; 133;
   95; 142; 207; 86; 119; 149; 143; 198; 95; 110; 99; 219; 46; 198; 34; 23; 90; 245; 136; 56; 43].
Definition demo_private : bytes := [1; 93; 213].
Definition demo_digest : bytes := seqZ 0 32.
Definition demo_space : list Z := replicate 128 7.

Lemma is_u8_dec (l : bytes) : forallb (fun c => (0 <=? c) && (c <? 256)) l = true -> Forall is_u8 l.
Proof.
  intros E. rewrite forallb_forall in E. apply Forall_forall. intros c Hc. apply list_elem_of_In, E in Hc. unfold is_u8. lia.
Qed.

Lemma demo_call exponent el parts : Forall is_u8 exponent -> 1 <= el <= blen exponent -> el < 65536 -> 0 <= parts <= 8 ->
  rsa_call demo_modulus 63 exponent el demo_digest demo_space 128 parts.
Proof.
  intros Hu Hl Hb Hp. constructor; [apply is_u8_dec; reflexivity|by vm_compute|lia|exact Hu|exact Hl|exact Hb|apply is_u8_dec; reflexivity|by vm_compute| |].
  - change ((63 + 3) / 4) with 16. change (Z.of_nat (length demo_space)) with 128. lia.
  - change ((63 + 3) / 4) with 16. lia.
Qed.

Lemma demo_key : let em := be_value (encoding demo_digest 63) in let n := be_value demo_modulus in
  (em ^ 89557 mod n) ^ 13 mod n = em.
Proof. cbv zeta. rewrite <- !Zpow_mod_correct by (vm_compute; discriminate). vm_compute. reflexivity. Qed.

Lemma rsa_sign_verifies_witness : exists out,
  rsa_pkcs1_v15_sha256_sign (Some demo_modulus) 63 (Some demo_private) 3 (Some demo_digest) (Some (replicate 64 0)) 64 (Some demo_space) 128
    = Some (63, Some out) /\
  rsa_pkcs1_v15_sha256_verify (Some demo_modulus) 63 (Some [13]) 1 (Some demo_digest) (Some out) 63 (Some demo_space) 128 = Some 0.
Proof.
  apply (rsa_sign_verifies demo_modulus 63 demo_private 3 [13] 1 demo_digest (replicate 64 0) 64 demo_space 128).
  - apply demo_call; [by apply is_u8_dec|by vm_compute|lia|lia].
  - apply demo_call; [by apply is_u8_dec|by vm_compute|lia|lia].
  - apply is_u8_dec. reflexivity.
  - by vm_compute.
  - by vm_compute.
  - by vm_compute.
  - reflexivity.
  - by vm_compute.
  - vm_compute. reflexivity.
  - exact demo_key.
Defined.


Definition demo_number (l : list Z) : bigint_t := mk_big l (Z.of_nat (length l)) (Z.of_nat (length l)).

Lemma demo_number_wf l : Z.of_nat (length l) < 65536 -> Forall is_u32 l -> wf_big (demo_number l).
Proof. intros Hl Hu. split; [cbn; lia|]. split; [cbn; lia|]. done. Qed.

Lemma modexp_is_power_witness :
  (exists o', bigint_modexp (Some (demo_number [0; 0; 0])) (Some (demo_number [5; 6; 7])) (Some (demo_number [65537; 3])) (Some (demo_number [4294967291; 12345]))
      (Some demo_space) 128 = Some (0, Some o') /\ wf_big o' /\
    value o' = (value (demo_number [5; 6; 7]) ^ value (demo_number [65537; 3])) mod value (demo_number [4294967291; 12345])) /\
  (exists o', bigint_modexp_u32 (Some (demo_number [0; 0; 0])) (Some (demo_number [5; 6; 7])) 65537 (Some (demo_number [4294967291; 12345]))
      (Some demo_space) 128 = Some (0, Some o') /\ wf_big o' /\
    value o' = (value (demo_number [5; 6; 7]) ^ 65537) mod value (demo_number [4294967291; 12345])).
Proof.
  apply (modexp_is_power (demo_number [0; 0; 0]) (demo_number [5; 6; 7]) (demo_number [65537; 3]) 65537 (demo_number [4294967291; 12345]) demo_space 128).
  - constructor; try (apply demo_number_wf; [cbn; lia|repeat constructor; lia]); try (vm_compute; repeat split; congruence); try (cbn; lia). by right.
  - apply demo_number_wf; [cbn; lia|repeat constructor; lia].
  - unfold is_u32. lia.
Defined.

Lemma bigint_arithmetic_exact_witness :
  let o := demo_number (replicate 6 9) in let l := demo_number [7; 4294967295] in let r := demo_number [8; 1] in
  bigint_compare (Some l) (Some r) = 1 /\ exists o', bigint_multiply false (Some o) (Some l) (Some r) = (0, Some o') /\ value o' = value l * value r.
Proof.
  cbv zeta.
  destruct (bigint_arithmetic_exact (demo_number (replicate 6 9)) (demo_number [7; 4294967295]) (demo_number [8; 1])) as (H1 & _ & (o' & H2 & _ & _ & H3) & _).
  - apply demo_number_wf; [cbn; lia|apply Forall_replicate; unfold is_u32; lia].
  - apply demo_number_wf; [cbn; lia|repeat constructor; lia].
  - apply demo_number_wf; [cbn; lia|repeat constructor; lia].
  - by right.
  - by right.
  - cbn. lia.
  - split; [exact H1|]. exists o'. split; [exact H2|exact H3].
Defined.
