(* ===== verification/Sha256.v ===== *)
(** * SHA-256 and HMAC of kernel/sha256.c

    A context is passed as a value (the callers pass the address of a local); [None] is
    an access outside an array. *)

From Stdlib Require Import ZArith Lia.
From stdpp Require Import base numbers option tactics list.
From S2P Require Import Prelude Bytes NetBuf NetSum BigInt BigIntBytes.

Definition K : list Z :=
  [1116352408; 1899447441; 3049323471; 3921009573; 961987163; 1508970993; 2453635748; 2870763221;
   3624381080; 310598401; 607225278; 1426881987; 1925078388; 2162078206; 2614888103; 3248222580;
   3835390401; 4022224774; 264347078; 604807628; 770255983; 1249150122; 1555081692; 1996064986;
   2554220882; 2821834349; 2952996808; 3210313671; 3336571891; 3584528711; 113926993; 338241895;
   666307205; 773529912; 1294757372; 1396182291; 1695183700; 1986661051; 2177026350; 2456956037;
   2730485921; 2820302411; 3259730800; 3345764771; 3516065817; 3600352804; 4094571909; 275423344;
   430227734; 506948616; 659060556; 883997877; 958139571; 1322822218; 1537002063; 1747873779;
   1955562222; 2024104815; 2227730452; 2361852424; 2428436474; 2756734187; 3204031479; 3329325298].

Record sha256_ctx_t := mk_sha { sha_state : list Z; bit_count : Z; sha_block : bytes; block_len : Z }.

Definition ror (x n : Z) : Z := Z.lor (Z.shiftr x n) (u32 (Z.shiftl x (32 - n))).

(** [w[i]] of the schedule, read from what is already computed. *)
Definition w_at (w : list Z) (i : nat) : Z := default 0 (w !! i).

(** The sixteen words of the block. *)
Definition block_words (b : bytes) : list Z :=
  map (fun i => Z.lor (Z.lor (Z.lor (u32 (Z.shiftl (default 0 (b !! (4 * i)%nat)) 24))
                                (u32 (Z.shiftl (default 0 (b !! (4 * i + 1)%nat)) 16)))
                         (u32 (Z.shiftl (default 0 (b !! (4 * i + 2)%nat)) 8)))
                (default 0 (b !! (4 * i + 3)%nat))) (seq 0 16).

(** One round of the loop that extends the schedule. *)
Definition extend (w : list Z) (i : nat) : list Z :=
  let x := w_at w (i - 15) in
  let s0 := Z.lxor (Z.lxor (ror x 7) (ror x 18)) (Z.shiftr x 3) in
  let y := w_at w (i - 2) in
  let s1 := Z.lxor (Z.lxor (ror y 17) (ror y 19)) (Z.shiftr y 10) in
  w ++ [u32 (w_at w (i - 16) + s0 + w_at w (i - 7) + s1)].

Definition schedule_words (b : bytes) : list Z := fold_left extend (seq 16 48) (block_words b).

(** The eight working variables, and one of the 64 rounds on them. *)
Record vars := mk_vars { va : Z; vb : Z; vc : Z; vd : Z; ve : Z; vf : Z; vg : Z; vh : Z }.

Definition sha_round (w : list Z) (v : vars) (i : nat) : vars :=
  let S1 := Z.lxor (Z.lxor (ror (ve v) 6) (ror (ve v) 11)) (ror (ve v) 25) in
  let ch := Z.lxor (Z.land (ve v) (vf v)) (Z.land (u32 (Z.lnot (ve v))) (vg v)) in
  let t1 := u32 (vh v + S1 + ch + w_at K i + w_at w i) in
  let S0 := Z.lxor (Z.lxor (ror (va v) 2) (ror (va v) 13)) (ror (va v) 22) in
  let maj := Z.lxor (Z.lxor (Z.land (va v) (vb v)) (Z.land (va v) (vc v))) (Z.land (vb v) (vc v)) in
  let t2 := u32 (S0 + maj) in
  mk_vars (u32 (t1 + t2)) (va v) (vb v) (vc v) (u32 (vd v + t1)) (ve v) (vf v) (vg v).

Definition load_vars (s : list Z) : vars :=
  mk_vars (w_at s 0) (w_at s 1) (w_at s 2) (w_at s 3) (w_at s 4) (w_at s 5) (w_at s 6) (w_at s 7).
Definition add_vars (s : list Z) (v : vars) : list Z :=
  zip_with (fun x y => u32 (x + y)) s [va v; vb v; vc v; vd v; ve v; vf v; vg v; vh v].

Definition transform (c : sha256_ctx_t) (b : bytes) : sha256_ctx_t :=
  let w := schedule_words b in
  mk_sha (add_vars (sha_state c) (fold_left (sha_round w) (seq 0 64) (load_vars (sha_state c))))
    (bit_count c) (sha_block c) (block_len c).

Definition sha_initial : list Z := [1779033703; 3144134277; 1013904242; 2773480762; 1359893119; 2600822924; 528734635; 1541459225].

Definition sha256_init (c : sha256_ctx_t) : sha256_ctx_t := mk_sha sha_initial 0 (sha_block c) 0.

Definition with_block (c : sha256_ctx_t) (b : bytes) (n : Z) : sha256_ctx_t := mk_sha (sha_state c) (bit_count c) b n.

(** The loop of [sha256_update]; every round takes at least a byte. *)
Fixpoint update_loop (fuel : nat) (c : sha256_ctx_t) (d : bytes) (n : Z) : option sha256_ctx_t :=
  if n =? 0 then Some c
  else match fuel with
  | O => None
  | S fuel =>
      let take := u32 (64 - block_len c) in
      let take := if n <? take then n else take in
      bs ← ld_bytes d 0 take;
      b ← st_bytes (sha_block c) (block_len c) bs;
      let c := with_block c b (u32 (block_len c + take)) in
      let c := if block_len c =? 64 then with_block (transform c (sha_block c)) (sha_block c) 0 else c in
      update_loop fuel c (drop (Z.to_nat take) d) (n - take)
  end.

Definition sha256_update (c : sha256_ctx_t) (d : ptr bytes) (n : Z) : option sha256_ctx_t :=
  match d with
  | NULL => if c_true n then Some c else Some (mk_sha (sha_state c) (u64 (bit_count c + u64 (n * 8))) (sha_block c) (block_len c))
  | Some d =>
      let c := mk_sha (sha_state c) (u64 (bit_count c + u64 (n * 8))) (sha_block c) (block_len c) in
      update_loop (Z.to_nat n) c d n
  end.

(** [while (c->block_len != 56)]: at most 128 rounds. *)
Fixpoint pad_loop (fuel : nat) (c : sha256_ctx_t) : option sha256_ctx_t :=
  if block_len c =? 56 then Some c
  else match fuel with
  | O => None
  | S fuel =>
      if block_len c =? 64 then pad_loop fuel (with_block (transform c (sha_block c)) (sha_block c) 0)
      else b ← put8 (sha_block c) (block_len c) 0; pad_loop fuel (with_block c b (u32 (block_len c + 1)))
  end.

(** The length in bits, highest byte first. *)
Definition be64 (bits : Z) : bytes := map (fun i => u8 (Z.shiftr bits (56 - 8 * i))) (seqZ 0 8).

(** The last component is what [digest] holds. *)
Definition sha256_final (c : sha256_ctx_t) (digest : ptr bytes) : option (sha256_ctx_t * ptr bytes) :=
  match digest with
  | NULL => Some (c, digest)
  | Some out =>
      b ← put8 (sha_block c) (block_len c) 128;
      c ← pad_loop 128 (with_block c b (u32 (block_len c + 1)));
      b ← st_bytes (sha_block c) 56 (be64 (bit_count c));
      let c := transform (with_block c b (block_len c)) b in
      out ← st_bytes out 0 (concat (map be32 (sha_state c)));
      Some (c, Some out)
  end.

(** [hash(a ++ b)]: init, two updates, final. *)
Definition hash_two (c : sha256_ctx_t) (a : bytes) (an : Z) (b : ptr bytes) (bn : Z) (out : bytes)
    : option (sha256_ctx_t * bytes) :=
  c ← sha256_update (sha256_init c) (Some a) an;
  c ← sha256_update c b bn;
  '(c, out) ← sha256_final c (Some out);
  Some (c, default [] out).

(** [ctx], [block] and [inner] are the locals of [hmac_sha256]; [None] in [digest] is a
    refusal. *)
Definition hmac_sha256 (ctx : sha256_ctx_t) (inner : bytes) (key : ptr bytes) (key_length : Z) (message : ptr bytes) (message_length : Z)
    (digest : ptr bytes) : option (ptr bytes) :=
  match digest with
  | NULL => Some digest
  | Some out =>
      if (bool_decide (key = NULL) && c_true key_length) || (bool_decide (message = NULL) && c_true message_length) then Some digest
      else
        let block := replicate 64 0 in
        '(ctx, block) ← (if 64 <? key_length then
                           ctx ← sha256_update (sha256_init ctx) key key_length;
                           '(ctx, block) ← sha256_final ctx (Some block); Some (ctx, default [] block)
                         else block ← copy_in block 0 (default [] key) key_length; Some (ctx, block));
        let block := map (fun x => Z.lxor x 54) block in
        '(ctx, inner) ← hash_two ctx block 64 message message_length inner;
        let block := map (fun x => Z.lxor x (Z.lxor 54 92)) block in
        '(_, out) ← hash_two ctx block 64 (Some inner) 32 out;
        Some (Some out)
  end.

(** * SHA-256 against FIPS 180-4, HMAC against RFC 2104

    The hash function as the standard defines it, and the theorem that feeding a
    message in pieces gives the hash of the whole. *)

(** ** The standard *)
Module Fips.
(** Rotation by dividing: the low [n] bits move to the top. *)
Definition rotr (n x : Z) : Z := x / 2 ^ n + (x mod 2 ^ n) * 2 ^ (32 - n).
Definition shr (n x : Z) : Z := x / 2 ^ n.
Definition Ch (x y z : Z) : Z := Z.lxor (Z.land x y) (Z.land (4294967295 - x) z).
Definition Maj (x y z : Z) : Z := Z.lxor (Z.lxor (Z.land x y) (Z.land x z)) (Z.land y z).
Definition Sigma0 (x : Z) : Z := Z.lxor (Z.lxor (rotr 2 x) (rotr 13 x)) (rotr 22 x).
Definition Sigma1 (x : Z) : Z := Z.lxor (Z.lxor (rotr 6 x) (rotr 11 x)) (rotr 25 x).
Definition sigma0 (x : Z) : Z := Z.lxor (Z.lxor (rotr 7 x) (rotr 18 x)) (shr 3 x).
Definition sigma1 (x : Z) : Z := Z.lxor (Z.lxor (rotr 17 x) (rotr 19 x)) (shr 10 x).

(** The first 64 primes; the constants are 32 bits of the fractions of their cube roots,
    the initial hash value those of the square roots of the first eight. *)
Definition is_prime (p : Z) : bool := forallb (fun d => negb (p mod d =? 0)) (seqZ 2 (Z.sqrt p - 1)).
Definition primes : list Z := List.filter is_prime (seqZ 2 310).

Definition cube_root (x : Z) : Z :=
  fold_left (fun r b => let c := r + 2 ^ b in if c * c * c <=? x then c else r) (reverse (seqZ 0 40)) 0.

Definition Ks : list Z := map (fun p => cube_root (p * 2 ^ 96) mod 2 ^ 32) primes.
Definition H0 : list Z := map (fun p => Z.sqrt (p * 2 ^ 64) mod 2 ^ 32) (take 8 primes).

(** Word [t] of the message schedule; the recursion goes down by at least two. *)
Fixpoint W_fuel (fuel : nat) (m : bytes) (t : nat) : Z :=
  match fuel with
  | O => 0
  | S f =>
      if (t <? 16)%nat then un_be32 (drop (4 * t) m)
      else (sigma1 (W_fuel f m (t - 2)) + W_fuel f m (t - 7) + sigma0 (W_fuel f m (t - 15)) + W_fuel f m (t - 16)) mod 2 ^ 32
  end.
Definition W (m : bytes) (t : nat) : Z := W_fuel (S t) m t.

Definition step (m : bytes) (v : vars) (t : nat) : vars :=
  let T1 := vh v + Sigma1 (ve v) + Ch (ve v) (vf v) (vg v) + w_at Ks t + W m t in
  let T2 := Sigma0 (va v) + Maj (va v) (vb v) (vc v) in
  mk_vars ((T1 + T2) mod 2 ^ 32) (va v) (vb v) (vc v) ((vd v + T1) mod 2 ^ 32) (ve v) (vf v) (vg v).

Definition compress (h : list Z) (m : bytes) : list Z :=
  let v := fold_left (step m) (seq 0 64) (load_vars h) in
  zip_with (fun x y => (x + y) mod 2 ^ 32) h [va v; vb v; vc v; vd v; ve v; vf v; vg v; vh v].

Fixpoint hash_blocks (k : nat) (h : list Z) (m : bytes) : list Z :=
  match k with O => h | S k => hash_blocks k (compress h (take 64 m)) (drop 64 m) end.

(** The message, a one bit, zeros and the length in bits, up to a multiple of 64 bytes. *)
Definition padded (m : bytes) : bytes :=
  m ++ [128] ++ replicate (Z.to_nat ((55 - blen m) mod 64)) 0 ++ be64 (8 * blen m).

Definition sha256 (m : bytes) : bytes := concat (map be32 (hash_blocks (length (padded m) / 64) H0 (padded m))).
End Fips.

Lemma fips_constants : Fips.Ks = K /\ Fips.H0 = sha_initial.
Proof. split; vm_compute; reflexivity. Qed.

Lemma sha256_blocks m : Fips.sha256 m = concat (map be32 (Fips.hash_blocks (length (Fips.padded m) / 64) sha_initial (Fips.padded m))).
Proof. unfold Fips.sha256. by rewrite (proj2 fips_constants). Qed.

(** ** The compression function *)

Lemma ror_rotr x n : is_u32 x -> 0 < n < 32 -> ror x n = Fips.rotr n x /\ is_u32 (Fips.rotr n x).
Proof.
  intros Hx Hn. unfold ror, Fips.rotr. rewrite Z.shiftr_div_pow2, Z.shiftl_mul_pow2 by lia.
  assert (Hp : 2 ^ n * 2 ^ (32 - n) = 4294967296) by (rewrite <- Z.pow_add_r by lia; by replace (n + (32 - n)) with 32 by lia).
  assert (H1 : 0 < 2 ^ n) by (apply Z.pow_pos_nonneg; lia). assert (H2 : 0 < 2 ^ (32 - n)) by (apply Z.pow_pos_nonneg; lia).
  assert (Hu : u32 (x * 2 ^ (32 - n)) = (x mod 2 ^ n) * 2 ^ (32 - n)).
  { unfold u32. rewrite <- Hp, Z.mul_mod_distr_r by lia. done. }
  unfold is_u32 in Hx. pose proof (Z.mod_pos_bound x (2 ^ n) H1) as Hm. assert (Hd : 0 <= x / 2 ^ n < 2 ^ (32 - n)).
  { split; [apply Z.div_pos; lia|]. apply Z.div_lt_upper_bound; lia. }
  rewrite Hu. split; [|unfold is_u32; nia]. rewrite (Z.add_nocarry_lxor (x / 2 ^ n)), Z.lxor_lor; [done| |].
  all: apply Z.bits_inj'; intros i Hi; rewrite Z.land_spec, Z.bits_0, Z.mul_pow2_bits by lia.
  all: destruct (Z.lt_ge_cases i (32 - n)); [by rewrite (Z.testbit_neg_r (x mod 2 ^ n)), andb_false_r by lia|].
  all: by rewrite (bits_above (32 - n) (x / 2 ^ n) i) by (done || lia).
Qed.

Lemma ror_eq x n : is_u32 x -> 0 < n < 32 -> ror x n = Fips.rotr n x.
Proof. apply ror_rotr. Qed.

Lemma lxor_u32 a b : is_u32 a -> is_u32 b -> is_u32 (Z.lxor a b).
Proof.
  intros Ha Hb. apply (range_of_bits 32); [lia|]. intros k Hk. rewrite Z.lxor_spec, (bits_above 32 a), (bits_above 32 b); (done || lia).
Qed.

Lemma lnot_u32 x : is_u32 x -> u32 (Z.lnot x) = 4294967295 - x.
Proof. unfold is_u32, u32, Z.lnot. intros Hx. rewrite <- (Z_mod_plus_full _ 1), Z.mod_small by lia. lia. Qed.

Lemma w_at_u32 w i : Forall is_u32 w -> is_u32 (w_at w i).
Proof. apply default_u32. Qed.

Lemma be_word a b c d : is_u8 a -> is_u8 b -> is_u8 c -> is_u8 d ->
  Z.lor (Z.lor (Z.lor (u32 (Z.shiftl a 24)) (u32 (Z.shiftl b 16))) (u32 (Z.shiftl c 8))) d = un_be32 [a; b; c; d].
Proof.
  unfold is_u8. intros Ha Hb Hc Hd. rewrite !Z.shiftl_mul_pow2 by lia.
  change (2 ^ 24) with 16777216. change (2 ^ 16) with 65536. change (2 ^ 8) with 256. rewrite !u32_id by (unfold is_u32; lia).
  pose proof (lor_fresh a b 16 ltac:(lia) Hb ltac:(lia)) as E1. change (2 ^ (16 + 8)) with 16777216 in E1. change (2 ^ 16) with 65536 in E1. rewrite E1.
  pose proof (lor_fresh (a * 256 + b) c 8 ltac:(lia) Hc ltac:(lia)) as E2. change (2 ^ (8 + 8)) with 65536 in E2. change (2 ^ 8) with 256 in E2.
  replace (a * 16777216 + b * 65536) with ((a * 256 + b) * 65536) by ring. rewrite E2.
  pose proof (lor_fresh ((a * 256 + b) * 256 + c) d 0 ltac:(lia) Hd ltac:(lia)) as E3. change (2 ^ (0 + 8)) with 256 in E3. change (2 ^ 0) with 1 in E3.
  replace ((a * 256 + b) * 65536 + c * 256) with (((a * 256 + b) * 256 + c) * 256) by ring. rewrite Z.mul_1_r in E3. rewrite E3. cbn [un_be32]. ring.
Qed.

Lemma block_word b i : length b = 64%nat -> Forall is_u8 b -> (i < 16)%nat -> w_at (block_words b) i = un_be32 (drop (4 * i) b).
Proof.
  intros Hl Hu Hi. unfold w_at, block_words. rewrite list_lookup_fmap, lookup_seq_lt by done. cbn [fmap option_fmap option_map default]. rewrite Nat.add_0_l.
  assert (Hb : forall j, exists x, (j < 64)%nat -> b !! j = Some x /\ is_u8 x).
  { intros j. destruct (b !! j) as [x|] eqn:E; [exists x; split; [done|]; by eapply Forall_lookup_1|].
    exists 0. intros Hj. apply lookup_ge_None in E. lia. }
  destruct (Hb (4 * i)%nat) as [x0 H0], (Hb (4 * i + 1)%nat) as [x1 H1], (Hb (4 * i + 2)%nat) as [x2 H2], (Hb (4 * i + 3)%nat) as [x3 H3].
  destruct (H0 ltac:(lia)) as [E0 U0], (H1 ltac:(lia)) as [E1 U1], (H2 ltac:(lia)) as [E2 U2], (H3 ltac:(lia)) as [E3 U3].
  rewrite E0, E1, E2, E3. cbn [default]. rewrite (drop_S _ _ _ E0). rewrite Nat.add_1_r in E1. rewrite (drop_S _ _ _ E1).
  replace (4 * i + 2)%nat with (S (S (4 * i))) in E2 by lia. rewrite (drop_S _ _ _ E2). replace (4 * i + 3)%nat with (S (S (S (4 * i)))) in E3 by lia.
  rewrite (drop_S _ _ _ E3). cbn [un_be32]. by apply be_word.
Qed.

Lemma un_be32_range b : Forall is_u8 b -> is_u32 (un_be32 b).
Proof.
  unfold is_u8, is_u32. intros H. destruct b as [|b0 [|b1 [|b2 [|b3 b]]]]; cbn [un_be32]; try lia. rewrite !Forall_cons in H. lia.
Qed.

Lemma sigma0_eq x : is_u32 x -> Z.lxor (Z.lxor (ror x 7) (ror x 18)) (Z.shiftr x 3) = Fips.sigma0 x.
Proof. intros Hx. unfold Fips.sigma0, Fips.shr. rewrite !(ror_eq x _ Hx), Z.shiftr_div_pow2 by lia. done. Qed.
Lemma sigma1_eq x : is_u32 x -> Z.lxor (Z.lxor (ror x 17) (ror x 19)) (Z.shiftr x 10) = Fips.sigma1 x.
Proof. intros Hx. unfold Fips.sigma1, Fips.shr. rewrite !(ror_eq x _ Hx), Z.shiftr_div_pow2 by lia. done. Qed.

Lemma W_enough m t : forall f, (t < f)%nat -> Fips.W_fuel f m t = Fips.W m t.
Proof.
  unfold Fips.W. induction t as [t IH] using lt_wf_ind. intros [|f] Hf; [lia|]. cbn [Fips.W_fuel]. destruct (Nat.ltb_spec t 16); [done|].
  assert (E : forall y, (y < t)%nat -> Fips.W_fuel f m y = Fips.W_fuel t m y) by (intros y Hy; rewrite (IH y) by lia; symmetry; apply IH; lia).
  by rewrite !E by lia.
Qed.

Lemma W_step m t : (16 <= t)%nat ->
  Fips.W m t = (Fips.sigma1 (Fips.W m (t - 2)) + Fips.W m (t - 7) + Fips.sigma0 (Fips.W m (t - 15)) + Fips.W m (t - 16)) mod 2 ^ 32.
Proof.
  intros Ht. unfold Fips.W at 1. cbn [Fips.W_fuel]. rewrite (proj2 (Nat.ltb_ge _ _)) by done. by rewrite !W_enough by lia.
Qed.

(** A schedule as far as it goes. *)
Definition schedule_of (m : bytes) (w : list Z) : Prop :=
  Forall is_u32 w /\ forall i, (i < length w)%nat -> w_at w i = Fips.W m i.

Lemma block_schedule b : length b = 64%nat -> Forall is_u8 b -> schedule_of b (block_words b) /\ length (block_words b) = 16%nat.
Proof.
  intros Hl Hu. assert (Hlen : length (block_words b) = 16%nat) by done. split; [|done].
  assert (Hw : forall i, (i < 16)%nat -> w_at (block_words b) i = Fips.W b i).
  { intros i Hi. rewrite block_word by done. unfold Fips.W. cbn [Fips.W_fuel]. by rewrite (proj2 (Nat.ltb_lt _ _)). }
  split; [|by rewrite Hlen]. apply Forall_lookup. intros i x Hx. pose proof (lookup_lt_Some _ _ _ Hx) as Hi. rewrite Hlen in Hi.
  assert (x = w_at (block_words b) i) as -> by (unfold w_at; by rewrite Hx). rewrite block_word by done. by apply un_be32_range, Forall_drop.
Qed.

Lemma extend_schedule m w : schedule_of m w -> (16 <= length w)%nat -> schedule_of m (extend w (length w)) /\ length (extend w (length w)) = S (length w).
Proof.
  intros [Hu Hw] Hl. unfold extend. split; [|rewrite length_app; cbn; lia]. split; [apply Forall_app; split; [done|constructor; [apply u32_range|constructor]]|].
  intros i Hi. rewrite length_app in Hi. cbn [length] in Hi. unfold w_at at 1. destruct (decide (i < length w)%nat).
  - rewrite lookup_app_l by done. by apply Hw.
  - assert (i = length w) as -> by lia. rewrite list_lookup_middle by done. cbn [default from_option id].
    rewrite (sigma0_eq _ (w_at_u32 _ _ Hu)), (sigma1_eq _ (w_at_u32 _ _ Hu)), !Hw by lia. rewrite (W_step m (length w)) by done. unfold u32. change (2 ^ 32) with 4294967296. f_equal. lia.
Qed.

Lemma extends_schedule m n : forall w, schedule_of m w -> (16 <= length w)%nat ->
  schedule_of m (fold_left extend (seq (length w) n) w) /\ length (fold_left extend (seq (length w) n) w) = (length w + n)%nat.
Proof.
  induction n as [|n IH]; intros w Hw Hl; cbn [seq fold_left]; [split; [done|lia]|].
  destruct (extend_schedule m w Hw Hl) as [H1 H2]. rewrite <- H2. destruct (IH _ H1 ltac:(lia)) as [H3 H4]. split; [done|]. rewrite H4. lia.
Qed.

Lemma schedule_words_spec b : length b = 64%nat -> Forall is_u8 b -> schedule_of b (schedule_words b) /\ length (schedule_words b) = 64%nat.
Proof.
  intros Hl Hu. destruct (block_schedule b Hl Hu) as [H1 H2]. unfold schedule_words. rewrite <- H2 at 2.
  destruct (extends_schedule b 48 _ H1 ltac:(lia)) as [H3 H4]. rewrite H2 in *. done.
Qed.

(** ** The rounds *)

Definition vars_ok (v : vars) : Prop :=
  Forall is_u32 [va v; vb v; vc v; vd v; ve v; vf v; vg v; vh v].

Lemma K_u32 : Forall is_u32 K.
Proof. assert (E : forallb (fun x => (0 <=? x) && (x <? 4294967296)) K = true) by (vm_compute; reflexivity). rewrite forallb_forall in E.
  apply Forall_forall. intros x Hx. apply list_elem_of_In, E in Hx. unfold is_u32. lia. Qed.

Lemma round_step m w v i : schedule_of m w -> (i < length w)%nat -> vars_ok v -> sha_round w v i = Fips.step m v i /\ vars_ok (sha_round w v i).
Proof.
  intros [Hu Hw] Hi Hv. unfold vars_ok in *. rewrite !Forall_cons in Hv. destruct Hv as (Ha & Hb & Hc & Hd & He & Hf & Hg & Hh & _). split.
  - unfold sha_round, Fips.step. rewrite (proj1 fips_constants). unfold Fips.Sigma0, Fips.Sigma1, Fips.Ch, Fips.Maj. rewrite !(ror_eq (ve v) _ He), !(ror_eq (va v) _ Ha) by lia.
    rewrite lnot_u32, Hw by done. unfold u32. change (2 ^ 32) with 4294967296. rewrite <- Zplus_mod, Zplus_mod_idemp_r. done.
  - unfold sha_round. cbn [va vb vc vd ve vf vg vh]. repeat (apply Forall_cons; split; [first [apply u32_range|assumption]|]). by apply Forall_nil.
Qed.

Lemma rounds_steps m w n : schedule_of m w -> forall k v, (k + n <= length w)%nat -> vars_ok v ->
  fold_left (sha_round w) (seq k n) v = fold_left (Fips.step m) (seq k n) v.
Proof.
  intros Hw. induction n as [|n IH]; intros k v Hk Hv; [done|]. cbn [seq fold_left]. destruct (round_step m w v k Hw ltac:(lia) Hv) as [E Hv'].
  rewrite <- E. apply IH; [lia|done].
Qed.

Definition state_ok (s : list Z) : Prop := length s = 8%nat /\ Forall is_u32 s.

Lemma compress_ok h m : state_ok h -> state_ok (Fips.compress h m).
Proof.
  intros [Hl _]. unfold Fips.compress. split; [rewrite length_zip_with; cbn [length]; lia|]. set (v := fold_left _ _ _). clearbody v.
  destruct h as [|h0 [|h1 [|h2 [|h3 [|h4 [|h5 [|h6 [|h7 [|]]]]]]]]]; try done. cbn [zip_with]. change (2 ^ 32) with 4294967296.
  repeat (apply Forall_cons; split; [apply u32_range|]). by apply Forall_nil.
Qed.

(** [transform] is the compression function of the standard. *)
Lemma transform_compress c b : state_ok (sha_state c) -> length b = 64%nat -> Forall is_u8 b ->
  transform c b = mk_sha (Fips.compress (sha_state c) b) (bit_count c) (sha_block c) (block_len c).
Proof.
  intros [Hl Hu] Hb Hbu. destruct (schedule_words_spec b Hb Hbu) as [Hs Hsl]. unfold transform, Fips.compress, add_vars. f_equal.
  rewrite (rounds_steps b (schedule_words b) 64 Hs 0); [done|lia|]. unfold vars_ok. cbn. by repeat (constructor; [by apply w_at_u32|]).
Qed.

(** ** Blocks *)

Lemma hash_blocks_ok k : forall h m, state_ok h -> state_ok (Fips.hash_blocks k h m).
Proof. induction k as [|k IH]; intros h m Hh; [done|]. cbn. by apply IH, compress_ok. Qed.

(** One more block, and independence of what follows. *)
Lemma hash_blocks_S k : forall h m, Fips.hash_blocks (S k) h m = Fips.compress (Fips.hash_blocks k h m) (take 64 (drop (64 * k) m)).
Proof.
  induction k as [|k IH]; intros h m; [by rewrite Nat.mul_0_r, drop_0|]. change (Fips.hash_blocks (S (S k)) h m) with (Fips.hash_blocks (S k) (Fips.compress h (take 64 m)) (drop 64 m)).
  rewrite IH, drop_drop. replace (64 + 64 * k)%nat with (64 * S k)%nat by lia. done.
Qed.

Lemma hash_blocks_app k : forall h m d, (64 * k <= length m)%nat -> Fips.hash_blocks k h (m ++ d) = Fips.hash_blocks k h m.
Proof.
  induction k as [|k IH]; intros h m d Hk; [done|]. cbn [Fips.hash_blocks]. rewrite take_app_le, drop_app_le by lia. apply IH. rewrite length_drop. lia.
Qed.

(** [c] has taken in the message [m]: its complete blocks are hashed (but possibly the
    last), the rest is in the buffer. *)
Definition absorbed (c : sha256_ctx_t) (m : bytes) : Prop :=
  exists q : nat, sha_state c = Fips.hash_blocks q sha_initial m /\ blen m = 64 * Z.of_nat q + block_len c /\ 0 <= block_len c <= 64 /\
    take (Z.to_nat (block_len c)) (sha_block c) = drop (64 * q) m /\ length (sha_block c) = 64%nat /\ Forall is_u8 (sha_block c).

Lemma initial_ok : state_ok sha_initial.
Proof. split; [done|]. repeat (apply Forall_cons; split; [unfold is_u32; lia|]). by apply Forall_nil. Qed.

Lemma absorbed_state c m : absorbed c m -> state_ok (sha_state c).
Proof. intros (q & -> & _). apply hash_blocks_ok, initial_ok. Qed.

(** Bytes into the buffer. *)
Lemma absorb_bytes c m bs : absorbed c m -> Forall is_u8 bs -> block_len c + blen bs <= 64 ->
  exists b, st_bytes (sha_block c) (block_len c) bs = Some b /\ absorbed (with_block c b (block_len c + blen bs)) (m ++ bs).
Proof.
  intros (q & Hs & Hm & Hb & Ht & Hl & Hu) Hbs Hfit. rewrite st_bytes_ok by (unfold blen in *; lia). eexists. split; [done|].
  exists q. cbn [sha_state block_len sha_block with_block]. split; [rewrite hash_blocks_app by (unfold blen in *; lia); done|].
  split; [rewrite blen_app; lia|]. split; [unfold blen in *; lia|]. split; [|split; [rewrite patch_length by (unfold blen in *; lia); done|]].
  - unfold patch. rewrite drop_app_le by (unfold blen in *; lia). rewrite <- Ht.
    rewrite app_assoc, take_app_le by (rewrite length_app, length_take; unfold blen in *; lia). rewrite take_ge; [done|]. rewrite length_app, length_take. unfold blen. lia.
  - unfold patch. rewrite !Forall_app. split; [by apply Forall_take|]. split; [done|by apply Forall_drop].
Qed.

(** A full buffer is hashed. *)
Lemma absorb_block c m : absorbed c m -> block_len c = 64 -> absorbed (with_block (transform c (sha_block c)) (sha_block c) 0) m.
Proof.
  intros Habs E. pose proof (absorbed_state _ _ Habs) as Hok. destruct Habs as (q & Hs & Hm & Hb & Ht & Hl & Hu). rewrite transform_compress by done.
  exists (S q). cbn [sha_state block_len sha_block with_block]. rewrite E in *. change (Z.to_nat 64) with 64%nat in Ht. rewrite take_ge in Ht by lia.
  split; [|split; [lia|split; [lia|split; [|done]]]].
  - rewrite hash_blocks_S, <- Hs, <- Ht. by rewrite take_ge by lia.
  - change (Z.to_nat 0) with 0%nat. rewrite take_0, drop_ge; [done|]. unfold blen in Hm. lia.
Qed.

Lemma update_loop_spec fuel : forall c m d n, absorbed c m -> block_len c < 64 -> Forall is_u8 d -> 0 <= n <= blen d -> n <= Z.of_nat fuel -> n < 4294967296 ->
  exists c', update_loop fuel c d n = Some c' /\ absorbed c' (m ++ take (Z.to_nat n) d) /\ block_len c' < 64 /\ bit_count c' = bit_count c.
Proof.
  induction fuel as [|fuel IH]; intros c m d n Hc Hlt Hd Hn Hf Hmax; cbn [update_loop].
  { assert (n = 0) as -> by lia. exists c. cbn [Z.eqb]. by rewrite app_nil_r. }
  destruct (Z.eqb_spec n 0) as [->|Hn0]; [exists c; by rewrite app_nil_r|].
  assert (Hb : 0 <= block_len c) by (destruct Hc as (q & _ & _ & Hb & _); lia). rewrite (u32_id (64 - block_len c)) by (unfold is_u32; lia).
  set (tk := if n <? 64 - block_len c then n else 64 - block_len c). assert (Htk : 0 < tk <= n /\ block_len c + tk <= 64) by (unfold tk; destruct (Z.ltb_spec n (64 - block_len c)); lia).
  rewrite ld_bytes_ok by lia. rewrite some_bind, drop_0. assert (Hbl : blen (take (Z.to_nat tk) d) = tk) by (unfold blen in *; rewrite length_take; lia).
  destruct (absorb_bytes c m (take (Z.to_nat tk) d) Hc (Forall_take _ _ _ Hd)) as (b & -> & Habs); [lia|]. rewrite some_bind, Hbl in *.
  rewrite (u32_id (block_len c + tk)) by (unfold is_u32; lia). cbn [block_len with_block].
  assert (Hstep : exists c1, (if block_len c + tk =? 64 then with_block (transform (with_block c b (block_len c + tk)) (sha_block (with_block c b (block_len c + tk))))
      (sha_block (with_block c b (block_len c + tk))) 0 else with_block c b (block_len c + tk)) = c1 /\ absorbed c1 (m ++ take (Z.to_nat tk) d) /\ block_len c1 < 64 /\ bit_count c1 = bit_count c).
  { eexists. split; [done|]. destruct (Z.eqb_spec (block_len c + tk) 64) as [E|Hne].
    - split; [by apply absorb_block|]. split; [cbn; lia|done].
    - split; [done|]. split; [cbn; lia|done]. }
  destruct Hstep as (c1 & -> & H1 & H2 & H3).
  destruct (IH c1 (m ++ take (Z.to_nat tk) d) (drop (Z.to_nat tk) d) (n - tk) H1 H2 (Forall_drop _ _ _ Hd)) as (c' & -> & H4 & H5 & H6);
    [unfold blen in *; rewrite length_drop; lia|lia|lia|].
  exists c'. split; [done|]. split; [|split; [done|congruence]]. rewrite <- app_assoc in H4. replace (take (Z.to_nat n) d) with (take (Z.to_nat tk) d ++ take (Z.to_nat (n - tk)) (drop (Z.to_nat tk) d)); [done|].
  rewrite take_drop_commute, <- (take_drop (Z.to_nat tk) (take (Z.to_nat n) d)), take_take. replace (Z.to_nat tk `min` Z.to_nat n)%nat with (Z.to_nat tk) by lia. do 2 f_equal. do 2 f_equal. lia.
Qed.

(** A context that has taken in [m], with its length. *)
Definition hashing (c : sha256_ctx_t) (m : bytes) : Prop := absorbed c m /\ block_len c < 64 /\ bit_count c = 8 * blen m.

Lemma init_hashing c : length (sha_block c) = 64%nat -> Forall is_u8 (sha_block c) -> hashing (sha256_init c) [].
Proof. intros Hl Hu. split; [|split; [cbn; lia|done]]. exists 0%nat. done. Qed.

Lemma update_hashing c m d n : hashing c m -> Forall is_u8 d -> 0 <= n <= blen d -> n < 4294967296 -> 8 * (blen m + n) < 18446744073709551616 ->
  exists c', sha256_update c (Some d) n = Some c' /\ hashing c' (m ++ take (Z.to_nat n) d).
Proof.
  intros (Ha & Hl & Hbits) Hd Hn Hmax Htot. unfold sha256_update. assert (0 <= blen m) by (unfold blen; lia). rewrite (u64_id (n * 8)), u64_id by lia.
  destruct (update_loop_spec (Z.to_nat n) (mk_sha (sha_state c) (bit_count c + n * 8) (sha_block c) (block_len c)) m d n) as (c' & E & H1 & H2 & H3); try done; [lia|].
  exists c'. split; [exact E|]. split; [done|]. split; [done|]. rewrite H3. cbn [bit_count]. rewrite blen_app. unfold blen at 2. unfold blen in Hn. rewrite length_take. lia.
Qed.

(** ** The end of a message *)

Lemma transform_bits c b : bit_count (transform c b) = bit_count c.
Proof. done. Qed.

Lemma pad_loop_spec fuel : forall c m, absorbed c m -> let z := if block_len c <=? 56 then 56 - block_len c else 120 - block_len c in
  z + (if block_len c <=? 56 then 0 else 1) <= Z.of_nat fuel ->
  exists c', pad_loop fuel c = Some c' /\ absorbed c' (m ++ replicate (Z.to_nat z) 0) /\ block_len c' = 56 /\ bit_count c' = bit_count c.
Proof.
  induction fuel as [|fuel IH]; intros c m Hc z Hf; assert (Hb : 0 <= block_len c <= 64) by (by destruct Hc as (q & _ & _ & Hb & _)).
  { assert (E : block_len c = 56) by (unfold z in Hf; destruct (Z.leb_spec (block_len c) 56); lia). exists c. cbn [pad_loop]. rewrite E.
    split; [done|]. split; [|done]. unfold z. rewrite E. by rewrite app_nil_r. }
  cbn [pad_loop]. destruct (Z.eqb_spec (block_len c) 56) as [E|Hne].
  { exists c. split; [done|]. split; [|done]. unfold z. rewrite E. by rewrite app_nil_r. }
  destruct (Z.eqb_spec (block_len c) 64) as [E|Hne'].
  - destruct (IH _ m (absorb_block c m Hc E)) as (c' & -> & H1 & H2 & H3); [cbn [block_len with_block Z.leb Z.compare]; unfold z in Hf; rewrite E in Hf; cbn in Hf; lia|].
    exists c'. split; [done|]. unfold z. rewrite E. split; [exact H1|]. split; [done|]. rewrite H3. by apply transform_bits.
  - destruct (absorb_bytes c m [0] Hc ltac:(repeat constructor; lia)) as (b & E & Habs); [change (blen [0]) with 1; lia|].
    unfold put8. change (u8 0) with 0. rewrite E, some_bind, u32_id by (unfold is_u32; lia). change (blen [0]) with 1 in Habs.
    destruct (IH _ _ Habs) as (c' & -> & H1 & H2 & H3); cbn [block_len with_block] in *.
    { unfold z in Hf. destruct (Z.leb_spec (block_len c) 56), (Z.leb_spec (block_len c + 1) 56); lia. }
    exists c'. split; [done|]. split; [|split; [done|exact H3]]. rewrite <- app_assoc in H1. replace (Z.to_nat z) with (S (Z.to_nat (z - 1))).
    2:{ unfold z in *. destruct (Z.leb_spec (block_len c) 56); lia. }
    cbn [replicate]. replace (z - 1) with (if block_len c + 1 <=? 56 then 56 - (block_len c + 1) else 120 - (block_len c + 1)); [exact H1|].
    unfold z. destruct (Z.leb_spec (block_len c) 56), (Z.leb_spec (block_len c + 1) 56); lia.
Qed.

Lemma be64_u8 x : Forall is_u8 (be64 x).
Proof. apply Forall_fmap, Forall_forall. intros i _. apply u8_range. Qed.

Lemma final_spec c m out : hashing c m -> (32 <= length out)%nat -> 
  exists c', sha256_final c (Some out) = Some (c', Some (Fips.sha256 m ++ drop 32 out)) /\ length (sha_block c') = 64%nat /\ Forall is_u8 (sha_block c').
Proof.
  intros (Ha & Hl & Hbits) Ho. unfold sha256_final, put8. change (u8 128) with 128. assert (Hb0 : 0 <= block_len c) by (destruct Ha as (q & _ & _ & Hb & _); lia).
  destruct (absorb_bytes c m [128] Ha ltac:(repeat constructor; lia)) as (b & -> & Habs); [change (blen [128]) with 1; lia|]. change (blen [128]) with 1 in Habs.
  rewrite some_bind, u32_id by (unfold is_u32; lia).
  destruct (pad_loop_spec 128 _ _ Habs) as (c1 & -> & H1 & H2 & H3); [cbn [block_len with_block]; destruct (Z.leb_spec (block_len c + 1) 56); lia|]. rewrite some_bind.
  cbn [block_len with_block bit_count] in *. destruct (absorb_bytes c1 _ (be64 (bit_count c1)) H1 (be64_u8 _)) as (b2 & E2 & Hend); [change (blen (be64 (bit_count c1))) with 8; lia|].
  rewrite H2 in E2. rewrite E2, some_bind. change (blen (be64 (bit_count c1))) with 8 in Hend. rewrite H2 in Hend. change (56 + 8) with 64 in Hend.
  pose proof (absorb_block _ _ Hend eq_refl) as Hfin. rewrite H3, Hbits in *.
  set (z := if block_len c + 1 <=? 56 then 56 - (block_len c + 1) else 120 - (block_len c + 1)) in *.
  assert (Ez : (55 - blen m) mod 64 = z).
  { destruct Ha as (q & _ & Hm & _). unfold z. destruct (Z.leb_spec (block_len c + 1) 56); zlia. }
  assert (Epad : ((m ++ [128]) ++ replicate (Z.to_nat z) 0) ++ be64 (8 * blen m) = Fips.padded m) by (unfold Fips.padded; rewrite Ez, <- !app_assoc; done).
  rewrite Epad in Hfin. destruct Hfin as (q & Hs & Hm & _ & _ & Hbl & Hbu). cbn [sha_state block_len sha_block with_block] in *.
  assert (Es : sha_state (transform (with_block c1 b2 56) b2) = Fips.hash_blocks (length (Fips.padded m) / 64) sha_initial (Fips.padded m)).
  { replace (length (Fips.padded m) / 64)%nat with q; [rewrite <- Hs; done|]. unfold blen in Hm. apply (Nat.div_unique _ _ _ 0); lia. }
  pose proof (hash_blocks_ok (length (Fips.padded m) / 64) sha_initial (Fips.padded m) initial_ok) as [Hst _].
  assert (Hlen : blen (Fips.sha256 m) = 32).
  { rewrite sha256_blocks. revert Hst. generalize (Fips.hash_blocks (length (Fips.padded m) / 64) sha_initial (Fips.padded m)) as l. intros l Hst.
    destruct l as [|? [|? [|? [|? [|? [|? [|? [|? [|]]]]]]]]]; done. }
  rewrite H2, Es, <- sha256_blocks. rewrite st_bytes_ok by (unfold blen in *; lia). rewrite some_bind.
  exists (transform (with_block c1 b2 56) b2). split; [|split; [exact Hbl|exact Hbu]]. do 3 f_equal. unfold patch. change (Z.to_nat 0) with 0%nat. rewrite take_0. cbn [app]. f_equal. unfold blen in Hlen. f_equal. lia.
Qed.

(** ** Pieces *)

Fixpoint feed (c : sha256_ctx_t) (chunks : list bytes) : option sha256_ctx_t :=
  match chunks with
  | [] => Some c
  | d :: chunks => c ← sha256_update c (Some d) (blen d); feed c chunks
  end.

Lemma feed_spec chunks : forall c m, hashing c m -> Forall (fun d => Forall is_u8 d /\ blen d < 4294967296) chunks ->
  8 * (blen m + blen (concat chunks)) < 18446744073709551616 -> exists c', feed c chunks = Some c' /\ hashing c' (m ++ concat chunks).
Proof.
  induction chunks as [|d chunks IH]; intros c m Hc Hd Ht; cbn [feed concat]; [exists c; by rewrite app_nil_r|].
  apply Forall_cons in Hd as [[Hu Hl] Hd]. cbn [concat] in Ht. rewrite blen_app in Ht. assert (0 <= blen d /\ 0 <= blen (concat chunks)) by (unfold blen; lia).
  destruct (update_hashing c m d (blen d) Hc Hu) as (c1 & -> & H1); [lia|lia|lia|]. rewrite some_bind. rewrite take_ge in H1 by (unfold blen; lia).
  destruct (IH c1 (m ++ d) H1 Hd) as (c' & -> & H2); [rewrite blen_app; lia|]. exists c'. split; [done|]. by rewrite <- app_assoc in H2.
Qed.

(** C17. Feeding a message to [sha256_update] in any pieces and calling [sha256_final]
    gives the SHA-256 of FIPS 180-4 of the whole message, for every message of fewer than
    2^64 bits. *)
Theorem sha256_streams c chunks out : length (sha_block c) = 64%nat -> Forall is_u8 (sha_block c) -> (32 <= length out)%nat ->
  Forall (fun d => Forall is_u8 d /\ blen d < 4294967296) chunks -> 8 * blen (concat chunks) < 18446744073709551616 ->
  exists c', (c ← feed (sha256_init c) chunks; sha256_final c (Some out)) = Some (c', Some (Fips.sha256 (concat chunks) ++ drop 32 out)).
Proof.
  intros Hl Hu Ho Hd Ht. destruct (feed_spec chunks (sha256_init c) [] (init_hashing c Hl Hu) Hd) as (c1 & -> & H1); [exact Ht|].
  rewrite some_bind. destruct (final_spec c1 _ out H1 Ho) as (c' & -> & _). by exists c'.
Qed.

(** ** HMAC *)

(** The key padded to a block, the key hashed first when it is longer. *)
Definition hmac_key (key : bytes) : bytes :=
  let k := if 64 <? blen key then Fips.sha256 key else key in k ++ replicate (64 - length k) 0.

(** RFC 2104: H((K xor opad) || H((K xor ipad) || text)). *)
Definition rfc2104 (key text : bytes) : bytes :=
  let k := hmac_key key in
  Fips.sha256 (map (fun x => Z.lxor x 92) k ++ Fips.sha256 (map (fun x => Z.lxor x 54) k ++ text)).

Lemma sha256_length m : length (Fips.sha256 m) = 32%nat.
Proof.
  rewrite sha256_blocks. destruct (hash_blocks_ok (length (Fips.padded m) / 64) sha_initial (Fips.padded m) initial_ok) as [Hst _]. revert Hst.
  generalize (Fips.hash_blocks (length (Fips.padded m) / 64) sha_initial (Fips.padded m)) as l. intros l Hst.
  destruct l as [|? [|? [|? [|? [|? [|? [|? [|? [|]]]]]]]]]; done.
Qed.

Lemma be32_u8 x : Forall is_u8 (be32 x).
Proof. repeat (apply Forall_cons; split; [apply u8_range|]). by apply Forall_nil. Qed.

Lemma sha256_u8 m : Forall is_u8 (Fips.sha256 m).
Proof. apply Forall_concat, Forall_fmap, Forall_forall. intros x _. apply be32_u8. Qed.

Lemma hash_two_spec c a b bn out : length (sha_block c) = 64%nat -> Forall is_u8 (sha_block c) -> length a = 64%nat -> Forall is_u8 a ->
  Forall is_u8 b -> 0 <= bn <= blen b -> bn < 4294967296 -> (32 <= length out)%nat ->
  exists c', hash_two c a 64 (Some b) bn out = Some (c', Fips.sha256 (a ++ take (Z.to_nat bn) b) ++ drop 32 out) /\
    length (sha_block c') = 64%nat /\ Forall is_u8 (sha_block c').
Proof.
  intros Hl Hu Hal Hau Hbu Hbn Hmax Ho. unfold hash_two. assert (Hba : blen a = 64) by (unfold blen; lia).
  destruct (update_hashing _ _ a 64 (init_hashing c Hl Hu) Hau) as (c1 & -> & H1); [lia|lia|change (blen []) with 0; lia|]. rewrite some_bind.
  cbn [app] in H1. rewrite take_ge in H1 by (rewrite Hal; change (Z.to_nat 64) with 64%nat; lia).
  destruct (update_hashing c1 a b bn H1 Hbu Hbn Hmax) as (c2 & -> & H2); [lia|]. rewrite some_bind.
  destruct (final_spec c2 _ out H2 Ho) as (c3 & -> & H3). rewrite some_bind. by exists c3.
Qed.

Lemma xor_bytes l k : Forall is_u8 l -> is_u8 k -> Forall is_u8 (map (fun x => Z.lxor x k) l).
Proof.
  intros Hl Hk. apply Forall_fmap. eapply Forall_impl; [exact Hl|]. intros x Hx. apply (range_of_bits 8); [lia|]. intros i Hi.
  rewrite Z.lxor_spec, (bits_above 8 x), (bits_above 8 k); (done || lia).
Qed.

Lemma hmac_key_spec key : Forall is_u8 key -> length (hmac_key key) = 64%nat /\ Forall is_u8 (hmac_key key).
Proof.
  intros Hu. unfold hmac_key. destruct (Z.ltb_spec 64 (blen key)) as [Hl|Hl].
  - pose proof (sha256_length key) as Hs. split; [rewrite length_app, length_replicate; lia|]. apply Forall_app. split; [apply sha256_u8|]. apply Forall_replicate. unfold is_u8. lia.
  - unfold blen in Hl. split; [rewrite length_app, length_replicate; lia|]. apply Forall_app. split; [done|]. apply Forall_replicate. unfold is_u8. lia.
Qed.

(** [hmac_sha256] is the HMAC of RFC 2104 over SHA-256, for keys of any length and
    messages of fewer than 2^32 bytes. *)
Theorem hmac_is_rfc2104 c inner key text out : length (sha_block c) = 64%nat -> Forall is_u8 (sha_block c) -> length inner = 32%nat -> (32 <= length out)%nat ->
  Forall is_u8 key -> blen key < 4294967296 -> Forall is_u8 text -> blen text < 4294967296 ->
  hmac_sha256 c inner (Some key) (blen key) (Some text) (blen text) (Some out) = Some (Some (rfc2104 key text ++ drop 32 out)).
Proof.
  intros Hcl Hcu Hil Ho Hku Hkl Htu Htl. unfold hmac_sha256. rewrite !(bool_decide_eq_false_2 (Some _ = None)) by done. cbn [andb orb].
  destruct (hmac_key_spec key Hku) as [Hk64 Hk8].
  assert (Hfirst : exists c1, (if 64 <? blen key then ctx ← sha256_update (sha256_init c) (Some key) (blen key);
      '(ctx, block) ← sha256_final ctx (Some (replicate 64 0)); Some (ctx, default [] block)
    else block ← copy_in (replicate 64 0) 0 (default [] (Some key)) (blen key); Some (c, block)) = Some (c1, hmac_key key) /\
    length (sha_block c1) = 64%nat /\ Forall is_u8 (sha_block c1)).
  { unfold hmac_key. destruct (Z.ltb_spec 64 (blen key)) as [Hlong|Hshort].
    - destruct (update_hashing _ _ key (blen key) (init_hashing c Hcl Hcu) Hku) as (c0 & -> & H0); [unfold blen; lia|lia|change (blen []) with 0; lia|]. rewrite some_bind.
      rewrite take_ge in H0 by (unfold blen; lia). destruct (final_spec c0 _ (replicate 64 0) H0) as (c1 & -> & H1); [rewrite length_replicate; lia|].
      rewrite some_bind. exists c1. split; [|done]. do 3 f_equal. by rewrite sha256_length.
    - exists c. split; [|done]. cbn [default from_option id]. rewrite copy_in_ok by (unfold blen in *; rewrite ?length_replicate; lia). rewrite some_bind. do 2 f_equal.
      unfold patch. change (Z.to_nat 0) with 0%nat. rewrite take_0. cbn [app Nat.add]. by rewrite drop_replicate. }
  destruct Hfirst as (c1 & -> & Hc1l & Hc1u). rewrite some_bind.
  assert (H54 : is_u8 54) by (unfold is_u8; lia). assert (Hx1 : length (map (fun x => Z.lxor x 54) (hmac_key key)) = 64%nat) by (by rewrite length_map).
  destruct (hash_two_spec c1 _ text (blen text) inner Hc1l Hc1u Hx1 (xor_bytes _ 54 Hk8 H54) Htu) as (c2 & -> & Hc2l & Hc2u); [unfold blen; lia|done|lia|].
  rewrite some_bind, (take_ge text) by (unfold blen; lia). rewrite (drop_ge inner), app_nil_r by lia. rewrite map_map.
  rewrite (map_ext (fun x => Z.lxor (Z.lxor x 54) (Z.lxor 54 92)) (fun x => Z.lxor x 92)).
  2:{ intros x. by rewrite Z.lxor_assoc, <- (Z.lxor_assoc 54 54), Z.lxor_nilpotent, Z.lxor_0_l. }
  assert (H92 : is_u8 92) by (unfold is_u8; lia). assert (Hx2 : length (map (fun x => Z.lxor x 92) (hmac_key key)) = 64%nat) by (by rewrite length_map).
  destruct (hash_two_spec c2 _ (Fips.sha256 (map (fun x => Z.lxor x 54) (hmac_key key) ++ text)) 32 out Hc2l Hc2u Hx2 (xor_bytes _ 92 Hk8 H92) (sha256_u8 _)) as (c3 & -> & _);
    [unfold blen; rewrite sha256_length; lia|lia|done|]. rewrite some_bind. rewrite (take_ge (Fips.sha256 _)) by (rewrite sha256_length; change (Z.to_nat 32) with 32%nat; lia). done.
Qed.

(** The transcription of the standard gives the digest of its own example, "abc". *)
Example sha256_abc : Fips.sha256 [97; 98; 99] =
  [186; 120; 22; 191; 143; 1; 207; 234; 65; 65; 64; 222; 93; 174; 34; 35; 176; 3; 97; 163; 150; 23; 122; 156; 180; 16; 255; 97; 242; 0; 21; 173].
Proof. by vm_compute. Qed.

(** ** Witnesses *)

Definition demo_ctx : sha256_ctx_t := mk_sha (replicate 8 1) 5 (replicate 64 9) 33.

Lemma demo_ctx_block : length (sha_block demo_ctx) = 64%nat /\ Forall is_u8 (sha_block demo_ctx).
Proof. split; [done|]. cbn [sha_block demo_ctx]. apply Forall_replicate. unfold is_u8. lia. Qed.

(** "abc" in two pieces, over a used context and a dirty output buffer. *)
Lemma sha256_streams_witness : exists c',
  (c ← feed (sha256_init demo_ctx) [[97]; [98; 99]]; sha256_final c (Some (replicate 33 7))) = Some (c', Some (Fips.sha256 [97; 98; 99] ++ [7])).
Proof.
  apply (sha256_streams demo_ctx [[97]; [98; 99]] (replicate 33 7)).
  - apply demo_ctx_block.
  - apply demo_ctx_block.
  - rewrite length_replicate. lia.
  - repeat constructor; unfold is_u8; lia.
  - reflexivity.
Defined.

Lemma hmac_is_rfc2104_witness :
  hmac_sha256 demo_ctx (replicate 32 0) (Some [1; 2; 3]) 3 (Some [104; 105]) 2 (Some (replicate 32 0)) = Some (Some (rfc2104 [1; 2; 3] [104; 105])).
Proof.
  rewrite <- (app_nil_r (rfc2104 _ _)).
  apply (hmac_is_rfc2104 demo_ctx (replicate 32 0) [1; 2; 3] [104; 105] (replicate 32 0)).
  - apply demo_ctx_block.
  - apply demo_ctx_block.
  - done.
  - rewrite length_replicate. lia.
  - repeat constructor; unfold is_u8; lia.
  - reflexivity.
  - repeat constructor; unfold is_u8; lia.
  - reflexivity.
Defined.
