(* ===== verification/AtaJob.v ===== *)
(** * The disk job queue of kernel/ata_job.c

    Controller ownership and the two kinds of work the Ring 3 disk driver takes from
    the kernel: the overlay image, in chunks of at most eight sectors, and one
    synchronous sector job.  [K] is the state behind the two hooks of
    [ata_job_init]: a snapshot reads it, a restore changes it.  The counters of
    os_ata_status_t are a function from the names of its fields. *)

From Stdlib Require Import ZArith Lia.
From stdpp Require Import base numbers option tactics list.
From S2P Require Import Prelude Bytes NetBuf.

Definition OS_ATA_DRIVER_REQUIRED : Z := -58.
Definition OS_ATA_CONTROLLER_BUSY : Z := -85.
Definition OS_ATA_JOB_STALE : Z := -86.
Definition OS_ATA_KERNEL_RESERVED_LBAS : Z := 64.
Definition OS_ATA_OVERLAY_SECTORS : Z := 64.
Definition OS_ATA_OVERLAY_EXT_SECTORS : Z := 128.
Definition OS_ATA_OVERLAY_SECTORS_MAX : Z := OS_ATA_OVERLAY_SECTORS + OS_ATA_OVERLAY_EXT_SECTORS.
Definition OS_ATA_JOB_MAX_SECTORS : Z := 8.
Definition OS_ATA_JOB_NONE : Z := 0.
Definition OS_ATA_JOB_WRITE : Z := 1.
Definition OS_ATA_JOB_READ : Z := 2.
Definition OS_ATA_JOB_IO_READ : Z := 3.
Definition OS_ATA_JOB_IO_WRITE : Z := 4.
Definition OS_ATA_JOB_CHUNK_OK : Z := 0.
Definition OS_ATA_JOB_FLUSH_DONE : Z := 1.
Definition OS_ATA_JOB_LOAD_DONE : Z := 2.
Definition OS_ATA_JOB_LOAD_SKIPPED : Z := 3.
Definition OS_ATA_JOB_FAILED : Z := 4.
Definition OS_ATA_JOB_IO_DONE : Z := 5.
Definition OS_ATA_JOB_FLAG_DEBUG_CRASH : Z := 1.
Definition ATA_JOB_SNAPSHOT_BYTES : Z := OS_ATA_OVERLAY_SECTORS_MAX * 512.
Definition ATA_HANDED_NONE : Z := 0.
Definition ATA_HANDED_OVERLAY : Z := 1.
Definition ATA_HANDED_IO : Z := 2.
Definition ATA_IO_NONE : Z := 0.
Definition ATA_IO_PENDING : Z := 1.
Definition ATA_IO_HANDED : Z := 2.
Definition ATA_IO_DONE : Z := 3.
Definition ATA_IO_FAILED : Z := 4.

Record os_ata_job_t := mk_job {
  job_op : Z; job_drive : Z; job_lba_of : Z; job_count : Z; job_generation : Z; job_flags : Z
}.

(** The fields of os_ata_status_t that this file fills. *)
Inductive ata_field :=
  | driver_pid | claim_pid | flush_done | load_done | load_skipped | job_failures | kernel_overlay_writes
  | kernel_pio_refused | fallback_flushes | pending | client_min_lba | slave_write_locked
  | fat_driver_read_sectors | fat_driver_write_sectors | fat_kernel_pio_sectors | fat_kernel_pio_live
  | fat_rpc_aborts | boot_driver_pid | channel_resets | debug_crash_armed | boot_mount_deferred | slave_present
  | supervised_respawns | journal_kernel_pio_reads | journal_installs.

#[export] Instance ata_field_eq_dec : EqDecision ata_field.
Proof. solve_decision. Defined.

Definition os_ata_status_t := ata_field -> Z.

Definition set_field (st : os_ata_status_t) (f : ata_field) (v : Z) : os_ata_status_t :=
  fun x => if decide (x = f) then v else st x.
Definition add_field (st : os_ata_status_t) (f : ata_field) (n : Z) : os_ata_status_t :=
  set_field st f (u32 (st f + n)).

(** The overlay image: [g_buf], [g_total], [g_ext_lba], [g_flush_dirty],
    [g_load_pending], [g_active_op], [g_cursor], [g_ov_generation], [g_load_invalid]. *)
Record image_job := mk_image {
  g_buf : bytes; g_total : Z; g_ext_lba : Z; g_flush_dirty : Z; g_load_pending : Z;
  g_active_op : Z; g_cursor : Z; g_ov_generation : Z; g_load_invalid : Z
}.

(** The sector job. *)
Record sector_job := mk_sector {
  g_io_state : Z; g_io_op : Z; g_io_drive : Z; g_io_lba : Z; g_io_count : Z; g_io_gen : Z;
  g_io_buf : bytes; g_io_flags : Z
}.

Record ata_t {K : Type} := mk_ata {
  g_snapshot : ptr (K -> bytes -> Z -> option (Z * bytes));
  g_restore : ptr (K -> bytes -> Z -> option (Z * K));
  g_claim_pid : Z; g_img : image_job; g_io : sector_job; g_job_generation : Z; g_handed : Z;
  g_client_min_lba : Z; g_slave_locked : Z; g_debug_crash_armed : Z;
  g_boot_mount_deferred : Z; g_slave_present : Z; g_ata_stats : os_ata_status_t
}.
Arguments ata_t : clear implicits.

Section Jobs.
Context {K : Type}.
Implicit Types (s : ata_t K) (k : K).

Definition set_claim s (pid : Z) : ata_t K :=
  mk_ata K (g_snapshot s) (g_restore s) pid (g_img s) (g_io s) (g_job_generation s) (g_handed s) (g_client_min_lba s)
    (g_slave_locked s) (g_debug_crash_armed s) (g_boot_mount_deferred s) (g_slave_present s) (g_ata_stats s).
Definition set_img s (i : image_job) : ata_t K :=
  mk_ata K (g_snapshot s) (g_restore s) (g_claim_pid s) i (g_io s) (g_job_generation s) (g_handed s) (g_client_min_lba s)
    (g_slave_locked s) (g_debug_crash_armed s) (g_boot_mount_deferred s) (g_slave_present s) (g_ata_stats s).
Definition set_io s (i : sector_job) : ata_t K :=
  mk_ata K (g_snapshot s) (g_restore s) (g_claim_pid s) (g_img s) i (g_job_generation s) (g_handed s) (g_client_min_lba s)
    (g_slave_locked s) (g_debug_crash_armed s) (g_boot_mount_deferred s) (g_slave_present s) (g_ata_stats s).
Definition next_generation s : ata_t K :=
  mk_ata K (g_snapshot s) (g_restore s) (g_claim_pid s) (g_img s) (g_io s) (u32 (g_job_generation s + 1)) (g_handed s)
    (g_client_min_lba s) (g_slave_locked s) (g_debug_crash_armed s) (g_boot_mount_deferred s) (g_slave_present s) (g_ata_stats s).
Definition set_handed s (h : Z) : ata_t K :=
  mk_ata K (g_snapshot s) (g_restore s) (g_claim_pid s) (g_img s) (g_io s) (g_job_generation s) h (g_client_min_lba s)
    (g_slave_locked s) (g_debug_crash_armed s) (g_boot_mount_deferred s) (g_slave_present s) (g_ata_stats s).
Definition set_fences s (min locked : Z) : ata_t K :=
  mk_ata K (g_snapshot s) (g_restore s) (g_claim_pid s) (g_img s) (g_io s) (g_job_generation s) (g_handed s) min
    locked (g_debug_crash_armed s) (g_boot_mount_deferred s) (g_slave_present s) (g_ata_stats s).
Definition set_crash s (armed : Z) : ata_t K :=
  mk_ata K (g_snapshot s) (g_restore s) (g_claim_pid s) (g_img s) (g_io s) (g_job_generation s) (g_handed s) (g_client_min_lba s)
    (g_slave_locked s) armed (g_boot_mount_deferred s) (g_slave_present s) (g_ata_stats s).
Definition set_boot s (deferred present : Z) : ata_t K :=
  mk_ata K (g_snapshot s) (g_restore s) (g_claim_pid s) (g_img s) (g_io s) (g_job_generation s) (g_handed s) (g_client_min_lba s)
    (g_slave_locked s) (g_debug_crash_armed s) deferred present (g_ata_stats s).
Definition set_stats s (st : os_ata_status_t) : ata_t K :=
  mk_ata K (g_snapshot s) (g_restore s) (g_claim_pid s) (g_img s) (g_io s) (g_job_generation s) (g_handed s) (g_client_min_lba s)
    (g_slave_locked s) (g_debug_crash_armed s) (g_boot_mount_deferred s) (g_slave_present s) st.
Definition count s (f : ata_field) (n : Z) : ata_t K := set_stats s (add_field (g_ata_stats s) f n).

Definition with_buf (i : image_job) (b : bytes) : image_job :=
  mk_image b (g_total i) (g_ext_lba i) (g_flush_dirty i) (g_load_pending i) (g_active_op i) (g_cursor i) (g_ov_generation i) (g_load_invalid i).
Definition with_geometry (i : image_job) (total ext : Z) : image_job :=
  mk_image (g_buf i) total ext (g_flush_dirty i) (g_load_pending i) (g_active_op i) (g_cursor i) (g_ov_generation i) (g_load_invalid i).
Definition with_requests (i : image_job) (dirty load invalid : Z) : image_job :=
  mk_image (g_buf i) (g_total i) (g_ext_lba i) dirty load (g_active_op i) (g_cursor i) (g_ov_generation i) invalid.
Definition with_active (i : image_job) (op : Z) : image_job :=
  mk_image (g_buf i) (g_total i) (g_ext_lba i) (g_flush_dirty i) (g_load_pending i) op (g_cursor i) (g_ov_generation i) (g_load_invalid i).
Definition with_cursor (i : image_job) (c : Z) : image_job :=
  mk_image (g_buf i) (g_total i) (g_ext_lba i) (g_flush_dirty i) (g_load_pending i) (g_active_op i) c (g_ov_generation i) (g_load_invalid i).
Definition with_generation (i : image_job) (g : Z) : image_job :=
  mk_image (g_buf i) (g_total i) (g_ext_lba i) (g_flush_dirty i) (g_load_pending i) (g_active_op i) (g_cursor i) g (g_load_invalid i).
Definition with_io_state (i : sector_job) (st : Z) : sector_job :=
  mk_sector st (g_io_op i) (g_io_drive i) (g_io_lba i) (g_io_count i) (g_io_gen i) (g_io_buf i) (g_io_flags i).
Definition with_io_buf (i : sector_job) (b : bytes) : sector_job :=
  mk_sector (g_io_state i) (g_io_op i) (g_io_drive i) (g_io_lba i) (g_io_count i) (g_io_gen i) b (g_io_flags i).

(** [job_u32(g_buf + off)]. *)
Definition job_u32 (b : bytes) (off : Z) : option Z := un_le32 <$> ld_bytes b off 4.

Definition job_geometry (i : image_job) : option image_job :=
  magic ← job_u32 (g_buf i) 0;
  version ← job_u32 (g_buf i) 4;
  ext ← job_u32 (g_buf i) 16;
  sectors ← job_u32 (g_buf i) 20;
  Some (if (magic =? 1448036673) && (version =? 4) && (4225 <=? ext) && (sectors =? OS_ATA_OVERLAY_EXT_SECTORS)
        then with_geometry i OS_ATA_OVERLAY_SECTORS_MAX ext
        else with_geometry i OS_ATA_OVERLAY_SECTORS 0).

Definition job_lba (i : image_job) (cursor : Z) : Z :=
  if cursor <? OS_ATA_OVERLAY_SECTORS then cursor else u32 (g_ext_lba i + (cursor - OS_ATA_OVERLAY_SECTORS)).

(** [g_buf], [g_total], [g_ext_lba], [g_ov_generation], the sector job's description
    and buffers, and the boot flags keep what they had. *)
Definition ata_job_init s (snapshot : ptr (K -> bytes -> Z -> option (Z * bytes))) (restore : ptr (K -> bytes -> Z -> option (Z * K))) : ata_t K :=
  let i := g_img s in
  let j := g_io s in
  mk_ata K snapshot restore 0
    (mk_image (g_buf i) (g_total i) (g_ext_lba i) 0 0 OS_ATA_JOB_NONE 0 (g_ov_generation i) 0)
    (mk_sector ATA_IO_NONE (g_io_op j) (g_io_drive j) (g_io_lba j) (g_io_count j) (g_io_gen j) (g_io_buf j) 0)
    0 ATA_HANDED_NONE OS_ATA_KERNEL_RESERVED_LBAS 0 0 (g_boot_mount_deferred s) (g_slave_present s) (fun _ => 0).

(** ** Ownership of the controller *)

Definition ata_owner_holder s (live_driver : Z) : Z * ata_t K :=
  let s := if negb (g_claim_pid s =? 0) && ((live_driver <=? 0) || negb (g_claim_pid s =? live_driver))
           then set_claim s 0 else s in
  (g_claim_pid s, s).

Definition ata_owner_claim s (pid live_driver : Z) : Z * ata_t K :=
  if (pid <=? 0) || (live_driver <=? 0) || negb (pid =? live_driver) then (OS_ATA_DRIVER_REQUIRED, s)
  else
    let '(holder, s) := ata_owner_holder s live_driver in
    if negb (holder =? 0) && negb (g_claim_pid s =? pid) then (OS_ATA_CONTROLLER_BUSY, s)
    else (0, set_claim s pid).

Definition ata_owner_release s (pid : Z) : Z * ata_t K :=
  if (pid <=? 0) || negb (g_claim_pid s =? pid) then (OS_ATA_DRIVER_REQUIRED, s) else (0, set_claim s 0).

Definition ata_owner_ports_open s (pid live_driver : Z) : Z * ata_t K :=
  if (0 <? pid) && (pid =? live_driver) then
    let '(holder, s) := ata_owner_holder s live_driver in (b2z (holder =? pid), s)
  else (0, s).

Definition ata_owner_kernel_may_pio s (live_driver : Z) : Z * ata_t K :=
  let '(holder, s) := ata_owner_holder s live_driver in
  if negb (holder =? 0) then (0, count s kernel_pio_refused 1) else (1, s).

(** ** Requests *)

Definition ata_job_request_flush s : ata_t K :=
  let i := g_img s in
  set_img s (with_requests i 1 0 (if g_active_op i =? OS_ATA_JOB_READ then 1 else g_load_invalid i)).

Definition ata_job_request_load s : ata_t K :=
  let i := g_img s in
  if c_true (g_flush_dirty i) then s else set_img s (with_requests i (g_flush_dirty i) 1 (g_load_invalid i)).

Definition io_busy s : bool := (g_io_state (g_io s) =? ATA_IO_PENDING) || (g_io_state (g_io s) =? ATA_IO_HANDED).

Definition ata_job_pending s : Z :=
  b2z (c_true (g_flush_dirty (g_img s)) || c_true (g_load_pending (g_img s))
       || negb (g_active_op (g_img s) =? OS_ATA_JOB_NONE) || io_busy s).

(** ** The sector job *)

Definition ata_job_io_submit s (drive lba cnt write : Z) (data : ptr bytes) : option (Z * ata_t K) :=
  if io_busy s then Some (-1, s)
  else if (1 <? drive) || (cnt =? 0) || (OS_ATA_JOB_MAX_SECTORS <? cnt) then Some (-1, s)
  else if c_true write && bool_decide (data = NULL) then Some (-1, s)
  else
    let s := next_generation s in
    buf ← (if c_true write
           then bs ← ld_bytes (default [] data) 0 (cnt * 512); st_bytes (g_io_buf (g_io s)) 0 bs
           else Some (g_io_buf (g_io s)));
    let crash := c_true write && c_true (g_debug_crash_armed s) in
    let s := set_io s (mk_sector ATA_IO_PENDING (if c_true write then OS_ATA_JOB_IO_WRITE else OS_ATA_JOB_IO_READ)
                         drive lba cnt (g_job_generation s) buf (if crash then OS_ATA_JOB_FLAG_DEBUG_CRASH else 0)) in
    Some (0, if crash then set_crash s 0 else s).

Definition ata_job_io_state s : Z := g_io_state (g_io s).
Definition ata_job_flush_queued s : Z := b2z (c_true (g_flush_dirty (g_img s))).

(** The last component is what [out] holds. *)
Definition ata_job_io_take s (out : ptr bytes) (capacity : Z) : option (Z * ata_t K * ptr bytes) :=
  let j := g_io s in
  if negb (g_io_state j =? ATA_IO_DONE) && negb (g_io_state j =? ATA_IO_FAILED) then Some (-1, s, out)
  else
    let rc := if g_io_state j =? ATA_IO_DONE then 0 else -1 in
    '(rc, out) ← (if (rc =? 0) && (g_io_op j =? OS_ATA_JOB_IO_READ) then
                    match out with
                    | NULL => Some (-1, out)
                    | Some o =>
                        if capacity <? g_io_count j * 512 then Some (-1, out)
                        else bs ← ld_bytes (g_io_buf j) 0 (g_io_count j * 512); o ← st_bytes o 0 bs; Some (0, Some o)
                    end
                  else Some (rc, out));
    Some (rc, set_io s (with_io_state j ATA_IO_NONE), out).

Definition ata_job_io_cancel s : ata_t K :=
  if g_io_state (g_io s) =? ATA_IO_NONE then s
  else
    let s := if g_handed s =? ATA_HANDED_IO then set_handed s ATA_HANDED_NONE else s in
    count (next_generation (set_io s (with_io_state (g_io s) ATA_IO_NONE))) fat_rpc_aborts 1.

(** ** Counters and flags *)

Definition ata_job_note_journal_kernel_read s (sectors : Z) : ata_t K := count s journal_kernel_pio_reads sectors.
Definition ata_job_note_journal_install s : ata_t K := count s journal_installs 1.
Definition ata_job_note_fat_kernel_pio s (sectors driver_live : Z) : ata_t K :=
  let s := count s fat_kernel_pio_sectors sectors in
  if c_true driver_live then count s fat_kernel_pio_live sectors else s.
Definition ata_job_set_boot_driver s (pid : Z) : ata_t K := set_stats s (set_field (g_ata_stats s) boot_driver_pid pid).
Definition ata_job_debug_arm_crash s : ata_t K := set_crash s 1.
Definition ata_job_debug_take_crash s : Z * ata_t K :=
  if c_true (g_debug_crash_armed s) then (1, set_crash s 0) else (0, s).
Definition ata_job_note_fat_driver_io s (read_sectors written_sectors : Z) : ata_t K :=
  count (count s fat_driver_read_sectors read_sectors) fat_driver_write_sectors written_sectors.
Definition ata_job_note_driver_flush s : ata_t K := count s flush_done 1.
Definition ata_job_note_rpc_abort s : ata_t K := count s fat_rpc_aborts 1.
Definition ata_job_controller_in_use s : Z := b2z (negb (g_claim_pid s =? 0) || negb (g_handed s =? ATA_HANDED_NONE)).
Definition ata_job_note_channel_reset s : ata_t K := count s channel_resets 1.
Definition ata_job_note_respawn s : ata_t K := count s supervised_respawns 1.
Definition ata_job_note_kernel_overlay_write s : ata_t K := count s kernel_overlay_writes 1.
Definition ata_job_note_fallback_flush s : ata_t K := count s fallback_flushes 1.

Definition ata_job_set_fences s (min locked : Z) : ata_t K :=
  set_fences s (if min <? OS_ATA_KERNEL_RESERVED_LBAS then OS_ATA_KERNEL_RESERVED_LBAS else min) (b2z (c_true locked)).
Definition ata_job_set_boot_flags s (deferred present : Z) : ata_t K := set_boot s (b2z (c_true deferred)) (b2z (c_true present)).

Definition ata_job_client_write_allowed s (drive lba : Z) : Z :=
  if drive =? 0 then b2z (g_client_min_lba s <=? lba)
  else if drive =? 1 then b2z (negb (c_true (g_slave_locked s))) else 0.

Definition ata_job_fill_status s (out : ptr os_ata_status_t) (live_driver : Z) : ptr os_ata_status_t * ata_t K :=
  match out with
  | NULL => (NULL, s)
  | Some _ =>
      let o := set_field (g_ata_stats s) driver_pid (if 0 <? live_driver then live_driver else 0) in
      let '(holder, s) := ata_owner_holder s live_driver in
      let o := set_field o claim_pid holder in
      let o := set_field o pending (ata_job_pending s) in
      let o := set_field o client_min_lba (g_client_min_lba s) in
      let o := set_field o slave_write_locked (g_slave_locked s) in
      let o := set_field o debug_crash_armed (g_debug_crash_armed s) in
      let o := set_field o boot_mount_deferred (g_boot_mount_deferred s) in
      (Some (set_field o slave_present (g_slave_present s)), s)
  end.

(** ** Handing out and completing chunks *)

Definition chunk_count (i : image_job) : Z :=
  let last := if g_cursor i <? OS_ATA_OVERLAY_SECTORS then OS_ATA_OVERLAY_SECTORS else g_total i in
  let left := u32 (last - g_cursor i) in
  if left <? OS_ATA_JOB_MAX_SECTORS then left else OS_ATA_JOB_MAX_SECTORS.

(** [for (i = 0; i < n; i++) data[i] = src[off + i];] behind the capacity test; [None]
    in the answer is the refusal. *)
Definition give (data : ptr bytes) (capacity : Z) (src : bytes) (off n : Z) : option (option bytes) :=
  match data with
  | NULL => Some None
  | Some d => if capacity <? n then Some None else bs ← ld_bytes src off n; d ← st_bytes d 0 bs; Some (Some d)
  end.

Definition fetch_sector s (data : ptr bytes) (capacity : Z) : option (Z * ata_t K * ptr os_ata_job_t * ptr bytes) :=
  let j := g_io s in
  let handed := set_handed (set_io s (with_io_state j ATA_IO_HANDED)) ATA_HANDED_IO in
  let job := mk_job (g_io_op j) (g_io_drive j) (g_io_lba j) (g_io_count j) (g_io_gen j) (g_io_flags j) in
  if g_io_op j =? OS_ATA_JOB_IO_WRITE then
    d ← give data capacity (g_io_buf j) 0 (g_io_count j * 512);
    Some (match d with
          | None => (-1, s, NULL, data)
          | Some d => (1, handed, Some job, Some d)
          end)
  else Some (1, handed, Some job, data).

(** The choice of the next image job when none is active: 1 to go on, 0 for idle. *)
Definition begin_image s k : option (Z * ata_t K) :=
  let i := g_img s in
  if negb (g_active_op i =? OS_ATA_JOB_NONE) then Some (1, s)
  else
    let started s i := let s := next_generation (set_img s (with_cursor i 0)) in
                       Some (1, set_img s (with_generation (g_img s) (g_job_generation s))) in
    if c_true (g_flush_dirty i) then
      let i := with_buf i (replicate (Z.to_nat ATA_JOB_SNAPSHOT_BYTES) 0) in
      match g_snapshot s with
      | NULL => Some (-1, set_img s i)
      | Some snapshot =>
          '(rc, b) ← snapshot k (g_buf i) ATA_JOB_SNAPSHOT_BYTES;
          let i := with_buf i b in
          if negb (rc =? 0) then Some (-1, set_img s i)
          else
            i ← job_geometry i;
            started s (with_active (with_requests i 0 (g_load_pending i) (g_load_invalid i)) OS_ATA_JOB_WRITE)
      end
    else if c_true (g_load_pending i) then
      started s (with_geometry (with_active (with_requests i (g_flush_dirty i) 0 0) OS_ATA_JOB_READ) OS_ATA_OVERLAY_SECTORS 0)
    else Some (0, s).

Definition fetch_chunk s (data : ptr bytes) (capacity : Z) : option (Z * ata_t K * ptr os_ata_job_t * ptr bytes) :=
  let i := g_img s in
  let cnt := chunk_count i in
  let job := mk_job (g_active_op i) 0 (job_lba i (g_cursor i)) cnt (g_ov_generation i) 0 in
  let handed := set_handed s ATA_HANDED_OVERLAY in
  if g_active_op i =? OS_ATA_JOB_WRITE then
    d ← give data capacity (g_buf i) (g_cursor i * 512) (cnt * 512);
    Some (match d with
          | None => (-1, s, NULL, data)
          | Some d => (1, handed, Some job, Some d)
          end)
  else Some (1, handed, Some job, data).

(** The third component is what was written to [job], [NULL] if nothing was. *)
Definition ata_job_fetch s k (job : ptr unit) (data : ptr bytes) (capacity : Z)
    : option (Z * ata_t K * ptr os_ata_job_t * ptr bytes) :=
  match job with
  | NULL => Some (-1, s, NULL, data)
  | Some _ =>
      if (g_handed s =? ATA_HANDED_IO) || ((g_handed s =? ATA_HANDED_NONE) && (g_io_state (g_io s) =? ATA_IO_PENDING))
      then fetch_sector s data capacity
      else
        '(rc, s) ← begin_image s k;
        if rc =? 1 then fetch_chunk s data capacity else Some (rc, s, NULL, data)
  end.

(** [if (!data || capacity < n) refuse; for (...) dst[off + i] = data[i];] *)
Definition accept (dst : bytes) (off n : Z) (data : ptr bytes) (capacity : Z) : option (option bytes) :=
  match data with
  | NULL => Some None
  | Some d => if capacity <? n then Some None else bs ← ld_bytes d 0 n; b ← st_bytes dst off bs; Some (Some b)
  end.

Definition done_sector s (job : os_ata_job_t) (status : Z) (data : ptr bytes) (capacity : Z) : option (Z * ata_t K) :=
  let j := g_io s in
  if negb (g_io_state j =? ATA_IO_HANDED) || negb (job_op job =? g_io_op j) || negb (job_generation job =? g_io_gen j)
     || negb (job_lba_of job =? g_io_lba j) || negb (job_count job =? g_io_count j) || negb (job_drive job =? g_io_drive j)
  then Some (OS_ATA_JOB_STALE, s)
  else
    b ← (if (status =? 0) && (g_io_op j =? OS_ATA_JOB_IO_READ)
         then accept (g_io_buf j) 0 (g_io_count j * 512) data capacity else Some (Some (g_io_buf j)));
    match b with
    | None => Some (OS_ATA_JOB_STALE, s)
    | Some b =>
        let s := set_handed (set_io s (with_io_buf j b)) ATA_HANDED_NONE in
        if negb (status =? 0) then
          Some (OS_ATA_JOB_FAILED, set_io (count s job_failures 1) (with_io_state (g_io s) ATA_IO_FAILED))
        else
          let s := count s (if g_io_op j =? OS_ATA_JOB_IO_READ then fat_driver_read_sectors else fat_driver_write_sectors) (g_io_count j) in
          Some (OS_ATA_JOB_IO_DONE, set_io s (with_io_state (g_io s) ATA_IO_DONE))
    end.

(** The end of an image job. *)
Definition finish_image s k (op : Z) : option (Z * ata_t K * K) :=
  let s := set_img s (with_cursor (with_active (g_img s) OS_ATA_JOB_NONE) 0) in
  if op =? OS_ATA_JOB_WRITE then Some (OS_ATA_JOB_FLUSH_DONE, count s flush_done 1, k)
  else
    let skipped k := Some (OS_ATA_JOB_LOAD_SKIPPED, count s load_skipped 1, k) in
    if c_true (g_load_invalid (g_img s)) || c_true (g_flush_dirty (g_img s)) then skipped k
    else
      match g_restore s with
      | NULL => skipped k
      | Some restore =>
          '(rc, k) ← restore k (g_buf (g_img s)) ATA_JOB_SNAPSHOT_BYTES;
          if negb (rc =? 0) then skipped k else Some (OS_ATA_JOB_LOAD_DONE, count s load_done 1, k)
      end.

Definition done_chunk s k (job : os_ata_job_t) (status : Z) (data : ptr bytes) (capacity : Z) : option (Z * ata_t K * K) :=
  let i := g_img s in
  let cnt := chunk_count i in
  if negb (job_op job =? g_active_op i) || negb (job_generation job =? g_ov_generation i)
     || negb (job_lba_of job =? job_lba i (g_cursor i)) || negb (job_count job =? cnt) || negb (job_drive job =? 0)
  then Some (OS_ATA_JOB_STALE, s, k)
  else
    let op := g_active_op i in
    let s := set_handed s ATA_HANDED_NONE in
    if negb (status =? 0) then
      let i := with_active i OS_ATA_JOB_NONE in
      let i := if op =? OS_ATA_JOB_WRITE then with_requests i 1 (g_load_pending i) (g_load_invalid i) else i in
      Some (OS_ATA_JOB_FAILED, set_img (count s job_failures 1) i, k)
    else
      b ← (if op =? OS_ATA_JOB_READ then accept (g_buf i) (g_cursor i * 512) (cnt * 512) data capacity else Some (Some (g_buf i)));
      match b with
      | None => Some (OS_ATA_JOB_STALE, s, k)
      | Some b =>
          let i := with_cursor (with_buf i b) (u32 (g_cursor i + cnt)) in
          i ← (if (op =? OS_ATA_JOB_READ) && (g_cursor i =? OS_ATA_OVERLAY_SECTORS) then job_geometry i else Some i);
          let s := set_img s i in
          if g_cursor i <? g_total i then Some (OS_ATA_JOB_CHUNK_OK, s, k) else finish_image s k op
      end.

Definition ata_job_done s k (job : ptr os_ata_job_t) (status : Z) (data : ptr bytes) (capacity : Z) : option (Z * ata_t K * K) :=
  match job with
  | NULL => Some (OS_ATA_JOB_STALE, s, k)
  | Some job =>
      if g_handed s =? ATA_HANDED_IO then '(rc, s) ← done_sector s job status data capacity; Some (rc, s, k)
      else if negb (g_handed s =? ATA_HANDED_OVERLAY) || (g_active_op (g_img s) =? OS_ATA_JOB_NONE) then Some (OS_ATA_JOB_STALE, s, k)
      else done_chunk s k job status data capacity
  end.

Definition ata_job_driver_gone s : Z * ata_t K :=
  let i := g_img s in
  let need_flush := c_true (g_flush_dirty i) || (g_active_op i =? OS_ATA_JOB_WRITE) in
  let i := with_cursor (with_active (with_requests i 0 0 (g_load_invalid i)) OS_ATA_JOB_NONE) 0 in
  let s := set_handed (set_img (set_claim s 0) i) ATA_HANDED_NONE in
  let s := if io_busy s
           then count (next_generation (set_io s (with_io_state (g_io s) ATA_IO_NONE))) fat_rpc_aborts 1 else s in
  (b2z need_flush, s).
End Jobs.
