(* ===== verification/AtaSpec.v ===== *)
(** * The disk follows the files

    The kernel, the disk and the Ring 3 driver as one transition system: file
    operations ask for a flush, the driver fetches chunks, writes or reads sectors in
    any order, completes, fails or dies at any moment, and sector jobs of the FAT code
    run in between.  The hooks behind the queue are an interface, [ImageLaws]: what a
    snapshot encodes and a restore shows. *)

From Stdlib Require Import ZArith Lia.
From stdpp Require Import base numbers option tactics list relations.
From S2P Require Import Prelude Bytes NetBuf NetSum AtaJob.

(** Sector [c] of an image in memory. *)
Definition sector_of (b : bytes) (c : Z) : bytes := take 512 (drop (Z.to_nat (c * 512)) b).

(** [shows k a]: the state [k] holds the files [a]; [encodes b a]: so does the image [b].
    [image_ext] is the sector of the extension area, 0 if there is none. *)
Class ImageHooks (K A : Type) := {
  snapshot_of : K -> bytes -> Z -> option (Z * bytes);
  restore_of : K -> bytes -> Z -> option (Z * K);
  image_ext : Z;
  shows : K -> A -> Prop;
  encodes : bytes -> A -> Prop
}.

Definition image_total `{ImageHooks K A} : Z := if image_ext =? 0 then 64 else 192.

Class ImageLaws (K A : Type) `{ImageHooks K A} : Prop := {
  ext_range : image_ext = 0 \/ 4225 <= image_ext <= 4294967296 - 128;
  snapshot_encodes : forall k a b, shows k a -> blen b = 98304 ->
    exists img, snapshot_of k b 98304 = Some (0, img) /\ blen img = 98304 /\ encodes img a;
  restore_same : forall k a img, shows k a -> blen img = 98304 -> encodes img a ->
    exists k', restore_of k img 98304 = Some (0, k') /\ shows k' a;
  encodes_area : forall img img' a, encodes img a -> blen img = 98304 -> blen img' = 98304 ->
    (forall c, 0 <= c < image_total -> sector_of img' c = sector_of img c) -> encodes img' a;
  encodes_geometry : forall i a, encodes (g_buf i) a -> blen (g_buf i) = 98304 ->
    job_geometry i = Some (with_geometry i image_total image_ext)
}.

(** Two drives of 512-byte sectors. *)
Definition disk := Z -> Z -> bytes.
Definition disk_ok (d : disk) : Prop := forall drive lba, blen (d drive lba) = 512.

Definition put_sector (d : disk) (drive lba : Z) (b : bytes) : disk :=
  fun dr l => if (dr =? drive) && (l =? lba) then b else d dr l.

Definition sector_range (d : disk) (drive lba n : Z) : bytes := concat (map (d drive) (seqZ lba n)).

Section System.
Context {K A : Type} `{ImageLaws K A}.
Implicit Types (s : ata_t K) (k : K) (a : A) (d : disk).

Definition image_lba (c : Z) : Z := if c <? 64 then c else image_ext + (c - 64).

(** The image area of the disk holds [a]. *)
Definition in_sync d a : Prop := exists img, blen img = 98304 /\ encodes img a /\
  forall c, 0 <= c < image_total -> d 0 (image_lba c) = sector_of img c.

(** Sectors of the FAT volumes: anything but the image area. *)
Definition outside (drive lba n : Z) : Prop :=
  drive <> 0 \/ forall c, 0 <= c < image_total -> image_lba c < lba \/ lba + n <= image_lba c.

Record sys := mk_sys { y_ata : ata_t K; y_files : K; y_disk : disk; y_held : option (os_ata_job_t * bytes) }.

Definition writes (job : os_ata_job_t) : Prop := job_op job = OS_ATA_JOB_WRITE \/ job_op job = OS_ATA_JOB_IO_WRITE.

Inductive step : sys -> sys -> Prop :=
  (* a file operation; overlay_save_disk then asks for a flush *)
  | step_change s k d h k' a' : shows k' a' ->
      step (mk_sys s k d h) (mk_sys (ata_job_request_flush s) k' d h)
  | step_load s k d h :
      step (mk_sys s k d h) (mk_sys (ata_job_request_load s) k d h)
  | step_submit s k d h drive lba n w data rc s' :
      0 <= drive -> 0 <= n -> (c_true w = true -> outside drive lba n) ->
      ata_job_io_submit s drive lba n w data = Some (rc, s') ->
      step (mk_sys s k d h) (mk_sys s' k d h)
  | step_take s k d h out capacity rc s' out' :
      ata_job_io_take s out capacity = Some (rc, s', out') ->
      step (mk_sys s k d h) (mk_sys s' k d h)
  | step_cancel s k d h :
      step (mk_sys s k d h) (mk_sys (ata_job_io_cancel s) k d h)
  (* the driver *)
  | step_fetch s k d h b rc s' job data : blen b = 4096 ->
      ata_job_fetch s k (Some tt) (Some b) 4096 = Some (rc, s', job, data) ->
      step (mk_sys s k d h)
        (mk_sys s' k d (match job, data with Some job, Some data => Some (job, data) | _, _ => None end))
  | step_write s k d job data i : writes job -> 0 <= i < job_count job ->
      step (mk_sys s k d (Some (job, data)))
        (mk_sys s k (put_sector d (job_drive job) (job_lba_of job + i) (sector_of data i)) (Some (job, data)))
  | step_written s k d job data rc s' k' : writes job ->
      (forall i, 0 <= i < job_count job -> d (job_drive job) (job_lba_of job + i) = sector_of data i) ->
      ata_job_done s k (Some job) 0 (Some data) 4096 = Some (rc, s', k') ->
      step (mk_sys s k d (Some (job, data))) (mk_sys s' k' d None)
  | step_read s k d job data b rc s' k' : ~ writes job -> blen b = 4096 ->
      (forall i, 0 <= i < job_count job -> sector_of b i = d (job_drive job) (job_lba_of job + i)) ->
      ata_job_done s k (Some job) 0 (Some b) 4096 = Some (rc, s', k') ->
      step (mk_sys s k d (Some (job, data))) (mk_sys s' k' d None)
  | step_failed s k d job data b status rc s' k' : status <> 0 ->
      ata_job_done s k (Some job) status b 4096 = Some (rc, s', k') ->
      step (mk_sys s k d (Some (job, data))) (mk_sys s' k' d None)
  (* the driver dies: the kernel keeps the queue for the driver it starts again, and
     drops the job of a task that waited for sectors (step_cancel) *)
  | step_gone s k d h : step (mk_sys s k d h) (mk_sys s k d None).

(** ** Sectors of buffers *)

Lemma sector_length b c : 0 <= c -> (c + 1) * 512 <= blen b -> blen (sector_of b c) = 512.
Proof. unfold sector_of, blen. intros. rewrite length_take, length_drop. lia. Qed.

Lemma slice_patch b off bs c : 0 <= off -> 0 <= c -> off + blen bs <= blen b -> off mod 512 = 0 -> blen bs mod 512 = 0 ->
  sector_of (patch b off bs) c =
    if (off / 512 <=? c) && (c <? off / 512 + blen bs / 512) then sector_of bs (c - off / 512) else sector_of b c.
Proof.
  intros Ho Hc Hl Hm Hm'. set (q := off / 512). set (n := blen bs / 512).
  assert (Eo : off = 512 * q) by (subst q; zlia). assert (En : blen bs = 512 * n) by (subst n; zlia). clearbody q n.
  assert (0 <= n) by (unfold blen in En; lia).
  destruct (Z.leb_spec q c); cbn [andb]; [destruct (Z.ltb_spec c (q + n))|].
  - unfold sector_of, patch. rewrite drop_app_ge by (rewrite length_take; unfold blen in *; lia). rewrite length_take.
    rewrite drop_app_le by (unfold blen in *; lia). rewrite take_app_le by (rewrite length_drop; unfold blen in *; lia).
    do 2 f_equal. unfold blen in *. lia.
  - unfold sector_of. apply (f_equal (take 512)). symmetry. unfold patch. rewrite drop_app_ge by (rewrite length_take; unfold blen in *; lia).
    rewrite length_take, drop_app_ge by (unfold blen in *; lia). rewrite drop_drop. f_equal. unfold blen in *. lia.
  - unfold sector_of. pose proof (take_drop_patch_before b off bs (c * 512) 512 ltac:(lia) ltac:(lia)) as E.
    change (Z.to_nat 512) with 512%nat in E. apply E; lia.
Qed.

(** ** The invariant *)

Definition clean (i : image_job) : Prop := c_true (g_flush_dirty i) = false.

(** [buffered i d c]: the first [c] sectors of the image are the same in memory and on disk. *)
Definition buffered (i : image_job) d (c : Z) : Prop :=
  forall j, 0 <= j < c -> d 0 (image_lba j) = sector_of (g_buf i) j.

Definition chunked (i : image_job) : Prop := 0 <= g_cursor i < g_total i /\ g_cursor i mod 8 = 0.

(** Where the image job stands. *)
Inductive phase (i : image_job) k d : Prop :=
  | phase_idle : g_active_op i = OS_ATA_JOB_NONE -> (clean i -> exists a, shows k a /\ in_sync d a) -> phase i k d
  | phase_writing a : g_active_op i = OS_ATA_JOB_WRITE -> g_total i = image_total -> g_ext_lba i = image_ext -> chunked i ->
      encodes (g_buf i) a -> buffered i d (g_cursor i) -> (clean i -> shows k a) -> phase i k d
  | phase_reading : g_active_op i = OS_ATA_JOB_READ -> chunked i ->
      (g_cursor i < 64 -> g_total i = 64 /\ g_ext_lba i = 0) -> (64 <= g_cursor i -> g_total i = 192) ->
      (clean i -> exists a, shows k a /\ in_sync d a /\ buffered i d (g_cursor i) /\
                   (64 <= g_cursor i -> g_total i = image_total /\ g_ext_lba i = image_ext)) -> phase i k d.

(** The sector job in a state other than free. *)
Definition sector_ok (j : sector_job) : Prop :=
  blen (g_io_buf j) = 4096 /\
  (g_io_state j <> ATA_IO_NONE -> 0 < g_io_count j <= 8 /\ (g_io_op j = OS_ATA_JOB_IO_READ \/ g_io_op j = OS_ATA_JOB_IO_WRITE) /\
     (g_io_op j = OS_ATA_JOB_IO_WRITE -> outside (g_io_drive j) (g_io_lba j) (g_io_count j))).

(** What the driver holds: the current chunk of a flush, or a write outside the image. *)
Definition held_ok s (h : option (os_ata_job_t * bytes)) : Prop :=
  match h with
  | None => True
  | Some (job, data) =>
      blen data = 4096 /\ 0 <= job_count job <= 8 /\
      (job_op job = OS_ATA_JOB_WRITE ->
         g_active_op (g_img s) = OS_ATA_JOB_WRITE /\ g_handed s = ATA_HANDED_OVERLAY /\ job_drive job = 0 /\
         job_lba_of job = job_lba (g_img s) (g_cursor (g_img s)) /\ job_count job = 8 /\
         forall n, 0 <= n < 8 -> sector_of data n = sector_of (g_buf (g_img s)) (g_cursor (g_img s) + n)) /\
      (job_op job = OS_ATA_JOB_IO_WRITE -> outside (job_drive job) (job_lba_of job) (job_count job))
  end.

Definition handed_ok s : Prop :=
  (g_handed s = ATA_HANDED_IO -> g_io_state (g_io s) = ATA_IO_HANDED) /\
  (g_handed s = ATA_HANDED_OVERLAY -> g_active_op (g_img s) <> OS_ATA_JOB_NONE).

Record inv (y : sys) : Prop := mk_inv {
  inv_snapshot : g_snapshot (y_ata y) = Some snapshot_of;
  inv_restore : g_restore (y_ata y) = Some restore_of;
  inv_buf : blen (g_buf (g_img (y_ata y))) = 98304;
  inv_disk : disk_ok (y_disk y);
  inv_sector : sector_ok (g_io (y_ata y));
  inv_handed : handed_ok (y_ata y);
  inv_files : exists a, shows (y_files y) a;
  inv_phase : phase (g_img (y_ata y)) (y_files y) (y_disk y);
  inv_held : held_ok (y_ata y) (y_held y)
}.

Lemma total_cases : (image_ext = 0 /\ image_total = 64) \/ (4225 <= image_ext <= 4294967296 - 128 /\ image_total = 192).
Proof.
  unfold image_total. destruct ext_range as [->|Hr]; [by left|]. right. split; [done|]. by rewrite (proj2 (Z.eqb_neq image_ext 0)) by lia.
Qed.

Lemma image_lba_inj c c' : 0 <= c < image_total -> 0 <= c' < image_total -> image_lba c = image_lba c' -> c = c'.
Proof. unfold image_lba. destruct total_cases as [[E ->]|[E ->]]; destruct (Z.ltb_spec c 64), (Z.ltb_spec c' 64); intros; lia. Qed.

Lemma job_lba_image i c : g_ext_lba i = image_ext -> 0 <= c < image_total -> job_lba i c = image_lba c.
Proof.
  unfold job_lba, image_lba, OS_ATA_OVERLAY_SECTORS. intros -> Hc. destruct (Z.ltb_spec c 64); [done|].
  apply u32_id. unfold is_u32. destruct total_cases as [[_ E]|[? E]]; lia.
Qed.

Lemma chunk_is_8 i : chunked i -> g_total i = 64 \/ g_total i = 192 -> chunk_count i = 8 /\ g_cursor i + 8 <= g_total i.
Proof.
  unfold chunked, chunk_count, OS_ATA_OVERLAY_SECTORS, OS_ATA_JOB_MAX_SECTORS. intros [Hc Hm] Ht.
  assert (g_cursor i + 8 <= g_total i) by zlia.
  destruct (Z.ltb_spec (g_cursor i) 64); rewrite u32_id by (unfold is_u32; lia).
  - assert (8 <= 64 - g_cursor i) by zlia. by rewrite (proj2 (Z.ltb_ge (64 - g_cursor i) 8)) by lia.
  - by rewrite (proj2 (Z.ltb_ge (g_total i - g_cursor i) 8)) by lia.
Qed.

(** The disk changes outside the image only. *)
Lemma phase_disk i k d d' : (forall c, 0 <= c < image_total -> d' 0 (image_lba c) = d 0 (image_lba c)) ->
  phase i k d -> phase i k d'.
Proof.
  intros Hd. assert (Hs : forall a, in_sync d a -> in_sync d' a).
  { intros a (img & Hl & He & Hc). exists img. split; [done|]. split; [done|]. intros c Hr. by rewrite Hd, Hc. }
  assert (Hb : forall c, c <= image_total -> buffered i d c -> buffered i d' c).
  { intros c Hr Hb j Hj. rewrite Hd by lia. by apply Hb. }
  intros [Ha Hc|a Ha Ht He Hk Hen Hbu Hcl|Ha Hk Hlo Hhi Hc].
  - apply phase_idle; [done|]. intros (a & Hsh & Hsy)%Hc. eauto.
  - eapply phase_writing; try done. apply Hb; [|done]. destruct Hk. lia.
  - apply phase_reading; try done. intros (a & Hsh & Hsy & Hbu & Hg)%Hc. exists a. split; [done|]. split; [by apply Hs|].
    split; [|done]. apply Hb; [|done]. destruct Hk as [Hk _]. destruct (Z.ltb_spec (g_cursor i) 64).
    + destruct total_cases; lia.
    + destruct (Hg ltac:(lia)) as [<- _]. lia.
Qed.

(** A request for a flush or a load. *)
Lemma phase_requests i k d dirty load invalid : c_true dirty = c_true (g_flush_dirty i) -> phase i k d ->
  phase (with_requests i dirty load invalid) k d.
Proof.
  intros Hdirty [Ha Hc|a Ha Ht He Hk Hen Hbu Hcl|Ha Hk Hlo Hhi Hc].
  - apply phase_idle; [done|]. unfold clean in *. cbn. by rewrite Hdirty.
  - eapply (phase_writing _ _ _ a); try done. unfold clean in *. cbn. by rewrite Hdirty.
  - apply phase_reading; try done. unfold clean in *. cbn. by rewrite Hdirty.
Qed.

Lemma phase_dirty i k k' d load invalid : phase i k d -> phase (with_requests i 1 load invalid) k' d.
Proof. intros [Ha Hc|a Ha Ht He Hk Hen Hbu Hcl|Ha Hk Hlo Hhi Hc]; [apply phase_idle|eapply (phase_writing _ _ _ a)|apply phase_reading]; done. Qed.

(** ** Fetching *)

Lemma give_ok b cap src off n : blen b = cap -> 0 <= off -> 0 <= n <= cap -> off + n <= blen src ->
  exists data, give (Some b) cap src off n = Some (Some data) /\ blen data = cap /\
    (n = cap -> data = take (Z.to_nat n) (drop (Z.to_nat off) src)).
Proof.
  intros Hb Ho Hn Hs. unfold give. rewrite (proj2 (Z.ltb_ge cap n)), ld_bytes_ok, some_bind by lia.
  assert (Hl : blen (take (Z.to_nat n) (drop (Z.to_nat off) src)) = n) by (unfold blen in *; rewrite length_take, length_drop; lia).
  rewrite st_bytes_ok, some_bind by lia. eexists. split; [done|]. split; [rewrite blen_patch; lia|]. intros ->.
  unfold patch. rewrite Z2Nat.inj_0, take_0, (drop_ge b) by (unfold blen in *; lia). by rewrite app_nil_r.
Qed.

Lemma slice_take src off n c : 0 <= c -> 0 <= off -> (c + 1) * 512 <= n -> off mod 512 = 0 ->
  sector_of (take (Z.to_nat n) (drop (Z.to_nat off) src)) c = sector_of src (off / 512 + c).
Proof.
  intros Hc Ho Hn Hm. unfold sector_of. set (c' := Z.to_nat (c * 512)).
  replace (Z.to_nat n) with (c' + (Z.to_nat n - c'))%nat by lia. rewrite <- take_drop_commute, drop_drop, take_take.
  f_equal; [lia|]. f_equal. subst c'. zlia.
Qed.

Lemma fetch_sector_ok s b : sector_ok (g_io s) -> g_io_state (g_io s) <> ATA_IO_NONE -> blen b = 4096 ->
  exists job data, fetch_sector s (Some b) 4096
    = Some (1, set_handed (set_io s (with_io_state (g_io s) ATA_IO_HANDED)) ATA_HANDED_IO, Some job, Some data) /\
    blen data = 4096 /\ 0 <= job_count job <= 8 /\ job_op job <> OS_ATA_JOB_WRITE /\
    (job_op job = OS_ATA_JOB_IO_WRITE -> outside (job_drive job) (job_lba_of job) (job_count job)).
Proof.
  intros [Hb Hs] Hn Hl. destruct (Hs Hn) as (Hc & Hop & Hout). unfold fetch_sector, OS_ATA_JOB_IO_READ, OS_ATA_JOB_IO_WRITE in *.
  destruct (Z.eqb_spec (g_io_op (g_io s)) 4) as [E|E].
  - destruct (give_ok b 4096 (g_io_buf (g_io s)) 0 (g_io_count (g_io s) * 512)) as (data & -> & Hd & _); [lia..|].
    rewrite some_bind. eexists _, data. split; [done|]. cbn. rewrite E. unfold OS_ATA_JOB_WRITE. repeat split; [done|lia|lia|lia|auto].
  - eexists _, b. split; [done|]. cbn. destruct Hop as [Hop|]; [|done]. rewrite Hop. unfold OS_ATA_JOB_WRITE. repeat split; [done|lia..].
Qed.

(** The parts of the state that the image job does not touch. *)
Definition same_rest s s' : Prop :=
  g_snapshot s' = g_snapshot s /\ g_restore s' = g_restore s /\ g_io s' = g_io s /\ g_handed s' = g_handed s.

Lemma begin_ok s k d h : inv (mk_sys s k d h) ->
  exists rc s', begin_image s k = Some (rc, s') /\ same_rest s s' /\ blen (g_buf (g_img s')) = 98304 /\ phase (g_img s') k d /\
    (g_active_op (g_img s) <> OS_ATA_JOB_NONE -> s' = s) /\
    (rc = 0 /\ s' = s \/ rc = 1 /\ g_active_op (g_img s') <> OS_ATA_JOB_NONE) /\
    (g_active_op (g_img s) <> OS_ATA_JOB_NONE \/ clean (g_img s) \/ rc = 1 /\ g_active_op (g_img s') = OS_ATA_JOB_WRITE /\ g_flush_dirty (g_img s') = 0).
Proof.
  intros [Hsn Hre Hbuf Hd Hsec Hh [a0 Hf] Hp Hheld]. cbn in *. unfold begin_image.
  destruct (Z.eqb_spec (g_active_op (g_img s)) OS_ATA_JOB_NONE) as [Ha|Ha]; cbn [negb].
  2:{ exists 1, s. unfold same_rest. repeat split; auto. }
  assert (Hc : clean (g_img s) -> exists a, shows k a /\ in_sync d a).
  { destruct Hp as [_ Hc|? Ha'|Ha']; [done| |]; by rewrite Ha in Ha'. }
  destruct (c_true (g_flush_dirty (g_img s))) eqn:Edirty.
  - rewrite Hsn. cbn [g_buf with_buf].
    destruct (snapshot_encodes k a0 (replicate (Z.to_nat ATA_JOB_SNAPSHOT_BYTES) 0) Hf) as (img & Hsnap & Hil & Hen).
    { unfold blen. rewrite length_replicate. by rewrite Z2Nat.id. }
    change ATA_JOB_SNAPSHOT_BYTES with 98304 in *. rewrite Hsnap, some_bind. cbn [Z.eqb negb].
    rewrite (encodes_geometry (with_buf (with_buf (g_img s) _) img) a0) by done. rewrite some_bind. eexists 1, _. split; [done|].
    split; [done|]. split; [done|]. split; [|split; [done|split; [by right|by right; right]]].
    eapply (phase_writing _ _ _ a0); try done; cbn; [split; cbn; [|done]; destruct total_cases; lia|]. intros j Hj. lia.
  - destruct (c_true (g_load_pending (g_img s))) eqn:El; cbn.
    + eexists 1, _. split; [done|]. split; [done|]. split; [done|]. split; [|split; [done|split; [by right|by right; left]]].
      apply phase_reading; cbn; [done|split; cbn; [unfold OS_ATA_OVERLAY_SECTORS; lia|done]|done|lia|]. intros _.
      destruct (Hc Edirty) as (a & Hsh & Hsy). exists a. split; [done|]. split; [done|]. split; [intros j Hj; cbn in Hj; lia|lia].
    + exists 0, s. unfold same_rest. repeat split; auto.
Qed.

Lemma phase_count i k d : phase i k d -> g_active_op i <> OS_ATA_JOB_NONE ->
  chunk_count i = 8 /\ g_cursor i + 8 <= g_total i /\ chunked i /\ g_total i <= 192.
Proof.
  intros [Ha _|a Ha Ht He Hk _ _ _|Ha Hk Hlo Hhi _] Hn; [done| |].
  - destruct (chunk_is_8 i Hk) as [-> ?]; [destruct total_cases; lia|]. repeat split; try apply Hk; try done. destruct total_cases; lia.
  - assert (Htot : g_total i = 64 \/ g_total i = 192) by (destruct (Z.ltb_spec (g_cursor i) 64); [left; by apply Hlo|right; by apply Hhi]).
    destruct (chunk_is_8 i Hk Htot) as [-> ?]. repeat split; try apply Hk; try done. lia.
Qed.

Lemma fetch_chunk_ok s k d b : phase (g_img s) k d -> blen (g_buf (g_img s)) = 98304 -> g_active_op (g_img s) <> OS_ATA_JOB_NONE ->
  blen b = 4096 ->
  exists job data, fetch_chunk s (Some b) 4096 = Some (1, set_handed s ATA_HANDED_OVERLAY, Some job, Some data) /\
    held_ok (set_handed s ATA_HANDED_OVERLAY) (Some (job, data)).
Proof.
  intros Hp Hbuf Ha Hb. destruct (phase_count _ _ _ Hp Ha) as (Hcnt & Hle & [Hcur Hmod] & Htot). unfold fetch_chunk. rewrite Hcnt.
  assert (Hno : g_active_op (g_img s) <> OS_ATA_JOB_IO_WRITE).
  { destruct Hp as [E|? E|E]; rewrite E; unfold OS_ATA_JOB_NONE, OS_ATA_JOB_WRITE, OS_ATA_JOB_READ, OS_ATA_JOB_IO_WRITE; lia. }
  destruct (Z.eqb_spec (g_active_op (g_img s)) OS_ATA_JOB_WRITE) as [E|E].
  - destruct (give_ok b 4096 (g_buf (g_img s)) (g_cursor (g_img s) * 512) (8 * 512)) as (data & -> & Hl & Hd); [lia..|].
    rewrite some_bind. eexists _, data. split; [done|]. rewrite (Hd eq_refl). rewrite (Hd eq_refl) in Hl. split; [done|]. split; [cbn; lia|]. split; [|done].
    intros _. cbn. repeat split; try done. intros n Hn. rewrite slice_take by (try lia; apply Z.mod_mul; lia). by rewrite Z.div_mul by lia.
  - eexists _, b. split; [done|]. cbn. repeat split; try done.
Qed.

Lemma fetch_inv s k d h b : inv (mk_sys s k d h) -> blen b = 4096 ->
  exists rc s' job data, ata_job_fetch s k (Some tt) (Some b) 4096 = Some (rc, s', job, data) /\
    inv (mk_sys s' k d (match job, data with Some job, Some data => Some (job, data) | _, _ => None end)).
Proof.
  intros Hi Hb. pose proof Hi as [Hsn Hre Hbuf Hd Hsec Hh Hf Hp Hheld]. cbn in *. unfold ata_job_fetch.
  destruct ((g_handed s =? ATA_HANDED_IO) || ((g_handed s =? ATA_HANDED_NONE) && (g_io_state (g_io s) =? ATA_IO_PENDING))) eqn:E.
  - assert (Hn : g_io_state (g_io s) <> ATA_IO_NONE).
    { destruct (Z.eqb_spec (g_handed s) ATA_HANDED_IO) as [E1|E1].
      - destruct Hh as [Hh _]. by rewrite (Hh E1).
      - cbn [orb] in E. apply andb_true_iff in E as [_ E]. apply Z.eqb_eq in E. by rewrite E. }
    destruct (fetch_sector_ok s b Hsec Hn Hb) as (job & data & -> & Hdl & Hjc & Hjo & Hout). eexists 1, _, (Some job), (Some data).
    split; [done|]. split; cbn; try done.
    split; [apply Hsec|]. intros _. by apply Hsec.
  - destruct (begin_ok s k d h Hi) as (rc & s' & -> & (R1 & R2 & R3 & R4) & Hb' & Hp' & Hsame & Hrc & _). rewrite some_bind.
    destruct Hrc as [[-> ->]|[-> Ha]]; cbn [Z.eqb Pos.eqb].
    + eexists 0, s, NULL, _. split; [done|]. by split.
    + destruct (fetch_chunk_ok s' k d b Hp' Hb' Ha Hb) as (job & data & -> & Hho). eexists 1, _, (Some job), (Some data).
      split; [done|]. split; cbn; rewrite ?R1, ?R2, ?R3; done.
Qed.

(** ** Completing *)

Lemma accept_ok dst off n b : blen b = 4096 -> 0 <= n <= 4096 -> 0 <= off -> off + n <= blen dst ->
  accept dst off n (Some b) 4096 = Some (Some (patch dst off (take (Z.to_nat n) b))).
Proof.
  intros Hb Hn Ho Hd. unfold accept. rewrite (proj2 (Z.ltb_ge 4096 n)), ld_bytes_ok, some_bind by lia.
  change (Z.to_nat 0) with 0%nat. rewrite drop_0. rewrite st_bytes_ok; [done|lia|]. unfold blen in *. rewrite length_take. lia.
Qed.

(** An answer for the sector job leaves the image alone. *)
Lemma done_sector_ok s k d h job status data cap : inv (mk_sys s k d h) -> (forall b, data = Some b -> blen b = 4096) -> cap = 4096 ->
  exists rc s', done_sector s job status data cap = Some (rc, s') /\ g_img s' = g_img s /\
    g_snapshot s' = g_snapshot s /\ g_restore s' = g_restore s /\ sector_ok (g_io s') /\
    (s' = s \/ g_handed s' = ATA_HANDED_NONE).
Proof.
  intros [Hsn Hre Hbuf Hd Hsec Hh Hf Hp Hheld] Hdata ->. cbn in *. unfold done_sector.
  destruct (_ || _ || _ || _ || _ || _) eqn:Estale; [by exists OS_ATA_JOB_STALE, s; auto 10|].
  assert (Hst : g_io_state (g_io s) <> ATA_IO_NONE).
  { rewrite !orb_false_iff in Estale. destruct Estale as (((((E & _) & _) & _) & _) & _). apply negb_false_iff, Z.eqb_eq in E. by rewrite E. }
  pose proof Hsec as [Hbl Hs]. pose proof (Hs Hst) as (Hc & Hop & Hout).
  assert (Hacc : exists r, (if (status =? 0) && (g_io_op (g_io s) =? OS_ATA_JOB_IO_READ)
      then accept (g_io_buf (g_io s)) 0 (g_io_count (g_io s) * 512) data 4096 else Some (Some (g_io_buf (g_io s)))) = Some r /\
      forall b, r = Some b -> blen b = 4096).
  { destruct ((status =? 0) && _); [|eexists; split; [done|]; by intros b [= <-]].
    destruct data as [b|]; [|by exists None]. specialize (Hdata b eq_refl). rewrite accept_ok by lia. eexists. split; [done|].
    intros b' [= <-]. rewrite blen_patch; unfold blen in *; rewrite ?length_take; lia. }
  destruct Hacc as (r & -> & Hr). rewrite some_bind. destruct r as [b|]; [|by exists OS_ATA_JOB_STALE, s; auto 10].
  specialize (Hr b eq_refl). destruct (negb (status =? 0)); eexists _, _; (split; [done|]); cbn; do 3 (split; [done|]); (split; [|by right]); by split.
Qed.

(** The kernel's view of the files after the last chunk of an image. *)
Lemma finish_write s k d a : g_active_op (g_img s) = OS_ATA_JOB_WRITE -> blen (g_buf (g_img s)) = 98304 -> encodes (g_buf (g_img s)) a ->
  buffered (g_img s) d image_total -> (clean (g_img s) -> shows k a) ->
  exists s', finish_image s k OS_ATA_JOB_WRITE = Some (OS_ATA_JOB_FLUSH_DONE, s', k) /\ same_rest s s' /\
    blen (g_buf (g_img s')) = 98304 /\ phase (g_img s') k d /\ g_active_op (g_img s') = OS_ATA_JOB_NONE.
Proof.
  intros Ha Hb He Hbu Hcl. eexists. split; [done|]. split; [done|]. split; [done|]. split; [|done]. apply phase_idle; [done|].
  intros Hc. exists a. split; [by apply Hcl|]. by exists (g_buf (g_img s)).
Qed.

Lemma finish_read s k d a : g_restore s = Some restore_of -> blen (g_buf (g_img s)) = 98304 -> shows k a ->
  (clean (g_img s) -> exists a, shows k a /\ in_sync d a /\ buffered (g_img s) d image_total) ->
  exists rc s' k', finish_image s k OS_ATA_JOB_READ = Some (rc, s', k') /\ same_rest s s' /\
    blen (g_buf (g_img s')) = 98304 /\ phase (g_img s') k' d /\ g_active_op (g_img s') = OS_ATA_JOB_NONE /\ exists a, shows k' a.
Proof.
  intros Hr Hb Hk Hc. unfold finish_image. cbn [Z.eqb OS_ATA_JOB_READ OS_ATA_JOB_WRITE].
  set (s1 := set_img s _). change (g_restore s1) with (g_restore s). rewrite Hr.
  assert (Hskip : phase (g_img s1) k d).
  { apply phase_idle; [done|]. intros (a' & H1' & H2' & _)%Hc. eauto. }
  destruct (c_true (g_load_invalid (g_img s1))) eqn:E1; cbn [orb]; [by eexists _, _, k; repeat split; eauto|].
  destruct (c_true (g_flush_dirty (g_img s1))) eqn:E2; [by eexists _, _, k; repeat split; eauto|].
  destruct (Hc E2) as (a' & Hsh & Hsy & Hbu). change (g_buf (g_img s1)) with (g_buf (g_img s)).
  assert (Hen : encodes (g_buf (g_img s)) a').
  { destruct Hsy as (img & Hl & He & Himg). apply (encodes_area img); try done. intros c Hcr. by rewrite <- (Hbu c Hcr), Himg. }
  destruct (restore_same k a' _ Hsh Hb Hen) as (k' & Hrun & Hsh'). change ATA_JOB_SNAPSHOT_BYTES with 98304. rewrite Hrun, some_bind.
  cbn [Z.eqb negb]. eexists _, _, k'. repeat split; eauto. apply phase_idle; [done|]. intros _. eauto.
Qed.

Lemma image_lba_chunk c n : c mod 8 = 0 -> 0 <= n < 8 -> 0 <= c -> image_lba c + n = image_lba (c + n).
Proof. unfold image_lba. intros Hm Hn Hc. destruct (Z.ltb_spec c 64), (Z.ltb_spec (c + n) 64); zlia. Qed.

Lemma job_u32_first b b' off : sector_of b 0 = sector_of b' 0 -> 512 <= blen b -> 512 <= blen b' -> 0 <= off <= 508 ->
  exists v, job_u32 b off = Some v /\ job_u32 b' off = Some v.
Proof.
  intros Es Hb Hb' Ho. unfold job_u32. rewrite !ld_bytes_ok by lia. eexists. split; [done|]. cbn. do 2 f_equal.
  assert (Hx : forall x : bytes, take (Z.to_nat 4) (drop (Z.to_nat off) x) = take (Z.to_nat 4) (drop (Z.to_nat off) (sector_of x 0))).
  { intros x. unfold sector_of. change (Z.to_nat (0 * 512)) with 0%nat. rewrite drop_0.
    replace 512%nat with (Z.to_nat off + (512 - Z.to_nat off))%nat at 1 by lia. rewrite <- take_drop_commute, take_take. f_equal. lia. }
  by rewrite (Hx b), (Hx b'), Es.
Qed.

(** The geometry depends on the first sector. *)
Lemma geometry_first i i' : sector_of (g_buf i) 0 = sector_of (g_buf i') 0 -> 512 <= blen (g_buf i) -> 512 <= blen (g_buf i') ->
  exists t e, job_geometry i = Some (with_geometry i t e) /\ job_geometry i' = Some (with_geometry i' t e) /\ (t = 64 \/ t = 192).
Proof.
  intros Es H1' H2'. unfold job_geometry.
  destruct (job_u32_first _ _ 0 Es) as (v0 & -> & ->); [done|done|lia|]. destruct (job_u32_first _ _ 4 Es) as (v1 & -> & ->); [done|done|lia|].
  destruct (job_u32_first _ _ 16 Es) as (v2 & -> & ->); [done|done|lia|]. destruct (job_u32_first _ _ 20 Es) as (v3 & -> & ->); [done|done|lia|].
  rewrite !some_bind. destruct (_ && _ && _ && _); eexists _, _; (split; [done|]); (split; [done|]); [by right|by left].
Qed.

(** The sectors of a chunk that was read. *)
Lemma read_chunk i d b : chunked i -> g_cursor i + 8 <= 192 -> blen (g_buf i) = 98304 -> blen b = 4096 ->
  (forall n, 0 <= n < 8 -> sector_of b n = d 0 (image_lba (g_cursor i + n))) -> buffered i d (g_cursor i) ->
  forall j, 0 <= j < g_cursor i + 8 -> d 0 (image_lba j) = sector_of (patch (g_buf i) (g_cursor i * 512) b) j.
Proof.
  intros [Hc Hm] Hle Hb Hbb Hs Hbu j Hj. rewrite slice_patch; [|lia|lia|lia|apply Z.mod_mul; lia|by rewrite Hbb].
  rewrite Z.div_mul, Hbb by lia. change (4096 / 512) with 8. destruct (Z.leb_spec (g_cursor i) j); cbn [andb]; [|apply Hbu; lia].
  rewrite (proj2 (Z.ltb_lt j (g_cursor i + 8))) by lia. rewrite Hs by lia. do 2 f_equal. lia.
Qed.

Lemma read_advance s k d h b : inv (mk_sys s k d h) -> g_active_op (g_img s) = OS_ATA_JOB_READ -> blen b = 4096 ->
  (forall n, 0 <= n < 8 -> sector_of b n = d 0 (job_lba (g_img s) (g_cursor (g_img s)) + n)) ->
  let i := with_cursor (with_buf (g_img s) (patch (g_buf (g_img s)) (g_cursor (g_img s) * 512) b)) (u32 (g_cursor (g_img s) + 8)) in
  exists i', (if g_cursor i =? OS_ATA_OVERLAY_SECTORS then job_geometry i else Some i) = Some i' /\ blen (g_buf i') = 98304 /\
    g_cursor i' = g_cursor (g_img s) + 8 /\ g_active_op i' = OS_ATA_JOB_READ /\ (g_cursor i' < g_total i' -> phase i' k d) /\
    (g_total i' <= g_cursor i' -> clean i' -> exists a, shows k a /\ in_sync d a /\ buffered i' d image_total).
Proof.
  intros [Hsn Hre Hbuf Hd Hsec Hh Hf Hp Hheld] Ha Hb Hs i1. cbn [y_ata y_files y_disk y_held] in *.
  destruct Hp as [E|? E|_ Hk Hlo Hhi Hc]; [by rewrite Ha in E|by rewrite Ha in E|]. set (i := g_img s) in *. pose proof Hk as [Hcur Hmod].
  assert (Htot : g_total i = 64 /\ g_cursor i < 64 \/ g_total i = 192 /\ 64 <= g_cursor i) by (destruct (Z.ltb_spec (g_cursor i) 64); [left; split; [by apply Hlo|done]|right; auto]).
  destruct (chunk_is_8 i Hk ltac:(lia)) as [_ Hle]. assert (Hc8 : g_cursor i1 = g_cursor i + 8) by (cbn; apply u32_id; unfold is_u32; lia).
  assert (Hbl : blen (g_buf i1) = 98304) by (cbn; rewrite blen_patch; lia).
  assert (Eb : g_buf i1 = patch (g_buf i) (g_cursor i * 512) b) by done. assert (Et : g_total i1 = g_total i) by done.
  assert (Ee : g_ext_lba i1 = g_ext_lba i) by done. assert (Ea : g_active_op i1 = OS_ATA_JOB_READ) by done.
  assert (Ecl : clean i1 <-> clean i) by done. clearbody i1.
  assert (Hclean : clean i1 -> exists a, shows k a /\ in_sync d a /\ buffered i1 d (g_cursor i1) /\ (64 <= g_cursor i -> g_total i = image_total /\ g_ext_lba i = image_ext)).
  { intros (a & Hsh & Hsy & Hbu & Hg)%Ecl%Hc. exists a. split; [done|]. split; [done|]. split; [|done]. unfold buffered. rewrite Eb, Hc8.
    apply read_chunk; try done; [lia|]. intros n Hn. rewrite Hs by done. rewrite <- image_lba_chunk by lia. do 2 f_equal.
    unfold job_lba, image_lba, OS_ATA_OVERLAY_SECTORS. destruct (Z.ltb_spec (g_cursor i) 64); [done|].
    destruct (Hg ltac:(lia)) as [Et' Ee']. rewrite Ee'. destruct total_cases as [[? ?]|[? ?]]; [lia|]. rewrite u32_id; [done|]. unfold is_u32. lia. }
  destruct (Z.eqb_spec (g_cursor i1) OS_ATA_OVERLAY_SECTORS) as [E64|E64]; unfold OS_ATA_OVERLAY_SECTORS in E64.
  - destruct (geometry_first i1 i1 eq_refl) as (t & e & Hgeo & _ & Ht); [lia..|]. rewrite Hgeo. eexists. split; [done|]. cbn.
    assert (Hg : clean i1 -> t = image_total /\ e = image_ext).
    { intros (a & _ & (img & Hil & He & Himg) & Hbu & _)%Hclean.
      destruct (geometry_first i1 (with_buf i1 img)) as (t' & e' & H1' & H2' & _); cbn; [|lia..|].
      - assert (Hz : 0 <= 0 < image_total) by (destruct total_cases; lia). rewrite <- Himg by done. symmetry. apply Hbu. lia.
      - rewrite (encodes_geometry (with_buf i1 img) a) in H2' by done. injection H2' as -> ->. rewrite Hgeo in H1'. by injection H1' as -> ->. }
    split; [done|]. split; [done|]. split; [done|]. split.
    + intros Hlt. apply phase_reading; cbn; [done|split; cbn; [lia|by rewrite E64]|lia|lia|]. intros Hcl.
      destruct (Hclean Hcl) as (a & Hsh & Hsy & Hbu & _). exists a. split; [done|]. split; [done|]. split; [exact Hbu|]. intros _. by apply Hg.
    + intros Hge Hcl. destruct (Hclean Hcl) as (a & Hsh & Hsy & Hbu & _). exists a. split; [done|]. split; [done|]. destruct (Hg Hcl) as [<- _].
      intros j Hj. apply Hbu. lia.
  - exists i1. split; [done|]. split; [done|]. split; [done|]. split; [done|]. split.
    + intros Hlt. apply phase_reading; [done|split; [lia|zlia]|lia|lia|]. intros Hcl.
      destruct (Hclean Hcl) as (a & Hsh & Hsy & Hbu & Hg). exists a. split; [done|]. split; [done|]. split; [exact Hbu|]. intros ?. rewrite Et, Ee. apply Hg. zlia.
    + intros Hge Hcl. destruct (Hclean Hcl) as (a & Hsh & Hsy & Hbu & Hg). exists a. split; [done|]. split; [done|].
      destruct Hg as [<- _]; [zlia|]. intros j Hj. apply Hbu. lia.
Qed.

Lemma write_advance i k d job data : phase i k d -> g_active_op i = OS_ATA_JOB_WRITE ->
  job_lba_of job = job_lba i (g_cursor i) -> (forall n, 0 <= n < 8 -> sector_of data n = sector_of (g_buf i) (g_cursor i + n)) ->
  (forall n, 0 <= n < 8 -> d 0 (job_lba_of job + n) = sector_of data n) ->
  exists a, encodes (g_buf i) a /\ (clean i -> shows k a) /\ g_total i = image_total /\ g_ext_lba i = image_ext /\
    g_cursor i + 8 <= g_total i /\ chunked i /\ buffered i d (g_cursor i + 8).
Proof.
  intros [E|a _ Ht He Hk Hen Hbu Hcl|E] Ha Hl Hd Hw; [by rewrite Ha in E| |by rewrite Ha in E].
  destruct (chunk_is_8 i Hk) as [_ Hle]; [destruct total_cases; lia|]. exists a. repeat (split; [done|]). pose proof Hk as [Hc Hm].
  intros j Hj. destruct (Z.ltb_spec j (g_cursor i)); [apply Hbu; lia|].
  replace (image_lba j) with (job_lba_of job + (j - g_cursor i)).
  - rewrite Hw, Hd by lia. f_equal. lia.
  - rewrite Hl, job_lba_image, image_lba_chunk by (done || lia). f_equal. lia.
Qed.

Lemma done_chunk_inv s k d job data status reply : inv (mk_sys s k d (Some (job, data))) ->
  g_handed s = ATA_HANDED_OVERLAY -> g_active_op (g_img s) <> OS_ATA_JOB_NONE -> (forall b, reply = Some b -> blen b = 4096) ->
  (status = 0 -> writes job -> forall n, 0 <= n < job_count job -> d (job_drive job) (job_lba_of job + n) = sector_of data n) ->
  (status = 0 -> ~ writes job -> exists b, reply = Some b /\ forall n, 0 <= n < job_count job -> sector_of b n = d (job_drive job) (job_lba_of job + n)) ->
  exists rc s' k', done_chunk s k job status reply 4096 = Some (rc, s', k') /\ inv (mk_sys s' k' d None).
Proof.
  intros Hi Hh Ha Hrep Hw Hr. pose proof Hi as [Hsn Hre Hbuf Hd Hsec Hhd Hf Hp Hheld]. cbn [y_ata y_files y_disk y_held] in *.
  destruct (phase_count _ _ _ Hp Ha) as (Hcnt & Hle & Hk & Htot). unfold done_chunk. rewrite Hcnt.
  destruct (_ || _ || _ || _ || _) eqn:Est; [by eexists _, s, k; split; [done|]; split|].
  rewrite !orb_false_iff, !negb_false_iff, !Z.eqb_eq in Est. destruct Est as ((((Eop & Egen) & Elba) & Ecnt) & Edr).
  assert (Hfin : forall s', same_rest (set_handed s ATA_HANDED_NONE) s' -> blen (g_buf (g_img s')) = 98304 -> forall k', (exists a, shows k' a) ->
    phase (g_img s') k' d -> inv (mk_sys s' k' d None)).
  { intros s' (R1 & R2 & R3 & R4) Hb' k' Hk' Hp'. split; cbn; rewrite ?R1, ?R2, ?R3; try done. split; rewrite R4; done. }
  destruct (Z.eqb_spec status 0) as [->|Hs]; cbn [negb].
  - specialize (Hw eq_refl). specialize (Hr eq_refl). rewrite Ecnt, Edr in Hw, Hr.
    destruct (Z.eqb_spec (g_active_op (g_img s)) OS_ATA_JOB_READ) as [Er|Er]; cbn [andb].
    + destruct Hr as (b & -> & Hb). { rewrite <- Eop in Er. intros [Hx|Hx]; rewrite Er in Hx; done. }
      specialize (Hrep b eq_refl). rewrite Elba in Hb. pose proof Hk as [Hcur _].
      rewrite accept_ok, some_bind by lia. rewrite take_ge by (unfold blen in Hrep; lia).
      destruct (read_advance s k d _ b Hi Er Hrep Hb) as (i' & -> & Hb' & Hc' & Ha' & Hlt & Hge). rewrite some_bind. rewrite Er.
      destruct (Z.ltb_spec (g_cursor i') (g_total i')) as [L|L]; [eexists _, _, k; split; [done|]; apply Hfin; try done; by apply Hlt|].
      destruct Hf as [a0 Hf]. destruct (finish_read (set_img (set_handed s ATA_HANDED_NONE) i') k d a0 Hre Hb' Hf (Hge L)) as (rc & s' & k' & -> & Hsr & Hb2 & Hp' & _ & Hsh).
      eexists _, s', k'. split; [done|]. by apply Hfin.
    + assert (Ew : g_active_op (g_img s) = OS_ATA_JOB_WRITE) by (destruct Hp as [?|? ?|?]; done).
      assert (Hjw : job_op job = OS_ATA_JOB_WRITE) by congruence. destruct Hheld as (_ & _ & Hheld & _). destruct (Hheld Hjw) as (_ & _ & _ & _ & _ & Hsl).
      destruct (write_advance (g_img s) k d job data Hp Ew Elba Hsl) as (a & Hen & Hcl & Et & Ee & Hle' & Hk' & Hbu); [apply Hw; by left|].
      pose proof Hk as [Hcur Hmod]. rewrite some_bind. rewrite (u32_id (g_cursor (g_img s) + 8)) by (unfold is_u32; lia). rewrite some_bind. cbn [g_cursor g_total with_cursor with_buf].
      destruct (Z.ltb_spec (g_cursor (g_img s) + 8) (g_total (g_img s))) as [L|L].
      * eexists _, _, k. split; [done|]. apply Hfin; try done. eapply (phase_writing _ _ _ a); try done. split; cbn; [lia|zlia].
      * rewrite Ew. edestruct (finish_write (set_img (set_handed s ATA_HANDED_NONE) (with_cursor (with_buf (g_img s) (g_buf (g_img s))) (g_cursor (g_img s) + 8))) k d a)
          as (s' & -> & Hsr & Hb2 & Hp' & _); try done.
        { intros j Hj. apply Hbu. lia. }
        eexists _, s', k. split; [done|]. by apply Hfin.
  - eexists _, _, k. split; [done|]. apply Hfin; [done| |done|].
    + by destruct (_ =? OS_ATA_JOB_WRITE).
    + destruct (Z.eqb_spec (g_active_op (g_img s)) OS_ATA_JOB_WRITE) as [Ew|Ew]; apply phase_idle; try done.
      destruct Hp as [?|? ?|_ _ _ _ Hc]; [done..|]. intros (a & ? & ? & _)%Hc. eauto.
Qed.

Lemma done_inv s k d job data status reply : inv (mk_sys s k d (Some (job, data))) -> (forall b, reply = Some b -> blen b = 4096) ->
  (status = 0 -> writes job -> forall n, 0 <= n < job_count job -> d (job_drive job) (job_lba_of job + n) = sector_of data n) ->
  (status = 0 -> ~ writes job -> exists b, reply = Some b /\ forall n, 0 <= n < job_count job -> sector_of b n = d (job_drive job) (job_lba_of job + n)) ->
  exists rc s' k', ata_job_done s k (Some job) status reply 4096 = Some (rc, s', k') /\ inv (mk_sys s' k' d None).
Proof.
  intros Hi Hrep Hw Hr. pose proof Hi as [Hsn Hre Hbuf Hd Hsec Hhd Hf Hp Hheld]. cbn [y_ata y_files y_disk y_held] in *. unfold ata_job_done.
  destruct (Z.eqb_spec (g_handed s) ATA_HANDED_IO) as [E|E].
  - destruct (done_sector_ok s k d _ job status reply 4096 Hi Hrep eq_refl) as (rc & s' & -> & Ei & R1 & R2 & Hsec' & Hor). rewrite some_bind.
    eexists rc, s', k. split; [done|]. split; cbn; rewrite ?Ei, ?R1, ?R2; try done. destruct Hor as [->|Hn]; [done|]. split; rewrite Hn; done.
  - destruct (Z.eqb_spec (g_handed s) ATA_HANDED_OVERLAY) as [E'|E']; cbn [negb orb]; [|by eexists _, s, k; split; [done|]; split].
    destruct (Z.eqb_spec (g_active_op (g_img s)) OS_ATA_JOB_NONE) as [Ea|Ea]; [by eexists _, s, k; split; [done|]; split|].
    by apply (done_chunk_inv s k d job data).
Qed.

(** ** Every step keeps the invariant *)

Lemma submit_inv s k d h drive lba n w data rc s' : inv (mk_sys s k d h) -> 0 <= drive -> 0 <= n -> (c_true w = true -> outside drive lba n) ->
  ata_job_io_submit s drive lba n w data = Some (rc, s') -> inv (mk_sys s' k d h).
Proof.
  intros [Hsn Hre Hbuf Hd Hsec Hhd Hf Hp Hheld] Hdr Hn Hout. cbn [y_ata y_files y_disk y_held] in *. unfold ata_job_io_submit.
  destruct (io_busy s) eqn:Eb; [intros [= <- <-]; by split|].
  destruct (_ || _ || _) eqn:Er; [intros [= <- <-]; by split|]. destruct (c_true w && _); [intros [= <- <-]; by split|].
  rewrite !orb_false_iff, Z.eqb_neq, !Z.ltb_ge in Er. unfold OS_ATA_JOB_MAX_SECTORS in Er.
  intros (buf & Ebuf & Hrun)%bind_Some. cbn [g_io next_generation] in Ebuf.
  assert (Hbl : blen buf = 4096).
  { destruct Hsec as [Hl _]. destruct (c_true w); [|by injection Ebuf as <-].
    apply bind_Some in Ebuf as (bs & _ & Hst). apply st_bytes_length in Hst. unfold blen in *. by rewrite Hst. }
  assert (Hio : sector_ok (mk_sector ATA_IO_PENDING (if c_true w then OS_ATA_JOB_IO_WRITE else OS_ATA_JOB_IO_READ) drive lba n
    (g_job_generation (next_generation s)) buf (if c_true w && c_true (g_debug_crash_armed (next_generation s)) then OS_ATA_JOB_FLAG_DEBUG_CRASH else 0))).
  { split; [done|]. intros _. cbn. split; [lia|]. split; [destruct (c_true w); auto|]. destruct (c_true w); [auto|done]. }
  assert (Hno : g_handed s <> ATA_HANDED_IO).
  { intros E. destruct Hhd as [Hh _]. unfold io_busy in Eb. rewrite (Hh E) in Eb. done. }
  injection Hrun as <- <-. destruct (_ && _); split; cbn; try done; (split; [|apply Hhd]); cbn; done.
Qed.

Lemma put_inv s k d job data n : inv (mk_sys s k d (Some (job, data))) -> writes job -> 0 <= n < job_count job ->
  inv (mk_sys s k (put_sector d (job_drive job) (job_lba_of job + n) (sector_of data n)) (Some (job, data))).
Proof.
  intros [Hsn Hre Hbuf Hd Hsec Hhd Hf Hp Hheld] Hw Hn. cbn [y_ata y_files y_disk y_held] in *. pose proof Hheld as (Hdl & Hc8 & Hov & Hio).
  assert (Hsl : blen (sector_of data n) = 512) by (apply sector_length; lia).
  assert (Hd' : disk_ok (put_sector d (job_drive job) (job_lba_of job + n) (sector_of data n))).
  { intros dr l. unfold put_sector. destruct (_ && _); [done|apply Hd]. }
  split; cbn [y_ata y_files y_disk y_held]; try done. destruct Hw as [Hw|Hw].
  - destruct (Hov Hw) as (Ha & Hh & Hdr & Hl & Hcn & Hsd). destruct Hp as [E|a _ Ht He Hk Hen Hbu Hcl|E]; [by rewrite Ha in E| |by rewrite Ha in E].
    destruct (chunk_is_8 (g_img s) Hk) as [_ Hle]; [destruct total_cases; lia|]. pose proof Hk as [Hcur Hmod].
    eapply (phase_writing _ _ _ a); try done. intros j Hj. unfold put_sector. rewrite Hdr, Hl, job_lba_image by (done || lia).
    rewrite image_lba_chunk by lia. destruct (Z.eqb_spec (image_lba j) (image_lba (g_cursor (g_img s) + n))) as [E|E]; cbn [andb].
    + apply image_lba_inj in E; lia.
    + rewrite andb_false_r. by apply Hbu.
  - specialize (Hio Hw). apply (phase_disk _ _ d); [|done]. intros c Hc. unfold put_sector.
    destruct (Z.eqb_spec 0 (job_drive job)) as [E|E]; cbn [andb]; [|done]. destruct (Z.eqb_spec (image_lba c) (job_lba_of job + n)) as [E'|E']; [|done].
    destruct Hio as [Hio|Hio]; [lia|]. specialize (Hio c Hc). lia.
Qed.

(** What ata_job_driver_gone answers: 0 only if the disk holds the files. *)
Lemma driver_gone_in_sync s k d h s' : inv (mk_sys s k d h) -> ata_job_driver_gone s = (0, s') ->
  exists a, shows k a /\ in_sync d a.
Proof.
  intros Hi [= Hr _]. destruct (inv_phase _ Hi) as [Ha Hc|a Ha|Ha _ _ _ Hc]; cbn in *.
  - apply Hc. unfold clean. by destruct (c_true (g_flush_dirty (g_img s))).
  - by rewrite Ha, orb_true_r in Hr.
  - destruct Hc as (a & ? & ? & _); [|by eauto]. unfold clean. by destruct (c_true (g_flush_dirty (g_img s))).
Qed.

Lemma ata_step_inv y y' : step y y' -> inv y -> inv y'.
Proof.
  intros [s k d h k' a' Ha|s k d h|s k d h drive lba n w data rc s' Hdr Hn Hw Hrun|s k d h out cap rc s' out' Hrun|s k d h
    |s k d h b rc s' job data Hb Hrun|s k d job data n Hw Hn|s k d job data rc s' k' Hw Hd' Hrun|s k d job data b rc s' k' Hw Hb Hd' Hrun
    |s k d job data b status rc s' k' Hst Hrun|s k d h] Hi.
  - destruct Hi as [Hsn Hre Hbuf Hd Hsec Hhd Hf Hp Hheld]. split; cbn in *; try done; [by eexists|]. by eapply phase_dirty.
  - destruct Hi as [Hsn Hre Hbuf Hd Hsec Hhd Hf Hp Hheld]. unfold ata_job_request_load. cbn in *.
    destruct (c_true (g_flush_dirty (g_img s))) eqn:Ed; split; cbn; try done. by apply phase_requests.
  - by apply (submit_inv s k d h drive lba n w data rc s').
  - destruct Hi as [Hsn Hre Hbuf Hd Hsec Hhd Hf Hp Hheld]. cbn in *. unfold ata_job_io_take in Hrun.
    destruct (negb _ && negb _) eqn:E; [injection Hrun as <- <- <-; by split|].
    apply bind_Some in Hrun as ([rc' o'] & _ & Hrun). injection Hrun as <- <- <-. split; cbn; try done; [split; [apply Hsec|done]|].
    split; cbn; [|apply Hhd]. intros Eh. destruct Hhd as [Hh _]. rewrite (Hh Eh) in E. done.
  - destruct Hi as [Hsn Hre Hbuf Hd Hsec Hhd Hf Hp Hheld]. cbn in *. unfold ata_job_io_cancel.
    destruct (Z.eqb_spec (g_io_state (g_io s)) ATA_IO_NONE); [by split|].
    destruct (Z.eqb_spec (g_handed s) ATA_HANDED_IO) as [E|E]; split; cbn; try done; try (split; [apply Hsec|done]).
    + destruct h as [[job data]|]; [|done]. destruct Hheld as (? & ? & Hov & ?). split; [done|]. split; [done|]. split; [|done]. intros Hx. destruct (Hov Hx) as (_ & E' & _). by rewrite E in E'.
    + split; cbn; [done|apply Hhd].
  - destruct (fetch_inv s k d h b Hi Hb) as (rc' & s'' & job' & data' & E & Hinv). rewrite E in Hrun. by injection Hrun as <- <- <- <-.
  - by apply put_inv.
  - destruct (done_inv s k d job data 0 (Some data) Hi) as (rc' & s'' & k'' & E & Hinv).
    + intros b [= <-]. apply (inv_held _ Hi).
    + intros _ _. exact Hd'.
    + done.
    + rewrite E in Hrun. by injection Hrun as <- <- <-.
  - destruct (done_inv s k d job data 0 (Some b) Hi) as (rc' & s'' & k'' & E & Hinv); [by intros b' [= <-]|done|by eauto|].
    rewrite E in Hrun. by injection Hrun as <- <- <-.
  - assert (Hrep : exists b' : ptr bytes, (forall x, b' = Some x -> blen x = 4096) /\ ata_job_done s k (Some job) status b' 4096 = Some (rc, s', k')).
    { exists NULL. split; [done|]. rewrite <- Hrun. unfold ata_job_done, done_sector, done_chunk. by rewrite (proj2 (Z.eqb_neq status 0)). }
    destruct Hrep as (b' & Hb' & Hrun'). destruct (done_inv s k d job data status b' Hi Hb') as (rc' & s'' & k'' & E & Hinv); [done|done|].
    rewrite E in Hrun'. by injection Hrun' as <- <- <-.
  - destruct Hi. by split.
Qed.

(** ** A driver that serves the queue *)

Fixpoint put_sectors d (drive lba : Z) (n : nat) (data : bytes) : disk :=
  match n with
  | O => d
  | S m => put_sector (put_sectors d drive lba m data) drive (lba + Z.of_nat m) (sector_of data (Z.of_nat m))
  end.

Definition is_write (job : os_ata_job_t) : bool := (job_op job =? OS_ATA_JOB_WRITE) || (job_op job =? OS_ATA_JOB_IO_WRITE).

(** One round: fetch, move the sectors, report success. *)
Definition serve (y : sys) : option (Z * sys) :=
  '(rc, s, job, data) ← ata_job_fetch (y_ata y) (y_files y) (Some tt) (Some (replicate (Z.to_nat 4096) 0)) 4096;
  match job, data with
  | Some job, Some data =>
      let d := if is_write job then put_sectors (y_disk y) (job_drive job) (job_lba_of job) (Z.to_nat (job_count job)) data
               else y_disk y in
      let reply := if is_write job then data
                   else sector_range d (job_drive job) (job_lba_of job) (job_count job)
                        ++ replicate (Z.to_nat (4096 - job_count job * 512)) 0 in
      '(rc, s, k) ← ata_job_done s (y_files y) (Some job) 0 (Some reply) 4096;
      Some (rc, mk_sys s k d None)
  | _, _ => Some (rc, mk_sys s (y_files y) (y_disk y) None)
  end.

Fixpoint serve_rounds (n : nat) (y : sys) : option sys :=
  match n with
  | O => Some y
  | S n => '(_, y) ← serve y; serve_rounds n y
  end.

Lemma writes_dec job : is_write job = true <-> writes job.
Proof. unfold is_write, writes. by rewrite orb_true_iff, !Z.eqb_eq. Qed.

Lemma put_sectors_inv s k d job data n : inv (mk_sys s k d (Some (job, data))) -> writes job -> Z.of_nat n <= job_count job ->
  inv (mk_sys s k (put_sectors d (job_drive job) (job_lba_of job) n data) (Some (job, data))).
Proof. intros Hi Hw. induction n as [|n IH]; intros Hn; [done|]. cbn [put_sectors]. apply put_inv; [apply IH; lia|done|lia]. Qed.

Lemma put_sectors_at d drive lba n data m : 0 <= m < Z.of_nat n -> put_sectors d drive lba n data drive (lba + m) = sector_of data m.
Proof.
  induction n as [|n IH]; intros Hm; [lia|]. cbn [put_sectors]. unfold put_sector. rewrite Z.eqb_refl. cbn [andb].
  destruct (Z.eqb_spec (lba + m) (lba + Z.of_nat n)) as [E|E]; [f_equal; lia|]. apply IH. lia.
Qed.

(** The chunk that is due. *)
Definition current_job s : os_ata_job_t :=
  mk_job (g_active_op (g_img s)) 0 (job_lba (g_img s) (g_cursor (g_img s))) 8 (g_ov_generation (g_img s)) 0.

(** The chunk is accepted: the image job advances by eight sectors or ends.  A load whose
    files have changed since ends without a restore. *)
Lemma done_current s k d reply : phase (g_img s) k d -> blen (g_buf (g_img s)) = 98304 -> g_handed s = ATA_HANDED_OVERLAY ->
  g_active_op (g_img s) <> OS_ATA_JOB_NONE -> (g_active_op (g_img s) = OS_ATA_JOB_READ -> c_true (g_flush_dirty (g_img s)) = true) ->
  blen reply = 4096 ->
  exists rc s', ata_job_done s k (Some (current_job s)) 0 (Some reply) 4096 = Some (rc, s', k) /\
    g_io s' = g_io s /\ g_handed s' = ATA_HANDED_NONE /\ g_flush_dirty (g_img s') = g_flush_dirty (g_img s) /\
    (g_active_op (g_img s') = OS_ATA_JOB_NONE \/
     g_active_op (g_img s') = g_active_op (g_img s) /\ g_cursor (g_img s') = g_cursor (g_img s) + 8).
Proof.
  intros Hp Hbuf Hh Ha Hdirty Hb. destruct (phase_count _ _ _ Hp Ha) as (Hcnt & Hle & [Hcur _] & Htot).
  unfold ata_job_done. rewrite Hh, (proj2 (Z.eqb_neq _ _) Ha). cbn [Z.eqb negb orb ATA_HANDED_OVERLAY ATA_HANDED_IO Pos.eqb].
  unfold done_chunk. rewrite Hcnt. cbn [current_job job_op job_generation job_lba_of job_count job_drive]. rewrite !Z.eqb_refl. cbn [negb orb].
  destruct (Z.eqb_spec (g_active_op (g_img s)) OS_ATA_JOB_READ) as [Er|Er]; cbn [andb].
  - specialize (Hdirty Er). rewrite accept_ok, some_bind by lia. set (i := with_cursor _ _).
    assert (Hi : g_active_op i = g_active_op (g_img s) /\ g_flush_dirty i = g_flush_dirty (g_img s) /\ g_cursor i = g_cursor (g_img s) + 8 /\ blen (g_buf i) = 98304).
    { split; [done|]. split; [done|]. split; [apply u32_id; unfold is_u32; lia|]. cbn. rewrite blen_patch; unfold blen in *; rewrite ?length_take; lia. }
    clearbody i. destruct Hi as (Ia & If & Ic & Ib).
    assert (Hgeo : exists i', (if g_cursor i =? OS_ATA_OVERLAY_SECTORS then job_geometry i else Some i) = Some i' /\
      g_active_op i' = g_active_op i /\ g_flush_dirty i' = g_flush_dirty i /\ g_cursor i' = g_cursor i).
    { destruct (_ =? _); [|by exists i]. destruct (geometry_first i i eq_refl) as (t & e & -> & _); [lia..|]. by eexists. }
    destruct Hgeo as (i' & -> & Ja & Jf & Jc). rewrite some_bind. rewrite Er.
    destruct (_ <? _); [eexists _, _; split; [done|]; cbn; rewrite Jf, If, Ja, Ia, Er, Jc, Ic; do 3 (split; [done|]); by right|].
    unfold finish_image. cbn [Z.eqb OS_ATA_JOB_READ OS_ATA_JOB_WRITE]. change (g_flush_dirty (g_img (set_img _ _))) with (g_flush_dirty i').
    rewrite Jf, If, Hdirty, orb_true_r. eexists _, _. split; [done|]. cbn. rewrite Jf, If. do 3 (split; [done|]). by left.
  - rewrite some_bind. cbn [andb]. cbv iota. rewrite some_bind. cbn [g_cursor g_total with_cursor with_buf].
    assert (Ew : g_active_op (g_img s) = OS_ATA_JOB_WRITE) by (destruct Hp as [?|? ?|?]; done). rewrite Ew.
    rewrite u32_id by (unfold is_u32; lia). destruct (_ <? _); eexists _, _; (split; [done|]); cbn; rewrite ?Ew; do 3 (split; [done|]); [by right|by left].
Qed.

(** The bytes a driver returns for a read: the sectors of the job, then zeros. *)
Lemma sector_of_concat (l : list bytes) tail b n : Forall (fun x => blen x = 512) l -> l !! n = Some b ->
  sector_of (concat l ++ tail) (Z.of_nat n) = b.
Proof.
  intros Hl. revert n. induction Hl as [|x l Hx Hl IH]; intros n Hn; [done|]. cbn [concat]. rewrite <- app_assoc. unfold sector_of, blen in *.
  destruct n as [|n]; cbn in Hn.
  - injection Hn as <-. change (Z.to_nat (Z.of_nat 0 * 512)) with 0%nat. rewrite drop_0. apply take_app_length'. lia.
  - rewrite drop_app_ge by lia. rewrite <- (IH n Hn). f_equal. f_equal. lia.
Qed.

Lemma reply_ok d drive lba n : disk_ok d -> 0 <= n <= 8 ->
  let reply := sector_range d drive lba n ++ replicate (Z.to_nat (4096 - n * 512)) 0 in
  blen reply = 4096 /\ forall c, 0 <= c < n -> sector_of reply c = d drive (lba + c).
Proof.
  intros Hd Hn. set (l := map (d drive) (seqZ lba n)).
  assert (Hl : Forall (fun x => blen x = 512) l) by (apply Forall_forall; intros x (z & -> & _)%list_elem_of_fmap; apply Hd).
  split.
  - assert (Hc : forall l : list bytes, Forall (fun x => blen x = 512) l -> blen (concat l) = 512 * Z.of_nat (length l)).
    { clear l Hl. intros l Hl. induction Hl as [|x l Hx _ IH]; [done|]. cbn [concat length]. rewrite blen_app, IH. lia. }
    rewrite blen_app, blen_zeros by lia. change (sector_range d drive lba n) with (concat l). rewrite (Hc _ Hl). subst l. rewrite length_map, length_seqZ. lia.
  - intros c Hc. rewrite <- (Z2Nat.id c) at 1 by lia. apply sector_of_concat; [done|]. subst l.
    rewrite list_lookup_fmap, lookup_seqZ_lt by lia. cbn. do 2 f_equal. lia.
Qed.

(** A round never fails. *)
Lemma serve_ok y : inv y -> exists rc y', serve y = Some (rc, y') /\ inv y'.
Proof.
  destruct y as [s k d h]. intros Hi. unfold serve. cbn [y_ata y_files y_disk].
  assert (Hb : blen (replicate (Z.to_nat 4096) 0) = 4096) by (by apply blen_zeros). revert Hb.
  generalize (replicate (Z.to_nat 4096) 0). intros b Hb.
  destruct (fetch_inv s k d h b Hi Hb) as (rc & s1 & job & data & -> & Hi1). rewrite some_bind.
  destruct job as [job|], data as [data|]; try (by eexists _, _).
  destruct (inv_held _ Hi1) as (Hdl & Hcnt & _). destruct (is_write job) eqn:Ew.
  - pose proof (proj1 (writes_dec _) Ew) as Hw.
    pose proof (put_sectors_inv _ _ _ _ _ (Z.to_nat (job_count job)) Hi1 Hw ltac:(lia)) as Hi2.
    destruct (done_inv _ _ _ _ _ 0 (Some data) Hi2) as (rc' & s2 & k2 & E & Hi3).
    + by intros x [= <-].
    + intros _ _ n Hn. apply put_sectors_at. lia.
    + done.
    + rewrite E, some_bind. by eexists _, _.
  - assert (Hw : ~ writes job) by (intros Hw%writes_dec; by rewrite Hw in Ew).
    destruct (reply_ok d (job_drive job) (job_lba_of job) (job_count job) (inv_disk _ Hi1) Hcnt) as [Hl Hs].
    revert Hl Hs. generalize (sector_range d (job_drive job) (job_lba_of job) (job_count job) ++ replicate (Z.to_nat (4096 - job_count job * 512)) 0).
    intros reply Hl Hs. destruct (done_inv _ _ _ _ _ 0 (Some reply) Hi1) as (rc' & s2 & k2 & E & Hi3).
    + by intros x [= <-].
    + done.
    + intros _ _. by exists reply.
    + rewrite E, some_bind. by eexists _, _.
Qed.

(** ** Every round brings the flush nearer *)

(** A flush is queued or being written. *)
Definition owed s : bool := c_true (g_flush_dirty (g_img s)) || (g_active_op (g_img s) =? OS_ATA_JOB_WRITE).

(** At most: the sector job, the chunks of the image job in flight, the 24 of the queued flush. *)
Definition cost s : Z :=
  (if (g_handed s =? ATA_HANDED_IO) || (g_io_state (g_io s) =? ATA_IO_PENDING) then 1 else 0)
  + (if g_active_op (g_img s) =? OS_ATA_JOB_NONE then 0 else (192 - g_cursor (g_img s)) / 8)
  + (if c_true (g_flush_dirty (g_img s)) then 24 else 0).

Lemma cost_bounds y : inv y -> owed (y_ata y) = true -> 0 < cost (y_ata y) <= 49.
Proof.
  destruct y as [s k d h]. intros Hi Ho. cbn [y_ata] in *. unfold cost, owed in *.
  assert (Hc : 0 <= (if g_active_op (g_img s) =? OS_ATA_JOB_NONE then 0 else (192 - g_cursor (g_img s)) / 8) <= 24 /\
    (g_active_op (g_img s) = OS_ATA_JOB_WRITE -> 0 < (if g_active_op (g_img s) =? OS_ATA_JOB_NONE then 0 else (192 - g_cursor (g_img s)) / 8))).
  { destruct (Z.eqb_spec (g_active_op (g_img s)) OS_ATA_JOB_NONE) as [E|E]; [rewrite E; split; [lia|done]|].
    destruct (phase_count _ _ _ (inv_phase _ Hi) E) as (_ & ? & [? _] & ?). cbn in *. split; [|intros _]; zlia. }
  destruct Hc as [Hc Hc']. destruct (_ || _) in |- *; destruct (c_true _); cbn [orb] in Ho; try lia;
    apply Z.eqb_eq in Ho; specialize (Hc' Ho); lia.
Qed.

(** The job that describes the sector job. *)
Definition sector_request s : os_ata_job_t :=
  let j := g_io s in mk_job (g_io_op j) (g_io_drive j) (g_io_lba j) (g_io_count j) (g_io_gen j) (g_io_flags j).

Lemma fetch_request s b rc s' job data : fetch_sector s (Some b) 4096 = Some (rc, s', Some job, data) ->
  job = sector_request s.
Proof.
  unfold fetch_sector. destruct (_ =? _); [|by intros [= _ _ <- _]]. intros ([x|] & _ & Hr)%bind_Some; by simplify_eq/=.
Qed.

Lemma done_request s k reply : sector_ok (g_io s) -> g_io_state (g_io s) = ATA_IO_HANDED -> g_handed s = ATA_HANDED_IO ->
  blen reply = 4096 ->
  exists s', ata_job_done s k (Some (sector_request s)) 0 (Some reply) 4096 = Some (OS_ATA_JOB_IO_DONE, s', k) /\
    g_img s' = g_img s /\ g_handed s' = ATA_HANDED_NONE /\ g_io_state (g_io s') = ATA_IO_DONE.
Proof.
  intros [Hbl Hs] Hst Hh Hb. destruct Hs as (Hc & _ & _); [by rewrite Hst|]. unfold ata_job_done. rewrite Hh. cbn [Z.eqb ATA_HANDED_IO Pos.eqb].
  unfold done_sector. rewrite Hst. cbn [sector_request job_op job_generation job_lba_of job_count job_drive]. rewrite !Z.eqb_refl. cbn [negb orb andb].
  destruct (_ =? OS_ATA_JOB_IO_READ); [rewrite accept_ok by lia|]; rewrite !some_bind; eexists; (split; [done|]); done.
Qed.

(** The rounds of [serve] from what is fetched and how the answer is taken. *)
Lemma serve_taken s k d h s1 job data : blen data = 4096 -> disk_ok d -> 0 <= job_count job <= 8 ->
  ata_job_fetch s k (Some tt) (Some (replicate (Z.to_nat 4096) 0)) 4096 = Some (1, s1, Some job, Some data) ->
  forall P : sys -> Prop,
  (forall reply, blen reply = 4096 -> exists rc s2, ata_job_done s1 k (Some job) 0 (Some reply) 4096 = Some (rc, s2, k) /\ forall d', P (mk_sys s2 k d' None)) ->
  exists rc y', serve (mk_sys s k d h) = Some (rc, y') /\ P y'.
Proof.
  intros Hl Hd Hc Hf P HP. unfold serve. cbn [y_ata y_files y_disk]. rewrite Hf, some_bind.
  assert (Hr : blen (if is_write job then data else sector_range (if is_write job then put_sectors d (job_drive job) (job_lba_of job) (Z.to_nat (job_count job)) data else d)
    (job_drive job) (job_lba_of job) (job_count job) ++ replicate (Z.to_nat (4096 - job_count job * 512)) 0) = 4096).
  { destruct (is_write job); [done|]. by apply reply_ok. }
  destruct (HP _ Hr) as (rc & s2 & -> & HP'). rewrite some_bind. eexists _, _. split; [done|]. apply HP'.
Qed.

(** A round while a flush is owed: the files stay, and the cost goes down. *)
Definition nearer s k (y' : sys) : Prop := y_files y' = k /\ cost (y_ata y') < cost s.

Lemma serve_sector s k d h : inv (mk_sys s k d h) ->
  (g_handed s =? ATA_HANDED_IO) || ((g_handed s =? ATA_HANDED_NONE) && (g_io_state (g_io s) =? ATA_IO_PENDING)) = true ->
  exists rc y', serve (mk_sys s k d h) = Some (rc, y') /\ nearer s k y'.
Proof.
  intros Hi Hg. assert (Hn : g_io_state (g_io s) <> ATA_IO_NONE).
  { apply orb_true_iff in Hg as [E%Z.eqb_eq|[_ E%Z.eqb_eq]%andb_true_iff]; [|by rewrite E].
    destruct (inv_handed _ Hi) as [Hh _]. cbn in Hh. by rewrite (Hh E). }
  pose proof (inv_sector _ Hi) as Hsec. cbn in Hsec.
  destruct (fetch_sector_ok s (replicate (Z.to_nat 4096) 0) Hsec Hn (blen_zeros 4096 ltac:(lia))) as (job & data & Hf & Hl & Hc & _).
  assert (Ej : job = sector_request s) by (by eapply fetch_request). subst job.
  eapply serve_taken; [exact Hl|apply (inv_disk _ Hi)|exact Hc|unfold ata_job_fetch; rewrite Hg; exact Hf|]. intros reply Hr.
  destruct (done_request (set_handed (set_io s (with_io_state (g_io s) ATA_IO_HANDED)) ATA_HANDED_IO) k reply) as (s2 & E & Ei & Eh & Es); try done.
  { destruct Hsec as [? Hsec]. split; [done|]. intros _. by apply Hsec. }
  eexists _, s2. split; [exact E|]. intros d'. split; [done|]. cbn [y_ata]. unfold cost. rewrite Ei, Eh, Es.
  assert (Hb : (g_handed s =? ATA_HANDED_IO) || (g_io_state (g_io s) =? ATA_IO_PENDING) = true).
  { apply orb_true_iff. apply orb_true_iff in Hg as [E'|[_ E']%andb_true_iff]; auto. }
  rewrite Hb. cbn. lia.
Qed.

Lemma fetch_chunk_current s b rc s' job data : chunk_count (g_img s) = 8 -> fetch_chunk s (Some b) 4096 = Some (rc, s', Some job, data) ->
  job = current_job s.
Proof.
  unfold fetch_chunk. intros ->. destruct (_ =? OS_ATA_JOB_WRITE); [|by intros [= _ _ <- _]].
  intros ([x|] & _ & Hr)%bind_Some; by simplify_eq/=.
Qed.

(** A round of the image job: [s1] is the queue once the job has begun. *)
Lemma serve_image s k d h s1 : inv (mk_sys s k d h) ->
  (g_handed s =? ATA_HANDED_IO) || ((g_handed s =? ATA_HANDED_NONE) && (g_io_state (g_io s) =? ATA_IO_PENDING)) = false ->
  begin_image s k = Some (1, s1) -> inv (mk_sys s1 k d None) -> same_rest s s1 -> g_active_op (g_img s1) <> OS_ATA_JOB_NONE ->
  (g_active_op (g_img s1) = OS_ATA_JOB_READ -> c_true (g_flush_dirty (g_img s1)) = true) -> cost s1 <= cost s ->
  exists rc y', serve (mk_sys s k d h) = Some (rc, y') /\ nearer s k y'.
Proof.
  intros Hi Hg Hb Hi1 (R1 & R2 & R3 & R4) Ha Hdirty Hcost. pose proof Hi1 as [_ _ Hbuf Hd _ _ _ Hp _]. cbn [y_ata y_files y_disk] in *.
  destruct (fetch_chunk_ok s1 k d (replicate (Z.to_nat 4096) 0) Hp Hbuf Ha (blen_zeros 4096 ltac:(lia))) as (job & data & Hf & Hl & Hc & _).
  destruct (phase_count _ _ _ Hp Ha) as (Hcnt & Hle & [Hcur _] & Htot).
  assert (Ej : job = current_job s1) by (by eapply fetch_chunk_current).
  subst job. eapply serve_taken; [exact Hl|exact Hd|exact Hc|unfold ata_job_fetch; rewrite Hg, Hb, some_bind; exact Hf|]. intros reply Hr.
  destruct (done_current (set_handed s1 ATA_HANDED_OVERLAY) k d reply) as (rc & s2 & E & Ei & Eh & Ed & Hor); try done.
  change (g_img (set_handed s1 ATA_HANDED_OVERLAY)) with (g_img s1) in *. change (g_io (set_handed s1 ATA_HANDED_OVERLAY)) with (g_io s1) in *.
  eexists rc, s2. split; [exact E|]. intros d'. split; [done|]. cbn [y_ata]. enough (cost s2 < cost s1) by lia. unfold cost. rewrite Ei, Eh, Ed.
  change (ATA_HANDED_NONE =? ATA_HANDED_IO) with false. cbn [orb]. rewrite (proj2 (Z.eqb_neq _ _) Ha).
  assert (Hio : (if g_io_state (g_io s1) =? ATA_IO_PENDING then 1 else 0) <= (if (g_handed s1 =? ATA_HANDED_IO) || (g_io_state (g_io s1) =? ATA_IO_PENDING) then 1 else 0)).
  { destruct (g_handed s1 =? ATA_HANDED_IO), (g_io_state (g_io s1) =? ATA_IO_PENDING); cbn [orb]; lia. }
  destruct Hor as [->|[-> ->]]; [rewrite Z.eqb_refl|rewrite (proj2 (Z.eqb_neq _ _) Ha)]; zlia.
Qed.

Lemma serve_progress y : inv y -> owed (y_ata y) = true ->
  exists rc y', serve y = Some (rc, y') /\ inv y' /\ y_files y' = y_files y /\ cost (y_ata y') < cost (y_ata y).
Proof.
  destruct y as [s k d h]. intros Hi Ho. cbn [y_ata y_files] in *.
  enough (exists rc y', serve (mk_sys s k d h) = Some (rc, y') /\ nearer s k y') as (rc & y' & E & Hn1 & Hn2).
  { exists rc, y'. destruct (serve_ok _ Hi) as (rc' & y'' & E' & Hi'). rewrite E in E'. by injection E' as <- <-. }
  destruct ((g_handed s =? ATA_HANDED_IO) || ((g_handed s =? ATA_HANDED_NONE) && (g_io_state (g_io s) =? ATA_IO_PENDING))) eqn:Hg;
    [by apply (serve_sector s k d h)|].
  destruct (begin_ok s k d h Hi) as (rc & s1 & Hb & Hsr & Hbuf & Hp & Hsame & Hrc & Hnew).
  assert (Hi1 : rc = 1 -> inv (mk_sys s1 k d None)).
  { intros ->. destruct Hrc as [[]|[_ Ha]]; [done|]. destruct Hsr as (R1 & R2 & R3 & R4). split; cbn; rewrite ?R1, ?R2, ?R3; try done; try apply Hi.
    split; rewrite R4, ?R3; [apply (inv_handed _ Hi)|done]. }
  destruct (Z.eq_dec (g_active_op (g_img s)) OS_ATA_JOB_NONE) as [Ea|Ea].
  - unfold owed in Ho. rewrite Ea in Ho. change (OS_ATA_JOB_NONE =? OS_ATA_JOB_WRITE) with false in Ho. rewrite orb_false_r in Ho.
    destruct Hnew as [?|[Hcl|(-> & Ha1 & Hd1)]]; [done|by unfold clean in Hcl; rewrite Ho in Hcl|].
    specialize (Hi1 eq_refl). apply (serve_image s k d h s1); try done; [by rewrite Ha1|by rewrite Ha1|].
    destruct Hsr as (_ & _ & R3 & R4). unfold cost. rewrite R3, R4, Ha1, Hd1, Ea, Ho. change (OS_ATA_JOB_WRITE =? OS_ATA_JOB_NONE) with false.
    change (OS_ATA_JOB_NONE =? OS_ATA_JOB_NONE) with true. change (c_true 0) with false. cbv iota.
    assert (Ha1' : g_active_op (g_img s1) <> OS_ATA_JOB_NONE) by (by rewrite Ha1). destruct (phase_count _ _ _ Hp Ha1') as (_ & _ & [? _] & ?). zlia.
  - specialize (Hsame Ea). subst s1. destruct Hrc as [[-> _]|[-> _]].
    { unfold begin_image in Hb. by rewrite (proj2 (Z.eqb_neq _ _) Ea) in Hb. }
    apply (serve_image s k d h s); try done; [by apply Hi1|]. intros Er. unfold owed in Ho. rewrite Er in Ho. by rewrite orb_false_r in Ho.
Qed.

Lemma rounds_settle n : forall y, inv y -> (owed (y_ata y) = true -> cost (y_ata y) <= Z.of_nat n) ->
  exists m y', (m <= n)%nat /\ serve_rounds m y = Some y' /\ inv y' /\ y_files y' = y_files y /\ owed (y_ata y') = false.
Proof.
  induction n as [|n IH]; intros y Hi Hc; (destruct (owed (y_ata y)) eqn:Ho; [specialize (Hc eq_refl)|by exists 0%nat, y; split; [lia|]]).
  - pose proof (cost_bounds y Hi Ho). lia.
  - destruct (serve_progress y Hi Ho) as (rc & y1 & E & Hi1 & Ek & Hlt). destruct (IH y1 Hi1) as (m & y' & Hm & Er & Hi' & Ek' & Ho'); [intros _; lia|].
    exists (S m), y'. split; [lia|]. cbn [serve_rounds]. rewrite E, some_bind. by rewrite Ek', Ek.
Qed.

(** ** From the start *)

Definition started (q : ata_t K) k d : sys := mk_sys (ata_job_init q (Some snapshot_of) (Some restore_of)) k d None.

(** The static buffers have their declared sizes. *)
Definition buffers_sized (q : ata_t K) : Prop := blen (g_buf (g_img q)) = 98304 /\ blen (g_io_buf (g_io q)) = 4096.

Lemma started_inv q k d a : buffers_sized q -> disk_ok d -> shows k a -> in_sync d a -> inv (started q k d).
Proof.
  intros [Hb1 Hb2] Hd Hs Hy. split; cbn; try done; [by eexists|]. apply phase_idle; [done|]. eauto.
Qed.

Lemma ata_reachable_inv q k d a y : buffers_sized q -> disk_ok d -> shows k a -> in_sync d a -> rtc step (started q k d) y -> inv y.
Proof.
  intros Hq Hd Hs Hy Hr. pose proof (started_inv q k d a Hq Hd Hs Hy) as Hi. induction Hr as [y|y1 y2 y3 Hst _ IH]; [done|].
  apply IH. by eapply ata_step_inv.
Qed.

Lemma inv_in_sync y : inv y -> ata_job_flush_queued (y_ata y) = 0 -> g_active_op (g_img (y_ata y)) <> OS_ATA_JOB_WRITE ->
  exists a, shows (y_files y) a /\ in_sync (y_disk y) a.
Proof.
  intros Hi Hq Hw. unfold ata_job_flush_queued in Hq. destruct (c_true (g_flush_dirty (g_img (y_ata y)))) eqn:Ed; [done|].
  destruct (inv_phase _ Hi) as [_ Hc|? E|_ _ _ _ Hc]; [by apply Hc|done|]. destruct (Hc Ed) as (a & ? & ? & _). eauto.
Qed.

Lemma inv_flush y : inv y -> exists n y', (n <= 49)%nat /\ serve_rounds n y = Some y' /\ inv y' /\ y_files y' = y_files y /\
  ata_job_flush_queued (y_ata y') = 0 /\ g_active_op (g_img (y_ata y')) <> OS_ATA_JOB_WRITE.
Proof.
  intros Hi. destruct (rounds_settle 49 y Hi) as (n & y' & Hn & Hr & Hi' & Ek & Ho); [intros Ho; pose proof (cost_bounds y Hi Ho); lia|].
  exists n, y'. do 4 (split; [done|]). unfold owed in Ho. apply orb_false_iff in Ho as [Hd Hw]. unfold ata_job_flush_queued. rewrite Hd.
  split; [done|]. by apply Z.eqb_neq.
Qed.
End System.
