(* ===== verification/AtaOverlay.v ===== *)
(** * The overlay behind the disk queue

    syscall_ata_bridge_init hands overlay_snapshot and overlay_restore to the queue.
    They satisfy [ImageLaws], so the disk follows the overlay files, and a reboot finds
    on the disk what the files were. *)

From Stdlib Require Import ZArith Lia.
From stdpp Require Import base numbers option tactics list relations gmap.
From S2P Require Import Prelude Bytes Names NetBuf NetSum OvState OvPaths OvInv OvBuild OvImage OvSnap Overlay OvTree OvOps OvMove OvCopy InitrdTar InitrdInv TarWalk OvSpec OvDisk AtaJob AtaSpec.

Definition ata_bridge_snapshot {D} (s : overlay_t D) (buf : bytes) (capacity : Z) : option (Z * bytes) :=
  '(rc, b, _) ← overlay_snapshot (g_ov s) (g_ov_ext_lba s) (Some buf) capacity (Some 0);
  Some (rc, default buf b).

Definition ata_bridge_restore {D} (s : overlay_t D) (buf : bytes) (size : Z) : option (Z * overlay_t D) :=
  overlay_restore s (Some buf) size.

(** Equal sectors make equal prefixes. *)
Lemma slices_prefix a b n : 0 <= n -> n * 512 <= blen a -> n * 512 <= blen b ->
  (forall c, 0 <= c < n -> sector_of a c = sector_of b c) -> take (Z.to_nat (n * 512)) a = take (Z.to_nat (n * 512)) b.
Proof.
  intros Hn. pattern n. apply natlike_ind; [done| |done]. clear n Hn. intros n Hn IH Ha Hb Hs.
  replace (Z.to_nat (Z.succ n * 512)) with (Z.to_nat (n * 512) + 512)%nat by lia.
  assert (Hx : forall l : bytes, take (Z.to_nat (n * 512) + 512) l = take (Z.to_nat (n * 512)) l ++ sector_of l n).
  { intros l. unfold sector_of. by rewrite take_take_drop. }
  rewrite !Hx, IH, (Hs n) by (try lia; intros; apply Hs; lia). done.
Qed.

Section Bridge.
Context {D : Type} `{OverlayDisk D} `{InitrdLaws} (E : Z).
Implicit Types (s : overlay_t D) (m : tree).

(** An image of the files [m] with the extension area [E]. *)
Definition image_of (img : bytes) m : Prop := exists s objs os reserved pad,
  holds_tree s objs /\ tree_of objs = m /\ g_ov_ext_lba s = E /\ os ≡ₚ objs /\ length reserved = 8%nat /\
  img = image E os reserved pad.

#[export] Instance overlay_hooks : ImageHooks (overlay_t D) tree := {|
  snapshot_of := ata_bridge_snapshot;
  restore_of := ata_bridge_restore;
  image_ext := E;
  shows := fun s m => refines s m /\ g_ov_ext_lba s = E;
  encodes := image_of
|}.

Lemma overlay_total : image_total = overlay_capacity E / 512.
Proof. unfold image_total, overlay_capacity, c_true. cbn [image_ext overlay_hooks]. by destruct (E =? 0). Qed.

Lemma snapshot_law s m b : refines s m /\ g_ov_ext_lba s = E -> blen b = 98304 ->
  exists img, ata_bridge_snapshot s b 98304 = Some (0, img) /\ blen img = 98304 /\ image_of img m.
Proof.
  intros [(objs & Hh & <-) Es] Hb. pose proof (capacity_max E) as Hcap.
  assert (Hcap' : overlay_capacity E <= 98304) by (unfold overlay_capacity; destruct (c_true _); vm_compute; discriminate).
  destruct (snapshot_spec (g_ov s) objs E b 98304 (Some 0)) as (os & reserved & Hp & Hr & Hsnap); [apply Hh|rewrite <- Es; apply Hh|lia|lia|].
  unfold ata_bridge_snapshot. rewrite Es, Hsnap, some_bind. eexists. split; [done|]. cbn [default from_option id].
  split; [|eexists s, objs, os, reserved, _; do 5 (split; [done|]); done]. pose proof (ht_budget _ _ Hh) as Hbud. rewrite Es in Hbud.
  unfold image. rewrite !blen_app, image_header_length by done.
  rewrite (enc_all_length (g_ov s) objs os (ht_struct _ _ Hh)) by (intros x; by rewrite Hp). rewrite (tree_bytes_perm os objs Hp), blen_zeros by lia.
  rewrite blen_drop by lia. lia.
Qed.

Lemma restore_law s m img : refines s m /\ g_ov_ext_lba s = E -> image_of img m ->
  exists s', ata_bridge_restore s img 98304 = Some (0, s') /\ refines s' m /\ g_ov_ext_lba s' = E.
Proof.
  intros [(objs0 & Hh0 & _) Es] (s1 & objs & os & reserved & pad & Hh & <- & E1 & Hp & Hr & ->). unfold ata_bridge_restore.
  pose proof (ht_struct _ _ Hh0) as Hst. destruct (holds_fs _ _ Hh0) as [_ Hbuf].
  rewrite <- E1. apply (restored_into s1 objs os reserved pad 98304 s); try done; [apply Hst|apply Hst|right; congruence|].
  unfold overlay_capacity. destruct (c_true _); vm_compute; split; congruence.
Qed.

Lemma area_law img img' m : image_of img m -> blen img = 98304 -> blen img' = 98304 ->
  (forall c, 0 <= c < image_total -> sector_of img' c = sector_of img c) -> image_of img' m.
Proof.
  intros (s1 & objs & os & reserved & pad & Hh & Hm & He & Hp & Hr & ->) Hl Hl' Hs.
  assert (Htot : image_total * 512 = overlay_capacity E).
  { rewrite overlay_total. unfold overlay_capacity. by destruct (c_true E). }
  assert (Hcap : 0 <= overlay_capacity E <= 98304) by (unfold overlay_capacity; destruct (c_true E); vm_compute; split; congruence).
  assert (Ht : take (Z.to_nat (image_total * 512)) img' = take (Z.to_nat (image_total * 512)) (image E os reserved pad))
    by (apply slices_prefix; [lia|lia|lia|exact Hs]). rewrite Htot in Ht.
  pose proof (ht_budget _ _ Hh) as Hbud. rewrite He in Hbud.
  pose proof (enc_all_length (g_ov s1) objs os (ht_struct _ _ Hh) ltac:(intros x; by rewrite Hp)) as Hel. rewrite (tree_bytes_perm os objs Hp) in Hel.
  pose proof (image_header_length E (Z.of_nat (length (chains os))) reserved Hr) as Hhl.
  set (front := image_header E (Z.of_nat (length (chains os))) reserved ++ enc_all os) in *.
  assert (Hf : blen front <= overlay_capacity E) by (subst front; rewrite blen_app; lia).
  exists s1, objs, os, reserved, (drop (length front) img'). do 5 (split; [done|]). unfold image in *. rewrite app_assoc in Ht |- *. fold front in Ht |- *.
  rewrite <- (take_drop (length front) img') at 1. f_equal.
  assert (Hmin : forall l : bytes, take (length front) l = take (length front) (take (Z.to_nat (overlay_capacity E)) l)).
  { intros l. rewrite take_take. f_equal. unfold blen in Hf. lia. }
  rewrite Hmin, Ht, <- Hmin. apply take_app_length.
Qed.

Lemma geometry_law i m : is_u32 E -> E = 0 \/ OV_EXT_MIN_LBA <= E -> image_of (g_buf i) m -> blen (g_buf i) = 98304 ->
  job_geometry i = Some (with_geometry i image_total E).
Proof.
  intros Hu Hmin (s1 & objs & os & reserved & pad & Hh & Hm & He & Hp & Hr & Hi) Hl. unfold job_geometry.
  assert (Hsome : forall off, 0 <= off <= 20 -> exists v, job_u32 (g_buf i) off = Some v).
  { intros off Ho. unfold job_u32. rewrite ld_bytes_ok by lia. by eexists. }
  change (job_u32 (g_buf i)) with (ov_get_u32 (g_buf i)) in *. unfold image, image_header in Hi. rewrite <- !app_assoc in Hi.
  set (recs := Z.of_nat (length (chains os))) in *.
  assert (W0 : ov_get_u32 (g_buf i) 0 = Some OV_SNAP_MAGIC) by (rewrite Hi; apply (get_word []); [done|vm_compute; split; congruence]).
  rewrite W0, some_bind.
  assert (W4 : ov_get_u32 (g_buf i) 4 = Some (if c_true E then OV_SNAP_V4_VERSION else OV_SNAP_VERSION)).
  { rewrite Hi. apply get_word; [done|]. destruct (c_true E); vm_compute; split; congruence. }
  rewrite W4, some_bind. unfold image_total. cbn [image_ext overlay_hooks].
  destruct (Z.eqb_spec E 0) as [Ez|Ez].
  - rewrite Ez. destruct (Hsome 16 ltac:(lia)) as [v16 ->], (Hsome 20 ltac:(lia)) as [v20 ->]. by rewrite !some_bind.
  - assert (Ec : c_true E = true) by (unfold c_true; by rewrite (proj2 (Z.eqb_neq E 0))). rewrite Ec in *.
    rewrite <- !app_assoc in Hi.
    assert (W16 : ov_get_u32 (g_buf i) 16 = Some E).
    { pose proof (get_word (le32 OV_SNAP_MAGIC ++ le32 OV_SNAP_V4_VERSION ++ le32 OV_SNAP_NODES ++ le32 recs) E
        (le32 OV_EXT_SECTORS ++ reserved ++ enc_all os ++ pad) 16 eq_refl Hu) as W. rewrite <- !app_assoc in W. by rewrite Hi. }
    assert (W20 : ov_get_u32 (g_buf i) 20 = Some OV_EXT_SECTORS).
    { pose proof (get_word (le32 OV_SNAP_MAGIC ++ le32 OV_SNAP_V4_VERSION ++ le32 OV_SNAP_NODES ++ le32 recs ++ le32 E) OV_EXT_SECTORS
        (reserved ++ enc_all os ++ pad) 20 eq_refl ltac:(vm_compute; split; congruence)) as W. rewrite <- !app_assoc in W. by rewrite Hi. }
    rewrite W16, W20, !some_bind. rewrite (proj2 (Z.leb_le 4225 E)) by (destruct Hmin; [done|unfold OV_EXT_MIN_LBA in *; lia]). done.
Qed.

Lemma overlay_image_laws : E = 0 \/ 4225 <= E <= 4294967296 - 128 -> ImageLaws (overlay_t D) tree.
Proof.
  intros He. assert (Hu : is_u32 E) by (unfold is_u32; destruct He; lia). assert (Hmin : E = 0 \/ OV_EXT_MIN_LBA <= E) by (destruct He as [|[? _]]; auto).
  constructor.
  - exact He.
  - exact snapshot_law.
  - intros s m img Hs _ Hi. by apply restore_law.
  - exact area_law.
  - intros i m Hi Hl. by apply (geometry_law i m).
Qed.

(** A disk that holds the files gives them back to a freshly booted overlay. *)
Lemma sync_reboots d m s0 : E = 0 \/ 4225 <= E <= 4294967296 - 128 -> in_sync d m -> arrays_ok s0 -> g_ov_ext_lba s0 = 0 ->
  exists img s2, blen img = 98304 /\ (forall c, 0 <= c < image_total -> sector_of img c = d 0 (image_lba c)) /\
    overlay_restore (booted s0) (Some img) 98304 = Some (0, s2) /\ refines s2 m /\ g_ov_ext_lba s2 = E.
Proof.
  intros He (img & Hl & (s1 & objs & os & reserved & pad & Hh & Hm & E1 & Hp & Hr & Hi) & Hc) Ha H0'.
  destruct (restored_refines s1 objs os reserved pad 98304 s0 Hh Hp Hr Ha H0') as (s2 & Hrun & Href & Hx).
  { unfold overlay_capacity. destruct (c_true _); vm_compute; split; congruence. }
  exists img, s2. split; [done|]. split; [intros c Hr'; by rewrite Hc|]. rewrite Hi, <- E1. split; [done|]. by rewrite <- Hm.
Qed.


End Bridge.

(** * A disk in memory behind the queue: the witnesses *)

#[local] Existing Instance memory_disk.
#[local] Existing Instance demo_initrd_class.
#[local] Existing Instance demo_initrd_laws.

#[local] Instance demo_hooks : ImageHooks (overlay_t sectors) tree := overlay_hooks 0.

(** The image in the first 64 sectors of the first drive. *)
Definition image_disk (img : bytes) : disk := fun drive lba =>
  if (drive =? 0) && (0 <=? lba) && (lba <? 64) then sector_of img lba else replicate 512 0.

Lemma image_disk_ok (img : bytes) : blen img = 98304 -> disk_ok (image_disk img).
Proof.
  intros Hl drive lba. unfold image_disk. destruct (drive =? 0), (Z.leb_spec 0 lba), (Z.ltb_spec lba 64); cbn [andb]; try done.
  apply sector_length; lia.
Qed.

Lemma image_disk_sync (img : bytes) (m : tree) : blen img = 98304 -> image_of (D := sectors) 0 img m -> in_sync (image_disk img) m.
Proof.
  intros Hl Hi. exists img. split; [done|]. split; [done|]. intros c Hc. change image_total with 64 in Hc. unfold image_disk, image_lba.
  by rewrite (proj2 (Z.ltb_lt c 64)), (proj2 (Z.leb_le 0 c)), (proj2 (Z.ltb_lt c 64)) by lia.
Qed.

(** The queue before ata_job_init: every static variable 0. *)
Definition queue_zero {K} (buf : bytes) : ata_t K :=
  mk_ata K NULL NULL 0 (mk_image buf 64 0 0 0 0 0 0 0) (mk_sector 0 0 0 0 0 0 (replicate 4096 0) 0) 0 0 64 0 0 0 0 (fun _ => 0).

Lemma queue_zero_sized K buf : blen buf = 98304 -> buffers_sized (queue_zero (K := K) buf).
Proof. intros Hb. split; [done|]. unfold blen. cbn [g_io_buf g_io queue_zero]. by rewrite length_replicate. Qed.

(** Files in memory and the disk that holds them. *)
Lemma demo_synced : exists (s : overlay_t sectors) d buf, refines s demo_tree /\ g_ov_ext_lba s = 0 /\ disk_ok d /\
  in_sync d demo_tree /\ blen buf = 98304.
Proof.
  destruct demo_state as (s & Hs & He). destruct some_buffer as (buf & Hb).
  destruct (snapshot_law 0 s demo_tree buf (conj Hs He) Hb) as (img & _ & Hl & Hi).
  exists s, (image_disk img), buf. repeat (split; [done|]). split; [by apply image_disk_ok|]. split; [by apply image_disk_sync|done].
Qed.


