(* ===== verification/IoPorts.v ===== *)
(** * I/O permission bitmap of kernel/io_bitmap.c and the task segment of kernel/gdt.c

    A clear bit lets Ring 3 use a port.  The task segment keeps the bitmap and, per
    device, whether its ports are open; the seven setters rewrite the bitmap only when
    that changes.  [None] is an access outside the bitmap. *)

From Stdlib Require Import ZArith Lia.
From stdpp Require Import base numbers option tactics list.
From S2P Require Import Prelude Bytes NetBuf NetSum.

Definition IO_BITMAP_ATA_CMD_BASE : Z := 496.   (* 0x1F0 *)
Definition IO_BITMAP_ATA_CMD_LAST : Z := 503.
Definition IO_BITMAP_ATA_CTRL : Z := 1014.      (* 0x3F6 *)
Definition IO_BITMAP_NE2K_BASE : Z := 768.      (* 0x300 *)
Definition IO_BITMAP_NE2K_LAST : Z := 799.
Definition IO_BITMAP_PCI_BASE : Z := 3320.      (* 0xCF8 *)
Definition IO_BITMAP_PCI_LAST : Z := 3327.
Definition IO_BITMAP_PS2_DATA : Z := 96.
Definition IO_BITMAP_PS2_CMD : Z := 100.
Definition IO_BITMAP_COM1_BASE : Z := 1016.     (* 0x3F8 *)
Definition IO_BITMAP_COM1_LAST : Z := 1023.
Definition IO_BITMAP_VGA_CRTC_INDEX : Z := 980. (* 0x3D4 *)
Definition IO_BITMAP_VGA_CRTC_DATA : Z := 981.
Definition TSS_IO_BITMAP_BYTES : Z := 8192.

Definition io_bitmap_deny_all (map : ptr bytes) (len : Z) : option (ptr bytes) :=
  match map with
  | NULL => Some NULL
  | Some m => m ← st_bytes m 0 (replicate (Z.to_nat len) 255); Some (Some m)
  end.

(** The bit of a port in its byte. *)
Definition port_mask (port : Z) : Z := u8 (Z.shiftl 1 (Z.land port 7)).

Definition io_bitmap_set_port (map : ptr bytes) (len port allow : Z) : option (ptr bytes) :=
  let byte := Z.shiftr port 3 in
  match map with
  | NULL => Some NULL
  | Some m =>
      if len <=? byte then Some (Some m)
      else
        b ← ld m byte;
        m ← st m byte (if c_true allow then Z.land b (u8 (Z.lnot (port_mask port))) else Z.lor b (port_mask port));
        Some (Some m)
  end.

Definition io_bitmap_port_allowed (map : ptr bytes) (len port : Z) : option Z :=
  let byte := Z.shiftr port 3 in
  match map with
  | NULL => Some 0
  | Some m => if len <=? byte then Some 0 else b ← ld m byte; Some (b2z (Z.land b (port_mask port) =? 0))
  end.

(** [for (port in ports) io_bitmap_set_port(map, len, port, allow);] *)
Fixpoint set_ports (map : ptr bytes) (len : Z) (ports : list Z) (allow : Z) : option (ptr bytes) :=
  match ports with
  | [] => Some map
  | port :: ports => map ← io_bitmap_set_port map len port allow; set_ports map len ports allow
  end.

(** The ports from [first] to [last]. *)
Definition port_range (first last : Z) : list Z := seqZ first (last - first + 1).

Definition ata_ports : list Z := port_range IO_BITMAP_ATA_CMD_BASE IO_BITMAP_ATA_CMD_LAST ++ [IO_BITMAP_ATA_CTRL].
Definition ne2k_ports : list Z := port_range IO_BITMAP_NE2K_BASE IO_BITMAP_NE2K_LAST.
Definition pci_ports : list Z := port_range IO_BITMAP_PCI_BASE IO_BITMAP_PCI_LAST.
Definition ps2_ports : list Z := [IO_BITMAP_PS2_DATA; IO_BITMAP_PS2_CMD].
Definition serial_ports : list Z := port_range IO_BITMAP_COM1_BASE IO_BITMAP_COM1_LAST.
Definition vga_ports : list Z := [IO_BITMAP_VGA_CRTC_INDEX; IO_BITMAP_VGA_CRTC_DATA].
Definition usb_offsets : list Z := [2; 3; 4; 5; 6; 7; 16; 17; 18; 19].
Definition usb_ports (base : Z) : list Z := map (fun o => u16 (base + o)) usb_offsets.

Definition io_bitmap_apply_ata (map : ptr bytes) (len allow : Z) : option (ptr bytes) := set_ports map len ata_ports allow.
Definition io_bitmap_apply_ne2k (map : ptr bytes) (len allow : Z) : option (ptr bytes) := set_ports map len ne2k_ports allow.
Definition io_bitmap_apply_pci (map : ptr bytes) (len allow : Z) : option (ptr bytes) := set_ports map len pci_ports allow.
Definition io_bitmap_apply_ps2 (map : ptr bytes) (len allow : Z) : option (ptr bytes) := set_ports map len ps2_ports allow.
Definition io_bitmap_apply_serial (map : ptr bytes) (len allow : Z) : option (ptr bytes) := set_ports map len serial_ports allow.
Definition io_bitmap_apply_vga (map : ptr bytes) (len allow : Z) : option (ptr bytes) := set_ports map len vga_ports allow.
Definition io_bitmap_apply_usb (map : ptr bytes) (len base allow : Z) : option (ptr bytes) :=
  if base =? 0 then Some map else set_ports map len (usb_ports base) allow.

(** ** The task segment *)

(** [tss_full.io_bitmap] and the [g_tss_*] variables. *)
Record tss_t := mk_tss {
  tss_bitmap : bytes;
  g_tss_ata_granted : Z; g_tss_nic_granted : Z; g_tss_pci_granted : Z; g_tss_ps2_granted : Z;
  g_tss_serial_granted : Z; g_tss_vga_granted : Z; g_tss_usb_granted : Z; g_tss_usb_base : Z
}.

(** The part of [gdt_init] about the bitmap: [memset], then deny every port. *)
Definition tss_init (t : tss_t) : option tss_t :=
  m ← io_bitmap_deny_all (Some (replicate (Z.to_nat TSS_IO_BITMAP_BYTES) 0)) TSS_IO_BITMAP_BYTES;
  Some (mk_tss (default [] m) 0 0 0 0 0 0 0 (g_tss_usb_base t)).

(** A bitmap update, and what to do with the new one. *)
Definition on_bitmap (t : tss_t) (apply : ptr bytes -> Z -> Z -> option (ptr bytes)) (allow : Z) (next : bytes -> tss_t) : option tss_t :=
  m ← apply (Some (tss_bitmap t)) TSS_IO_BITMAP_BYTES allow;
  Some (next (default [] m)).

Definition tss_set_ata_io (t : tss_t) (grant : Z) : option tss_t :=
  let grant := b2z (c_true grant) in
  if g_tss_ata_granted t =? grant then Some t
  else on_bitmap t io_bitmap_apply_ata grant (fun m =>
    mk_tss m grant (g_tss_nic_granted t) (g_tss_pci_granted t) (g_tss_ps2_granted t) (g_tss_serial_granted t) (g_tss_vga_granted t) (g_tss_usb_granted t) (g_tss_usb_base t)).

Definition tss_set_nic_io (t : tss_t) (grant : Z) : option tss_t :=
  let grant := b2z (c_true grant) in
  if g_tss_nic_granted t =? grant then Some t
  else on_bitmap t io_bitmap_apply_ne2k grant (fun m =>
    mk_tss m (g_tss_ata_granted t) grant (g_tss_pci_granted t) (g_tss_ps2_granted t) (g_tss_serial_granted t) (g_tss_vga_granted t) (g_tss_usb_granted t) (g_tss_usb_base t)).

Definition tss_set_pci_io (t : tss_t) (grant : Z) : option tss_t :=
  let grant := b2z (c_true grant) in
  if g_tss_pci_granted t =? grant then Some t
  else on_bitmap t io_bitmap_apply_pci grant (fun m =>
    mk_tss m (g_tss_ata_granted t) (g_tss_nic_granted t) grant (g_tss_ps2_granted t) (g_tss_serial_granted t) (g_tss_vga_granted t) (g_tss_usb_granted t) (g_tss_usb_base t)).

Definition tss_set_ps2_io (t : tss_t) (grant : Z) : option tss_t :=
  let grant := b2z (c_true grant) in
  if g_tss_ps2_granted t =? grant then Some t
  else on_bitmap t io_bitmap_apply_ps2 grant (fun m =>
    mk_tss m (g_tss_ata_granted t) (g_tss_nic_granted t) (g_tss_pci_granted t) grant (g_tss_serial_granted t) (g_tss_vga_granted t) (g_tss_usb_granted t) (g_tss_usb_base t)).

Definition tss_set_serial_io (t : tss_t) (grant : Z) : option tss_t :=
  let grant := b2z (c_true grant) in
  if g_tss_serial_granted t =? grant then Some t
  else on_bitmap t io_bitmap_apply_serial grant (fun m =>
    mk_tss m (g_tss_ata_granted t) (g_tss_nic_granted t) (g_tss_pci_granted t) (g_tss_ps2_granted t) grant (g_tss_vga_granted t) (g_tss_usb_granted t) (g_tss_usb_base t)).

Definition tss_set_vga_io (t : tss_t) (grant : Z) : option tss_t :=
  let grant := b2z (c_true grant) in
  if g_tss_vga_granted t =? grant then Some t
  else on_bitmap t io_bitmap_apply_vga grant (fun m =>
    mk_tss m (g_tss_ata_granted t) (g_tss_nic_granted t) (g_tss_pci_granted t) (g_tss_ps2_granted t) (g_tss_serial_granted t) grant (g_tss_usb_granted t) (g_tss_usb_base t)).

Definition tss_set_usb_io (t : tss_t) (grant base : Z) : option tss_t :=
  let grant := b2z (c_true grant && c_true base) in
  if (g_tss_usb_granted t =? grant) && (negb (c_true grant) || (g_tss_usb_base t =? base)) then Some t
  else
    m ← (if (g_tss_usb_granted t =? 1) && c_true (g_tss_usb_base t)
         then io_bitmap_apply_usb (Some (tss_bitmap t)) TSS_IO_BITMAP_BYTES (g_tss_usb_base t) 0 else Some (Some (tss_bitmap t)));
    m ← (if c_true grant then io_bitmap_apply_usb m TSS_IO_BITMAP_BYTES base 1 else Some m);
    Some (mk_tss (default [] m) (g_tss_ata_granted t) (g_tss_nic_granted t) (g_tss_pci_granted t) (g_tss_ps2_granted t)
            (g_tss_serial_granted t) (g_tss_vga_granted t) grant base).

(** ** Lemmas on the bitmap *)

(** A port is open in the bitmap [m]. *)
Definition open_in (m : bytes) (port : Z) : bool := negb (Z.testbit (default 0 (m !! Z.to_nat (Z.shiftr port 3))) (Z.land port 7)).

Definition bitmap_ok (m : bytes) : Prop := blen m = 8192 /\ Forall is_u8 m.
Definition is_port (p : Z) : Prop := 0 <= p < 65536.

Lemma port_parts p : is_port p -> 0 <= Z.shiftr p 3 < 8192 /\ 0 <= Z.land p 7 < 8 /\ p = 8 * Z.shiftr p 3 + Z.land p 7.
Proof.
  unfold is_port. intros Hp. rewrite Z.shiftr_div_pow2 by lia. change 7 with (Z.ones 3). rewrite Z.land_ones by lia. change (2 ^ 3) with 8. zlia.
Qed.

Lemma mask_bits p i : is_port p -> 0 <= i -> Z.testbit (port_mask p) i = (i =? Z.land p 7).
Proof.
  intros Hp Hi. destruct (port_parts p Hp) as (_ & Hb & _). unfold port_mask, u8. change 256 with (2 ^ 8).
  destruct (Z.ltb_spec i 8).
  - rewrite Z.mod_pow2_bits_low, Z.shiftl_spec by lia. destruct (Z.eqb_spec i (Z.land p 7)) as [->|Hn]; [by rewrite Z.sub_diag|].
    destruct (Z.ltb_spec i (Z.land p 7)); [by rewrite Z.testbit_neg_r by lia|]. change 1 with (2 ^ 0). apply Z.pow2_bits_false. lia.
  - rewrite Z.mod_pow2_bits_high by lia. symmetry. apply Z.eqb_neq. lia.
Qed.

Lemma land_mask_zero b p : is_port p -> (Z.land b (port_mask p) =? 0) = negb (Z.testbit b (Z.land p 7)).
Proof.
  intros Hp. destruct (port_parts p Hp) as (_ & Hb & _). destruct (Z.testbit b (Z.land p 7)) eqn:E; cbn [negb].
  - apply Z.eqb_neq. intros Hz. apply (f_equal (fun z => Z.testbit z (Z.land p 7))) in Hz.
    by rewrite Z.land_spec, E, mask_bits, Z.eqb_refl, Z.bits_0 in Hz by (done || lia).
  - apply Z.eqb_eq. apply Z.bits_inj'. intros i Hi. rewrite Z.land_spec, mask_bits, Z.bits_0 by done.
    destruct (Z.eqb_spec i (Z.land p 7)) as [->|]; [by rewrite E|by rewrite andb_false_r].
Qed.

Lemma u8_land_bits b i : 0 <= i -> Z.testbit (u8 b) i = (i <? 8) && Z.testbit b i.
Proof.
  intros Hi. unfold u8. change 256 with (2 ^ 8). destruct (Z.ltb_spec i 8); cbn [andb]; [by apply Z.mod_pow2_bits_low|by apply Z.mod_pow2_bits_high].
Qed.

(** The byte after one port was set. *)
Lemma set_bits b p allow i : is_port p -> 0 <= i < 8 ->
  Z.testbit (if c_true allow then Z.land b (u8 (Z.lnot (port_mask p))) else Z.lor b (port_mask p)) i
  = if i =? Z.land p 7 then negb (c_true allow) else Z.testbit b i.
Proof.
  intros Hp Hi. destruct (c_true allow).
  - rewrite Z.land_spec, u8_land_bits, Z.lnot_spec, mask_bits by (done || lia). rewrite (proj2 (Z.ltb_lt i 8)) by lia. cbn [andb].
    destruct (i =? Z.land p 7); [apply andb_false_r|apply andb_true_r].
  - rewrite Z.lor_spec, mask_bits by (done || lia). destruct (i =? Z.land p 7); [apply orb_true_r|apply orb_false_r].
Qed.

Lemma is_u8_bits b : 0 <= b -> (forall i, 8 <= i -> Z.testbit b i = false) -> is_u8 b.
Proof.
  intros Hb Hi. split; [done|]. destruct (Z.eq_dec b 0) as [->|Hn]; [lia|]. change 256 with (2 ^ 8). apply Z.log2_lt_pow2; [lia|].
  destruct (Z.lt_ge_cases (Z.log2 b) 8) as [?|Hl]; [done|]. specialize (Hi _ Hl). rewrite Z.bit_log2 in Hi by lia. done.
Qed.

Lemma u8_high b i : is_u8 b -> 8 <= i -> Z.testbit b i = false.
Proof. intros Hb Hi. rewrite <- (u8_id b Hb). unfold u8. change 256 with (2 ^ 8). by apply Z.mod_pow2_bits_high. Qed.

Lemma set_byte_u8 b p allow : is_port p -> is_u8 b -> is_u8 (if c_true allow then Z.land b (u8 (Z.lnot (port_mask p))) else Z.lor b (port_mask p)).
Proof.
  intros Hp Hb. pose proof (u8_range (Z.shiftl 1 (Z.land p 7))) as Hm. fold (port_mask p) in Hm.
  destruct (c_true allow); apply is_u8_bits; intros; rewrite ?Z.land_spec, ?Z.lor_spec, ?(u8_high b) by done; rewrite ?(u8_high (port_mask p)) by done; try done.
  - apply Z.land_nonneg. left. apply Hb.
  - apply Z.lor_nonneg. split; [apply Hb|apply Hm].
Qed.

(** One port is set, every other port stays. *)
Lemma set_port_spec m p allow : bitmap_ok m -> is_port p ->
  exists m', io_bitmap_set_port (Some m) 8192 p allow = Some (Some m') /\ bitmap_ok m' /\
    forall q, is_port q -> open_in m' q = if q =? p then c_true allow else open_in m q.
Proof.
  intros [Hl Hu] Hp. destruct (port_parts p Hp) as (Hb & Hk & Ep). unfold io_bitmap_set_port. rewrite (proj2 (Z.leb_gt 8192 _)) by lia.
  destruct (lookup_lt_is_Some_2 m (Z.to_nat (Z.shiftr p 3))) as [b Eb]; [unfold blen in Hl; lia|].
  unfold ld, st. rewrite (proj2 (Z.leb_le 0 _)) by lia. rewrite Eb, some_bind. unfold blen in Hl. rewrite (proj2 (Z.ltb_lt _ (Z.of_nat (length m)))) by lia. cbn [andb].
  rewrite some_bind. eexists. split; [done|]. assert (Hub : is_u8 b) by (rewrite Forall_lookup in Hu; by eapply Hu).
  split; [split; [unfold blen; by rewrite length_insert|apply Forall_insert; [done|by apply set_byte_u8]]|].
  intros q Hq. destruct (port_parts q Hq) as (Hbq & Hkq & Eq). unfold open_in.
  destruct (Z.eq_dec (Z.shiftr q 3) (Z.shiftr p 3)) as [E|E].
  - rewrite E, list_lookup_insert_eq by lia. cbn [default from_option id]. rewrite Eb. cbn [default from_option id]. rewrite set_bits by (done || lia).
    destruct (Z.eqb_spec (Z.land q 7) (Z.land p 7)), (Z.eqb_spec q p); try lia; [by rewrite negb_involutive|done].
  - rewrite list_lookup_insert_ne by lia. by rewrite (proj2 (Z.eqb_neq q p)) by (intros ->; done).
Qed.

Lemma set_ports_spec ports : forall m allow, bitmap_ok m -> Forall is_port ports ->
  exists m', set_ports (Some m) 8192 ports allow = Some (Some m') /\ bitmap_ok m' /\
    forall q, is_port q -> open_in m' q = if bool_decide (q ∈ ports) then c_true allow else open_in m q.
Proof.
  induction ports as [|p ports IH]; intros m allow Hm Hp; cbn [set_ports]; [by exists m|].
  apply Forall_cons in Hp as [Hp Hps]. destruct (set_port_spec m p allow Hm Hp) as (m1 & -> & Hm1 & Ho1). rewrite some_bind.
  destruct (IH m1 allow Hm1 Hps) as (m2 & -> & Hm2 & Ho2). exists m2. split; [done|]. split; [done|]. intros q Hq.
  rewrite Ho2, Ho1 by done. destruct (Z.eqb_spec q p) as [->|Hn].
  - rewrite (bool_decide_eq_true_2 (p ∈ p :: ports)) by (by left). by destruct (bool_decide _).
  - replace (bool_decide (q ∈ p :: ports)) with (bool_decide (q ∈ ports)); [done|]. apply bool_decide_ext. rewrite elem_of_cons. naive_solver.
Qed.

Lemma allowed_open m p : bitmap_ok m -> is_port p -> io_bitmap_port_allowed (Some m) 8192 p = Some (b2z (open_in m p)).
Proof.
  intros [Hl _] Hp. destruct (port_parts p Hp) as (Hb & _). unfold io_bitmap_port_allowed, ld. rewrite (proj2 (Z.leb_gt 8192 _)), (proj2 (Z.leb_le 0 _)) by lia.
  destruct (lookup_lt_is_Some_2 m (Z.to_nat (Z.shiftr p 3))) as [b Eb]; [unfold blen in Hl; lia|]. rewrite Eb, some_bind.
  unfold open_in. rewrite Eb. cbn [default from_option id]. by rewrite land_mask_zero.
Qed.

(** * The bitmap says exactly what was granted

    [tss_ok]: a port is open in the bitmap of the task segment if and only if it lies in
    the window of a device whose grant is set.  Every setter keeps it. *)

Definition fixed_windows : list (list Z) := [ata_ports; ne2k_ports; pci_ports; ps2_ports; serial_ports; vga_ports].

(** The registers of the USB controller lie in no other device's window. *)
Definition usb_clear (base : Z) : Prop := Forall (fun p => Forall (fun w => p ∉ w) fixed_windows) (usb_ports base).

Definition inside (p : Z) (w : list Z) : bool := bool_decide (p ∈ w).

(** What the grants of the task segment open. *)
Definition opened (t : tss_t) (p : Z) : bool :=
  ((g_tss_ata_granted t =? 1) && inside p ata_ports) || ((g_tss_nic_granted t =? 1) && inside p ne2k_ports)
  || ((g_tss_pci_granted t =? 1) && inside p pci_ports) || ((g_tss_ps2_granted t =? 1) && inside p ps2_ports)
  || ((g_tss_serial_granted t =? 1) && inside p serial_ports) || ((g_tss_vga_granted t =? 1) && inside p vga_ports)
  || ((g_tss_usb_granted t =? 1) && inside p (usb_ports (g_tss_usb_base t))).

Record tss_ok (t : tss_t) : Prop := mk_tss_ok {
  tok_bitmap : bitmap_ok (tss_bitmap t);
  tok_open : forall p, is_port p -> open_in (tss_bitmap t) p = opened t p;
  tok_usb : g_tss_usb_granted t = 1 -> g_tss_usb_base t <> 0 /\ usb_clear (g_tss_usb_base t)
}.

(** No port is in two of the fixed windows. *)
Lemma windows_disjoint : Forall (fun p => length (filter (fun w => p ∈ w) fixed_windows) <= 1)%nat (concat fixed_windows).
Proof. apply (bool_decide_unpack _). by vm_compute. Qed.

Lemma windows_ports : Forall (Forall is_port) fixed_windows.
Proof. unfold is_port. apply (bool_decide_unpack _). by vm_compute. Qed.

Lemma ports_filter_none (p : Z) (l : list (list Z)) : Forall (fun w => p ∉ w) l -> filter (fun w => p ∈ w) l = [].
Proof. induction 1 as [|w l Hw _ IH]; [done|]. by rewrite filter_cons, decide_False. Qed.

(** The windows a port is in: at most one. *)
Lemma one_window p base : usb_clear base ->
  let a := inside p ata_ports in let n := inside p ne2k_ports in let c := inside p pci_ports in let k := inside p ps2_ports in
  let r := inside p serial_ports in let v := inside p vga_ports in let u := inside p (usb_ports base) in
  (Nat.b2n a + Nat.b2n n + Nat.b2n c + Nat.b2n k + Nat.b2n r + Nat.b2n v + Nat.b2n u <= 1)%nat.
Proof.
  intros Hu. cbv zeta.
  assert (Hfix : (Nat.b2n (inside p ata_ports) + Nat.b2n (inside p ne2k_ports) + Nat.b2n (inside p pci_ports) + Nat.b2n (inside p ps2_ports)
    + Nat.b2n (inside p serial_ports) + Nat.b2n (inside p vga_ports) = length (filter (fun w => p ∈ w) fixed_windows))%nat).
  { unfold fixed_windows, inside. rewrite !filter_cons, filter_nil. repeat case_bool_decide; repeat (case_decide; try done). }
  destruct (decide (p ∈ usb_ports base)) as [Hin|Hin].
  - unfold usb_clear in Hu. rewrite Forall_forall in Hu. specialize (Hu p Hin).
    assert (E : filter (fun w => p ∈ w) fixed_windows = []) by (by apply ports_filter_none). rewrite E in Hfix. cbn [length] in Hfix.
    unfold inside at 7. rewrite bool_decide_eq_true_2 by done. cbn [Nat.b2n]. lia.
  - unfold inside at 7. rewrite bool_decide_eq_false_2 by done. cbn [Nat.b2n].
    destruct (decide (p ∈ concat fixed_windows)) as [Hc|Hc].
    + pose proof windows_disjoint as Hd. rewrite Forall_forall in Hd. specialize (Hd p Hc). lia.
    + assert (E : filter (fun w => p ∈ w) fixed_windows = []).
      { apply ports_filter_none. apply Forall_forall. intros w Hw Hp. apply Hc. apply list_elem_of_In, in_concat. exists w. by rewrite <- !list_elem_of_In. }
      rewrite E in Hfix. cbn [length] in Hfix. lia.
Qed.

Lemma exclusive p t : tss_ok t ->
  (Nat.b2n (inside p ata_ports) + Nat.b2n (inside p ne2k_ports) + Nat.b2n (inside p pci_ports) + Nat.b2n (inside p ps2_ports)
   + Nat.b2n (inside p serial_ports) + Nat.b2n (inside p vga_ports)
   + Nat.b2n ((g_tss_usb_granted t =? 1)%Z && inside p (usb_ports (g_tss_usb_base t))) <= 1)%nat.
Proof.
  intros Ht. destruct (Z.eqb_spec (g_tss_usb_granted t) 1) as [E|E]; cbn [andb].
  - destruct (tok_usb t Ht E) as [_ Hc]. by apply one_window.
  - assert (Hc : usb_clear 49152) by (unfold usb_clear; apply (bool_decide_unpack _); by vm_compute).
    pose proof (one_window p 49152 Hc) as H. cbv zeta in H. cbn [Nat.b2n]. lia.
Qed.

(** One fixed window rewritten. *)
Lemma on_bitmap_spec t w apply allow next : tss_ok t -> (forall m len a, apply m len a = set_ports m len w a) -> w ∈ fixed_windows ->
  exists m, on_bitmap t apply allow next = Some (next m) /\ bitmap_ok m /\
    forall q, is_port q -> open_in m q = if inside q w then c_true allow else opened t q.
Proof.
  intros Ht Ha Hw. pose proof windows_ports as Hp. rewrite Forall_forall in Hp. specialize (Hp w Hw).
  destruct (set_ports_spec w (tss_bitmap t) allow (tok_bitmap t Ht) Hp) as (m & E & Hm & Ho). exists m. unfold on_bitmap. change TSS_IO_BITMAP_BYTES with 8192.
  rewrite Ha, E, some_bind. split; [done|]. split; [done|]. intros q Hq. rewrite Ho by done. by rewrite (tok_open t Ht).
Qed.

(** Truth tables over the windows of a port: at most one holds. *)
Ltac by_window t Ht q :=
  let H := fresh in pose proof (exclusive q t Ht) as H; unfold opened;
  cbn [g_tss_ata_granted g_tss_nic_granted g_tss_pci_granted g_tss_ps2_granted g_tss_serial_granted g_tss_vga_granted g_tss_usb_granted g_tss_usb_base];
  destruct (inside q ata_ports), (inside q ne2k_ports), (inside q pci_ports), (inside q ps2_ports), (inside q serial_ports), (inside q vga_ports),
    ((g_tss_usb_granted t =? 1) && inside q (usb_ports (g_tss_usb_base t))); cbn [Nat.b2n Nat.add] in H; try lia; clear H;
  rewrite ?andb_true_r, ?andb_false_r; cbn [orb]; rewrite ?orb_false_r, ?orb_true_r; try done.

(** The grants, in the order of the setters of the scheduler. *)
Definition grants (t : tss_t) : list Z :=
  [g_tss_ata_granted t; g_tss_pci_granted t; g_tss_ps2_granted t; g_tss_serial_granted t; g_tss_vga_granted t; g_tss_usb_granted t; g_tss_nic_granted t].

Ltac by_setter t Ht grant w :=
  let E := fresh "E" in let m := fresh "m" in let Hm := fresh "Hm" in let Ho := fresh "Ho" in let q := fresh "q" in let Hq := fresh "Hq" in
  match goal with |- context [if ?f =? b2z (c_true grant) then _ else _] =>
    destruct (Z.eqb_spec f (b2z (c_true grant))) as [E|E]; [exists t; do 2 (split; [done|]); split; [unfold grants; rewrite <- E; done|done]|] end;
  match goal with |- context [on_bitmap t ?apply _ ?next] =>
    destruct (on_bitmap_spec t w apply (b2z (c_true grant)) next Ht (fun _ _ _ => eq_refl)) as (m & -> & Hm & Ho); [apply list_elem_of_In; cbn; tauto|] end;
  eexists; (split; [done|]); (split; [|by split]); split; [done| |apply Ht];
  intros q Hq; cbn [tss_bitmap]; rewrite (Ho q Hq); by_window t Ht q; by destruct (c_true grant).

(** Each setter answers, keeps the bitmap exact and sets one grant. *)
Definition sets (k : nat) (set : tss_t -> Z -> option tss_t) : Prop := forall t grant, tss_ok t ->
  exists t', set t grant = Some t' /\ tss_ok t' /\ grants t' = <[k := b2z (c_true grant)]> (grants t) /\ g_tss_usb_base t' = g_tss_usb_base t.

Lemma set_ata_ok : sets 0 tss_set_ata_io.
Proof. intros t grant Ht. unfold tss_set_ata_io. by_setter t Ht grant ata_ports. Qed.
Lemma set_pci_ok : sets 1 tss_set_pci_io.
Proof. intros t grant Ht. unfold tss_set_pci_io. by_setter t Ht grant pci_ports. Qed.
Lemma set_ps2_ok : sets 2 tss_set_ps2_io.
Proof. intros t grant Ht. unfold tss_set_ps2_io. by_setter t Ht grant ps2_ports. Qed.
Lemma set_serial_ok : sets 3 tss_set_serial_io.
Proof. intros t grant Ht. unfold tss_set_serial_io. by_setter t Ht grant serial_ports. Qed.
Lemma set_vga_ok : sets 4 tss_set_vga_io.
Proof. intros t grant Ht. unfold tss_set_vga_io. by_setter t Ht grant vga_ports. Qed.
Lemma set_nic_ok : sets 6 tss_set_nic_io.
Proof. intros t grant Ht. unfold tss_set_nic_io. by_setter t Ht grant ne2k_ports. Qed.

Lemma usb_ports_ok base : Forall is_port (usb_ports base).
Proof. unfold usb_ports. apply Forall_fmap, Forall_forall. intros o _. apply u16_range. Qed.

(** The bitmap without the USB window. *)
Definition opened_fixed (t : tss_t) (p : Z) : bool :=
  ((g_tss_ata_granted t =? 1) && inside p ata_ports) || ((g_tss_nic_granted t =? 1) && inside p ne2k_ports)
  || ((g_tss_pci_granted t =? 1) && inside p pci_ports) || ((g_tss_ps2_granted t =? 1) && inside p ps2_ports)
  || ((g_tss_serial_granted t =? 1) && inside p serial_ports) || ((g_tss_vga_granted t =? 1) && inside p vga_ports).

Lemma usb_not_fixed base t p : usb_clear base -> inside p (usb_ports base) = true -> opened_fixed t p = false.
Proof.
  intros Hc Hp. pose proof (one_window p base Hc) as H. cbv zeta in H. rewrite Hp in H. unfold opened_fixed.
  destruct (inside p ata_ports), (inside p ne2k_ports), (inside p pci_ports), (inside p ps2_ports), (inside p serial_ports), (inside p vga_ports);
    cbn [Nat.b2n Nat.add] in H; (lia || by rewrite !andb_false_r).
Qed.

(** The USB setter, for a controller whose registers are clear of the other windows. *)
Lemma set_usb_ok t grant base : tss_ok t -> usb_clear base ->
  exists t', tss_set_usb_io t grant base = Some t' /\ tss_ok t' /\ grants t' = <[5%nat := b2z (c_true grant && c_true base)]> (grants t)
    /\ (g_tss_usb_granted t' = 1 -> g_tss_usb_base t' = base).
Proof.
  intros Ht Hb. unfold tss_set_usb_io. change TSS_IO_BITMAP_BYTES with 8192. set (g := b2z (c_true grant && c_true base)).
  destruct ((g_tss_usb_granted t =? g) && (negb (c_true g) || (g_tss_usb_base t =? base))) eqn:E.
  { apply andb_true_iff in E as [E Eb]. apply Z.eqb_eq in E. exists t. split; [done|]. split; [done|]. split; [rewrite <- E; done|].
    intros H1. rewrite <- E, H1 in Eb. by apply Z.eqb_eq in Eb. }
  assert (H1 : exists m, (if (g_tss_usb_granted t =? 1) && c_true (g_tss_usb_base t)
    then io_bitmap_apply_usb (Some (tss_bitmap t)) 8192 (g_tss_usb_base t) 0 else Some (Some (tss_bitmap t))) = Some (Some m) /\
    bitmap_ok m /\ forall q, is_port q -> open_in m q = opened_fixed t q).
  { destruct (Z.eqb_spec (g_tss_usb_granted t) 1) as [E1|E1]; cbn [andb].
    - destruct (tok_usb t Ht E1) as [Hn Hc]. unfold io_bitmap_apply_usb, c_true. rewrite (proj2 (Z.eqb_neq _ _) Hn). cbn [negb].
      destruct (set_ports_spec (usb_ports (g_tss_usb_base t)) (tss_bitmap t) 0 (tok_bitmap t Ht) (usb_ports_ok _)) as (m & -> & Hm & Ho).
      exists m. split; [done|]. split; [done|]. intros q Hq. rewrite Ho, (tok_open t Ht) by done. fold (inside q (usb_ports (g_tss_usb_base t))).
      destruct (inside q (usb_ports (g_tss_usb_base t))) eqn:Ei; [by rewrite (usb_not_fixed _ _ _ Hc Ei)|]. unfold opened. rewrite Ei, andb_false_r. by rewrite orb_false_r.
    - exists (tss_bitmap t). split; [done|]. split; [apply Ht|]. intros q Hq. rewrite (tok_open t Ht) by done. unfold opened.
      rewrite (proj2 (Z.eqb_neq _ _) E1). cbn [andb]. by rewrite orb_false_r. }
  destruct H1 as (m & -> & Hm & Ho). rewrite some_bind.
  destruct (c_true g) eqn:Eg; cbn [Z.eqb].
  - assert (Hg : g = 1 /\ base <> 0).
    { subst g. destruct (c_true grant) eqn:E1, (c_true base) eqn:E2; cbn in Eg; try done. split; [done|]. unfold c_true in E2. by apply negb_true_iff, Z.eqb_neq in E2. }
    destruct Hg as [Eg1 Hb0]. unfold io_bitmap_apply_usb. rewrite (proj2 (Z.eqb_neq _ _) Hb0).
    destruct (set_ports_spec (usb_ports base) m 1 Hm (usb_ports_ok _)) as (m2 & -> & Hm2 & Ho2). rewrite some_bind. eexists. split; [done|]. split; [|by split].
    split; [done| |done]. intros q Hq. cbn [tss_bitmap default from_option id]. rewrite Ho2, Ho by done. fold (inside q (usb_ports base)). unfold opened.
    cbn [g_tss_ata_granted g_tss_nic_granted g_tss_pci_granted g_tss_ps2_granted g_tss_serial_granted g_tss_vga_granted g_tss_usb_granted g_tss_usb_base].
    rewrite Eg1. cbn [Z.eqb Pos.eqb andb]. destruct (inside q (usb_ports base)); [by rewrite orb_true_r|by rewrite orb_false_r].
  - rewrite some_bind. eexists. split; [done|]. split; [|by split].
    assert (Eg0 : g =? 1 = false) by (subst g; by destruct (_ && _)).
    split; [done| |intros Hx; cbn in Hx; by rewrite Hx in Eg0]. intros q Hq. cbn [tss_bitmap default from_option id]. rewrite Ho by done. unfold opened.
    cbn [g_tss_ata_granted g_tss_nic_granted g_tss_pci_granted g_tss_ps2_granted g_tss_serial_granted g_tss_vga_granted g_tss_usb_granted g_tss_usb_base].
    rewrite Eg0. cbn [andb]. by rewrite orb_false_r.
Qed.

Lemma all_closed n p : 0 <= n -> (Z.to_nat (Z.shiftr p 3) < Z.to_nat n)%nat -> 0 <= Z.land p 7 < 8 -> open_in (replicate (Z.to_nat n) 255) p = false.
Proof.
  intros Hn Hp Hk. unfold open_in. rewrite lookup_replicate_2 by done. cbn [default from_option id].
  change 255 with (Z.ones 8). by rewrite Z.ones_spec_low by lia.
Qed.

(** At boot every port is closed. *)
Lemma tss_init_ok t : exists t', tss_init t = Some t' /\ tss_ok t' /\ grants t' = replicate 7 0.
Proof.
  assert (Hgen : forall n, 0 <= n -> st_bytes (replicate (Z.to_nat n) 0) 0 (replicate (Z.to_nat n) 255) = Some (replicate (Z.to_nat n) 255)).
  { intros n Hn. rewrite st_bytes_ok by (unfold blen; rewrite ?length_replicate; lia). unfold patch. rewrite Z2Nat.inj_0, take_0, drop_ge by (rewrite !length_replicate; lia).
    by rewrite app_nil_r. }
  unfold tss_init, io_bitmap_deny_all. rewrite Hgen, !some_bind by done. eexists. split; [done|]. split; [|done]. split; cbn [tss_bitmap default from_option id].
  - split; [unfold blen; by rewrite length_replicate, Z2Nat.id|]. apply Forall_replicate. unfold is_u8. lia.
  - intros p Hp. destruct (port_parts p Hp) as (Hb & Hk & _). rewrite all_closed; [done|done| |done]. change TSS_IO_BITMAP_BYTES with 8192. lia.
  - done.
Qed.
