(* ===== verification/DevService.v ===== *)
(** * Ring 3 device drivers: kernel/device_service.c

    Who owns the PS/2 controller, COM1, the VGA console and the USB controller; the
    PS/2 interrupt sequence, the serial transmit ring, the pending VGA frame and the
    watchdog.  A pointer to write one value is modelled by returning the value. *)

From Stdlib Require Import ZArith Lia.
From stdpp Require Import base numbers option tactics list.
From S2P Require Import Prelude Bytes NetBuf NetSum.

Definition DEVICE_RESPAWN_LIMIT : Z := 4.
Definition DEVICE_STALL_TICKS : Z := 5.
Definition DEVICE_INFLIGHT_STALE : Z := 50.
Definition DEVICE_SERIAL_RING : Z := 8192.
Definition DEVSVC_SERIAL_BATCH : Z := 64.

Definition DEV_PS2 : Z := 0.
Definition DEV_SERIAL : Z := 1.
Definition DEV_VGA : Z := 2.
Definition DEV_USB : Z := 3.
Definition DEV_COUNT : Z := 4.

Definition DEVSVC_QUEUED : Z := 0.
Definition DEVSVC_DIRECT : Z := 1.
Definition DEVSVC_FLUSH : Z := 2.

Definition DEVSVC_W_PS2_DRAIN : Z := 1.
Definition DEVSVC_W_SERIAL_FLUSH : Z := 2.
Definition DEVSVC_W_CHECK_OWNERS : Z := 4.
Definition DEVSVC_W_VGA_REPAINT : Z := 8.

Record dev_owner_t := mk_dev_owner { owner : Z; handed_off : Z; respawns : Z }.

Record ps2_t := mk_ps2 {
  ps2_seq : Z; ps2_served_seq : Z; ps2_pending_since : Z; ps2_pending : Z;
  ps2_irqs : Z; ps2_events : Z; ps2_ring0_bytes : Z; ps2_stalls : Z; ps2_last_progress : Z
}.

Record ser_t := mk_ser {
  ser_ring : bytes; ser_head : Z; ser_tail : Z;
  ser_inflight : Z; ser_inflight_since : Z; ser_last_take : Z;
  ser_ring3_bytes : Z; ser_ring0_bytes : Z; ser_stalls : Z; ser_overflows : Z; ser_rx_bytes : Z
}.

Record vga_t := mk_vga {
  vga_pending : Z; vga_pending_since : Z; vga_seq : Z;
  vga_ring3_frames : Z; vga_ring0_frames : Z; vga_stalls : Z
}.

Record usb_t := mk_usb { usb_present : Z; usb_tds : Z; usb_rejected : Z; usb_reports : Z; usb_stops : Z; usb_done : Z }.

Record devsvc_t := mk_devsvc {
  g_dev : list dev_owner_t; g_ps2 : ps2_t; g_ser : ser_t; g_vga : vga_t; g_usb : usb_t; g_last_owner_check : Z
}.

Definition with_dev (s : devsvc_t) (d : list dev_owner_t) : devsvc_t := mk_devsvc d (g_ps2 s) (g_ser s) (g_vga s) (g_usb s) (g_last_owner_check s).
Definition with_ps2 (s : devsvc_t) (p : ps2_t) : devsvc_t := mk_devsvc (g_dev s) p (g_ser s) (g_vga s) (g_usb s) (g_last_owner_check s).
Definition with_ser (s : devsvc_t) (r : ser_t) : devsvc_t := mk_devsvc (g_dev s) (g_ps2 s) r (g_vga s) (g_usb s) (g_last_owner_check s).
Definition with_vga (s : devsvc_t) (v : vga_t) : devsvc_t := mk_devsvc (g_dev s) (g_ps2 s) (g_ser s) v (g_usb s) (g_last_owner_check s).
Definition with_usb (s : devsvc_t) (u : usb_t) : devsvc_t := mk_devsvc (g_dev s) (g_ps2 s) (g_ser s) (g_vga s) u (g_last_owner_check s).
Definition with_check (s : devsvc_t) (now : Z) : devsvc_t := mk_devsvc (g_dev s) (g_ps2 s) (g_ser s) (g_vga s) (g_usb s) now.

Definition zero_dev : dev_owner_t := mk_dev_owner 0 0 0.
Definition dev_at (s : devsvc_t) (dev : Z) : dev_owner_t := default zero_dev (g_dev s !! Z.to_nat dev).
Definition dev_known (dev : Z) : bool := (0 <=? dev) && (dev <? DEV_COUNT).
Definition upd_dev (s : devsvc_t) (dev : Z) (f : dev_owner_t -> dev_owner_t) : devsvc_t := with_dev s (alter f (Z.to_nat dev) (g_dev s)).

(** The fields one operation changes. *)
Definition ps2_wait (p : ps2_t) (since pending : Z) : ps2_t :=
  mk_ps2 (ps2_seq p) (ps2_served_seq p) since pending (ps2_irqs p) (ps2_events p) (ps2_ring0_bytes p) (ps2_stalls p) (ps2_last_progress p).
Definition ser_flight (r : ser_t) (inflight since last : Z) : ser_t :=
  mk_ser (ser_ring r) (ser_head r) (ser_tail r) inflight since last (ser_ring3_bytes r) (ser_ring0_bytes r) (ser_stalls r) (ser_overflows r) (ser_rx_bytes r).
Definition ser_move (r : ser_t) (ring : bytes) (head tail : Z) : ser_t :=
  mk_ser ring head tail (ser_inflight r) (ser_inflight_since r) (ser_last_take r) (ser_ring3_bytes r) (ser_ring0_bytes r) (ser_stalls r) (ser_overflows r) (ser_rx_bytes r).
Definition ser_count (r : ser_t) (ring3 ring0 stalls overflows rx : Z) : ser_t :=
  mk_ser (ser_ring r) (ser_head r) (ser_tail r) (ser_inflight r) (ser_inflight_since r) (ser_last_take r)
    (u32 (ser_ring3_bytes r + ring3)) (u32 (ser_ring0_bytes r + ring0)) (u32 (ser_stalls r + stalls)) (u32 (ser_overflows r + overflows)) (u32 (ser_rx_bytes r + rx)).
Definition vga_wait (v : vga_t) (pending since : Z) : vga_t :=
  mk_vga pending since (vga_seq v) (vga_ring3_frames v) (vga_ring0_frames v) (vga_stalls v).
Definition vga_count (v : vga_t) (seq ring3 ring0 stalls : Z) : vga_t :=
  mk_vga (vga_pending v) (vga_pending_since v) (u32 (vga_seq v + seq)) (u32 (vga_ring3_frames v + ring3)) (u32 (vga_ring0_frames v + ring0)) (u32 (vga_stalls v + stalls)).
Definition usb_count (u : usb_t) (tds rejected reports stops : Z) : usb_t :=
  mk_usb (usb_present u) (u32 (usb_tds u + tds)) (u32 (usb_rejected u + rejected)) (u32 (usb_reports u + reports)) (u32 (usb_stops u + stops)) (usb_done u).
Definition usb_set (u : usb_t) (present done : Z) : usb_t := mk_usb present (usb_tds u) (usb_rejected u) (usb_reports u) (usb_stops u) done.

Definition devsvc_reset : devsvc_t :=
  mk_devsvc (replicate 4 zero_dev) (mk_ps2 0 0 0 0 0 0 0 0 0)
    (mk_ser (replicate (Z.to_nat DEVICE_SERIAL_RING) 0) 0 0 0 0 0 0 0 0 0 0) (mk_vga 0 0 0 0 0 0) (mk_usb 0 0 0 0 0 0) 0.

(** ** Owners *)

Definition devsvc_set_owner (s : devsvc_t) (dev pid : Z) : devsvc_t :=
  if negb (dev_known dev) then s
  else
    let s := upd_dev s dev (fun d => mk_dev_owner pid (if 0 <? pid then 1 else handed_off d) (respawns d)) in
    let s := if dev =? DEV_PS2 then with_ps2 s (ps2_wait (g_ps2 s) (ps2_pending_since (g_ps2 s)) 0) else s in
    let s := if dev =? DEV_SERIAL then with_ser s (ser_flight (g_ser s) 0 (ser_inflight_since (g_ser s)) (ser_last_take (g_ser s))) else s in
    if dev =? DEV_VGA then with_vga s (vga_wait (g_vga s) (if 0 <? pid then 1 else 0) (vga_pending_since (g_vga s))) else s.

Definition devsvc_owner (s : devsvc_t) (dev : Z) : Z := if dev_known dev then owner (dev_at s dev) else 0.

Definition devsvc_owner_gone (s : devsvc_t) (dev : Z) : devsvc_t :=
  if negb (dev_known dev) then s
  else
    let s := upd_dev s dev (fun d => mk_dev_owner 0 (handed_off d) (respawns d)) in
    let s := if dev =? DEV_SERIAL then with_ser s (ser_flight (g_ser s) 0 (ser_inflight_since (g_ser s)) (ser_last_take (g_ser s))) else s in
    let s := if dev =? DEV_VGA then with_vga s (vga_wait (g_vga s) 0 (vga_pending_since (g_vga s))) else s in
    if dev =? DEV_USB then with_usb s (usb_set (g_usb s) (usb_present (g_usb s)) 0) else s.

Definition devsvc_handed_off (s : devsvc_t) (dev : Z) : Z := if dev_known dev then handed_off (dev_at s dev) else 0.

Definition devsvc_should_respawn (s : devsvc_t) (dev : Z) (pending_alive : Z) : Z :=
  if negb (dev_known dev) then 0
  else if (0 <? owner (dev_at s dev)) || c_true pending_alive then 0
  else if negb (c_true (handed_off (dev_at s dev))) then 0
  else b2z (respawns (dev_at s dev) <? DEVICE_RESPAWN_LIMIT).

Definition devsvc_note_respawn (s : devsvc_t) (dev : Z) : devsvc_t :=
  if dev_known dev then upd_dev s dev (fun d => mk_dev_owner (owner d) (handed_off d) (u32 (respawns d + 1))) else s.

(** ** PS/2 *)

Definition devsvc_ps2_irq (s : devsvc_t) (now : Z) : Z * devsvc_t :=
  let p := g_ps2 s in
  let seq := u32 (ps2_seq p + 1) in
  let '(since, pending) := if negb (c_true (ps2_pending p)) then (now, 1) else (ps2_pending_since p, ps2_pending p) in
  (seq, with_ps2 s (mk_ps2 seq (ps2_served_seq p) since pending (u32 (ps2_irqs p + 1)) (ps2_events p) (ps2_ring0_bytes p) (ps2_stalls p) (ps2_last_progress p))).

Definition devsvc_ps2_seq (s : devsvc_t) : Z := ps2_seq (g_ps2 s).

Definition devsvc_ps2_served (s : devsvc_t) (seq events now : Z) : Z * devsvc_t :=
  let p := g_ps2 s in
  let ev := u32 (ps2_events p + events) in
  if negb (seq =? ps2_seq p) then
    (0, with_ps2 s (mk_ps2 (ps2_seq p) (ps2_served_seq p) (if c_true (ps2_pending p) then now else ps2_pending_since p) (ps2_pending p)
                      (ps2_irqs p) ev (ps2_ring0_bytes p) (ps2_stalls p) now))
  else (1, with_ps2 s (mk_ps2 (ps2_seq p) seq (ps2_pending_since p) 0 (ps2_irqs p) ev (ps2_ring0_bytes p) (ps2_stalls p) now)).

Definition devsvc_ps2_pending (s : devsvc_t) : Z := ps2_pending (g_ps2 s).

Definition devsvc_ps2_note_ring0 (s : devsvc_t) (n : Z) : devsvc_t :=
  let p := g_ps2 s in
  with_ps2 s (mk_ps2 (ps2_seq p) (ps2_served_seq p) (ps2_pending_since p) (ps2_pending p) (ps2_irqs p) (ps2_events p) (u32 (ps2_ring0_bytes p + n)) (ps2_stalls p) (ps2_last_progress p)).

(** ** The serial transmit ring *)

(** [(i + 1) & (DEVICE_SERIAL_RING - 1)] *)
Definition ring_next (i : Z) : Z := Z.land (u32 (i + 1)) (DEVICE_SERIAL_RING - 1).

Definition devsvc_serial_put (s : devsvc_t) (c : Z) : option (Z * devsvc_t) :=
  let r := g_ser s in
  let next := ring_next (ser_head r) in
  if owner (dev_at s DEV_SERIAL) <=? 0 then Some (if ser_head r =? ser_tail r then DEVSVC_DIRECT else DEVSVC_FLUSH, s)
  else if next =? ser_tail r then Some (DEVSVC_FLUSH, s)
  else
    ring ← st (ser_ring r) (ser_head r) c;
    Some (DEVSVC_QUEUED, with_ser s (ser_move r ring next (ser_tail r))).

Definition devsvc_serial_queued (s : devsvc_t) : Z := Z.land (u32 (ser_head (g_ser s) - ser_tail (g_ser s))) (DEVICE_SERIAL_RING - 1).

(** The copy loop: [cap] bytes at most. *)
Fixpoint take_loop (cap : nat) (r : ser_t) (out : bytes) : option (bytes * ser_t) :=
  match cap with
  | O => Some (out, r)
  | S cap =>
      if ser_tail r =? ser_head r then Some (out, r)
      else
        c ← ld (ser_ring r) (ser_tail r);
        take_loop cap (ser_move r (ser_ring r) (ser_head r) (ring_next (ser_tail r))) (out ++ [c])
  end.

(** [out]: whether a buffer of [cap] bytes was given; the bytes written there are returned. *)
Definition devsvc_serial_take (s : devsvc_t) (out : bool) (cap now : Z) : option (bytes * devsvc_t) :=
  let r := ser_flight (g_ser s) 0 (ser_inflight_since (g_ser s)) now in
  '(chunk, r) ← take_loop (if out then Z.to_nat cap else O) r [];
  Some (chunk, with_ser s (if blen chunk =? 0 then r else ser_count (ser_flight r 1 now (ser_last_take r)) (blen chunk) 0 0 0 0)).

Definition devsvc_serial_done (s : devsvc_t) (now : Z) : devsvc_t :=
  with_ser s (ser_flight (g_ser s) 0 (ser_inflight_since (g_ser s)) now).

(** [None] inside: the ring is empty. *)
Definition devsvc_serial_pop_ring0 (s : devsvc_t) : option (option Z * devsvc_t) :=
  let r := g_ser s in
  if ser_tail r =? ser_head r then Some (None, s)
  else
    c ← ld (ser_ring r) (ser_tail r);
    Some (Some c, with_ser s (ser_count (ser_move r (ser_ring r) (ser_head r) (ring_next (ser_tail r))) 0 1 0 0 0)).

Definition devsvc_serial_note_overflow (s : devsvc_t) : devsvc_t := with_ser s (ser_count (g_ser s) 0 0 0 1 0).
Definition devsvc_serial_note_rx (s : devsvc_t) (n : Z) : devsvc_t := with_ser s (ser_count (g_ser s) 0 0 0 0 n).

(** ** The watchdog *)

Definition devsvc_wants_cpu (s : devsvc_t) (dev now : Z) : Z :=
  if negb (dev_known dev) || (owner (dev_at s dev) <=? 0) then 0
  else if dev =? DEV_PS2 then b2z (c_true (ps2_pending (g_ps2 s)))
  else if dev =? DEV_VGA then b2z (c_true (vga_pending (g_vga s)) && (2 <=? u32 (now - vga_pending_since (g_vga s))))
  else if dev =? DEV_USB then b2z (c_true (usb_done (g_usb s)))
  else if (ser_head (g_ser s) =? ser_tail (g_ser s)) || c_true (ser_inflight (g_ser s)) then 0
  else b2z ((DEVSVC_SERIAL_BATCH <=? devsvc_serial_queued s) || (2 <=? u32 (now - ser_last_take (g_ser s)))).

(** PS/2: an interrupt the owner has not served in time. *)
Definition watch_ps2 (s : devsvc_t) (now : Z) : Z * devsvc_t :=
  let p := g_ps2 s in
  if (0 <? owner (dev_at s DEV_PS2)) && c_true (ps2_pending p) && (DEVICE_STALL_TICKS <=? u32 (now - ps2_pending_since p))
  then (DEVSVC_W_PS2_DRAIN, with_ps2 s (mk_ps2 (ps2_seq p) (ps2_served_seq p) (ps2_pending_since p) 0 (ps2_irqs p) (ps2_events p) (ps2_ring0_bytes p)
                                   (u32 (ps2_stalls p + 1)) (ps2_last_progress p)))
  else (0, s).

(** Serial: leftovers of a dead driver, or a driver that takes nothing. *)
Definition watch_serial (s : devsvc_t) (now : Z) : Z * devsvc_t :=
  let r := g_ser s in
  if ser_head r =? ser_tail r then (0, s)
  else if owner (dev_at s DEV_SERIAL) <=? 0 then (DEVSVC_W_SERIAL_FLUSH, s)
  else if c_true (ser_inflight r) then
    (0, if DEVICE_INFLIGHT_STALE <=? u32 (now - ser_inflight_since r) then with_ser s (ser_count (ser_flight r (ser_inflight r) now (ser_last_take r)) 0 0 1 0 0) else s)
  else if DEVICE_STALL_TICKS <=? u32 (now - ser_last_take r) then (DEVSVC_W_SERIAL_FLUSH, with_ser s (ser_count r 0 0 1 0 0))
  else (0, s).

(** VGA: a frame the owner did not take. *)
Definition watch_vga (s : devsvc_t) (now : Z) : Z * devsvc_t :=
  let v := g_vga s in
  if (0 <? owner (dev_at s DEV_VGA)) && c_true (vga_pending v) && (DEVICE_STALL_TICKS <=? u32 (now - vga_pending_since v))
  then (DEVSVC_W_VGA_REPAINT, with_vga s (vga_count (vga_wait v 0 (vga_pending_since v)) 0 0 0 1))
  else (0, s).

Definition watch_owners (s : devsvc_t) (now : Z) : Z * devsvc_t :=
  if 10 <=? u32 (now - g_last_owner_check s) then
    (if existsb (fun dev => 0 <? owner (dev_at s dev)) [DEV_PS2; DEV_SERIAL; DEV_VGA; DEV_USB] then DEVSVC_W_CHECK_OWNERS else 0, with_check s now)
  else (0, s).

Definition devsvc_watchdog (s : devsvc_t) (now : Z) : Z * devsvc_t :=
  let '(a, s) := watch_ps2 s now in
  let '(b, s) := watch_serial s now in
  let '(c, s) := watch_vga s now in
  let '(d, s) := watch_owners s now in
  (Z.lor (Z.lor (Z.lor a b) c) d, s).

(** ** VGA and USB *)

Definition devsvc_vga_present (s : devsvc_t) (now : Z) : Z * devsvc_t :=
  let v := vga_count (g_vga s) 1 0 0 0 in
  if owner (dev_at s DEV_VGA) <=? 0 then
    (DEVSVC_DIRECT, with_vga s (if c_true (handed_off (dev_at s DEV_VGA)) then vga_count v 0 0 1 0 else v))
  else (DEVSVC_QUEUED, with_vga s (if negb (c_true (vga_pending v)) then vga_wait v 1 now else v)).

Definition devsvc_vga_pending (s : devsvc_t) : Z := vga_pending (g_vga s).

Definition devsvc_vga_take (s : devsvc_t) (now : Z) : Z * devsvc_t :=
  let v := g_vga s in
  if negb (c_true (vga_pending v)) || (owner (dev_at s DEV_VGA) <=? 0) then (0, s)
  else (1, with_vga s (vga_count (vga_wait v 0 (vga_pending_since v)) 0 1 0 0)).

Definition devsvc_vga_note_ring0 (s : devsvc_t) : devsvc_t := with_vga s (vga_count (g_vga s) 0 0 1 0).

Definition devsvc_usb_set_present (s : devsvc_t) (present : Z) : devsvc_t := with_usb s (usb_set (g_usb s) (b2z (c_true present)) (usb_done (g_usb s))).
Definition devsvc_usb_present (s : devsvc_t) : Z := usb_present (g_usb s).
Definition devsvc_usb_note_td (s : devsvc_t) (accepted : Z) : devsvc_t :=
  with_usb s (if c_true accepted then usb_count (g_usb s) 1 0 0 0 else usb_count (g_usb s) 0 1 0 0).
Definition devsvc_usb_note_report (s : devsvc_t) : devsvc_t := with_usb s (usb_count (g_usb s) 0 0 1 0).
Definition devsvc_usb_note_stop (s : devsvc_t) : devsvc_t := with_usb s (usb_count (g_usb s) 0 0 0 1).
Definition devsvc_usb_set_done (s : devsvc_t) (done : Z) : devsvc_t :=
  with_usb s (usb_set (g_usb s) (usb_present (g_usb s)) (b2z (c_true done && (0 <? owner (dev_at s DEV_USB))))).
Definition devsvc_usb_done (s : devsvc_t) : Z := usb_done (g_usb s).

Record os_device_status_t := mk_dev_status {
  ds_ps2_owner : Z; ds_serial_owner : Z; ds_ps2_irqs : Z; ds_ps2_events : Z; ds_ps2_ring0_bytes : Z; ds_ps2_stalls : Z; ds_ps2_respawns : Z;
  ds_serial_ring3_bytes : Z; ds_serial_ring0_bytes : Z; ds_serial_stalls : Z; ds_serial_overflows : Z; ds_serial_rx_bytes : Z; ds_serial_respawns : Z;
  ds_ps2_handed_off : Z; ds_serial_handed_off : Z;
  ds_mouse_packets : Z; ds_mouse_dx : Z; ds_mouse_dy : Z; ds_mouse_buttons : Z; ds_kbd_mods : Z;
  ds_vga_owner : Z; ds_vga_handed_off : Z; ds_vga_ring3_frames : Z; ds_vga_ring0_frames : Z; ds_vga_stalls : Z; ds_vga_respawns : Z;
  ds_usb_owner : Z; ds_usb_handed_off : Z; ds_usb_present : Z; ds_usb_tds : Z; ds_usb_rejected : Z; ds_usb_reports : Z; ds_usb_stops : Z; ds_usb_respawns : Z
}.

Definition devsvc_status (s : devsvc_t) : os_device_status_t :=
  let d := dev_at s in
  let p := g_ps2 s in let r := g_ser s in let v := g_vga s in let u := g_usb s in
  mk_dev_status (owner (d DEV_PS2)) (owner (d DEV_SERIAL)) (ps2_irqs p) (ps2_events p) (ps2_ring0_bytes p) (ps2_stalls p) (respawns (d DEV_PS2))
    (ser_ring3_bytes r) (ser_ring0_bytes r) (ser_stalls r) (ser_overflows r) (ser_rx_bytes r) (respawns (d DEV_SERIAL))
    (handed_off (d DEV_PS2)) (handed_off (d DEV_SERIAL))
    0 0 0 0 0
    (owner (d DEV_VGA)) (handed_off (d DEV_VGA)) (vga_ring3_frames v) (vga_ring0_frames v) (vga_stalls v) (respawns (d DEV_VGA))
    (owner (d DEV_USB)) (handed_off (d DEV_USB)) (usb_present u) (usb_tds u) (usb_rejected u) (usb_reports u) (usb_stops u) (respawns (d DEV_USB)).
