(* ===== verification/DevSerial.v ===== *)
(** * The serial line: write_serial of kernel/kernel.c over the ring of kernel/device_service.c

    Bytes printed by the kernel reach COM1 through the Ring 3 driver, or from Ring 0 when
    there is no driver, when the ring is full or when the driver stalls.  [com1_t] is the
    bookkeeping with the bytes the line has received. *)

From Stdlib Require Import ZArith Lia.
From stdpp Require Import base numbers option tactics list relations.
From S2P Require Import Prelude Bytes NetBuf NetSum DevService.

Record com1_t := mk_com1 { c_dev : devsvc_t; c_line : bytes }.

Definition serial_ring0_out (s : com1_t) (a : Z) : com1_t := mk_com1 (c_dev s) (c_line s ++ [u8 a]).

(** [while (devsvc_serial_pop_ring0(&c)) serial_ring0_out(c);] with fuel. *)
Fixpoint flush_loop (fuel : nat) (s : com1_t) : option com1_t :=
  match fuel with
  | O => None
  | S fuel =>
      '(c, d) ← devsvc_serial_pop_ring0 (c_dev s);
      match c with
      | None => Some s
      | Some c => flush_loop fuel (serial_ring0_out (mk_com1 d (c_line s)) c)
      end
  end.

Definition serial_ring0_flush (s : com1_t) : option com1_t := flush_loop (Z.to_nat DEVICE_SERIAL_RING) s.

(** The answer: whether the driver is to be woken. *)
Definition write_serial (panic : bool) (s : com1_t) (a : Z) : option (bool * com1_t) :=
  if panic then s ← serial_ring0_flush s; Some (false, serial_ring0_out s a)
  else
    '(verdict, d) ← devsvc_serial_put (c_dev s) (u8 a);
    let s := mk_com1 d (c_line s) in
    if verdict =? DEVSVC_FLUSH then
      let s := if 0 <? devsvc_owner (c_dev s) DEV_SERIAL then mk_com1 (devsvc_serial_note_overflow (c_dev s)) (c_line s) else s in
      s ← serial_ring0_flush s;
      '(verdict, d) ← devsvc_serial_put (c_dev s) (u8 a);
      let s := mk_com1 d (c_line s) in
      Some (negb (verdict =? DEVSVC_DIRECT), if verdict =? DEVSVC_DIRECT then serial_ring0_out s a else s)
    else if verdict =? DEVSVC_DIRECT then Some (false, serial_ring0_out s a)
    else Some (true, s).

(** The serial part of [device_watchdog_tick]: [alive] tells whether the owner still runs. *)
Definition serial_tick (s : com1_t) (now : Z) (alive : bool) : option com1_t :=
  let '(act, d) := devsvc_watchdog (c_dev s) now in
  let '(act, d) := if c_true (Z.land act DEVSVC_W_CHECK_OWNERS) && (0 <? devsvc_owner d DEV_SERIAL) && negb alive
                   then (Z.lor act DEVSVC_W_SERIAL_FLUSH, devsvc_owner_gone d DEV_SERIAL) else (act, d) in
  let s := mk_com1 d (c_line s) in
  if c_true (Z.land act DEVSVC_W_SERIAL_FLUSH) then serial_ring0_flush s else Some s.

(** ** The ring as a queue *)

Fixpoint ring_from (ring : bytes) (tail : Z) (n : nat) : bytes :=
  match n with
  | O => []
  | S n => default 0 (ring !! Z.to_nat tail) :: ring_from ring (ring_next tail) n
  end.

Definition ring_count (r : ser_t) : Z := (ser_head r - ser_tail r) mod 8192.
Definition queued (r : ser_t) : bytes := ring_from (ser_ring r) (ser_tail r) (Z.to_nat (ring_count r)).

Record ser_ok (r : ser_t) : Prop := mk_ser_ok {
  so_ring : blen (ser_ring r) = 8192;
  so_bytes : Forall is_u8 (ser_ring r);
  so_head : 0 <= ser_head r < 8192;
  so_tail : 0 <= ser_tail r < 8192
}.

Lemma ring_next_mod i : 0 <= i < 8192 -> ring_next i = (i + 1) mod 8192.
Proof.
  intros Hi. unfold ring_next. change (DEVICE_SERIAL_RING - 1) with (Z.ones 13). rewrite Z.land_ones by lia. unfold u32. change (2 ^ 13) with 8192. zlia.
Qed.

Lemma ring_next_range i : 0 <= i < 8192 -> 0 <= ring_next i < 8192.
Proof. intros Hi. rewrite ring_next_mod by done. zlia. Qed.

Lemma queued_count r d : ser_ok r -> g_ser d = r -> devsvc_serial_queued d = Z.of_nat (length (queued r)).
Proof.
  intros Hr <-. unfold devsvc_serial_queued, queued. change (DEVICE_SERIAL_RING - 1) with (Z.ones 13). rewrite Z.land_ones by lia.
  assert (L : forall n ring t, length (ring_from ring t n) = n) by (induction n; intros; cbn [ring_from length]; auto).
  rewrite L. unfold ring_count. rewrite Z2Nat.id by (apply Z.mod_pos_bound; lia). unfold u32. change (2 ^ 13) with 8192. zlia.
Qed.

Lemma ring_lookup r i : ser_ok r -> 0 <= i < 8192 -> ld (ser_ring r) i = Some (default 0 (ser_ring r !! Z.to_nat i)).
Proof.
  intros Hr Hi. pose proof (so_ring r Hr) as Hl. unfold blen in Hl. unfold ld. rewrite (proj2 (Z.leb_le 0 i)) by lia.
  by destruct (lookup_lt_is_Some_2 (ser_ring r) (Z.to_nat i)) as [b ->]; [lia|].
Qed.

Lemma ring_byte r i : ser_ok r -> is_u8 (default 0 (ser_ring r !! i)).
Proof.
  intros Hr. destruct (ser_ring r !! i) eqn:E; cbn; [|unfold is_u8; lia]. pose proof (so_bytes r Hr) as Hb. rewrite Forall_lookup in Hb. by eapply Hb.
Qed.

Lemma ring_empty r : ser_ok r -> ser_tail r = ser_head r <-> queued r = [].
Proof.
  intros Hr. pose proof (so_head r Hr). pose proof (so_tail r Hr). unfold queued, ring_count. split.
  - intros ->. by rewrite Z.sub_diag.
  - intros E. destruct (Z.to_nat ((ser_head r - ser_tail r) mod 8192)) eqn:En; [zlia|done].
Qed.

(** The queue moves its front to the reader. *)
Lemma ring_pop r : ser_ok r -> ser_tail r <> ser_head r ->
  let c := default 0 (ser_ring r !! Z.to_nat (ser_tail r)) in
  let r' := ser_move r (ser_ring r) (ser_head r) (ring_next (ser_tail r)) in
  queued r = c :: queued r' /\ ser_ok r'.
Proof.
  intros Hr Hn c r'. pose proof (so_head r Hr) as Hh. pose proof (so_tail r Hr) as Ht. split.
  - unfold queued, ring_count. subst r' c. cbn [ser_ring ser_head ser_tail ser_move].
    replace (Z.to_nat ((ser_head r - ser_tail r) mod 8192)) with (S (Z.to_nat ((ser_head r - ring_next (ser_tail r)) mod 8192))); [done|].
    rewrite ring_next_mod by done. zlia.
  - split; [apply Hr|apply Hr|done|]. by apply ring_next_range.
Qed.

Lemma ring_from_app ring c head : 0 <= head < 8192 -> blen ring = 8192 -> forall n tail, 0 <= tail < 8192 -> Z.of_nat n < 8192 -> (tail + Z.of_nat n) mod 8192 = head ->
  ring_from (<[Z.to_nat head := c]> ring) tail (S n) = ring_from ring tail n ++ [c].
Proof.
  intros Hh Hl. unfold blen in Hl. induction n as [|n IH]; intros tail Ht Hn E.
  - assert (tail = head) as -> by zlia. cbn [ring_from app]. by rewrite list_lookup_insert_eq by lia.
  - change (ring_from (<[Z.to_nat head:=c]> ring) tail (S (S n)))
      with (default 0 (<[Z.to_nat head:=c]> ring !! Z.to_nat tail) :: ring_from (<[Z.to_nat head:=c]> ring) (ring_next tail) (S n)).
    rewrite IH; [|by apply ring_next_range|lia|rewrite ring_next_mod by done; zlia].
    cbn [ring_from app]. f_equal. rewrite list_lookup_insert_ne; [done|]. intros E2. assert (tail = head) by lia. zlia.
Qed.

(** A byte is queued at the end. *)
Lemma ring_push r c : ser_ok r -> is_u8 c -> ring_next (ser_head r) <> ser_tail r ->
  exists ring, st (ser_ring r) (ser_head r) c = Some ring /\
    let r' := ser_move r ring (ring_next (ser_head r)) (ser_tail r) in queued r' = queued r ++ [c] /\ ser_ok r'.
Proof.
  intros Hr Hc Hn. pose proof (so_head r Hr) as Hh. pose proof (so_tail r Hr) as Ht. pose proof (so_ring r Hr) as Hl.
  exists (<[Z.to_nat (ser_head r) := c]> (ser_ring r)). split; [apply st_Some; unfold blen in Hl; split; [lia|done]|].
  intros r'. subst r'. rewrite ring_next_mod in Hn by done. split.
  - unfold queued at 1, ring_count. cbn [ser_ring ser_head ser_tail ser_move]. unfold queued. rewrite ring_next_mod by done.
    replace (Z.to_nat (((ser_head r + 1) mod 8192 - ser_tail r) mod 8192)) with (S (Z.to_nat (ring_count r))) by (unfold ring_count; zlia).
    apply ring_from_app; try done; unfold ring_count; zlia.
  - split; cbn [ser_ring ser_head ser_tail ser_move]; [unfold blen; rewrite length_insert; exact Hl| |by apply ring_next_range|done].
    apply Forall_insert; [apply Hr|done].
Qed.

(** * Nothing printed on the serial line is lost or reordered

    The operations above on the queue, then the system of the kernel, the Ring 3
    driver and the watchdog as a step relation.  Every byte printed is on the line, in the
    chunk the driver holds or in the ring, in the order it was printed. *)

(** What the serial operations leave alone. *)
Definition same_rest (d d' : devsvc_t) : Prop :=
  g_dev d' = g_dev d /\ g_ps2 d' = g_ps2 d /\ g_vga d' = g_vga d /\ g_usb d' = g_usb d.

Definition wait (d : devsvc_t) : bytes := queued (g_ser d).
Definition dev_ser_ok (d : devsvc_t) : Prop := ser_ok (g_ser d).
Definition drives (d : devsvc_t) : bool := 0 <? owner (dev_at d DEV_SERIAL).

Lemma same_rest_trans d d' d'' : same_rest d d' -> same_rest d' d'' -> same_rest d d''.
Proof. intros (E1 & E2 & E3 & E4) (F1 & F2 & F3 & F4). unfold same_rest. by rewrite F1, F2, F3, F4. Qed.

Lemma same_rest_ser d r : same_rest d (with_ser d r).
Proof. done. Qed.

Lemma same_drives d d' : same_rest d d' -> drives d' = drives d.
Proof. intros (E & _). unfold drives, dev_at. by rewrite E. Qed.

Lemma queued_moves r r' : ser_ring r' = ser_ring r -> ser_head r' = ser_head r -> ser_tail r' = ser_tail r -> queued r' = queued r /\ (ser_ok r -> ser_ok r').
Proof.
  intros E1 E2 E3. unfold queued, ring_count. rewrite E1, E2, E3. split; [done|]. intros [? ? ? ?]. split; rewrite ?E1, ?E2, ?E3; done.
Qed.

Lemma queued_short r : ser_ok r -> (length (queued r) < Z.to_nat 8192)%nat.
Proof.
  intros Hr. pose proof (queued_count r (with_ser devsvc_reset r) Hr eq_refl) as E. unfold devsvc_serial_queued in E.
  change (DEVICE_SERIAL_RING - 1) with (Z.ones 13) in E. rewrite Z.land_ones in E by lia. change (2 ^ 13) with 8192 in E. cbn [g_ser with_ser] in E. zlia.
Qed.

(** One pop. *)
Lemma pop_spec d : dev_ser_ok d ->
  match wait d with
  | [] => devsvc_serial_pop_ring0 d = Some (None, d)
  | c :: q => exists d', devsvc_serial_pop_ring0 d = Some (Some c, d') /\ is_u8 c /\ wait d' = q /\ dev_ser_ok d' /\ same_rest d d' /\ ser_inflight (g_ser d') = ser_inflight (g_ser d)
  end.
Proof.
  intros Hd. unfold wait, devsvc_serial_pop_ring0. destruct (Z.eqb_spec (ser_tail (g_ser d)) (ser_head (g_ser d))) as [E|E].
  - apply (ring_empty _ Hd) in E. by rewrite E.
  - destruct (ring_pop _ Hd E) as [Eq Hok]. rewrite Eq, (ring_lookup _ _ Hd (so_tail _ Hd)), some_bind. eexists. split; [done|].
    cbn [g_ser with_ser]. match goal with |- context [ser_count ?r 0 1 0 0 0] => destruct (queued_moves r (ser_count r 0 1 0 0 0) eq_refl eq_refl eq_refl) as [Em Hm] end.
    split; [apply (ring_byte _ _ Hd)|]. split; [exact Em|]. split; [by apply Hm|]. split; [apply same_rest_ser|done].
Qed.

Lemma flush_loop_spec fuel : forall s, dev_ser_ok (c_dev s) -> (length (wait (c_dev s)) < fuel)%nat ->
  exists d', flush_loop fuel s = Some (mk_com1 d' (c_line s ++ wait (c_dev s))) /\ wait d' = [] /\ dev_ser_ok d' /\ same_rest (c_dev s) d'
    /\ ser_inflight (g_ser d') = ser_inflight (g_ser (c_dev s)).
Proof.
  induction fuel as [|fuel IH]; intros [d line] Hs Hf; cbn [c_dev c_line] in *; [lia|]. cbn [flush_loop c_dev c_line]. pose proof (pop_spec d Hs) as Hp.
  destruct (wait d) as [|c q] eqn:Eq.
  - rewrite Hp, some_bind. exists d. rewrite app_nil_r. split; [done|]. split; [done|]. split; [done|]. split; [done|done].
  - destruct Hp as (d1 & -> & Hc & E1 & H1 & S1 & I1). rewrite some_bind. cbn [length] in Hf.
    destruct (IH (serial_ring0_out (mk_com1 d1 line) c)) as (d2 & E2 & W2 & H2 & S2 & I2); [done|cbn [serial_ring0_out c_dev]; rewrite E1; lia|].
    cbn [serial_ring0_out c_dev c_line] in *. rewrite E2, E1, (u8_id c Hc), <- app_assoc. exists d2. split; [done|]. split; [done|]. split; [done|].
    split; [by eapply same_rest_trans|congruence].
Qed.

(** Ring 0 writes the whole queue on the line. *)
Lemma flush_spec s : dev_ser_ok (c_dev s) ->
  exists d', serial_ring0_flush s = Some (mk_com1 d' (c_line s ++ wait (c_dev s))) /\ wait d' = [] /\ dev_ser_ok d' /\ same_rest (c_dev s) d'
    /\ ser_inflight (g_ser d') = ser_inflight (g_ser (c_dev s)).
Proof. intros Hs. apply flush_loop_spec; [done|]. apply queued_short, Hs. Qed.

Definition full (d : devsvc_t) : bool := ring_next (ser_head (g_ser d)) =? ser_tail (g_ser d).

(** What a put answers and does. *)
Lemma put_spec d c : dev_ser_ok d -> is_u8 c ->
  if drives d then
    if full d then devsvc_serial_put d c = Some (DEVSVC_FLUSH, d)
    else exists d', devsvc_serial_put d c = Some (DEVSVC_QUEUED, d') /\ wait d' = wait d ++ [c] /\ dev_ser_ok d' /\ same_rest d d' /\ ser_inflight (g_ser d') = ser_inflight (g_ser d)
  else devsvc_serial_put d c = Some (if bool_decide (wait d = []) then DEVSVC_DIRECT else DEVSVC_FLUSH, d).
Proof.
  intros Hd Hc. unfold drives, full, devsvc_serial_put. destruct (Z.ltb_spec 0 (owner (dev_at d DEV_SERIAL))) as [Ho|Ho].
  - rewrite (proj2 (Z.leb_gt _ 0)) by lia. destruct (Z.eqb_spec (ring_next (ser_head (g_ser d))) (ser_tail (g_ser d))) as [E|E]; [done|].
    destruct (ring_push _ c Hd Hc E) as (ring & -> & Eq & Hok). rewrite some_bind. eexists. split; [done|]. split; [exact Eq|]. split; [exact Hok|]. split; [apply same_rest_ser|done].
  - rewrite (proj2 (Z.leb_le _ 0)) by lia. rewrite Z.eqb_sym. destruct (Z.eqb_spec (ser_tail (g_ser d)) (ser_head (g_ser d))) as [E|E].
    + rewrite bool_decide_eq_true_2 by (by apply (ring_empty _ Hd)). done.
    + rewrite bool_decide_eq_false_2; [done|]. intros E2. by apply E, (ring_empty _ Hd).
Qed.

Lemma empty_not_full d : dev_ser_ok d -> wait d = [] -> full d = false.
Proof.
  intros Hd Hw. apply (ring_empty _ Hd) in Hw. unfold full. pose proof (so_head _ Hd). rewrite Hw, ring_next_mod by done. apply Z.eqb_neq. zlia.
Qed.

(** A print: Ring 0 flushes when it must, the byte comes last. *)
Lemma write_serial_spec s a : dev_ser_ok (c_dev s) ->
  exists w d' line, write_serial false s a = Some (w, mk_com1 d' line) /\ dev_ser_ok d' /\ same_rest (c_dev s) d'
    /\ line ++ wait d' = c_line s ++ wait (c_dev s) ++ [u8 a] /\ ser_inflight (g_ser d') = ser_inflight (g_ser (c_dev s))
    /\ (drives (c_dev s) = true -> line = if full (c_dev s) then c_line s ++ wait (c_dev s) else c_line s).
Proof.
  destruct s as [d line]. cbn [c_dev c_line]. intros Hd. assert (Hu : is_u8 (u8 a)) by apply u8_range. unfold write_serial. cbn [c_dev c_line].
  pose proof (put_spec d (u8 a) Hd Hu) as Hp.
  assert (Hflush : forall d0, dev_ser_ok d0 -> same_rest d d0 -> wait d0 = wait d -> ser_inflight (g_ser d0) = ser_inflight (g_ser d) -> exists w d' line',
    (s ← serial_ring0_flush (mk_com1 d0 line); '(verdict, d) ← devsvc_serial_put (c_dev s) (u8 a);
     Some (negb (verdict =? DEVSVC_DIRECT), if verdict =? DEVSVC_DIRECT then serial_ring0_out (mk_com1 d (c_line s)) a else mk_com1 d (c_line s)))
    = Some (w, mk_com1 d' line') /\ dev_ser_ok d' /\ same_rest d d' /\ line' ++ wait d' = line ++ wait d ++ [u8 a] /\ ser_inflight (g_ser d') = ser_inflight (g_ser d)
    /\ (drives d = true -> line' = line ++ wait d)).
  { intros d0 H0 S0 W0 I0. destruct (flush_spec (mk_com1 d0 line) H0) as (d1 & -> & W1 & H1 & S1 & I1). cbn [c_dev c_line] in *. rewrite some_bind. cbn [c_dev c_line].
    assert (Ed : drives d1 = drives d) by (rewrite (same_drives _ _ S1); by apply same_drives).
    pose proof (put_spec d1 (u8 a) H1 Hu) as Hp1. rewrite (empty_not_full d1 H1 W1) in Hp1. destruct (drives d1) eqn:Ed1.
    - destruct Hp1 as (d2 & -> & W2 & H2 & S2 & I2). rewrite some_bind. cbn. eexists _, d2, _. split; [done|]. split; [done|].
      split; [eapply same_rest_trans; [|done]; by eapply same_rest_trans|]. split; [rewrite W2, W1, W0; by simplify_list_eq|]. split; [congruence|by rewrite W0].
    - rewrite Hp1, bool_decide_eq_true_2, some_bind by done. cbn. eexists _, d1, _. split; [done|]. split; [done|].
      split; [by eapply same_rest_trans|]. split; [rewrite W1, W0; by simplify_list_eq|]. split; [congruence|by rewrite <- Ed]. }
  destruct (drives d) eqn:Ed; [destruct (full d) eqn:Ef|].
  - rewrite Hp, some_bind. cbn [Z.eqb DEVSVC_FLUSH Pos.eqb]. change (devsvc_owner d DEV_SERIAL) with (owner (dev_at d DEV_SERIAL)). fold (drives d). rewrite Ed.
    destruct (queued_moves (g_ser d) (ser_count (g_ser d) 0 0 0 1 0) eq_refl eq_refl eq_refl) as [Em Hm].
    destruct (Hflush (devsvc_serial_note_overflow d)) as (w & d' & line' & -> & ? & ? & ? & ? & Hl); [by apply Hm|apply same_rest_ser|exact Em|done|].
    exists w, d', line'. do 5 (split; [done|]). done.
  - destruct Hp as (d1 & -> & W1 & H1 & S1 & I1). rewrite some_bind. cbn. exists true, d1, line. split; [done|]. split; [done|]. split; [done|]. rewrite W1. by do 2 (split; [done|]).
  - rewrite Hp, some_bind. case_bool_decide as Ew; cbn [Z.eqb DEVSVC_FLUSH DEVSVC_DIRECT Pos.eqb].
    + eexists _, d, _. split; [done|]. split; [done|]. split; [done|]. rewrite Ew, app_nil_r. done.
    + change (devsvc_owner d DEV_SERIAL) with (owner (dev_at d DEV_SERIAL)). fold (drives d). rewrite Ed.
      destruct (Hflush d) as (w & d' & line' & -> & ? & ? & ? & ? & Hl); [done..|]. exists w, d', line'. repeat (split; [done|]). done.
Qed.

(** ** The driver takes a chunk *)

Lemma take_loop_spec cap : forall r out, ser_ok r ->
  exists tail, take_loop cap r out = Some (out ++ take cap (queued r), ser_move r (ser_ring r) (ser_head r) tail)
    /\ queued (ser_move r (ser_ring r) (ser_head r) tail) = drop cap (queued r) /\ ser_ok (ser_move r (ser_ring r) (ser_head r) tail).
Proof.
  induction cap as [|cap IH]; intros r out Hr; cbn [take_loop].
  - exists (ser_tail r). rewrite take_0, app_nil_r, drop_0. by destruct r.
  - destruct (Z.eqb_spec (ser_tail r) (ser_head r)) as [E|E].
    + exists (ser_tail r). apply (ring_empty r Hr) in E. rewrite E. cbn [take drop]. rewrite app_nil_r. split; [by destruct r|]. split; [|by destruct r]. rewrite <- E. by destruct r.
    + rewrite (ring_lookup r _ Hr (so_tail r Hr)), some_bind. destruct (ring_pop r Hr E) as [Eq Hok].
      destruct (IH _ (out ++ [default 0 (ser_ring r !! Z.to_nat (ser_tail r))]) Hok) as (tail & Et & Eq2 & Hok2). exists tail.
      rewrite Et, Eq, <- app_assoc. cbn [app take drop ser_move ser_ring ser_head] in *. done.
Qed.

Lemma take_spec d cap now : dev_ser_ok d -> 0 <= cap ->
  exists d', devsvc_serial_take d true cap now = Some (take (Z.to_nat cap) (wait d), d') /\ wait d' = drop (Z.to_nat cap) (wait d) /\ dev_ser_ok d' /\ same_rest d d'
    /\ (take (Z.to_nat cap) (wait d) <> [] -> ser_inflight (g_ser d') = 1).
Proof.
  intros Hd Hc. unfold devsvc_serial_take.
  destruct (queued_moves (g_ser d) (ser_flight (g_ser d) 0 (ser_inflight_since (g_ser d)) now) eq_refl eq_refl eq_refl) as [E1 H1].
  destruct (take_loop_spec (Z.to_nat cap) _ [] (H1 Hd)) as (tail & -> & Eq & Hok). rewrite some_bind, E1. cbn [app]. fold (wait d). eexists. split; [done|].
  unfold wait at 1, dev_ser_ok. cbn [g_ser with_ser]. rewrite E1 in Eq. case_if.
  - split; [exact Eq|]. split; [exact Hok|]. split; [apply same_rest_ser|]. intros Hn. destruct (take (Z.to_nat cap) (wait d)); [done|]. unfold blen in *. cbn [length] in *. lia.
  - match goal with |- context [ser_count ?x ?n 0 0 0 0] => match x with ser_flight ?y _ _ _ =>
      destruct (queued_moves y (ser_count x n 0 0 0 0) eq_refl eq_refl eq_refl) as [E2 H2] end end.
    rewrite E2. split; [exact Eq|]. split; [by apply H2|]. split; [apply same_rest_ser|done].
Qed.

(** ** The watchdog *)

Lemma watch_serial_spec d now : dev_ser_ok d -> forall b d', watch_serial d now = (b, d') ->
  (b = 0 \/ b = DEVSVC_W_SERIAL_FLUSH /\ (drives d = true -> ser_inflight (g_ser d) = 0))
  /\ wait d' = wait d /\ dev_ser_ok d' /\ same_rest d d' /\ ser_inflight (g_ser d') = ser_inflight (g_ser d).
Proof.
  intros Hd b d'. unfold watch_serial, drives.
  assert (Hsame : (wait d = wait d /\ dev_ser_ok d /\ same_rest d d /\ ser_inflight (g_ser d) = ser_inflight (g_ser d))) by done.
  assert (Hmove : forall r, ser_ring r = ser_ring (g_ser d) -> ser_head r = ser_head (g_ser d) -> ser_tail r = ser_tail (g_ser d) -> ser_inflight r = ser_inflight (g_ser d) ->
    wait (with_ser d r) = wait d /\ dev_ser_ok (with_ser d r) /\ same_rest d (with_ser d r) /\ ser_inflight (g_ser (with_ser d r)) = ser_inflight (g_ser d)).
  { intros r E1 E2 E3 E4. destruct (queued_moves (g_ser d) r E1 E2 E3) as [E H]. split; [exact E|]. split; [by apply H|]. split; [apply same_rest_ser|done]. }
  case_if; [intros [= <- <-]; by split; [left|]|]. case_if; [intros [= <- <-]; split; [right|done]; split; [done|intros; bsimp; lia]|].
  case_if; [intros [= <- <-]; split; [by left|]; case_if; [by apply Hmove|done]|]. case_if; intros [= <- <-].
  - split; [right; split; [done|]|by apply Hmove]. intros _. unfold c_true in *. bsimp. done.
  - by split; [left|].
Qed.

Lemma watchdog_spec d now : dev_ser_ok d -> exists act d', devsvc_watchdog d now = (act, d') /\ wait d' = wait d /\ dev_ser_ok d' /\ g_dev d' = g_dev d
  /\ ser_inflight (g_ser d') = ser_inflight (g_ser d) /\ (c_true (Z.land act DEVSVC_W_SERIAL_FLUSH) = true -> drives d = true -> ser_inflight (g_ser d) = 0).
Proof.
  intros Hd. unfold devsvc_watchdog.
  assert (H1 : forall a d1, watch_ps2 d now = (a, d1) -> (a = 0 \/ a = 1) /\ g_ser d1 = g_ser d /\ g_dev d1 = g_dev d).
  { intros a d1. unfold watch_ps2. case_if; intros [= <- <-]; (split; [by auto|done]). }
  destruct (watch_ps2 d now) as [a d1]. destruct (H1 a d1 eq_refl) as (Ha & Es1 & Ed1).
  assert (Hd1 : dev_ser_ok d1) by (unfold dev_ser_ok; by rewrite Es1). pose proof (watch_serial_spec d1 now Hd1) as H2.
  destruct (watch_serial d1 now) as [b d2]. destruct (H2 b d2 eq_refl) as (Hb & Ew & Hd2 & (Ed2 & _) & Ei).
  assert (H3 : forall c d3, watch_vga d2 now = (c, d3) -> (c = 0 \/ c = 8) /\ g_ser d3 = g_ser d2 /\ g_dev d3 = g_dev d2).
  { intros c d3. unfold watch_vga. case_if; intros [= <- <-]; (split; [by auto|done]). }
  destruct (watch_vga d2 now) as [c d3]. destruct (H3 c d3 eq_refl) as (Hc & Es3 & Ed3).
  assert (H4 : forall e d4, watch_owners d3 now = (e, d4) -> (e = 0 \/ e = 4) /\ g_ser d4 = g_ser d3 /\ g_dev d4 = g_dev d3).
  { intros e d4. unfold watch_owners. case_if; intros [= <- <-]; (split; [|done]); [match goal with |- (if ?b then _ else _) = _ \/ _ => destruct b end; first [by left|by right]|by left]. }
  destruct (watch_owners d3 now) as [e d4]. destruct (H4 e d4 eq_refl) as (He & Es4 & Ed4).
  eexists _, d4. split; [done|]. unfold wait, dev_ser_ok. rewrite Es4, Es3. unfold wait in Ew. rewrite Ew, Es1.
  split; [done|]. split; [exact Hd2|]. split; [congruence|]. split; [congruence|].
  unfold drives, dev_at in Hb. rewrite Ed1 in Hb. fold (dev_at d DEV_SERIAL) in Hb. rewrite Es1 in Hb. intros Hf Hdr. unfold drives in Hdr.
  destruct Hb as [->|[-> Hb]]; [|by apply Hb]. destruct Ha as [-> | ->], Hc as [-> | ->], He as [-> | ->]; by vm_compute in Hf.
Qed.

Lemma flush_bit act : c_true (Z.land (Z.lor act DEVSVC_W_SERIAL_FLUSH) DEVSVC_W_SERIAL_FLUSH) = true.
Proof.
  unfold c_true. apply negb_true_iff, Z.eqb_neq. intros E. apply (f_equal (fun z => Z.testbit z 1)) in E. by rewrite Z.land_spec, Z.lor_spec, orb_true_r in E.
Qed.

Lemma gone_drives d : drives (devsvc_owner_gone d DEV_SERIAL) = false.
Proof.
  unfold drives, dev_at. change (g_dev (devsvc_owner_gone d DEV_SERIAL)) with (alter (fun o => mk_dev_owner 0 (handed_off o) (respawns o)) 1%nat (g_dev d)).
  change (Z.to_nat DEV_SERIAL) with 1%nat. rewrite list_lookup_alter_eq. by destruct (g_dev d !! 1%nat).
Qed.

(** A tick: the owner is gone, or the line only gets what the ring held and nothing while
    the driver holds a chunk. *)
Lemma tick_spec s now alive : dev_ser_ok (c_dev s) -> exists d' line', serial_tick s now alive = Some (mk_com1 d' line') /\ dev_ser_ok d'
  /\ line' ++ wait d' = c_line s ++ wait (c_dev s)
  /\ (drives d' = true -> drives (c_dev s) = true /\ ser_inflight (g_ser d') = ser_inflight (g_ser (c_dev s)) /\ (ser_inflight (g_ser (c_dev s)) <> 0 -> line' = c_line s)).
Proof.
  destruct s as [d line]. cbn [c_dev c_line]. intros Hd. unfold serial_tick. cbn [c_dev c_line].
  destruct (watchdog_spec d now Hd) as (act & d1 & -> & Ew & Hd1 & Ed & Ei & Hf).
  assert (Edr : drives d1 = drives d) by (unfold drives, dev_at; by rewrite Ed). case_if.
  - destruct (queued_moves (g_ser d1) (g_ser (devsvc_owner_gone d1 DEV_SERIAL)) eq_refl eq_refl eq_refl) as [Eg Hg].
    assert (Hnd : drives (devsvc_owner_gone d1 DEV_SERIAL) = false).
    { apply gone_drives. }
    rewrite flush_bit.
    destruct (flush_spec (mk_com1 (devsvc_owner_gone d1 DEV_SERIAL) line) (Hg Hd1)) as (d2 & -> & W2 & H2 & S2 & I2). cbn [c_dev c_line] in *.
    eexists d2, _. split; [done|]. split; [done|]. split; [rewrite W2, app_nil_r; unfold wait in *; by rewrite Eg, Ew|].
    rewrite (same_drives _ _ S2), Hnd. done.
  - case_if.
    + destruct (flush_spec (mk_com1 d1 line) Hd1) as (d2 & -> & W2 & H2 & S2 & I2). cbn [c_dev c_line] in *. eexists d2, _. split; [done|]. split; [done|].
      split; [by rewrite W2, app_nil_r, Ew|]. rewrite (same_drives _ _ S2), Edr. intros Hdr. split; [done|]. split; [congruence|]. intros Hn. exfalso. apply Hn. by apply Hf.
    + exists d1, line. split; [done|]. split; [done|]. split; [by rewrite Ew|]. rewrite Edr. done.
Qed.

(** ** The system *)

(** The serial line with its Ring 3 driver: [sy_chunk] is what the driver took and has not
    written yet; [sy_sent] what was printed and [sy_lost] how many bytes went with a
    driver that lost the line. *)
Record serial_sys := mk_sys { sy_com : com1_t; sy_chunk : bytes; sy_sent : bytes; sy_lost : nat }.

Definition sy_dev (y : serial_sys) : devsvc_t := c_dev (sy_com y).

(** The driver that held a chunk has lost the line. *)
Definition driver_lost (c : com1_t) (y : serial_sys) : serial_sys := mk_sys c [] (sy_sent y) (sy_lost y + length (sy_chunk y)).

Inductive serial_step : serial_sys -> serial_sys -> Prop :=
  (** the kernel prints; a full ring only while the driver holds nothing *)
  | S_print y a w c : (drives (sy_dev y) && full (sy_dev y) = true -> sy_chunk y = []) -> write_serial false (sy_com y) a = Some (w, c) ->
      serial_step y (mk_sys c (sy_chunk y) (sy_sent y ++ [u8 a]) (sy_lost y))
  (** SERIAL_TAKE of the owner: first the previous chunk is acknowledged, ... *)
  | S_done y now : drives (sy_dev y) = true -> sy_chunk y = [] ->
      serial_step y (mk_sys (mk_com1 (devsvc_serial_done (sy_dev y) now) (c_line (sy_com y))) [] (sy_sent y) (sy_lost y))
  (** ... then the next one is taken *)
  | S_take y cap now chunk d : drives (sy_dev y) = true -> sy_chunk y = [] -> 1 <= cap <= 64 -> devsvc_serial_take (sy_dev y) true cap now = Some (chunk, d) ->
      serial_step y (mk_sys (mk_com1 d (c_line (sy_com y))) chunk (sy_sent y) (sy_lost y))
  (** the driver writes a byte of its chunk *)
  | S_out y b chunk : sy_chunk y = b :: chunk -> serial_step y (mk_sys (mk_com1 (sy_dev y) (c_line (sy_com y) ++ [b])) chunk (sy_sent y) (sy_lost y))
  (** the timer *)
  | S_tick y now alive c : serial_tick (sy_com y) now alive = Some c ->
      serial_step y (if drives (c_dev c) then mk_sys c (sy_chunk y) (sy_sent y) (sy_lost y) else driver_lost c y)
  (** the supervisor finds the owner dead *)
  | S_gone y : serial_step y (driver_lost (mk_com1 (devsvc_owner_gone (sy_dev y) DEV_SERIAL) (c_line (sy_com y))) y)
  (** SERIAL_CLAIM of a new driver *)
  | S_claim y pid : 0 < pid -> serial_step y (driver_lost (mk_com1 (devsvc_set_owner (sy_dev y) DEV_SERIAL pid) (c_line (sy_com y))) y)
  (** an operation on another device *)
  | S_other y d : g_ser d = g_ser (sy_dev y) -> dev_at d DEV_SERIAL = dev_at (sy_dev y) DEV_SERIAL ->
      serial_step y (mk_sys (mk_com1 d (c_line (sy_com y))) (sy_chunk y) (sy_sent y) (sy_lost y)).

Definition serial_boot : serial_sys := mk_sys (mk_com1 devsvc_reset []) [] [] 0.

(** Where every byte is: on the line, with the driver, in the ring. *)
Definition in_order (y : serial_sys) : bytes := c_line (sy_com y) ++ sy_chunk y ++ wait (sy_dev y).

Record serial_inv (y : serial_sys) : Prop := mk_serial_inv {
  si_ok : dev_ser_ok (sy_dev y);
  si_held : sy_chunk y <> [] -> drives (sy_dev y) = true /\ ser_inflight (g_ser (sy_dev y)) = 1;
  si_order : in_order y `sublist_of` sy_sent y;
  si_count : length (sy_sent y) = (length (in_order y) + sy_lost y)%nat
}.

(** A step that loses nothing. *)
Lemma inv_moves y y' : serial_inv y -> dev_ser_ok (sy_dev y') -> (sy_chunk y' <> [] -> drives (sy_dev y') = true /\ ser_inflight (g_ser (sy_dev y')) = 1) ->
  in_order y' = in_order y -> sy_sent y' = sy_sent y -> sy_lost y' = sy_lost y -> serial_inv y'.
Proof. intros [? ? ? ?] Hd Hh E1 E2 E3. split; [done|done|by rewrite E1, E2|by rewrite E1, E2, E3]. Qed.

(** A step that loses the chunk of a driver. *)
Lemma inv_lost y c : serial_inv y -> dev_ser_ok (c_dev c) -> c_line c ++ wait (c_dev c) = c_line (sy_com y) ++ wait (sy_dev y) -> serial_inv (driver_lost c y).
Proof.
  intros [? ? Ho Hc] Hd E. assert (Ei : in_order (driver_lost c y) = c_line (sy_com y) ++ wait (sy_dev y)) by exact E.
  split; [done|done| |].
  - rewrite Ei. etransitivity; [|exact Ho]. unfold in_order. apply sublist_app; [done|]. by apply sublist_inserts_l.
  - rewrite Ei. cbn [driver_lost sy_sent sy_lost]. rewrite Hc. unfold in_order. rewrite !length_app. lia.
Qed.

Lemma app_mid_nil {A} (l1 l2 k1 k2 : list A) : l1 ++ l2 = k1 ++ k2 -> l1 ++ [] ++ l2 = k1 ++ [] ++ k2.
Proof. done. Qed.

Lemma step_serial_inv y y' : serial_inv y -> serial_step y y' -> serial_inv y'.
Proof.
  intros Hi Hst. revert Hi. destruct Hst as [y0 a w c Hg Hw|y0 now Hd Hc|y0 cap now chunk d Hd Hc Hcap Ht|y0 b chunk Hc|y0 now alive c Ht|y0|y0 pid Hp|y0 d Hs Hd]; intros Hi; destruct (Hi) as [Hok Hh Ho Hn].
  - destruct (write_serial_spec (sy_com y0) a Hok) as (w' & d' & line & E & Hd' & Sr & El & Ei & Hf). rewrite E in Hw. injection Hw as <- <-.
    assert (Eo : in_order (mk_sys (mk_com1 d' line) (sy_chunk y0) (sy_sent y0 ++ [u8 a]) (sy_lost y0)) = in_order y0 ++ [u8 a]).
    { unfold in_order, sy_dev in *. cbn [sy_com sy_chunk c_line c_dev]. destruct (sy_chunk y0) as [|b ch] eqn:Ech; [cbn [app]; by rewrite El, app_assoc|].
      destruct Hh as [Hdr _]; [done|]. rewrite Hdr in Hg, Hf. cbn [andb] in Hg. specialize (Hf eq_refl). destruct (full (c_dev (sy_com y0))); [by specialize (Hg eq_refl)|].
      subst line. apply app_inv_head in El. rewrite El. by simplify_list_eq. }
    split; [done| | |].
    + cbn [sy_chunk sy_dev sy_com c_dev]. intros Hne. destruct (Hh Hne) as [H1 H2]. split; [by rewrite (same_drives _ _ Sr)|by rewrite Ei].
    + rewrite Eo. cbn [sy_sent]. by apply sublist_app.
    + rewrite Eo. cbn [sy_sent sy_lost]. rewrite !length_app, Hn. lia.
  - destruct (queued_moves (g_ser (sy_dev y0)) (g_ser (devsvc_serial_done (sy_dev y0) now)) eq_refl eq_refl eq_refl) as [Eq Hq].
    apply (inv_moves y0); [done|by apply Hq|done| |done|done]. unfold in_order. rewrite Hc. cbn [sy_com sy_chunk c_line sy_dev c_dev]. unfold wait. by rewrite Eq.
  - destruct (take_spec (sy_dev y0) cap now Hok) as (d' & E & Ew & Hd' & Sr & Hfl); [lia|]. rewrite E in Ht. injection Ht as <- <-.
    apply (inv_moves y0); [done|exact Hd'| | |done|done].
    + cbn [sy_chunk sy_dev sy_com c_dev]. intros Hne. split; [by rewrite (same_drives _ _ Sr)|by apply Hfl].
    + unfold in_order. rewrite Hc. cbn [sy_com sy_chunk c_line sy_dev c_dev app]. by rewrite Ew, take_drop.
  - apply (inv_moves y0); [done|done| | |done|done].
    + intros _. apply Hh. by rewrite Hc.
    + unfold in_order. rewrite Hc. cbn [sy_com sy_chunk c_line sy_dev c_dev]. by simplify_list_eq.
  - destruct (tick_spec (sy_com y0) now alive Hok) as (d' & line & E & Hd' & El & Hdr). rewrite E in Ht. injection Ht as <-. cbn [c_dev].
    destruct (drives d') eqn:Ed; [|by apply inv_lost]. destruct (Hdr eq_refl) as (Hdr0 & Hi0 & Hl0). apply (inv_moves y0); [done|exact Hd'| | |done|done].
    + cbn [sy_chunk sy_dev sy_com c_dev]. intros Hne. split; [done|]. rewrite Hi0. by apply Hh.
    + unfold in_order, sy_dev in *. cbn [sy_com sy_chunk c_line c_dev]. destruct (sy_chunk y0) as [|b ch] eqn:Ech; [by apply app_mid_nil|].
      destruct Hh as [_ Hf]; [done|]. rewrite Hl0 in El |- * by (rewrite Hf; done). apply app_inv_head in El. by rewrite El.
  - destruct (queued_moves (g_ser (sy_dev y0)) (g_ser (devsvc_owner_gone (sy_dev y0) DEV_SERIAL)) eq_refl eq_refl eq_refl) as [Eq Hq].
    apply inv_lost; [done|by apply Hq|]. cbn [c_line c_dev]. unfold wait. by rewrite Eq.
  - destruct (queued_moves (g_ser (sy_dev y0)) (g_ser (devsvc_set_owner (sy_dev y0) DEV_SERIAL pid)) eq_refl eq_refl eq_refl) as [Eq Hq].
    apply inv_lost; [done|by apply Hq|]. cbn [c_line c_dev]. unfold wait. by rewrite Eq.
  - apply (inv_moves y0); [done| | | |done|done]; unfold dev_ser_ok, in_order, wait, drives, sy_dev in *; cbn [sy_com c_dev c_line sy_chunk]; rewrite ?Hs, ?Hd; done.
Qed.

Lemma boot_serial_inv : serial_inv serial_boot.
Proof.
  split; [| |done|done].
  - unfold serial_boot, sy_dev, dev_ser_ok. cbn [sy_com c_dev devsvc_reset g_ser].  unfold DEVICE_SERIAL_RING.
    split; cbn [ser_ring ser_head ser_tail]; [unfold blen; rewrite length_replicate; by rewrite Z2Nat.id|apply Forall_replicate; unfold is_u8; lia|lia|lia].
  - by intros [].
Qed.

Lemma sublist_full {A} (l k : list A) : l `sublist_of` k -> length l = length k -> l = k.
Proof.
  induction 1 as [|x l k Hs IH|x l k Hs IH]; intros E; cbn [length] in E; [done|f_equal; apply IH; lia|].
  apply sublist_length in Hs. lia.
Qed.

(** C23. Serial order: from boot, whatever the kernel prints outside a panic, the driver does
    and the timer finds, as long as no print meets a full ring while the driver holds a
    chunk (the case of [overflow_overtakes_chunk]), printing always answers; the bytes on
    the line, then those the driver holds, then those in the ring are printed bytes in the
    order they were printed; the only ones missing are the chunks of drivers that lost the
    line, and without such a loss every byte printed is there. *)
Theorem serial_line_keeps_order y : rtc serial_step serial_boot y ->
  (forall a, is_Some (write_serial false (sy_com y) a))
  /\ c_line (sy_com y) ++ sy_chunk y ++ wait (sy_dev y) `sublist_of` sy_sent y
  /\ length (sy_sent y) = (length (c_line (sy_com y) ++ sy_chunk y ++ wait (sy_dev y)) + sy_lost y)%nat
  /\ (sy_lost y = 0%nat -> sy_sent y = c_line (sy_com y) ++ sy_chunk y ++ wait (sy_dev y)).
Proof.
  intros Hr. assert (Hi : serial_inv y) by (apply (rtc_ind_l (fun a => serial_inv a -> serial_inv y) y) in Hr; eauto using boot_serial_inv, step_serial_inv).
  destruct Hi as [Hok _ Ho Hn]. split; [|split; [done|split; [done|]]].
  - intros a. destruct (write_serial_spec (sy_com y) a Hok) as (w & d & line & -> & _). by eexists.
  - intros Hz. symmetry. apply sublist_full; [done|]. unfold in_order in Hn. lia.
Qed.

(** Serial overflow: a print that finds the ring full while the driver holds a chunk
    writes the whole ring on the line at once, before the chunk, and leaves the chunk in
    flight: the order the watchdog keeps is not kept here. *)
Theorem overflow_overtakes_chunk y a : serial_inv y -> sy_chunk y <> [] -> full (sy_dev y) = true ->
  exists w c, write_serial false (sy_com y) a = Some (w, c) /\ c_line c = c_line (sy_com y) ++ wait (sy_dev y) /\ wait (c_dev c) = [u8 a]
    /\ ser_inflight (g_ser (c_dev c)) = 1.
Proof.
  intros [Hok Hh _ _] Hc Hf. destruct (Hh Hc) as [Hd Hi]. destruct (write_serial_spec (sy_com y) a Hok) as (w & d & line & E & _ & _ & El & Ei & Hl).
  unfold sy_dev in *. specialize (Hl Hd). rewrite Hf in Hl. subst line. exists w, (mk_com1 d (c_line (sy_com y) ++ wait (c_dev (sy_com y)))). split; [done|].
  split; [done|]. cbn [c_dev]. split; [|congruence]. rewrite <- app_assoc in El. apply app_inv_head, app_inv_head in El. done.
Qed.

(** ** A run: the driver claims the line, the kernel prints "Hi", the driver takes a byte and writes it *)

Definition run_print (y : serial_sys) (a : Z) : serial_sys :=
  match write_serial false (sy_com y) a with Some (_, c) => mk_sys c (sy_chunk y) (sy_sent y ++ [u8 a]) (sy_lost y) | None => y end.
Definition run_take (y : serial_sys) (cap now : Z) : serial_sys :=
  match devsvc_serial_take (sy_dev y) true cap now with Some (chunk, d) => mk_sys (mk_com1 d (c_line (sy_com y))) chunk (sy_sent y) (sy_lost y) | None => y end.
Definition run_out (y : serial_sys) : serial_sys :=
  match sy_chunk y with b :: chunk => mk_sys (mk_com1 (sy_dev y) (c_line (sy_com y) ++ [b])) chunk (sy_sent y) (sy_lost y) | [] => y end.

Lemma run_print_steps y a : (drives (sy_dev y) && full (sy_dev y) = true -> sy_chunk y = []) -> rtc serial_step y (run_print y a).
Proof. intros Hg. unfold run_print. destruct (write_serial false (sy_com y) a) as [[w c]|] eqn:E; [|done]. apply rtc_once. by eapply S_print. Qed.
Lemma run_take_steps y cap now : drives (sy_dev y) = true -> sy_chunk y = [] -> 1 <= cap <= 64 -> rtc serial_step y (run_take y cap now).
Proof.
  intros Hd Hc Hcap. unfold run_take. destruct (devsvc_serial_take (sy_dev y) true cap now) as [[chunk d]|] eqn:E; [|done]. apply rtc_once. by eapply S_take.
Qed.
Lemma run_out_steps y : rtc serial_step y (run_out y).
Proof. unfold run_out. destruct (sy_chunk y) as [|b ch] eqn:E; [done|]. apply rtc_once. by apply S_out. Qed.

Definition run_claimed : serial_sys := driver_lost (mk_com1 (devsvc_set_owner (sy_dev serial_boot) DEV_SERIAL 7) []) serial_boot.
Definition run_printed : serial_sys := run_print (run_print run_claimed 72) 105.
Definition run_final : serial_sys := run_out (run_take run_printed 1 3).

Lemma run_final_reachable : rtc serial_step serial_boot run_final.
Proof.
  transitivity run_claimed; [apply rtc_once; by apply (S_claim serial_boot 7)|].
  transitivity run_printed; [transitivity (run_print run_claimed 72); apply run_print_steps; intros H; by vm_compute in H|].
  transitivity (run_take run_printed 1 3); [apply run_take_steps; [by vm_compute|by vm_compute|lia]|apply run_out_steps].
Qed.

Lemma serial_line_keeps_order_witness : rtc serial_step serial_boot run_final /\ c_line (sy_com run_final) = [72] /\ wait (sy_dev run_final) = [105] /\
  sy_sent run_final = c_line (sy_com run_final) ++ sy_chunk run_final ++ wait (sy_dev run_final).
Proof.
  split; [exact run_final_reachable|]. split; [by vm_compute|]. split; [by vm_compute|].
  apply (serial_line_keeps_order run_final run_final_reachable). by vm_compute.
Defined.

(** A full ring with a chunk in flight. *)
Definition full_dev : devsvc_t :=
  with_ser (devsvc_set_owner devsvc_reset DEV_SERIAL 7) (mk_ser (replicate (Z.to_nat 8192) 65) 8191 0 1 0 0 0 0 0 0 0).
Definition full_sys : serial_sys := mk_sys (mk_com1 full_dev []) [66] (66 :: wait full_dev) 0.

Lemma full_sys_inv : serial_inv full_sys.
Proof.
  split; [| |done|done].
  - unfold full_sys, sy_dev, dev_ser_ok, full_dev. cbn [sy_com c_dev g_ser with_ser].
    split; cbn [ser_ring ser_head ser_tail]; [unfold blen; rewrite length_replicate; by rewrite Z2Nat.id|apply Forall_replicate; unfold is_u8; lia|lia|lia].
  - by intros _.
Qed.

Lemma overflow_overtakes_chunk_witness : serial_inv full_sys /\ sy_chunk full_sys <> [] /\ full (sy_dev full_sys) = true /\
  exists w c, write_serial false (sy_com full_sys) 67 = Some (w, c) /\ c_line c = c_line (sy_com full_sys) ++ wait (sy_dev full_sys) /\ wait (c_dev c) = [u8 67]
    /\ ser_inflight (g_ser (c_dev c)) = 1.
Proof.
  assert (H1 : sy_chunk full_sys <> []) by done. assert (H2 : full (sy_dev full_sys) = true) by done.
  split; [exact full_sys_inv|]. split; [exact H1|]. split; [exact H2|]. exact (overflow_overtakes_chunk full_sys 67 full_sys_inv H1 H2).
Defined.
