(* ===== verification/NicOwner.v ===== *)
(** * Ownership of the network card: kernel/net_nic_owner.c

    Which process drives the NE2000 (0: the kernel), the interrupts counted for it, the
    counters its stack publishes and the base the counters of dead workers fold into. *)

From Stdlib Require Import ZArith Lia.
From stdpp Require Import base numbers option tactics list.
From S2P Require Import Prelude.

Definition OS_NET_WORKER_REQUIRED : Z := -59.
Definition OS_NET_NIC_ABSENT : Z := -143.

Record os_net_wire_status_t := mk_wire {
  w_connects : Z; w_frames_tx : Z; w_frames_rx : Z; w_arp_tx : Z; w_sends : Z; w_recvs : Z; w_closes : Z; w_refused : Z;
  w_demuxed : Z; w_dropped : Z; w_arp_replies : Z; w_peer_fins : Z; w_bound : Z; w_worker_pid : Z; w_routed : Z
}.

Record os_net_stack_report_t := mk_report {
  r_wire : os_net_wire_status_t; r_llm_status : Z; r_socket_ops : Z; r_wire_ops : Z; r_llm_ops : Z;
  r_rounds : Z; r_frames_built : Z; r_frames_parsed : Z; r_reports : Z
}.

Record os_net_nic_status_t := mk_nic_status {
  n_owner_pid : Z; n_claims : Z; n_reclaims : Z; n_irq_forwarded : Z; n_kernel_refused : Z; n_kernel_gated : Z;
  n_pumps : Z; n_frames_out : Z; n_frames_in : Z; n_worker_tx_ok : Z; n_worker_tx_failed : Z
}.

Record nic_t := mk_nic {
  g_owner : Z; g_pending_irq : Z; g_st : os_net_nic_status_t; g_report : os_net_stack_report_t; g_retired : os_net_wire_status_t; g_live_reports : Z
}.

Definition zero_wire : os_net_wire_status_t := mk_wire 0 0 0 0 0 0 0 0 0 0 0 0 0 0 0.
Definition zero_report : os_net_stack_report_t := mk_report zero_wire 0 0 0 0 0 0 0 0.
Definition zero_nic_status : os_net_nic_status_t := mk_nic_status 0 0 0 0 0 0 0 0 0 0 0.

(** Every counter but [bound] and [worker_pid]. *)
Definition wire_add (a b : os_net_wire_status_t) : os_net_wire_status_t :=
  mk_wire (u32 (w_connects a + w_connects b)) (u32 (w_frames_tx a + w_frames_tx b)) (u32 (w_frames_rx a + w_frames_rx b))
    (u32 (w_arp_tx a + w_arp_tx b)) (u32 (w_sends a + w_sends b)) (u32 (w_recvs a + w_recvs b))
    (u32 (w_closes a + w_closes b)) (u32 (w_refused a + w_refused b)) (u32 (w_demuxed a + w_demuxed b))
    (u32 (w_dropped a + w_dropped b)) (u32 (w_arp_replies a + w_arp_replies b)) (u32 (w_peer_fins a + w_peer_fins b))
    (w_bound a) (w_worker_pid a) (u32 (w_routed a + w_routed b)).

Definition with_reports (r : os_net_stack_report_t) (n : Z) : os_net_stack_report_t :=
  mk_report (r_wire r) (r_llm_status r) (r_socket_ops r) (r_wire_ops r) (r_llm_ops r) (r_rounds r) (r_frames_built r) (r_frames_parsed r) n.
Definition with_worker (w : os_net_wire_status_t) (pid : Z) : os_net_wire_status_t :=
  mk_wire (w_connects w) (w_frames_tx w) (w_frames_rx w) (w_arp_tx w) (w_sends w) (w_recvs w) (w_closes w) (w_refused w)
    (w_demuxed w) (w_dropped w) (w_arp_replies w) (w_peer_fins w) (w_bound w) pid (w_routed w).
Definition with_bound (w : os_net_wire_status_t) (n : Z) : os_net_wire_status_t :=
  mk_wire (w_connects w) (w_frames_tx w) (w_frames_rx w) (w_arp_tx w) (w_sends w) (w_recvs w) (w_closes w) (w_refused w)
    (w_demuxed w) (w_dropped w) (w_arp_replies w) (w_peer_fins w) n (w_worker_pid w) (w_routed w).
Definition with_wire (r : os_net_stack_report_t) (w : os_net_wire_status_t) : os_net_stack_report_t :=
  mk_report w (r_llm_status r) (r_socket_ops r) (r_wire_ops r) (r_llm_ops r) (r_rounds r) (r_frames_built r) (r_frames_parsed r) (r_reports r).
Definition nic_count (t : os_net_nic_status_t) (claims reclaims irq refused gated pumps out_ in_ ok failed : Z) : os_net_nic_status_t :=
  mk_nic_status (n_owner_pid t) (u32 (n_claims t + claims)) (u32 (n_reclaims t + reclaims)) (u32 (n_irq_forwarded t + irq)) (u32 (n_kernel_refused t + refused))
    (u32 (n_kernel_gated t + gated)) (u32 (n_pumps t + pumps)) (u32 (n_frames_out t + out_)) (u32 (n_frames_in t + in_)) (u32 (n_worker_tx_ok t + ok)) (u32 (n_worker_tx_failed t + failed)).
Definition nic_owned (s : nic_t) (o irq : Z) (t : os_net_nic_status_t) : nic_t := mk_nic o irq t (g_report s) (g_retired s) (g_live_reports s).

Definition owner_retire (s : nic_t) : nic_t :=
  mk_nic (g_owner s) (g_pending_irq s) (g_st s) (with_reports zero_report (r_reports (g_report s))) (wire_add (g_retired s) (r_wire (g_report s))) 0.

Definition nic_owner_init : nic_t := mk_nic 0 0 zero_nic_status zero_report zero_wire 0.

Definition nic_owner_claim (s : nic_t) (pid live_worker nic_present : Z) : Z * nic_t :=
  if (pid <=? 0) || negb (pid =? live_worker) then (OS_NET_WORKER_REQUIRED, s)
  else if negb (c_true nic_present) then (OS_NET_NIC_ABSENT, s)
  else if g_owner s =? pid then (0, s)
  else if negb (g_owner s =? 0) then (OS_NET_WORKER_REQUIRED, s)
  else (0, nic_owned s pid 0 (nic_count (g_st s) 1 0 0 0 0 0 0 0 0 0)).

Definition nic_owner_release (s : nic_t) (pid : Z) : Z * nic_t :=
  if (pid <=? 0) || negb (g_owner s =? pid) then (OS_NET_WORKER_REQUIRED, s) else (0, nic_owned s 0 0 (g_st s)).

Definition nic_owner_pid (s : nic_t) : Z := g_owner s.

Definition nic_owner_ports_open (s : nic_t) (task_pid live_worker : Z) : Z :=
  b2z ((0 <? g_owner s) && (task_pid =? g_owner s) && (g_owner s =? live_worker)).

Definition nic_owner_kernel_may_touch (s : nic_t) : Z := b2z (g_owner s =? 0).

Definition nic_owner_drop_if_gone (s : nic_t) (live_worker : Z) : Z * nic_t :=
  if (g_owner s =? 0) || (g_owner s =? live_worker) then (0, s)
  else let s := owner_retire s in (1, nic_owned s 0 0 (g_st s)).

Definition nic_owner_irq (s : nic_t) : Z * nic_t :=
  if g_owner s =? 0 then (0, s)
  else (1, nic_owned s (g_owner s) (u32 (g_pending_irq s + 1)) (nic_count (g_st s) 0 0 1 0 0 0 0 0 0 0)).

Definition nic_owner_irq_take (s : nic_t) (pid : Z) : Z * nic_t :=
  if (pid <=? 0) || negb (pid =? g_owner s) then (0, s) else (g_pending_irq s, nic_owned s (g_owner s) 0 (g_st s)).

Definition nic_owner_note_kernel_refused (s : nic_t) : nic_t := nic_owned s (g_owner s) (g_pending_irq s) (nic_count (g_st s) 0 0 0 1 0 0 0 0 0 0).
Definition nic_owner_note_kernel_gated (s : nic_t) : nic_t := nic_owned s (g_owner s) (g_pending_irq s) (nic_count (g_st s) 0 0 0 0 1 0 0 0 0 0).
Definition nic_owner_note_reclaim (s : nic_t) : nic_t := nic_owned s (g_owner s) (g_pending_irq s) (nic_count (g_st s) 0 1 0 0 0 0 0 0 0 0).
Definition nic_owner_note_pump (s : nic_t) (frames_out frame_in tx_ok tx_failed : Z) : nic_t :=
  nic_owned s (g_owner s) (g_pending_irq s) (nic_count (g_st s) 0 0 0 0 0 1 frames_out frame_in tx_ok tx_failed).

Definition nic_owner_fill_status (s : nic_t) : os_net_nic_status_t :=
  let t := g_st s in
  mk_nic_status (g_owner s) (n_claims t) (n_reclaims t) (n_irq_forwarded t) (n_kernel_refused t) (n_kernel_gated t) (n_pumps t) (n_frames_out t) (n_frames_in t)
    (n_worker_tx_ok t) (n_worker_tx_failed t).

Definition nic_owner_publish (s : nic_t) (pid : Z) (report : ptr os_net_stack_report_t) : Z * nic_t :=
  match report with
  | NULL => (OS_NET_WORKER_REQUIRED, s)
  | Some report =>
      if (pid <=? 0) || negb (pid =? g_owner s) then (OS_NET_WORKER_REQUIRED, s)
      else
        let reports := u32 (r_reports (g_report s) + 1) in
        let r := with_reports (with_wire report (with_worker (r_wire report) pid)) reports in
        (0, mk_nic (g_owner s) (g_pending_irq s) (g_st s) r (g_retired s) 1)
  end.

Definition nic_owner_stack (s : nic_t) : Z * os_net_stack_report_t :=
  if (g_owner s <=? 0) || negb (c_true (g_live_reports s)) then (0, with_reports zero_report (r_reports (g_report s))) else (1, g_report s).

Definition nic_owner_merge_wire (s : nic_t) (inout : os_net_wire_status_t) : os_net_wire_status_t :=
  let w := wire_add inout (g_retired s) in
  if (0 <? g_owner s) && c_true (g_live_reports s)
  then let w := wire_add w (r_wire (g_report s)) in with_bound w (u32 (w_bound w + w_bound (r_wire (g_report s))))
  else w.

Definition nic_owner_llm_status (s : nic_t) (kernel_word : Z) : Z :=
  if (0 <? g_owner s) && c_true (g_live_reports s) then r_llm_status (g_report s) else kernel_word.

(** ** The totals *)

(** The counters [wire_add] adds, as SYS_NET_WIRE_STATUS reports them. *)
Definition totals (w : os_net_wire_status_t) : list Z :=
  [w_connects w; w_frames_tx w; w_frames_rx w; w_arp_tx w; w_sends w; w_recvs w; w_closes w; w_refused w; w_demuxed w; w_dropped w; w_arp_replies w; w_peer_fins w; w_routed w].

Lemma u32_add_assoc a b c : u32 (u32 (a + b) + c) = u32 (a + u32 (b + c)).
Proof. unfold u32. rewrite Zplus_mod_idemp_l, Zplus_mod_idemp_r. f_equal. lia. Qed.

Lemma totals_add a b c : totals (wire_add (wire_add a b) c) = totals (wire_add a (wire_add b c)).
Proof. unfold totals, wire_add. cbn. by rewrite !u32_add_assoc. Qed.

(** A report that is not live counts nothing: the state between two workers. *)
Definition nic_settled (s : nic_t) : Prop := c_true (g_live_reports s) = false -> r_wire (g_report s) = zero_wire.

Lemma totals_zero a : Forall is_u32 (totals a) -> totals (wire_add a zero_wire) = totals a.
Proof.
  unfold totals, wire_add. cbn. intros H. rewrite !Forall_cons in H. destruct_and! H. rewrite !Z.add_0_r. by rewrite !u32_id.
Qed.

Lemma add_u32 a b : Forall is_u32 (totals (wire_add a b)).
Proof. unfold totals, wire_add. cbn. repeat (apply Forall_cons; split; [apply u32_range|]). apply Forall_nil. done. Qed.

(** Wire counters: dropping a worker that died changes none of the totals
    SYS_NET_WIRE_STATUS reports (they move to the retired base), it closes the ports and
    forgets the pending interrupts, and the totals stay the same until a new owner publishes. *)
Theorem dropped_worker_keeps_totals s live w : nic_settled s -> 0 < g_owner s -> g_owner s <> live ->
  let '(rc, s') := nic_owner_drop_if_gone s live in
  rc = 1 /\ totals (nic_owner_merge_wire s' w) = totals (nic_owner_merge_wire s w)
  /\ nic_owner_pid s' = 0 /\ nic_owner_irq_take s' live = (0, s') /\ nic_settled s'
  /\ (forall pid l, nic_owner_ports_open s' pid l = 0) /\ nic_owner_kernel_may_touch s' = 1
  /\ forall pid present, totals (nic_owner_merge_wire (snd (nic_owner_claim s' pid live present)) w) = totals (nic_owner_merge_wire s w).
Proof.
  intros Hs Hp Hnl. unfold nic_owner_drop_if_gone. rewrite (proj2 (Z.eqb_neq _ 0)), (proj2 (Z.eqb_neq _ live)) by (done || lia). cbn [orb]. cbv zeta.
  set (s' := nic_owned (owner_retire s) 0 0 (g_st (owner_retire s))).
  assert (Em : totals (nic_owner_merge_wire s' w) = totals (nic_owner_merge_wire s w)).
  { unfold nic_owner_merge_wire. subst s'. cbn [g_owner nic_owned owner_retire g_retired Z.ltb Z.compare andb]. rewrite (proj2 (Z.ltb_lt 0 _)) by done. cbn [andb].
    rewrite <- totals_add. destruct (c_true (g_live_reports s)) eqn:E; [done|]. rewrite (Hs E). by rewrite totals_zero by apply add_u32. }
  split; [done|]. split; [exact Em|]. split; [done|]. split.
  { unfold nic_owner_irq_take. destruct (Z.leb_spec live 0); cbn [orb]; [done|]. rewrite (proj2 (Z.eqb_neq live _)); [done|]. cbn. lia. }
  split; [done|]. split; [done|]. split; [done|]. intros pid present. rewrite <- Em. unfold nic_owner_claim. cbn [g_owner].
  repeat case_if; try done. cbn [snd]. unfold nic_owner_merge_wire. cbn [g_owner nic_owned g_live_reports]. by rewrite andb_false_r.
Qed.

Definition dead_worker : nic_t := snd (nic_owner_publish (snd (nic_owner_claim nic_owner_init 9 9 1)) 9 (Some (with_wire zero_report (with_bound (mk_wire 3 40 50 1 6 7 2 0 8 9 1 2 0 0 0) 2)))).

Lemma dropped_worker_keeps_totals_witness : nic_settled dead_worker /\ g_owner dead_worker = 9 /\
  totals (nic_owner_merge_wire (snd (nic_owner_drop_if_gone dead_worker 12)) zero_wire) = [3; 40; 50; 1; 6; 7; 2; 0; 8; 9; 1; 2; 0].
Proof.
  assert (Hs : nic_settled dead_worker) by done. split; [exact Hs|]. split; [done|].
  assert (Hp : 0 < g_owner dead_worker) by (cbn; lia). assert (Hl : g_owner dead_worker <> 12) by (cbn; lia).
  pose proof (dropped_worker_keeps_totals dead_worker 12 zero_wire Hs Hp Hl) as H.
  destruct (nic_owner_drop_if_gone dead_worker 12) as [rc s'] eqn:E. cbn [snd]. destruct H as (_ & -> & _). done.
Defined.
