(* ===== verification/PciService.v ===== *)
(** * PCI inventory: kernel/pci_service.c

    The Ring 3 driver publishes the functions it found; the kernel validates and keeps
    them.  [publish_list_roundtrip]: what is published is what is listed. *)

From Stdlib Require Import ZArith Lia.
From stdpp Require Import base numbers option tactics list.
From S2P Require Import Prelude NetSum.

Definition OS_PCI_MAX_RECORDS : Z := 32.
Definition OS_PCI_DENIED : Z := -170.
Definition OS_PCI_BAD_REQUEST : Z := -171.
Definition OS_PCI_NO_INVENTORY : Z := -172.
Definition PCI_SERVICE_RESPAWN_LIMIT : Z := 4.

Record os_pci_record_t := mk_pci_record {
  pr_bus : Z; pr_slot : Z; pr_function : Z; pr_class_code : Z; pr_subclass : Z; pr_prog_if : Z; pr_header_type : Z; pr_reserved : Z;
  pr_vendor_id : Z; pr_device_id : Z; pr_bar0 : Z
}.

Record os_pci_status_t := mk_pci_status {
  ps_owner_pid : Z; ps_publisher_pid : Z; ps_count : Z; ps_generation : Z; ps_respawns : Z; ps_ring0_denied : Z; ps_rejected_publish : Z; ps_stale : Z; ps_handed_off : Z
}.

Record pci_t := mk_pci {
  g_records : list os_pci_record_t; g_count : Z; g_generation : Z; g_respawns : Z; g_ring0_denied : Z; g_rejected : Z; g_stale : Z; g_handed_off : Z; g_publisher : Z
}.

Definition zero_record : os_pci_record_t := mk_pci_record 0 0 0 0 0 0 0 0 0 0 0.
Definition pci_service_reset : pci_t := mk_pci (replicate 32 zero_record) 0 0 0 0 0 0 0 0.

Definition pci_reject (s : pci_t) : pci_t :=
  mk_pci (g_records s) (g_count s) (g_generation s) (g_respawns s) (g_ring0_denied s) (u32 (g_rejected s + 1)) (g_stale s) (g_handed_off s) (g_publisher s).

Definition pci_record_valid (r : ptr os_pci_record_t) : Z :=
  match r with
  | NULL => 0
  | Some r =>
      if (pr_vendor_id r =? 65535) || (pr_vendor_id r =? 0) then 0
      else if (32 <=? pr_slot r) || (8 <=? pr_function r) then 0
      else if negb (pr_reserved r =? 0) then 0
      else 1
  end.

Definition same_function (a b : os_pci_record_t) : bool := (pr_bus a =? pr_bus b) && (pr_slot a =? pr_slot b) && (pr_function a =? pr_function b).

(** The checking loop from record [i] on: [true] when every record is valid and new. *)
Fixpoint records_ok (records : list os_pci_record_t) (i count : nat) : option bool :=
  match count with
  | O => Some true
  | S count =>
      r ← records !! i;
      if negb (c_true (pci_record_valid (Some r))) then Some false
      else if existsb (fun q => same_function q r) (take i records) then Some false
      else records_ok records (S i) count
  end.

(** [for (i < count) g_records[i] = records[i];] *)
Fixpoint copy_records (dst src : list os_pci_record_t) (i count : nat) : option (list os_pci_record_t) :=
  match count with
  | O => Some dst
  | S count => r ← src !! i; dst ← st dst (Z.of_nat i) r; copy_records dst src (S i) count
  end.

Definition pci_service_publish (s : pci_t) (pid live_owner : Z) (records : ptr (list os_pci_record_t)) (count : Z) : option (Z * pci_t) :=
  if (pid <=? 0) || (live_owner <=? 0) || negb (pid =? live_owner) then Some (OS_PCI_DENIED, pci_reject s)
  else
    match records with
    | NULL => Some (OS_PCI_BAD_REQUEST, pci_reject s)
    | Some records =>
        if (count =? 0) || (OS_PCI_MAX_RECORDS <? count) then Some (OS_PCI_BAD_REQUEST, pci_reject s)
        else
          ok ← records_ok records 0 (Z.to_nat count);
          if negb ok then Some (OS_PCI_BAD_REQUEST, pci_reject s)
          else
            kept ← copy_records (g_records s) records 0 (Z.to_nat count);
            Some (count, mk_pci kept count (u32 (g_generation s + 1)) (g_respawns s) (g_ring0_denied s) (g_rejected s) 0 1 pid)
    end.

(** [out]: the caller's array. *)
Definition pci_service_list (s : pci_t) (out : ptr (list os_pci_record_t)) (capacity : Z) : option (Z * ptr (list os_pci_record_t)) :=
  match out with
  | NULL => Some (OS_PCI_BAD_REQUEST, NULL)
  | Some out =>
      if negb (c_true (g_handed_off s)) then Some (OS_PCI_NO_INVENTORY, Some out)
      else
        let n := if g_count s <? capacity then g_count s else capacity in
        out ← copy_records out (g_records s) 0 (Z.to_nat n);
        Some (n, Some out)
  end.

Definition pci_service_status (s : pci_t) (live_owner : Z) : os_pci_status_t :=
  mk_pci_status live_owner (g_publisher s) (g_count s) (g_generation s) (g_respawns s) (g_ring0_denied s) (g_rejected s) (g_stale s) (g_handed_off s).

(** The search loop from record [i] on. *)
Fixpoint find_from (s : pci_t) (class_code subclass any_subclass : Z) (i count : nat) : option (option os_pci_record_t) :=
  match count with
  | O => Some None
  | S count =>
      r ← g_records s !! i;
      if negb (pr_class_code r =? class_code) then find_from s class_code subclass any_subclass (S i) count
      else if negb (c_true any_subclass) && negb (pr_subclass r =? subclass) then find_from s class_code subclass any_subclass (S i) count
      else Some (Some r)
  end.

Definition pci_service_find_class (s : pci_t) (class_code subclass any_subclass : Z) : option (Z * option os_pci_record_t) :=
  r ← find_from s class_code subclass any_subclass 0 (Z.to_nat (g_count s));
  Some (match r with Some r => (0, Some r) | None => (-1, None) end).

Definition pci_service_handed_off (s : pci_t) : Z := b2z (c_true (g_handed_off s)).

Definition pci_service_owner_gone (s : pci_t) : pci_t :=
  if c_true (g_handed_off s)
  then mk_pci (g_records s) (g_count s) (g_generation s) (g_respawns s) (g_ring0_denied s) (g_rejected s) 1 (g_handed_off s) (g_publisher s)
  else s.

Definition pci_service_should_respawn (s : pci_t) (live_owner : Z) (pending_alive : Z) : Z :=
  if negb (c_true (g_handed_off s)) || (0 <? live_owner) || c_true pending_alive then 0 else b2z (g_respawns s <? PCI_SERVICE_RESPAWN_LIMIT).

Definition pci_service_note_respawn (s : pci_t) : pci_t :=
  mk_pci (g_records s) (g_count s) (g_generation s) (u32 (g_respawns s + 1)) (g_ring0_denied s) (g_rejected s) (g_stale s) (g_handed_off s) (g_publisher s).
Definition pci_service_note_ring0_denied (s : pci_t) : pci_t :=
  mk_pci (g_records s) (g_count s) (g_generation s) (g_respawns s) (u32 (g_ring0_denied s + 1)) (g_rejected s) (g_stale s) (g_handed_off s) (g_publisher s).

(** ** What the inventory holds *)

(** A legal inventory: valid functions, each listed once. *)
Definition inventory_ok (l : list os_pci_record_t) : Prop :=
  (forall i r, l !! i = Some r -> pci_record_valid (Some r) = 1) /\ forall i j a b, l !! i = Some a -> l !! j = Some b -> same_function a b = true -> i = j.

Record pci_ok (s : pci_t) : Prop := mk_pci_ok {
  po_room : length (g_records s) = 32%nat;
  po_count : 0 <= g_count s <= 32;
  po_records : inventory_ok (take (Z.to_nat (g_count s)) (g_records s))
}.

Lemma valid_bool r : c_true (pci_record_valid r) = true <-> pci_record_valid r = 1.
Proof. unfold pci_record_valid. destruct r; [|done]. repeat case_if; done. Qed.

Lemma records_ok_spec count : forall l i, (i + count <= length l)%nat -> inventory_ok (take i l) ->
  exists ok, records_ok l i count = Some ok /\ (ok = true <-> inventory_ok (take (i + count) l)).
Proof.
  induction count as [|count IH]; intros l i Hl Hi; cbn [records_ok].
  - exists true. rewrite Nat.add_0_r. done.
  - destruct (lookup_lt_is_Some_2 l i) as [r Er]; [lia|]. rewrite Er, some_bind.
    assert (Hat : take (i + S count) l !! i = Some r) by (rewrite lookup_take_lt by lia; done).
    case_if.
    { exists false. split; [done|]. split; [done|]. intros [Hv _]. specialize (Hv i r Hat). by rewrite Hv in *. }
    destruct (existsb (fun q => same_function q r) (take i l)) eqn:Ex.
    { exists false. split; [done|]. split; [done|]. intros [_ Hd]. exfalso. apply existsb_exists in Ex as (q & Hq & Es).
      apply list_elem_of_In, list_elem_of_lookup in Hq as [j Hj]. assert (j < i)%nat by (apply lookup_lt_Some in Hj; rewrite length_take in Hj; lia).
      assert (j = i); [|lia]. apply (Hd j i q r); [|done|done]. rewrite lookup_take_lt in Hj |- * by lia. done. }
    destruct (IH l (S i)) as (ok & E & Hok); [lia| |exists ok; split; [done|]; by replace (i + S count)%nat with (S i + count)%nat by lia].
    rewrite (take_S_r l i r Er). destruct Hi as [Hv Hd]. assert (Hlen : length (take i l) = i) by (rewrite length_take; lia). split.
    + intros j a Ha. apply lookup_app_Some in Ha as [Ha|[_ Ha]]; [by eapply Hv|]. apply list_lookup_singleton_Some in Ha as [_ <-]. by apply valid_bool.
    + assert (Hno : forall j a, take i l !! j = Some a -> same_function a r = false).
      { intros j a Ha. destruct (same_function a r) eqn:Es; [|done]. assert (true = false); [|done]. rewrite <- Ex. symmetry. apply existsb_exists.
        exists a. split; [|done]. apply list_elem_of_In, list_elem_of_lookup. by exists j. }
      assert (Hsym : forall a b, same_function a b = same_function b a).
      { intros a b. unfold same_function. by rewrite (Z.eqb_sym (pr_bus a)), (Z.eqb_sym (pr_slot a)), (Z.eqb_sym (pr_function a)). }
      intros j k a b Ha Hb Hs. apply lookup_app_Some in Ha as [Ha|[Hja Ha]]; apply lookup_app_Some in Hb as [Hb|[Hkb Hb]].
      * by eapply Hd.
      * apply list_lookup_singleton_Some in Hb as [_ <-]. by rewrite (Hno j a Ha) in Hs.
      * apply list_lookup_singleton_Some in Ha as [_ <-]. by rewrite Hsym, (Hno k b Hb) in Hs.
      * apply list_lookup_singleton_Some in Ha as [Ha _], Hb as [Hb _]. rewrite Hlen in *. lia.
Qed.

Lemma copy_records_spec count : forall dst src i, (i + count <= length src)%nat -> (i + count <= length dst)%nat ->
  copy_records dst src i count = Some (take i dst ++ take count (drop i src) ++ drop (i + count) dst).
Proof.
  induction count as [|count IH]; intros dst src i Hs Hd; cbn [copy_records].
  - rewrite take_0. cbn [app]. by rewrite Nat.add_0_r, take_drop.
  - destruct (lookup_lt_is_Some_2 src i) as [r Er]; [lia|]. rewrite Er, some_bind.
    rewrite (proj2 (st_Some dst (Z.of_nat i) r _)) by (split; [lia|done]). rewrite some_bind, Nat2Z.id, IH by (rewrite ?length_insert; lia).
    f_equal. rewrite (drop_S src r i Er). cbn [take]. rewrite (take_S_r (<[i:=r]> dst) i r) by (apply list_lookup_insert_eq; lia).
    rewrite take_insert_ge by lia. rewrite drop_insert_lt by lia. replace (S i + count)%nat with (i + S count)%nat by lia. by rewrite <- app_assoc.
Qed.

(** PCI publish: a publication is accepted exactly when the caller is the live driver
    and the records are one to thirty-two valid functions, each once; it then is the
    inventory, and every caller that lists it gets those records in order (as many as it
    has room for); a refused publication changes the rejection counter only. *)
Theorem publish_list_roundtrip s pid live records count : pci_ok s -> is_u32 count -> count <= Z.of_nat (length records) ->
  exists rc s', pci_service_publish s pid live (Some records) count = Some (rc, s') /\ pci_ok s' /\
    (0 < pid /\ pid = live /\ 1 <= count <= 32 /\ inventory_ok (take (Z.to_nat count) records) ->
      rc = count /\ g_publisher s' = pid /\ g_generation s' = u32 (g_generation s + 1) /\
      forall out capacity, 0 <= capacity -> capacity <= Z.of_nat (length out) ->
        let n := Z.to_nat (Z.min count capacity) in
        pci_service_list s' (Some out) capacity = Some (Z.of_nat n, Some (take n records ++ drop n out))) /\
    (~ (0 < pid /\ pid = live /\ 1 <= count <= 32 /\ inventory_ok (take (Z.to_nat count) records)) ->
      (rc = OS_PCI_DENIED \/ rc = OS_PCI_BAD_REQUEST) /\ s' = pci_reject s).
Proof.
  intros Hs Hc Hl. unfold pci_service_publish, OS_PCI_MAX_RECORDS. assert (Hr : pci_ok (pci_reject s)) by (by destruct Hs).
  case_if.
  { exists OS_PCI_DENIED, (pci_reject s). split; [done|]. split; [done|]. split; [|by auto].
    intros (Hp & -> & _). rewrite (proj2 (Z.leb_gt live 0)), Z.eqb_refl in * by lia. done. }
  bsimp. subst live. case_if.
  { exists OS_PCI_BAD_REQUEST, (pci_reject s). split; [done|]. split; [done|]. split; [|by auto].
    intros (_ & _ & Hcc & _). rewrite (proj2 (Z.eqb_neq count 0)), (proj2 (Z.ltb_ge 32 count)) in * by lia. done. }
  bsimp. unfold is_u32 in Hc. destruct (records_ok_spec (Z.to_nat count) records 0) as (ok & -> & Hok); [lia|by split|]. rewrite some_bind. cbn [Nat.add] in Hok.
  destruct ok; cbn [negb].
  - assert (Hi : inventory_ok (take (Z.to_nat count) records)) by (by apply Hok). pose proof (po_room s Hs) as Hroom.
    rewrite copy_records_spec, some_bind by lia. rewrite take_0, drop_0. cbn [app Nat.add].
    set (kept := take (Z.to_nat count) records ++ drop (Z.to_nat count) (g_records s)).
    assert (Hlk : length kept = 32%nat) by (subst kept; rewrite length_app, length_take, length_drop; lia).
    assert (Htk : take (Z.to_nat count) kept = take (Z.to_nat count) records) by (subst kept; rewrite take_app_length' by (rewrite length_take; lia); done).
    eexists _, _. split; [done|]. split; [split; cbn [g_records g_count]; [done|lia|by rewrite Htk]|]. split; [|intros Hn; exfalso; apply Hn; repeat (split; [done || lia|]); done].
    intros _. split; [done|]. split; [done|]. split; [done|]. intros out capacity H0 Hcap. set (n := Z.to_nat (Z.min count capacity)). unfold pci_service_list. cbn [g_handed_off g_count g_records c_true].
    replace (if count <? capacity then count else capacity) with (Z.of_nat n) by (subst n; case_if; lia).
    change (negb (c_true 1)) with false. cbv iota. rewrite Nat2Z.id, copy_records_spec, some_bind by (subst n; lia). rewrite take_0, drop_0. cbn [app Nat.add].
    replace (take n kept) with (take n records); [done|].
    replace (take n kept) with (take n (take (Z.to_nat count) kept)) by (rewrite take_take; f_equal; subst n; lia). rewrite Htk, take_take. f_equal. subst n. lia.
  - exists OS_PCI_BAD_REQUEST, (pci_reject s). split; [done|]. split; [done|]. split; [|by auto]. intros (_ & _ & _ & Hi). by apply Hok in Hi.
Qed.

Definition demo_records : list os_pci_record_t := [mk_pci_record 0 0 0 6 0 0 0 0 32902 4663 0; mk_pci_record 0 2 0 3 0 0 0 0 4660 4369 4244635656].

Lemma reset_pci_ok : pci_ok pci_service_reset.
Proof. split; cbn; [done|lia|]. split; intros; done. Qed.

Lemma demo_inventory : inventory_ok demo_records.
Proof.
  split.
  - intros [|[|i]] r E; cbn in E; by simplify_eq.
  - intros [|[|i]] [|[|j]] a b Ea Eb Es; cbn in Ea, Eb; by simplify_eq.
Qed.

Lemma publish_list_roundtrip_witness : exists s', pci_service_publish pci_service_reset 5 5 (Some demo_records) 2 = Some (2, s') /\
  pci_service_list s' (Some (replicate 4 zero_record)) 4 = Some (2, Some (demo_records ++ replicate 2 zero_record)).
Proof.
  destruct (publish_list_roundtrip pci_service_reset 5 5 demo_records 2 reset_pci_ok) as (rc & s' & E & _ & Hy & _); [unfold is_u32; lia|done|].
  destruct Hy as (-> & _ & _ & Hlist); [split; [lia|]; split; [done|]; split; [lia|exact demo_inventory]|]. exists s'. split; [exact E|].
  apply (Hlist (replicate 4 zero_record) 4); [lia|done].
Defined.
