(* ===== verification/UsbDma.v ===== *)
(** * Bounded USB transfers: kernel/usb_dma.c and the controller glue of kernel/input/usb_tablet.c

    The Ring 3 USB driver asks for transfer descriptors (TDs); the kernel checks each
    request, writes the descriptor itself and runs the controller on a chain it has
    checked.  The controller reads the schedule page and transfers on its own. *)

From Stdlib Require Import ZArith Lia.
From stdpp Require Import base numbers option tactics list relations.
From S2P Require Import Prelude NetSum DevService.

Definition OS_USB_DATA_SIZE : Z := 4096.
Definition OS_USB_TD_SLOTS : Z := 8.
Definition OS_USB_TD_MAX_LEN : Z := 64.
Definition OS_USB_TD_END : Z := 255.
Definition OS_USB_PID_SETUP : Z := 45.
Definition OS_USB_PID_IN : Z := 105.
Definition OS_USB_PID_OUT : Z := 225.
Definition OS_USB_TD_ACTIVE : Z := 8388608.
Definition USBDMA_LINK_TERM : Z := 1.
Definition USBDMA_LINK_QH : Z := 2.
Definition USBDMA_LINK_DEPTH : Z := 4.
Definition USBDMA_OK : Z := 0.
Definition USBDMA_E_SLOT : Z := -1.
Definition USBDMA_E_PID : Z := -2.
Definition USBDMA_E_ADDR : Z := -3.
Definition USBDMA_E_BOUNDS : Z := -4.
Definition USBDMA_E_LINK : Z := -5.
Definition USBDMA_E_CYCLE : Z := -6.
Definition USBDMA_REG_STS : Z := 2.
Definition USBDMA_REG_INTR : Z := 4.
Definition USBDMA_REG_FRNUM : Z := 6.
Definition USBDMA_REG_PORTSC1 : Z := 16.
Definition USBDMA_REG_PORTSC2 : Z := 18.
Definition UHCI_CMD_RUN : Z := 1.
Definition UHCI_CMD_MAXP : Z := 128.

Record os_usb_td_req_t := mk_td_req {
  q_slot : Z; q_pid : Z; q_dev_addr : Z; q_endpoint : Z; q_toggle : Z; q_low_speed : Z; q_next : Z; q_buf_offset : Z; q_length : Z
}.

Record os_usb_td_t := mk_td { td_link : Z; td_status : Z; td_token : Z; td_buffer : Z; td_reserved : list Z }.
Record os_usb_sched_t := mk_sched { sc_head : Z; sc_element : Z; sc_td : list os_usb_td_t }.

Definition td_phys (sched_phys slot : Z) : Z := u32 (sched_phys + 16 + slot * 32).

(** The descriptor of an accepted request. *)
Definition built_td (req : os_usb_td_req_t) (data_phys sched_phys : Z) : os_usb_td_t :=
  let maxlen := if c_true (q_length req) then q_length req - 1 else 2047 in
  mk_td
    (if q_next req =? OS_USB_TD_END then USBDMA_LINK_TERM else Z.lor (td_phys sched_phys (q_next req)) USBDMA_LINK_DEPTH)
    (Z.lor (Z.lor OS_USB_TD_ACTIVE (Z.shiftl 3 27)) (if c_true (q_low_speed req) then Z.shiftl 1 26 else 0))
    (Z.lor (Z.lor (Z.lor (Z.lor (u32 (Z.shiftl maxlen 21)) (Z.shiftl (q_toggle req) 19)) (Z.shiftl (q_endpoint req) 15)) (Z.shiftl (q_dev_addr req) 8)) (q_pid req))
    (if c_true (q_length req) then u32 (data_phys + q_buf_offset req) else 0)
    [0; 0; 0; 0].

(** [out] is written only when the request is accepted. *)
Definition usbdma_build_td (req : ptr os_usb_td_req_t) (data_phys sched_phys : Z) (out : ptr os_usb_td_t) : Z * ptr os_usb_td_t :=
  match req, out with
  | Some req, Some _ =>
      if OS_USB_TD_SLOTS <=? q_slot req then (USBDMA_E_SLOT, out)
      else if negb (q_pid req =? OS_USB_PID_SETUP) && negb (q_pid req =? OS_USB_PID_IN) && negb (q_pid req =? OS_USB_PID_OUT) then (USBDMA_E_PID, out)
      else if (127 <? q_dev_addr req) || (15 <? q_endpoint req) || (1 <? q_toggle req) || (1 <? q_low_speed req) then (USBDMA_E_ADDR, out)
      else if (OS_USB_TD_MAX_LEN <? q_length req) || (OS_USB_DATA_SIZE <? q_buf_offset req + q_length req) then (USBDMA_E_BOUNDS, out)
      else if negb (q_next req =? OS_USB_TD_END) && ((OS_USB_TD_SLOTS <=? q_next req) || (q_next req =? q_slot req)) then (USBDMA_E_LINK, out)
      else (USBDMA_OK, Some (built_td req data_phys sched_phys))
  | _, _ => (USBDMA_E_SLOT, out)
  end.

(** The length a token asks for. *)
Definition token_length (token : Z) : Z := let maxlen := Z.shiftr token 21 in if maxlen =? 2047 then 0 else maxlen + 1.

(** The walk of [usbdma_chain_check], with fuel. *)
Fixpoint chain_loop (fuel : nat) (s : os_usb_sched_t) (sched_phys data_phys : Z) (seen : list Z) (count slot : Z) : option Z :=
  match fuel with
  | O => None
  | S fuel =>
      if OS_USB_TD_SLOTS <=? slot then Some USBDMA_E_SLOT
      else
        was ← ld seen slot;
        if c_true was then Some USBDMA_E_CYCLE
        else
          seen ← st seen slot 1;
          let count := count + 1 in
          td ← ld (sc_td s) slot;
          let len := token_length (td_token td) in
          if OS_USB_TD_MAX_LEN <? len then Some USBDMA_E_BOUNDS
          else if c_true len && ((td_buffer td <? data_phys) || (OS_USB_DATA_SIZE <? u32 (td_buffer td - data_phys + len))) then Some USBDMA_E_BOUNDS
          else if c_true (Z.land (td_link td) USBDMA_LINK_TERM) then Some count
          else if c_true (Z.land (td_link td) USBDMA_LINK_QH) then Some USBDMA_E_LINK
          else
            let link := Z.land (td_link td) (u32 (Z.lnot 15)) in
            if (link <? td_phys sched_phys 0) || (td_phys sched_phys (OS_USB_TD_SLOTS - 1) <? link) || negb (u32 (link - td_phys sched_phys 0) mod 32 =? 0)
            then Some USBDMA_E_LINK
            else chain_loop fuel s sched_phys data_phys seen count (u8 (u32 (link - td_phys sched_phys 0) / 32))
  end.

(** Nine rounds are enough: a slot is seen once. *)
Definition usbdma_chain_check (s : ptr os_usb_sched_t) (sched_phys data_phys first : Z) : option Z :=
  match s with
  | NULL => Some USBDMA_E_SLOT
  | Some s => if first =? OS_USB_TD_END then Some 0 else chain_loop 9 s sched_phys data_phys (replicate 8 0) 0 first
  end.

Definition usbdma_port_allowed (offset : Z) : Z :=
  b2z (bool_decide (offset ∈ [USBDMA_REG_STS; USBDMA_REG_STS + 1; USBDMA_REG_INTR; USBDMA_REG_INTR + 1; USBDMA_REG_FRNUM; USBDMA_REG_FRNUM + 1;
                              USBDMA_REG_PORTSC1; USBDMA_REG_PORTSC1 + 1; USBDMA_REG_PORTSC2; USBDMA_REG_PORTSC2 + 1])).

Definition usbdma_frame_list_init (frame_list : ptr (list Z)) (qh_phys : Z) : ptr (list Z) :=
  match frame_list with
  | NULL => NULL
  | Some l => Some (replicate 1024 (Z.lor qh_phys USBDMA_LINK_QH) ++ drop 1024 l)
  end.

Definition usbdma_scale (x y w h : Z) : Z * Z :=
  let x := if 32767 <? x then 32767 else x in
  let y := if 32767 <? y then 32767 else y in
  let ox := i32 (u32 (x * u32 w) / 32767) in
  let oy := i32 (u32 (y * u32 h) / 32767) in
  (if w <=? ox then w - 1 else ox, if h <=? oy then h - 1 else oy).

(** ** The controller *)

(** [hc_cmd] is the last command word written to the controller, [hc_running] whether the
    controller follows its schedule (the status bit HALTED is clear). *)
Record hc_t := mk_hc {
  hc_io_base : Z; hc_frames : list Z; hc_sched : os_usb_sched_t; hc_watch : Z; hc_cmd : Z; hc_running : bool; hc_dev : devsvc_t
}.

Section Controller.
Context (SCHED_PHYS DATA_PHYS : Z).

Definition zero_td : os_usb_td_t := mk_td 0 0 0 0 [0; 0; 0; 0].
Definition with_link (t : os_usb_td_t) (l : Z) : os_usb_td_t := mk_td l (td_status t) (td_token t) (td_buffer t) (td_reserved t).
Definition set_element (s : os_usb_sched_t) (e : Z) : os_usb_sched_t := mk_sched (sc_head s) e (sc_td s).

Definition with_sched (h : hc_t) (s : os_usb_sched_t) : hc_t :=
  mk_hc (hc_io_base h) (hc_frames h) s (hc_watch h) (hc_cmd h) (hc_running h) (hc_dev h).
Definition with_watch (h : hc_t) (w : Z) : hc_t :=
  mk_hc (hc_io_base h) (hc_frames h) (hc_sched h) w (hc_cmd h) (hc_running h) (hc_dev h).
Definition with_hc_dev (h : hc_t) (d : devsvc_t) : hc_t :=
  mk_hc (hc_io_base h) (hc_frames h) (hc_sched h) (hc_watch h) (hc_cmd h) (hc_running h) d.

(** [g_sched_page.page[off] = 0]: the byte of the word the structure has there. *)
Definition clear_byte (w b : Z) : Z := Z.land w (Z.lnot (Z.shiftl 255 (8 * b))).

Definition clear_td_byte (o : Z) (t : os_usb_td_t) : os_usb_td_t :=
  let b := o mod 4 in
  if o <? 4 then mk_td (clear_byte (td_link t) b) (td_status t) (td_token t) (td_buffer t) (td_reserved t)
  else if o <? 8 then mk_td (td_link t) (clear_byte (td_status t) b) (td_token t) (td_buffer t) (td_reserved t)
  else if o <? 12 then mk_td (td_link t) (td_status t) (clear_byte (td_token t) b) (td_buffer t) (td_reserved t)
  else if o <? 16 then mk_td (td_link t) (td_status t) (td_token t) (clear_byte (td_buffer t) b) (td_reserved t)
  else mk_td (td_link t) (td_status t) (td_token t) (td_buffer t)
         (alter (fun w => clear_byte w b) (Z.to_nat (o / 4 - 4)) (td_reserved t)).

Definition clear_page_byte (off : Z) (s : os_usb_sched_t) : os_usb_sched_t :=
  if off <? 4 then mk_sched (clear_byte (sc_head s) off) (sc_element s) (sc_td s)
  else if off <? 8 then mk_sched (sc_head s) (clear_byte (sc_element s) (off - 4)) (sc_td s)
  else if off <? 16 then s
  else mk_sched (sc_head s) (sc_element s) (alter (clear_td_byte ((off - 16) mod 32)) (Z.to_nat ((off - 16) / 32)) (sc_td s)).

Definition term_link (i : Z) (s : os_usb_sched_t) : os_usb_sched_t :=
  mk_sched (sc_head s) (sc_element s) (alter (fun t => with_link t USBDMA_LINK_TERM) (Z.to_nat i) (sc_td s)).

(** The stores of [sched_clear], one by one: the page, the links, the queue head. *)
Definition clear_stores : list (hc_t -> hc_t) :=
  map (fun off h => with_sched h (clear_page_byte off (hc_sched h))) (seqZ 0 4096)
  ++ map (fun i h => with_sched h (term_link i (hc_sched h))) (seqZ 0 OS_USB_TD_SLOTS)
  ++ [fun h => with_sched h (mk_sched USBDMA_LINK_TERM (sc_element (hc_sched h)) (sc_td (hc_sched h)));
      fun h => with_sched h (set_element (hc_sched h) USBDMA_LINK_TERM);
      fun h => with_watch h OS_USB_TD_END].

Definition run_stores (h : hc_t) (stores : list (hc_t -> hc_t)) : hc_t := fold_left (fun h f => f h) stores h.
Definition sched_clear (h : hc_t) : hc_t := run_stores h clear_stores.

(** [halts]: the controller reported HALTED to one of the 100000 reads. *)
Definition hc_halt (h : hc_t) (halts : bool) : hc_t :=
  if hc_io_base h =? 0 then h
  else mk_hc (hc_io_base h) (hc_frames h) (set_element (hc_sched h) USBDMA_LINK_TERM) (hc_watch h) 0 (hc_running h && negb halts) (hc_dev h).

(** [bar4]: the base address register of the controller pci_find_device found. *)
Definition usb_tablet_init (h : hc_t) (bar4 : ptr Z) : hc_t :=
  let h := with_hc_dev h (devsvc_usb_set_present (hc_dev h) 0) in
  match bar4 with
  | NULL => h
  | Some bar4 =>
      if negb (c_true (Z.land bar4 1)) then h
      else
        let h := mk_hc (u16 (Z.land bar4 65504)) (hc_frames h) (hc_sched h) (hc_watch h) 0 false (hc_dev h) in
        let h := sched_clear h in
        mk_hc (hc_io_base h) (default [] (usbdma_frame_list_init (Some (hc_frames h)) SCHED_PHYS)) (hc_sched h) (hc_watch h) (hc_cmd h) (hc_running h)
          (devsvc_usb_set_present (hc_dev h) 1)
  end.

(** [usb_hc_claim]: [maps] answers the two mappings into the driver's directory. *)
Definition usb_hc_claim (h : hc_t) (dir_given halts : bool) (maps : Z * Z) : Z * hc_t :=
  if (hc_io_base h =? 0) || negb dir_given then (-1, h)
  else
    let h := sched_clear (hc_halt h halts) in
    if negb (fst maps =? 0) then (-2, h) else if negb (snd maps =? 0) then (-3, h) else (0, h).

Definition usb_hc_td (h : hc_t) (req : os_usb_td_req_t) : option (Z * hc_t) :=
  let '(rc, td) := usbdma_build_td (Some req) DATA_PHYS SCHED_PHYS (Some zero_td) in
  let h := with_hc_dev h (devsvc_usb_note_td (hc_dev h) (b2z (rc =? USBDMA_OK))) in
  if negb (rc =? USBDMA_OK) then Some (rc, h)
  else
    let td := default zero_td td in
    tds ← st (sc_td (hc_sched h)) (q_slot req) (mk_td (td_link td) (td_status td) (td_token td) (td_buffer td) [0; 0; 0; 0]);
    Some (0, with_sched h (mk_sched (sc_head (hc_sched h)) (sc_element (hc_sched h)) tds)).

Definition usb_hc_run (h : hc_t) (first watch : Z) : option (Z * hc_t) :=
  if hc_io_base h =? 0 then Some (-1, h)
  else if first =? OS_USB_TD_END then
    Some (0, with_watch (with_sched h (set_element (hc_sched h) USBDMA_LINK_TERM)) OS_USB_TD_END)
  else
    rc ← usbdma_chain_check (Some (hc_sched h)) SCHED_PHYS DATA_PHYS first;
    if (rc <=? 0) || (OS_USB_TD_SLOTS <=? watch) then
      Some (if rc <? 0 then rc else USBDMA_E_SLOT, with_hc_dev h (devsvc_usb_note_td (hc_dev h) 0))
    else
      Some (rc, mk_hc (hc_io_base h) (hc_frames h) (set_element (hc_sched h) (u32 (SCHED_PHYS + 16 + first * 32))) watch
                  (Z.lor UHCI_CMD_RUN UHCI_CMD_MAXP) true (devsvc_usb_set_done (hc_dev h) 0)).

Definition usb_hc_watch_done (h : hc_t) : option (Z * hc_t) :=
  if (OS_USB_TD_SLOTS <=? hc_watch h) || c_true (devsvc_usb_done (hc_dev h)) then Some (0, h)
  else
    td ← ld (sc_td (hc_sched h)) (hc_watch h);
    if c_true (Z.land (td_status td) OS_USB_TD_ACTIVE) then Some (0, h)
    else
      let d := devsvc_usb_set_done (hc_dev h) 1 in
      Some (devsvc_usb_done d, with_hc_dev h d).

Definition note_stop (h : hc_t) : hc_t := with_hc_dev h (devsvc_usb_note_stop (hc_dev h)).

Definition usb_hc_stop (h : hc_t) (halts : bool) : hc_t := note_stop (sched_clear (hc_halt h halts)).
End Controller.

(** * The USB controller stays inside its pages

    [usb_dma_confined]: whatever the driver asks and however the controller proceeds, every
    descriptor the controller can reach is a slot of the schedule page and every transfer
    it can make lies in the data page.  [chain_check_exact]: the check of RUN accepts
    exactly the chains that end without coming back to a slot. *)

(** A page of its own below 4 GB. *)
Definition own_page (p : Z) : Prop := p mod 4096 = 0 /\ 4096 <= p /\ p + 4096 < 2 ^ 32.

Section Confined.
Context (SCHED DATA : Z) (Hsched : own_page SCHED) (Hdata : own_page DATA).

Definition slot_addr (j : Z) : Z := SCHED + 16 + 32 * j.

Definition active (t : os_usb_td_t) : bool := c_true (Z.land (td_status t) OS_USB_TD_ACTIVE).

(** The bytes the controller transfers for [t] lie in the data page. *)
Definition transfer_ok (t : os_usb_td_t) : Prop :=
  let len := token_length (td_token t) in
  0 <= len <= 64 /\ (len = 0 \/ DATA <= td_buffer t /\ td_buffer t + len <= DATA + 4096).

(** A link that ends the chain or names a slot of the schedule. *)
Definition link_term (l : Z) : Prop := c_true (Z.land l USBDMA_LINK_TERM) = true.
Definition link_to (l j : Z) : Prop := 0 <= j < 8 /\ c_true (Z.land l USBDMA_LINK_QH) = false /\ Z.land l (u32 (Z.lnot 15)) = slot_addr j.
Definition link_ok (l : Z) : Prop := link_term l \/ exists j, link_to l j.

(** A frame pointer that names the queue head at the start of the schedule page. *)
Definition queue_link (l : Z) : Prop := c_true (Z.land l USBDMA_LINK_QH) = true /\ Z.land l (u32 (Z.lnot 15)) = SCHED.

Definition td_ok (t : os_usb_td_t) : Prop := (active t = true -> transfer_ok t) /\ link_ok (td_link t).

Lemma td_phys_addr j : 0 <= j < 8 -> td_phys SCHED j = slot_addr j.
Proof. intros Hj. destruct Hsched as (_ & H1 & H2). unfold td_phys, slot_addr. rewrite u32_id; unfold is_u32; lia. Qed.

Lemma slot_addr_inj i j : slot_addr i = slot_addr j -> i = j.
Proof. unfold slot_addr. lia. Qed.

(** An aligned address with small flag bits. *)
Lemma addr_flags a f : a mod 16 = 0 -> 0 <= a < 2 ^ 32 -> 0 <= f < 16 -> Z.land (Z.lor a f) (u32 (Z.lnot 15)) = a /\ forall b, 0 <= b < 16 -> Z.land (Z.lor a f) b = Z.land f b.
Proof.
  intros Ha Hr Hf.
  assert (Hlow : forall i, 0 <= i < 4 -> Z.testbit a i = false).
  { intros i Hi. rewrite <- (Z.mod_pow2_bits_low a 4 i) by lia. change (2 ^ 4) with 16. by rewrite Ha, Z.bits_0. }
  assert (Hhigh : forall x i, 0 <= x < 16 -> 4 <= i -> Z.testbit x i = false).
  { intros x i Hx Hi. rewrite <- (Z.mod_small x (2 ^ 4)) by lia. by apply Z.mod_pow2_bits_high. }
  split.
  - rewrite land_u32_mask by (split; [apply Z.lor_nonneg; lia|]; change 4294967296 with (2 ^ 32); apply lor_range; lia).
    apply Z.bits_inj'. intros i Hi. rewrite Z.land_spec, Z.lor_spec, Z.lnot_spec by done. change 15 with (Z.ones 4). destruct (Z.ltb_spec i 4).
    + rewrite Z.ones_spec_low, Hlow by lia. by rewrite andb_false_r.
    + rewrite Z.ones_spec_high, (Hhigh f i) by lia. by rewrite orb_false_r, andb_true_r.
  - intros b Hb. apply Z.bits_inj'. intros i Hi. rewrite !Z.land_spec, Z.lor_spec. destruct (Z.ltb_spec i 4); [by rewrite Hlow by lia|].
    by rewrite (Hhigh b i), !andb_false_r by lia.
Qed.

Lemma slot_addr_range j : 0 <= j < 8 -> slot_addr j mod 16 = 0 /\ 0 <= slot_addr j < 2 ^ 32.
Proof. destruct Hsched as (H0 & H1 & H2). unfold slot_addr. intros Hj. change (2 ^ 32) with 4294967296 in *. split; [|lia]. zlia. Qed.

Lemma slot_link j : 0 <= j < 8 -> link_to (Z.lor (slot_addr j) USBDMA_LINK_DEPTH) j /\ link_to (slot_addr j) j /\
  ~ link_term (Z.lor (slot_addr j) USBDMA_LINK_DEPTH) /\ ~ link_term (slot_addr j).
Proof.
  intros Hj. destruct (slot_addr_range j Hj) as [Ha Hr]. destruct (addr_flags (slot_addr j) 4 Ha Hr) as [E1 E2]; [lia|].
  destruct (addr_flags (slot_addr j) 0 Ha Hr) as [F1 F2]; [lia|]. rewrite Z.lor_0_r in F1, F2. unfold link_to, link_term, USBDMA_LINK_DEPTH, USBDMA_LINK_QH, USBDMA_LINK_TERM.
  rewrite E1, !E2, F1, !F2 by lia. done.
Qed.

(** The token carries the length of the request. *)
Lemma token_of_request maxlen toggle ep dev pid : 0 <= maxlen <= 2047 -> 0 <= toggle <= 1 -> 0 <= ep <= 15 -> 0 <= dev <= 127 -> 0 <= pid < 256 ->
  Z.shiftr (Z.lor (Z.lor (Z.lor (Z.lor (u32 (Z.shiftl maxlen 21)) (Z.shiftl toggle 19)) (Z.shiftl ep 15)) (Z.shiftl dev 8)) pid) 21 = maxlen.
Proof.
  intros Hm Ht He Hd Hp. rewrite u32_id by (unfold is_u32; rewrite Z.shiftl_mul_pow2 by lia; lia). rewrite !Z.shiftr_lor.
  rewrite Z.shiftr_shiftl_l, Z.sub_diag, Z.shiftl_0_r by lia. rewrite !Z.shiftr_shiftl_r by lia. rewrite !Z.shiftr_div_pow2 by lia.
  rewrite !Z.div_small by lia. by rewrite !Z.lor_0_r.
Qed.

Definition is_req (r : os_usb_td_req_t) : Prop :=
  Forall is_u8 [q_slot r; q_pid r; q_dev_addr r; q_endpoint r; q_toggle r; q_low_speed r; q_next r] /\ is_u16 (q_buf_offset r) /\ is_u16 (q_length r).

(** What an accepted request gives: a descriptor that stays in its pages. *)
Lemma build_td_ok r out : is_req r -> match usbdma_build_td (Some r) DATA SCHED (Some out) with
  | (rc, td) => (rc = 0 /\ 0 <= q_slot r < 8 /\ td = Some (built_td r DATA SCHED) /\ transfer_ok (built_td r DATA SCHED) /\ link_ok (td_link (built_td r DATA SCHED)))
      \/ (rc < 0 /\ td = Some out) end.
Proof.
  intros (Hq & Hb & Hl). rewrite !Forall_cons in Hq. destruct Hq as (Hs & Hp & Hd & He & Ht & Hlo & Hn & _). unfold usbdma_build_td.
  unfold OS_USB_TD_SLOTS, OS_USB_TD_MAX_LEN, OS_USB_DATA_SIZE. do 5 (case_if; [right; split; [by vm_compute|done]|]). bsimp. left. unfold is_u8, is_u16 in *. destruct Hdata as (_ & D1 & D2).
  split; [done|]. split; [lia|]. split; [done|]. split.
  - unfold transfer_ok, built_td, token_length. cbn [td_token td_buffer]. unfold c_true in *. destruct (Z.eqb_spec (q_length r) 0) as [E|E]; cbn [negb].
    + rewrite token_of_request by lia. rewrite Z.eqb_refl. cbv zeta. lia.
    + rewrite token_of_request by lia. rewrite (proj2 (Z.eqb_neq (q_length r - 1) 2047)) by lia. rewrite u32_id by (unfold is_u32; lia). cbv zeta. lia.
  - unfold built_td. cbn [td_link]. destruct (Z.eqb_spec (q_next r) OS_USB_TD_END) as [E|E]; [by left|]. right. exists (q_next r).
    match goal with H : negb _ && _ = false |- _ => cbn [negb andb] in H; apply orb_false_iff in H as [H _]; apply Z.leb_gt in H end.
    rewrite td_phys_addr by lia. apply slot_link. lia.
Qed.

(** ** The chain check *)

(** One slot of a chain. *)
Definition good_td (t : os_usb_td_t) : Prop :=
  let len := token_length (td_token t) in
  len <= 64 /\ (len = 0 \/ DATA <= td_buffer t /\ u32 (td_buffer t - DATA + len) <= 4096).

Inductive chain (s : os_usb_sched_t) : Z -> list Z -> Prop :=
  | ch_last slot t : ld (sc_td s) slot = Some t -> good_td t -> link_term (td_link t) -> chain s slot [slot]
  | ch_next slot t next l : ld (sc_td s) slot = Some t -> good_td t -> ~ link_term (td_link t) -> link_to (td_link t) next -> chain s next l ->
      chain s slot (slot :: l).

Lemma chain_head s slot l : chain s slot l -> exists l', l = slot :: l'.
Proof. intros []; by eexists. Qed.

Lemma chain_unique s slot l : chain s slot l -> forall k, chain s slot k -> l = k.
Proof.
  induction 1 as [slot t E Hg Ht|slot t next l E Hg Hn Hl Hc IH]; intros k Hk; inversion Hk as [? t' E' _ Ht'|? t' next' l' E' _ Hn' Hl' Hc']; subst;
    rewrite E in E'; injection E' as <-; try done. f_equal. apply IH. assert (next = next') as ->; [|done].
  destruct Hl as (_ & _ & E1), Hl' as (_ & _ & E2). apply slot_addr_inj. congruence.
Qed.

(** The slots marked in [seen]. *)
Definition marks (v : list Z) (seen : list Z) : Prop :=
  length seen = 8%nat /\ Forall (fun j => 0 <= j < 8) v /\ forall j, 0 <= j < 8 -> exists x, ld seen j = Some x /\ c_true x = bool_decide (j ∈ v).

Lemma marks_step v seen j : marks v seen -> 0 <= j < 8 -> exists seen', st seen j 1 = Some seen' /\ marks (v ++ [j]) seen'.
Proof.
  intros (Hl & Hv & Hm) Hj. exists (<[Z.to_nat j := 1]> seen). assert (E : st seen j 1 = Some (<[Z.to_nat j := 1]> seen)) by (apply st_Some; split; [lia|done]).
  split; [done|]. split; [by rewrite length_insert|]. split; [apply Forall_app; split; [done|by apply Forall_singleton]|]. intros i Hi. destruct (Z.eq_dec i j) as [->|Hn].
  - exists 1. split; [by eapply ld_st_eq|]. symmetry. apply bool_decide_eq_true_2. apply elem_of_app. right. by left.
  - destruct (Hm i Hi) as (x & Ex & Hx). exists x. split; [rewrite <- Ex; by eapply ld_st_ne|]. rewrite Hx. apply bool_decide_ext.
    rewrite elem_of_app, list_elem_of_singleton. naive_solver.
Qed.

Lemma few_slots v : Forall (fun j => 0 <= j < 8) v -> NoDup v -> (length v <= 8)%nat.
Proof.
  intros Hv Hn. change 8%nat with (length (seqZ 0 8)). apply NoDup_incl_length; [by apply NoDup_ListNoDup|]. intros j Hj. apply list_elem_of_In, elem_of_seqZ.
  rewrite Forall_forall in Hv. apply list_elem_of_In in Hj. specialize (Hv j Hj). lia.
Qed.

(** A link that passes the tests of the loop names a slot. *)
Lemma link_tests l : ~ link_term l -> c_true (Z.land l USBDMA_LINK_QH) = false -> is_u32 l ->
  let a := Z.land l (u32 (Z.lnot 15)) in
  let bad := (a <? td_phys SCHED 0) || (td_phys SCHED (OS_USB_TD_SLOTS - 1) <? a) || negb (u32 (a - td_phys SCHED 0) mod 32 =? 0) in
  if bad then forall j, ~ link_to l j else link_to l (u8 (u32 (a - td_phys SCHED 0) / 32)).
Proof.
  intros Ht Hq Hl a bad. subst bad. unfold OS_USB_TD_SLOTS. rewrite !td_phys_addr by lia. destruct Hsched as (S0 & S1 & S2). unfold slot_addr.
  assert (Ha : 0 <= a < 2 ^ 32) by (apply land_range; unfold is_u32 in Hl; lia). change (2 ^ 32) with 4294967296 in *.
  destruct (Z.ltb_spec a (SCHED + 16 + 32 * 0)); cbn [orb]; [intros j (Hj & _ & E); subst a; rewrite E in *; unfold slot_addr in *; lia|].
  destruct (Z.ltb_spec (SCHED + 16 + 32 * (8 - 1)) a); cbn [orb]; [intros j (Hj & _ & E); subst a; rewrite E in *; unfold slot_addr in *; lia|].
  rewrite u32_id by (unfold is_u32; lia). destruct (Z.eqb_spec ((a - (SCHED + 16 + 32 * 0)) mod 32) 0) as [E|E]; cbn [negb].
  - assert (Hd : 0 <= (a - (SCHED + 16 + 32 * 0)) / 32 < 8) by zlia. rewrite u8_id by (unfold is_u8; lia). split; [done|]. split; [done|]. fold a. unfold slot_addr. zlia.
  - intros j (Hj & _ & Ej). apply E. subst a. rewrite Ej. unfold slot_addr. zlia.
Qed.

Lemma chain_loop_spec s fuel : length (sc_td s) = 8%nat -> Forall (fun t => is_u32 (td_link t)) (sc_td s) ->
  forall v seen slot, marks v seen -> NoDup v -> (fuel + length v = 9)%nat -> 0 <= slot ->
  exists r, chain_loop fuel s SCHED DATA seen (Z.of_nat (length v)) slot = Some r /\
    (r < 0 /\ (forall l, chain s slot l -> ~ NoDup (v ++ l)) \/ exists l, chain s slot l /\ NoDup (v ++ l) /\ r = Z.of_nat (length (v ++ l)) /\ Forall (fun j => 0 <= j < 8) (v ++ l)).
Proof.
  intros Hlen Hu. induction fuel as [|fuel IH]; intros v seen slot Hm Hv Hf Hs.
  { exfalso. pose proof (few_slots v) as H. destruct Hm as (_ & Hr & _). specialize (H Hr Hv). lia. }
  assert (Hno : forall r, r < 0 -> (forall l, chain s slot l -> ~ NoDup (v ++ l)) -> exists r', Some r = Some r' /\
    (r' < 0 /\ (forall l, chain s slot l -> ~ NoDup (v ++ l)) \/ exists l, chain s slot l /\ NoDup (v ++ l) /\ r' = Z.of_nat (length (v ++ l)) /\ Forall (fun j => 0 <= j < 8) (v ++ l))).
  { intros r Hr Hn. exists r. split; [done|]. by left. }
  cbn [chain_loop]. unfold OS_USB_TD_SLOTS at 1. destruct (Z.leb_spec 8 slot) as [Hbig|Hsm].
  { apply Hno; [by vm_compute|]. intros l Hc _. destruct Hc as [slot t Ht _ _|slot t next l Ht _ _ _ _]; apply ld_Some in Ht as [_ Ht]; apply lookup_lt_Some in Ht; lia. }
  destruct Hm as (Hsl & Hvr & Hmk). destruct (Hmk slot) as (x & -> & Hx); [lia|]. rewrite some_bind, Hx. case_bool_decide as Hin.
  { apply Hno; [by vm_compute|]. intros l Hc Hnd. destruct (chain_head _ _ _ Hc) as [l' ->]. apply NoDup_app in Hnd as (_ & Hd & _). apply (Hd slot Hin). by left. }
  destruct (marks_step v seen slot) as (seen' & -> & Hm'); [done|lia|]. rewrite some_bind.
  destruct (lookup_lt_is_Some_2 (sc_td s) (Z.to_nat slot)) as [t Et]; [lia|]. assert (Eld : ld (sc_td s) slot = Some t) by (by apply ld_Some).
  rewrite Eld, some_bind. cbv zeta. assert (Hone : forall l, chain s slot l -> good_td t).
  { intros l Hc. inversion Hc; subst; simplify_eq; done. }
  unfold OS_USB_TD_MAX_LEN, OS_USB_DATA_SIZE. case_if; [apply Hno; [by vm_compute|]; intros l Hc; destruct (Hone l Hc) as [? _]; lia|].
  destruct (c_true (token_length (td_token t)) && ((td_buffer t <? DATA) || (4096 <? u32 (td_buffer t - DATA + token_length (td_token t))))) eqn:Eb.
  { apply andb_true_iff in Eb as [Eb1 Eb2]. apply Hno; [by vm_compute|]. intros l Hc. destruct (Hone l Hc) as [_ Hg]. unfold c_true in Eb1. bsimp.
    apply orb_true_iff in Eb2 as [Eb2|Eb2]; bsimp; destruct Hg as [?|[? ?]]; lia. }
  assert (Hg : good_td t).
  { split; [done|]. destruct (Z.eq_dec (token_length (td_token t)) 0) as [?|Hn]; [by left|right]. unfold c_true in Eb. rewrite (proj2 (Z.eqb_neq _ 0)) in Eb by done. cbn [negb andb] in Eb. bsimp. done. }
  assert (Hlast : NoDup (v ++ [slot])) by (apply NoDup_app; split; [done|]; split; [intros y Hy; rewrite list_elem_of_singleton; by intros ->|apply NoDup_singleton]).
  assert (Hrs : Forall (fun j => 0 <= j < 8) (v ++ [slot])) by (apply Forall_app; split; [done|apply Forall_singleton; lia]).
  destruct (c_true (Z.land (td_link t) USBDMA_LINK_TERM)) eqn:El.
  { exists (Z.of_nat (length v) + 1). split; [done|]. right. exists [slot]. split; [by eapply ch_last|]. split; [done|]. split; [rewrite length_app; cbn [length]; lia|done]. }
  assert (Hnt : ~ link_term (td_link t)) by (unfold link_term; by rewrite El). assert (Hnx : forall l, chain s slot l -> exists next l', l = slot :: l' /\ link_to (td_link t) next /\ chain s next l').
  { intros l Hc. inversion Hc; subst; simplify_eq; [done|by eexists _, _]. }
  destruct (c_true (Z.land (td_link t) USBDMA_LINK_QH)) eqn:Eq.
  { apply Hno; [by vm_compute|]. intros l Hc. destruct (Hnx l Hc) as (next & l' & _ & (_ & Hq & _) & _). congruence. }
  rewrite Forall_lookup in Hu. pose proof (link_tests (td_link t) Hnt Eq (Hu _ _ Et)) as Hlt. cbv zeta in Hlt. case_if.
  { apply Hno; [by vm_compute|]. intros l Hc. destruct (Hnx l Hc) as (next & l' & _ & Hl & _). by apply Hlt in Hl. }
  set (next := u8 _) in *. destruct (IH (v ++ [slot]) seen' next Hm' Hlast) as (r & E & Hr); [rewrite length_app; cbn [length]; lia|apply u8_range|].
  rewrite length_app in E. cbn [length] in E. replace (Z.of_nat (length v) + 1) with (Z.of_nat (length v + 1)) by lia. rewrite E. exists r. split; [done|].
  destruct Hr as [[Hr Hn]|(l & Hc & Hnd & Er & Hrl)]; [left|right].
  - split; [done|]. intros l Hc. destruct (Hnx l Hc) as (next' & l' & -> & Hl & Hc'). assert (next' = next) as ->.
    { destruct Hl as (_ & _ & E1), Hlt as (_ & _ & E2). apply slot_addr_inj. congruence. }
    specialize (Hn l' Hc'). by rewrite <- app_assoc in Hn.
  - exists (slot :: l). rewrite <- app_assoc in Hnd, Er, Hrl. split; [by eapply ch_next|done].
Qed.

Lemma no_marks : marks [] (replicate 8 0).
Proof.
  split; [done|]. split; [by constructor|]. intros j Hj. exists 0. split; [|done]. apply ld_Some. split; [lia|]. apply lookup_replicate_2. lia.
Qed.

Lemma chain_check_total s first : length (sc_td s) = 8%nat -> Forall (fun t => is_u32 (td_link t)) (sc_td s) -> is_u8 first -> first <> OS_USB_TD_END ->
  exists r, usbdma_chain_check (Some s) SCHED DATA first = Some r /\
    (r < 0 /\ (forall l, chain s first l -> ~ NoDup l) \/ exists l, chain s first l /\ NoDup l /\ r = Z.of_nat (length l) /\ Forall (fun j => 0 <= j < 8) l).
Proof.
  intros Hl Hu [Hf _] He. unfold usbdma_chain_check. rewrite (proj2 (Z.eqb_neq _ _) He).
  destruct (chain_loop_spec s 9 Hl Hu [] (replicate 8 0) first no_marks) as (r & E & Hr); [constructor|done|done|]. by exists r.
Qed.

(** ** The invariant of the controller *)

Definition hc_ok (h : hc_t) : Prop :=
  length (sc_td (hc_sched h)) = 8%nat /\ Forall td_ok (sc_td (hc_sched h)) /\ Forall (fun t => is_u32 (td_link t)) (sc_td (hc_sched h)) /\
  link_ok (sc_element (hc_sched h)) /\ link_term (sc_head (hc_sched h)).

(** The stores of [usb_hc_td], in order: the descriptor is inactive while it is rewritten. *)
Definition td_stores (old new : os_usb_td_t) : list os_usb_td_t :=
  [mk_td (td_link old) 0 (td_token old) (td_buffer old) (td_reserved old);
   mk_td (td_link new) 0 (td_token old) (td_buffer old) (td_reserved old);
   mk_td (td_link new) 0 (td_token new) (td_buffer old) (td_reserved old);
   mk_td (td_link new) 0 (td_token new) (td_buffer new) (td_reserved old);
   mk_td (td_link new) 0 (td_token new) (td_buffer new) [0; 0; 0; 0];
   mk_td (td_link new) (td_status new) (td_token new) (td_buffer new) [0; 0; 0; 0]].

Definition put_td (h : hc_t) (slot : nat) (t : os_usb_td_t) : hc_t :=
  with_sched h (mk_sched (sc_head (hc_sched h)) (sc_element (hc_sched h)) (<[slot := t]> (sc_td (hc_sched h)))).
Definition put_element (h : hc_t) (e : Z) : hc_t := with_sched h (set_element (hc_sched h) e).

(** The second component: the stores the kernel still has to make of the operation it is
    in.  A claim and a stop wait until the controller has halted, then clear the schedule
    store by store; the controller proceeds, between any two stores, while it runs. *)
Definition usb_sys : Type := hc_t * list (hc_t -> hc_t).

Inductive usb_step : usb_sys -> usb_sys -> Prop :=
  | us_claim h : hc_io_base h <> 0 -> usb_step (h, []) (hc_halt h true, clear_stores)
  | us_stop h : usb_step (h, []) (hc_halt h true, clear_stores ++ [note_stop])
  | us_clear h f todo : usb_step (h, f :: todo) (f h, todo)
  | us_td h r rc h' : is_req r -> usb_hc_td SCHED DATA h r = Some (rc, h') -> usb_step (h, []) (h', [])
  (** a store of an accepted request, seen by the controller *)
  | us_store h r old t : is_req r -> fst (usbdma_build_td (Some r) DATA SCHED (Some zero_td)) = USBDMA_OK ->
      sc_td (hc_sched h) !! Z.to_nat (q_slot r) = Some old -> t ∈ td_stores old (built_td r DATA SCHED) ->
      usb_step (h, []) (put_td h (Z.to_nat (q_slot r)) t, [])
  | us_run h first watch rc h' : is_u8 first -> is_u8 watch -> usb_hc_run SCHED DATA h first watch = Some (rc, h') -> usb_step (h, []) (h', [])
  | us_watch h rc h' : usb_hc_watch_done h = Some (rc, h') -> usb_step (h, []) (h', [])
  (** the controller reports on a descriptor; it never makes one active *)
  | us_retire h todo slot t status : hc_running h = true -> sc_td (hc_sched h) !! slot = Some t ->
      (active (mk_td (td_link t) status (td_token t) (td_buffer t) (td_reserved t)) = true -> active t = true) ->
      usb_step (h, todo) (put_td h slot (mk_td (td_link t) status (td_token t) (td_buffer t) (td_reserved t)), todo)
  (** the controller goes on to the next descriptor *)
  | us_advance h todo slot t : hc_running h = true -> sc_td (hc_sched h) !! slot = Some t -> usb_step (h, todo) (put_element h (td_link t), todo).

Lemma built_link_u32 r : is_req r -> fst (usbdma_build_td (Some r) DATA SCHED (Some zero_td)) = USBDMA_OK -> is_u32 (td_link (built_td r DATA SCHED)).
Proof.
  intros Hr Hb. pose proof (build_td_ok r zero_td Hr) as H. destruct (usbdma_build_td (Some r) DATA SCHED (Some zero_td)) as [rc td]. cbn [fst] in Hb. subst rc.
  destruct H as [(_ & _ & _ & _ & _)|[H _]]; [|done]. unfold built_td. cbn [td_link]. case_if; [unfold is_u32, USBDMA_LINK_TERM; lia|].
  apply (lor_range 32); [lia|apply u32_range|unfold USBDMA_LINK_DEPTH; lia].
Qed.

Lemma put_td_ok h slot t : hc_ok h -> td_ok t -> is_u32 (td_link t) -> hc_ok (put_td h slot t).
Proof. intros (H1 & H2 & H3 & H4 & H5) Ht Hl. split; [cbn; by rewrite length_insert|]. split; [by apply Forall_insert|]. split; [by apply Forall_insert|done]. Qed.

(** *** Clearing the schedule *)

Lemma clear_byte_active w b : c_true (Z.land w OS_USB_TD_ACTIVE) = false \/ b = 2 -> c_true (Z.land (clear_byte w b) OS_USB_TD_ACTIVE) = false.
Proof.
  unfold clear_byte. intros [Hw| ->].
  - rewrite <- Z.land_assoc, (Z.land_comm (Z.lnot _)), Z.land_assoc. unfold c_true in *. apply negb_false_iff, Z.eqb_eq in Hw. by rewrite Hw, Z.land_0_l.
  - rewrite <- Z.land_assoc. change (Z.land (Z.lnot (Z.shiftl 255 (8 * 2))) OS_USB_TD_ACTIVE) with 0. by rewrite Z.land_0_r.
Qed.

Lemma clear_td_byte_active o t : active t = false \/ o = 6 -> active (clear_td_byte o t) = false.
Proof.
  unfold clear_td_byte, active. intros Ht. destruct (Z.ltb_spec o 4); [by destruct Ht as [|]; [|lia]|].
  destruct (Z.ltb_spec o 8); [|by destruct Ht as [Ht|]; [repeat case_match|lia]]. cbn [td_status].
  apply clear_byte_active. destruct Ht as [?| ->]; [by left|by right].
Qed.

(** The descriptor of slot [i] is inactive. *)
Definition slot_idle (i : nat) (s : os_usb_sched_t) : Prop := forall t, sc_td s !! i = Some t -> active t = false.

Lemma clear_page_byte_idle i off s : slot_idle i s \/ off = 16 + 32 * Z.of_nat i + 6 -> slot_idle i (clear_page_byte off s).
Proof.
  intros Hs t. unfold clear_page_byte.
  destruct (Z.ltb_spec off 4); [destruct Hs as [Hs|]; [apply Hs|lia]|]. destruct (Z.ltb_spec off 8); [destruct Hs as [Hs|]; [apply Hs|lia]|].
  destruct (Z.ltb_spec off 16); [destruct Hs as [Hs|]; [apply Hs|lia]|]. cbn [sc_td]. destruct (decide (Z.to_nat ((off - 16) / 32) = i)) as [E|E].
  - rewrite E, list_lookup_alter_eq. intros (t0 & E0 & ->)%fmap_Some. apply clear_td_byte_active. destruct Hs as [Hs| ->]; [left; by apply Hs|right].
    by replace (16 + 32 * Z.of_nat i + 6 - 16) with (6 + Z.of_nat i * 32) by lia; rewrite Z.mod_add by lia.
  - rewrite list_lookup_alter_ne by done. destruct Hs as [Hs| ->]; [apply Hs|]. destruct E.
    replace (16 + 32 * Z.of_nat i + 6 - 16) with (6 + Z.of_nat i * 32) by lia. rewrite Z.div_add by lia. change (6 / 32) with 0. lia.
Qed.

Lemma clear_bytes_idle i l : forall s, slot_idle i s \/ 16 + 32 * Z.of_nat i + 6 ∈ l -> slot_idle i (fold_left (fun s off => clear_page_byte off s) l s).
Proof.
  induction l as [|off l IH]; intros s Hs; cbn [fold_left]; [destruct Hs as [|Hs%elem_of_nil]; done|]. apply IH.
  rewrite elem_of_cons in Hs. destruct Hs as [Hs|[<-|Hs]]; [left; apply clear_page_byte_idle; by left|left; apply clear_page_byte_idle; by right|by right].
Qed.

Lemma clear_bytes_length l : forall s, length (sc_td (fold_left (fun s off => clear_page_byte off s) l s)) = length (sc_td s).
Proof.
  induction l as [|off l IH]; intros s; cbn [fold_left]; [done|]. rewrite IH. unfold clear_page_byte. repeat case_match; try done. cbn [sc_td]. apply length_alter.
Qed.

(** After the links are stored: eight inactive descriptors that end the chain. *)
Definition td_cleared (t : os_usb_td_t) : Prop := active t = false /\ td_link t = USBDMA_LINK_TERM.

Lemma term_links_cleared s : length (sc_td s) = 8%nat -> (forall i, (i < 8)%nat -> slot_idle i s) ->
  let s' := fold_left (fun s i => term_link i s) (seqZ 0 8) s in length (sc_td s') = 8%nat /\ Forall td_cleared (sc_td s').
Proof.
  intros Hl Hi. destruct s as [hd el tds]. cbn [sc_td] in *. unfold slot_idle in Hi. cbn [sc_td] in Hi.
  do 8 (destruct tds as [|? tds]; [done|]). destruct tds as [|? tds]; [|done]. cbn. split; [done|].
  apply Forall_lookup. intros i t Ht. specialize (Hi i).
  do 8 (destruct i as [|i]; [injection Ht as <-; split; [exact (Hi ltac:(lia) _ eq_refl)|done]|]). done.
Qed.

Lemma run_sched_stores {X} (g : X -> os_usb_sched_t -> os_usb_sched_t) l : forall h,
  run_stores h (map (fun x h => with_sched h (g x (hc_sched h))) l) = with_sched h (fold_left (fun s x => g x s) l (hc_sched h)).
Proof.
  induction l as [|x l IH]; intros h; [by destruct h|]. unfold run_stores in *. cbn [map fold_left]. by rewrite IH.
Qed.

Lemma run_stores_app h l k : run_stores h (l ++ k) = run_stores (run_stores h l) k.
Proof. apply fold_left_app. Qed.

Lemma sched_clear_spec h : length (sc_td (hc_sched h)) = 8%nat -> exists tds, length tds = 8%nat /\ Forall td_cleared tds /\
  sched_clear h = with_watch (with_sched h (mk_sched USBDMA_LINK_TERM USBDMA_LINK_TERM tds)) OS_USB_TD_END.
Proof.
  intros Hl. unfold sched_clear, clear_stores. rewrite !run_stores_app, !run_sched_stores. cbn [hc_sched with_sched].
  set (s1 := fold_left _ (seqZ 0 4096) _).
  assert (H1 : length (sc_td s1) = 8%nat) by (subst s1; by rewrite clear_bytes_length).
  assert (H2 : forall i, (i < 8)%nat -> slot_idle i s1) by (intros i Hi; apply clear_bytes_idle; right; apply elem_of_seqZ; lia).
  clearbody s1. destruct (term_links_cleared s1 H1 H2) as [L F]. change OS_USB_TD_SLOTS with 8. revert L F.
  generalize (fold_left (fun s i => term_link i s) (seqZ 0 8) s1). intros s2 L F. by exists (sc_td s2).
Qed.

Lemma td_cleared_ok t : td_cleared t -> td_ok t /\ is_u32 (td_link t).
Proof. intros [Ha Hl]. rewrite Hl. split; [split; [by rewrite Ha|rewrite Hl; by left]|unfold is_u32, USBDMA_LINK_TERM; lia]. Qed.

Lemma cleared_ok h : length (sc_td (hc_sched h)) = 8%nat -> hc_ok (sched_clear h).
Proof.
  intros Hl. destruct (sched_clear_spec h Hl) as (tds & L & F & ->). cbn. split; [done|].
  split; [eapply Forall_impl; [exact F|]; intros t Ht; apply (td_cleared_ok t Ht)|]. split; [eapply Forall_impl; [exact F|]; intros t Ht; apply (td_cleared_ok t Ht)|].
  split; [by left|done].
Qed.

Lemma stores_ok old r t : is_req r -> fst (usbdma_build_td (Some r) DATA SCHED (Some zero_td)) = USBDMA_OK -> td_ok old -> is_u32 (td_link old) ->
  t ∈ td_stores old (built_td r DATA SCHED) -> td_ok t /\ is_u32 (td_link t).
Proof.
  intros Hr Hb [_ Ho] Hu Hin. pose proof (built_link_u32 r Hr Hb) as Hn. pose proof (build_td_ok r zero_td Hr) as H.
  destruct (usbdma_build_td (Some r) DATA SCHED (Some zero_td)) as [rc td]. cbn [fst] in Hb. subst rc. destruct H as [(_ & _ & _ & Ht & Hl)|[H _]]; [|done].
  unfold td_stores in Hin. rewrite !elem_of_cons, elem_of_nil in Hin.
  destruct Hin as [->|[->|[->|[->|[->|[->|[]]]]]]]; cbn [td_link]; (split; [split; [by intros ?|done]|done]).
Qed.

Lemma usb_td_ok h r : hc_ok h -> is_req r -> exists rc h', usb_hc_td SCHED DATA h r = Some (rc, h') /\ hc_ok h'.
Proof.
  intros Hh Hr. destruct (Hh) as (H1 & H2 & H3 & H4 & H5). unfold usb_hc_td. pose proof (build_td_ok r zero_td Hr) as H. pose proof (built_link_u32 r Hr) as Hu.
  destruct (usbdma_build_td (Some r) DATA SCHED (Some zero_td)) as [rc td]. cbn [fst] in Hu. destruct H as [(-> & Hs & -> & Ht & Hl)|[Hneg ->]].
  - cbn [Z.eqb USBDMA_OK negb default from_option id hc_sched with_hc_dev]. unfold USBDMA_OK. cbn [Z.eqb negb]. rewrite (proj2 (st_Some _ _ _ _)) by (split; [lia|done]). rewrite some_bind.
    eexists _, _. split; [done|]. apply (put_td_ok _ (Z.to_nat (q_slot r)) (mk_td _ _ _ _ _) Hh); [by split|by apply Hu].
  - unfold USBDMA_OK. rewrite (proj2 (Z.eqb_neq rc 0)) by lia. by eexists _, _.
Qed.

Lemma usb_run_ok h first watch : hc_ok h -> is_u8 first -> exists rc h', usb_hc_run SCHED DATA h first watch = Some (rc, h') /\ hc_ok h'.
Proof.
  intros Hh Hf. destruct (Hh) as (H1 & H2 & H3 & H4 & H5). unfold usb_hc_run. case_if; [by eexists _, _|]. case_if; [eexists _, _; split; [done|]; do 3 (split; [done|]); split; [by left|done]|].
  destruct (chain_check_total (hc_sched h) first H1 H3 Hf) as (r & -> & Hr); [done|]. rewrite some_bind. case_if; [by eexists _, _|]. bsimp.
  eexists _, _. split; [done|]. do 3 (split; [done|]). split; [|done]. cbn [hc_sched set_element sc_element]. right. exists first. destruct Hr as [[? _]|(l & Hc & _ & _ & Hj)]; [lia|].
  destruct (chain_head _ _ _ Hc) as [l' ->]. apply Forall_cons in Hj as [Hj _]. fold (td_phys SCHED first). rewrite td_phys_addr by done. by apply slot_link.
Qed.

Definition frames_ok (h : hc_t) : Prop := Forall queue_link (hc_frames h).

(** Every state of the kernel and the controller: once the stores left are made the
    schedule is in order, and while there are some the controller is halted. *)
Record usb_inv (y : usb_sys) : Prop := mk_usb_inv {
  ui_frames : frames_ok (fst y);
  ui_base : hc_io_base (fst y) = 0 -> hc_running (fst y) = false;
  ui_todo : snd y <> [] -> hc_running (fst y) = false;
  ui_after : hc_ok (run_stores (fst y) (snd y))
}.

Lemma store_keeps f h : f ∈ clear_stores ++ [note_stop] ->
  hc_frames (f h) = hc_frames h /\ hc_io_base (f h) = hc_io_base h /\ hc_running (f h) = hc_running h.
Proof.
  intros Hf. apply elem_of_app in Hf as [Hf|Hf]; [|apply list_elem_of_singleton in Hf as ->; done]. unfold clear_stores in Hf.
  rewrite !elem_of_app in Hf. destruct Hf as [Hf|[Hf|Hf]]; [by apply list_elem_of_fmap in Hf as (? & -> & _)..|].
  rewrite !elem_of_cons, elem_of_nil in Hf. by destruct Hf as [->|[->|[->|[]]]].
Qed.

(** What a handler leaves: the frames, and a controller that runs only if there is one. *)
Definition keeps_hc (h h' : hc_t) : Prop := hc_frames h' = hc_frames h /\ (hc_io_base h' = 0 -> hc_running h' = true -> hc_io_base h = 0 /\ hc_running h = true).

Lemma usb_td_keeps h r rc h' : usb_hc_td SCHED DATA h r = Some (rc, h') -> keeps_hc h h'.
Proof.
  unfold usb_hc_td, keeps_hc. destruct (usbdma_build_td _ _ _ _) as [c td]. case_if; [by intros [= <- <-]|].
  destruct (st _ _ _); [|done]. rewrite some_bind. by intros [= <- <-].
Qed.

Lemma usb_run_keeps h first watch rc h' : usb_hc_run SCHED DATA h first watch = Some (rc, h') -> keeps_hc h h'.
Proof.
  unfold usb_hc_run, keeps_hc. destruct (Z.eqb_spec (hc_io_base h) 0); [by intros [= <- <-]|]. case_if; [by intros [= <- <-]|].
  destruct (usbdma_chain_check _ _ _ _); [|done]. rewrite some_bind. case_if; by intros [= <- <-].
Qed.

Lemma usb_watch_keeps h rc h' : usb_hc_watch_done h = Some (rc, h') -> keeps_hc h h' /\ hc_sched h' = hc_sched h.
Proof.
  unfold usb_hc_watch_done, keeps_hc. case_if; [by intros [= <- <-]|]. destruct (ld _ _); [|done]. rewrite some_bind. case_if; by intros [= <- <-].
Qed.

Lemma idle_step h h' : usb_inv (h, []) -> keeps_hc h h' -> hc_ok h' -> usb_inv (h', []).
Proof.
  intros [Hf Hb Ht Ha] [Ef Hk] Hok. split; cbn in *; [unfold frames_ok; by rewrite Ef| |done|done].
  intros E. destruct (hc_running h') eqn:Er; [|done]. destruct (Hk E eq_refl) as [E' Er']. by rewrite (Hb E') in Er'.
Qed.

(** The stores that are left are those of a claim or a stop. *)
Definition usb_todo (y : usb_sys) : Prop := forall f, f ∈ snd y -> f ∈ clear_stores ++ [note_stop].

Lemma run_clear_stores h : run_stores h clear_stores = sched_clear h.
Proof. unfold sched_clear. reflexivity. Qed.

Lemma begin_clear h (stop : bool) : usb_inv (h, []) -> usb_inv (hc_halt h true, clear_stores ++ (if stop then [note_stop] else [])).
Proof.
  intros [Hf Hb Ht Ha]. cbn [fst snd] in *. assert (Hr : hc_running (hc_halt h true) = false).
  { unfold hc_halt. destruct (Z.eqb_spec (hc_io_base h) 0); [by apply Hb|]. cbn. apply andb_false_r. }
  assert (El : length (sc_td (hc_sched (hc_halt h true))) = 8%nat) by (unfold hc_halt; case_if; apply Ha).
  split; cbn [fst snd]; [unfold frames_ok, hc_halt in *; by case_if|done|done|]. rewrite run_stores_app, run_clear_stores.
  pose proof (cleared_ok _ El) as Hok. revert Hok. generalize (sched_clear (hc_halt h true)). intros h' Hok. by destruct stop.
Qed.

Lemma usb_step_ok y y' : usb_step y y' -> usb_inv y /\ usb_todo y -> usb_inv y' /\ usb_todo y'.
Proof.
  intros Hs [Hi Hd]. revert Hi Hd. destruct Hs as [h Hb|h|h f todo|h r rc h' Hr E|h r old t Hr Hb Eo Hin|h first watch rc h' Hf Hw E|h rc h' E|h todo slot t st Hrun E Ha|h todo slot t Hrun E]; intros Hi Hd.
  - split; [rewrite <- (app_nil_r clear_stores); by apply (begin_clear h false)|]. intros f Hf. apply elem_of_app. by left.
  - split; [by apply (begin_clear h true)|]. by intros f Hf.
  - split; [|intros g Hg; apply Hd; by right]. destruct Hi as [Hf Hb Ht Ha]. cbn [fst snd] in *. destruct (store_keeps f h) as (E1 & E2 & E3); [apply Hd; by left|].
    specialize (Ht ltac:(done)). split; cbn [fst snd]; [unfold frames_ok; by rewrite E1|by rewrite E3|by rewrite E3|exact Ha].
  - split; [|done]. apply (idle_step h); [done|by eapply usb_td_keeps|]. destruct (usb_td_ok h r (ui_after _ Hi) Hr) as (rc' & h2 & E2 & Hok). rewrite E2 in E. by injection E as <- <-.
  - split; [|done]. pose proof (ui_after _ Hi) as Hok. cbn in Hok. destruct (Hok) as (_ & H2 & H3 & _). rewrite Forall_lookup in H2, H3.
    destruct (stores_ok old r t Hr Hb (H2 _ _ Eo) (H3 _ _ Eo) Hin) as [Ht Hu]. apply (idle_step h); [done|done|by apply put_td_ok].
  - split; [|done]. apply (idle_step h); [done|by eapply usb_run_keeps|]. destruct (usb_run_ok h first watch (ui_after _ Hi) Hf) as (rc' & h2 & E2 & Hok). rewrite E2 in E. by injection E as <- <-.
  - split; [|done]. destruct (usb_watch_keeps _ _ _ E) as [Hk Es]. apply (idle_step h); [done|done|]. pose proof (ui_after _ Hi) as Hok. cbn in Hok. unfold hc_ok in *. by rewrite Es.
  - assert (todo = []) as -> by (destruct todo; [done|]; pose proof (ui_todo _ Hi ltac:(done)) as Hx; cbn in Hx; congruence). split; [|done].
    pose proof (ui_after _ Hi) as Hok. cbn in Hok. destruct (Hok) as (_ & H2 & H3 & _). rewrite Forall_lookup in H2, H3. destruct (H2 _ _ E) as [Ht Hl].
    apply (idle_step h); [done|done|]. apply put_td_ok; [done| |by apply (H3 _ _ E)]. split; [|done]. intros Hact. by apply Ht, Ha.
  - assert (todo = []) as -> by (destruct todo; [done|]; pose proof (ui_todo _ Hi ltac:(done)) as Hx; cbn in Hx; congruence). split; [|done].
    pose proof (ui_after _ Hi) as Hok. cbn in Hok. destruct (Hok) as (H1 & H2 & H3 & H4 & H5). apply (idle_step h); [done|done|].
    assert (Hl : link_ok (td_link t)) by (rewrite Forall_lookup in H2; apply (H2 _ _ E)). done.
Qed.

(** The static arrays have their declared sizes. *)
Definition hc_sized (h : hc_t) : Prop := length (hc_frames h) = 1024%nat /\ length (sc_td (hc_sched h)) = 8%nat.

Lemma frame_entry : queue_link (Z.lor SCHED USBDMA_LINK_QH).
Proof.
  destruct Hsched as (S0 & S1 & S2). destruct (addr_flags SCHED 2) as [E1 E2]; [zlia|lia|lia|]. unfold queue_link, USBDMA_LINK_QH in *. rewrite E1, E2 by lia. done.
Qed.

Lemma init_inv h bar4 : hc_sized h -> c_true (Z.land bar4 1) = true -> usb_inv (usb_tablet_init SCHED h (Some bar4), []).
Proof.
  intros [Hf Ht] Hb. unfold usb_tablet_init. rewrite Hb. cbv zeta. cbn [negb].
  match goal with |- context [sched_clear ?x] => set (h1 := x) end. assert (H1 : length (sc_td (hc_sched h1)) = 8%nat) by exact Ht.
  pose proof (cleared_ok h1 H1) as Hok. destruct (sched_clear_spec h1 H1) as (tds & L & F & E). rewrite E in *. subst h1.
  split; cbn [fst snd]; [|done|done|exact Hok]. unfold frames_ok, usbdma_frame_list_init.
  cbn [hc_frames default from_option id with_watch with_sched with_hc_dev]. rewrite drop_ge, app_nil_r by (rewrite Hf; done). apply Forall_replicate, frame_entry.
Qed.

Lemma usb_reachable_inv h bar4 y : hc_sized h -> c_true (Z.land bar4 1) = true ->
  rtc usb_step (usb_tablet_init SCHED h (Some bar4), []) y -> usb_inv y.
Proof.
  intros Hh Hb Hr. assert (Hgen : forall a b, rtc usb_step a b -> usb_inv a /\ usb_todo a -> usb_inv b /\ usb_todo b).
  { induction 1 as [a|a b c Hab _ IH]; [done|]. intros Ha. apply IH. by eapply usb_step_ok. }
  apply (Hgen _ _ Hr). split; [by apply init_inv|]. intros f Hf. by apply elem_of_nil in Hf.
Qed.

(** The pointers a running controller follows: the frame list, from a queue head its link
    and its element, from a descriptor its link. *)
Inductive hc_reaches (h : hc_t) : Z -> Prop :=
  | hr_frame p : p ∈ hc_frames h -> hc_reaches h p
  | hr_head p : hc_reaches h p -> ~ link_term p -> queue_link p -> hc_reaches h (sc_head (hc_sched h))
  | hr_element p : hc_reaches h p -> ~ link_term p -> queue_link p -> hc_reaches h (sc_element (hc_sched h))
  | hr_link p j t : hc_reaches h p -> ~ link_term p -> link_to p j -> sc_td (hc_sched h) !! Z.to_nat j = Some t -> hc_reaches h (td_link t).

(** A pointer that is followed: to nothing, to the queue head, or to a descriptor that
    transfers, while it is active, inside the data page. *)
Definition confined (h : hc_t) (p : Z) : Prop := link_term p \/ queue_link p \/
  exists j t, link_to p j /\ sc_td (hc_sched h) !! Z.to_nat j = Some t /\ (active t = true -> transfer_ok t).

Lemma reaches_confined h p : frames_ok h -> hc_ok h -> hc_reaches h p -> confined h p.
Proof.
  intros Hf (H1 & H2 & H3 & H4 & H5) Hp. rewrite Forall_lookup in H2.
  assert (Hgo : forall p, link_ok p -> confined h p).
  { intros q [Hq|[j Hj]]; [by left|right; right]. destruct (lookup_lt_is_Some_2 (sc_td (hc_sched h)) (Z.to_nat j)) as [t Et]; [destruct Hj; lia|].
    exists j, t. split; [done|]. split; [done|]. by destruct (H2 _ _ Et). }
  destruct Hp as [p Hp|p _ _ _|p _ _ _|p j t _ _ _ Et]; [right; left; by apply (proj1 (Forall_forall _ _) Hf)|by left|by apply Hgo|apply Hgo; by destruct (H2 _ _ Et)].
Qed.
End Confined.

(** C22. USB confinement: from usb_tablet_init on a controller that was found, after any
    claims, stops (both wait until the controller reports that it halted), driver requests
    and progress of the controller between any two stores of the kernel, requests are
    always answered, and while the controller runs every pointer it can follow, from the
    frame list on, ends its work, names the queue head of the schedule page, or names one
    of its eight descriptors, whose transfer, while it is active, lies inside the data
    page. *)
Theorem usb_dma_confined sched data h0 bar4 h todo : own_page sched -> own_page data -> hc_sized h0 -> c_true (Z.land bar4 1) = true ->
  rtc (usb_step sched data) (usb_tablet_init sched h0 (Some bar4), []) (h, todo) ->
  (todo = [] -> (forall r, is_req r -> is_Some (usb_hc_td sched data h r)) /\ (forall first watch, is_u8 first -> is_Some (usb_hc_run sched data h first watch))) /\
  (hc_running h = true -> forall p, hc_reaches sched h p -> confined sched data h p).
Proof.
  intros Hs Hd Hh Hb Hr. destruct (usb_reachable_inv sched data Hs Hd h0 bar4 (h, todo) Hh Hb Hr) as [Hf _ Ht Ha]. cbn [fst snd] in *. split.
  - intros ->. split.
    + intros r Hq. destruct (usb_td_ok sched data Hs Hd h r Ha Hq) as (? & ? & -> & _). by eexists.
    + intros f w Hw. destruct (usb_run_ok sched data Hs h f w Ha Hw) as (? & ? & -> & _). by eexists.
  - intros Hrun p Hp. assert (todo = []) as -> by (destruct todo; [done|]; rewrite Ht in Hrun by done; done). by apply reaches_confined.
Qed.

(** USB chains: the check of a RUN request always answers; it answers a count exactly
    when the descriptors from the first slot on form a chain that ends, without visiting a
    slot twice, through transfers in the data page, and the count is the length of that
    chain, at most eight. *)
Theorem chain_check_exact sched data s first : own_page sched -> length (sc_td s) = 8%nat -> Forall (fun t => is_u32 (td_link t)) (sc_td s) -> is_u8 first -> first <> OS_USB_TD_END ->
  exists r, usbdma_chain_check (Some s) sched data first = Some r /\ r <> 0 /\ r <= 8 /\
    (0 < r <-> exists l, chain sched data s first l /\ NoDup l) /\ forall l, chain sched data s first l -> NoDup l -> r = Z.of_nat (length l).
Proof.
  intros Hs Hl Hu Hf He. destruct (chain_check_total sched data Hs s first Hl Hu Hf He) as (r & E & Hr). exists r. split; [done|].
  destruct Hr as [[Hneg Hno]|(l & Hc & Hn & -> & Hj)].
  - split; [lia|]. split; [lia|]. split; [|intros l Hc Hn; by apply Hno in Hc]. split; [lia|]. intros (l & Hc & Hn). by apply Hno in Hc.
  - pose proof (few_slots l Hj Hn). destruct (chain_head _ _ _ _ _ Hc) as [l' El]. assert (length l <> 0%nat) by (by rewrite El).
    split; [lia|]. split; [lia|]. split; [split; [intros _; by exists l|lia]|]. intros k Hk _. f_equal. f_equal. by eapply chain_unique.
Qed.

(** ** Two requests and a run *)

Definition demo_hc : hc_t := mk_hc 0 (replicate 1024 0) (mk_sched 0 0 (replicate 8 zero_td)) 255 0 false devsvc_reset.
Definition demo_started : hc_t := usb_tablet_init 1048576 demo_hc (Some 49153).
Definition demo_req (slot next : Z) : os_usb_td_req_t := mk_td_req slot OS_USB_PID_IN 1 0 0 0 next (64 * slot) 8.
Definition after_td (h : hc_t) (r : os_usb_td_req_t) : hc_t := match usb_hc_td 1048576 1052672 h r with Some (_, h) => h | None => h end.
Definition after_run (h : hc_t) (first watch : Z) : hc_t := match usb_hc_run 1048576 1052672 h first watch with Some (_, h) => h | None => h end.
Definition demo_built : hc_t := after_td (after_td demo_started (demo_req 0 1)) (demo_req 1 OS_USB_TD_END).
Definition demo_running : hc_t := after_run demo_built 0 1.

Lemma demo_pages : own_page 1048576 /\ own_page 1052672.
Proof. by vm_compute. Qed.

Lemma demo_req_ok slot next : is_u8 slot -> is_u8 next -> slot < 8 -> is_req (demo_req slot next).
Proof. intros Hs Hn H8. unfold is_req, demo_req, is_u8, is_u16 in *. cbn. repeat (split || constructor); try done; lia. Qed.

Lemma demo_usb_reachable : rtc (usb_step 1048576 1052672) (demo_started, []) (demo_running, []).
Proof.
  transitivity (after_td demo_started (demo_req 0 1), @nil (hc_t -> hc_t)); [apply rtc_once, (us_td _ _ _ (demo_req 0 1) 0); [by apply demo_req_ok|by vm_compute]|].
  transitivity (demo_built, @nil (hc_t -> hc_t)); [apply rtc_once, (us_td _ _ _ (demo_req 1 OS_USB_TD_END) 0); [by apply demo_req_ok|by vm_compute]|].
  apply rtc_once, (us_run _ _ _ 0 1 2); [done|done|by vm_compute].
Qed.

(** From the frame list to the queue head to the first descriptor. *)
Lemma usb_dma_confined_witness : own_page 1048576 /\ hc_running demo_running = true /\ hc_reaches 1048576 demo_running 1048592 /\
  confined 1048576 1052672 demo_running 1048592.
Proof.
  split; [apply demo_pages|]. split; [by vm_compute|].
  assert (Hr : hc_reaches 1048576 demo_running 1048592).
  { replace 1048592 with (sc_element (hc_sched demo_running)) by (by vm_compute). apply (hr_element _ _ 1048578); [|by vm_compute|by vm_compute].
    apply hr_frame, (list_elem_of_lookup_2 _ 0). by vm_compute. }
  split; [exact Hr|].
  apply (usb_dma_confined 1048576 1052672 demo_hc 49153 demo_running [] (proj1 demo_pages) (proj2 demo_pages)); [by vm_compute|by vm_compute|exact demo_usb_reachable|by vm_compute|exact Hr].
Defined.

Lemma chain_check_exact_witness : exists r, usbdma_chain_check (Some (hc_sched demo_built)) 1048576 1052672 0 = Some r /\ r = 2 /\
  (0 < r <-> exists l, chain 1048576 1052672 (hc_sched demo_built) 0 l /\ NoDup l).
Proof.
  destruct (chain_check_exact 1048576 1052672 (hc_sched demo_built) 0 (proj1 demo_pages)) as (r & E & _ & _ & Hr & _).
  - by vm_compute.
  - apply (bool_decide_unpack _). by vm_compute.
  - by vm_compute.
  - by vm_compute.
  - exists r. split; [exact E|]. split; [|exact Hr]. assert (E2 : usbdma_chain_check (Some (hc_sched demo_built)) 1048576 1052672 0 = Some 2) by (by vm_compute). rewrite E2 in E. by injection E.
Defined.
