(* ===== verification/AesCt.v ===== *)
(** * Constant-time AES S-box of include/os_aes_ct.h

    Sixteen bytes are transposed into eight bit planes, a circuit of gates is evaluated
    once on the planes, and the planes are transposed back.  The circuit is written over
    any type with gates: the code evaluates it on 32-bit words, the proofs on single bits. *)

From Stdlib Require Import ZArith Lia.
From stdpp Require Import base numbers option tactics list.
From S2P Require Import Prelude Bytes NetBuf NetSum BigInt IoPorts.

Class Gates (A : Type) := { g_xor : A -> A -> A; g_and : A -> A -> A; g_not : A -> A }.

(** [uint32_t] words and single bits. *)
#[export] Instance word_gates : Gates Z := {| g_xor := Z.lxor; g_and := Z.land; g_not z := u32 (Z.lnot z) |}.
#[export] Instance bit_gates : Gates bool := {| g_xor := xorb; g_and := andb; g_not := negb |}.

(** A named wire. *)
Definition wire {A B} (e : A) (k : A -> B) : B := k e.

Declare Scope gate_scope.
Delimit Scope gate_scope with gate.
Notation "a ⊕ b" := (g_xor a b) (at level 50, left associativity) : gate_scope.
Notation "a ⊗ b" := (g_and a b) (at level 40, left associativity) : gate_scope.
Notation "! a" := (g_not a) (at level 35, right associativity) : gate_scope.
Notation "x '<~' e ';;' k" := (wire e (fun x => k)) (at level 200, e at level 99, k at level 200, right associativity) : gate_scope.

Section Circuit.
Context `{Gates A}.
Open Scope gate_scope.

(** The gates of [os_aes_ct_planes] from [x0 .. x7] to [q[0] .. q[7]]. *)
Definition circuit (x0 x1 x2 x3 x4 x5 x6 x7 : A) : list A :=
  (* top linear transformation *)
  y14 <~ x3 ⊕ x5 ;; y13 <~ x0 ⊕ x6 ;; y9 <~ x0 ⊕ x3 ;; y8 <~ x0 ⊕ x5 ;; t0 <~ x1 ⊕ x2 ;; y1 <~ t0 ⊕ x7 ;; y4 <~ y1 ⊕ x3 ;; y12 <~ y13 ⊕ y14 ;;
  y2 <~ y1 ⊕ x0 ;; y5 <~ y1 ⊕ x6 ;; y3 <~ y5 ⊕ y8 ;; t1 <~ x4 ⊕ y12 ;; y15 <~ t1 ⊕ x5 ;; y20 <~ t1 ⊕ x1 ;; y6 <~ y15 ⊕ x7 ;; y10 <~ y15 ⊕ t0 ;;
  y11 <~ y20 ⊕ y9 ;; y7 <~ x7 ⊕ y11 ;; y17 <~ y10 ⊕ y11 ;; y19 <~ y10 ⊕ y8 ;; y16 <~ t0 ⊕ y11 ;; y21 <~ y13 ⊕ y16 ;; y18 <~ x0 ⊕ y16 ;;
  (* non-linear section *)
  t2 <~ y12 ⊗ y15 ;; t3 <~ y3 ⊗ y6 ;; t4 <~ t3 ⊕ t2 ;; t5 <~ y4 ⊗ x7 ;; t6 <~ t5 ⊕ t2 ;; t7 <~ y13 ⊗ y16 ;; t8 <~ y5 ⊗ y1 ;; t9 <~ t8 ⊕ t7 ;;
  t10 <~ y2 ⊗ y7 ;; t11 <~ t10 ⊕ t7 ;; t12 <~ y9 ⊗ y11 ;; t13 <~ y14 ⊗ y17 ;; t14 <~ t13 ⊕ t12 ;; t15 <~ y8 ⊗ y10 ;; t16 <~ t15 ⊕ t12 ;; t17 <~ t4 ⊕ t14 ;;
  t18 <~ t6 ⊕ t16 ;; t19 <~ t9 ⊕ t14 ;; t20 <~ t11 ⊕ t16 ;; t21 <~ t17 ⊕ y20 ;; t22 <~ t18 ⊕ y19 ;; t23 <~ t19 ⊕ y21 ;; t24 <~ t20 ⊕ y18 ;; t25 <~ t21 ⊕ t22 ;;
  t26 <~ t21 ⊗ t23 ;; t27 <~ t24 ⊕ t26 ;; t28 <~ t25 ⊗ t27 ;; t29 <~ t28 ⊕ t22 ;; t30 <~ t23 ⊕ t24 ;; t31 <~ t22 ⊕ t26 ;; t32 <~ t31 ⊗ t30 ;; t33 <~ t32 ⊕ t24 ;;
  t34 <~ t23 ⊕ t33 ;; t35 <~ t27 ⊕ t33 ;; t36 <~ t24 ⊗ t35 ;; t37 <~ t36 ⊕ t34 ;; t38 <~ t27 ⊕ t36 ;; t39 <~ t29 ⊗ t38 ;; t40 <~ t25 ⊕ t39 ;; t41 <~ t40 ⊕ t37 ;;
  t42 <~ t29 ⊕ t33 ;; t43 <~ t29 ⊕ t40 ;; t44 <~ t33 ⊕ t37 ;; t45 <~ t42 ⊕ t41 ;; z0 <~ t44 ⊗ y15 ;; z1 <~ t37 ⊗ y6 ;; z2 <~ t33 ⊗ x7 ;; z3 <~ t43 ⊗ y16 ;;
  z4 <~ t40 ⊗ y1 ;; z5 <~ t29 ⊗ y7 ;; z6 <~ t42 ⊗ y11 ;; z7 <~ t45 ⊗ y17 ;; z8 <~ t41 ⊗ y10 ;; z9 <~ t44 ⊗ y12 ;; z10 <~ t37 ⊗ y3 ;; z11 <~ t33 ⊗ y4 ;;
  z12 <~ t43 ⊗ y13 ;; z13 <~ t40 ⊗ y5 ;; z14 <~ t29 ⊗ y2 ;; z15 <~ t42 ⊗ y9 ;; z16 <~ t45 ⊗ y14 ;; z17 <~ t41 ⊗ y8 ;;
  (* bottom linear transformation *)
  t46 <~ z15 ⊕ z16 ;; t47 <~ z10 ⊕ z11 ;; t48 <~ z5 ⊕ z13 ;; t49 <~ z9 ⊕ z10 ;; t50 <~ z2 ⊕ z12 ;; t51 <~ z2 ⊕ z5 ;; t52 <~ z7 ⊕ z8 ;; t53 <~ z0 ⊕ z3 ;;
  t54 <~ z6 ⊕ z7 ;; t55 <~ z16 ⊕ z17 ;; t56 <~ z12 ⊕ t48 ;; t57 <~ t50 ⊕ t53 ;; t58 <~ z4 ⊕ t46 ;; t59 <~ z3 ⊕ t54 ;; t60 <~ t46 ⊕ t57 ;; t61 <~ z14 ⊕ t57 ;;
  t62 <~ t52 ⊕ t58 ;; t63 <~ t49 ⊕ t58 ;; t64 <~ z4 ⊕ t59 ;; t65 <~ t61 ⊕ t62 ;; t66 <~ z1 ⊕ t63 ;; s0 <~ t59 ⊕ t63 ;; s6 <~ t56 ⊕ ! t62 ;; s7 <~ t48 ⊕ ! t60 ;;
  t67 <~ t64 ⊕ t65 ;; s3 <~ t53 ⊕ t66 ;; s4 <~ t51 ⊕ t66 ;; s5 <~ t47 ⊕ t65 ;; s1 <~ t64 ⊕ ! s3 ;; s2 <~ t55 ⊕ ! t67 ;;
  [s7; s6; s5; s4; s3; s2; s1; s0].
End Circuit.

(** [q[0] .. q[7]] in place. *)
Definition os_aes_ct_planes (q : list Z) : list Z :=
  match q with
  | [q0; q1; q2; q3; q4; q5; q6; q7] => circuit q7 q6 q5 q4 q3 q2 q1 q0
  | _ => q
  end.

(** One masked swap: [t = (x ^ (x >> s)) & m; x = x ^ t ^ (t << s);] *)
Definition t8_swap (x s m : Z) : Z :=
  let t := Z.land (Z.lxor x (Z.shiftr x s)) m in
  Z.lxor (Z.lxor x t) (u64 (Z.shiftl t s)).

Definition os_aes_ct_t8 (x : Z) : Z :=
  let x := t8_swap x 7 47851476196393130 in     (* 0x00AA00AA00AA00AA *)
  let x := t8_swap x 14 225176545447116 in      (* 0x0000CCCC0000CCCC *)
  t8_swap x 28 4042322160.                      (* 0x00000000F0F0F0F0 *)

(** [for (i = 7; i >= 0; i--) x = (x << 8) | b[i];] *)
Definition pack8 (b : list Z) : Z := foldr (fun v x => Z.lor (u64 (Z.shiftl x 8)) v) 0 b.

(** The bytes of a 64-bit word, lowest first: [(uint8_t)(x >> (8 * i))]. *)
Definition unpack8 (x : Z) : list Z := map (fun i => u8 (Z.shiftr x (8 * i))) [0; 1; 2; 3; 4; 5; 6; 7].

Definition os_aes_ct_subn (s : bytes) (n : Z) : option bytes :=
  src ← ld_bytes s 0 n;
  let buf := take 16 (src ++ replicate 16 0) in
  let lo := os_aes_ct_t8 (pack8 (take 8 buf)) in
  let hi := os_aes_ct_t8 (pack8 (drop 8 buf)) in
  let q := map (fun i => Z.lor (Z.land (Z.shiftr lo (8 * i)) 255) (u32 (Z.shiftl (Z.land (Z.shiftr hi (8 * i)) 255) 8))) [0; 1; 2; 3; 4; 5; 6; 7] in
  let q := os_aes_ct_planes q in
  let lo := os_aes_ct_t8 (pack8 (map (fun w => Z.land w 255) q)) in
  let hi := os_aes_ct_t8 (pack8 (map (fun w => Z.land (Z.shiftr w 8) 255) q)) in
  let buf := unpack8 lo ++ unpack8 hi in
  st_bytes s 0 (take (Z.to_nat n) buf).

Definition os_aes_ct_sub16 (s : bytes) : option bytes := os_aes_ct_subn s 16.
Definition os_aes_ct_sub4 (w : bytes) : option bytes := os_aes_ct_subn w 4.
Definition os_aes_ct_sbox (x : Z) : option Z := s ← os_aes_ct_subn [x] 1; ld s 0.

Definition os_aes_ct_xtime (x : Z) : Z := u8 (Z.lxor (u8 (Z.shiftl x 1)) (Z.land 27 (u8 (u32 (0 - Z.shiftr x 7))))).

(** * The circuit is the AES S-box

    The S-box of FIPS 197 (inverse in GF(2^8), then an affine map) as a definition, and
    the proof that the bitsliced code applies it to every byte. *)

(** ** GF(2^8) modulo x^8 + x^4 + x^3 + x + 1 *)

Definition gf_double (x : Z) : Z := let y := 2 * x in if y <? 256 then y else Z.lxor y 283.

(** [gf_mul_bits n a b]: the sum of the doublings of [a] selected by the [n] low bits of [b]. *)
Fixpoint gf_mul_bits (n : nat) (a b : Z) : Z :=
  match n with
  | O => 0
  | S n => Z.lxor (if Z.odd b then a else 0) (gf_mul_bits n (gf_double a) (b / 2))
  end.
Definition gf_mul (a b : Z) : Z := gf_mul_bits 8 a b.

(** The product of the squares of [a] repeated [n] times: a^2 a^4 ... *)
Fixpoint gf_squares (n : nat) (a : Z) : Z := match n with O => 1 | S n => gf_mul (gf_mul a a) (gf_squares n (gf_mul a a)) end.

(** The inverse of [a] (0 for 0): a^254 = a^2 a^4 ... a^128. *)
Definition gf_inv (a : Z) : Z := gf_squares 7 a.

Definition rotl8 (x n : Z) : Z := Z.lor (u8 (Z.shiftl x n)) (Z.shiftr x (8 - n)).
Definition fips_sbox (x : Z) : Z :=
  let b := gf_inv x in
  Z.lxor (Z.lxor (Z.lxor (Z.lxor (Z.lxor b (rotl8 b 1)) (rotl8 b 2)) (rotl8 b 3)) (rotl8 b 4)) 99.

(** [gf_inv] is the inverse of the field. *)
Lemma gf_inv_ok : Forall (fun a => gf_mul a (gf_inv a) = 1) (seqZ 1 255).
Proof. apply (bool_decide_unpack _). by vm_compute. Qed.

(** ** The circuit, bit by bit *)

Section Homomorphism.
Context (j : Z) (Hj : 0 <= j < 32).

Definition bit_of (z : Z) (b : bool) : Prop := Z.testbit z j = b.

Lemma bit_xor a a' b b' : bit_of a a' -> bit_of b b' -> bit_of (g_xor a b) (g_xor a' b').
Proof. unfold bit_of. cbn. intros <- <-. apply Z.lxor_spec. Qed.
Lemma bit_and a a' b b' : bit_of a a' -> bit_of b b' -> bit_of (g_and a b) (g_and a' b').
Proof. unfold bit_of. cbn. intros <- <-. apply Z.land_spec. Qed.
Lemma bit_not a a' : bit_of a a' -> bit_of (g_not a) (g_not a').
Proof. unfold bit_of. cbn. intros <-. unfold u32. change 4294967296 with (2 ^ 32). by rewrite Z.mod_pow2_bits_low, Z.lnot_spec by lia. Qed.

Lemma bit_wire e e' (k : Z -> list Z) (k' : bool -> list bool) :
  bit_of e e' -> (forall x x', bit_of x x' -> Forall2 bit_of (k x) (k' x')) -> Forall2 bit_of (wire e k) (wire e' k').
Proof. intros He Hk. unfold wire. by apply Hk. Qed.

Lemma circuit_bits x0 x1 x2 x3 x4 x5 x6 x7 y0 y1 y2 y3 y4 y5 y6 y7 :
  bit_of x0 y0 -> bit_of x1 y1 -> bit_of x2 y2 -> bit_of x3 y3 -> bit_of x4 y4 -> bit_of x5 y5 -> bit_of x6 y6 -> bit_of x7 y7 ->
  Forall2 bit_of (circuit x0 x1 x2 x3 x4 x5 x6 x7) (circuit y0 y1 y2 y3 y4 y5 y6 y7).
Proof.
  intros. unfold circuit.
  repeat (apply bit_wire; [repeat first [assumption|apply bit_xor|apply bit_and|apply bit_not]|intros]).
  repeat (apply Forall2_cons; split; [assumption|]). apply Forall2_nil_2.
Qed.
End Homomorphism.

(** The byte of eight bits, lowest first. *)
Definition byte_of (l : list bool) : Z := foldr (fun (b : bool) x => Z.b2z b + 2 * x) 0 l.
Definition bits_of (x : Z) : list bool := map (Z.testbit x) [0; 1; 2; 3; 4; 5; 6; 7].

Definition circuit_byte (x : Z) : list bool :=
  let b i := Z.testbit x i in circuit (b 7) (b 6) (b 5) (b 4) (b 3) (b 2) (b 1) (b 0).

(** All 256 values. *)
Lemma circuit_is_sbox : Forall (fun x => circuit_byte x = bits_of (fips_sbox x)) (seqZ 0 256).
Proof. apply (bool_decide_unpack _). by vm_compute. Qed.

Lemma sbox_range : Forall (fun x => 0 <= fips_sbox x < 256) (seqZ 0 256).
Proof. apply (bool_decide_unpack _). by vm_compute. Qed.

(** ** The transposition *)

(** Where bit [k] comes from in a masked swap. *)
Definition swap_src (s m k : Z) : Z := if Z.testbit m k then k + s else if Z.testbit m (k - s) then k - s else k.

Lemma swap_bit x s m k : 0 <= k < 64 -> 0 <= s -> Z.testbit m k && Z.testbit m (k - s) = false -> Z.testbit (t8_swap x s m) k = Z.testbit x (swap_src s m k).
Proof.
  intros Hk Hs Hd. unfold t8_swap, swap_src, u64. change 18446744073709551616 with (2 ^ 64).
  rewrite !Z.lxor_spec, Z.mod_pow2_bits_low, Z.shiftl_spec by lia. rewrite !Z.land_spec, !Z.lxor_spec, Z.shiftr_spec by lia.
  destruct (Z.ltb_spec k s).
  - rewrite !(Z.testbit_neg_r _ (k - s)) by lia. rewrite andb_false_r, xorb_false_r. destruct (Z.testbit m k); [|by rewrite andb_false_r, xorb_false_r].
    rewrite andb_true_r. by destruct (Z.testbit x k), (Z.testbit x (k + s)).
  - rewrite Z.shiftr_spec by lia. replace (k - s + s) with k by lia. destruct (Z.testbit m k), (Z.testbit m (k - s)); try done; rewrite ?andb_true_r, ?andb_false_r, ?xorb_false_r;
      destruct (Z.testbit x k), (Z.testbit x (k + s)), (Z.testbit x (k - s)); done.
Qed.

Definition t8_src (k : Z) : Z := swap_src 7 47851476196393130 (swap_src 14 225176545447116 (swap_src 28 4042322160 k)).

(** A swap never takes a bit from a place it also writes. *)
Definition swap_clear (s m k : Z) : Prop := Z.testbit m k && Z.testbit m (k - s) = false /\ 0 <= swap_src s m k < 64.
#[export] Instance swap_clear_dec s m k : Decision (swap_clear s m k).
Proof. unfold swap_clear. apply _. Defined.

(** The three swaps move bit i of byte j to bit j of byte i. *)
Lemma t8_table : Forall (fun k => swap_clear 28 4042322160 k /\ swap_clear 14 225176545447116 (swap_src 28 4042322160 k)
    /\ swap_clear 7 47851476196393130 (swap_src 14 225176545447116 (swap_src 28 4042322160 k)) /\ t8_src k = 8 * (k mod 8) + k / 8) (seqZ 0 64).
Proof. apply (bool_decide_unpack _). by vm_compute. Qed.

Lemma t8_bit x k : 0 <= k < 64 -> Z.testbit (os_aes_ct_t8 x) k = Z.testbit x (8 * (k mod 8) + k / 8).
Proof.
  intros Hk. pose proof t8_table as H. rewrite Forall_forall in H. destruct (H k) as ([H1 K1] & [H2 K2] & [H3 _] & E); [apply elem_of_seqZ; lia|].
  unfold os_aes_ct_t8. by rewrite !swap_bit, <- E by (done || lia).
Qed.

(** ** Bytes and words *)

Lemma pack8_bit b : Forall is_u8 b -> (length b <= 8)%nat -> forall k, 0 <= k < 64 -> Z.testbit (pack8 b) k = Z.testbit (default 0 (b !! Z.to_nat (k / 8))) (k mod 8).
Proof.
  intros Hb. induction Hb as [|v b Hv Hb IH]; intros Hl k Hk; cbn [pack8 foldr].
  - by rewrite lookup_nil, !Z.bits_0.
  - cbn [length] in Hl. fold (pack8 b). rewrite Z.lor_spec. unfold u64. change 18446744073709551616 with (2 ^ 64). rewrite Z.mod_pow2_bits_low, Z.shiftl_spec by lia.
    destruct (Z.ltb_spec k 8).
    + rewrite (Z.testbit_neg_r _ (k - 8)) by lia. rewrite Z.div_small, Z.mod_small by lia. done.
    + rewrite (u8_high v k) by (done || lia). rewrite orb_false_r, IH by lia. replace (Z.to_nat (k / 8)) with (S (Z.to_nat ((k - 8) / 8))) by zlia. cbn [lookup list_lookup].
      f_equal. zlia.
Qed.

Lemma unpack8_bit x i j : (i < 8)%nat -> 0 <= j < 8 -> Z.testbit (default 0 (unpack8 x !! i)) j = Z.testbit x (8 * Z.of_nat i + j).
Proof.
  intros Hi Hj. unfold unpack8. assert (E : (map (fun i => u8 (Z.shiftr x (8 * i))) [0; 1; 2; 3; 4; 5; 6; 7]) !! i = Some (u8 (Z.shiftr x (8 * Z.of_nat i)))).
  { do 8 (destruct i as [|i]; [done|]). lia. }
  rewrite E. cbn [default from_option id]. rewrite u8_land_bits, Z.shiftr_spec by lia. rewrite (proj2 (Z.ltb_lt j 8)) by lia. cbn [andb]. f_equal. lia.
Qed.

(** The planes, and what the circuit makes of them. *)
Definition plane (lo hi i : Z) : Z := Z.lor (Z.land (Z.shiftr lo (8 * i)) 255) (u32 (Z.shiftl (Z.land (Z.shiftr hi (8 * i)) 255) 8)).

Lemma land255_bit x j : 0 <= j -> Z.testbit (Z.land x 255) j = (j <? 8) && Z.testbit x j.
Proof.
  intros Hj. change 255 with (Z.ones 8). rewrite Z.land_spec. destruct (Z.ltb_spec j 8); [by rewrite Z.ones_spec_low, andb_true_r by lia|by rewrite Z.ones_spec_high, andb_false_r by lia].
Qed.

Lemma plane_bit lo hi i j : 0 <= i < 8 -> 0 <= j < 16 -> Z.testbit (plane lo hi i) j = if j <? 8 then Z.testbit lo (8 * i + j) else Z.testbit hi (8 * i + (j - 8)).
Proof.
  intros Hi Hj. unfold plane, u32. change 4294967296 with (2 ^ 32). rewrite Z.lor_spec, Z.mod_pow2_bits_low, Z.shiftl_spec, land255_bit by lia.
  destruct (Z.ltb_spec j 8); cbn [andb].
  - rewrite (Z.testbit_neg_r _ (j - 8)) by lia. rewrite orb_false_r, Z.shiftr_spec by lia. f_equal. lia.
  - cbn [orb]. rewrite land255_bit, (proj2 (Z.ltb_lt (j - 8) 8)), Z.shiftr_spec by lia. cbn [andb]. f_equal. lia.
Qed.

(** ** The bytes through the S-box *)

Section Sub.
Context (buf : bytes) (Hlen : length buf = 16%nat) (Hbuf : Forall is_u8 buf).

Let lo := os_aes_ct_t8 (pack8 (take 8 buf)).
Let hi := os_aes_ct_t8 (pack8 (drop 8 buf)).
Let byte (j : Z) : Z := default 0 (buf !! Z.to_nat j).

Lemma byte_u8 j : is_u8 (byte j).
Proof. unfold byte. destruct (buf !! Z.to_nat j) eqn:E; cbn [default from_option id]; [rewrite Forall_lookup in Hbuf; by eapply Hbuf|unfold is_u8; lia]. Qed.

Lemma planes_hold i j : 0 <= i < 8 -> 0 <= j < 16 -> Z.testbit (plane lo hi i) j = Z.testbit (byte j) i.
Proof.
  intros Hi Hj. rewrite plane_bit by done. assert (Hu : Forall is_u8 (take 8 buf) /\ Forall is_u8 (drop 8 buf)) by (split; [by apply Forall_take|by apply Forall_drop]).
  unfold lo, hi, byte. destruct (Z.ltb_spec j 8); rewrite t8_bit by lia.
  - rewrite pack8_bit by (try apply Hu; rewrite ?length_take; zlia). replace ((8 * ((8 * i + j) mod 8) + (8 * i + j) / 8) / 8) with j by zlia.
    replace ((8 * ((8 * i + j) mod 8) + (8 * i + j) / 8) mod 8) with i by zlia. by rewrite lookup_take_lt by lia.
  - rewrite pack8_bit by (try apply Hu; rewrite ?length_drop; zlia). replace ((8 * ((8 * i + (j - 8)) mod 8) + (8 * i + (j - 8)) / 8) / 8) with (j - 8) by zlia.
    replace ((8 * ((8 * i + (j - 8)) mod 8) + (8 * i + (j - 8)) / 8) mod 8) with i by zlia. rewrite lookup_drop. do 2 f_equal. replace (8 + Z.to_nat (j - 8))%nat with (Z.to_nat j) by lia. done.
Qed.

Definition out_planes : list Z := os_aes_ct_planes (map (plane lo hi) [0; 1; 2; 3; 4; 5; 6; 7]).

(** Plane [i] after the circuit: bit [i] of every substituted byte. *)
Lemma out_planes_hold i j : (i < 8)%nat -> 0 <= j < 16 -> exists w, out_planes !! i = Some w /\ Z.testbit w j = Z.testbit (fips_sbox (byte j)) (Z.of_nat i).
Proof.
  intros Hi Hj. unfold out_planes. cbn [map os_aes_ct_planes].
  assert (H : Forall2 (bit_of j) (circuit (plane lo hi 7) (plane lo hi 6) (plane lo hi 5) (plane lo hi 4) (plane lo hi 3) (plane lo hi 2) (plane lo hi 1) (plane lo hi 0))
    (circuit_byte (byte j))).
  { unfold circuit_byte. cbv zeta. apply (circuit_bits j); [lia|unfold bit_of; apply planes_hold; lia..]. }
  pose proof circuit_is_sbox as Hs. rewrite Forall_forall in Hs. pose proof (byte_u8 j) as [Hb1 Hb2]. rewrite (Hs (byte j)) in H by (apply elem_of_seqZ; lia).
  destruct (Forall2_lookup_r _ _ _ i (Z.testbit (fips_sbox (byte j)) (Z.of_nat i)) H) as (w & Ew & Hw); [|by exists w].
  unfold bits_of. do 8 (destruct i as [|i]; [done|]). lia.
Qed.

Lemma out_planes_length : length out_planes = 8%nat.
Proof. done. Qed.

(** Eight of the bytes brought back. *)
Lemma back_bytes (f : Z -> Z) (off : Z) : 0 <= off <= 8 -> (forall w j, 0 <= j < 8 -> Z.testbit (f w) j = Z.testbit w (off + j)) -> (forall w, is_u8 (f w)) ->
  forall j, (j < 8)%nat -> default 0 (unpack8 (os_aes_ct_t8 (pack8 (map f out_planes))) !! j) = fips_sbox (byte (off + Z.of_nat j)).
Proof.
  intros Hoff Hf Hu j Hj. pose proof sbox_range as Hr. rewrite Forall_forall in Hr. pose proof (byte_u8 (off + Z.of_nat j)) as [Hb1 Hb2].
  assert (Hsb : is_u8 (fips_sbox (byte (off + Z.of_nat j)))) by (apply Hr, elem_of_seqZ; lia).
  assert (Hun : is_u8 (default 0 (unpack8 (os_aes_ct_t8 (pack8 (map f out_planes))) !! j))).
  { unfold unpack8. do 8 (destruct j as [|j]; [apply u8_range|]). lia. }
  apply Z.bits_inj'. intros i Hi. destruct (Z.ltb_spec i 8); [|by rewrite !u8_high by done].
  rewrite unpack8_bit, t8_bit by lia. replace ((8 * Z.of_nat j + i) mod 8) with i by zlia. replace ((8 * Z.of_nat j + i) / 8) with (Z.of_nat j) by zlia.
  rewrite pack8_bit; [|apply Forall_map, Forall_forall; intros w _; apply Hu|by rewrite length_map, out_planes_length|lia].
  replace ((8 * i + Z.of_nat j) / 8) with i by zlia. replace ((8 * i + Z.of_nat j) mod 8) with (Z.of_nat j) by zlia.
  destruct (out_planes_hold (Z.to_nat i) (off + Z.of_nat j)) as (w & Ew & Hw); [lia|lia|]. rewrite list_lookup_fmap, Ew. cbn [fmap option_fmap option_map default from_option id].
  rewrite Hf, Hw by lia. f_equal. lia.
Qed.
End Sub.

(** [os_aes_ct_subn] substitutes the first [n] bytes and leaves the others. *)
Lemma subn_spec s n : Forall is_u8 s -> 0 <= n <= 16 -> n <= blen s -> os_aes_ct_subn s n = Some (map fips_sbox (take (Z.to_nat n) s) ++ drop (Z.to_nat n) s).
Proof.
  intros Hs Hn Hl. unfold blen in Hl. unfold os_aes_ct_subn. rewrite ld_bytes_ok by (unfold blen; lia). rewrite some_bind, Z2Nat.inj_0, drop_0.
  set (buf := take 16 (take (Z.to_nat n) s ++ replicate 16 0)).
  assert (Hbl : length buf = 16%nat) by (subst buf; rewrite length_take, length_app, length_take, length_replicate; lia).
  assert (Hbu : Forall is_u8 buf).
  { subst buf. apply Forall_take, Forall_app. split; [by apply Forall_take|]. apply Forall_replicate. unfold is_u8. lia. }
  fold (plane (os_aes_ct_t8 (pack8 (take 8 buf))) (os_aes_ct_t8 (pack8 (drop 8 buf)))). fold (out_planes buf). cbv zeta.
  set (res := unpack8 _ ++ unpack8 _).
  assert (Hres : forall j, (j < 16)%nat -> default 0 (res !! j) = fips_sbox (default 0 (buf !! j))).
  { intros j Hj. subst res. destruct (decide (j < 8)%nat).
    - rewrite lookup_app_l by done. rewrite (back_bytes buf Hbl Hbu (fun w => Z.land w 255) 0); [by rewrite Z.add_0_l, Nat2Z.id|lia| | |done].
      + intros w k Hk. rewrite land255_bit, (proj2 (Z.ltb_lt k 8)) by lia. cbn [andb]. done.
      + intros w. split; [apply Z.land_nonneg; right; lia|]. change 255 with (Z.ones 8). rewrite Z.land_ones by lia. apply Z.mod_pos_bound. lia.
    - rewrite lookup_app_r by (cbn; lia). change (length (unpack8 _)) with 8%nat.
      rewrite (back_bytes buf Hbl Hbu (fun w => Z.land (Z.shiftr w 8) 255) 8); [f_equal; f_equal; f_equal; lia|lia| | |lia].
      + intros w k Hk. rewrite land255_bit, (proj2 (Z.ltb_lt k 8)), Z.shiftr_spec by lia. cbn [andb]. f_equal. lia.
      + intros w. split; [apply Z.land_nonneg; right; lia|]. change 255 with (Z.ones 8). rewrite Z.land_ones by lia. apply Z.mod_pos_bound. lia. }
  assert (Hrl : length res = 16%nat) by done. clearbody res.
  rewrite st_bytes_ok by (unfold blen; rewrite ?length_take; lia). unfold patch. rewrite Z2Nat.inj_0, take_0. cbn [app]. rewrite length_take, Hrl.
  replace (0 + Z.to_nat n `min` 16)%nat with (Z.to_nat n) by lia. do 2 f_equal. apply list_eq_same_length with (n := Z.to_nat n);
    [by rewrite length_map, length_take; lia|rewrite length_take; lia|].
  intros j x y Hj Hx Hy. rewrite lookup_take_lt in Hx by done. rewrite list_lookup_fmap, lookup_take_lt in Hy by done.
  specialize (Hres j ltac:(lia)). rewrite Hx in Hres. cbn [default from_option id] in Hres. subst x. destruct (s !! j) as [z|] eqn:Es; [|done]. apply (inj Some) in Hy as <-. f_equal.
  subst buf. rewrite lookup_take_lt by lia. rewrite lookup_app_l by (rewrite length_take; lia). rewrite lookup_take_lt by lia. by rewrite Es.
Qed.
