(* ===== verification/AesGcm.v ===== *)
(** * AES-128-GCM of kernel/aes_gcm.c

    Key schedule, one block, GHASH, counter mode and the authenticated encryption.  Blocks
    are byte lists; a context is its 176 round-key bytes.  [aes128_encrypt_block] is always
    called with addresses of local arrays: its NULL tests are left out.  [None] is an access
    outside an array or fuel used up. *)

From Stdlib Require Import ZArith Lia.
From stdpp Require Import base numbers option tactics list.
From S2P Require Import Prelude Bytes NetBuf NetSum BigInt IoPorts AesCt.

Definition rcon : list Z := [1; 2; 4; 8; 16; 32; 64; 128; 27; 54].

Definition xtime (value : Z) : Z := os_aes_ct_xtime value.

(** [while (b) { if (b & 1) result ^= a; a = xtime(a); b >>= 1; }]: eight rounds for a byte. *)
Fixpoint mul_rounds (fuel : nat) (result a b : Z) : option Z :=
  if b =? 0 then Some result
  else match fuel with
       | O => None
       | S fuel => mul_rounds fuel (if c_true (Z.land b 1) then Z.lxor result a else result) (xtime a) (Z.shiftr b 1)
       end.
Definition mul (a b : Z) : option Z := mul_rounds 8 0 a b.

Definition at_ (s : bytes) (i : nat) : Z := default 0 (s !! i).

Definition add_round_key (state key : bytes) : option bytes := k ← ld_bytes key 0 16; Some (zip_with Z.lxor state k).
Definition sub_bytes (state : bytes) : option bytes := os_aes_ct_sub16 state.
Definition shift_rows (t : bytes) : bytes := map (at_ t) [0; 5; 10; 15; 4; 9; 14; 3; 8; 13; 2; 7; 12; 1; 6; 11]%nat.

Definition mix_column (state : bytes) (c : nat) : option bytes :=
  let a := at_ state (4 * c) in let b := at_ state (4 * c + 1) in let d := at_ state (4 * c + 2) in let e := at_ state (4 * c + 3) in
  a2 ← mul a 2; b3 ← mul b 3; b2 ← mul b 2; d3 ← mul d 3; d2 ← mul d 2; e3 ← mul e 3; a3 ← mul a 3; e2 ← mul e 2;
  Some [u8 (Z.lxor (Z.lxor (Z.lxor a2 b3) d) e); u8 (Z.lxor (Z.lxor (Z.lxor a b2) d3) e);
        u8 (Z.lxor (Z.lxor (Z.lxor a b) d2) e3); u8 (Z.lxor (Z.lxor (Z.lxor a3 b) d) e2)].

Definition mix_columns (state : bytes) : option bytes :=
  c0 ← mix_column state 0; c1 ← mix_column state 1; c2 ← mix_column state 2; c3 ← mix_column state 3; Some (c0 ++ c1 ++ c2 ++ c3).

(** One round of the key schedule: four more bytes. *)
Definition expand_round (keys : bytes) (round : nat) : option (bytes * nat) :=
  let n := blen keys in
  temp ← ld_bytes keys (n - 4) 4;
  '(temp, round) ← (if Z.land n 15 =? 0 then
                      w ← os_aes_ct_sub4 [at_ temp 1; at_ temp 2; at_ temp 3; at_ temp 0];
                      r ← rcon !! round;
                      Some (Z.lxor (at_ w 0) r :: drop 1 w, S round)
                    else Some (temp, round));
  prev ← ld_bytes keys (n - 16) 4;
  Some (keys ++ map u8 (zip_with Z.lxor prev temp), round).

Fixpoint expand_loop (fuel : nat) (keys : bytes) (round : nat) : option bytes :=
  if blen keys <? 176 then
    match fuel with
    | O => None
    | S fuel => '(keys, round) ← expand_round keys round; expand_loop fuel keys round
    end
  else Some keys.

Definition aes128_init (context : bool) (key : ptr bytes) : option (Z * bytes) :=
  match key with
  | Some key => if context then k ← ld_bytes key 0 16; keys ← expand_loop 40 k 0; Some (0, keys) else Some (-1, [])
  | NULL => Some (-1, [])
  end.

Fixpoint rounds_from (context state : bytes) (round : Z) (n : nat) : option bytes :=
  match n with
  | O => Some state
  | S n =>
      state ← sub_bytes state;
      let state := shift_rows state in
      state ← mix_columns state;
      state ← add_round_key state (drop (Z.to_nat (16 * round)) context);
      rounds_from context state (round + 1) n
  end.

Definition aes128_encrypt_block (context input : bytes) : option bytes :=
  state ← ld_bytes input 0 16;
  state ← add_round_key state context;
  state ← rounds_from context state 1 9;
  state ← sub_bytes state;
  let state := shift_rows state in
  add_round_key state (drop 160 context).

(** ** GHASH *)

Definition xor_block (left right : bytes) : option bytes := r ← ld_bytes right 0 16; Some (zip_with Z.lxor left r).

Fixpoint shift_from (value : bytes) (carry : Z) : bytes :=
  match value with
  | [] => []
  | v :: value => u8 (Z.lor (Z.shiftr v 1) (Z.shiftl carry 7)) :: shift_from value (Z.land v 1)
  end.
Definition shift_right_one (value : bytes) : bytes := shift_from value 0.

(** Round [i] of the product: the mask [bit] of the value, then the next multiple [v]. *)
Definition ghash_round (value : bytes) (zv : bytes * bytes) (i : nat) : bytes * bytes :=
  let '(z, v) := zv in
  let bit := u8 (0 - u8 (Z.land (Z.shiftr (at_ value (i / 8)) (7 - Z.land (Z.of_nat i) 7)) 1)) in
  let lsb := u8 (0 - u8 (Z.land (at_ v 15) 1)) in
  let z := zip_with (fun a b => Z.lxor a (Z.land b bit)) z v in
  let v := shift_right_one v in
  (z, Z.lxor (at_ v 0) (u8 (Z.land 225 lsb)) :: drop 1 v).

Definition ghash_multiply (value hash : bytes) : bytes := fst (fold_left (ghash_round value) (seq 0 128) (replicate 16 0, hash)).

Definition put64 (value : Z) : bytes := map (fun i => u8 (Z.shiftr value (56 - 8 * i))) [0; 1; 2; 3; 4; 5; 6; 7].

Fixpoint ghash_update (fuel : nat) (state hash data : bytes) (length : Z) : option bytes :=
  if 16 <=? length then
    match fuel with
    | O => None
    | S fuel =>
        state ← xor_block state data;
        ghash_update fuel (ghash_multiply state hash) hash (drop 16 data) (u16 (length - 16))
    end
  else if c_true length then
    d ← ld_bytes data 0 length;
    state ← xor_block state (take 16 (d ++ replicate 16 0));
    Some (ghash_multiply state hash)
  else Some state.

(** 4096 rounds are enough for a 16-bit length. *)
Definition ghash (hash additional : bytes) (additional_length : Z) (ciphertext : bytes) (ciphertext_length : Z) : option bytes :=
  let out := replicate 16 0 in
  out ← (if c_true additional_length then ghash_update 4096 out hash additional additional_length else Some out);
  out ← (if c_true ciphertext_length then ghash_update 4096 out hash ciphertext ciphertext_length else Some out);
  out ← xor_block out (put64 (u64 (additional_length * 8)) ++ put64 (u64 (ciphertext_length * 8)));
  Some (ghash_multiply out hash).

(** ** Counter mode *)

(** [for (i = 16; i > 12; i--) { counter[i - 1]++; if (counter[i - 1]) break; }] on the last bytes, last first. *)
Fixpoint increment (n : nat) (rev_counter : bytes) : bytes :=
  match n, rev_counter with
  | S n, b :: l => let b := u8 (b + 1) in if c_true b then b :: l else b :: increment n l
  | _, l => l
  end.
Definition increment_counter (counter : bytes) : bytes := rev (increment 4 (rev counter)).

Definition make_j0 (fixed_iv explicit_nonce : bytes) : option bytes :=
  f ← ld_bytes fixed_iv 0 4; n ← ld_bytes explicit_nonce 0 8; Some (f ++ n ++ [0; 0; 0; 1]).

(** The bytes written to [output]. *)
Fixpoint ctr_loop (fuel : nat) (context counter input : bytes) (length : Z) : option bytes :=
  if negb (c_true length) then Some []
  else match fuel with
       | O => None
       | S fuel =>
           let counter := increment_counter counter in
           stream ← aes128_encrypt_block context counter;
           let n := if 16 <? length then 16 else length in
           i ← ld_bytes input 0 n;
           rest ← ctr_loop fuel context counter (drop (Z.to_nat n) input) (u16 (length - n));
           Some (map u8 (zip_with Z.lxor i stream) ++ rest)
       end.
Definition ctr_crypt (context j0 input : bytes) (length : Z) : option bytes := ctr_loop 4096 context j0 input length.

(** ** Authenticated encryption *)

Definition initialize_gcm (key fixed_iv explicit_nonce : ptr bytes) : option (Z * bytes * bytes * bytes) :=
  match key, fixed_iv, explicit_nonce with
  | Some _, Some fixed_iv, Some explicit_nonce =>
      '(rc, context) ← aes128_init true key;
      if negb (rc =? 0) then Some (-2, [], [], [])
      else
        hash ← aes128_encrypt_block context (replicate 16 0);
        j0 ← make_j0 fixed_iv explicit_nonce;
        Some (0, context, hash, j0)
  | _, _, _ => Some (-1, [], [], [])
  end.

Definition is_null {A} (p : ptr A) : bool := match p with NULL => true | Some _ => false end.
Definition mem (p : ptr bytes) : bytes := default [] p.

(** The answer, the ciphertext buffer and the tag after the call. *)
Definition aes128_gcm_encrypt (key fixed_iv explicit_nonce additional_data : ptr bytes) (additional_length : Z) (plaintext : ptr bytes) (plaintext_length : Z)
    (ciphertext tag : ptr bytes) : option (Z * ptr bytes * ptr bytes) :=
  if (is_null additional_data && c_true additional_length) || (is_null plaintext && c_true plaintext_length) || (is_null ciphertext && c_true plaintext_length) || is_null tag
  then Some (-1, ciphertext, tag)
  else
    '(rc, context, hash, j0) ← initialize_gcm key fixed_iv explicit_nonce;
    if negb (rc =? 0) then Some (-2, ciphertext, tag)
    else
      ciphertext ← (if c_true plaintext_length then c ← ctr_crypt context j0 (mem plaintext) plaintext_length; b ← st_bytes (mem ciphertext) 0 c; Some (Some b)
                    else Some ciphertext);
      auth ← ghash hash (mem additional_data) additional_length (mem ciphertext) plaintext_length;
      mask ← aes128_encrypt_block context j0;
      t ← st_bytes (mem tag) 0 (map u8 (zip_with Z.lxor auth mask));
      Some (0, ciphertext, Some t).

(** The bytes of the three arrays that differ: [difference |= tag[i] ^ auth[i] ^ mask[i]]. *)
Definition tag_difference (tag auth mask : bytes) : Z := foldl (fun d x => Z.lor d (u8 x)) 0 (zip_with Z.lxor (zip_with Z.lxor tag auth) mask).

(** The answer and the plaintext buffer after the call. *)
Definition aes128_gcm_decrypt (key fixed_iv explicit_nonce additional_data : ptr bytes) (additional_length : Z) (ciphertext : ptr bytes) (ciphertext_length : Z)
    (tag plaintext : ptr bytes) : option (Z * ptr bytes) :=
  if (is_null additional_data && c_true additional_length) || (is_null ciphertext && c_true ciphertext_length) || (is_null plaintext && c_true ciphertext_length) || is_null tag
  then Some (-1, plaintext)
  else
    '(rc, context, hash, j0) ← initialize_gcm key fixed_iv explicit_nonce;
    if negb (rc =? 0) then Some (-2, plaintext)
    else
      auth ← ghash hash (mem additional_data) additional_length (mem ciphertext) ciphertext_length;
      mask ← aes128_encrypt_block context j0;
      t ← ld_bytes (mem tag) 0 16;
      if c_true (tag_difference t auth mask) then Some (-3, plaintext)
      else if c_true ciphertext_length then
        p ← ctr_crypt context j0 (mem ciphertext) ciphertext_length; b ← st_bytes (mem plaintext) 0 p; Some (0, Some b)
      else Some (0, plaintext).

(** * The block cipher is AES-128

    FIPS 197 on byte lists (SubBytes, ShiftRows, MixColumns as a matrix over GF(2^8),
    key expansion by words) and the proof that the code computes it. *)

Definition xors : bytes -> bytes -> bytes := zip_with Z.lxor.
Definition is_bytes (n : nat) (s : bytes) : Prop := length s = n /\ Forall is_u8 s.

(** ** FIPS 197 *)

Definition SubBytes (s : bytes) : bytes := map fips_sbox s.
(** Byte (row r, column c) is at index r + 4 c. *)
Definition ShiftRows (s : bytes) : bytes := map (fun i => at_ s (i mod 4 + 4 * ((i / 4 + i mod 4) mod 4))) (seq 0 16).
Definition dot (row col : bytes) : Z := foldr Z.lxor 0 (zip_with gf_mul col row).
Definition mix_matrix : list bytes := [[2; 3; 1; 1]; [1; 2; 3; 1]; [1; 1; 2; 3]; [3; 1; 1; 2]].
Definition MixColumns (s : bytes) : bytes := concat (map (fun c => map (fun row => dot row (take 4 (drop (4 * c) s))) mix_matrix) [0; 1; 2; 3]%nat).

(** The round constant x^(j-1). *)
Definition Rcon (j : nat) : Z := Nat.iter (j - 1) gf_double 1.
Definition SubWord : bytes -> bytes := map fips_sbox.
Definition RotWord (w : bytes) : bytes := drop 1 w ++ take 1 w.
Definition next_word (ws : list bytes) : list bytes :=
  let i := length ws in
  let temp := default [] (ws !! (i - 1)%nat) in
  let temp := if Nat.eqb (i mod 4) 0 then xors (SubWord (RotWord temp)) [Rcon (i / 4); 0; 0; 0] else temp in
  ws ++ [xors (default [] (ws !! (i - 4)%nat)) temp].
Definition key_words (key : bytes) : list bytes := Nat.iter 40 next_word [take 4 key; take 4 (drop 4 key); take 4 (drop 8 key); take 4 (drop 12 key)].

Definition round_key (keys : bytes) (r : nat) : bytes := take 16 (drop (16 * r) keys).
Definition full_round (keys : bytes) (s : bytes) (r : nat) : bytes := xors (MixColumns (ShiftRows (SubBytes s))) (round_key keys r).
Definition Cipher (keys : bytes) (input : bytes) : bytes :=
  let s := xors input (round_key keys 0) in
  let s := fold_left (full_round keys) (seq 1 9) s in
  xors (ShiftRows (SubBytes s)) (round_key keys 10).

(** AES-128 under a key. *)
Definition AES128 (key input : bytes) : bytes := Cipher (concat (key_words key)) input.

(** ** Bytes *)

Lemma lxor_u8 a b : is_u8 a -> is_u8 b -> is_u8 (Z.lxor a b).
Proof. intros Ha Hb. apply is_u8_bits; [apply Z.lxor_nonneg; unfold is_u8 in *; lia|]. intros i Hi. by rewrite Z.lxor_spec, !u8_high. Qed.

Lemma xors_length a b : length (xors a b) = Nat.min (length a) (length b).
Proof. apply length_zip_with. Qed.

Lemma xors_bytes n a b : is_bytes n a -> is_bytes n b -> is_bytes n (xors a b).
Proof.
  intros [La Ha] [Lb Hb]. split; [rewrite xors_length; lia|]. clear La Lb. revert b Hb. unfold xors. induction Ha as [|x a Hx Ha IH]; intros b Hb; [constructor|].
  destruct Hb as [|y b Hy Hb]; cbn [zip_with]; constructor; [by apply lxor_u8|by apply IH].
Qed.

Lemma xors_u8 n a b : is_bytes n a -> is_bytes n b -> map u8 (xors a b) = xors a b.
Proof.
  intros Ha Hb. destruct (xors_bytes n a b Ha Hb) as [_ H]. induction H as [|x l Hx Hl IH]; cbn [map]; [done|]. by rewrite u8_id, IH.
Qed.

Lemma is_bytes_app n m a b : is_bytes n a -> is_bytes m b -> is_bytes (n + m) (a ++ b).
Proof. intros [? ?] [? ?]. split; [rewrite length_app; lia|by apply Forall_app]. Qed.

Lemma is_bytes_sub s off n : Forall is_u8 s -> (off + n <= length s)%nat -> is_bytes n (take n (drop off s)).
Proof. intros Hs Hl. split; [rewrite length_take, length_drop; lia|]. by apply Forall_take, Forall_drop. Qed.

Lemma at_u8 s i : Forall is_u8 s -> is_u8 (at_ s i).
Proof. intros Hs. unfold at_. destruct (s !! i) eqn:E; cbn; [rewrite Forall_lookup in Hs; by eapply Hs|unfold is_u8; lia]. Qed.

Lemma sbox_u8 x : is_u8 x -> is_u8 (fips_sbox x).
Proof. intros Hx. pose proof sbox_range as H. rewrite Forall_forall in H. apply H, elem_of_seqZ. unfold is_u8 in Hx. lia. Qed.

Lemma sub_bytes_ok n s : is_bytes n s -> is_bytes n (SubBytes s).
Proof. intros [Hl Hs]. split; [by unfold SubBytes; rewrite length_map|]. apply Forall_map. eapply Forall_impl; [done|]. intros x. apply sbox_u8. Qed.

(** ** The steps *)

Lemma sub_bytes_spec s : is_bytes 16 s -> sub_bytes s = Some (SubBytes s).
Proof.
  intros [Hl Hs]. unfold sub_bytes, os_aes_ct_sub16. rewrite subn_spec by (unfold blen; (done || lia)). change (Z.to_nat 16) with 16%nat.
  by rewrite take_ge, drop_ge, app_nil_r by lia.
Qed.

Lemma shift_rows_spec s : shift_rows s = ShiftRows s.
Proof. done. Qed.

Lemma shift_rows_ok s : Forall is_u8 s -> is_bytes 16 (ShiftRows s).
Proof. intros Hs. split; [done|]. unfold ShiftRows. apply Forall_map, Forall_forall. intros i _. by apply at_u8. Qed.

(** The products the columns need, for every byte. *)
Lemma mul_table : Forall (fun a => mul a 2 = Some (gf_mul a 2) /\ mul a 3 = Some (gf_mul a 3) /\ gf_mul a 1 = a /\ 0 <= gf_mul a 2 < 256 /\ 0 <= gf_mul a 3 < 256) (seqZ 0 256).
Proof. apply (bool_decide_unpack _). by vm_compute. Qed.

Lemma mul_small a : is_u8 a -> mul a 2 = Some (gf_mul a 2) /\ mul a 3 = Some (gf_mul a 3) /\ gf_mul a 1 = a /\ is_u8 (gf_mul a 2) /\ is_u8 (gf_mul a 3).
Proof. intros Ha. pose proof mul_table as H. rewrite Forall_forall in H. apply H, elem_of_seqZ. unfold is_u8 in Ha. lia. Qed.

(** A sum of bytes is a byte. *)
Ltac by_lxor := repeat match goal with |- is_u8 (Z.lxor _ _) => apply lxor_u8 end; assumption.

Definition column (s : bytes) (c : nat) : bytes := take 4 (drop (4 * c) s).

Lemma column_at s c : (4 * c + 4 <= length s)%nat -> column s c = [at_ s (4 * c); at_ s (4 * c + 1); at_ s (4 * c + 2); at_ s (4 * c + 3)].
Proof.
  intros Hl. unfold column, at_. apply list_eq_same_length with (n := 4%nat); [done|rewrite length_take, length_drop; lia|].
  intros i x y Hi Hx Hy. rewrite lookup_take_lt, lookup_drop in Hx by done.
  destruct i as [|[|[|[|i]]]]; [..|lia]; cbn [lookup list_lookup] in Hy; apply (inj Some) in Hy as <-; rewrite ?Nat.add_0_r in Hx; by rewrite Hx.
Qed.

Lemma mix_column_spec s c : Forall is_u8 s -> (4 * c + 4 <= length s)%nat ->
  mix_column s c = Some (map (fun row => dot row (column s c)) mix_matrix) /\ is_bytes 4 (map (fun row => dot row (column s c)) mix_matrix).
Proof.
  intros Hs Hl. rewrite column_at by done. unfold mix_column.
  pose proof (at_u8 s (4 * c) Hs) as Ha. pose proof (at_u8 s (4 * c + 1) Hs) as Hb. pose proof (at_u8 s (4 * c + 2) Hs) as Hd. pose proof (at_u8 s (4 * c + 3) Hs) as He.
  set (a := at_ s (4 * c)) in *. set (b := at_ s (4 * c + 1)) in *. set (d := at_ s (4 * c + 2)) in *. set (e := at_ s (4 * c + 3)) in *.
  destruct (mul_small a Ha) as (A2 & A3 & A1 & ? & ?), (mul_small b Hb) as (B2 & B3 & B1 & ? & ?), (mul_small d Hd) as (D2 & D3 & D1 & ? & ?), (mul_small e He) as (E2 & E3 & E1 & ? & ?).
  rewrite A2, A3, B2, B3, D2, D3, E2, E3, !some_bind. cbn [map mix_matrix]. unfold dot. cbn [zip_with foldr]. rewrite A1, B1, D1, E1, !Z.lxor_0_r.
  rewrite !u8_id by (by_lxor). rewrite !Z.lxor_assoc. split; [done|]. split; [done|]. repeat (constructor; [by_lxor|]). constructor.
Qed.

Lemma mix_columns_spec s : is_bytes 16 s -> mix_columns s = Some (MixColumns s) /\ is_bytes 16 (MixColumns s).
Proof.
  intros [Hl Hs]. unfold mix_columns, MixColumns. cbn [map concat]. rewrite app_nil_r.
  destruct (mix_column_spec s 0 Hs ltac:(lia)) as [-> H0], (mix_column_spec s 1 Hs ltac:(lia)) as [-> H1], (mix_column_spec s 2 Hs ltac:(lia)) as [-> H2], (mix_column_spec s 3 Hs ltac:(lia)) as [-> H3].
  rewrite !some_bind. split; [done|]. change 16%nat with (4 + (4 + (4 + 4)))%nat. by repeat apply is_bytes_app.
Qed.

Lemma add_round_key_spec s keys r : is_bytes 16 s -> Forall is_u8 keys -> (16 * r + 16 <= length keys)%nat ->
  add_round_key s (drop (16 * r) keys) = Some (xors s (round_key keys r)) /\ is_bytes 16 (xors s (round_key keys r)).
Proof.
  intros Hs Hk Hl. unfold add_round_key. rewrite ld_bytes_ok by (unfold blen; rewrite ?length_drop; lia). rewrite some_bind. change (Z.to_nat 16) with 16%nat.
  rewrite Z2Nat.inj_0, drop_0. split; [done|]. apply xors_bytes; [done|]. by apply is_bytes_sub.
Qed.

(** One block under 176 round-key bytes. *)
Lemma rounds_spec keys n : forall s r, is_bytes 16 s -> is_bytes 176 keys -> (r + n <= 10)%nat ->
  rounds_from keys s (Z.of_nat r) n = Some (fold_left (full_round keys) (seq r n) s) /\ is_bytes 16 (fold_left (full_round keys) (seq r n) s).
Proof.
  induction n as [|n IH]; intros s r Hs [Hkl Hku] Hr; cbn [rounds_from seq fold_left]; [done|].
  rewrite (sub_bytes_spec s Hs), some_bind, shift_rows_spec. cbv zeta. assert (H1 : is_bytes 16 (ShiftRows (SubBytes s))) by (apply shift_rows_ok; by apply sub_bytes_ok with (n := 16%nat)).
  destruct (mix_columns_spec _ H1) as [-> H2]. rewrite some_bind. replace (Z.to_nat (16 * Z.of_nat r)) with (16 * r)%nat by lia.
  destruct (add_round_key_spec _ keys r H2 Hku) as [-> H3]; [lia|]. rewrite some_bind. replace (Z.of_nat r + 1) with (Z.of_nat (S r)) by lia.
  apply IH; [exact H3|done|lia].
Qed.

Lemma encrypt_block_spec keys input : is_bytes 176 keys -> is_bytes 16 input -> aes128_encrypt_block keys input = Some (Cipher keys input) /\ is_bytes 16 (Cipher keys input).
Proof.
  intros Hk Hi. destruct (Hk) as [Hkl Hku]. destruct (Hi) as [Hil Hiu]. unfold aes128_encrypt_block. rewrite ld_bytes_ok by (unfold blen; lia). rewrite some_bind.
  change (Z.to_nat 16) with 16%nat. rewrite Z2Nat.inj_0, drop_0, take_ge by lia.
  destruct (add_round_key_spec input keys 0 Hi Hku) as [E H1]; [lia|]. rewrite drop_0 in E. rewrite E, some_bind.
  destruct (rounds_spec keys 9 _ 1 H1 Hk) as [E2 H2]; [lia|]. change (Z.of_nat 1) with 1 in E2. rewrite E2, some_bind.
  rewrite (sub_bytes_spec _ H2), some_bind, shift_rows_spec. cbv zeta.
  destruct (add_round_key_spec (ShiftRows (SubBytes (fold_left (full_round keys) (seq 1 9) (xors input (round_key keys 0))))) keys 10) as [E3 H3]; [|done|lia|].
  - apply shift_rows_ok. by apply sub_bytes_ok with (n := 16%nat).
  - change (16 * 10)%nat with 160%nat in E3. by rewrite E3.
Qed.

(** ** The key schedule *)

Lemma words_at (ws : list bytes) k w : Forall (fun w => length w = 4%nat) ws -> ws !! k = Some w -> take 4 (drop (4 * k) (concat ws)) = w.
Proof.
  intros Hw. revert k. induction Hw as [|x ws Hx Hw IH]; intros k Hk; [done|]. cbn [concat]. destruct k as [|k].
  - injection Hk as ->. rewrite Nat.mul_0_r, drop_0. by apply take_app_length'.
  - replace (4 * S k)%nat with (length x + 4 * k)%nat by lia. rewrite drop_app_add. by apply IH.
Qed.

Lemma words_length (ws : list bytes) : Forall (fun w => length w = 4%nat) ws -> length (concat ws) = (4 * length ws)%nat.
Proof. induction 1 as [|x ws Hx Hw IH]; cbn [concat length]; [done|]. rewrite length_app. lia. Qed.

(** The table of the code holds the round constants. *)
Lemma rcon_spec : Forall (fun j => rcon !! j = Some (Rcon (S j)) /\ 0 <= Rcon (S j) < 256) (seq 0 10).
Proof. apply (bool_decide_unpack _). by vm_compute. Qed.

Lemma rcon_word q : (1 <= q <= 10)%nat -> is_bytes 4 [Rcon q; 0; 0; 0].
Proof.
  intros Hq. pose proof rcon_spec as H. rewrite Forall_forall in H. destruct (H (q - 1)%nat) as [_ Hr]; [apply elem_of_seq; lia|].
  replace (S (q - 1)) with q in Hr by lia. split; [done|]. rewrite !Forall_cons. unfold is_u8. repeat (split; [lia|]). by apply Forall_nil.
Qed.

Definition is_words (ws : list bytes) : Prop := Forall (is_bytes 4) ws.

Lemma words_bytes ws : is_words ws -> is_bytes (4 * length ws) (concat ws).
Proof.
  intros Hw. split; [apply words_length; eapply Forall_impl; [done|]; by intros w [? _]|]. apply Forall_concat. eapply Forall_impl; [done|]. by intros w [_ ?].
Qed.

Lemma next_word_ok ws : is_words ws -> (4 <= length ws < 44)%nat -> is_words (next_word ws).
Proof.
  intros Hw Hl. apply Forall_app. split; [done|]. apply Forall_singleton. unfold is_words in Hw. rewrite Forall_lookup in Hw.
  destruct (lookup_lt_is_Some_2 ws (length ws - 4)) as [p Ep]; [lia|]. destruct (lookup_lt_is_Some_2 ws (length ws - 1)) as [t Et]; [lia|]. rewrite Ep, Et. cbn [default from_option id].
  pose proof (Hw _ _ Ep) as Hp. pose proof (Hw _ _ Et) as Ht. apply xors_bytes; [done|]. destruct (Nat.eqb_spec (length ws mod 4) 0) as [E|E]; [|done].
  destruct Ht as [Htl Htu]. apply xors_bytes.
  - apply sub_bytes_ok. unfold RotWord. split; [rewrite length_app, length_drop, length_take; lia|]. apply Forall_app. split; [by apply Forall_drop|by apply Forall_take].
  - apply rcon_word. pose proof (Nat.div_mod_eq (length ws) 4). lia.
Qed.

Lemma word4 (w : bytes) : length w = 4%nat -> w = [at_ w 0; at_ w 1; at_ w 2; at_ w 3].
Proof. intros Hl. do 4 (destruct w as [|? w]; [done|]). by destruct w. Qed.

(** Divisions of natural numbers by constants. *)
Ltac nlia := zify; rewrite ?Nat2Z.inj_div in *; zify; zlia.

(** One round of the loop is one word of the schedule. *)
Lemma expand_round_spec ws round : is_words ws -> (4 <= length ws < 44)%nat -> round = ((length ws + 3) / 4 - 1)%nat ->
  expand_round (concat ws) round = Some (concat (next_word ws), ((length ws + 4) / 4 - 1)%nat).
Proof.
  intros Hw Hl ->. assert (Hw4 : Forall (fun w => length w = 4%nat) ws) by (eapply Forall_impl; [done|]; by intros w [? _]).
  pose proof (words_length ws Hw4) as Hcl. unfold expand_round, blen. rewrite Hcl. cbv zeta. unfold next_word. cbv zeta. rewrite concat_app. cbn [concat]. rewrite app_nil_r.
  unfold is_words in Hw. rewrite Forall_lookup in Hw.
  destruct (lookup_lt_is_Some_2 ws (length ws - 4)) as [p Ep]; [lia|]. destruct (lookup_lt_is_Some_2 ws (length ws - 1)) as [t Et]; [lia|]. rewrite Ep, Et. cbn [default from_option id].
  pose proof (Hw _ _ Ep) as Hp. pose proof (Hw _ _ Et) as Ht. pose proof (Nat.div_mod_eq (length ws) 4) as Hdm. pose proof (Nat.mod_upper_bound (length ws) 4 ltac:(lia)) as Hmu.
  rewrite !ld_bytes_ok by (unfold blen; rewrite ?Hcl; lia). change (Z.to_nat 4) with 4%nat.
  replace (Z.to_nat (Z.of_nat (4 * length ws) - 4)) with (4 * (length ws - 1))%nat by lia. replace (Z.to_nat (Z.of_nat (4 * length ws) - 16)) with (4 * (length ws - 4))%nat by lia.
  rewrite (words_at ws _ t Hw4 Et), (words_at ws _ p Hw4 Ep), !some_bind.
  assert (Eland : (Z.land (Z.of_nat (4 * length ws)) 15 =? 0) = Nat.eqb (length ws mod 4) 0).
  { change 15 with (Z.ones 4). rewrite Z.land_ones by lia. change (2 ^ 4) with 16. destruct (Nat.eqb_spec (length ws mod 4) 0) as [E|E]; [apply Z.eqb_eq; zlia|apply Z.eqb_neq; zlia]. }
  rewrite Eland. clear Eland. set (q := (length ws / 4)%nat) in *. set (r := (length ws mod 4)%nat) in *. clearbody q r. destruct (Nat.eqb_spec r 0) as [E|E].
  - destruct Ht as [Htl Htu]. rewrite (word4 t Htl) in *. cbn [at_ lookup list_lookup default from_option id].
    set (w := [at_ t 1; at_ t 2; at_ t 3; at_ t 0]). assert (Hwb : is_bytes 4 w) by (split; [done|]; repeat constructor; apply at_u8; by rewrite (word4 t Htl)).
    unfold os_aes_ct_sub4. rewrite subn_spec by (apply Hwb || (unfold blen; cbn [length w]; lia)). rewrite some_bind. change (Z.to_nat 4) with 4%nat. rewrite take_ge, drop_ge, app_nil_r by done.
    pose proof rcon_spec as Hr. rewrite Forall_forall in Hr. destruct (Hr (q - 1)%nat) as [Er _]; [apply elem_of_seq; lia|].
    replace ((length ws + 3) / 4 - 1)%nat with (q - 1)%nat by nlia. rewrite Er, !some_bind. replace (S (q - 1)) with (q)%nat by nlia.
    f_equal. f_equal; [|nlia]. f_equal.
    assert (Ew : (Z.lxor (at_ (map fips_sbox w) 0) (Rcon (q)) :: drop 1 (map fips_sbox w)) = xors (SubWord (RotWord [at_ t 0; at_ t 1; at_ t 2; at_ t 3])) [Rcon (q); 0; 0; 0]).
    { unfold w, SubWord, RotWord, xors. cbn [map drop take app zip_with at_ lookup list_lookup default from_option id]. by rewrite !Z.lxor_0_r. }
    rewrite Ew. eapply xors_u8; [done|]. apply xors_bytes; [apply sub_bytes_ok|].
    + unfold RotWord. cbn [drop take app]. exact Hwb.
    + apply rcon_word. lia.
  - rewrite !some_bind. fold (xors p t). rewrite (xors_u8 4) by done. replace ((length ws + 3) / 4)%nat with ((length ws + 4) / 4)%nat by nlia. done.
Qed.

Lemma next_word_length ws : length (next_word ws) = S (length ws).
Proof. unfold next_word. cbv zeta. rewrite length_app. cbn [length]. lia. Qed.

Lemma key_words_ok n ws : is_words ws -> length ws = 4%nat -> (n <= 40)%nat -> is_words (Nat.iter n next_word ws) /\ length (Nat.iter n next_word ws) = (4 + n)%nat.
Proof.
  intros Hw Hl. induction n as [|n IH]; intros Hn; [by rewrite Nat.add_0_r|].
  change (Nat.iter (S n) next_word ws) with (next_word (Nat.iter n next_word ws)). destruct IH as [H1 H2]; [lia|]. split; [apply next_word_ok; [done|lia]|].
  rewrite next_word_length, H2. lia.
Qed.

Lemma iter_swap {A} (f : A -> A) n x : Nat.iter n f (f x) = Nat.iter (S n) f x.
Proof. induction n as [|n IH]; [done|]. change (f (Nat.iter n f (f x)) = f (Nat.iter (S n) f x)). by rewrite IH. Qed.

Lemma expand_loop_spec n : forall ws, is_words ws -> (4 <= length ws)%nat -> (length ws + n = 44)%nat ->
  expand_loop n (concat ws) ((length ws + 3) / 4 - 1)%nat = Some (concat (Nat.iter n next_word ws)).
Proof.
  induction n as [|n IH]; intros ws Hw H4 Hl; destruct (words_bytes ws Hw) as [Hcl _]; cbn [expand_loop]; unfold blen; rewrite Hcl.
  - rewrite (proj2 (Z.ltb_ge _ 176)) by lia. done.
  - rewrite (proj2 (Z.ltb_lt _ 176)) by lia. rewrite expand_round_spec by (done || lia). rewrite some_bind.
    pose proof (next_word_length ws) as Hnl.
    replace ((length ws + 4) / 4 - 1)%nat with ((length (next_word ws) + 3) / 4 - 1)%nat by (rewrite Hnl; do 2 f_equal; lia).
    rewrite IH by (rewrite ?Hnl; try apply next_word_ok; (done || lia)). by rewrite iter_swap.
Qed.

Lemma split_key key : is_bytes 16 key -> let ws := [take 4 key; take 4 (drop 4 key); take 4 (drop 8 key); take 4 (drop 12 key)] in is_words ws /\ concat ws = key.
Proof.
  intros [Hl Hu]. split.
  - assert (H : forall off, (off + 4 <= 16)%nat -> is_bytes 4 (take 4 (drop off key))) by (intros off Ho; apply is_bytes_sub; [done|lia]).
    constructor; [exact (H 0%nat ltac:(lia))|]. repeat (constructor; [apply H; lia|]). constructor.
  - do 16 (destruct key as [|? key]; [done|]). by destruct key.
Qed.

Lemma aes_init_spec key : is_bytes 16 key -> aes128_init true (Some key) = Some (0, concat (key_words key)) /\ is_bytes 176 (concat (key_words key)).
Proof.
  intros Hk. destruct (split_key key Hk) as [Hw Hc]. cbv zeta in *. destruct Hk as [Hl Hu]. unfold aes128_init. rewrite ld_bytes_ok by (unfold blen; lia). rewrite some_bind.
  change (Z.to_nat 16) with 16%nat. rewrite Z2Nat.inj_0, drop_0, take_ge by lia. unfold key_words. set (ws := [_; _; _; _]) in *. rewrite <- Hc.
  pose proof (expand_loop_spec 40 ws Hw ltac:(done) ltac:(done)) as E. change ((length ws + 3) / 4 - 1)%nat with 0%nat in E. rewrite E, some_bind.
  destruct (key_words_ok 40 ws Hw) as [H1 H2]; [done|lia|]. split; [done|]. destruct (words_bytes _ H1) as [H3 H4]. split; [rewrite H3, H2; done|done].
Qed.

(** C12. AES: for every key and block of sixteen bytes the key schedule and the block
    encryption of the code, with its constant-time S-box circuit, are AES-128 of FIPS 197. *)
Theorem aes_is_fips197 key input : is_bytes 16 key -> is_bytes 16 input ->
  exists keys, aes128_init true (Some key) = Some (0, keys) /\ aes128_encrypt_block keys input = Some (AES128 key input) /\ is_bytes 16 (AES128 key input).
Proof.
  intros Hk Hi. destruct (aes_init_spec key Hk) as [E Hks]. exists (concat (key_words key)). split; [done|]. by apply encrypt_block_spec.
Qed.

(** The example of FIPS 197, appendix B. *)
Definition fips_key : bytes := [43; 126; 21; 22; 40; 174; 210; 166; 171; 247; 21; 136; 9; 207; 79; 60].
Definition fips_input : bytes := [50; 67; 246; 168; 136; 90; 48; 141; 49; 49; 152; 162; 224; 55; 7; 52].

Lemma aes_is_fips197_witness : is_bytes 16 fips_key /\ is_bytes 16 fips_input /\ exists keys, aes128_init true (Some fips_key) = Some (0, keys) /\
  aes128_encrypt_block keys fips_input = Some [57; 37; 132; 29; 2; 220; 9; 251; 220; 17; 133; 151; 25; 106; 11; 50].
Proof.
  assert (Hk : is_bytes 16 fips_key) by (split; [done|apply (bool_decide_unpack _); by vm_compute]).
  assert (Hi : is_bytes 16 fips_input) by (split; [done|apply (bool_decide_unpack _); by vm_compute]).
  split; [exact Hk|]. split; [exact Hi|]. destruct (aes_is_fips197 fips_key fips_input Hk Hi) as (keys & E & E2 & _). exists keys. split; [exact E|]. rewrite E2. by vm_compute.
Defined.
