(* ===== verification/GcmSpec.v ===== *)
(** * Galois/counter mode

    GHASH as products in GF(2^128), counter mode and the authenticated encryption of NIST
    SP 800-38D over [AES128], and the proof that kernel/aes_gcm.c computes them. *)

From Stdlib Require Import ZArith Lia.
From stdpp Require Import base numbers option tactics list.
From S2P Require Import Prelude Bytes NetBuf NetSum BigInt IoPorts AesCt AesGcm.

(** A byte list as a number, first byte highest. *)
Definition be_val (l : bytes) : Z := foldl (fun a b => a * 256 + b) 0 l.

(** ** The specification *)

(** Algorithm 1 of SP 800-38D: bit 0 of a block is its highest bit. *)
Definition GCM_R : Z := 225 * 2 ^ 120.
Definition gf128_step (x : Z) (zv : Z * Z) (i : nat) : Z * Z :=
  let '(z, v) := zv in
  (if Z.testbit x (127 - Z.of_nat i) then Z.lxor z v else z, if Z.odd v then Z.lxor (v / 2) GCM_R else v / 2).
Definition gf128_mul (x y : Z) : Z := fst (fold_left (gf128_step x) (seq 0 128) (0, y)).

(** The blocks of a text whose length is a multiple of sixteen. *)
Fixpoint chunks (n : nat) (d : bytes) : list Z := match n with O => [] | S n => be_val (take 16 d) :: chunks n (drop 16 d) end.
Definition blocks (d : bytes) : list Z := chunks (length d / 16) d.
Definition GHASH_from (h y : Z) (d : bytes) : Z := fold_left (fun y x => gf128_mul (Z.lxor y x) h) (blocks d) y.
Definition GHASH (h : Z) (d : bytes) : Z := GHASH_from h 0 d.

Definition pad16 (d : bytes) : bytes := d ++ replicate ((16 - length d mod 16) mod 16) 0.
Definition len64 (d : bytes) : bytes := put64 (8 * Z.of_nat (length d)).

(** [i] increments of the last 32 bits. *)
Definition inc32 (j : bytes) (i : nat) : bytes :=
  let v := (be_val (drop 12 j) + Z.of_nat i) mod 2 ^ 32 in take 12 j ++ [v / 2 ^ 24; v / 2 ^ 16 mod 256; v / 2 ^ 8 mod 256; v mod 256].

Definition keystream (key j0 : bytes) (from n : nat) : bytes := concat (map (fun i => AES128 key (inc32 j0 i)) (seq from n)).
Definition GCTR (key j0 data : bytes) : bytes := xors data (keystream key j0 1 ((length data + 15) / 16)).

Definition J0 (iv : bytes) : bytes := iv ++ [0; 0; 0; 1].
Definition gcm_cipher (key iv plain : bytes) : bytes := GCTR key (J0 iv) plain.
Definition gcm_tag (key iv aad cipher : bytes) : Z :=
  Z.lxor (GHASH (be_val (AES128 key (replicate 16 0))) (pad16 aad ++ pad16 cipher ++ len64 aad ++ len64 cipher)) (be_val (AES128 key (J0 iv))).

(** ** Numbers of byte lists *)

Lemma be_val_acc l a : foldl (fun a b => a * 256 + b) a l = a * 256 ^ Z.of_nat (length l) + be_val l.
Proof.
  unfold be_val. revert a. induction l as [|b l IH]; intros a; cbn [foldl length]; [lia|]. rewrite IH, (IH (0 * 256 + b)), Nat2Z.inj_succ, Z.pow_succ_r by lia. lia.
Qed.

Lemma be_val_cons b l : be_val (b :: l) = b * 256 ^ Z.of_nat (length l) + be_val l.
Proof. unfold be_val at 1. cbn [foldl]. rewrite be_val_acc. f_equal. Qed.

Lemma be_val_range l : Forall is_u8 l -> 0 <= be_val l < 256 ^ Z.of_nat (length l).
Proof.
  induction 1 as [|b l Hb Hl IH]; [done|]. rewrite be_val_cons. cbn [length]. rewrite Nat2Z.inj_succ, Z.pow_succ_r by lia. unfold is_u8 in Hb. nia.
Qed.

Lemma pow256 n : 256 ^ Z.of_nat n = 2 ^ (8 * Z.of_nat n).
Proof. change 256 with (2 ^ 8). by rewrite <- Z.pow_mul_r by lia. Qed.

(** Bit [k] of the number. *)
Lemma be_val_bit l : Forall is_u8 l -> forall k, 0 <= k -> Z.testbit (be_val l) k = Z.testbit (default 0 (l !! Z.to_nat (Z.of_nat (length l) - 1 - k / 8))) (k mod 8) && (k <? 8 * Z.of_nat (length l)).
Proof.
  induction 1 as [|b l Hb Hl IH]; intros k Hk; [cbn [length]; by rewrite lookup_nil, !Z.bits_0|].
  rewrite be_val_cons, pow256. pose proof (be_val_range l Hl) as Hr. rewrite pow256 in Hr. cbn [length]. rewrite Nat2Z.inj_succ. set (n := Z.of_nat (length l)) in *.
  destruct (Z.ltb_spec k (8 * n)).
  - rewrite <- (Z.mod_pow2_bits_low _ (8 * n)) by lia. rewrite Z.add_comm, Z.mod_add, Z.mod_small by lia. rewrite IH by done. fold n.
    replace (Z.to_nat (Z.succ n - 1 - k / 8)) with (S (Z.to_nat (n - 1 - k / 8))) by zlia. cbn [lookup list_lookup].
    rewrite (proj2 (Z.ltb_lt k (8 * n))), (proj2 (Z.ltb_lt k (8 * Z.succ n))) by lia. done.
  - replace k with ((k - 8 * n) + 8 * n) at 1 by lia. rewrite <- Z.div_pow2_bits by lia. rewrite Z.div_add_l, (Z.div_small (be_val l)), Z.add_0_r by lia.
    destruct (Z.ltb_spec k (8 * Z.succ n)).
    + replace (Z.to_nat (Z.succ n - 1 - k / 8)) with 0%nat by zlia. cbn [lookup list_lookup default from_option id]. rewrite andb_true_r. f_equal. zlia.
    + rewrite andb_false_r. apply u8_high; [done|lia].
Qed.

Lemma be_val_xors n a b : is_bytes n a -> is_bytes n b -> be_val (xors a b) = Z.lxor (be_val a) (be_val b).
Proof.
  intros Ha Hb. destruct (xors_bytes n a b Ha Hb) as [Hl Hu], Ha as [La Ua], Hb as [Lb Ub]. apply Z.bits_inj'. intros k Hk. rewrite Z.lxor_spec, !be_val_bit, Hl, La, Lb by done.
  destruct (Z.ltb_spec k (8 * Z.of_nat n)); [|by rewrite !andb_false_r]. rewrite !andb_true_r. unfold xors. rewrite lookup_zip_with. set (i := Z.to_nat _).
  destruct (lookup_lt_is_Some_2 a i) as [x ->]; [subst i; zlia|]. destruct (lookup_lt_is_Some_2 b i) as [y ->]; [subst i; zlia|]. cbn. apply Z.lxor_spec.
Qed.

Lemma be_val_inj n a b : is_bytes n a -> is_bytes n b -> be_val a = be_val b -> a = b.
Proof.
  revert a b. induction n as [|n IH]; intros a b [La Ua] [Lb Ub] E; [by destruct a, b|]. destruct a as [|x a], b as [|y b]; try done. cbn [length] in *.
  apply Forall_cons in Ua as [Ux Ua], Ub as [Uy Ub]. rewrite !be_val_cons in E. injection La as La. injection Lb as Lb. rewrite La, Lb in E.
  pose proof (be_val_range a Ua) as Ha. pose proof (be_val_range b Ub) as Hb. rewrite La in Ha. rewrite Lb in Hb.
  assert (x = y /\ be_val a = be_val b) as [-> E2].
  { assert (x = y) as ->; [|lia]. apply (f_equal (fun z => z / 256 ^ Z.of_nat n)) in E. rewrite !Z.div_add_l, !Z.div_small in E by lia. lia. }
  f_equal. by apply IH.
Qed.

(** ** The product *)

Lemma high_bit : Forall (fun x => Z.lor x (1 * 128) = x + 128 * 1) (seqZ 0 128).
Proof. apply (bool_decide_unpack _). by vm_compute. Qed.

Lemma shift_from_length l c : length (shift_from l c) = length l.
Proof. revert c. induction l as [|v l IH]; intros c; cbn [shift_from length]; [done|]. by rewrite IH. Qed.

Lemma shift_from_spec l : Forall is_u8 l -> forall c, 0 <= c <= 1 -> be_val (shift_from l c) = (c * 256 ^ Z.of_nat (length l) + be_val l) / 2 /\ Forall is_u8 (shift_from l c).
Proof.
  induction 1 as [|v l Hv Hl IH]; intros c Hc; cbn [shift_from length].
  - split; [|constructor]. change (256 ^ Z.of_nat 0) with 1. change (be_val []) with 0. zlia.
  - assert (Hodd : Z.land v 1 = v mod 2) by (change 1 with (Z.ones 1); by rewrite Z.land_ones by lia).
    destruct (IH (Z.land v 1)) as [E Hu]; [rewrite Hodd; zlia|]. unfold is_u8 in Hv.
    assert (Eb : u8 (Z.lor (Z.shiftr v 1) (Z.shiftl c 7)) = v / 2 + 128 * c).
    { rewrite Z.shiftr_div_pow2, Z.shiftl_mul_pow2 by lia. change (2 ^ 1) with 2. change (2 ^ 7) with 128.
      assert (El : Z.lor (v / 2) (c * 128) = v / 2 + 128 * c).
      { destruct (Z.eq_dec c 0) as [->|Hn]; [by rewrite Z.mul_0_l, Z.lor_0_r, Z.mul_0_r, Z.add_0_r|]. assert (c = 1) as -> by lia.
        pose proof high_bit as H. rewrite Forall_forall in H. apply (H (v / 2)), elem_of_seqZ. zlia. }
      rewrite El. apply u8_id. unfold is_u8. zlia. }
    split.
    + rewrite be_val_cons, shift_from_length, Eb, E, be_val_cons. rewrite Hodd. rewrite Nat2Z.inj_succ, Z.pow_succ_r by lia. set (W := 256 ^ Z.of_nat (length l)).
      assert (Ev : v = 2 * (v / 2) + v mod 2) by zlia. replace (c * (256 * W) + (v * W + be_val l)) with (v mod 2 * W + be_val l + (128 * c * W + v / 2 * W) * 2) by nia.
      rewrite Z.div_add by lia. lia.
    + constructor; [|done]. rewrite Eb. unfold is_u8. zlia.
Qed.

Definition mask (b : bool) : Z := if b then 255 else 0.

Lemma mask_bit x s : 0 <= s -> u8 (0 - u8 (Z.land (Z.shiftr x s) 1)) = mask (Z.testbit x s).
Proof.
  intros Hs. assert (E : Z.land (Z.shiftr x s) 1 = Z.b2z (Z.testbit x s)).
  { change 1 with (Z.ones 1) at 1. rewrite Z.land_ones by lia. change (2 ^ 1) with 2. rewrite <- Z.bit0_mod, Z.shiftr_spec by lia. by rewrite Z.add_0_l. }
  rewrite E. by destruct (Z.testbit x s).
Qed.

Lemma mask_low x : u8 (0 - u8 (Z.land x 1)) = mask (Z.odd x).
Proof. rewrite <- (Z.shiftr_0_r x) at 1. rewrite mask_bit by lia. by rewrite Z.bit0_odd. Qed.

Lemma masked_xor b z v n : is_bytes n z -> is_bytes n v -> zip_with (fun a x => Z.lxor a (Z.land x (mask b))) z v = if b then xors z v else z.
Proof.
  intros [Lz _] [Lv Uv]. revert n z Lz Lv. induction Uv as [|x v Hx Hv IH]; intros n z Lz Lv.
  - destruct z; [|cbn [length] in *; lia]. by destruct b.
  - destruct z as [|a z]; [cbn [length] in *; lia|]. cbn [zip_with length] in *. rewrite (IH (n - 1)%nat) by lia. destruct b; cbn [mask].
    + unfold xors. cbn [zip_with]. f_equal. f_equal. change 255 with (Z.ones 8). rewrite Z.land_ones by lia. by apply u8_id.
    + by rewrite Z.land_0_r, Z.lxor_0_r.
Qed.

Lemma first_byte_xor v x : is_bytes 16 v -> is_u8 x -> is_bytes 16 (Z.lxor (at_ v 0) x :: drop 1 v) /\ be_val (Z.lxor (at_ v 0) x :: drop 1 v) = Z.lxor (be_val v) (x * 2 ^ 120).
Proof.
  intros [Lv Uv] Hx. assert (Hp : is_bytes 16 (x :: replicate 15 0)) by (split; [done|]; constructor; [done|]; apply Forall_replicate; unfold is_u8; lia).
  assert (E : Z.lxor (at_ v 0) x :: drop 1 v = xors v (x :: replicate 15 0)).
  { destruct v as [|b v]; [done|]. cbn [drop]. unfold xors. cbn [zip_with at_ lookup list_lookup default from_option id]. f_equal. injection Lv as Lv. clear - Lv.
    assert (H : forall (l : bytes) k, length l = k -> l = zip_with Z.lxor l (replicate k 0)); [|by apply H].
    induction l as [|y l IH]; intros k <-; cbn [length replicate zip_with]; [done|]. rewrite Z.lxor_0_r. f_equal. by apply IH. }
  rewrite E. split; [by apply xors_bytes|]. rewrite (be_val_xors 16) by done. f_equal. rewrite be_val_cons, length_replicate.
  assert (Ez : forall k, be_val (replicate k 0) = 0) by (induction k as [|k IH]; cbn [replicate]; [done|]; rewrite be_val_cons, IH; lia). rewrite Ez, pow256. cbn [Z.of_nat Pos.of_succ_nat Pos.succ]. lia.
Qed.

Lemma ghash_round_spec value z v i : is_bytes 16 value -> is_bytes 16 z -> is_bytes 16 v -> (i < 128)%nat ->
  let '(z', v') := ghash_round value (z, v) i in is_bytes 16 z' /\ is_bytes 16 v' /\ (be_val z', be_val v') = gf128_step (be_val value) (be_val z, be_val v) i.
Proof.
  intros Hx Hz Hv Hi. unfold ghash_round, gf128_step.
  assert (E7 : 7 - Z.land (Z.of_nat i) 7 = (127 - Z.of_nat i) mod 8) by (change (Z.land (Z.of_nat i) 7) with (Z.land (Z.of_nat i) (Z.ones 3)); rewrite Z.land_ones by lia; change (2 ^ 3) with 8; zlia).
  rewrite E7, mask_bit, mask_low by zlia. rewrite (masked_xor _ z v 16) by done.
  assert (Ex : Z.testbit (at_ value (i / 8)) ((127 - Z.of_nat i) mod 8) = Z.testbit (be_val value) (127 - Z.of_nat i)).
  { destruct Hx as [Lx Ux]. rewrite be_val_bit, Lx by (done || lia). rewrite (proj2 (Z.ltb_lt _ (8 * Z.of_nat 16))), andb_true_r by lia. unfold at_. do 3 f_equal. nlia. }
  assert (Ev : Z.odd (at_ v 15) = Z.odd (be_val v)).
  { destruct Hv as [Lv Uv]. rewrite <- !Z.bit0_odd, be_val_bit, Lv by (done || lia). rewrite andb_true_r. done. }
  rewrite Ex, Ev. destruct (Hv) as [Lv Uv]. destruct (shift_from_spec v Uv 0) as [Es Us]; [lia|]. rewrite Z.mul_0_l, Z.add_0_l in Es.
  assert (Hs : is_bytes 16 (shift_right_one v)) by (split; [unfold shift_right_one; by rewrite shift_from_length|done]).
  destruct (first_byte_xor (shift_right_one v) (u8 (Z.land 225 (mask (Z.odd (be_val v))))) Hs) as [Hb Eb]; [apply u8_range|].
  split; [destruct (Z.testbit (be_val value) (127 - Z.of_nat i)); [by apply xors_bytes|done]|]. split; [done|]. rewrite Eb. unfold shift_right_one. rewrite Es. f_equal.
  - destruct (Z.testbit (be_val value) (127 - Z.of_nat i)); [by apply (be_val_xors 16)|done].
  - destruct (Z.odd (be_val v)); cbn [mask]; [done|]. apply Z.lxor_0_r.
Qed.

Lemma ghash_multiply_spec x h : is_bytes 16 x -> is_bytes 16 h -> is_bytes 16 (ghash_multiply x h) /\ be_val (ghash_multiply x h) = gf128_mul (be_val x) (be_val h).
Proof.
  intros Hx Hh. unfold ghash_multiply, gf128_mul.
  assert (H : forall l z v, Forall (fun i => (i < 128)%nat) l -> is_bytes 16 z -> is_bytes 16 v -> is_bytes 16 (fst (fold_left (ghash_round x) l (z, v))) /\
    be_val (fst (fold_left (ghash_round x) l (z, v))) = fst (fold_left (gf128_step (be_val x)) l (be_val z, be_val v))).
  { induction l as [|i l IH]; intros z v Hl Hz Hv; cbn [fold_left fst]; [done|]. apply Forall_cons in Hl as [Hi Hl].
    pose proof (ghash_round_spec x z v i Hx Hz Hv Hi) as H. destruct (ghash_round x (z, v) i) as [z' v']. destruct H as (Hz' & Hv' & <-). by apply IH. }
  apply (H (seq 0 128) (replicate 16 0) h); [|split; [done|apply Forall_replicate; unfold is_u8; lia]|done].
  apply Forall_forall. intros i Hi. apply elem_of_seq in Hi. lia.
Qed.

(** ** GHASH *)

Lemma blocks_cons (f : Z -> Z -> Z) y b d : length b = 16%nat -> fold_left f (blocks (b ++ d)) y = fold_left f (blocks d) (f y (be_val b)).
Proof.
  intros Hb. unfold blocks. rewrite length_app, Hb. replace ((16 + length d) / 16)%nat with (S (length d / 16)) by nlia. cbn [chunks fold_left].
  by rewrite take_app_length', drop_app_length' by done.
Qed.

Lemma GHASH_cons h y b d : length b = 16%nat -> GHASH_from h y (b ++ d) = GHASH_from h (gf128_mul (Z.lxor y (be_val b)) h) d.
Proof. intros Hb. exact (blocks_cons (fun y x => gf128_mul (Z.lxor y x) h) y b d Hb). Qed.

Lemma GHASH_nil h y : GHASH_from h y [] = y.
Proof. reflexivity. Qed.

Lemma GHASH_one h y b : length b = 16%nat -> GHASH_from h y b = gf128_mul (Z.lxor y (be_val b)) h.
Proof. intros Hb. rewrite <- (app_nil_r b) at 1. rewrite GHASH_cons, GHASH_nil by done. reflexivity. Qed.

Lemma GHASH_app h k : forall y a d, length a = (16 * k)%nat -> GHASH_from h y (a ++ d) = GHASH_from h (GHASH_from h y a) d.
Proof.
  induction k as [|k IH]; intros y a d Ha; [by destruct a|]. rewrite <- (take_drop 16 a), <- app_assoc. rewrite (GHASH_cons h y (take 16 a)), (GHASH_cons h y (take 16 a)) by (rewrite length_take; lia). apply IH. rewrite length_drop. lia.
Qed.

Lemma pad16_length d : exists k, length (pad16 d) = (16 * k)%nat.
Proof.
  exists ((length d + 15) / 16)%nat. unfold pad16. rewrite length_app, length_replicate. pose proof (Nat.div_mod_eq (length d) 16) as Hdm.
  pose proof (Nat.mod_upper_bound (length d) 16 ltac:(lia)) as Hu. set (q := (length d / 16)%nat) in *. set (r := (length d mod 16)%nat) in *. clearbody q r.
  destruct (Nat.eq_dec r 0%nat) as [->|E]; [change ((16 - 0) mod 16)%nat with 0%nat; nlia|]. rewrite (Nat.mod_small (16 - r)) by lia. nlia.
Qed.

Lemma pad16_cons b d : length b = 16%nat -> pad16 (b ++ d) = b ++ pad16 d.
Proof.
  intros Hb. unfold pad16. rewrite <- app_assoc. do 3 f_equal. rewrite length_app, Hb. f_equal. f_equal. rewrite Nat.add_comm. change 16%nat with (1 * 16)%nat at 1. by rewrite Nat.Div0.mod_add.
Qed.

Lemma xor_block_spec s b : is_bytes 16 s -> is_bytes 16 (take 16 b) -> xor_block s b = Some (xors s (take 16 b)) /\ is_bytes 16 (xors s (take 16 b)).
Proof.
  intros Hs Hb. unfold xor_block. destruct (Hb) as [Lb _]. rewrite length_take in Lb. rewrite ld_bytes_ok by (unfold blen; lia). rewrite some_bind. change (Z.to_nat 16) with 16%nat.
  rewrite Z2Nat.inj_0, drop_0. split; [done|by apply xors_bytes].
Qed.

Lemma ghash_update_spec h fuel : is_bytes 16 h -> forall s data len, is_bytes 16 s -> Forall is_u8 data -> 0 <= len < 65536 -> len <= blen data -> len < 16 * Z.of_nat fuel + 16 ->
  exists out, ghash_update fuel s h data len = Some out /\ is_bytes 16 out /\ be_val out = GHASH_from (be_val h) (be_val s) (pad16 (take (Z.to_nat len) data)).
Proof.
  intros Hh. induction fuel as [|fuel IH]; intros s data len Hs Hd Hl Hb Hf; cbn [ghash_update]; unfold blen in Hb; (destruct (Z.leb_spec 16 len); [try lia|]).
  2: { (* a full block *)
    destruct (xor_block_spec s data Hs) as [-> Hx]; [apply (is_bytes_sub data 0); [done|lia]|]. rewrite some_bind. destruct (ghash_multiply_spec _ h Hx Hh) as [Hm Em].
    rewrite u16_id by (unfold is_u16; lia). destruct (IH (ghash_multiply (xors s (take 16 data)) h) (drop 16 data) (len - 16)) as (out & E & Ho & Ev);
      [done|by apply Forall_drop|lia|unfold blen; rewrite length_drop; lia|lia|]. exists out. split; [done|]. split; [done|]. rewrite Ev, Em, (be_val_xors 16); [|done|apply (is_bytes_sub data 0); [done|lia]].
    replace (take (Z.to_nat len) data) with (take 16 data ++ take (Z.to_nat (len - 16)) (drop 16 data)).
    - rewrite pad16_cons, GHASH_cons by (rewrite length_take; lia). done.
    - replace (Z.to_nat len) with (16 + Z.to_nat (len - 16))%nat by lia. by rewrite take_take_drop. }
  all: unfold c_true; destruct (Z.eqb_spec len 0) as [->|Hn]; cbn [negb]; [exists s; split; [done|]; split; [done|]; by rewrite Z2Nat.inj_0, take_0|].
  all: rewrite ld_bytes_ok by (unfold blen; lia); rewrite some_bind, Z2Nat.inj_0, drop_0; set (d := take (Z.to_nat len) data).
  all: assert (Ld : length d = Z.to_nat len) by (subst d; rewrite length_take; lia).
  all: assert (Ep : take 16 (d ++ replicate 16 0) = pad16 d) by (rewrite take_app_ge by lia; unfold pad16; f_equal; rewrite take_replicate; f_equal; rewrite (Nat.mod_small (length d)), Nat.mod_small by lia; lia).
  all: assert (Hp : is_bytes 16 (pad16 d)) by (rewrite <- Ep; split; [rewrite length_take, length_app, length_replicate; lia|]; apply Forall_take, Forall_app; split; [by apply Forall_take|apply Forall_replicate; unfold is_u8; lia]).
  all: destruct (Hp) as [Lp Up]; rewrite Ep; destruct (xor_block_spec s (pad16 d) Hs) as [-> Hx]; [by rewrite take_ge by lia|].
  all: rewrite take_ge in * by lia; rewrite some_bind; destruct (ghash_multiply_spec _ h Hx Hh) as [Hm Em]; eexists; split; [done|]; split; [done|].
  all: rewrite Em, (be_val_xors 16) by done; rewrite GHASH_one by done; reflexivity.
Qed.

Lemma ghash_spec h aad alen c clen : is_bytes 16 h -> Forall is_u8 aad -> Forall is_u8 c -> 0 <= alen < 65536 -> 0 <= clen < 65536 -> alen <= blen aad -> clen <= blen c ->
  let a' := take (Z.to_nat alen) aad in let c' := take (Z.to_nat clen) c in
  exists out, ghash h aad alen c clen = Some out /\ is_bytes 16 out /\ be_val out = GHASH (be_val h) (pad16 a' ++ pad16 c' ++ len64 a' ++ len64 c').
Proof.
  intros Hh Ha Hc Hal Hcl Hab Hcb a' c'. unfold ghash. set (zero := replicate 16 0). assert (Hz : is_bytes 16 zero) by (split; [done|apply Forall_replicate; unfold is_u8; lia]).
  assert (H1 : exists o1, (if c_true alen then ghash_update 4096 zero h aad alen else Some zero) = Some o1 /\ is_bytes 16 o1 /\ be_val o1 = GHASH_from (be_val h) 0 (pad16 a')).
  { destruct (Z.eq_dec alen 0) as [E|E]; [subst alen; exists zero; split; [done|]; split; [done|]; done|]. unfold c_true. rewrite (proj2 (Z.eqb_neq _ _) E). cbn [negb].
    apply (ghash_update_spec h 4096 Hh zero aad alen); (done || lia). }
  destruct H1 as (o1 & -> & Ho1 & E1). rewrite some_bind.
  assert (H2 : exists o2, (if c_true clen then ghash_update 4096 o1 h c clen else Some o1) = Some o2 /\ is_bytes 16 o2 /\ be_val o2 = GHASH_from (be_val h) (be_val o1) (pad16 c')).
  { destruct (Z.eq_dec clen 0) as [E|E]; [subst clen; exists o1; split; [done|]; split; [done|]; done|]. unfold c_true. rewrite (proj2 (Z.eqb_neq _ _) E). cbn [negb].
    apply (ghash_update_spec h 4096 Hh o1 c clen); (done || lia). }
  destruct H2 as (o2 & -> & Ho2 & E2). rewrite some_bind.
  assert (El : put64 (u64 (alen * 8)) ++ put64 (u64 (clen * 8)) = len64 a' ++ len64 c').
  { unfold len64. subst a' c'. unfold blen in *. rewrite !length_take. unfold u64. rewrite !Z.mod_small by lia. f_equal; f_equal; lia. }
  rewrite El. assert (Hlb : is_bytes 16 (len64 a' ++ len64 c')).
  { assert (H8 : forall v, is_bytes 8 (put64 v)) by (intros v; split; [done|]; repeat (constructor; [apply u8_range|]); constructor). change 16%nat with (8 + 8)%nat. apply is_bytes_app; apply H8. }
  destruct (xor_block_spec o2 (len64 a' ++ len64 c') Ho2) as [-> Hx]; [by rewrite take_ge by (destruct Hlb; lia)|]. rewrite take_ge in * by (destruct Hlb; lia). rewrite some_bind.
  destruct (ghash_multiply_spec _ h Hx Hh) as [Hm Em]. eexists. split; [done|]. split; [done|]. rewrite Em, (be_val_xors 16) by done.
  unfold GHASH. destruct (pad16_length a') as [k1 L1], (pad16_length c') as [k2 L2]. rewrite (GHASH_app _ k1) by done. rewrite (GHASH_app _ k2) by done. rewrite <- E1, <- E2.
  rewrite GHASH_one by (destruct Hlb; lia). reflexivity.
Qed.

(** ** Counter mode *)

Definition word32 (v : Z) : bytes := [v / 2 ^ 24; v / 2 ^ 16 mod 256; v / 2 ^ 8 mod 256; v mod 256].

Lemma word32_val v : 0 <= v < 2 ^ 32 -> be_val (word32 v) = v /\ is_bytes 4 (word32 v).
Proof.
  intros Hv. change (2 ^ 32) with 4294967296 in Hv. unfold word32. change (2 ^ 24) with 16777216. change (2 ^ 16) with 65536. change (2 ^ 8) with 256. split.
  - unfold be_val. cbn [foldl]. zlia.
  - split; [done|]. unfold is_u8. rewrite !Forall_cons. repeat (split; [zlia|]). by apply Forall_nil.
Qed.

Lemma word32_of w : is_bytes 4 w -> word32 (be_val w) = w.
Proof. intros Hw. pose proof (be_val_range w (proj2 Hw)) as Hr. rewrite (proj1 Hw) in Hr. destruct (word32_val (be_val w)) as [E Hb]; [exact Hr|]. by apply (be_val_inj 4). Qed.

(** The four bytes as the loop increments them, last first. *)
Lemma increment_bytes w l : is_bytes 4 w -> increment 4 (rev w ++ l) = rev (word32 ((be_val w + 1) mod 2 ^ 32)) ++ l.
Proof.
  intros [Lw Uw]. do 4 (destruct w as [|? w]; [done|]). destruct w; [|done]. rename z into a, z0 into b, z1 into c, z2 into d. rewrite !Forall_cons in Uw. destruct Uw as (Ha & Hb & Hc & Hd & _).
  unfold is_u8 in *. unfold word32, be_val. cbn [foldl rev app]. change (2 ^ 32) with 4294967296. change (2 ^ 24) with 16777216. change (2 ^ 16) with 65536. change (2 ^ 8) with 256.
  assert (Hz : forall x, 0 <= x < 256 -> x <> 255 -> u8 (x + 1) = x + 1 /\ c_true (x + 1) = true).
  { intros x Hx Hn. split; [apply u8_id; unfold is_u8; lia|]. unfold c_true. by rewrite (proj2 (Z.eqb_neq (x + 1) 0)) by lia. }
  assert (H0 : u8 (255 + 1) = 0 /\ c_true 0 = false) by done. destruct H0 as [E0 E1]. cbn [increment].
  destruct (Z.eq_dec d 255) as [->|Nd]; [rewrite E0, E1|destruct (Hz d Hd Nd) as [-> ->]; do 3 (f_equal; [zlia|]); f_equal; zlia].
  destruct (Z.eq_dec c 255) as [->|Nc]; [rewrite E0, E1|destruct (Hz c Hc Nc) as [-> ->]; do 3 (f_equal; [zlia|]); f_equal; zlia].
  destruct (Z.eq_dec b 255) as [->|Nb]; [rewrite E0, E1|destruct (Hz b Hb Nb) as [-> ->]; do 3 (f_equal; [zlia|]); f_equal; zlia].
  destruct (Z.eq_dec a 255) as [->|Na]; [rewrite E0, E1; done|destruct (Hz a Ha Na) as [-> ->]; do 3 (f_equal; [zlia|]); f_equal; zlia].
Qed.

Lemma inc32_bytes j i : is_bytes 16 j -> is_bytes 16 (inc32 j i) /\ take 12 (inc32 j i) = take 12 j /\ drop 12 (inc32 j i) = word32 ((be_val (drop 12 j) + Z.of_nat i) mod 2 ^ 32).
Proof.
  intros [Lj Uj]. unfold inc32. cbv zeta. fold (word32 ((be_val (drop 12 j) + Z.of_nat i) mod 2 ^ 32)).
  destruct (word32_val ((be_val (drop 12 j) + Z.of_nat i) mod 2 ^ 32)) as [_ Hb]; [apply Z.mod_pos_bound; lia|].
  assert (Ht : is_bytes 12 (take 12 j)) by (apply (is_bytes_sub j 0); [done|lia]). split; [change 16%nat with (12 + 4)%nat; by apply is_bytes_app|].
  assert (E12 : 12%nat = length (take 12 j)) by (symmetry; apply Ht).
  split; [by rewrite take_app_length' by exact E12|by rewrite drop_app_length' by exact E12].
Qed.

Lemma increment_inc32 j i : is_bytes 16 j -> increment_counter (inc32 j i) = inc32 j (S i).
Proof.
  intros Hj. destruct (inc32_bytes j i Hj) as (Hb & Ht & Hd). unfold increment_counter. rewrite <- (take_drop 12 (inc32 j i)), rev_app_distr, Ht, Hd.
  destruct (word32_val ((be_val (drop 12 j) + Z.of_nat i) mod 2 ^ 32)) as [Ev H4]; [apply Z.mod_pos_bound; lia|].
  rewrite increment_bytes, Ev by done. rewrite rev_app_distr, !rev_involutive. unfold inc32. cbv zeta. f_equal. fold (word32 ((be_val (drop 12 j) + Z.of_nat (S i)) mod 2 ^ 32)).
  f_equal. rewrite Zplus_mod_idemp_l. f_equal. lia.
Qed.

Lemma inc32_0 j : is_bytes 16 j -> inc32 j 0 = j.
Proof.
  intros [Lj Uj]. unfold inc32. cbv zeta. assert (H4 : is_bytes 4 (drop 12 j)) by (split; [rewrite length_drop; lia|by apply Forall_drop]).
  pose proof (be_val_range _ (proj2 H4)) as Hr. rewrite (proj1 H4) in Hr. rewrite Z.add_0_r, Z.mod_small by exact Hr. fold (word32 (be_val (drop 12 j))). by rewrite word32_of, take_drop.
Qed.

Section Ctr.
Context (key j0 : bytes) (Hk : is_bytes 16 key) (Hj : is_bytes 16 j0).

Lemma keystream_cons i n : keystream key j0 i (S n) = AES128 key (inc32 j0 i) ++ keystream key j0 (S i) n.
Proof. done. Qed.

Lemma aes_block b : is_bytes 16 b -> aes128_encrypt_block (concat (key_words key)) b = Some (AES128 key b) /\ is_bytes 16 (AES128 key b).
Proof. intros Hb. destruct (aes_init_spec key Hk) as [_ Hks]. by apply encrypt_block_spec. Qed.

Lemma xors_app a b c d : length a = length c -> xors (a ++ b) (c ++ d) = xors a c ++ xors b d.
Proof. intros H. unfold xors. by rewrite zip_with_app. Qed.

Lemma xors_any_u8 a b : Forall is_u8 a -> Forall is_u8 b -> map u8 (xors a b) = xors a b.
Proof.
  intros Ha. revert b. induction Ha as [|x a Hx Ha IH]; intros b Hb; [done|]. destruct Hb as [|y b Hy Hb]; [done|]. unfold xors in *. cbn [zip_with map]. rewrite IH by done. f_equal. by apply u8_id, lxor_u8.
Qed.

(** A last block shorter than the key stream. *)
Lemma xors_short a b c : (length a <= length b)%nat -> xors a (b ++ c) = xors a b.
Proof. revert b. induction a as [|x a IH]; intros b Hb; [done|]. destruct b as [|y b]; cbn [length] in Hb; [lia|]. unfold xors in *. cbn [zip_with app]. by rewrite IH by lia. Qed.

Lemma xors_nil_l b : xors [] b = [].
Proof. done. Qed.

Lemma ctr_loop_spec fuel : forall i data len, Forall is_u8 data -> 0 <= len < 65536 -> len <= blen data -> len <= 16 * Z.of_nat fuel ->
  ctr_loop fuel (concat (key_words key)) (inc32 j0 i) data len = Some (xors (take (Z.to_nat len) data) (keystream key j0 (S i) ((Z.to_nat len + 15) / 16))).
Proof.
  induction fuel as [|fuel IH]; intros i data len Hd Hl Hb Hf; cbn [ctr_loop]; unfold c_true; (destruct (Z.eqb_spec len 0) as [->|Hn]; cbn [negb]; [done|]); [lia|].
  unfold blen in Hb. rewrite increment_inc32 by done. cbv zeta. destruct (inc32_bytes j0 (S i) Hj) as (Hc & _). destruct (aes_block _ Hc) as [-> Hs]. rewrite some_bind.
  set (n := if 16 <? len then 16 else len). assert (Hnn : 1 <= n <= 16 /\ n <= len /\ (n < 16 -> n = len)) by (subst n; destruct (Z.ltb_spec 16 len); lia). clearbody n.
  rewrite ld_bytes_ok by (unfold blen; lia). rewrite some_bind, Z2Nat.inj_0, drop_0. rewrite u16_id by (unfold is_u16; lia).
  rewrite IH by (first [by apply Forall_drop|unfold blen; rewrite length_drop; lia|lia]). rewrite some_bind. f_equal.
  replace ((Z.to_nat len + 15) / 16)%nat with (S ((Z.to_nat (len - n) + 15) / 16)) by nlia. rewrite keystream_cons. destruct (Hs) as [Ls Us].
  fold (xors (take (Z.to_nat n) data) (AES128 key (inc32 j0 (S i)))). rewrite xors_any_u8 by (done || by apply Forall_take).
  destruct (Z.eq_dec n 16) as [->|Hne].
  - replace (take (Z.to_nat len) data) with (take 16 data ++ take (Z.to_nat (len - 16)) (drop 16 data)).
    + rewrite xors_app by (rewrite length_take, Ls; lia). done.
    + replace (Z.to_nat len) with (16 + Z.to_nat (len - 16))%nat by lia. by rewrite take_take_drop.
  - assert (n = len) as -> by lia. replace (Z.to_nat (len - len)) with 0%nat by lia. rewrite take_0, xors_nil_l, app_nil_r. rewrite xors_short; [done|]. rewrite length_take, Ls. lia.
Qed.

Lemma ctr_crypt_spec data len : Forall is_u8 data -> 0 <= len < 65536 -> len <= blen data ->
  ctr_crypt (concat (key_words key)) j0 data len = Some (GCTR key j0 (take (Z.to_nat len) data)).
Proof.
  intros Hd Hl Hb. unfold ctr_crypt. rewrite <- (inc32_0 j0) at 1 by done. rewrite ctr_loop_spec by (done || lia). unfold GCTR, blen in *. do 3 f_equal. f_equal. rewrite length_take. lia.
Qed.
End Ctr.

(** * Authenticated encryption is GCM

    [aes128_gcm_encrypt] and [aes128_gcm_decrypt] of kernel/aes_gcm.c compute the ciphertext
    and the tag of SP 800-38D, and decryption accepts exactly the tag of the text it is
    given, before it writes a byte. *)

(** The twelve bytes of the initialisation vector. *)
Definition gcm_iv (fixed_iv explicit_nonce : bytes) : bytes := take 4 fixed_iv ++ take 8 explicit_nonce.

Lemma tag_difference_from d l : Forall is_u8 l -> 0 <= d -> foldl (fun d x => Z.lor d (u8 x)) d l = 0 <-> d = 0 /\ Forall (fun x => x = 0) l.
Proof.
  intros Hl. revert d. induction Hl as [|x l Hx Hl IH]; intros d Hd; cbn [foldl]; [by rewrite Forall_nil; tauto|].
  assert (0 <= Z.lor d (u8 x)) by (apply Z.lor_nonneg; split; [done|]; unfold u8; zlia). rewrite IH by done. rewrite Forall_cons, Z.lor_eq_0_iff. rewrite (u8_id x) by done. tauto.
Qed.

Lemma zeros_equal n a b : is_bytes n a -> is_bytes n b -> Forall (fun x => x = 0) (xors a b) <-> a = b.
Proof.
  intros [La _] [Lb _]. revert n b La Lb. induction a as [|x a IH]; intros n b La Lb; destruct b as [|y b]; cbn [length] in *; try (lia || done).
  unfold xors in *. cbn [zip_with]. rewrite Forall_cons, (IH (n - 1)%nat b), Z.lxor_eq_0_iff by lia. split; [intros [-> ->]; done|intros [= -> ->]; done].
Qed.

Lemma xors_assoc a b c : xors (xors a b) c = xors a (xors b c).
Proof. revert b c. induction a as [|x a IH]; intros b c; [done|]. destruct b as [|y b], c as [|z c]; try done. unfold xors in *. cbn [zip_with]. by rewrite IH, Z.lxor_assoc. Qed.

(** The comparison of all sixteen bytes is equality. *)
Lemma tag_difference_exact tag auth mask : is_bytes 16 tag -> is_bytes 16 auth -> is_bytes 16 mask -> c_true (tag_difference tag auth mask) = false <-> be_val tag = Z.lxor (be_val auth) (be_val mask).
Proof.
  intros Ht Ha Hm. unfold tag_difference, c_true. fold xors. rewrite negb_false_iff, Z.eqb_eq. rewrite xors_assoc. pose proof (xors_bytes 16 _ _ Ha Hm) as Hx.
  rewrite tag_difference_from by (try lia; by eapply xors_bytes). rewrite (zeros_equal 16) by done. rewrite <- (be_val_xors 16) by done. split; [by intros [_ ->]|]. intros E. split; [done|]. by apply (be_val_inj 16).
Qed.

Section Gcm.
Context (key fixed_iv explicit_nonce : bytes) (Hk : is_bytes 16 key) (Hf : is_bytes 4 (take 4 fixed_iv)) (Hn : is_bytes 8 (take 8 explicit_nonce)).

Lemma J0_bytes : is_bytes 16 (J0 (gcm_iv fixed_iv explicit_nonce)).
Proof.
  unfold J0, gcm_iv. change 16%nat with (4 + 8 + 4)%nat. apply is_bytes_app; [by apply is_bytes_app|]. split; [done|]. repeat (constructor; [unfold is_u8; lia|]). constructor.
Qed.

Lemma ld_take n (l : bytes) : is_bytes n (take n l) -> ld_bytes l 0 (Z.of_nat n) = Some (take n l).
Proof. intros [L _]. rewrite length_take in L. rewrite ld_bytes_ok by (unfold blen; lia). by rewrite Nat2Z.id, Z2Nat.inj_0, drop_0. Qed.

Lemma zero_bytes n : is_bytes n (replicate n 0).
Proof. split; [apply length_replicate|apply Forall_replicate; unfold is_u8; lia]. Qed.

Lemma initialize_gcm_spec : initialize_gcm (Some key) (Some fixed_iv) (Some explicit_nonce) =
  Some (0, concat (key_words key), AES128 key (replicate 16 0), J0 (gcm_iv fixed_iv explicit_nonce)).
Proof.
  unfold initialize_gcm. destruct (aes_init_spec key Hk) as [-> _]. rewrite some_bind. cbn [Z.eqb negb]. destruct (aes_block key Hk _ (zero_bytes 16)) as [-> _]. rewrite some_bind.
  unfold make_j0. rewrite (ld_take 4 _ Hf : ld_bytes _ 0 4 = _), some_bind, (ld_take 8 _ Hn : ld_bytes _ 0 8 = _), some_bind, some_bind. unfold J0, gcm_iv. by rewrite <- app_assoc.
Qed.

(** GHASH of the two texts masked with the encrypted counter is the tag. *)
Lemma gcm_auth_spec aad alen text len : Forall is_u8 aad -> Forall is_u8 text -> 0 <= alen < 65536 -> 0 <= len < 65536 -> alen <= blen aad -> len <= blen text ->
  exists auth mask, ghash (AES128 key (replicate 16 0)) aad alen text len = Some auth /\ aes128_encrypt_block (concat (key_words key)) (J0 (gcm_iv fixed_iv explicit_nonce)) = Some mask /\
    is_bytes 16 auth /\ is_bytes 16 mask /\ Z.lxor (be_val auth) (be_val mask) = gcm_tag key (gcm_iv fixed_iv explicit_nonce) (take (Z.to_nat alen) aad) (take (Z.to_nat len) text).
Proof.
  intros Ha Hc Hal Hcl Hab Hcb. destruct (aes_block key Hk _ (zero_bytes 16)) as [_ Hh]. destruct (aes_block key Hk _ J0_bytes) as [Em Hm].
  destruct (ghash_spec (AES128 key (replicate 16 0)) aad alen text len Hh Ha Hc Hal Hcl Hab Hcb) as (auth & E & Hau & Ev). exists auth, (AES128 key (J0 (gcm_iv fixed_iv explicit_nonce))).
  split; [exact E|]. split; [exact Em|]. split; [exact Hau|]. split; [exact Hm|]. rewrite Ev. reflexivity.
Qed.

(** ** Counter mode on a text *)

Let iv : bytes := gcm_iv fixed_iv explicit_nonce.

Lemma keystream_bytes from n : is_bytes (16 * n) (keystream key (J0 iv) from n).
Proof.
  revert from. induction n as [|n IH]; intros from; [split; [done|constructor]|]. rewrite keystream_cons. replace (16 * S n)%nat with (16 + 16 * n)%nat by lia.
  apply is_bytes_app; [|apply IH]. apply aes_block; [done|]. apply inc32_bytes, J0_bytes.
Qed.

Lemma xors_under a s : Forall is_u8 a -> Forall is_u8 s -> (length a <= length s)%nat -> is_bytes (length a) (xors a s) /\ xors (xors a s) s = a.
Proof.
  intros Ha. revert s. induction Ha as [|x a Hx Ha IH]; intros s Hs Hl; [split; [split; [done|constructor]|done]|]. destruct Hs as [|y s Hy Hs]; cbn [length] in *; [lia|].
  destruct (IH s Hs) as [[L U] E]; [lia|]. unfold xors in *. cbn [zip_with length]. split; [split; [cbn [length]; by rewrite L|constructor; [by apply lxor_u8|done]]|].
  by rewrite E, Z.lxor_assoc, Z.lxor_nilpotent, Z.lxor_0_r.
Qed.

Lemma gcm_cipher_bytes text : Forall is_u8 text -> is_bytes (length text) (gcm_cipher key iv text) /\ gcm_cipher key iv (gcm_cipher key iv text) = text.
Proof.
  intros Ht. unfold gcm_cipher, GCTR. set (n := ((length text + 15) / 16)%nat). destruct (keystream_bytes 1 n) as [L U].
  destruct (xors_under text _ Ht U) as [Hb E]; [rewrite L; subst n; nlia|]. split; [exact Hb|]. destruct Hb as [Lb _]. rewrite Lb. exact E.
Qed.

(** ** The two operations *)

Lemma take_patch (b c : bytes) : (length c <= length b)%nat -> take (length c) (patch b 0 c) = c.
Proof. intros H. unfold patch. rewrite Z2Nat.inj_0, take_0, app_nil_l. apply take_app_length. Qed.

Lemma patch_u8 (b c : bytes) : Forall is_u8 b -> Forall is_u8 c -> Forall is_u8 (patch b 0 c).
Proof. intros Hb Hc. unfold patch. rewrite Z2Nat.inj_0, take_0, app_nil_l. apply Forall_app. split; [done|by apply Forall_drop]. Qed.

Lemma st_bytes_front (b c : bytes) : (length c <= length b)%nat -> st_bytes b 0 c = Some (patch b 0 c).
Proof. intros H. apply st_bytes_ok; unfold blen; lia. Qed.

Lemma patch_nil (b : bytes) : patch b 0 [] = b.
Proof. unfold patch. rewrite Z2Nat.inj_0, take_0, !app_nil_l. cbn [length Nat.add]. apply drop_0. Qed.

(** The text step of both operations, the empty text included. *)
Lemma crypt_into text len out : Forall is_u8 text -> 0 <= len < 65536 -> len <= blen text -> len <= blen out ->
  let c := gcm_cipher key iv (take (Z.to_nat len) text) in
  is_bytes (Z.to_nat len) c /\ (if c_true len then p ← ctr_crypt (concat (key_words key)) (J0 iv) text len; b ← st_bytes out 0 p; Some (Some b) else Some (Some out)) = Some (Some (patch out 0 c)).
Proof.
  intros Ht Hl Htb Hob c. unfold blen in *. assert (Hc : is_bytes (Z.to_nat len) c).
  { replace (Z.to_nat len) with (length (take (Z.to_nat len) text)) at 1 by (rewrite length_take; lia). apply gcm_cipher_bytes. by apply Forall_take. }
  split; [exact Hc|]. unfold c_true. destruct (Z.eqb_spec len 0) as [->|Hn0]; cbn [negb].
  - destruct Hc as [L _]. apply nil_length_inv in L. rewrite L. by rewrite patch_nil.
  - rewrite (ctr_crypt_spec key _ Hk J0_bytes) by (done || unfold blen; lia). rewrite some_bind. change (GCTR key (J0 (gcm_iv fixed_iv explicit_nonce)) (take (Z.to_nat len) text)) with c. destruct Hc as [L _]. rewrite (st_bytes_front out c) by (rewrite L; lia). reflexivity.
Qed.

Lemma gcm_encrypt_spec aad alen plain len out tag : Forall is_u8 aad -> Forall is_u8 plain -> Forall is_u8 out -> 0 <= alen < 65536 -> 0 <= len < 65536 ->
  alen <= blen aad -> len <= blen plain -> len <= blen out -> 16 <= blen tag ->
  let c := gcm_cipher key iv (take (Z.to_nat len) plain) in
  exists t, aes128_gcm_encrypt (Some key) (Some fixed_iv) (Some explicit_nonce) (Some aad) alen (Some plain) len (Some out) (Some tag) = Some (0, Some (patch out 0 c), Some (patch tag 0 t)) /\
    is_bytes (Z.to_nat len) c /\ is_bytes 16 t /\ be_val t = gcm_tag key iv (take (Z.to_nat alen) aad) c.
Proof.
  intros Ha Hp Ho Hal Hl Hab Hpb Hob Htb c. destruct (crypt_into plain len out Hp Hl Hpb Hob) as [[Lc Uc] Es]. fold c in Lc, Uc, Es. unfold blen in *. unfold aes128_gcm_encrypt. cbn [is_null andb orb].
  rewrite initialize_gcm_spec, some_bind. cbn [Z.eqb negb mem default from_option id]. fold iv. rewrite Es. clear Es. clearbody c. rewrite some_bind. cbn [mem default from_option id].
  destruct (gcm_auth_spec aad alen (patch out 0 c) len) as (auth & mask & -> & Em & Hau & Hm & Ev); try (done || lia);
    [by apply patch_u8|unfold blen; rewrite patch_length; unfold blen; lia|].
  fold iv in Em. rewrite Em, !some_bind. fold xors. rewrite (xors_u8 16) by done. destruct (xors_bytes 16 _ _ Hau Hm) as [Lx Ux]. rewrite st_bytes_front by lia. rewrite some_bind.
  exists (xors auth mask). split; [done|]. split; [done|]. split; [done|]. rewrite (be_val_xors 16), Ev by done. rewrite <- Lc, take_patch by lia. reflexivity.
Qed.

Lemma gcm_decrypt_spec aad alen text len tag out : Forall is_u8 aad -> Forall is_u8 text -> is_bytes 16 (take 16 tag) -> 0 <= alen < 65536 -> 0 <= len < 65536 ->
  alen <= blen aad -> len <= blen text -> len <= blen out ->
  aes128_gcm_decrypt (Some key) (Some fixed_iv) (Some explicit_nonce) (Some aad) alen (Some text) len (Some tag) (Some out) =
    if be_val (take 16 tag) =? gcm_tag key iv (take (Z.to_nat alen) aad) (take (Z.to_nat len) text) then Some (0, Some (patch out 0 (gcm_cipher key iv (take (Z.to_nat len) text)))) else Some (-3, Some out).
Proof.
  intros Ha Hc Ht Hal Hl Hab Hcb Hob. destruct (crypt_into text len out Hc Hl Hcb Hob) as [_ Es]. unfold blen in *. unfold aes128_gcm_decrypt. cbn [is_null andb orb].
  rewrite initialize_gcm_spec, some_bind. cbn [Z.eqb negb mem default from_option id]. fold iv.
  destruct (gcm_auth_spec aad alen text len) as (auth & mask & -> & Em & Hau & Hm & Ev); try (done || unfold blen; lia). fold iv in Em, Ev. rewrite Em, !some_bind. rewrite (ld_take 16 _ Ht : ld_bytes _ 0 16 = _), some_bind.
  pose proof (tag_difference_exact _ _ _ Ht Hau Hm) as Hd. rewrite Ev in Hd. destruct (Z.eqb_spec (be_val (take 16 tag)) (gcm_tag key iv (take (Z.to_nat alen) aad) (take (Z.to_nat len) text))) as [E|E].
  - rewrite (proj2 Hd E). destruct (c_true len); [|injection Es as Es; by rewrite <- Es]. destruct (ctr_crypt _ _ _ _) as [p|]; [cbn in Es |- *|done]. destruct (st_bytes out 0 p) as [b|]; [cbn in Es |- *|done]. injection Es as Es. by rewrite <- Es.
  - destruct (c_true (tag_difference (take 16 tag) auth mask)); [reflexivity|]. by destruct E; apply Hd.
Qed.
End Gcm.

(** C11. AES-GCM: for every key, IV, additional data and text shorter than 65536 bytes,
    encryption answers 0 and writes the ciphertext and the tag of SP 800-38D and nothing
    else; decryption of any text with any tag answers 0 and writes the counter-mode text
    exactly when the tag is the SP 800-38D tag of that text, and otherwise answers -3 with
    the output buffer untouched; decrypting the ciphertext gives the plaintext back. *)
Theorem gcm_is_sp800_38d key fixed_iv nonce aad text tag cbuf tbuf : is_bytes 16 key -> is_bytes 4 fixed_iv -> is_bytes 8 nonce -> Forall is_u8 aad -> Forall is_u8 text ->
  is_bytes 16 tag -> Forall is_u8 cbuf -> blen aad < 65536 -> blen text < 65536 -> blen text <= blen cbuf -> 16 <= blen tbuf ->
  let iv := fixed_iv ++ nonce in let c := gcm_cipher key iv text in
  (exists t, aes128_gcm_encrypt (Some key) (Some fixed_iv) (Some nonce) (Some aad) (blen aad) (Some text) (blen text) (Some cbuf) (Some tbuf) = Some (0, Some (patch cbuf 0 c), Some (patch tbuf 0 t)) /\
     is_bytes 16 t /\ be_val t = gcm_tag key iv aad c /\
     aes128_gcm_decrypt (Some key) (Some fixed_iv) (Some nonce) (Some aad) (blen aad) (Some c) (blen c) (Some t) (Some cbuf) = Some (0, Some (patch cbuf 0 text))) /\
  aes128_gcm_decrypt (Some key) (Some fixed_iv) (Some nonce) (Some aad) (blen aad) (Some text) (blen text) (Some tag) (Some cbuf) =
    if be_val tag =? gcm_tag key iv aad text then Some (0, Some (patch cbuf 0 c)) else Some (-3, Some cbuf).
Proof.
  intros Hk Hf Hn Ha Hx Ht Hb Hal Hxl Hcb Htb iv c. pose proof Hf as [Lf _]. pose proof Hn as [Ln _]. pose proof Ht as [Lt _].
  assert (Ef : take 4 fixed_iv = fixed_iv) by (apply take_ge; lia). assert (En : take 8 nonce = nonce) by (apply take_ge; lia).
  assert (Et : take 16 tag = tag) by (apply take_ge; lia). assert (Ea : take (Z.to_nat (blen aad)) aad = aad) by (apply take_ge; unfold blen; lia).
  assert (Ex : take (Z.to_nat (blen text)) text = text) by (apply take_ge; unfold blen; lia).
  assert (Hf' : is_bytes 4 (take 4 fixed_iv)) by (by rewrite Ef). assert (Hn' : is_bytes 8 (take 8 nonce)) by (by rewrite En).
  assert (Ei : gcm_iv fixed_iv nonce = iv) by (unfold gcm_iv; by rewrite Ef, En). unfold blen in *. split.
  - destruct (gcm_encrypt_spec key fixed_iv nonce Hk Hf' Hn' aad (Z.of_nat (length aad)) text (Z.of_nat (length text)) cbuf tbuf) as (t & E & [Lc Uc] & Htt & Ev); try (done || unfold blen; lia).
    rewrite Ex, Ei in E, Lc, Uc, Ev. rewrite Ea in Ev. fold c in E, Lc, Uc, Ev. exists t. split; [exact E|]. split; [exact Htt|]. split; [exact Ev|].
    rewrite (gcm_decrypt_spec key fixed_iv nonce Hk Hf' Hn') by (try done; try (unfold blen; lia); rewrite take_ge by (destruct Htt; lia); done).
    rewrite Ei, Ea, (take_ge t), (take_ge c) by (destruct Htt; lia). rewrite Ev, Z.eqb_refl.
    destruct (gcm_cipher_bytes key fixed_iv nonce Hk Hf' Hn' text Hx) as [_ Er]. rewrite Ei in Er. fold c in Er. by rewrite Er.
  - rewrite (gcm_decrypt_spec key fixed_iv nonce Hk Hf' Hn') by (try done; try (unfold blen; lia); by rewrite Et). by rewrite Ei, Et, Ea, Ex.
Qed.

(** Test case 2 of the GCM specification: key, IV and one block of zeros. *)
Definition gcm_test_cipher : bytes := [3; 136; 218; 206; 96; 182; 163; 146; 243; 40; 194; 185; 113; 178; 254; 120].
Definition gcm_test_tag : bytes := [171; 110; 71; 212; 44; 236; 19; 189; 245; 58; 103; 178; 18; 87; 189; 223].

Lemma gcm_is_sp800_38d_witness : exists t,
  aes128_gcm_encrypt (Some (replicate 16 0)) (Some (replicate 4 0)) (Some (replicate 8 0)) (Some []) 0 (Some (replicate 16 0)) 16 (Some (replicate 16 9)) (Some (replicate 16 9)) =
    Some (0, Some gcm_test_cipher, Some (patch (replicate 16 9) 0 t)) /\ be_val t = be_val gcm_test_tag.
Proof.
  assert (Hz : forall n, is_bytes n (replicate n 0)) by (intros n; apply zero_bytes).
  assert (H9 : Forall is_u8 (replicate 16 9)) by (apply Forall_replicate; unfold is_u8; lia). pose proof (proj2 (Hz 16%nat)) as Hu.
  destruct (gcm_is_sp800_38d (replicate 16 0) (replicate 4 0) (replicate 8 0) [] (replicate 16 0) (replicate 16 0) (replicate 16 9) (replicate 16 9)
    (Hz 16%nat) (Hz 4%nat) (Hz 8%nat) (Forall_nil_2 _) Hu (Hz 16%nat) H9 (eq_refl : 0 < 65536) (eq_refl : 16 < 65536) (Z.le_refl 16 : blen (replicate 16 0) <= blen (replicate 16 9)) (Z.le_refl 16 : 16 <= blen (replicate 16 9))) as [(t & E & _ & Ev & _) _].
  exists t. split; [|rewrite Ev; by vm_compute]. assert (Ec : patch (replicate 16 9) 0 (gcm_cipher (replicate 16 0) (replicate 4 0 ++ replicate 8 0) (replicate 16 0)) = gcm_test_cipher) by (by vm_compute).
  rewrite <- Ec. exact E.
Defined.
