(* ===== verification/KeySeal.v ===== *)
(** * Key sealing of kernel/key_seal.c and its system call (syscall.c)

    The kernel holds an AES key derived from an entropy pool; a task hands a text in and
    gets back nonce, ciphertext and tag, bound to its name by the additional data.  Locals
    without an initial value ([sha256_ctx_t], digests, the [aad] array) are arguments:
    their content does not matter.  A blob is one buffer: the ciphertext and the tag are
    written at offsets 8 and 8 + length of [out]. *)

From Stdlib Require Import ZArith Lia String.
From stdpp Require Import base numbers option tactics list.
From S2P Require Import Prelude Bytes Names NetBuf NetSum BigInt Sha256 AesGcm GcmSpec.

Definition KEYSEAL_NONCE : Z := 8.
Definition KEYSEAL_TAG : Z := 16.
Definition KEYSEAL_OVERHEAD : Z := KEYSEAL_NONCE + KEYSEAL_TAG.
Definition KEYSEAL_MAX_PLAIN : Z := 256.
Definition KEYSEAL_LABEL_MAX : Z := 32.
Definition KEYSEAL_E_ARG : Z := -1.
Definition KEYSEAL_E_NOKEY : Z := -2.
Definition KEYSEAL_E_AUTH : Z := -3.

(** The static variables. *)
Record keyseal_t := mk_keyseal {
  g_seal_key : bytes; g_seal_fixed : bytes; g_pool : bytes; g_seal_ready : Z; g_nonce_ctr : Z;
  g_seals : Z; g_unseals : Z; g_failures : Z
}.

(** Locals of the calls: a hash context, the inner digest of HMAC, a digest and [aad]. *)
Record locals_t := mk_locals { l_ctx : sha256_ctx_t; l_inner : bytes; l_digest : bytes; l_aad : bytes }.

Definition wipe (p : bytes) (n : Z) : option bytes := st_bytes p 0 (replicate (Z.to_nat n) 0).

Definition keyseal_reset (s : keyseal_t) : option keyseal_t :=
  key ← wipe (g_seal_key s) 16; fixed ← wipe (g_seal_fixed s) 4; pool ← wipe (g_pool s) 32;
  Some (mk_keyseal key fixed pool 0 0 0 0 0).

Definition keyseal_init (s : keyseal_t) (l : locals_t) (entropy : ptr bytes) (length : Z) : option keyseal_t :=
  match entropy with
  | NULL => Some s
  | Some entropy =>
      if length =? 0 then Some s
      else
        c ← sha256_update (sha256_init (l_ctx l)) (Some (lit "mohhdy-seal-pool")) 16;
        c ← sha256_update c (Some (g_pool s)) 32;
        c ← sha256_update c (Some entropy) length;
        '(_, pool) ← sha256_final c (Some (g_pool s));
        d ← hmac_sha256 (l_ctx l) (l_inner l) pool 32 (Some (lit "seal-key")) 8 (Some (l_digest l));
        key ← ld_bytes (mem d) 0 16;
        fixed ← ld_bytes (mem d) 16 4;
        k ← st_bytes (g_seal_key s) 0 key;
        f ← st_bytes (g_seal_fixed s) 0 fixed;
        Some (mk_keyseal k f (mem pool) 1 (g_nonce_ctr s) (g_seals s) (g_unseals s) (g_failures s))
  end.

Definition keyseal_ready (s : keyseal_t) : Z := g_seal_ready s.

(** ** The additional data *)

Definition seal_prefix : cstring := lit "mohhdy-sealed1:".

(** [while (p[i]) aad[n++] = (uint8_t)p[i++];] *)
Fixpoint prefix_loop (fuel : nat) (p : cstring) (i : Z) (aad : bytes) (n : Z) : option (Z * bytes) :=
  if chr p i =? 0 then Some (n, aad)
  else match fuel with
       | O => None
       | S fuel => aad ← put8 aad n (chr p i); prefix_loop fuel p (i + 1) aad (n + 1)
       end.

Fixpoint label_loop (fuel : nat) (label : cstring) (i : Z) (aad : bytes) (n : Z) : option (Z * bytes) :=
  if chr label i =? 0 then Some (n, aad)
  else if KEYSEAL_LABEL_MAX <=? i then Some (-1, aad)
  else match fuel with
       | O => None
       | S fuel => aad ← put8 aad n (chr label i); label_loop fuel label (i + 1) aad (n + 1)
       end.

(** Fifteen characters, then at most thirty-two. *)
Definition build_aad (label : cstring) (aad : bytes) : option (Z * bytes) :=
  '(n, aad) ← prefix_loop 15 seal_prefix 0 aad 0;
  label_loop 32 label 0 aad n.

(** ** Seal and unseal *)

Definition with_ctr (s : keyseal_t) (c : Z) : keyseal_t := mk_keyseal (g_seal_key s) (g_seal_fixed s) (g_pool s) (g_seal_ready s) c (g_seals s) (g_unseals s) (g_failures s).
Definition with_counts (s : keyseal_t) (a b c : Z) : keyseal_t := mk_keyseal (g_seal_key s) (g_seal_fixed s) (g_pool s) (g_seal_ready s) (g_nonce_ctr s) a b c.

(** The counter, highest byte first, then four bytes of its keyed hash. *)
Definition next_nonce (s : keyseal_t) (l : locals_t) : option bytes :=
  let c := be32 (g_nonce_ctr s) in
  mac ← hmac_sha256 (l_ctx l) (l_inner l) (Some (g_pool s)) 32 (Some c) 4 (Some (l_digest l));
  m ← ld_bytes (mem mac) 0 4;
  Some (c ++ m).

Definition keyseal_seal (s : keyseal_t) (l : locals_t) (label : ptr cstring) (plain : ptr bytes) (length : Z) (out : ptr bytes) (capacity : Z)
    : option (Z * keyseal_t * ptr bytes) :=
  if negb (c_true (g_seal_ready s)) then Some (KEYSEAL_E_NOKEY, s, out)
  else match label, plain, out with
  | Some label, Some _, Some o =>
      if (length =? 0) || (KEYSEAL_MAX_PLAIN <? length) || (capacity <? u32 (length + KEYSEAL_OVERHEAD)) then Some (KEYSEAL_E_ARG, s, out)
      else
        '(alen, aad) ← build_aad label (l_aad l);
        if alen <? 0 then Some (KEYSEAL_E_ARG, s, out)
        else
          let s := with_ctr s (u32 (g_nonce_ctr s + 1)) in
          nonce ← next_nonce s l;
          o ← st_bytes o 0 nonce;
          c ← ld_bytes o KEYSEAL_NONCE length;
          let t := drop (Z.to_nat (KEYSEAL_NONCE + length)) o in
          '(rc, c, t) ← aes128_gcm_encrypt (Some (g_seal_key s)) (Some (g_seal_fixed s)) (Some nonce) (Some aad) (u16 alen) plain (u16 length) (Some c) (Some t);
          let o := take 8 o ++ mem c ++ mem t in
          if negb (rc =? 0) then Some (KEYSEAL_E_ARG, s, Some o)
          else Some (length + KEYSEAL_OVERHEAD, with_counts s (u32 (g_seals s + 1)) (g_unseals s) (g_failures s), Some o)
  | _, _, _ => Some (KEYSEAL_E_ARG, s, out)
  end.

Definition keyseal_unseal (s : keyseal_t) (l : locals_t) (label : ptr cstring) (blob : ptr bytes) (length : Z) (out : ptr bytes) (capacity : Z)
    : option (Z * keyseal_t * ptr bytes) :=
  if negb (c_true (g_seal_ready s)) then Some (KEYSEAL_E_NOKEY, s, out)
  else match label, blob, out with
  | Some label, Some b, Some o =>
      if length <=? KEYSEAL_OVERHEAD then Some (KEYSEAL_E_ARG, s, out)
      else
        let n := length - KEYSEAL_OVERHEAD in
        if (KEYSEAL_MAX_PLAIN <? n) || (capacity <? n) then Some (KEYSEAL_E_ARG, s, out)
        else
          '(alen, aad) ← build_aad label (l_aad l);
          if alen <? 0 then Some (KEYSEAL_E_ARG, s, out)
          else
            '(rc, p) ← aes128_gcm_decrypt (Some (g_seal_key s)) (Some (g_seal_fixed s)) blob (Some aad) (u16 alen) (Some (drop 8 b)) (u16 n)
                         (Some (drop (Z.to_nat (KEYSEAL_NONCE + n)) b)) out;
            if negb (rc =? 0) then
              o ← wipe (mem p) n; Some (KEYSEAL_E_AUTH, with_counts s (g_seals s) (g_unseals s) (u32 (g_failures s + 1)), Some o)
            else Some (n, with_counts s (g_seals s) (u32 (g_unseals s + 1)) (g_failures s), p)
  | _, _, _ => Some (KEYSEAL_E_ARG, s, out)
  end.

Definition keyseal_stats (s : keyseal_t) (seals unseals failures : ptr Z) : ptr Z * ptr Z * ptr Z :=
  ((fun _ => g_seals s) <$> seals, (fun _ => g_unseals s) <$> unseals, (fun _ => g_failures s) <$> failures).

(** ** The system call *)

Definition OS_SEAL_OP_SEAL : Z := 1.
Definition OS_SEAL_OP_UNSEAL : Z := 2.
Definition OS_SEAL_OP_STATUS : Z := 3.
Definition OS_SEAL_OVERHEAD : Z := 24.
Definition OS_SEAL_MAX_PLAIN : Z := 256.
Definition OS_SEAL_BAD_REQUEST : Z := -190.
Definition OS_SEAL_AUTH : Z := -191.

(** The key store with the two static buffers of the call. *)
Record seal_sys_t := mk_seal_sys { ss_seal : keyseal_t; ss_src : bytes; ss_dst : bytes }.

(** One sample of the time-stamp counter and of port 0x40. *)
Record sample_t := mk_sample { sm_lo : Z; sm_hi : Z; sm_port : Z }.
Definition sample_word (m : sample_t) : Z := Z.lxor (Z.lxor (sm_lo m) (u32 (Z.shiftl (sm_hi m) 16))) (Z.shiftl (sm_port m) 8).

Definition key_seal_ensure (s : keyseal_t) (l : locals_t) (samples : list sample_t) (ticks identity_key : Z) : option keyseal_t :=
  if c_true (keyseal_ready s) then Some s
  else keyseal_init s l (Some (concat (map le32 (map sample_word samples ++ [ticks; identity_key])))) 136.

(** What the caller passes: its name when it is a user task, its identity, and for its two
    buffers what [syscall_user_range] answers of them, by length. *)
Record caller_t := mk_caller { cl_name : ptr cstring; cl_identity : Z; cl_in : Z -> ptr bytes; cl_out : Z -> bool }.

(** The answer, the state and the bytes written at [out]. *)
Definition sys_key_seal (s : seal_sys_t) (l : locals_t) (samples : list sample_t) (ticks : Z) (who : caller_t) (op in_len cap : Z)
    : option (Z * seal_sys_t * bytes) :=
  match cl_name who with
  | NULL => Some (OS_SEAL_BAD_REQUEST, s, [])
  | Some name =>
      k ← key_seal_ensure (ss_seal s) l samples ticks (cl_identity who);
      let s := mk_seal_sys k (ss_src s) (ss_dst s) in
      if op =? OS_SEAL_OP_STATUS then
        if negb (cl_out who 16) then Some (OS_SEAL_BAD_REQUEST, s, [])
        else Some (0, s, le32 (keyseal_ready k) ++ le32 (g_seals k) ++ le32 (g_unseals k) ++ le32 (g_failures k))
      else if negb (op =? OS_SEAL_OP_SEAL) && negb (op =? OS_SEAL_OP_UNSEAL) then Some (OS_SEAL_BAD_REQUEST, s, [])
      else if (in_len =? 0) || (280 <? in_len) || (cap =? 0) then Some (OS_SEAL_BAD_REQUEST, s, [])
      else match cl_in who in_len with
      | NULL => Some (OS_SEAL_BAD_REQUEST, s, [])
      | Some input =>
          let cap := if 280 <? cap then 280 else cap in
          if negb (cl_out who cap) then Some (OS_SEAL_BAD_REQUEST, s, [])
          else
            i ← ld_bytes input 0 in_len;
            src ← st_bytes (ss_src s) 0 i;
            '(rc, k, dst) ← (if op =? OS_SEAL_OP_SEAL then keyseal_seal k l (Some name) (Some src) in_len (Some (ss_dst s)) cap
                             else keyseal_unseal k l (Some name) (Some src) in_len (Some (ss_dst s)) cap);
            src ← wipe src in_len;
            let s := mk_seal_sys k src (mem dst) in
            if rc =? KEYSEAL_E_AUTH then Some (OS_SEAL_AUTH, s, [])
            else if rc <? 0 then Some (OS_SEAL_BAD_REQUEST, s, [])
            else
              o ← ld_bytes (mem dst) 0 rc;
              dst ← wipe (mem dst) rc;
              Some (rc, mk_seal_sys k src dst, o)
      end
  end.

(** * What sealing promises

    The additional data is an injective encoding of the caller's name; what is sealed is
    unsealed under the same name; unsealing accepts exactly the tag SP 800-38D gives the
    blob under that name; no nonce is used twice. *)

(** ** The additional data *)

Definition seal_aad (label : cstring) : bytes := seal_prefix ++ cstr label.

Lemma put8_at acc x rest c : is_u8 c -> put8 (acc ++ x :: rest) (blen acc) c = Some (acc ++ c :: rest).
Proof.
  intros Hc. rewrite put8_ok by (unfold blen; rewrite ?length_app; cbn [length]; lia). unfold patch, blen. rewrite Nat2Z.id, take_app_length. f_equal. f_equal.
  cbn [length app]. rewrite u8_id by done. f_equal. rewrite drop_app_ge by lia. replace (length acc + 1 - length acc)%nat with 1%nat by lia. done.
Qed.

Lemma cstr_at label i : 0 <= i -> cstr (drop (Z.to_nat i) label) = if chr label i =? 0 then [] else chr label i :: cstr (drop (Z.to_nat (i + 1)) label).
Proof.
  intros Hi. unfold chr. destruct (label !! Z.to_nat i) as [c|] eqn:E; cbn [default from_option id].
  - rewrite (drop_S _ _ _ E). cbn [cstr]. by replace (Z.to_nat (i + 1)) with (S (Z.to_nat i)) by lia.
  - apply lookup_ge_None in E. by rewrite drop_ge by done.
Qed.

Lemma label_chr_u8 label i : Forall is_u8 label -> is_u8 (chr label i).
Proof. intros H. unfold chr. destruct (label !! Z.to_nat i) as [c|] eqn:E; cbn; [rewrite Forall_lookup in H; by eapply H|unfold is_u8; lia]. Qed.

Lemma snoc_blen (acc : bytes) c : blen acc + 1 = blen (acc ++ [c]).
Proof. unfold blen. rewrite length_app. cbn [length]. lia. Qed.

Lemma prefix_loop_spec fuel : forall p i acc rest, Forall is_u8 p -> 0 <= i -> let nm := cstr (drop (Z.to_nat i) p) in (length nm <= fuel)%nat -> (length nm <= length rest)%nat ->
  prefix_loop fuel p i (acc ++ rest) (blen acc) = Some (blen acc + blen nm, acc ++ nm ++ drop (length nm) rest).
Proof.
  induction fuel as [|fuel IH]; intros p i acc rest Hp Hi; cbv zeta; rewrite (cstr_at p i Hi); cbn [prefix_loop]; (destruct (Z.eqb_spec (chr p i) 0) as [E|E]; cbn [length blen]); intros Hf Hr; try lia.
  1,2: rewrite drop_0, app_nil_l; do 2 f_equal; unfold blen; cbn [length]; lia.
  destruct rest as [|x rest]; [cbn [length] in Hr; lia|]. rewrite put8_at by (by apply label_chr_u8). rewrite some_bind, (snoc_blen acc (chr p i)).
  replace (acc ++ chr p i :: rest) with ((acc ++ [chr p i]) ++ rest) by (by rewrite <- app_assoc). cbn [length] in *. rewrite IH by (done || lia). do 2 f_equal; [unfold blen; rewrite length_app; cbn [length]; lia|by rewrite <- app_assoc].
Qed.

Lemma label_loop_spec fuel : forall label i acc rest, Forall is_u8 label -> 0 <= i -> Z.of_nat fuel = 32 - i -> (fuel <= length rest)%nat -> let nm := cstr (drop (Z.to_nat i) label) in
  if (length nm <=? fuel)%nat then label_loop fuel label i (acc ++ rest) (blen acc) = Some (blen acc + blen nm, acc ++ nm ++ drop (length nm) rest)
  else exists aad, label_loop fuel label i (acc ++ rest) (blen acc) = Some (-1, aad).
Proof.
  induction fuel as [|fuel IH]; intros label i acc rest Hp Hi Hf Hr; cbv zeta; rewrite (cstr_at label i Hi); cbn [label_loop]; (destruct (Z.eqb_spec (chr label i) 0) as [E|E]; cbn [length Nat.leb]).
  1,3: rewrite drop_0, app_nil_l; do 2 f_equal; unfold blen; cbn [length]; lia.
  - rewrite (proj2 (Z.leb_le KEYSEAL_LABEL_MAX i)) by (unfold KEYSEAL_LABEL_MAX; lia). by eexists.
  - rewrite (proj2 (Z.leb_gt KEYSEAL_LABEL_MAX i)) by (unfold KEYSEAL_LABEL_MAX; lia). destruct rest as [|x rest]; [cbn [length] in Hr; lia|].
    rewrite put8_at by (by apply label_chr_u8). rewrite some_bind, (snoc_blen acc (chr label i)). replace (acc ++ chr label i :: rest) with ((acc ++ [chr label i]) ++ rest) by (by rewrite <- app_assoc).
    cbn [length] in *. specialize (IH label (i + 1) (acc ++ [chr label i]) rest Hp ltac:(lia) ltac:(lia) ltac:(lia)). cbv zeta in IH.
    destruct (Nat.leb_spec (length (cstr (drop (Z.to_nat (i + 1)) label))) fuel); [|exact IH]. rewrite IH. do 2 f_equal; [unfold blen; rewrite length_app; cbn [length]; lia|by rewrite <- app_assoc].
Qed.

Lemma build_aad_spec label aad : Forall is_u8 label -> length aad = 48%nat ->
  if (length (cstr label) <=? 32)%nat then build_aad label aad = Some (blen (seal_aad label), seal_aad label ++ drop (length (seal_aad label)) aad)
  else exists a, build_aad label aad = Some (-1, a).
Proof.
  intros Hl Ha. unfold build_aad. pose proof (prefix_loop_spec 15 seal_prefix 0 [] aad) as E. cbn [app] in E. change (blen []) with 0 in E. cbv zeta in E. rewrite Z2Nat.inj_0, drop_0 in E.
  change (cstr seal_prefix) with seal_prefix in E. rewrite E; [|apply (bool_decide_unpack _); by vm_compute|lia|cbn; lia|change (length seal_prefix) with 15%nat; lia]. rewrite some_bind.
  change (length seal_prefix) with 15%nat. rewrite Z.add_0_l. pose proof (label_loop_spec 32 label 0 seal_prefix (drop 15 aad) Hl ltac:(lia) ltac:(lia)) as E2. cbv zeta in E2. rewrite Z2Nat.inj_0, drop_0 in E2.
  specialize (E2 ltac:(rewrite length_drop; lia)). destruct (Nat.leb_spec (length (cstr label)) 32); [|exact E2]. rewrite E2. unfold seal_aad, blen. rewrite length_app, <- app_assoc, drop_drop.
  change (length seal_prefix) with 15%nat. do 2 f_equal. lia.
Qed.

(** ** The key store *)

Definition seal_wf (s : keyseal_t) : Prop := is_bytes 16 (g_seal_key s) /\ is_bytes 4 (g_seal_fixed s) /\ is_bytes 32 (g_pool s) /\ is_u32 (g_nonce_ctr s).
Definition locals_wf (l : locals_t) : Prop := is_bytes 64 (sha_block (l_ctx l)) /\ length (l_inner l) = 32%nat /\ length (l_digest l) = 32%nat /\ is_bytes 48 (l_aad l).

(** The nonce of the current counter. *)
Definition seal_nonce (s : keyseal_t) : bytes := be32 (g_nonce_ctr s) ++ take 4 (rfc2104 (g_pool s) (be32 (g_nonce_ctr s))).
Definition seal_iv (s : keyseal_t) (blob : bytes) : bytes := g_seal_fixed s ++ take 8 blob.

Lemma rfc2104_bytes k t : is_bytes 32 (rfc2104 k t).
Proof. unfold rfc2104. split; [apply sha256_length|apply sha256_u8]. Qed.

Lemma next_nonce_spec s l : seal_wf s -> locals_wf l -> next_nonce s l = Some (seal_nonce s) /\ is_bytes 8 (seal_nonce s).
Proof.
  intros (_ & _ & [Lp Up] & _) ([Lc Uc] & Li & Ld & _). unfold next_nonce. pose proof (be32_u8 (g_nonce_ctr s)) as Ub.
  pose proof (hmac_is_rfc2104 (l_ctx l) (l_inner l) (g_pool s) (be32 (g_nonce_ctr s)) (l_digest l) Lc Uc Li ltac:(lia) Up ltac:(unfold blen; lia) Ub ltac:(done)) as E.
  unfold blen in E at 1. rewrite Lp in E. change (blen (be32 (g_nonce_ctr s))) with 4 in E. change (Z.of_nat 32) with 32 in E. rewrite E, some_bind. clear E. cbn [mem default from_option id].
  destruct (rfc2104_bytes (g_pool s) (be32 (g_nonce_ctr s))) as [Lr Ur]. rewrite (drop_ge (l_digest l)), app_nil_r by lia. rewrite ld_bytes_ok by (unfold blen; lia). rewrite some_bind, Z2Nat.inj_0, drop_0.
  split; [done|]. unfold seal_nonce. change 8%nat with (4 + 4)%nat. apply is_bytes_app; [split; done|]. split; [rewrite length_take; lia|by apply Forall_take].
Qed.

Lemma patch_all (a b : bytes) : length b = length a -> patch a 0 b = b.
Proof. intros H. unfold patch. rewrite Z2Nat.inj_0, take_0, app_nil_l, drop_ge, app_nil_r by lia. done. Qed.

(** What [init] makes of any store with its arrays: a ready, well-formed one. *)
Lemma keyseal_init_wf s l entropy : seal_wf s -> locals_wf l -> Forall is_u8 entropy -> 0 < blen entropy < 4294967296 ->
  exists s', keyseal_init s l (Some entropy) (blen entropy) = Some s' /\ seal_wf s' /\ g_seal_ready s' = 1 /\ g_nonce_ctr s' = g_nonce_ctr s /\
    g_pool s' = Fips.sha256 (lit "mohhdy-seal-pool" ++ g_pool s ++ entropy) /\ g_seal_key s' ++ g_seal_fixed s' = take 20 (rfc2104 (g_pool s') (lit "seal-key")).
Proof.
  intros ([Lk Uk] & [Lf Uf] & [Lp Up] & Hctr) ([Lc Uc] & Li & Ld & _) He Hlen. unfold keyseal_init. rewrite (proj2 (Z.eqb_neq (blen entropy) 0)) by lia.
  destruct (update_hashing _ _ (lit "mohhdy-seal-pool") 16 (init_hashing (l_ctx l) Lc Uc)) as (c1 & -> & H1); [apply (bool_decide_unpack _); by vm_compute|change (blen (lit "mohhdy-seal-pool")) with 16; lia|lia|done|]. rewrite some_bind.
  change (([] : bytes) ++ take (Z.to_nat 16) (lit "mohhdy-seal-pool")) with (lit "mohhdy-seal-pool") in H1.
  destruct (update_hashing _ _ (g_pool s) 32 H1 Up) as (c2 & -> & H2); [unfold blen; lia|lia|done|]. rewrite some_bind, (take_ge (g_pool s)) in * by (rewrite Lp; change (Z.to_nat 32) with 32%nat; lia).
  destruct (update_hashing _ _ entropy (blen entropy) H2 He) as (c3 & -> & H3); [lia|lia|unfold blen in *; rewrite length_app, Lp; change (length (lit "mohhdy-seal-pool")) with 16%nat; lia|].
  rewrite some_bind, (take_ge entropy) in * by (unfold blen; lia). rewrite <- app_assoc in H3. destruct (final_spec _ _ (g_pool s) H3 ltac:(lia)) as (c4 & -> & _). rewrite some_bind.
  rewrite (drop_ge (g_pool s)), app_nil_r by lia. set (pool := Fips.sha256 _). assert (Hpool : is_bytes 32 pool) by (split; [apply sha256_length|apply sha256_u8]). clearbody pool.
  pose proof Hpool as [Lpo Upo].
  pose proof (hmac_is_rfc2104 (l_ctx l) (l_inner l) pool (lit "seal-key") (l_digest l) Lc Uc Li ltac:(lia) Upo ltac:(unfold blen; lia) ltac:(apply (bool_decide_unpack _); by vm_compute) ltac:(done)) as E.
  unfold blen in E at 1. rewrite Lpo in E. change (blen (lit "seal-key")) with 8 in E. change (Z.of_nat 32) with 32 in E. rewrite E, some_bind. clear E. cbn [mem default from_option id].
  rewrite (drop_ge (l_digest l)), app_nil_r by lia. destruct (rfc2104_bytes pool (lit "seal-key")) as [Lr Ur]. remember (rfc2104 pool (lit "seal-key")) as d eqn:Ed.
  rewrite !ld_bytes_ok by (unfold blen; lia). rewrite !some_bind, Z2Nat.inj_0, drop_0. change (Z.to_nat 16) with 16%nat. change (Z.to_nat 4) with 4%nat.
  rewrite !st_bytes_front by (rewrite length_take, ?length_drop; lia). rewrite !some_bind.
  assert (E1 : patch (g_seal_key s) 0 (take 16 d) = take 16 d) by (apply patch_all; rewrite length_take; lia).
  assert (E2 : patch (g_seal_fixed s) 0 (take 4 (drop 16 d)) = take 4 (drop 16 d)) by (apply patch_all; rewrite length_take, length_drop; lia).
  rewrite E1, E2. eexists. split; [done|]. cbn [g_seal_key g_seal_fixed g_pool g_nonce_ctr g_seal_ready]. split; [|split; [done|]; split; [done|]; split; [done|]].
  - split; [split; cbn [g_seal_key]; [rewrite length_take; lia|by apply Forall_take]|]. split; [split; cbn [g_seal_fixed]; [rewrite length_take, length_drop; lia|by apply Forall_take, Forall_drop]|]. done.
  - rewrite <- Ed. change 20%nat with (16 + 4)%nat. by rewrite take_take_drop.
Qed.

(** ** Seal *)

Lemma cstr_u8 label : Forall is_u8 label -> Forall is_u8 (cstr label).
Proof. induction 1 as [|c l Hc Hl IH]; cbn [cstr]; [constructor|]. destruct (c =? 0); [constructor|by constructor]. Qed.

Lemma seal_aad_u8 label : Forall is_u8 label -> Forall is_u8 (seal_aad label).
Proof. intros H. apply Forall_app. split; [apply (bool_decide_unpack _); by vm_compute|by apply cstr_u8]. Qed.

(** The name is in the additional data: two names never share it. *)
Lemma seal_aad_inj l1 l2 : seal_aad l1 = seal_aad l2 -> cstr l1 = cstr l2.
Proof. apply (inj (app seal_prefix)). Qed.

Section Store.
Context (s : keyseal_t) (l : locals_t) (label : cstring).
Hypotheses (Hs : seal_wf s) (Hl : locals_wf l) (Hr : g_seal_ready s = 1) (Hlab : Forall is_u8 label) (Hname : (length (cstr label) <= 32)%nat).

(** The additional data as both operations pass it on. *)
Lemma label_aad : exists aad, build_aad label (l_aad l) = Some (blen (seal_aad label), aad) /\ Forall is_u8 aad /\ blen (seal_aad label) <= blen aad /\ 0 <= blen (seal_aad label) < 65536 /\
  take (Z.to_nat (blen (seal_aad label))) aad = seal_aad label.
Proof.
  destruct Hl as (_ & _ & _ & [La Ua]). pose proof (build_aad_spec label (l_aad l) Hlab La) as E. rewrite (proj2 (Nat.leb_le _ _) Hname) in E. eexists. split; [exact E|].
  split; [apply Forall_app; split; [by apply seal_aad_u8|by apply Forall_drop]|]. split; [unfold blen; rewrite length_app; lia|].
  split; [unfold blen, seal_aad; rewrite length_app; change (length seal_prefix) with 15%nat; lia|]. unfold blen. by rewrite Nat2Z.id, take_app_length.
Qed.

Definition sealed_state : keyseal_t := with_counts (with_ctr s (u32 (g_nonce_ctr s + 1))) (u32 (g_seals s + 1)) (g_unseals s) (g_failures s).

Lemma seal_spec plain len out cap : Forall is_u8 plain -> Forall is_u8 out -> 0 < len <= 256 -> len <= blen plain -> len + 24 <= cap <= blen out ->
  let nonce := seal_nonce sealed_state in let c := gcm_cipher (g_seal_key s) (g_seal_fixed s ++ nonce) (take (Z.to_nat len) plain) in
  exists t, keyseal_seal s l (Some label) (Some plain) len (Some out) cap = Some (len + 24, sealed_state, Some (patch out 0 (nonce ++ c ++ t))) /\
    is_bytes 8 nonce /\ is_bytes (Z.to_nat len) c /\ is_bytes 16 t /\ be_val t = gcm_tag (g_seal_key s) (g_seal_fixed s ++ nonce) (seal_aad label) c.
Proof.
  intros Hp Ho Hlen Hpb Hcap nonce c. unfold keyseal_seal. rewrite Hr. cbn [c_true Z.eqb negb]. unfold KEYSEAL_MAX_PLAIN, KEYSEAL_OVERHEAD, KEYSEAL_NONCE, KEYSEAL_TAG. change (8 + 16) with 24.
  rewrite u32_id by (unfold is_u32; lia). rewrite (proj2 (Z.eqb_neq len 0)), (proj2 (Z.ltb_ge 256 len)), (proj2 (Z.ltb_ge cap (len + 24))) by lia. cbn [orb].
  destruct label_aad as (aad & -> & Ha & Hab & Hal & Et). rewrite some_bind. rewrite (proj2 (Z.ltb_ge _ 0)) by lia. cbv zeta.
  destruct (next_nonce_spec (with_ctr s (u32 (g_nonce_ctr s + 1))) l) as [-> Hn]; [destruct Hs as (? & ? & ? & ?); split; [done|]; split; [done|]; split; [done|]; apply u32_range|done|]. rewrite some_bind.
  change (seal_nonce (with_ctr s (u32 (g_nonce_ctr s + 1)))) with nonce in *. pose proof Hn as [Ln Un]. unfold blen in *. rewrite st_bytes_front by lia. rewrite some_bind.
  assert (Eo : patch out 0 nonce = nonce ++ drop 8 out) by (unfold patch; by rewrite Z2Nat.inj_0, take_0, app_nil_l, Ln).
  rewrite ld_bytes_ok by (try lia; unfold blen; rewrite Eo, length_app, length_drop; lia). rewrite some_bind, Eo. change (Z.to_nat 8) with 8%nat.
  rewrite (drop_app_length' nonce) by done. replace (drop (Z.to_nat (8 + len)) (nonce ++ drop 8 out)) with (drop (8 + Z.to_nat len) out).
  2: { rewrite drop_app_ge by lia. rewrite drop_drop. f_equal. lia. }
  cbn [g_seal_key g_seal_fixed with_ctr]. destruct Hs as (Hk & Hf & _ & _). rewrite !u16_id by (unfold is_u16; lia).
  destruct (gcm_encrypt_spec (g_seal_key s) (g_seal_fixed s) nonce Hk) with (aad := aad) (alen := Z.of_nat (length (seal_aad label))) (plain := plain) (len := len)
    (out := take (Z.to_nat len) (drop 8 out)) (tag := drop (8 + Z.to_nat len) out) as (t & E & Hc & Ht & Ev); try (done || lia).
  { rewrite take_ge by (destruct Hf; lia). exact Hf. } { by rewrite take_ge by lia. } { by apply Forall_take, Forall_drop. } { unfold blen. rewrite length_take, length_drop. lia. } { unfold blen. rewrite length_drop. lia. }
  assert (Ei : gcm_iv (g_seal_fixed s) nonce = g_seal_fixed s ++ nonce) by (unfold gcm_iv; by rewrite !take_ge by (destruct Hf; lia)). rewrite Ei in E, Hc, Ev. fold c in E, Hc, Ev. rewrite Et in Ev.
  rewrite E, some_bind. clear E. clearbody c nonce. cbn [Z.eqb negb mem default from_option id]. pose proof Hc as [Lc _]. pose proof Ht as [Lt _]. exists t. split; [|done]. do 2 f_equal. f_equal.
  rewrite patch_all by (rewrite length_take, length_drop; lia). rewrite take_app_length' by done. unfold patch. rewrite Z2Nat.inj_0, !take_0, !app_nil_l, <- !app_assoc, drop_drop. rewrite !length_app, Ln, Lc, Lt.
  do 4 f_equal.
Qed.

(** ** Unseal *)

(** The tag a blob needs to be accepted under the label. *)
Definition blob_tag (blob : bytes) (n : nat) : Z := gcm_tag (g_seal_key s) (seal_iv s blob) (seal_aad label) (take n (drop 8 blob)).

Lemma unseal_spec blob len out cap : Forall is_u8 blob -> 24 < len <= 280 -> len <= blen blob -> len - 24 <= cap <= blen out -> let n := Z.to_nat (len - 24) in
  keyseal_unseal s l (Some label) (Some blob) len (Some out) cap =
    if be_val (take 16 (drop (8 + n) blob)) =? blob_tag blob n
    then Some (len - 24, with_counts s (g_seals s) (u32 (g_unseals s + 1)) (g_failures s), Some (patch out 0 (gcm_cipher (g_seal_key s) (seal_iv s blob) (take n (drop 8 blob)))))
    else Some (KEYSEAL_E_AUTH, with_counts s (g_seals s) (g_unseals s) (u32 (g_failures s + 1)), Some (patch out 0 (replicate n 0))).
Proof.
  intros Hb Hlen Hbb Hcap n. unfold keyseal_unseal. rewrite Hr. cbn [c_true Z.eqb negb]. unfold KEYSEAL_MAX_PLAIN, KEYSEAL_OVERHEAD, KEYSEAL_NONCE, KEYSEAL_TAG. change (8 + 16) with 24.
  rewrite (proj2 (Z.leb_gt len 24)), (proj2 (Z.ltb_ge 256 (len - 24))), (proj2 (Z.ltb_ge cap (len - 24))) by lia. cbn [orb].
  destruct label_aad as (aad & -> & Ha & Hab & Hal & Et). rewrite some_bind. rewrite (proj2 (Z.ltb_ge _ 0)) by lia. cbv zeta. unfold blen in *. rewrite !u16_id by (unfold is_u16; lia).
  destruct Hs as (Hk & Hf & _ & _). replace (Z.to_nat (8 + (len - 24))) with (8 + n)%nat by (subst n; lia).
  rewrite (gcm_decrypt_spec (g_seal_key s) (g_seal_fixed s) blob Hk).
  2: { rewrite take_ge by (destruct Hf; lia). exact Hf. } 2: { apply (is_bytes_sub blob 0); [done|lia]. } 2: done. 2: by apply Forall_drop. 2: { apply is_bytes_sub; [done|subst n; lia]. } 2: lia. 2: lia. 2: done.
  2: { unfold blen. rewrite length_drop. lia. } 2: { unfold blen. lia. }
  assert (Ei : gcm_iv (g_seal_fixed s) blob = seal_iv s blob) by (unfold gcm_iv, seal_iv; by rewrite (take_ge (g_seal_fixed s)) by (destruct Hf; lia)). rewrite Ei, Et. fold n. unfold blob_tag.
  destruct (_ =? _); rewrite some_bind; cbn [Z.eqb negb mem default from_option id]; [done|]. unfold wipe. fold n. rewrite st_bytes_front by (rewrite length_replicate; subst n; lia). done.
Qed.
End Store.

(** The other store only has to hold the same key. *)
Definition same_key (s s' : keyseal_t) : Prop := g_seal_key s' = g_seal_key s /\ g_seal_fixed s' = g_seal_fixed s.

Lemma blob_parts (nonce c t rest : bytes) n : is_bytes 8 nonce -> is_bytes n c -> is_bytes 16 t -> let b := nonce ++ c ++ t ++ rest in
  take 8 b = nonce /\ take n (drop 8 b) = c /\ take 16 (drop (8 + n) b) = t.
Proof.
  intros [Ln _] [Lc _] [Lt _] b. subst b. split; [by apply take_app_length'|]. rewrite (drop_app_length' nonce) by done. split; [by apply take_app_length'|].
  rewrite <- drop_drop, (drop_app_length' nonce), (drop_app_length' c) by done. by apply take_app_length'.
Qed.

(** C13. Sealing: under a ready key store every text of 1 to 256 bytes is sealed into a blob
    of 24 more bytes; any store with the same key opens that blob under the same task name
    and gives the text back, whatever its counters; and under any name, the blob is opened
    exactly when its tag is the SP 800-38D tag for that name's own additional data --
    otherwise the answer is the authentication error, the failure is counted and the output
    is wiped. *)
Theorem sealed_blob_opens s s2 l l2 label label2 plain out out2 : seal_wf s -> seal_wf s2 -> same_key s s2 -> g_seal_ready s = 1 -> g_seal_ready s2 = 1 -> locals_wf l -> locals_wf l2 ->
  Forall is_u8 label -> Forall is_u8 label2 -> (length (cstr label) <= 32)%nat -> (length (cstr label2) <= 32)%nat -> Forall is_u8 plain -> Forall is_u8 out ->
  0 < blen plain <= 256 -> blen plain + 24 <= blen out -> blen plain <= blen out2 ->
  exists s' blob, keyseal_seal s l (Some label) (Some plain) (blen plain) (Some out) (blen out) = Some (blen plain + 24, s', Some blob) /\ seal_wf s' /\ same_key s s' /\
    (exists s3, keyseal_unseal s2 l2 (Some label) (Some blob) (blen plain + 24) (Some out2) (blen out2) = Some (blen plain, s3, Some (patch out2 0 plain))) /\
    keyseal_unseal s2 l2 (Some label2) (Some blob) (blen plain + 24) (Some out2) (blen out2) =
      if be_val (take 16 (drop (8 + length plain) blob)) =? blob_tag s2 label2 blob (length plain)
      then Some (blen plain, with_counts s2 (g_seals s2) (u32 (g_unseals s2 + 1)) (g_failures s2), Some (patch out2 0 plain))
      else Some (KEYSEAL_E_AUTH, with_counts s2 (g_seals s2) (g_unseals s2) (u32 (g_failures s2 + 1)), Some (patch out2 0 (replicate (length plain) 0))).
Proof.
  intros Hs Hs2 [Ek Ef] Hr Hr2 Hl Hl2 Hla Hlb Hna Hnb Hp Ho Hlen Hout Hout2. unfold blen in *.
  destruct (seal_spec s l label Hs Hl Hr Hla Hna plain (Z.of_nat (length plain)) out (Z.of_nat (length out)) Hp Ho) as (t & E & Hn & Hc & Ht & Ev); [lia|unfold blen; lia|unfold blen; lia|].
  rewrite Nat2Z.id, (take_ge plain) in * by lia. set (nonce := seal_nonce (sealed_state s)) in *. clearbody nonce. set (iv := g_seal_fixed s ++ nonce) in *. set (c := gcm_cipher (g_seal_key s) iv plain) in *.
  assert (Ecc : gcm_cipher (g_seal_key s) iv c = plain).
  { destruct Hs as (Hk & Hf & _ & _). destruct (gcm_cipher_bytes (g_seal_key s) (g_seal_fixed s) nonce Hk) with (text := plain) as [_ Er]; [rewrite take_ge by (destruct Hf; lia); done|by rewrite take_ge by (destruct Hn; lia)|done|].
    unfold gcm_iv in Er. rewrite !take_ge in Er by (destruct Hf, Hn; lia). exact Er. }
  clearbody c. exists (sealed_state s), (patch out 0 (nonce ++ c ++ t)). split; [exact E|]. split; [destruct Hs as (? & ? & ? & ?); split; [done|]; split; [done|]; split; [done|]; apply u32_range|]. split; [done|]. clear E.
  assert (Eb : patch out 0 (nonce ++ c ++ t) = nonce ++ c ++ t ++ drop (8 + length plain + 16) out).
  { unfold patch. rewrite Z2Nat.inj_0, take_0, app_nil_l. destruct Hn as [Ln _], Hc as [Lc _], Ht as [Lt _]. rewrite !length_app, Ln, Lc, Lt, <- !app_assoc. do 4 f_equal. }
  assert (Hbu : Forall is_u8 (patch out 0 (nonce ++ c ++ t))) by (rewrite Eb; destruct Hn, Hc, Ht; rewrite !Forall_app; repeat split; try done; by apply Forall_drop).
  assert (Hbl : length (patch out 0 (nonce ++ c ++ t)) = length out) by (destruct Hn as [Ln _], Hc as [Lc _], Ht as [Lt _]; apply patch_length; unfold blen; rewrite ?length_app, ?Ln, ?Lc, ?Lt; lia).
  destruct (blob_parts nonce c t (drop (8 + length plain + 16) out) (length plain) Hn Hc Ht) as (P1 & P2 & P3). rewrite <- Eb in P1, P2, P3. set (blob := patch out 0 (nonce ++ c ++ t)) in *. clearbody blob.
  assert (Hun : forall lab, Forall is_u8 lab -> (length (cstr lab) <= 32)%nat -> _) by exact (fun lab H1 H2 => unseal_spec s2 l2 lab Hs2 Hl2 Hr2 H1 H2 blob (Z.of_nat (length plain) + 24) out2 (Z.of_nat (length out2)) Hbu ltac:(lia) ltac:(unfold blen; lia) ltac:(unfold blen; lia)).
  cbv zeta in Hun. replace (Z.of_nat (length plain) + 24 - 24) with (Z.of_nat (length plain)) in Hun by lia. rewrite Nat2Z.id in Hun.
  assert (Ei : seal_iv s2 blob = iv) by (unfold seal_iv, iv; by rewrite P1, Ef). rewrite Ei, P2, Ek, Ecc in Hun. split.
  - rewrite Hun by done. unfold blob_tag. rewrite Ei, P2, P3, Ek, Ev, Z.eqb_refl. by eexists.
  - by apply Hun.
Qed.

(** ** Nonces *)

(** A call of one of the two operations, with its locals and arguments. *)
Inductive seal_call :=
  | CallSeal (l : locals_t) (label : ptr cstring) (plain : ptr bytes) (length : Z) (out : ptr bytes) (capacity : Z)
  | CallUnseal (l : locals_t) (label : ptr cstring) (blob : ptr bytes) (length : Z) (out : ptr bytes) (capacity : Z).

(** The state after the calls and the nonces of the blobs handed out. *)
Fixpoint run_calls (s : keyseal_t) (calls : list seal_call) : option (keyseal_t * list bytes) :=
  match calls with
  | [] => Some (s, [])
  | CallSeal l label plain length out capacity :: calls =>
      '(rc, s, o) ← keyseal_seal s l label plain length out capacity;
      '(s, nonces) ← run_calls s calls;
      Some (s, if rc <? 0 then nonces else take 8 (mem o) :: nonces)
  | CallUnseal l label blob length out capacity :: calls =>
      '(_, s, _) ← keyseal_unseal s l label blob length out capacity; run_calls s calls
  end.

Lemma next_nonce_front s l n : next_nonce s l = Some n -> length n = 8%nat /\ take 4 n = be32 (g_nonce_ctr s).
Proof.
  unfold next_nonce. destruct (hmac_sha256 _ _ _ _ _ _ _) as [mac|]; [|done]. rewrite some_bind. unfold ld_bytes. case_match eqn:Hb; [|done]. rewrite some_bind. intros [= <-].
  apply andb_true_iff in Hb as [_ Hb]. apply Z.leb_le in Hb. unfold blen in Hb. split; [|done]. rewrite Z2Nat.inj_0, drop_0. cbn [app length]. rewrite length_take. lia.
Qed.

Lemma seal_counter s l label plain len out cap rc s' o : keyseal_seal s l label plain len out cap = Some (rc, s', o) ->
  (g_nonce_ctr s' = g_nonce_ctr s /\ rc < 0) \/ (g_nonce_ctr s' = u32 (g_nonce_ctr s + 1) /\ (0 <= rc -> take 4 (take 8 (mem o)) = be32 (g_nonce_ctr s'))).
Proof.
  unfold keyseal_seal. destruct (negb (c_true (g_seal_ready s))); [intros [= <- <- _]; by left|]. destruct label as [label|]; [|intros [= <- <- _]; by left].
  destruct plain as [plain|]; [|intros [= <- <- _]; by left]. destruct out as [out|]; [|intros [= <- <- _]; by left]. destruct (_ || _ || _); [intros [= <- <- _]; by left|].
  destruct (build_aad label (l_aad l)) as [[alen aad]|]; [|done]. rewrite some_bind. destruct (alen <? 0); [intros [= <- <- _]; by left|]. cbv zeta.
  destruct (next_nonce _ l) as [n|] eqn:En; [|done]. rewrite some_bind. apply next_nonce_front in En as [Ln Ef]. cbn [g_nonce_ctr with_ctr] in Ef. unfold st_bytes. case_match eqn:Hst; [|done]. rewrite some_bind.
  destruct (ld_bytes _ _ _) as [c|]; [|done]. rewrite some_bind. destruct (aes128_gcm_encrypt _ _ _ _ _ _ _ _ _) as [[[r c'] t']|]; [|done]. rewrite some_bind. rewrite Z2Nat.inj_0, take_0, app_nil_l.
  rewrite (take_app_length' n) by done. right. destruct (negb (r =? 0)); injection H as <- <- <-; (split; [done|]); intros _; cbn [mem default from_option id g_nonce_ctr with_ctr with_counts]; by rewrite (take_app_length' n) by done.
Qed.

Lemma unseal_counter s l label blob len out cap rc s' o : keyseal_unseal s l label blob len out cap = Some (rc, s', o) -> g_nonce_ctr s' = g_nonce_ctr s.
Proof.
  unfold keyseal_unseal. repeat (case_match; [|try (intros [= _ <- _]; done)]); try (intros [= _ <- _]; done).
  all: try (destruct (build_aad _ _) as [[alen aad]|]; [|done]; rewrite some_bind; destruct (alen <? 0); [intros [= _ <- _]; done|]; destruct (aes128_gcm_decrypt _ _ _ _ _ _ _ _ _) as [[r p]|]; [|done]; rewrite some_bind).
  all: destruct (negb (r =? 0)); [destruct (wipe _ _); [|done]; rewrite some_bind|]; intros [= _ <- _]; done.
Qed.

Lemma be32_inj a b : is_u32 a -> is_u32 b -> be32 a = be32 b -> a = b.
Proof. unfold is_u32, be32, u8. intros Ha Hb [= E1 E2 E3 E4]. zlia. Qed.

(** The nonces of a run carry the counters that follow the first one. *)
Lemma run_counters calls : forall s s' ns, run_calls s calls = Some (s', ns) -> Forall (fun n => exists j, 1 <= j <= Z.of_nat (length calls) /\ take 4 n = be32 (u32 (g_nonce_ctr s + j))) ns.
Proof.
  induction calls as [|call calls IH]; intros s s' ns; cbn [run_calls length]; [intros [= _ <-]; constructor|].
  assert (Hmono : forall s1 ns1, (g_nonce_ctr s1 = g_nonce_ctr s \/ g_nonce_ctr s1 = u32 (g_nonce_ctr s + 1)) -> run_calls s1 calls = Some (s', ns1) ->
    Forall (fun n => exists j, 1 <= j <= Z.of_nat (S (length calls)) /\ take 4 n = be32 (u32 (g_nonce_ctr s + j))) ns1).
  { intros s1 ns1 Hc Hrun. eapply Forall_impl; [by apply (IH s1 s')|]. intros n (j & Hj & E). destruct Hc as [Hc|Hc]; rewrite Hc in E.
    - exists j. split; [lia|done].
    - exists (j + 1). split; [lia|]. rewrite E. f_equal. unfold u32. rewrite Zplus_mod_idemp_l. f_equal. lia. }
  destruct call as [l label plain len out cap|l label blob len out cap].
  - destruct (keyseal_seal s l label plain len out cap) as [[[rc s1] o]|] eqn:E; [|done]. rewrite some_bind. destruct (run_calls s1 calls) as [[s2 ns1]|] eqn:Er; [|done]. rewrite some_bind. intros [= -> <-].
    apply seal_counter in E as [[Hc Hrc]|[Hc Hn]]; [rewrite (proj2 (Z.ltb_lt rc 0) Hrc); apply (Hmono s1 ns1); [by left|done]|].
    destruct (Z.ltb_spec rc 0); [apply (Hmono s1 ns1); [by right|done]|]. constructor; [|apply (Hmono s1 ns1); [by right|done]]. exists 1. split; [lia|]. rewrite Hn by done. by rewrite Hc.
  - destruct (keyseal_unseal s l label blob len out cap) as [[[rc s1] o]|] eqn:E; [|done]. rewrite some_bind. intros Hrun. apply (Hmono s1 ns); [left; by eapply unseal_counter|done].
Qed.

(** C14. Nonces: the blobs handed out by fewer than 2^32 calls, seals and unseals in any order
    and with any arguments, all carry different nonces, so the key is never used twice with
    one counter block. *)
Theorem seal_nonces_distinct s s' calls nonces : is_u32 (g_nonce_ctr s) -> Z.of_nat (length calls) < 4294967296 -> run_calls s calls = Some (s', nonces) -> NoDup nonces.
Proof.
  revert s s' nonces. induction calls as [|call calls IH]; intros s s' ns Hs Hlen; cbn [run_calls length] in *; [intros [= _ <-]; constructor|].
  destruct call as [l label plain len out cap|l label blob len out cap].
  - destruct (keyseal_seal s l label plain len out cap) as [[[rc s1] o]|] eqn:E; [|done]. rewrite some_bind. destruct (run_calls s1 calls) as [[s2 ns1]|] eqn:Er; [|done]. rewrite some_bind. intros [= -> <-].
    assert (Hs1 : is_u32 (g_nonce_ctr s1)) by (apply seal_counter in E as [[-> _]|[-> _]]; [done|apply u32_range]). pose proof (IH s1 s' ns1 Hs1 ltac:(lia) Er) as Hnd.
    destruct (Z.ltb_spec rc 0); [done|]. constructor; [|done]. intros Hin. apply seal_counter in E as [[_ ?]|[Hc Hn]]; [lia|].
    pose proof (run_counters calls s1 s' ns1 Er) as Hr. rewrite Forall_forall in Hr. destruct (Hr _ Hin) as (j & Hj & Ej). rewrite Hn in Ej by done. apply be32_inj in Ej; [|done|apply u32_range].
    clear Hr. unfold is_u32 in *. unfold u32 in Ej. zlia.
  - destruct (keyseal_unseal s l label blob len out cap) as [[[rc s1] o]|] eqn:E; [|done]. rewrite some_bind. apply IH; [by rewrite (unseal_counter _ _ _ _ _ _ _ _ _ _ E)|lia].
Qed.

(** ** Witnesses *)

Definition demo_store : keyseal_t := mk_keyseal (map Z.of_nat (seq 0 16)) [1; 2; 3; 4] (replicate 32 7) 1 5 0 0 0.
Definition demo_locals : locals_t := mk_locals demo_ctx (replicate 32 0) (replicate 32 0) (replicate 48 0).
Definition demo_blob_calls : list seal_call :=
  [CallSeal demo_locals (Some (lit "vault")) (Some [1; 2; 3]) 3 (Some (replicate 40 0)) 40; CallUnseal demo_locals (Some (lit "vault")) (Some (replicate 40 0)) 40 (Some (replicate 40 0)) 40;
   CallSeal demo_locals (Some (lit "vault")) (Some [1; 2; 3]) 3 (Some (replicate 40 0)) 40].

Lemma demo_store_wf : seal_wf demo_store /\ locals_wf demo_locals.
Proof. split; [|split; [split; [done|]|split; [done|]; split; [done|]; split; [done|]]; apply (bool_decide_unpack _); by vm_compute]. repeat split; try done; apply (bool_decide_unpack _); by vm_compute. Qed.

Lemma sealed_blob_opens_witness : exists s' blob, keyseal_seal demo_store demo_locals (Some (lit "vault")) (Some [7; 8; 9]) 3 (Some (replicate 40 0)) 40 = Some (27, s', Some blob) /\
  exists s3, keyseal_unseal demo_store demo_locals (Some (lit "vault")) (Some blob) 27 (Some (replicate 10 0)) 10 = Some (3, s3, Some [7; 8; 9; 0; 0; 0; 0; 0; 0; 0]).
Proof.
  destruct demo_store_wf as [Hs Hl]. assert (Hv : Forall is_u8 (lit "vault")) by (apply (bool_decide_unpack _); by vm_compute). assert (Hc : (length (cstr (lit "vault")) <= 32)%nat) by (apply (bool_decide_unpack _); by vm_compute).
  assert (Hp : Forall is_u8 [7; 8; 9]) by (apply (bool_decide_unpack _); by vm_compute). assert (Ho : Forall is_u8 (replicate 40 0)) by (apply (bool_decide_unpack _); by vm_compute).
  destruct (sealed_blob_opens demo_store demo_store demo_locals demo_locals (lit "vault") (lit "vault") [7; 8; 9] (replicate 40 0) (replicate 10 0) Hs Hs (conj eq_refl eq_refl) eq_refl eq_refl Hl Hl Hv Hv Hc Hc Hp Ho)
    as (s' & blob & E & _ & _ & (s3 & E3) & _); [apply (bool_decide_unpack _); by vm_compute..|].
  exists s', blob. split; [exact E|]. exists s3. exact E3.
Defined.

Lemma seal_nonces_distinct_witness : exists s' n1 n2, run_calls demo_store demo_blob_calls = Some (s', [n1; n2]) /\ n1 <> n2.
Proof.
  assert (Hc : exists s' n1 n2, run_calls demo_store demo_blob_calls = Some (s', [n1; n2])) by (eexists _, _, _; vm_compute; reflexivity).
  destruct Hc as (s' & n1 & n2 & E). exists s', n1, n2. split; [exact E|].
  pose proof (seal_nonces_distinct demo_store s' demo_blob_calls [n1; n2] (conj (Zle_bool_imp_le 0 5 eq_refl) eq_refl) eq_refl E) as H. intros ->. apply NoDup_cons in H as [H _]. apply H. by left.
Defined.
