(* ===== verification/X25519.v ===== *)
(** * X25519 of kernel/x25519.c

    Field elements are eight 32-bit limbs, lowest first; [mont_sub] is the borrow loop and
    [mul_rows] the schoolbook product of BigInt, which this file writes out again.  The
    elements a step only uses as scratch stay in the workspace of the caller; they are
    values here, and what the call leaves in the workspace is not described.  Every
    function may be called with its output as an input: each limb is read before it is
    written. *)

From Stdlib Require Import ZArith Lia.
From stdpp Require Import base numbers option tactics list.
From S2P Require Import Prelude Bytes NetBuf NetSum BigInt BigIntMod BigIntBytes IoPorts.

Definition X25519_KEY_LENGTH : Z := 32.
Definition X25519_WORKSPACE_LIMBS : Z := 136.
Definition X25519_LIMBS : nat := 8.

(** [x += v; out[i] = (uint32_t)x; x >>= 32] over the values [v]. *)
Fixpoint carry_row (vs : list Z) (x : Z) : list Z * Z :=
  match vs with
  | [] => ([], x)
  | v :: vs => let x := u64 (x + v) in let '(r, c) := carry_row vs (Z.shiftr x 32) in (u32 x :: r, c)
  end.

(** One of the two rounds of [fe_fold]. *)
Definition fold_round (out : list Z) (carry : Z) : list Z * Z :=
  match out with
  | [] => ([], carry)
  | v :: out =>
      let x := u64 (v + u64 (carry * 38)) in
      let '(r, c) := carry_row out (Z.shiftr x 32) in (u32 x :: r, u32 c)
  end.
Definition fe_fold (out : list Z) (carry : Z) : list Z :=
  let '(out, carry) := fold_round out carry in fst (fold_round out carry).

Definition fe_add (a b : list Z) : list Z :=
  let '(out, x) := carry_row (zip_with (fun a b => u64 (a + b)) a b) 0 in fe_fold out (u32 x).

(** One of the two rounds of [fe_sub] after the difference: 38 off for the borrow. *)
Definition sub_round (out : list Z) (borrow : Z) : list Z * Z := mont_sub out (u64 (borrow * 38) :: replicate 7 0) 0.
Definition fe_sub (a b : list Z) : list Z :=
  let '(out, borrow) := mont_sub a b 0 in
  let '(out, borrow) := sub_round out borrow in
  fst (sub_round out borrow).

Definition fe_mul (a b : list Z) : list Z :=
  let r := mul_rows a b (replicate (2 * X25519_LIMBS) 0) in
  let '(out, x) := carry_row (zip_with (fun lo hi => u64 (lo + u64 (hi * 38))) (take X25519_LIMBS r) (drop X25519_LIMBS r)) 0 in
  fe_fold out (u32 x).

Definition fe_p : list Z := [4294967277; 4294967295; 4294967295; 4294967295; 4294967295; 4294967295; 4294967295; 2147483647].
Definition canon_round (v : list Z) : list Z :=
  let '(t, borrow) := mont_sub v fe_p 0 in
  let mask := u32 (borrow - 1) in
  zip_with (fun t v => Z.lor (Z.land t mask) (Z.land v (u32 (Z.lnot mask)))) t v.
Definition fe_canon (v : list Z) : list Z := canon_round (canon_round v).

Definition fe_swap (a b : list Z) (swap : Z) : list Z * list Z :=
  let mask := u32 (0 - swap) in
  let d := zip_with (fun a b => Z.land mask (Z.lxor a b)) a b in
  (zip_with Z.lxor a d, zip_with Z.lxor b d).

Definition fe_one : list Z := 1 :: replicate 7 0.
Definition fe_zero : list Z := replicate 8 0.

(** The bits of 2^255 - 21, as the test of the loop has them. *)
Definition exponent_bit (b : nat) : bool := ((5 <=? b) && (b <=? 254) || (b =? 3) || (b =? 1) || (b =? 0))%nat.
(** [bit] counts down; [b = bit - 1]. *)
Fixpoint invert_loop (bit : nat) (z result : list Z) : list Z :=
  match bit with
  | O => result
  | S b =>
      let result := fe_mul result result in
      invert_loop b z (if exponent_bit b then fe_mul result z else result)
  end.
Definition fe_invert (z : list Z) : list Z := invert_loop 256 z fe_one.

(** ** The ladder *)

Definition a24 : list Z := 121665 :: replicate 7 0.

Record ladder_t := mk_ladder { ld_x2 : list Z; ld_z2 : list Z; ld_x3 : list Z; ld_z3 : list Z; ld_swap : Z }.

Definition ladder_step (x1 : list Z) (s : ladder_t) (current : Z) : ladder_t :=
  let swap := Z.lxor (ld_swap s) current in
  let '(x2, x3) := fe_swap (ld_x2 s) (ld_x3 s) swap in
  let '(z2, z3) := fe_swap (ld_z2 s) (ld_z3 s) swap in
  let a := fe_add x2 z2 in let aa := fe_mul a a in
  let b := fe_sub x2 z2 in let bb := fe_mul b b in
  let e := fe_sub aa bb in
  let c := fe_add x3 z3 in let d := fe_sub x3 z3 in
  let da := fe_mul d a in let cb := fe_mul c b in
  let t0 := fe_add da cb in let x3 := fe_mul t0 t0 in
  let t0 := fe_sub da cb in let t1 := fe_mul t0 t0 in let z3 := fe_mul x1 t1 in
  let x2 := fe_mul aa bb in
  let t0 := fe_mul e a24 in let t0 := fe_add aa t0 in let z2 := fe_mul e t0 in
  mk_ladder x2 z2 x3 z3 current.

(** [(k[(bit - 1) / 8] >> ((bit - 1) & 7)) & 1] *)
Definition scalar_bit (k : bytes) (b : nat) : option Z :=
  v ← ld k (Z.of_nat b / 8); Some (Z.land (Z.shiftr v (Z.land (Z.of_nat b) 7)) 1).

(** [bit] counts down from 255. *)
Fixpoint ladder_loop (bit : nat) (k : bytes) (x1 : list Z) (s : ladder_t) : option ladder_t :=
  match bit with
  | O => Some s
  | S b => current ← scalar_bit k b; ladder_loop b k x1 (ladder_step x1 s current)
  end.

(** [k[0] &= 248; k[31] &= 127; k[31] |= 64] *)
Definition clamp (k : bytes) : option bytes :=
  k0 ← ld k 0; k ← st k 0 (Z.land k0 248);
  k31 ← ld k 31; k ← st k 31 (Z.land k31 127);
  k31 ← ld k 31; st k 31 (Z.lor k31 64).

Fixpoint load_limbs (n : nat) (u : bytes) : list Z :=
  match n, u with
  | S n, b0 :: b1 :: b2 :: b3 :: u => Z.lor (Z.lor (Z.lor b0 (Z.shiftl b1 8)) (Z.shiftl b2 16)) (u32 (Z.shiftl b3 24)) :: load_limbs n u
  | _, _ => []
  end.

Definition store_limbs (l : list Z) : bytes := concat (map (fun x => [u8 x; u8 (Z.shiftr x 8); u8 (Z.shiftr x 16); u8 (Z.shiftr x 24)]) l).

(** The answer and the output buffer after the call. *)
Definition x25519_scalar_mult (output scalar u workspace : ptr bytes) (workspace_length : Z) : option (Z * ptr bytes) :=
  match output, scalar, u, workspace with
  | Some out, Some scalar, Some u, Some _ =>
      if workspace_length <? X25519_WORKSPACE_LIMBS then Some (-1, output)
      else
        k ← ld_bytes scalar 0 X25519_KEY_LENGTH;
        k ← clamp k;
        u ← ld_bytes u 0 X25519_KEY_LENGTH;
        let x1 := load_limbs X25519_LIMBS u in
        x17 ← ld x1 7;
        x1 ← st x1 7 (Z.land x17 2147483647);
        s ← ladder_loop 255 k x1 (mk_ladder fe_one fe_zero x1 fe_one 0);
        let '(x2, _) := fe_swap (ld_x2 s) (ld_x3 s) (ld_swap s) in
        let '(z2, _) := fe_swap (ld_z2 s) (ld_z3 s) (ld_swap s) in
        let x2 := fe_canon (fe_mul x2 (fe_invert z2)) in
        out ← st_bytes out 0 (store_limbs x2);
        Some (0, Some out)
  | _, _, _, _ => Some (-1, output)
  end.

Definition x25519_public_key (output private_key workspace : ptr bytes) (workspace_length : Z) : option (Z * ptr bytes) :=
  x25519_scalar_mult output private_key (Some (9 :: replicate 31 0)) workspace workspace_length.

Definition x25519_shared_secret (output private_key peer_public workspace : ptr bytes) (workspace_length : Z) : option (Z * ptr bytes) :=
  '(status, output) ← x25519_scalar_mult output private_key peer_public workspace workspace_length;
  if negb (status =? 0) then Some (status, output)
  else
    o ← ld_bytes (default [] output) 0 X25519_KEY_LENGTH;
    let difference := foldl Z.lor 0 o in
    Some (if difference =? 0 then -9 else 0, output).

(** * X25519 is the function of RFC 7748

    The function of the RFC over the integers modulo 2^255 - 19, and the proof that the
    limbs of the code compute it. *)

(** ** RFC 7748, section 5 *)

Definition p25519 : Z := 2 ^ 255 - 19.

(** Little-endian numbers. *)
Fixpoint le_val (b : bytes) : Z := match b with [] => 0 | x :: b => x + 256 * le_val b end.
Fixpoint le_encode (n : nat) (v : Z) : bytes := match n with O => [] | S n => v mod 256 :: le_encode n (v / 256) end.

Definition decode_scalar (k : bytes) : bytes :=
  <[31%nat := Z.lor (Z.land (default 0 (k !! 31%nat)) 127) 64]> (<[0%nat := Z.land (default 0 (k !! 0%nat)) 248]> k).
Definition decode_u (u : bytes) : Z := le_val u mod 2 ^ 255.

Definition fadd (a b : Z) : Z := (a + b) mod p25519.
Definition fsub (a b : Z) : Z := (a - b) mod p25519.
Definition fmul (a b : Z) : Z := (a * b) mod p25519.
Definition cswap (swap : bool) (a b : Z) : Z * Z := if swap then (b, a) else (a, b).

Record rfc_t := mk_rfc { r_x2 : Z; r_z2 : Z; r_x3 : Z; r_z3 : Z; r_swap : bool }.

Definition rfc_step (x1 : Z) (s : rfc_t) (kt : bool) : rfc_t :=
  let swap := xorb (r_swap s) kt in
  let '(x2, x3) := cswap swap (r_x2 s) (r_x3 s) in
  let '(z2, z3) := cswap swap (r_z2 s) (r_z3 s) in
  let A := fadd x2 z2 in let AA := fmul A A in
  let B := fsub x2 z2 in let BB := fmul B B in
  let E := fsub AA BB in
  let C := fadd x3 z3 in let D := fsub x3 z3 in
  let DA := fmul D A in let CB := fmul C B in
  mk_rfc (fmul AA BB) (fmul E (fadd AA (fmul 121665 E)))
    (fmul (fadd DA CB) (fadd DA CB)) (fmul x1 (fmul (fsub DA CB) (fsub DA CB))) kt.

(** t = 254 down to 0. *)
Fixpoint rfc_ladder (t : nat) (k x1 : Z) (s : rfc_t) : rfc_t :=
  match t with O => s | S t => rfc_ladder t k x1 (rfc_step x1 s (Z.testbit k (Z.of_nat t))) end.

Definition X25519 (scalar u : bytes) : bytes :=
  let x1 := decode_u u in
  let s := rfc_ladder 255 (le_val (decode_scalar scalar)) x1 (mk_rfc 1 0 x1 1 false) in
  let '(x2, _) := cswap (r_swap s) (r_x2 s) (r_x3 s) in
  let '(z2, _) := cswap (r_swap s) (r_z2 s) (r_z3 s) in
  le_encode 32 ((x2 * z2 ^ (p25519 - 2)) mod p25519).

(** ** Field elements *)

Definition fe_ok (l : list Z) : Prop := length l = 8%nat /\ Forall is_u32 l.
(** [l] stands for [v] modulo the prime. *)
Definition fe_rep (l : list Z) (v : Z) : Prop := fe_ok l /\ eval l mod p25519 = v mod p25519.

Lemma p_pos : 0 < p25519.
Proof. done. Qed.
Lemma pow_8 : pow_b 8 = 2 * p25519 + 38.
Proof. done. Qed.

Lemma fe_bound l : fe_ok l -> 0 <= eval l < 2 * p25519 + 38.
Proof. intros [L U]. pose proof (eval_bound l U) as H. rewrite L, pow_8 in H. exact H. Qed.

Lemma carry_row_spec vs : forall x, Forall (fun v => 0 <= v < 2 ^ 40) vs -> 0 <= x < B ->
  exists r c, carry_row vs x = (r, c) /\ length r = length vs /\ Forall is_u32 r /\ 0 <= c < B /\ eval r + pow_b (length vs) * c = eval vs + x.
Proof.
  induction vs as [|v vs IH]; intros x Hv Hx; cbn [carry_row length eval].
  { exists [], x. split; [done|]. split; [done|]. split; [constructor|]. split; [done|]. rewrite pow_b_0. cbn. lia. }
  apply Forall_cons in Hv as [Hv Hvs]. change (2 ^ 40) with 1099511627776 in Hv. rewrite u64_id by lia. destruct (split_u64 (x + v)) as (Hu & E & Hs); [lia|].
  destruct (IH (Z.shiftr (x + v) 32) Hvs Hs) as (r & c & -> & Lr & Ur & Hc & Er). exists (u32 (x + v) :: r), c. split; [done|]. split; [cbn [length]; lia|]. split; [by constructor|].
  split; [done|]. cbn [eval]. rewrite pow_b_S. lia.
Qed.

(** One round replaces the carry by 38 times it. *)
Lemma fold_round_spec out carry : fe_ok out -> 0 <= carry < 2 ^ 32 -> exists r c, fold_round out carry = (r, c) /\ fe_ok r /\ 0 <= c < B /\ eval r + pow_b 8 * c = eval out + 38 * carry.
Proof.
  intros [L U] Hc. destruct out as [|v out]; [done|]. unfold fold_round. cbn [length eval] in *. apply Forall_cons in U as [Hv U]. unfold is_u32 in Hv. change (2 ^ 32) with 4294967296 in Hc.
  rewrite (u64_id (carry * 38)), u64_id by lia. destruct (split_u64 (v + carry * 38)) as (Hu & E & Hs); [lia|]. injection L as L.
  destruct (carry_row_spec out (Z.shiftr (v + carry * 38) 32)) as (r & c & -> & Lr & Ur & Hcc & Er); [eapply Forall_impl; [exact U|]; intros z Hz; unfold is_u32 in Hz; change (2 ^ 40) with 1099511627776; lia|done|].
  exists (u32 (v + carry * 38) :: r), (u32 c). split; [done|]. split; [split; [cbn [length]; lia|by constructor]|]. rewrite u32_id by done. split; [done|]. cbn [eval]. rewrite L in Er. change 8%nat with (S 7). rewrite pow_b_S. lia.
Qed.

Lemma fe_fold_spec out carry v : fe_ok out -> 0 <= carry < 2 ^ 32 -> (eval out + pow_b 8 * carry) mod p25519 = v mod p25519 -> fe_rep (fe_fold out carry) v.
Proof.
  intros Ho Hc Hv. unfold fe_fold. destruct (fold_round_spec out carry Ho Hc) as (r & c & -> & Hr & Hcr & E1). pose proof (fe_bound out Ho) as Bo. pose proof (fe_bound r Hr) as Br.
  assert (Hc1 : 0 <= c <= 1) by (rewrite pow_8 in E1; unfold p25519 in *; change (2 ^ 255) with 57896044618658097711785492504343953926634992332820282019728792003956564819968 in *; change (2 ^ 32) with 4294967296 in Hc; lia).
  destruct (fold_round_spec r c Hr) as (r2 & c2 & -> & Hr2 & Hc2 & E2); [change (2 ^ 32) with 4294967296; lia|]. cbn [fst]. split; [done|]. pose proof (fe_bound r2 Hr2) as Br2.
  assert (Hz : c2 = 0) by (rewrite pow_8 in E1, E2; unfold p25519 in *; change (2 ^ 255) with 57896044618658097711785492504343953926634992332820282019728792003956564819968 in *; change (2 ^ 32) with 4294967296 in Hc; lia).
  rewrite <- Hv. rewrite Hz, Z.mul_0_r, Z.add_0_r in E2. rewrite E2. rewrite pow_8 in *.
  replace (eval out + (2 * p25519 + 38) * carry) with (eval r + 38 * c + (2 * carry + 2 * c) * p25519) by lia. rewrite Z.mod_add by (pose proof p_pos; lia). done.
Qed.

Lemma eval_zip (f : Z -> Z -> Z) (g : Z) a b : length a = length b -> Forall2 (fun x y => f x y = x + g * y) a b -> eval (zip_with f a b) = eval a + g * eval b.
Proof. intros _ H. induction H as [|x y a b E _ IH]; cbn [zip_with eval]; [lia|]. rewrite E, IH. lia. Qed.

Lemma zip_u32 (f : Z -> Z -> Z) (P : Z -> Prop) a b : length a = length b -> Forall is_u32 a -> Forall is_u32 b -> (forall x y, is_u32 x -> is_u32 y -> P (f x y)) ->
  Forall P (zip_with f a b) /\ length (zip_with f a b) = length a.
Proof.
  intros L Ha. revert b L. induction Ha as [|x a Hx Ha IH]; intros b L Hb Hf; destruct b as [|y b]; try done; cbn [zip_with length] in *.
  apply Forall_cons in Hb as [Hy Hb]. destruct (IH b) as [H1 H2]; [lia|done|done|]. split; [constructor; auto|lia].
Qed.

Lemma both_u32 (f : Z -> Z -> Z) (R : Z -> Z -> Prop) a b : length a = length b -> Forall is_u32 a -> Forall is_u32 b -> (forall x y, is_u32 x -> is_u32 y -> R x y) -> Forall2 R a b.
Proof.
  intros L Ha. revert b L. induction Ha as [|x a Hx Ha IH]; intros b L Hb Hf; destruct b as [|y b]; try done. apply Forall_cons in Hb as [Hy Hb]. constructor; [auto|]. apply IH; [cbn [length] in L; lia|done|done].
Qed.

Lemma fe_add_spec a b va vb : fe_rep a va -> fe_rep b vb -> fe_rep (fe_add a b) (fadd va vb).
Proof.
  intros [[La Ua] Ea] [[Lb Ub] Eb]. unfold fe_add. set (f := fun a b => u64 (a + b)). assert (Hl : length a = length b) by lia.
  destruct (zip_u32 f (fun v => 0 <= v < 2 ^ 40) a b Hl Ua Ub) as [Hz Lz]; [intros x y Hx Hy; unfold f, is_u32 in *; rewrite u64_id by lia; change (2 ^ 40) with 1099511627776; lia|].
  destruct (carry_row_spec (zip_with f a b) 0 Hz) as (r & c & -> & Lr & Ur & Hc & Er); [lia|]. rewrite u32_id by done. rewrite Lz, La in Lr, Er.
  apply fe_fold_spec; [done|done|]. rewrite Er, (eval_zip f 1 a b) by (done || (apply (both_u32 f); try done; intros x y Hx Hy; unfold f, is_u32 in *; rewrite u64_id by lia; lia)).
  unfold fadd. rewrite Z.mod_mod by done. rewrite Z.mul_1_l, Z.add_0_r. rewrite Z.add_mod, Ea, Eb, <- Z.add_mod by done. done.
Qed.

Lemma fe_mul_spec a b va vb : fe_rep a va -> fe_rep b vb -> fe_rep (fe_mul a b) (fmul va vb).
Proof.
  intros [[La Ua] Ea] [[Lb Ub] Eb]. unfold fe_mul. change (2 * X25519_LIMBS)%nat with (8 + 8)%nat. rewrite replicate_add. change X25519_LIMBS with 8%nat.
  destruct (mul_rows_spec b Ub a (replicate 8 0) 8 Ua) as (Lr & Ur & Er); [apply Forall_replicate; unfold is_u32; lia|rewrite length_replicate; lia|lia|]. rewrite eval_zeros, Z.add_0_l in Er.
  set (r := mul_rows a b (replicate 8 0 ++ replicate 8 0)) in *. clearbody r. rewrite Lb in Lr. set (f := fun lo hi => u64 (lo + u64 (hi * 38))).
  assert (Ll : length (take 8 r) = 8%nat) by (rewrite length_take; lia). assert (Lh : length (drop 8 r) = 8%nat) by (rewrite length_drop; lia).
  assert (Hf : forall x y, is_u32 x -> is_u32 y -> f x y = x + 38 * y) by (intros x y Hx Hy; unfold f, is_u32 in *; rewrite (u64_id (y * 38)), u64_id by lia; lia).
  assert (Hl : length (take 8 r) = length (drop 8 r)) by lia. pose proof (Forall_take _ 8 _ Ur) as Ul. pose proof (Forall_drop _ 8 _ Ur) as Uh.
  destruct (zip_u32 f (fun v => 0 <= v < 2 ^ 40) _ _ Hl Ul Uh) as [Hz Lz]; [intros x y Hx Hy; rewrite Hf by done; unfold is_u32 in *; change (2 ^ 40) with 1099511627776; lia|].
  destruct (carry_row_spec (zip_with f (take 8 r) (drop 8 r)) 0 Hz) as (o & c & -> & Lo & Uo & Hc & Eo); [lia|]. rewrite u32_id by done. rewrite Lz, Ll in Lo, Eo.
  apply fe_fold_spec; [done|done|]. rewrite Eo, (eval_zip f 38) by (done || (apply (both_u32 f); done)).
  assert (Es : eval r = eval (take 8 r) + (2 * p25519 + 38) * eval (drop 8 r)) by (rewrite <- (take_drop 8 r) at 1; by rewrite eval_app, Ll, pow_8).
  unfold fmul. rewrite Z.mod_mod by done. rewrite (Z.mul_mod va vb), <- Ea, <- Eb, <- Z.mul_mod, <- Er, Es by done.
  replace (eval (take 8 r) + (2 * p25519 + 38) * eval (drop 8 r)) with (eval (take 8 r) + 38 * eval (drop 8 r) + 0 + 2 * eval (drop 8 r) * p25519) by ring. rewrite Z.mod_add by done. done.
Qed.

(** The borrow loops. *)
Lemma sub_spec a b : fe_ok a -> fe_ok b -> exists r w, mont_sub a b 0 = (r, w) /\ fe_ok r /\ 0 <= w <= 1 /\ eval r = eval a - eval b + (2 * p25519 + 38) * w.
Proof.
  intros [La Ua] [Lb Ub]. rewrite (mont_sub_row [] [] 0 eq_refl) by (done || lia). destruct (sub_row_spec a b 0) as (r & w & -> & Lr & Ur & Hw & E); [lia|done|done|lia|]. rewrite La, pow_8 in E.
  exists r, w. split; [done|]. split; [split; [lia|done]|]. split; [done|]. lia.
Qed.

Lemma small_fe x : 0 <= x < B -> fe_ok (x :: replicate 7 0) /\ eval (x :: replicate 7 0) = x.
Proof. intros Hx. split; [split; [done|constructor; [done|apply Forall_replicate; unfold is_u32; lia]]|]. cbn [eval]. rewrite eval_zeros. lia. Qed.

Lemma fe_sub_spec a b va vb : fe_rep a va -> fe_rep b vb -> fe_rep (fe_sub a b) (fsub va vb).
Proof.
  intros [Ha Ea] [Hb Eb]. unfold fe_sub, sub_round. destruct (sub_spec a b Ha Hb) as (r & w & -> & Hr & Hw & E1). rewrite (u64_id (w * 38)) by lia.
  destruct (small_fe (w * 38)) as [Hs1 Es1]; [lia|]. destruct (sub_spec r _ Hr Hs1) as (r2 & w2 & -> & Hr2 & Hw2 & E2). rewrite (u64_id (w2 * 38)) by lia.
  destruct (small_fe (w2 * 38)) as [Hs2 Es2]; [lia|]. destruct (sub_spec r2 _ Hr2 Hs2) as (r3 & w3 & -> & Hr3 & Hw3 & E3). cbn [fst]. split; [done|]. rewrite Es1 in E2. rewrite Es2 in E3.
  pose proof (fe_bound _ Ha) as B1. pose proof (fe_bound _ Hb) as B2. pose proof (fe_bound _ Hr) as B3. pose proof (fe_bound _ Hr2) as B4. pose proof (fe_bound _ Hr3) as B5.
  assert (Hz : w3 = 0) by (unfold p25519 in *; change (2 ^ 255) with 57896044618658097711785492504343953926634992332820282019728792003956564819968 in *; lia).
  unfold fsub. rewrite Z.mod_mod by done. rewrite (Zminus_mod va vb), <- Ea, <- Eb, <- Zminus_mod.
  replace (eval r3) with (eval a - eval b + (2 * w + 2 * w2) * p25519) by lia. by rewrite Z.mod_add.
Qed.

(** ** Selection without branches *)

Lemma land_all x : is_u32 x -> Z.land x 4294967295 = x.
Proof. intros Hx. change 4294967295 with (Z.ones 32). rewrite Z.land_ones by lia. by apply u32_id. Qed.

Lemma fe_lxor_u32 x y : is_u32 x -> is_u32 y -> is_u32 (Z.lxor x y).
Proof.
  intros Hx Hy. unfold is_u32 in *. assert (H : Z.lxor x y = Z.lxor x y mod 2 ^ 32).
  { rewrite <- Z.land_ones by lia. apply Z.bits_inj'. intros n Hn. rewrite Z.land_spec, Z.lxor_spec. destruct (Z.ltb_spec n 32); [by rewrite Z.ones_spec_low, andb_true_r by lia|].
    rewrite Z.ones_spec_high, andb_false_r by lia. rewrite <- (Z.mod_small x (2 ^ 32)), <- (Z.mod_small y (2 ^ 32)) by lia. by rewrite !Z.mod_pow2_bits_high by lia. }
  rewrite H. apply Z.mod_pos_bound. lia.
Qed.

Lemma fe_swap_spec a b (s : bool) : fe_ok a -> fe_ok b -> fe_swap a b (Z.b2z s) = if s then (b, a) else (a, b).
Proof.
  intros [La Ua] [Lb Ub]. unfold fe_swap. assert (H : forall x y, is_u32 x -> is_u32 y -> Z.land (u32 (0 - Z.b2z s)) (Z.lxor x y) = if s then Z.lxor x y else 0).
  { intros x y Hx Hy. destruct s; [|done]. change (u32 (0 - Z.b2z true)) with 4294967295. rewrite Z.land_comm. by apply land_all, fe_lxor_u32. }
  assert (Hl : length a = length b) by lia. clear La Lb. revert b Hl Ub. induction Ua as [|x a Hx Ua IH]; intros b Hl Ub; destruct b as [|y b]; try done; [by destruct s|]. apply Forall_cons in Ub as [Hy Ub].
  cbn [zip_with length] in *. specialize (IH b ltac:(lia) Ub). rewrite H by done. pose proof (f_equal fst IH) as I1. pose proof (f_equal snd IH) as I2. cbn [fst snd] in I1, I2. rewrite I1, I2. clear. destruct s; cbn [fst snd].
  - rewrite <- Z.lxor_assoc, Z.lxor_nilpotent, Z.lxor_0_l, (Z.lxor_comm x y), <- Z.lxor_assoc, Z.lxor_nilpotent, Z.lxor_0_l. done.
  - by rewrite !Z.lxor_0_r.
Qed.

Lemma fe_select_spec (w : Z) t v : 0 <= w <= 1 -> fe_ok t -> fe_ok v -> let mask := u32 (w - 1) in
  zip_with (fun t v => Z.lor (Z.land t mask) (Z.land v (u32 (Z.lnot mask)))) t v = if w =? 0 then t else v.
Proof.
  intros Hw [Lt Ut] [Lv Uv] mask. assert (Hl : length t = length v) by lia. clear Lt Lv.
  assert (H : forall x y, is_u32 x -> is_u32 y -> Z.lor (Z.land x mask) (Z.land y (u32 (Z.lnot mask))) = if w =? 0 then x else y).
  { intros x y Hx Hy. subst mask. assert (w = 0 \/ w = 1) as [-> | ->] by lia; cbn [Z.eqb].
    - change (u32 (0 - 1)) with 4294967295. change (u32 (Z.lnot 4294967295)) with 0. by rewrite Z.land_0_r, Z.lor_0_r, land_all.
    - change (u32 (1 - 1)) with 0. change (u32 (Z.lnot 0)) with 4294967295. by rewrite Z.land_0_r, Z.lor_0_l, land_all. }
  clearbody mask. revert v Hl Uv. induction Ut as [|x t Hx Ut IH]; intros v Hl Uv; destruct v as [|y v]; try done; [by destruct (w =? 0)|]. apply Forall_cons in Uv as [Hy Uv]. cbn [zip_with length] in *.
  rewrite IH, H by (done || lia). by destruct (w =? 0).
Qed.

Lemma fe_p_ok : fe_ok fe_p /\ eval fe_p = p25519.
Proof. split; [split; [done|apply (bool_decide_unpack _); by vm_compute]|done]. Qed.

Lemma canon_round_spec v : fe_ok v -> fe_ok (canon_round v) /\ eval (canon_round v) = if eval v <? p25519 then eval v else eval v - p25519.
Proof.
  intros Hv. unfold canon_round. destruct fe_p_ok as [Hp Ep]. destruct (sub_spec v fe_p Hv Hp) as (t & w & -> & Ht & Hw & E). rewrite (fe_select_spec w t v) by done. rewrite Ep in E.
  pose proof (fe_bound v Hv). pose proof (fe_bound t Ht). pose proof p_pos. destruct (Z.eqb_spec w 0) as [->|Hn].
  - split; [done|]. rewrite (proj2 (Z.ltb_ge _ _)) by lia. lia.
  - assert (w = 1) as -> by lia. split; [done|]. rewrite (proj2 (Z.ltb_lt _ _)) by lia. done.
Qed.

Lemma fe_canon_spec v x : fe_rep v x -> fe_ok (fe_canon v) /\ eval (fe_canon v) = x mod p25519.
Proof.
  intros [Hv E]. unfold fe_canon. destruct (canon_round_spec v Hv) as [H1 E1]. destruct (canon_round_spec _ H1) as [H2 E2]. split; [done|]. rewrite E2, E1, <- E. pose proof (fe_bound v Hv).
  assert (38 < p25519) by done. pose proof p_pos.
  destruct (Z.ltb_spec (eval v) p25519); [rewrite (proj2 (Z.ltb_lt _ _)), Z.mod_small by lia; done|]. destruct (Z.ltb_spec (eval v - p25519) p25519).
  - apply (Z.mod_unique _ _ 1); lia.
  - apply (Z.mod_unique _ _ 2); lia.
Qed.

(** ** The inverse *)

Lemma exponent_bits : Forall (fun b => exponent_bit b = Z.testbit (p25519 - 2) (Z.of_nat b)) (seq 0 256).
Proof. apply (bool_decide_unpack _). by vm_compute. Qed.

Lemma exponent_step b : 0 <= b -> (p25519 - 2) / 2 ^ b = 2 * ((p25519 - 2) / 2 ^ (b + 1)) + Z.b2z (Z.testbit (p25519 - 2) b).
Proof. intros Hb. rewrite Z.pow_add_r by lia. rewrite <- Z.div_div by lia. rewrite Z.testbit_spec' by lia. change (2 ^ 1) with 2. apply Z.div_mod. lia. Qed.

Lemma invert_loop_spec z v bit : fe_rep z v -> forall r, (bit <= 256)%nat -> fe_rep r (v ^ ((p25519 - 2) / 2 ^ Z.of_nat bit)) -> fe_rep (invert_loop bit z r) (v ^ (p25519 - 2)).
Proof.
  intros Hz. induction bit as [|b IH]; intros r Hb Hr; cbn [invert_loop]; [by rewrite Z.pow_0_r, Z.div_1_r in Hr|]. apply IH; [lia|].
  set (q := (p25519 - 2) / 2 ^ Z.of_nat (S b)) in *. assert (Hq : 0 <= q) by (apply Z.div_pos; done || lia).
  pose proof exponent_bits as Hbits. rewrite Forall_forall in Hbits. rewrite (Hbits b) by (apply elem_of_seq; lia). rewrite (exponent_step (Z.of_nat b)) by lia.
  replace (Z.of_nat b + 1) with (Z.of_nat (S b)) by lia. fold q. pose proof (fe_mul_spec _ _ _ _ Hr Hr) as H2.
  assert (E2 : fe_rep (fe_mul r r) (v ^ (2 * q))) by (destruct H2 as [H2 E2]; split; [done|]; rewrite E2; unfold fmul; rewrite Z.mod_mod, <- Z.pow_add_r by (done || lia); f_equal; f_equal; lia).
  destruct (Z.testbit (p25519 - 2) (Z.of_nat b)); cbn [Z.b2z]; [|by rewrite Z.add_0_r]. destruct (fe_mul_spec _ _ _ _ E2 Hz) as [H3 E3]. split; [done|]. rewrite E3. unfold fmul.
  rewrite Z.mod_mod by done. rewrite Z.pow_add_r, Z.pow_1_r by lia. done.
Qed.

Lemma fe_one_rep : fe_rep fe_one 1.
Proof. destruct (small_fe 1) as [H E]; [lia|]. split; [exact H|]. unfold fe_one. by rewrite E. Qed.
Lemma fe_zero_rep : fe_rep fe_zero 0.
Proof. destruct (small_fe 0) as [H E]; [lia|]. split; [exact H|]. unfold fe_zero. change (replicate 8 0) with (0 :: replicate 7 0). by rewrite E. Qed.

Lemma fe_invert_spec z v : fe_rep z v -> fe_rep (fe_invert z) (v ^ (p25519 - 2)).
Proof. intros Hz. apply (invert_loop_spec z v 256); [done|lia|]. change (Z.of_nat 256) with 256. rewrite Z.div_small by done. apply fe_one_rep. Qed.

(** ** The ladder *)

Definition ladder_rep (s : ladder_t) (r : rfc_t) : Prop :=
  fe_rep (ld_x2 s) (r_x2 r) /\ fe_rep (ld_z2 s) (r_z2 r) /\ fe_rep (ld_x3 s) (r_x3 r) /\ fe_rep (ld_z3 s) (r_z3 r) /\ ld_swap s = Z.b2z (r_swap r).

Lemma fe_swap_rep a b va vb (s : bool) : fe_rep a va -> fe_rep b vb ->
  exists a' b', fe_swap a b (Z.b2z s) = (a', b') /\ fe_rep a' (fst (cswap s va vb)) /\ fe_rep b' (snd (cswap s va vb)).
Proof. intros Ha Hb. rewrite fe_swap_spec by (apply Ha || apply Hb). destruct s; by do 2 eexists. Qed.

Lemma ladder_step_spec x1 v1 s r kt : fe_rep x1 v1 -> ladder_rep s r -> ladder_rep (ladder_step x1 s (Z.b2z kt)) (rfc_step v1 r kt).
Proof.
  intros H1 (Hx2 & Hz2 & Hx3 & Hz3 & Hs). unfold ladder_step, rfc_step. rewrite Hs. replace (Z.lxor (Z.b2z (r_swap r)) (Z.b2z kt)) with (Z.b2z (xorb (r_swap r) kt)) by (by destruct (r_swap r), kt).
  destruct (fe_swap_rep _ _ _ _ (xorb (r_swap r) kt) Hx2 Hx3) as (x2 & x3 & -> & Ix2 & Ix3). destruct (fe_swap_rep _ _ _ _ (xorb (r_swap r) kt) Hz2 Hz3) as (z2 & z3 & -> & Iz2 & Iz3).
  destruct (cswap _ (r_x2 r) (r_x3 r)) as [X2 X3], (cswap _ (r_z2 r) (r_z3 r)) as [Z2 Z3]. cbn [fst snd] in *.
  assert (H24 : fe_rep a24 121665) by (destruct (small_fe 121665) as [H E]; [lia|]; split; [exact H|]; unfold a24; by rewrite E).
  split; [|split; [|split; [|split; [|done]]]]; cbn [ld_x2 ld_z2 ld_x3 ld_z3 r_x2 r_z2 r_x3 r_z3].
  - auto using fe_mul_spec, fe_add_spec, fe_sub_spec.
  - replace (fmul 121665 (fsub (fmul (fadd X2 Z2) (fadd X2 Z2)) (fmul (fsub X2 Z2) (fsub X2 Z2)))) with (fmul (fsub (fmul (fadd X2 Z2) (fadd X2 Z2)) (fmul (fsub X2 Z2) (fsub X2 Z2))) 121665) by (unfold fmul; f_equal; ring).
    auto 10 using fe_mul_spec, fe_add_spec, fe_sub_spec.
  - auto 10 using fe_mul_spec, fe_add_spec, fe_sub_spec.
  - auto 10 using fe_mul_spec, fe_add_spec, fe_sub_spec.
Qed.

(** ** Bytes *)

Lemma le_val_range b : Forall is_u8 b -> 0 <= le_val b < 256 ^ Z.of_nat (length b).
Proof. induction 1 as [|x b Hx _ IH]; cbn [le_val length]; [done|]. rewrite Nat2Z.inj_succ, Z.pow_succ_r by lia. unfold is_u8 in Hx. lia. Qed.

Lemma le_val_bit b : Forall is_u8 b -> forall n, Z.testbit (le_val b) (Z.of_nat n) = Z.testbit (default 0 (b !! (n / 8)%nat)) (Z.of_nat (n mod 8)).
Proof.
  induction 1 as [|x b Hx Hb IH]; intros n; cbn [le_val]; [by rewrite lookup_nil, !Z.bits_0|]. unfold is_u8 in Hx. destruct (Nat.ltb_spec n 8) as [Hn|Hn].
  - rewrite Nat.div_small, Nat.mod_small by lia. cbn [lookup list_lookup default from_option id]. rewrite <- (Z.mod_pow2_bits_low _ 8) by lia. rewrite Z.add_comm, Z.mul_comm, Z.add_comm.
    change (2 ^ 8) with 256. rewrite Z.mod_add, Z.mod_small by lia. done.
  - replace (Z.of_nat n) with (Z.of_nat (n - 8) + 8) by lia. rewrite <- Z.div_pow2_bits by lia. change (2 ^ 8) with 256. rewrite Z.add_comm, (Z.mul_comm 256), Z.div_add_l, (Z.div_small x), Z.add_0_r by lia.
    rewrite IH. replace (n / 8)%nat with (S ((n - 8) / 8)) by (pose proof (Nat.div_add (n - 8) 1 8); replace (n - 8 + 1 * 8)%nat with n in * by lia; lia). cbn [lookup list_lookup].
    replace (n mod 8)%nat with ((n - 8) mod 8)%nat; [done|]. pose proof (Nat.Div0.mod_add (n - 8) 1 8) as E. by replace (n - 8 + 1 * 8)%nat with n in E by lia.
Qed.

Lemma scalar_bit_spec k b : Forall is_u8 k -> length k = 32%nat -> (b < 256)%nat -> scalar_bit k b = Some (Z.b2z (Z.testbit (le_val k) (Z.of_nat b))).
Proof.
  intros Hk Hl Hb. unfold scalar_bit, ld. rewrite (proj2 (Z.leb_le 0 _)) by zlia. replace (Z.to_nat (Z.of_nat b / 8)) with (b / 8)%nat by (change 8 with (Z.of_nat 8); rewrite <- Nat2Z.inj_div, Nat2Z.id; done).
  assert (Hd : (b / 8 < 32)%nat) by (apply Nat.Div0.div_lt_upper_bound; lia). destruct (lookup_lt_is_Some_2 k (b / 8)) as [v Hv]; [lia|]. rewrite Hv, some_bind. f_equal.
  rewrite le_val_bit, Hv by done. cbn [default from_option id]. change 1 with (Z.ones 1). rewrite Z.land_ones by lia. change (2 ^ 1) with 2. change (Z.land (Z.of_nat b) 7) with (Z.land (Z.of_nat b) (Z.ones 3)).
  rewrite Z.land_ones by lia. rewrite <- Z.bit0_mod, Z.shiftr_spec, Z.add_0_l by lia. change (2 ^ 3) with (Z.of_nat 8). by rewrite <- Nat2Z.inj_mod.
Qed.

Lemma ladder_loop_spec k x1 v1 bit : Forall is_u8 k -> length k = 32%nat -> fe_rep x1 v1 -> (bit <= 256)%nat -> forall s r, ladder_rep s r ->
  exists s', ladder_loop bit k x1 s = Some s' /\ ladder_rep s' (rfc_ladder bit (le_val k) v1 r).
Proof.
  intros Hk Hl H1. induction bit as [|b IH]; intros Hb s r Hs; cbn [ladder_loop rfc_ladder]; [by exists s|]. rewrite scalar_bit_spec by (done || lia). rewrite some_bind. apply IH; [lia|]. by apply ladder_step_spec.
Qed.

Lemma lor_add x y n : 0 <= n -> 0 <= x < 2 ^ n -> 0 <= y -> Z.lor x (y * 2 ^ n) = x + y * 2 ^ n.
Proof.
  intros Hn Hx Hy. assert (E : Z.land x (y * 2 ^ n) = 0).
  { apply Z.bits_inj'. intros i Hi. rewrite Z.land_spec, Z.bits_0, <- Z.shiftl_mul_pow2 by lia. destruct (Z.ltb_spec i n); [by rewrite Z.shiftl_spec_low, andb_false_r by lia|].
    rewrite <- (Z.mod_small x (2 ^ n)), Z.mod_pow2_bits_high by lia. done. }
  pose proof (Z.add_lor_land x (y * 2 ^ n)) as H. rewrite E in H. lia.
Qed.

Lemma load_limb b0 b1 b2 b3 : is_u8 b0 -> is_u8 b1 -> is_u8 b2 -> is_u8 b3 ->
  Z.lor (Z.lor (Z.lor b0 (Z.shiftl b1 8)) (Z.shiftl b2 16)) (u32 (Z.shiftl b3 24)) = b0 + 256 * (b1 + 256 * (b2 + 256 * b3)).
Proof.
  unfold is_u8. intros. rewrite !Z.shiftl_mul_pow2, u32_id by (lia || (unfold is_u32; change (2 ^ 24) with 16777216; lia)). rewrite (lor_add b0 b1 8) by (change (2 ^ 8) with 256; lia).
  rewrite (lor_add _ b2 16) by (change (2 ^ 8) with 256; change (2 ^ 16) with 65536; lia). rewrite (lor_add _ b3 24) by (change (2 ^ 8) with 256; change (2 ^ 16) with 65536; change (2 ^ 24) with 16777216; lia).
  change (2 ^ 8) with 256. change (2 ^ 16) with 65536. change (2 ^ 24) with 16777216. lia.
Qed.

Lemma load_limbs_spec n : forall u, Forall is_u8 u -> length u = (4 * n)%nat -> length (load_limbs n u) = n /\ Forall is_u32 (load_limbs n u) /\ eval (load_limbs n u) = le_val u.
Proof.
  induction n as [|n IH]; intros u Hu Hl; [destruct u; [|done]; split; [done|]; split; [constructor|done]|]. do 4 (destruct u as [|? u]; [cbn [length] in Hl; lia|]). rename z into b0, z0 into b1, z1 into b2, z2 into b3.
  rewrite !Forall_cons in Hu. destruct Hu as (H0 & H1 & H2 & H3 & Hu). cbn [load_limbs length eval le_val] in *. destruct (IH u Hu) as (L & U & E); [lia|]. rewrite load_limb by done.
  split; [lia|]. split; [constructor; [unfold is_u8, is_u32 in *; lia|done]|]. rewrite E. ring.
Qed.

Lemma land_low x n : 0 <= n -> Z.land x (2 ^ n - 1) = x mod 2 ^ n.
Proof. intros Hn. replace (2 ^ n - 1) with (Z.ones n) by (rewrite Z.ones_equiv; lia). by rewrite Z.land_ones by lia. Qed.

Lemma mask_top l : length l = 8%nat -> Forall is_u32 l -> exists x7, ld l 7 = Some x7 /\ exists l', st l 7 (Z.land x7 2147483647) = Some l' /\ fe_ok l' /\ eval l' = eval l mod 2 ^ 255.
Proof.
  intros L U. do 8 (destruct l as [|? l]; [done|]). destruct l; [|done]. rename z into a0, z0 into a1, z1 into a2, z2 into a3, z3 into a4, z4 into a5, z5 into a6, z6 into a7.
  exists a7. split; [done|]. exists [a0; a1; a2; a3; a4; a5; a6; Z.land a7 2147483647]. split; [done|]. rewrite !Forall_cons in U. destruct U as (H0 & H1 & H2 & H3 & H4 & H5 & H6 & H7 & _). pose proof (land_low a7 31 ltac:(lia)) as E. change (2 ^ 31 - 1) with 2147483647 in E.
  change (2 ^ 31) with 2147483648 in E. rewrite E. unfold is_u32 in *. split.
  - split; [done|]. repeat (constructor; [unfold is_u32; zlia|]). constructor.
  - pose proof (Z.div_mod a7 2147483648 ltac:(lia)) as Ed. pose proof (Z.mod_pos_bound a7 2147483648 ltac:(lia)) as Hm. set (q := a7 / 2147483648) in *. set (m := a7 mod 2147483648) in *. clearbody q m.
    cbn [eval]. apply (Z.mod_unique _ _ q); change (2 ^ 255) with 57896044618658097711785492504343953926634992332820282019728792003956564819968; [left|]; lia.
Qed.

Lemma fe_land_u8 a b : is_u8 a -> 0 <= b -> is_u8 (Z.land a b).
Proof. intros Ha Hb. apply is_u8_bits; [apply Z.land_nonneg; right; done|]. intros i Hi. by rewrite Z.land_spec, (u8_high a). Qed.

Lemma clamp_spec k : length k = 32%nat -> Forall is_u8 k -> clamp k = Some (decode_scalar k) /\ length (decode_scalar k) = 32%nat /\ Forall is_u8 (decode_scalar k).
Proof.
  intros L U. do 32 (destruct k as [|? k]; [done|]). destruct k; [|done]. split; [done|]. split; [done|]. unfold decode_scalar. rewrite Forall_lookup in U.
  apply Forall_insert; [apply Forall_insert; [by apply Forall_lookup|]|].
  - apply fe_land_u8; [by apply (U 0%nat)|lia].
  - assert (H : is_u8 (default 0 (Some z30))) by (by apply (U 31%nat)). cbn in H |- *. apply (lor_range 8); [lia|pose proof (fe_land_u8 z30 127 H); unfold is_u8 in *; change (2 ^ 8) with 256; lia|done].
Qed.

Lemma le_encode_app n m v : le_encode (n + m) v = le_encode n v ++ le_encode m (v / 256 ^ Z.of_nat n).
Proof.
  revert v. induction n as [|n IH]; intros v; cbn [le_encode Nat.add app]; [by rewrite Z.div_1_r|]. rewrite IH. f_equal. f_equal. f_equal. rewrite Nat2Z.inj_succ, Z.pow_succ_r by lia. rewrite Z.div_div by (try apply Z.pow_pos_nonneg; lia). done.
Qed.

Lemma store_limbs_spec l : Forall is_u32 l -> store_limbs l = le_encode (4 * length l) (eval l).
Proof.
  induction 1 as [|x l Hx _ IH]; [done|]. unfold store_limbs in *. cbn [map concat length eval]. rewrite IH. replace (4 * S (length l))%nat with (4 + 4 * length l)%nat by lia. rewrite le_encode_app.
  change (256 ^ Z.of_nat 4) with B. f_equal.
  - cbn [le_encode]. unfold u8, is_u32 in *. rewrite !Z.shiftr_div_pow2 by lia. change (2 ^ 8) with 256. change (2 ^ 16) with 65536. change (2 ^ 24) with 16777216. repeat (f_equal; [zlia|]). f_equal. zlia.
  - f_equal. unfold is_u32 in Hx. rewrite Z.mul_comm, Z.div_add, Z.div_small by lia. done.
Qed.

Lemma le_encode_length n v : length (le_encode n v) = n.
Proof. revert v. induction n as [|n IH]; intros v; cbn [le_encode length]; [done|]. by rewrite IH. Qed.

(** ** The whole function *)

Lemma scalar_mult_spec out scalar u ws n : length scalar = 32%nat -> Forall is_u8 scalar -> length u = 32%nat -> Forall is_u8 u -> (32 <= length out)%nat -> 136 <= n ->
  x25519_scalar_mult (Some out) (Some scalar) (Some u) (Some ws) n = Some (0, Some (patch out 0 (X25519 scalar u))).
Proof.
  intros Ls Us Lu Uu Lo Hn. unfold x25519_scalar_mult, X25519_WORKSPACE_LIMBS, X25519_KEY_LENGTH. rewrite (proj2 (Z.ltb_ge n 136)) by lia. rewrite (ld_bytes_ok scalar 0 32) by (unfold blen; lia). rewrite some_bind, Z2Nat.inj_0, drop_0.
  change (Z.to_nat 32) with 32%nat. rewrite (take_ge scalar) by lia. destruct (clamp_spec scalar Ls Us) as (-> & Lk & Uk). rewrite some_bind, (ld_bytes_ok u 0 32) by (unfold blen; lia). rewrite some_bind, Z2Nat.inj_0, drop_0.
  change (Z.to_nat 32) with 32%nat. rewrite (take_ge u) by lia. destruct (load_limbs_spec 8 u Uu) as (L8 & U8 & E8); [lia|]. change X25519_LIMBS with 8%nat.
  destruct (mask_top _ L8 U8) as (x7 & -> & l' & El & Hl' & Ev). rewrite some_bind, El, some_bind. rewrite E8 in Ev.
  assert (H1 : fe_rep l' (decode_u u)) by (split; [done|by rewrite Ev]).
  destruct (ladder_loop_spec (decode_scalar scalar) l' (decode_u u) 255 Uk Lk H1 ltac:(lia) (mk_ladder fe_one fe_zero l' fe_one 0) (mk_rfc 1 0 (decode_u u) 1 false)) as (s & -> & Hr);
    [split; [apply fe_one_rep|]; split; [apply fe_zero_rep|]; split; [done|]; split; [apply fe_one_rep|done]|].
  rewrite some_bind. unfold X25519. set (r := rfc_ladder 255 _ _ _) in *. clearbody r. destruct Hr as (Hx2 & Hz2 & Hx3 & Hz3 & Hs). rewrite Hs.
  destruct (fe_swap_rep _ _ _ _ (r_swap r) Hx2 Hx3) as (x2 & x3 & -> & Ix2 & _). destruct (fe_swap_rep _ _ _ _ (r_swap r) Hz2 Hz3) as (z2 & z3 & -> & Iz2 & _).
  destruct (cswap _ (r_x2 r) (r_x3 r)) as [X2 X3], (cswap _ (r_z2 r) (r_z3 r)) as [Z2 Z3]. cbn [fst] in *.
  pose proof (fe_mul_spec _ _ _ _ Ix2 (fe_invert_spec _ _ Iz2)) as Hm. destruct (fe_canon_spec _ _ Hm) as [[Lc Uc] Ec]. unfold fmul in Ec. rewrite Z.mod_mod in Ec by done.
  rewrite store_limbs_spec, Ec, Lc by done. change (4 * 8)%nat with 32%nat. rewrite st_bytes_ok by (unfold blen; rewrite ?le_encode_length; lia). reflexivity.
Qed.

Lemma foldl_lor_zero l : Forall is_u8 l -> forall a, 0 <= a -> foldl Z.lor a l = 0 <-> a = 0 /\ l = replicate (length l) 0.
Proof.
  induction 1 as [|x l Hx _ IH]; intros a Ha; cbn [foldl length replicate]; [tauto|]. unfold is_u8 in Hx. rewrite IH by (apply Z.lor_nonneg; lia). rewrite Z.lor_eq_0_iff. split; [intros [[-> ->] E]; by rewrite <- E|].
  intros [-> [= -> E]]. by rewrite <- E.
Qed.

Lemma le_encode_u8 n v : Forall is_u8 (le_encode n v).
Proof. revert v. induction n as [|n IH]; intros v; cbn [le_encode]; constructor; [unfold is_u8; zlia|done]. Qed.

Lemma X25519_bytes k u : length (X25519 k u) = 32%nat /\ Forall is_u8 (X25519 k u).
Proof. unfold X25519. destruct (cswap _ _ _) as [? ?], (cswap _ _ _) as [? ?]. split; [apply le_encode_length|apply le_encode_u8]. Qed.

(** C15. X25519: for every scalar and coordinate of 32 bytes the limb arithmetic and the
    ladder of the code write the result of the function X25519 of RFC 7748 and nothing
    else; the public key is the function at 9; the shared secret is accepted exactly when
    it is not all zeros; a workspace that is too short is refused. *)
Theorem x25519_is_rfc7748 out scalar u ws n : length scalar = 32%nat -> Forall is_u8 scalar -> length u = 32%nat -> Forall is_u8 u -> (32 <= length out)%nat ->
  x25519_scalar_mult (Some out) (Some scalar) (Some u) (Some ws) n = Some (if n <? 136 then (-1, Some out) else (0, Some (patch out 0 (X25519 scalar u)))) /\
  (136 <= n -> x25519_public_key (Some out) (Some scalar) (Some ws) n = Some (0, Some (patch out 0 (X25519 scalar (9 :: replicate 31 0)))) /\
    x25519_shared_secret (Some out) (Some scalar) (Some u) (Some ws) n =
      Some (if bool_decide (X25519 scalar u = replicate 32 0) then -9 else 0, Some (patch out 0 (X25519 scalar u)))).
Proof.
  intros Ls Us Lu Uu Lo. split; [|intros Hn; split].
  - destruct (Z.ltb_spec n 136) as [Hn|Hn]; [|by apply scalar_mult_spec]. unfold x25519_scalar_mult, X25519_WORKSPACE_LIMBS. by rewrite (proj2 (Z.ltb_lt n 136)).
  - apply scalar_mult_spec; try done. constructor; [unfold is_u8; lia|]. apply Forall_replicate. unfold is_u8. lia.
  - unfold x25519_shared_secret. rewrite scalar_mult_spec by done. rewrite some_bind. cbn [Z.eqb negb default from_option id]. unfold X25519_KEY_LENGTH. destruct (X25519_bytes scalar u) as [Lx Ux].
    set (r := X25519 scalar u) in *. clearbody r. rewrite ld_bytes_ok by (unfold blen; try rewrite patch_length by (unfold blen; lia); lia). rewrite some_bind, Z2Nat.inj_0, drop_0. change (Z.to_nat 32) with 32%nat.
    replace (take 32 (patch out 0 r)) with r by (unfold patch; rewrite Z2Nat.inj_0, take_0, app_nil_l; rewrite <- Lx; by rewrite take_app_length).
    do 2 f_equal. pose proof (foldl_lor_zero r Ux 0 ltac:(lia)) as H. rewrite Lx in H. destruct (Z.eqb_spec (foldl Z.lor 0 r) 0) as [E|E].
    + rewrite bool_decide_eq_true_2; [done|]. by apply H.
    + rewrite bool_decide_eq_false_2; [done|]. intros Hr. by apply E, H.
Qed.

(** The first test vector of RFC 7748, section 5.2, as inputs. *)
Definition rfc_scalar : bytes := [165; 70; 227; 107; 240; 82; 124; 157; 59; 22; 21; 75; 130; 70; 94; 221; 98; 20; 76; 10; 193; 252; 90; 24; 80; 106; 34; 68; 186; 68; 154; 196].
Definition rfc_u : bytes := [230; 219; 104; 103; 88; 48; 48; 219; 53; 148; 193; 164; 36; 177; 95; 124; 114; 102; 36; 236; 38; 179; 53; 59; 16; 169; 3; 166; 208; 171; 28; 76].

Lemma patch_demo r : length r = 32%nat -> patch (replicate 40 1) 0 r = r ++ replicate 8 1.
Proof. intros L. unfold patch. rewrite Z2Nat.inj_0, take_0, app_nil_l, L. done. Qed.

Lemma x25519_is_rfc7748_witness : length rfc_scalar = 32%nat /\ length rfc_u = 32%nat /\
  x25519_scalar_mult (Some (replicate 40 1)) (Some rfc_scalar) (Some rfc_u) (Some (replicate 136 0)) 136 = Some (0, Some (X25519 rfc_scalar rfc_u ++ replicate 8 1)).
Proof.
  split; [done|]. split; [done|].
  destruct (x25519_is_rfc7748 (replicate 40 1) rfc_scalar rfc_u (replicate 136 0) 136 eq_refl ltac:(apply (bool_decide_unpack _); by vm_compute) eq_refl ltac:(apply (bool_decide_unpack _); by vm_compute) ltac:(rewrite length_replicate; lia)) as [E _].
  rewrite (patch_demo _ (proj1 (X25519_bytes rfc_scalar rfc_u))) in E. exact E.
Defined.
