(* ===== verification/Elf.v ===== *)
(** * The program loader: kernel/elf.c

    [elf_load] runs with the new task's directory active.  Memory is the bytes of physical
    memory, [ram]; the file and the segments alike are reached through the translation
    [walk] of Vmm, as it is at that moment, and an access to an address the directory does
    not map is a page fault ([None]).  The kernel runs with CR0.WP clear (boot/paging.s
    sets PG alone), so its stores do not look at the write bit.  The messages are left
    out. *)

From Stdlib Require Import ZArith Lia.
From stdpp Require Import base numbers option tactics list gmap.
From S2P Require Import Prelude Pmm Vmm Bytes NetBuf NetSum.

Definition ET_EXEC : Z := 2.
Definition PT_LOAD : Z := 1.
Definition PF_W : Z := 2.

Record elf32_ehdr_t := mk_ehdr { e_ident : bytes; e_type : Z; e_entry : Z; e_phoff : Z; e_phnum : Z }.
Record elf32_phdr_t := mk_phdr { p_type : Z; p_offset : Z; p_vaddr : Z; p_filesz : Z; p_memsz : Z; p_flags : Z }.

(** ** Memory through the active directory *)

Definition load_byte (v : vmm_t) (dir : Z) (ram : Z -> Z) (va : Z) : option Z :=
  p ← walk v dir (u32 va); Some (ram (frame p * PAGE_SIZE + u32 va mod PAGE_SIZE)).

(** Little-endian fields of the packed structs. *)
Definition load_u16 (v : vmm_t) (dir : Z) (ram : Z -> Z) (va : Z) : option Z :=
  b0 ← load_byte v dir ram va; b1 ← load_byte v dir ram (va + 1); Some (b0 + 256 * b1).
Definition load_u32 (v : vmm_t) (dir : Z) (ram : Z -> Z) (va : Z) : option Z :=
  b0 ← load_byte v dir ram va; b1 ← load_byte v dir ram (va + 1); b2 ← load_byte v dir ram (va + 2); b3 ← load_byte v dir ram (va + 3);
  Some (un_le32 [b0; b1; b2; b3]).

Definition ram_set (ram : Z -> Z) (a b : Z) : Z -> Z := fun x => if x =? a then b else ram x.

Definition store_byte (v : vmm_t) (dir : Z) (ram : Z -> Z) (va b : Z) : option (Z -> Z) :=
  p ← walk v dir (u32 va); Some (ram_set ram (frame p * PAGE_SIZE + u32 va mod PAGE_SIZE) b).

(** [dst[i] = src[i]] for [i] from 0 on. *)
Fixpoint memcpy (v : vmm_t) (dir : Z) (ram : Z -> Z) (dst src : Z) (size : nat) : option (Z -> Z) :=
  match size with
  | O => Some ram
  | S size =>
      b ← load_byte v dir ram src;
      ram ← store_byte v dir ram dst b;
      memcpy v dir ram (dst + 1) (src + 1) size
  end.

Fixpoint memset (v : vmm_t) (dir : Z) (ram : Z -> Z) (buf value : Z) (size : nat) : option (Z -> Z) :=
  match size with
  | O => Some ram
  | S size => ram ← store_byte v dir ram buf (u8 value); memset v dir ram (buf + 1) value size
  end.

(** ** Headers *)

(** The four bytes of the magic number, up to the first that differs. *)
Fixpoint magic_at (v : vmm_t) (dir : Z) (ram : Z -> Z) (va : Z) (magic : list Z) : option bool :=
  match magic with
  | [] => Some true
  | m :: magic => b ← load_byte v dir ram va; if negb (b =? m) then Some false else magic_at v dir ram (va + 1) magic
  end.

Definition elf_validate (v : vmm_t) (dir : Z) (ram : Z -> Z) (elf_data : Z) : option Z :=
  if elf_data =? 0 then Some 0
  else
    magic ← magic_at v dir ram elf_data [127; 69; 76; 70];
    if negb magic then Some 0
    else
      type ← load_u16 v dir ram (elf_data + 16);
      if negb (type =? ET_EXEC) then Some 0 else Some 1.

(** [pheaders[i]], at [at_]: the fields the loop reads of a PT_LOAD header. *)
Definition load_phdr (v : vmm_t) (dir : Z) (ram : Z -> Z) (at_ type : Z) : option elf32_phdr_t :=
  vaddr ← load_u32 v dir ram (at_ + 8);
  filesz ← load_u32 v dir ram (at_ + 16);
  memsz ← load_u32 v dir ram (at_ + 20);
  flags ← load_u32 v dir ram (at_ + 24);
  offset ← load_u32 v dir ram (at_ + 4);
  Some (mk_phdr type offset vaddr filesz memsz flags).

(** ** Segments *)

(** The loop over the pages: [false] is a failure of the allocator or of the mapping. *)
Fixpoint map_pages (fuel : nat) (v : vmm_t) (dir page_addr end_addr page_flags : Z) : option (bool * vmm_t) :=
  if page_addr <? end_addr then
    match fuel with
    | O => None
    | S fuel =>
        let '(phys_page, pmm) := pmm_alloc_page (v_pmm v) in
        let v := set_pmm v pmm in
        if phys_page =? 0 then Some (false, v)
        else
          let '(rc, v) := vmm_map_page_in_directory v dir phys_page page_addr page_flags in
          if negb (rc =? 0) then Some (false, set_pmm v (pmm_free_page (v_pmm v) phys_page))
          else map_pages fuel v dir (u32 (page_addr + PAGE_SIZE)) end_addr page_flags
    end
  else Some (true, v).

(** [x & ~0xFFF] *)
Definition page_floor (x : Z) : Z := Z.land x (u32 (Z.lnot 4095)).

(** The body of the loop for a PT_LOAD header; 2^20 pages are the whole address space. *)
Definition load_segment (v : vmm_t) (ram : Z -> Z) (file_data dir : Z) (ph : elf32_phdr_t) : option (bool * vmm_t * (Z -> Z)) :=
  let vaddr := p_vaddr ph in
  let filesz := p_filesz ph in
  let memsz := p_memsz ph in
  let segment_data := u32 (file_data + p_offset ph) in
  let page_flags := Z.lor PAGE_PRESENT PAGE_USER in
  let page_flags := if c_true (Z.land (p_flags ph) PF_W) then Z.lor page_flags PAGE_WRITE else page_flags in
  let start_addr := page_floor vaddr in
  let end_addr := page_floor (u32 (vaddr + memsz + 4095)) in
  '(ok, v) ← map_pages (Z.to_nat 1048576) v dir start_addr end_addr page_flags;
  if negb ok then Some (false, v, ram)
  else
    ram ← (if 0 <? filesz then memcpy v dir ram vaddr segment_data (Z.to_nat filesz) else Some ram);
    ram ← (if filesz <? memsz then memset v dir ram (u32 (vaddr + filesz)) 0 (Z.to_nat (memsz - filesz)) else Some ram);
    Some (true, v, ram).

(** [for (int i = 0; i < header->e_phnum; i++)]: the count is read in every round. *)
Fixpoint load_headers (fuel : nat) (i : Z) (v : vmm_t) (ram : Z -> Z) (file_data pheaders dir : Z) : option (bool * vmm_t * (Z -> Z)) :=
  match fuel with
  | O => None
  | S fuel =>
      phnum ← load_u16 v dir ram (file_data + 44);
      if i <? phnum then
        let at_ := u32 (pheaders + 32 * i) in
        type ← load_u32 v dir ram at_;
        '(ok, v, ram) ← (if type =? PT_LOAD then ph ← load_phdr v dir ram at_ type; load_segment v ram file_data dir ph
                         else Some (true, v, ram));
        if negb ok then Some (false, v, ram) else load_headers fuel (i + 1) v ram file_data pheaders dir
      else Some (true, v, ram)
  end.

(** The entry point, or 0; the count has sixteen bits. *)
Definition elf_load (v : vmm_t) (ram : Z -> Z) (file_data dir : Z) : option (Z * vmm_t * (Z -> Z)) :=
  valid ← elf_validate v dir ram file_data;
  if negb (c_true valid) then Some (0, v, ram)
  else
    phoff ← load_u32 v dir ram (file_data + 28);
    '(ok, v, ram) ← load_headers (Z.to_nat 65537) 0 v ram file_data (u32 (file_data + phoff)) dir;
    if negb ok then Some (0, v, ram) else entry ← load_u32 v dir ram (file_data + 24); Some (entry, v, ram).

(** * What the loader puts into memory

    A program whose segments lie in pages of their own is loaded byte for byte, with its
    permissions, into fresh frames: no page in use before changes, no other translation
    does, and with enough free pages the load succeeds. *)

(** ** The file as bytes *)

Definition le16_at (b : bytes) (off : nat) : Z := match drop off b with b0 :: b1 :: _ => b0 + 256 * b1 | _ => 0 end.
Definition le32_at (b : bytes) (off : nat) : Z := un_le32 (drop off b).

Definition read_ehdr (file : bytes) : option elf32_ehdr_t :=
  h ← ld_bytes file 0 52;
  Some (mk_ehdr (take 16 h) (le16_at h 16) (le32_at h 24) (le32_at h 28) (le16_at h 44)).

Definition read_phdr (file : bytes) (phoff i : Z) : option elf32_phdr_t :=
  h ← ld_bytes file (phoff + 32 * i) 32;
  Some (mk_phdr (le32_at h 0) (le32_at h 4) (le32_at h 8) (le32_at h 16) (le32_at h 20) (le32_at h 24)).

(** ** Allocation *)

Definition free_left (v : vmm_t) : Z := total_pages (v_pmm v) - used_pages (v_pmm v).

Lemma count_all f n : (forall q, 0 <= q < Z.of_nat n -> f q = true) -> count_pages f n = Z.of_nat n.
Proof. induction n as [|n IH]; intros H; cbn [count_pages]; [done|]. rewrite IH, H by (intros; try apply H; lia). cbn [b2z]. lia. Qed.

(** A free page is found when one is left. *)
Lemma alloc_page_left p a p' : pmm_wf p -> pmm_alloc_page p = (a, p') ->
  used_pages p' <= used_pages p + 1 /\ (used_pages p < total_pages p -> a <> 0) /\ (forall q, 0 <= q -> page_used p q = true -> page_used p' q = true).
Proof.
  intros Hwf Ha. unfold pmm_alloc_page in Ha. destruct (alloc_pages_spec p 1 Hwf) as (_ & _ & H); [lia|]. rewrite Ha in H. cbn [fst snd] in H. pose proof (pmm_total p (wf_shape p Hwf)) as Ht.
  destruct H as [(-> & -> & Hn)|(f & -> & Hf & Hfn & _ & _ & Hq & Hu)].
  - split; [lia|]. split; [|done]. intros Hlt. exfalso. destruct Hn as [?|Hn]; [lia|]. rewrite (wf_used p Hwf) in Hlt. rewrite count_all in Hlt; [lia|]. intros q Hq0.
    destruct (page_used p q) eqn:E; [done|]. exfalso. apply (Hn q); [lia|lia|]. intros x Hx. by replace x with q by lia.
  - split; [lia|]. split; [unfold PAGE_SIZE; lia|]. intros q Hq0 Hq1. by rewrite Hq, Hq1, orb_true_r by done.
Qed.

(** ** One page *)

(** What changes of the frames: nothing in use is given up. *)
Definition grows (v w : vmm_t) (k : Z) : Prop :=
  total_pages (v_pmm w) = total_pages (v_pmm v) /\ used_pages (v_pmm w) <= used_pages (v_pmm v) + k /\
  forall q, 0 <= q -> page_used (v_pmm v) q = true -> page_used (v_pmm w) q = true.

Lemma grows_trans u v w j k : grows u v j -> grows v w k -> grows u w (j + k).
Proof. intros (H1 & H2 & H3) (H4 & H5 & H6). split; [congruence|]. split; [lia|]. auto. Qed.

Lemma set_pmm_wf v p : vmm_wf v -> pmm_wf p -> total_pages p = total_pages (v_pmm v) -> (forall q, 0 <= q -> page_used (v_pmm v) q = true -> page_used p q = true) -> vmm_wf (set_pmm v p).
Proof.
  intros Hv Hp Ht Hu. split; [done| |].
  - intros dir d Hd. destruct (vmm_dirs_ok v Hv dir d Hd) as [H1 H2 H3 H4 H5 H6]. split; try done. intros i Hi Hn. destruct (H6 i Hi Hn) as ([T1 T2 T3 T4] & H7 & H8). split; [|done]. split; try done.
    + cbn [v_pmm set_pmm]. by rewrite Ht.
    + cbn [v_pmm set_pmm]. apply Hu; [lia|done].
  - exact (vmm_private v Hv).
Qed.

(** Allocating a frame: either none is left or a fresh one. *)
Lemma alloc_frame v a p : vmm_wf v -> pmm_alloc_page (v_pmm v) = (a, p) ->
  vmm_wf (set_pmm v p) /\ grows v (set_pmm v p) 1 /\ (0 < free_left v -> a <> 0) /\
  (a <> 0 -> a = a / PAGE_SIZE * PAGE_SIZE /\ 0 < a / PAGE_SIZE < total_pages (v_pmm v) /\ page_used (v_pmm v) (a / PAGE_SIZE) = false /\ page_used p (a / PAGE_SIZE) = true).
Proof.
  intros Hv Ha. destruct (alloc_page_fresh _ _ _ (vmm_pmm_wf v Hv) Ha) as (Hp & Ht & Hf). destruct (alloc_page_left _ _ _ (vmm_pmm_wf v Hv) Ha) as (Hu & Hl & Hm).
  split; [by apply set_pmm_wf|]. split; [done|]. split; [unfold free_left; intros; apply Hl; lia|]. intros Hn. destruct Hf as [[? _]|(_ & H1 & H2 & H3 & H4)]; [done|]. split; [done|]. split; [done|]. split; [done|].
  rewrite H4, Z.eqb_refl by lia. done.
Qed.

Lemma ensure_grows v dir i : vmm_wf v -> let '(rc, w) := vmm_ensure_private_user_table v dir i in grows v w 1 /\ (dir <> 0 -> 0 <= i < 1024 -> 0 < free_left v -> rc = 0).
Proof.
  intros Hv. unfold vmm_ensure_private_user_table. assert (Hr : grows v v 1) by (split; [done|]; split; [lia|done]).
  destruct (Z.eqb_spec dir 0) as [Ed|Ed]; cbn [orb]; [split; [done|]; done|]. destruct (Z.leb_spec ENTRIES_PER_TABLE i) as [Ei|Ei]; cbn [orb]; [split; [done|]; unfold ENTRIES_PER_TABLE in Ei; lia|].
  destruct (negb (vmm_table_is_private (get_dir v dir) i =? 0)); [done|]. destruct (pmm_alloc_page (v_pmm v)) as [a p] eqn:Ha. destruct (alloc_frame v a p Hv Ha) as (_ & Hg & Hl & _).
  destruct (Z.eqb_spec a 0); [split; [exact Hg|]; intros _ _ Hf; by destruct (Hl Hf)|]. split; [exact Hg|done].
Qed.

Lemma map_page_grows v dir d phys va flags : vmm_wf v -> dir <> 0 -> dir <> kernel_directory v -> v_dirs v !! dir = Some d -> phys <> 0 -> va <> 0 -> is_u32 va -> Z.land flags PAGE_USER <> 0 ->
  let '(rc, w) := vmm_map_page_in_directory v dir phys va flags in grows v w 1 /\ (0 < free_left v -> rc = 0).
Proof.
  intros Hwf Hdir Hk Hd Hphys Hva Hu Hflag. unfold vmm_map_page_in_directory. rewrite !(proj2 (Z.eqb_neq _ _)) by done. cbn [orb negb andb]. fold (table_index va). pose proof (table_index_range va Hu) as Hi.
  pose proof (ensure_private_spec v dir d (table_index va) Hwf Hdir Hd Hi) as He. pose proof (ensure_grows v dir (table_index va) Hwf) as Hg.
  destruct (vmm_ensure_private_user_table v dir (table_index va)) as [rc w]. destruct Hg as [Hg Hz]. specialize (Hz Hdir Hi).
  destruct He as (Hw & Hkw & Hwalk & [(-> & d' & Hd' & Hpriv)| -> ]); cbn [Z.eqb negb]. 2: { split; [exact Hg|]. intros Hf. by specialize (Hz Hf). }
  destruct (vmm_private w Hw dir d' _ Hd' Hi Hpriv) as [Hnz _]. unfold vmm_get_page, get_dir. change 4096 with PAGE_SIZE. change 1024 with ENTRIES_PER_TABLE. fold (table_index va). rewrite Hd'. cbn [default from_option id].
  rewrite (proj2 (Z.eqb_neq _ 0)) by done. cbn [negb]. split; [exact Hg|done].
Qed.

(** ** The pages of a segment *)

Section Load.
Context (dir : Z).

(** The pages from [pa] on are mapped to the frames [fr], all different, free in [v] and in use in [w]. *)
Record mapped (v w : vmm_t) (pa n flags : Z) (fr : Z -> Z) : Prop := {
  mp_fresh : forall q, pa <= q < pa + n -> 0 < fr q < total_pages (v_pmm v) /\ page_used (v_pmm v) (fr q) = false /\ page_used (v_pmm w) (fr q) = true;
  mp_walk : forall va, is_u32 va -> pa <= va / PAGE_SIZE < pa + n ->
    exists p, walk w dir va = Some p /\ rw p = flag flags PAGE_WRITE /\ user p = flag flags PAGE_USER /\ frame p = fr (va / PAGE_SIZE);
  mp_inj : forall q q', pa <= q < pa + n -> pa <= q' < pa + n -> fr q = fr q' -> q = q'
}.

(** Nothing else is translated differently. *)
Definition keeps_walk (v w : vmm_t) (pa n : Z) : Prop :=
  forall dir1 va, is_u32 va -> dir1 <> dir \/ va / PAGE_SIZE < pa \/ pa + n <= va / PAGE_SIZE -> walk w dir1 va = walk v dir1 va.

Definition dir_known (v : vmm_t) : Prop := vmm_wf v /\ dir <> 0 /\ dir <> kernel_directory v /\ is_Some (v_dirs v !! dir).

Lemma map_pages_spec flags : Z.land flags PAGE_USER <> 0 -> flag flags PAGE_PRESENT = 1 -> forall n fuel v pa, dir_known v -> 0 < pa -> pa + Z.of_nat n <= 1048575 -> (n <= fuel)%nat ->
  exists ok w, map_pages fuel v dir (pa * PAGE_SIZE) ((pa + Z.of_nat n) * PAGE_SIZE) flags = Some (ok, w) /\ keeps_walk v w pa (Z.of_nat n) /\ (2 * Z.of_nat n <= free_left v -> ok = true) /\
    (ok = true -> dir_known w /\ grows v w (2 * Z.of_nat n) /\ exists fr, mapped v w pa (Z.of_nat n) flags fr).
Proof.
  intros Hfu Hfp. induction n as [|n IH]; intros fuel v pa Hv Hpa Hpe Hf.
  { assert (E : map_pages fuel v dir (pa * PAGE_SIZE) ((pa + Z.of_nat 0) * PAGE_SIZE) flags = Some (true, v)) by (destruct fuel; cbn [map_pages]; by rewrite (proj2 (Z.ltb_ge _ _)) by lia).
    exists true, v. split; [exact E|]. split; [done|]. split; [done|]. intros _. split; [done|]. split; [split; [done|]; split; [lia|done]|]. exists (fun _ => 0). split; intros; lia. }
  destruct fuel as [|fuel]; [lia|]. cbn [map_pages]. rewrite (proj2 (Z.ltb_lt _ _)) by (unfold PAGE_SIZE; lia). destruct Hv as (Hwf & Hd0 & Hdk & [d Hd]).
  destruct (pmm_alloc_page (v_pmm v)) as [a p] eqn:Ha. destruct (alloc_frame v a p Hwf Ha) as (Hwf1 & Hg1 & Hl1 & Hfresh).
  destruct (Z.eqb_spec a 0) as [Ea|Ea]. { exists false, (set_pmm v p). split; [done|]. split; [done|]. split; [intros Hf2; by destruct Hl1; [lia|]|done]. }
  destruct (Hfresh Ea) as (Hal & Har & Hau & Hau'). assert (Hva : is_u32 (pa * PAGE_SIZE)) by (unfold is_u32, PAGE_SIZE; lia). assert (Hva0 : pa * PAGE_SIZE <> 0) by (unfold PAGE_SIZE; lia).
  pose proof (map_page_user_spec (set_pmm v p) dir d a (pa * PAGE_SIZE) flags Hwf1 Hd0 Hdk Hd Ea Hva0 Hva Hfu) as Hm.
  pose proof (map_page_grows (set_pmm v p) dir d a (pa * PAGE_SIZE) flags Hwf1 Hd0 Hdk Hd Ea Hva0 Hva Hfu) as Hg2.
  destruct (vmm_map_page_in_directory (set_pmm v p) dir a (pa * PAGE_SIZE) flags) as [rc w1]. destruct Hg2 as [Hg2 Hz].
  destruct Hm as (Hw1 & [(-> & Hme & Hk1 & d1 & Hd1 & _)|(-> & Hs)]); cbn [Z.eqb negb].
  2: { eexists false, _. split; [done|]. split; [intros dir1 va Hva1 _; by apply (Hs dir1 va)|]. split; [|done]. intros Hf2. exfalso. destruct Hg1 as (Ht & Hu & _). unfold free_left in *. cbn [v_pmm set_pmm] in *. specialize (Hz ltac:(lia)). lia. }
  rewrite u32_id by (unfold is_u32, PAGE_SIZE in *; lia). replace (pa * PAGE_SIZE + PAGE_SIZE) with ((pa + 1) * PAGE_SIZE) by lia. replace (pa + Z.of_nat (S n)) with (pa + 1 + Z.of_nat n) in * by lia.
  pose proof (grows_trans _ _ _ _ _ Hg1 Hg2) as Hg. assert (Hk : dir_known w1) by (split; [done|]; split; [done|]; split; [by rewrite Hk1|by exists d1]).
  destruct (IH fuel w1 (pa + 1) Hk) as (ok & w & E & Hkw & Hsucc & Hok); [lia|lia|lia|]. exists ok, w. split; [exact E|].
  assert (Hwalk1 : forall dir1 va, is_u32 va -> dir1 <> dir \/ va / PAGE_SIZE <> pa -> walk w1 dir1 va = walk v dir1 va).
  { intros dir1 va Hu1 Hne. specialize (Hme dir1 va Hu1). rewrite page_mul_div in Hme. destruct (Z.eqb_spec dir1 dir), (Z.eqb_spec (va / PAGE_SIZE) pa); cbn [andb] in Hme; [lia|exact Hme..]. }
  split; [|split].
  - intros dir1 va Hu1 Hne. rewrite Hkw by (done || lia). apply Hwalk1; [done|lia].
  - intros Hf2. apply Hsucc. destruct Hg as (Ht & Hu & _). unfold free_left in *. lia.
  - intros Et. destruct (Hok Et) as (Hkw2 & Hg3 & fr & [Mf Mw Mi]). split; [done|]. replace (2 * Z.of_nat (S n)) with (1 + 1 + 2 * Z.of_nat n) by lia. split; [by apply (grows_trans v w1 w)|].
    destruct Hg as (Ht & _ & Hmono). destruct Hg2 as (_ & _ & Hmono2). destruct Hg3 as (_ & _ & Hmono3). exists (fun q => if q =? pa then a / PAGE_SIZE else fr q).
    assert (Hnew : page_used (v_pmm w1) (a / PAGE_SIZE) = true) by (apply Hmono2; [lia|done]).
    split.
    + intros q Hq. destruct (Z.eqb_spec q pa) as [->|Hn]; [split; [done|]; split; [done|]; apply Hmono3; [lia|done]|]. destruct (Mf q) as (F1 & F2 & F3); [lia|]. rewrite Ht in F1. split; [done|]. split; [|done].
      destruct (page_used (v_pmm v) (fr q)) eqn:Eu; [|done]. by rewrite Hmono in F2 by (done || lia).
    + intros va Hu1 Hq. destruct (Z.eqb_spec (va / PAGE_SIZE) pa) as [Eq|Hn]; [|apply Mw; [done|lia]]. rewrite (Hkw dir va Hu1) by lia. specialize (Hme dir va Hu1). rewrite page_mul_div, Eq, !Z.eqb_refl, Hfp in Hme.
      cbn [andb Z.eqb] in Hme. destruct Hme as (pg & H1 & _ & H2 & H3 & H4). by exists pg.
    + intros q q' Hq Hq' E2. destruct (Z.eqb_spec q pa) as [->|Hn], (Z.eqb_spec q' pa) as [->|Hn']; [done| | |apply Mi; (done || lia)].
      * destruct (Mf q') as (_ & F2 & _); [lia|]. rewrite <- E2, Hnew in F2. done.
      * destruct (Mf q) as (_ & F2 & _); [lia|]. rewrite E2, Hnew in F2. done.
Qed.

(** ** Stores *)

(** The physical address of [va]. *)
Definition phys_of (fr : Z -> Z) (va : Z) : Z := fr (va / PAGE_SIZE) * PAGE_SIZE + va mod PAGE_SIZE.

(** Stores of given bytes. *)
Fixpoint store_bytes (v : vmm_t) (ram : Z -> Z) (dst : Z) (src : bytes) : option (Z -> Z) :=
  match src with
  | [] => Some ram
  | b :: src => ram ← store_byte v dir ram dst b; store_bytes v ram (dst + 1) src
  end.

Lemma store_bytes_spec v fr src : forall ram dst, 0 <= dst -> dst + blen src <= 4294967296 ->
  (forall i, 0 <= i < blen src -> exists p, walk v dir (dst + i) = Some p /\ frame p = fr ((dst + i) / PAGE_SIZE)) ->
  (forall i j, 0 <= i < blen src -> 0 <= j < blen src -> phys_of fr (dst + i) = phys_of fr (dst + j) -> i = j) ->
  exists ram', store_bytes v ram dst src = Some ram' /\ (forall i, 0 <= i < blen src -> ram' (phys_of fr (dst + i)) = default 0 (src !! Z.to_nat i)) /\
    (forall a, (forall i, 0 <= i < blen src -> a <> phys_of fr (dst + i)) -> ram' a = ram a).
Proof.
  induction src as [|b src IH]; intros ram dst Hd Hlen Hw Hinj; cbn [store_bytes]; [exists ram; split; [done|]; split; [unfold blen; cbn [length]; lia|done]|]. unfold blen in *. cbn [length] in *.
  destruct (Hw 0) as (p & Ep & Ef); [lia|]. rewrite Z.add_0_r in Ep, Ef. unfold store_byte. rewrite (u32_id dst) by (unfold is_u32; lia). rewrite Ep, some_bind, some_bind, Ef. fold (phys_of fr dst).
  destruct (IH (ram_set ram (phys_of fr dst) b) (dst + 1)) as (ram' & E & Hs & Ho); [lia|lia| | |].
  { intros i Hi. replace (dst + 1 + i) with (dst + (1 + i)) by lia. apply Hw. lia. }
  { intros i j Hi Hj Hp. replace (dst + 1 + i) with (dst + (1 + i)) in Hp by lia. replace (dst + 1 + j) with (dst + (1 + j)) in Hp by lia. apply Hinj in Hp; lia. }
  exists ram'. split; [exact E|]. split.
  - intros i Hi. destruct (Z.eq_dec i 0) as [->|Hn].
    + rewrite Z.add_0_r, Ho; [unfold ram_set; by rewrite Z.eqb_refl|]. intros j Hj Hp. replace (dst + 1 + j) with (dst + (1 + j)) in Hp by lia. rewrite <- (Z.add_0_r dst) in Hp at 1. apply Hinj in Hp; lia.
    + replace (dst + i) with (dst + 1 + (i - 1)) by lia. rewrite Hs by lia. replace (Z.to_nat i) with (S (Z.to_nat (i - 1))) by lia. done.
  - intros a Ha. rewrite Ho. { unfold ram_set. rewrite (proj2 (Z.eqb_neq a _)); [done|]. specialize (Ha 0). rewrite Z.add_0_r in Ha. apply Ha. lia. }
    intros i Hi. replace (dst + 1 + i) with (dst + (1 + i)) by lia. apply Ha. lia.
Qed.

Lemma memset_stores v value n : forall ram buf, memset v dir ram buf value n = store_bytes v ram buf (replicate n (u8 value)).
Proof. induction n as [|n IH]; intros ram buf; cbn [memset replicate store_bytes]; [done|]. destruct (store_byte v dir ram buf (u8 value)); [|done]. rewrite !some_bind. apply IH. Qed.

(** Copying from bytes that no store of the copy changes. *)
Lemma memcpy_stores v fr bs : forall ram dst src, 0 <= dst -> dst + blen bs <= 4294967296 ->
  (forall i, 0 <= i < blen bs -> exists p, walk v dir (dst + i) = Some p /\ frame p = fr ((dst + i) / PAGE_SIZE)) ->
  (forall i, 0 <= i < blen bs -> load_byte v dir ram (src + i) = Some (default 0 (bs !! Z.to_nat i))) ->
  (forall i j p, 0 <= i < blen bs -> 0 <= j < blen bs -> walk v dir (u32 (src + j)) = Some p -> frame p <> fr ((dst + i) / PAGE_SIZE)) ->
  memcpy v dir ram dst src (length bs) = store_bytes v ram dst bs.
Proof.
  induction bs as [|b bs IH]; intros ram dst src Hd Hlen Hw Hl Hne; cbn [memcpy store_bytes length]; [done|]. unfold blen in *. cbn [length] in *.
  pose proof (Hl 0 ltac:(lia)) as E0. rewrite Z.add_0_r in E0. change (default 0 ((b :: bs) !! Z.to_nat 0)) with b in E0. rewrite E0, some_bind.
  destruct (Hw 0) as (p & Ep & Ef); [lia|]. rewrite Z.add_0_r in Ep, Ef. unfold store_byte. rewrite (u32_id dst) by (unfold is_u32; lia). rewrite Ep, !some_bind, Ef.
  apply IH; [lia|lia| | |].
  - intros i Hi. replace (dst + 1 + i) with (dst + (1 + i)) by lia. apply Hw. lia.
  - intros i Hi. replace (src + 1 + i) with (src + (1 + i)) by lia. specialize (Hl (1 + i) ltac:(lia)). replace (Z.to_nat (1 + i)) with (S (Z.to_nat i)) in Hl by lia.
    change (default 0 ((b :: bs) !! S (Z.to_nat i))) with (default 0 (bs !! Z.to_nat i)) in Hl.
    unfold load_byte in *. destruct (walk v dir (u32 (src + (1 + i)))) as [ps|] eqn:Es; [|done]. rewrite some_bind in Hl |- *. rewrite <- Hl. f_equal.
    unfold ram_set. specialize (Hne 0 (1 + i) ps ltac:(lia) ltac:(lia) Es). rewrite Z.add_0_r in Hne. rewrite (proj2 (Z.eqb_neq _ _)); [done|]. unfold PAGE_SIZE in *. zlia.
  - intros i j q Hi Hj Hq. replace (dst + 1 + i) with (dst + (1 + i)) by lia. apply (Hne (1 + i) (1 + j)); [lia|lia|]. by replace (src + (1 + j)) with (src + 1 + j) by lia.
Qed.

Lemma phys_of_inj fr pa n x y : (forall q q', pa <= q < pa + n -> pa <= q' < pa + n -> fr q = fr q' -> q = q') -> pa <= x / PAGE_SIZE < pa + n -> pa <= y / PAGE_SIZE < pa + n ->
  phys_of fr x = phys_of fr y -> x = y.
Proof.
  intros Hi Hx Hy E. unfold phys_of, PAGE_SIZE in *. assert (fr (x / 4096) = fr (y / 4096) /\ x mod 4096 = y mod 4096) as [E1 E2] by zlia. apply Hi in E1; [zlia|done|done].
Qed.

Lemma phys_page fr va : phys_of fr va / PAGE_SIZE = fr (va / PAGE_SIZE).
Proof. unfold phys_of, PAGE_SIZE. zlia. Qed.

(** ** One segment *)

(** A segment inside the address space, above page 0 and below the last page, whose file
    part fits its memory and the file. *)
Record seg_ok (file : bytes) (ph : elf32_phdr_t) : Prop := {
  sg_low : PAGE_SIZE <= p_vaddr ph;
  sg_size : 0 <= p_filesz ph <= p_memsz ph;
  sg_high : p_vaddr ph + p_memsz ph <= 4294963200;
  sg_file : 0 <= p_offset ph /\ p_offset ph + p_filesz ph <= blen file
}.

Definition seg_first (ph : elf32_phdr_t) : Z := p_vaddr ph / PAGE_SIZE.
Definition seg_pages (ph : elf32_phdr_t) : Z := (p_vaddr ph + p_memsz ph + 4095) / PAGE_SIZE - p_vaddr ph / PAGE_SIZE.
Definition seg_writable (ph : elf32_phdr_t) : Z := b2z (c_true (Z.land (p_flags ph) PF_W)).

(** Byte [i] of the segment. *)
Definition seg_byte (file : bytes) (ph : elf32_phdr_t) (i : Z) : Z := if i <? p_filesz ph then default 0 (file !! Z.to_nat (p_offset ph + i)) else 0.

(** The directory shows the segment: every byte, for the user, with the segment's right to write. *)
Definition shows (v : vmm_t) (ram : Z -> Z) (file : bytes) (ph : elf32_phdr_t) : Prop :=
  forall i, 0 <= i < p_memsz ph -> exists p, walk v dir (p_vaddr ph + i) = Some p /\ user p = 1 /\ rw p = seg_writable ph /\
    page_used (v_pmm v) (frame p) = true /\ 0 < frame p /\ ram (frame p * PAGE_SIZE + (p_vaddr ph + i) mod PAGE_SIZE) = seg_byte file ph i.

(** Memory in use is kept. *)
Definition keeps_ram (v : vmm_t) (ram ram' : Z -> Z) : Prop := forall a, 0 <= a -> page_used (v_pmm v) (a / PAGE_SIZE) = true -> ram' a = ram a.

Lemma page_floor_spec x : is_u32 x -> page_floor x = x / PAGE_SIZE * PAGE_SIZE.
Proof.
  intros Hx. unfold page_floor. change (u32 (Z.lnot 4095)) with (Z.shiftl (Z.ones 20) 12). unfold PAGE_SIZE. change 4096 with (2 ^ 12). rewrite <- Z.shiftr_div_pow2, <- Z.shiftl_mul_pow2 by lia.
  apply Z.bits_inj'. intros i Hi. rewrite Z.land_spec. destruct (Z.ltb_spec i 12); [by rewrite !Z.shiftl_spec_low, andb_false_r by lia|]. rewrite !Z.shiftl_spec, Z.shiftr_spec by lia. replace (i - 12 + 12) with i by lia.
  destruct (Z.ltb_spec i 32); [by rewrite Z.ones_spec_low, andb_true_r by lia|]. rewrite Z.ones_spec_high, andb_false_r by lia. unfold is_u32 in Hx. rewrite <- (Z.mod_small x (2 ^ 32)) by lia. by rewrite Z.mod_pow2_bits_high by lia.
Qed.

Lemma seg_range file ph : seg_ok file ph -> 0 < seg_first ph /\ 0 <= seg_pages ph /\ seg_first ph + seg_pages ph <= 1048575 /\
  page_floor (p_vaddr ph) = seg_first ph * PAGE_SIZE /\ page_floor (u32 (p_vaddr ph + p_memsz ph + 4095)) = (seg_first ph + seg_pages ph) * PAGE_SIZE /\
  forall i, 0 <= i < p_memsz ph -> is_u32 (p_vaddr ph + i) /\ seg_first ph <= (p_vaddr ph + i) / PAGE_SIZE < seg_first ph + seg_pages ph.
Proof.
  intros [H1 H2 H3 _]. unfold seg_first, seg_pages, PAGE_SIZE in *. rewrite (u32_id (p_vaddr ph + p_memsz ph + 4095)) by (unfold is_u32; lia). rewrite !page_floor_spec by (unfold is_u32; lia). unfold PAGE_SIZE.
  repeat split; try (unfold is_u32; lia); zlia.
Qed.

Definition seg_flags (ph : elf32_phdr_t) : Z := if c_true (Z.land (p_flags ph) PF_W) then Z.lor (Z.lor PAGE_PRESENT PAGE_USER) PAGE_WRITE else Z.lor PAGE_PRESENT PAGE_USER.

Lemma seg_flags_spec ph : Z.land (seg_flags ph) PAGE_USER <> 0 /\ flag (seg_flags ph) PAGE_PRESENT = 1 /\ flag (seg_flags ph) PAGE_USER = 1 /\ flag (seg_flags ph) PAGE_WRITE = seg_writable ph.
Proof. unfold seg_flags, seg_writable. destruct (c_true (Z.land (p_flags ph) PF_W)); repeat split; done. Qed.

(** *** The file in memory *)

(** The bytes of [file] from the address [addr] on, in frames that are in use. *)
Record file_at (v : vmm_t) (ram : Z -> Z) (addr : Z) (file : bytes) : Prop := {
  fa_range : 0 < addr /\ addr + blen file <= 4294967296;
  fa_bytes : forall i, 0 <= i < blen file -> exists p, walk v dir (addr + i) = Some p /\ 0 <= frame p /\ page_used (v_pmm v) (frame p) = true /\
    ram (frame p * PAGE_SIZE + (addr + i) mod PAGE_SIZE) = default 0 (file !! Z.to_nat i)
}.

Lemma file_at_kept v w ram ram' addr file : file_at v ram addr file -> keeps_ram v ram ram' ->
  (forall i, 0 <= i < blen file -> walk w dir (addr + i) = walk v dir (addr + i)) -> (forall q, 0 <= q -> page_used (v_pmm v) q = true -> page_used (v_pmm w) q = true) ->
  file_at w ram' addr file.
Proof.
  intros [Hr Hb] Hk Hw Hu. split; [done|]. intros i Hi. destruct (Hb i Hi) as (p & H1 & H2 & H3 & H4). exists p. rewrite Hw by done. split; [done|]. split; [done|]. split; [by apply Hu|].
  rewrite Hk; [done|unfold PAGE_SIZE; zlia|]. by rewrite Z.div_add_l, (Z.div_small (_ mod _)), Z.add_0_r by (unfold PAGE_SIZE; zlia).
Qed.

Section Reads.
Context (v : vmm_t) (ram : Z -> Z) (addr : Z) (file : bytes) (Hfa : file_at v ram addr file).

Lemma load_byte_at i : 0 <= i < blen file -> load_byte v dir ram (addr + i) = Some (default 0 (file !! Z.to_nat i)).
Proof.
  intros Hi. destruct Hfa as [Hr Hb]. destruct (Hb i Hi) as (p & H1 & _ & _ & H4). unfold load_byte. rewrite u32_id by (unfold is_u32; lia). by rewrite H1, some_bind, H4.
Qed.

Lemma drop_cons_default (l : bytes) n : (n < length l)%nat -> drop n l = default 0 (l !! n) :: drop (S n) l.
Proof. intros Hn. destruct (lookup_lt_is_Some_2 l n Hn) as [x Hx]. rewrite Hx. cbn. by apply drop_S. Qed.

Lemma load_u16_at off : 0 <= off -> off + 2 <= blen file -> load_u16 v dir ram (addr + off) = Some (le16_at file (Z.to_nat off)).
Proof.
  intros Ho Hl. unfold load_u16, le16_at. rewrite <- Z.add_assoc, !load_byte_at, !some_bind by lia. unfold blen in Hl. rewrite !drop_cons_default by lia.
  by replace (Z.to_nat (off + 1)) with (S (Z.to_nat off)) by lia.
Qed.

Lemma load_u32_at off : 0 <= off -> off + 4 <= blen file -> load_u32 v dir ram (addr + off) = Some (le32_at file (Z.to_nat off)).
Proof.
  intros Ho Hl. unfold load_u32, le32_at. rewrite <- !Z.add_assoc, !load_byte_at, !some_bind by lia. unfold blen in Hl.
  rewrite (drop_cons_default file (Z.to_nat off)), (drop_cons_default file (S (Z.to_nat off))), (drop_cons_default file (S (S (Z.to_nat off)))), (drop_cons_default file (S (S (S (Z.to_nat off))))) by lia.
  replace (Z.to_nat (off + 1)) with (S (Z.to_nat off)) by lia. replace (Z.to_nat (off + 2)) with (S (S (Z.to_nat off))) by lia. by replace (Z.to_nat (off + 3)) with (S (S (S (Z.to_nat off)))) by lia.
Qed.

(** A field of a struct that lies in the file. *)
Lemma le32_field off n k : (k + 4 <= n)%nat -> 0 <= off -> off + Z.of_nat n <= blen file ->
  le32_at (take n (drop (Z.to_nat off) file)) k = le32_at file (Z.to_nat (off + Z.of_nat k)).
Proof.
  intros Hk Ho Hl. unfold le32_at, blen in *. assert (E : forall l : bytes, (k + 4 <= n)%nat -> (n <= length l)%nat -> un_le32 (drop k (take n l)) = un_le32 (drop k l)).
  { intros l H1 H2. replace n with (k + (n - k))%nat by lia. rewrite <- take_drop_commute.
    assert (Hd : (4 <= length (drop k l))%nat) by (rewrite length_drop; lia). destruct (n - k)%nat as [|[|[|[|m]]]] eqn:En; try lia.
    destruct (drop k l) as [|b0 [|b1 [|b2 [|b3 r]]]]; cbn [length] in Hd; try lia. done. }
  rewrite E by (rewrite ?length_drop; lia). rewrite drop_drop. do 2 f_equal. lia.
Qed.

Lemma le16_field off n k : (k + 2 <= n)%nat -> 0 <= off -> off + Z.of_nat n <= blen file ->
  le16_at (take n (drop (Z.to_nat off) file)) k = le16_at file (Z.to_nat (off + Z.of_nat k)).
Proof.
  intros Hk Ho Hl. unfold le16_at, blen in *. replace n with (k + (n - k))%nat by lia. rewrite <- take_drop_commute, drop_drop.
  replace (Z.to_nat (off + Z.of_nat k)) with (Z.to_nat off + k)%nat by lia.
  assert (Hd : (2 <= length (drop (Z.to_nat off + k) file))%nat) by (rewrite length_drop; lia). destruct (n - k)%nat as [|[|m]] eqn:En; try lia.
  destruct (drop (Z.to_nat off + k) file) as [|b0 [|b1 r]]; cbn [length] in Hd; try lia. done.
Qed.

Lemma ehdr_reads h : read_ehdr file = Some h ->
  load_u16 v dir ram (addr + 16) = Some (e_type h) /\ load_u32 v dir ram (addr + 24) = Some (e_entry h) /\ load_u32 v dir ram (addr + 28) = Some (e_phoff h) /\
  load_u16 v dir ram (addr + 44) = Some (e_phnum h) /\ (take 4 (e_ident h) = [127; 69; 76; 70] -> magic_at v dir ram addr [127; 69; 76; 70] = Some true).
Proof.
  unfold read_ehdr. intros (b & Hb & [= <-])%bind_Some. pose proof Hb as Hlen. apply ld_bytes_Some in Hlen as (_ & _ & Hlen & ->). cbn [e_type e_entry e_phoff e_phnum e_ident].
  change (Z.to_nat 52) with 52%nat. rewrite !le16_field, !le32_field by lia. rewrite !load_u16_at, !load_u32_at by lia. do 4 (split; [done|]).
  change (Z.to_nat 0) with 0%nat. rewrite drop_0, !take_take. intros Em. unfold blen in Hlen. change (4 `min` (16 `min` 52))%nat with 4%nat in Em.
  assert (Hi : forall i, (i < 4)%nat -> default 0 (file !! i) = default 0 ([127; 69; 76; 70] !! i)) by (intros i Hi; by rewrite <- Em, lookup_take_lt).
  cbn [magic_at]. rewrite <- (Z.add_0_r addr) at 1. rewrite <- !Z.add_assoc, !load_byte_at by (unfold blen; lia). rewrite !some_bind.
  change (Z.to_nat 0) with 0%nat. change (Z.to_nat 1) with 1%nat. change (Z.to_nat (1 + 1)) with 2%nat. change (Z.to_nat (1 + (1 + 1))) with 3%nat. by rewrite !Hi by lia.
Qed.

Lemma phdr_reads phoff i ph : read_phdr file phoff i = Some ph ->
  let at_ := u32 (u32 (addr + phoff) + 32 * i) in load_u32 v dir ram at_ = Some (p_type ph) /\ load_phdr v dir ram at_ (p_type ph) = Some ph.
Proof.
  unfold read_phdr. intros (b & Hb & [= <-])%bind_Some. apply ld_bytes_Some in Hb as (Ho & _ & Hlen & ->). pose proof (fa_range _ _ _ _ Hfa) as [H0 H1].
  assert (E : u32 (u32 (addr + phoff) + 32 * i) = addr + (phoff + 32 * i)).
  { unfold u32. rewrite Z.add_mod_idemp_l by lia. rewrite <- Z.add_assoc. apply u32_id. unfold is_u32. lia. }
  cbv zeta. rewrite E. change (Z.to_nat 32) with 32%nat. rewrite !le32_field by lia. cbn [p_type]. rewrite Z.add_0_r.
  unfold load_phdr. rewrite <- !Z.add_assoc, !load_u32_at, !some_bind by lia. done.
Qed.
End Reads.

(** The two stores of a segment, on mapped pages. *)
Lemma segment_stores file addr ph w ram fr : seg_ok file ph -> file_at w ram addr file ->
  (forall i, 0 <= i < p_memsz ph -> exists p, walk w dir (p_vaddr ph + i) = Some p /\ frame p = fr ((p_vaddr ph + i) / PAGE_SIZE)) ->
  (forall i j, 0 <= i < p_memsz ph -> 0 <= j < p_memsz ph -> phys_of fr (p_vaddr ph + i) = phys_of fr (p_vaddr ph + j) -> i = j) ->
  (forall i k p, 0 <= i < p_memsz ph -> 0 <= k < blen file -> walk w dir (addr + k) = Some p -> frame p <> fr ((p_vaddr ph + i) / PAGE_SIZE)) ->
  exists ram', (ram ← (if 0 <? p_filesz ph then memcpy w dir ram (p_vaddr ph) (u32 (addr + p_offset ph)) (Z.to_nat (p_filesz ph)) else Some ram);
                ram ← (if p_filesz ph <? p_memsz ph then memset w dir ram (u32 (p_vaddr ph + p_filesz ph)) 0 (Z.to_nat (p_memsz ph - p_filesz ph)) else Some ram); Some (true, w, ram)) = Some (true, w, ram') /\
    (forall i, 0 <= i < p_memsz ph -> ram' (phys_of fr (p_vaddr ph + i)) = seg_byte file ph i) /\
    (forall a, (forall i, 0 <= i < p_memsz ph -> a <> phys_of fr (p_vaddr ph + i)) -> ram' a = ram a).
Proof.
  intros [H1 H2 H3 [H4 H5]] Hfa Hw Hi Hne. unfold PAGE_SIZE in H1. set (va := p_vaddr ph) in *. set (fs := p_filesz ph) in *. set (ms := p_memsz ph) in *. pose proof (fa_range _ _ _ _ Hfa) as [A1 A2].
  assert (E1 : exists ram1, (if 0 <? fs then memcpy w dir ram va (u32 (addr + p_offset ph)) (Z.to_nat fs) else Some ram) = Some ram1 /\
    (forall i, 0 <= i < fs -> ram1 (phys_of fr (va + i)) = default 0 (file !! Z.to_nat (p_offset ph + i))) /\ (forall a, (forall i, 0 <= i < fs -> a <> phys_of fr (va + i)) -> ram1 a = ram a)).
  { destruct (Z.ltb_spec 0 fs); [|exists ram; split; [done|]; split; [lia|done]]. set (src := take (Z.to_nat fs) (drop (Z.to_nat (p_offset ph)) file)).
    assert (Ls : blen src = fs) by (subst src; unfold blen in *; rewrite length_take, length_drop; lia).
    assert (Lk : forall i, 0 <= i < fs -> src !! Z.to_nat i = file !! Z.to_nat (p_offset ph + i)) by (intros i Hi0; subst src; rewrite lookup_take_lt, lookup_drop by lia; f_equal; lia).
    replace (Z.to_nat fs) with (length src) by (unfold blen in Ls; lia). rewrite (u32_id (addr + p_offset ph)) by (unfold is_u32; lia).
    rewrite (memcpy_stores w fr src ram va (addr + p_offset ph)); [|lia|lia|intros i Hi0; apply Hw; lia| |].
    - destruct (store_bytes_spec w fr src ram va) as (ram1 & E & Hs & Ho); [lia|lia|intros i Hi0; apply Hw; lia|intros i j Hi0 Hj0; apply Hi; lia|]. exists ram1. split; [exact E|]. rewrite Ls in Hs, Ho. split; [|done].
      intros i Hi0. by rewrite Hs, Lk by lia.
    - intros i Hi0. rewrite <- Z.add_assoc, (load_byte_at w ram addr file Hfa), Lk by lia. done.
    - intros i j p Hi0 Hj0. rewrite u32_id by (unfold is_u32; lia). rewrite <- Z.add_assoc. apply (Hne i (p_offset ph + j)); lia. }
  destruct E1 as (ram1 & -> & Hs1 & Ho1). rewrite some_bind.
  assert (E2 : exists ram2, (if fs <? ms then memset w dir ram1 (u32 (va + fs)) 0 (Z.to_nat (ms - fs)) else Some ram1) = Some ram2 /\
    (forall i, fs <= i < ms -> ram2 (phys_of fr (va + i)) = 0) /\ (forall a, (forall i, fs <= i < ms -> a <> phys_of fr (va + i)) -> ram2 a = ram1 a)).
  { destruct (Z.ltb_spec fs ms); [|exists ram1; split; [done|]; split; [lia|done]]. rewrite u32_id by (unfold is_u32; lia). rewrite memset_stores. set (src := replicate (Z.to_nat (ms - fs)) (u8 0)).
    assert (Ls : blen src = ms - fs) by (subst src; unfold blen; rewrite length_replicate; lia).
    destruct (store_bytes_spec w fr src ram1 (va + fs)) as (ram2 & E & Hs & Ho); [lia|lia|intros i Hi0; rewrite <- Z.add_assoc; apply Hw; lia|intros i j Hi0 Hj0 Hp; rewrite <- !Z.add_assoc in Hp; apply Hi in Hp; lia|].
    exists ram2. split; [exact E|]. rewrite Ls in Hs, Ho. split.
    - intros i Hi0. replace (va + i) with (va + fs + (i - fs)) by lia. rewrite Hs by lia. subst src. rewrite lookup_replicate_2 by lia. done.
    - intros a Ha. apply Ho. intros i Hi0. rewrite <- Z.add_assoc. apply Ha. lia. }
  destruct E2 as (ram2 & -> & Hs2 & Ho2). rewrite some_bind. exists ram2. split; [done|]. split.
  - intros i Hi0. unfold seg_byte. fold fs. destruct (Z.ltb_spec i fs); [|apply Hs2; lia]. rewrite Ho2; [apply Hs1; lia|]. intros j Hj Hp. apply Hi in Hp; lia.
  - intros a Ha. rewrite Ho2, Ho1; [done|intros i Hi0; apply Ha; lia|intros i Hi0; apply Ha; lia].
Qed.

(** The file lies outside the segment's pages. *)
Definition file_out (addr : Z) (file : bytes) (ph : elf32_phdr_t) : Prop :=
  forall k, 0 <= k < blen file -> (addr + k) / PAGE_SIZE < seg_first ph \/ seg_first ph + seg_pages ph <= (addr + k) / PAGE_SIZE.

Lemma load_segment_spec file addr v ram ph : dir_known v -> seg_ok file ph -> file_at v ram addr file -> file_out addr file ph ->
  exists ok w ram', load_segment v ram addr dir ph = Some (ok, w, ram') /\
  keeps_walk v w (seg_first ph) (seg_pages ph) /\ keeps_ram v ram ram' /\ (2 * seg_pages ph <= free_left v -> ok = true) /\
  (ok = true -> dir_known w /\ grows v w (2 * seg_pages ph) /\ shows w ram' file ph).
Proof.
  intros Hv Hs Hfa Hout. destruct (seg_range file ph Hs) as (R1 & R2 & R3 & R4 & R5 & R6). destruct (seg_flags_spec ph) as (F1 & F2 & F3 & F4). unfold load_segment. fold (seg_flags ph). rewrite R4, R5.
  destruct (map_pages_spec (seg_flags ph) F1 F2 (Z.to_nat (seg_pages ph)) (Z.to_nat 1048576) v (seg_first ph) Hv R1) as (ok & w & E & Hk & Hsucc & Hok); [rewrite Z2Nat.id; lia|apply Z2Nat.inj_le; lia|].
  rewrite Z2Nat.id in E, Hk, Hsucc, Hok by done. rewrite E, some_bind. destruct ok; cbn [negb].
  2: { exists false, w, ram. split; [done|]. split; [done|]. split; [by intros a|]. split; [done|done]. }
  destruct (Hok eq_refl) as (Hw & Hg & fr & [Mf Mw Mi]).
  assert (Hin : forall i j, 0 <= i < p_memsz ph -> 0 <= j < p_memsz ph -> phys_of fr (p_vaddr ph + i) = phys_of fr (p_vaddr ph + j) -> i = j).
  { intros i j Hi0 Hj0 Hp. apply (phys_of_inj fr (seg_first ph) (seg_pages ph)) in Hp; [lia|done|by apply R6|by apply R6]. }
  assert (Hsame : forall k, 0 <= k < blen file -> walk w dir (addr + k) = walk v dir (addr + k)).
  { intros k Hk0. apply Hk; [pose proof (fa_range _ _ _ _ Hfa); unfold is_u32; lia|]. right. by apply Hout. }
  assert (Hfw : file_at w ram addr file) by (apply (file_at_kept v w ram ram); [done|by intros a|done|apply Hg]).
  destruct (segment_stores file addr ph w ram fr Hs Hfw) as (ram' & -> & Hb & Ho); [|exact Hin| |].
  { intros i Hi0. destruct (R6 i Hi0) as [U1 U2]. destruct (Mw _ U1 U2) as (p & H1 & _ & _ & H2). by exists p. }
  { intros i k p Hi0 Hk0 Ep Ef. rewrite Hsame in Ep by done. destruct (fa_bytes _ _ _ _ Hfa k Hk0) as (p' & Ep' & _ & Hu & _). rewrite Ep in Ep'. injection Ep' as <-.
    destruct (R6 i Hi0) as [_ U2]. destruct (Mf _ U2) as (_ & Hn & _). rewrite <- Ef, Hu in Hn. done. }
  exists true, w, ram'. split; [done|]. split; [done|]. split; [|split; [done|]].
  - intros a Ha Hu. apply Ho. intros i Hi0 ->. rewrite phys_page in Hu. destruct (R6 i Hi0) as [_ U2]. destruct (Mf _ U2) as (_ & Hn & _). by rewrite Hu in Hn.
  - intros _. split; [done|]. split; [done|]. intros i Hi0. destruct (R6 i Hi0) as [U1 U2]. destruct (Mw _ U1 U2) as (p & H1 & H2 & H3 & H4). destruct (Mf _ U2) as (G1 & _ & G3). exists p. split; [done|].
    rewrite F3 in H3. rewrite F4 in H2. split; [done|]. split; [done|]. rewrite H4. split; [done|]. split; [lia|]. by apply Hb.
Qed.

(** ** The program *)

Fixpoint headers (file : bytes) (phoff i : Z) (n : nat) : option (list elf32_phdr_t) :=
  match n with
  | O => Some []
  | S n => ph ← read_phdr file phoff i; phs ← headers file phoff (i + 1) n; Some (ph :: phs)
  end.
Definition segments (phs : list elf32_phdr_t) : list elf32_phdr_t := filter (fun ph => p_type ph = PT_LOAD) phs.

(** In pages of their own. *)
Definition seg_apart (a b : elf32_phdr_t) : Prop := seg_first a + seg_pages a <= seg_first b \/ seg_first b + seg_pages b <= seg_first a.
Fixpoint all_apart (l : list elf32_phdr_t) : Prop := match l with [] => True | x :: l => Forall (seg_apart x) l /\ all_apart l end.
Definition seg_out (va : Z) (ph : elf32_phdr_t) : Prop := va / PAGE_SIZE < seg_first ph \/ seg_first ph + seg_pages ph <= va / PAGE_SIZE.
Definition keeps_outside (v w : vmm_t) (l : list elf32_phdr_t) : Prop := forall dir1 va, is_u32 va -> dir1 <> dir \/ Forall (seg_out va) l -> walk w dir1 va = walk v dir1 va.
Definition all_pages (l : list elf32_phdr_t) : Z := foldr (fun ph n => seg_pages ph + n) 0 l.

Lemma shows_kept v w ram ram' k file ph l : seg_ok file ph -> shows v ram file ph -> keeps_outside v w l -> keeps_ram v ram ram' -> grows v w k -> Forall (seg_apart ph) l -> shows w ram' file ph.
Proof.
  intros Hs Hsh Hk Hr (_ & _ & Hg) Ha i Hi. destruct (Hsh i Hi) as (p & H1 & H2 & H3 & H4 & H5 & H6). destruct (seg_range file ph Hs) as (_ & _ & _ & _ & _ & R). destruct (R i Hi) as [U1 U2]. exists p.
  split. { rewrite (Hk dir _ U1); [done|]. right. eapply Forall_impl; [exact Ha|]. intros b Hb. unfold seg_apart, seg_out in *. lia. }
  split; [done|]. split; [done|]. split; [apply Hg; [lia|done]|]. split; [done|]. rewrite Hr; [done|unfold PAGE_SIZE; zlia|]. rewrite Z.div_add_l, (Z.div_small (_ mod _)), Z.add_0_r by (unfold PAGE_SIZE; zlia). done.
Qed.

Lemma load_headers_spec file addr h phoff n : read_ehdr file = Some h -> forall fuel i v ram phs, (n < fuel)%nat -> e_phnum h = i + Z.of_nat n ->
  headers file phoff i n = Some phs -> dir_known v -> file_at v ram addr file -> Forall (file_out addr file) (segments phs) -> Forall (seg_ok file) (segments phs) -> all_apart (segments phs) ->
  exists ok w ram', load_headers fuel i v ram addr (u32 (addr + phoff)) dir = Some (ok, w, ram') /\ keeps_outside v w (segments phs) /\ keeps_ram v ram ram' /\ (2 * all_pages (segments phs) <= free_left v -> ok = true) /\
    (ok = true -> dir_known w /\ grows v w (2 * all_pages (segments phs)) /\ Forall (shows w ram' file) (segments phs)).
Proof.
  intros He. induction n as [|n IH]; intros fuel i v ram phs Hfu Hn Hh Hv Hfa Hfo Hok Hap; (destruct fuel as [|fuel]; [lia|]); cbn [headers load_headers] in *;
    destruct (ehdr_reads v ram addr file Hfa h He) as (_ & _ & _ & -> & _); rewrite some_bind.
  { rewrite (proj2 (Z.ltb_ge _ _)) by lia. injection Hh as <-. exists true, v, ram. split; [done|]. split; [done|]. split; [by intros a|]. split; [done|]. intros _. split; [done|]. split; [split; [done|]; split; [cbn; lia|done]|constructor]. }
  rewrite (proj2 (Z.ltb_lt _ _)) by lia. destruct (read_phdr file phoff i) as [ph|] eqn:Eh; [|done]. rewrite some_bind in Hh.
  destruct (phdr_reads v ram addr file Hfa phoff i ph Eh) as [Ety Eph]. cbv zeta in Ety, Eph. rewrite Ety, some_bind.
  destruct (headers file phoff (i + 1) n) as [rest|] eqn:Er; [|done]. rewrite some_bind in Hh. injection Hh as <-.
  unfold segments in Hok, Hap, Hfo |- *. rewrite filter_cons in Hok, Hap, Hfo |- *. destruct (decide (p_type ph = PT_LOAD)) as [Ep|Ep].
  2: { rewrite (proj2 (Z.eqb_neq _ _) Ep), some_bind. cbn [negb]. apply (IH fuel (i + 1) v ram rest); try done; lia. }
  rewrite (proj2 (Z.eqb_eq _ _) Ep), Eph, some_bind. fold (segments rest) in *. apply Forall_cons in Hok as [Hs Hok]. apply Forall_cons in Hfo as [Hfs Hfo]. destruct Hap as [Ha Hap].
  destruct (load_segment_spec file addr v ram ph Hv Hs Hfa Hfs) as (ok & w & ram1 & E & Hk & Hr & Hsu & Hgo). rewrite E, some_bind.
  assert (Hko : keeps_outside v w [ph]) by (intros dir1 va Hu Hd; apply Hk; [done|]; destruct Hd as [?|Hd]; [by left|]; apply Forall_cons in Hd as [Hd _]; unfold seg_out in Hd; lia).
  assert (Hpos : 0 <= all_pages (segments rest)) by (clear - Hok; induction Hok as [|x l Hx _ IHl]; cbn [all_pages foldr]; [lia|]; destruct (seg_range file x Hx) as (_ & ? & _); unfold all_pages in IHl; lia).
  destruct ok; cbn [negb].
  2: { exists false, w, ram1. split; [done|]. split; [intros dir1 va Hu Hd; apply Hko; [done|]; destruct Hd as [?|Hd]; [by left|]; apply Forall_cons in Hd as [Hd _]; right; by constructor|].
       split; [done|]. split; [|done]. intros Hf. cbn [all_pages foldr] in Hf. unfold all_pages in Hpos. apply Hsu. lia. }
  destruct (Hgo eq_refl) as (Hw & Hg & Hsh).
  assert (Hfw : file_at w ram1 addr file).
  { apply (file_at_kept v w ram ram1); [done|done| |apply Hg]. intros k Hk0. apply Hk; [pose proof (fa_range _ _ _ _ Hfa); unfold is_u32; lia|]. right. by apply Hfs. }
  destruct (IH fuel (i + 1) w ram1 rest ltac:(lia) ltac:(lia) Er Hw Hfw Hfo Hok Hap) as (ok & w2 & ram2 & E2 & Hk2 & Hr2 & Hsu2 & Hgo2). exists ok, w2, ram2. split; [exact E2|].
  split; [|split; [|split]].
  - intros dir1 va Hu Hd. transitivity (walk w dir1 va); [apply Hk2|apply Hko]; try done; (destruct Hd as [?|Hd]; [by left|]; apply Forall_cons in Hd as [H1 H2]; right; by auto).
  - intros a Ha0 Hu. rewrite Hr2, Hr; [done|done|done|done|]. apply Hg; [unfold PAGE_SIZE; zlia|done].
  - intros Hf. apply Hsu2. destruct Hg as (Ht & Hu & _). unfold free_left in *. cbn [all_pages foldr] in Hf. unfold all_pages in *. lia.
  - intros Et. destruct (Hgo2 Et) as (Hw2 & Hg2 & Hsh2). split; [done|]. split; [replace (2 * all_pages (ph :: segments rest)) with (2 * seg_pages ph + 2 * all_pages (segments rest)) by (cbn [all_pages foldr]; unfold all_pages; lia); by apply (grows_trans v w w2)|].
    constructor; [|done]. by apply (shows_kept w w2 ram1 ram2 (2 * all_pages (segments rest)) file ph (segments rest)).
Qed.
End Load.

(** An executable with its program headers. *)
Definition elf_program (file : bytes) (h : elf32_ehdr_t) (phs : list elf32_phdr_t) : Prop :=
  Forall is_u8 file /\ read_ehdr file = Some h /\ take 4 (e_ident h) = [127; 69; 76; 70] /\ e_type h = ET_EXEC /\ headers file (e_phoff h) 0 (Z.to_nat (e_phnum h)) = Some phs.

(** The count of program headers is a 16-bit field. *)
Lemma phnum_range file h : Forall is_u8 file -> read_ehdr file = Some h -> 0 <= e_phnum h <= 65535.
Proof.
  intros Hu. unfold read_ehdr. intros (b & Hb & [= <-])%bind_Some. apply ld_bytes_Some in Hb as (_ & _ & _ & ->). cbn [e_phnum]. unfold le16_at.
  assert (Hd : Forall is_u8 (drop 44 (take (Z.to_nat 52) (drop (Z.to_nat 0) file)))) by (by apply Forall_drop, Forall_take, Forall_drop).
  destruct (drop 44 _) as [|b0 [|b1 r]]; [lia|lia|]. rewrite !Forall_cons in Hd. unfold is_u8 in Hd. lia.
Qed.

(** C16. Program loader: let an executable lie in memory that is in use, and its loadable
    segments between page 0 and the last page, in pages of their own and apart from the
    file's, each with a file part inside the file and not larger than the memory part.  It
    is loaded when two pages are free for every page of it: the entry point is returned,
    every byte of every segment is in the address space, the file's or 0, with the
    segment's right to write; the page tables stay well formed.  Loaded or not, no byte of
    a page that was in use changes and no other address of any directory is translated
    differently. *)
Theorem elf_load_exact v ram dir addr file h phs : dir_known dir v -> file_at dir v ram addr file -> elf_program file h phs ->
  Forall (seg_ok file) (segments phs) -> Forall (file_out addr file) (segments phs) -> all_apart (segments phs) ->
  exists r w ram', elf_load v ram addr dir = Some (r, w, ram') /\ keeps_ram v ram ram' /\ keeps_outside dir v w (segments phs) /\ (r <> 0 -> r = e_entry h) /\
    (2 * all_pages (segments phs) <= free_left v -> r = e_entry h) /\ (r <> 0 -> dir_known dir w /\ Forall (shows dir w ram' file) (segments phs)).
Proof.
  intros Hv Hfa (Hu8 & Eh & Em & Et & Ehs) Hok Hfo Hap. destruct (ehdr_reads dir v ram addr file Hfa h Eh) as (R1 & _ & R3 & _ & R5).
  assert (E1 : elf_validate v dir ram addr = Some 1).
  { unfold elf_validate. pose proof (fa_range _ _ _ _ _ Hfa) as [A1 _]. rewrite (proj2 (Z.eqb_neq addr 0)) by lia. rewrite (R5 Em), some_bind. cbn [negb]. rewrite R1, some_bind, Et. done. }
  unfold elf_load. rewrite E1, some_bind. change (negb (c_true 1)) with false. cbv iota. rewrite R3, some_bind.
  assert (Hpn : 0 <= e_phnum h <= 65535) by by apply (phnum_range file).
  destruct (load_headers_spec dir file addr h (e_phoff h) (Z.to_nat (e_phnum h)) Eh (Z.to_nat 65537) 0 v ram phs ltac:(lia) ltac:(lia) Ehs Hv Hfa Hfo Hok Hap) as (ok & w & ram' & -> & Hk & Hr & Hsu & Hgo). rewrite some_bind.
  destruct ok; cbn [negb].
  - destruct (Hgo eq_refl) as (Hw & Hg & Hsh).
    assert (Hfw : file_at dir w ram' addr file).
    { apply (file_at_kept dir v w ram ram'); [done|done| |apply Hg]. intros k Hk0. apply Hk; [pose proof (fa_range _ _ _ _ _ Hfa); unfold is_u32; lia|]. right.
      eapply Forall_impl; [exact Hfo|]. intros ph Hp. by apply Hp. }
    destruct (ehdr_reads dir w ram' addr file Hfw h Eh) as (_ & -> & _). rewrite some_bind. exists (e_entry h), w, ram'. by repeat (split; [done|]).
  - exists 0, w, ram'. split; [done|]. split; [done|]. split; [done|]. split; [done|]. split; [|done]. intros Hf. by specialize (Hsu Hf).
Qed.

(** A segment that claims no memory is not refused: its file part is written to wherever the
    address already leads, the kernel's own pages included. *)
Theorem segment_without_memory v ram file_data dir ph p b : is_u32 (p_vaddr ph + 4095) -> 0 <= p_vaddr ph -> p_vaddr ph mod PAGE_SIZE = 0 -> p_memsz ph = 0 -> p_filesz ph = 1 ->
  load_byte v dir ram (u32 (file_data + p_offset ph)) = Some b -> walk v dir (p_vaddr ph) = Some p -> load_segment v ram file_data dir ph = Some (true, v, ram_set ram (frame p * PAGE_SIZE) b).
Proof.
  intros Hu H0 Hal Hm Hf Hl Hw. unfold load_segment. rewrite Hm, Hf. cbv zeta. rewrite Z.add_0_r, (u32_id (p_vaddr ph + 4095)) by done. rewrite !page_floor_spec by (unfold is_u32 in *; lia).
  assert (E : (p_vaddr ph + 4095) / PAGE_SIZE = p_vaddr ph / PAGE_SIZE) by (unfold PAGE_SIZE in *; zlia). rewrite E.
  assert (Em : forall fuel fl, map_pages fuel v dir (p_vaddr ph / PAGE_SIZE * PAGE_SIZE) (p_vaddr ph / PAGE_SIZE * PAGE_SIZE) fl = Some (true, v)) by (intros [|fuel] fl; cbn [map_pages]; by rewrite Z.ltb_irrefl).
  rewrite Em, some_bind. cbn [negb Z.ltb Z.compare]. change (Z.to_nat 1) with 1%nat. cbn [memcpy]. rewrite Hl, some_bind. unfold store_byte. rewrite (u32_id (p_vaddr ph)) by (unfold is_u32 in *; lia).
  rewrite Hw, some_bind, Hal, Z.add_0_r, some_bind, some_bind. done.
Qed.

(** ** Witnesses *)

(** One segment of six bytes, three of them in the file, at 0x40000000. *)
Definition demo_elf : bytes :=
  [127; 69; 76; 70] ++ replicate 12 0 ++ [2; 0; 3; 0; 1; 0; 0; 0] ++ le32 1073741824 ++ le32 52 ++ replicate 12 0 ++ [1; 0] ++ replicate 6 0
  ++ le32 1 ++ le32 84 ++ le32 1073741824 ++ le32 0 ++ le32 3 ++ le32 6 ++ le32 6 ++ le32 4096 ++ [11; 22; 33].
Definition demo_ehdr : elf32_ehdr_t := mk_ehdr ([127; 69; 76; 70] ++ replicate 12 0) 2 1073741824 52 1.
Definition demo_phdr : elf32_phdr_t := mk_phdr 1 84 1073741824 3 6 6.

(** The file at 0x20000000, in frame 2. *)
Definition file_vmm : vmm_t := snd (vmm_map_page_in_directory small_vmm 2 8192 536870912 5).
Definition file_ram (a : Z) : Z := if (8192 <=? a) && (a <? 8192 + blen demo_elf) then default 0 (demo_elf !! Z.to_nat (a - 8192)) else 7.

Lemma file_vmm_known : dir_known 2 file_vmm.
Proof.
  pose proof (map_page_user_spec small_vmm 2 (slot0_dir 1 8192) 8192 536870912 5 small_vmm_wf
    ltac:(lia) ltac:(discriminate) eq_refl ltac:(lia) ltac:(lia) ltac:(unfold is_u32; lia) ltac:(vm_compute; discriminate)) as H.
  unfold file_vmm. assert (E : fst (vmm_map_page_in_directory small_vmm 2 8192 536870912 5) = 0) by (by vm_compute).
  destruct (vmm_map_page_in_directory small_vmm 2 8192 536870912 5) as [rc w]. cbn [fst snd] in *. destruct H as (H1 & [(_ & _ & Hk & d & Hd & _)|(-> & _)]); [|done].
  split; [exact H1|]. split; [lia|]. split; [rewrite Hk; discriminate|by exists d].
Qed.

Lemma file_vmm_at : file_at 2 file_vmm file_ram 536870912 demo_elf.
Proof.
  assert (Hl : blen demo_elf = 87) by (by vm_compute). split; [lia|]. intros i Hi. rewrite Hl in Hi.
  assert (Hw : exists p, walk file_vmm 2 536870912 = Some p /\ frame p = 2) by (eexists; split; by vm_compute). destruct Hw as (p & Hw & Hp). exists p.
  assert (Hd : (536870912 + i) / 4096 = 131072) by zlia. assert (Hm : (536870912 + i) mod 4096 = i) by zlia.
  split; [|rewrite Hp; split; [done|]; split; [by vm_compute|]].
  - rewrite <- Hw. unfold walk. unfold table_index, page_index, PAGE_SIZE. by rewrite Hd.
  - unfold PAGE_SIZE. rewrite Hm. unfold file_ram. rewrite Hl, (proj2 (Z.leb_le _ _)), (proj2 (Z.ltb_lt _ _)) by lia. cbn [andb]. do 3 f_equal. lia.
Qed.

Lemma elf_load_exact_witness : exists w ram', elf_load file_vmm file_ram 536870912 2 = Some (1073741824, w, ram') /\
  exists p, walk w 2 1073741825 = Some p /\ user p = 1 /\ rw p = 1 /\ ram' (frame p * 4096 + 1) = 22.
Proof.
  assert (Hp : elf_program demo_elf demo_ehdr [demo_phdr]) by (split; [apply (bool_decide_unpack _); by vm_compute|]; split; [by vm_compute|]; split; [done|]; split; [done|]; by vm_compute).
  assert (Hs : Forall (seg_ok demo_elf) (segments [demo_phdr])) by (constructor; [|constructor]; split; vm_compute; repeat split; intros; discriminate).
  assert (Hl : blen demo_elf = 87) by (by vm_compute).
  assert (Ho : Forall (file_out 536870912 demo_elf) (segments [demo_phdr])).
  { constructor; [|constructor]. intros k Hk. rewrite Hl in Hk. left. change (seg_first demo_phdr) with 262144. unfold PAGE_SIZE. zlia. }
  destruct (elf_load_exact file_vmm file_ram 2 536870912 demo_elf demo_ehdr [demo_phdr] file_vmm_known file_vmm_at Hp Hs Ho) as (r & w & ram' & E & _ & _ & _ & Hsu & Hgo); [by split; [constructor|]|].
  assert (Hr : r = 1073741824) by (apply Hsu; apply (bool_decide_unpack _); by vm_compute). exists w, ram'. split; [rewrite <- Hr; exact E|].
  destruct Hgo as [_ Hsh]; [by rewrite Hr|]. apply Forall_cons in Hsh as [Hsh _]. destruct (Hsh 1) as (p & H1 & H2 & H3 & _ & _ & H4); [by split|]. exists p. split; [exact H1|]. split; [exact H2|]. split; [exact H3|exact H4].
Defined.

(** The kernel's page at 0x1000 is overwritten: the table of slot 0 maps it to frame 5, and
    the file's page at 0x2000 to frame 6. *)
Definition kernel_mapped : vmm_t := set_tables small_vmm {[8192 := <[1%nat := mk_page 1 1 0 0 0 0 5]> (<[2%nat := mk_page 1 1 0 0 0 0 6]> zero_table)]}.
Definition evil_phdr : elf32_phdr_t := mk_phdr 1 0 4096 1 0 6.

Lemma segment_without_memory_witness : walk kernel_mapped 2 4096 = walk kernel_mapped 1 4096 /\
  load_segment kernel_mapped (fun _ => 66) 8192 2 evil_phdr = Some (true, kernel_mapped, ram_set (fun _ => 66) 20480 66).
Proof.
  split; [by vm_compute|]. assert (Hu : is_u32 (p_vaddr evil_phdr + 4095)) by (apply (bool_decide_unpack _); by vm_compute).
  exact (segment_without_memory kernel_mapped (fun _ => 66) 8192 2 evil_phdr (mk_page 1 1 0 0 0 0 5) 66 Hu (Zle_bool_imp_le 0 4096 eq_refl) eq_refl eq_refl eq_refl ltac:(by vm_compute) ltac:(by vm_compute)).
Defined.
