(* ===== verification/OutCapture.v ===== *)
(** * Output capture: kernel/out_capture.c

    The one capture of program output the kernel keeps for a desktop window:
    its owner, the tracked tasks, and a bounded buffer read oldest first. *)

From Stdlib Require Import ZArith Lia.
From stdpp Require Import base numbers option tactics list.
From S2P Require Import Prelude.

Definition OS_OUTCAP_MAX : Z := 16384.
Definition OS_OUTCAP_PIDS : Z := 16.
Definition OS_OUTCAP_BAD : Z := -1.
Definition OS_OUTCAP_BUSY : Z := -2.

(** The static variables of the file. *)
Record outcap_t := mk_outcap {
  g_owner : Z; g_buf : list Z; g_n : Z; g_total : Z; g_dropped : Z; g_untracked : Z;
  g_pids : list Z; g_npids : Z
}.

Definition out_cap_reset (s : outcap_t) : outcap_t := mk_outcap 0 (g_buf s) 0 0 0 0 (g_pids s) 0.

Definition out_cap_begin (s : outcap_t) (owner : Z) : Z * outcap_t :=
  if owner <=? 0 then (OS_OUTCAP_BAD, s)
  else if (0 <? g_owner s) && negb (g_owner s =? owner) then (OS_OUTCAP_BUSY, s)
  else
    let s := out_cap_reset s in
    (0, mk_outcap owner (g_buf s) (g_n s) (g_total s) (g_dropped s) (g_untracked s) (g_pids s) (g_npids s)).

Definition out_cap_end (s : outcap_t) (owner : Z) : Z * outcap_t :=
  if (owner <=? 0) || negb (owner =? g_owner s) then (OS_OUTCAP_BAD, s)
  else (i32 (g_dropped s), out_cap_reset s).

(** Index of the first tracked slot holding [pid]. *)
Fixpoint pid_index (pids : list Z) (n : nat) (pid : Z) : option nat :=
  match n, pids with
  | S n, p :: pids => if p =? pid then Some 0%nat else S <$> pid_index pids n pid
  | _, _ => None
  end.

Definition out_cap_tracked (s : outcap_t) (pid : Z) : Z :=
  if (g_owner s <=? 0) || (pid <=? 0) then 0
  else match pid_index (g_pids s) (Z.to_nat (g_npids s)) pid with Some _ => 1 | None => 0 end.

Definition out_cap_child (s : outcap_t) (parent child : Z) : Z * outcap_t :=
  if (g_owner s <=? 0) || (child <=? 0) || (child =? g_owner s) then (0, s)
  else if negb (parent =? g_owner s) && negb (c_true (out_cap_tracked s parent)) then (0, s)
  else if c_true (out_cap_tracked s child) then (1, s)
  else if OS_OUTCAP_PIDS <=? g_npids s then
    (0, mk_outcap (g_owner s) (g_buf s) (g_n s) (g_total s) (g_dropped s) (u32 (g_untracked s + 1))
          (g_pids s) (g_npids s))
  else
    (1, mk_outcap (g_owner s) (g_buf s) (g_n s) (g_total s) (g_dropped s) (g_untracked s)
          (<[Z.to_nat (g_npids s) := child]> (g_pids s)) (g_npids s + 1)).

Definition out_cap_put (s : outcap_t) (pid c : Z) : Z * outcap_t :=
  if negb (c_true (out_cap_tracked s pid)) then (0, s)
  else if g_n s <? OS_OUTCAP_MAX then
    (1, mk_outcap (g_owner s) (<[Z.to_nat (g_n s) := c]> (g_buf s)) (g_n s + 1) (u32 (g_total s + 1))
          (g_dropped s) (g_untracked s) (g_pids s) (g_npids s))
  else
    (1, mk_outcap (g_owner s) (g_buf s) (g_n s) (u32 (g_total s + 1)) (u32 (g_dropped s + 1))
          (g_untracked s) (g_pids s) (g_npids s)).

(** [for (k = take; k < g_n; k++) g_buf[k - take] = g_buf[k]]: the source index
    is ahead of the destination, so the bytes read are the original ones. *)
Definition shift_front (buf : list Z) (n first : Z) : list Z :=
  take (Z.to_nat (n - first)) (drop (Z.to_nat first) buf) ++ drop (Z.to_nat (n - first)) buf.

(** [dst] is the caller's array of at least [max] bytes. *)
Definition out_cap_read (s : outcap_t) (caller : Z) (dst : ptr (list Z)) (max : Z)
    : option (Z * ptr (list Z) * outcap_t) :=
  match dst with
  | NULL => Some (OS_OUTCAP_BAD, dst, s)
  | Some d =>
      if (caller <=? 0) || negb (caller =? g_owner s) || (max <=? 0) then Some (OS_OUTCAP_BAD, dst, s)
      else
        let k := if max - 1 <? g_n s then max - 1 else g_n s in
        if Z.of_nat (length d) <? k + 1 then None
        else
          let d := take (Z.to_nat k) (g_buf s) ++ drop (Z.to_nat k) d in
          Some (k, Some (<[Z.to_nat k := 0]> d),
                mk_outcap (g_owner s) (shift_front (g_buf s) (g_n s) k) (g_n s - k) (g_total s)
                  (g_dropped s) (g_untracked s) (g_pids s) (g_npids s))
  end.

Definition out_cap_pid_count (s : outcap_t) : Z := if 0 <? g_owner s then g_npids s else 0.
Definition out_cap_pid_at (s : outcap_t) (k : Z) : Z :=
  if (0 <=? k) && (k <? g_npids s) then default 0 (g_pids s !! Z.to_nat k) else 0.

Definition out_cap_forget (s : outcap_t) (pid : Z) : Z * outcap_t :=
  if (g_owner s <=? 0) || (pid <=? 0) then (0, s)
  else match pid_index (g_pids s) (Z.to_nat (g_npids s)) pid with
  | None => (0, s)
  | Some k =>
      (1, mk_outcap (g_owner s) (g_buf s) (g_n s) (g_total s) (g_dropped s) (g_untracked s)
            (<[k := default 0 (g_pids s !! Z.to_nat (g_npids s - 1))]> (g_pids s)) (g_npids s - 1))
  end.

Definition out_cap_task_gone (s : outcap_t) (pid : Z) : Z * outcap_t :=
  if (0 <? g_owner s) && (pid =? g_owner s) then (1, out_cap_reset s)
  else let '(found, s) := out_cap_forget s pid in (if c_true found then 2 else 0, s).

(** ** The capture as a log *)

Record outcap_wf (s : outcap_t) : Prop := {
  ow_buf : Z.of_nat (length (g_buf s)) = OS_OUTCAP_MAX;
  ow_n : 0 <= g_n s <= OS_OUTCAP_MAX;
  ow_pids : Z.of_nat (length (g_pids s)) = OS_OUTCAP_PIDS;
  ow_npids : 0 <= g_npids s <= OS_OUTCAP_PIDS;
  ow_nodup : NoDup (take (Z.to_nat (g_npids s)) (g_pids s))
}.

(** Bytes kept and not read yet, oldest first; the tracked tasks. *)
Definition kept (s : outcap_t) : list Z := take (Z.to_nat (g_n s)) (g_buf s).
Definition tracked (s : outcap_t) : list Z := take (Z.to_nat (g_npids s)) (g_pids s).

Lemma pid_index_Some l n pid k :
  pid_index l n pid = Some k -> (k < n)%nat /\ l !! k = Some pid.
Proof.
  revert l k. induction n as [|n IH]; intros [|p l] k; cbn [pid_index]; try done.
  destruct (Z.eqb_spec p pid) as [->|Hne]; [intros [= <-]; split; [lia|done]|].
  destruct (pid_index l n pid) as [j|] eqn:E; [|done]. intros [= <-].
  destruct (IH _ _ E) as [? ?]. split; [lia|done].
Qed.

Lemma pid_index_None l n pid : pid_index l n pid = None <-> pid ∉ take n l.
Proof.
  revert l. induction n as [|n IH]; intros [|p l]; cbn [pid_index take]; try (split; [intros _; apply not_elem_of_nil|done]).
  rewrite not_elem_of_cons. destruct (Z.eqb_spec p pid) as [->|Hne]; [naive_solver|].
  rewrite <- IH. destruct (pid_index l n pid); naive_solver.
Qed.

Lemma tracked_spec s pid :
  out_cap_tracked s pid = b2z ((0 <? g_owner s) && (0 <? pid) && bool_decide (pid ∈ tracked s)).
Proof.
  unfold out_cap_tracked. rewrite !Z.ltb_antisym.
  destruct (g_owner s <=? 0); [done|]. destruct (pid <=? 0); [done|]. cbn [orb negb andb].
  destruct (pid_index _ _ _) as [k|] eqn:E.
  - apply pid_index_Some in E as [Hk Hl]. rewrite bool_decide_true; [done|].
    apply list_elem_of_lookup_2 with k. unfold tracked. by rewrite lookup_take_lt.
  - apply pid_index_None in E. rewrite bool_decide_false; [done|exact E].
Qed.

Lemma take_insert_next (l : list Z) n x :
  (n < length l)%nat -> take (S n) (<[n := x]> l) = take n l ++ [x].
Proof.
  intros H. rewrite (take_S_r _ _ x) by (by apply list_lookup_insert_eq). by rewrite take_insert_ge by lia.
Qed.

Lemma kept_length s : outcap_wf s -> Z.of_nat (length (kept s)) = g_n s.
Proof. intros [Hb Hn _ _ _]. unfold kept. rewrite length_take. lia. Qed.

Lemma shift_front_length buf n first :
  0 <= first <= n -> n <= Z.of_nat (length buf) -> length (shift_front buf n first) = length buf.
Proof. intros H1 H2. unfold shift_front. rewrite length_app, length_take, !length_drop. lia. Qed.

Lemma shift_front_take buf n first :
  0 <= first <= n -> n <= Z.of_nat (length buf) ->
  take (Z.to_nat (n - first)) (shift_front buf n first)
  = drop (Z.to_nat first) (take (Z.to_nat n) buf).
Proof.
  intros H1 H2. unfold shift_front. rewrite take_app_length' by (rewrite length_take, length_drop; lia).
  rewrite take_drop_commute. do 2 f_equal. lia.
Qed.

(** What the owner's read leaves in [dst]. *)
Lemma read_dst (src d : list Z) k :
  (k < length d)%nat -> (k <= length src)%nat ->
  take (S k) (<[k := 0]> (take k src ++ drop k d)) = take k src ++ [0].
Proof.
  intros H1 H2. rewrite take_insert_next by (rewrite length_app, length_take, length_drop; lia).
  by rewrite take_app_length' by (rewrite length_take; lia).
Qed.

(** The capture is a bounded log of its children's output: a byte printed by
    a tracked task is appended to the kept bytes while there is room and counted
    as dropped otherwise; a byte of any other task is left to the console; a read
    by the owner returns the oldest kept bytes in order, NUL-terminated inside
    the caller's buffer, and removes exactly those; a read by anyone else changes
    nothing.  The bounds of the two arrays hold throughout. *)
Theorem capture_is_bounded_log :
  forall (s : outcap_t) (pid c caller max : Z) (dst : list Z),
    outcap_wf s -> 0 < max -> max <= Z.of_nat (length dst) ->
    (let '(r, s') := out_cap_put s pid c in
     outcap_wf s' /\ tracked s' = tracked s /\
     if bool_decide (0 < g_owner s /\ 0 < pid /\ pid ∈ tracked s)
     then r = 1 /\
          if g_n s <? OS_OUTCAP_MAX
          then kept s' = kept s ++ [c] /\ g_dropped s' = g_dropped s
          else kept s' = kept s /\ g_dropped s' = u32 (g_dropped s + 1)
     else r = 0 /\ s' = s) /\
    exists r dst' s',
      out_cap_read s caller (Some dst) max = Some (r, Some dst', s') /\ outcap_wf s' /\
      if bool_decide (0 < caller /\ caller = g_owner s)
      then r = Z.min (max - 1) (Z.of_nat (length (kept s))) /\
           take (S (Z.to_nat r)) dst' = take (Z.to_nat r) (kept s) ++ [0] /\
           kept s' = drop (Z.to_nat r) (kept s) /\ tracked s' = tracked s
      else r = OS_OUTCAP_BAD /\ dst' = dst /\ s' = s.
Proof.
  intros s pid c caller max dst Hwf Hmax Hdst. pose proof (kept_length s Hwf) as Hk.
  destruct Hwf as [Hb Hn Hp Hnp Hnd]. split.
  - unfold out_cap_put. rewrite tracked_spec.
    destruct (bool_decide (0 < g_owner s /\ 0 < pid /\ pid ∈ tracked s)) eqn:E.
    + apply bool_decide_eq_true in E as (H1 & H2 & H3).
      rewrite (proj2 (Z.ltb_lt _ _) H1), (proj2 (Z.ltb_lt _ _) H2), bool_decide_true by done.
      cbn [andb b2z c_true negb Z.eqb]. destruct (Z.ltb_spec (g_n s) OS_OUTCAP_MAX).
      * split; [constructor; cbn; rewrite ?length_insert; try done; lia|]. split; [done|]. split; [done|].
        split; [|done]. unfold kept. cbn. replace (Z.to_nat (g_n s + 1)) with (S (Z.to_nat (g_n s))) by lia.
        apply take_insert_next. lia.
      * split; [constructor; cbn; done|]. done.
    + rewrite bool_decide_eq_false in E.
      replace (b2z _) with 0; [cbn; split; [by constructor|done]|].
      destruct (Z.ltb_spec 0 (g_owner s)), (Z.ltb_spec 0 pid); try done. cbn [andb].
      rewrite bool_decide_false; [done|]. naive_solver.
  - unfold out_cap_read. destruct (bool_decide (0 < caller /\ caller = g_owner s)) eqn:E.
    + apply bool_decide_eq_true in E as [H1 H2].
      rewrite (proj2 (Z.leb_gt _ _) H1), (proj2 (Z.eqb_eq _ _) H2), (proj2 (Z.leb_gt _ _) Hmax). cbn [orb negb].
      set (k := if max - 1 <? g_n s then max - 1 else g_n s).
      assert (Hkd : k = Z.min (max - 1) (g_n s)) by (unfold k; destruct (Z.ltb_spec (max - 1) (g_n s)); lia).
      rewrite (proj2 (Z.ltb_ge _ _)) by lia. do 3 eexists. split; [reflexivity|].
      split; [constructor; cbn; rewrite ?shift_front_length by lia; try done; lia|].
      split; [lia|]. split; [|split; [|done]].
      * rewrite read_dst by lia. unfold kept. rewrite take_take. do 2 f_equal. lia.
      * unfold kept. cbn. apply shift_front_take; lia.
    + assert (((caller <=? 0) || negb (caller =? g_owner s)) = true) as Hc.
      { rewrite bool_decide_eq_false in E. destruct (Z.leb_spec caller 0); [done|]. cbn [orb].
        destruct (Z.eqb_spec caller (g_owner s)); [|done]. exfalso. apply E. lia. }
      rewrite Hc. cbn [orb]. do 3 eexists. split; [reflexivity|]. split; [by constructor|done].
Qed.

(** A capture opened by task 9 that tracks task 11. *)
Definition demo_capture : outcap_t :=
  mk_outcap 9 (replicate (Z.to_nat OS_OUTCAP_MAX) 0) 0 0 0 0 (11 :: replicate 15 0) 1.

Lemma demo_capture_wf : outcap_wf demo_capture.
Proof.
  constructor; cbn [demo_capture g_buf g_n g_pids g_npids].
  - rewrite length_replicate. vm_compute. reflexivity.
  - unfold OS_OUTCAP_MAX. lia.
  - vm_compute. reflexivity.
  - unfold OS_OUTCAP_PIDS. lia.
  - repeat constructor. apply not_elem_of_nil.
Qed.

Example capture_is_bounded_log_witness :
  kept (snd (out_cap_put demo_capture 11 65)) = [65].
Proof.
  destruct (capture_is_bounded_log demo_capture 11 65 9 2 [0; 0] demo_capture_wf) as [H _];
    [reflexivity|vm_compute; discriminate|].
  destruct (out_cap_put demo_capture 11 65) as [r s'] eqn:E. destruct H as (_ & _ & H).
  rewrite bool_decide_true in H by (repeat split; try reflexivity; apply list_elem_of_here).
  exact (proj1 (proj2 H)).
Defined.
