(* ===== verification/TaskState.v ===== *)
(** * Task table: kernel/task/task.c, data and queue

    The static pool of sixteen task slots, the circular doubly linked queue the
    tasks form, slot acquisition and release, and the lookups every other
    operation of the file starts with.  Pointers to tasks are slot numbers of
    the pool; [None] is NULL. *)

From Stdlib Require Import ZArith Lia String.
From stdpp Require Import base numbers option tactics list.
From S2P Require Import Prelude Bytes Names Ipc IpcWait RegistryState Registry.

Definition OS_TASK_NOT_FOUND : Z := -62.
Definition OS_TASK_BAD_PRIORITY : Z := -63.
Definition OS_TASK_CONTROL_DENIED : Z := -64.
Definition OS_TASK_NOT_CHILD : Z := -65.
Definition OS_TASK_CHILD_LIMIT : Z := -66.
Definition OS_TASK_BAD_NAME : Z := -67.
Definition OS_TASK_GLOBAL_LIMIT : Z := -68.
Definition OS_TASK_NO_CHILD_RESULT : Z := -69.
Definition OS_TASK_HISTORY_STALE : Z := -70.
Definition OS_TASK_BAD_STATE : Z := -71.
Definition OS_TASK_NO_DIRECT_CHILD : Z := -72.
Definition OS_TASK_BAD_DELEGATE : Z := -73.
Definition OS_TASK_NO_SUPERVISION_EVENT : Z := -74.
Definition OS_TASK_BAD_NOTIFY : Z := -75.
Definition OS_TASK_BAD_NOTIFY_FILTER : Z := -76.
Definition OS_TASK_BAD_WATCH : Z := -77.
Definition OS_TASK_WATCH_FULL : Z := -78.
Definition OS_TASK_NO_SUPERVISION_WATCH : Z := -79.
Definition OS_TASK_EXIT_KILLED : Z := -128.
Definition OS_TASK_EXIT_HISTORY_CAPACITY : Z := 4.
Definition OS_PROC_NAME_MAX : Z := 32.
Definition OS_TASK_GLOBAL_CAPACITY : Z := 16.
Definition OS_TASK_CHILD_CAPACITY : Z := 4.
Definition OS_TASK_SUPERVISION_EVENT_CAPACITY : Z := 4.
Definition OS_TASK_SUPERVISION_WATCH_CAPACITY : Z := 4.
Definition OS_TASK_PRIORITY_LOW : Z := 1.
Definition OS_TASK_PRIORITY_NORMAL : Z := 2.
Definition OS_TASK_PRIORITY_HIGH : Z := 3.
Definition OS_TASK_SUPERVISION_NOTIFY_ALL : Z := 31.

Inductive task_state_t :=
  | TASK_RUNNING | TASK_READY | TASK_WAITING | TASK_WAITING_FOR_INPUT
  | TASK_SUSPENDED | TASK_TERMINATED | TASK_BLOCKED_KERNEL | TASK_BLOCKED_IPC.
Inductive task_type_t := TASK_TYPE_KERNEL | TASK_TYPE_USER.

#[export] Instance task_state_eq_dec : EqDecision task_state_t.
Proof. solve_decision. Defined.
#[export] Instance task_type_eq_dec : EqDecision task_type_t.
Proof. solve_decision. Defined.
Definition state_is (a b : task_state_t) : bool := bool_decide (a = b).
Definition is_user (t : task_type_t) : bool := bool_decide (t = TASK_TYPE_USER).

Record os_task_exit_result_t := mk_exit_result {
  r_child_pid : Z; r_exit_code : Z; r_reason : Z; r_finished_ticks : Z
}.
Definition zero_result : os_task_exit_result_t := mk_exit_result 0 0 0 0.
#[export] Instance result_inhabited : Inhabited os_task_exit_result_t := populate zero_result.

Record os_task_supervision_event_t := mk_sup_event {
  ev_sequence : Z; ev_action : Z; ev_child_pid : Z; ev_related_pid : Z; ev_detail : Z; ev_ticks : Z;
  ev_child_sequence : Z; ev_child_generation : Z; ev_identity_key : Z
}.
Definition zero_sup_event : os_task_supervision_event_t := mk_sup_event 0 0 0 0 0 0 0 0 0.
#[export] Instance sup_event_inhabited : Inhabited os_task_supervision_event_t := populate zero_sup_event.

(** The child-result fields of [task_t]: the last result, the ring of four, its
    generation and the total. *)
Record exits_t := mk_exits {
  last_child : os_task_exit_result_t;
  child_exit_history : list os_task_exit_result_t;
  child_exit_history_start : Z; child_exit_history_count : Z;
  child_exit_history_generation : Z; direct_child_exit_count : Z
}.

(** The supervision fields of [task_t]. *)
Record supervision_t := mk_supervision {
  supervision_events : list os_task_supervision_event_t;
  supervision_event_start : Z; supervision_event_count : Z;
  supervision_event_generation : Z; supervision_event_sequence : Z;
  supervision_notify_enabled : Z; supervision_notify_mask : Z;
  supervision_watch_enabled : Z; supervision_watch_count : Z; supervision_watch_pids : list Z;
  supervision_delivery_attempted : Z; supervision_delivery_delivered : Z;
  supervision_delivery_dropped : Z;
  supervision_priority_child_pid : Z;
  supervision_notify_budget_limit : Z; supervision_notify_budget_used : Z
}.

(** [task_t] without the saved processor state (cpu_state, syscall_frame, kctx,
    fx_state) and the heap size. *)
Record task_t := mk_task {
  t_id : Z; t_sequence : Z; t_generation : Z; t_identity_key : Z;
  t_state : task_state_t; t_type : task_type_t; t_priority : Z;
  t_vmm_dir : Z; t_kernel_stack_p : Z; t_name : cstring;
  t_parent_pid : Z; t_waiter_pid : Z;
  t_created_ticks : Z; t_last_scheduled_ticks : Z; t_run_ticks : Z; t_switch_count : Z;
  t_exits : exits_t; t_sup : supervision_t;
  t_ipc_endpoint : ipc_endpoint_t; t_ipc_wait : ipc_wait_t;
  t_boot_service : Z;
  t_next : ptr nat; t_prev : ptr nat
}.

Definition zero_exits : exits_t := mk_exits zero_result (replicate 4 zero_result) 0 0 0 0.
Definition zero_supervision : supervision_t :=
  mk_supervision (replicate 4 zero_sup_event) 0 0 0 0 0 0 0 0 (replicate 4 0) 0 0 0 0 0 0.
Definition zero_message : os_ipc_message_t := mk_message 0 0 0 0 (replicate 96 0).
Definition zero_endpoint : ipc_endpoint_t := mk_endpoint (replicate 4 zero_message) 0 0 0.

(** [memset(task, 0, sizeof(task_t))] *)
Definition zero_task : task_t :=
  mk_task 0 0 0 0 TASK_RUNNING TASK_TYPE_KERNEL 0 0 0 (replicate 32 0) 0 0 0 0 0 0
    zero_exits zero_supervision zero_endpoint ipc_wait_zero 0 None None.
#[export] Instance task_inhabited : Inhabited task_t := populate zero_task.

(** ** Field updates *)
Definition with_identity (t : task_t) (q g k : Z) : task_t :=
  mk_task (t_id t) q g k (t_state t) (t_type t) (t_priority t) (t_vmm_dir t) (t_kernel_stack_p t)
    (t_name t) (t_parent_pid t) (t_waiter_pid t) (t_created_ticks t) (t_last_scheduled_ticks t)
    (t_run_ticks t) (t_switch_count t) (t_exits t) (t_sup t) (t_ipc_endpoint t) (t_ipc_wait t)
    (t_boot_service t) (t_next t) (t_prev t).
Definition with_state (t : task_t) (s : task_state_t) : task_t :=
  mk_task (t_id t) (t_sequence t) (t_generation t) (t_identity_key t) s (t_type t) (t_priority t)
    (t_vmm_dir t) (t_kernel_stack_p t) (t_name t) (t_parent_pid t) (t_waiter_pid t) (t_created_ticks t)
    (t_last_scheduled_ticks t) (t_run_ticks t) (t_switch_count t) (t_exits t) (t_sup t)
    (t_ipc_endpoint t) (t_ipc_wait t) (t_boot_service t) (t_next t) (t_prev t).
Definition with_priority (t : task_t) (p : Z) : task_t :=
  mk_task (t_id t) (t_sequence t) (t_generation t) (t_identity_key t) (t_state t) (t_type t) p
    (t_vmm_dir t) (t_kernel_stack_p t) (t_name t) (t_parent_pid t) (t_waiter_pid t) (t_created_ticks t)
    (t_last_scheduled_ticks t) (t_run_ticks t) (t_switch_count t) (t_exits t) (t_sup t)
    (t_ipc_endpoint t) (t_ipc_wait t) (t_boot_service t) (t_next t) (t_prev t).
Definition with_memory (t : task_t) (dir stack : Z) : task_t :=
  mk_task (t_id t) (t_sequence t) (t_generation t) (t_identity_key t) (t_state t) (t_type t)
    (t_priority t) dir stack (t_name t) (t_parent_pid t) (t_waiter_pid t) (t_created_ticks t)
    (t_last_scheduled_ticks t) (t_run_ticks t) (t_switch_count t) (t_exits t) (t_sup t)
    (t_ipc_endpoint t) (t_ipc_wait t) (t_boot_service t) (t_next t) (t_prev t).
Definition with_name (t : task_t) (n : cstring) : task_t :=
  mk_task (t_id t) (t_sequence t) (t_generation t) (t_identity_key t) (t_state t) (t_type t)
    (t_priority t) (t_vmm_dir t) (t_kernel_stack_p t) n (t_parent_pid t) (t_waiter_pid t)
    (t_created_ticks t) (t_last_scheduled_ticks t) (t_run_ticks t) (t_switch_count t) (t_exits t)
    (t_sup t) (t_ipc_endpoint t) (t_ipc_wait t) (t_boot_service t) (t_next t) (t_prev t).
Definition with_parent (t : task_t) (p : Z) : task_t :=
  mk_task (t_id t) (t_sequence t) (t_generation t) (t_identity_key t) (t_state t) (t_type t)
    (t_priority t) (t_vmm_dir t) (t_kernel_stack_p t) (t_name t) p (t_waiter_pid t)
    (t_created_ticks t) (t_last_scheduled_ticks t) (t_run_ticks t) (t_switch_count t) (t_exits t)
    (t_sup t) (t_ipc_endpoint t) (t_ipc_wait t) (t_boot_service t) (t_next t) (t_prev t).
Definition with_waiter (t : task_t) (p : Z) : task_t :=
  mk_task (t_id t) (t_sequence t) (t_generation t) (t_identity_key t) (t_state t) (t_type t)
    (t_priority t) (t_vmm_dir t) (t_kernel_stack_p t) (t_name t) (t_parent_pid t) p
    (t_created_ticks t) (t_last_scheduled_ticks t) (t_run_ticks t) (t_switch_count t) (t_exits t)
    (t_sup t) (t_ipc_endpoint t) (t_ipc_wait t) (t_boot_service t) (t_next t) (t_prev t).
Definition with_exits (t : task_t) (x : exits_t) : task_t :=
  mk_task (t_id t) (t_sequence t) (t_generation t) (t_identity_key t) (t_state t) (t_type t)
    (t_priority t) (t_vmm_dir t) (t_kernel_stack_p t) (t_name t) (t_parent_pid t) (t_waiter_pid t)
    (t_created_ticks t) (t_last_scheduled_ticks t) (t_run_ticks t) (t_switch_count t) x
    (t_sup t) (t_ipc_endpoint t) (t_ipc_wait t) (t_boot_service t) (t_next t) (t_prev t).
Definition with_sup (t : task_t) (v : supervision_t) : task_t :=
  mk_task (t_id t) (t_sequence t) (t_generation t) (t_identity_key t) (t_state t) (t_type t)
    (t_priority t) (t_vmm_dir t) (t_kernel_stack_p t) (t_name t) (t_parent_pid t) (t_waiter_pid t)
    (t_created_ticks t) (t_last_scheduled_ticks t) (t_run_ticks t) (t_switch_count t) (t_exits t)
    v (t_ipc_endpoint t) (t_ipc_wait t) (t_boot_service t) (t_next t) (t_prev t).
Definition with_endpoint (t : task_t) (e : ipc_endpoint_t) : task_t :=
  mk_task (t_id t) (t_sequence t) (t_generation t) (t_identity_key t) (t_state t) (t_type t)
    (t_priority t) (t_vmm_dir t) (t_kernel_stack_p t) (t_name t) (t_parent_pid t) (t_waiter_pid t)
    (t_created_ticks t) (t_last_scheduled_ticks t) (t_run_ticks t) (t_switch_count t) (t_exits t)
    (t_sup t) e (t_ipc_wait t) (t_boot_service t) (t_next t) (t_prev t).
Definition with_wait (t : task_t) (w : ipc_wait_t) : task_t :=
  mk_task (t_id t) (t_sequence t) (t_generation t) (t_identity_key t) (t_state t) (t_type t)
    (t_priority t) (t_vmm_dir t) (t_kernel_stack_p t) (t_name t) (t_parent_pid t) (t_waiter_pid t)
    (t_created_ticks t) (t_last_scheduled_ticks t) (t_run_ticks t) (t_switch_count t) (t_exits t)
    (t_sup t) (t_ipc_endpoint t) w (t_boot_service t) (t_next t) (t_prev t).
Definition with_next (t : task_t) (n : ptr nat) : task_t :=
  mk_task (t_id t) (t_sequence t) (t_generation t) (t_identity_key t) (t_state t) (t_type t)
    (t_priority t) (t_vmm_dir t) (t_kernel_stack_p t) (t_name t) (t_parent_pid t) (t_waiter_pid t)
    (t_created_ticks t) (t_last_scheduled_ticks t) (t_run_ticks t) (t_switch_count t) (t_exits t)
    (t_sup t) (t_ipc_endpoint t) (t_ipc_wait t) (t_boot_service t) n (t_prev t).
Definition with_prev (t : task_t) (p : ptr nat) : task_t :=
  mk_task (t_id t) (t_sequence t) (t_generation t) (t_identity_key t) (t_state t) (t_type t)
    (t_priority t) (t_vmm_dir t) (t_kernel_stack_p t) (t_name t) (t_parent_pid t) (t_waiter_pid t)
    (t_created_ticks t) (t_last_scheduled_ticks t) (t_run_ticks t) (t_switch_count t) (t_exits t)
    (t_sup t) (t_ipc_endpoint t) (t_ipc_wait t) (t_boot_service t) (t_next t) p.

Definition with_boot_service (t : task_t) (b : Z) : task_t :=
  mk_task (t_id t) (t_sequence t) (t_generation t) (t_identity_key t) (t_state t) (t_type t)
    (t_priority t) (t_vmm_dir t) (t_kernel_stack_p t) (t_name t) (t_parent_pid t) (t_waiter_pid t)
    (t_created_ticks t) (t_last_scheduled_ticks t) (t_run_ticks t) (t_switch_count t) (t_exits t)
    (t_sup t) (t_ipc_endpoint t) (t_ipc_wait t) b (t_next t) (t_prev t).

(** ** The static variables of task.c *)
Record tasks_t := mk_tasks {
  task_static_pool : list task_t;
  task_static_used : list Z;
  task_static_slot_generation : list Z;
  task_static_vmm_used : list Z;
  g_task_sequence_counter : Z;
  g_task_identity_key : Z;
  next_task_id : Z;
  current_task : ptr nat;
  task_queue : ptr nat;
  g_rr_anchor : ptr nat;
  g_resume_after_high : ptr nat;
  g_root_shell_pid : Z;
  deferred_reap_task : ptr nat;
  task_sched_only : ptr nat;
  task_gets_waiter : ptr nat
}.

Definition set_pool (s : tasks_t) (p : list task_t) : tasks_t :=
  mk_tasks p (task_static_used s) (task_static_slot_generation s) (task_static_vmm_used s)
    (g_task_sequence_counter s) (g_task_identity_key s) (next_task_id s) (current_task s) (task_queue s) (g_rr_anchor s)
    (g_resume_after_high s) (g_root_shell_pid s)
    (deferred_reap_task s) (task_sched_only s) (task_gets_waiter s).
Definition set_queue (s : tasks_t) (q c : ptr nat) : tasks_t :=
  mk_tasks (task_static_pool s) (task_static_used s) (task_static_slot_generation s)
    (task_static_vmm_used s) (g_task_sequence_counter s) (g_task_identity_key s) (next_task_id s) c q (g_rr_anchor s)
    (g_resume_after_high s) (g_root_shell_pid s)
    (deferred_reap_task s) (task_sched_only s) (task_gets_waiter s).
Definition set_anchors (s : tasks_t) (a h : ptr nat) : tasks_t :=
  mk_tasks (task_static_pool s) (task_static_used s) (task_static_slot_generation s)
    (task_static_vmm_used s) (g_task_sequence_counter s) (g_task_identity_key s) (next_task_id s) (current_task s)
    (task_queue s) a h (g_root_shell_pid s)
    (deferred_reap_task s) (task_sched_only s) (task_gets_waiter s).
Definition set_slots (s : tasks_t) (p : list task_t) (u g : list Z) (seq key : Z) : tasks_t :=
  mk_tasks p u g (task_static_vmm_used s) seq key (next_task_id s) (current_task s) (task_queue s) (g_rr_anchor s)
    (g_resume_after_high s) (g_root_shell_pid s)
    (deferred_reap_task s) (task_sched_only s) (task_gets_waiter s).
Definition set_next_id (s : tasks_t) (n : Z) : tasks_t :=
  mk_tasks (task_static_pool s) (task_static_used s) (task_static_slot_generation s)
    (task_static_vmm_used s) (g_task_sequence_counter s) (g_task_identity_key s) n (current_task s) (task_queue s)
    (g_rr_anchor s) (g_resume_after_high s) (g_root_shell_pid s)
    (deferred_reap_task s) (task_sched_only s) (task_gets_waiter s).

Definition set_vmm_used (s : tasks_t) (u : list Z) : tasks_t :=
  mk_tasks (task_static_pool s) (task_static_used s) (task_static_slot_generation s) u
    (g_task_sequence_counter s) (g_task_identity_key s) (next_task_id s) (current_task s)
    (task_queue s) (g_rr_anchor s) (g_resume_after_high s) (g_root_shell_pid s)
    (deferred_reap_task s) (task_sched_only s) (task_gets_waiter s).

(** The task forced to run and the task waiting for a key. *)
Definition set_sched (s : tasks_t) (only waiter : ptr nat) : tasks_t :=
  mk_tasks (task_static_pool s) (task_static_used s) (task_static_slot_generation s)
    (task_static_vmm_used s) (g_task_sequence_counter s) (g_task_identity_key s) (next_task_id s) (current_task s)
    (task_queue s) (g_rr_anchor s) (g_resume_after_high s) (g_root_shell_pid s)
    (deferred_reap_task s) only waiter.

(** Reading and updating a task through its pointer. *)
Definition task_at (s : tasks_t) (i : nat) : task_t := task_static_pool s !!! i.
Definition upd (s : tasks_t) (i : nat) (f : task_t -> task_t) : tasks_t :=
  set_pool s (<[i := f (task_at s i)]> (task_static_pool s)).

(** ** Slots *)

(** [task_fx_init] only writes the saved FPU image. *)
Definition task_static_acquire (s : tasks_t) : ptr nat * tasks_t :=
  match find_slot (fun u => u =? 0) (task_static_used s) with
  | None => (None, s)
  | Some i =>
      let gen := next_nonzero (task_static_slot_generation s !!! i) in
      let seq := next_nonzero (g_task_sequence_counter s) in
      let key := g_task_identity_key s in
      (Some i,
       set_slots s (<[i := with_identity zero_task seq gen key]> (task_static_pool s))
         (<[i := 1]> (task_static_used s)) (<[i := gen]> (task_static_slot_generation s))
         seq (next_nonzero key))
  end.

Definition task_static_release (s : tasks_t) (task : nat) : tasks_t :=
  if (task <? length (task_static_pool s))%nat then
    set_slots s (<[task := zero_task]> (task_static_pool s)) (<[task := 0]> (task_static_used s))
      (task_static_slot_generation s) (g_task_sequence_counter s) (g_task_identity_key s)
  else s.

(** ** The circular queue *)

Definition add_task_to_queue (s : tasks_t) (task : nat) : tasks_t :=
  match task_queue s with
  | None =>
      let s := set_queue s (Some task) (current_task s) in
      let s := upd s task (fun t => with_next t (Some task)) in
      upd s task (fun t => with_prev t (Some task))
  | Some head =>
      let s := upd s task (fun t => with_next t (Some head)) in
      let s := upd s task (fun t => with_prev t (t_prev (task_at s head))) in
      let last := default head (t_prev (task_at s head)) in
      let s := upd s last (fun t => with_next t (Some task)) in
      upd s head (fun t => with_prev t (Some task))
  end.

Definition task_queue_move_first_user (s : tasks_t) (task : ptr nat) : tasks_t :=
  match task, task_queue s with
  | Some t, Some head =>
      if bool_decide (t = head) || bool_decide (t_next (task_at s head) = Some t) then s
      else
        let before := default t (t_prev (task_at s t)) in
        let s := upd s before (fun x => with_next x (t_next (task_at s t))) in
        let after := default t (t_next (task_at s t)) in
        let s := upd s after (fun x => with_prev x (t_prev (task_at s t))) in
        let first := default head (t_next (task_at s head)) in
        let s := upd s t (fun x => with_next x (Some first)) in
        let s := upd s t (fun x => with_prev x (Some head)) in
        let s := upd s first (fun x => with_prev x (Some t)) in
        upd s head (fun x => with_next x (Some t))
  | _, _ => s
  end.

Definition unlink_task (s : tasks_t) (task : nat) : tasks_t :=
  match task_queue s with
  | None => s
  | Some head =>
      let s := set_anchors s (if bool_decide (g_rr_anchor s = Some task) then None else g_rr_anchor s)
                 (if bool_decide (g_resume_after_high s = Some task) then None
                  else g_resume_after_high s) in
      let next := default task (t_next (task_at s task)) in
      let prev := default task (t_prev (task_at s task)) in
      if bool_decide (next = task) then set_queue s None None
      else
        let s := upd s prev (fun t => with_next t (Some next)) in
        let s := upd s next (fun t => with_prev t (Some prev)) in
        set_queue s (if bool_decide (head = task) then Some next else Some head)
          (if bool_decide (current_task s = Some task) then Some next else current_task s)
  end.

(** ** Creation

    The field values a new task starts with: those [tasking_init] gives the
    kernel task and [create_task_from_initrd_file] a user task. *)
Definition fresh_exits : exits_t :=
  mk_exits (mk_exit_result (-1) 0 0 0) (replicate 4 zero_result) 0 0 1 0.
Definition fresh_supervision : supervision_t :=
  mk_supervision (replicate 4 zero_sup_event) 0 0 0 0 0 OS_TASK_SUPERVISION_NOTIFY_ALL 0 0
    (replicate 4 0) 0 0 0 (-1) 0 0.
Definition fresh_endpoint : ipc_endpoint_t := default zero_endpoint (ipc_endpoint_init (Some zero_endpoint)).

Definition kernel_name : cstring := lit "kernel" ++ replicate 25 0.

Definition tasking_init (s : tasks_t) (kernel_dir now : Z) : tasks_t :=
  let s := mk_tasks (task_static_pool s) (replicate 16 0) (replicate 16 0) (replicate 16 0) 1 1
             (next_task_id s) (current_task s) (task_queue s) (g_rr_anchor s) (g_resume_after_high s)
             (g_root_shell_pid s) None (task_sched_only s) (task_gets_waiter s) in
  match task_static_acquire s with
  | (None, s) => set_queue s (task_queue s) None
  | (Some i, s) =>
      let id := next_task_id s in
      let s := set_next_id s (id + 1) in
      let s := upd s i (fun t =>
        mk_task id 1 1 (t_identity_key t) TASK_RUNNING TASK_TYPE_KERNEL OS_TASK_PRIORITY_NORMAL
          kernel_dir 0 kernel_name (-1) 0 now now 0 1 fresh_exits fresh_supervision fresh_endpoint
          ipc_wait_zero (t_boot_service t) (Some i) (Some i)) in
      set_queue s (Some i) (Some i)
  end.

(** The base name of the program, at most 31 characters: what follows the last
    '/' of [name_src], "user" when that is empty. *)
Fixpoint base_name (base n : cstring) : cstring :=
  match n with
  | [] => base
  | c :: n => if c =? 0 then base else if c =? 47 then base_name n n else base_name base n
  end.
Definition task_base_name (name_src : cstring) : cstring :=
  let base := base_name name_src name_src in
  let base := if chr base 0 =? 0 then lit "user" else base in
  let base := take 31 (cstr base) in base ++ replicate (32 - length base) 0.

(** The end of [create_task_from_initrd_file], after the program was loaded into
    the directory [vmm_dir]: slot, fields, kernel stack, queue.  [stack_top]
    gives the address of the kernel stack of a slot. *)
Definition task_install (s : tasks_t) (vmm_dir now : Z) (name_src : cstring) (stack_top : nat -> Z)
    : ptr nat * tasks_t :=
  match task_static_acquire s with
  | (None, s) => (None, s)
  | (Some i, s) =>
      let id := next_task_id s in
      let s := set_next_id s (id + 1) in
      let s := upd s i (fun t =>
        mk_task id (t_sequence t) (t_generation t) (t_identity_key t) TASK_READY TASK_TYPE_USER
          OS_TASK_PRIORITY_NORMAL vmm_dir (stack_top i) (task_base_name name_src) (-1) 0 now now 0 0
          fresh_exits fresh_supervision fresh_endpoint ipc_wait_zero (t_boot_service t) (t_next t)
          (t_prev t)) in
      if stack_top i =? 0 then (None, task_static_release s i)
      else (Some i, add_task_to_queue s i)
  end.

(** The slots visited by [t = task_queue; do { ... t = t->next; } while (t && t
    != task_queue);], in that order, for loops that do not change the links.  A
    queue never holds more tasks than the pool has slots. *)
Fixpoint walk_from (pool : list task_t) (head t : nat) (fuel : nat) : list nat :=
  match fuel with
  | O => []
  | S fuel =>
      t :: match t_next (pool !!! t) with
           | None => []
           | Some n => if bool_decide (n = head) then [] else walk_from pool head n fuel
           end
  end.

Definition ring (s : tasks_t) : list nat :=
  match task_queue s with
  | None => []
  | Some head => walk_from (task_static_pool s) head head (length (task_static_pool s))
  end.

(** ** Lookups *)
Definition get_task_by_id (s : tasks_t) (id : Z) : ptr nat :=
  List.find (fun i => t_id (task_at s i) =? id) (ring s).

Definition find_task_waiting_for_input (s : tasks_t) : ptr nat :=
  List.find (fun i => state_is (t_state (task_at s i)) TASK_WAITING_FOR_INPUT) (ring s).

Definition get_task_count (s : tasks_t) : Z := Z.of_nat (length (ring s)).

(** [task_get_identity] and [task_identity_key] with non-NULL outputs, as the
    service registry calls them. *)
#[export] Instance task_view (s : tasks_t) : TaskView := {
  task_get_identity pid :=
    i ← get_task_by_id s pid; Some (t_sequence (task_at s i), t_generation (task_at s i));
  task_identity_key pid := i ← get_task_by_id s pid; Some (t_identity_key (task_at s i))
}.
