(* ===== verification/TaskQueue.v ===== *)
(** * The task queue refines a list

    The links of kernel/task/task.c (next, prev, task_queue) form one cycle;
    insertion, removal and reordering through the pointers are the list
    operations, and the lookups by PID see exactly the listed tasks. *)

From Stdlib Require Import ZArith Lia.
From stdpp Require Import base numbers option tactics list.
From S2P Require Import Prelude Names Ipc IpcWait RegistryState Registry RegistryCaps TaskState.

(** ** Reads after updates *)
Lemma task_at_upd s i f j :
  (i < length (task_static_pool s))%nat ->
  task_at (upd s i f) j = if decide (j = i) then f (task_at s i) else task_at s j.
Proof.
  intros Hi. unfold upd, task_at. cbn. case_decide as E.
  - subst j. by rewrite list_lookup_total_insert_eq.
  - by rewrite list_lookup_total_insert_ne.
Qed.

Lemma pool_upd s i f : length (task_static_pool (upd s i f)) = length (task_static_pool s).
Proof. unfold upd. cbn. apply length_insert. Qed.

Definition tnext (s : tasks_t) (i : nat) : ptr nat := t_next (task_at s i).
Definition tprev (s : tasks_t) (i : nat) : ptr nat := t_prev (task_at s i).

(** The links go from [x] through [l] to [y] and back. *)
Fixpoint path (s : tasks_t) (x : nat) (l : list nat) (y : nat) : Prop :=
  match l with
  | [] => tnext s x = Some y /\ tprev s y = Some x
  | z :: l => tnext s x = Some z /\ tprev s z = Some x /\ path s z l y
  end.

(** The queue holds the slots [L], in this order, each once. *)
Record ring_wf (s : tasks_t) (L : list nat) : Prop := {
  rw_head : task_queue s = head L;
  rw_slots : Forall (fun i => i < length (task_static_pool s))%nat L;
  rw_nodup : NoDup L;
  rw_links : match L with [] => True | h :: M => path s h M h end
}.

Lemma path_app s x l1 z l2 y : path s x (l1 ++ z :: l2) y <-> path s x l1 z /\ path s z l2 y.
Proof.
  revert x. induction l1 as [|w l1 IH]; intros x; cbn [path app]; [tauto|]. rewrite IH. tauto.
Qed.

Lemma path_rotate s a l1 b l2 : path s a (l1 ++ b :: l2) a <-> path s b (l2 ++ a :: l1) b.
Proof. rewrite !path_app. tauto. Qed.

Lemma path_frame s s' x l y :
  (forall z, z ∈ x :: l -> tnext s' z = tnext s z) ->
  (forall z, z ∈ l ++ [y] -> tprev s' z = tprev s z) ->
  path s x l y -> path s' x l y.
Proof.
  revert x. induction l as [|w l IH]; intros x Hn Hp; cbn [path app].
  - intros [H1 H2]. rewrite Hn, Hp; [done|apply list_elem_of_here..].
  - intros (H1 & H2 & H3).
    rewrite (Hn x) by apply list_elem_of_here. rewrite (Hp w) by apply list_elem_of_here.
    split; [done|]. split; [done|]. apply IH; [..|done]; intros z Hz; [apply Hn|apply Hp];
      by apply list_elem_of_further.
Qed.

(** The last node before [y] on a path. *)
Lemma path_prev s x l y : path s x l y -> tprev s y = Some (List.last l x).
Proof.
  revert x. induction l as [|z l IH]; intros x; cbn [path]; [by intros [_ ->]|].
  intros (_ & _ & H). rewrite (IH _ H). destruct l; [done|].
  f_equal. clear. revert n. induction l as [|w l IH]; intros n; [done|]. apply (IH w).
Qed.

(** ** The walk visits the listed tasks *)
Lemma walk_path s t l h fuel :
  path s t l h -> h ∉ l -> (length l < fuel)%nat -> walk_from (task_static_pool s) h t fuel = t :: l.
Proof.
  revert t fuel. induction l as [|z l IH]; intros t [|fuel] Hp Hh Hf; try (cbn in Hf; lia); cbn [walk_from].
  - destruct Hp as [Hn _]. unfold tnext, task_at in Hn. by rewrite Hn, bool_decide_true.
  - destruct Hp as (Hn & _ & Hp). unfold tnext, task_at in Hn. apply not_elem_of_cons in Hh as [Hz Hh].
    rewrite Hn, bool_decide_false by congruence. rewrite IH; [done|done|done|cbn in Hf; lia].
Qed.

Lemma nodup_bound (L : list nat) n : NoDup L -> Forall (fun i => i < n)%nat L -> (length L <= n)%nat.
Proof.
  intros Hnd HL. rewrite <- (length_seq n 0). apply submseteq_length, NoDup_submseteq; [done|].
  intros x Hx. apply elem_of_seq. rewrite Forall_forall in HL. specialize (HL _ Hx). lia.
Qed.

Lemma ring_eq s L : ring_wf s L -> ring s = L.
Proof.
  intros [Hh Hs Hnd Hl]. unfold ring. rewrite Hh. destruct L as [|h M]; [done|]. cbn [head].
  apply NoDup_cons in Hnd as [HhM Hnd]. apply walk_path; [done|done|].
  assert (length (h :: M) <= length (task_static_pool s))%nat; [|cbn in *; lia].
  apply nodup_bound; [by constructor|done].
Qed.

(** ** Link updates *)
Definition put_next (s : tasks_t) (i : nat) (v : ptr nat) : tasks_t := upd s i (fun t => with_next t v).
Definition put_prev (s : tasks_t) (i : nat) (v : ptr nat) : tasks_t := upd s i (fun t => with_prev t v).

Lemma next_put_next s i v j :
  (i < length (task_static_pool s))%nat -> tnext (put_next s i v) j = if decide (j = i) then v else tnext s j.
Proof. intros Hi. unfold tnext, put_next. rewrite task_at_upd by done. by case_decide. Qed.
Lemma prev_put_next s i v j :
  (i < length (task_static_pool s))%nat -> tprev (put_next s i v) j = tprev s j.
Proof. intros Hi. unfold tprev, put_next. rewrite task_at_upd by done. case_decide; by subst. Qed.
Lemma next_put_prev s i v j :
  (i < length (task_static_pool s))%nat -> tnext (put_prev s i v) j = tnext s j.
Proof. intros Hi. unfold tnext, put_prev. rewrite task_at_upd by done. case_decide; by subst. Qed.
Lemma prev_put_prev s i v j :
  (i < length (task_static_pool s))%nat -> tprev (put_prev s i v) j = if decide (j = i) then v else tprev s j.
Proof. intros Hi. unfold tprev, put_prev. rewrite task_at_upd by done. by case_decide. Qed.

Lemma pool_put_next s i v : length (task_static_pool (put_next s i v)) = length (task_static_pool s).
Proof. apply pool_upd. Qed.
Lemma pool_put_prev s i v : length (task_static_pool (put_prev s i v)) = length (task_static_pool s).
Proof. apply pool_upd. Qed.

(** Evaluate the links of a state built by [put_next] and [put_prev]. *)
Ltac links :=
  repeat (rewrite next_put_next || rewrite prev_put_next || rewrite next_put_prev || rewrite prev_put_prev);
  rewrite ?pool_put_next, ?pool_put_prev; try done.

(** Joining [p] to [n] on both sides. *)
Definition join (s : tasks_t) (p n : nat) : tasks_t := put_prev (put_next s p (Some n)) n (Some p).

Section Join.
Context (s : tasks_t) (p n : nat).
Context (Hp : (p < length (task_static_pool s))%nat) (Hn : (n < length (task_static_pool s))%nat).

Lemma next_join j : tnext (join s p n) j = if decide (j = p) then Some n else tnext s j.
Proof using Hp Hn. unfold join. links. Qed.

Lemma prev_join j : tprev (join s p n) j = if decide (j = n) then Some p else tprev s j.
Proof using Hp Hn. unfold join. links. Qed.

(** A path that neither leaves [p] nor enters [n] is not affected. *)
Lemma path_join x l y : p ∉ x :: l -> n ∉ l ++ [y] -> path s x l y -> path (join s p n) x l y.
Proof using Hp Hn.
  intros H1 H2. apply path_frame; intros z Hz; [rewrite next_join|rewrite prev_join];
    rewrite decide_False; try done; by intros ->.
Qed.

Lemma path_join_here : path (join s p n) p [] n.
Proof using Hp Hn. cbn [path]. by rewrite next_join, prev_join, !decide_True. Qed.
End Join.

Lemma pool_join s p n : length (task_static_pool (join s p n)) = length (task_static_pool s).
Proof. unfold join. by rewrite pool_put_prev, pool_put_next. Qed.

(** Removing [x] from the cycle by joining its neighbours. *)
Lemma unlink_cycle s x R p n :
  Forall (fun i => i < length (task_static_pool s))%nat (x :: R) -> NoDup (x :: R) -> R <> [] ->
  path s x R x -> tprev s x = Some p -> tnext s x = Some n ->
  head R = Some n /\ path (join s p n) n (tail R) n.
Proof.
  intros Hs Hnd Hne Hpath Hxp Hxn. destruct R as [|y R]; [done|].
  pose proof (path_prev _ _ _ _ Hpath) as Hl. rewrite Hxp in Hl. injection Hl as Hl.
  destruct Hpath as (H1 & H2 & Hpath). rewrite Hxn in H1. injection H1 as ->. split; [done|].
  cbn [tail]. rewrite Forall_cons in Hs. destruct Hs as [_ Hs]. apply NoDup_cons in Hnd as [Hx Hnd].
  destruct R as [|z R' _] using rev_ind.
  - cbn in Hl. subst p. rewrite Forall_cons in Hs. destruct Hs as [Hy _]. by apply path_join_here.
  - assert (p = z) as ->.
    { rewrite Hl. exact (List.last_last (y :: R') z x). }
    rewrite Forall_cons, Forall_app, Forall_singleton in Hs. destruct Hs as (Hy & Hs & Hz).
    rewrite path_app in Hpath |- *. destruct Hpath as [Hpath _].
    apply NoDup_cons in Hnd as [Hy' Hnd]. apply NoDup_app in Hnd as (Hnd & Hd & _).
    assert (z ∉ R') as HzR by (intros ?; apply (Hd z); [done|apply list_elem_of_here]).
    split; [|by apply path_join_here].
    apply path_join; [done|done| | |done].
    + apply not_elem_of_cons. split; [|done]. intros ->. apply Hy'. apply elem_of_app. right. apply list_elem_of_here.
    + intros Hin. apply Hy'. done.
Qed.

(** ** The queue operations *)
Lemma path_pool s s' x l y :
  task_static_pool s' = task_static_pool s -> path s x l y -> path s' x l y.
Proof. intros H. apply path_frame; intros z _; unfold tnext, tprev, task_at; by rewrite H. Qed.

Lemma ring_wf_set_anchors s a h L : ring_wf s L -> ring_wf (set_anchors s a h) L.
Proof. intros [H1 H2 H3 H4]. constructor; [done..|]. destruct L; [done|]. by apply (path_pool s). Qed.

(** The neighbours of a queued task, seen from it. *)
Lemma ring_around s l1 x l2 :
  ring_wf s (l1 ++ x :: l2) ->
  Forall (fun i => i < length (task_static_pool s))%nat (x :: l2 ++ l1) /\ NoDup (x :: l2 ++ l1) /\
  path s x (l2 ++ l1) x.
Proof.
  intros [H1 H2 H3 H4].
  assert (l1 ++ x :: l2 ≡ₚ x :: l2 ++ l1) as HP by (rewrite (Permutation_app_comm l1); done).
  split; [by rewrite <- HP|]. split; [by rewrite <- HP|].
  destruct l1 as [|h l1]; [by rewrite app_nil_r|]. cbn [app] in H4. by apply path_rotate.
Qed.

Lemma unlink_spec s l1 x l2 :
  ring_wf s (l1 ++ x :: l2) -> ring_wf (unlink_task s x) (l1 ++ l2).
Proof.
  intros Hr. destruct (ring_around _ _ _ _ Hr) as (HF & HN & HP).
  pose proof (path_prev _ _ _ _ HP) as Hxp.
  assert (exists n, tnext s x = Some n) as [n Hxn].
  { destruct (l2 ++ l1) as [|y R]; [destruct HP; eauto|]. destruct HP; eauto. }
  set (p := List.last (l2 ++ l1) x) in *.
  destruct Hr as [Hq HF' HN' HP']. unfold unlink_task. rewrite Hq.
  destruct (head (l1 ++ x :: l2)) as [h|] eqn:Eh; [|by destruct l1].
  set (s1 := set_anchors s _ _).
  change (t_next (task_at s1 x)) with (tnext s x). change (t_prev (task_at s1 x)) with (tprev s x).
  rewrite Hxp, Hxn. cbn [from_option id].
  assert (Hs1 : forall a b c, path s a b c -> path s1 a b c) by (intros a b c; by apply path_pool).
  destruct (l2 ++ l1) as [|y R] eqn:ER.
  { apply app_eq_nil in ER as [-> ->]. destruct HP as [HP _]. rewrite HP in Hxn. injection Hxn as ->.
    rewrite bool_decide_true by done. constructor; [done|constructor|constructor|done]. }
  destruct (unlink_cycle s1 x (y :: R) p n) as [Hn Hcyc]; [exact HF|exact HN|done|by apply Hs1|exact Hxp|exact Hxn|].
  cbn [head tail] in Hn, Hcyc. injection Hn as ->.
  rewrite bool_decide_false
    by (intros ->; apply NoDup_cons in HN as [HN _]; apply HN, list_elem_of_here).
  assert (HF2 : Forall (fun i => i < length (task_static_pool s))%nat (l1 ++ l2)).
  { rewrite Forall_app, Forall_cons in HF'. rewrite Forall_app. tauto. }
  assert (HN2 : NoDup (l1 ++ l2)).
  { apply NoDup_app in HN' as (A & B & C). apply NoDup_cons in C as [C D]. apply NoDup_app.
    split; [done|]. split; [|done]. intros z Hz Hz2. apply (B z Hz). by apply list_elem_of_further. }
  assert (Hlen : length (task_static_pool (join s1 p n)) = length (task_static_pool s)).
  { rewrite pool_join. done. }
  clearbody p.
  change (upd (upd s1 p _) n _) with (join s1 p n). constructor.
  - cbn [task_queue set_queue]. destruct l1 as [|h' l1].
    + cbn in Eh. injection Eh as ->. rewrite bool_decide_true by done.
      rewrite app_nil_r in ER. cbn. by rewrite ER.
    + cbn in Eh. injection Eh as ->. rewrite bool_decide_false; [done|]. intros ->.
      apply NoDup_cons in HN' as [HN' _]. apply HN', elem_of_app. right. apply list_elem_of_here.
  - cbn [task_static_pool set_queue]. by rewrite Hlen.
  - done.
  - destruct l1 as [|h' l1].
    + rewrite app_nil_r in ER. cbn. rewrite ER. by apply (path_pool (join s1 p n)).
    + cbn [app]. apply (path_pool (join s1 p n)); [done|].
      destruct l2 as [|z l2]; cbn in ER; injection ER as -> <-.
      * by rewrite app_nil_r.
      * by apply path_rotate.
Qed.

(** Closing the cycle through a new last node. *)
Lemma append_cycle s h M t :
  Forall (fun i => i < length (task_static_pool s))%nat (t :: h :: M) -> NoDup (t :: h :: M) ->
  path s h M h ->
  path (join (join s (List.last M h) t) t h) h (M ++ [t]) h.
Proof.
  intros HF HN HP. rewrite Forall_cons, Forall_cons in HF. destruct HF as (Ht & Hh & HF).
  apply NoDup_cons in HN as [HtN HN]. apply not_elem_of_cons in HtN as [Hth HtM].
  apply NoDup_cons in HN as [HhM HN].
  destruct M as [|z M' _] using rev_ind; cbn [app].
  - apply (path_app _ h [] t [] h). split.
    + apply path_join; rewrite ?pool_join; [done..|by rewrite list_elem_of_singleton|
        cbn; by rewrite list_elem_of_singleton|by apply path_join_here].
    + apply path_join_here; by rewrite pool_join.
  - rewrite List.last_last. rewrite Forall_app, Forall_singleton in HF. destruct HF as [HM Hz].
    rewrite not_elem_of_app, list_elem_of_singleton in HtM. destruct HtM as [HtM Htz].
    rewrite not_elem_of_app, list_elem_of_singleton in HhM. destruct HhM as [HhM Hhz].
    apply NoDup_app in HN as (HN & HzN & _).
    assert (z ∉ M') as HzM by (intros ?; apply (HzN z); [done|apply list_elem_of_here]).
    rewrite <- app_assoc. cbn [app]. rewrite path_app in HP |- *. destruct HP as [HP _].
    split; [|apply (path_app _ z [] t [] h); split].
    + apply path_join; rewrite ?pool_join; [done|done| | |].
      * rewrite not_elem_of_cons. done.
      * rewrite not_elem_of_app, list_elem_of_singleton. done.
      * apply path_join; [done|done| | |done].
        -- rewrite not_elem_of_cons. split; [congruence|done].
        -- rewrite not_elem_of_app, list_elem_of_singleton. done.
    + apply path_join; rewrite ?pool_join; [done|done| | |by apply path_join_here].
      * by rewrite list_elem_of_singleton.
      * cbn. by rewrite list_elem_of_singleton.
    + apply path_join_here; by rewrite pool_join.
Qed.

Lemma path_same_links s s' x l y :
  (forall z, tnext s' z = tnext s z) -> (forall z, tprev s' z = tprev s z) -> path s x l y -> path s' x l y.
Proof. intros H1 H2. by apply path_frame. Qed.

Lemma add_spec s L t :
  ring_wf s L -> (t < length (task_static_pool s))%nat -> t ∉ L ->
  ring_wf (add_task_to_queue s t) (L ++ [t]).
Proof.
  intros [Hq HF HN HP] Ht HtL. unfold add_task_to_queue. rewrite Hq. destruct L as [|h M]; cbn [head app].
  - constructor; cbn -[upd].
    + done.
    + rewrite Forall_singleton. by rewrite !pool_upd.
    + apply NoDup_singleton.
    + set (s1 := set_queue s _ _).
      change (path (put_prev (put_next s1 t (Some t)) t (Some t)) t [] t). by apply path_join_here.
  - apply not_elem_of_cons in HtL as [Hth HtM]. rewrite Forall_cons in HF. destruct HF as [Hh HF].
    pose proof (path_prev _ _ _ _ HP) as Hz. set (z := List.last M h) in *.
    assert (Hzb : (z < length (task_static_pool s))%nat).
    { unfold z. destruct M as [|w M' _] using rev_ind; [done|]. rewrite List.last_last.
      rewrite Forall_app, Forall_singleton in HF. tauto. }
    assert (Hzt : z <> t).
    { unfold z. destruct M as [|w M' _] using rev_ind; [done|]. rewrite List.last_last.
      intros ->. apply HtM, elem_of_app. right. apply list_elem_of_here. }
    set (s1 := upd s t _). change s1 with (put_next s t (Some h)). clear s1.
    assert (E : forall u, t_prev (task_at (put_next s t (Some h)) u) = tprev s u).
    { intros u. apply (prev_put_next s t (Some h) u Ht). }
    rewrite (E h), Hz. set (s2 := upd _ t _). change s2 with (put_prev (put_next s t (Some h)) t (Some z)). clear s2.
    set (s2 := put_prev _ t _).
    assert (E2 : t_prev (task_at s2 h) = Some z).
    { change (tprev s2 h = Some z). unfold s2.
      rewrite prev_put_prev by (by rewrite pool_put_next). rewrite decide_False by done.
      by rewrite prev_put_next. }
    rewrite E2. cbn [from_option id].
    change (upd (upd s2 z _) h _) with (put_prev (put_next s2 z (Some t)) h (Some t)).
    assert (Hp2 : length (task_static_pool s2) = length (task_static_pool s)).
    { unfold s2. by rewrite pool_put_prev, pool_put_next. }
    assert (HN' : NoDup (t :: h :: M)).
    { apply NoDup_cons. rewrite not_elem_of_cons. tauto. }
    constructor.
    + exact Hq.
    + rewrite pool_put_prev, pool_put_next, Hp2. rewrite Forall_cons, Forall_app, Forall_singleton. tauto.
    + change (h :: M ++ [t]) with ((h :: M) ++ [t]). by rewrite (Permutation_app_comm (h :: M)).
    + apply (path_same_links (join (join s z t) t h)); [..|by apply append_cycle; [rewrite !Forall_cons|..]].
      * intros u. unfold s2. links; try (rewrite ?pool_put_prev, ?pool_put_next; done).
        rewrite !next_join by (rewrite ?pool_join; done).
        repeat case_decide; subst; done.
      * intros u. unfold s2. links; try (rewrite ?pool_put_prev, ?pool_put_next; done).
        rewrite !prev_join by (rewrite ?pool_join; done).
        repeat case_decide; subst; try done.
Qed.

(** Inserting a node right after the head. *)
Lemma insert_cycle s h f M t :
  Forall (fun i => i < length (task_static_pool s))%nat (t :: h :: f :: M) -> NoDup (t :: h :: f :: M) ->
  path s h (f :: M) h ->
  path (join (join s t f) h t) h (t :: f :: M) h.
Proof.
  intros HF HN (H1 & H2 & HP). rewrite !Forall_cons in HF. destruct HF as (Ht & Hh & Hf & HM).
  rewrite !NoDup_cons, !not_elem_of_cons in HN. destruct HN as ((Hth & Htf & HtM) & (Hhf & HhM) & HfM & _).
  apply (path_app _ h [] t (f :: M) h). split; [apply path_join_here; by rewrite pool_join|].
  apply (path_app _ t [] f M h). split.
  - apply path_join; rewrite ?pool_join; [done|done| | |by apply path_join_here];
      cbn [app]; rewrite list_elem_of_singleton; congruence.
  - apply path_join; rewrite ?pool_join; [done|done| | |apply path_join; [done|done| | |done]].
    + rewrite not_elem_of_cons. split; [congruence|done].
    + rewrite not_elem_of_app, list_elem_of_singleton. done.
    + rewrite not_elem_of_cons. done.
    + rewrite not_elem_of_app, list_elem_of_singleton. split; congruence.
Qed.

Lemma move_first_spec s h l1 t l2 :
  ring_wf s (h :: l1 ++ t :: l2) -> l1 <> [] ->
  ring_wf (task_queue_move_first_user s (Some t)) (h :: t :: l1 ++ l2).
Proof.
  intros Hr Hl1. destruct (ring_around s (h :: l1) t l2 Hr) as (HF & HN & HPt).
  pose proof (path_prev _ _ _ _ HPt) as Htp.
  assert (exists n, tnext s t = Some n) as [n Htn].
  { destruct l2; destruct HPt; eauto. }
  destruct (unlink_cycle s t (l2 ++ h :: l1) (List.last (l2 ++ h :: l1) t) n HF HN) as [Hn Hcyc];
    [by destruct l2|done|exact Htp|exact Htn|].
  destruct Hr as [Hq HF' HN' HP']. destruct l1 as [|f l1]; [done|]. clear Hl1.
  assert (Hp : List.last (l2 ++ h :: f :: l1) t = List.last (f :: l1) t).
  { clear. induction l2 as [|x l2 IH]; [done|]. cbn [app]. rewrite <- IH. by destruct l2. }
  rewrite Hp in *. set (p := List.last (f :: l1) t) in *.
  assert (Hpin : p ∈ f :: l1).
  { unfold p. destruct l1 as [|w M' _] using rev_ind; [apply list_elem_of_here|].
    change (f :: M' ++ [w]) with ((f :: M') ++ [w]). rewrite List.last_last. apply elem_of_app. right. apply list_elem_of_here. }
  assert (Hhf : tnext s h = Some f) by (destruct HP'; done).
  assert (HPm : t :: h :: f :: l1 ++ l2 ≡ₚ h :: (f :: l1) ++ t :: l2).
  { rewrite <- Permutation_middle. apply Permutation_swap. }
  assert (HNt : NoDup (t :: h :: f :: l1 ++ l2)) by (by rewrite HPm).
  assert (HFt : Forall (fun i => i < length (task_static_pool s))%nat (t :: h :: f :: l1 ++ l2)) by (by rewrite HPm).
  assert (Hps : (p < length (task_static_pool s))%nat).
  { rewrite Forall_cons, Forall_cons in HFt. destruct HFt as (_ & _ & HFt). rewrite Forall_forall in HFt.
    apply HFt. change (f :: l1 ++ l2) with ((f :: l1) ++ l2). apply elem_of_app. by left. }
  assert (Hns : (n < length (task_static_pool s))%nat).
  { rewrite Forall_forall in HF. apply HF. destruct l2 as [|y l2]; cbn in Hn; injection Hn as <-;
      apply list_elem_of_further, list_elem_of_here. }
  assert (Hcyc' : path (join s p n) h (f :: l1 ++ l2) h).
  { destruct l2 as [|y l2]; cbn in Hn, Hcyc; injection Hn as ->.
    - by rewrite app_nil_r.
    - rewrite path_rotate in Hcyc. done. }
  rewrite !NoDup_cons, !not_elem_of_cons, !not_elem_of_app in HNt.
  destruct HNt as ((Hth & Htf & Htl1 & Htl2) & (Hhf' & Hhl1 & Hhl2) & (Hfl1 & Hfl2) & HNt).
  assert (Hpt : p <> t) by (intros ->; apply elem_of_cons in Hpin; tauto).
  assert (Hph : p <> h) by (intros ->; apply elem_of_cons in Hpin; tauto).
  rewrite !Forall_cons in HFt. destruct HFt as (Hts & Hhs & Hfs & HFt).
  unfold task_queue_move_first_user. rewrite Hq. cbn [head].
  rewrite !bool_decide_false; [|change (tnext s h <> Some t); congruence|done]. cbn [orb].
  change (t_prev (task_at s t)) with (tprev s t). change (t_next (task_at s t)) with (tnext s t).
  rewrite Htp, Htn. cbn [from_option id].
  change (upd s p _) with (put_next s p (Some n)).
  assert (E1 : t_next (task_at (put_next s p (Some n)) t) = Some n).
  { change (tnext (put_next s p (Some n)) t = Some n). by rewrite next_put_next, decide_False. }
  assert (E2 : t_prev (task_at (put_next s p (Some n)) t) = Some p).
  { change (tprev (put_next s p (Some n)) t = Some p). by rewrite prev_put_next. }
  rewrite E1, E2. cbn [from_option id]. change (upd (put_next s p _) n _) with (join s p n).
  assert (E3 : t_next (task_at (join s p n) h) = Some f).
  { change (tnext (join s p n) h = Some f). by rewrite next_join, decide_False. }
  rewrite E3. cbn [from_option id]. set (s2 := join s p n) in *.
  assert (Hl2 : length (task_static_pool s2) = length (task_static_pool s)) by apply pool_join.
  change (ring_wf (put_next (put_prev (put_prev (put_next s2 t (Some f)) t (Some h)) f (Some t)) h (Some t))
            (h :: t :: f :: l1 ++ l2)).
  constructor.
  - exact Hq.
  - rewrite pool_put_next, !pool_put_prev, pool_put_next, Hl2. rewrite !Forall_cons. done.
  - rewrite !NoDup_cons, !not_elem_of_cons, !not_elem_of_app. naive_solver.
  - apply (path_same_links (join (join s2 t f) h t)).
    + intros u. links; try (rewrite ?pool_put_prev, ?pool_put_next, Hl2; done).
      rewrite !next_join by (rewrite ?pool_join, Hl2; done). repeat case_decide; subst; done.
    + intros u. links; try (rewrite ?pool_put_prev, ?pool_put_next, Hl2; done).
      rewrite !prev_join by (rewrite ?pool_join, Hl2; done). repeat case_decide; subst; done.
    + apply insert_cycle; [rewrite Hl2, !Forall_cons; done| |done].
      rewrite !NoDup_cons, !not_elem_of_cons, !not_elem_of_app. naive_solver.
Qed.

(** C31. The circular doubly linked queue is a list: a walk visits it once and ends,
    the number of tasks is its length, adding appends, unlinking removes exactly the
    task (the queue head moves on when it was the first) and
    [task_queue_move_first_user] moves a later task right behind the head, the order
    of the others unchanged. *)
Theorem queue_refines_list :
  forall (s : tasks_t) (L : list nat), ring_wf s L ->
    ring s = L /\ get_task_count s = Z.of_nat (length L) /\
    (forall t, (t < length (task_static_pool s))%nat -> t ∉ L -> ring (add_task_to_queue s t) = L ++ [t]) /\
    (forall l1 t l2, L = l1 ++ t :: l2 ->
       ring (unlink_task s t) = l1 ++ l2 /\ task_queue (unlink_task s t) = head (l1 ++ l2)) /\
    (forall h l1 t l2, L = h :: l1 ++ t :: l2 -> l1 <> [] ->
       ring (task_queue_move_first_user s (Some t)) = h :: t :: l1 ++ l2).
Proof.
  intros s L Hr. split; [by apply ring_eq|]. split; [unfold get_task_count; by rewrite (ring_eq s L)|].
  split; [intros t H1 H2; by apply ring_eq, add_spec|]. split.
  - intros l1 t l2 ->. pose proof (unlink_spec _ _ _ _ Hr) as H. split; [by apply ring_eq|apply (rw_head _ _ H)].
  - intros h l1 t l2 -> H. by apply ring_eq, move_first_spec.
Qed.
