(* ===== verification/Task.v ===== *)
(** * Task supervision: kernel/task/task.c

    Parents and children: waiting, suspending, killing, delegating; the ring of
    the last child results and the ring of supervision events each parent keeps;
    the IPC notices sent to it.  The operations run on the kernel state they
    touch: task table, service registry (spill slots), page directories and
    output capture. *)

From Stdlib Require Import ZArith Lia String.
From stdpp Require Import base numbers option tactics list.
From S2P Require Import Prelude Bytes Names Ipc IpcWait Pmm Vmm RegistryState Registry OutCapture TaskState.

Definition OS_TASK_SUPERVISION_EXIT : Z := 1.
Definition OS_TASK_SUPERVISION_SUSPEND : Z := 2.
Definition OS_TASK_SUPERVISION_RESUME : Z := 3.
Definition OS_TASK_SUPERVISION_DELEGATE_OUT : Z := 4.
Definition OS_TASK_SUPERVISION_DELEGATE_IN : Z := 5.
Definition OS_TASK_SUPERVISION_NOTIFY_EXIT : Z := 1.
Definition OS_TASK_SUPERVISION_NOTIFY_SUSPEND : Z := 2.
Definition OS_TASK_SUPERVISION_NOTIFY_RESUME : Z := 4.
Definition OS_TASK_SUPERVISION_NOTIFY_DELEGATE_OUT : Z := 8.
Definition OS_TASK_SUPERVISION_NOTIFY_DELEGATE_IN : Z := 16.
Definition OS_IPC_TASK_EVENT : Z := 1413567233.
Definition OS_TASK_EVENT_SIZE : Z := 8.
Definition OS_TASK_EVENT_EXITED : Z := 1.
Definition OS_TASK_EVENT_KILLED : Z := 2.
Definition OS_TASK_SUPERVISION_EVENT_SIZE : Z := 24.

(** The static variables of syscall.c that tie the tasks to the disk driver: the
    request a task is blocked on, the supervised driver, the PID being purged;
    with the store the driver holds (ata_fsop.c) and whether a disk was found. *)
Record bridge_t := mk_bridge {
  g_rpc_waiter : ptr nat; g_rpc_kind : Z; g_rpc_started : Z; g_rpc_aborted : Z;
  g_boot_driver_pid : Z; g_boot_driver_registered : Z;
  g_respawn_pid : Z; g_respawn_count : Z; g_purge_pid : Z;
  g_store_pid : Z; g_store_flags : Z; ata_present : Z
}.

Definition with_rpc (b : bridge_t) (waiter : ptr nat) (kind started aborted : Z) : bridge_t :=
  mk_bridge waiter kind started aborted (g_boot_driver_pid b) (g_boot_driver_registered b) (g_respawn_pid b)
    (g_respawn_count b) (g_purge_pid b) (g_store_pid b) (g_store_flags b) (ata_present b).
Definition with_boot (b : bridge_t) (pid registered : Z) : bridge_t :=
  mk_bridge (g_rpc_waiter b) (g_rpc_kind b) (g_rpc_started b) (g_rpc_aborted b) pid registered (g_respawn_pid b)
    (g_respawn_count b) (g_purge_pid b) (g_store_pid b) (g_store_flags b) (ata_present b).
Definition with_respawn (b : bridge_t) (pid count : Z) : bridge_t :=
  mk_bridge (g_rpc_waiter b) (g_rpc_kind b) (g_rpc_started b) (g_rpc_aborted b) (g_boot_driver_pid b)
    (g_boot_driver_registered b) pid count (g_purge_pid b) (g_store_pid b) (g_store_flags b) (ata_present b).
Definition with_purge (b : bridge_t) (pid : Z) : bridge_t :=
  mk_bridge (g_rpc_waiter b) (g_rpc_kind b) (g_rpc_started b) (g_rpc_aborted b) (g_boot_driver_pid b)
    (g_boot_driver_registered b) (g_respawn_pid b) (g_respawn_count b) pid (g_store_pid b) (g_store_flags b)
    (ata_present b).
Definition with_store (b : bridge_t) (pid flags : Z) : bridge_t :=
  mk_bridge (g_rpc_waiter b) (g_rpc_kind b) (g_rpc_started b) (g_rpc_aborted b) (g_boot_driver_pid b)
    (g_boot_driver_registered b) (g_respawn_pid b) (g_respawn_count b) (g_purge_pid b) pid flags (ata_present b).

Record kernel_t := mk_kernel {
  k_tasks : tasks_t; k_registry : registry_t; k_vmm : vmm_t; k_outcap : outcap_t; k_bridge : bridge_t
}.
Definition set_tasks (k : kernel_t) (s : tasks_t) : kernel_t :=
  mk_kernel s (k_registry k) (k_vmm k) (k_outcap k) (k_bridge k).
Definition set_registry (k : kernel_t) (r : registry_t) : kernel_t :=
  mk_kernel (k_tasks k) r (k_vmm k) (k_outcap k) (k_bridge k).
Definition set_bridge (k : kernel_t) (b : bridge_t) : kernel_t :=
  mk_kernel (k_tasks k) (k_registry k) (k_vmm k) (k_outcap k) b.

(** Update of one task of the pool. *)
Definition kupd (k : kernel_t) (i : nat) (f : task_t -> task_t) : kernel_t :=
  set_tasks k (upd (k_tasks k) i f).
Definition ktask (k : kernel_t) (i : nat) : task_t := task_at (k_tasks k) i.

(** ** IPC notices (include/os_syscalls.h) *)

(** The bytes written from the start of [payload->data]; the rest of the array
    keeps its content. *)
Definition write_front (b data : list Z) : list Z := b ++ drop (length b) data.

Definition os_task_make_event (payload : ptr os_ipc_payload_t) (child_pid reason : Z)
    : Z * ptr os_ipc_payload_t :=
  match payload with
  | NULL => (-1, NULL)
  | Some p =>
      if (child_pid <=? 0)
         || (negb (reason =? OS_TASK_EVENT_EXITED) && negb (reason =? OS_TASK_EVENT_KILLED))
      then (-1, payload)
      else
        (0, Some (mk_payload OS_IPC_TASK_EVENT OS_TASK_EVENT_SIZE 0
                    (write_front (le32 (u32 child_pid) ++ le32 reason) (pl_data p))))
  end.

(** The tests shared by making and parsing a supervision notice. *)
Definition delegates (action : Z) : bool :=
  (action =? OS_TASK_SUPERVISION_DELEGATE_OUT) || (action =? OS_TASK_SUPERVISION_DELEGATE_IN).
Definition sup_event_bad (e : os_task_supervision_event_t) : bool :=
  (ev_sequence e =? 0) || (ev_child_pid e <=? 0) || (ev_action e <? OS_TASK_SUPERVISION_EXIT)
  || (OS_TASK_SUPERVISION_DELEGATE_IN <? ev_action e)
  || (delegates (ev_action e) && (ev_related_pid e <=? 0))
  || (negb (delegates (ev_action e)) && negb (ev_related_pid e =? 0)).

Definition os_task_make_supervision_event (payload : ptr os_ipc_payload_t)
    (event : ptr os_task_supervision_event_t) : Z * ptr os_ipc_payload_t :=
  match payload, event with
  | Some p, Some e =>
      if sup_event_bad e then (-1, payload)
      else
        (0, Some (mk_payload OS_IPC_TASK_SUPERVISION_EVENT OS_TASK_SUPERVISION_EVENT_SIZE 0
                    (write_front
                       (le32 (ev_sequence e) ++ le32 (ev_action e) ++ le32 (u32 (ev_child_pid e)) ++
                        le32 (u32 (ev_related_pid e)) ++ le32 (ev_detail e) ++ le32 (ev_ticks e))
                       (pl_data p))))
  | _, _ => (-1, payload)
  end.

Definition os_task_parse_supervision_event (message : ptr os_ipc_message_t)
    (event_out : ptr os_task_supervision_event_t) : Z * ptr os_task_supervision_event_t :=
  match message, event_out with
  | Some m, Some _ =>
      if negb (sender_pid m =? 0) || negb (msg_type m =? OS_IPC_TASK_SUPERVISION_EVENT)
         || negb (msg_size m =? OS_TASK_SUPERVISION_EVENT_SIZE) || negb (msg_request_id m =? 0)
      then (-1, event_out)
      else
        let word off := un_le32 (drop off (msg_data m)) in
        let e := mk_sup_event (word 0%nat) (word 4%nat) (i32 (word 8%nat)) (i32 (word 12%nat))
                   (word 16%nat) (word 20%nat) 0 0 0 in
        (if sup_event_bad e then -1 else 0, Some e)
  | _, _ => (-1, event_out)
  end.

(** ** Wake-ups *)

Definition task_ipc_message_queued (s : tasks_t) (t : ptr nat) : tasks_t :=
  match t with
  | NULL => s
  | Some i =>
      if negb (state_is (t_state (task_at s i)) TASK_BLOCKED_IPC) then s
      else
        let '(woke, w) := ipc_wait_on_message (Some (t_ipc_wait (task_at s i))) in
        let s := upd s i (fun t => with_wait t (default (t_ipc_wait t) w)) in
        if c_true woke then upd s i (fun t => with_state t TASK_READY) else s
  end.

Definition task_ipc_message_queued_pid (s : tasks_t) (pid : Z) : tasks_t :=
  task_ipc_message_queued s (get_task_by_id s pid).

(** One step of the loop of [task_ipc_wait_tick]. *)
Definition tick_one (now : Z) (s : tasks_t) (i : nat) : tasks_t :=
  if state_is (t_state (task_at s i)) TASK_BLOCKED_IPC then
    let '(woke, w) := ipc_wait_on_tick (Some (t_ipc_wait (task_at s i))) now in
    let s := upd s i (fun t => with_wait t (default (t_ipc_wait t) w)) in
    if c_true woke then upd s i (fun t => with_state t TASK_READY) else s
  else s.
Definition task_ipc_wait_tick (s : tasks_t) (now : Z) : tasks_t :=
  fold_left (tick_one now) (ring s) s.

(** The tasks after the current one, in queue order, until it comes round. *)
Definition task_has_other_ready_user (s : tasks_t) : Z :=
  match task_queue s, current_task s with
  | Some _, Some c =>
      let others := tail (walk_from (task_static_pool s) c c (length (task_static_pool s))) in
      b2z (existsb (fun i => is_user (t_type (task_at s i)) && state_is (t_state (task_at s i)) TASK_READY)
             others)
  | _, _ => 0
  end.

(** ** Children *)

Definition task_reparent_children (s : tasks_t) (departing : ptr nat) : tasks_t :=
  match departing with
  | NULL => s
  | Some d =>
      fold_left (fun s i =>
        if negb (bool_decide (i = d)) && (t_parent_pid (task_at s i) =? t_id (task_at s d))
        then upd s i (fun t => with_parent t (t_parent_pid (task_at s d))) else s)
        (ring s) s
  end.

Definition task_count_direct_children (s : tasks_t) (pid : Z) : Z :=
  Z.of_nat (length (filter (fun i => t_parent_pid (task_at s i) = pid) (ring s))).

Definition task_can_create_child (s : tasks_t) (pid : Z) : Z :=
  match get_task_by_id s pid with
  | None => OS_TASK_NOT_FOUND
  | Some _ => if OS_TASK_CHILD_CAPACITY <=? task_count_direct_children s pid
              then OS_TASK_CHILD_LIMIT else 0
  end.

Definition task_can_create_global (s : tasks_t) : Z :=
  if OS_TASK_GLOBAL_CAPACITY <=? get_task_count s then OS_TASK_GLOBAL_LIMIT else 0.

Definition task_wait_for_child (s : tasks_t) (requester_pid child_pid : Z) : Z * tasks_t :=
  match get_task_by_id s requester_pid, get_task_by_id s child_pid with
  | Some parent, Some child =>
      if negb (t_parent_pid (task_at s child) =? requester_pid) then (OS_TASK_NOT_CHILD, s)
      else if negb (t_waiter_pid (task_at s child) =? 0)
              && negb (t_waiter_pid (task_at s child) =? requester_pid)
      then (OS_TASK_CONTROL_DENIED, s)
      else
        let s := upd s child (fun t => with_waiter t requester_pid) in
        (0, upd s parent (fun t => with_state t TASK_WAITING))
  | _, _ => (OS_TASK_NOT_FOUND, s)
  end.

(** The loop: [None] when a child already has another waiter (the children
    before it keep the new waiter). *)
Fixpoint wait_any_loop (s : tasks_t) (requester_pid : Z) (l : list nat) (found : bool)
    : bool * bool * tasks_t :=
  match l with
  | [] => (true, found, s)
  | i :: l =>
      if t_parent_pid (task_at s i) =? requester_pid then
        if negb (t_waiter_pid (task_at s i) =? 0) && negb (t_waiter_pid (task_at s i) =? requester_pid)
        then (false, found, s)
        else wait_any_loop (upd s i (fun t => with_waiter t requester_pid)) requester_pid l true
      else wait_any_loop s requester_pid l found
  end.

Definition task_wait_for_any_child (s : tasks_t) (requester_pid : Z) : Z * tasks_t :=
  match get_task_by_id s requester_pid with
  | None => (OS_TASK_NOT_FOUND, s)
  | Some parent =>
      match wait_any_loop s requester_pid (ring s) false with
      | (false, _, s) => (OS_TASK_CONTROL_DENIED, s)
      | (true, false, s) => (OS_TASK_NO_DIRECT_CHILD, s)
      | (true, true, s) => (0, upd s parent (fun t => with_state t TASK_WAITING))
      end
  end.

Definition task_wake_waiter (s : tasks_t) (child : ptr nat) : tasks_t :=
  match child with
  | NULL => s
  | Some c =>
      if t_waiter_pid (task_at s c) <=? 0 then s
      else
        let s :=
          match get_task_by_id s (t_waiter_pid (task_at s c)) with
          | Some parent =>
              if state_is (t_state (task_at s parent)) TASK_WAITING
              then upd s parent (fun t => with_state t TASK_READY) else s
          | None => s
          end in
        upd s c (fun t => with_waiter t 0)
  end.

(** ** Bounded rings of records

    [child_exit_history] and [supervision_events] use the same code: a new
    record goes behind the last one, or over the oldest when the ring is full. *)
Definition ring_push {A} (cap : Z) (entries : list A) (start count : Z) (x : A) : list A * Z * Z :=
  if count <? cap then
    (<[Z.to_nat (u32 (start + count) mod cap) := x]> entries, start, u32 (count + 1))
  else
    (<[Z.to_nat start := x]> entries, u32 (start + 1) mod cap, count).

(** The records kept, oldest first. *)
Definition ring_entries {A} `{Inhabited A} (cap : Z) (entries : list A) (start count : Z) : list A :=
  (fun i => entries !!! Z.to_nat (u32 (start + Z.of_nat i) mod cap)) <$> seq 0 (Z.to_nat count).

(** ** Watch list *)

Definition task_supervision_notify_bit (action : Z) : Z :=
  if action =? OS_TASK_SUPERVISION_EXIT then OS_TASK_SUPERVISION_NOTIFY_EXIT
  else if action =? OS_TASK_SUPERVISION_SUSPEND then OS_TASK_SUPERVISION_NOTIFY_SUSPEND
  else if action =? OS_TASK_SUPERVISION_RESUME then OS_TASK_SUPERVISION_NOTIFY_RESUME
  else if action =? OS_TASK_SUPERVISION_DELEGATE_OUT then OS_TASK_SUPERVISION_NOTIFY_DELEGATE_OUT
  else if action =? OS_TASK_SUPERVISION_DELEGATE_IN then OS_TASK_SUPERVISION_NOTIFY_DELEGATE_IN
  else 0.

Definition watch_list (v : supervision_t) : list Z :=
  take (Z.to_nat (supervision_watch_count v)) (supervision_watch_pids v).

(** [-1] is [None]. *)
Definition task_supervision_watch_index (v : supervision_t) (child_pid : Z) : option nat :=
  if child_pid <=? 0 then None else find_slot (fun p => p =? child_pid) (watch_list v).

Definition with_watch (v : supervision_t) (enabled count : Z) (pids : list Z) : supervision_t :=
  mk_supervision (supervision_events v) (supervision_event_start v) (supervision_event_count v)
    (supervision_event_generation v) (supervision_event_sequence v) (supervision_notify_enabled v)
    (supervision_notify_mask v) enabled count pids (supervision_delivery_attempted v)
    (supervision_delivery_delivered v) (supervision_delivery_dropped v)
    (supervision_priority_child_pid v) (supervision_notify_budget_limit v)
    (supervision_notify_budget_used v).

(** The entries after [index] move one place down; the last one stays where it
    was, past the new count. *)
Definition watch_shift (pids : list Z) (index count : nat) : list Z :=
  take index pids ++ take (count - S index) (drop (S index) pids) ++ drop (count - 1) pids.

Definition remove_watch (v : supervision_t) (child_pid : Z) : supervision_t :=
  match task_supervision_watch_index v child_pid with
  | None => v
  | Some index =>
      let n := supervision_watch_count v in
      let count := if 0 <? n then n - 1 else n in
      with_watch v (if count =? 0 then 0 else supervision_watch_enabled v) count
        (watch_shift (supervision_watch_pids v) index (Z.to_nat n))
  end.

Definition task_remove_supervision_watch (k : kernel_t) (parent : ptr nat) (child_pid : Z) : kernel_t :=
  match parent with
  | NULL => k
  | Some p => kupd k p (fun t => with_sup t (remove_watch (t_sup t) child_pid))
  end.

Definition task_supervision_watch_allows (v : supervision_t) (child_pid : Z) : bool :=
  if supervision_watch_enabled v =? 0 then true
  else bool_decide (is_Some (task_supervision_watch_index v child_pid)).

(** ** Events and notices *)

Definition with_events (v : supervision_t) (events : list os_task_supervision_event_t)
    (start count generation sequence : Z) : supervision_t :=
  mk_supervision events start count generation sequence (supervision_notify_enabled v)
    (supervision_notify_mask v) (supervision_watch_enabled v) (supervision_watch_count v)
    (supervision_watch_pids v) (supervision_delivery_attempted v) (supervision_delivery_delivered v)
    (supervision_delivery_dropped v) (supervision_priority_child_pid v)
    (supervision_notify_budget_limit v) (supervision_notify_budget_used v).
Definition with_notify (v : supervision_t) (enabled mask : Z) : supervision_t :=
  mk_supervision (supervision_events v) (supervision_event_start v) (supervision_event_count v)
    (supervision_event_generation v) (supervision_event_sequence v) enabled mask
    (supervision_watch_enabled v) (supervision_watch_count v) (supervision_watch_pids v)
    (supervision_delivery_attempted v) (supervision_delivery_delivered v)
    (supervision_delivery_dropped v) (supervision_priority_child_pid v)
    (supervision_notify_budget_limit v) (supervision_notify_budget_used v).
Definition with_delivery (v : supervision_t) (attempted delivered dropped : Z) : supervision_t :=
  mk_supervision (supervision_events v) (supervision_event_start v) (supervision_event_count v)
    (supervision_event_generation v) (supervision_event_sequence v) (supervision_notify_enabled v)
    (supervision_notify_mask v) (supervision_watch_enabled v) (supervision_watch_count v)
    (supervision_watch_pids v) attempted delivered dropped (supervision_priority_child_pid v)
    (supervision_notify_budget_limit v) (supervision_notify_budget_used v).
Definition with_priority_child (v : supervision_t) (pid : Z) : supervision_t :=
  mk_supervision (supervision_events v) (supervision_event_start v) (supervision_event_count v)
    (supervision_event_generation v) (supervision_event_sequence v) (supervision_notify_enabled v)
    (supervision_notify_mask v) (supervision_watch_enabled v) (supervision_watch_count v)
    (supervision_watch_pids v) (supervision_delivery_attempted v) (supervision_delivery_delivered v)
    (supervision_delivery_dropped v) pid
    (supervision_notify_budget_limit v) (supervision_notify_budget_used v).
Definition with_budget (v : supervision_t) (limit used : Z) : supervision_t :=
  mk_supervision (supervision_events v) (supervision_event_start v) (supervision_event_count v)
    (supervision_event_generation v) (supervision_event_sequence v) (supervision_notify_enabled v)
    (supervision_notify_mask v) (supervision_watch_enabled v) (supervision_watch_count v)
    (supervision_watch_pids v) (supervision_delivery_attempted v) (supervision_delivery_delivered v)
    (supervision_delivery_dropped v) (supervision_priority_child_pid v) limit used.

(** Send to the task's mailbox, else to the spill slots: the code of the last
    attempt and the state.  [task_ipc_message_queued] runs on success. *)
Definition deliver_notice (k : kernel_t) (p : nat) (payload : os_ipc_payload_t) : Z * kernel_t :=
  let '(rc, e) := ipc_endpoint_send (Some (t_ipc_endpoint (ktask k p))) 0 (Some payload) in
  let k := kupd k p (fun t => with_endpoint t (default (t_ipc_endpoint t) e)) in
  let '(rc, k) :=
    if rc =? 0 then (rc, k)
    else let '(rc, r) := service_registry_ipc_spill_push (k_registry k) (t_id (ktask k p)) (Some payload) in
         (rc, set_registry k r) in
  (rc, if rc =? 0 then set_tasks k (task_ipc_message_queued (k_tasks k) (Some p)) else k).

Definition count_delivery (k : kernel_t) (p : nat) (rc : Z) : kernel_t :=
  kupd k p (fun t =>
    let v := t_sup t in
    with_sup t (if rc =? 0
                then with_delivery v (supervision_delivery_attempted v)
                       (u32 (supervision_delivery_delivered v + 1)) (supervision_delivery_dropped v)
                else with_delivery v (supervision_delivery_attempted v)
                       (supervision_delivery_delivered v) (u32 (supervision_delivery_dropped v + 1)))).

(** Whether the parent's subscription, mask, watch list and budget let the
    event through. *)
Definition notice_wanted (t : task_t) (e : os_task_supervision_event_t) : bool :=
  let v := t_sup t in
  let bit := task_supervision_notify_bit (ev_action e) in
  let priority := supervision_priority_child_pid v =? ev_child_pid e in
  if (supervision_notify_enabled v =? 0) || negb (is_user (t_type t)) || state_is (t_state t) TASK_TERMINATED
  then false
  else if negb priority && ((bit =? 0) || (Z.land (supervision_notify_mask v) bit =? 0)) then false
  else if negb priority && negb (task_supervision_watch_allows v (ev_child_pid e)) then false
  else if negb (supervision_notify_budget_limit v =? 0)
          && (supervision_notify_budget_limit v <=? supervision_notify_budget_used v) then false
  else true.

(** [payload] is an uninitialised local: its bytes past the notice are never
    copied, since a send copies [size] bytes. *)
Definition task_notify_supervision_event (k : kernel_t) (p : nat) (event : os_task_supervision_event_t)
    : kernel_t :=
  if negb (notice_wanted (ktask k p) event) then k
  else
    match os_task_make_supervision_event (Some zero_payload) (Some event) with
    | (0, Some payload) =>
        let k := kupd k p (fun t =>
          let v := t_sup t in
          with_sup t (with_delivery (with_budget v (supervision_notify_budget_limit v)
                                       (u32 (supervision_notify_budget_used v + 1)))
                        (u32 (supervision_delivery_attempted v + 1)) (supervision_delivery_delivered v)
                        (supervision_delivery_dropped v))) in
        let '(rc, k) := deliver_notice k p payload in
        count_delivery k p rc
    | _ => k
    end.

Definition task_stamp_supervision_identity (s : tasks_t) (e : os_task_supervision_event_t) (child_pid : Z)
    : os_task_supervision_event_t :=
  let stamp q g key := mk_sup_event (ev_sequence e) (ev_action e) (ev_child_pid e) (ev_related_pid e)
                         (ev_detail e) (ev_ticks e) q g key in
  match get_task_by_id s child_pid with
  | None => stamp 0 0 0
  | Some c => stamp (t_sequence (task_at s c)) (t_generation (task_at s c)) (t_identity_key (task_at s c))
  end.

Definition task_record_supervision_event (k : kernel_t) (now : Z) (parent : ptr nat)
    (action child_pid related_pid detail : Z) : kernel_t :=
  match parent with
  | NULL => k
  | Some p =>
      let v := t_sup (ktask k p) in
      let seq := next_nonzero (supervision_event_sequence v) in
      let event := task_stamp_supervision_identity (k_tasks k)
                     (mk_sup_event seq action child_pid related_pid detail now 0 0 0) child_pid in
      let '(events, start, count) :=
        ring_push OS_TASK_SUPERVISION_EVENT_CAPACITY (supervision_events v) (supervision_event_start v)
          (supervision_event_count v) event in
      let k := kupd k p (fun t =>
        with_sup t (with_events v events start count (next_nonzero (supervision_event_generation v)) seq)) in
      task_notify_supervision_event k p event
  end.

Definition task_suspend_child (k : kernel_t) (now requester_pid child_pid : Z) : Z * kernel_t :=
  let parent := get_task_by_id (k_tasks k) requester_pid in
  match get_task_by_id (k_tasks k) child_pid with
  | None => (OS_TASK_NOT_FOUND, k)
  | Some c =>
      if negb (is_user (t_type (ktask k c))) || negb (t_parent_pid (ktask k c) =? requester_pid)
      then (OS_TASK_CONTROL_DENIED, k)
      else if negb (state_is (t_state (ktask k c)) TASK_READY) then (OS_TASK_BAD_STATE, k)
      else
        let k := kupd k c (fun t => with_state t TASK_SUSPENDED) in
        (0, task_record_supervision_event k now parent OS_TASK_SUPERVISION_SUSPEND child_pid 0 0)
  end.

Definition task_resume_child (k : kernel_t) (now requester_pid child_pid : Z) : Z * kernel_t :=
  let parent := get_task_by_id (k_tasks k) requester_pid in
  match get_task_by_id (k_tasks k) child_pid with
  | None => (OS_TASK_NOT_FOUND, k)
  | Some c =>
      if negb (is_user (t_type (ktask k c))) || negb (t_parent_pid (ktask k c) =? requester_pid)
      then (OS_TASK_CONTROL_DENIED, k)
      else if negb (state_is (t_state (ktask k c)) TASK_SUSPENDED) then (OS_TASK_BAD_STATE, k)
      else
        let k := kupd k c (fun t => with_state t TASK_READY) in
        (0, task_record_supervision_event k now parent OS_TASK_SUPERVISION_RESUME child_pid 0 0)
  end.

(** ** Termination *)

(** The first part of a parent's bookkeeping: last result and total. *)
Definition note_exit (x : exits_t) (result : os_task_exit_result_t) : exits_t :=
  mk_exits result (child_exit_history x) (child_exit_history_start x) (child_exit_history_count x)
    (child_exit_history_generation x) (u32 (direct_child_exit_count x + 1)).

(** The second part: ring of four results and its generation. *)
Definition record_exit (x : exits_t) (result : os_task_exit_result_t) : exits_t :=
  let '(history, start, count) :=
    ring_push OS_TASK_EXIT_HISTORY_CAPACITY (child_exit_history x) (child_exit_history_start x)
      (child_exit_history_count x) result in
  mk_exits (last_child x) history start count (next_nonzero (child_exit_history_generation x))
    (direct_child_exit_count x).

Definition forget_priority_child (v : supervision_t) (pid : Z) : supervision_t :=
  if supervision_priority_child_pid v =? pid then with_priority_child v (-1) else v.

Definition task_report_parent_exit (k : kernel_t) (now : Z) (child : ptr nat) (exit_code reason : Z)
    : kernel_t :=
  match child with
  | NULL => k
  | Some c =>
      let k := mk_kernel (k_tasks k) (k_registry k) (k_vmm k)
                 (snd (out_cap_task_gone (k_outcap k) (t_id (ktask k c)))) (k_bridge k) in
      let pid := t_id (ktask k c) in
      if t_parent_pid (ktask k c) <=? 0 then k
      else
        match get_task_by_id (k_tasks k) (t_parent_pid (ktask k c)) with
        | None => k
        | Some p =>
            if negb (is_user (t_type (ktask k p))) || state_is (t_state (ktask k p)) TASK_TERMINATED then k
            else
              let result := mk_exit_result pid exit_code reason now in
              let k := kupd k p (fun t => with_exits t (note_exit (t_exits t) result)) in
              let k := task_record_supervision_event k now (Some p) OS_TASK_SUPERVISION_EXIT pid 0 reason in
              let k := kupd k p (fun t => with_exits t (record_exit (t_exits t) result)) in
              let k := task_remove_supervision_watch k (Some p) pid in
              let k := kupd k p (fun t => with_sup t (forget_priority_child (t_sup t) pid)) in
              match os_task_make_event (Some zero_payload) pid reason with
              | (0, Some payload) =>
                  let '(rc, e) := ipc_endpoint_send (Some (t_ipc_endpoint (ktask k p))) 0 (Some payload) in
                  let k := kupd k p (fun t => with_endpoint t (default (t_ipc_endpoint t) e)) in
                  if rc =? 0 then set_tasks k (task_ipc_message_queued (k_tasks k) (Some p)) else k
              | _ => k
              end
        end
  end.

Section Pool.
(** The link-time addresses of [task_static_vmm_pool]. *)
Context (vmm_pool : nat -> Z).
(** The address of the hardware directory and of the kernel stack of a slot. *)
Context (vmm_phys stack_top : nat -> Z).
(** [elf_load(file_data, vmm_dir)]: entry point (0 on failure) and memory. *)
Context (elf_load : vmm_t -> Z -> Z * vmm_t).

Definition task_static_vmm_release (s : tasks_t) (dir : Z) : tasks_t :=
  match find_slot (fun i => vmm_pool i =? dir) (seq 0 16) with
  | None => s
  | Some i => set_vmm_used s (<[i := 0]> (task_static_vmm_used s))
  end.

Definition task_destroy_user_vmm (k : kernel_t) (dir : Z) : Z * kernel_t :=
  if dir =? 0 then (0, k)
  else
    let '(rc, v) := vmm_destroy_user_directory (k_vmm k) dir in
    let k := mk_kernel (k_tasks k) (k_registry k) v (k_outcap k) (k_bridge k) in
    if negb (rc =? 0) then (-1, k)
    else (0, set_tasks k (task_static_vmm_release (k_tasks k) dir)).

Definition task_release_detached (k : kernel_t) (task : ptr nat) : kernel_t :=
  match task with
  | NULL => k
  | Some i =>
      if negb (is_user (t_type (ktask k i))) || (t_kernel_stack_p (ktask k i) =? 0) then k
      else
        let '(rc, k) := task_destroy_user_vmm k (t_vmm_dir (ktask k i)) in
        if negb (rc =? 0) then k
        else
          let k := kupd k i (fun t => with_memory t 0 0) in
          set_tasks k (task_static_release (k_tasks k) i)
  end.

Definition remove_task (k : kernel_t) (task : ptr nat) : kernel_t :=
  match task with
  | NULL => k
  | Some i =>
      if bool_decide (current_task (k_tasks k) = Some i) then k
      else if negb (existsb (fun c => bool_decide (c = i)) (ring (k_tasks k))) then k
      else task_release_detached (set_tasks k (unlink_task (k_tasks k) i)) task
  end.

(** The end of a killed task: report, waiter, children, queue, memory. *)
Definition kill_one (k : kernel_t) (now : Z) (i : nat) : kernel_t :=
  let k := task_report_parent_exit k now (Some i) OS_TASK_EXIT_KILLED OS_TASK_EVENT_KILLED in
  let k := set_tasks k (task_wake_waiter (k_tasks k) (Some i)) in
  let k := set_tasks k (task_reparent_children (k_tasks k) (Some i)) in
  let k := kupd k i (fun t => with_state t TASK_TERMINATED) in
  let k := set_tasks k (unlink_task (k_tasks k) i) in
  task_release_detached k (Some i).

Definition task_kill (k : kernel_t) (now requester_pid pid : Z) : Z * kernel_t :=
  if pid =? 0 then (-2, k)
  else
    match get_task_by_id (k_tasks k) pid with
    | None => (-1, k)
    | Some i =>
        if requester_pid =? pid then (-3, k)
        else if negb (requester_pid =? t_parent_pid (ktask k i))
                && negb (c_true (t_boot_service (ktask k i)) && (0 <? g_root_shell_pid (k_tasks k))
                         && (requester_pid =? g_root_shell_pid (k_tasks k)))
        then (OS_TASK_CONTROL_DENIED, k)
        else (0, kill_one k now i)
    end.

(** The PIDs are collected first; each is looked up again, since killing one
    child may change the others' parent. *)
Definition task_kill_direct_children (k : kernel_t) (now requester_pid : Z) : Z * kernel_t :=
  match get_task_by_id (k_tasks k) requester_pid with
  | None => (OS_TASK_NOT_FOUND, k)
  | Some _ =>
      let s := k_tasks k in
      let pids := take (Z.to_nat OS_TASK_CHILD_CAPACITY)
                    (map (fun i => t_id (task_at s i))
                       (List.filter (fun i => t_parent_pid (task_at s i) =? requester_pid) (ring s))) in
      (Z.of_nat (length pids),
       fold_left (fun k pid =>
         match get_task_by_id (k_tasks k) pid with
         | None => k
         | Some i => if negb (t_parent_pid (ktask k i) =? requester_pid) then k else kill_one k now i
         end) pids k)
  end.
(** ** Creation *)

(** The slot's directory is zeroed and every kernel table is copied into it. *)
Definition kernel_view (v : vmm_t) (addr : Z) : vmm_directory_t :=
  let kd := get_dir v (kernel_directory v) in
  mk_dir (tables kd)
    (map (fun '(t, p) => if t =? 0 then 0 else p) (combine (tables kd) (tablesPhysical kd)))
    addr 1 (replicate 32 0).

Definition task_static_vmm_acquire (k : kernel_t) : Z * kernel_t :=
  match find_slot (fun u => u =? 0) (task_static_vmm_used (k_tasks k)) with
  | None => (0, k)
  | Some i =>
      let dir := vmm_pool i in
      let s := set_vmm_used (k_tasks k) (<[i := 1]> (task_static_vmm_used (k_tasks k))) in
      (dir, mk_kernel s (k_registry k)
              (set_dirs (k_vmm k) (<[dir := kernel_view (k_vmm k) (vmm_phys i)]> (v_dirs (k_vmm k))))
              (k_outcap k) (k_bridge k))
  end.

Definition USER_STACK_TOP : Z := 2952790016.
Definition USER_STACK_PAGES : Z := 16.

(** The loop over the stack pages from [addr] on. *)
Fixpoint stack_pages (v : vmm_t) (dir addr : Z) (n : nat) : Z * vmm_t :=
  match n with
  | O => (USER_STACK_TOP, v)
  | S n =>
      let '(page, pmm) := pmm_alloc_page (v_pmm v) in
      let v := set_pmm v pmm in
      if page =? 0 then (0, v)
      else
        let '(rc, v) := vmm_map_page_in_directory v dir page addr
                          (Z.lor (Z.lor PAGE_PRESENT PAGE_WRITE) PAGE_USER) in
        if negb (rc =? 0) then (0, set_pmm v (pmm_free_page (v_pmm v) page))
        else stack_pages v dir (addr + PAGE_SIZE) n
  end.
Definition allocate_user_stack (v : vmm_t) (dir : Z) : Z * vmm_t :=
  stack_pages v dir (USER_STACK_TOP - USER_STACK_PAGES * PAGE_SIZE) (Z.to_nat USER_STACK_PAGES).

Definition set_current_directory (v : vmm_t) (dir : Z) : vmm_t :=
  mk_vmm (v_pmm v) (v_tables v) (v_dirs v) (kernel_directory v) dir.
Definition set_vmm (k : kernel_t) (v : vmm_t) : kernel_t :=
  mk_kernel (k_tasks k) (k_registry k) v (k_outcap k) (k_bridge k).

(** [file] is the program found in the initrd: the name it was found under, or
    [None]. *)
Definition create_task_from_initrd_file (k : kernel_t) (now : Z) (file : ptr cstring)
    : ptr nat * kernel_t :=
  if negb (task_can_create_global (k_tasks k) =? 0) then (None, k)
  else match file with
  | NULL => (None, k)
  | Some name_src =>
      let '(dir, k) := task_static_vmm_acquire k in
      if dir =? 0 then (None, k)
      else
        let old_dir := current_directory (k_vmm k) in
        let '(entry, v) := elf_load (set_current_directory (k_vmm k) dir) dir in
        let '(top, v) := if entry =? 0 then (0, v) else allocate_user_stack v dir in
        let k := set_vmm k (set_current_directory v old_dir) in
        if (entry =? 0) || (top =? 0) then (None, snd (task_destroy_user_vmm k dir))
        else
          match task_install (k_tasks k) dir now name_src stack_top with
          | (None, s) => (None, snd (task_destroy_user_vmm (set_tasks k s) dir))
          | (Some i, s) => (Some i, set_tasks k s)
          end
  end.

(** The end of [sys_spawn] and [sys_exec]: the new task becomes a child of the
    current one; [waits] when the creator waits for it ([sys_exec]). *)
Definition adopt_child (k : kernel_t) (waits : bool) (new_task current : nat) : kernel_t :=
  let pid := t_id (ktask k current) in
  let k := kupd k new_task (fun t => with_parent t pid) in
  let k := if waits then kupd k new_task (fun t => with_waiter t pid) else k in
  mk_kernel (k_tasks k) (k_registry k) (k_vmm k)
    (snd (out_cap_child (k_outcap k) pid (t_id (ktask k new_task)))) (k_bridge k).

(** The common body of [sys_spawn] and [sys_exec], without the copy of the
    argument string into the new task's stack. *)
Definition spawn_child (k : kernel_t) (now : Z) (waits : bool) (file : ptr cstring) : Z * kernel_t :=
  match current_task (k_tasks k) with
  | NULL => (OS_TASK_NOT_FOUND, k)
  | Some current =>
      let rc := task_can_create_child (k_tasks k) (t_id (ktask k current)) in
      if negb (rc =? 0) then (rc, k)
      else
        let rc := task_can_create_global (k_tasks k) in
        if negb (rc =? 0) then (rc, k)
        else
          match create_task_from_initrd_file k now file with
          | (None, k) => (-1, k)
          | (Some i, k) =>
              let k := adopt_child k waits i current in
              (if waits then 0 else t_id (ktask k i), k)
          end
  end.

Definition sys_spawn (k : kernel_t) (now : Z) (path : ptr cstring) : Z * kernel_t :=
  spawn_child k now false path.
Definition sys_exec (k : kernel_t) (now : Z) (path : ptr cstring) : Z * kernel_t :=
  spawn_child k now true path.
End Pool.

(** ** Delegation *)

(** The walk from the proposed supervisor towards the root: [true] when it may
    adopt the child, [false] when it descends from the child or the chain is
    longer than the table. *)
Fixpoint ancestors_avoid (s : tasks_t) (child_pid : Z) (cursor : ptr nat) (fuel : nat) : bool :=
  match cursor with
  | NULL => true
  | Some c =>
      match fuel with
      | O => false
      | S fuel =>
          if t_id (task_at s c) =? child_pid then false
          else if t_parent_pid (task_at s c) <? 0 then true
          else ancestors_avoid s child_pid (get_task_by_id s (t_parent_pid (task_at s c))) fuel
      end
  end.

Definition task_delegate_child (k : kernel_t) (now requester_pid child_pid supervisor_pid : Z)
    : Z * kernel_t :=
  let s := k_tasks k in
  match get_task_by_id s requester_pid, get_task_by_id s child_pid, get_task_by_id s supervisor_pid with
  | Some requester, Some child, Some supervisor =>
      if negb (t_parent_pid (task_at s child) =? requester_pid) then (OS_TASK_NOT_CHILD, k)
      else if negb (is_user (t_type (task_at s supervisor)))
              || state_is (t_state (task_at s supervisor)) TASK_TERMINATED
              || (supervisor_pid =? requester_pid) || (supervisor_pid =? child_pid)
      then (OS_TASK_BAD_DELEGATE, k)
      else if negb (t_waiter_pid (task_at s child) =? 0) then (OS_TASK_BAD_STATE, k)
      else if OS_TASK_CHILD_CAPACITY <=? task_count_direct_children s supervisor_pid
      then (OS_TASK_CHILD_LIMIT, k)
      else if negb (ancestors_avoid s child_pid (Some supervisor) (Z.to_nat OS_TASK_GLOBAL_CAPACITY))
      then (OS_TASK_BAD_DELEGATE, k)
      else
        let k := task_record_supervision_event k now (Some requester) OS_TASK_SUPERVISION_DELEGATE_OUT
                   child_pid supervisor_pid 0 in
        let k := task_record_supervision_event k now (Some supervisor) OS_TASK_SUPERVISION_DELEGATE_IN
                   child_pid requester_pid 0 in
        let k := task_remove_supervision_watch k (Some requester) child_pid in
        let k := kupd k requester (fun t => with_sup t (forget_priority_child (t_sup t) child_pid)) in
        (0, kupd k child (fun t => with_parent t supervisor_pid))
  | _, _, _ => (OS_TASK_NOT_FOUND, k)
  end.

(** ** Reading and acknowledging the rings *)

(** [for (i = 0; i < n; i++) out[i] = l[i]] *)
Definition write_out {A} (l out : list A) : list A := l ++ drop (length l) out.

Record os_task_supervision_events_t := mk_sup_events {
  evs_generation : Z; evs_count : Z; evs_entries : list os_task_supervision_event_t
}.
Definition zero_sup_events : os_task_supervision_events_t :=
  mk_sup_events 0 0 (replicate 4 zero_sup_event).

Definition kept_events (v : supervision_t) : list os_task_supervision_event_t :=
  ring_entries OS_TASK_SUPERVISION_EVENT_CAPACITY (supervision_events v) (supervision_event_start v)
    (supervision_event_count v).
Definition kept_results (x : exits_t) : list os_task_exit_result_t :=
  ring_entries OS_TASK_EXIT_HISTORY_CAPACITY (child_exit_history x) (child_exit_history_start x)
    (child_exit_history_count x).

(** The out-structure is zeroed, then filled. *)
Definition task_fill_supervision_events (s : tasks_t) (requester_pid : Z)
    (out : ptr os_task_supervision_events_t) : Z * ptr os_task_supervision_events_t :=
  match out with
  | NULL => (OS_TASK_NOT_FOUND, NULL)
  | Some _ =>
      match get_task_by_id s requester_pid with
      | None => (OS_TASK_NOT_FOUND, Some zero_sup_events)
      | Some p =>
          let v := t_sup (task_at s p) in
          (0, Some (mk_sup_events (supervision_event_generation v) (supervision_event_count v)
                      (write_out (kept_events v) (replicate 4 zero_sup_event))))
      end
  end.

Definition task_ack_supervision_events (s : tasks_t) (requester_pid : Z) : Z * tasks_t :=
  match get_task_by_id s requester_pid with
  | None => (OS_TASK_NOT_FOUND, s)
  | Some p =>
      let gen := next_nonzero (supervision_event_generation (t_sup (task_at s p))) in
      (i32 gen, upd s p (fun t => with_sup t (with_events (t_sup t) (supervision_events (t_sup t)) 0 0 gen
                                      (supervision_event_sequence (t_sup t)))))
  end.

(** The generation and the events of the observation. *)
Definition task_observe_supervision_events (s : tasks_t) (requester_pid expected_generation : Z)
    (out : ptr (Z * os_task_supervision_events_t)) : Z * ptr (Z * os_task_supervision_events_t) :=
  match out with
  | NULL => (OS_TASK_NOT_FOUND, NULL)
  | Some _ =>
      match get_task_by_id s requester_pid with
      | None => (OS_TASK_NOT_FOUND, Some (0, zero_sup_events))
      | Some p =>
          let gen := supervision_event_generation (t_sup (task_at s p)) in
          if negb (expected_generation =? gen) then (OS_TASK_HISTORY_STALE, Some (gen, zero_sup_events))
          else
            let '(rc, events) := task_fill_supervision_events s requester_pid (Some zero_sup_events) in
            (rc, Some (gen, default zero_sup_events events))
      end
  end.

Definition task_find_supervision_event (s : tasks_t) (requester_pid sequence : Z)
    (out : ptr os_task_supervision_event_t) : Z * ptr os_task_supervision_event_t :=
  match out with
  | NULL => (OS_TASK_NO_SUPERVISION_EVENT, NULL)
  | Some _ =>
      if sequence =? 0 then (OS_TASK_NO_SUPERVISION_EVENT, out)
      else
        match get_task_by_id s requester_pid with
        | None => (OS_TASK_NOT_FOUND, Some zero_sup_event)
        | Some p =>
            match List.find (fun e => ev_sequence e =? sequence) (kept_events (t_sup (task_at s p))) with
            | None => (OS_TASK_NO_SUPERVISION_EVENT, Some zero_sup_event)
            | Some e => (0, Some e)
            end
        end
  end.

(** The retained records are written back from index 0; the others keep their
    content. *)
Definition task_forget_supervision_event (s : tasks_t) (requester_pid sequence : Z) : Z * tasks_t :=
  if sequence =? 0 then (OS_TASK_NO_SUPERVISION_EVENT, s)
  else
    match get_task_by_id s requester_pid with
    | None => (OS_TASK_NOT_FOUND, s)
    | Some p =>
        let v := t_sup (task_at s p) in
        if negb (existsb (fun e => ev_sequence e =? sequence) (kept_events v))
        then (OS_TASK_NO_SUPERVISION_EVENT, s)
        else
          let retained := List.filter (fun e => negb (ev_sequence e =? sequence)) (kept_events v) in
          (Z.of_nat (length retained),
           upd s p (fun t => with_sup t
             (with_events v (write_out retained (supervision_events v)) 0 (Z.of_nat (length retained))
                (next_nonzero (supervision_event_generation v)) (supervision_event_sequence v))))
    end.

(** ** Subscriptions *)

(** The live user task with this PID. *)
Definition user_parent (s : tasks_t) (pid : Z) : ptr nat :=
  match get_task_by_id s pid with
  | Some p => if is_user (t_type (task_at s p)) && negb (state_is (t_state (task_at s p)) TASK_TERMINATED)
              then Some p else None
  | None => None
  end.

Definition task_set_supervision_notify (s : tasks_t) (requester_pid enabled : Z) : Z * tasks_t :=
  if 1 <? enabled then (OS_TASK_BAD_NOTIFY, s)
  else match user_parent s requester_pid with
  | None => (OS_TASK_NOT_FOUND, s)
  | Some p => (enabled, upd s p (fun t => with_sup t (with_notify (t_sup t) enabled
                                     (supervision_notify_mask (t_sup t)))))
  end.

Definition task_set_supervision_notify_filter (s : tasks_t) (requester_pid mask : Z) : Z * tasks_t :=
  if negb (Z.land mask (u32 (Z.lnot OS_TASK_SUPERVISION_NOTIFY_ALL)) =? 0)
  then (OS_TASK_BAD_NOTIFY_FILTER, s)
  else match user_parent s requester_pid with
  | None => (OS_TASK_NOT_FOUND, s)
  | Some p => (0, upd s p (fun t => with_sup t (with_notify (t_sup t)
                               (supervision_notify_enabled (t_sup t)) mask)))
  end.

Definition task_update_supervision_watch (s : tasks_t) (requester_pid child_pid enabled : Z) : Z * tasks_t :=
  if 1 <? enabled then (OS_TASK_BAD_WATCH, s)
  else match user_parent s requester_pid with
  | None => (OS_TASK_NOT_FOUND, s)
  | Some p =>
      if (enabled =? 0) && (child_pid =? 0) then
        (0, upd s p (fun t => with_sup t (with_watch (t_sup t) 0 0 (replicate 4 0))))
      else if child_pid <=? 0 then (OS_TASK_BAD_WATCH, s)
      else match get_task_by_id s child_pid with
      | None => (OS_TASK_NOT_FOUND, s)
      | Some c =>
          if negb (is_user (t_type (task_at s c))) || state_is (t_state (task_at s c)) TASK_TERMINATED
             || negb (t_parent_pid (task_at s c) =? requester_pid)
          then (OS_TASK_NOT_CHILD, s)
          else
            let v := t_sup (task_at s p) in
            let n := supervision_watch_count v in
            match task_supervision_watch_index v child_pid with
            | Some _ =>
                if negb (enabled =? 0) then (n, s)
                else
                  let v := remove_watch v child_pid in
                  (supervision_watch_count v, upd s p (fun t => with_sup t v))
            | None =>
                if enabled =? 0 then (OS_TASK_NO_SUPERVISION_WATCH, s)
                else if OS_TASK_SUPERVISION_WATCH_CAPACITY <=? n then (OS_TASK_WATCH_FULL, s)
                else
                  (n + 1, upd s p (fun t => with_sup t
                            (with_watch v 1 (n + 1)
                               (<[Z.to_nat n := child_pid]> (supervision_watch_pids v)))))
            end
      end
  end.

Definition task_ack_supervision_delivery_stats (s : tasks_t) (requester_pid : Z) : Z * tasks_t :=
  match user_parent s requester_pid with
  | None => (OS_TASK_NOT_FOUND, s)
  | Some p => (0, upd s p (fun t => with_sup t (with_delivery (t_sup t) 0 0 0)))
  end.

Definition task_replay_supervision_event (k : kernel_t) (requester_pid sequence : Z) : Z * kernel_t :=
  if sequence =? 0 then (OS_TASK_NO_SUPERVISION_EVENT, k)
  else match user_parent (k_tasks k) requester_pid with
  | None => (OS_TASK_NOT_FOUND, k)
  | Some p =>
      match task_find_supervision_event (k_tasks k) requester_pid sequence (Some zero_sup_event) with
      | (0, Some event) =>
          match os_task_make_supervision_event (Some zero_payload) (Some event) with
          | (0, Some payload) =>
              let k := kupd k p (fun t =>
                let v := t_sup t in
                with_sup t (with_delivery v (u32 (supervision_delivery_attempted v + 1))
                              (supervision_delivery_delivered v) (supervision_delivery_dropped v))) in
              let '(rc, k) := deliver_notice k p payload in
              (rc, count_delivery k p rc)
          | _ => (OS_IPC_BAD_MESSAGE, k)
          end
      | (rc, _) => (rc, k)
      end
  end.

Definition task_set_supervision_priority (s : tasks_t) (requester_pid child_pid : Z) : Z * tasks_t :=
  match user_parent s requester_pid with
  | None => (OS_TASK_NOT_FOUND, s)
  | Some p =>
      if child_pid =? 0 then (0, upd s p (fun t => with_sup t (with_priority_child (t_sup t) (-1))))
      else match get_task_by_id s child_pid with
      | None => (OS_TASK_NOT_FOUND, s)
      | Some c =>
          if negb (is_user (t_type (task_at s c))) || state_is (t_state (task_at s c)) TASK_TERMINATED
             || negb (t_parent_pid (task_at s c) =? requester_pid)
          then (OS_TASK_NOT_CHILD, s)
          else (child_pid, upd s p (fun t => with_sup t (with_priority_child (t_sup t) child_pid)))
      end
  end.

Definition task_set_supervision_notify_budget (s : tasks_t) (requester_pid limit : Z) : Z * tasks_t :=
  match user_parent s requester_pid with
  | None => (OS_TASK_NOT_FOUND, s)
  | Some p => (0, upd s p (fun t => with_sup t (with_budget (t_sup t) limit 0)))
  end.

(** ** Names and priorities *)

Definition task_set_priority (s : tasks_t) (requester_pid pid priority : Z) : Z * tasks_t :=
  if (priority <? OS_TASK_PRIORITY_LOW) || (OS_TASK_PRIORITY_HIGH <? priority) then (OS_TASK_BAD_PRIORITY, s)
  else match get_task_by_id s pid with
  | None => (OS_TASK_NOT_FOUND, s)
  | Some i =>
      if negb (requester_pid =? t_id (task_at s i)) && negb (requester_pid =? t_parent_pid (task_at s i))
      then (OS_TASK_CONTROL_DENIED, s)
      else (0, upd s i (fun t => with_priority t priority))
  end.

(** Printable ASCII up to the terminator, at most 31 characters. *)
Definition task_name_ok (name : cstring) : bool :=
  (Z.of_nat (length name) <? OS_PROC_NAME_MAX) && forallb (fun c => (32 <=? c) && (c <=? 126)) name.

(** The names [task_set_name] refuses. *)
Definition reserved_names : list cstring := [cstr (lit "atadriver"); cstr (lit "ataclient"); cstr (lit "aiworker")].

Definition task_set_name (s : tasks_t) (requester_pid pid : Z) (name : ptr cstring) : Z * tasks_t :=
  match name with
  | NULL => (OS_TASK_BAD_NAME, s)
  | Some name =>
      let n := cstr name in
      if bool_decide (n = []) || negb (task_name_ok n) || bool_decide (n ∈ reserved_names)
      then (OS_TASK_BAD_NAME, s)
      else match get_task_by_id s pid with
      | None => (OS_TASK_NOT_FOUND, s)
      | Some i =>
          if negb (requester_pid =? t_id (task_at s i)) && negb (requester_pid =? t_parent_pid (task_at s i))
          then (OS_TASK_CONTROL_DENIED, s)
          else (0, upd s i (fun t => with_name t (write_front (n ++ [0]) (t_name t))))
      end
  end.

(** ** Child results *)

Definition task_get_child_exit_count (s : tasks_t) (requester_pid : Z) (out : ptr Z) : Z * ptr Z :=
  match out with
  | NULL => (OS_TASK_NOT_FOUND, NULL)
  | Some _ =>
      match get_task_by_id s requester_pid with
      | None => (OS_TASK_NOT_FOUND, out)
      | Some p => (0, Some (direct_child_exit_count (t_exits (task_at s p))))
      end
  end.

Definition task_get_child_result (s : tasks_t) (requester_pid child_pid : Z) (out : ptr os_task_exit_result_t)
    : Z * ptr os_task_exit_result_t :=
  match out with
  | NULL => (OS_TASK_NO_CHILD_RESULT, NULL)
  | Some _ =>
      match get_task_by_id s requester_pid with
      | None => (OS_TASK_NOT_FOUND, out)
      | Some p =>
          let last := last_child (t_exits (task_at s p)) in
          if negb (r_child_pid last =? child_pid) then (OS_TASK_NO_CHILD_RESULT, out) else (0, Some last)
      end
  end.

(** Count and entries of the history. *)
Definition task_fill_child_result_history (s : tasks_t) (requester_pid : Z)
    (out : ptr (Z * list os_task_exit_result_t)) : Z * ptr (Z * list os_task_exit_result_t) :=
  match out with
  | NULL => (OS_TASK_NO_CHILD_RESULT, NULL)
  | Some _ =>
      match get_task_by_id s requester_pid with
      | None => (OS_TASK_NOT_FOUND, Some (0, replicate 4 zero_result))
      | Some p =>
          let x := t_exits (task_at s p) in
          (0, Some (child_exit_history_count x, write_out (kept_results x) (replicate 4 zero_result)))
      end
  end.

Definition no_result : os_task_exit_result_t := mk_exit_result (-1) 0 0 0.

Definition task_ack_child_result_history (s : tasks_t) (requester_pid : Z) : Z * tasks_t :=
  match get_task_by_id s requester_pid with
  | None => (OS_TASK_NOT_FOUND, s)
  | Some p =>
      let x := t_exits (task_at s p) in
      let gen := next_nonzero (child_exit_history_generation x) in
      (i32 gen, upd s p (fun t => with_exits t
                   (mk_exits no_result (child_exit_history x) 0 0 gen (direct_child_exit_count x))))
  end.

Definition task_find_child_result_history (s : tasks_t) (requester_pid child_pid : Z)
    (out : ptr os_task_exit_result_t) : Z * ptr os_task_exit_result_t :=
  match out with
  | NULL => (OS_TASK_NO_CHILD_RESULT, NULL)
  | Some _ =>
      if child_pid <? 0 then (OS_TASK_NO_CHILD_RESULT, out)
      else
        match get_task_by_id s requester_pid with
        | None => (OS_TASK_NOT_FOUND, Some zero_result)
        | Some p =>
            match List.find (fun r => r_child_pid r =? child_pid) (kept_results (t_exits (task_at s p))) with
            | None => (OS_TASK_NO_CHILD_RESULT, Some zero_result)
            | Some r => (0, Some r)
            end
        end
  end.

(** The records without the first one of this child; [None] when it has none. *)
Fixpoint drop_result (l : list os_task_exit_result_t) (child_pid : Z) : option (list os_task_exit_result_t) :=
  match l with
  | [] => None
  | r :: l => if r_child_pid r =? child_pid then Some l else cons r <$> drop_result l child_pid
  end.

Definition task_forget_child_result_history (s : tasks_t) (requester_pid child_pid : Z) : Z * tasks_t :=
  if child_pid <? 0 then (OS_TASK_NO_CHILD_RESULT, s)
  else
    match get_task_by_id s requester_pid with
    | None => (OS_TASK_NOT_FOUND, s)
    | Some p =>
        let x := t_exits (task_at s p) in
        match drop_result (kept_results x) child_pid with
        | None => (OS_TASK_NO_CHILD_RESULT, s)
        | Some retained =>
            let gen := next_nonzero (child_exit_history_generation x) in
            (i32 gen,
             upd s p (fun t => with_exits t
               (mk_exits (default no_result (last retained)) (write_out retained (replicate 4 zero_result)) 0
                  (Z.of_nat (length retained)) gen (direct_child_exit_count x))))
        end
    end.
