(* ===== verification/TaskSched.v ===== *)
(** * The scheduler: [schedule] of kernel/task/task.c

    Priority scheduling of the ready user tasks, round robin among equals, with
    the anchor that keeps the turn of the task a high-priority driver interrupted,
    and the deferred release of a terminated task. *)

From Stdlib Require Import ZArith Lia String.
From stdpp Require Import base numbers option tactics list.
From S2P Require Import Prelude Bytes Names Ipc IpcWait Pmm Vmm RegistryState Registry OutCapture TaskState TaskQueue Task.

Definition TIMER_PREEMPT_QUANTUM : Z := 20.

Definition with_run (t : task_t) (last run switches : Z) : task_t :=
  mk_task (t_id t) (t_sequence t) (t_generation t) (t_identity_key t) (t_state t) (t_type t)
    (t_priority t) (t_vmm_dir t) (t_kernel_stack_p t) (t_name t) (t_parent_pid t) (t_waiter_pid t)
    (t_created_ticks t) last run switches (t_exits t)
    (t_sup t) (t_ipc_endpoint t) (t_ipc_wait t) (t_boot_service t) (t_next t) (t_prev t).
Definition set_deferred (s : tasks_t) (d : ptr nat) : tasks_t :=
  mk_tasks (task_static_pool s) (task_static_used s) (task_static_slot_generation s)
    (task_static_vmm_used s) (g_task_sequence_counter s) (g_task_identity_key s) (next_task_id s)
    (current_task s) (task_queue s) (g_rr_anchor s) (g_resume_after_high s) (g_root_shell_pid s)
    d (task_sched_only s) (task_gets_waiter s).

(** ** The watchdog of a blocked disk request (kernel/syscall/syscall.c)

    The cancelled job itself ([ata_job_io_cancel], [ata_fsop_abort]) is part of
    the disk bridge and touches no task. *)
Definition ATA_RPC_TIMEOUT_TICKS : Z := 300.
Definition ATA_RESPAWN_WAIT_TICKS : Z := 3000.
Definition ATA_RPC_IO : Z := 1.
Definition ATA_RPC_FLUSH : Z := 2.
Definition ATA_RPC_FSOP : Z := 3.
Definition ATA_RPC_WAIT_STORE : Z := 4.

(** The waiter becomes ready and is the next to run. *)
Definition wake_rpc (k : kernel_t) (waiter : nat) : kernel_t :=
  let k := kupd k waiter (fun t => with_state t TASK_READY) in
  set_tasks k (set_sched (k_tasks k) (Some waiter) (task_gets_waiter (k_tasks k))).

Definition ata_rpc_abort (k : kernel_t) : kernel_t :=
  match g_rpc_waiter (k_bridge k) with
  | NULL => k
  | Some waiter =>
      if negb (state_is (t_state (ktask k waiter)) TASK_BLOCKED_KERNEL) then k
      else
        let b := k_bridge k in
        wake_rpc (set_bridge k (with_rpc b (g_rpc_waiter b) (g_rpc_kind b) (g_rpc_started b) 1)) waiter
  end.

Definition ata_rpc_sched_hook (now : Z) (k : kernel_t) : kernel_t :=
  let b := k_bridge k in
  match g_rpc_waiter b with
  | NULL => k
  | Some waiter =>
      if negb (state_is (t_state (ktask k waiter)) TASK_BLOCKED_KERNEL) then k
      else if g_rpc_kind b =? ATA_RPC_WAIT_STORE then
        if ATA_RESPAWN_WAIT_TICKS <? u32 (now - g_rpc_started b) then ata_rpc_abort k else k
      else
        let lost :=
          match task_sched_only (k_tasks k) with
          | NULL => true
          | Some driver =>
              let st := t_state (ktask k driver) in
              state_is st TASK_TERMINATED
              || (negb (state_is st TASK_READY) && negb (state_is st TASK_RUNNING)
                  && negb (state_is st TASK_BLOCKED_IPC))
          end in
        if (ATA_RPC_TIMEOUT_TICKS <? u32 (now - g_rpc_started b)) || lost then ata_rpc_abort k else k
  end.

Definition task_sched_allowed (s : tasks_t) (t : nat) : bool :=
  match task_gets_waiter s with
  | NULL => true
  | Some w => bool_decide (t = w) || c_true (t_boot_service (task_at s t))
  end.

(** The test of the selection loops. *)
Definition eligible (s : tasks_t) (t : nat) : bool :=
  state_is (t_state (task_at s t)) TASK_READY && is_user (t_type (task_at s t)) && task_sched_allowed s t.

(** The order of [t = start; do { t = t->next; ... } while (t != start)]. *)
Definition scan_order (s : tasks_t) (start : nat) : list nat :=
  tail (walk_from (task_static_pool s) start start (length (task_static_pool s))) ++ [start].

(** [next_task], [best_priority] and [found_user]. *)
Definition scan_step (s : tasks_t) (acc : nat * Z * bool) (t : nat) : nat * Z * bool :=
  let '(_, best_priority, found_user) := acc in
  if eligible s t && (negb found_user || (best_priority <? t_priority (task_at s t)))
  then (t, t_priority (task_at s t), true) else acc.

(** The task the two loops select. *)
Definition select_task (s : tasks_t) (start : nat) : nat :=
  let order := scan_order s start in
  let '(next_task, best_priority, found_user) := fold_left (scan_step s) order (start, 0, false) in
  let '(next_task, _, found_user) := scan_step s (next_task, best_priority, found_user) start in
  if found_user then next_task
  else match List.find (fun t => state_is (t_state (task_at s t)) TASK_READY) order with
       | Some t => t
       | None => next_task
       end.

(** Whether the interrupted task takes its turn back. *)
Definition resumes_anchor (s : tasks_t) (now : Z) (current next_task anchor : nat) : bool :=
  (OS_TASK_PRIORITY_HIGH <=? t_priority (task_at s current))
  && (t_priority (task_at s next_task) <? OS_TASK_PRIORITY_HIGH)
  && bool_decide (g_resume_after_high s = Some anchor)
  && negb (bool_decide (anchor = next_task))
  && eligible s anchor
  && (u32 (now - t_last_scheduled_ticks (task_at s anchor)) <? TIMER_PREEMPT_QUANTUM).

(** Where the scan starts. *)
Definition scan_start (s : tasks_t) (current : nat) : nat :=
  if OS_TASK_PRIORITY_HIGH <=? t_priority (task_at s current)
  then default current (g_rr_anchor s) else current.

(** The decision: the next task, and whether it resumes a started quantum. *)
Definition choose (s : tasks_t) (now : Z) (current : nat) : nat * bool :=
  let next_task := select_task s (scan_start s current) in
  let '(next_task, resume) :=
    match g_rr_anchor s with
    | Some anchor => if resumes_anchor s now current next_task anchor then (anchor, true) else (next_task, false)
    | None => (next_task, false)
    end in
  match task_sched_only s with
  | Some only => if state_is (t_state (task_at s only)) TASK_READY then (only, false) else (next_task, resume)
  | None => (next_task, resume)
  end.

(** The task the processor is given to. *)
Definition dispatch (s : tasks_t) (now : Z) (next_task : nat) (resume : bool) : tasks_t :=
  let s := set_queue s (task_queue s) (Some next_task) in
  let s := if is_user (t_type (task_at s next_task))
              && (t_priority (task_at s next_task) <? OS_TASK_PRIORITY_HIGH)
           then set_anchors s (Some next_task) None else s in
  let s := upd s next_task (fun t => with_state t TASK_RUNNING) in
  upd s next_task (fun t => with_run t (if resume then t_last_scheduled_ticks t else now) (t_run_ticks t)
                              (u32 (t_switch_count t + 1))).

Inductive sched_result :=
  | SchedReturns              (* no current task: back to the caller *)
  | SchedHalts                (* the last task ended *)
  | SchedJumps (task : nat).  (* the processor continues in this task *)

Section Schedule.
Context (vmm_pool : nat -> Z).
(** [task_sched_hook]: NULL until [syscall_ata_bridge_init] makes it
    [ata_rpc_sched_hook]. *)
Context (task_sched_hook : ptr (Z -> kernel_t -> kernel_t)).

Definition task_reap_deferred (k : kernel_t) : kernel_t :=
  let task := deferred_reap_task (k_tasks k) in
  task_release_detached vmm_pool (set_tasks k (set_deferred (k_tasks k) None)) task.

(** What happens to the task that was running: it is charged its ticks, or
    leaves the queue when it has terminated ([false]: nothing is left to run). *)
Definition retire (s : tasks_t) (now : Z) (current : nat) : bool * tasks_t :=
  let t := task_at s current in
  if negb (state_is (t_state t) TASK_TERMINATED) then
    (true, if t_last_scheduled_ticks t <=? now
           then upd s current (fun t => with_run t (t_last_scheduled_ticks t)
                  (u32 (t_run_ticks t + u32 (now - t_last_scheduled_ticks t))) (t_switch_count t))
           else s)
  else
    let s := set_deferred (unlink_task s current) (Some current) in
    (bool_decide (is_Some (task_queue s)), s).

(** What comes before the decision: reaping and the hook. *)
Definition before_choice (k : kernel_t) (now : Z) : kernel_t :=
  let k := task_reap_deferred k in
  match task_sched_hook with NULL => k | Some hook => hook now k end.

(** [schedule] without the saved registers, the I/O permission bitmap and the
    final jump. *)
Definition schedule (k : kernel_t) (now : Z) : sched_result * kernel_t :=
  let k := before_choice k now in
  match current_task (k_tasks k) with
  | NULL => (SchedReturns, k)
  | Some current =>
      match retire (k_tasks k) now current with
      | (false, s) => (SchedHalts, set_tasks k s)
      | (true, s) =>
          let current := default current (current_task s) in
          let s := if state_is (t_state (task_at s current)) TASK_RUNNING
                   then upd s current (fun t => with_state t TASK_READY) else s in
          let '(next_task, resume) := choose s now current in
          let s := dispatch s now next_task resume in
          (SchedJumps next_task,
           set_vmm (set_tasks k s) (set_current_directory (k_vmm k) (t_vmm_dir (task_at s next_task))))
      end
  end.

Definition task_yield_to_driver (k : kernel_t) (now : Z) : sched_result * kernel_t :=
  let s := k_tasks k in
  schedule (set_tasks k (set_anchors s (g_rr_anchor s) (current_task s))) now.
End Schedule.

(** ** The selection *)

(** [n] wins over the tasks scanned in the order [l]: it is eligible, nobody
    eligible is more urgent, and those before it are strictly less. *)
Definition wins (s : tasks_t) (l : list nat) (n : nat) : Prop :=
  exists l1 l2, l = l1 ++ n :: l2 /\ eligible s n = true /\
    (forall j, j ∈ l1 -> eligible s j = true -> t_priority (task_at s j) < t_priority (task_at s n)) /\
    (forall j, j ∈ l2 -> eligible s j = true -> t_priority (task_at s j) <= t_priority (task_at s n)).

Lemma scan_spec s l d :
  let '(n, best, found) := fold_left (scan_step s) l (d, 0, false) in
  if found : bool then wins s l n /\ best = t_priority (task_at s n)
  else n = d /\ forall j, j ∈ l -> eligible s j = false.
Proof.
  induction l as [|t l IH] using rev_ind; cbn [fold_left].
  - split; [done|]. by intros j ?%elem_of_nil.
  - rewrite fold_left_app. cbn [fold_left]. destruct (fold_left _ l _) as [[n best] found].
    unfold scan_step. destruct found; cbn [negb orb].
    + destruct IH as [(l1 & l2 & -> & He & H1 & H2) ->]. rewrite <- app_assoc. cbn [app].
      destruct (eligible s t) eqn:Et; cbn [andb];
        [destruct (Z.ltb_spec (t_priority (task_at s n)) (t_priority (task_at s t)))|].
      * split; [|done]. exists (l1 ++ n :: l2), []. rewrite <- app_assoc. split; [done|]. split; [done|].
        split; [|by intros j ?%elem_of_nil]. intros j [Hj|[->|Hj]%elem_of_cons]%elem_of_app Ej; [|lia|].
        -- specialize (H1 j Hj Ej). lia.
        -- specialize (H2 j Hj Ej). lia.
      * split; [|done]. exists l1, (l2 ++ [t]). split; [done|]. split; [done|]. split; [done|].
        intros j [Hj| ->%list_elem_of_singleton]%elem_of_app Ej; [auto|lia].
      * split; [|done]. exists l1, (l2 ++ [t]). split; [done|]. split; [done|]. split; [done|].
        intros j [Hj| ->%list_elem_of_singleton]%elem_of_app Ej; [auto|congruence].
    + destruct IH as [-> IH]. destruct (eligible s t) eqn:Et; cbn [andb].
      * split; [|done]. exists l, []. split; [done|]. split; [done|].
        split; [|by intros j ?%elem_of_nil]. intros j Hj Ej. rewrite IH in Ej; done.
      * split; [done|]. intros j [Hj| ->%list_elem_of_singleton]%elem_of_app; auto.
Qed.

Lemma select_spec s start :
  let n := select_task s start in
  (wins s (scan_order s start) n) \/
  ((forall j, j ∈ scan_order s start -> eligible s j = false) /\
   (List.find (fun t => state_is (t_state (task_at s t)) TASK_READY) (scan_order s start) = Some n \/
    n = start /\ forall j, j ∈ scan_order s start -> t_state (task_at s j) <> TASK_READY)).
Proof.
  cbv zeta. unfold select_task. pose proof (scan_spec s (scan_order s start) start) as H.
  destruct (fold_left _ _ _) as [[n best] found]. unfold scan_step.
  assert (Hst : start ∈ scan_order s start).
  { unfold scan_order. rewrite elem_of_app, list_elem_of_singleton. by right. }
  destruct found; cbn [negb orb].
  - destruct H as [Hw ->]. left. destruct (eligible s start) eqn:E; cbn [andb]; [|done].
    destruct Hw as (l1 & l2 & Hl & He & H1 & H2). rewrite (proj2 (Z.ltb_ge _ _)); [by exists l1, l2|].
    rewrite Hl in Hst. apply elem_of_app in Hst as [Hj|[->|Hj]%elem_of_cons]; [|lia|auto].
    specialize (H1 _ Hj E). lia.
  - destruct H as [-> H]. right. split; [done|]. rewrite (H start Hst). cbn [andb].
    destruct (List.find _ _) as [t|] eqn:E; [by left|]. right. split; [done|].
    intros j Hj Hr. apply list_elem_of_In in Hj. apply (List.find_none _ _ E) in Hj.
    unfold state_is in Hj. by rewrite bool_decide_true in Hj.
Qed.
