(* ===== verification/SysProc.v ===== *)
(** * Process and service system calls: kernel/syscall/syscall.c

    The calls that join the task table and the service registry: ending a task
    ([SYS_EXIT], a user fault, [sys_kill]) with the purge of what it owned, and
    publishing, finding, granting and withdrawing services with the events sent to
    their watchers. *)

From Stdlib Require Import ZArith Lia String.
From stdpp Require Import base numbers option tactics list.
From S2P Require Import Prelude Bytes Names Ipc IpcWait Pmm Vmm RegistryState Journal Registry OutCapture TaskState Task TaskSched.

Definition OS_IPC_SERVICE_EVENT : Z := 1397904897.
Definition OS_SERVICE_EVENT_SIZE : Z := 28.
Definition OS_SERVICE_EVENT_GRANTED : Z := 2.
Definition OS_SERVICE_EVENT_UNREGISTERED : Z := 3.
Definition OS_ATA_DRIVER_REQUIRED : Z := -58.
Definition OS_AI_ENGINE_REQUIRED : Z := -144.

(** ** Service events (include/os_syscalls.h) *)

(** On a name without terminator the bytes already copied stay in the payload. *)
Definition os_service_make_event (payload : ptr os_ipc_payload_t) (name : ptr cstring)
    (old_owner_pid new_owner_pid reason : Z) : Z * ptr os_ipc_payload_t :=
  match payload, name with
  | Some p, Some name =>
      if (old_owner_pid <? 0) || (new_owner_pid <? 0) || (reason <? OS_SERVICE_EVENT_PUBLISHED)
         || (OS_SERVICE_EVENT_PURGED <? reason) then (-1, payload)
      else
        let n := cstr name in
        if Z.of_nat (length n) <? OS_SERVICE_NAME_MAX then
          (0, Some (mk_payload OS_IPC_SERVICE_EVENT OS_SERVICE_EVENT_SIZE 0
                      (n ++ replicate (16 - length n) 0 ++ le32 (u32 old_owner_pid) ++
                       le32 (u32 new_owner_pid) ++ le32 reason ++ replicate 68 0)))
        else
          (-1, Some (mk_payload (pl_type p) (pl_size p) (pl_request_id p)
                       (write_front (take 16 n) (pl_data p))))
  | _, _ => (-1, payload)
  end.

Record os_service_event_t := mk_service_event {
  sv_name : cstring; sv_old_owner_pid : Z; sv_new_owner_pid : Z; sv_reason : Z
}.

Definition os_service_parse_event (message : ptr os_ipc_message_t) (event_out : ptr os_service_event_t)
    : Z * ptr os_service_event_t :=
  match message, event_out with
  | Some m, Some e =>
      if negb (sender_pid m =? 0) || negb (msg_type m =? OS_IPC_SERVICE_EVENT)
         || negb (msg_size m =? OS_SERVICE_EVENT_SIZE) || negb (msg_request_id m =? 0)
      then (-1, event_out)
      else
        let name := take 16 (msg_data m) in
        if negb (chr name 15 =? 0)
        then (-1, Some (mk_service_event name (sv_old_owner_pid e) (sv_new_owner_pid e) (sv_reason e)))
        else
          let old_pid := i32 (un_le32 (drop 16 (msg_data m))) in
          let new_pid := i32 (un_le32 (drop 20 (msg_data m))) in
          let reason := un_le32 (drop 24 (msg_data m)) in
          if (old_pid <? 0) || (new_pid <? 0) || (reason <? OS_SERVICE_EVENT_PUBLISHED)
             || (OS_SERVICE_EVENT_PURGED <? reason)
          then (-1, Some (mk_service_event name old_pid new_pid (sv_reason e)))
          else (0, Some (mk_service_event name old_pid new_pid reason))
  | _, _ => (-1, event_out)
  end.

(** The queued user task with this PID that has not terminated. *)
Definition live_user (s : tasks_t) (pid : Z) : ptr nat := user_parent s pid.

Section Calls.
Context `{K : KernelHooks}.

(** A service event for one watcher. *)
Definition notify_watcher (name : cstring) (old_owner_pid new_owner_pid reason : Z) (payload : os_ipc_payload_t)
    (k : kernel_t) (pid : Z) : kernel_t :=
  match live_user (k_tasks k) pid with
  | None => k
  | Some w =>
      let '(_, _, r) := service_registry_notify_record (k_registry k) (Some name) pid
                          old_owner_pid new_owner_pid reason NULL in
      let k := set_registry k r in
      let '(rc, e) := ipc_endpoint_send (Some (t_ipc_endpoint (ktask k w))) 0 (Some payload) in
      let k := kupd k w (fun t => with_endpoint t (default (t_ipc_endpoint t) e)) in
      if rc =? 0 then set_tasks k (task_ipc_message_queued (k_tasks k) (Some w))
      else
        let '(rc, r) := service_registry_ipc_spill_push (k_registry k) pid (Some payload) in
        let k := set_registry k r in
        if rc =? 0 then set_tasks k (task_ipc_message_queued (k_tasks k) (Some w)) else k
  end.

Definition service_notify_change (k : kernel_t) (name : cstring) (old_owner_pid new_owner_pid reason : Z)
    : kernel_t :=
  match os_service_make_event (Some zero_payload) (Some name) old_owner_pid new_owner_pid reason with
  | (0, Some payload) =>
      match service_registry_collect_watchers (T := task_view (k_tasks k)) (k_registry k) (Some name)
              (Some (replicate 8 0)) SERVICE_REGISTRY_WATCH_CAPACITY with
      | (count, Some watchers) =>
          if count <? 0 then k
          else fold_left (notify_watcher name old_owner_pid new_owner_pid reason payload)
                 (take (Z.to_nat count) watchers) k
      | _ => k
      end
  | _ => k
  end.

(** The dead owner of a name is removed and its watchers told. *)
Definition purge_owner (k : kernel_t) (name : cstring) (owner_pid : Z) : kernel_t :=
  let k := set_registry k (snd (service_registry_remove (T := task_view (k_tasks k)) (k_registry k)
                                  (Some name) owner_pid)) in
  service_notify_change k name owner_pid 0 OS_SERVICE_EVENT_PURGED.

Definition sys_service_lookup (k : kernel_t) (name : cstring) : Z * kernel_t :=
  let '(owner_pid, r) := service_registry_lookup (T := task_view (k_tasks k)) (k_registry k) (Some name) in
  let k := set_registry k r in
  if owner_pid <? 0 then (owner_pid, k)
  else if bool_decide (is_Some (live_user (k_tasks k) owner_pid)) then (owner_pid, k)
  else (OS_SERVICE_NOT_FOUND, purge_owner k name owner_pid).

(** ** The disk driver: supervision and blocked requests

    The strict image ([kernel_fat_pio_fallback_enabled] is 0 on every linked
    image): a disk driver that ended is started again, and the task blocked on it
    is woken.  What these functions do to the controller, the queued disk job, the
    overlay and the FAT caches is outside tasks and services. *)
Definition ATA_RESPAWN_LIMIT : Z := 4.

Definition ata_live_driver (k : kernel_t) : Z * kernel_t :=
  let '(pid, r) := service_registry_lookup (T := task_view (k_tasks k)) (k_registry k) (Some (lit "ata-driver")) in
  (if 0 <? pid then pid else 0, set_registry k r).

Definition ata_fsop_store_flags (b : bridge_t) (live_driver_pid : Z) : Z :=
  if (live_driver_pid <=? 0) || negb (live_driver_pid =? g_store_pid b) then 0 else g_store_flags b.

Definition ata_purge_is_driver (k : kernel_t) (pid : Z) (owned : list service_registry_entry_t) : bool :=
  let b := k_bridge k in
  ((0 <? pid) && ((pid =? g_boot_driver_pid b) || (pid =? g_respawn_pid b) || (pid =? g_store_pid b)))
  || existsb (fun e => bool_decide (cstr (e_name e) = cstr (lit "ata-driver"))) owned.

(** A user task with this PID that has not ended, other than the one being purged. *)
Definition respawn_alive (k : kernel_t) : bool :=
  let b := k_bridge k in
  (0 <? g_respawn_pid b)
  && match live_user (k_tasks k) (g_respawn_pid b) with
     | Some i => negb (t_id (ktask k i) =? g_purge_pid b)
     | None => false
     end.

Section Recovery.
Context (vmm_pool vmm_phys stack_top : nat -> Z) (elf_load : vmm_t -> Z -> Z * vmm_t).
(** The file the initrd has under "bin/atadriver", if any. *)
Context (driver_file : ptr cstring).

(** A boot service started by the kernel: the first of the user tasks in the queue. *)
Definition create_service (k : kernel_t) (now : Z) (file : ptr cstring) : ptr nat * kernel_t :=
  match create_task_from_initrd_file vmm_pool vmm_phys stack_top elf_load k now file with
  | (None, k) => (None, k)
  | (Some born, k) =>
      let k := kupd k born (fun t => with_boot_service t 1) in
      (Some born, set_tasks k (task_queue_move_first_user (k_tasks k) (Some born)))
  end.

Definition ata_supervisor_respawn (k : kernel_t) (now : Z) : Z * kernel_t :=
  if negb (c_true (ata_present (k_bridge k))) then (-1, k)
  else
    let '(live, k) := ata_live_driver k in
    if 0 <? live then (0, k)
    else if respawn_alive k then (0, k)
    else if ATA_RESPAWN_LIMIT <=? g_respawn_count (k_bridge k) then (-1, k)
    else
      match create_service k now driver_file with
      | (None, k) => (-1, k)
      | (Some born, k) =>
          (0, set_bridge k (with_respawn (k_bridge k) (t_id (ktask k born)) (u32 (g_respawn_count (k_bridge k) + 1))))
      end.

(** Without the channel reset and the restored overlay. *)
Definition ata_bridge_after_purge (k : kernel_t) (now : Z) (driver_died : bool) : kernel_t :=
  if negb driver_died then k
  else
    let '(live, k) := ata_live_driver k in
    if 0 <? live then k
    else
      let k := ata_rpc_abort k in
      let k := if 0 <? g_store_pid (k_bridge k) then set_bridge k (with_store (k_bridge k) 0 0) else k in
      snd (ata_supervisor_respawn k now).

(** Without the return of the network card to the kernel. *)
Definition service_notify_purge_pid (k : kernel_t) (now pid : Z) : kernel_t :=
  let '(count, owned) := service_registry_collect_owned (T := task_view (k_tasks k)) (k_registry k) pid
                           (Some []) SERVICE_REGISTRY_CAPACITY in
  let owned := default [] owned in
  let k := set_bridge k (with_purge (k_bridge k) pid) in
  let driver_died := ata_purge_is_driver k pid owned in
  let k :=
    if 0 <? count then
      let k := fold_left (fun k e => service_notify_change k (e_name e) pid 0 OS_SERVICE_EVENT_PURGED) owned k in
      set_registry k (snd (service_registry_remove_pid (k_registry k) pid))
    else k in
  let k := ata_bridge_after_purge k now driver_died in
  snd (sys_service_lookup k (lit "net-driver")).

(** The driver the current task may block on. *)
Definition ata_rpc_driver_for_current (k : kernel_t) : ptr nat * kernel_t :=
  let '(driver_pid, k) := ata_live_driver k in
  match current_task (k_tasks k), g_rpc_waiter (k_bridge k) with
  | Some c, NULL =>
      if (driver_pid <=? 0) || negb (is_user (t_type (ktask k c))) || (t_id (ktask k c) =? driver_pid) then (None, k)
      else
        match get_task_by_id (k_tasks k) driver_pid with
        | Some d => if is_user (t_type (ktask k d)) && state_is (t_state (ktask k d)) TASK_READY then (Some d, k) else (None, k)
        | None => (None, k)
        end
  | _, _ => (None, k)
  end.

(** The current task stops in the kernel until [driver] has served it: what is
    set before the switch, and what is undone when the task runs again. *)
Definition rpc_sleep (k : kernel_t) (now started : Z) (self driver : nat) (kind : Z) : sched_result * kernel_t :=
  let k := set_bridge k (with_rpc (k_bridge k) (Some self) kind started 0) in
  let k := set_tasks k (set_sched (k_tasks k) (Some driver) (task_gets_waiter (k_tasks k))) in
  schedule vmm_pool (Some ata_rpc_sched_hook) (kupd k self (fun t => with_state t TASK_BLOCKED_KERNEL)) now.

Definition ata_rpc_block (k : kernel_t) (now : Z) (driver : nat) (kind : Z) : sched_result * kernel_t :=
  match current_task (k_tasks k) with
  | NULL => (SchedReturns, k)
  | Some self => rpc_sleep k now now self driver kind
  end.

Definition rpc_resumed (k : kernel_t) : kernel_t :=
  let b := k_bridge k in
  let k := set_bridge k (with_rpc b NULL (g_rpc_kind b) (g_rpc_started b) (g_rpc_aborted b)) in
  set_tasks k (set_sched (k_tasks k) NULL (task_gets_waiter (k_tasks k))).

(** A request that blocks ([syscall_ata_fat_io], [ata_rpc_wait_flush]). *)
Definition ata_rpc_request (k : kernel_t) (now kind : Z) : sched_result * kernel_t :=
  match ata_rpc_driver_for_current k with
  | (Some driver, k) => ata_rpc_block k now driver kind
  | (None, k) => (SchedReturns, k)
  end.

(** The waiter is woken when what it is blocked on is over ([served] for its kind). *)
Definition ata_rpc_wake (k : kernel_t) (served : Z -> bool) : kernel_t :=
  match g_rpc_waiter (k_bridge k) with
  | Some waiter =>
      if state_is (t_state (ktask k waiter)) TASK_BLOCKED_KERNEL && served (g_rpc_kind (k_bridge k))
      then wake_rpc k waiter else k
  | NULL => k
  end.

(** The end of [SYS_ATA_JOB_DONE]: an accepted chunk counts as progress, and the
    waiter runs next when its job is over. *)
Definition ata_job_done_wakes (k : kernel_t) (now : Z) (accepted : bool) (served : Z -> bool) : sched_result * kernel_t :=
  let b := k_bridge k in
  let k := if accepted && bool_decide (is_Some (g_rpc_waiter b))
           then set_bridge k (with_rpc b (g_rpc_waiter b) (g_rpc_kind b) now (g_rpc_aborted b)) else k in
  match g_rpc_waiter (k_bridge k) with
  | Some waiter =>
      if state_is (t_state (ktask k waiter)) TASK_BLOCKED_KERNEL && served (g_rpc_kind (k_bridge k))
      then schedule vmm_pool (Some ata_rpc_sched_hook) (wake_rpc k waiter) now else (SchedReturns, k)
  | NULL => (SchedReturns, k)
  end.

(** The driver takes the store over ([sys_ata_fs_ready]); [mounted]: the
    stores that can be handed over; [accepted] when the disk bridge is idle and the
    image could be handed out. *)
Definition OS_ATA_FS_STORE_ALL : Z := 7.
Definition sys_ata_fs_ready (k : kernel_t) (flags mounted : Z) (accepted : bool) : kernel_t :=
  let '(live, k) := ata_live_driver k in
  match current_task (k_tasks k) with
  | NULL => k
  | Some c =>
      let pid := t_id (ktask k c) in
      if negb (is_user (t_type (ktask k c))) || negb (pid =? live)
         || negb (c_true (service_registry_ata_ports_granted (T := task_view (k_tasks k)) (k_registry k) pid))
         || (flags =? 0) || negb (Z.land flags (u32 (Z.lnot OS_ATA_FS_STORE_ALL)) =? 0) || negb accepted then k
      else
        let k := set_bridge k (with_store (k_bridge k) pid (Z.land flags mounted)) in
        let b := k_bridge k in
        let k := if (0 <? g_respawn_count b) && (pid =? g_respawn_pid b)
                 then set_bridge k (with_respawn b (g_respawn_pid b) 0) else k in
        ata_rpc_wake k (fun kind => kind =? ATA_RPC_WAIT_STORE)
  end.

(** One round of the loop of [ata_wait_store], up to the switch; [SchedReturns]:
    the loop is left. *)
Definition ata_wait_store_round (k : kernel_t) (now started store : Z) : sched_result * kernel_t :=
  match current_task (k_tasks k) with
  | NULL => (SchedReturns, k)
  | Some self =>
      let '(live, k) := ata_live_driver k in
      if negb (Z.land (ata_fsop_store_flags (k_bridge k) live) store =? 0) then (SchedReturns, k)
      else
        let '(live, k) := ata_live_driver k in
        let pid := if live <=? 0 then g_respawn_pid (k_bridge k) else live in
        let drv := if 0 <? pid then live_user (k_tasks k) pid else None in
        let '(drv, k) :=
          match drv with
          | Some d => (Some d, k)
          | None =>
              let '(rc, k) := ata_supervisor_respawn k now in
              (if negb (rc =? 0) then None else get_task_by_id (k_tasks k) (g_respawn_pid (k_bridge k)), k)
          end in
        match drv with
        | None => (SchedReturns, k)
        | Some d =>
            if ATA_RESPAWN_WAIT_TICKS <? u32 (now - started) then (SchedReturns, k)
            else rpc_sleep k now started self d ATA_RPC_WAIT_STORE
        end
  end.

(** What a task leaves in the registry when it ends. *)
Definition purge_registry (k : kernel_t) (now pid : Z) : kernel_t :=
  let k := service_notify_purge_pid k now pid in
  let k := set_registry k (service_registry_backend_remove_pid (k_registry k) pid) in
  set_registry k (snd (service_registry_remove_watcher_pid (k_registry k) pid)).

(** The end of the current task, before another one is scheduled. *)
Definition end_current (k : kernel_t) (now : Z) (current : nat) (exit_code reason : Z) : kernel_t :=
  let k := purge_registry k now (t_id (ktask k current)) in
  let k := task_report_parent_exit k now (Some current) exit_code reason in
  let k := set_tasks k (task_wake_waiter (k_tasks k) (Some current)) in
  let k := set_tasks k (task_reparent_children (k_tasks k) (Some current)) in
  kupd k current (fun t => with_state t TASK_TERMINATED).

(** [SYS_EXIT]; it is only entered from a running task. *)
Definition sys_exit (k : kernel_t) (now exit_code : Z) : sched_result * kernel_t :=
  match current_task (k_tasks k) with
  | NULL => (SchedReturns, k)
  | Some current =>
      schedule vmm_pool (Some ata_rpc_sched_hook) (end_current k now current exit_code OS_TASK_EVENT_EXITED) now
  end.

Definition syscall_kill_current_on_user_fault (k : kernel_t) (now : Z) : sched_result * kernel_t :=
  match current_task (k_tasks k) with
  | NULL => (SchedReturns, k)
  | Some current =>
      schedule vmm_pool (Some ata_rpc_sched_hook)
        (end_current k now current OS_TASK_EXIT_KILLED OS_TASK_EVENT_KILLED) now
  end.

Definition sys_kill (k : kernel_t) (now pid : Z) : Z * kernel_t :=
  match current_task (k_tasks k) with
  | NULL => (OS_TASK_CONTROL_DENIED, k)
  | Some _ =>
      let k := purge_registry k now pid in
      match current_task (k_tasks k) with
      | NULL => (OS_TASK_CONTROL_DENIED, k)
      | Some current => task_kill vmm_pool k now (t_id (ktask k current)) pid
      end
  end.

(** The current task waits for a message ([sys_ipc_receive_wait] when the
    mailbox is empty): what is done before the switch, with the deadline of the
    first round only. *)
Definition ipc_block (k : kernel_t) (now : Z) (timeout : option Z) : sched_result * kernel_t :=
  match current_task (k_tasks k) with
  | NULL => (SchedReturns, k)
  | Some self =>
      if negb (is_user (t_type (ktask k self))) || bool_decide (is_Some (g_rpc_waiter (k_bridge k)))
         || bool_decide (is_Some (task_sched_only (k_tasks k))) then (SchedReturns, k)
      else
        let k := match timeout with
                 | Some d => kupd k self (fun t => with_wait t (default (t_ipc_wait t)
                               (ipc_wait_begin (Some (t_ipc_wait t)) now d OS_IPC_WAIT_FOREVER)))
                 | None => k
                 end in
        schedule vmm_pool (Some ata_rpc_sched_hook) (kupd k self (fun t => with_state t TASK_BLOCKED_IPC)) now
  end.

(** The shell waits for a key in [SYS_GETS]. *)
Definition gets_wait (k : kernel_t) (now : Z) : sched_result * kernel_t :=
  schedule vmm_pool (Some ata_rpc_sched_hook)
    (set_tasks k (set_sched (k_tasks k) (task_sched_only (k_tasks k)) (current_task (k_tasks k)))) now.
Definition gets_resumed (k : kernel_t) : kernel_t :=
  set_tasks k (set_sched (k_tasks k) (task_sched_only (k_tasks k)) NULL).
End Recovery.

(** ** Services *)

(** The caller, when it is a user task. *)
Definition user_caller (k : kernel_t) : ptr nat :=
  match current_task (k_tasks k) with
  | Some c => if is_user (t_type (ktask k c)) then Some c else None
  | None => None
  end.

(** The disk driver started at boot has registered. *)
Definition note_boot_driver (k : kernel_t) (pid : Z) : kernel_t :=
  let b := k_bridge k in
  if (0 <? g_boot_driver_pid b) && (pid =? g_boot_driver_pid b) && negb (c_true (g_boot_driver_registered b))
  then set_bridge k (with_boot b (g_boot_driver_pid b) 1) else k.

(** Without the overlay load any other new disk driver is asked for. *)
Definition sys_service_register (k : kernel_t) (name : cstring) : Z * kernel_t :=
  match user_caller k with
  | None => (OS_SERVICE_BAD_NAME, k)
  | Some c =>
      if service_registry_ata_driver_name_allowed name (Some (t_name (ktask k c))) =? 0 then
        (if bool_decide (cstr name = cstr (lit "ai-engine")) then OS_AI_ENGINE_REQUIRED
         else OS_ATA_DRIVER_REQUIRED, k)
      else
        let '(owner_pid, r) := service_registry_lookup (T := task_view (k_tasks k)) (k_registry k) (Some name) in
        let k := set_registry k r in
        let '(owner_pid, k) :=
          if (0 <? owner_pid) && negb (bool_decide (is_Some (live_user (k_tasks k) owner_pid)))
          then (OS_SERVICE_NOT_FOUND, purge_owner k name owner_pid) else (owner_pid, k) in
        let pid := t_id (ktask k c) in
        let '(rc, r) := service_registry_register (T := task_view (k_tasks k)) (k_registry k) (Some name) pid in
        let k := set_registry k r in
        let k := if (rc =? 0) && (owner_pid =? OS_SERVICE_NOT_FOUND)
                 then service_notify_change k name 0 pid OS_SERVICE_EVENT_PUBLISHED else k in
        (rc, if (rc =? 0) && bool_decide (cstr name = cstr (lit "ata-driver")) then note_boot_driver k pid else k)
  end.

Definition sys_service_unregister (k : kernel_t) (name : cstring) : Z * kernel_t :=
  match user_caller k with
  | None => (OS_SERVICE_BAD_NAME, k)
  | Some c =>
      let pid := t_id (ktask k c) in
      let '(rc, r) := service_registry_remove (T := task_view (k_tasks k)) (k_registry k) (Some name) pid in
      let k := set_registry k r in
      (rc, if rc =? 0 then service_notify_change k name pid 0 OS_SERVICE_EVENT_UNREGISTERED else k)
  end.

Definition sys_service_grant (k : kernel_t) (name : cstring) (target_pid : Z) : Z * kernel_t :=
  match user_caller k with
  | None => (OS_SERVICE_BAD_NAME, k)
  | Some c =>
      match live_user (k_tasks k) target_pid with
      | None => (OS_SERVICE_BAD_GRANTEE, k)
      | Some t =>
          if service_registry_ata_driver_name_allowed name (Some (t_name (ktask k t))) =? 0
          then (OS_ATA_DRIVER_REQUIRED, k)
          else
            let pid := t_id (ktask k c) in
            let '(rc, r) := service_registry_grant (T := task_view (k_tasks k)) (k_registry k) (Some name)
                              pid target_pid in
            let k := set_registry k r in
            (rc, if rc =? 0 then service_notify_change k name pid target_pid OS_SERVICE_EVENT_GRANTED else k)
      end
  end.

(** The calls on backend capabilities check the caller and the target, then act
    on the registry. *)
Definition backend_call (k : kernel_t) (target_pid : Z) (act : registry_t -> Z -> Z * registry_t)
    : Z * kernel_t :=
  match user_caller k with
  | None => (OS_SERVICE_BAD_NAME, k)
  | Some c =>
      match live_user (k_tasks k) target_pid with
      | None => (OS_SERVICE_BAD_GRANTEE, k)
      | Some _ => let '(rc, r) := act (k_registry k) (t_id (ktask k c)) in (rc, set_registry k r)
      end
  end.

Definition sys_service_backend_grant (k : kernel_t) (name : cstring) (target_pid : Z) : Z * kernel_t :=
  backend_call k target_pid (fun r pid =>
    service_registry_backend_grant (T := task_view (k_tasks k)) r (Some name) pid target_pid).
Definition sys_service_backend_grant_scoped (k : kernel_t) (name : cstring) (target_pid rights : Z)
    : Z * kernel_t :=
  backend_call k target_pid (fun r pid =>
    service_registry_backend_grant_scoped (T := task_view (k_tasks k)) r (Some name) pid target_pid rights).
Definition sys_service_backend_grant_scoped_source (k : kernel_t) (name : cstring)
    (target_pid rights sources : Z) : Z * kernel_t :=
  backend_call k target_pid (fun r pid =>
    service_registry_backend_grant_scoped_source (T := task_view (k_tasks k)) r (Some name) pid target_pid
      rights sources).
Definition sys_service_backend_grant_scoped_source_prefix (k : kernel_t) (name : cstring)
    (target_pid rights sources : Z) (prefix : ptr cstring) : Z * kernel_t :=
  backend_call k target_pid (fun r pid =>
    service_registry_backend_grant_scoped_source_prefix (T := task_view (k_tasks k)) r (Some name) pid
      target_pid rights sources prefix).
Definition sys_service_backend_revoke (k : kernel_t) (name : cstring) (target_pid : Z) : Z * kernel_t :=
  backend_call k target_pid (fun r pid =>
    service_registry_backend_revoke (T := task_view (k_tasks k)) r (Some name) pid target_pid).

Definition sys_service_backend_release (k : kernel_t) (name : cstring) : Z * kernel_t :=
  match user_caller k with
  | None => (OS_SERVICE_BAD_NAME, k)
  | Some c =>
      let '(rc, r) := service_registry_backend_release (k_registry k) (Some name)
                        (t_id (ktask k c)) in
      (rc, set_registry k r)
  end.

(** ** Tasks: the calls act for the current task. *)
Definition for_current (k : kernel_t) (pid : Z) (act : tasks_t -> Z -> Z * tasks_t) : Z * kernel_t :=
  match current_task (k_tasks k) with
  | NULL => (OS_TASK_NOT_FOUND, k)
  | Some c =>
      if pid <? 0 then (OS_TASK_NOT_FOUND, k)
      else let '(rc, s) := act (k_tasks k) (t_id (ktask k c)) in (rc, set_tasks k s)
  end.

Definition sys_task_set_priority (k : kernel_t) (pid priority : Z) : Z * kernel_t :=
  for_current k pid (fun s me => task_set_priority s me pid priority).
Definition sys_task_wait (k : kernel_t) (pid : Z) : Z * kernel_t :=
  for_current k pid (fun s me => task_wait_for_child s me pid).
Definition sys_task_set_name (k : kernel_t) (pid : Z) (name : ptr cstring) : Z * kernel_t :=
  for_current k pid (fun s me => task_set_name s me pid name).
End Calls.
