(* ===== verification/TaskInv.v ===== *)
(** * The logs of a parent

    The rings of records a parent keeps (child results, supervision events) are
    bounded logs. *)

From Stdlib Require Import ZArith Lia String Sorted.
From stdpp Require Import base numbers option tactics list relations.
From S2P Require Import Prelude Bytes Names Ipc IpcWait Pmm Vmm RegistryState Registry RegistryCaps OutCapture TaskState TaskQueue Task.

(** ** Bounded logs *)
Section Rings.
Context {A : Type} `{Inhabited A}.
Implicit Types (entries : list A) (x : A).

Record ring_ok (cap : Z) (entries : list A) (start count : Z) : Prop := {
  ro_cap : 0 < cap < 65536;
  ro_len : Z.of_nat (length entries) = cap;
  ro_start : 0 <= start < cap;
  ro_count : 0 <= count <= cap
}.

Lemma ring_index cap start i :
  0 < cap < 65536 -> 0 <= start < cap -> 0 <= i <= cap ->
  u32 (start + i) mod cap = if start + i <? cap then start + i else start + i - cap.
Proof.
  intros Hc Hs Hi. rewrite u32_id by (unfold is_u32; lia).
  destruct (Z.ltb_spec (start + i) cap); [apply Z.mod_small; lia|].
  replace (start + i) with (start + i - cap + 1 * cap) at 1 by lia.
  rewrite Z.mod_add by lia. apply Z.mod_small. lia.
Qed.

Lemma ring_entries_length cap entries start count :
  length (ring_entries cap entries start count) = Z.to_nat count.
Proof. unfold ring_entries. by rewrite length_fmap, length_seq. Qed.

Lemma ring_entries_lookup cap entries start count i :
  ring_entries cap entries start count !! i
  = if decide (i < Z.to_nat count)%nat
    then Some (entries !!! Z.to_nat (u32 (start + Z.of_nat i) mod cap)) else None.
Proof.
  unfold ring_entries. rewrite list_lookup_fmap. case_decide as E.
  - by rewrite lookup_seq_lt.
  - by rewrite lookup_seq_ge by lia.
Qed.

(** Pushing appends, and drops the oldest record of a full ring. *)
Lemma ring_push_log cap entries start count x :
  ring_ok cap entries start count ->
  let '(entries', start', count') := ring_push cap entries start count x in
  ring_ok cap entries' start' count' /\
  ring_entries cap entries' start' count'
  = drop (if count <? cap then 0 else 1) (ring_entries cap entries start count ++ [x]).
Proof.
  intros [Hc Hl Hs Hn]. unfold ring_push. destruct (Z.ltb_spec count cap) as [Hlt|Hge].
  - rewrite (u32_id (count + 1)) by (unfold is_u32; lia).
    split; [constructor; rewrite ?length_insert; lia|]. cbv iota. rewrite drop_0.
    apply list_eq. intros i. rewrite ring_entries_lookup, lookup_app, ring_entries_lookup.
    rewrite ring_entries_length. rewrite (ring_index cap start count) by lia.
    case_decide as E1; case_decide as E2; try lia.
    + rewrite (ring_index cap start (Z.of_nat i)) by lia.
      rewrite list_lookup_total_insert_ne; [done|].
      destruct (Z.ltb_spec (start + count) cap), (Z.ltb_spec (start + Z.of_nat i) cap); lia.
    + replace (i - Z.to_nat count)%nat with 0%nat by lia. cbn.
      replace (Z.of_nat i) with count by lia. rewrite ring_index by lia.
      rewrite list_lookup_total_insert_eq; [done|].
      destruct (Z.ltb_spec (start + count) cap); lia.
    + destruct (i - Z.to_nat count)%nat eqn:E; [lia|]. done.
  - assert (count = cap) as -> by lia. rewrite ring_index by lia.
    split; [constructor; rewrite ?length_insert; [lia|lia| |lia];
            destruct (Z.ltb_spec (start + 1) cap); lia|].
    apply list_eq. intros i. rewrite ring_entries_lookup, lookup_drop, lookup_app, ring_entries_lookup.
    rewrite ring_entries_length.
    case_decide as E1; case_decide as E2; try lia.
    + rewrite !ring_index; try lia; [|destruct (Z.ltb_spec (start + 1) cap); lia].
      rewrite list_lookup_total_insert_ne.
      * do 3 f_equal. destruct (Z.ltb_spec (start + 1) cap);
          repeat match goal with |- context [?a <? ?b] => destruct (Z.ltb_spec a b) end; lia.
      * destruct (Z.ltb_spec (start + 1) cap);
          repeat match goal with |- context [?a <? ?b] => destruct (Z.ltb_spec a b) end; lia.
    + replace (1 + i - Z.to_nat cap)%nat with 0%nat by lia. cbn.
      rewrite ring_index; try lia; [|destruct (Z.ltb_spec (start + 1) cap); lia].
      replace (Z.to_nat _) with (Z.to_nat start); [by rewrite list_lookup_total_insert_eq by lia|].
      destruct (Z.ltb_spec (start + 1) cap);
        repeat match goal with |- context [?a <? ?b] => destruct (Z.ltb_spec a b) end; lia.
    + destruct (1 + i - Z.to_nat cap)%nat eqn:E; [lia|]. done.
Qed.
End Rings.

(** ** Frames

    A projection of the tasks that an update does not touch. *)
Section Frames.
Context {X : Type} (P : task_t -> X).

Definition keeps (s s' : tasks_t) : Prop := forall i, P (task_at s' i) = P (task_at s i).

Lemma keeps_refl s : keeps s s.
Proof. by intros i. Qed.
Lemma keeps_trans s1 s2 s3 : keeps s1 s2 -> keeps s2 s3 -> keeps s1 s3.
Proof. intros H1 H2 i. by rewrite H2, H1. Qed.

Lemma keeps_upd s i f : (forall t, P (f t) = P t) -> keeps s (upd s i f).
Proof.
  intros Hf j. destruct (decide (i < length (task_static_pool s))%nat) as [Hi|Hi].
  - rewrite task_at_upd by done. case_decide as E; [by rewrite Hf, E|done].
  - unfold upd, task_at. cbn. by rewrite list_insert_ge by lia.
Qed.

(** When only the task at [i] is changed, to one with the same projection. *)
Lemma keeps_upd_at s i f : P (f (task_at s i)) = P (task_at s i) -> keeps s (upd s i f).
Proof.
  intros Hf j. destruct (decide (i < length (task_static_pool s))%nat) as [Hi|Hi].
  - rewrite task_at_upd by done. case_decide as E; [by rewrite Hf, E|done].
  - unfold upd, task_at. cbn. by rewrite list_insert_ge by lia.
Qed.

Hypothesis P_state : forall t x, P (with_state t x) = P t.
Hypothesis P_wait : forall t x, P (with_wait t x) = P t.

Lemma keeps_queued s t : keeps s (task_ipc_message_queued s t).
Proof using P_state P_wait.
  unfold task_ipc_message_queued. destruct t as [i|]; [|apply keeps_refl].
  destruct (negb _); [apply keeps_refl|].
  destruct (ipc_wait_on_message _) as [woke w].
  assert (H1 : keeps s (upd s i (fun t => with_wait t (default (t_ipc_wait t) w)))).
  { apply keeps_upd. intros; apply P_wait. }
  destruct (c_true woke); [|done]. eapply keeps_trans; [exact H1|]. apply keeps_upd. intros; apply P_state.
Qed.

Hypothesis P_endpoint : forall t x, P (with_endpoint t x) = P t.

Lemma keeps_deliver k p payload : keeps (k_tasks k) (k_tasks (snd (deliver_notice k p payload))).
Proof using P_state P_wait P_endpoint.
  unfold deliver_notice. destruct (ipc_endpoint_send _ _ _) as [rc e].
  set (k1 := kupd k p _).
  assert (H1 : keeps (k_tasks k) (k_tasks k1)) by (apply keeps_upd; intros; apply P_endpoint).
  destruct (rc =? 0).
  - cbn [snd]. destruct (rc =? 0); [|done]. eapply keeps_trans; [exact H1|apply keeps_queued].
  - destruct (service_registry_ipc_spill_push _ _ _) as [rc' r]. cbn [snd].
    destruct (rc' =? 0); [|done]. eapply keeps_trans; [exact H1|]. apply keeps_queued.
Qed.

Hypothesis P_delivery : forall t a b c l u,
  P (with_sup t (with_delivery (with_budget (t_sup t) l u) a b c)) = P t.

Lemma keeps_count k p rc : keeps (k_tasks k) (k_tasks (count_delivery k p rc)).
Proof using P_delivery.
  apply keeps_upd. intros t. cbv zeta.
  destruct (rc =? 0); exact (P_delivery t _ _ _ (supervision_notify_budget_limit (t_sup t))
                               (supervision_notify_budget_used (t_sup t))).
Qed.

Lemma keeps_notify k p e : keeps (k_tasks k) (k_tasks (task_notify_supervision_event k p e)).
Proof using P_state P_wait P_endpoint P_delivery.
  unfold task_notify_supervision_event. destruct (negb _); [apply keeps_refl|].
  destruct (os_task_make_supervision_event _ _) as [[| |] [payload|]]; try apply keeps_refl.
  set (k1 := kupd k p _).
  assert (H1 : keeps (k_tasks k) (k_tasks k1)) by (apply keeps_upd; intros; apply P_delivery).
  pose proof (keeps_deliver k1 p payload) as H2. destruct (deliver_notice k1 p payload) as [rc k2].
  eapply keeps_trans; [exact H1|]. eapply keeps_trans; [exact H2|apply keeps_count].
Qed.
End Frames.

(** ** The supervision log *)
Definition sup_log (t : task_t) :=
  let v := t_sup t in
  (supervision_events v, supervision_event_start v, supervision_event_count v,
   supervision_event_generation v, supervision_event_sequence v).

(** The kept events are in order of their sequence numbers, all of which were
    given out. *)
Record log_ok (v : supervision_t) : Prop := {
  lo_ring : ring_ok OS_TASK_SUPERVISION_EVENT_CAPACITY (supervision_events v) (supervision_event_start v)
              (supervision_event_count v);
  lo_sorted : StronglySorted Z.lt (map ev_sequence (kept_events v));
  lo_bound : Forall (fun e => 0 < ev_sequence e <= supervision_event_sequence v) (kept_events v);
  lo_seq : is_u32 (supervision_event_sequence v)
}.

Lemma sorted_seq_snoc (l : list Z) x :
  StronglySorted Z.lt l -> Forall (fun y => y < x) l -> StronglySorted Z.lt (l ++ [x]).
Proof.
  intros Hs Hx. induction Hs as [|y l Hs IH Hy]; cbn [app]; [repeat constructor|].
  rewrite Forall_cons in Hx. destruct Hx as [Hyx Hx]. constructor; [by apply IH|].
  rewrite Forall_app, Forall_singleton. done.
Qed.

Lemma sorted_drop (l : list Z) n : StronglySorted Z.lt l -> StronglySorted Z.lt (drop n l).
Proof.
  revert n. induction l as [|x l IH]; intros [|n] H; cbn [drop]; try done.
  apply StronglySorted_inv in H as [H _]. by apply IH.
Qed.

Lemma next_nonzero_succ x : is_u32 x -> x < 4294967295 -> next_nonzero x = x + 1.
Proof.
  unfold is_u32, next_nonzero. intros H1 H2. rewrite u32_id by (unfold is_u32; lia).
  destruct (Z.eqb_spec (x + 1) 0); lia.
Qed.

(** The event a transition records. *)
Definition recorded_event (k : kernel_t) (now : Z) (p : nat) (action child_pid related_pid detail : Z)
    : os_task_supervision_event_t :=
  task_stamp_supervision_identity (k_tasks k)
    (mk_sup_event (next_nonzero (supervision_event_sequence (t_sup (ktask k p)))) action child_pid
       related_pid detail now 0 0 0) child_pid.

Lemma recorded_sequence k now p a c r d :
  ev_sequence (recorded_event k now p a c r d)
  = next_nonzero (supervision_event_sequence (t_sup (ktask k p))).
Proof. unfold recorded_event, task_stamp_supervision_identity. by destruct (get_task_by_id _ _). Qed.

(** The log of the parent after a recorded transition, and those of the others. *)
Lemma record_log k now p a c r d :
  (p < length (task_static_pool (k_tasks k)))%nat ->
  let v := t_sup (ktask k p) in
  let '(events, start, count) :=
    ring_push OS_TASK_SUPERVISION_EVENT_CAPACITY (supervision_events v) (supervision_event_start v)
      (supervision_event_count v) (recorded_event k now p a c r d) in
  forall q, sup_log (ktask (task_record_supervision_event k now (Some p) a c r d) q)
  = if decide (q = p)
    then (events, start, count, next_nonzero (supervision_event_generation v),
          next_nonzero (supervision_event_sequence v))
    else sup_log (ktask k q).
Proof.
  intros Hp v. unfold task_record_supervision_event. fold v. fold (recorded_event k now p a c r d).
  destruct (ring_push _ _ _ _ _) as [[events start] count]. intros q.
  set (k1 := kupd k p _). unfold ktask at 1.
  rewrite (keeps_notify sup_log (fun _ _ => eq_refl) (fun _ _ => eq_refl) (fun _ _ => eq_refl)
    (fun _ _ _ _ _ _ => eq_refl) k1 p _ q).
  unfold k1, kupd. cbn [k_tasks set_tasks]. rewrite task_at_upd by done. by case_decide.
Qed.

(** The supervision log of a parent: recording a transition of a child
    appends exactly one event, stamped with the next sequence number and the
    identity of the child, and drops the oldest event only when four are kept; the
    kept events stay in order of their sequence numbers and no other task's log
    changes. *)
Theorem supervision_log_appends :
  forall (k : kernel_t) (now : Z) (p : nat) (action child_pid related_pid detail : Z),
    (p < length (task_static_pool (k_tasks k)))%nat -> log_ok (t_sup (ktask k p)) ->
    supervision_event_sequence (t_sup (ktask k p)) < 4294967295 ->
    let k' := task_record_supervision_event k now (Some p) action child_pid related_pid detail in
    let e := recorded_event k now p action child_pid related_pid detail in
    log_ok (t_sup (ktask k' p)) /\
    kept_events (t_sup (ktask k' p))
    = drop (if supervision_event_count (t_sup (ktask k p)) <? OS_TASK_SUPERVISION_EVENT_CAPACITY then 0 else 1)
        (kept_events (t_sup (ktask k p)) ++ [e]) /\
    supervision_event_sequence (t_sup (ktask k' p)) = supervision_event_sequence (t_sup (ktask k p)) + 1 /\
    (ev_sequence e = supervision_event_sequence (t_sup (ktask k p)) + 1 /\ ev_action e = action /\
     ev_child_pid e = child_pid /\ ev_related_pid e = related_pid /\ ev_detail e = detail /\ ev_ticks e = now) /\
    forall q, q <> p -> sup_log (ktask k' q) = sup_log (ktask k q).
Proof.
  intros k now p a c r d Hp [Hr Hs Hb Hu] Hseq k' e. pose proof (record_log k now p a c r d Hp) as Hlog.
  cbv zeta in Hlog. fold e k' in Hlog. pose proof (ring_push_log _ _ _ _ e Hr) as Hpush.
  destruct (ring_push _ _ _ _ _) as [[events start] count]. destruct Hpush as [Hr' Hk].
  pose proof (Hlog p) as Hp'. rewrite decide_True in Hp' by done.
  rewrite (next_nonzero_succ (supervision_event_sequence _)) in Hp' by done.
  assert (He : ev_sequence e = supervision_event_sequence (t_sup (ktask k p)) + 1).
  { unfold e. rewrite recorded_sequence. by apply next_nonzero_succ. }
  unfold sup_log in Hp'. injection Hp' as E1 E2 E3 E4 E5.
  assert (HK : kept_events (t_sup (ktask k' p)) = drop
    (if supervision_event_count (t_sup (ktask k p)) <? OS_TASK_SUPERVISION_EVENT_CAPACITY then 0 else 1)
    (kept_events (t_sup (ktask k p)) ++ [e])).
  { unfold kept_events at 1. rewrite E1, E2, E3. exact Hk. }
  split; [constructor|split; [exact HK|split; [exact E5|split]]].
  - by rewrite E1, E2, E3.
  - rewrite HK, <- skipn_map, map_app. apply sorted_drop, sorted_seq_snoc; [done|].
    rewrite Forall_map. eapply Forall_impl; [exact Hb|]. cbn beta. lia.
  - rewrite HK. apply Forall_drop, Forall_app. split.
    + eapply Forall_impl; [exact Hb|]. cbn beta. lia.
    + apply Forall_singleton. unfold is_u32 in Hu. lia.
  - rewrite E5. unfold is_u32 in *. lia.
  - split; [exact He|]. unfold e, recorded_event, task_stamp_supervision_identity.
    by destruct (get_task_by_id _ _).
  - intros q Hq. rewrite Hlog, decide_False by done. done.
Qed.
