(* ===== verification/TaskTable.v ===== *)
(** * The task table as the rest of the kernel sees it

    Every sequence of task operations keeps the queue well formed, the PIDs
    distinct, the identities non-zero (what the service registry relies on) and
    the parent relation a forest. *)

From Stdlib Require Import ZArith Lia String.
From stdpp Require Import base numbers option tactics list relations.
From S2P Require Import Prelude Bytes Names Ipc IpcWait Pmm Vmm RegistryState Registry RegistryCaps OutCapture TaskState TaskQueue Task TaskInv.

Record tasks_wf (s : tasks_t) (L : list nat) : Prop := {
  tw_ring : ring_wf s L;
  tw_pool : length (task_static_pool s) = 16%nat;
  tw_flags : length (task_static_used s) = 16%nat;
  tw_used : forall i, i ∈ L -> task_static_used s !! i = Some 1;
  tw_ident : forall i, i ∈ L ->
    t_sequence (task_at s i) <> 0 /\ t_generation (task_at s i) <> 0 /\ t_identity_key (task_at s i) <> 0;
  tw_key : g_task_identity_key s <> 0;
  tw_ids : NoDup ((fun i => t_id (task_at s i)) <$> L);
  tw_fresh : forall i, i ∈ L -> 0 <= t_id (task_at s i) < next_task_id s;
  tw_next : 0 <= next_task_id s;
  tw_current : forall c, current_task s = Some c -> c ∈ L;
  tw_anchor : forall a, g_rr_anchor s = Some a -> a ∈ L;
  tw_deferred : forall d, deferred_reap_task s = Some d -> d ∉ L /\ task_static_used s !! d = Some 1
}.

(** [a] has parent [b]. *)
Definition parent_of (s : tasks_t) (L : list nat) (a b : Z) : Prop :=
  exists i, i ∈ L /\ t_id (task_at s i) = a /\ t_parent_pid (task_at s i) = b.

(** Nobody is its own ancestor, and nobody has a parent yet to be created. *)
Record forest (s : tasks_t) (L : list nat) : Prop := {
  fo_acyclic : forall a, ~ tc (parent_of s L) a a;
  fo_old : forall i, i ∈ L -> t_parent_pid (task_at s i) < next_task_id s
}.

(** ** Lookups *)
Lemma find_Some_iff (f : nat -> bool) l i : List.find f l = Some i -> i ∈ l /\ f i = true.
Proof. intros [H1 H2]%List.find_some. split; [by apply list_elem_of_In|done]. Qed.

Section Lookup.
Context (s : tasks_t) (L : list nat) (Hwf : tasks_wf s L).

Lemma id_inj i j :
  i ∈ L -> j ∈ L -> t_id (task_at s i) = t_id (task_at s j) -> i = j.
Proof using Hwf.
  intros Hi Hj He. apply list_elem_of_lookup in Hi as [a Ha], Hj as [b Hb].
  assert (a = b) as ->; [|congruence].
  apply (NoDup_lookup _ a b (t_id (task_at s i)) (tw_ids _ _ Hwf)); apply list_lookup_fmap_Some; eauto.
Qed.

Lemma get_task_spec pid i :
  get_task_by_id s pid = Some i <-> i ∈ L /\ t_id (task_at s i) = pid.
Proof using Hwf.
  unfold get_task_by_id. rewrite (ring_eq _ _ (tw_ring _ _ Hwf)). split.
  - intros [H1 H2]%find_Some_iff. split; [done|lia].
  - intros [H1 H2]. destruct (List.find _ L) as [j|] eqn:E.
    + apply find_Some_iff in E as [H3 H4]. f_equal. apply id_inj; [done..|lia].
    + apply list_elem_of_In in H1. apply (List.find_none _ _ E) in H1. lia.
Qed.

Lemma get_task_None pid :
  get_task_by_id s pid = None <-> forall i, i ∈ L -> t_id (task_at s i) <> pid.
Proof using Hwf.
  destruct (get_task_by_id s pid) as [i|] eqn:E.
  - apply get_task_spec in E as [H1 H2]. split; [done|]. intros H. exfalso. by apply (H i).
  - split; [|done]. intros _ i Hi He. rewrite (proj2 (get_task_spec pid i) (conj Hi He)) in E. done.
Qed.

Lemma slot_bound i : i ∈ L -> (i < length (task_static_pool s))%nat.
Proof using Hwf. intros Hi. pose proof (rw_slots _ _ (tw_ring _ _ Hwf)) as H. rewrite Forall_forall in H. by apply H. Qed.
End Lookup.

(** What the registry's client view needs. *)
Lemma wf_view s L : tasks_wf s L -> TaskViewLaws (task_view s).
Proof.
  intros Hwf. constructor; cbn.
  - intros pid. destruct (get_task_by_id s pid); cbn; split; by intros [? ?]; eauto.
  - intros pid q g. destruct (get_task_by_id s pid) as [i|] eqn:E; cbn; [|done].
    apply (get_task_spec s L Hwf) in E as [Hi _]. intros [= <- <-].
    destruct (tw_ident _ _ Hwf i Hi) as (? & ? & ?). done.
  - intros pid key. destruct (get_task_by_id s pid) as [i|] eqn:E; cbn; [|done].
    apply (get_task_spec s L Hwf) in E as [Hi _]. intros [= <-].
    destruct (tw_ident _ _ Hwf i Hi) as (? & ? & ?). done.
Qed.

(** ** Updates that leave identities and links alone *)
Definition core (t : task_t) :=
  (t_id t, t_sequence t, t_generation t, t_identity_key t, t_next t, t_prev t).

Record isoft (s s' : tasks_t) : Prop := {
  so_core : keeps core s s';
  so_pool : length (task_static_pool s') = length (task_static_pool s);
  so_queue : task_queue s' = task_queue s;
  so_used : task_static_used s' = task_static_used s;
  so_key : g_task_identity_key s' = g_task_identity_key s;
  so_next : next_task_id s' = next_task_id s;
  so_current : current_task s' = current_task s;
  so_anchor : g_rr_anchor s' = g_rr_anchor s;
  so_deferred : deferred_reap_task s' = deferred_reap_task s
}.

(** A slot that is not queued is empty (all zero, hence [TASK_RUNNING]) or holds
    a task that has ended: the scheduler never takes it for a ready task. *)
Definition dormant (t : task_t) : Prop := t_state t = TASK_RUNNING \/ t_state t = TASK_TERMINATED.
Definition rests (s s' : tasks_t) : Prop := forall i, i ∉ ring s -> dormant (task_at s i) -> dormant (task_at s' i).

(** Nobody ends, or changes its type. *)
Definition spares (s s' : tasks_t) : Prop := forall i,
  t_type (task_at s' i) = t_type (task_at s i) /\
  (t_state (task_at s i) <> TASK_TERMINATED -> t_state (task_at s' i) <> TASK_TERMINATED).

(** ... and the parents too, waking no task outside the queue and ending none. *)
Definition soft (s s' : tasks_t) : Prop := isoft s s' /\ keeps t_parent_pid s s' /\ rests s s' /\ spares s s'.

Lemma isoft_refl s : isoft s s.
Proof. constructor; [apply keeps_refl|done..]. Qed.
Lemma isoft_trans s1 s2 s3 : isoft s1 s2 -> isoft s2 s3 -> isoft s1 s3.
Proof.
  intros [A1 A2 A3 A4 A5 A6 A7 A8 A9] [B1 B2 B3 B4 B5 B6 B7 B8 B9].
  constructor; [by eapply keeps_trans|congruence..].
Qed.
Lemma isoft_upd s i f : (forall t, core (f t) = core t) -> isoft s (upd s i f).
Proof. intros Hf. constructor; [by apply keeps_upd|apply pool_upd|done..]. Qed.

(** The queue is the same list of slots. *)
Lemma isoft_walk s s' : isoft s s' -> ring s' = ring s.
Proof.
  intros [Hc Hp Hq _ _ _ _ _ _]. unfold ring. rewrite Hq, Hp. destruct (task_queue s) as [h|]; [|done].
  assert (Hn : forall i, t_next (task_static_pool s' !!! i) = t_next (task_static_pool s !!! i)).
  { intros i. pose proof (Hc i) as H. unfold core, task_at in H. congruence. }
  generalize (length (task_static_pool s)) as fuel. intros fuel. generalize h at 2 4 as t.
  induction fuel as [|fuel IH]; intros t; cbn [walk_from]; [done|]. rewrite Hn.
  destruct (t_next _) as [n|]; [|done]. by rewrite IH.
Qed.

Lemma soft_refl s : soft s s.
Proof. split; [apply isoft_refl|]. split; [apply keeps_refl|]. split; by intros i. Qed.
Lemma soft_trans s1 s2 s3 : soft s1 s2 -> soft s2 s3 -> soft s1 s3.
Proof.
  intros (A1 & A2 & A3 & A4) (B1 & B2 & B3 & B4). split; [by eapply isoft_trans|]. split; [by eapply keeps_trans|]. split.
  - intros i Hi Hd. apply B3; [by rewrite (isoft_walk _ _ A1)|by apply A3].
  - intros i. destruct (A4 i) as [E1 H1], (B4 i) as [E2 H2]. split; [congruence|auto].
Qed.
Lemma soft_upd s i f :
  (forall t, (core (f t), t_parent_pid (f t), t_state (f t), t_type (f t)) = (core t, t_parent_pid t, t_state t, t_type t)) ->
  soft s (upd s i f).
Proof.
  intros Hf. assert (Hk : keeps t_state s (upd s i f)) by (apply keeps_upd; intros t; pose proof (Hf t); congruence).
  assert (Hy : keeps t_type s (upd s i f)) by (apply keeps_upd; intros t; pose proof (Hf t); congruence).
  split; [apply isoft_upd|split; [apply keeps_upd|split]].
  - intros t. pose proof (Hf t). congruence.
  - intros t. pose proof (Hf t). congruence.
  - intros j _. unfold dormant. by rewrite (Hk j).
  - intros j. by rewrite (Hk j), (Hy j).
Qed.

(** A change of state keeps the sleepers asleep when the task is queued, was
    awake, or goes to rest; it is soft when the task does not end. *)
Lemma rests_state s i x :
  i ∈ ring s \/ ~ dormant (task_at s i) \/ x = TASK_RUNNING \/ x = TASK_TERMINATED ->
  rests s (upd s i (fun t => with_state t x)).
Proof.
  intros Hx j Hj Hd. destruct (decide (i < length (task_static_pool s))%nat) as [Hi|Hi].
  - rewrite task_at_upd by done. case_decide as E; [subst j|done]. destruct Hx as [Hx|[Hx|Hx]]; done.
  - unfold upd, task_at in *. cbn. by rewrite list_insert_ge by lia.
Qed.
Lemma soft_state s i x :
  i ∈ ring s \/ ~ dormant (task_at s i) \/ x = TASK_RUNNING -> x <> TASK_TERMINATED ->
  soft s (upd s i (fun t => with_state t x)).
Proof.
  intros Hx Hn. split; [by apply isoft_upd|]. split; [by apply keeps_upd|]. split; [apply rests_state; tauto|].
  intros j. split; [by apply (keeps_upd t_type)|]. destruct (decide (i < length (task_static_pool s))%nat) as [Hi|Hi].
  - rewrite task_at_upd by done. by case_decide.
  - unfold upd, task_at in *. cbn. by rewrite list_insert_ge by lia.
Qed.
Lemma soft_awake s i x st : t_state (task_at s i) = st -> st <> TASK_RUNNING -> st <> TASK_TERMINATED ->
  x <> TASK_TERMINATED -> soft s (upd s i (fun t => with_state t x)).
Proof. intros H H1 H2 Hx. apply soft_state; [|done]. right. left. intros [E|E]; congruence. Qed.

Lemma core_fields t t' :
  core t = core t' ->
  t_id t = t_id t' /\ t_sequence t = t_sequence t' /\ t_generation t = t_generation t' /\
  t_identity_key t = t_identity_key t' /\ t_next t = t_next t' /\ t_prev t = t_prev t'.
Proof. unfold core. intros H. injection H as -> -> -> -> -> ->. done. Qed.

Lemma isoft_ring s s' L : isoft s s' -> ring_wf s L -> ring_wf s' L.
Proof.
  intros [Hc Hp Hq _ _ _ _ _ _] [H1 H2 H3 H4]. constructor; [congruence|by rewrite Hp|done|].
  destruct L as [|h M]; [done|]. revert H4.
  apply path_same_links; intros z; destruct (core_fields _ _ (Hc z)) as (_ & _ & _ & _ & ? & ?); done.
Qed.

Lemma isoft_wf s s' L : isoft s s' -> tasks_wf s L -> tasks_wf s' L.
Proof.
  intros Hs [H1 H2 H3 H4 H5 H6 H7 H8 H9 H10 H11 H12]. pose proof (isoft_ring _ _ _ Hs H1) as H1'.
  destruct Hs as [Hc Hp Hq Hu Hk Hn Hcur Ha Hd].
  assert (Hf : forall i, t_id (task_at s' i) = t_id (task_at s i)) by (intros i; exact (proj1 (core_fields _ _ (Hc i)))).
  constructor; rewrite ?Hp, ?Hu, ?Hk, ?Hn, ?Hcur, ?Ha, ?Hd; try done.
  - intros i Hi. destruct (core_fields _ _ (Hc i)) as (_ & -> & -> & -> & _). by apply H5.
  - erewrite list_fmap_ext; [exact H7|]. intros j i _. apply Hf.
  - intros i Hi. rewrite Hf. by apply H8.
Qed.

Lemma soft_wf s s' L : soft s s' -> tasks_wf s L -> tasks_wf s' L.
Proof. intros [H _]. by apply isoft_wf. Qed.

Lemma isoft_id s s' i : isoft s s' -> t_id (task_at s' i) = t_id (task_at s i).
Proof. intros Hs. exact (proj1 (core_fields _ _ (so_core _ _ Hs i))). Qed.

Lemma parents_kept s s' L a b : isoft s s' -> keeps t_parent_pid s s' -> parent_of s' L a b <-> parent_of s L a b.
Proof.
  intros Hs Hp. unfold parent_of. split; intros (i & Hi & <- & <-); exists i; (split; [done|]);
    rewrite (Hp i), (isoft_id _ _ _ Hs); done.
Qed.

Lemma tc_ext (R R' : Z -> Z -> Prop) a b : (forall x y, R x y -> R' x y) -> tc R a b -> tc R' a b.
Proof. intros H. induction 1; [apply tc_once; auto|eapply tc_l; eauto]. Qed.

Lemma forest_kept s s' L : isoft s s' -> keeps t_parent_pid s s' -> forest s L -> forest s' L.
Proof.
  intros Hs Hp [H1 H2]. constructor.
  - intros a Ha. apply (H1 a). revert Ha. apply tc_ext. intros x y Hxy.
    by apply (parents_kept s s').
  - intros i Hi. rewrite (Hp i), (so_next _ _ Hs). by apply H2.
Qed.
Lemma soft_forest s s' L : soft s s' -> forest s L -> forest s' L.
Proof. intros (Hs & Hp & _). by apply forest_kept. Qed.

(** Split the tests of an operation and chain its updates. *)
Ltac soft_step :=
  match goal with
  | |- soft ?s ?s => apply soft_refl
  | |- soft _ (upd _ _ _) => eapply soft_trans; [|apply soft_upd; intros; reflexivity]
  | |- soft _ (k_tasks (kupd _ _ _)) => unfold kupd; cbn [k_tasks set_tasks]
  | |- soft _ (k_tasks (set_tasks _ _)) => cbn [k_tasks set_tasks]
  | |- soft _ (k_tasks (set_registry _ _)) => cbn [k_tasks set_registry]
  | |- soft _ (k_tasks (mk_kernel _ _ _ _ _)) => cbn [k_tasks]
  | |- soft _ (snd (_, _)) => cbn [snd]
  | |- soft _ (k_tasks (snd (_, _))) => cbn [snd]
  | |- context [match ?e with _ => _ end] => destruct e
  | |- context [if ?e then _ else _] => destruct e
  end.
Ltac soft_solve := repeat soft_step.

(** The task at [i] leaves a wait: its wait record and then its state change. *)
Lemma soft_unblock s i f st :
  (forall t, (core (f t), t_parent_pid (f t), t_state (f t), t_type (f t)) = (core t, t_parent_pid t, t_state t, t_type t)) ->
  st <> TASK_TERMINATED -> t_state (task_at s i) = TASK_BLOCKED_IPC -> soft s (upd (upd s i f) i (fun t => with_state t st)).
Proof.
  intros Hf Hnt Hst. eapply soft_trans; [by apply soft_upd|]. apply (soft_awake _ _ _ TASK_BLOCKED_IPC); [|done..].
  rewrite <- Hst. apply (keeps_upd t_state). intros t. pose proof (Hf t). congruence.
Qed.

Lemma soft_queued s t : soft s (task_ipc_message_queued s t).
Proof.
  unfold task_ipc_message_queued. destruct t as [i|]; [|apply soft_refl].
  destruct (state_is _ _) eqn:E; [|apply soft_refl]. cbn [negb]. unfold state_is in E. apply bool_decide_eq_true in E.
  destruct (ipc_wait_on_message _) as [woke w].
  destruct (c_true woke); [by apply soft_unblock|apply soft_upd; reflexivity].
Qed.

Lemma soft_tick now s : soft s (task_ipc_wait_tick s now).
Proof.
  unfold task_ipc_wait_tick. generalize (ring s). intros l.
  cut (forall s', soft s s' -> soft s (fold_left (tick_one now) l s')); [intros H; apply H, soft_refl|].
  induction l as [|i l IH]; intros s' Hs; cbn [fold_left]; [done|]. apply IH.
  eapply soft_trans; [exact Hs|]. unfold tick_one.
  destruct (state_is _ _) eqn:E; [|apply soft_refl]. unfold state_is in E. apply bool_decide_eq_true in E.
  destruct (ipc_wait_on_tick _ _) as [woke w].
  destruct (c_true woke); [by apply soft_unblock|apply soft_upd; reflexivity].
Qed.

Lemma soft_deliver k p payload : soft (k_tasks k) (k_tasks (snd (deliver_notice k p payload))).
Proof.
  unfold deliver_notice. destruct (ipc_endpoint_send _ _ _) as [rc e].
  destruct (rc =? 0) eqn:E; [cbn [snd]; rewrite E|destruct (service_registry_ipc_spill_push _ _ _) as [rc' r];
    cbn [snd]; destruct (rc' =? 0)]; cbn [k_tasks set_tasks set_registry kupd];
    (eapply soft_trans; [apply soft_upd|first [apply soft_queued|apply soft_refl]]); intros; reflexivity.
Qed.

Lemma soft_notify k p e : soft (k_tasks k) (k_tasks (task_notify_supervision_event k p e)).
Proof.
  unfold task_notify_supervision_event. destruct (negb _); [apply soft_refl|].
  destruct (os_task_make_supervision_event _ _) as [[| |] [payload|]]; try apply soft_refl.
  set (k1 := kupd k p _). pose proof (soft_deliver k1 p payload) as H2.
  destruct (deliver_notice k1 p payload) as [rc k2]. cbn [snd] in H2.
  eapply soft_trans; [|apply soft_upd; intros; reflexivity]. eapply soft_trans; [|exact H2].
  apply soft_upd. intros; reflexivity.
Qed.

Lemma soft_record k now parent a c r d :
  soft (k_tasks k) (k_tasks (task_record_supervision_event k now parent a c r d)).
Proof.
  unfold task_record_supervision_event. destruct parent as [p|]; [|apply soft_refl].
  destruct (ring_push _ _ _ _ _) as [[events start] count].
  eapply soft_trans; [|apply soft_notify]. apply soft_upd. intros; reflexivity.
Qed.

Ltac soft_op f := unfold f; soft_solve.

Lemma get_ring s pid i : get_task_by_id s pid = Some i -> i ∈ ring s.
Proof. by intros [H _]%find_Some_iff. Qed.
Lemma soft_get s pid i x :
  get_task_by_id s pid = Some i -> x <> TASK_TERMINATED -> soft s (upd s i (fun t => with_state t x)).
Proof. intros H Hx. apply soft_state; [|done]. left. by eapply get_ring. Qed.

Lemma soft_suspend k now r c : soft (k_tasks k) (k_tasks (snd (task_suspend_child k now r c))).
Proof.
  unfold task_suspend_child. destruct (get_task_by_id (k_tasks k) c) as [i|] eqn:E; [|apply soft_refl].
  destruct (_ || _); [apply soft_refl|]. destruct (negb _); [apply soft_refl|]. cbn [snd].
  eapply soft_trans; [|apply soft_record]. by eapply soft_get.
Qed.
Lemma soft_resume k now r c : soft (k_tasks k) (k_tasks (snd (task_resume_child k now r c))).
Proof.
  unfold task_resume_child. destruct (get_task_by_id (k_tasks k) c) as [i|] eqn:E; [|apply soft_refl].
  destruct (_ || _); [apply soft_refl|]. destruct (negb _); [apply soft_refl|]. cbn [snd].
  eapply soft_trans; [|apply soft_record]. by eapply soft_get.
Qed.
Lemma soft_wait_child s r c : soft s (snd (task_wait_for_child s r c)).
Proof.
  unfold task_wait_for_child. destruct (get_task_by_id s r) as [p|] eqn:Ep; [|apply soft_refl].
  destruct (get_task_by_id s c) as [i|]; [|apply soft_refl]. destruct (negb _); [apply soft_refl|].
  destruct (_ && _); [apply soft_refl|]. cbn [snd]. set (s1 := upd s i _).
  assert (H : soft s s1) by (apply soft_upd; reflexivity). eapply soft_trans; [exact H|].
  apply soft_state; [|done]. left. rewrite (isoft_walk _ _ (proj1 H)). by eapply get_ring.
Qed.
Lemma soft_wait_any_loop r l f s : soft s (snd (wait_any_loop s r l f)).
Proof.
  revert s f. induction l as [|i l IH]; intros s f; cbn [wait_any_loop]; [apply soft_refl|].
  destruct (t_parent_pid _ =? r); [|apply IH]. destruct (_ && _); [apply soft_refl|].
  eapply soft_trans; [|apply IH]. apply soft_upd; intros; reflexivity.
Qed.
Lemma soft_wait_any s r : soft s (snd (task_wait_for_any_child s r)).
Proof.
  unfold task_wait_for_any_child. destruct (get_task_by_id s r) as [p|] eqn:Ep; [|apply soft_refl].
  pose proof (soft_wait_any_loop r (ring s) false s) as H.
  destruct (wait_any_loop _ _ _ _) as [[ok found] s']. cbn [snd] in H.
  destruct ok, found; cbn [snd]; try done. eapply soft_trans; [exact H|].
  apply soft_state; [|done]. left. rewrite (isoft_walk _ _ (proj1 H)). by eapply get_ring.
Qed.
Lemma soft_wake s c : soft s (task_wake_waiter s c).
Proof.
  unfold task_wake_waiter. destruct c as [c|]; [|apply soft_refl]. destruct (_ <=? 0); [apply soft_refl|]. cbv zeta.
  eapply soft_trans; [|apply soft_upd; reflexivity].
  destruct (get_task_by_id s _) as [p|] eqn:E; [|apply soft_refl].
  destruct (state_is _ _); [by eapply soft_get|apply soft_refl].
Qed.
Lemma soft_remove_watch k p c : soft (k_tasks k) (k_tasks (task_remove_supervision_watch k p c)).
Proof. soft_op task_remove_supervision_watch. Qed.

Lemma soft_report k now c code reason :
  soft (k_tasks k) (k_tasks (task_report_parent_exit k now c code reason)).
Proof.
  unfold task_report_parent_exit. destruct c as [c|]; [|apply soft_refl].
  cbv zeta. set (k0 := mk_kernel _ _ _ _ _). change (k_tasks k) with (k_tasks k0).
  destruct (t_parent_pid (ktask k0 c) <=? 0); [apply soft_refl|].
  destruct (get_task_by_id _ _) as [p|]; [|apply soft_refl].
  destruct (negb _ || _); [apply soft_refl|]. set (result := mk_exit_result _ _ _ _).
  set (pid := t_id (ktask k c)).
  set (k1 := kupd k0 p _). set (k2 := task_record_supervision_event k1 _ _ _ _ _ _).
  set (k3 := kupd k2 p _). set (k4 := task_remove_supervision_watch k3 _ _). set (k5 := kupd k4 p _).
  assert (H : soft (k_tasks k0) (k_tasks k5)).
  { apply soft_trans with (k_tasks k4); [|apply soft_upd; intros; reflexivity].
    apply soft_trans with (k_tasks k3); [|apply soft_remove_watch].
    apply soft_trans with (k_tasks k2); [|apply soft_upd; intros; reflexivity].
    apply soft_trans with (k_tasks k1); [|apply soft_record]. apply soft_upd; intros; reflexivity. }
  destruct (os_task_make_event _ _ _) as [[| |] [payload|]]; try done.
  destruct (ipc_endpoint_send _ _ _) as [rc e]. set (k6 := kupd k5 p _).
  assert (H6 : soft (k_tasks k0) (k_tasks k6)).
  { eapply soft_trans; [exact H|apply soft_upd; intros; reflexivity]. }
  destruct (rc =? 0); [|done]. eapply soft_trans; [exact H6|apply soft_queued].
Qed.

Lemma soft_ack_events s r : soft s (snd (task_ack_supervision_events s r)).
Proof. soft_op task_ack_supervision_events. Qed.
Lemma soft_forget_event s r q : soft s (snd (task_forget_supervision_event s r q)).
Proof. soft_op task_forget_supervision_event. Qed.
Lemma soft_notify_set s r e : soft s (snd (task_set_supervision_notify s r e)).
Proof. soft_op task_set_supervision_notify. Qed.
Lemma soft_filter_set s r m : soft s (snd (task_set_supervision_notify_filter s r m)).
Proof. soft_op task_set_supervision_notify_filter. Qed.
Lemma soft_watch s r c e : soft s (snd (task_update_supervision_watch s r c e)).
Proof. soft_op task_update_supervision_watch. Qed.
Lemma soft_ack_stats s r : soft s (snd (task_ack_supervision_delivery_stats s r)).
Proof. soft_op task_ack_supervision_delivery_stats. Qed.
Lemma soft_priority_child s r c : soft s (snd (task_set_supervision_priority s r c)).
Proof. soft_op task_set_supervision_priority. Qed.
Lemma soft_budget s r l : soft s (snd (task_set_supervision_notify_budget s r l)).
Proof. soft_op task_set_supervision_notify_budget. Qed.
Lemma soft_priority s r p x : soft s (snd (task_set_priority s r p x)).
Proof. soft_op task_set_priority. Qed.
Lemma soft_name s r p n : soft s (snd (task_set_name s r p n)).
Proof. unfold task_set_name. destruct n as [n|]; [|apply soft_refl]. destruct (_ || _); [apply soft_refl|]. soft_solve. Qed.
Lemma soft_ack_results s r : soft s (snd (task_ack_child_result_history s r)).
Proof. soft_op task_ack_child_result_history. Qed.
Lemma soft_forget_result s r c : soft s (snd (task_forget_child_result_history s r c)).
Proof. soft_op task_forget_child_result_history. Qed.

Lemma soft_replay k r q : soft (k_tasks k) (k_tasks (snd (task_replay_supervision_event k r q))).
Proof.
  unfold task_replay_supervision_event. destruct (q =? 0); [apply soft_refl|].
  destruct (user_parent _ _) as [p|]; [|apply soft_refl].
  destruct (task_find_supervision_event _ _ _ _) as [[| |] [e|]]; try apply soft_refl.
  destruct (os_task_make_supervision_event _ _) as [[| |] [payload|]]; try apply soft_refl.
  set (k1 := kupd k p _). pose proof (soft_deliver k1 p payload) as H2.
  destruct (deliver_notice k1 p payload) as [rc k2]. cbn [snd] in H2 |- *.
  eapply soft_trans; [|apply soft_upd; intros; reflexivity]. eapply soft_trans; [|exact H2].
  apply soft_upd. intros; reflexivity.
Qed.

(** ** Delegation keeps the forest *)

(** Changing the out-edge of one node [c] of a functional relation. *)
Section Redirect.
Context (R R' : Z -> Z -> Prop) (c p : Z).
Context (Hother : forall a b, a <> c -> R' a b <-> R a b) (Hc : forall b, R' c b -> b = p).
Context (Hfun : forall a b b', R' a b -> R' a b' -> b = b').

Lemma rtc_to_old a b : rtc R' a b -> rtc R a b \/ rtc R a c.
Proof using Hother.
  induction 1 as [a|a a1 b Hs _ IH]; [left; apply rtc_refl|].
  destruct (decide (a = c)) as [->|Hne]; [right; apply rtc_refl|].
  apply Hother in Hs; [|done]. destruct IH; [left|right]; by eapply rtc_l.
Qed.

Lemma rtc_to_new a : rtc R a c -> rtc R' a c.
Proof using Hother.
  intros H. remember c as b eqn:Eb in H |- *. revert Eb.
  induction H as [|a a1 b Hs _ IH]; intros ->; [apply rtc_refl|].
  destruct (decide (a = c)) as [->|Hne]; [apply rtc_refl|].
  eapply rtc_l; [by apply Hother|]. by apply IH.
Qed.

Lemma cycle_moves x y : tc R' x x -> rtc R' x y -> tc R' y y.
Proof using Hfun.
  intros Hx Hr. induction Hr as [|x x1 y Hs _ IH]; [done|]. apply IH.
  inversion Hx as [? ? Hs'|? z ? Hs' Ht]; subst.
  - rewrite (Hfun _ _ _ Hs Hs'). by apply tc_once.
  - rewrite (Hfun _ _ _ Hs Hs'). eapply tc_rtc_l; [apply tc_rtc; exact Ht|]. by apply tc_once.
Qed.

Lemma redirect_acyclic : (forall a, ~ tc R a a) -> ~ rtc R p c -> forall a, ~ tc R' a a.
Proof using Hother Hc Hfun.
  intros Hac Hpc.
  assert (Hcc : ~ tc R' c c).
  { intros H. inversion H as [? ? Hs|? z ? Hs Ht]; subst.
    - apply Hc in Hs. subst. apply Hpc, rtc_refl.
    - apply Hc in Hs. subst z. apply tc_rtc, rtc_to_old in Ht as [Ht|Ht]; by apply Hpc. }
  intros a Ha. destruct (decide (a = c)) as [->|Hne]; [done|].
  assert (Hcase : tc R a a \/ rtc R a c).
  { inversion Ha as [? ? Hs|? z ? Hs Ht]; subst; apply Hother in Hs; try done.
    - left. by apply tc_once.
    - apply tc_rtc, rtc_to_old in Ht as [Ht|Ht]; [left|right; by eapply rtc_l].
      eapply tc_rtc_r; [by apply tc_once|done]. }
  destruct Hcase as [Hcase|Hcase]; [by apply (Hac a)|].
  apply Hcc, (cycle_moves a); [done|]. by apply rtc_to_new.
Qed.
End Redirect.

Lemma parent_fun s L a b b' : tasks_wf s L -> parent_of s L a b -> parent_of s L a b' -> b = b'.
Proof.
  intros Hwf (i & Hi & Hia & <-) (j & Hj & Hja & <-).
  by rewrite (id_inj s L Hwf i j) by congruence.
Qed.

(** The walk towards the root sees every ancestor. *)
Lemma avoid_spec s L c i fuel :
  tasks_wf s L -> (exists j, j ∈ L /\ t_id (task_at s j) = c) -> i ∈ L ->
  ancestors_avoid s c (Some i) fuel = true -> ~ rtc (parent_of s L) (t_id (task_at s i)) c.
Proof.
  intros Hwf (j & Hj & Hjc). revert i. induction fuel as [|fuel IH]; intros i Hi; cbn [ancestors_avoid]; [done|].
  destruct (Z.eqb_spec (t_id (task_at s i)) c) as [|Hne]; [done|]. intros Hav Hr.
  inversion Hr as [|? b ? Hs Hr']; [done|]; subst.
  destruct Hs as (i' & Hi' & Hid & <-). rewrite (id_inj s L Hwf i' i Hi' Hi Hid) in *. clear i' Hi' Hid.
  assert (Hlive : exists m, m ∈ L /\ t_id (task_at s m) = t_parent_pid (task_at s i)).
  { inversion Hr' as [|? b ? Hs _]; [eauto|]. destruct Hs as (m & Hm & Hmb & _). eauto. }
  destruct Hlive as (m & Hm & Hmp). pose proof (tw_fresh _ _ Hwf m Hm) as Hm0.
  destruct (Z.ltb_spec (t_parent_pid (task_at s i)) 0); [lia|].
  rewrite (proj2 (get_task_spec s L Hwf _ m) (conj Hm Hmp)) in Hav.
  rewrite <- Hmp in Hr'. by apply (IH m Hm Hav).
Qed.

Lemma redirect_forest s s1 L i j :
  tasks_wf s L -> forest s L -> soft s s1 -> i ∈ L -> j ∈ L ->
  ~ rtc (parent_of s L) (t_id (task_at s j)) (t_id (task_at s i)) ->
  forest (upd s1 i (fun t => with_parent t (t_id (task_at s j)))) L.
Proof.
  intros Hwf [Hac Hold] (Hs & Hpar & _) Hi Hj Hno.
  assert (Hb : (i < length (task_static_pool s1))%nat).
  { rewrite (so_pool _ _ Hs). by apply (slot_bound s L Hwf). }
  set (s' := upd s1 i _).
  assert (Hid : forall m, t_id (task_at s' m) = t_id (task_at s m)).
  { intros m. unfold s'. rewrite task_at_upd by done. rewrite <- (isoft_id _ _ m Hs).
    case_decide as E; [by rewrite E|done]. }
  assert (Hp : forall m, t_parent_pid (task_at s' m)
                = if decide (m = i) then t_id (task_at s j) else t_parent_pid (task_at s m)).
  { intros m. unfold s'. rewrite task_at_upd by done. case_decide; [done|apply Hpar]. }
  constructor.
  - apply (redirect_acyclic (parent_of s L) (parent_of s' L) (t_id (task_at s i)) (t_id (task_at s j))).
    + intros a b Ha. unfold parent_of. split; intros (m & Hm & <- & <-); exists m; (split; [done|]);
        rewrite Hid, Hp in *; rewrite decide_False by (by intros ->); done.
    + intros b (m & Hm & Hma & <-). rewrite Hid in Hma. rewrite (id_inj s L Hwf m i Hm Hi Hma), Hp, decide_True; done.
    + intros a b b' (m & Hm & Hma & <-) (m' & Hm' & Hma' & <-). rewrite Hid in Hma, Hma'.
      by rewrite (id_inj s L Hwf m m') by congruence.
    + exact Hac.
    + exact Hno.
  - intros m Hm. rewrite Hp. change (next_task_id s') with (next_task_id s1). rewrite (so_next _ _ Hs).
    case_decide; [apply (tw_fresh _ _ Hwf j Hj)|by apply Hold].
Qed.

Lemma delegate_keeps k now r c p L :
  tasks_wf (k_tasks k) L -> forest (k_tasks k) L ->
  tasks_wf (k_tasks (snd (task_delegate_child k now r c p))) L /\
  forest (k_tasks (snd (task_delegate_child k now r c p))) L.
Proof.
  intros Hwf Hfo. unfold task_delegate_child. set (s := k_tasks k) in *.
  destruct (get_task_by_id s r) as [ri|] eqn:Er; [|done].
  destruct (get_task_by_id s c) as [ci|] eqn:Ec; [|done].
  destruct (get_task_by_id s p) as [pi|] eqn:Ep; [|done].
  destruct (negb _); [done|]. destruct (_ || (p =? c)); [done|]. destruct (negb _); [done|].
  destruct (_ <=? _); [done|]. destruct (ancestors_avoid s c (Some pi) _) eqn:Ea; [|done]. cbn [negb snd].
  apply (get_task_spec s L Hwf) in Ec as [Hc Hcid], Ep as [Hp Hpid].
  set (k1 := task_record_supervision_event k _ _ _ _ _ _).
  set (k2 := task_record_supervision_event k1 _ _ _ _ _ _).
  set (k3 := task_remove_supervision_watch k2 _ _). set (k4 := kupd k3 ri _).
  assert (Hs : soft s (k_tasks k4)).
  { apply soft_trans with (k_tasks k3); [|apply soft_upd; intros; reflexivity].
    apply soft_trans with (k_tasks k2); [|apply soft_remove_watch].
    apply soft_trans with (k_tasks k1); apply soft_record. }
  unfold kupd. cbn [k_tasks set_tasks]. split.
  - apply (isoft_wf (k_tasks k4)); [apply isoft_upd; intros; reflexivity|]. by apply (soft_wf s).
  - rewrite <- Hpid. apply (redirect_forest s); [done..|].
    rewrite Hcid. apply (avoid_spec s L c pi 16); [done| |done|exact Ea]. eauto.
Qed.

Lemma delegate_rests k now r c p i :
  i ∉ ring (k_tasks k) -> dormant (ktask k i) -> dormant (ktask (snd (task_delegate_child k now r c p)) i).
Proof.
  intros Hi Hd. unfold task_delegate_child. set (s := k_tasks k) in *.
  destruct (get_task_by_id s r) as [ri|]; [|done]. destruct (get_task_by_id s c) as [ci|]; [|done].
  destruct (get_task_by_id s p) as [pi|]; [|done].
  destruct (negb _); [done|]. destruct (_ || (p =? c)); [done|]. destruct (negb _); [done|].
  destruct (_ <=? _); [done|]. destruct (ancestors_avoid s c (Some pi) _); [|done]. cbn [negb snd].
  set (k1 := task_record_supervision_event k _ _ _ _ _ _). set (k2 := task_record_supervision_event k1 _ _ _ _ _ _).
  set (k3 := task_remove_supervision_watch k2 _ _). set (k4 := kupd k3 ri _).
  assert (Hs : soft s (k_tasks k4)).
  { apply soft_trans with (k_tasks k3); [|apply soft_upd; intros; reflexivity].
    apply soft_trans with (k_tasks k2); [|apply soft_remove_watch].
    apply soft_trans with (k_tasks k1); apply soft_record. }
  pose proof (proj1 (proj2 (proj2 Hs)) i Hi Hd) as Hd4. unfold ktask, kupd. cbn [k_tasks set_tasks]. unfold dormant in *.
  by rewrite (keeps_upd t_state (k_tasks k4) ci (fun t => with_parent t p) (fun _ => eq_refl) i).
Qed.

(** ** Removing a task *)

(** What the queue operations never touch. *)
Definition inner (t : task_t) := (t_id t, t_sequence t, t_generation t, t_identity_key t, t_parent_pid t, t_state t, t_type t).

Lemma inner_fields t t' :
  inner t = inner t' ->
  t_id t = t_id t' /\ t_sequence t = t_sequence t' /\ t_generation t = t_generation t' /\
  t_identity_key t = t_identity_key t' /\ t_parent_pid t = t_parent_pid t'.
Proof. unfold inner. intros H. injection H as -> -> -> -> -> _ _. done. Qed.
Lemma inner_dormant t t' : inner t = inner t' -> dormant t' -> dormant t.
Proof. unfold inner, dormant. intros H. injection H as _ _ _ _ _ -> _. done. Qed.

Record same_rest (s s' : tasks_t) : Prop := {
  sr_inner : keeps inner s s';
  sr_pool : length (task_static_pool s') = length (task_static_pool s);
  sr_used : task_static_used s' = task_static_used s;
  sr_key : g_task_identity_key s' = g_task_identity_key s;
  sr_next : next_task_id s' = next_task_id s;
  sr_deferred : deferred_reap_task s' = deferred_reap_task s
}.

Lemma rest_refl s : same_rest s s.
Proof. constructor; [apply keeps_refl|done..]. Qed.
Lemma rest_upd s0 s i f : (forall t, inner (f t) = inner t) -> same_rest s0 s -> same_rest s0 (upd s i f).
Proof.
  intros Hf [A B C D E F]. constructor; [|by rewrite pool_upd|done..].
  eapply keeps_trans; [exact A|by apply keeps_upd].
Qed.

Ltac rest_solve := repeat (apply rest_upd; [intros; reflexivity|]); apply rest_refl.

Lemma unlink_rest s x : same_rest s (unlink_task s x).
Proof.
  unfold unlink_task. destruct (task_queue s); [|apply rest_refl]. cbv zeta.
  set (s1 := set_anchors s _ _). destruct (bool_decide (default x (t_next (task_at s1 x)) = x)); [constructor; [intros i|..]; reflexivity|].
  set (s2 := upd (upd s1 _ _) _ _).
  assert (H : same_rest s1 s2) by (unfold s2; rest_solve). destruct H as [A B C D E F].
  constructor; [exact A|exact B|exact C|exact D|exact E|exact F].
Qed.
Lemma add_rest s t : same_rest s (add_task_to_queue s t).
Proof.
  unfold add_task_to_queue. destruct (task_queue s); cbv zeta; [rest_solve|].
  set (s1 := set_queue s _ _). assert (H : same_rest s s1) by (constructor; [intros i|..]; reflexivity).
  repeat (apply rest_upd; [intros; reflexivity|]). exact H.
Qed.

(** A sub-list of the queue keeps the table facts. *)
Lemma sub_wf s s' L L' :
  tasks_wf s L -> same_rest s s' -> ring_wf s' L' -> sublist L' L ->
  (forall c, current_task s' = Some c \/ g_rr_anchor s' = Some c -> c ∈ L') -> tasks_wf s' L'.
Proof.
  intros [H1 H2 H3 H4 H5 H6 H7 H8 H9 H10 H11 H12] [Hi Hp Hu Hk Hn Hd] Hr Hsub Hcur.
  assert (Hin : forall i, i ∈ L' -> i ∈ L) by (intros i Hi'; by apply (elem_of_sublist L')).
  constructor; rewrite ?Hp, ?Hu, ?Hk, ?Hn, ?Hd; auto.
  - intros i Hi'. destruct (inner_fields _ _ (Hi i)) as (_ & -> & -> & -> & _). apply H5. auto.
  - erewrite list_fmap_ext; [|intros j i _; exact (proj1 (inner_fields _ _ (Hi i)))].
    eapply sublist_NoDup; [exact H7|]. by apply fmap_sublist.
  - intros i Hi'. rewrite (proj1 (inner_fields _ _ (Hi i))). apply H8. auto.
  - intros d Hd'. destruct (H12 d Hd') as [H H']. split; [|done]. auto.
Qed.

(** One step of the loop of [task_reparent_children]. *)
Definition reparent_one (d : nat) (s : tasks_t) (i : nat) : tasks_t :=
  if negb (bool_decide (i = d)) && (t_parent_pid (task_at s i) =? t_id (task_at s d))
  then upd s i (fun t => with_parent t (t_parent_pid (task_at s d))) else s.

(** The children of the departing task go to its parent. *)
Lemma reparent_fold d l s0 s :
  NoDup l -> isoft s0 s -> t_parent_pid (task_at s d) = t_parent_pid (task_at s0 d) ->
  Forall (fun i => i < length (task_static_pool s0))%nat l ->
  let s' := fold_left (reparent_one d) l s in
  isoft s0 s' /\
  forall m, t_parent_pid (task_at s' m)
    = if decide (m ∈ l /\ m <> d /\ t_parent_pid (task_at s m) = t_id (task_at s0 d))
      then t_parent_pid (task_at s0 d) else t_parent_pid (task_at s m).
Proof.
  revert s. induction l as [|i l IH]; intros s Hnd Hs Hd Hb; cbn [fold_left].
  - split; [done|]. intros m. rewrite decide_False; [done|]. intros [H _]. by apply elem_of_nil in H.
  - apply NoDup_cons in Hnd as [Hil Hnd]. rewrite Forall_cons in Hb. destruct Hb as [Hbi Hb].
    set (s1 := reparent_one d s i).
    assert (Hi1 : forall m, t_parent_pid (task_at s1 m)
      = if decide (m = i /\ m <> d /\ t_parent_pid (task_at s m) = t_id (task_at s0 d))
        then t_parent_pid (task_at s0 d) else t_parent_pid (task_at s m)).
    { intros m. unfold s1, reparent_one. rewrite (isoft_id s0 s d Hs), Hd. destruct (bool_decide (i = d)) eqn:Ed; cbn [negb andb].
      { apply bool_decide_eq_true in Ed. rewrite decide_False; [done|]. intros (-> & ? & _). done. }
      apply bool_decide_eq_false in Ed. destruct (Z.eqb_spec (t_parent_pid (task_at s i)) (t_id (task_at s0 d))).
      - rewrite task_at_upd by (by rewrite (so_pool _ _ Hs)).
        destruct (decide (m = i)) as [->|Hne]; [rewrite decide_True by done; done|].
        rewrite decide_False by naive_solver. done.
      - rewrite decide_False; [done|]. intros (-> & _ & ?). done. }
    assert (Hs1 : isoft s0 s1).
    { unfold s1, reparent_one. destruct (_ && _); [|done]. eapply isoft_trans; [exact Hs|].
      apply isoft_upd. intros; reflexivity. }
    assert (Hd1 : t_parent_pid (task_at s1 d) = t_parent_pid (task_at s0 d)).
    { rewrite Hi1, decide_False; [done|]. naive_solver. }
    destruct (IH s1 Hnd Hs1 Hd1 Hb) as [IH1 IH2]. split; [exact IH1|]. intros m. rewrite IH2, Hi1.
    destruct (decide (m = i)) as [->|Hne].
    + rewrite decide_False by (intros [? _]; done).
      destruct (decide (i = i /\ _)) as [Hx|Hx]; [rewrite decide_True|rewrite decide_False]; try done.
      * split; [apply list_elem_of_here|tauto].
      * intros (_ & ? & ?). apply Hx. done.
    + rewrite !(decide_False (P := m = i /\ _)) by naive_solver.
      destruct (decide (m ∈ l /\ _)) as [Hx|Hx]; [rewrite decide_True|rewrite decide_False]; try done.
      * split; [apply list_elem_of_further|]; tauto.
      * intros (Hm & ?). apply Hx. split; [|done]. apply elem_of_cons in Hm as [|]; done.
Qed.

(** The current task after a removal is still queued. *)
Lemma unlink_current s l1 x l2 c :
  ring_wf s (l1 ++ x :: l2) -> (forall c, current_task s = Some c -> c ∈ l1 ++ x :: l2) ->
  current_task (unlink_task s x) = Some c -> c ∈ l1 ++ l2.
Proof.
  intros Hr Hc. destruct (ring_around _ _ _ _ Hr) as (_ & _ & HP).
  assert (Hhead : task_queue s = head (l1 ++ x :: l2)) by apply (rw_head _ _ Hr).
  assert (exists h, task_queue s = Some h) as [h Eh] by (rewrite Hhead; destruct l1; eauto).
  unfold unlink_task. rewrite Eh. cbv zeta. set (s1 := set_anchors s _ _).
  change (task_at s1 x) with (task_at s x).
  assert (Hnext : t_next (task_at s x) = Some (default x (head (l2 ++ l1)))).
  { destruct (l2 ++ l1); [exact (proj1 HP)|exact (proj1 HP)]. }
  rewrite Hnext. cbn [from_option id].
  assert (Hin : forall y, y ∈ l2 ++ l1 -> y ∈ l1 ++ l2) by (intros y; rewrite !elem_of_app; tauto).
  destruct (bool_decide (default x (head (l2 ++ l1)) = x)) eqn:E; [done|]. cbn [current_task set_queue].
  apply bool_decide_eq_false in E. case_bool_decide as Ec; intros Hcc.
  - injection Hcc as <-. apply Hin. destruct (l2 ++ l1); [done|]. apply list_elem_of_here.
  - assert (c ∈ l1 ++ x :: l2) as Hcx by (by apply Hc).
    rewrite elem_of_app, elem_of_cons in Hcx. rewrite elem_of_app.
    assert (c <> x) by (intros ->; apply Ec; done). naive_solver.
Qed.

Lemma unlink_anchor s x a :
  is_Some (task_queue s) -> g_rr_anchor (unlink_task s x) = Some a -> g_rr_anchor s = Some a /\ a <> x.
Proof.
  intros [h Eh]. unfold unlink_task. rewrite Eh. cbv zeta. intros Ha.
  assert (Hg : (if bool_decide (g_rr_anchor s = Some x) then None else g_rr_anchor s) = Some a).
  { destruct (bool_decide (default x _ = x)); exact Ha. }
  case_bool_decide; [done|]. split; [done|]. by intros ->.
Qed.

Lemma unlink_wf s l1 x l2 : tasks_wf s (l1 ++ x :: l2) -> tasks_wf (unlink_task s x) (l1 ++ l2).
Proof.
  intros Hwf. apply (sub_wf s _ (l1 ++ x :: l2)); [done|apply unlink_rest|apply unlink_spec, Hwf| |].
  - apply sublist_app; [done|]. by apply sublist_cons.
  - intros c [Hc|Hc]; [revert Hc; apply unlink_current; apply Hwf|].
    apply unlink_anchor in Hc as [Hc Hne];
      [|rewrite (rw_head _ _ (tw_ring _ _ Hwf)); destruct l1; eauto].
    apply (tw_anchor _ _ Hwf) in Hc. rewrite elem_of_app, elem_of_cons in *. naive_solver.
Qed.

(** ** Ends of tasks *)

(** Reparenting only shortens ancestor chains. *)
Lemma reparent_spec s l1 x l2 :
  tasks_wf s (l1 ++ x :: l2) ->
  isoft s (task_reparent_children s (Some x)) /\
  forall m, m ∈ l1 ++ l2 ->
    t_parent_pid (task_at (task_reparent_children s (Some x)) m)
    = if decide (t_parent_pid (task_at s m) = t_id (task_at s x))
      then t_parent_pid (task_at s x) else t_parent_pid (task_at s m).
Proof.
  intros Hwf. pose proof (tw_ring _ _ Hwf) as Hr. unfold task_reparent_children.
  rewrite (ring_eq _ _ Hr). change (fold_left _ _ s) with (fold_left (reparent_one x) (l1 ++ x :: l2) s).
  destruct (reparent_fold x (l1 ++ x :: l2) s s (rw_nodup _ _ Hr) (isoft_refl s) eq_refl (rw_slots _ _ Hr))
    as [H1 H2]. split; [exact H1|]. intros m Hm. rewrite H2.
  assert (m <> x).
  { intros ->. pose proof (rw_nodup _ _ Hr) as Hn. rewrite NoDup_app, NoDup_cons in Hn.
    destruct Hn as (_ & Hn1 & Hn2 & _). apply elem_of_app in Hm as [Hm|Hm]; [|done].
    apply (Hn1 x Hm), list_elem_of_here. }
  assert (m ∈ l1 ++ x :: l2) by (rewrite elem_of_app, elem_of_cons in *; tauto).
  repeat case_decide; tauto.
Qed.

Lemma tc_flat (R R' : Z -> Z -> Prop) a b : (forall x y, R x y -> tc R' x y) -> tc R a b -> tc R' a b.
Proof. intros H. induction 1; [auto|]. eapply tc_transitive; eauto. Qed.

(** The forest after the task at [x] left, its children given to its parent. *)
Lemma forest_without s s' l1 x l2 :
  tasks_wf s (l1 ++ x :: l2) -> forest s (l1 ++ x :: l2) -> next_task_id s' = next_task_id s ->
  (forall m, m ∈ l1 ++ l2 -> t_id (task_at s' m) = t_id (task_at s m)) ->
  (forall m, m ∈ l1 ++ l2 -> t_parent_pid (task_at s' m) = t_parent_pid (task_at s m) \/
     t_parent_pid (task_at s m) = t_id (task_at s x) /\ t_parent_pid (task_at s' m) = t_parent_pid (task_at s x)) ->
  forest s' (l1 ++ l2).
Proof.
  intros Hwf [Hac Hold] Hn Hid Hpar.
  assert (Hin : forall m, m ∈ l1 ++ l2 -> m ∈ l1 ++ x :: l2).
  { intros m. rewrite !elem_of_app, elem_of_cons. tauto. }
  assert (Hx : x ∈ l1 ++ x :: l2) by (rewrite elem_of_app, elem_of_cons; tauto).
  constructor.
  - intros a Ha. apply (Hac a). revert Ha. apply tc_flat. intros c b (m & Hm & <- & <-). rewrite (Hid m Hm).
    destruct (Hpar m Hm) as [->|[H1 ->]].
    + apply tc_once. exists m. auto.
    + eapply tc_l; [exists m; auto|]. rewrite H1. apply tc_once. exists x. auto.
  - intros m Hm. rewrite Hn. destruct (Hpar m Hm) as [->|[_ ->]]; auto.
Qed.

(** States that differ in one slot only, outside the queue. *)
Record beside (x : nat) (s s' : tasks_t) : Prop := {
  be_task : forall i, i <> x -> task_at s' i = task_at s i;
  be_pool : length (task_static_pool s') = length (task_static_pool s);
  be_used : forall i, i <> x -> task_static_used s' !! i = task_static_used s !! i;
  be_flags : length (task_static_used s') = length (task_static_used s);
  be_queue : task_queue s' = task_queue s;
  be_current : current_task s' = current_task s;
  be_anchor : g_rr_anchor s' = g_rr_anchor s;
  be_deferred : deferred_reap_task s' = deferred_reap_task s;
  be_key : g_task_identity_key s <> 0 -> g_task_identity_key s' <> 0;
  be_next : next_task_id s <= next_task_id s'
}.

Lemma beside_refl x s : beside x s s.
Proof. constructor; first [done|lia]. Qed.
Lemma beside_trans x s1 s2 s3 : beside x s1 s2 -> beside x s2 s3 -> beside x s1 s3.
Proof.
  intros [A1 A2 A3 A4 A5 A6 A7 A8 A9 A10] [B1 B2 B3 B4 B5 B6 B7 B8 B9 B10].
  constructor; try congruence; auto; [| |lia].
  - intros i Hi. by rewrite B1, A1.
  - intros i Hi. by rewrite B3, A3.
Qed.
Lemma beside_upd x s f : beside x s (upd s x f).
Proof.
  constructor; [|apply pool_upd|done..|cbn; lia]. intros i Hi. unfold upd, task_at. cbn.
  by rewrite list_lookup_total_insert_ne.
Qed.
Lemma beside_vmm_used x s u : beside x s (set_vmm_used s u).
Proof. constructor; first [done|cbn; lia]. Qed.
Lemma beside_release x s : beside x s (task_static_release s x).
Proof.
  unfold task_static_release. destruct (_ <? _)%nat; [|apply beside_refl].
  constructor; cbn; rewrite ?length_insert; try done.
  - intros i Hi. unfold task_at. cbn. by rewrite list_lookup_total_insert_ne.
  - intros i Hi. by rewrite list_lookup_insert_ne.
Qed.

Lemma beside_wf x s s' L :
  beside x s s' -> x ∉ L -> deferred_reap_task s <> Some x -> tasks_wf s L -> tasks_wf s' L.
Proof.
  intros [B1 B2 B3 B4 B5 B6 Ba Bd B7 B8] Hx Hdx [H1 H2 H3 H4 H5 H6 H7 H8 H9 H10 H11 H12].
  assert (Hne : forall i, i ∈ L -> i <> x) by (by intros i Hi ->).
  constructor.
  - destruct H1 as [R1 R2 R3 R4]. constructor; [congruence|by rewrite B2|done|].
    destruct L as [|h M]; [done|]. revert R4. apply path_frame; intros z Hz; unfold tnext, tprev; rewrite B1; try done;
      apply Hne; rewrite ?elem_of_app, ?elem_of_cons, ?elem_of_nil in *; naive_solver.
  - congruence.
  - congruence.
  - intros i Hi. rewrite B3; auto.
  - intros i Hi. rewrite B1; auto.
  - auto.
  - erewrite list_fmap_ext; [exact H7|]. intros j i Hi. cbn. rewrite B1; [done|].
    apply Hne. by eapply list_elem_of_lookup_2.
  - intros i Hi. rewrite B1 by auto. specialize (H8 i Hi). lia.
  - lia.
  - by rewrite B6.
  - by rewrite Ba.
  - intros d Hd. rewrite Bd in Hd. rewrite B3 by congruence. by apply H12.
Qed.

Lemma beside_forest x s s' L : beside x s s' -> x ∉ L -> forest s L -> forest s' L.
Proof.
  intros [B1 _ _ _ _ _ _ _ _ B8] Hx [H1 H2].
  assert (Hne : forall i, i ∈ L -> i <> x) by (by intros i Hi ->).
  constructor.
  - intros a Ha. apply (H1 a). revert Ha. apply tc_ext. intros c b (i & Hi & E1 & E2).
    rewrite B1 in E1, E2 by auto. exists i. auto.
  - intros i Hi. rewrite B1 by auto. specialize (H2 i Hi). lia.
Qed.

Section Pool.
Context (vmm_pool : nat -> Z) (vmm_phys stack_top : nat -> Z) (elf_load : vmm_t -> Z -> Z * vmm_t).

Lemma beside_destroy x k dir :
  beside x (k_tasks k) (k_tasks (snd (task_destroy_user_vmm vmm_pool k dir))).
Proof.
  unfold task_destroy_user_vmm. destruct (dir =? 0); [apply beside_refl|].
  destruct (vmm_destroy_user_directory _ _) as [rc v]. destruct (negb _); [apply beside_refl|].
  cbn [snd k_tasks set_tasks]. unfold task_static_vmm_release.
  destruct (find_slot _ _); [apply beside_vmm_used|apply beside_refl].
Qed.

Lemma beside_detached x k :
  beside x (k_tasks k) (k_tasks (task_release_detached vmm_pool k (Some x))).
Proof.
  unfold task_release_detached. destruct (_ || _); [apply beside_refl|].
  pose proof (beside_destroy x k (t_vmm_dir (ktask k x))) as H.
  destruct (task_destroy_user_vmm _ _ _) as [rc k1]. cbn [snd] in H. destruct (negb _); [done|].
  unfold kupd. cbn [k_tasks set_tasks].
  eapply beside_trans; [exact H|]. eapply beside_trans; [apply beside_upd|apply beside_release].
Qed.

(** The state of the table: well formed, and the parents form a forest. *)
Definition tasks_ok (s : tasks_t) : Prop := exists L, tasks_wf s L /\ forest s L.

Lemma soft_ok s s' : soft s s' -> tasks_ok s -> tasks_ok s'.
Proof. intros Hs (L & H1 & H2). exists L. eauto using soft_wf, soft_forest. Qed.

(** Nobody outside the queue is awake. *)
Definition asleep (s : tasks_t) : Prop := forall i, i ∉ ring s -> dormant (task_at s i).

Lemma soft_asleep s s' : soft s s' -> asleep s -> asleep s'.
Proof. intros (Hs & _ & Hr & _) Ha i. rewrite (isoft_walk _ _ Hs). intros Hi. by apply Hr, Ha. Qed.

Lemma asleep_from s s' L L' :
  tasks_wf s L -> tasks_wf s' L' ->
  (forall i, i ∉ L' -> (i ∉ L -> dormant (task_at s i)) -> dormant (task_at s' i)) -> asleep s -> asleep s'.
Proof.
  intros Hw Hw' H Ha i. rewrite (ring_eq _ _ (tw_ring _ _ Hw')). intros Hi. apply H; [done|]. intros Hi'.
  apply Ha. by rewrite (ring_eq _ _ (tw_ring _ _ Hw)).
Qed.

(** The table the kernel keeps: well formed, and nobody awake outside it. *)
Definition table_ok (s : tasks_t) : Prop := tasks_ok s /\ asleep s.

Lemma soft_table s s' : soft s s' -> table_ok s -> table_ok s'.
Proof. intros Hs [H1 H2]. split; [by eapply soft_ok|by eapply soft_asleep]. Qed.

(** A queued task ends. *)
Lemma end_table_ok s x : table_ok s -> table_ok (upd s x (fun t => with_state t TASK_TERMINATED)).
Proof using.
  intros [(L & Hwf & Hfo) Has]. set (s' := upd s x _). assert (Hs : isoft s s') by (by apply isoft_upd).
  split; [exists L; split; [by eapply isoft_wf|apply (forest_kept s); [done|by apply keeps_upd|done]]|].
  intros i. rewrite (isoft_walk _ _ Hs). intros Hi. apply rests_state; [by right; right; right|done|by apply Has].
Qed.

Lemma detached_dormant k x :
  dormant (ktask k x) -> dormant (ktask (task_release_detached vmm_pool k (Some x)) x).
Proof.
  intros Hd. unfold task_release_detached. destruct (_ || _); [done|].
  pose proof (be_pool x _ _ (beside_destroy x k (t_vmm_dir (ktask k x)))) as Hp.
  assert (He : task_at (k_tasks (snd (task_destroy_user_vmm vmm_pool k (t_vmm_dir (ktask k x))))) x = ktask k x).
  { unfold task_destroy_user_vmm. destruct (_ =? 0); [done|]. destruct (vmm_destroy_user_directory _ _) as [rc v].
    destruct (negb _); [done|]. cbn [snd k_tasks set_tasks]. unfold task_static_vmm_release. by destruct (find_slot _ _). }
  destruct (task_destroy_user_vmm _ _ _) as [rc k1]. cbn [snd] in Hp, He.
  destruct (negb _); [unfold ktask; by rewrite He|].
  unfold ktask, kupd, task_static_release. cbn [k_tasks set_tasks]. rewrite pool_upd.
  destruct (Nat.ltb_spec x (length (task_static_pool (k_tasks k1)))) as [Hx|Hx].
  - left. unfold task_at. cbn. rewrite list_lookup_total_insert_eq; [done|]. by rewrite length_insert.
  - unfold upd, task_at in *. cbn. rewrite list_insert_ge by done. by rewrite He.
Qed.

Lemma not_in_rest s l1 x l2 : tasks_wf s (l1 ++ x :: l2) -> x ∉ l1 ++ l2.
Proof.
  intros Hwf. pose proof (rw_nodup _ _ (tw_ring _ _ Hwf)) as Hn. rewrite NoDup_app, NoDup_cons in Hn.
  destruct Hn as (_ & Hn1 & Hn2 & _). intros [Hm|Hm]%elem_of_app; [|done].
  apply (Hn1 x Hm), list_elem_of_here.
Qed.

(** The queue part of a kill: children reparented, state set, task unlinked. *)
Lemma detach_ok s l1 x l2 :
  tasks_wf s (l1 ++ x :: l2) -> forest s (l1 ++ x :: l2) ->
  let s' := unlink_task (upd (task_reparent_children s (Some x)) x
              (fun t => with_state t TASK_TERMINATED)) x in
  tasks_wf s' (l1 ++ l2) /\ forest s' (l1 ++ l2).
Proof.
  intros Hwf Hfo. destruct (reparent_spec _ _ _ _ Hwf) as [Hi3 Hp3].
  set (s3 := task_reparent_children s (Some x)) in *. set (s4 := upd s3 x _).
  assert (Hs4 : isoft s3 s4) by (by apply isoft_upd). assert (Hp4 : keeps t_parent_pid s3 s4) by (by apply keeps_upd).
  assert (Hwf4 : tasks_wf s4 (l1 ++ x :: l2)).
  { eapply isoft_wf; [exact Hs4|]. by eapply isoft_wf. }
  clearbody s3 s4. pose proof (unlink_rest s4 x) as [Hr _ _ _ Hn].
  cbv zeta. split; [by apply unlink_wf|].
  eapply (forest_without s); [exact Hwf|exact Hfo| | |].
  - rewrite Hn, (so_next _ _ Hs4), (so_next _ _ Hi3). done.
  - intros m Hm. rewrite (proj1 (inner_fields _ _ (Hr m))), (isoft_id _ _ m Hs4), (isoft_id _ _ m Hi3). done.
  - intros m Hm. destruct (inner_fields _ _ (Hr m)) as (_ & _ & _ & _ & ->). rewrite (Hp4 m), (Hp3 m Hm).
    case_decide; [right|left]; done.
Qed.

Lemma not_deferred s L x : tasks_wf s L -> x ∈ L -> deferred_reap_task s <> Some x.
Proof. intros Hwf Hx Hd. by destruct (tw_deferred _ _ Hwf x Hd). Qed.

(** Releasing the slot of a task that has left the queue. *)
Lemma detached_ok k x L :
  tasks_wf (k_tasks k) L -> forest (k_tasks k) L -> x ∉ L -> deferred_reap_task (k_tasks k) <> Some x ->
  tasks_ok (k_tasks (task_release_detached vmm_pool k (Some x))).
Proof.
  intros. exists L.
  split; [eapply (beside_wf x)|eapply (beside_forest x)]; first [apply beside_detached|done].
Qed.

Lemma reparent_dormant s x i : dormant (task_at s i) -> dormant (task_at (task_reparent_children s (Some x)) i).
Proof.
  intros Hd. unfold task_reparent_children. generalize (ring s) as l. intros l. revert s Hd.
  induction l as [|j l IH]; intros s Hd; cbn [fold_left]; [done|]. apply IH. destruct (_ && _); [|done].
  unfold dormant. assert (Hk : keeps t_state s (upd s j (fun t => with_parent t (t_parent_pid (task_at s x)))))
    by (apply keeps_upd; reflexivity). by rewrite (Hk i).
Qed.

Lemma detached_table k x L s0 L0 :
  tasks_wf s0 L0 -> asleep s0 ->
  tasks_wf (k_tasks k) L -> forest (k_tasks k) L -> x ∉ L -> deferred_reap_task (k_tasks k) <> Some x ->
  (forall i, i ∉ L -> (i ∉ L0 -> dormant (task_at s0 i)) -> dormant (ktask k i)) ->
  table_ok (k_tasks (task_release_detached vmm_pool k (Some x))).
Proof.
  intros Hw0 Has Hwf Hfo Hx Hnd Hd. split; [by apply (detached_ok _ x L)|].
  pose proof (beside_detached x k) as Hb.
  apply (asleep_from s0 _ L0 L); [done|by eapply (beside_wf x)| |done].
  intros i Hi Hs. destruct (decide (i = x)) as [->|Hne]; [apply detached_dormant; by apply Hd|].
  rewrite (be_task _ _ _ Hb i Hne). by apply Hd.
Qed.

Lemma detach_dormant s l1 x l2 i :
  tasks_wf s (l1 ++ x :: l2) -> i ∉ l1 ++ l2 -> (i ∉ l1 ++ x :: l2 -> dormant (task_at s i)) ->
  dormant (task_at (unlink_task (upd (task_reparent_children s (Some x)) x (fun t => with_state t TASK_TERMINATED)) x) i).
Proof.
  intros Hwf Hi Hs. apply (inner_dormant _ _ (sr_inner _ _ (unlink_rest _ x) i)).
  destruct (reparent_spec _ _ _ _ Hwf) as [Hi3 _].
  assert (Hb : (x < length (task_static_pool (task_reparent_children s (Some x))))%nat).
  { rewrite (so_pool _ _ Hi3). apply (slot_bound s _ Hwf). rewrite elem_of_app. right. apply list_elem_of_here. }
  rewrite task_at_upd by done. case_decide as E; [by right|].
  apply reparent_dormant, Hs. rewrite elem_of_app, elem_of_cons in *. naive_solver.
Qed.

Lemma kill_one_ok k now x :
  x ∈ ring (k_tasks k) -> table_ok (k_tasks k) -> table_ok (k_tasks (kill_one vmm_pool k now x)).
Proof.
  intros Hx [(L & Hwf & Hfo) Has]. rewrite (ring_eq _ _ (tw_ring _ _ Hwf)) in Hx.
  apply list_elem_of_split in Hx as (l1 & l2 & ->). unfold kill_one. cbv zeta.
  set (k1 := task_report_parent_exit k _ _ _ _).
  assert (Hs : soft (k_tasks k) (task_wake_waiter (k_tasks k1) (Some x))).
  { apply soft_trans with (k_tasks k1); [apply soft_report|apply soft_wake]. }
  clearbody k1. unfold kupd. cbn [k_tasks set_tasks].
  set (s2 := task_wake_waiter _ _) in *. clearbody s2.
  pose proof (soft_wf _ _ _ Hs Hwf) as Hwf2. pose proof (soft_forest _ _ _ Hs Hfo) as Hfo2.
  pose proof (not_in_rest _ _ _ _ Hwf2) as Hx. destruct (detach_ok _ _ _ _ Hwf2 Hfo2) as [Hwf5 Hfo5].
  set (s5 := unlink_task _ x) in *. assert (Hnd : deferred_reap_task s5 <> Some x).
  { unfold s5. rewrite (sr_deferred _ _ (unlink_rest _ _)). cbn [deferred_reap_task upd set_pool].
    destruct (reparent_spec _ _ _ _ Hwf2) as [Hi3 _]. rewrite (so_deferred _ _ Hi3).
    apply (not_deferred _ _ _ Hwf2). apply elem_of_app. right. apply list_elem_of_here. }
  eapply (detached_table _ x (l1 ++ l2) s2 (l1 ++ x :: l2)); [done|by eapply soft_asleep|done..|].
  intros i. cbn [ktask k_tasks set_tasks]. by apply detach_dormant.
Qed.

Lemma kill_ok k now r pid : table_ok (k_tasks k) -> table_ok (k_tasks (snd (task_kill vmm_pool k now r pid))).
Proof.
  intros Hok. unfold task_kill. destruct (pid =? 0); [done|].
  destruct (get_task_by_id _ pid) as [i|] eqn:E; [|done]. destruct (r =? pid); [done|].
  destruct (_ && _); [done|]. by apply kill_one_ok; [eapply get_ring|].
Qed.

Lemma kill_children_ok k now r :
  table_ok (k_tasks k) -> table_ok (k_tasks (snd (task_kill_direct_children vmm_pool k now r))).
Proof.
  intros Hok. unfold task_kill_direct_children. destruct (get_task_by_id _ _); [|done]. cbv zeta. cbn [snd].
  set (pids := take _ _). clearbody pids. revert k Hok. induction pids as [|pid pids IH]; intros k Hok; [done|].
  cbn [fold_left]. apply IH. destruct (get_task_by_id _ pid) as [i|] eqn:E; [|done].
  destruct (negb _); [done|]. by apply kill_one_ok; [eapply get_ring|].
Qed.

Lemma remove_ok k x : tasks_ok (k_tasks k) -> tasks_ok (k_tasks (remove_task vmm_pool k x)).
Proof.
  intros (L & Hwf & Hfo). unfold remove_task. destruct x as [x|]; [|by exists L].
  destruct (bool_decide _); [by exists L|]. destruct (existsb _ _) eqn:E; [|by exists L]. cbn [negb].
  apply existsb_exists in E as (y & Hy & E). apply bool_decide_eq_true in E as ->.
  apply list_elem_of_In in Hy. rewrite (ring_eq _ _ (tw_ring _ _ Hwf)) in Hy.
  apply list_elem_of_split in Hy as (l1 & l2 & ->).
  pose proof (unlink_wf _ _ _ _ Hwf) as Hwf5. pose proof (not_in_rest _ _ _ _ Hwf) as Hx.
  assert (Hfo5 : forest (unlink_task (k_tasks k) x) (l1 ++ l2)).
  { pose proof (unlink_rest (k_tasks k) x) as [Hr _ _ _ Hn].
    eapply forest_without; [exact Hwf|exact Hfo|done| |]; intros m _;
      destruct (inner_fields _ _ (Hr m)) as (E1 & _ & _ & _ & E2); [done|by left]. }
  apply (detached_ok _ x (l1 ++ l2)); cbn [k_tasks set_tasks]; try done.
  rewrite (sr_deferred _ _ (unlink_rest _ _)). apply (not_deferred _ _ _ Hwf).
  apply elem_of_app. right. apply list_elem_of_here.
Qed.

End Pool.

(** ** New tasks *)
Lemma acquire_spec s L i s' :
  tasks_wf s L -> task_static_acquire s = (Some i, s') ->
  i ∉ L /\ (i < 16)%nat /\ beside i s s' /\ task_static_used s' !! i = Some 1 /\
  next_task_id s' = next_task_id s /\ deferred_reap_task s <> Some i /\
  t_sequence (task_at s' i) <> 0 /\ t_generation (task_at s' i) <> 0 /\ t_identity_key (task_at s' i) <> 0.
Proof.
  intros Hwf. unfold task_static_acquire. destruct (find_slot _ _) as [j|] eqn:E; [|done].
  intros [= -> <-]. apply find_slot_Some in E as (u & Hu & Hz & _). assert (u = 0) as -> by lia.
  assert (Hb : (i < 16)%nat) by (rewrite <- (tw_flags _ _ Hwf); by eapply lookup_lt_Some).
  assert (Hp : (i < length (task_static_pool s))%nat) by (by rewrite (tw_pool _ _ Hwf)).
  split; [intros Hi; rewrite (tw_used _ _ Hwf i Hi) in Hu; done|]. split; [done|].
  split; [constructor; cbn; rewrite ?length_insert; try done|].
  - intros j Hj. unfold task_at. cbn. by rewrite list_lookup_total_insert_ne.
  - intros j Hj. by rewrite list_lookup_insert_ne.
  - intros _. apply next_nonzero_nz.
  - cbn. rewrite list_lookup_insert_eq by (by rewrite (tw_flags _ _ Hwf)).
    unfold task_at. cbn. rewrite list_lookup_total_insert_eq by done. cbn.
    split; [done|]. split; [done|]. split; [intros Hd; apply (tw_deferred _ _ Hwf) in Hd as [_ Hd]; congruence|].
    repeat split; try apply next_nonzero_nz. apply (tw_key _ _ Hwf).
Qed.

(** Adding a task with a new PID, no children and no parent. *)
Section Enqueue.
Context (s : tasks_t) (L : list nat) (i : nat) (Hwf : tasks_wf s L) (Hfo : forest s L).
Context (Hi : i ∉ L) (Hnd : deferred_reap_task s <> Some i) (Hb : (i < 16)%nat) (Hu : task_static_used s !! i = Some 1).
Context (Hident : t_sequence (task_at s i) <> 0 /\ t_generation (task_at s i) <> 0 /\ t_identity_key (task_at s i) <> 0).
Context (Hid : 0 <= t_id (task_at s i) < next_task_id s) (Hp : t_parent_pid (task_at s i) = -1).
Context (Hnew : forall m, m ∈ L ->
  t_id (task_at s m) < t_id (task_at s i) /\ t_parent_pid (task_at s m) < t_id (task_at s i)).
Let s' := add_task_to_queue s i.

Lemma enqueue_fields m :
  t_id (task_at s' m) = t_id (task_at s m) /\ t_parent_pid (task_at s' m) = t_parent_pid (task_at s m).
Proof using. destruct (inner_fields _ _ (sr_inner _ _ (add_rest s i) m)) as (E1 & _ & _ & _ & E2). done. Qed.

Lemma enqueue_in m : m ∈ L ++ [i] -> m ∈ L \/ m = i.
Proof using. by rewrite elem_of_app, list_elem_of_singleton. Qed.

Lemma enqueue_current : current_task s' = current_task s.
Proof using. unfold s', add_task_to_queue. by destruct (task_queue s). Qed.

Lemma enqueue_anchor : g_rr_anchor s' = g_rr_anchor s.
Proof using. unfold s', add_task_to_queue. by destruct (task_queue s). Qed.

Lemma enqueue_wf : tasks_wf s' (L ++ [i]).
Proof using Hwf Hi Hnd Hb Hu Hident Hid Hnew.
  destruct Hwf as [H1 H2 H3 H4 H5 H6 H7 H8 H9 H10 H11 H12]. pose proof (add_rest s i) as [Hr Rp Ru Rk Rn Rd].
  fold s' in Hr, Rp, Ru, Rk, Rn, Rd.
  constructor; rewrite ?enqueue_current, ?enqueue_anchor, ?Rp, ?Ru, ?Rk, ?Rn, ?Rd; try done.
  - apply add_spec; [done|by rewrite H2|done].
  - intros m [Hm| ->]%enqueue_in; auto.
  - intros m Hm. destruct (inner_fields _ _ (Hr m)) as (_ & -> & -> & -> & _).
    apply enqueue_in in Hm as [Hm| ->]; auto.
  - erewrite list_fmap_ext; [|intros j m _; exact (proj1 (enqueue_fields m))]. rewrite fmap_app. apply NoDup_app.
    split; [done|]. split; [|apply NoDup_singleton]. intros a (m & -> & Hm)%list_elem_of_fmap Ha.
    apply list_elem_of_singleton in Ha. destruct (Hnew m Hm). lia.
  - intros m Hm. rewrite (proj1 (enqueue_fields m)). apply enqueue_in in Hm as [Hm| ->]; auto.
  - intros c Hc. apply elem_of_app. left. auto.
  - intros c Hc. apply elem_of_app. left. auto.
  - intros d Hd. destruct (H12 d Hd) as [Hd1 Hd2]. split; [|done].
    intros [Hm| ->]%enqueue_in; [done|]. by apply Hnd.
Qed.

Lemma enqueue_forest : forest s' (L ++ [i]).
Proof using Hwf Hfo Hi Hnd Hb Hu Hident Hid Hp Hnew.
  constructor.
  - apply (redirect_acyclic (parent_of s L) (parent_of s' (L ++ [i])) (t_id (task_at s i)) (-1)).
    + intros a b Ha. unfold parent_of. split; intros (m & Hm & E1 & E2);
        rewrite ?(proj1 (enqueue_fields m)), ?(proj2 (enqueue_fields m)) in *; exists m.
      * apply enqueue_in in Hm as [Hm| ->]; [done|by destruct Ha].
      * rewrite (proj1 (enqueue_fields m)), (proj2 (enqueue_fields m)), elem_of_app. auto.
    + intros b (m & Hm & E1 & <-). destruct (enqueue_fields m) as [E E']. rewrite E in E1. rewrite E'.
      apply enqueue_in in Hm as [Hm| ->]; [|done]. destruct (Hnew m Hm). lia.
    + intros a b b'. apply parent_fun, enqueue_wf.
    + apply Hfo.
    + intros H. inversion H as [|? z ? Hs _]; [lia|]. destruct Hs as (m & Hm & E & _).
      pose proof (tw_fresh _ _ Hwf m Hm). lia.
  - intros m Hm. rewrite (proj2 (enqueue_fields m)). unfold s'. rewrite (sr_next _ _ (add_rest s i)).
    apply enqueue_in in Hm as [Hm| ->]; [by apply Hfo|]. lia.
Qed.

Lemma enqueue_childless m : m ∈ L ++ [i] -> t_parent_pid (task_at s' m) <> t_id (task_at s' i).
Proof using Hb Hid Hp Hnew.
  intros Hm. rewrite (proj1 (enqueue_fields i)), (proj2 (enqueue_fields m)).
  apply enqueue_in in Hm as [Hm| ->]; [destruct (Hnew m Hm)|]; lia.
Qed.
End Enqueue.

Section Spawn.
Context (vmm_pool : nat -> Z) (vmm_phys stack_top : nat -> Z) (elf_load : vmm_t -> Z -> Z * vmm_t).

(** What a successful creation guarantees, before the task is adopted. *)
Record created (s s' : tasks_t) (i : nat) : Prop := {
  in_ok : exists L, tasks_wf s L /\ tasks_wf s' (L ++ [i]) /\ forest s' (L ++ [i]) /\ i ∉ L;
  in_childless : forall m, m ∈ ring s' -> t_parent_pid (task_at s' m) <> t_id (task_at s' i);
  in_current : current_task s' = current_task s;
  in_others : forall m, m <> i -> inner (task_at s' m) = inner (task_at s m)
}.

(** What a refused creation keeps. *)
Definition refused (s s' : tasks_t) : Prop :=
  tasks_ok s' /\ current_task s' = current_task s /\ ring s' = ring s /\
  (forall i, i ∈ ring s -> task_at s' i = task_at s i) /\ (asleep s -> asleep s').

Lemma created_asleep s s' i : created s s' i -> asleep s -> asleep s'.
Proof.
  intros [(L & Hwf & Hwf' & _ & Hi) _ _ Ho]. apply (asleep_from s s' L (L ++ [i])); [done..|].
  intros m Hm Hs. rewrite elem_of_app, list_elem_of_singleton in Hm.
  eapply inner_dormant; [apply Ho; naive_solver|]. apply Hs. naive_solver.
Qed.

Lemma install_spec s dir now name :
  tasks_ok s ->
  match task_install s dir now name stack_top with
  | (None, s') => refused s s'
  | (Some i, s') => created s s' i
  end.
Proof.
  intros (L & Hwf & Hfo). unfold task_install.
  destruct (task_static_acquire s) as [[i|] s1] eqn:E; cbv zeta.
  - destruct (acquire_spec s L i s1 Hwf E) as (Hi & Hb & Hbe & Hu & Hn & Hnd & Hident).
    set (s2 := upd (set_next_id s1 _) i _).
    assert (Hbe2 : beside i s s2).
    { apply beside_trans with s1; [done|]. apply beside_trans with (set_next_id s1 (next_task_id s1 + 1)).
      - constructor; try done. cbn. lia.
      - apply beside_upd. }
    pose proof (beside_wf _ _ _ _ Hbe2 Hi Hnd Hwf) as Hwf2. pose proof (beside_forest _ _ _ _ Hbe2 Hi Hfo) as Hfo2.
    assert (Hnd2 : deferred_reap_task s2 <> Some i) by (by rewrite (be_deferred _ _ _ Hbe2)).
    destruct (stack_top i =? 0).
    { pose proof (beside_trans _ _ _ _ Hbe2 (beside_release i s2)) as Hbe3.
      pose proof (beside_wf _ _ _ _ Hbe3 Hi Hnd Hwf) as Hwf3.
      pose proof (ring_eq _ _ (tw_ring _ _ Hwf)) as Er. pose proof (ring_eq _ _ (tw_ring _ _ Hwf3)) as Er3.
      split; [exists L; split; [done|by eapply (beside_forest i)]|]. split; [apply (be_current _ _ _ Hbe3)|].
      split; [congruence|]. split; [intros m Hm; apply (be_task _ _ _ Hbe3); rewrite Er in Hm; by intros ->|].
      apply (asleep_from _ _ L L); [done..|]. intros m Hm Hs.
      destruct (decide (m = i)) as [->|Hne]; [left|rewrite (be_task _ _ _ Hbe3) by done; by apply Hs].
      assert (Hl : (i < length (task_static_pool s2))%nat) by (rewrite (be_pool _ _ _ Hbe2), (tw_pool _ _ Hwf); done).
      unfold task_static_release. rewrite (proj2 (Nat.ltb_lt _ _) Hl). unfold task_at. cbn.
      by rewrite list_lookup_total_insert_eq. }
    assert (Ht : task_at s2 i = _) by (apply task_at_upd; change (i < length (task_static_pool s1))%nat;
      rewrite (be_pool _ _ _ Hbe), (tw_pool _ _ Hwf); done).
    rewrite decide_True in Ht by done.
    assert (Hnew : forall m, m ∈ L -> t_id (task_at s2 m) < t_id (task_at s2 i) /\
                     t_parent_pid (task_at s2 m) < t_id (task_at s2 i)).
    { intros m Hm. rewrite (be_task _ _ _ Hbe2) by (by intros ->). rewrite Ht. cbn [t_id]. rewrite Hn.
      split; [apply (tw_fresh _ _ Hwf m Hm)|apply (fo_old _ _ Hfo m Hm)]. }
    assert (Hid : 0 <= t_id (task_at s2 i) < next_task_id s2).
    { rewrite Ht. cbn. pose proof (tw_next _ _ Hwf). lia. }
    assert (Hp : t_parent_pid (task_at s2 i) = -1) by (rewrite Ht; done).
    assert (Hident2 : t_sequence (task_at s2 i) <> 0 /\ t_generation (task_at s2 i) <> 0 /\
                      t_identity_key (task_at s2 i) <> 0) by (rewrite Ht; done).
    pose proof (enqueue_wf s2 L i Hwf2 Hi Hnd2 Hb Hu Hident2 Hid Hnew) as Hwf3.
    constructor.
    + exists L. split; [done|]. split; [done|]. split; [by apply enqueue_forest|done].
    + rewrite (ring_eq _ _ (tw_ring _ _ Hwf3)). by apply enqueue_childless.
    + rewrite enqueue_current. apply (be_current _ _ _ Hbe2).
    + intros m Hm. rewrite (sr_inner _ _ (add_rest s2 i) m). by rewrite (be_task _ _ _ Hbe2).
  - unfold task_static_acquire in E. destruct (find_slot _ _); [done|]. injection E as <-.
    repeat split; try done. by exists L.
Qed.
Lemma soft_vmm_used s u : soft s (set_vmm_used s u).
Proof. split; [constructor; [intros i|..]; reflexivity|]. split; [intros i; reflexivity|]. split; by intros i. Qed.

Lemma soft_destroy k dir : soft (k_tasks k) (k_tasks (snd (task_destroy_user_vmm vmm_pool k dir))).
Proof.
  unfold task_destroy_user_vmm. destruct (dir =? 0); [apply soft_refl|].
  destruct (vmm_destroy_user_directory _ _) as [rc v]. destruct (negb _); [apply soft_refl|].
  cbn [snd k_tasks set_tasks]. unfold task_static_vmm_release.
  destruct (find_slot _ _); [apply soft_vmm_used|apply soft_refl].
Qed.

Lemma soft_vmm_acquire k : soft (k_tasks k) (k_tasks (snd (task_static_vmm_acquire vmm_pool vmm_phys k))).
Proof.
  unfold task_static_vmm_acquire. destruct (find_slot _ _); [apply soft_vmm_used|apply soft_refl].
Qed.

Lemma create_spec k now file :
  tasks_ok (k_tasks k) ->
  match create_task_from_initrd_file vmm_pool vmm_phys stack_top elf_load k now file with
  | (None, k') => exists s s', soft (k_tasks k) s /\ refused s s' /\ soft s' (k_tasks k')
  | (Some i, k') => exists s, soft (k_tasks k) s /\ created s (k_tasks k') i
  end /\ k_registry (snd (create_task_from_initrd_file vmm_pool vmm_phys stack_top elf_load k now file)) = k_registry k
      /\ k_bridge (snd (create_task_from_initrd_file vmm_pool vmm_phys stack_top elf_load k now file)) = k_bridge k.
Proof.
  intros Hok. assert (Hnone : forall k', soft (k_tasks k) (k_tasks k') ->
    exists s s', soft (k_tasks k) s /\ refused s s' /\ soft s' (k_tasks k')).
  { intros k' Hk. exists (k_tasks k), (k_tasks k). split; [apply soft_refl|]. split; [by repeat split|done]. }
  assert (Hdb : forall k dir, k_registry (snd (task_destroy_user_vmm vmm_pool k dir)) = k_registry k /\
    k_bridge (snd (task_destroy_user_vmm vmm_pool k dir)) = k_bridge k).
  { intros k0 dir. unfold task_destroy_user_vmm. destruct (dir =? 0); [done|].
    destruct (vmm_destroy_user_directory _ _) as [rc v]. by destruct (negb _). }
  unfold create_task_from_initrd_file. destruct (negb _); [split; [apply Hnone, soft_refl|done]|].
  destruct file as [name|]; [|split; [apply Hnone, soft_refl|done]].
  assert (Hvb : k_registry (snd (task_static_vmm_acquire vmm_pool vmm_phys k)) = k_registry k /\
    k_bridge (snd (task_static_vmm_acquire vmm_pool vmm_phys k)) = k_bridge k).
  { unfold task_static_vmm_acquire. by destruct (find_slot _ _). } pose proof (soft_vmm_acquire k) as Hs.
  destruct (task_static_vmm_acquire _ _ k) as [dir k1]. cbn [snd] in Hs, Hvb.
  pose proof (soft_ok _ _ Hs Hok) as Hok1. destruct (dir =? 0); [split; [by apply Hnone|done]|]. cbv zeta.
  destruct (elf_load _ _) as [entry v]. set (p := if entry =? 0 then _ else _). destruct p as [top v'].
  set (k2 := set_vmm k1 _). change (k_tasks k1) with (k_tasks k2) in Hs, Hok1.
  change (k_registry k1 = k_registry k) with (k_registry k2 = k_registry k) in Hvb.
  change (k_bridge k1) with (k_bridge k2) in Hvb.
  destruct (_ || _).
  { split; [apply Hnone; eapply soft_trans; [exact Hs|apply soft_destroy]|]. cbn [snd].
    destruct (Hdb k2 dir) as [-> ->]. exact Hvb. }
  pose proof (install_spec (k_tasks k2) dir now name Hok1) as Hin.
  destruct (task_install _ _ _ _ _) as [[i|] s'].
  - split; [exists (k_tasks k2); done|exact Hvb].
  - split; [exists (k_tasks k2), s'; split; [done|]; split; [done|apply (soft_destroy (set_tasks k2 s'))]|].
    cbn [snd]. destruct (Hdb (set_tasks k2 s') dir) as [-> ->]. exact Hvb.
Qed.

(** A task created by the current one is below it in the forest. *)
Lemma adopt_ok k s waits i c :
  created s (k_tasks k) i -> asleep s -> current_task s = Some c ->
  table_ok (k_tasks (adopt_child k waits i c)).
Proof.
  intros Hcr Has Hc. pose proof (created_asleep _ _ _ Hcr Has) as Has'.
  destruct Hcr as [(L & Hwf & Hwf' & Hfo & Hi) Hch Hcur _].
  pose proof (tw_current _ _ Hwf c Hc) as HcL. rewrite (ring_eq _ _ (tw_ring _ _ Hwf')) in Hch.
  assert (HcL' : c ∈ L ++ [i]) by (apply elem_of_app; by left).
  assert (HiL' : i ∈ L ++ [i]) by (rewrite elem_of_app, list_elem_of_singleton; by right).
  assert (Hno : ~ rtc (parent_of (k_tasks k) (L ++ [i])) (t_id (task_at (k_tasks k) c)) (t_id (task_at (k_tasks k) i))).
  { intros [E|(y & _ & m & Hm & _ & E)]%rtc_inv_r; [|by apply (Hch m Hm)].
    apply Hi. by rewrite <- (id_inj _ _ Hwf' c i HcL' HiL' E). }
  set (s1 := upd (k_tasks k) i (fun t => with_parent t (t_id (task_at (k_tasks k) c)))).
  assert (Hi1 : isoft (k_tasks k) s1) by (apply isoft_upd; intros; reflexivity).
  assert (Hok : table_ok s1).
  { split; [exists (L ++ [i]); split; [by eapply isoft_wf|]|].
    - apply (redirect_forest (k_tasks k)); first [done|apply soft_refl].
    - intros m. rewrite (isoft_walk _ _ Hi1). intros Hm. unfold dormant.
      assert (Hk : keeps t_state (k_tasks k) s1) by (apply keeps_upd; reflexivity). rewrite (Hk m). by apply Has'. }
  unfold adopt_child. cbv zeta. cbn [k_tasks]. destruct waits; [|exact Hok].
  eapply soft_table; [|exact Hok]. apply soft_upd. intros; reflexivity.
Qed.

Lemma refused_table s1 s s' s2 : soft s1 s -> refused s s' -> soft s' s2 -> table_ok s1 -> table_ok s2.
Proof.
  intros H1 (H2 & _ & _ & _ & Ha) H3 Hok. apply (soft_table s1 s H1) in Hok as [_ Has].
  apply (soft_table s' s2 H3). split; [done|by apply Ha].
Qed.

Lemma spawn_ok k now waits file :
  table_ok (k_tasks k) ->
  table_ok (k_tasks (snd (spawn_child vmm_pool vmm_phys stack_top elf_load k now waits file))).
Proof.
  intros Hok. unfold spawn_child. destruct (current_task (k_tasks k)) as [c|] eqn:Ec; [|done]. cbv zeta.
  destruct (negb _); [done|]. destruct (negb _); [done|]. destruct (create_spec k now file (proj1 Hok)) as [Hcr _].
  destruct (create_task_from_initrd_file _ _ _ _ _ _ _) as [[i|] k1].
  - destruct Hcr as (s & Hs & Hin). cbn [snd]. apply (adopt_ok _ s); [done|eapply soft_asleep; [exact Hs|apply Hok]|].
    by rewrite (so_current _ _ (proj1 Hs)).
  - destruct Hcr as (s & s' & H1 & H2 & H3). by apply (refused_table (k_tasks k) s s').
Qed.
End Spawn.
