(* ===== verification/TaskSchedInv.v ===== *)
(** * The scheduler is right

    [schedule] keeps the task table well formed, leaves exactly one task
    running, never passes over a more urgent ready task (but for the turn an
    interrupted task takes back) and serves equally urgent tasks in turn. *)

From Stdlib Require Import ZArith Lia String.
From stdpp Require Import base numbers option tactics list relations.
From S2P Require Import Prelude Bytes Names Ipc IpcWait Pmm Vmm RegistryState Registry RegistryCaps OutCapture TaskState TaskQueue Task TaskSched TaskInv TaskTable.

Lemma scan_order_eq s l1 x l2 : ring_wf s (l1 ++ x :: l2) -> scan_order s x = l2 ++ l1 ++ [x].
Proof.
  intros Hr. destruct (ring_around _ _ _ _ Hr) as (HF & HN & HP). unfold scan_order.
  apply NoDup_cons in HN as [Hx HN]. rewrite (walk_path s x (l2 ++ l1) x); [|done|done|].
  - cbn [tail]. by rewrite app_assoc.
  - assert (length (x :: l2 ++ l1) <= length (task_static_pool s))%nat; [|cbn in *; lia].
    apply nodup_bound; [by constructor|done].
Qed.

Lemma scan_order_in s L x j : ring_wf s L -> x ∈ L -> j ∈ scan_order s x <-> j ∈ L.
Proof.
  intros Hr (l1 & l2 & ->)%list_elem_of_split. rewrite (scan_order_eq _ _ _ _ Hr).
  rewrite !elem_of_app, !elem_of_cons, elem_of_nil. tauto.
Qed.

Lemma select_in s L start : ring_wf s L -> start ∈ L -> select_task s start ∈ L.
Proof.
  intros Hr Hs. rewrite <- (scan_order_in s L start _ Hr Hs).
  destruct (select_spec s start) as [(l1 & l2 & -> & _)|[_ [H|[-> _]]]].
  - rewrite elem_of_app. right. apply list_elem_of_here.
  - by apply find_Some_iff in H as [H _].
  - by apply (scan_order_in s L start).
Qed.

(** ** Steps of a reschedule on the table *)

Lemma ring_pool s s' L :
  task_static_pool s' = task_static_pool s -> task_queue s' = task_queue s -> ring_wf s L -> ring_wf s' L.
Proof.
  intros Hp Hq [R1 R2 R3 R4]. constructor; [congruence|by rewrite Hp|done|].
  destruct L; [done|]. by apply (path_pool s).
Qed.

(** What the scheduler may change: states, accounting, current task, anchors. *)
Lemma wf_queue s L n : tasks_wf s L -> n ∈ L -> tasks_wf (set_queue s (task_queue s) (Some n)) L.
Proof.
  intros [H1 H2 H3 H4 H5 H6 H7 H8 H9 H10 H11 H12] Hn. constructor; try done; [by apply (ring_pool s)|].
  cbn. by intros c [= <-].
Qed.
Lemma wf_anchors s L a h : tasks_wf s L -> (forall x, a = Some x -> x ∈ L) -> tasks_wf (set_anchors s a h) L.
Proof. intros [H1 H2 H3 H4 H5 H6 H7 H8 H9 H10 H11 H12] Hn. constructor; try done. by apply (ring_pool s). Qed.
Lemma wf_deferred s L : tasks_wf s L -> tasks_wf (set_deferred s None) L.
Proof. intros [H1 H2 H3 H4 H5 H6 H7 H8 H9 H10 H11 H12]. constructor; try done. by apply (ring_pool s). Qed.

Lemma forest_pool s s' L :
  task_static_pool s' = task_static_pool s -> next_task_id s' = next_task_id s -> forest s L -> forest s' L.
Proof.
  intros Hp Hn [H1 H2]. assert (Ht : forall i, task_at s' i = task_at s i) by (intros i; unfold task_at; by rewrite Hp).
  constructor.
  - intros a Ha. apply (H1 a). revert Ha. apply tc_ext. intros x y (i & Hi & E1 & E2).
    rewrite Ht in E1, E2. exists i. done.
  - intros i Hi. rewrite Ht, Hn. auto.
Qed.

Definition ok_with (L : list nat) (s : tasks_t) : Prop := tasks_wf s L /\ forest s L.

Lemma ok_soft L s s' : soft s s' -> ok_with L s -> ok_with L s'.
Proof. intros Hs [H1 H2]. split; eauto using soft_wf, soft_forest. Qed.

Lemma dispatch_ok s L now n r : ok_with L s -> n ∈ L -> ok_with L (dispatch s now n r).
Proof.
  intros [Hwf Hfo] Hn. unfold dispatch. cbv zeta. set (s1 := set_queue s _ _).
  assert (H1 : ok_with L s1) by (split; [by apply wf_queue|by apply (forest_pool s)]).
  set (s2 := if _ && _ then _ else _).
  assert (H2 : ok_with L s2).
  { unfold s2. destruct (_ && _); [|done]. destruct H1. split; [apply wf_anchors; [done|]|by apply (forest_pool s1)].
    by intros x [= <-]. }
  eapply ok_soft; [|exact H2]. eapply soft_trans; [apply soft_state; [tauto|done]|apply soft_upd; intros; reflexivity].
Qed.

Lemma start_in s L c : tasks_wf s L -> c ∈ L -> scan_start s c ∈ L.
Proof.
  intros Hwf Hc. unfold scan_start. destruct (_ <=? _); [|done].
  destruct (g_rr_anchor s) eqn:E; [|done]. by apply (tw_anchor _ _ Hwf).
Qed.

Lemma choose_in s L now c :
  tasks_wf s L -> c ∈ L -> (forall o, task_sched_only s = Some o -> t_state (task_at s o) = TASK_READY -> o ∈ L) ->
  fst (choose s now c) ∈ L.
Proof.
  intros Hwf Hc Ho. unfold choose, state_is. cbv zeta.
  pose proof (select_in s L _ (tw_ring _ _ Hwf) (start_in s L c Hwf Hc)) as Hsel.
  destruct (task_sched_only s) as [o|], (g_rr_anchor s) as [a|] eqn:Ea;
    repeat case_bool_decide; repeat match goal with |- context [if ?e then _ else _] => destruct e end; try done;
    try (by apply Ho); by apply (tw_anchor _ _ Hwf).
Qed.

(** What the table looks like once the running task is charged or gone: the
    new current task is queued, no task changed its state, priority or type. *)
Definition face (t : task_t) := (t_state t, t_priority t, t_type t, t_boot_service t, t_last_scheduled_ticks t).

(** The task the decision is made for: the running one, or its successor in
    the queue when it has ended. *)
Definition hands_over (s : tasks_t) (c d : nat) : Prop :=
  if state_is (t_state (task_at s c)) TASK_TERMINATED then t_next (task_at s c) = Some d else d = c.

Record retired (s s' : tasks_t) : Prop := {
  re_ok : exists L c, ok_with L s' /\ current_task s' = Some c /\ c ∈ L;
  re_sub : forall i, i ∈ ring s' -> i ∈ ring s;
  re_kept : forall i, i ∈ ring s -> t_state (task_at s i) <> TASK_TERMINATED -> i ∈ ring s';
  re_face : keeps face s s';
  re_others : forall c, current_task s = Some c -> t_state (task_at s c) = TASK_TERMINATED -> c ∉ ring s';
  re_only : task_sched_only s' = task_sched_only s;
  re_anchor : forall n, g_rr_anchor s' = Some n -> g_rr_anchor s = Some n;
  re_resume : forall n, g_resume_after_high s' = Some n -> g_resume_after_high s = Some n;
  re_next : forall c d, current_task s = Some c -> current_task s' = Some d -> hands_over s c d
}.

Lemma unlink_face s x : keeps face s (unlink_task s x).
Proof.
  unfold unlink_task. destruct (task_queue s); [|apply keeps_refl]. cbv zeta. set (s1 := set_anchors s _ _).
  destruct (bool_decide (default x (t_next (task_at s1 x)) = x)); [intros i; reflexivity|].
  apply (keeps_trans face s (upd (upd s1 (default x (t_prev (task_at s1 x)))
    (fun t => with_next t (Some (default x (t_next (task_at s1 x)))))) (default x (t_next (task_at s1 x)))
    (fun t => with_prev t (Some (default x (t_prev (task_at s1 x))))))); [|intros i; reflexivity].
  apply (keeps_trans face s (upd s1 (default x (t_prev (task_at s1 x)))
    (fun t => with_next t (Some (default x (t_next (task_at s1 x))))))); [|apply keeps_upd; reflexivity].
  apply (keeps_trans face s s1); [intros i; reflexivity|apply keeps_upd; reflexivity].
Qed.

Lemma unlink_only s x : task_sched_only (unlink_task s x) = task_sched_only s.
Proof. unfold unlink_task. destruct (task_queue s); [|done]. cbv zeta. by destruct (bool_decide (default _ _ = x)). Qed.

Lemma unlink_current_some s x :
  current_task s = Some x -> is_Some (task_queue (unlink_task s x)) -> is_Some (task_queue s) ->
  is_Some (current_task (unlink_task s x)).
Proof.
  intros Hc Hq [h Eh]. revert Hq. unfold unlink_task. rewrite Eh. cbv zeta.
  destruct (bool_decide (default x _ = x)); [by intros [? ?]|]. intros _. cbn. rewrite bool_decide_true by done. eauto.
Qed.

Lemma unlink_anchors s x n :
  (g_rr_anchor (unlink_task s x) = Some n -> g_rr_anchor s = Some n) /\
  (g_resume_after_high (unlink_task s x) = Some n -> g_resume_after_high s = Some n).
Proof.
  unfold unlink_task. destruct (task_queue s); [|done]. cbv zeta.
  destruct (bool_decide (default x _ = x)); cbn; split; by case_bool_decide.
Qed.

Lemma unlink_current_next s L x d :
  ring_wf s L -> x ∈ L -> current_task s = Some x -> current_task (unlink_task s x) = Some d ->
  t_next (task_at s x) = Some d.
Proof.
  intros Hr Hx Hc. apply list_elem_of_split in Hx as (l1 & l2 & ->).
  destruct (ring_around _ _ _ _ Hr) as (_ & _ & HP).
  assert (exists n, t_next (task_at s x) = Some n) as [n Hn].
  { destruct (l2 ++ l1) as [|y R]; [destruct HP; eauto|]. destruct HP; eauto. }
  unfold unlink_task. rewrite (rw_head _ _ Hr). destruct (head _) eqn:Eh; [|by destruct l1]. cbv zeta.
  change (task_at (set_anchors s ?a ?b) x) with (task_at s x). rewrite Hn. cbn [from_option id].
  destruct (bool_decide (n = x)); [done|]. cbn. by rewrite bool_decide_true.
Qed.

Lemma wf_reap s L x :
  tasks_wf s L -> x ∉ L -> task_static_used s !! x = Some 1 -> tasks_wf (set_deferred s (Some x)) L.
Proof.
  intros [H1 H2 H3 H4 H5 H6 H7 H8 H9 H10 H11 H12] Hx Hu. constructor; try done; [by apply (ring_pool s)|].
  cbn. by intros d [= <-].
Qed.

Lemma retire_spec s L now c :
  ok_with L s -> current_task s = Some c ->
  match retire s now c with (true, s') => retired s s' | (false, s') => tasks_ok s' end.
Proof.
  intros [Hwf Hfo] Hc. pose proof (tw_current _ _ Hwf c Hc) as HcL. unfold retire. cbv zeta.
  destruct (state_is (t_state (task_at s c)) TASK_TERMINATED) eqn:Et; cbn [negb].
  - apply list_elem_of_split in HcL as (l1 & l2 & ->).
    pose proof (unlink_wf _ _ _ _ Hwf) as Hwf1. pose proof (not_in_rest _ _ _ _ Hwf) as Hx.
    set (s1 := unlink_task s c) in *.
    assert (Hok : ok_with (l1 ++ l2) (set_deferred s1 (Some c))).
    { split.
      - apply wf_reap; [done|done|]. unfold s1. rewrite (sr_used _ _ (unlink_rest s c)). apply (tw_used _ _ Hwf).
        apply elem_of_app. right. apply list_elem_of_here.
      - apply (forest_pool s1); [done..|]. destruct (unlink_rest s c) as [Hr _ _ _ Hn _].
        eapply forest_without; [exact Hwf|exact Hfo|exact Hn| |]; intros m _;
          destruct (inner_fields _ _ (Hr m)) as (E1 & _ & _ & _ & E2); [done|by left]. }
    destruct (bool_decide _) eqn:Eq; [|by exists (l1 ++ l2)].
    apply bool_decide_eq_true in Eq. cbn [task_queue set_deferred] in Eq.
    assert (Hqs : is_Some (task_queue s)) by (rewrite (rw_head _ _ (tw_ring _ _ Hwf)); destruct l1; eauto).
    destruct (unlink_current_some s c Hc Eq Hqs) as [c' Hc'].
    assert (Hring : ring (set_deferred s1 (Some c)) = l1 ++ l2) by apply ring_eq, Hok.
    constructor.
    + exists (l1 ++ l2), c'. split; [done|]. split; [exact Hc'|]. by apply (tw_current _ _ Hwf1).
    + intros i. rewrite Hring, (ring_eq _ _ (tw_ring _ _ Hwf)), !elem_of_app, elem_of_cons. tauto.
    + intros i Hi Hne. rewrite Hring. rewrite (ring_eq _ _ (tw_ring _ _ Hwf)) in Hi.
      unfold state_is in Et. apply bool_decide_eq_true in Et.
      rewrite !elem_of_app, elem_of_cons in *. destruct Hi as [Hi|[->|Hi]]; [by left|done|by right].
    + apply (keeps_trans face s s1); [apply unlink_face|]. intros i. reflexivity.
    + intros c0 Hc0 _. rewrite Hring. congruence.
    + apply unlink_only.
    + intros n. apply unlink_anchors.
    + intros n. apply unlink_anchors.
    + intros c0 d Hc0 Hd. assert (c0 = c) as -> by congruence. unfold hands_over. rewrite Et.
      eapply unlink_current_next; [apply Hwf| |exact Hc|exact Hd]. rewrite elem_of_app. right. apply list_elem_of_here.
  - assert (Hs : forall b : bool, soft s (if b then upd s c (fun t => with_run t (t_last_scheduled_ticks t)
        (u32 (t_run_ticks t + u32 (now - t_last_scheduled_ticks t))) (t_switch_count t)) else s)).
    { intros []; [apply soft_upd; intros; reflexivity|apply soft_refl]. }
    specialize (Hs (t_last_scheduled_ticks (task_at s c) <=? now)).
    constructor.
    + exists L, c. split; [eapply ok_soft; [exact Hs|done]|]. by rewrite (so_current _ _ (proj1 Hs)).
    + intros i. rewrite (ring_eq _ L), (ring_eq s L); [done|apply Hwf|eapply isoft_ring; [apply Hs|apply Hwf]].
    + intros i Hi _. rewrite (ring_eq s L) in Hi by apply Hwf.
      rewrite (ring_eq _ L); [done|]. eapply isoft_ring; [apply Hs|apply Hwf].
    + destruct (_ <=? now); [apply keeps_upd; reflexivity|apply keeps_refl].
    + intros c0 Hc0 Hterm. assert (c0 = c) as -> by congruence. unfold state_is in Et.
      by rewrite bool_decide_true in Et.
    + by destruct (_ <=? now).
    + intros n. by destruct (_ <=? now).
    + intros n. by destruct (_ <=? now).
    + intros c0 d Hc0 Hd. assert (c0 = c) as -> by congruence. unfold hands_over. rewrite Et.
      destruct (_ <=? now); cbn in Hd; congruence.
Qed.

(** ** The choice *)

(** A ready user task that waits for the processor. *)
Definition may_run (s : tasks_t) (j : nat) : Prop := j ∈ ring s /\ eligible s j = true.

Lemma select_urgent s L start j :
  ring_wf s L -> start ∈ L -> j ∈ L -> eligible s j = true ->
  eligible s (select_task s start) = true /\ t_priority (task_at s j) <= t_priority (task_at s (select_task s start)).
Proof.
  intros Hr Hst Hj He. rewrite <- (scan_order_in s L start j Hr Hst) in Hj.
  destruct (select_spec s start) as [(l1 & l2 & Hl & Hn & H1 & H2)|[H _]]; [|by rewrite H in He].
  split; [done|]. rewrite Hl, elem_of_app, elem_of_cons in Hj. destruct Hj as [Hj|[->|Hj]]; [|lia|auto].
  specialize (H1 j Hj He). lia.
Qed.

(** [n] lent the rest of its quantum to the high-priority task [d]: it is the
    task remembered by [task_yield_to_driver] and by the anchor, and its quantum
    is not spent at [now]. *)
Definition takes_turn_back (s : tasks_t) (now : Z) (d n : nat) : Prop :=
  OS_TASK_PRIORITY_HIGH <= t_priority (task_at s d) /\
  g_rr_anchor s = Some n /\ g_resume_after_high s = Some n /\
  u32 (now - t_last_scheduled_ticks (task_at s n)) < TIMER_PREEMPT_QUANTUM.

(** Either the choice is the most urgent, or it is a low-priority task that
    takes its turn back from a driver while only low-priority tasks wait. *)
Lemma choose_urgent s L now c j :
  tasks_wf s L -> c ∈ L -> task_sched_only s = None -> j ∈ L -> eligible s j = true ->
  let '(n, resume) := choose s now c in
  eligible s n = true /\
  if resume : bool
  then takes_turn_back s now c n /\
       t_priority (task_at s j) < OS_TASK_PRIORITY_HIGH /\ t_priority (task_at s n) < OS_TASK_PRIORITY_HIGH
  else t_priority (task_at s j) <= t_priority (task_at s n).
Proof.
  intros Hwf Hc Ho Hj He. unfold choose. rewrite Ho. cbv zeta.
  destruct (select_urgent s L (scan_start s c) j (tw_ring _ _ Hwf) (start_in s L c Hwf Hc) Hj He) as [H1 H2].
  destruct (g_rr_anchor s) as [a|] eqn:Ea; [|done].
  destruct (resumes_anchor s now c _ a) eqn:Er; [|done]. unfold resumes_anchor in Er.
  rewrite !andb_true_iff, bool_decide_eq_true in Er. destruct Er as (((((Hh & Hn) & Hrs) & _) & Hel) & Hq).
  split; [done|]. split; [split_and!; [lia|done|done|lia]|].
  destruct (select_urgent s L (scan_start s c) a (tw_ring _ _ Hwf) (start_in s L c Hwf Hc)
    (tw_anchor _ _ Hwf a Ea) Hel) as [_ H3]. lia.
Qed.

(** The state the choice is made in. *)
Definition at_choice (s : tasks_t) (c : nat) : tasks_t :=
  if state_is (t_state (task_at s c)) TASK_RUNNING then upd s c (fun t => with_state t TASK_READY) else s.

Lemma at_choice_soft s c : c ∈ ring s -> soft s (at_choice s c).
Proof. intros Hc. unfold at_choice. destruct (state_is _ _); [apply soft_state; [by left|done]|apply soft_refl]. Qed.

Lemma dispatch_at s now n r i :
  (n < length (task_static_pool s))%nat ->
  let t := task_at (dispatch s now n r) i in
  t_state t = (if decide (i = n) then TASK_RUNNING else t_state (task_at s i)) /\
  t_priority t = t_priority (task_at s i) /\ t_type t = t_type (task_at s i) /\
  t_boot_service t = t_boot_service (task_at s i).
Proof.
  intros Hn. unfold dispatch. cbv zeta. set (s1 := if _ && _ then _ else _).
  assert (Hp : task_static_pool s1 = task_static_pool s) by (unfold s1; by destruct (_ && _)).
  assert (Ht : task_at s1 i = task_at s i) by (unfold task_at; by rewrite Hp).
  assert (Ht' : task_at s1 n = task_at s n) by (unfold task_at; by rewrite Hp).
  assert (Hb : (n < length (task_static_pool s1))%nat) by (by rewrite Hp).
  rewrite task_at_upd by (by rewrite pool_upd). rewrite !task_at_upd by done.
  destruct (decide (n = n)) as [_|]; [|done]. destruct (decide (i = n)) as [->|]; cbn; rewrite ?Ht, ?Ht'; done.
Qed.

Lemma dispatch_sched s now n r :
  task_gets_waiter (dispatch s now n r) = task_gets_waiter s /\ current_task (dispatch s now n r) = Some n.
Proof. unfold dispatch. cbv zeta. by destruct (_ && _). Qed.

Lemma dispatch_eligible s now n r i :
  (n < length (task_static_pool s))%nat -> i <> n -> eligible (dispatch s now n r) i = eligible s i.
Proof.
  intros Hn Hi. destruct (dispatch_at s now n r i Hn) as (E1 & E2 & E3 & E4). rewrite decide_False in E1 by done.
  unfold eligible, task_sched_allowed. rewrite E1, E3, E4, (proj1 (dispatch_sched s now n r)). done.
Qed.

(** ** [schedule] *)

Definition single_running (s : tasks_t) : Prop :=
  forall i, i ∈ ring s -> t_state (task_at s i) = TASK_RUNNING -> current_task s = Some i.

Lemma face_state s s' : keeps face s s' -> forall i, t_state (task_at s' i) = t_state (task_at s i).
Proof. intros H i. specialize (H i). unfold face in H. congruence. Qed.

(** No task of the queue is running when the choice is made. *)
Lemma none_running s s' c :
  single_running s -> retired s s' -> current_task s = Some c -> current_task s' = Some c \/ t_state (task_at s c) = TASK_TERMINATED ->
  forall L c', ok_with L s' -> current_task s' = Some c' -> c' ∈ L ->
  forall i, i ∈ L -> t_state (task_at (at_choice s' c') i) <> TASK_RUNNING.
Proof.
  intros Hsr [Hok Hsub _ Hf Hoth _] Hc Hcase L c' [Hwf _] Hc' HcL i Hi Hrun.
  pose proof (slot_bound s' L Hwf c' HcL) as Hb.
  assert (Hst : t_state (task_at s' i) = TASK_RUNNING -> i = c').
  { intros H. rewrite (face_state _ _ Hf) in H. rewrite (ring_eq _ _ (tw_ring _ _ Hwf)) in Hsub.
    specialize (Hsr i (Hsub i Hi) H). destruct Hcase as [Hcase|Hcase]; congruence. }
  unfold at_choice in Hrun. destruct (state_is _ _) eqn:E.
  - rewrite task_at_upd in Hrun by done. case_decide; [done|]. auto.
  - rewrite (Hst Hrun) in Hrun. unfold state_is in E. by rewrite bool_decide_true in E.
Qed.

(** A queue whose only task has ended. *)
Lemma retire_halts s L now c s' :
  tasks_wf s L -> current_task s = Some c -> retire s now c = (false, s') ->
  L = [c] /\ t_state (task_at s c) = TASK_TERMINATED.
Proof.
  intros Hwf Hc. unfold retire. cbv zeta.
  destruct (state_is (t_state (task_at s c)) TASK_TERMINATED) eqn:Et; cbn [negb]; [|done].
  unfold state_is in Et. apply bool_decide_eq_true in Et. intros [= Hq _]. split; [|done].
  pose proof (tw_current _ _ Hwf c Hc) as HcL. apply list_elem_of_split in HcL as (l1 & l2 & ->).
  pose proof (unlink_wf _ _ _ _ Hwf) as Hwf1. apply bool_decide_eq_false in Hq. cbn [task_queue set_deferred] in Hq.
  rewrite (rw_head _ _ (tw_ring _ _ Hwf1)) in Hq. destruct l1, l2; try done; destruct Hq; eauto.
Qed.

Lemma retire_current s now c s' :
  current_task s = Some c -> retire s now c = (true, s') ->
  current_task s' = Some c \/ t_state (task_at s c) = TASK_TERMINATED.
Proof.
  intros Hc. unfold retire. cbv zeta.
  destruct (state_is (t_state (task_at s c)) TASK_TERMINATED) eqn:Et; cbn [negb].
  - unfold state_is in Et. apply bool_decide_eq_true in Et. by right.
  - intros [= <-]. left. by destruct (_ <=? now).
Qed.

(** The decision and the dispatch, from the state the choice is made in. *)
Lemma decision_spec s L now c :
  ok_with L s -> c ∈ L -> task_sched_only s = None ->
  (forall i, i ∈ L -> t_state (task_at s i) <> TASK_RUNNING) ->
  let '(n, resume) := choose s now c in
  let s' := dispatch s now n resume in
  ok_with L s' /\ current_task s' = Some n /\ n ∈ L /\
  (forall i, i ∈ L -> t_state (task_at s' i) = TASK_RUNNING <-> i = n) /\
  forall j, may_run s' j ->
    t_type (task_at s' n) = TASK_TYPE_USER /\
    (t_priority (task_at s' j) <= t_priority (task_at s' n) \/
     takes_turn_back s now c n /\
     t_priority (task_at s' j) < OS_TASK_PRIORITY_HIGH /\ t_priority (task_at s' n) < OS_TASK_PRIORITY_HIGH).
Proof.
  intros [Hwf Hfo] Hc Ho Hnr.
  pose proof (choose_in s L now c Hwf Hc ltac:(by rewrite Ho)) as Hn.
  pose proof (fun j => choose_urgent s L now c j Hwf Hc Ho) as Hu.
  destruct (choose s now c) as [n r]. cbn [fst] in Hn. cbv zeta. set (s' := dispatch s now n r).
  pose proof (slot_bound s L Hwf n Hn) as Hb.
  assert (Hok : ok_with L s') by (by apply dispatch_ok). split; [done|].
  split; [apply dispatch_sched|]. split; [done|]. split.
  - intros i Hi. unfold s'. rewrite (proj1 (dispatch_at s now n r i Hb)). case_decide; [done|].
    split; [|done]. intros H'. by destruct (Hnr i Hi).
  - intros j [Hj He]. rewrite (ring_eq _ _ (tw_ring _ _ (proj1 Hok))) in Hj.
    assert (j <> n).
    { intros ->. unfold eligible, s' in He. rewrite (proj1 (dispatch_at s now n r n Hb)), decide_True in He by done. done. }
    unfold s' in He. rewrite dispatch_eligible in He by done. destruct (Hu j Hj He) as [Hel Hpr].
    destruct (dispatch_at s now n r n Hb) as (_ & E2 & E3 & _). destruct (dispatch_at s now n r j Hb) as (_ & E2' & _ & _).
    unfold s'. rewrite E2, E2', E3. split; [|destruct r; [by right|by left]].
    unfold eligible, is_user in Hel. rewrite !andb_true_iff, bool_decide_eq_true in Hel. apply Hel.
Qed.

Lemma at_choice_anchors s c :
  g_rr_anchor (at_choice s c) = g_rr_anchor s /\ g_resume_after_high (at_choice s c) = g_resume_after_high s.
Proof. unfold at_choice. by destruct (state_is _ _). Qed.

Lemma turn_back_before s s2 now e d n :
  retired s s2 -> takes_turn_back (at_choice s2 e) now d n -> takes_turn_back s now d n.
Proof.
  intros Hr (H1 & H2 & H3 & H4).
  assert (Hf : forall i, t_priority (task_at (at_choice s2 e) i) = t_priority (task_at s i) /\
    t_last_scheduled_ticks (task_at (at_choice s2 e) i) = t_last_scheduled_ticks (task_at s i)).
  { intros i. pose proof (re_face _ _ Hr i) as Hi. unfold face in Hi.
    assert (Hk : keeps (fun t => (t_priority t, t_last_scheduled_ticks t)) s2 (at_choice s2 e)).
    { unfold at_choice. destruct (state_is _ _); [apply keeps_upd; reflexivity|apply keeps_refl]. }
    specialize (Hk i). cbn in Hk. split; congruence. }
  destruct (at_choice_anchors s2 e) as [E1 E2]. rewrite E1 in H2. rewrite E2 in H3.
  rewrite (proj1 (Hf d)) in H1. rewrite (proj2 (Hf n)) in H4.
  split_and!; [done|by apply (re_anchor _ _ Hr)|by apply (re_resume _ _ Hr)|done].
Qed.


(** ** Round robin *)

Definition user_at (s : tasks_t) (i : nat) : bool := is_user (t_type (task_at s i)).

(** The user tasks in the order of the scan from [c]. *)
Definition turns_from (s : tasks_t) (c : nat) : list nat := List.filter (user_at s) (scan_order s c).

(** Every user task is ready, with the same priority below high, but for the
    running one; nothing forces or holds back a task. *)
Record rotating (s : tasks_t) (c : nat) (p : Z) : Prop := {
  ro_ok : tasks_ok s;
  ro_current : current_task s = Some c;
  ro_running : t_state (task_at s c) = TASK_RUNNING;
  ro_user : user_at s c = true;
  ro_ready : forall i, i ∈ ring s -> user_at s i = true -> i <> c -> t_state (task_at s i) = TASK_READY;
  ro_prio : forall i, i ∈ ring s -> user_at s i = true -> t_priority (task_at s i) = p;
  ro_low : p < OS_TASK_PRIORITY_HIGH;
  ro_free : task_sched_only s = None /\ task_gets_waiter s = None /\ deferred_reap_task s = None
}.

Lemma scan_path s x l : path s x l x -> NoDup (x :: l) ->
  Forall (fun i => i < length (task_static_pool s))%nat (x :: l) -> scan_order s x = l ++ [x].
Proof.
  intros HP HN HF. unfold scan_order. rewrite (walk_path s x l x); [done|done|by apply NoDup_cons in HN as [? _]|].
  assert (length (x :: l) <= length (task_static_pool s))%nat; [|cbn in *; lia]. by apply nodup_bound.
Qed.

(** Scanning from the task chosen continues where the scan stopped. *)
Lemma scan_rotates s L c a n b :
  ring_wf s L -> c ∈ L -> scan_order s c = a ++ n :: b -> scan_order s n = b ++ a ++ [n].
Proof.
  intros Hr (l1 & l2 & ->)%list_elem_of_split He. destruct (ring_around _ _ _ _ Hr) as (HF & HN & HP).
  rewrite (scan_path s c _ HP HN HF) in He. destruct b as [|y b _] using rev_ind.
  - change (a ++ [n]) with (a ++ [n]) in He. apply app_inj_tail in He as [<- <-].
    by rewrite (scan_path s c _ HP HN HF).
  - replace (a ++ n :: b ++ [y]) with ((a ++ n :: b) ++ [y]) in He by (by rewrite <- app_assoc).
    apply app_inj_tail in He as [He <-]. rewrite He in HP, HN, HF. apply path_rotate in HP.
    assert (Hperm : c :: a ++ n :: b ≡ₚ n :: b ++ c :: a) by exact (Permutation_app_comm (c :: a) (n :: b)).
    rewrite Hperm in HN, HF. rewrite (scan_path s n (b ++ c :: a)); [by rewrite <- !app_assoc|done..].
Qed.

Lemma first_user (P : nat -> bool) l1 x l2 n U :
  (forall j, j ∈ l1 -> P j = false) -> P x = true -> List.filter P (l1 ++ x :: l2) = n :: U ->
  x = n /\ U = List.filter P l2 /\ List.filter P l1 = [].
Proof.
  intros H1 Hx Hf. assert (Hnil : List.filter P l1 = []).
  { clear -H1. induction l1 as [|y l1 IH]; [done|]. cbn [List.filter].
    rewrite (H1 y) by apply list_elem_of_here. apply IH. intros j Hj. apply H1. by apply list_elem_of_further. }
  rewrite List.filter_app, Hnil in Hf. cbn [app List.filter] in Hf. rewrite Hx in Hf. by injection Hf as -> <-.
Qed.

(** The task chosen when all user tasks are ready and equal: the next in order. *)
Lemma choose_next s L c p now n U :
  tasks_wf s L -> c ∈ L -> task_sched_only s = None -> t_priority (task_at s c) < OS_TASK_PRIORITY_HIGH ->
  (forall i, i ∈ L -> eligible s i = user_at s i) ->
  (forall i, i ∈ L -> user_at s i = true -> t_priority (task_at s i) = p) ->
  turns_from s c = n :: U ->
  choose s now c = (n, false) /\ n ∈ L /\ user_at s n = true /\ turns_from s n = U ++ [n].
Proof.
  intros Hwf Hc Ho Hlow Hel Hp HU. pose proof (tw_ring _ _ Hwf) as Hr.
  assert (Hin : forall j, j ∈ scan_order s c -> j ∈ L) by (intros j; by apply scan_order_in).
  assert (Hsel : wins s (scan_order s c) (select_task s c)).
  { destruct (select_spec s c) as [H|[H _]]; [done|]. exfalso.
    assert (Hn : n ∈ turns_from s c) by (rewrite HU; apply list_elem_of_here).
    apply list_elem_of_In, List.filter_In in Hn as [Hn1 Hn2]. apply list_elem_of_In in Hn1.
    rewrite <- (Hel n (Hin n Hn1)), (H n Hn1) in Hn2. done. }
  destruct Hsel as (l1 & l2 & Hl & He & H1 & _). set (m := select_task s c) in *.
  assert (Hm : m ∈ L) by (apply Hin; rewrite Hl, elem_of_app; right; apply list_elem_of_here).
  rewrite (Hel m Hm) in He. unfold turns_from in HU. rewrite Hl in HU.
  assert (Hno : forall j, j ∈ l1 -> user_at s j = false).
  { intros j Hj. assert (HjL : j ∈ L) by (apply Hin; rewrite Hl, elem_of_app; by left).
    destruct (user_at s j) eqn:Ej; [|done]. exfalso. pose proof (Hel j HjL) as Hej. rewrite Ej in Hej.
    specialize (H1 j Hj Hej). rewrite (Hp j HjL Ej), (Hp m Hm He) in H1. lia. }
  destruct (first_user _ _ _ _ _ _ Hno He HU) as (Hmn & -> & Hnil).
  assert (Hch : choose s now c = (m, false)).
  { unfold choose, scan_start. rewrite (proj2 (Z.leb_gt _ _) Hlow), Ho. fold m.
    destruct (g_rr_anchor s) as [x|]; [|done]. unfold resumes_anchor. by rewrite (proj2 (Z.leb_gt _ _) Hlow). }
  rewrite Hch, <- Hmn. split; [done|]. split; [done|]. split; [done|]. unfold turns_from.
  rewrite (scan_rotates s L c l1 m l2 Hr Hc Hl), !List.filter_app, Hnil. cbn [List.filter app]. by rewrite He.
Qed.

Lemma scan_same s s' L x : ring_wf s L -> ring_wf s' L -> x ∈ L -> scan_order s' x = scan_order s x.
Proof.
  intros Hr Hr' (l1 & l2 & ->)%list_elem_of_split. by rewrite (scan_order_eq _ _ _ _ Hr), (scan_order_eq _ _ _ _ Hr').
Qed.

Lemma turns_same s s' L x :
  ring_wf s L -> ring_wf s' L -> x ∈ L -> (forall i, t_type (task_at s' i) = t_type (task_at s i)) ->
  turns_from s' x = turns_from s x.
Proof.
  intros Hr Hr' Hx Ht. unfold turns_from. rewrite (scan_same s s' L x Hr Hr' Hx).
  apply List.filter_ext. intros i. unfold user_at. by rewrite Ht.
Qed.

(** The table at the moment of the choice, and its links to the one before. *)
Definition free_flags (s : tasks_t) := (task_sched_only s, task_gets_waiter s, deferred_reap_task s).

Lemma ring_upd s i f : (forall t, core (f t) = core t) -> ring (upd s i f) = ring s.
Proof. intros Hf. by apply isoft_walk, isoft_upd. Qed.

Lemma rotating_prologue k now c p vmm_pool :
  rotating (k_tasks k) c p -> g_rpc_waiter (k_bridge k) = NULL ->
  let s := k_tasks k in
  let s1 := k_tasks (before_choice vmm_pool (Some ata_rpc_sched_hook) k now) in
  k_bridge (before_choice vmm_pool (Some ata_rpc_sched_hook) k now) = k_bridge k /\
  current_task s1 = Some c /\
  exists s2, retire s1 now c = (true, s2) /\ current_task s2 = Some c /\
    t_state (task_at s2 c) = TASK_RUNNING /\
    let s3 := upd s2 c (fun t => with_state t TASK_READY) in
    soft s s3 /\ free_flags s3 = free_flags s /\
    forall i, t_type (task_at s3 i) = t_type (task_at s i) /\ t_priority (task_at s3 i) = t_priority (task_at s i) /\
      t_state (task_at s3 i) = if decide (i = c) then TASK_READY else t_state (task_at s i).
Proof.
  intros [(L & Hwf & _) Hcur Hrun _ _ _ _ (_ & _ & Hdef)] Hw s s1. fold s in Hwf, Hcur, Hrun, Hdef.
  assert (Hbc : before_choice vmm_pool (Some ata_rpc_sched_hook) k now = set_tasks k (set_deferred s None)).
  { unfold before_choice, task_reap_deferred. fold s. rewrite Hdef. cbn [task_release_detached].
    unfold ata_rpc_sched_hook. cbn [k_bridge set_tasks]. by rewrite Hw. }
  assert (Hs1 : s1 = set_deferred s None) by (unfold s1; by rewrite Hbc).
  split; [by rewrite Hbc|].
  assert (H01 : soft s s1).
  { rewrite Hs1. split; [|split; [intros i; reflexivity|split; by intros i]].
    constructor; try reflexivity; [intros i; reflexivity|]. by rewrite Hdef. }
  assert (Hf1 : free_flags s1 = free_flags s) by (rewrite Hs1; unfold free_flags; cbn; by rewrite Hdef).
  assert (Ht : forall i, task_at s1 i = task_at s i) by (rewrite Hs1; done).
  pose proof (slot_bound s L Hwf c (tw_current _ _ Hwf c Hcur)) as Hb.
  assert (HcR : c ∈ ring s) by (rewrite (ring_eq _ _ (tw_ring _ _ Hwf)); by apply (tw_current _ _ Hwf)).
  assert (Hb1 : (c < length (task_static_pool s1))%nat) by (by rewrite Hs1).
  split; [by rewrite Hs1|]. unfold retire. rewrite Ht, Hrun. cbn [negb state_is bool_decide decide_rel].
  replace (state_is TASK_RUNNING TASK_TERMINATED) with false by reflexivity. cbn [negb].
  eexists. split; [reflexivity|]. destruct (t_last_scheduled_ticks (task_at s c) <=? now).
  - split; [by rewrite Hs1|]. split; [rewrite task_at_upd, decide_True by done; cbn; by rewrite Ht|].
    split; [eapply soft_trans; [exact H01|]; eapply soft_trans; [|apply soft_state; [left|done]]; [apply soft_upd; intros; reflexivity|]|].
    { rewrite ring_upd by reflexivity. by rewrite (isoft_walk _ _ (proj1 H01)). }
    split; [exact Hf1|]. intros i. rewrite !task_at_upd by (by rewrite ?pool_upd). rewrite (decide_True (P := c = c)) by done.
    destruct (decide (i = c)) as [->|]; cbn; rewrite ?Ht; done.
  - split; [by rewrite Hs1|]. split; [by rewrite Ht|].
    split; [eapply soft_trans; [exact H01|]; apply soft_state; [|done]; left; by rewrite (isoft_walk _ _ (proj1 H01))|].
    split; [exact Hf1|]. intros i. rewrite task_at_upd by done.
    destruct (decide (i = c)) as [->|]; cbn; rewrite ?Ht; done.
Qed.

(** One turn: the next user task runs, and the rotation goes on from it. *)
Lemma rotating_step vmm_pool k now c p n U :
  rotating (k_tasks k) c p -> g_rpc_waiter (k_bridge k) = NULL -> turns_from (k_tasks k) c = n :: U ->
  let '(r, k') := schedule vmm_pool (Some ata_rpc_sched_hook) k now in
  r = SchedJumps n /\ g_rpc_waiter (k_bridge k') = NULL /\ rotating (k_tasks k') n p /\ turns_from (k_tasks k') n = U ++ [n].
Proof.
  intros Hro Hw HU. destruct (rotating_prologue k now c p vmm_pool Hro Hw) as (Hbr & Hc1 & s2 & Hret & Hc2 & Hrun2 & Hsoft & Hfree & Ht).
  destruct Hro as [(L & Hwf & Hfo) Hcur Hrun Huser Hready Hprio Hlow (Ho & Hg & Hd)].
  set (s3 := upd s2 c _) in *. pose proof (tw_current _ _ Hwf c Hcur) as HcL.
  rewrite (ring_eq _ _ (tw_ring _ _ Hwf)) in Hready, Hprio.
  assert (Hok3 : ok_with L s3) by (eapply ok_soft; [exact Hsoft|done]).
  assert (Ho3 : task_sched_only s3 = None) by (rewrite <- Ho; exact (f_equal (fun x => fst (fst x)) Hfree)).
  assert (Hg3 : task_gets_waiter s3 = None) by (rewrite <- Hg; exact (f_equal (fun x => snd (fst x)) Hfree)).
  assert (Hd3 : deferred_reap_task s3 = None) by (rewrite <- Hd; exact (f_equal snd Hfree)).
  assert (Hu3 : forall i, user_at s3 i = user_at (k_tasks k) i) by (intros i; unfold user_at; by rewrite (proj1 (Ht i))).
  assert (Hst3 : forall i, i ∈ L -> user_at s3 i = true -> t_state (task_at s3 i) = TASK_READY).
  { intros i Hi Hui. rewrite (proj2 (proj2 (Ht i))). case_decide; [done|]. rewrite Hu3 in Hui. auto. }
  assert (Hel : forall i, i ∈ L -> eligible s3 i = user_at s3 i).
  { intros i Hi. unfold eligible, task_sched_allowed. rewrite Hg3, andb_true_r. fold (user_at s3 i).
    destruct (user_at s3 i) eqn:E; [|apply andb_false_r]. unfold state_is. by rewrite (Hst3 i Hi E), bool_decide_true. }
  assert (Hp3 : forall i, i ∈ L -> user_at s3 i = true -> t_priority (task_at s3 i) = p).
  { intros i Hi Hui. rewrite (proj1 (proj2 (Ht i))). rewrite Hu3 in Hui. auto. }
  assert (HU3 : turns_from s3 c = n :: U).
  { rewrite <- HU. apply (turns_same _ _ L); [apply Hwf|apply Hok3|done|]. intros i. apply Ht. }
  assert (Hlow3 : t_priority (task_at s3 c) < OS_TASK_PRIORITY_HIGH) by (rewrite (Hp3 c HcL ltac:(by rewrite Hu3)); done).
  destruct (choose_next s3 L c p now n U (proj1 Hok3) HcL Ho3 Hlow3 Hel Hp3 HU3) as (Hch & Hn & Hun & HUn).
  unfold schedule. rewrite Hc1, Hret, Hc2. cbn [from_option id]. rewrite Hrun2.
  replace (state_is TASK_RUNNING TASK_RUNNING) with true by reflexivity. fold s3. rewrite Hch. cbv zeta.
  cbn [k_tasks k_bridge set_vmm set_tasks]. split; [done|]. split; [by rewrite Hbr|]. set (s' := dispatch s3 now n false).
  pose proof (slot_bound s3 L (proj1 Hok3) n Hn) as Hb. pose proof (dispatch_ok s3 L now n false Hok3 Hn) as Hok'. fold s' in Hok'.
  assert (Hu' : forall i, user_at s' i = user_at s3 i).
  { intros i. unfold user_at, s'. by rewrite (proj1 (proj2 (proj2 (dispatch_at s3 now n false i Hb)))). }
  split; [|rewrite <- HUn; apply (turns_same _ _ L); [apply Hok3|apply Hok'|done|]; intros i; apply dispatch_at, Hb].
  pose proof (ring_eq _ _ (tw_ring _ _ (proj1 Hok'))) as Hring.
  constructor; rewrite ?Hring, ?Hu'; try done.
  - by exists L.
  - apply dispatch_sched.
  - unfold s'. by rewrite (proj1 (dispatch_at s3 now n false n Hb)), decide_True.
  - intros i Hi Hui Hne. unfold s'. rewrite (proj1 (dispatch_at s3 now n false i Hb)), decide_False by done.
    rewrite Hu' in Hui. auto.
  - intros i Hi Hui. unfold s'. rewrite (proj1 (proj2 (dispatch_at s3 now n false i Hb))). rewrite Hu' in Hui. auto.
  - unfold s', dispatch. cbv zeta. by destruct (_ && _).
Qed.

(** The tasks the processor is given to by successive calls at the given
    times. *)
Fixpoint run_turns (vmm_pool : nat -> Z) (k : kernel_t) (nows : list Z) : list sched_result * kernel_t :=
  match nows with
  | [] => ([], k)
  | now :: nows =>
      let '(r, k) := schedule vmm_pool (Some ata_rpc_sched_hook) k now in
      let '(rs, k) := run_turns vmm_pool k nows in (r :: rs, k)
  end.

Lemma run_rotates vmm_pool nows k c p U V :
  rotating (k_tasks k) c p -> g_rpc_waiter (k_bridge k) = NULL -> turns_from (k_tasks k) c = U ++ V -> length nows = length U ->
  fst (run_turns vmm_pool k nows) = SchedJumps <$> U.
Proof.
  revert nows k c V. induction U as [|n U IH]; intros [|now nows] k c V Hro Hw HU Hl; try done.
  cbn [run_turns]. pose proof (rotating_step vmm_pool k now c p n (U ++ V) Hro Hw HU) as Hstep.
  destruct (schedule vmm_pool _ k now) as [r k1]. destruct Hstep as (-> & Hw1 & Hro1 & HU1).
  rewrite <- app_assoc in HU1. specialize (IH nows k1 n (V ++ [n]) Hro1 Hw1 HU1 ltac:(cbn in Hl; lia)).
  destruct (run_turns vmm_pool k1 nows) as [rs k2]. cbn [fst] in *. by rewrite IH.
Qed.

