(* ===== verification/TaskSteps.v ===== *)
(** * Every reachable task table

    The operations of the previous files as steps of one kernel: whatever
    sequence of them runs after [tasking_init], the queue is well formed, PIDs and
    identities are what the service registry relies on, and the parents form a
    forest. *)

From Stdlib Require Import ZArith Lia String.
From stdpp Require Import base numbers option tactics list relations.
From S2P Require Import Prelude Bytes Names Ipc IpcWait Pmm Vmm RegistryState Journal Registry RegistryNames RegistryCaps OutCapture TaskState TaskQueue Task TaskSched SysProc TaskInv TaskTable TaskSchedInv.

(** ** The first task *)

(** The static variables before [tasking_init]. *)
Definition boot_tasks : tasks_t :=
  mk_tasks (replicate 16 zero_task) (replicate 16 0) (replicate 16 0) (replicate 16 0) 0 0 0
    None None None None 0 None None None.

Lemma init_ok s dir now :
  length (task_static_pool s) = 16%nat -> 0 <= next_task_id s -> g_rr_anchor s = None ->
  tasks_ok (tasking_init s dir now).
Proof.
  intros Hp Hn Ha. unfold tasking_init, task_static_acquire.
  set (s0 := mk_tasks _ _ _ _ _ _ _ _ _ _ _ _ _ _ _).
  replace (find_slot (fun u => u =? 0) (task_static_used s0)) with (Some 0%nat) by reflexivity. cbv zeta.
  set (s1 := set_next_id _ _). set (s2 := upd s1 0%nat _).
  assert (Hb : (0 < length (task_static_pool s1))%nat) by (cbn; rewrite length_insert, Hp; lia).
  assert (Ht : task_at s2 0%nat = _) by (apply task_at_upd; done). rewrite decide_True in Ht by done.
  assert (Hlen : length (task_static_pool s2) = 16%nat) by (unfold s2; rewrite pool_upd; cbn; by rewrite length_insert).
  assert (Hkey : t_identity_key (task_at s1 0%nat) = 1).
  { unfold s1, task_at. cbn. by rewrite list_lookup_total_insert_eq by (rewrite Hp; lia). }
  exists [0%nat]. split; constructor.
  - constructor; [done|cbn -[upd s2]; rewrite Hlen; repeat constructor; lia|repeat constructor; by intros ?%elem_of_nil|].
    cbn [path]. unfold tnext, tprev. change (task_at (set_queue s2 _ _) 0%nat) with (task_at s2 0%nat). by rewrite Ht.
  - exact Hlen.
  - done.
  - by intros i ->%list_elem_of_singleton.
  - intros i ->%list_elem_of_singleton. change (task_at (set_queue s2 _ _) 0%nat) with (task_at s2 0%nat).
    rewrite Ht. cbn [t_sequence t_generation t_identity_key]. rewrite Hkey. lia.
  - done.
  - apply NoDup_singleton.
  - intros i ->%list_elem_of_singleton. change (task_at (set_queue s2 _ _) 0%nat) with (task_at s2 0%nat).
    rewrite Ht. cbn. lia.
  - cbn. lia.
  - cbn. intros c [= <-]. apply list_elem_of_here.
  - cbn. by rewrite Ha.
  - done.
  - set (s3 := set_queue s2 _ _). assert (Hd : forall a d, parent_of s3 [0%nat] a d -> 0 <= a /\ d = -1).
    { intros a d (w & ->%list_elem_of_singleton & <- & <-). change (task_at s3 0%nat) with (task_at s2 0%nat).
      rewrite Ht. cbn. lia. }
    intros a Hcyc. inversion Hcyc as [? ? Hs|? z ? Hs Hcyc']; subst; apply Hd in Hs as [H0 ->]; [lia|].
    inversion Hcyc' as [? ? Hs|? z ? Hs _]; subst; apply Hd in Hs as [H1 _]; lia.
  - intros i ->%list_elem_of_singleton. change (task_at (set_queue s2 _ _) 0%nat) with (task_at s2 0%nat).
    rewrite Ht. cbn. lia.
Qed.

(** ** System calls *)
Section Calls.
Context `{K : KernelHooks}.

Lemma soft_notify_watcher name o n r payload k pid :
  soft (k_tasks k) (k_tasks (notify_watcher name o n r payload k pid)).
Proof.
  unfold notify_watcher. destruct (live_user _ _) as [w|]; [|apply soft_refl].
  destruct (service_registry_notify_record _ _ _ _ _ _ _) as [[rc0 sq] r0].
  destruct (ipc_endpoint_send _ _ _) as [rc e]. set (k1 := kupd _ w _).
  assert (H1 : soft (k_tasks k) (k_tasks k1)) by (apply soft_upd; intros; reflexivity).
  destruct (rc =? 0); [eapply soft_trans; [exact H1|apply soft_queued]|].
  destruct (service_registry_ipc_spill_push _ _ _) as [rc' r'].
  destruct (rc' =? 0); [|exact H1]. eapply soft_trans; [exact H1|apply soft_queued].
Qed.

Lemma soft_notify_change k name o n r : soft (k_tasks k) (k_tasks (service_notify_change k name o n r)).
Proof.
  unfold service_notify_change. destruct (os_service_make_event _ _ _ _ _) as [[| |] [payload|]]; try apply soft_refl.
  destruct (service_registry_collect_watchers _ _ _ _) as [count [watchers|]]; [|apply soft_refl].
  destruct (count <? 0); [apply soft_refl|]. generalize (take (Z.to_nat count) watchers). intros l.
  revert k. induction l as [|pid l IH]; intros k; [apply soft_refl|]. cbn [fold_left].
  eapply soft_trans; [apply soft_notify_watcher|apply IH].
Qed.

Lemma soft_notify_all l k pid reason :
  soft (k_tasks k) (k_tasks (fold_left (fun k e => service_notify_change k (e_name e) pid 0 reason) l k)).
Proof.
  revert k. induction l as [|e l IH]; intros k; [apply soft_refl|]. cbn [fold_left].
  eapply soft_trans; [apply soft_notify_change|apply IH].
Qed.

Lemma soft_purge_owner k name pid : soft (k_tasks k) (k_tasks (purge_owner k name pid)).
Proof. unfold purge_owner. apply (soft_notify_change (set_registry k _)). Qed.

Lemma boot_driver_tasks k pid : k_tasks (note_boot_driver k pid) = k_tasks k.
Proof. unfold note_boot_driver. by destruct (_ && _). Qed.

Lemma soft_register k name : soft (k_tasks k) (k_tasks (snd (sys_service_register k name))).
Proof.
  unfold sys_service_register. destruct (user_caller k) as [c|]; [|apply soft_refl].
  destruct (_ =? 0); [apply soft_refl|]. destruct (service_registry_lookup _ _) as [owner r].
  set (k1 := set_registry k r). set (p := if _ && _ then _ else _).
  assert (H1 : soft (k_tasks k) (k_tasks (snd p))).
  { unfold p. destruct (_ && _); [exact (soft_purge_owner k1 name owner)|apply soft_refl]. }
  clearbody p. destruct p as [own k2]. cbn [snd] in H1. destruct (service_registry_register _ _ _) as [rc r2]. cbv zeta.
  cbn [snd]. set (k3 := if _ && _ then service_notify_change _ _ _ _ _ else _).
  assert (H3 : soft (k_tasks k) (k_tasks k3)).
  { eapply soft_trans; [exact H1|]. unfold k3. destruct (_ && _); [apply (soft_notify_change (set_registry k2 r2))|apply soft_refl]. }
  clearbody k3. destruct (_ && _); [rewrite boot_driver_tasks|]; done.
Qed.

Lemma soft_lookup k name : soft (k_tasks k) (k_tasks (snd (sys_service_lookup k name))).
Proof.
  unfold sys_service_lookup. destruct (service_registry_lookup _ _) as [owner r].
  destruct (owner <? 0); [apply soft_refl|]. destruct (bool_decide _); [apply soft_refl|].
  apply (soft_purge_owner (set_registry k r)).
Qed.

Lemma soft_unregister k name : soft (k_tasks k) (k_tasks (snd (sys_service_unregister k name))).
Proof.
  unfold sys_service_unregister. destruct (user_caller k) as [c|]; [|apply soft_refl].
  destruct (service_registry_remove _ _ _) as [rc r]. cbn [snd]. destruct (rc =? 0); [|apply soft_refl].
  apply (soft_notify_change (set_registry k r)).
Qed.

Lemma soft_grant k name pid : soft (k_tasks k) (k_tasks (snd (sys_service_grant k name pid))).
Proof.
  unfold sys_service_grant. destruct (user_caller k) as [c|]; [|apply soft_refl].
  destruct (live_user _ _) as [t|]; [|apply soft_refl]. destruct (_ =? 0); [apply soft_refl|].
  destruct (service_registry_grant _ _ _ _) as [rc r]. cbn [snd]. destruct (rc =? 0); [|apply soft_refl].
  apply (soft_notify_change (set_registry k r)).
Qed.

Lemma backend_tasks k pid act : k_tasks (snd (backend_call k pid act)) = k_tasks k.
Proof.
  unfold backend_call. destruct (user_caller k); [|done]. destruct (live_user _ _); [|done].
  by destruct (act _ _).
Qed.
End Calls.

(** ** The end of the current task *)

Lemma reparent_ok s x : x ∈ ring s -> tasks_ok s -> tasks_ok (task_reparent_children s (Some x)).
Proof.
  intros Hx (L & Hwf & [Hac Hold]). pose proof (tw_ring _ _ Hwf) as Hr. rewrite (ring_eq _ _ Hr) in Hx.
  unfold task_reparent_children. rewrite (ring_eq _ _ Hr).
  change (fold_left _ _ s) with (fold_left (reparent_one x) L s).
  destruct (reparent_fold x L s s (rw_nodup _ _ Hr) (isoft_refl s) eq_refl (rw_slots _ _ Hr)) as [H1 H2].
  set (s' := fold_left _ L s) in *. clearbody s'. exists L. split; [by eapply isoft_wf|].
  assert (Hpar : forall m, t_parent_pid (task_at s' m) = t_parent_pid (task_at s m) \/
    t_parent_pid (task_at s m) = t_id (task_at s x) /\ t_parent_pid (task_at s' m) = t_parent_pid (task_at s x)).
  { intros m. rewrite H2. case_decide; [right|left]; naive_solver. }
  constructor.
  - intros a Ha. apply (Hac a). revert Ha. apply tc_flat. intros c b (m & Hm & <- & <-).
    rewrite (isoft_id _ _ m H1). destruct (Hpar m) as [->|[E ->]].
    + apply tc_once. exists m. auto.
    + eapply tc_l; [exists m; auto|]. rewrite E. apply tc_once. exists x. auto.
  - intros m Hm. rewrite (so_next _ _ H1). destruct (Hpar m) as [->|[_ ->]]; auto.
Qed.

Lemma ring_soft s s' : soft s s' -> tasks_ok s -> ring s' = ring s.
Proof.
  intros Hs (L & Hwf & _). rewrite (ring_eq s L (tw_ring _ _ Hwf)). apply ring_eq.
  eapply isoft_ring; [apply Hs|apply Hwf].
Qed.

(** No queued task keeps the ended one as its parent. *)
Lemma orphans_adopted s L x :
  tasks_wf s L -> forest s L -> x ∈ L ->
  let s' := task_reparent_children s (Some x) in
  ring s' = L /\ t_id (task_at s' x) = t_id (task_at s x) /\
  forall m, m ∈ L -> t_parent_pid (task_at s' m) <> t_id (task_at s x).
Proof.
  intros Hwf [Hac _] Hx. pose proof (tw_ring _ _ Hwf) as Hr. cbv zeta. unfold task_reparent_children.
  rewrite (ring_eq _ _ Hr). change (fold_left _ _ s) with (fold_left (reparent_one x) L s).
  destruct (reparent_fold x L s s (rw_nodup _ _ Hr) (isoft_refl s) eq_refl (rw_slots _ _ Hr)) as [H1 H2].
  split; [apply ring_eq; by eapply isoft_ring|]. split; [by apply isoft_id|].
  assert (Hself : t_parent_pid (task_at s x) <> t_id (task_at s x)).
  { intros E. apply (Hac (t_id (task_at s x))), tc_once. exists x. auto. }
  intros m Hm. rewrite H2. case_decide as E; [done|]. intros E'. apply E. split; [done|]. split; [|done].
  intros ->. done.
Qed.

(** ** Tables that only gain tasks *)

Definition ident (t : task_t) := (t_id t, t_sequence t, t_generation t, t_identity_key t).

Record grown (s s' : tasks_t) : Prop := {
  gr_ring : forall i, i ∈ ring s -> i ∈ ring s';
  gr_ident : forall i, i ∈ ring s -> ident (task_at s' i) = ident (task_at s i);
  gr_spares : forall i, i ∈ ring s -> t_type (task_at s' i) = t_type (task_at s i) /\
    (t_state (task_at s i) <> TASK_TERMINATED -> t_state (task_at s' i) <> TASK_TERMINATED);
  gr_current : current_task s' = current_task s
}.

Lemma grown_refl s : grown s s.
Proof. by constructor. Qed.
Lemma grown_trans s1 s2 s3 : grown s1 s2 -> grown s2 s3 -> grown s1 s3.
Proof.
  intros [A B D C] [A' B' D' C']. constructor; [auto| | |congruence]; intros i Hi.
  - by rewrite B', B by auto.
  - destruct (D i Hi) as [E1 H1], (D' i (A i Hi)) as [E2 H2]. split; [congruence|auto].
Qed.
Lemma grown_soft s s' : soft s s' -> grown s s'.
Proof.
  intros (Hs & _ & _ & Hsp). constructor; [by rewrite (isoft_walk _ _ Hs)| |intros i _; apply Hsp|apply (so_current _ _ Hs)].
  intros i _. pose proof (so_core _ _ Hs i) as H. unfold core, ident in *. congruence.
Qed.
Lemma grown_refused s s' : refused s s' -> grown s s'.
Proof. intros (_ & H1 & H2 & H3 & _). constructor; [by rewrite H2|intros i Hi; by rewrite H3..|done]. Qed.
Lemma grown_created s s' i : created s s' i -> grown s s'.
Proof.
  intros [(L & Hwf & Hwf' & _ & Hi) _ Hc Ho]. rewrite <- (ring_eq _ _ (tw_ring _ _ Hwf)) in Hi.
  constructor; [|intros m Hm; assert (Hne : m <> i) by (by intros ->)..|done].
  - intros m. rewrite (ring_eq _ _ (tw_ring _ _ Hwf)), (ring_eq _ _ (tw_ring _ _ Hwf')), elem_of_app. by left.
  - pose proof (Ho m Hne) as H. unfold inner, ident in *. congruence.
  - pose proof (Ho m Hne) as H. unfold inner in H. split; [congruence|]. intros Hst. congruence.
Qed.

(** An identity known before is known afterwards. *)
Lemma grown_get s s' pid i :
  tasks_ok s -> tasks_ok s' -> grown s s' -> get_task_by_id s pid = Some i -> get_task_by_id s' pid = Some i.
Proof.
  intros (L & Hwf & _) (L' & Hwf' & _) [Hr Hi _] [H1 H2]%(get_task_spec s L Hwf). apply (get_task_spec s' L' Hwf').
  rewrite <- (ring_eq _ _ (tw_ring _ _ Hwf)) in H1. rewrite <- (ring_eq _ _ (tw_ring _ _ Hwf')).
  split; [auto|]. specialize (Hi i H1). unfold ident in Hi. congruence.
Qed.

Lemma grown_live s s' pid :
  tasks_ok s -> tasks_ok s' -> grown s s' -> is_Some (live_user s pid) -> is_Some (live_user s' pid).
Proof.
  intros Hs Hs' Hg. unfold live_user, user_parent. destruct (get_task_by_id s pid) as [i|] eqn:E; [|by intros [? ?]].
  rewrite (grown_get s s' pid i Hs Hs' Hg E). destruct (gr_spares _ _ Hg i (get_ring _ _ _ E)) as [-> Hst].
  unfold state_is. destruct (is_user _); [|by intros [? ?]]. cbn [andb].
  case_bool_decide as E1; [by intros [? ?]|]. intros _. rewrite (bool_decide_false _ (Hst E1)). eauto.
Qed.

(** A kernel step that keeps the table in order and every task of it. *)
Definition keeps_table (k k' : kernel_t) : Prop :=
  table_ok (k_tasks k) -> table_ok (k_tasks k') /\ grown (k_tasks k) (k_tasks k').

Lemma keeps_table_refl k : keeps_table k k.
Proof. intros H. split; [done|apply grown_refl]. Qed.
Lemma keeps_table_trans k1 k2 k3 : keeps_table k1 k2 -> keeps_table k2 k3 -> keeps_table k1 k3.
Proof.
  intros H1 H2 Hok. destruct (H1 Hok) as [Hok1 Hg1]. destruct (H2 Hok1) as [Hok2 Hg2].
  split; [done|by eapply grown_trans].
Qed.
Lemma keeps_table_soft k k' : soft (k_tasks k) (k_tasks k') -> keeps_table k k'.
Proof. intros Hs Hok. split; [by eapply soft_table|by apply grown_soft]. Qed.
#[local] Hint Resolve keeps_table_refl : core.

(** ** The disk watchdog *)
Lemma soft_sched s a b : soft s (set_sched s a b).
Proof. split; [constructor; [intros i|..]; reflexivity|]. split; [intros i; reflexivity|]. split; by intros i. Qed.

Lemma soft_wake_rpc k w :
  t_state (ktask k w) = TASK_BLOCKED_KERNEL -> soft (k_tasks k) (k_tasks (wake_rpc k w)).
Proof.
  intros H. unfold wake_rpc. cbn [k_tasks set_tasks kupd]. eapply soft_trans; [|apply soft_sched].
  by apply (soft_awake _ _ _ TASK_BLOCKED_KERNEL).
Qed.

Lemma soft_abort k : soft (k_tasks k) (k_tasks (ata_rpc_abort k)).
Proof.
  unfold ata_rpc_abort. destruct (g_rpc_waiter _) as [w|]; [|apply soft_refl].
  destruct (state_is _ _) eqn:E; [|apply soft_refl]. cbn [negb]. unfold state_is in E. apply bool_decide_eq_true in E.
  set (k1 := set_bridge k _). change (k_tasks k) with (k_tasks k1). by apply soft_wake_rpc.
Qed.

Lemma soft_hook now k : soft (k_tasks k) (k_tasks (ata_rpc_sched_hook now k)).
Proof.
  unfold ata_rpc_sched_hook. destruct (g_rpc_waiter _) as [w|]; [|apply soft_refl]. cbv zeta.
  destruct (negb (state_is _ _)); [apply soft_refl|]. destruct (_ =? _).
  - destruct (_ <? _); [apply soft_abort|apply soft_refl].
  - destruct (_ || _); [apply soft_abort|apply soft_refl].
Qed.

(** ** Scheduling *)
Section Sched.
Context (vmm_pool : nat -> Z).

Lemma reap_ok k : table_ok (k_tasks k) -> table_ok (k_tasks (task_reap_deferred vmm_pool k)).
Proof.
  intros [(L & Hwf & Hfo) Has]. unfold task_reap_deferred. cbv zeta.
  assert (Hwf1 : tasks_wf (set_deferred (k_tasks k) None) L) by (by apply wf_deferred).
  assert (Hfo1 : forest (set_deferred (k_tasks k) None) L) by (by apply (forest_pool (k_tasks k))).
  assert (Has1 : asleep (set_deferred (k_tasks k) None)) by done.
  destruct (deferred_reap_task (k_tasks k)) as [x|] eqn:E; [|split; [by exists L|done]].
  destruct (tw_deferred _ _ Hwf x E) as [Hx _]. set (k1 := set_tasks k _).
  apply (detached_table vmm_pool k1 x L (k_tasks k1) L); try done. intros i Hi Hd. by apply Hd.
Qed.

Lemma before_choice_ok k now :
  table_ok (k_tasks k) -> table_ok (k_tasks (before_choice vmm_pool (Some ata_rpc_sched_hook) k now)).
Proof. intros Hok. unfold before_choice. eapply soft_table; [apply soft_hook|]. by apply reap_ok. Qed.

Lemma unlink_asleep s L x :
  tasks_wf s L -> x ∈ L -> t_state (task_at s x) = TASK_TERMINATED -> asleep s -> asleep (unlink_task s x).
Proof.
  intros Hwf Hx Ht. apply list_elem_of_split in Hx as (l1 & l2 & ->).
  apply (asleep_from s _ (l1 ++ x :: l2) (l1 ++ l2)); [done|by apply unlink_wf|]. intros i Hi Hd.
  apply (inner_dormant _ _ (sr_inner _ _ (unlink_rest s x) i)).
  destruct (decide (i = x)) as [->|Hne]; [by right|]. apply Hd. rewrite elem_of_app, elem_of_cons in *. naive_solver.
Qed.

Lemma retire_asleep s L now c :
  tasks_wf s L -> c ∈ L -> asleep s -> asleep (snd (retire s now c)).
Proof.
  intros Hwf Hc Has. unfold retire, state_is. cbv zeta. case_bool_decide as E; cbn [negb snd].
  - intros i Hi. by apply (unlink_asleep s L c Hwf Hc E Has i).
  - destruct (_ <=? now); [|done]. eapply soft_asleep; [apply soft_upd; reflexivity|done].
Qed.

Lemma dispatch_asleep s L now n r : tasks_wf s L -> n ∈ L -> asleep s -> asleep (dispatch s now n r).
Proof.
  intros Hwf Hn Has. unfold dispatch. cbv zeta. set (s1 := if _ && _ then _ else _).
  assert (Has1 : asleep s1) by (unfold s1; by destruct (_ && _)).
  eapply soft_asleep; [|exact Has1]. eapply soft_trans; [apply soft_state; [tauto|done]|apply soft_upd; reflexivity].
Qed.

(** A forced task is ready, hence queued: the scheduler keeps the table in order. *)
Lemma schedule_ok k now :
  table_ok (k_tasks k) -> table_ok (k_tasks (snd (schedule vmm_pool (Some ata_rpc_sched_hook) k now))).
Proof.
  intros Hok. unfold schedule. apply (before_choice_ok k now) in Hok.
  set (k1 := before_choice vmm_pool _ k now) in *.
  destruct (current_task (k_tasks k1)) as [c|] eqn:Hc; [|done]. destruct Hok as [(L & Hok) Has].
  pose proof (retire_spec (k_tasks k1) L now c Hok Hc) as Hret.
  pose proof (retire_asleep (k_tasks k1) L now c (proj1 Hok) (tw_current _ _ (proj1 Hok) c Hc) Has) as Has2.
  destruct (retire (k_tasks k1) now c) as [[] s2]; cbn [snd] in Has2; [|done].
  destruct (re_ok _ _ Hret) as (L2 & c2 & Hok2 & Hc2 & Hin2). rewrite Hc2. cbn [from_option id].
  pose proof (ring_eq _ _ (tw_ring _ _ (proj1 Hok2))) as Er.
  fold (at_choice s2 c2). pose proof (at_choice_soft s2 c2 ltac:(by rewrite Er)) as Hsoft.
  pose proof (ok_soft _ _ _ Hsoft Hok2) as Hok3. pose proof (soft_asleep _ _ Hsoft Has2) as Has3.
  assert (Ho : forall o, task_sched_only (at_choice s2 c2) = Some o ->
    t_state (task_at (at_choice s2 c2) o) = TASK_READY -> o ∈ L2).
  { intros o _ Hst. destruct (decide (o ∈ L2)) as [|Hn]; [done|]. exfalso.
    rewrite <- (ring_eq _ _ (tw_ring _ _ (proj1 Hok3))) in Hn. destruct (Has3 o Hn) as [E|E]; congruence. }
  pose proof (choose_in _ L2 now c2 (proj1 Hok3) Hin2 Ho) as Hn. destruct (choose _ now c2) as [n r]. cbn [fst] in Hn.
  cbv zeta. cbn [snd k_tasks set_vmm set_tasks].
  split; [exists L2; by apply dispatch_ok|by apply (dispatch_asleep _ L2); [apply Hok3|..]].
Qed.

Lemma yield_ok k now :
  table_ok (k_tasks k) -> table_ok (k_tasks (snd (task_yield_to_driver vmm_pool (Some ata_rpc_sched_hook) k now))).
Proof.
  intros [(L & Hwf & Hfo) Has]. unfold task_yield_to_driver. apply schedule_ok. split; [exists L|done].
  split; [apply wf_anchors; [done|]; apply (tw_anchor _ _ Hwf)|by apply (forest_pool (k_tasks k))].
Qed.
End Sched.

(** ** Reordering the queue *)
Lemma move_first_rest s t : same_rest s (task_queue_move_first_user s t).
Proof.
  unfold task_queue_move_first_user. destruct t as [t|]; [|apply rest_refl].
  destruct (task_queue s); [|apply rest_refl]. destruct (_ || _); [apply rest_refl|]. cbv zeta.
  repeat (apply rest_upd; [intros; reflexivity|]). apply rest_refl.
Qed.

Lemma move_first_same s t :
  current_task (task_queue_move_first_user s t) = current_task s /\
  g_rr_anchor (task_queue_move_first_user s t) = g_rr_anchor s.
Proof.
  unfold task_queue_move_first_user. destruct t as [t|]; [|done]. destruct (task_queue s); [|done].
  by destruct (_ || _).
Qed.

Lemma perm_ok s s' L L' :
  tasks_wf s L -> forest s L -> same_rest s s' -> ring_wf s' L' -> L' ≡ₚ L ->
  current_task s' = current_task s -> g_rr_anchor s' = g_rr_anchor s -> tasks_ok s'.
Proof.
  intros [H1 H2 H3 H4 H5 H6 H7 H8 H9 H10 H11 H12] [F1 F2] [Hi Hp Hu Hk Hn Hd] Hr HP Hc Ha.
  assert (Hin : forall i, i ∈ L' <-> i ∈ L) by (intros i; by rewrite HP).
  assert (Hf : forall i, t_id (task_at s' i) = t_id (task_at s i) /\ t_parent_pid (task_at s' i) = t_parent_pid (task_at s i)).
  { intros i. destruct (inner_fields _ _ (Hi i)) as (E1 & _ & _ & _ & E2). done. }
  exists L'. split; constructor; rewrite ?Hp, ?Hu, ?Hk, ?Hn, ?Hd, ?Hc, ?Ha; try done;
    try (intros i Hx; apply Hin; auto).
  - intros i Hx. apply H4. by apply Hin.
  - intros i Hx. destruct (inner_fields _ _ (Hi i)) as (_ & -> & -> & -> & _). apply H5. by apply Hin.
  - erewrite list_fmap_ext; [|intros j i _; exact (proj1 (Hf i))]. by rewrite HP.
  - intros i Hx. rewrite (proj1 (Hf i)). apply H8. by apply Hin.
  - intros d Hx. rewrite Hin. auto.
  - intros a Hx. apply (F1 a). revert Hx. apply tc_ext. intros x y (i & Hi' & <- & <-).
    rewrite (proj1 (Hf i)), (proj2 (Hf i)). exists i. split; [by apply Hin|done].
  - intros i Hx. rewrite (proj2 (Hf i)). apply F2. by apply Hin.
Qed.

Lemma move_first_cases s L t :
  ring_wf s L -> t ∈ L ->
  task_queue_move_first_user s (Some t) = s \/
  exists h l1 l2, L = h :: l1 ++ t :: l2 /\ ring_wf (task_queue_move_first_user s (Some t)) (h :: t :: l1 ++ l2).
Proof.
  intros Hr Ht. assert (Hcase : task_queue_move_first_user s (Some t) = s \/
    exists h l1 l2, L = h :: l1 ++ t :: l2 /\ l1 <> []).
  { unfold task_queue_move_first_user. destruct L as [|h M]; [by apply elem_of_nil in Ht|].
    rewrite (rw_head _ _ Hr). cbn [head]. apply elem_of_cons in Ht as [->|Ht]; [left; by rewrite bool_decide_true by done|].
    apply list_elem_of_split in Ht as (l1 & l2 & ->). destruct l1 as [|y l1]; [left|right; exists h, (y :: l1), l2; done].
    pose proof (rw_links _ _ Hr) as Hl. destruct Hl as [Hl _]. unfold tnext in Hl. rewrite Hl.
    by rewrite (bool_decide_true (Some t = Some t)), orb_true_r. }
  destruct Hcase as [->|(h & l1 & l2 & -> & Hl1)]; [by left|]. right. exists h, l1, l2.
  split; [done|by apply move_first_spec].
Qed.

Lemma move_first_ok s t : t ∈ ring s -> tasks_ok s -> tasks_ok (task_queue_move_first_user s (Some t)).
Proof.
  intros Ht (L & Hwf & Hfo). pose proof (tw_ring _ _ Hwf) as Hr. rewrite (ring_eq _ _ Hr) in Ht.
  destruct (move_first_cases s L t Hr Ht) as [->|(h & l1 & l2 & -> & Hr')]; [by exists L|].
  apply (perm_ok s _ (h :: l1 ++ t :: l2) (h :: t :: l1 ++ l2)); try done.
  - apply move_first_rest.
  - by rewrite Permutation_middle.
  - apply move_first_same.
  - apply move_first_same.
Qed.

Lemma move_first_perm s t i :
  t ∈ ring s -> tasks_ok s -> i ∈ ring (task_queue_move_first_user s (Some t)) <-> i ∈ ring s.
Proof.
  intros Ht (L & Hwf & _). pose proof (tw_ring _ _ Hwf) as Hr. rewrite (ring_eq _ _ Hr) in Ht |- *.
  destruct (move_first_cases s L t Hr Ht) as [->|(h & l1 & l2 & -> & Hr')]; [by rewrite (ring_eq _ _ Hr)|].
  rewrite (ring_eq _ _ Hr'), !elem_of_cons, !elem_of_app, elem_of_cons. tauto.
Qed.

Lemma move_first_table s t :
  t ∈ ring s -> table_ok s ->
  table_ok (task_queue_move_first_user s (Some t)) /\ grown s (task_queue_move_first_user s (Some t)).
Proof.
  intros Ht [Hok Has]. pose proof (move_first_ok s t Ht Hok) as Hok'. pose proof (fun i => move_first_perm s t i Ht Hok) as Hp.
  pose proof (move_first_rest s (Some t)) as Hr. split; [split; [done|]|constructor].
  - intros i Hi. apply (inner_dormant _ _ (sr_inner _ _ Hr i)), Has. by rewrite <- Hp.
  - intros i. by rewrite Hp.
  - intros i _. pose proof (sr_inner _ _ Hr i) as H. unfold inner, ident in *. congruence.
  - intros i _. pose proof (sr_inner _ _ Hr i) as H. unfold inner in H. split; [congruence|]. intros Hst. congruence.
  - apply move_first_same.
Qed.

(** ** The recovery of the disk driver *)
Section Recovery.
Context `{K : KernelHooks}.
Context (vmm_pool vmm_phys stack_top : nat -> Z) (elf_load : vmm_t -> Z -> Z * vmm_t) (driver_file : ptr cstring).

Lemma create_service_table k now file :
  keeps_table k (snd (create_service vmm_pool vmm_phys stack_top elf_load k now file)).
Proof.
  intros Hok. unfold create_service. destruct (create_spec vmm_pool vmm_phys stack_top elf_load k now file (proj1 Hok)) as [Hcr _].
  destruct (create_task_from_initrd_file _ _ _ _ _ _ _) as [[i|] k1]; cbn [snd].
  - destruct Hcr as (s & Hs & Hin). pose proof (soft_asleep _ _ Hs (proj2 Hok)) as Has.
    assert (Hok1 : table_ok (k_tasks k1)).
    { split; [|by eapply created_asleep]. destruct (in_ok _ _ _ Hin) as (L & _ & H1 & H2 & _). by exists (L ++ [i]). }
    assert (Hs2 : soft (k_tasks k1) (k_tasks (kupd k1 i (fun t => with_boot_service t 1)))) by (apply soft_upd; reflexivity).
    set (k2 := kupd k1 i _) in *. cbn [k_tasks set_tasks].
    assert (Hi : i ∈ ring (k_tasks k2)).
    { rewrite (isoft_walk _ _ (proj1 Hs2)). destruct (in_ok _ _ _ Hin) as (L & _ & H1 & _).
      rewrite (ring_eq _ _ (tw_ring _ _ H1)), elem_of_app, list_elem_of_singleton. by right. }
    destruct (move_first_table (k_tasks k2) i Hi (soft_table _ _ Hs2 Hok1)) as [H1 H2]. split; [done|].
    eapply grown_trans; [by apply grown_soft|]. eapply grown_trans; [by eapply grown_created|].
    eapply grown_trans; [by apply grown_soft|done].
  - destruct Hcr as (s & s' & H1 & H2 & H3). split; [by apply (refused_table (k_tasks k) s s')|].
    eapply grown_trans; [by apply grown_soft|]. eapply grown_trans; [by apply grown_refused|by apply grown_soft].
Qed.

Lemma live_driver_tasks k : k_tasks (snd (ata_live_driver k)) = k_tasks k.
Proof. unfold ata_live_driver. by destruct (service_registry_lookup _ _). Qed.
Lemma live_driver_table k : keeps_table k (snd (ata_live_driver k)).
Proof. apply keeps_table_soft. rewrite live_driver_tasks. apply soft_refl. Qed.

Lemma respawn_table k now :
  keeps_table k (snd (ata_supervisor_respawn vmm_pool vmm_phys stack_top elf_load driver_file k now)).
Proof.
  unfold ata_supervisor_respawn. destruct (negb _); [apply keeps_table_refl|].
  pose proof (live_driver_table k) as H1. destruct (ata_live_driver k) as [live k1]. cbn [snd] in H1.
  destruct (0 <? live); [done|]. destruct (respawn_alive k1); [done|]. destruct (_ <=? _); [done|].
  eapply keeps_table_trans; [exact H1|]. pose proof (create_service_table k1 now driver_file) as H2.
  destruct (create_service _ _ _ _ k1 now driver_file) as [[born|] k2]; exact H2.
Qed.

Lemma after_purge_table k now died :
  keeps_table k (ata_bridge_after_purge vmm_pool vmm_phys stack_top elf_load driver_file k now died).
Proof.
  unfold ata_bridge_after_purge. destruct died; [|apply keeps_table_refl]. cbn [negb].
  pose proof (live_driver_table k) as H1. destruct (ata_live_driver k) as [live k1]. cbn [snd] in H1.
  destruct (0 <? live); [done|]. eapply keeps_table_trans; [exact H1|]. cbv zeta.
  eapply keeps_table_trans; [apply keeps_table_soft, soft_abort|].
  eapply keeps_table_trans; [|apply respawn_table]. apply keeps_table_soft. destruct (0 <? _); apply soft_refl.
Qed.

Lemma notify_purge_table k now pid :
  keeps_table k (service_notify_purge_pid vmm_pool vmm_phys stack_top elf_load driver_file k now pid).
Proof.
  unfold service_notify_purge_pid. destruct (service_registry_collect_owned _ _ _ _) as [count owned]. cbv zeta.
  eapply keeps_table_trans; [|apply keeps_table_soft, soft_lookup].
  eapply keeps_table_trans; [|apply after_purge_table]. apply keeps_table_soft.
  destruct (0 <? count); [|apply soft_refl]. apply (soft_notify_all _ (set_bridge k _)).
Qed.

Lemma purge_table k now pid :
  keeps_table k (purge_registry vmm_pool vmm_phys stack_top elf_load driver_file k now pid).
Proof. exact (notify_purge_table k now pid). Qed.

(** The table once the children of [x] are adopted and it is marked as ended. *)
Lemma end_table s x :
  table_ok s -> x ∈ ring s ->
  let s' := upd (task_reparent_children s (Some x)) x (fun t => with_state t TASK_TERMINATED) in
  table_ok s' /\ ring s' = ring s /\ t_state (task_at s' x) = TASK_TERMINATED /\
  forall m, m ∈ ring s' -> t_parent_pid (task_at s' m) <> t_id (task_at s x).
Proof.
  intros [Hok Has] Hx. pose proof (reparent_ok s x Hx Hok) as Hok1. destruct Hok as (L & Hwf & Hfo).
  pose proof (ring_eq _ _ (tw_ring _ _ Hwf)) as Er. rewrite Er in Hx.
  assert (Hd1 : forall i, dormant (task_at s i) -> dormant (task_at (task_reparent_children s (Some x)) i))
    by (intros i; by apply reparent_dormant).
  destruct (orphans_adopted s L x Hwf Hfo Hx) as (Hring & _ & Horph).
  set (s4 := task_reparent_children s (Some x)) in *. clearbody s4. cbv zeta.
  assert (Hs4 : isoft s4 (upd s4 x (fun t => with_state t TASK_TERMINATED))) by (by apply isoft_upd).
  assert (Hb : (x < length (task_static_pool s4))%nat).
  { destruct Hok1 as (L4 & Hw4 & _). rewrite (tw_pool _ _ Hw4), <- (tw_pool _ _ Hwf). by apply (slot_bound s L). }
  assert (Hr5 : ring (upd s4 x (fun t => with_state t TASK_TERMINATED)) = L) by (rewrite (isoft_walk _ _ Hs4); done).
  split; [apply end_table_ok; split; [done|]|].
  - intros i. rewrite Hring. intros Hi. apply Hd1, Has. by rewrite Er.
  - rewrite Hr5, Er. split; [done|]. split; [by rewrite task_at_upd, decide_True|].
    intros m Hm. rewrite (keeps_upd t_parent_pid s4 x (fun t => with_state t TASK_TERMINATED) (fun _ => eq_refl) m). by apply Horph.
Qed.

(** The table when the next task is chosen after the end of [c]. *)
Lemma end_current_spec k now c code reason :
  table_ok (k_tasks k) -> current_task (k_tasks k) = Some c ->
  let k' := end_current vmm_pool vmm_phys stack_top elf_load driver_file k now c code reason in
  exists s, grown (k_tasks k) s /\ table_ok s /\ c ∈ ring s /\
    k_tasks k' = upd (task_reparent_children s (Some c)) c (fun t => with_state t TASK_TERMINATED).
Proof.
  intros Hok Hc. cbv zeta. unfold end_current. cbv zeta. set (k1 := purge_registry _ _ _ _ _ _ _ _).
  destruct (purge_table k now (t_id (ktask k c)) Hok) as [Hok1 Hg1]. fold k1 in Hok1, Hg1. clearbody k1.
  pose proof (soft_report k1 now (Some c) code reason) as Hs2. set (k2 := task_report_parent_exit _ _ _ _ _) in *.
  clearbody k2. assert (Hs : soft (k_tasks k1) (task_wake_waiter (k_tasks k2) (Some c))).
  { eapply soft_trans; [exact Hs2|apply soft_wake]. }
  exists (task_wake_waiter (k_tasks k2) (Some c)).
  assert (Hg : grown (k_tasks k) (task_wake_waiter (k_tasks k2) (Some c))).
  { eapply grown_trans; [exact Hg1|by apply grown_soft]. }
  split; [done|]. split; [by eapply soft_table|]. split; [|reflexivity]. apply (gr_ring _ _ Hg).
  destruct Hok as [(L & Hwf & _) _]. rewrite (ring_eq _ _ (tw_ring _ _ Hwf)). by apply (tw_current _ _ Hwf).
Qed.

Lemma end_current_ok k now c code reason :
  table_ok (k_tasks k) -> current_task (k_tasks k) = Some c ->
  table_ok (k_tasks (end_current vmm_pool vmm_phys stack_top elf_load driver_file k now c code reason)).
Proof.
  intros Hok Hc. destruct (end_current_spec k now c code reason Hok Hc) as (s & _ & Hs & Hin & ->).
  by apply end_table.
Qed.

Lemma rpc_sleep_ok k now started self d kind :
  table_ok (k_tasks k) -> self ∈ ring (k_tasks k) ->
  table_ok (k_tasks (snd (rpc_sleep vmm_pool k now started self d kind))).
Proof.
  intros Hok Hs. apply schedule_ok. cbn [k_tasks kupd set_tasks set_bridge].
  eapply soft_table; [|exact Hok]. eapply soft_trans; [apply soft_sched|].
  apply soft_state; [|done]. left. by rewrite (isoft_walk _ _ (proj1 (soft_sched _ _ _))).
Qed.

Lemma current_ring k c : table_ok (k_tasks k) -> current_task (k_tasks k) = Some c -> c ∈ ring (k_tasks k).
Proof. intros [(L & Hwf & _) _] Hc. rewrite (ring_eq _ _ (tw_ring _ _ Hwf)). by apply (tw_current _ _ Hwf). Qed.

Lemma rpc_request_ok k now kind :
  table_ok (k_tasks k) -> table_ok (k_tasks (snd (ata_rpc_request vmm_pool k now kind))).
Proof.
  intros Hok. unfold ata_rpc_request, ata_rpc_driver_for_current.
  destruct (live_driver_table k Hok) as [H1 _]. destruct (ata_live_driver k) as [pid k1]. cbn [snd] in H1.
  destruct (current_task (k_tasks k1)) as [c|] eqn:Hc; [|done]. destruct (g_rpc_waiter _); [done|].
  destruct (_ || _); [done|]. destruct (get_task_by_id _ _) as [d|]; [|done]. destruct (_ && _); [|done].
  unfold ata_rpc_block. rewrite Hc. apply rpc_sleep_ok; [done|by apply current_ring].
Qed.

Lemma wait_store_ok k now started store :
  table_ok (k_tasks k) ->
  table_ok (k_tasks (snd (ata_wait_store_round vmm_pool vmm_phys stack_top elf_load driver_file k now started store))).
Proof.
  intros Hok. unfold ata_wait_store_round. destruct (current_task (k_tasks k)) as [self|] eqn:Hc; [|done].
  pose proof (live_driver_table k) as H1. destruct (ata_live_driver k) as [live k1]. cbn [snd] in H1.
  destruct (negb _); [by apply H1|]. pose proof (live_driver_table k1) as H2.
  destruct (ata_live_driver k1) as [live2 k2]. cbn [snd] in H2. cbv zeta.
  pose proof (keeps_table_trans _ _ _ H1 H2) as H3. set (drv := if 0 <? _ then live_user (k_tasks k2) _ else None). clearbody drv.
  assert (H4 : keeps_table k (snd (match drv with
    | Some d => (Some d, k2)
    | None => let '(rc, k) := ata_supervisor_respawn vmm_pool vmm_phys stack_top elf_load driver_file k2 now in
        (if negb (rc =? 0) then None else get_task_by_id (k_tasks k) (g_respawn_pid (k_bridge k)), k) end))).
  { destruct drv; [done|]. pose proof (respawn_table k2 now) as Hr. destruct (ata_supervisor_respawn _ _ _ _ _ k2 now).
    by eapply keeps_table_trans. }
  revert H4. match goal with |- keeps_table _ (snd ?e) -> _ => destruct e as [[d|] k3] end; cbn [snd]; intros H4; [|by apply H4].
  destruct (_ <? _); [by apply H4|]. destruct (H4 Hok) as [Hok3 Hg]. apply rpc_sleep_ok; [done|].
  apply (gr_ring _ _ Hg). by apply current_ring.
Qed.

Lemma rpc_wake_soft k served : soft (k_tasks k) (k_tasks (ata_rpc_wake k served)).
Proof.
  unfold ata_rpc_wake. destruct (g_rpc_waiter _) as [w|]; [|apply soft_refl].
  destruct (_ && _) eqn:E; [|apply soft_refl]. apply andb_true_iff in E as [E _]. unfold state_is in E.
  apply bool_decide_eq_true in E. by apply soft_wake_rpc.
Qed.

Lemma job_done_ok k now accepted served :
  table_ok (k_tasks k) -> table_ok (k_tasks (snd (ata_job_done_wakes vmm_pool k now accepted served))).
Proof.
  intros Hok. unfold ata_job_done_wakes. cbv zeta. set (k1 := if _ && _ then _ else k).
  assert (Hok1 : table_ok (k_tasks k1)) by (unfold k1; by destruct (_ && _)). clearbody k1.
  destruct (g_rpc_waiter (k_bridge k1)) as [w|]; [|done]. destruct (_ && _) eqn:E; [|done].
  apply andb_true_iff in E as [E _]. unfold state_is in E. apply bool_decide_eq_true in E.
  apply schedule_ok. eapply soft_table; [by apply soft_wake_rpc|done].
Qed.

Lemma fs_ready_soft k flags mounted accepted : soft (k_tasks k) (k_tasks (sys_ata_fs_ready k flags mounted accepted)).
Proof.
  unfold sys_ata_fs_ready. pose proof (live_driver_tasks k) as Ht. destruct (ata_live_driver k) as [live k1].
  cbn [snd] in Ht. rewrite <- Ht. destruct (current_task _) as [c|]; [|apply soft_refl].
  cbv zeta. destruct (_ || _ || _); [apply soft_refl|]. set (k2 := set_bridge k1 _). set (k3 := if _ && _ then _ else k2).
  assert (H3 : k_tasks k3 = k_tasks k1) by (unfold k3; by destruct (_ && _)). rewrite <- H3. apply rpc_wake_soft.
Qed.

Lemma ipc_block_ok k now d : table_ok (k_tasks k) -> table_ok (k_tasks (snd (ipc_block vmm_pool k now d))).
Proof.
  intros Hok. unfold ipc_block. destruct (current_task (k_tasks k)) as [self|] eqn:Hc; [|done].
  destruct (_ || _ || _); [done|]. apply schedule_ok. pose proof (current_ring k self Hok Hc) as Hin.
  destruct d as [d|]; cbn [k_tasks kupd set_tasks]; (eapply soft_table; [|exact Hok]).
  - eapply soft_trans; [|apply soft_state; [left|done]]; [apply soft_upd; reflexivity|by rewrite ring_upd].
  - apply soft_state; [by left|done].
Qed.

Lemma gets_ok k now : table_ok (k_tasks k) -> table_ok (k_tasks (snd (gets_wait vmm_pool k now))).
Proof. intros Hok. apply schedule_ok. eapply soft_table; [apply soft_sched|done]. Qed.
End Recovery.

(** ** Steps *)
Section Steps.
Context `{K : KernelHooks}.
Context (vmm_pool vmm_phys stack_top : nat -> Z) (elf_load : vmm_t -> Z -> Z * vmm_t).
Context (driver_file : ptr cstring).

(** The operations that change the task table, on behalf of any task [r]. *)
Inductive task_op :=
  | TSpawn (now : Z) (file : ptr cstring) | TExec (now : Z) (file : ptr cstring)
  | TService (now : Z) (file : ptr cstring)
  | TKill (now r pid : Z) | TKillChildren (now r : Z)
  | TSysKill (now pid : Z) | TExit (now code : Z) | TFault (now : Z)
  | TSchedule (now : Z) | TYield (now : Z) | TTick (now : Z) | TMessage (pid : Z)
  | TReceive (now : Z) (timeout : option Z) | TGets (now : Z) | TGetsResumed
  | TDiskRequest (now kind : Z) | TWaitStore (now started store : Z) | TRpcResumed
  | TJobDone (now : Z) (accepted : bool) (served : Z -> bool) | TStoreReady (flags mounted : Z) (accepted : bool)
  | TMoveFirst (pid : Z)
  | TDelegate (now r c p : Z) | TSuspend (now r c : Z) | TResume (now r c : Z)
  | TWait (r c : Z) | TWaitAny (r : Z)
  | TSetPriority (r pid priority : Z) | TSetName (r pid : Z) (name : ptr cstring)
  | TAckEvents (r : Z) | TForgetEvent (r q : Z) | TReplay (r q : Z)
  | TNotify (r e : Z) | TFilter (r m : Z) | TWatch (r c e : Z) | TAckStats (r : Z)
  | TPriorityChild (r c : Z) | TBudget (r l : Z)
  | TAckResults (r : Z) | TForgetResult (r c : Z)
  | TRegister (name : cstring) | TLookup (name : cstring) | TUnregister (name : cstring)
  | TGrant (name : cstring) (pid : Z).

Definition on_tasks (k : kernel_t) (s : tasks_t) : kernel_t := set_tasks k s.

Definition run_task_op (k : kernel_t) (op : task_op) : kernel_t :=
  let s := k_tasks k in
  let hook := Some ata_rpc_sched_hook in
  match op with
  | TSpawn now file => snd (sys_spawn vmm_pool vmm_phys stack_top elf_load k now file)
  | TExec now file => snd (sys_exec vmm_pool vmm_phys stack_top elf_load k now file)
  | TService now file => snd (create_service vmm_pool vmm_phys stack_top elf_load k now file)
  | TKill now r pid => snd (task_kill vmm_pool k now r pid)
  | TKillChildren now r => snd (task_kill_direct_children vmm_pool k now r)
  | TSysKill now pid => snd (sys_kill vmm_pool vmm_phys stack_top elf_load driver_file k now pid)
  | TExit now code => snd (sys_exit vmm_pool vmm_phys stack_top elf_load driver_file k now code)
  | TFault now => snd (syscall_kill_current_on_user_fault vmm_pool vmm_phys stack_top elf_load driver_file k now)
  | TSchedule now => snd (schedule vmm_pool hook k now)
  | TYield now => snd (task_yield_to_driver vmm_pool hook k now)
  | TTick now => on_tasks k (task_ipc_wait_tick s now)
  | TMessage pid => on_tasks k (task_ipc_message_queued_pid s pid)
  | TReceive now timeout => snd (ipc_block vmm_pool k now timeout)
  | TGets now => snd (gets_wait vmm_pool k now)
  | TGetsResumed => gets_resumed k
  | TDiskRequest now kind => snd (ata_rpc_request vmm_pool k now kind)
  | TWaitStore now started store =>
      snd (ata_wait_store_round vmm_pool vmm_phys stack_top elf_load driver_file k now started store)
  | TRpcResumed => rpc_resumed k
  | TJobDone now accepted served => snd (ata_job_done_wakes vmm_pool k now accepted served)
  | TStoreReady flags mounted accepted => sys_ata_fs_ready k flags mounted accepted
  | TMoveFirst pid => on_tasks k (task_queue_move_first_user s (get_task_by_id s pid))
  | TDelegate now r c p => snd (task_delegate_child k now r c p)
  | TSuspend now r c => snd (task_suspend_child k now r c)
  | TResume now r c => snd (task_resume_child k now r c)
  | TWait r c => on_tasks k (snd (task_wait_for_child s r c))
  | TWaitAny r => on_tasks k (snd (task_wait_for_any_child s r))
  | TSetPriority r pid x => on_tasks k (snd (task_set_priority s r pid x))
  | TSetName r pid n => on_tasks k (snd (task_set_name s r pid n))
  | TAckEvents r => on_tasks k (snd (task_ack_supervision_events s r))
  | TForgetEvent r q => on_tasks k (snd (task_forget_supervision_event s r q))
  | TReplay r q => snd (task_replay_supervision_event k r q)
  | TNotify r e => on_tasks k (snd (task_set_supervision_notify s r e))
  | TFilter r m => on_tasks k (snd (task_set_supervision_notify_filter s r m))
  | TWatch r c e => on_tasks k (snd (task_update_supervision_watch s r c e))
  | TAckStats r => on_tasks k (snd (task_ack_supervision_delivery_stats s r))
  | TPriorityChild r c => on_tasks k (snd (task_set_supervision_priority s r c))
  | TBudget r l => on_tasks k (snd (task_set_supervision_notify_budget s r l))
  | TAckResults r => on_tasks k (snd (task_ack_child_result_history s r))
  | TForgetResult r c => on_tasks k (snd (task_forget_child_result_history s r c))
  | TRegister n => snd (sys_service_register k n)
  | TLookup n => snd (sys_service_lookup k n)
  | TUnregister n => snd (sys_service_unregister k n)
  | TGrant n pid => snd (sys_service_grant k n pid)
  end.

(** From a state right after [tasking_init], with any registry, memory, capture
    and disk bridge.  [next_task_id] is a C int: a step counts as long as it has
    not passed the largest one. *)
Inductive task_reachable : kernel_t -> Prop :=
  | tr_init k dir now : k_tasks k = tasking_init boot_tasks dir now -> task_reachable k
  | tr_step k op : task_reachable k -> next_task_id (k_tasks (run_task_op k op)) <= 2147483647 ->
      task_reachable (run_task_op k op).

Lemma exit_ok k now code reason :
  table_ok (k_tasks k) ->
  table_ok (k_tasks (snd (match current_task (k_tasks k) with
    | NULL => (SchedReturns, k)
    | Some current => schedule vmm_pool (Some ata_rpc_sched_hook)
        (end_current vmm_pool vmm_phys stack_top elf_load driver_file k now current code reason) now end))).
Proof.
  intros Hok. destruct (current_task (k_tasks k)) as [c|] eqn:Hc; [|done]. apply schedule_ok. by apply end_current_ok.
Qed.

Lemma sys_kill_ok k now pid :
  table_ok (k_tasks k) ->
  table_ok (k_tasks (snd (sys_kill vmm_pool vmm_phys stack_top elf_load driver_file k now pid))).
Proof.
  intros Hok. unfold sys_kill. destruct (current_task (k_tasks k)) as [c|]; [|done]. cbv zeta.
  destruct (purge_table vmm_pool vmm_phys stack_top elf_load driver_file k now pid Hok) as [Hok1 _].
  destruct (current_task (k_tasks (purge_registry _ _ _ _ _ k now pid))); [|done]. by apply kill_ok.
Qed.

Lemma delegate_table k now r c p : table_ok (k_tasks k) -> table_ok (k_tasks (snd (task_delegate_child k now r c p))).
Proof.
  intros [(L & H1 & H2) Has]. destruct (delegate_keeps k now r c p L H1 H2) as [H3 H4].
  split; [by exists L|]. apply (asleep_from (k_tasks k) _ L L); [done..| |done].
  intros i Hi Hd. apply (delegate_rests k); [by rewrite (ring_eq _ _ (tw_ring _ _ H1))|by apply Hd].
Qed.

Lemma run_op_ok k op : table_ok (k_tasks k) -> table_ok (k_tasks (run_task_op k op)).
Proof.
  intros Hok. destruct op; cbn [run_task_op on_tasks k_tasks set_tasks].
  - by apply spawn_ok.
  - by apply spawn_ok.
  - by apply create_service_table.
  - by apply kill_ok.
  - by apply kill_children_ok.
  - by apply sys_kill_ok.
  - by apply exit_ok.
  - by apply exit_ok.
  - by apply schedule_ok.
  - by apply yield_ok.
  - eapply soft_table; [apply soft_tick|done].
  - eapply soft_table; [apply soft_queued|done].
  - by apply ipc_block_ok.
  - by apply gets_ok.
  - eapply soft_table; [apply soft_sched|done].
  - by apply rpc_request_ok.
  - by apply wait_store_ok.
  - eapply soft_table; [apply soft_sched|done].
  - by apply job_done_ok.
  - eapply soft_table; [apply fs_ready_soft|done].
  - destruct (get_task_by_id _ _) as [t|] eqn:E; [|done]. apply move_first_table; [by eapply get_ring|done].
  - by apply delegate_table.
  - eapply soft_table; [apply soft_suspend|done].
  - eapply soft_table; [apply soft_resume|done].
  - eapply soft_table; [apply soft_wait_child|done].
  - eapply soft_table; [apply soft_wait_any|done].
  - eapply soft_table; [apply soft_priority|done].
  - eapply soft_table; [apply soft_name|done].
  - eapply soft_table; [apply soft_ack_events|done].
  - eapply soft_table; [apply soft_forget_event|done].
  - eapply soft_table; [apply soft_replay|done].
  - eapply soft_table; [apply soft_notify_set|done].
  - eapply soft_table; [apply soft_filter_set|done].
  - eapply soft_table; [apply soft_watch|done].
  - eapply soft_table; [apply soft_ack_stats|done].
  - eapply soft_table; [apply soft_priority_child|done].
  - eapply soft_table; [apply soft_budget|done].
  - eapply soft_table; [apply soft_ack_results|done].
  - eapply soft_table; [apply soft_forget_result|done].
  - eapply soft_table; [apply soft_register|done].
  - eapply soft_table; [apply soft_lookup|done].
  - eapply soft_table; [apply soft_unregister|done].
  - eapply soft_table; [apply soft_grant|done].
Qed.

Lemma init_asleep s dir now :
  length (task_static_pool s) = 16%nat -> (forall i, task_at s i = zero_task) -> asleep (tasking_init s dir now).
Proof.
  intros Hp Hz i Hi. unfold tasking_init, task_static_acquire in *.
  set (s0 := mk_tasks _ _ _ _ _ _ _ _ _ _ _ _ _ _ _) in *.
  replace (find_slot (fun u => u =? 0) (task_static_used s0)) with (Some 0%nat) in * by reflexivity. cbv zeta in *.
  set (s1 := set_next_id _ _) in *. left. change (task_at (set_queue ?a ?b ?c) i) with (task_at a i).
  rewrite task_at_upd by (cbn; rewrite length_insert, Hp; lia). case_decide; [done|].
  unfold s1, task_at. cbn. rewrite list_lookup_total_insert_ne by done.
  change (t_state (task_at s i) = TASK_RUNNING). by rewrite Hz.
Qed.

Lemma boot_zero i : task_at boot_tasks i = zero_task.
Proof.
  unfold task_at, boot_tasks. cbn [task_static_pool]. destruct (decide (i < 16)%nat) as [H|H].
  - by rewrite lookup_total_replicate_2.
  - rewrite list_lookup_total_alt. replace (replicate 16 zero_task !! i) with (@None task_t); [done|].
    symmetry. apply lookup_ge_None_2. rewrite length_replicate. lia.
Qed.

Lemma reachable_ok k : task_reachable k -> table_ok (k_tasks k).
Proof.
  induction 1 as [k dir now ->|k op _ IH Ha]; [|by apply run_op_ok].
  split; [by apply init_ok|]. apply init_asleep; [done|apply boot_zero].
Qed.

Lemma reachable_pids k : task_reachable k -> next_task_id (k_tasks k) <= 2147483647.
Proof. destruct 1 as [k dir now ->|]; [|done]. cbn. lia. Qed.
End Steps.

(** C2. Every reachable task table: after any sequence of spawns, kills, exits,
    faults, schedules, waits for messages, keys and disk requests, delegations and
    the other task and service calls (with the disk watchdog the scheduler calls
    and the restart of a disk driver that ended), as long as the PID counter, a C
    int, has not overflowed: the queue is a circular doubly linked list of distinct
    live slots, the PIDs are distinct, below the next one to be given and below
    2^31, every task shows the registry non-zero identities ([TaskViewLaws], so the
    registry's theorems apply to this table), the current task is queued, no task
    outside the queue is ready, the parent relation has no cycle, and at most
    sixteen tasks exist. *)
Theorem task_table_invariant :
  forall (K : KernelHooks) (vmm_pool vmm_phys stack_top : nat -> Z) (elf_load : vmm_t -> Z -> Z * vmm_t)
    (driver_file : ptr cstring) (k : kernel_t),
    task_reachable vmm_pool vmm_phys stack_top elf_load driver_file k ->
    let s := k_tasks k in
    tasks_wf s (ring s) /\ TaskViewLaws (task_view s) /\ get_task_count s <= 16 /\
    (forall i pid, get_task_by_id s pid = Some i <-> i ∈ ring s /\ t_id (task_at s i) = pid) /\
    (forall i, i ∈ ring s -> 0 <= t_id (task_at s i) < 2147483647) /\
    (forall i, i ∉ ring s -> t_state (task_at s i) = TASK_RUNNING \/ t_state (task_at s i) = TASK_TERMINATED) /\
    (forall a, ~ tc (parent_of s (ring s)) a a).
Proof.
  intros K vp vph st el df k Hr s. pose proof (reachable_pids vp vph st el df k Hr) as Hpid.
  destruct (reachable_ok vp vph st el df k Hr) as [(L & Hwf & Hfo) Has]. fold s in Hwf, Hfo, Hpid, Has.
  pose proof (ring_eq _ _ (tw_ring _ _ Hwf)) as Er. rewrite <- Er in Hwf, Hfo. split; [done|].
  split; [by eapply wf_view|]. split; [|split; [|split; [|split; [exact Has|apply Hfo]]]].
  - unfold get_task_count. pose proof (rw_slots _ _ (tw_ring _ _ Hwf)) as Hs. rewrite (tw_pool _ _ Hwf) in Hs.
    pose proof (nodup_bound (ring s) 16 (rw_nodup _ _ (tw_ring _ _ Hwf)) Hs). lia.
  - intros i pid. by apply get_task_spec.
  - intros i Hi. pose proof (tw_fresh _ _ Hwf i Hi). lia.
Qed.
