(* ===== verification/SysProcInv.v ===== *)
(** * Tasks and services together

    What the end of a task leaves in the service registry, who a lookup may
    return, and two places where the calls do not protect services as documented. *)

From Stdlib Require Import ZArith Lia String.
From stdpp Require Import base numbers option tactics list gmap relations.
From S2P Require Import Prelude Bytes Names Ipc IpcWait Pmm Vmm RegistryState Journal Registry RegistryNames RegistryCaps RegistryInv OutCapture TaskState TaskQueue Task TaskSched SysProc TaskInv TaskTable TaskSchedInv TaskSteps.

(** Names, capabilities and subscriptions. *)
Record reg_kept (r r' : registry_t) : Prop := {
  rk_entries : service_entries r' = service_entries r;
  rk_caps : service_backend_caps r' = service_backend_caps r;
  rk_watches : service_watches r' = service_watches r;
  rk_token : service_backend_token_next r' = service_backend_token_next r
}.

Lemma kept_refl r : reg_kept r r.
Proof. by constructor. Qed.
Lemma kept_trans r1 r2 r3 : reg_kept r1 r2 -> reg_kept r2 r3 -> reg_kept r1 r3.
Proof. intros [A B C D] [A' B' C' D']. constructor; congruence. Qed.
Lemma kept_wf r r' : reg_kept r r' -> reg_wf r -> reg_wf r'.
Proof. intros [A B C D] [H1 H2 H3]. constructor; congruence. Qed.
Lemma kept_resolve `{TaskView} r r' n : reg_kept r r' -> resolve r' n = resolve r n.
Proof. intros [A _ _ _]. unfold resolve. by rewrite A. Qed.

Section Kept.
Context `{K : KernelHooks}.

Lemma kept_flush r : reg_kept r (event_journal_flush r).
Proof.
  unfold event_journal_flush. destruct (negb _); [apply kept_refl|]. destruct (_ =? 0); [apply kept_refl|].
  destruct (service_registry_event_journal_export _ _ _ _) as [[rc [b|]]|]; try apply kept_refl.
  destruct (negb _); by constructor.
Qed.

Lemma kept_record r n w o p x q : reg_kept r (snd (service_registry_notify_record r n w o p x q)).
Proof.
  unfold service_registry_notify_record. destruct (_ || _); [apply kept_refl|]. cbv zeta. cbn [snd].
  eapply kept_trans; [|apply kept_flush]. by constructor.
Qed.

Lemma kept_spill r w p : reg_kept r (snd (service_registry_ipc_spill_push r w p)).
Proof.
  unfold service_registry_ipc_spill_push. destruct p as [p|]; [|apply kept_refl]. destruct (_ || _); [apply kept_refl|].
  destruct (find_slot _ _); [by constructor|]. cbn [snd]. unfold note_spill_drop.
  repeat match goal with |- context [if ?e then _ else _] => destruct e end; by constructor.
Qed.

Lemma kept_notify_watcher name o n x payload k pid :
  reg_kept (k_registry k) (k_registry (notify_watcher name o n x payload k pid)).
Proof.
  unfold notify_watcher. destruct (live_user _ _) as [w|]; [|apply kept_refl].
  pose proof (kept_record (k_registry k) (Some name) pid o n x NULL) as H1.
  destruct (service_registry_notify_record _ _ _ _ _ _ _) as [[rc0 sq] r0]. cbn [snd] in H1.
  destruct (ipc_endpoint_send _ _ _) as [rc e]. destruct (rc =? 0); [exact H1|].
  set (k1 := kupd _ w _). pose proof (kept_spill (k_registry k1) pid (Some payload)) as H2.
  destruct (service_registry_ipc_spill_push _ _ _) as [rc' r']. cbn [snd] in H2.
  assert (H3 : reg_kept (k_registry k) r') by (eapply kept_trans; [exact H1|exact H2]).
  by destruct (rc' =? 0).
Qed.

Lemma kept_notify k name o n x : reg_kept (k_registry k) (k_registry (service_notify_change k name o n x)).
Proof.
  unfold service_notify_change. destruct (os_service_make_event _ _ _ _ _) as [[| |] [payload|]]; try apply kept_refl.
  destruct (service_registry_collect_watchers _ _ _ _) as [count [watchers|]]; [|apply kept_refl].
  destruct (count <? 0); [apply kept_refl|]. generalize (take (Z.to_nat count) watchers). intros l.
  revert k. induction l as [|pid l IH]; intros k; [apply kept_refl|]. cbn [fold_left].
  eapply kept_trans; [apply kept_notify_watcher|apply IH].
Qed.
End Kept.

(** ** What a purge removes *)
Section Purge.
Context `{K : KernelHooks}.

Lemma resolve_none `{TaskView} r pid n :
  (forall e, e ∈ service_entries r -> e_pid e = pid -> entry_valid e = false) -> resolve r n <> Some pid.
Proof.
  intros Hno Hr. unfold resolve, named in Hr. destruct (find_slot _ _) as [i|]; [|done]. cbn in Hr.
  destruct (service_entries r !! i) as [e|] eqn:E; [|done]. cbn in Hr.
  destruct (entry_valid e) eqn:Ev; [|done]. injection Hr as Hp.
  rewrite (Hno e) in Ev; [done|by eapply list_elem_of_lookup_2|done].
Qed.

Lemma remove_pid_names `{TaskView} r pid n :
  reg_wf r -> 0 < pid -> let r' := snd (service_registry_remove_pid r pid) in
  reg_wf r' /\ resolve r' n = if bool_decide (resolve r n = Some pid) then None else resolve r n.
Proof.
  intros Hwf Hp. unfold service_registry_remove_pid. rewrite (proj2 (Z.leb_gt pid 0)) by lia. cbv zeta. cbn [snd].
  destruct (backend_remove_pid_spec r pid Hwf Hp) as (Hw1 & Hs1 & _).
  set (s1 := service_registry_backend_remove_pid r pid) in *. clearbody s1. set (s2 := ipc_spill_clear_pid _ pid).
  assert (He : service_entries s2 = map (fun e => if e_pid e =? pid then entry_purged e else e)
                                      (service_entries s1)) by reflexivity.
  split; [destruct Hw1; constructor; [rewrite He; by apply purge_wf|done|done]|].
  rewrite (purge_resolve s1 s2 pid n (rw_entries _ Hw1) He). by rewrite (same_names_resolve r s1) by (done || apply Hwf).
Qed.

(** What the lookups of a purge may do to the names, seen from the table [s0] the
    purge started with: stale rows go, and those of owners that are no live user
    task; every other name keeps its owner and none appears. *)
Section Forgets.
Context (s0 : tasks_t) (Hok0 : tasks_ok s0).
#[local] Notation T0 := (task_view s0).

Definition alive (q : Z) : Prop := is_Some (live_user s0 q).

Record forgets (r r' : registry_t) : Prop := {
  fg_old : forall n q, resolve (H := T0) r' n = Some q -> resolve (H := T0) r n = Some q;
  fg_alive : forall n q, alive q -> resolve (H := T0) r n = Some q -> resolve (H := T0) r' n = Some q
}.

Lemma forgets_refl r : forgets r r.
Proof. by constructor. Qed.
Lemma forgets_trans r1 r2 r3 : forgets r1 r2 -> forgets r2 r3 -> forgets r1 r3.
Proof. intros [A B] [A' B']. constructor; auto. Qed.
Lemma forgets_kept r r' : reg_kept r r' -> forgets r r'.
Proof. intros Hk. constructor; intros n q; rewrite (kept_resolve _ _ n Hk); done. Qed.

Lemma forgets_drop r i e name :
  reg_wf r -> service_entries r !! i = Some e -> (entry_valid (T := T0) e = true -> ~ alive (e_pid e)) ->
  forgets r (service_registry_backend_remove_name (update_entry r i entry_dropped) name).
Proof.
  intros Hwf He Hno. destruct (drop_row (T := T0) r i e (rw_entries _ Hwf) He) as [Hw1 Hres].
  set (r1 := update_entry r i entry_dropped) in *.
  assert (Hn : forall n, resolve (H := T0) (service_registry_backend_remove_name r1 name) n = resolve (H := T0) r1 n).
  { intros n. apply same_names_resolve; [apply remove_name_same_names|done]. }
  constructor; intros n q; rewrite Hn, Hres; destruct (entry_named n e) eqn:En; try done.
  intros Ha Hr. exfalso. unfold resolve in Hr.
  rewrite (proj2 (named_spec _ (rw_entries _ Hwf) n e)) in Hr by eauto. cbn [mbind option_bind] in Hr.
  destruct (entry_valid e) eqn:Ev; [|done]. injection Hr as <-. by apply Hno.
Qed.

(** A later table of the same run. *)
Record later (k : kernel_t) : Prop := {
  la_table : table_ok (k_tasks k);
  la_grown : grown s0 (k_tasks k);
  la_wf : reg_wf (k_registry k)
}.

Definition purges (k k' : kernel_t) : Prop := later k -> later k' /\ forgets (k_registry k) (k_registry k').

Lemma purges_trans k1 k2 k3 : purges k1 k2 -> purges k2 k3 -> purges k1 k3.
Proof.
  intros H1 H2 Hl. destruct (H1 Hl) as [Hl1 F1]. destruct (H2 Hl1) as [Hl2 F2].
  split; [done|by eapply forgets_trans].
Qed.
Lemma purges_table k k' : keeps_table k k' -> reg_kept (k_registry k) (k_registry k') -> purges k k'.
Proof.
  intros Ht Hk [H1 H2 H3]. destruct (Ht H1) as [H4 H5].
  split; [|by apply forgets_kept]. constructor; [done|by eapply grown_trans|by eapply kept_wf].
Qed.

Lemma valid_later k e :
  later k -> entry_valid (T := T0) e = true -> entry_valid (T := task_view (k_tasks k)) e = true.
Proof using Hok0.
  intros [[Hok _] Hg _]. unfold entry_valid, task_identity_valid, task_get_identity, task_view.
  destruct (_ <=? 0); [done|]. destruct (get_task_by_id s0 (e_pid e)) as [i|] eqn:E; cbn [mbind option_bind].
  2: { intros [H1 H2]%andb_true_iff. rewrite H1, H2. by destruct (get_task_by_id (k_tasks k) (e_pid e)). }
  rewrite (grown_get _ _ _ _ Hok0 Hok Hg E). cbn [mbind option_bind]. pose proof (gr_ident _ _ Hg i (get_ring _ _ _ E)) as Hi.
  unfold ident in Hi. injection Hi as _ -> -> _. done.
Qed.

Lemma lookup_forgets k name :
  later k -> let r' := snd (service_registry_lookup (T := task_view (k_tasks k)) (k_registry k) (Some name)) in
  reg_wf r' /\ forgets (k_registry k) r'.
Proof using Hok0.
  intros Hl. split; [by apply lookup_wf, la_wf|]. unfold service_registry_lookup.
  destruct (negb _); [apply forgets_refl|]. destruct (find_slot _ _) as [i|] eqn:Hf; [|apply forgets_refl].
  apply find_slot_Some in Hf as (e & He & _). rewrite (list_lookup_total_correct _ _ _ He).
  destruct (entry_valid e) eqn:Ev; [apply forgets_refl|]. cbn [snd].
  apply (forgets_drop _ _ e); [apply Hl|done|]. intros Hv. apply (valid_later k e Hl) in Hv. congruence.
Qed.

Lemma set_registry_later k r : later k -> reg_wf r -> later (set_registry k r).
Proof. intros [H1 H2 _] H3. by constructor. Qed.

Lemma live_driver_purges k : purges k (snd (ata_live_driver k)).
Proof using Hok0.
  intros Hl. destruct (lookup_forgets k (lit "ata-driver") Hl) as [H1 H2]. unfold ata_live_driver.
  destruct (service_registry_lookup _ _) as [pid r]. cbn [snd] in *. split; [by apply set_registry_later|exact H2].
Qed.

Lemma service_lookup_purges k name : purges k (snd (sys_service_lookup k name)).
Proof using Hok0.
  intros Hl. destruct (lookup_forgets k name Hl) as [H1 H2]. unfold sys_service_lookup.
  destruct (service_registry_lookup _ _) as [owner r]. cbn [snd] in H1, H2.
  pose proof (set_registry_later k r Hl H1) as Hl1. set (k1 := set_registry k r) in *.
  destruct (owner <? 0); [done|]. case_bool_decide as Hb; [done|]. cbn [snd]. unfold purge_owner.
  set (r2 := snd (service_registry_remove _ _ _)).
  assert (Hr2 : reg_wf r2) by (by apply remove_wf).
  assert (F2 : forgets (k_registry k1) r2).
  { unfold r2, service_registry_remove. destruct (_ || _); [apply forgets_refl|].
    destruct (find_slot _ _) as [i|] eqn:Hf; [|apply forgets_refl]. apply find_slot_Some in Hf as (e & He & Hp & _).
    cbn [snd]. apply (forgets_drop _ _ e); [done|done|]. intros _ Ha. apply Hb.
    rewrite !andb_true_iff, Z.eqb_eq in Hp. destruct Hp as [[<- _] _].
    apply (grown_live s0); [done|apply (la_table _ Hl1)|apply (la_grown _ Hl1)|done]. }
  set (k2 := set_registry k1 r2).
  destruct (purges_table k2 (service_notify_change k2 name owner 0 OS_SERVICE_EVENT_PURGED)) as [Hl3 F3];
    [apply keeps_table_soft, soft_notify_change|apply kept_notify|by apply set_registry_later|].
  split; [done|]. eapply forgets_trans; [exact H2|]. eapply forgets_trans; [exact F2|exact F3].
Qed.

Section Recovery.
Context (vmm_pool vmm_phys stack_top : nat -> Z) (elf_load : vmm_t -> Z -> Z * vmm_t) (driver_file : ptr cstring).

Lemma respawn_purges k now :
  purges k (snd (ata_supervisor_respawn vmm_pool vmm_phys stack_top elf_load driver_file k now)).
Proof using Hok0.
  unfold ata_supervisor_respawn. destruct (negb _); [by intros Hl; split; [|apply forgets_refl]|].
  pose proof (live_driver_purges k) as H1. destruct (ata_live_driver k) as [live k1]. cbn [snd] in H1.
  destruct (0 <? live); [done|]. destruct (respawn_alive k1); [done|]. destruct (_ <=? _); [done|].
  eapply purges_trans; [exact H1|]. intros Hl1.
  pose proof (create_service_table vmm_pool vmm_phys stack_top elf_load k1 now driver_file) as H2.
  assert (Hr : k_registry (snd (create_service vmm_pool vmm_phys stack_top elf_load k1 now driver_file)) = k_registry k1).
  { unfold create_service. destruct (create_spec vmm_pool vmm_phys stack_top elf_load k1 now driver_file
      (proj1 (la_table _ Hl1))) as (_ & Hr & _). by destruct (create_task_from_initrd_file _ _ _ _ _ _ _) as [[i|] k2]. }
  destruct (create_service _ _ _ _ k1 now driver_file) as [[born|] k2]; cbn [snd] in *;
    (eapply (purges_table k1); [exact H2| |exact Hl1]); cbn [k_registry set_bridge]; rewrite Hr; apply kept_refl.
Qed.

Lemma abort_registry k : k_registry (ata_rpc_abort k) = k_registry k.
Proof. unfold ata_rpc_abort. destruct (g_rpc_waiter _); [|done]. by destruct (negb _). Qed.

Lemma after_purge_purges k now died :
  purges k (ata_bridge_after_purge vmm_pool vmm_phys stack_top elf_load driver_file k now died).
Proof using Hok0.
  unfold ata_bridge_after_purge. destruct died; [|by intros Hl; split; [|apply forgets_refl]]. cbn [negb].
  pose proof (live_driver_purges k) as H1. destruct (ata_live_driver k) as [live k1]. cbn [snd] in H1.
  destruct (0 <? live); [done|]. eapply purges_trans; [exact H1|]. cbv zeta.
  eapply purges_trans; [|apply respawn_purges].
  apply purges_table; [apply keeps_table_soft|]; destruct (0 <? _); cbn [k_registry k_tasks set_bridge];
    rewrite ?abort_registry; first [apply soft_abort|apply kept_refl].
Qed.

(** The names after [service_notify_purge_pid]. *)
Lemma purge_names k now pid :
  k_tasks k = s0 -> asleep s0 -> reg_wf (k_registry k) -> 0 < pid ->
  let r := k_registry (service_notify_purge_pid vmm_pool vmm_phys stack_top elf_load driver_file k now pid) in
  reg_wf r /\
  (forall n q, resolve (H := T0) r n = Some q -> q <> pid /\ resolve (H := T0) (k_registry k) n = Some q) /\
  (forall n q, q <> pid -> alive q -> resolve (H := T0) (k_registry k) n = Some q -> resolve (H := T0) r n = Some q).
Proof using Hok0.
  intros Hk Has Hwf Hp. unfold service_notify_purge_pid, service_registry_collect_owned.
  rewrite (proj2 (Z.leb_gt pid 0)) by lia. cbn [orb]. set (found := filter _ _). cbv zeta.
  set (kb := set_bridge k _). set (owned := default [] _). set (died := ata_purge_is_driver kb pid owned).
  set (k2 := if 0 <? _ then _ else kb).
  assert (H2 : keeps_table k k2 /\ reg_wf (k_registry k2) /\ forall n, resolve (H := T0) (k_registry k2) n
    = if bool_decide (resolve (H := T0) (k_registry k) n = Some pid) then None else resolve (H := T0) (k_registry k) n).
  { unfold k2. destruct (Z.ltb_spec 0 (Z.of_nat (length found))) as [Hlt|Hge].
    - set (k1 := fold_left _ owned kb). assert (H1 : reg_kept (k_registry kb) (k_registry k1)).
      { unfold k1. generalize kb as k0. clear -K. clearbody owned. induction owned as [|e l IH]; intros k0; [apply kept_refl|].
        cbn [fold_left]. eapply kept_trans; [apply kept_notify|apply IH]. }
      pose proof (kept_wf _ _ H1 Hwf) as Hwf1.
      pose proof (fun n => remove_pid_names (H := T0) (k_registry k1) pid n Hwf1 Hp) as H2. cbv zeta in H2.
      split; [apply keeps_table_soft; apply (soft_notify_all owned kb)|]. split; [exact (proj1 (H2 []))|].
      intros n. cbn [k_registry set_registry]. by rewrite (proj2 (H2 n)), (kept_resolve _ _ n H1).
    - split; [by apply keeps_table_soft, soft_refl|]. split; [done|]. intros n. cbn [k_registry set_bridge kb].
      rewrite bool_decide_false; [done|]. apply resolve_none. intros e He Hep. destruct (entry_valid e) eqn:Ev; [|done].
      exfalso. assert (Hf : e ∈ found).
      { unfold found. apply list_elem_of_filter. split; [|done]. rewrite Hk. unfold entry_valid in Ev. rewrite Hep in *.
        by rewrite Z.eqb_refl. }
      destruct found; [by apply elem_of_nil in Hf|]. cbn in Hge. lia. }
  clearbody k2. destruct H2 as (Ht & Hwf2 & Hn2).
  assert (Hl2 : later k2).
  { destruct (Ht ltac:(rewrite Hk; by split)) as [H1 H2]. rewrite Hk in H2. by constructor. }
  destruct (after_purge_purges k2 now died Hl2) as [Hl3 F3]. set (k3 := ata_bridge_after_purge _ _ _ _ _ k2 now died) in *.
  destruct (service_lookup_purges k3 (lit "net-driver") Hl3) as [Hl4 F4]. set (k4 := snd _) in *.
  pose proof (forgets_trans _ _ _ F3 F4) as [F5 F6]. split; [apply Hl4|]. split.
  - intros n q Hq. apply F5 in Hq. rewrite Hn2 in Hq. case_bool_decide as E; [done|]. split; [by intros ->|done].
  - intros n q Hne Ha Hq. apply F6; [done|]. rewrite Hn2, bool_decide_false by congruence. done.
Qed.

Lemma purge_registry_names k now pid :
  k_tasks k = s0 -> asleep s0 -> reg_wf (k_registry k) -> 0 < pid ->
  let r := k_registry (purge_registry vmm_pool vmm_phys stack_top elf_load driver_file k now pid) in
  (forall n q, resolve (H := T0) r n = Some q -> q <> pid /\ resolve (H := T0) (k_registry k) n = Some q) /\
  (forall n q, q <> pid -> alive q -> resolve (H := T0) (k_registry k) n = Some q -> resolve (H := T0) r n = Some q) /\
  (forall c, c ∈ service_backend_caps r -> c_owner_pid c <> pid /\ c_grantee_pid c <> pid) /\
  (forall w, w ∈ service_watches r -> w_pid w <> pid).
Proof using Hok0.
  intros Hk Has Hwf Hp. unfold purge_registry. cbv zeta. cbn [k_registry set_registry].
  destruct (purge_names k now pid Hk Has Hwf Hp) as (Hwf1 & Hr1 & Hr2).
  set (r1 := k_registry (service_notify_purge_pid _ _ _ _ _ k now pid)) in *.
  destruct (backend_remove_pid_spec r1 pid Hwf1 Hp) as (Hw2 & Hs2 & Hcaps).
  unfold service_registry_remove_watcher_pid. rewrite (proj2 (Z.leb_gt pid 0)) by lia. cbv zeta. cbn [snd].
  set (r3 := ipc_spill_clear_pid _ pid).
  assert (Hn : forall n, resolve (H := T0) r3 n = resolve (H := T0) r1 n).
  { intros n. rewrite <- (same_names_resolve r1 _ n Hs2 (rw_entries _ Hwf1)). reflexivity. }
  split; [intros n q; rewrite Hn; apply Hr1|]. split; [intros n q; rewrite Hn; apply Hr2|]. split.
  - intros c [i Hi]%list_elem_of_lookup. by apply (Hcaps i).
  - cbn. intros w (w0 & -> & _)%list_elem_of_fmap. destruct (Z.eqb_spec (w_pid w0) pid); cbn; [lia|done].
Qed.
End Recovery.
End Forgets.
End Purge.

(** ** The end of a task *)

Lemma kept_deliver k p payload : reg_kept (k_registry k) (k_registry (snd (deliver_notice k p payload))).
Proof.
  unfold deliver_notice. destruct (ipc_endpoint_send _ _ _) as [rc e]. destruct (rc =? 0) eqn:E.
  - cbn [snd]. rewrite E. apply kept_refl.
  - set (k1 := kupd k p _). pose proof (kept_spill (k_registry k1) (t_id (ktask k1 p)) (Some payload)) as H.
    destruct (service_registry_ipc_spill_push _ _ _) as [rc' r]. cbn [snd] in *. by destruct (rc' =? 0).
Qed.

Lemma kept_event k now p a c r d :
  reg_kept (k_registry k) (k_registry (task_record_supervision_event k now p a c r d)).
Proof.
  unfold task_record_supervision_event. destruct p as [p|]; [|apply kept_refl].
  destruct (ring_push _ _ _ _ _) as [[events start] count]. unfold task_notify_supervision_event.
  destruct (negb _); [apply kept_refl|].
  destruct (os_task_make_supervision_event _ _) as [[| |] [payload|]]; try apply kept_refl.
  set (k1 := kupd _ p _). pose proof (kept_deliver k1 p payload) as H. by destruct (deliver_notice k1 p payload).
Qed.

Lemma kept_report k now c code reason :
  reg_kept (k_registry k) (k_registry (task_report_parent_exit k now c code reason)).
Proof.
  unfold task_report_parent_exit. destruct c as [c|]; [|apply kept_refl]. cbv zeta.
  destruct (_ <=? 0); [apply kept_refl|]. destruct (get_task_by_id _ _) as [p|]; [|apply kept_refl].
  destruct (_ || _); [apply kept_refl|].
  set (k1 := kupd _ p (fun t => with_exits t (note_exit (t_exits t) _))).
  pose proof (kept_event k1 now (Some p) OS_TASK_SUPERVISION_EXIT (t_id (ktask k c)) 0 reason) as H.
  set (k2 := task_record_supervision_event k1 _ _ _ _ _ _) in *.
  destruct (os_task_make_event _ _ _) as [[| |] [payload|]]; try exact H.
  destruct (ipc_endpoint_send _ _ _) as [rc e]. by destruct (rc =? 0).
Qed.

Lemma end_current_registry `{K : KernelHooks} vmm_pool vmm_phys stack_top elf_load driver_file k now c code reason :
  reg_kept (k_registry (purge_registry vmm_pool vmm_phys stack_top elf_load driver_file k now (t_id (ktask k c))))
    (k_registry (end_current vmm_pool vmm_phys stack_top elf_load driver_file k now c code reason)).
Proof.
  exact (kept_report (purge_registry vmm_pool vmm_phys stack_top elf_load driver_file k now (t_id (ktask k c)))
    now (Some c) code reason).
Qed.

(** C28. Ending the current task ([SYS_EXIT] or a fault) leaves nothing of it in the
    system when the next task is chosen, the restart of a disk driver that ends
    included: no service name resolves to it, every name owned by another live
    user task keeps its owner and no name gets an owner it did not have, no
    capability it gave or held and no subscription of it remain, no task of the
    queue (nor the driver started meanwhile) has it as parent, every other task is
    still queued, and it is marked terminated (so the scheduler removes it from the
    queue and frees its slot). *)
Theorem ended_task_leaves_nothing :
  forall (K : KernelHooks) (vmm_pool vmm_phys stack_top : nat -> Z) (elf_load : vmm_t -> Z -> Z * vmm_t)
    (driver_file : ptr cstring) (k : kernel_t) (now exit_code reason : Z) (c : nat),
    table_ok (k_tasks k) -> reg_wf (k_registry k) -> current_task (k_tasks k) = Some c ->
    0 < t_id (ktask k c) ->
    let pid := t_id (ktask k c) in
    let T := task_view (k_tasks k) in
    let k' := end_current vmm_pool vmm_phys stack_top elf_load driver_file k now c exit_code reason in
    (forall n q, resolve (H := T) (k_registry k') n = Some q -> q <> pid /\ resolve (H := T) (k_registry k) n = Some q) /\
    (forall n q, q <> pid -> is_Some (live_user (k_tasks k) q) -> resolve (H := T) (k_registry k) n = Some q ->
       resolve (H := T) (k_registry k') n = Some q) /\
    (forall cap, cap ∈ service_backend_caps (k_registry k') -> c_owner_pid cap <> pid /\ c_grantee_pid cap <> pid) /\
    (forall w, w ∈ service_watches (k_registry k') -> w_pid w <> pid) /\
    (forall m, m ∈ ring (k_tasks k') -> t_parent_pid (ktask k' m) <> pid) /\
    (forall m, m ∈ ring (k_tasks k) -> m ∈ ring (k_tasks k')) /\
    t_state (ktask k' c) = TASK_TERMINATED /\ table_ok (k_tasks k').
Proof.
  intros K vp vph st el df k now code reason c Hok Hwf Hc Hp pid T k'.
  destruct (purge_registry_names (k_tasks k) (proj1 Hok) vp vph st el df k now pid eq_refl (proj2 Hok) Hwf Hp)
    as (Hn1 & Hn2 & Hn3 & Hn4).
  pose proof (end_current_registry vp vph st el df k now c code reason) as Hkept. fold k' pid in Hkept.
  destruct (end_current_spec vp vph st el df k now c code reason Hok Hc) as (s & Hg & Hs & Hin & Hk').
  fold k' in Hk'. unfold ktask. rewrite Hk'. clearbody k'. destruct (end_table s c Hs Hin) as (H1 & H2 & H3 & H4).
  assert (Hid : t_id (task_at s c) = pid).
  { pose proof (gr_ident _ _ Hg c (current_ring k c Hok Hc)) as E. unfold ident in E. injection E as -> _ _ _. done. }
  rewrite Hid in H4.
  split; [intros n q; rewrite (kept_resolve _ _ n Hkept); apply Hn1|].
  split; [intros n q; rewrite (kept_resolve _ _ n Hkept); apply Hn2|].
  split; [rewrite (rk_caps _ _ Hkept); exact Hn3|]. split; [rewrite (rk_watches _ _ Hkept); exact Hn4|].
  split; [exact H4|]. split; [|done]. intros m Hm. rewrite H2. by apply (gr_ring _ _ Hg).
Qed.

(** ** A kill that is refused *)

(** [sys_kill] withdraws the services of its target before it asks whether the
    caller may kill it: when [task_kill] refuses, the target goes on living but every
    name it owned is gone.  (The design note says the registry is cleaned only after
    a successful authorisation.) *)
Theorem refused_kill_still_purges :
  forall (K : KernelHooks) (vmm_pool vmm_phys stack_top : nat -> Z) (elf_load : vmm_t -> Z -> Z * vmm_t)
    (driver_file : ptr cstring) (k : kernel_t) (now pid : Z) (c : nat),
    table_ok (k_tasks k) -> reg_wf (k_registry k) -> 0 < pid -> is_Some (current_task (k_tasks k)) ->
    let k1 := purge_registry vmm_pool vmm_phys stack_top elf_load driver_file k now pid in
    current_task (k_tasks k1) = Some c ->
    fst (task_kill vmm_pool k1 now (t_id (ktask k1 c)) pid) = OS_TASK_CONTROL_DENIED ->
    let '(rc, k') := sys_kill vmm_pool vmm_phys stack_top elf_load driver_file k now pid in
    let T := task_view (k_tasks k) in
    rc = OS_TASK_CONTROL_DENIED /\ is_Some (get_task_by_id (k_tasks k') pid) /\
    forall n, resolve (H := T) (k_registry k) n = Some pid -> resolve (H := T) (k_registry k') n = None.
Proof.
  intros K vp vph st el df k now pid c Hok Hwf Hp [c0 Hc0] k1 Hc Hden. unfold sys_kill. rewrite Hc0.
  change (purge_registry vp vph st el df k now pid) with k1. rewrite Hc.
  assert (Hk : task_kill vp k1 now (t_id (ktask k1 c)) pid = (OS_TASK_CONTROL_DENIED, k1) /\
               is_Some (get_task_by_id (k_tasks k1) pid)).
  { revert Hden. unfold task_kill. destruct (pid =? 0); [done|].
    destruct (get_task_by_id (k_tasks k1) pid) as [i|]; [|done]. destruct (_ =? pid); [done|].
    destruct (_ && _); [|done]. intros _. eauto. }
  destruct Hk as [-> Hlive]. split; [done|]. split; [done|]. intros n Hn.
  destruct (purge_registry_names (k_tasks k) (proj1 Hok) vp vph st el df k now pid eq_refl (proj2 Hok) Hwf Hp) as (Hn1 & _).
  fold k1 in Hn1. destruct (resolve (k_registry k1) n) as [q|] eqn:E; [|done].
  destruct (Hn1 n q E) as [Hne Hq]. congruence.
Qed.

(** ** A concrete kernel *)

(** The kernel task and the tasks 1 (shell), 2 (vfs) and 3 (spin). *)
Definition demo_stacks (i : nat) : Z := 65536 + 4096 * Z.of_nat i.
Definition demo_install (s : tasks_t) (dir : Z) (name : cstring) : tasks_t :=
  snd (task_install s dir 1 name demo_stacks).
Definition demo_table : tasks_t :=
  demo_install (demo_install (demo_install (tasking_init boot_tasks 4096 0) 8192 (lit "bin/shell"))
    12288 (lit "bin/vfs")) 16384 (lit "bin/spin").
(** One megabyte of memory and an empty kernel directory. *)
Definition demo_vmm : vmm_t :=
  mk_vmm (mk_pmm (1 :: replicate 7 0) 256 1) ∅
    {[4096 := mk_dir (replicate 1024 0) (replicate 1024 0) 4096 1 (replicate 32 0)]} 4096 4096.
(** A disk is present and task 2 is the disk driver started at boot. *)
Definition demo_bridge : bridge_t := mk_bridge None 0 0 0 2 0 0 0 0 0 0 1.
Definition demo_kernel : kernel_t :=
  mk_kernel demo_table (service_registry_init (K := demo_hooks) bss_registry) demo_vmm demo_capture demo_bridge.
Definition demo_pool (i : nat) : Z := 196608 + 4096 * Z.of_nat i.
Definition demo_elf (v : vmm_t) (dir : Z) : Z * vmm_t := (134512640, v).
Definition demo_file : ptr cstring := Some (lit "bin/atadriver").

(** The same kernel while the task at slot [i] runs. *)
Definition as_current (k : kernel_t) (i : nat) : kernel_t :=
  set_tasks k (set_queue (k_tasks k) (task_queue (k_tasks k)) (Some i)).

(** Task 2 has published "disk". *)
Definition demo_published : kernel_t :=
  snd (sys_service_register (K := demo_hooks) (as_current demo_kernel 2) (lit "disk")).

Lemma install_table_ok s dir name : table_ok s -> table_ok (demo_install s dir name).
Proof.
  intros [Hok Has]. unfold demo_install. pose proof (install_spec demo_stacks s dir 1 name Hok) as H.
  destruct (task_install _ _ _ _ _) as [[i|] s']; cbn [snd]; [|by destruct H as (H1 & _ & _ & _ & H2); split; [|apply H2]].
  split; [|by eapply created_asleep]. destruct (in_ok _ _ _ H) as (L & _ & H1 & H2 & _). by exists (L ++ [i]).
Qed.

Lemma demo_table_ok : table_ok demo_table.
Proof.
  do 3 apply install_table_ok. split; [by apply init_ok|]. apply init_asleep; [reflexivity|apply boot_zero].
Qed.

Lemma as_current_ok k i : i ∈ ring (k_tasks k) -> table_ok (k_tasks k) -> table_ok (k_tasks (as_current k i)).
Proof.
  intros Hi [(L & Hwf & Hfo) Has]. rewrite (ring_eq _ _ (tw_ring _ _ Hwf)) in Hi. split; [|done]. exists L.
  split; [by apply wf_queue|by apply (forest_pool (k_tasks k))].
Qed.

Lemma in_dec_true (i : nat) (l : list nat) : bool_decide (i ∈ l) = true -> i ∈ l.
Proof. by rewrite bool_decide_eq_true. Qed.

Lemma demo_published_ok : table_ok (k_tasks demo_published).
Proof.
  eapply soft_table; [apply soft_register|]. apply as_current_ok; [|exact demo_table_ok].
  apply in_dec_true. vm_compute. reflexivity.
Qed.

Lemma sys_register_wf `{K : KernelHooks} k name :
  reg_wf (k_registry k) -> reg_wf (k_registry (snd (sys_service_register k name))).
Proof.
  intros Hwf. unfold sys_service_register. destruct (user_caller k) as [c|]; [|done]. destruct (_ =? 0); [done|].
  pose proof (lookup_wf (T := task_view (k_tasks k)) (k_registry k) (Some name) Hwf) as H1.
  destruct (service_registry_lookup _ _) as [owner r]. cbn [snd] in H1. set (k1 := set_registry k r).
  assert (Hreg : forall k2 own, reg_wf (k_registry k2) ->
    reg_wf (k_registry (snd (let pid := t_id (ktask k2 c) in
      let '(rc, r) := service_registry_register (T := task_view (k_tasks k2)) (k_registry k2) (Some name) pid in
      let k3 := set_registry k2 r in
      let k4 := if (rc =? 0) && (own =? OS_SERVICE_NOT_FOUND)
                then service_notify_change k3 name 0 pid OS_SERVICE_EVENT_PUBLISHED else k3 in
      (rc, if (rc =? 0) && bool_decide (cstr name = cstr (lit "ata-driver")) then note_boot_driver k4 pid else k4))))).
  { intros k2 own H2. cbv zeta. pose proof (register_wf (T := task_view (k_tasks k2)) _ (Some name) (t_id (ktask k2 c)) H2) as H3.
    destruct (service_registry_register _ _ _) as [rc r2]. cbn [snd] in *.
    set (k4 := if _ && _ then service_notify_change _ _ _ _ _ else _).
    assert (H4 : reg_wf (k_registry k4)).
    { unfold k4. destruct (_ && _); [|exact H3]. eapply kept_wf; [apply kept_notify|exact H3]. }
    clearbody k4. destruct (_ && _); [|exact H4]. unfold note_boot_driver. by destruct (_ && _). }
  destruct (_ && _); apply Hreg; [|exact H1]. unfold purge_owner. eapply kept_wf; [apply kept_notify|].
  by apply (remove_wf (T := task_view (k_tasks k1))).
Qed.

Lemma demo_published_wf : reg_wf (k_registry demo_published).
Proof. apply sys_register_wf. exact (ri_wf _ (boot_inv demo_hooks demo_hooks_laws)). Qed.

Lemma as_current_registry k i : k_registry (as_current k i) = k_registry k.
Proof. reflexivity. Qed.
Lemma demo_running_wf : reg_wf (k_registry (as_current demo_published 3)).
Proof. rewrite as_current_registry. exact demo_published_wf. Qed.

Example refused_kill_still_purges_witness :
  let k := as_current demo_published 3 in
  resolve (H := task_view (k_tasks k)) (k_registry k) (lit "disk") = Some 2 /\
  let '(rc, k') := sys_kill (K := demo_hooks) demo_stacks demo_pool demo_stacks demo_elf demo_file k 9 2 in
  rc = -64 /\ is_Some (get_task_by_id (k_tasks k') 2) /\
  resolve (H := task_view (k_tasks k)) (k_registry k') (lit "disk") = None.
Proof.
  cbv zeta. split; [vm_compute; reflexivity|].
  pose proof (refused_kill_still_purges demo_hooks demo_stacks demo_pool demo_stacks demo_elf demo_file
    (as_current demo_published 3) 9 2 3
    (as_current_ok demo_published 3 ltac:(apply in_dec_true; vm_compute; reflexivity) demo_published_ok)
    demo_running_wf ltac:(lia) ltac:(eexists; reflexivity)
    ltac:(vm_compute; reflexivity) ltac:(vm_compute; reflexivity)) as H.
  destruct (sys_kill _ _ _ _ _ _ _ _) as [rc k']. destruct H as (H1 & H2 & H3).
  split; [exact H1|]. split; [exact H2|]. apply H3. vm_compute. reflexivity.
Defined.

(** Task 2, the disk driver, ends: its name is gone, and a new driver with PID 4
    is the first user task of the queue. *)
Example ended_task_leaves_nothing_witness :
  let k := as_current demo_published 2 in
  let k' := end_current (K := demo_hooks) demo_pool demo_pool demo_stacks demo_elf demo_file k 9 2 0 OS_TASK_EVENT_EXITED in
  resolve (H := task_view (k_tasks k)) (k_registry k) (lit "disk") = Some 2 /\
  resolve (H := task_view (k_tasks k)) (k_registry k') (lit "disk") <> Some 2 /\
  t_state (ktask k' 2) = TASK_TERMINATED /\
  map (fun i => t_id (ktask k' i)) (ring (k_tasks k')) = [0; 4; 1; 2; 3].
Proof.
  cbv zeta. destruct (ended_task_leaves_nothing demo_hooks demo_pool demo_pool demo_stacks demo_elf demo_file
    (as_current demo_published 2) 9 0 OS_TASK_EVENT_EXITED 2) as (H1 & _ & _ & _ & _ & _ & H5 & _).
  - apply as_current_ok; [apply in_dec_true; vm_compute; reflexivity|exact demo_published_ok].
  - rewrite as_current_registry. exact demo_published_wf.
  - reflexivity.
  - vm_compute. reflexivity.
  - split; [vm_compute; reflexivity|]. split; [|split; [exact H5|vm_compute; reflexivity]].
    intros E. destruct (H1 _ _ E) as [Hne _]. apply Hne. vm_compute. reflexivity.
Defined.

(** ** Scheduling the concrete kernel *)

Lemma single_dec s :
  forallb (fun i => negb (state_is (t_state (task_at s i)) TASK_RUNNING)
                    || bool_decide (current_task s = Some i)) (ring s) = true -> single_running s.
Proof.
  intros H i Hi Hr. rewrite forallb_forall in H. apply list_elem_of_In in Hi. specialize (H i Hi).
  rewrite Hr in H. apply orb_true_iff in H as [H|H]; [discriminate|]. by apply bool_decide_eq_true in H.
Qed.

Lemma demo_before_ok now : tasks_ok (k_tasks (before_choice demo_stacks (Some ata_rpc_sched_hook) demo_kernel now)).
Proof. exact (proj1 (before_choice_ok demo_stacks demo_kernel now demo_table_ok)). Qed.

Lemma demo_before_single : single_running (k_tasks (before_choice demo_stacks (Some ata_rpc_sched_hook) demo_kernel 10)).
Proof. apply single_dec. vm_compute. reflexivity. Qed.


(** The kernel after its first schedule: task 1 runs, 2 and 3 are ready. *)
Definition demo_started : kernel_t := snd (schedule demo_stacks (Some ata_rpc_sched_hook) demo_kernel 10).

Lemma rotating_dec s c p :
  tasks_ok s -> current_task s = Some c -> t_state (task_at s c) = TASK_RUNNING -> user_at s c = true ->
  forallb (fun i => negb (user_at s i) ||
    ((bool_decide (i = c) || state_is (t_state (task_at s i)) TASK_READY) && (t_priority (task_at s i) =? p))) (ring s) = true ->
  p < OS_TASK_PRIORITY_HIGH ->
  task_sched_only s = None /\ task_gets_waiter s = None /\ deferred_reap_task s = None -> rotating s c p.
Proof.
  intros Hok Hc Hr Hu Hall Hp Hf. rewrite forallb_forall in Hall.
  assert (H : forall i, i ∈ ring s -> user_at s i = true ->
    (i = c \/ t_state (task_at s i) = TASK_READY) /\ t_priority (task_at s i) = p).
  { intros i Hi Hui. apply list_elem_of_In in Hi. specialize (Hall i Hi). rewrite Hui in Hall. cbn [negb orb] in Hall.
    apply andb_true_iff in Hall as [H1 H2]. split; [|lia]. apply orb_true_iff in H1 as [H1|H1];
      unfold state_is in H1; apply bool_decide_eq_true in H1; auto. }
  constructor; try done; intros i Hi Hui; destruct (H i Hi Hui) as [[?|?] ?]; done.
Qed.

Lemma demo_rotating : rotating (k_tasks demo_started) 1 2.
Proof.
  apply rotating_dec; try (vm_compute; reflexivity).
  - exact (proj1 (schedule_ok demo_stacks demo_kernel 10 demo_table_ok)).
  - repeat split; vm_compute; reflexivity.
Qed.


Example queue_refines_list_witness :
  ring (unlink_task demo_table 2) = [0; 1; 3]%nat /\
  ring (task_queue_move_first_user demo_table (Some 3%nat)) = [0; 3; 1; 2]%nat.
Proof.
  assert (Hr : ring_wf demo_table [0; 1; 2; 3]%nat).
  { destruct demo_table_ok as [(L & Hwf & _) _]. pose proof (ring_eq _ _ (tw_ring _ _ Hwf)) as E.
    replace [0; 1; 2; 3]%nat with L by (rewrite <- E; vm_compute; reflexivity). apply Hwf. }
  destruct (queue_refines_list demo_table _ Hr) as (_ & _ & _ & H1 & H2). split.
  - exact (proj1 (H1 [0; 1]%nat 2%nat [3]%nat eq_refl)).
  - exact (H2 0%nat [1; 2]%nat 3%nat [] eq_refl ltac:(discriminate)).
Defined.

(** ** Supervision of the concrete kernel *)

(** Task 1 has four events: its log is full. *)
Definition demo_event (k : kernel_t) : kernel_t := task_record_supervision_event k 7 (Some 1%nat) 2 3 0 0.
Definition demo_logged : kernel_t := demo_event (demo_event (demo_event (demo_event demo_kernel))).

Lemma demo_log_ok : log_ok (t_sup (ktask demo_logged 1)).
Proof.
  constructor.
  - constructor; vm_compute; done.
  - replace (map ev_sequence _) with [1; 2; 3; 4] by (vm_compute; reflexivity). repeat constructor; lia.
  - replace (kept_events _) with (map (fun q => mk_sup_event q 2 3 0 0 7 5 1 4) [1; 2; 3; 4]) by (vm_compute; reflexivity).
    replace (supervision_event_sequence _) with 4 by (vm_compute; reflexivity). repeat constructor; cbn; lia.
  - vm_compute. done.
Qed.

Example supervision_log_appends_witness :
  map ev_sequence (kept_events (t_sup (ktask (demo_event demo_logged) 1))) = [2; 3; 4; 5].
Proof.
  destruct (supervision_log_appends demo_logged 7 1 2 3 0 0) as (_ & H & _).
  - vm_compute. lia.
  - exact demo_log_ok.
  - vm_compute. reflexivity.
  - unfold demo_event. rewrite H. vm_compute. reflexivity.
Defined.

(** ** Any sequence of operations *)

Definition demo_boot_kernel : kernel_t :=
  mk_kernel (tasking_init boot_tasks 4096 0) (k_registry demo_kernel) demo_vmm demo_capture demo_bridge.

(** The kernel task starts the shell; once scheduled the shell starts a child and
    then a second one, kills the first (the disk driver: a new one is started) and
    publishes a service. *)
Definition demo_ops : list task_op :=
  [TSpawn 1 (Some (lit "bin/shell")); TSchedule 5; TSpawn 6 (Some (lit "bin/a"));
   TExec 7 (Some (lit "bin/b")); TSysKill 8 2; TRegister (lit "desk")].
Definition demo_step : kernel_t -> task_op -> kernel_t :=
  run_task_op (K := demo_hooks) demo_pool demo_pool demo_stacks demo_elf demo_file.
Definition demo_reachable_kernel : kernel_t := fold_left demo_step demo_ops demo_boot_kernel.

Lemma demo_reachable :
  task_reachable (K := demo_hooks) demo_pool demo_pool demo_stacks demo_elf demo_file demo_reachable_kernel.
Proof.
  unfold demo_reachable_kernel, demo_ops, demo_step. cbn [fold_left].
  repeat (apply tr_step; [|vm_compute; discriminate]).
  apply (tr_init _ _ _ _ _ _ 4096 0). reflexivity.
Qed.

Example task_table_invariant_witness :
  TaskViewLaws (task_view (k_tasks demo_reachable_kernel)) /\
  map (fun i => (t_id (ktask demo_reachable_kernel i), t_parent_pid (ktask demo_reachable_kernel i)))
    (ring (k_tasks demo_reachable_kernel)) = [(0, -1); (4, -1); (1, 0); (3, 1)].
Proof.
  split; [|vm_compute; reflexivity].
  exact (proj1 (proj2 (task_table_invariant demo_hooks demo_pool demo_pool demo_stacks demo_elf demo_file
    demo_reachable_kernel demo_reachable))).
Defined.

(** ** Names that carry hardware rights *)

(** C42. A task may take the name of a hardware driver: [task_set_name] refuses only
    "atadriver", "ataclient" and "aiworker", so the current user task can call itself
    "pcidriver" and the registry's name test then lets it publish "pci-driver", the
    name that opens the PCI configuration ports; "atadriver" is refused.  The same
    holds for "ps2driver", "serialdriver", "vgadriver" and "usbdriver". *)
Theorem driver_names_not_reserved :
  forall (k : kernel_t) (c : nat) (service binary : string),
    tasks_ok (k_tasks k) -> current_task (k_tasks k) = Some c ->
    (service, binary) ∈ [("pci-driver", "pcidriver"); ("ps2-driver", "ps2driver");
                          ("serial-driver", "serialdriver"); ("vga-driver", "vgadriver");
                          ("usb-driver", "usbdriver")]%string ->
    let me := t_id (ktask k c) in
    let '(rc, k') := sys_task_set_name k me (Some (lit binary)) in
    rc = 0 /\ service_registry_ata_driver_name_allowed (lit service) (Some (t_name (ktask k' c))) = 1 /\
    fst (sys_task_set_name k me (Some (lit "atadriver"))) = OS_TASK_BAD_NAME.
Proof.
  intros k c service binary (L & Hwf & _) Hc Hin me. unfold sys_task_set_name, for_current. rewrite Hc.
  fold me. pose proof (tw_current _ _ Hwf c Hc) as HcL. pose proof (tw_fresh _ _ Hwf c HcL) as H0.
  change (t_id (task_at (k_tasks k) c)) with me in H0. rewrite (proj2 (Z.ltb_ge me 0)) by lia.
  assert (Hget : get_task_by_id (k_tasks k) me = Some c) by (by apply (get_task_spec _ L Hwf)).
  assert (Hb : (c < length (task_static_pool (k_tasks k)))%nat) by (by apply (slot_bound _ L Hwf)).
  repeat (apply elem_of_cons in Hin as [Hin|Hin]); try by apply elem_of_nil in Hin.
  all: injection Hin as -> ->.
  all: unfold task_set_name; cbv zeta;
    match goal with |- context [if ?e then (OS_TASK_BAD_NAME, _) else _] =>
      replace e with false by (vm_compute; reflexivity) end.
  all: rewrite Hget; fold (ktask k c); fold me; rewrite Z.eqb_refl; cbn [negb andb].
  all: split; [reflexivity|]; split; [|vm_compute; reflexivity].
  all: unfold ktask; cbn [k_tasks set_tasks]; rewrite task_at_upd, decide_True by done; cbn [t_name with_name].
  all: reflexivity.
Qed.

Example driver_names_not_reserved_witness :
  let '(rc, k') := sys_task_set_name (as_current demo_kernel 3) 3 (Some (lit "pcidriver")) in
  rc = 0 /\ service_registry_ata_driver_name_allowed (lit "pci-driver") (Some (t_name (ktask k' 3))) = 1.
Proof.
  pose proof (driver_names_not_reserved (as_current demo_kernel 3) 3 "pci-driver" "pcidriver"
    (proj1 (as_current_ok demo_kernel 3 ltac:(apply in_dec_true; vm_compute; reflexivity) demo_table_ok)) eq_refl
    ltac:(apply list_elem_of_here)) as H.
  cbv zeta in H. replace (t_id (ktask (as_current demo_kernel 3) 3)) with 3 in H by (vm_compute; reflexivity).
  destruct (sys_task_set_name (as_current demo_kernel 3) 3 (Some (lit "pcidriver"))) as [rc k'].
  destruct H as (H1 & H2 & _). split; [exact H1|exact H2].
Defined.
