(* ===== verification/DevPorts.v ===== *)
(** * The I/O ports of the running task: end of schedule (kernel/task/task.c) and the claims of kernel/syscall/syscall.c

    At every switch the kernel recomputes which device ports Ring 3 may use; a driver that
    claims its device gets them at once.  [switch_ports_exact]: after a switch a port is
    open exactly when the running user task owns the device of its window. *)

From Stdlib Require Import ZArith Lia String.
From stdpp Require Import base numbers option tactics list.
From S2P Require Import Prelude Bytes Names RegistryState Registry NetSum InitrdTar AtaJob IoPorts DevService NicOwner PciService TaskState Task TaskSched SysProcInv.

Definition OS_DEV_DENIED : Z := -180.

Section Ports.
Context {J : Type}.

(** The kernel with its task segment and the owners of its devices. *)
Record machine_t := mk_machine {
  m_k : kernel_t; m_tss : tss_t; m_ata : ata_t J; m_dev : devsvc_t; m_nic : nic_t; m_usb_io_base : Z
}.

Definition with_k (m : machine_t) (k : kernel_t) : machine_t := mk_machine k (m_tss m) (m_ata m) (m_dev m) (m_nic m) (m_usb_io_base m).
Definition with_tss (m : machine_t) (t : tss_t) : machine_t := mk_machine (m_k m) t (m_ata m) (m_dev m) (m_nic m) (m_usb_io_base m).
Definition with_ata (m : machine_t) (a : ata_t J) : machine_t := mk_machine (m_k m) (m_tss m) a (m_dev m) (m_nic m) (m_usb_io_base m).
Definition with_svc (m : machine_t) (d : devsvc_t) : machine_t := mk_machine (m_k m) (m_tss m) (m_ata m) d (m_nic m) (m_usb_io_base m).

(** [service_registry_lookup] on the kernel's registry and task table. *)
Definition lookup_service (k : kernel_t) (name : string) : Z * kernel_t :=
  let '(pid, r) := service_registry_lookup (T := task_view (k_tasks k)) (k_registry k) (Some (lit name)) in (pid, set_registry k r).

(** A task that runs, is a user task and has this name. *)
Definition runs_as (k : kernel_t) (pid : Z) (name : string) : bool :=
  match get_task_by_id (k_tasks k) pid with
  | None => false
  | Some i => is_user (t_type (ktask k i)) && negb (state_is (t_state (ktask k i)) TASK_TERMINATED) && (strcmp (t_name (ktask k i)) (lit name) =? 0)
  end.

Definition live_driver (k : kernel_t) (service task : string) : Z * kernel_t :=
  let '(pid, k) := lookup_service k service in
  if pid <=? 0 then (0, k) else if runs_as k pid task then (pid, k) else (0, k).

Definition pci_live_driver (k : kernel_t) : Z * kernel_t := live_driver k "pci-driver" "pcidriver".

Definition device_service_name (dev : Z) : string :=
  if dev =? DEV_PS2 then "ps2-driver" else if dev =? DEV_VGA then "vga-driver" else if dev =? DEV_USB then "usb-driver" else "serial-driver".
Definition device_task_name (dev : Z) : string :=
  if dev =? DEV_PS2 then "ps2driver" else if dev =? DEV_VGA then "vgadriver" else if dev =? DEV_USB then "usbdriver" else "serialdriver".
Definition device_live_driver (k : kernel_t) (dev : Z) : Z * kernel_t := live_driver k (device_service_name dev) (device_task_name dev).

Definition device_owner_alive (k : kernel_t) (d : devsvc_t) (dev : Z) : bool :=
  let pid := devsvc_owner d dev in
  if pid <=? 0 then false else runs_as k pid (device_task_name dev).

Definition ata_live_driver (k : kernel_t) : Z * kernel_t :=
  let '(pid, k) := lookup_service k "ata-driver" in (if 0 <? pid then pid else 0, k).

(** ** The switch *)

(** The seven [tss_set_*_io] calls of [schedule] for the task [i]. *)
Definition switch_ports (m : machine_t) (i : nat) : option machine_t :=
  let user := is_user (t_type (ktask (m_k m) i)) in
  let id := t_id (ktask (m_k m) i) in
  let '(grant, ata) := if user && c_true (service_registry_ata_ports_granted (T := task_view (k_tasks (m_k m))) (k_registry (m_k m)) id)
                       then ata_owner_ports_open (m_ata m) id id else (0, m_ata m) in
  t ← tss_set_ata_io (m_tss m) grant;
  let '(pci, k) := if user then pci_live_driver (m_k m) else (0, m_k m) in
  t ← tss_set_pci_io t (b2z (user && (pci =? id)));
  t ← tss_set_ps2_io t (b2z (user && (devsvc_owner (m_dev m) DEV_PS2 =? id)));
  t ← tss_set_serial_io t (b2z (user && (devsvc_owner (m_dev m) DEV_SERIAL =? id)));
  t ← tss_set_vga_io t (b2z (user && (devsvc_owner (m_dev m) DEV_VGA =? id)));
  t ← tss_set_usb_io t (b2z (user && (devsvc_owner (m_dev m) DEV_USB =? id))) (m_usb_io_base m);
  let '(worker, k) := if user && negb (nic_owner_pid (m_nic m) =? 0) then lookup_service k "net-driver" else (0, k) in
  t ← tss_set_nic_io t (b2z (user && negb (nic_owner_pid (m_nic m) =? 0) && c_true (nic_owner_ports_open (m_nic m) id worker)));
  Some (mk_machine k t ata (m_dev m) (m_nic m) (m_usb_io_base m)).

(** [schedule] with the ports of the task it gives the processor to. *)
Definition schedule_with_ports (vmm_pool : nat -> Z) (hook : ptr (Z -> kernel_t -> kernel_t)) (m : machine_t) (now : Z) : option (sched_result * machine_t) :=
  let '(res, k) := schedule vmm_pool hook (m_k m) now in
  match res with
  | SchedJumps i => m ← switch_ports (with_k m k) i; Some (res, m)
  | _ => Some (res, with_k m k)
  end.

(** ** Claims *)

(** The running task, when it is a user task. *)
Definition running_user (m : machine_t) : option Z :=
  i ← current_task (k_tasks (m_k m));
  if is_user (t_type (ktask (m_k m) i)) then Some (t_id (ktask (m_k m) i)) else None.

(** OS_PCI_OP_CLAIM of [sys_pci_service]. *)
Definition sys_pci_claim (m : machine_t) : option (Z * machine_t) :=
  match running_user m with
  | None => Some (OS_PCI_DENIED, m)
  | Some pid =>
      let '(live, k) := pci_live_driver (m_k m) in
      let m := with_k m k in
      if negb (live =? pid) then Some (OS_PCI_DENIED, m)
      else t ← tss_set_pci_io (m_tss m) 1; Some (0, with_tss m t)
  end.

(** OS_DEV_OP_PS2_CLAIM of [sys_device_service]. *)
Definition sys_ps2_claim (m : machine_t) : option (Z * machine_t) :=
  match running_user m with
  | None => Some (OS_DEV_DENIED, m)
  | Some pid =>
      let '(live, k) := device_live_driver (m_k m) DEV_PS2 in
      let m := with_k m k in
      if negb (live =? pid) then Some (OS_DEV_DENIED, m)
      else
        let m := with_svc m (devsvc_set_owner (m_dev m) DEV_PS2 pid) in
        t ← tss_set_ps2_io (m_tss m) 1; Some (0, with_tss m t)
  end.

(** OS_DEV_OP_SERIAL_CLAIM, without the message it prints. *)
Definition sys_serial_claim (m : machine_t) : option (Z * machine_t) :=
  match running_user m with
  | None => Some (OS_DEV_DENIED, m)
  | Some pid =>
      let '(live, k) := device_live_driver (m_k m) DEV_SERIAL in
      let m := with_k m k in
      if negb (live =? pid) then Some (OS_DEV_DENIED, m)
      else
        t ← tss_set_serial_io (m_tss m) 1;
        let m := with_tss m t in
        Some (0, with_svc m (devsvc_set_owner (m_dev m) DEV_SERIAL pid))
  end.

Definition sys_ata_claim (m : machine_t) : option (Z * machine_t) :=
  match running_user m with
  | None => Some (OS_ATA_DRIVER_REQUIRED, m)
  | Some pid =>
      let '(live, k) := ata_live_driver (m_k m) in
      let '(rc, ata) := ata_owner_claim (m_ata m) pid live in
      let m := with_ata (with_k m k) ata in
      if rc =? 0 then t ← tss_set_ata_io (m_tss m) 1; Some (rc, with_tss m t) else Some (rc, m)
  end.

Definition sys_ata_release (m : machine_t) : option (Z * machine_t) :=
  match running_user m with
  | None => Some (OS_ATA_DRIVER_REQUIRED, m)
  | Some pid =>
      let '(rc, ata) := ata_owner_release (m_ata m) pid in
      let m := with_ata m ata in
      t ← tss_set_ata_io (m_tss m) 0; Some (rc, with_tss m t)
  end.
End Ports.
Arguments machine_t : clear implicits.

(** * Only the owner of a device reaches its ports

    [switch_ports_exact] (used for [schedule_isolates_ports]) says which ports Ring 3 may
    use after a switch; [claim_opens_own_ports] what a driver's claim adds. *)

Section Isolation.
Context {J : Type}.
Implicit Types (m : machine_t J).

(** The device of the window of [p] belongs to the user task [i]. *)
Definition entitled m (i : nat) (p : Z) : Prop :=
  let k := m_k m in
  let id := t_id (ktask k i) in
  is_user (t_type (ktask k i)) = true /\
  ( (p ∈ ata_ports /\ service_registry_ata_ports_granted (T := task_view (k_tasks k)) (k_registry k) id <> 0 /\ g_claim_pid (m_ata m) = id)
  \/ (p ∈ pci_ports /\ fst (pci_live_driver k) = id)
  \/ (p ∈ ps2_ports /\ devsvc_owner (m_dev m) DEV_PS2 = id)
  \/ (p ∈ serial_ports /\ devsvc_owner (m_dev m) DEV_SERIAL = id)
  \/ (p ∈ vga_ports /\ devsvc_owner (m_dev m) DEV_VGA = id)
  \/ (p ∈ usb_ports (m_usb_io_base m) /\ m_usb_io_base m <> 0 /\ devsvc_owner (m_dev m) DEV_USB = id)
  \/ (p ∈ ne2k_ports /\ nic_owner_pid (m_nic m) = id /\ fst (lookup_service (snd (pci_live_driver k)) "net-driver") = id) ).

(** The seven grants the switch computes. *)
Definition switch_grants m (i : nat) : list bool :=
  let k := m_k m in
  let id := t_id (ktask k i) in
  map (andb (is_user (t_type (ktask k i))))
    [ c_true (service_registry_ata_ports_granted (T := task_view (k_tasks k)) (k_registry k) id) && (g_claim_pid (m_ata m) =? id);
      fst (pci_live_driver k) =? id; devsvc_owner (m_dev m) DEV_PS2 =? id; devsvc_owner (m_dev m) DEV_SERIAL =? id; devsvc_owner (m_dev m) DEV_VGA =? id;
      (devsvc_owner (m_dev m) DEV_USB =? id) && c_true (m_usb_io_base m);
      (nic_owner_pid (m_nic m) =? id) && (fst (lookup_service (snd (pci_live_driver k)) "net-driver") =? id) ].

Lemma seven_grants t (a b c d e f g : Z) : <[6%nat := g]> (<[5%nat := f]> (<[4%nat := e]> (<[3%nat := d]> (<[2%nat := c]> (<[1%nat := b]> (<[0%nat := a]> (grants t))))))) = [a; b; c; d; e; f; g].
Proof. done. Qed.

Lemma b2z_true (b : bool) : c_true (b2z b) = b.
Proof. by destruct b. Qed.

Lemma ata_open_answer (a : ata_t J) id : 0 < id -> fst (ata_owner_ports_open a id id) = b2z (g_claim_pid a =? id).
Proof.
  intros Hid. unfold ata_owner_ports_open, ata_owner_holder. rewrite (proj2 (Z.ltb_lt 0 id)), Z.eqb_refl by done. cbn [andb].
  rewrite (proj2 (Z.leb_gt id 0)) by lia. cbn [orb]. destruct (Z.eqb_spec (g_claim_pid a) 0) as [E|E]; cbn [negb andb fst g_claim_pid]; [done|].
  destruct (Z.eqb_spec (g_claim_pid a) id) as [E2|E2]; cbn [negb andb fst g_claim_pid set_claim]; [by rewrite E2, Z.eqb_refl|]. f_equal. apply Z.eqb_neq. lia.
Qed.

Lemma switch_grants_spec m i : tss_ok (m_tss m) -> usb_clear (m_usb_io_base m) -> (is_user (t_type (ktask (m_k m) i)) = true -> 0 < t_id (ktask (m_k m) i)) ->
  exists m', switch_ports m i = Some m' /\ tss_ok (m_tss m') /\ grants (m_tss m') = map b2z (switch_grants m i)
    /\ (g_tss_usb_granted (m_tss m') = 1 -> g_tss_usb_base (m_tss m') = m_usb_io_base m).
Proof.
  intros Ht Hu Hid. unfold switch_ports, switch_grants. cbv zeta. set (user := is_user _) in *. set (id := t_id _) in *.
  set (granted := c_true (service_registry_ata_ports_granted _ _)).
  assert (Ha : exists a, (if user && granted then ata_owner_ports_open (m_ata m) id id else (0, m_ata m)) = (b2z (user && (granted && (g_claim_pid (m_ata m) =? id))), a)).
  { destruct user, granted; cbn [andb]; try by eexists. pose proof (ata_open_answer (m_ata m) id (Hid eq_refl)) as E.
    destruct (ata_owner_ports_open (m_ata m) id id) as [g a]. cbn [fst] in E. subst g. by eexists. }
  destruct Ha as [a ->]. destruct (set_ata_ok (m_tss m) (b2z (user && (granted && (g_claim_pid (m_ata m) =? id)))) Ht) as (t1 & -> & H1 & G1 & B1). rewrite some_bind.
  set (pci := fst (pci_live_driver (m_k m))). set (kp := snd (pci_live_driver (m_k m))).
  assert (Hp : exists k p, (if user then pci_live_driver (m_k m) else (0, m_k m)) = (p, k) /\ (user = true -> p = pci /\ k = kp)).
  { subst pci kp. destruct user; [|by eexists _, _]. destruct (pci_live_driver (m_k m)) as [p k]. by exists k, p. }
  destruct Hp as (k & p & -> & Hp). destruct (set_pci_ok t1 (b2z (user && (p =? id))) H1) as (t2 & -> & H2 & G2 & B2). rewrite some_bind.
  destruct (set_ps2_ok t2 (b2z (user && (devsvc_owner (m_dev m) DEV_PS2 =? id))) H2) as (t3 & -> & H3 & G3 & B3). rewrite some_bind.
  destruct (set_serial_ok t3 (b2z (user && (devsvc_owner (m_dev m) DEV_SERIAL =? id))) H3) as (t4 & -> & H4 & G4 & B4). rewrite some_bind.
  destruct (set_vga_ok t4 (b2z (user && (devsvc_owner (m_dev m) DEV_VGA =? id))) H4) as (t5 & -> & H5 & G5 & B5). rewrite some_bind.
  destruct (set_usb_ok t5 (b2z (user && (devsvc_owner (m_dev m) DEV_USB =? id))) (m_usb_io_base m) H5 Hu) as (t6 & -> & H6 & G6 & B6). rewrite some_bind.
  set (worker := fst (lookup_service kp "net-driver")).
  assert (Hn : exists k' w, (if user && negb (nic_owner_pid (m_nic m) =? 0) then lookup_service k "net-driver" else (0, k)) = (w, k') /\
    (user = true -> nic_owner_pid (m_nic m) <> 0 -> w = worker)).
  { subst worker. destruct user; cbn [andb]; [|by eexists _, _]. destruct (Hp eq_refl) as [_ ->]. destruct (Z.eqb_spec (nic_owner_pid (m_nic m)) 0); cbn [negb]; [by eexists _, _|].
    destruct (lookup_service kp "net-driver") as [w k']. by exists k', w. }
  destruct Hn as (k' & w & -> & Hw).
  destruct (set_nic_ok t6 (b2z (user && negb (nic_owner_pid (m_nic m) =? 0) && c_true (nic_owner_ports_open (m_nic m) id w))) H6) as (t7 & -> & H7 & G7 & B7).
  rewrite some_bind. eexists. split; [done|]. cbn [m_tss]. split; [done|]. rewrite !b2z_true in *. split.
  - rewrite G7, G6, G5, G4, G3, G2, G1, seven_grants. cbn [map]. unfold nic_owner_ports_open, nic_owner_pid in *. rewrite !b2z_true.
    destruct user; cbn [andb]; [|done]. destruct (Hp eq_refl) as [-> _]. specialize (Hid eq_refl).
    assert (En : negb (g_owner (m_nic m) =? 0) && ((0 <? g_owner (m_nic m)) && (id =? g_owner (m_nic m)) && (g_owner (m_nic m) =? w)) = (g_owner (m_nic m) =? id) && (worker =? id)).
    { destruct (Z.eqb_spec (g_owner (m_nic m)) id) as [E|E].
      - rewrite E, (proj2 (Z.eqb_neq id 0)), (proj2 (Z.ltb_lt 0 id)), Z.eqb_refl by lia. cbn [negb andb]. rewrite (Hw eq_refl) by lia. apply Z.eqb_sym.
      - rewrite (Z.eqb_sym id), (proj2 (Z.eqb_neq (g_owner (m_nic m)) id)) by done. by rewrite !andb_false_r. }
    by rewrite En.
  - intros Hg. rewrite B7. apply B6. unfold grants in G7. cbn in G7. injection G7 as _ _ _ _ _ E _. congruence.
Qed.

Lemma b2z_is_one (b : bool) : (b2z b =? 1) = b.
Proof. by destruct b. Qed.

Lemma entitled_opened m i t : grants t = map b2z (switch_grants m i) -> (g_tss_usb_granted t = 1 -> g_tss_usb_base t = m_usb_io_base m) ->
  forall p, opened t p = true <-> entitled m i p.
Proof.
  intros G B p. unfold switch_grants in G. cbv zeta in G. unfold entitled. cbv zeta. set (user := is_user _) in *. set (id := t_id _) in *.
  unfold grants in G. cbn [map] in G. injection G as E1 E2 E3 E4 E5 E6 E7. rewrite E6 in B. unfold opened. rewrite E1, E2, E3, E4, E5, E6, E7, !b2z_is_one.
  unfold inside, c_true. destruct user; cbn [andb]; [|split; [done|by intros [? _]]].
  assert (Hu : ((devsvc_owner (m_dev m) DEV_USB =? id) && negb (m_usb_io_base m =? 0) && bool_decide (p ∈ usb_ports (g_tss_usb_base t)))
    = ((devsvc_owner (m_dev m) DEV_USB =? id) && negb (m_usb_io_base m =? 0) && bool_decide (p ∈ usb_ports (m_usb_io_base m)))).
  { destruct ((devsvc_owner (m_dev m) DEV_USB =? id) && negb (m_usb_io_base m =? 0)) eqn:E; cbn [andb]; [|done]. rewrite B; [done|]. unfold c_true. cbn [andb]. by rewrite E. }
  rewrite Hu. rewrite !orb_true_iff, !andb_true_iff, !bool_decide_eq_true, !negb_true_iff, !Z.eqb_neq, !Z.eqb_eq. tauto.
Qed.

(** After the switch to the task [i], exactly the ports of its devices are open. *)
Lemma switch_ports_exact m i : tss_ok (m_tss m) -> usb_clear (m_usb_io_base m) -> (is_user (t_type (ktask (m_k m) i)) = true -> 0 < t_id (ktask (m_k m) i)) ->
  exists m', switch_ports m i = Some m' /\ tss_ok (m_tss m') /\
    forall p, is_port p -> io_bitmap_port_allowed (Some (tss_bitmap (m_tss m'))) TSS_IO_BITMAP_BYTES p = Some 1 <-> entitled m i p.
Proof.
  intros Ht Hu Hid. destruct (switch_grants_spec m i Ht Hu Hid) as (m' & E & Hok & G & B). exists m'. split; [done|]. split; [done|]. intros p Hp.
  change TSS_IO_BITMAP_BYTES with 8192. rewrite (allowed_open _ p (tok_bitmap _ Hok) Hp), (tok_open _ Hok p Hp), <- (entitled_opened m i _ G B p).
  by destruct (opened (m_tss m') p).
Qed.

(** C7. Port isolation: whatever task the scheduler gives the processor to, the I/O bitmap
    then lets Ring 3 use a port if and only if that task is a user task that owns the
    device of the port's window: it holds the claim and the right on the ATA controller,
    is the live PCI driver, the owner of PS/2, COM1, the VGA console or the USB controller,
    or the owner of the network card and still the live network worker. *)
Theorem schedule_isolates_ports pool hook m now : tss_ok (m_tss m) -> usb_clear (m_usb_io_base m) ->
  let '(res, k) := schedule pool hook (m_k m) now in
  (forall i, is_user (t_type (ktask k i)) = true -> 0 < t_id (ktask k i)) ->
  exists m', schedule_with_ports pool hook m now = Some (res, m') /\ tss_ok (m_tss m') /\
    match res with
    | SchedJumps i => forall p, is_port p -> io_bitmap_port_allowed (Some (tss_bitmap (m_tss m'))) TSS_IO_BITMAP_BYTES p = Some 1 <-> entitled (with_k m k) i p
    | _ => m_tss m' = m_tss m
    end.
Proof.
  intros Ht Hu. unfold schedule_with_ports. destruct (schedule pool hook (m_k m) now) as [res k]. intros Hid. destruct res as [| |i].
  - by exists (with_k m k).
  - by exists (with_k m k).
  - destruct (switch_ports_exact (with_k m k) i) as (m' & -> & Hok & Hp); [done|done|apply Hid|]. rewrite some_bind. by exists m'.
Qed.

(** The window of a setter. *)
Definition window (k : nat) : list Z := nth k [ata_ports; pci_ports; ps2_ports; serial_ports; vga_ports; []; ne2k_ports] [].

Lemma set_opens k set t : sets k set -> k <> 5%nat -> (k < 7)%nat -> tss_ok t ->
  exists t', set t 1 = Some t' /\ tss_ok t' /\ forall p, opened t' p = opened t p || inside p (window k).
Proof.
  intros Hs H5 H7 Ht. destruct (Hs t 1 Ht) as (t' & E & Hok & G & B). exists t'. split; [done|]. split; [done|]. intros p. unfold opened. rewrite B. clear - G H5 H7.
  unfold grants in G. destruct k as [|[|[|[|[|[|[|k]]]]]]]; try lia; cbn in G; injection G as E1 E2 E3 E4 E5 E6 E7; rewrite E1, E2, E3, E4, E5, E6, E7; cbn [window nth Z.eqb Pos.eqb andb];
    repeat match goal with |- context [inside p ?w] => destruct (inside p w) end; rewrite ?andb_true_r, ?andb_false_r, ?orb_true_r, ?orb_false_r; cbn [orb]; rewrite ?orb_true_r; done.
Qed.

(** Driver claims: the call, the driver it serves and the setter it uses. *)
Definition claims m : list ((machine_t J -> option (Z * machine_t J)) * Z * nat) :=
  [(sys_pci_claim, fst (pci_live_driver (m_k m)), 1%nat); (sys_ps2_claim, fst (device_live_driver (m_k m) DEV_PS2), 2%nat);
   (sys_serial_claim, fst (device_live_driver (m_k m) DEV_SERIAL), 3%nat)].

(** The claim was refused: the task segment is what it was. *)
Ltac by_refusal Hno :=
  let H1 := fresh in let H2 := fresh in
  match goal with |- exists rc m', Some (?r, ?n) = _ /\ _ =>
    exists r, n; destruct (Hno n r) as [H1 H2]; [done|done|]; split; [done|]; split; [done|]; split; [split; [done|congruence]|done] end.

(** The caller is the live driver or it is not. *)
Ltac by_claim look set_ok Ht Hyes Hno :=
  let live := fresh "live" in let k := fresh "k" in let t' := fresh "t'" in let E := fresh "E" in let Hok := fresh "Hok" in let Ho := fresh "Ho" in
  destruct look as [live k]; cbn [fst];
  match goal with |- context [negb (live =? ?pid)] => destruct (Z.eqb_spec live pid) as [->|?]; cbn [negb] end;
  [destruct (set_opens _ _ _ set_ok ltac:(done) ltac:(lia) Ht) as (t' & E & Hok & Ho); cbn [m_tss with_k with_svc]; rewrite E, some_bind;
   eexists _, _; split; [done|]; split; [done|]; split; [done|]; by apply Hyes
  |by_refusal Hno].

(** A claim succeeds exactly for the live driver while it runs, and then opens the window
    of its device and no other port; a refused claim opens nothing. *)
Lemma claim_opens_own_ports m claim live w : (claim, live, w) ∈ claims m -> tss_ok (m_tss m) ->
  exists rc m', claim m = Some (rc, m') /\ tss_ok (m_tss m') /\ (rc = 0 <-> running_user m = Some live) /\
    forall p, is_port p -> open_in (tss_bitmap (m_tss m')) p = open_in (tss_bitmap (m_tss m)) p || (bool_decide (rc = 0) && inside p (window w)).
Proof.
  intros Hin Ht. unfold claims in Hin. rewrite !elem_of_cons, elem_of_nil in Hin.
  assert (Hno : forall m' (rc : Z), m_tss m' = m_tss m -> rc <> 0 -> tss_ok (m_tss m') /\
    forall p, is_port p -> open_in (tss_bitmap (m_tss m')) p = open_in (tss_bitmap (m_tss m)) p || (bool_decide (rc = 0) && inside p (window w))).
  { intros m' rc -> Hrc. split; [done|]. intros p Hp. rewrite bool_decide_eq_false_2 by done. by rewrite orb_false_r. }
  assert (Hyes : forall t', tss_ok t' -> (forall p, opened t' p = opened (m_tss m) p || inside p (window w)) ->
    forall p, is_port p -> open_in (tss_bitmap t') p = open_in (tss_bitmap (m_tss m)) p || (bool_decide (0 = 0) && inside p (window w))).
  { intros t' Hok Ho p Hp. by rewrite (tok_open t' Hok), (tok_open _ Ht), Ho by done. }
  destruct Hin as [[= -> -> ->]|[[= -> -> ->]|[[= -> -> ->]|[]]]]; unfold sys_pci_claim, sys_ps2_claim, sys_serial_claim; destruct (running_user m) as [pid|].
  - by_claim (pci_live_driver (m_k m)) set_pci_ok Ht Hyes Hno.
  - by_refusal Hno.
  - by_claim (device_live_driver (m_k m) DEV_PS2) set_ps2_ok Ht Hyes Hno.
  - by_refusal Hno.
  - by_claim (device_live_driver (m_k m) DEV_SERIAL) set_serial_ok Ht Hyes Hno.
  - by_refusal Hno.
Qed.
End Isolation.

(** * A machine whose shell owns the PS/2 controller

    Witness: the scheduler gives the processor to the shell, which may
    then use port 0x60 and not COM1. *)

Definition demo_ata : ata_t unit :=
  mk_ata unit None None 0 (mk_image [] 0 0 0 0 0 0 0 0) (mk_sector 0 0 0 0 0 0 [] 0) 0 0 0 0 0 0 0 (fun _ => 0).
Definition demo_tss : tss_t := default (mk_tss [] 0 0 0 0 0 0 0 0) (tss_init (mk_tss [] 0 0 0 0 0 0 0 0)).
Definition demo_machine : machine_t unit :=
  mk_machine demo_kernel demo_tss demo_ata (devsvc_set_owner devsvc_reset DEV_PS2 1) nic_owner_init 49152.

Lemma demo_tss_ok : tss_ok demo_tss.
Proof. unfold demo_tss. destruct (tss_init_ok (mk_tss [] 0 0 0 0 0 0 0 0)) as (t & -> & Ht & _). exact Ht. Qed.

Lemma demo_usb_clear : usb_clear 49152.
Proof. unfold usb_clear. apply (bool_decide_unpack _). by vm_compute. Qed.

(** Every user task of a pool has a positive PID. *)
Lemma pids_positive k : forallb (fun t => negb (is_user (t_type t)) || (0 <? t_id t)) (task_static_pool (k_tasks k)) = true ->
  forall i, is_user (t_type (ktask k i)) = true -> 0 < t_id (ktask k i).
Proof.
  intros H i. unfold ktask, task_at. rewrite list_lookup_total_alt. destruct (task_static_pool (k_tasks k) !! i) as [t|] eqn:E; cbn [default from_option id]; [|done].
  rewrite forallb_forall in H. assert (Ht : In t (task_static_pool (k_tasks k))) by (apply list_elem_of_In, list_elem_of_lookup; by exists i).
  specialize (H t Ht). intros Hu. rewrite Hu in H. cbn in H. by apply Z.ltb_lt.
Qed.

Lemma schedule_isolates_ports_witness : exists m', schedule_with_ports demo_stacks (Some ata_rpc_sched_hook) demo_machine 10 = Some (SchedJumps 1, m') /\
  io_bitmap_port_allowed (Some (tss_bitmap (m_tss m'))) TSS_IO_BITMAP_BYTES 96 = Some 1 /\
  io_bitmap_port_allowed (Some (tss_bitmap (m_tss m'))) TSS_IO_BITMAP_BYTES 1016 <> Some 1.
Proof.
  pose proof (schedule_isolates_ports demo_stacks (Some ata_rpc_sched_hook) demo_machine 10 demo_tss_ok demo_usb_clear) as H.
  change (m_k demo_machine) with demo_kernel in H. destruct (schedule demo_stacks (Some ata_rpc_sched_hook) demo_kernel 10) as [res k] eqn:E.
  assert (Er : res = SchedJumps 1) by (change res with (fst (res, k)); rewrite <- E; by vm_compute).
  assert (Ek : k = demo_started) by (unfold demo_started; by rewrite E). subst res k. clear E.
  destruct H as (m' & E & _ & Hp); [by apply pids_positive; vm_compute|]. exists m'. split; [exact E|]. split.
  - apply Hp; [unfold is_port; lia|]. split; [by vm_compute|]. right. right. left. split; [apply (bool_decide_unpack _); by vm_compute|by vm_compute].
  - intros Ha. apply Hp in Ha; [|unfold is_port; lia]. destruct Ha as [_ Ha].
    assert (Hn : forall w : list Z, bool_decide (1016 ∈ w) = false -> ~ (1016 ∈ w)) by (intros w Hw; by apply (bool_decide_eq_false _) in Hw).
    destruct Ha as [[Ha _]|[[Ha _]|[[Ha _]|[[_ Ha]|[[Ha _]|[[Ha _]|[Ha _]]]]]]]; try (revert Ha; apply Hn; by vm_compute). by vm_compute in Ha.
Defined.
